(* ===== verification/_CoqProject ===== *)
-Q . S2P
Prelude.v
Lists.v
Memory.v
Layout.v
BuddyInv.v
BuddyAlloc.v
BuddySpec.v
BuddyInit.v
PageIface.v
Startup.v
PageAllocator.v
Slab.v
SlabInv.v
SlabAlloc.v
SlabFree.v
SlabHeap.v
ByteAllocator.v
Fdt.v
FdtStream.v
FdtWalk.v
FdtTree.v
FdtRegions.v
DeviceTree.v
MemoryInit.v
Boot.v
Task.v
Sched.v
Wait.v
Thread.v
HeapIface.v
HeapLink.v
SchedRep.v
SchedLists.v
WaitLists.v
ThreadInv.v
SchedOps.v
WaitOps.v
ThreadNew.v
ThreadExit.v
ThreadReap.v
ThreadLoops.v
SchedHistory.v
SchedSpec.v
SchedView.v
Scheduler.v
WaitQueues.v
Threads.v
Ring.v
Str.v
Cpio.v
CpioSpec.v
Archive.v
Irq.v
Trace.v
Work.v
Timer.v
TimerOps.v
TimerRun.v
Interrupts.v
Uart.v
UartInv.v
UartHistory.v
UartProps.v
UartPoll.v
Serial.v
BottomHalf.v
Exec.v
Loader.v
Launch.v
Programs.v
Syscall.v
UserIO.v
Fork.v
Ecall.v
Trap.v
Shell.v
ShellProps.v
Bootloader.v
Platform.v
BootProps.v
