(* ===== verification/Prelude.v ===== *)
(** * The orange kernel: a verification library

    This library models the kernel under [src/kernel/] (a small RISC-V
    supervisor-mode kernel: physical memory, a byte allocator, a device-tree
    parser, threads, wait queues, timers, an interrupt-driven serial port, a
    program loader and system calls) and the boot loader under
    [src/bootloader/], and proves that they do what their callers rely on.  The
    models are executable translations of the C functions, one definition per
    function; every theorem is about those definitions.

    ** How a C function is modelled

    A function over a component state [S] is a value of [M S A] (below): it
    returns a result and the new state, or [None] where the C program would
    have no defined behaviour (an access outside an array, a null or dangling
    pointer, a byte given to a busy transmitter) and where a loop would not end.
    [wp m Q s] says that [m] returns from [s] and the result satisfies [Q]; a
    [wp] is therefore a statement of total correctness and of memory safety.
    Integers are [Z]; [u8] ... [u64] and [i16] ... [i64] are written wherever C
    converts or unsigned arithmetic can wrap.  Structures are records with the
    fields of the source; an array of structures is a list or a finite map from
    its index or address, and a pointer is the index or address, so that
    aliasing is the aliasing of the code.  Memory that is read and written byte
    by byte (archives, program images, user stacks, strings) is a map from
    addresses to bytes ([Str]); an unmapped address is an undefined access.

    Loops run on fuel.  Loops over data compute it from the state (the length of
    the list or the size of the object pool walked, plus one), loops of [n]
    rounds run [n] times, and every theorem shows that this is enough.  Loops
    that wait for the serial line take the fuel as an argument; the theorems ask
    that it covers the longest wait in the given environment (the line becomes
    ready, or the bytes arrive, within that many looks at the status register)
    and show that the functions then return.

    The environment of the serial line is a sequence of events, one for each
    look at the status register: the bytes that arrived, whether the transmitter
    has become ready, the other bits.  The theorems hold for every such
    sequence, or for every one that becomes ready again and again.

    ** The parts of the program and the files that model them

    - Physical pages, [memory.c]: [Memory] (every function of the file except
      [memory_init] and [memory_get_stats]).  The frame layout is in [Layout],
      the invariant of the free lists and its elementary steps in [BuddyInv],
      allocation and release in [BuddyAlloc], the abstract page-set contract and
      the free counts in [BuddySpec], the boot path in [BuddyInit] and
      [Startup].  [PageAllocator] states the theorems.  [PageIface] is the
      interface (a class of operations with laws) through which [slab.c] sees
      the page allocator, with the instance that discharges the laws.
    - Byte allocator, [slab.c] (and [memory_get_stats]): [Slab]; invariant
      [SlabInv]; [SlabAlloc], [SlabFree], [SlabHeap]; theorems in
      [ByteAllocator].  [HeapIface] is the interface the thread and timer code
      uses and [HeapLink] the proof that the byte allocator implements it.
    - Device tree, [fdt.c]: [Fdt]; the token stream and the header check
      [FdtStream], the node walk [FdtWalk], the abstract tree [FdtTree] the
      functions are specified against, regions and device queries in
      [FdtRegions]; theorems in [DeviceTree].
    - Boot of the memory system, [memory_init] of [memory.c]: [MemoryInit],
      theorem in [Boot].  It composes the three components above.
    - Threads: the data ([thread.h], [wait.h], [trap.h], [irqflags.h]) is in
      [Task]; [sched.c] with [switch_to.S] in [Sched]; [wait.c] in [Wait];
      [thread.c] and the scheduling-related functions of [user.c] in [Thread].
      [SchedRep] relates the pointer structure to lists, [SchedLists] and
      [WaitLists] treat the list operations, [ThreadInv] is the invariant, and
      [SchedOps], [WaitOps], [ThreadNew], [ThreadExit], [ThreadReap],
      [ThreadLoops] the operations.  [SchedHistory] runs arbitrary histories
      of operations, [SchedSpec] has the abstract schedule, [SchedView]
      executable views and a small running system for the examples.
      Theorems: [Scheduler], [WaitQueues], [Threads].
    - Strings and archives: [string.c] in [Str], with areas of memory; [cpio.c]
      in [Cpio], with the format and a reference parser in [CpioSpec]; theorems
      in [Archive].
    - Rings, trace, deferred work, timers: [ringbuf.c] in [Ring].  [Irq] has the
      state of the kernel beside the scheduler's ([ksys]); [trace.c] in [Trace],
      [custom_work.c] and the pending bits of [bottom_half.c] in [Work],
      [timer.c] in [Timer] with its queue and the operations in [TimerOps] and
      the bottom half and shutdown in [TimerRun].  Theorems in [Interrupts].
    - Serial port and interrupt controller, [uart.c] and [plic.c]: [Uart].
      [UartInv] gives the meaning of the rings and registers and the elementary
      steps, [UartHistory] arbitrary histories of interrupts, bottom halves and
      calls, [UartProps] the properties of the line they refine, [UartPoll] the
      loops that wait and printing, which is proved against an interface for
      senders (class [Sender]).  Theorems in [Serial].  [BottomHalf] has the
      dispatcher of [bottom_half.c].
    - Programs, [exec.c]: [Exec]; loading in [Loader], batches in [Launch],
      theorems in [Programs].
    - System calls, [syscall.c]: [Syscall]; the console calls and user buffers in
      [UserIO] (the console is an interface, class [UserConsole]), [sys_fork] in
      [Fork], the dispatcher in [Ecall].
    - Traps, [trap.c]: [Trap], which connects the interrupt handlers, the timer,
      the serial port and the system calls.
    - Start of the kernel, [platform.c] and parts of [kernel.c]: [Platform].
    - Command line, the text functions of both [shell.c]: [Shell], correctness in
      [ShellProps], for any state with memory and any terminal (class
      [Terminal]).
    - Boot loader, [src/bootloader/]: [Bootloader], theorems in [BootProps], with
      the encoder of [tools/uart_load.py] and a reference decoder.
    [Lists] has the linked lists and circular arrays that the components share.

    ** What the theorems show

    - [PageAllocator]: [p_alloc] and [p_free] implement a set of free pages
      (smallest sufficient block, failure only when there is none, full
      coalescing, stray frees ignored); live blocks are disjoint and never
      reserved after any history.
    - [ByteAllocator]: [kmalloc] returns fresh aligned memory and [kfree]
      releases it for small and large sizes; live ranges are disjoint after
      any history and their contents survive.
    - [DeviceTree]: every function of the parser terminates inside the blob on
      every input that is readable up to its claimed size; on well-formed
      trees the answers are those of the abstract tree.
    - [Boot]: [memory_init] ends with good allocators inside described RAM and
      with everything that must survive reserved.
    - [Scheduler], [WaitQueues], [Threads]: after any history every operation
      is safe and the lists agree with the thread states; scheduling is round
      robin; context switches restore the registers; wake-ups are neither lost
      nor duplicated; creation, exit, stopping and reclamation touch exactly
      the threads and the memory they should.
    - [Archive]: [cpio_iterate] agrees with a reference parser on arbitrary
      bytes and reads back what was encoded.
    - [Ring], [Interrupts]: the ring buffer is a bounded queue; the trace keeps
      the last 128 events; deferred callbacks run once each in order; timers
      fire once each when due, in bounded batches, with the hardware set to the
      earliest deadline.
    - [Serial], [BottomHalf]: any history of driver activity is a history of an
      abstract line; output and input keep their order and are lost only where
      the ring is full; whatever waits has an interrupt, a pending bit or a
      dispatcher that takes care of it; the waiting functions return, and so
      does the dispatcher of bottom halves with the driver's work once input
      stops arriving.
    - [Programs], [UserIO], [Fork], [Ecall], [Trap]: loading accepts exactly the
      programs that fit; a batch is launched completely or not at all; the
      console calls move exactly the bytes of a buffer as long as they are the
      process's; a fork is a copy with every register and stack word accounted
      for; every call number has exactly its effect, call by call, and ends
      exactly the threads it should; a fault ends exactly the thread that caused
      it; no user program, whatever it does, stops the kernel or breaks an
      invariant, and interrupts have exactly the effect of their handlers.
    - [Platform]: the platform data are well formed for every device tree; the
      greetings of the harts never mix and nobody waits for ever, whatever the
      interleaving; each hart that is started has a stack of its own.
    - [ShellProps], [BootProps]: times are parsed exactly; the boot loader accepts
      exactly the bundles of the host's tool, reports every error, and from any
      preceding dialogue a [load] with a bundle starts the kernel with kernel and
      archive in place and with bounds that the kernel accepts.

    ** Code outside the model

    Linker symbols, the build configuration, the time counter, the firmware's
    answers and the bodies of callbacks are arguments of the definitions.  The
    kernel after the greeting runs on one hart, and [local_irq_save] and
    [local_irq_restore] are modelled on the interrupt flag they change; an
    interrupt between two operations is another operation of the history.
    Console output is the bytes given to the serial port where a theorem speaks
    about it ([Trap], [UserIO], [BootProps]), and a log of the calls that print
    elsewhere.

    Not modelled: the assembly ([boot.S], [trap_entry.S], the inline assembly of
    [trap_init] and [user_enter_current_task]), whose meaning is that of the
    privileged architecture; [sbi.c], which only passes arguments to the
    firmware; the commands of the kernel's [shell.c] and the straight-line part
    of [kernel_main], which print and call the modelled components one after the
    other; demonstrations and self-tests ([demo.c], [demo_uart.c],
    [memory_test.c], [tests/]) and user programs ([kernel/user/]), which are
    clients of the system and promise nothing to it.
*)

From stdpp Require Export base gmap list sets strings.
From Stdlib Require Export ZArith Lia.

Open Scope Z_scope.

(** ** Machine integers

    A C integer is a [Z] kept inside its range by the conversions below;
    every conversion that the source performs (or that unsigned arithmetic
    performs implicitly) is written out. *)

Definition u8 (x : Z) : Z := x mod 2 ^ 8.
Definition u16 (x : Z) : Z := x mod 2 ^ 16.
Definition u32 (x : Z) : Z := x mod 2 ^ 32.
Definition u64 (x : Z) : Z := x mod 2 ^ 64.
Definition i16 (x : Z) : Z := (x + 2 ^ 15) mod 2 ^ 16 - 2 ^ 15.
Definition i32 (x : Z) : Z := (x + 2 ^ 31) mod 2 ^ 32 - 2 ^ 31.
Definition i64 (x : Z) : Z := (x + 2 ^ 63) mod 2 ^ 64 - 2 ^ 63.

Definition UINT64_MAX : Z := 2 ^ 64 - 1.
Definition UINT32_MAX : Z := 2 ^ 32 - 1.
Definition INT32_MAX : Z := 2 ^ 31 - 1.

(** [~x] on a 64-bit and on a 32-bit unsigned operand. *)
Definition not64 (x : Z) : Z := u64 (Z.lnot x).
Definition not32 (x : Z) : Z := u32 (Z.lnot x).

Lemma u8_id x : 0 <= x < 2 ^ 8 -> u8 x = x.
Proof. apply Z.mod_small. Qed.
Lemma u16_id x : 0 <= x < 2 ^ 16 -> u16 x = x.
Proof. apply Z.mod_small. Qed.
Lemma u32_id x : 0 <= x < 2 ^ 32 -> u32 x = x.
Proof. apply Z.mod_small. Qed.
Lemma u64_id x : 0 <= x < 2 ^ 64 -> u64 x = x.
Proof. apply Z.mod_small. Qed.
Lemma i16_id x : - 2 ^ 15 <= x < 2 ^ 15 -> i16 x = x.
Proof. unfold i16. intros. rewrite Z.mod_small; lia. Qed.
Lemma i32_id x : - 2 ^ 31 <= x < 2 ^ 31 -> i32 x = x.
Proof. unfold i32. intros. rewrite Z.mod_small; lia. Qed.
Lemma i64_id x : - 2 ^ 63 <= x < 2 ^ 63 -> i64 x = x.
Proof. unfold i64. intros. rewrite Z.mod_small; lia. Qed.

Lemma u8_range x : 0 <= u8 x < 2 ^ 8.
Proof. apply Z.mod_pos_bound. lia. Qed.
Lemma u32_range x : 0 <= u32 x < 2 ^ 32.
Proof. apply Z.mod_pos_bound. lia. Qed.
Lemma u64_range x : 0 <= u64 x < 2 ^ 64.
Proof. apply Z.mod_pos_bound. lia. Qed.

Create HintDb cint.
Create Rewrite HintDb cint.
#[export] Hint Rewrite u8_id u16_id u32_id u64_id i16_id i32_id i64_id using lia : cint.
#[export] Hint Resolve u8_range u32_range u64_range : cint.

(** *** Powers of two and masks *)

Lemma pow2_pos n : 0 <= n -> 0 < 2 ^ n.
Proof. intros. apply Z.pow_pos_nonneg; lia. Qed.

Lemma pow2_S n : 0 <= n -> 2 ^ (n + 1) = 2 * 2 ^ n.
Proof. intros. rewrite Z.pow_add_r by lia. lia. Qed.

Lemma pow2_mono a b : 0 <= a <= b -> 2 ^ a <= 2 ^ b.
Proof. intros. apply Z.pow_le_mono_r; lia. Qed.

Lemma pow2_mono_lt a b : 0 <= a < b -> 2 ^ a < 2 ^ b.
Proof. intros. apply Z.pow_lt_mono_r; lia. Qed.

Lemma shiftl_1 n : 0 <= n -> Z.shiftl 1 n = 2 ^ n.
Proof. intros. rewrite Z.shiftl_mul_pow2 by lia. lia. Qed.

Lemma land_pow2_mask x n : 0 <= n -> Z.land x (2 ^ n - 1) = x mod 2 ^ n.
Proof.
  intros. rewrite <- Z.land_ones by lia. f_equal.
  rewrite Z.ones_equiv. lia.
Qed.

(** [v & ~(a-1)] rounds [v] down to a multiple of the power of two [a]. *)
Lemma lor_shiftl_add x y k : 0 <= k -> 0 <= y < 2 ^ k -> Z.lor (Z.shiftl x k) y = x * 2 ^ k + y.
Proof.
  intros Hk Hy. rewrite Z.shiftl_mul_pow2 by done. symmetry. apply Z.add_nocarry_lor.
  replace y with (y mod 2 ^ k) by (apply Z.mod_small; lia). rewrite <- (Z.land_ones y) by done.
  rewrite <- (Z.shiftl_mul_pow2 x k) by done. apply Z.bits_inj'. intros n Hn.
  rewrite !Z.land_spec, Z.bits_0. destruct (Z.lt_ge_cases n k).
  - by rewrite Z.shiftl_spec_low.
  - rewrite Z.ones_spec_high by lia. by rewrite !andb_false_r.
Qed.

Lemma land_lnot_mask v k :
  0 <= k -> Z.land v (Z.lnot (2 ^ k - 1)) = v - v mod 2 ^ k.
Proof.
  intros Hk. rewrite <- Z.ldiff_land.
  replace (2 ^ k - 1) with (Z.ones k) by (rewrite Z.ones_equiv; lia).
  rewrite Z.ldiff_ones_r by lia.
  rewrite Z.shiftl_mul_pow2, Z.shiftr_div_pow2 by lia.
  pose proof (Z.div_mod v (2 ^ k)). pose proof (pow2_pos k Hk). lia.
Qed.

Lemma land_not64 v x : 0 <= v < 2 ^ 64 -> Z.land v (not64 x) = Z.land v (Z.lnot x).
Proof.
  intros Hv. unfold not64, u64. rewrite <- Z.land_ones by lia.
  rewrite (Z.land_comm (Z.lnot x)), Z.land_assoc, (Z.land_ones v) by lia.
  rewrite Z.mod_small by lia. done.
Qed.

Lemma land_not32 v x : 0 <= v < 2 ^ 32 -> Z.land v (not32 x) = Z.land v (Z.lnot x).
Proof.
  intros Hv. unfold not32, u32. rewrite <- Z.land_ones by lia.
  rewrite (Z.land_comm (Z.lnot x)), Z.land_assoc, (Z.land_ones v) by lia.
  rewrite Z.mod_small by lia. done.
Qed.

Lemma round_down_bounds v a : 0 < a -> 0 <= v -> 0 <= v - v mod a <= v /\ v - v mod a > v - a.
Proof.
  intros. pose proof (Z.mod_pos_bound v a). pose proof (Z.mod_le v a). lia.
Qed.

Lemma divide_round_down v a : 0 < a -> (a | v - v mod a).
Proof.
  intros. exists (v / a). pose proof (Z.div_mod v a). lia.
Qed.

Lemma divide_mod_0 a x : 0 < a -> (a | x) <-> x mod a = 0.
Proof. intros. symmetry. apply Z.mod_divide. lia. Qed.

(** Two multiples of [a] whose distance is below [a] coincide. *)
Lemma divide_between a x y : 0 < a -> (a | x) -> (a | y) -> x <= y < x + a -> y = x.
Proof. intros Ha [p ->] [q ->] H. assert (p = q) by nia. subst. lia. Qed.

(** Flipping the bit [2^k] of a multiple of [2^k] moves to the sibling block. *)
Lemma lxor_pow2_sibling x k :
  0 <= k -> 0 <= x -> (2 ^ k | x) ->
  Z.lxor x (2 ^ k) = (if (x / 2 ^ k) mod 2 =? 0 then x + 2 ^ k else x - 2 ^ k).
Proof.
  intros Hk Hx [q Hq]. pose proof (pow2_pos k Hk).
  assert (x / 2 ^ k = q) as -> by (subst x; apply Z.div_mul; lia).
  assert (Hlx : Z.lxor q 1 = if q mod 2 =? 0 then q + 1 else q - 1).
  { assert (0 <= q) by nia.
    rewrite (Z.div_mod q 2) at 1 by lia.
    destruct (Z.eqb_spec (q mod 2) 0) as [E|E].
    - rewrite E, Z.add_0_r. pose proof (Z.div_mod q 2). 
      rewrite <- (Z.add_nocarry_lxor (2 * (q / 2)) 1); [lia|].
      change 1 with (Z.ones 1). rewrite Z.land_ones by lia.
      change (2 ^ 1) with 2. rewrite Z.mul_comm. apply Z.mod_mul. lia.
    - assert (q mod 2 = 1) as E1 by (pose proof (Z.mod_pos_bound q 2); lia).
      rewrite E1. pose proof (Z.div_mod q 2).
      rewrite (Z.add_nocarry_lxor (2 * (q / 2)) 1).
      + rewrite Z.lxor_assoc, Z.lxor_nilpotent, Z.lxor_0_r. lia.
      + change 1 with (Z.ones 1). rewrite Z.land_ones by lia.
        change (2 ^ 1) with 2. rewrite Z.mul_comm. apply Z.mod_mul. lia. }
  replace x with (Z.shiftl q k) by (rewrite Z.shiftl_mul_pow2; lia).
  rewrite <- (Z.mul_1_l (2 ^ k)) at 1. rewrite <- Z.shiftl_mul_pow2 by lia.
  rewrite <- Z.shiftl_lxor, Hlx.
  destruct (Z.eqb_spec (q mod 2) 0); rewrite !Z.shiftl_mul_pow2 by lia; lia.
Qed.

(** ** Console output

    The kernel prints through [uart_send_string], [uart_send_hex] and
    [uart_send_dec]; a component's output is the sequence of those calls. *)

Inductive log_item :=
| LStr (s : string)
| LHex (v : Z)
| LDec (v : Z).

(** ** The monad of C functions

    A function over a component state [S] returns its result and the new
    state, or [None] when the C program would have no defined behaviour: an
    access outside an array, a dereferenced null pointer, or (for loops, which
    run on fuel) a loop that does not end.  A theorem that states a [wp] thus
    states absence of undefined behaviour and termination too. *)

Definition M (S A : Type) : Type := S -> option (A * S).

#[export] Instance M_ret S : MRet (M S) := fun A a s => Some (a, s).
#[export] Instance M_bind S : MBind (M S) :=
  fun A B k m s => match m s with Some (a, s') => k a s' | None => None end.

Definition ub {S A} : M S A := fun _ => None.
Definition gets {S A} (f : S -> A) : M S A := fun s => Some (f s, s).
Definition modify {S} (f : S -> S) : M S unit := fun s => Some (tt, f s).

(** An access that is only defined when [o] is [Some]. *)
Definition defined {S A} (o : option A) : M S A :=
  fun s => match o with Some a => Some (a, s) | None => None end.
Definition access {S A} (f : S -> option A) : M S A :=
  fun s => match f s with Some a => Some (a, s) | None => None end.
Definition update {S} (f : S -> option S) : M S unit :=
  fun s => match f s with Some s' => Some (tt, s') | None => None end.

(** [if (b) m] with no else branch. *)
Definition when {S} (b : bool) (m : M S unit) : M S unit :=
  if b then m else mret tt.

(** Loops: the body returns [inl st] to go round again with locals [st], or
    [inr r] to leave the loop with [r]. *)
Fixpoint loop {S St R} (fuel : nat) (body : St -> M S (St + R)) (st : St) : M S R :=
  match fuel with
  | O => ub
  | S fuel' =>
      r ← body st;
      match r with
      | inl st' => loop fuel' body st'
      | inr v => mret v
      end
  end.

(** [for (i = lo; i < lo + n; i++) body(i)]. *)
Fixpoint for_up {S} (n : nat) (lo : Z) (body : Z -> M S unit) : M S unit :=
  match n with
  | O => mret tt
  | S n' => body lo ;; for_up n' (lo + 1) body
  end.

(** The same loop with a local variable carried from one round to the next. *)
Fixpoint for_acc {S A} (n : nat) (lo : Z) (body : Z -> A -> M S A) (acc : A) : M S A :=
  match n with
  | O => mret acc
  | S n' => acc' ← body lo acc; for_acc n' (lo + 1) body acc'
  end.

(** A component used inside a larger state. *)
Class Lens (S T : Type) := {
  view : S -> T;
  put : T -> S -> S;
  view_put : forall t s, view (put t s) = t;
  put_view : forall s, put (view s) s = s;
  put_put : forall t t' s, put t (put t' s) = put t s;
}.

Definition zoom {S T A} `{Lens S T} (m : M T A) : M S A :=
  fun s => match m (view s) with Some (a, t) => Some (a, put t s) | None => None end.

(** *** Weakest preconditions *)

Definition wp {S A} (m : M S A) (Q : A -> S -> Prop) (s : S) : Prop :=
  match m s with Some (a, s') => Q a s' | None => False end.

Section wp_rules.
Context {S : Type}.
Implicit Types (s : S).

Lemma wp_bind {A B} (m : M S A) (k : A -> M S B) Q s :
  wp m (fun a => wp (k a) Q) s -> wp (m ≫= k) Q s.
Proof. unfold wp, mbind, M_bind. destruct (m s) as [[a s']|]; auto. Qed.

Lemma wp_ret {A} (a : A) (Q : A -> S -> Prop) s : Q a s -> wp (mret a) Q s.
Proof. auto. Qed.

Lemma wp_gets {A} (f : S -> A) Q s : Q (f s) s -> wp (gets f) Q s.
Proof. auto. Qed.

Lemma wp_modify (f : S -> S) Q s : Q tt (f s) -> wp (modify f) Q s.
Proof. auto. Qed.

Lemma wp_defined {A} (o : option A) a Q s :
  o = Some a -> Q a s -> wp (defined o) Q s.
Proof. intros ->. auto. Qed.

Lemma wp_access {A} (f : S -> option A) a Q s :
  f s = Some a -> Q a s -> wp (access f) Q s.
Proof. unfold wp, access. intros ->. auto. Qed.

Lemma wp_update (f : S -> option S) s' Q s :
  f s = Some s' -> Q tt s' -> wp (update f) Q s.
Proof. unfold wp, update. intros ->. auto. Qed.

Lemma wp_when (b : bool) (m : M S unit) Q s :
  (b = true -> wp m Q s) -> (b = false -> Q tt s) -> wp (when b m) Q s.
Proof. destruct b; cbn; auto. Qed.

Lemma wp_mono {A} (m : M S A) (Q Q' : A -> S -> Prop) s :
  wp m Q s -> (forall a s', Q a s' -> Q' a s') -> wp m Q' s.
Proof. unfold wp. destruct (m s) as [[a s']|]; auto. Qed.

Lemma wp_mono_run {A} (m : M S A) (Q Q' : A -> S -> Prop) s :
  wp m Q s -> (forall a s', m s = Some (a, s') -> Q a s' -> Q' a s') -> wp m Q' s.
Proof. unfold wp. destruct (m s) as [[a s']|]; auto. Qed.

Lemma wp_loop {St R} (I : St -> S -> Prop) (meas : St -> S -> Z)
    (body : St -> M S (St + R)) Q :
  (forall st s, I st s -> 0 <= meas st s) ->
  (forall st s, I st s ->
     wp (body st) (fun r s' =>
        match r with
        | inl st' => I st' s' /\ meas st' s' < meas st s
        | inr v => Q v s'
        end) s) ->
  forall fuel st s, I st s -> meas st s < Z.of_nat fuel -> wp (loop fuel body st) Q s.
Proof.
  intros Hpos Hbody fuel. induction fuel as [|fuel IH]; intros st s HI Hm.
  - specialize (Hpos st s HI). lia.
  - cbn [loop]. apply wp_bind. eapply wp_mono; [by apply Hbody|].
    intros [st'|v] s' H; cbn beta iota in *.
    + destruct H. apply IH; [done|lia].
    + by apply wp_ret.
Qed.

Lemma wp_for_up (I : Z -> S -> Prop) (body : Z -> M S unit) :
  forall n lo s Q,
  I lo s ->
  (forall i s, lo <= i < lo + Z.of_nat n -> I i s -> wp (body i) (fun _ s' => I (i + 1) s') s) ->
  (forall s, I (lo + Z.of_nat n) s -> Q tt s) ->
  wp (for_up n lo body) Q s.
Proof.
  induction n as [|n IH]; intros lo s Q HI Hbody HQ.
  - apply wp_ret, HQ. replace (lo + Z.of_nat 0) with lo by lia. done.
  - cbn [for_up]. apply wp_bind.
    eapply wp_mono; [apply Hbody; [lia|done]|]. cbn beta. intros _ s' HI'.
    apply IH; [done| |].
    + intros. apply Hbody; [lia|done].
    + intros s'' H. apply HQ. replace (lo + Z.of_nat (Datatypes.S n)) with (lo + 1 + Z.of_nat n) by lia. done.
Qed.

Lemma wp_for_acc {A} (I : Z -> A -> S -> Prop) (body : Z -> A -> M S A) :
  forall n lo acc s Q,
  I lo acc s ->
  (forall i a s, lo <= i < lo + Z.of_nat n -> I i a s ->
     wp (body i a) (fun a' s' => I (i + 1) a' s') s) ->
  (forall a s, I (lo + Z.of_nat n) a s -> Q a s) ->
  wp (for_acc n lo body acc) Q s.
Proof.
  induction n as [|n IH]; intros lo acc s Q HI Hbody HQ.
  - apply wp_ret, HQ. replace (lo + Z.of_nat 0) with lo by lia. done.
  - cbn [for_acc]. apply wp_bind.
    eapply wp_mono; [apply Hbody; [lia|done]|]. cbn beta. intros a s' HI'.
    apply IH; [done| |].
    + intros. apply Hbody; [lia|done].
    + intros a' s'' H. apply HQ. replace (lo + Z.of_nat (Datatypes.S n)) with (lo + 1 + Z.of_nat n) by lia. done.
Qed.

End wp_rules.

Lemma wp_zoom {S T A} `{Lens S T} (m : M T A) Q (s : S) :
  wp m (fun a t => Q a (put t s)) (view s) -> wp (zoom m) Q s.
Proof. unfold wp, zoom. destruct (m (view s)) as [[a t]|]; auto. Qed.

Lemma wp_run {S A} (m : M S A) Q s :
  wp m Q s -> exists a s', m s = Some (a, s') /\ Q a s'.
Proof. unfold wp. destruct (m s) as [[a s']|]; [eauto|done]. Qed.

(** The run itself is known when its result is used. *)
Lemma wp_know {S A} (m : M S A) Q s : wp m (fun a s' => m s = Some (a, s') -> Q a s') s -> wp m Q s.
Proof. unfold wp. destruct (m s) as [[a s']|]; auto. Qed.

Lemma run_wp {S A} (m : M S A) Q s a s' :
  wp m Q s -> m s = Some (a, s') -> Q a s'.
Proof. unfold wp. intros H E. by rewrite E in H. Qed.

Lemma run_det {S A} (m : M S A) s a b s1 s2 : m s = Some (a, s1) -> m s = Some (b, s2) -> a = b /\ s1 = s2.
Proof. intros -> E. by injection E. Qed.

(** One symbolic-execution step of the straight-line part of a function. *)
Ltac wp_step :=
  lazymatch goal with
  | |- wp (mbind _ _) _ _ => apply wp_bind
  | |- wp (mret _) _ _ => apply wp_ret
  | |- wp (gets _) _ _ => apply wp_gets
  | |- wp (modify _) _ _ => apply wp_modify
  | |- wp (defined _) _ _ => eapply wp_defined
  | |- wp (access _) _ _ => eapply wp_access
  | |- wp (update _) _ _ => eapply wp_update
  end; cbn beta.
Ltac wp_steps := repeat wp_step.

(** Present the current state in a convertible form. *)
Ltac wp_state st := match goal with |- wp ?m ?P _ => change (wp m P st) end.
