(* ===== verification/Lists.v ===== *)
(** * Intrusive linked lists

    The kernel keeps its free lists, slab lists, wait queues and run queue as
    intrusive lists: link fields stored inside the linked objects.  This file
    gives the shape predicates that relate such link fields to a mathematical
    list, and the lemmas for the pointer updates that the C code performs.
    [null] is the value that ends a list ([-1] for frame indices, [0] for
    pointers). *)

From S2P Require Import Prelude.

Open Scope Z_scope.

Lemma last_elem (L : list Z) (d : Z) : L <> [] -> List.last L d ∈ L.
Proof.
  induction L as [|a L IH]; [done|]. intros _. destruct L as [|b L]; [set_solver|].
  change (List.last (b :: L) d ∈ a :: b :: L). right. by apply IH.
Qed.

Lemma last_default (L : list Z) (d d' : Z) : L <> [] -> List.last L d = List.last L d'.
Proof.
  induction L as [|a L IH]; [done|]. intros _. destruct L as [|b L]; [done|].
  change (List.last (b :: L) d = List.last (b :: L) d'). by apply IH.
Qed.

(** ** Doubly linked lists *)

Section dll.
Context (null : Z).
Implicit Types (lk : Z -> option (Z * Z)) (L : list Z).

(** [dll lk prev head L]: starting at [head], whose predecessor is [prev], the
    [(prev, next)] link fields given by [lk] spell out the list [L]. *)
Fixpoint dll lk (prev head : Z) L : Prop :=
  match L with
  | [] => head = null
  | i :: L' => head = i /\ i <> null /\ exists nx, lk i = Some (prev, nx) /\ dll lk i nx L'
  end.

Lemma dll_ext lk lk' p h L :
  (forall i, i ∈ L -> lk' i = lk i) -> dll lk p h L -> dll lk' p h L.
Proof.
  revert p h. induction L as [|i L IH]; intros p h Hext H; [done|].
  destruct H as (-> & Hi & nx & Hlk & H). split; [done|split; [done|]].
  exists nx. split.
  - rewrite Hext; [done|]. set_solver.
  - apply IH; [|done]. intros j Hj. apply Hext. set_solver.
Qed.

Lemma dll_not_null lk p h L i : dll lk p h L -> i ∈ L -> i <> null.
Proof.
  revert p h. induction L as [|j L IH]; intros p h H Hi; [set_solver|].
  destruct H as (-> & Hj & nx & Hlk & H). apply elem_of_cons in Hi as [->|Hi]; eauto.
Qed.

Lemma dll_elem lk p h L i : dll lk p h L -> i ∈ L -> is_Some (lk i).
Proof.
  revert p h. induction L as [|j L IH]; intros p h H Hi; [set_solver|].
  destruct H as (-> & Hj & nx & Hlk & H). apply elem_of_cons in Hi as [->|Hi]; eauto.
Qed.

Lemma dll_head_null lk p L : dll lk p null L -> L = [].
Proof. destruct L; [done|]. intros (? & ? & _). congruence. Qed.

Lemma dll_head lk p h L : dll lk p h L -> h <> null -> exists L', L = h :: L'.
Proof. destruct L; cbn; [congruence|]. intros (-> & _) _. eauto. Qed.

Lemma dll_det lk p h L L' : dll lk p h L -> dll lk p h L' -> L = L'.
Proof.
  revert p h L'. induction L as [|i L IH]; intros p h L' H H'.
  - cbn in H. subst h. apply dll_head_null in H'. done.
  - destruct H as (-> & Hi & nx & Hlk & H).
    destruct L' as [|j L']; [done|]. destruct H' as (-> & _ & nx' & Hlk' & H').
    assert (nx' = nx) as -> by congruence. f_equal. eauto.
Qed.

(** Insertion at the head. *)
Lemma dll_push lk lk' h L i :
  dll lk null h L -> NoDup L -> i ∉ L -> i <> null ->
  lk' i = Some (null, h) ->
  (forall nx, h <> null -> lk h = Some (null, nx) -> lk' h = Some (i, nx)) ->
  (forall j, j ∈ L -> j <> h -> lk' j = lk j) ->
  dll lk' null i (i :: L).
Proof.
  intros H Hnd Hi Hnull Hnew Hhead Hrest. split; [done|split; [done|]].
  exists h. split; [done|]. destruct L as [|k L]; [done|].
  destruct H as (-> & Hk & nx & Hlk & H). apply NoDup_cons in Hnd as [Hk' Hnd].
  split; [done|split; [done|]]. exists nx. split; [by apply Hhead|].
  eapply dll_ext; [|done]. intros j Hj. apply Hrest; set_solver.
Qed.

(** Removal of the head. *)
Lemma dll_pop lk lk' h L n :
  dll lk null h (h :: L) -> NoDup (h :: L) -> lk h = Some (null, n) ->
  (forall nx, n <> null -> lk n = Some (h, nx) -> lk' n = Some (null, nx)) ->
  (forall j, j ∈ L -> j <> n -> lk' j = lk j) ->
  dll lk' null n L.
Proof.
  intros (_ & Hh & nx & Hlk & H) Hnd Hlk' Hn Hrest.
  assert (nx = n) as -> by congruence.
  destruct L as [|k L]; [done|]. destruct H as (-> & Hk & nx & Hlkn & H).
  apply NoDup_cons in Hnd as [Hh' Hnd]. apply NoDup_cons in Hnd as [Hk' Hnd].
  split; [done|split; [done|]]. exists nx. split; [by apply Hn|].
  eapply dll_ext; [|done]. intros j Hj. apply Hrest; set_solver.
Qed.

(** The predecessor of an inner node is the last node before it. *)
Lemma dll_split lk p0 h L1 i L2 :
  dll lk p0 h (L1 ++ i :: L2) ->
  exists n, lk i = Some (List.last L1 p0, n) /\ dll lk i n L2 /\ i <> null.
Proof.
  revert p0 h. induction L1 as [|a L1 IH]; intros p0 h H.
  - destruct H as (-> & Hi & nx & Hlk & H). eauto.
  - destruct H as (-> & Ha & nx & Hlk & H). apply IH in H as (n & Hi & H).
    exists n. split; [|done]. destruct L1 as [|b L1]; [done|].
    rewrite Hi. do 2 f_equal. by apply (last_default (b :: L1)).
Qed.

Lemma dll_remove_gen lk lk' p0 h L1 i L2 p n :
  dll lk p0 h (L1 ++ i :: L2) -> NoDup (L1 ++ i :: L2) -> p0 ∉ L1 ++ i :: L2 ->
  lk i = Some (p, n) ->
  (forall j pj nj, j ∈ L1 ++ L2 -> lk j = Some (pj, nj) ->
     lk' j = Some (if j =? n then p else pj, if j =? p then n else nj)) ->
  dll lk' p0 (match L1 with [] => n | _ => h end) (L1 ++ L2).
Proof.
  revert p0 h. induction L1 as [|a L1 IH]; intros p0 h H Hnd Hp0 Hlki Hupd.
  - destruct H as (-> & Hi & nx & Hlk & H). assert (p = p0 /\ nx = n) as [-> ->] by (split; congruence).
    cbn in Hnd, Hp0, Hupd |- *. destruct L2 as [|k L2]; [done|].
    destruct H as (-> & Hk & nk & Hlkk & H).
    apply NoDup_cons in Hnd as [_ Hnd]. apply NoDup_cons in Hnd as [Hk2 _].
    split; [done|split; [done|]]. exists nk. split.
    { rewrite (Hupd k i nk) by (set_solver || done).
      rewrite Z.eqb_refl. destruct (Z.eqb_spec k p0); [set_solver|done]. }
    eapply dll_ext; [|done]. intros j Hj.
    destruct (dll_elem _ _ _ _ _ H Hj) as [[pj nj] Hlkj].
    rewrite (Hupd j pj nj), Hlkj by (set_solver || done).
    destruct (Z.eqb_spec j k); [set_solver|]. destruct (Z.eqb_spec j p0); [set_solver|]. done.
  - pose proof (dll_split lk p0 h (a :: L1) i L2 H) as (n' & Hsp & Hn2 & Hin).
    assert (n' = n) as -> by congruence.
    assert (Hp : p = List.last (a :: L1) p0) by congruence.
    destruct H as (-> & Ha & nx & Hlka & H).
    cbn [app] in Hnd. apply NoDup_cons in Hnd as [Ha' Hnd].
    cbn [app]. split; [done|split; [done|]].
    assert (Hane : a =? n = false).
    { apply Z.eqb_neq. intros ->. destruct L2 as [|k L2]; [done|].
      destruct Hn2 as (-> & _). set_solver. }
    assert (IH' := IH a nx H Hnd Ha' Hlki ltac:(intros; apply Hupd; [set_solver|done])).
    exists (match L1 with [] => n | _ => nx end). split; [|done].
    rewrite (Hupd a p0 nx) by (set_solver || done). rewrite Hane. do 2 f_equal.
    destruct L1 as [|b L1].
    + cbn in Hp. subst p. by rewrite Z.eqb_refl.
    + destruct (Z.eqb_spec a p) as [->|]; [|done]. exfalso. apply Ha'.
      
      replace (List.last (p :: b :: L1) p0) with (List.last (b :: L1) p0) in Hp by done.
      rewrite Hp. apply elem_of_app. left. by apply last_elem.
Qed.

(** Removal of a node known by its index, as [freelist_remove] and
    [cache_remove_slab] do it: the neighbours are linked to each other, and the
    head moves when the node had no predecessor. *)
Lemma dll_remove lk lk' h L1 i L2 p n :
  dll lk null h (L1 ++ i :: L2) -> NoDup (L1 ++ i :: L2) ->
  lk i = Some (p, n) ->
  (forall j pj nj, j ∈ L1 ++ L2 -> lk j = Some (pj, nj) ->
     lk' j = Some (if j =? n then p else pj, if j =? p then n else nj)) ->
  dll lk' null (if p =? null then n else h) (L1 ++ L2).
Proof.
  intros H Hnd Hlki Hupd.
  assert (Hnull : null ∉ L1 ++ i :: L2) by (intros ?; by eapply (dll_not_null lk null h)).
  pose proof (dll_remove_gen lk lk' null h L1 i L2 p n H Hnd Hnull Hlki Hupd) as R.
  destruct (dll_split lk null h L1 i L2 H) as (n' & Hsp & _).
  assert (p = List.last L1 null) as -> by congruence.
  destruct L1 as [|a L1]; [by rewrite Z.eqb_refl|].
  destruct (Z.eqb_spec (List.last (a :: L1) null) null) as [E|]; [|done].
  exfalso. apply Hnull. rewrite <- E at 1. apply elem_of_app. left. by apply last_elem.
Qed.

(** Appending after the last node. *)
Lemma dll_snoc lk lk' p h L i :
  dll lk p h L -> NoDup L -> i ∉ L -> i <> null -> lk' i = Some (List.last L p, null) ->
  (forall j pj nj, j ∈ L -> lk j = Some (pj, nj) -> lk' j = Some (pj, if j =? List.last L p then i else nj)) ->
  dll lk' p (match L with [] => i | _ => h end) (L ++ [i]).
Proof.
  revert p h. induction L as [|a L IH]; intros p h H Hnd Hi Hnull Hnew Hupd.
  - cbn in *. eauto 10.
  - destruct H as (-> & Ha & n & Hlk & H). apply NoDup_cons in Hnd as [Ha' Hnd].
    assert (El : List.last (a :: L) p = List.last L a).
    { destruct L as [|b L]; [done|]. change (List.last (b :: L) p = List.last (b :: L) a). by apply last_default. }
    rewrite El in *. cbn [app]. split; [done|split; [done|]].
    exists (match L with [] => i | _ => n end). split.
    + rewrite (Hupd a p n) by (done || set_solver). destruct L as [|b L]; [cbn; by rewrite Z.eqb_refl|].
      destruct (Z.eqb_spec a (List.last (b :: L) a)) as [E|]; [|done].
      exfalso. apply Ha'. rewrite E. by apply last_elem.
    + apply IH; try done; [set_solver|]. intros j pj nj Hj. apply Hupd. set_solver.
Qed.

(** A node with no predecessor is the head. *)
Lemma dll_no_prev lk h L i n :
  dll lk null h L -> i ∈ L -> lk i = Some (null, n) -> h = i.
Proof.
  intros H Hi Hlk. apply list_elem_of_split in Hi as (L1 & L2 & ->).
  pose proof (dll_split lk null h L1 i L2 H) as (n' & Hsp & _).
  destruct L1 as [|a L1]; [by destruct H as (-> & _)|].
  assert (List.last (a :: L1) null = null) as E by congruence.
  exfalso. apply (dll_not_null lk null h ((a :: L1) ++ i :: L2) null H); [|done].
  rewrite <- E at 1. apply elem_of_app. left. by apply last_elem.
Qed.

End dll.

(** ** Families of doubly linked lists

    Several lists share one set of link fields; a node is in at most one of
    them.  [hd k] is the head pointer of list [k]. *)

Section dlls.
Context {K : Type} `{EqDecision K} (null : Z) (ok : K -> Prop).
Implicit Types (lk : Z -> option (Z * Z)) (hd : K -> option Z) (L : K -> list Z).

Record dlls lk hd L : Prop := {
  ds_heads : forall k, ok k -> exists h, hd k = Some h /\ dll null lk null h (L k);
  ds_nodup : forall k, ok k -> NoDup (L k);
  ds_disjoint : forall k k' i, ok k -> ok k' -> i ∈ L k -> i ∈ L k' -> k = k';
}.

Definition set_list L (k : K) (l : list Z) : K -> list Z := fun q => if decide (q = k) then l else L q.

Lemma set_list_eq L k l : set_list L k l k = l.
Proof. unfold set_list. by rewrite decide_True. Qed.
Lemma set_list_ne L k l q : q <> k -> set_list L k l q = L q.
Proof. intros. unfold set_list. by rewrite decide_False. Qed.

(** Neighbours of a node are null or nodes of the same list. *)
Lemma dlls_neighbours lk hd L k i p n :
  dlls lk hd L -> ok k -> i ∈ L k -> lk i = Some (p, n) ->
  (p = null /\ hd k = Some i \/ p <> null /\ p ∈ L k /\ p <> i) /\
  (n = null \/ n <> null /\ n ∈ L k /\ n <> i /\ n <> p).
Proof.
  intros [Hh Hn _] Hk Hi Hl. destruct (Hh k Hk) as (h & Ehd & Hd). specialize (Hn k Hk).
  pose proof (fun j => dll_not_null null lk null h (L k) j Hd) as Hnn.
  apply list_elem_of_split in Hi as (L1 & L2 & E). rewrite E in *.
  destruct (dll_split null lk null h L1 i L2 Hd) as (n' & Hsp & Hd2 & _).
  assert (n' = n /\ p = List.last L1 null) as [-> Hp] by (split; congruence).
  apply NoDup_app in Hn as (_ & Hx & Hn2). apply NoDup_cons in Hn2 as [Hi2 _].
  assert (Hp' : L1 = [] \/ p ∈ L1) by (destruct L1; [by left|right; rewrite Hp; by apply last_elem]).
  split.
  - destruct Hp' as [->|Hp']; [left; destruct Hd as (-> & _); done|right].
    split; [apply Hnn; set_solver|]. split; [set_solver|]. intros ->. apply (Hx i Hp'). set_solver.
  - destruct L2 as [|b L2]; [by left|right]. destruct Hd2 as (-> & Hb & _).
    split; [done|]. split; [set_solver|]. split; [set_solver|]. intros ->.
    destruct Hp' as [->|Hp']; [by cbn in Hp|]. apply (Hx p Hp'). set_solver.
Qed.

Lemma dlls_push lk lk' hd hd' L k i h :
  dlls lk hd L -> ok k -> hd k = Some h -> (forall q, ok q -> i ∉ L q) -> i <> null ->
  lk' i = Some (null, h) ->
  (forall p n, h <> null -> lk h = Some (p, n) -> lk' h = Some (i, n)) ->
  (forall j, j <> i -> j <> h -> lk' j = lk j) ->
  hd' k = Some i -> (forall q, ok q -> q <> k -> hd' q = hd q) ->
  dlls lk' hd' (set_list L k (i :: L k)).
Proof.
  intros [Hh Hn Hd] Hk Ehd Hfresh Hi Hnew Hhead Hrest Ek Eq. constructor.
  - intros q Hq. destruct (Hh q Hq) as (hq & Ehq & Hdq). destruct (decide (q = k)) as [->|Hne].
    + exists i. split; [done|]. rewrite set_list_eq. assert (hq = h) as -> by congruence.
      eapply (dll_push null lk lk' h); [done|by apply Hn|by apply Hfresh|done|done| |].
      * intros nx Hnn Hl. by eapply Hhead.
      * intros j Hj Hne. apply Hrest; [|done]. intros ->. by apply (Hfresh k).
    + exists hq. split; [by rewrite Eq|]. rewrite set_list_ne by done. eapply dll_ext; [|done].
      intros j Hj. apply Hrest; [intros ->; by apply (Hfresh q)|]. intros ->.
      destruct (Hh k Hk) as (h' & Eh' & Hdk). assert (h' = h) as -> by congruence.
      pose proof (dll_not_null null lk null hq (L q) h Hdq Hj) as Hnn.
      destruct (dll_head null lk null h (L k) Hdk Hnn) as [L' EL]. apply Hne.
      apply (Hd q k h); [done|done|done|]. rewrite EL. set_solver.
  - intros q Hq. destruct (decide (q = k)) as [->|Hne]; [|rewrite set_list_ne by done; by apply Hn].
    rewrite set_list_eq. apply NoDup_cons. split; [by apply Hfresh|by apply Hn].
  - intros q q' j Hq Hq'. unfold set_list. repeat case_decide; subst; intros Hj Hj'; try done.
    + apply elem_of_cons in Hj as [->|Hj]; [by destruct (Hfresh q')|by apply (Hd _ _ j)].
    + apply elem_of_cons in Hj' as [->|Hj']; [by destruct (Hfresh q)|by apply (Hd _ _ j)].
    + by apply (Hd _ _ j).
Qed.

Lemma dlls_unlink lk lk' hd hd' L k i p n h (L1 L2 : list Z) :
  dlls lk hd L -> ok k -> L k = L1 ++ i :: L2 -> lk i = Some (p, n) ->
  (forall j pj nj, j <> i -> j <> null -> lk j = Some (pj, nj) ->
     lk' j = Some (if j =? n then p else pj, if j =? p then n else nj)) ->
  hd k = Some h -> hd' k = Some (if p =? null then n else h) -> (forall q, ok q -> q <> k -> hd' q = hd q) ->
  dlls lk' hd' (set_list L k (L1 ++ L2)).
Proof.
  intros HD Hk EL Hl Hupd Eh Ek Eq. assert (Hi : i ∈ L k) by (rewrite EL; set_solver).
  destruct (dlls_neighbours lk hd L k i p n HD Hk Hi Hl) as [Hp Hn]. destruct HD as [Hh Hnd Hd].
  pose proof (Hnd k Hk) as Hndk. rewrite EL in Hndk.
  assert (Hni : i ∉ L1 ++ L2).
  { apply NoDup_app in Hndk as (_ & Hx & Hn2). apply NoDup_cons in Hn2 as [Hi2 _].
    intros Hin. apply elem_of_app in Hin as [Hin|Hin]; [|done]. apply (Hx i Hin). set_solver. }
  constructor.
  - intros q Hq. destruct (Hh q Hq) as (hq & Ehq & Hdq). destruct (decide (q = k)) as [->|Hne].
    + rewrite set_list_eq. assert (hq = h) as -> by congruence. rewrite EL in Hdq.
      eexists. split; [exact Ek|]. eapply (dll_remove null lk); [done|done|done|].
      intros j pj nj Hj. apply Hupd; [intros ->; done|].
      apply (dll_not_null null lk null h (L1 ++ i :: L2)); [done|set_solver].
    + exists hq. split; [by rewrite Eq|]. rewrite set_list_ne by done. eapply dll_ext; [|done].
      intros j Hj. assert (Hjk : j ∉ L k) by (intros Hjk; apply Hne; by apply (Hd q k j)).
      pose proof (dll_not_null null lk null hq (L q) j Hdq Hj) as Hnn.
      destruct (dll_elem null lk null hq (L q) j Hdq Hj) as [[pj nj] Hlj]. rewrite (Hupd j pj nj); [|intros ->; done|done|done].
      rewrite Hlj. destruct (Z.eqb_spec j n) as [->|]; [destruct Hn as [|(_ & ? & _)]; done|].
      destruct (Z.eqb_spec j p) as [->|]; [destruct Hp as [[? _]|(_ & ? & _)]; done|]. done.
  - intros q Hq. destruct (decide (q = k)) as [->|Hne]; [|rewrite set_list_ne by done; by apply Hnd].
    rewrite set_list_eq. apply NoDup_app in Hndk as (Hn1 & Hx & Hn2). apply NoDup_cons in Hn2 as [_ Hn2].
    apply NoDup_app. split; [done|]. split; [|done]. intros j Hj1 Hj2. apply (Hx j Hj1). set_solver.
  - intros q q' j Hq Hq'. unfold set_list.
    assert (Hsub : j ∈ L1 ++ L2 -> j ∈ L k) by (rewrite EL; set_solver).
    repeat case_decide; subst; intros Hj Hj'; try done; apply (Hd _ _ j); try done; by apply Hsub.
Qed.

(** Appending to one list of a family. *)
Lemma dlls_snoc lk lk' hd hd' L k i :
  dlls lk hd L -> ok k -> (forall q, ok q -> i ∉ L q) -> i <> null ->
  lk' i = Some (List.last (L k) null, null) ->
  (forall j pj nj, j <> i -> lk j = Some (pj, nj) ->
     lk' j = Some (pj, if decide (j <> null /\ j = List.last (L k) null) then i else nj)) ->
  (forall h, hd k = Some h -> hd' k = Some (match L k with [] => i | _ => h end)) ->
  (forall q, ok q -> q <> k -> hd' q = hd q) ->
  dlls lk' hd' (set_list L k (L k ++ [i])).
Proof.
  intros [Hh Hn Hd] Hk Hfresh Hi Hnew Hupd Ek Eq. constructor.
  - intros q Hq. destruct (Hh q Hq) as (hq & Ehq & Hdq). destruct (decide (q = k)) as [->|Hne].
    + eexists. split; [by apply Ek|]. rewrite set_list_eq.
      eapply (dll_snoc null lk); [done|by apply Hn|by apply Hfresh|done|done|].
      intros j pj nj Hj Hl. rewrite (Hupd j pj nj); [|intros ->; by apply (Hfresh k)|done].
      pose proof (dll_not_null null lk null hq (L k) j Hdq Hj).
      case_decide as E; destruct (Z.eqb_spec j (List.last (L k) null)); naive_solver.
    + exists hq. split; [by rewrite Eq|]. rewrite set_list_ne by done. eapply dll_ext; [|done].
      intros j Hj. destruct (dll_elem null lk null hq (L q) j Hdq Hj) as [[pj nj] Hlj].
      rewrite (Hupd j pj nj), Hlj; [|intros ->; by apply (Hfresh q)|done]. rewrite decide_False; [done|].
      intros [Hnn E]. apply Hne, (Hd q k j); [done..|]. rewrite E. apply last_elem. intros E0. rewrite E0 in E. done.
  - intros q Hq. destruct (decide (q = k)) as [->|Hne]; [|rewrite set_list_ne by done; by apply Hn].
    rewrite set_list_eq. apply NoDup_app. split; [by apply Hn|]. split; [|apply NoDup_singleton].
    intros j Hj Hj'. apply list_elem_of_singleton in Hj' as ->. by apply (Hfresh k).
  - intros q q' j Hq Hq'. unfold set_list. repeat case_decide; subst; intros Hj Hj'; try done.
    + apply elem_of_app in Hj as [Hj|Hj]; [by apply (Hd _ _ j)|]. apply list_elem_of_singleton in Hj as ->. by destruct (Hfresh q').
    + apply elem_of_app in Hj' as [Hj'|Hj']; [by apply (Hd _ _ j)|]. apply list_elem_of_singleton in Hj' as ->. by destruct (Hfresh q).
    + by apply (Hd _ _ j).
Qed.

(** The last node after an unlink. *)
Lemma dlls_last lk hd L k i p n (L1 L2 : list Z) :
  dlls lk hd L -> ok k -> L k = L1 ++ i :: L2 -> lk i = Some (p, n) ->
  List.last (L1 ++ L2) null = if n =? null then p else List.last (L k) null.
Proof.
  intros [Hh _ _] Hk EL Hl. destruct (Hh k Hk) as (h & _ & Hd). rewrite EL in *.
  destruct (dll_split null lk null h L1 i L2 Hd) as (n' & Hsp & Hd2 & _).
  assert (n' = n /\ p = List.last L1 null) as [-> ->] by (split; congruence).
  destruct L2 as [|b L2].
  - cbn in Hd2. subst n. by rewrite Z.eqb_refl, app_nil_r.
  - destruct Hd2 as (-> & Hb & _). destruct (Z.eqb_spec b null); [done|]. clear.
    induction L1 as [|a L1 IH]; [done|]. cbn [app]. destruct L1; cbn in *; done.
Qed.

Lemma dlls_ext lk lk' hd hd' L L' :
  dlls lk hd L -> (forall k i, ok k -> i ∈ L k -> lk' i = lk i) -> (forall k, ok k -> hd' k = hd k) ->
  (forall k, ok k -> L' k = L k) -> dlls lk' hd' L'.
Proof.
  intros [Hh Hn Hd] El Eh EL. constructor.
  - intros k Hk. destruct (Hh k Hk) as (h & E & H). exists h. rewrite Eh, EL by done. split; [done|].
    eapply dll_ext; [|done]. intros. by eapply El.
  - intros k Hk. rewrite EL by done. by apply Hn.
  - intros k k' i Hk Hk'. rewrite !EL by done. by apply Hd.
Qed.

End dlls.
Arguments ds_heads {_ _ _ _ _ _} _.
Arguments ds_nodup {_ _ _ _ _ _} _.
Arguments ds_disjoint {_ _ _ _ _ _} _.

(** ** Singly linked lists *)

Section sll.
Context (null : Z).
Implicit Types (nx : Z -> option Z) (L : list Z).

Fixpoint sll nx (head : Z) L : Prop :=
  match L with
  | [] => head = null
  | i :: L' => head = i /\ i <> null /\ exists n, nx i = Some n /\ sll nx n L'
  end.

Lemma sll_ext nx nx' h L :
  (forall i, i ∈ L -> nx' i = nx i) -> sll nx h L -> sll nx' h L.
Proof.
  revert h. induction L as [|i L IH]; intros h Hext H; [done|].
  destruct H as (-> & Hi & n & Hnx & H). split; [done|split; [done|]].
  exists n. split; [rewrite Hext; set_solver|]. apply IH; [|done].
  intros j Hj. apply Hext. set_solver.
Qed.

Lemma sll_head_null nx L : sll nx null L -> L = [].
Proof. destruct L; [done|]. intros (? & ? & _). congruence. Qed.

Lemma sll_not_null nx h L i : sll nx h L -> i ∈ L -> i <> null.
Proof.
  revert h. induction L as [|j L IH]; intros h H Hi; [set_solver|].
  destruct H as (-> & Hj & n & Hn & H). apply elem_of_cons in Hi as [->|Hi]; eauto.
Qed.

Lemma sll_elem nx h L i : sll nx h L -> i ∈ L -> is_Some (nx i).
Proof.
  revert h. induction L as [|j L IH]; intros h H Hi; [set_solver|].
  destruct H as (-> & Hj & n & Hn & H). apply elem_of_cons in Hi as [->|Hi]; eauto.
Qed.

Lemma sll_det nx h L L' : sll nx h L -> sll nx h L' -> L = L'.
Proof.
  revert h L'. induction L as [|i L IH]; intros h L' H H'.
  - cbn in H. subst h. apply sll_head_null in H'. done.
  - destruct H as (-> & Hi & n & Hnx & H).
    destruct L' as [|j L']; [done|]. destruct H' as (-> & _ & n' & Hnx' & H').
    assert (n' = n) as -> by congruence. f_equal. eauto.
Qed.

(** Appending after the last node. *)
Lemma sll_snoc nx nx' h L i :
  sll nx h L -> NoDup L -> i ∉ L -> i <> null -> nx' i = Some null ->
  (forall j, j ∈ L -> nx' j = if j =? List.last L null then Some i else nx j) ->
  sll nx' (match L with [] => i | _ => h end) (L ++ [i]).
Proof.
  revert h. induction L as [|a L IH]; intros h H Hnd Hi Hnull Hnew Hupd.
  - cbn. eauto 10.
  - destruct H as (-> & Ha & n & Hnx & H). apply NoDup_cons in Hnd as [Ha' Hnd].
    cbn [app]. split; [done|split; [done|]].
    exists (match L with [] => i | _ => n end). split.
    + rewrite Hupd by set_solver. destruct L as [|b L].
      * cbn. by rewrite Z.eqb_refl.
      * destruct (Z.eqb_spec a (List.last (a :: b :: L) null)) as [E|]; [|done].
        exfalso. apply Ha'. rewrite E. by apply (last_elem (b :: L)).
    + apply IH; try done; [set_solver|]. intros j Hj. rewrite Hupd by set_solver.
      destruct L as [|b L]; [set_solver|]. done.
Qed.

Lemma sll_push nx nx' h L i :
  sll nx h L -> i ∉ L -> i <> null -> nx' i = Some h -> (forall j, j <> i -> nx' j = nx j) -> sll nx' i (i :: L).
Proof.
  intros H Hi Hn Hnew Hrest. split; [done|]. split; [done|]. exists h. split; [done|].
  eapply sll_ext; [|done]. intros j Hj. apply Hrest. by intros ->.
Qed.

(** The node in the middle of a list. *)
Lemma sll_split nx h L1 i L2 : sll nx h (L1 ++ i :: L2) -> i <> null /\ exists n, nx i = Some n /\ sll nx n L2.
Proof.
  revert h. induction L1 as [|a L1 IH]; intros h H; [destruct H as (_ & ? & ?); done|].
  destruct H as (_ & _ & n & _ & H). by eapply IH.
Qed.

(** Unlinking an inner node: its predecessor takes over its successor. *)
Lemma sll_remove nx nx' h L1 i L2 n :
  sll nx h (L1 ++ i :: L2) -> NoDup (L1 ++ i :: L2) -> nx i = Some n ->
  (forall j, j ∈ L1 ++ L2 -> nx' j = if bool_decide (last L1 = Some j) then Some n else nx j) ->
  sll nx' (match L1 with [] => n | _ => h end) (L1 ++ L2).
Proof.
  revert h. induction L1 as [|a L1 IH]; intros h H Hnd Hi Hupd.
  - destruct H as (-> & Hi0 & n' & Hn' & H). assert (n' = n) as -> by congruence.
    cbn. eapply sll_ext; [|done]. intros j Hj. rewrite Hupd by set_solver. done.
  - destruct H as (-> & Ha & n' & Hn' & H). cbn [app] in *.
    apply NoDup_cons in Hnd as [Ha' Hnd]. split; [done|split; [done|]].
    exists (match L1 with [] => n | _ => n' end). split.
    + rewrite Hupd by set_solver. destruct L1 as [|b L1].
      * rewrite bool_decide_true by done. done.
      * rewrite bool_decide_false; [done|]. intros E. apply Ha'.
        assert (last (b :: L1) = Some a) as E' by done.
        apply last_Some_elem_of in E'. set_solver.
    + apply IH; try done. intros j Hj. rewrite Hupd by set_solver.
      destruct L1 as [|b L1]; [|done].
      rewrite bool_decide_false; [done|]. intros [= ->]. set_solver.
Qed.

End sll.

(** ** Loops that follow a list *)

Lemma wp_loop_list {S St R} (P : list Z -> St -> S -> Prop) (body : St -> M S (St + R)) Q :
  (forall st s, P [] st s -> wp (body st) (fun r s' => match r with inr v => Q v s' | inl _ => False end) s) ->
  (forall a L st s, P (a :: L) st s ->
     wp (body st) (fun r s' => match r with inr v => Q v s' | inl st' => P L st' s' end) s) ->
  forall L fuel st s, P L st s -> (length L < fuel)%nat -> wp (loop fuel body st) Q s.
Proof.
  intros Hnil Hcons L. induction L as [|a L IH]; intros [|fuel] st s HP Hf; cbn in Hf; try lia; cbn [loop]; apply wp_bind.
  - eapply wp_mono; [by apply Hnil|]. intros [st'|v] s' HQ; [done|by apply wp_ret].
  - eapply wp_mono; [by apply (Hcons a L)|]. intros [st'|v] s' HQ; [apply IH; [done|lia]|by apply wp_ret].
Qed.

Lemma find_none_app {A} (f : A -> bool) L1 L2 : List.find f L1 = None -> List.find f (L1 ++ L2) = List.find f L2.
Proof. induction L1 as [|a L1 IH]; [done|]. cbn. destruct (f a); [done|]. exact IH. Qed.

(** A list without one element. *)
Definition without (i : Z) (L : list Z) : list Z := filter (fun j => j <> i) L.

Lemma elem_of_without i L j : j ∈ without i L <-> j ∈ L /\ j <> i.
Proof. unfold without. rewrite list_elem_of_filter. tauto. Qed.

Lemma without_absent i L : i ∉ L -> without i L = L.
Proof.
  unfold without. induction L as [|a L IH]; [done|]. intros Hi. rewrite filter_cons, decide_True by set_solver.
  f_equal. apply IH. set_solver.
Qed.

Lemma without_split i L1 L2 : NoDup (L1 ++ i :: L2) -> without i (L1 ++ i :: L2) = L1 ++ L2.
Proof.
  intros Hnd. apply NoDup_app in Hnd as (_ & Hx & Hn2). apply NoDup_cons in Hn2 as [Hi2 _].
  unfold without. rewrite filter_app, filter_cons, decide_False by naive_solver. f_equal; apply without_absent; [|done].
  intros Hi. apply (Hx i Hi). set_solver.
Qed.

Lemma NoDup_without i L : NoDup L -> NoDup (without i L).
Proof. apply NoDup_filter. Qed.

Lemma last_without i L1 L2 :
  NoDup (L1 ++ i :: L2) -> List.last (L1 ++ L2) 0 = if List.last (L1 ++ i :: L2) 0 =? i then List.last L1 0 else List.last (L1 ++ i :: L2) 0.
Proof.
  intros Hnd. destruct L2 as [|b L2]; [by rewrite last_last, Z.eqb_refl, app_nil_r|].
  assert (E : forall L, List.last (L ++ b :: L2) 0 = List.last (b :: L2) 0).
  { clear. induction L as [|a L IH]; [done|]. cbn [app]. destruct L; [done|]. exact IH. }
  rewrite E. replace (List.last (L1 ++ i :: b :: L2) 0) with (List.last (b :: L2) 0).
  2: { symmetry. rewrite <- (E (L1 ++ [i])), <- app_assoc. done. }
  destruct (Z.eqb_spec (List.last (b :: L2) 0) i) as [Ei|]; [|done]. exfalso.
  apply NoDup_app in Hnd as (_ & _ & Hn2). apply NoDup_cons in Hn2 as [Hi2 _]. apply Hi2. rewrite <- Ei. by apply last_elem.
Qed.

(** ** Index sets *)

(** Distinct indices below [n] are at most [n] many. *)
Lemma NoDup_bounded_length (L : list Z) (n : Z) :
  NoDup L -> (forall i, i ∈ L -> 0 <= i < n) -> Z.of_nat (length L) <= Z.max 0 n.
Proof.
  intros Hnd Hb.
  assert (Hinc : incl L (map Z.of_nat (seq 0 (Z.to_nat n)))).
  { intros i Hi. apply list_elem_of_In in Hi. apply Hb in Hi.
    apply in_map_iff. exists (Z.to_nat i). split; [lia|]. apply in_seq. lia. }
  assert (length L <= length (map Z.of_nat (seq 0 (Z.to_nat n))))%nat.
  { apply NoDup_incl_length; [|done]. by apply NoDup_ListNoDup. }
  rewrite length_map, length_seq in *. lia.
Qed.

(** * Windows of a circular array

    The [count] elements of a circular array of size [n] from position [start]
    on: what a ring buffer, or a trace that overwrites its oldest entries,
    stands for. *)

Fixpoint window {A} (n start : Z) (count : nat) (data : list A) : list A :=
  match count with
  | O => []
  | S c =>
      match data !! Z.to_nat (start mod n) with
      | Some x => x :: window n (start + 1) c data
      | None => []
      end
  end.

Section window_facts.
Context {A : Type} (n : Z) (Hn : 0 < n).
Implicit Types (data : list A) (x : A).

Lemma slot_inside data start : Z.of_nat (length data) = n -> exists x, data !! Z.to_nat (start mod n) = Some x.
Proof using Hn.
  intros Hl. apply lookup_lt_is_Some_2. pose proof (Z.mod_pos_bound start n Hn). lia.
Qed.

Lemma window_shift data count start : window n (start mod n) count data = window n start count data.
Proof using Hn.
  revert start. induction count as [|c IH]; intros start; [done|]. cbn.
  rewrite Z.mod_mod by lia. destruct (data !! _); [|done]. f_equal.
  rewrite <- (IH (start mod n + 1)), <- (IH (start + 1)). by rewrite Z.add_mod_idemp_l by lia.
Qed.

Lemma window_length data count start : Z.of_nat (length data) = n -> length (window n start count data) = count.
Proof using Hn.
  intros Hl. revert start. induction count as [|c IH]; intros start; [done|]. cbn.
  destruct (slot_inside data start Hl) as [x ->]. cbn. by rewrite IH.
Qed.

Lemma window_lookup data count start i :
  Z.of_nat (length data) = n -> (i < count)%nat ->
  window n start count data !! i = data !! Z.to_nat ((start + Z.of_nat i) mod n).
Proof using Hn.
  intros Hl. revert start i. induction count as [|c IH]; intros start i Hi; [lia|]. cbn.
  destruct (slot_inside data start Hl) as [x E]. rewrite E. destruct i as [|i]; cbn.
  - by rewrite Z.add_0_r, E.
  - rewrite IH by lia. do 3 f_equal. lia.
Qed.

(** The element read through index [i]. *)
Lemma window_first data count start :
  Z.of_nat (length data) = n -> (0 < count)%nat ->
  exists x, data !! Z.to_nat (start mod n) = Some x /\
    window n start count data = x :: window n (start + 1) (pred count) data.
Proof using Hn.
  intros Hl Hc. destruct count as [|c]; [lia|]. destruct (slot_inside data start Hl) as [x E].
  exists x. split; [done|]. cbn. by rewrite E.
Qed.

(** Two offsets below [n] name different slots. *)
Lemma slot_inj start i j : 0 <= i < n -> 0 <= j < n -> (start + i) mod n = (start + j) mod n -> i = j.
Proof using Hn.
  intros Hi Hj E. pose proof (Z.div_mod (start + i) n ltac:(lia)). pose proof (Z.div_mod (start + j) n ltac:(lia)).
  rewrite E in *. assert ((start + i) / n = (start + j) / n) by nia. nia.
Qed.

Lemma window_overwrite data x count start i :
  Z.of_nat (length data) = n -> Z.of_nat count <= i < n ->
  window n start count (<[Z.to_nat ((start + i) mod n) := x]> data) = window n start count data.
Proof using Hn.
  intros Hl Hi. apply list_eq. intros j. destruct (decide (j < count)%nat) as [Hj|Hj].
  - rewrite !window_lookup by (rewrite ?length_insert; done).
    apply list_lookup_insert_ne. pose proof (Z.mod_pos_bound (start + i) n Hn).
    pose proof (Z.mod_pos_bound (start + Z.of_nat j) n Hn). intros E.
    pose proof (slot_inj start i (Z.of_nat j) ltac:(lia) ltac:(lia) ltac:(lia)). lia.
  - rewrite !lookup_ge_None_2; [done| |]; rewrite window_length; rewrite ?length_insert; lia.
Qed.

Lemma window_snoc data count start :
  Z.of_nat (length data) = n ->
  exists x, data !! Z.to_nat ((start + Z.of_nat count) mod n) = Some x /\
    window n start (S count) data = window n start count data ++ [x].
Proof using Hn.
  intros Hl. destruct (slot_inside data (start + Z.of_nat count) Hl) as [x E]. exists x. split; [done|].
  revert start E. induction count as [|c IH]; intros start E.
  - rewrite Z.add_0_r in E. cbn. by rewrite E.
  - specialize (IH (start + 1)). remember (S c) as k eqn:Hk. cbn [window].
    destruct (slot_inside data start Hl) as [y Ey]. rewrite Ey, IH.
    + rewrite Hk. cbn [window]. by rewrite Ey.
    + rewrite <- E. do 3 f_equal. lia.
Qed.

(** Writing the slot behind the window appends; a full window loses its oldest element first. *)
Lemma window_push data x count start :
  Z.of_nat (length data) = n -> Z.of_nat count < n ->
  window n start (S count) (<[Z.to_nat ((start + Z.of_nat count) mod n) := x]> data) = window n start count data ++ [x].
Proof using Hn.
  intros Hl Hc.
  destruct (window_snoc (<[Z.to_nat ((start + Z.of_nat count) mod n) := x]> data) count start) as (y & Ey & ->).
  { by rewrite length_insert. }
  rewrite window_overwrite by lia.
  rewrite list_lookup_insert in Ey. destruct (decide _) as [_|Hx]; [by injection Ey as ->|].
  exfalso. apply Hx. split; [done|]. pose proof (Z.mod_pos_bound (start + Z.of_nat count) n Hn). lia.
Qed.

Lemma window_push_full data x count start :
  Z.of_nat (length data) = n -> Z.of_nat count = n ->
  window n (start + 1) count (<[Z.to_nat (start mod n) := x]> data) = tail (window n start count data) ++ [x].
Proof using Hn.
  intros Hl Hc. destruct count as [|c]; [lia|].
  assert (Hs : start mod n = (start + 1 + Z.of_nat c) mod n).
  { replace (start + 1 + Z.of_nat c) with (start + 1 * n) by lia. by rewrite Z.mod_add by lia. }
  rewrite Hs, window_push by lia. f_equal. cbn. by destruct (slot_inside data start Hl) as [y ->].
Qed.

End window_facts.
