(* ===== verification/Memory.v ===== *)
(** * Physical pages: [kernel/src/memory.c]

    The page allocator: RAM regions, the reserve table, the startup (bump)
    allocator and the binary buddy allocator over one global array of frame
    metadata.  [memory_init], which also calls into [slab.c] and [fdt.c], is in
    [MemoryInit], and [memory_get_stats] in [Slab]; the invariant and its
    preservation proofs are in [BuddyInv], [BuddyOps] and [BuddyAlloc]. *)

From S2P Require Import Prelude.

Open Scope Z_scope.

(** ** Constants and data *)

Definition PAGE_SIZE : Z := 4096.
Definition MEMORY_BUDDY_MAX_ORDER : Z := 20.
Definition MEMORY_MAX_RESERVES : Z := 64.

Definition FRAME_BUDDY : Z := -1.
Definition FRAME_USED : Z := -2.
Definition FRAME_ALLOC_BASE : Z := -100.

Inductive page_kind := PAGE_KIND_NONE | PAGE_KIND_SLAB | PAGE_KIND_LARGE.

#[export] Instance page_kind_eq_dec : EqDecision page_kind.
Proof. solve_decision. Defined.

Record mem_region_info := mkRegion {
  r_base : Z;
  r_size : Z;
  r_first_idx : Z;
  r_page_count : Z;
}.

#[export] Instance mem_region_info_eq_dec : EqDecision mem_region_info.
Proof. solve_decision. Defined.

Record reserve_range := mkReserve {
  rs_start : Z;
  rs_end : Z;
}.

#[export] Instance reserve_range_eq_dec : EqDecision reserve_range.
Proof. solve_decision. Defined.

Record frame_meta := mkFrame {
  state : Z;      (* int16_t: block-head order or a tag *)
  free_prev : Z;  (* int32_t *)
  free_next : Z;  (* int32_t *)
  kind : page_kind;
}.

#[export] Instance frame_meta_eq_dec : EqDecision frame_meta.
Proof. solve_decision. Defined.

Definition set_state (v : Z) (f : frame_meta) : frame_meta :=
  mkFrame v f.(free_prev) f.(free_next) f.(kind).
Definition set_links (p n : Z) (f : frame_meta) : frame_meta :=
  mkFrame f.(state) p n f.(kind).
Definition set_prev (p : Z) (f : frame_meta) : frame_meta :=
  mkFrame f.(state) p f.(free_next) f.(kind).
Definition set_next (n : Z) (f : frame_meta) : frame_meta :=
  mkFrame f.(state) f.(free_prev) n f.(kind).
Definition set_kind (k : page_kind) (f : frame_meta) : frame_meta :=
  mkFrame f.(state) f.(free_prev) f.(free_next) k.

(** [sizeof(struct frame_meta)] on RV64: int16_t, padding, two int32_t, enum. *)
Definition SIZEOF_FRAME_META : Z := 16.

(** The static variables of [memory.c], the interrupt-enable bit of the hart
    and the console output. *)
Record mem := mkMem {
  regions : list mem_region_info; (* regions[0 .. region_count) *)
  managed_page_count : Z;
  reserves : list reserve_range; (* reserves[0 .. reserve_count) *)
  startup_cur : Z;
  startup_end : Z;
  startup_ready : bool;
  frame_array_addr : Z; (* the pointer frame_array *)
  frame_array : gmap Z frame_meta; (* the array it points to *)
  free_lists : gmap Z Z;
  regions_direct_map : bool;
  direct_map_base : Z;
  direct_map_first_idx : Z;
  direct_map_last_idx : Z;
  memory_ready : bool;
  page_alloc_count : Z;
  page_free_count : Z;
  allocator_log_enabled : bool;
  irq_on : bool; (* sstatus.SIE of this hart *)
  console : list log_item; (* calls to uart_send_* so far *)
}.

Definition set_regions (v : list mem_region_info) (s : mem) : mem :=
  mkMem v s.(managed_page_count) s.(reserves) s.(startup_cur) s.(startup_end)
    s.(startup_ready) s.(frame_array_addr) s.(frame_array) s.(free_lists)
    s.(regions_direct_map) s.(direct_map_base) s.(direct_map_first_idx)
    s.(direct_map_last_idx) s.(memory_ready) s.(page_alloc_count)
    s.(page_free_count) s.(allocator_log_enabled) s.(irq_on) s.(console).
Definition set_managed_page_count (v : Z) (s : mem) : mem :=
  mkMem s.(regions) v s.(reserves) s.(startup_cur) s.(startup_end) s.(startup_ready)
    s.(frame_array_addr) s.(frame_array) s.(free_lists) s.(regions_direct_map)
    s.(direct_map_base) s.(direct_map_first_idx) s.(direct_map_last_idx)
    s.(memory_ready) s.(page_alloc_count) s.(page_free_count)
    s.(allocator_log_enabled) s.(irq_on) s.(console).
Definition set_reserves (v : list reserve_range) (s : mem) : mem :=
  mkMem s.(regions) s.(managed_page_count) v s.(startup_cur) s.(startup_end)
    s.(startup_ready) s.(frame_array_addr) s.(frame_array) s.(free_lists)
    s.(regions_direct_map) s.(direct_map_base) s.(direct_map_first_idx)
    s.(direct_map_last_idx) s.(memory_ready) s.(page_alloc_count)
    s.(page_free_count) s.(allocator_log_enabled) s.(irq_on) s.(console).
Definition set_startup_cur (v : Z) (s : mem) : mem :=
  mkMem s.(regions) s.(managed_page_count) s.(reserves) v s.(startup_end)
    s.(startup_ready) s.(frame_array_addr) s.(frame_array) s.(free_lists)
    s.(regions_direct_map) s.(direct_map_base) s.(direct_map_first_idx)
    s.(direct_map_last_idx) s.(memory_ready) s.(page_alloc_count)
    s.(page_free_count) s.(allocator_log_enabled) s.(irq_on) s.(console).
Definition set_startup_end (v : Z) (s : mem) : mem :=
  mkMem s.(regions) s.(managed_page_count) s.(reserves) s.(startup_cur) v
    s.(startup_ready) s.(frame_array_addr) s.(frame_array) s.(free_lists)
    s.(regions_direct_map) s.(direct_map_base) s.(direct_map_first_idx)
    s.(direct_map_last_idx) s.(memory_ready) s.(page_alloc_count)
    s.(page_free_count) s.(allocator_log_enabled) s.(irq_on) s.(console).
Definition set_startup_ready (v : bool) (s : mem) : mem :=
  mkMem s.(regions) s.(managed_page_count) s.(reserves) s.(startup_cur)
    s.(startup_end) v s.(frame_array_addr) s.(frame_array) s.(free_lists)
    s.(regions_direct_map) s.(direct_map_base) s.(direct_map_first_idx)
    s.(direct_map_last_idx) s.(memory_ready) s.(page_alloc_count)
    s.(page_free_count) s.(allocator_log_enabled) s.(irq_on) s.(console).
Definition set_frame_array_addr (v : Z) (s : mem) : mem :=
  mkMem s.(regions) s.(managed_page_count) s.(reserves) s.(startup_cur)
    s.(startup_end) s.(startup_ready) v s.(frame_array) s.(free_lists)
    s.(regions_direct_map) s.(direct_map_base) s.(direct_map_first_idx)
    s.(direct_map_last_idx) s.(memory_ready) s.(page_alloc_count)
    s.(page_free_count) s.(allocator_log_enabled) s.(irq_on) s.(console).
Definition set_frame_array (v : gmap Z frame_meta) (s : mem) : mem :=
  mkMem s.(regions) s.(managed_page_count) s.(reserves) s.(startup_cur)
    s.(startup_end) s.(startup_ready) s.(frame_array_addr) v s.(free_lists)
    s.(regions_direct_map) s.(direct_map_base) s.(direct_map_first_idx)
    s.(direct_map_last_idx) s.(memory_ready) s.(page_alloc_count)
    s.(page_free_count) s.(allocator_log_enabled) s.(irq_on) s.(console).
Definition set_free_lists (v : gmap Z Z) (s : mem) : mem :=
  mkMem s.(regions) s.(managed_page_count) s.(reserves) s.(startup_cur)
    s.(startup_end) s.(startup_ready) s.(frame_array_addr) s.(frame_array) v
    s.(regions_direct_map) s.(direct_map_base) s.(direct_map_first_idx)
    s.(direct_map_last_idx) s.(memory_ready) s.(page_alloc_count)
    s.(page_free_count) s.(allocator_log_enabled) s.(irq_on) s.(console).
Definition set_regions_direct_map (v : bool) (s : mem) : mem :=
  mkMem s.(regions) s.(managed_page_count) s.(reserves) s.(startup_cur)
    s.(startup_end) s.(startup_ready) s.(frame_array_addr) s.(frame_array)
    s.(free_lists) v s.(direct_map_base) s.(direct_map_first_idx)
    s.(direct_map_last_idx) s.(memory_ready) s.(page_alloc_count)
    s.(page_free_count) s.(allocator_log_enabled) s.(irq_on) s.(console).
Definition set_direct_map_base (v : Z) (s : mem) : mem :=
  mkMem s.(regions) s.(managed_page_count) s.(reserves) s.(startup_cur)
    s.(startup_end) s.(startup_ready) s.(frame_array_addr) s.(frame_array)
    s.(free_lists) s.(regions_direct_map) v s.(direct_map_first_idx)
    s.(direct_map_last_idx) s.(memory_ready) s.(page_alloc_count)
    s.(page_free_count) s.(allocator_log_enabled) s.(irq_on) s.(console).
Definition set_direct_map_first_idx (v : Z) (s : mem) : mem :=
  mkMem s.(regions) s.(managed_page_count) s.(reserves) s.(startup_cur)
    s.(startup_end) s.(startup_ready) s.(frame_array_addr) s.(frame_array)
    s.(free_lists) s.(regions_direct_map) s.(direct_map_base) v
    s.(direct_map_last_idx) s.(memory_ready) s.(page_alloc_count)
    s.(page_free_count) s.(allocator_log_enabled) s.(irq_on) s.(console).
Definition set_direct_map_last_idx (v : Z) (s : mem) : mem :=
  mkMem s.(regions) s.(managed_page_count) s.(reserves) s.(startup_cur)
    s.(startup_end) s.(startup_ready) s.(frame_array_addr) s.(frame_array)
    s.(free_lists) s.(regions_direct_map) s.(direct_map_base)
    s.(direct_map_first_idx) v s.(memory_ready) s.(page_alloc_count)
    s.(page_free_count) s.(allocator_log_enabled) s.(irq_on) s.(console).
Definition set_memory_ready (v : bool) (s : mem) : mem :=
  mkMem s.(regions) s.(managed_page_count) s.(reserves) s.(startup_cur)
    s.(startup_end) s.(startup_ready) s.(frame_array_addr) s.(frame_array)
    s.(free_lists) s.(regions_direct_map) s.(direct_map_base)
    s.(direct_map_first_idx) s.(direct_map_last_idx) v s.(page_alloc_count)
    s.(page_free_count) s.(allocator_log_enabled) s.(irq_on) s.(console).
Definition set_page_alloc_count (v : Z) (s : mem) : mem :=
  mkMem s.(regions) s.(managed_page_count) s.(reserves) s.(startup_cur)
    s.(startup_end) s.(startup_ready) s.(frame_array_addr) s.(frame_array)
    s.(free_lists) s.(regions_direct_map) s.(direct_map_base)
    s.(direct_map_first_idx) s.(direct_map_last_idx) s.(memory_ready) v
    s.(page_free_count) s.(allocator_log_enabled) s.(irq_on) s.(console).
Definition set_page_free_count (v : Z) (s : mem) : mem :=
  mkMem s.(regions) s.(managed_page_count) s.(reserves) s.(startup_cur)
    s.(startup_end) s.(startup_ready) s.(frame_array_addr) s.(frame_array)
    s.(free_lists) s.(regions_direct_map) s.(direct_map_base)
    s.(direct_map_first_idx) s.(direct_map_last_idx) s.(memory_ready)
    s.(page_alloc_count) v s.(allocator_log_enabled) s.(irq_on) s.(console).
Definition set_allocator_log_enabled (v : bool) (s : mem) : mem :=
  mkMem s.(regions) s.(managed_page_count) s.(reserves) s.(startup_cur)
    s.(startup_end) s.(startup_ready) s.(frame_array_addr) s.(frame_array)
    s.(free_lists) s.(regions_direct_map) s.(direct_map_base)
    s.(direct_map_first_idx) s.(direct_map_last_idx) s.(memory_ready)
    s.(page_alloc_count) s.(page_free_count) v s.(irq_on) s.(console).
Definition set_irq_on (v : bool) (s : mem) : mem :=
  mkMem s.(regions) s.(managed_page_count) s.(reserves) s.(startup_cur)
    s.(startup_end) s.(startup_ready) s.(frame_array_addr) s.(frame_array)
    s.(free_lists) s.(regions_direct_map) s.(direct_map_base)
    s.(direct_map_first_idx) s.(direct_map_last_idx) s.(memory_ready)
    s.(page_alloc_count) s.(page_free_count) s.(allocator_log_enabled) v
    s.(console).
Definition set_console (v : list log_item) (s : mem) : mem :=
  mkMem s.(regions) s.(managed_page_count) s.(reserves) s.(startup_cur)
    s.(startup_end) s.(startup_ready) s.(frame_array_addr) s.(frame_array)
    s.(free_lists) s.(regions_direct_map) s.(direct_map_base)
    s.(direct_map_first_idx) s.(direct_map_last_idx) s.(memory_ready)
    s.(page_alloc_count) s.(page_free_count) s.(allocator_log_enabled)
    s.(irq_on) v.

(** ** Primitive accesses *)

Definition log (items : list log_item) : M mem unit :=
  modify (fun s => set_console (s.(console) ++ items) s).

Definition log_if_enabled (items : list log_item) : M mem unit :=
  en ← gets allocator_log_enabled; when en (log items).

(** [local_irq_save] / [local_irq_restore] on [sstatus.SIE]. *)
Definition local_irq_save : M mem bool :=
  st ← gets irq_on; modify (set_irq_on false) ;; mret st.
Definition local_irq_restore (status : bool) : M mem unit :=
  modify (fun s => set_irq_on (s.(irq_on) || status) s).

(** [frame_array[i]]: an index outside the array has no defined behaviour. *)
Definition frame_get (i : Z) : M mem frame_meta :=
  access (fun s => s.(frame_array) !! i).
Definition frame_upd (i : Z) (f : frame_meta -> frame_meta) : M mem unit :=
  update (fun s =>
    m ← s.(frame_array) !! i; Some (set_frame_array (<[i := f m]> s.(frame_array)) s)).

(** [free_lists[order]]. *)
Definition flist_get (order : Z) : M mem Z :=
  access (fun s => s.(free_lists) !! order).
Definition flist_set (order v : Z) : M mem unit :=
  update (fun s =>
    _ ← s.(free_lists) !! order; Some (set_free_lists (<[order := v]> s.(free_lists)) s)).

(** ** Helpers *)

Definition align_down_u64 (v a : Z) : Z := Z.land v (not64 (u64 (a - 1))).
Definition align_up_u64 (v a : Z) : Z :=
  Z.land (u64 (v + u64 (a - 1))) (not64 (u64 (a - 1))).

Definition ranges_overlap (a_start a_end b_start b_end : Z) : bool :=
  (a_start <? b_end) && (b_start <? a_end).

Definition log_page_range (start_idx order : Z) : list log_item :=
  [LStr "["; LDec start_idx; LStr ", ";
   LDec (u64 (start_idx + Z.shiftl 1 order - 1)); LStr "]"].

(** Number of blocks in one free list.  The walk visits distinct frames, so the
    number of managed pages bounds its length. *)
Definition freelist_count_order (order : Z) : M mem Z :=
  cur ← flist_get order;
  n ← gets managed_page_count;
  loop (S (Z.to_nat n))
    (fun '(cnt, cur) =>
       if 0 <=? cur then
         m ← frame_get (u64 cur); mret (inl (u32 (cnt + 1), m.(free_next)))
       else mret (inr cnt))
    (0, cur).

Definition total_free_pages_count : M mem Z :=
  for_acc (Z.to_nat (MEMORY_BUDDY_MAX_ORDER + 1)) 0
    (fun order total =>
       c ← freelist_count_order order; mret (u64 (total + u64 (Z.shiftl c order))))
    0.

Definition alloc_tag_from_order (order : Z) : Z := i16 (FRAME_ALLOC_BASE - i16 order).
Definition is_alloc_head_tag (tag : Z) : bool := tag <=? FRAME_ALLOC_BASE.
Definition order_from_alloc_tag (tag : Z) : Z := u32 (FRAME_ALLOC_BASE - tag).

(** ** Regions and address conversion *)

Fixpoint find_region_from (rs : list mem_region_info) (rid idx : Z) : option Z :=
  match rs with
  | [] => None
  | r :: rs' =>
      let first := r.(r_first_idx) in
      let last := u64 (first + r.(r_page_count)) in
      if (first <=? idx) && (idx <? last) then Some rid
      else find_region_from rs' (rid + 1) idx
  end.

Definition find_region_by_index (s : mem) (idx : Z) : option Z :=
  if s.(regions_direct_map) then
    if (s.(direct_map_first_idx) <=? idx) && (idx <? s.(direct_map_last_idx)) then Some 0
    else None
  else find_region_from s.(regions) 0 idx.

Definition region_at (s : mem) (rid : Z) : option mem_region_info :=
  s.(regions) !! Z.to_nat rid.

Definition index_to_pa (s : mem) (idx : Z) : option Z :=
  if s.(regions_direct_map) then
    if (idx <? s.(direct_map_first_idx)) || (s.(direct_map_last_idx) <=? idx) then None
    else Some (u64 (s.(direct_map_base) + u64 (u64 (idx - s.(direct_map_first_idx)) * PAGE_SIZE)))
  else
    rid ← find_region_by_index s idx;
    r ← region_at s rid;
    Some (u64 (r.(r_base) + u64 (u64 (idx - r.(r_first_idx)) * PAGE_SIZE))).

(** Returns [(index, region)]. *)
Fixpoint pa_to_index_from (rs : list mem_region_info) (rid pa : Z) : option (Z * Z) :=
  match rs with
  | [] => None
  | r :: rs' =>
      let base := r.(r_base) in
      let end_ := u64 (base + r.(r_size)) in
      if (base <=? pa) && (pa <? end_) then
        let off := u64 (pa - base) in
        let page := off / PAGE_SIZE in
        if negb (off mod PAGE_SIZE =? 0) || (r.(r_page_count) <=? page) then None
        else Some (u64 (r.(r_first_idx) + page), rid)
      else pa_to_index_from rs' (rid + 1) pa
  end.

Definition pa_to_index (s : mem) (pa : Z) : option (Z * Z) :=
  if s.(regions_direct_map) then
    let end_ := u64 (s.(direct_map_base) +
                     u64 (u64 (s.(direct_map_last_idx) - s.(direct_map_first_idx)) * PAGE_SIZE)) in
    if (pa <? s.(direct_map_base)) || (end_ <=? pa) ||
       negb (Z.land pa (PAGE_SIZE - 1) =? 0) then None
    else Some (u64 (s.(direct_map_first_idx) + u64 (pa - s.(direct_map_base)) / PAGE_SIZE), 0)
  else pa_to_index_from s.(regions) 0 pa.

(** ** Reservations *)

Definition memory_reserve (start size : Z) : M mem unit :=
  if size =? 0 then mret tt
  else
    let end0 := u64 (start + size) in
    let end_ := if end0 <? start then UINT64_MAX else end0 in
    let rs := align_down_u64 start PAGE_SIZE in
    let re := if UINT64_MAX - (PAGE_SIZE - 1) <? end_ then UINT64_MAX
              else align_up_u64 end_ PAGE_SIZE in
    if re <=? rs then mret tt
    else
      count ← gets (fun s => Z.of_nat (length s.(reserves)));
      if MEMORY_MAX_RESERVES <=? count then
        log [LStr "[Allocator] "; LStr "reserve table full\n"]
      else
        modify (fun s => set_reserves (s.(reserves) ++ [mkReserve rs re]) s) ;;
        log [LStr "[Allocator] "; LStr "[Reserve] ["; LStr "0x"; LHex rs; LStr ", ";
             LStr "0x"; LHex re; LStr ")"] ;;
        idxs ← gets (fun s => (pa_to_index s rs, pa_to_index s (u64 (re - PAGE_SIZE))));
        match idxs with
        | (Some (start_idx, _), Some (end_idx, _)) =>
            log [LStr " pages ["; LDec start_idx; LStr ", "; LDec (u64 (end_idx + 1)); LStr ")"]
        | _ => mret tt
        end ;;
        log [LStr "\n"].

Definition in_reserve (pa : Z) (r : reserve_range) : bool :=
  (r.(rs_start) <=? pa) && (pa <? r.(rs_end)).

Definition is_reserved_pa (s : mem) (pa : Z) : bool :=
  existsb (in_reserve pa) s.(reserves).

(** ** Startup allocator *)

Definition startup_allocator_init (base size : Z) : M mem unit :=
  let end0 := u64 (base + size) in
  let end_ := if end0 <? base then UINT64_MAX else end0 in
  let cur := if base <? PAGE_SIZE then PAGE_SIZE else base in
  modify (fun s => set_startup_ready (cur <? end_) (set_startup_end end_ (set_startup_cur cur s))).

(** First reservation that overlaps [p, end). *)
Definition first_overlap (rs : list reserve_range) (p end_ : Z) : option reserve_range :=
  List.find (fun r => ranges_overlap p end_ r.(rs_start) r.(rs_end)) rs.

(** The [for (;;)] loop: [None] is the early [return 0]. *)
Definition startup_skip (size align : Z) (rs : list reserve_range) (p0 : Z) : M mem (option Z) :=
  loop (S (length rs))
    (fun p =>
       let end_ := u64 (p + size) in
       if end_ <? p then mret (inr None)
       else match first_overlap rs p end_ with
            | Some r =>
                if UINT64_MAX - (align - 1) <? r.(rs_end) then mret (inr None)
                else mret (inl (align_up_u64 r.(rs_end) align))
            | None => mret (inr (Some p))
            end)
    p0.

(** The result [0] is the null pointer. *)
Definition startup_alloc (size align0 : Z) : M mem Z :=
  ready ← gets startup_ready;
  if negb ready || (size =? 0) then mret 0
  else
    let align := if align0 =? 0 then 16 else align0 in
    if negb (Z.land align (u64 (align - 1)) =? 0) then mret 0
    else
      cur ← gets startup_cur;
      if UINT64_MAX - (align - 1) <? cur then mret 0
      else
        rs ← gets reserves;
        res ← startup_skip size align rs (align_up_u64 cur align);
        match res with
        | None => mret 0
        | Some p =>
            let end_ := u64 (p + size) in
            lim ← gets startup_end;
            if (end_ <? p) || (lim <? end_) then mret 0
            else
              modify (set_startup_cur end_) ;;
              memory_reserve p size ;;
              mret p
        end.

(** ** Frame states and free lists *)

Definition block_mark_free (idx order : Z) : M mem unit :=
  let pages := Z.shiftl 1 order in
  frame_upd idx (set_state (i16 order)) ;;
  for_up (Z.to_nat (pages - 1)) 1 (fun i => frame_upd (u64 (idx + i)) (set_state FRAME_BUDDY)).

Definition block_mark_alloc (idx order : Z) : M mem unit :=
  let pages := Z.shiftl 1 order in
  frame_upd idx (set_state (alloc_tag_from_order order)) ;;
  for_up (Z.to_nat (pages - 1)) 1 (fun i => frame_upd (u64 (idx + i)) (set_state FRAME_USED)).

Definition freelist_push (order idx : Z) : M mem unit :=
  let i := i32 idx in
  old_head ← flist_get order;
  frame_upd idx (set_prev (-1)) ;;
  frame_upd idx (set_next old_head) ;;
  when (0 <=? old_head) (frame_upd (u64 old_head) (set_prev i)) ;;
  flist_set order i ;;
  log_if_enabled ([LStr "[Allocator] "; LStr "[+] Add page "; LDec idx; LStr " to order ";
                   LDec order; LStr ". Range of pages: "] ++ log_page_range idx order ++ [LStr "\n"]).

Definition log_remove (idx order : Z) : M mem unit :=
  log_if_enabled ([LStr "[Allocator] "; LStr "[-] Remove page "; LDec idx; LStr " from order ";
                   LDec order; LStr ". Range of pages: "] ++ log_page_range idx order ++ [LStr "\n"]).

Definition freelist_pop (order : Z) : M mem Z :=
  head ← flist_get order;
  when (0 <=? head) (
    m ← frame_get (u64 head);
    let next := m.(free_next) in
    flist_set order next ;;
    when (0 <=? next) (frame_upd (u64 next) (set_prev (-1))) ;;
    frame_upd (u64 head) (set_prev (-1)) ;;
    frame_upd (u64 head) (set_next (-1)) ;;
    log_remove (u64 head) order) ;;
  mret head.

(** Returns the C result: 0, or -1 when [idx] heads no free block of [order]. *)
Definition freelist_remove (order idx : Z) : M mem Z :=
  n ← gets managed_page_count;
  if n <=? idx then mret (-1)
  else
    m ← frame_get idx;
    if negb (m.(state) =? i16 order) then mret (-1)
    else
      let prev := m.(free_prev) in
      let next := m.(free_next) in
      let unlink :=
        when (0 <=? next) (frame_upd (u64 next) (set_prev prev)) ;;
        frame_upd idx (set_prev (-1)) ;;
        frame_upd idx (set_next (-1)) ;;
        log_remove idx order ;;
        mret 0 in
      if prev <? 0 then
        head ← flist_get order;
        if negb (head =? i32 idx) then mret (-1)
        else flist_set order next ;; unlink
      else frame_upd (u64 prev) (set_next next) ;; unlink.

(** [None] is the C result -1; [Some b] is 0 with [*out = b]. *)
Definition buddy_index (idx order : Z) : M mem (option Z) :=
  let size := Z.shiftl 1 order in
  rid ← gets (fun s => find_region_by_index s idx);
  match rid with
  | None => mret None
  | Some rid =>
      r ← access (fun s => region_at s rid);
      let local_idx := u64 (idx - r.(r_first_idx)) in
      let buddy_local := Z.lxor local_idx size in
      if r.(r_page_count) <=? buddy_local then mret None
      else
        let out := u64 (r.(r_first_idx) + buddy_local) in
        log_if_enabled [LStr "[Allocator] "; LStr "[*] Buddy found! buddy idx: "; LDec out;
                        LStr " for page "; LDec idx; LStr " with order "; LDec order; LStr "\n"] ;;
        mret (Some out)
  end.

(** [floor_log2_u64]: at most 64 rounds. *)
Definition floor_log2_u64 (v : Z) : M mem Z :=
  loop 64 (fun n => if u64 (Z.shiftl 1 (n + 1)) <=? v then mret (inl (n + 1)) else mret (inr n)) 0.

(** The inner loop of [add_free_run]: lower the order until the block is aligned. *)
Definition align_order (run_start_page order : Z) : M mem Z :=
  loop (S (Z.to_nat order))
    (fun o => if (0 <? o) && negb (Z.land run_start_page (Z.shiftl 1 o - 1) =? 0)
              then mret (inl (o - 1)) else mret (inr o))
    order.

Definition add_free_run (rid run_start_page0 run_pages0 : Z) : M mem unit :=
  loop (S (Z.to_nat run_pages0))
    (fun '(run_start_page, run_pages) =>
       if 0 <? run_pages then
         order0 ← floor_log2_u64 run_pages;
         let order1 := if MEMORY_BUDDY_MAX_ORDER <? order0 then MEMORY_BUDDY_MAX_ORDER else order0 in
         order ← align_order run_start_page order1;
         r ← access (fun s => region_at s rid);
         let idx := u64 (r.(r_first_idx) + run_start_page) in
         block_mark_free idx order ;;
         freelist_push order idx ;;
         mret (inl (u64 (run_start_page + Z.shiftl 1 order), u64 (run_pages - Z.shiftl 1 order)))
       else mret (inr tt))
    (run_start_page0, run_pages0).

(** Allocation of the metadata array: the startup allocator returns its
    address; the model keeps the array itself in [frame_array]. *)
Definition fresh_frames (n : nat) : gmap Z frame_meta :=
  list_to_map (map (fun i => (Z.of_nat i, mkFrame FRAME_USED (-1) (-1) PAGE_KIND_NONE)) (seq 0 n)).

Definition buddy_setup_metadata : M mem Z :=
  n ← gets managed_page_count;
  let frame_array_bytes := u64 (n * SIZEOF_FRAME_META) in
  addr ← startup_alloc frame_array_bytes PAGE_SIZE;
  modify (set_frame_array_addr addr) ;;
  if addr =? 0 then mret (-1)
  else
    modify (set_frame_array (fresh_frames (Z.to_nat n))) ;;
    for_up (Z.to_nat (MEMORY_BUDDY_MAX_ORDER + 1)) 0 (fun i => flist_set i (-1)) ;;
    mret 0.

(** The scan of one region: locals are [(run_start, run_len)]. *)
Definition build_region (rid : Z) : M mem unit :=
  r ← access (fun s => region_at s rid);
  run ← for_acc (Z.to_nat r.(r_page_count)) 0
    (fun p '(run_start, run_len) =>
       let idx := u64 (r.(r_first_idx) + p) in
       let pa := u64 (r.(r_base) + u64 (p * PAGE_SIZE)) in
       res ← gets (fun s => is_reserved_pa s pa);
       if (res : bool) then
         (if 0 <? run_len then add_free_run rid run_start run_len else mret tt) ;;
         frame_upd idx (set_state FRAME_USED) ;;
         mret (run_start, 0)
       else mret (if run_len =? 0 then p else run_start, run_len + 1))
    (0, 0);
  let '(run_start, run_len) := run in
  when (0 <? run_len) (add_free_run rid run_start run_len).

Definition buddy_build_initial_state : M mem unit :=
  n ← gets (fun s => length s.(regions));
  for_up n 0 build_region.

(** ** Allocation *)

(** Round the page count up to an order; [None] is the early [return 0]. *)
Definition round_order (pages : Z) : M mem (option Z) :=
  loop 22 (fun o => if Z.shiftl 1 o <? pages
                    then if MEMORY_BUDDY_MAX_ORDER <? o + 1 then mret (inr None)
                         else mret (inl (o + 1))
                    else mret (inr (Some o))) 0.

(** Smallest order at or above [need] with a free block (21 when there is none). *)
Definition find_order (need : Z) : M mem Z :=
  loop 22 (fun o => if o <=? MEMORY_BUDDY_MAX_ORDER
                    then h ← flist_get o;
                         if h <? 0 then mret (inl (o + 1)) else mret (inr o)
                    else mret (inr o)) need.

(** The splitting loop: the right half of the block becomes free, the left half
    is split further. *)
Definition split_block (idx need_order cur_order0 : Z) : M mem unit :=
  loop 22 (fun cur =>
    if need_order <? cur then
      let cur_order := cur - 1 in
      let buddy_idx := u64 (idx + Z.shiftl 1 cur_order) in
      block_mark_free buddy_idx cur_order ;;
      freelist_push cur_order buddy_idx ;;
      bpa ← gets (fun s => index_to_pa s buddy_idx);
      match bpa with
      | Some buddy_pa =>
          log_if_enabled ([LStr "[Allocator] "; LStr "[+] Add split page "; LDec buddy_idx;
            LStr " to order "; LDec cur_order; LStr ". Range of pages: "] ++
            log_page_range buddy_idx cur_order ++
            [LStr " addr="; LStr "0x"; LHex buddy_pa; LStr "\n"])
      | None => mret tt
      end ;;
      block_mark_free idx cur_order ;;
      mret (inl cur_order)
    else mret (inr tt)) cur_order0.

Definition p_alloc_locked (pages : Z) : M mem Z :=
  ready ← gets memory_ready;
  if negb ready || (pages =? 0) then mret 0
  else
    no ← round_order pages;
    match no with
    | None => mret 0
    | Some need_order =>
        cur_order ← find_order need_order;
        if MEMORY_BUDDY_MAX_ORDER <? cur_order then mret 0
        else
          idx32 ← freelist_pop cur_order;
          if idx32 <? 0 then mret 0
          else
            let idx := u64 idx32 in
            split_block idx need_order cur_order ;;
            block_mark_alloc idx need_order ;;
            pa0 ← gets (fun s => index_to_pa s idx);
            match pa0 with
            | None => mret 0
            | Some pa =>
                nxt ← gets (fun s => index_to_pa s (u64 (idx + Z.shiftl 1 need_order)));
                log_if_enabled ([LStr "[Allocator] "; LStr "[Page] Allocate "; LStr "0x"; LHex pa;
                  LStr " at order "; LDec need_order; LStr ", page "; LDec idx;
                  LStr ". Next address at order "; LDec need_order; LStr ": "] ++
                  match nxt with Some npa => [LStr "0x"; LHex npa] | None => [LStr "none"] end ++
                  [LStr "\n"]) ;;
                pa1 ← gets (fun s => index_to_pa s idx);
                match pa1 with
                | None => mret 0
                | Some pa' =>
                    modify (fun s => set_page_alloc_count (u64 (s.(page_alloc_count) + 1)) s) ;;
                    mret pa'
                end
            end
    end.

(** ** Release *)

(** The merge loop: locals are [(merged_idx, merged_order)]. *)
Definition merge_block (idx order : Z) : M mem (Z * Z) :=
  loop 22 (fun '(merged_idx, merged_order) =>
    if merged_order <? MEMORY_BUDDY_MAX_ORDER then
      bo ← buddy_index merged_idx merged_order;
      match bo with
      | None => mret (inr (merged_idx, merged_order))
      | Some buddy =>
          m ← frame_get buddy;
          if negb (m.(state) =? i16 merged_order) then mret (inr (merged_idx, merged_order))
          else
            rc ← freelist_remove merged_order buddy;
            if negb (rc =? 0) then mret (inr (merged_idx, merged_order))
            else mret (inl (if buddy <? merged_idx then buddy else merged_idx, merged_order + 1))
      end
    else mret (inr (merged_idx, merged_order))) (idx, order).

Definition p_free_locked (pa : Z) : M mem unit :=
  ready ← gets memory_ready;
  if negb ready || (pa =? 0) then mret tt
  else if negb (Z.land pa (PAGE_SIZE - 1) =? 0) then mret tt
  else
    io ← gets (fun s => pa_to_index s pa);
    match io with
    | None => mret tt
    | Some (idx, _) =>
        m ← frame_get idx;
        let tag := m.(state) in
        if negb (is_alloc_head_tag tag) then mret tt
        else
          let order := order_from_alloc_tag tag in
          mo ← merge_block idx order;
          let '(merged_idx, merged_order) := mo in
          block_mark_free merged_idx merged_order ;;
          freelist_push merged_order merged_idx ;;
          head ← flist_get merged_order;
          npa ← gets (fun s => if 0 <=? head then index_to_pa s (u64 head) else None);
          log_if_enabled ([LStr "[Allocator] "; LStr "[Page] Free "; LStr "0x"; LHex pa;
            LStr " and add back to order "; LDec merged_order; LStr ", page "; LDec merged_idx;
            LStr ". Next address at order "; LDec merged_order; LStr ": "] ++
            match npa with Some p => [LStr "0x"; LHex p] | None => [LStr "none"] end ++
            [LStr "\n"]) ;;
          modify (fun s => set_page_free_count (u64 (s.(page_free_count) + 1)) s)
    end.

Definition p_alloc (pages : Z) : M mem Z :=
  status ← local_irq_save;
  ptr ← p_alloc_locked pages;
  local_irq_restore status ;;
  mret ptr.

Definition p_free (ptr : Z) : M mem unit :=
  status ← local_irq_save;
  p_free_locked ptr ;;
  local_irq_restore status.

(** ** Ownership tags and queries *)

Record page_info := mkPageInfo {
  pi_index : Z;
  pi_kind : page_kind;
  pi_allocated_head : bool;
}.

(** [None] is the C result -1. *)
Definition page_query (base : Z) : M mem (option page_info) :=
  ready ← gets memory_ready;
  io ← gets (fun s => pa_to_index s base);
  match ready, io with
  | true, Some (idx, _) =>
      m ← frame_get idx;
      mret (Some (mkPageInfo idx m.(kind) (is_alloc_head_tag m.(state))))
  | _, _ => mret None
  end.

Definition page_set_kind (base : Z) (k : page_kind) : M mem unit :=
  ready ← gets memory_ready;
  io ← gets (fun s => pa_to_index s base);
  match ready, io with
  | true, Some (idx, _) =>
      m ← frame_get idx;
      when (is_alloc_head_tag m.(state)) (frame_upd idx (set_kind k))
  | _, _ => mret tt
  end.

Definition memory_allocator_log_enabled : M mem bool := gets allocator_log_enabled.

Definition memory_set_allocator_log_enabled (enabled : Z) : M mem unit :=
  modify (set_allocator_log_enabled (negb (enabled =? 0))).

(** The shell dump: counts are taken in one critical section, then printed. *)
Definition memory_print_buddyinfo : M mem unit :=
  status ← local_irq_save;
  block_counts ← for_acc (Z.to_nat (MEMORY_BUDDY_MAX_ORDER + 1)) 0
    (fun order acc => c ← freelist_count_order order; mret (acc ++ [c])) [];
  local_irq_restore status ;;
  log [LStr "Buddy free lists:\n"; LStr "order blocks pages\n"] ;;
  total_free_pages ← for_acc (Z.to_nat (MEMORY_BUDDY_MAX_ORDER + 1)) 0
    (fun order total =>
       blocks ← defined (block_counts !! Z.to_nat order);
       let pages := u64 (Z.shiftl blocks order) in
       if blocks =? 0 then mret total
       else log [LDec order; LStr " "; LDec blocks; LStr " "; LDec pages; LStr "\n"] ;;
            mret (u64 (total + pages)))
    0;
  log [LStr "total_free_pages: "; LDec total_free_pages; LStr "\n"].
