(* ===== verification/Layout.v ===== *)
(** * Pages and physical addresses

    The RAM regions of [memory.c] give every managed page a global index and a
    physical address.  [layout_ok] is what [memory_init] establishes about the
    region table; under it the conversion functions are total, exact and
    inverse to each other, in the single-region fast path as well. *)

From S2P Require Import Prelude Memory.

Open Scope Z_scope.

(** ** Regions *)

(** The page [i] belongs to the region [r]. *)
Definition page_in (r : mem_region_info) (i : Z) : Prop :=
  r.(r_first_idx) <= i < r.(r_first_idx) + r.(r_page_count).

Definition region_of (regs : list mem_region_info) (i : Z) (r : mem_region_info) : Prop :=
  r ∈ regs /\ page_in r i.

(** Consecutive page indices from [first] to [total], page-aligned bases, no
    region that reaches the end of the address space. *)
Fixpoint regions_from (first : Z) (regs : list mem_region_info) (total : Z) : Prop :=
  match regs with
  | [] => total = first
  | r :: regs' =>
      r.(r_first_idx) = first /\ 0 < r.(r_page_count) /\ 0 <= r.(r_base) /\
      (PAGE_SIZE | r.(r_base)) /\ r.(r_size) = r.(r_page_count) * PAGE_SIZE /\
      r.(r_base) + r.(r_size) < 2 ^ 64 /\
      regions_from (first + r.(r_page_count)) regs' total
  end.

Definition regions_disjoint (regs : list mem_region_info) : Prop :=
  forall r r', r ∈ regs -> r' ∈ regs -> r <> r' ->
    r.(r_base) + r.(r_size) <= r'.(r_base) \/ r'.(r_base) + r'.(r_size) <= r.(r_base).

Record layout_ok (s : mem) : Prop := {
  lo_regions : regions_from 0 s.(regions) s.(managed_page_count);
  lo_disjoint : regions_disjoint s.(regions);
  lo_bound : s.(managed_page_count) <= INT32_MAX;
  lo_direct : s.(regions_direct_map) = true ->
    exists r, s.(regions) = [r] /\ s.(direct_map_base) = r.(r_base) /\
      s.(direct_map_first_idx) = r.(r_first_idx) /\
      s.(direct_map_last_idx) = r.(r_first_idx) + r.(r_page_count);
}.

(** Physical address of the page [i] of region [r]. *)
Definition page_pa (r : mem_region_info) (i : Z) : Z :=
  r.(r_base) + (i - r.(r_first_idx)) * PAGE_SIZE.

(** ** Region lemmas *)

Lemma regions_from_bounds f regs total r :
  regions_from f regs total -> r ∈ regs ->
  f <= r.(r_first_idx) /\ r.(r_first_idx) + r.(r_page_count) <= total /\
  0 < r.(r_page_count) /\ 0 <= r.(r_base) /\ (PAGE_SIZE | r.(r_base)) /\
  r.(r_size) = r.(r_page_count) * PAGE_SIZE /\ r.(r_base) + r.(r_size) < 2 ^ 64.
Proof.
  revert f. induction regs as [|r' regs IH]; intros f H Hr; [set_solver|].
  destruct H as (Hf & Hc & Hb & Hd & Hs & He & H).
  assert (Htot : f + r_page_count r' <= total).
  { clear -H. revert H. generalize (f + r_page_count r'). induction regs as [|q regs IH]; cbn; intros z Hz; [lia|].
    destruct Hz as (_ & ? & _ & _ & _ & _ & Hz). apply IH in Hz. lia. }
  apply elem_of_cons in Hr as [->|Hr]; [repeat split; (done || lia)|].
  specialize (IH _ H Hr). destruct IH as (? & ?). split; [lia|done].
Qed.

Lemma regions_from_cover f regs total i :
  regions_from f regs total -> f <= i < total -> exists r, region_of regs i r.
Proof.
  revert f. induction regs as [|r regs IH]; intros f H Hi; [cbn in H; lia|].
  destruct H as (Hf & Hc & Hb & Hd & Hs & He & H).
  destruct (Z.lt_ge_cases i (f + r_page_count r)).
  - exists r. split; [set_solver|]. unfold page_in. lia.
  - destruct (IH _ H) as (r' & Hr' & Hp); [lia|]. exists r'. split; [set_solver|done].
Qed.

Lemma region_of_unique f regs total i r r' :
  regions_from f regs total -> region_of regs i r -> region_of regs i r' -> r = r'.
Proof.
  revert f. induction regs as [|q regs IH]; intros f H [Hr Hp] [Hr' Hp']; [set_solver|].
  destruct H as (Hf & Hc & Hb & Hd & Hs & He & H). unfold page_in in *.
  apply elem_of_cons in Hr as [->|Hr]; apply elem_of_cons in Hr' as [->|Hr']; try done.
  - pose proof (regions_from_bounds _ _ _ _ H Hr'). lia.
  - pose proof (regions_from_bounds _ _ _ _ H Hr). lia.
  - eapply IH; [done|split; done|split; done].
Qed.

(** ** Lookup by page index *)

Lemma find_region_from_spec rs f total rid idx :
  regions_from f rs total -> 0 <= f -> total < 2 ^ 64 ->
  match find_region_from rs rid idx with
  | Some k => exists r, rid <= k /\ rs !! Z.to_nat (k - rid) = Some r /\ page_in r idx
  | None => ~ (f <= idx < total)
  end.
Proof.
  revert f rid. induction rs as [|r rs IH]; intros f rid H Hf Ht; [cbn in *; lia|].
  pose proof (regions_from_bounds _ _ _ r H ltac:(set_solver)) as Hb.
  destruct H as (Hfi & Hc & Hb0 & Hd & Hs & He & H). cbn.
  rewrite u64_id by lia.
  destruct ((r_first_idx r <=? idx) && (idx <? r_first_idx r + r_page_count r)) eqn:E.
  - exists r. replace (rid - rid) with 0 by lia. split; [lia|]. split; [done|]. unfold page_in. lia.
  - specialize (IH (f + r_page_count r) (rid + 1) H ltac:(lia) Ht).
    destruct (find_region_from rs (rid + 1) idx) as [k|].
    + destruct IH as (r' & Hk & Hr' & Hp). exists r'. split; [lia|]. split; [|done].
      replace (Z.to_nat (k - rid)) with (S (Z.to_nat (k - (rid + 1)))) by lia. done.
    + lia.
Qed.

Section layout.
Context (s : mem) (Hlo : layout_ok s).

Lemma managed_bound : 0 <= s.(managed_page_count) < 2 ^ 31.
Proof.
  destruct Hlo as [Hr _ Hb _]. unfold INT32_MAX in Hb. split; [|lia].
  destruct (regions s) as [|r rs] eqn:E; [cbn in Hr; lia|].
  pose proof (regions_from_bounds _ _ _ r Hr ltac:(set_solver)). lia.
Qed.

Lemma find_region_by_index_spec idx :
  match find_region_by_index s idx with
  | Some rid => exists r, region_at s rid = Some r /\ region_of s.(regions) idx r
  | None => ~ (0 <= idx < s.(managed_page_count))
  end.
Proof.
  pose proof managed_bound as Hm. destruct Hlo as [Hr _ Hb Hdir].
  unfold find_region_by_index, region_at, region_of.
  destruct (regions_direct_map s).
  - destruct (Hdir eq_refl) as (r & Hrs & _ & -> & ->). rewrite Hrs in Hr |- *.
    destruct Hr as (Hf & ? & ? & ? & ? & ? & Ht). cbn in Ht.
    destruct (_ && _) eqn:E; [|lia]. exists r. cbn. split; [done|]. split; [set_solver|unfold page_in; lia].
  - pose proof (find_region_from_spec (regions s) 0 (managed_page_count s) 0 idx Hr ltac:(lia) ltac:(lia)) as H.
    destruct (find_region_from _ _ _) as [k|]; [|done].
    destruct H as (r & Hk & Hlk & Hp). rewrite Z.sub_0_r in Hlk. exists r. split; [done|].
    split; [|done]. by eapply list_elem_of_lookup_2.
Qed.

Lemma region_page_bounds idx r :
  region_of s.(regions) idx r ->
  0 <= idx < s.(managed_page_count) /\ 0 <= r.(r_first_idx) /\
  r.(r_first_idx) + r.(r_page_count) <= s.(managed_page_count) /\
  0 <= page_pa r idx /\ page_pa r idx + PAGE_SIZE <= r.(r_base) + r.(r_size) < 2 ^ 64 /\
  r.(r_base) <= page_pa r idx /\ (PAGE_SIZE | page_pa r idx).
Proof.
  intros [Hr Hp]. pose proof (regions_from_bounds _ _ _ _ (lo_regions s Hlo) Hr) as (? & ? & ? & ? & [q Hq] & ? & ?).
  unfold page_in, page_pa, PAGE_SIZE in *.
  repeat split; try nia. exists (q + (idx - r_first_idx r)). lia.
Qed.

Lemma index_to_pa_spec idx r :
  region_of s.(regions) idx r -> index_to_pa s idx = Some (page_pa r idx).
Proof.
  intros Hr. pose proof (region_page_bounds _ _ Hr) as (Hi & Hf & Hl & Hpa & Hlt & Hge & _).
  pose proof managed_bound as Hm. pose proof (find_region_by_index_spec idx) as Hfind.
  unfold index_to_pa. destruct (regions_direct_map s) eqn:Edm.
  - destruct (lo_direct s Hlo Edm) as (r' & Hrs & -> & -> & ->).
    assert (r' = r) as -> by (destruct Hr as [Hr _]; rewrite Hrs in Hr; set_solver).
    destruct Hr as [_ Hp]. unfold page_in, page_pa, PAGE_SIZE in *.
    destruct (_ || _) eqn:E; [lia|]. f_equal.
    rewrite (u64_id (idx - _)) by lia. rewrite (u64_id (_ * _)) by lia. rewrite u64_id by lia. done.
  - destruct (find_region_by_index s idx) as [rid|]; [|lia].
    destruct Hfind as (r' & Hat & Hr'). cbn. rewrite Hat. cbn.
    assert (r' = r) as -> by (eapply region_of_unique; [apply (lo_regions s Hlo)|done|done]).
    unfold page_pa, PAGE_SIZE in *. destruct Hr as [_ Hp]. unfold page_in in Hp.
    rewrite (u64_id (idx - _)) by lia. rewrite (u64_id (_ * _)) by lia. rewrite u64_id by lia. done.
Qed.

Lemma index_to_pa_total idx :
  0 <= idx < s.(managed_page_count) ->
  exists r, region_of s.(regions) idx r /\ index_to_pa s idx = Some (page_pa r idx).
Proof.
  intros Hi. destruct (regions_from_cover _ _ _ idx (lo_regions s Hlo) Hi) as (r & Hr).
  exists r. split; [done|]. by apply index_to_pa_spec.
Qed.

Lemma index_to_pa_None idx : ~ (0 <= idx < s.(managed_page_count)) -> index_to_pa s idx = None.
Proof.
  intros Hi. unfold index_to_pa. pose proof (find_region_by_index_spec idx) as Hfind.
  pose proof managed_bound.
  destruct (regions_direct_map s) eqn:Edm.
  - destruct (lo_direct s Hlo Edm) as (r & Hrs & -> & -> & ->).
    pose proof (lo_regions s Hlo) as Hr. rewrite Hrs in Hr. destruct Hr as (? & ? & _ & _ & _ & _ & Ht). cbn in Ht.
    destruct (_ || _) eqn:E; [done|lia].
  - destruct (find_region_by_index s idx) as [rid|]; [|done].
    destruct Hfind as (r & _ & Hr). apply region_page_bounds in Hr. lia.
Qed.

(** ** Lookup by address *)

Lemma pa_to_index_from_sound rs f total rid pa i k :
  regions_from f rs total -> 0 <= f -> total < 2 ^ 63 -> 0 <= pa ->
  pa_to_index_from rs rid pa = Some (i, k) ->
  exists r, r ∈ rs /\ page_in r i /\ page_pa r i = pa.
Proof.
  revert f rid. induction rs as [|r rs IH]; intros f rid H Hf Ht Hpa Hrun; [done|].
  pose proof (regions_from_bounds _ _ _ r H ltac:(set_solver)) as Hb.
  destruct H as (Hfi & Hc & Hb0 & Hd & Hs & He & H). cbn in Hrun.
  rewrite (u64_id (r_base r + r_size r)) in Hrun by (unfold PAGE_SIZE in *; lia).
  destruct ((r_base r <=? pa) && (pa <? r_base r + r_size r)) eqn:E.
  - rewrite (u64_id (pa - r_base r)) in Hrun by lia.
    destruct (negb _ || _) eqn:E2; [done|].
    assert (Hmod : (pa - r_base r) mod PAGE_SIZE = 0) by lia.
    assert (Hlt : (pa - r_base r) / PAGE_SIZE < r_page_count r) by lia.
    pose proof (Z.div_mod (pa - r_base r) PAGE_SIZE ltac:(done)) as Hdm.
    pose proof (Z.div_pos (pa - r_base r) PAGE_SIZE ltac:(lia) ltac:(done)).
    injection Hrun as <- <-. rewrite u64_id by lia.
    exists r. split; [set_solver|]. split; [unfold page_in; lia|]. unfold page_pa. lia.
  - destruct (IH (f + r_page_count r) (rid + 1) H ltac:(lia) Ht Hpa Hrun) as (r' & ? & ?).
    exists r'. split; [set_solver|done].
Qed.

Lemma pa_to_index_from_complete rs f total rid r i :
  regions_from f rs total -> 0 <= f -> total < 2 ^ 63 -> regions_disjoint rs ->
  r ∈ rs -> page_in r i -> exists k, pa_to_index_from rs rid (page_pa r i) = Some (i, k).
Proof.
  revert f rid. induction rs as [|q rs IH]; intros f rid H Hf Ht Hdis Hr Hp; [set_solver|].
  pose proof (regions_from_bounds _ _ _ r H Hr) as Hbr.
  pose proof (regions_from_bounds _ _ _ q H ltac:(set_solver)) as Hbq.
  destruct H as (Hfi & Hc & Hb0 & Hd & Hs & He & H). cbn.
  rewrite (u64_id (r_base q + r_size q)) by (unfold PAGE_SIZE in *; lia).
  assert (Hpa : r_base r <= page_pa r i < r_base r + r_size r).
  { unfold page_pa, page_in, PAGE_SIZE in *. lia. }
  destruct ((r_base q <=? page_pa r i) && (page_pa r i <? r_base q + r_size q)) eqn:E.
  - assert (q = r) as ->.
    { destruct (decide (q = r)) as [|Hne]; [done|]. 
      destruct (Hdis q r ltac:(set_solver) Hr Hne); lia. }
    rewrite u64_id by lia.
    assert (Hoff : page_pa r i - r_base r = (i - r_first_idx r) * PAGE_SIZE) by (unfold page_pa; lia).
    rewrite Hoff, Z.mod_mul, Z.div_mul by done. unfold page_in in Hp.
    destruct (negb _ || _) eqn:E2; [lia|].
    rewrite u64_id by lia. eexists. repeat f_equal. lia.
  - apply elem_of_cons in Hr as [->|Hr]; [lia|].
    apply (IH (f + r_page_count q)); try done; [lia|].
    intros a b Ha Hb. apply Hdis; set_solver.
Qed.

Lemma pa_to_index_sound pa i k :
  0 <= pa -> pa_to_index s pa = Some (i, k) ->
  exists r, region_of s.(regions) i r /\ page_pa r i = pa.
Proof.
  intros Hpa Hrun. pose proof managed_bound as Hm. pose proof (lo_regions s Hlo) as Hr.
  unfold pa_to_index in Hrun. destruct (regions_direct_map s) eqn:Edm.
  - destruct (lo_direct s Hlo Edm) as (r & Hrs & Eb & Ef & El). rewrite Eb, Ef, El in Hrun.
    rewrite Hrs in Hr |- *. destruct Hr as (Hfi & Hc & Hb0 & Hd & Hs & He & Ht). cbn in Ht.
    unfold PAGE_SIZE in *.
    rewrite (u64_id (r_first_idx r + _ - _)) in Hrun by lia.
    rewrite (u64_id (_ * 4096)) in Hrun by lia.
    rewrite (u64_id (r_base r + _)) in Hrun by lia.
    destruct (_ || _ || _) eqn:E in Hrun; [done|].
    rewrite !orb_false_iff, negb_false_iff, Z.eqb_eq in E. destruct E as [[E1 E2] E3].
    change 4095 with (2 ^ 12 - 1) in E3. change (4096 - 1) with (2 ^ 12 - 1) in E3.
    rewrite land_pow2_mask in E3 by lia. change (2 ^ 12) with 4096 in E3.
    injection Hrun as Hi _. rewrite (u64_id (pa - _)) in Hi by lia.
    pose proof (Z.div_mod (pa - r_base r) 4096 ltac:(done)) as Hdm.
    assert ((pa - r_base r) mod 4096 = 0) as Hz.
    { destruct Hd as [q ->].
      replace (pa - q * 4096) with (pa + (- q) * 4096) by lia. by rewrite Z.mod_add. }
    assert (Hq : 0 <= (pa - r_base r) / 4096 < r_page_count r) by lia.
    rewrite u64_id in Hi by lia. exists r. unfold region_of, page_in, page_pa, PAGE_SIZE.
    split; [split; [set_solver|lia]|lia].
  - destruct (pa_to_index_from_sound _ _ _ _ _ _ _ Hr ltac:(lia) ltac:(lia) Hpa Hrun) as (r & ? & ? & ?).
    exists r. done.
Qed.

Lemma pa_to_index_complete i r :
  region_of s.(regions) i r -> exists k, pa_to_index s (page_pa r i) = Some (i, k).
Proof.
  intros Hr. pose proof (region_page_bounds _ _ Hr) as (Hi & Hf & Hl & Hpa & Hlt & Hge & Hal).
  pose proof managed_bound as Hm. unfold pa_to_index. destruct (regions_direct_map s) eqn:Edm.
  - destruct (lo_direct s Hlo Edm) as (r' & Hrs & -> & -> & ->).
    assert (r' = r) as -> by (destruct Hr as [Hr _]; rewrite Hrs in Hr; set_solver).
    pose proof (lo_regions s Hlo) as Hrg. rewrite Hrs in Hrg.
    destruct Hrg as (Hfi & Hc & Hb0 & Hd & Hs & He & Ht). destruct Hr as [_ Hp].
    unfold page_in, PAGE_SIZE in *.
    rewrite (u64_id (r_first_idx r + _ - _)) by lia. rewrite (u64_id (_ * 4096)) by lia.
    rewrite (u64_id (r_base r + _)) by lia.
    replace (Z.land (page_pa r i) (4096 - 1)) with 0; cycle 1.
    { change (4096 - 1) with (2 ^ 12 - 1). rewrite land_pow2_mask by lia.
      symmetry. apply divide_mod_0; [lia|done]. }
    destruct (_ || _ || _) eqn:E; [cbn in E; lia|].
    assert (Hoff : page_pa r i - r_base r = (i - r_first_idx r) * 4096) by (unfold page_pa, PAGE_SIZE; lia).
    rewrite (u64_id (page_pa r i - _)) by lia. rewrite Hoff, Z.div_mul by done.
    rewrite u64_id by lia. eexists. repeat f_equal. lia.
  - destruct Hr as [Hr Hp]. apply (pa_to_index_from_complete _ 0 (managed_page_count s)); try done; [|lia|].
    + apply (lo_regions s Hlo).
    + apply (lo_disjoint s Hlo).
Qed.

End layout.
