(* ===== verification/BuddyInv.v ===== *)
(** * The buddy allocator's invariant

    What the frame array and the free lists of [memory.c] mean, as a predicate
    [binv] over the allocator state, and the lemmas that say how marking,
    linking and unlinking a block change it.  The predicate carries a set [X]
    of pages that are in nobody's hands at the moment (a block that is being
    split, merged or moved): outside [X] everything is well formed. *)

From S2P Require Import Prelude Lists Memory Layout.

Open Scope Z_scope.

(** ** Blocks *)

Definition reserved_page (regs : list mem_region_info) (res : list reserve_range) (i : Z) : Prop :=
  exists r, region_of regs i r /\ existsb (in_reserve (page_pa r i)) res = true.

(** [2^o] pages from [i], inside one region and aligned in it. *)
Definition valid_block (regs : list mem_region_info) (i o : Z) : Prop :=
  exists r, r ∈ regs /\ r.(r_first_idx) <= i /\
    i + 2 ^ o <= r.(r_first_idx) + r.(r_page_count) /\ (2 ^ o | i - r.(r_first_idx)).

Definition in_block (i o j : Z) : Prop := i <= j < i + 2 ^ o.

(** The block of the same order that [i] can merge with. *)
Definition sibling (regs : list mem_region_info) (i o b : Z) : Prop :=
  exists r, region_of regs i r /\
    Z.lxor (i - r.(r_first_idx)) (2 ^ o) < r.(r_page_count) /\
    b = r.(r_first_idx) + Z.lxor (i - r.(r_first_idx)) (2 ^ o).

Definition fstate (fa : gmap Z frame_meta) (i : Z) : option Z := state <$> fa !! i.
Definition flinks (fa : gmap Z frame_meta) (i : Z) : option (Z * Z) :=
  (fun m => (m.(free_prev), m.(free_next))) <$> fa !! i.

(** Head tag and body tag of a free ([fr = true]) or allocated block. *)
Definition head_tag (fr : bool) (o : Z) : Z := if fr then o else FRAME_ALLOC_BASE - o.
Definition body_tag (fr : bool) : Z := if fr then FRAME_BUDDY else FRAME_USED.

Definition order_ok (o : Z) : Prop := 0 <= o <= MEMORY_BUDDY_MAX_ORDER.

(** The link fields: for each order, the doubly linked list of the heads [fl o]. *)
Record blinks (n : Z) (fa : gmap Z frame_meta) (hd : gmap Z Z) (fl : Z -> list Z) : Prop := {
  bl_dom : forall i, is_Some (fa !! i) <-> 0 <= i < n;
  bl_heads : forall o, is_Some (hd !! o) <-> order_ok o;
  bl_dll : forall o h, hd !! o = Some h -> dll (-1) (flinks fa) (-1) h (fl o);
  bl_nodup : forall o, order_ok o -> NoDup (fl o);
}.

Section states.
Context (regs : list mem_region_info) (n : Z) (res : list reserve_range).

Definition block_ok (X : Z -> Prop) (i o : Z) : Prop :=
  valid_block regs i o /\ forall j, in_block i o j -> ~ X j /\ ~ reserved_page regs res j.

(** The state tags outside [X]. *)
Record bstates (X : Z -> Prop) (fa : gmap Z frame_meta) (fl : Z -> list Z) : Prop := {
  bs_mem : forall o i, order_ok o -> (i ∈ fl o <-> ~ X i /\ fstate fa i = Some o);
  bs_block : forall fr i o, ~ X i -> fstate fa i = Some (head_tag fr o) -> 0 <= o ->
    order_ok o /\ block_ok X i o /\
    forall j, i < j < i + 2 ^ o -> fstate fa j = Some (body_tag fr);
  bs_buddy : forall i, ~ X i -> fstate fa i = Some FRAME_BUDDY ->
    exists h o, ~ X h /\ fstate fa h = Some o /\ 0 <= o /\ h < i < h + 2 ^ o;
  bs_tags : forall i t, ~ X i -> fstate fa i = Some t ->
    t = FRAME_BUDDY \/ t = FRAME_USED \/ exists fr o, 0 <= o /\ t = head_tag fr o;
  bs_X : forall i, X i -> 0 <= i < n /\ ~ reserved_page regs res i;
  bs_coalesced : forall i o b, ~ X i -> fstate fa i = Some o -> 0 <= o < MEMORY_BUDDY_MAX_ORDER ->
    sibling regs i o b -> ~ X b -> fstate fa b <> Some o;
}.

End states.

(** The state invariant: nothing is in transit. *)
Definition no_page : Z -> Prop := fun _ => False.

Record binv (X : Z -> Prop) (s : mem) (fl : Z -> list Z) : Prop := {
  bi_layout : layout_ok s;
  bi_links : blinks s.(managed_page_count) s.(frame_array) s.(free_lists) fl;
  bi_states : bstates s.(regions) s.(managed_page_count) s.(reserves) X s.(frame_array) fl;
}.

Definition buddy_ok (s : mem) : Prop := exists fl, binv no_page s fl.

(** Pages on the free lists. *)
Definition free_pages (fl : Z -> list Z) : Z :=
  foldr (fun o acc => Z.of_nat (length (fl (Z.of_nat o))) * 2 ^ Z.of_nat o + acc) 0 (seq 0 21).

Definition fl_set (fl : Z -> list Z) (o : Z) (L : list Z) : Z -> list Z :=
  fun k => if k =? o then L else fl k.

(** ** Updates of the frame array, pointwise *)

Definition marked (fa fa' : gmap Z frame_meta) (i o t b : Z) : Prop :=
  forall j, fa' !! j =
    if decide (j = i) then set_state t <$> fa !! j
    else if decide (i < j < i + 2 ^ o) then set_state b <$> fa !! j else fa !! j.

Definition pushed (fa fa' : gmap Z frame_meta) (i h : Z) : Prop :=
  forall j, fa' !! j =
    if decide (j = i) then set_links (-1) h <$> fa !! j
    else if decide (j = h) then set_prev i <$> fa !! j else fa !! j.

Definition unlinked (fa fa' : gmap Z frame_meta) (i p nx : Z) : Prop :=
  forall j, fa' !! j =
    if decide (j = i) then set_links (-1) (-1) <$> fa !! j
    else (fun m => set_links (if decide (j = nx) then p else m.(free_prev))
                             (if decide (j = p) then nx else m.(free_next)) m) <$> fa !! j.

Lemma marked_dom fa fa' i o t b j : marked fa fa' i o t b -> is_Some (fa' !! j) <-> is_Some (fa !! j).
Proof. intros H. rewrite H. repeat case_decide; by rewrite ?fmap_is_Some. Qed.
Lemma pushed_dom fa fa' i h j : pushed fa fa' i h -> is_Some (fa' !! j) <-> is_Some (fa !! j).
Proof. intros H. rewrite H. repeat case_decide; by rewrite ?fmap_is_Some. Qed.
Lemma unlinked_dom fa fa' i p nx j : unlinked fa fa' i p nx -> is_Some (fa' !! j) <-> is_Some (fa !! j).
Proof. intros H. rewrite H. repeat case_decide; by rewrite ?fmap_is_Some. Qed.

Lemma marked_links fa fa' i o t b j : marked fa fa' i o t b -> flinks fa' j = flinks fa j.
Proof. intros H. unfold flinks. rewrite H. repeat case_decide; by destruct (fa !! j). Qed.
Lemma pushed_state fa fa' i h j : pushed fa fa' i h -> fstate fa' j = fstate fa j.
Proof. intros H. unfold fstate. rewrite H. repeat case_decide; by destruct (fa !! j). Qed.
Lemma unlinked_state fa fa' i p nx j : unlinked fa fa' i p nx -> fstate fa' j = fstate fa j.
Proof. intros H. unfold fstate. rewrite H. repeat case_decide; by destruct (fa !! j). Qed.

Lemma marked_state fa fa' i o t b j :
  marked fa fa' i o t b -> is_Some (fa !! j) ->
  fstate fa' j = if decide (j = i) then Some t
                 else if decide (i < j < i + 2 ^ o) then Some b else fstate fa j.
Proof. intros H [m Hm]. unfold fstate. rewrite H. repeat case_decide; by rewrite Hm. Qed.

Lemma fstate_dom fa j t : fstate fa j = Some t -> is_Some (fa !! j).
Proof. unfold fstate. destruct (fa !! j); [eauto|done]. Qed.

Lemma flinks_dom fa j l : flinks fa j = Some l -> is_Some (fa !! j).
Proof. unfold flinks. destruct (fa !! j); [eauto|done]. Qed.

(** Head tags determine kind and order; body tags are not head tags. *)
Lemma head_tag_inj fr fr' o o' : 0 <= o -> 0 <= o' -> head_tag fr o = head_tag fr' o' -> fr = fr' /\ o = o'.
Proof. unfold head_tag, FRAME_ALLOC_BASE. destruct fr, fr'; intros; split; (done || lia). Qed.

Lemma head_not_body fr fr' o : 0 <= o -> head_tag fr o <> body_tag fr'.
Proof. unfold head_tag, body_tag, FRAME_ALLOC_BASE, FRAME_BUDDY, FRAME_USED. destruct fr, fr'; lia. Qed.

(** ** Blocks outside [X] are disjoint *)

Section blocks.
Context {regs : list mem_region_info} {n : Z} {res : list reserve_range}.
Context {X : Z -> Prop} {fa : gmap Z frame_meta} {fl : Z -> list Z}.
Context (H : bstates regs n res X fa fl).

Lemma blocks_disjoint fr i o fr' k q j :
  ~ X i -> ~ X k -> fstate fa i = Some (head_tag fr o) -> fstate fa k = Some (head_tag fr' q) ->
  0 <= o -> 0 <= q -> in_block i o j -> in_block k q j -> i = k.
Proof.
  intros Hi Hk Hsi Hsk Ho Hq Hji Hjk. unfold in_block in *.
  destruct (bs_block _ _ _ _ _ _ H _ _ _ Hi Hsi Ho) as (_ & _ & Hbi).
  destruct (bs_block _ _ _ _ _ _ H _ _ _ Hk Hsk Hq) as (_ & _ & Hbk).
  destruct (Z.lt_trichotomy i k) as [Hlt|[|Hlt]]; [|done|].
  - specialize (Hbi k ltac:(lia)). rewrite Hsk in Hbi.
    exfalso. eapply (head_not_body fr' fr q); [lia|congruence].
  - specialize (Hbk i ltac:(lia)). rewrite Hsi in Hbk.
    exfalso. eapply (head_not_body fr fr' o); [lia|congruence].
Qed.

Lemma head_in_block fr i o fr' k q :
  ~ X i -> fstate fa i = Some (head_tag fr o) -> 0 <= o ->
  fstate fa k = Some (head_tag fr' q) -> 0 <= q -> in_block i o k -> k = i.
Proof.
  intros Hi Hsi Ho Hsk Hq Hin. unfold in_block in Hin.
  destruct (bs_block _ _ _ _ _ _ H _ _ _ Hi Hsi Ho) as (_ & _ & Hbi).
  destruct (decide (k = i)) as [|Hne]; [done|].
  specialize (Hbi k ltac:(lia)). rewrite Hsk in Hbi.
  exfalso. eapply (head_not_body fr' fr q); [lia|congruence].
Qed.

(** *** A block moves into [X] *)
Lemma bstates_take fr i o fl' :
  regions_from 0 regs n ->
  ~ X i -> fstate fa i = Some (head_tag fr o) -> 0 <= o ->
  (forall q k, order_ok q -> (k ∈ fl' q <-> k ∈ fl q /\ k <> i)) ->
  bstates regs n res (fun j => X j \/ in_block i o j) fa fl'.
Proof.
  intros Hregs Hi Hsi Ho Hfl'.
  destruct (bs_block _ _ _ _ _ _ H _ _ _ Hi Hsi Ho) as (Hoo & [Hvb Hpages] & Hbody).
  pose proof (pow2_pos o Ho) as Hpow.
  constructor.
  - intros q k Hq. rewrite Hfl' by done. rewrite (bs_mem _ _ _ _ _ _ H) by done. split.
    + intros [[HX Hs] Hne]. split; [|done]. intros [|Hin]; [done|]. apply Hne.
      eapply (head_in_block fr i o true k q); (done || (unfold order_ok in Hq; lia)).
    + intros [HX Hs]. cbn beta in HX. split; [split; [tauto|done]|]. intros ->. apply HX. right. unfold in_block. lia.
  - intros fr' k q HX Hs Hq. cbn beta in HX.
    destruct (bs_block _ _ _ _ _ _ H fr' k q ltac:(tauto) Hs Hq) as (Hoq & [Hvk Hpk] & Hbk).
    split; [done|]. split; [|done]. split; [done|]. intros j Hj.
    destruct (Hpk j Hj) as [HXj Hrj]. split; [|done]. intros [|Hij]; [done|].
    assert (i = k) as -> by (eapply (blocks_disjoint fr i o fr' k q j); (done || tauto)).
    apply HX. right. unfold in_block in *. lia.
  - intros k HX Hs. cbn beta in HX. destruct (bs_buddy _ _ _ _ _ _ H k ltac:(tauto) Hs) as (h & q & HXh & Hsh & Hq & Hin).
    exists h, q. split; [|done]. intros [|Hih]; [done|].
    assert (h = i) as -> by (eapply (head_in_block fr i o true h q); done).
    assert (head_tag fr o = head_tag true q) as E by (cbn; congruence).
    apply head_tag_inj in E as [_ ->]; [|done..]. apply HX. right. unfold in_block. lia.
  - intros k t HX Hs. cbn beta in HX. apply (bs_tags _ _ _ _ _ _ H k t); [tauto|done].
  - intros k [HX|Hin]; [by eapply (bs_X _ _ _ _ _ _ H)|].
    split; [|by apply Hpages]. destruct Hvb as (r & Hr & Hlo & Hhi & _).
    pose proof (regions_from_bounds _ _ _ _ Hregs Hr). unfold in_block in Hin. lia.
  - intros k q b HX Hs Hq Hsib HXb. cbn beta in HX, HXb. apply (bs_coalesced _ _ _ _ _ _ H k q b); (done || tauto).
Qed.

(** *** A block of [X] becomes a block of the allocator *)
Lemma bstates_give fr i o fa' fl' :
  order_ok o -> valid_block regs i o -> (forall j, in_block i o j -> X j) ->
  (forall j, is_Some (fa !! j) <-> 0 <= j < n) ->
  marked fa fa' i o (head_tag fr o) (body_tag fr) ->
  (forall q k, order_ok q -> (k ∈ fl' q <-> k ∈ fl q \/ (fr = true /\ q = o /\ k = i))) ->
  (fr = true -> o < MEMORY_BUDDY_MAX_ORDER -> forall b, sibling regs i o b -> ~ X b -> fstate fa b <> Some o) ->
  (fr = true -> o < MEMORY_BUDDY_MAX_ORDER -> forall k, ~ X k -> fstate fa k = Some o -> ~ sibling regs k o i) ->
  bstates regs n res (fun j => X j /\ ~ in_block i o j) fa' fl'.
Proof.
  intros Hoo Hvb Hsub Hdom Hm Hfl' Hnosib Hnosib'. assert (Ho : 0 <= o) by (unfold order_ok in Hoo; lia).
  pose proof (pow2_pos o Ho) as Hpow.
  assert (Hst : forall j, ~ in_block i o j -> fstate fa' j = fstate fa j).
  { intros j Hj. unfold fstate. rewrite (Hm j). unfold in_block in Hj. repeat case_decide; (done || lia). }
  assert (Hin : forall j, in_block i o j -> fstate fa' j = Some (if decide (j = i) then head_tag fr o else body_tag fr)).
  { intros j Hj. rewrite (marked_state _ _ _ _ _ _ _ Hm).
    - unfold in_block in Hj. repeat case_decide; (done || lia).
    - apply Hdom. by apply (bs_X _ _ _ _ _ _ H), Hsub. }
  assert (Hcase : forall j, ~ (X j /\ ~ in_block i o j) -> in_block i o j \/ ~ X j /\ ~ in_block i o j).
  { intros j Hj. destruct (decide (i <= j < i + 2 ^ o)); [by left|right].
    split; [|done]. intros HX. by apply Hj. }
  assert (Hii : in_block i o i) by (unfold in_block; lia).
  constructor.
  - intros q k Hq. rewrite Hfl' by done. rewrite (bs_mem _ _ _ _ _ _ H) by done. split.
    + intros [[HX Hs]|(-> & -> & ->)].
      * split; [tauto|]. rewrite Hst; [done|]. intros Hk. by apply HX, Hsub.
      * split; [tauto|]. rewrite Hin by done. by rewrite decide_True.
    + intros [HX Hs]. destruct (Hcase k HX) as [Hk|[HXk Hk]].
      * right. rewrite Hin in Hs by done. unfold order_ok in Hq. case_decide; injection Hs as Hs.
        -- assert (head_tag fr o = head_tag true q) as E by done.
           apply head_tag_inj in E as [-> ->]; (done || lia).
        -- exfalso. by apply (head_not_body true fr q); [lia|].
      * left. split; [done|]. by rewrite <- Hst.
  - intros fr' k q HX Hs Hq. destruct (Hcase k HX) as [Hk|[HXk Hk]].
    + rewrite Hin in Hs by done. case_decide as Hki; injection Hs as Hs; cycle 1.
      { exfalso. by apply (head_not_body fr' fr q). }
      apply head_tag_inj in Hs as [-> ->]; [|done..]. subst k.
      split; [done|]. split.
      * split; [done|]. intros j Hj. split; [tauto|]. by apply (bs_X _ _ _ _ _ _ H), Hsub.
      * intros j Hj. rewrite Hin by (unfold in_block; lia). rewrite decide_False by lia. done.
    + rewrite Hst in Hs by done.
      destruct (bs_block _ _ _ _ _ _ H fr' k q HXk Hs Hq) as (Hoq & [Hvk Hpk] & Hbk).
      split; [done|]. split.
      * split; [done|]. intros j Hj. destruct (Hpk j Hj). tauto.
      * intros j Hj. rewrite Hst; [by apply Hbk|]. intros Hij.
        destruct (Hpk j ltac:(unfold in_block; lia)) as [HXj _]. by apply HXj, Hsub.
  - intros k HX Hs. destruct (Hcase k HX) as [Hk|[HXk Hk]].
    + rewrite Hin in Hs by done. case_decide as Hki; injection Hs as Hs.
      { exfalso. by apply (head_not_body fr true o). }
      destruct fr; [|done]. exists i, o. split; [tauto|]. rewrite Hin by done.
      rewrite decide_True by done. unfold in_block in Hk. repeat split; (done || lia).
    + rewrite Hst in Hs by done.
      destruct (bs_buddy _ _ _ _ _ _ H k HXk Hs) as (h & q & HXh & Hsh & Hq & Hr).
      exists h, q. split; [tauto|]. rewrite Hst; [done|]. intros Hh. by apply HXh, Hsub.
  - intros k t HX Hs. destruct (Hcase k HX) as [Hk|[HXk Hk]].
    + rewrite Hin in Hs by done. case_decide; injection Hs as <-; [right; right; by exists fr, o|].
      destruct fr; [by left|by right; left].
    + rewrite Hst in Hs by done. by apply (bs_tags _ _ _ _ _ _ H k t).
  - intros k [HX _]. by apply (bs_X _ _ _ _ _ _ H).
  - intros k q b HX Hs Hq Hsib HXb Hsb. destruct (Hcase k HX) as [Hk|[HXk Hk]].
    + rewrite Hin in Hs by done. case_decide as Hki; injection Hs as Hs; cycle 1.
      { exfalso. by apply (head_not_body true fr q); [lia|]. }
      assert (head_tag fr o = head_tag true q) as E by done.
      apply head_tag_inj in E as [-> ->]; [|done|lia]. subst k.
      destruct (Hcase b HXb) as [Hb|[HXb' Hb]].
      * rewrite Hin in Hsb by done. case_decide as Hbi; cycle 1.
        { injection Hsb as Hsb. by apply (head_not_body true true q); [lia|]. }
        subst b. destruct Hsib as (r & [_ Hp] & _ & Eb).
        assert (Z.lxor (i - r_first_idx r) (2 ^ q) = i - r_first_idx r) as El by lia.
        assert (Z.lxor (i - r_first_idx r) (Z.lxor (i - r_first_idx r) (2 ^ q)) = 0) as E0.
        { rewrite El. apply Z.lxor_nilpotent. }
        rewrite <- Z.lxor_assoc, Z.lxor_nilpotent, Z.lxor_0_l in E0. lia.
      * rewrite Hst in Hsb by done. eapply (Hnosib eq_refl ltac:(lia) b); done.
    + rewrite Hst in Hs by done. destruct (Hcase b HXb) as [Hb|[HXb' Hb]].
      * rewrite Hin in Hsb by done. case_decide as Hbi; injection Hsb as Hsb; cycle 1.
        { by apply (head_not_body true fr q); [lia|]. }
        assert (head_tag fr o = head_tag true q) as E by done.
        apply head_tag_inj in E as [-> ->]; [|done|lia]. subst b.
        by apply (Hnosib' eq_refl ltac:(lia) k).
      * rewrite Hst in Hsb by done. by apply (bs_coalesced _ _ _ _ _ _ H k q b).
Qed.

End blocks.

(** ** Linking and unlinking *)

Lemma bstates_fl_disjoint regs n res X fa fl q q' k :
  bstates regs n res X fa fl -> order_ok q -> order_ok q' -> k ∈ fl q -> k ∈ fl q' -> q = q'.
Proof.
  intros H Hq Hq' Hk Hk'. rewrite (bs_mem _ _ _ _ _ _ H) in Hk, Hk' by done.
  destruct Hk as [_ E]. destruct Hk' as [_ E']. congruence.
Qed.

Section links.
Context {n : Z} {fa fa' : gmap Z frame_meta} {hd : gmap Z Z} {fl : Z -> list Z}.
Context (H : blinks n fa hd fl).

Lemma blinks_elem_dom o i : order_ok o -> i ∈ fl o -> 0 <= i < n.
Proof.
  intros Ho Hi. destruct (proj2 (bl_heads _ _ _ _ H o) Ho) as [h Hh].
  destruct (dll_elem _ _ _ _ _ _ (bl_dll _ _ _ _ H o h Hh) Hi) as [l Hl].
  apply (bl_dom _ _ _ _ H). by eapply flinks_dom.
Qed.

Lemma blinks_head o h : hd !! o = Some h -> h = -1 /\ fl o = [] \/ 0 <= h < n /\ exists L, fl o = h :: L.
Proof.
  intros Hh. assert (order_ok o) as Ho by (apply (bl_heads _ _ _ _ H); eauto).
  pose proof (bl_dll _ _ _ _ H o h Hh) as Hd. destruct (decide (h = -1)) as [->|Hne].
  - left. split; [done|]. by eapply dll_head_null.
  - right. destruct (dll_head _ _ _ _ _ Hd Hne) as [L HL]. split; [|by exists L].
    apply (blinks_elem_dom o); [done|]. rewrite HL. set_solver.
Qed.

Context (Hdis : forall q q' k, order_ok q -> order_ok q' -> k ∈ fl q -> k ∈ fl q' -> q = q').

Lemma blinks_push o i h :
  order_ok o -> 0 <= i < n -> hd !! o = Some h ->
  (forall q, order_ok q -> i ∉ fl q) -> pushed fa fa' i h ->
  blinks n fa' (<[o := i]> hd) (fl_set fl o (i :: fl o)).
Proof.
  intros Ho Hi Hh Hfresh Hp. pose proof (blinks_head o h Hh) as Hhead.
  assert (Hlk : forall j, j <> i -> j <> h -> flinks fa' j = flinks fa j).
  { intros j Hj1 Hj2. unfold flinks. rewrite (Hp j). by rewrite !decide_False by done. }
  constructor.
  - intros j. rewrite (pushed_dom _ _ _ _ _ Hp). apply (bl_dom _ _ _ _ H).
  - intros q. rewrite lookup_insert. case_decide; [subst q; split; eauto|apply (bl_heads _ _ _ _ H)].
  - intros q h' Hq. unfold fl_set. rewrite lookup_insert in Hq. destruct (Z.eqb_spec q o) as [->|Hne].
    + rewrite decide_True in Hq by done. injection Hq as <-.
      eapply (dll_push _ (flinks fa) _ h).
      * by apply (bl_dll _ _ _ _ H).
      * by apply (bl_nodup _ _ _ _ H).
      * by apply Hfresh.
      * lia.
      * destruct (proj2 (bl_dom _ _ _ _ H i) Hi) as [m Hm].
        unfold flinks. rewrite (Hp i), decide_True by done. by rewrite Hm.
      * intros nx Hnn Hl. unfold flinks in *. rewrite (Hp h).
        destruct (decide (h = i)) as [->|].
        { exfalso. destruct Hhead as [[? _]|[_ [L HL]]]; [done|]. apply (Hfresh o Ho). rewrite HL. set_solver. }
        rewrite decide_True by done. destruct (fa !! h) as [m|]; [|done]. cbn in *. congruence.
      * intros j Hj Hne. apply Hlk; [|done]. intros ->. by eapply Hfresh.
    + rewrite decide_False in Hq by done.
      assert (order_ok q) as Hoq by (apply (bl_heads _ _ _ _ H); eauto).
      eapply dll_ext; [|by apply (bl_dll _ _ _ _ H)]. intros j Hj. apply Hlk.
      * intros ->. by eapply Hfresh.
      * intros ->. destruct Hhead as [[-> _]|[_ [L HL]]].
        -- apply blinks_elem_dom in Hj; [lia|done].
        -- apply Hne. apply (Hdis q o h); [done|done|done|]. rewrite HL. set_solver.
  - intros q Hq. unfold fl_set. destruct (Z.eqb_spec q o) as [->|]; [|by apply (bl_nodup _ _ _ _ H)].
    apply NoDup_cons. split; [by apply Hfresh|by apply (bl_nodup _ _ _ _ H)].
Qed.

Lemma blinks_unlink o i p nx L1 L2 :
  order_ok o -> fl o = L1 ++ i :: L2 -> flinks fa i = Some (p, nx) -> unlinked fa fa' i p nx ->
  blinks n fa' (if p =? -1 then <[o := nx]> hd else hd) (fl_set fl o (L1 ++ L2)).
Proof.
  intros Ho HL Hl Hu. destruct (proj2 (bl_heads _ _ _ _ H o) Ho) as [h Hh].
  pose proof (bl_dll _ _ _ _ H o h Hh) as Hd. pose proof (bl_nodup _ _ _ _ H o Ho) as Hnd.
  rewrite HL in Hd, Hnd.
  assert (Hi : i ∈ fl o) by (rewrite HL; set_solver).
  pose proof (dll_split _ _ _ _ _ _ _ Hd) as (nx' & Hsp & Hd2 & Hnull).
  assert (nx' = nx /\ p = List.last L1 (-1)) as [-> Hp] by (split; congruence).
  assert (Hnbr : forall j, j = p \/ j = nx -> j = -1 \/ j ∈ fl o).
  { intros j [->| ->].
    - destruct L1 as [|a L1]; [left; cbn in Hp; done|]. right. rewrite Hp, HL.
      apply elem_of_app. left. by apply last_elem.
    - destruct L2 as [|a L2]; [by left|]. destruct Hd2 as (-> & _). right. rewrite HL. set_solver. }
  constructor.
  - intros j. rewrite (unlinked_dom _ _ _ _ _ _ Hu). apply (bl_dom _ _ _ _ H).
  - intros q. destruct (p =? -1); [|apply (bl_heads _ _ _ _ H)].
    rewrite lookup_insert. case_decide; [subst q; split; eauto|apply (bl_heads _ _ _ _ H)].
  - intros q h' Hq. unfold fl_set. destruct (Z.eqb_spec q o) as [->|Hne].
    + assert (h' = if p =? -1 then nx else h) as ->.
      { destruct (p =? -1); [rewrite lookup_insert_eq in Hq|]; congruence. }
      eapply (dll_remove (-1) (flinks fa)); [done|done|done|].
      intros j pj nj Hj Hlj. unfold flinks in *. rewrite (Hu j).
      destruct (decide (j = i)) as [->|Hji].
      { exfalso. apply NoDup_app in Hnd as (_ & Hx & Hnd). apply NoDup_cons in Hnd as [Hn2 _].
        apply elem_of_app in Hj as [Hj|Hj]; [|done]. eapply Hx; [done|]. set_solver. }
      destruct (fa !! j) as [m|]; [|done]. cbn in *. injection Hlj as <- <-.
      do 2 f_equal; case_decide; destruct (Z.eqb_spec j nx), (Z.eqb_spec j p); (done || congruence).
    + assert (Hq' : hd !! q = Some h').
      { destruct (p =? -1); [by rewrite lookup_insert_ne in Hq|done]. }
      assert (order_ok q) as Hoq by (apply (bl_heads _ _ _ _ H); eauto).
      eapply dll_ext; [|by apply (bl_dll _ _ _ _ H)]. intros j Hj.
      assert (j <> -1) by (apply blinks_elem_dom in Hj; [lia|done]).
      assert (j ∉ fl o) by (intros Hjo; apply Hne; by apply (Hdis q o j)).
      assert (Hjp : j <> p) by (intros ->; destruct (Hnbr p); [by left|done|done]).
      assert (Hjn : j <> nx) by (intros ->; destruct (Hnbr nx); [by right|done|done]).
      unfold flinks. rewrite (Hu j). rewrite decide_False by (intros ->; done).
      destruct (fa !! j) as [m|]; [|done]. cbn. by rewrite !decide_False by done.
  - intros q Hq. unfold fl_set. destruct (Z.eqb_spec q o) as [->|]; [|by apply (bl_nodup _ _ _ _ H)].
    apply NoDup_app in Hnd as (Hn1 & Hx & Hn2). apply NoDup_cons in Hn2 as [_ Hn2].
    apply NoDup_app. split; [done|]. split; [|done]. intros k Hk1 Hk2. apply (Hx k Hk1). set_solver.
Qed.

(** Marking frames touches no link. *)
Lemma blinks_mark i o t b : marked fa fa' i o t b -> blinks n fa' hd fl.
Proof.
  intros Hm. constructor.
  - intros j. rewrite (marked_dom _ _ _ _ _ _ _ Hm). apply (bl_dom _ _ _ _ H).
  - apply (bl_heads _ _ _ _ H).
  - intros o' h Hh. eapply dll_ext; [|by apply (bl_dll _ _ _ _ H)].
    intros j _. by eapply marked_links.
  - apply (bl_nodup _ _ _ _ H).
Qed.

End links.

(** ** Siblings *)

Lemma sibling_cases regs n i o b :
  regions_from 0 regs n -> 0 <= o -> valid_block regs i o -> sibling regs i o b ->
  exists r, region_of regs i r /\ region_of regs b r /\ (2 ^ o | i - r.(r_first_idx)) /\
    (b = i + 2 ^ o /\ (2 ^ (o + 1) | i - r.(r_first_idx)) \/
     b = i - 2 ^ o /\ (2 ^ (o + 1) | b - r.(r_first_idx))).
Proof.
  intros Hregs Ho (r & Hr & Hlo & Hhi & Hdiv) (r' & Hr' & Hlt & Hb).
  pose proof (pow2_pos o Ho).
  assert (Hi : region_of regs i r) by (split; [done|unfold page_in; lia]).
  assert (r' = r) as -> by (by eapply region_of_unique).
  exists r. split; [done|].
  rewrite lxor_pow2_sibling in Hb, Hlt by (done || lia).
  set (x := i - r_first_idx r) in *. rewrite pow2_S by done.
  pose proof Hdiv as [q Hq]. assert (Hdq : x / 2 ^ o = q) by (rewrite Hq; apply Z.div_mul; lia).
  rewrite Hdq in Hb, Hlt. destruct (Z.eqb_spec (q mod 2) 0) as [E|E].
  - split; [split; [done|unfold page_in, x in *; lia]|]. split; [done|]. left. split; [unfold x in *; lia|].
    apply Z.mod_divide in E as [c ->]; [|lia]. exists c. lia.
  - assert (0 <= q) by (unfold x in *; nia).
    assert (q mod 2 = 1) by (pose proof (Z.mod_pos_bound q 2); lia).
    assert (exists c, q = 2 * c + 1) as [c ->] by (exists (q / 2); pose proof (Z.div_mod q 2); lia).
    split; [split; [done|unfold page_in, x in *; nia]|]. split; [done|]. right.
    split; [unfold x in *; lia|]. exists c. unfold x in *. lia.
Qed.

Lemma sibling_sym regs n i o b :
  regions_from 0 regs n -> 0 <= o -> valid_block regs i o -> sibling regs i o b ->
  sibling regs b o i.
Proof.
  intros Hregs Ho Hv Hs. destruct (sibling_cases _ _ _ _ _ Hregs Ho Hv Hs) as (r & Hi & Hb & Hd & _).
  destruct Hs as (r' & Hr' & Hlt & Eb). assert (r' = r) as -> by (by eapply region_of_unique).
  exists r. split; [done|].
  assert (b - r_first_idx r = Z.lxor (i - r_first_idx r) (2 ^ o)) as -> by lia.
  rewrite Z.lxor_assoc, Z.lxor_nilpotent, Z.lxor_0_r. destruct Hi as [_ Hp]. unfold page_in in Hp. lia.
Qed.

(** Two sibling blocks make one block of the next order. *)
Lemma merge_valid regs n i o b :
  regions_from 0 regs n -> 0 <= o -> valid_block regs i o -> valid_block regs b o ->
  sibling regs i o b ->
  valid_block regs (Z.min i b) (o + 1) /\
  (forall j, in_block (Z.min i b) (o + 1) j <-> in_block i o j \/ in_block b o j).
Proof.
  intros Hregs Ho Hv Hvb Hs. pose proof (pow2_pos o Ho).
  destruct (sibling_cases _ _ _ _ _ Hregs Ho Hv Hs) as (r & Hi & Hb & Hd & Hcase).
  destruct Hv as (r1 & Hr1 & ? & ? & ?). destruct Hvb as (r2 & Hr2 & ? & ? & ?).
  assert (r1 = r) as -> by (apply (region_of_unique 0 regs n i); [done|split; [done|unfold page_in; lia]|done]).
  assert (r2 = r) as -> by (apply (region_of_unique 0 regs n b); [done|split; [done|unfold page_in; lia]|done]).
  unfold in_block. rewrite pow2_S by done.
  destruct Hcase as [[-> Hdd]|[-> Hdd]].
  - rewrite Z.min_l by lia. split; [|lia]. exists r. rewrite pow2_S in * by done. repeat split; (done || lia).
  - rewrite Z.min_r by lia. split; [|lia]. exists r. rewrite pow2_S in * by done. repeat split; (done || lia).
Qed.

(** * Specifications of the block and free-list primitives of [memory.c]

    Each lemma runs one C function on a state that satisfies the link part of
    the invariant and names the resulting state: the new frame array is given
    pointwise ([marked], [pushed], [unlinked]), the new list heads explicitly,
    and nothing else changes but the console. *)

(** The part of the state that the block primitives write. *)
Definition with_buddy (fa : gmap Z frame_meta) (hd : gmap Z Z) (c : list log_item) (s : mem) : mem :=
  set_frame_array fa (set_free_lists hd (set_console c s)).

Lemma set_console_id s : set_console s.(console) s = s.
Proof. by destruct s. Qed.

Lemma with_buddy_id s : with_buddy s.(frame_array) s.(free_lists) s.(console) s = s.
Proof. by destruct s. Qed.

Lemma with_buddy_twice fa hd c fa' hd' c' s :
  with_buddy fa hd c (with_buddy fa' hd' c' s) = with_buddy fa hd c s.
Proof. done. Qed.

(** The geometry: what [layout_ok] and the reserve table depend on. *)
Definition geo (s : mem) :=
  (s.(regions), s.(managed_page_count), s.(reserves), s.(regions_direct_map),
   s.(direct_map_base), s.(direct_map_first_idx), s.(direct_map_last_idx)).

Lemma layout_ok_geo s s' : geo s' = geo s -> layout_ok s -> layout_ok s'.
Proof.
  unfold geo. intros E [? ? ? ?]. injection E as E1 E2 E3 E4 E5 E6 E7.
  constructor; rewrite ?E1, ?E2, ?E3, ?E4, ?E5, ?E6, ?E7; done.
Qed.

Lemma binv_geo s s' X fl :
  geo s' = geo s -> s'.(frame_array) = s.(frame_array) -> s'.(free_lists) = s.(free_lists) ->
  binv X s fl -> binv X s' fl.
Proof.
  intros E Ef Eh [Hl Hk Hs]. constructor; [by eapply layout_ok_geo| |];
    unfold geo in E; injection E as E1 E2 E3 E4 E5 E6 E7.
  - by rewrite E2, Ef, Eh.
  - by rewrite E1, E2, E3, Ef.
Qed.

(** Reduce field reads of updated states and frames, leaving map operations alone. *)
Ltac mem_simpl :=
  cbn beta iota delta [with_buddy
    regions set_regions managed_page_count set_managed_page_count reserves
    set_reserves startup_cur set_startup_cur startup_end set_startup_end
    startup_ready set_startup_ready frame_array_addr set_frame_array_addr frame_array
    set_frame_array free_lists set_free_lists regions_direct_map
    set_regions_direct_map direct_map_base set_direct_map_base direct_map_first_idx
    set_direct_map_first_idx direct_map_last_idx set_direct_map_last_idx memory_ready
    set_memory_ready page_alloc_count set_page_alloc_count page_free_count
    set_page_free_count allocator_log_enabled set_allocator_log_enabled irq_on
    set_irq_on console set_console state free_prev free_next kind set_state set_links
    set_prev set_next set_kind].

(** Compare two frames that are given by updates under decided conditions. *)
Ltac frame_eq :=
  unfold set_next, set_prev, set_links, set_state; cbn;
  repeat case_decide; congruence.

(** ** Straight-line accesses *)

Lemma wp_log_if items Q s :
  (forall c, Q tt (set_console c s)) -> wp (log_if_enabled items) Q s.
Proof.
  intros HQ. unfold log_if_enabled. wp_steps. apply wp_when; intros _.
  - unfold log. by wp_steps.
  - rewrite <- (set_console_id s). done.
Qed.

Lemma wp_frame_get i m Q s :
  s.(frame_array) !! i = Some m -> Q m s -> wp (frame_get i) Q s.
Proof. intros. by eapply wp_access. Qed.

Lemma wp_frame_upd i f m Q s :
  s.(frame_array) !! i = Some m ->
  Q tt (set_frame_array (<[i := f m]> s.(frame_array)) s) -> wp (frame_upd i f) Q s.
Proof. intros Hm HQ. eapply wp_update; [|done]. by rewrite Hm. Qed.

Lemma wp_flist_get o h Q s :
  s.(free_lists) !! o = Some h -> Q h s -> wp (flist_get o) Q s.
Proof. intros. by eapply wp_access. Qed.

Lemma wp_flist_set o v h Q s :
  s.(free_lists) !! o = Some h ->
  Q tt (set_free_lists (<[o := v]> s.(free_lists)) s) -> wp (flist_set o v) Q s.
Proof. intros Hm HQ. eapply wp_update; [|done]. by rewrite Hm. Qed.

(** ** Marking a block *)

Lemma wp_mark_gen t b i o s Q :
  order_ok o -> 0 <= i -> i + 2 ^ o <= 2 ^ 31 ->
  (forall j, in_block i o j -> is_Some (s.(frame_array) !! j)) ->
  (forall fa', marked s.(frame_array) fa' i o t b -> Q tt (set_frame_array fa' s)) ->
  wp (frame_upd i (set_state t) ;;
      for_up (Z.to_nat (Z.shiftl 1 o - 1)) 1 (fun k => frame_upd (u64 (i + k)) (set_state b))) Q s.
Proof.
  intros Ho Hi Hhi Hdom HQ. assert (0 <= o) by (unfold order_ok in Ho; lia).
  pose proof (pow2_pos o ltac:(done)) as Hpow. rewrite shiftl_1 by done.
  destruct (Hdom i ltac:(unfold in_block; lia)) as [m Hm].
  apply wp_bind. eapply wp_frame_upd; [done|]. cbn beta.
  set (fa := frame_array s) in *.
  apply (wp_for_up (fun k s' => exists fa', s' = set_frame_array fa' s /\
    forall j, fa' !! j = if decide (j = i) then set_state t <$> fa !! j
      else if decide (i < j < i + k) then set_state b <$> fa !! j else fa !! j)).
  - exists (<[i := set_state t m]> fa). split; [done|]. intros j. rewrite lookup_insert.
    case_decide as E; [subst j; rewrite decide_True by done; by rewrite Hm|].
    rewrite decide_False by done. by rewrite decide_False by lia.
  - intros k s' Hk (fa' & -> & Hfa').
    destruct (Hdom (i + k) ltac:(unfold in_block; lia)) as [mk Hmk].
    rewrite u64_id by lia. eapply wp_frame_upd.
    { mem_simpl. rewrite Hfa'. rewrite decide_False by lia. by rewrite decide_False by lia. }
    eexists. split; [done|]. intros j. mem_simpl. rewrite lookup_insert. case_decide as E.
    + subst j. rewrite decide_False by lia. rewrite decide_True by lia. by rewrite Hmk.
    + rewrite Hfa'. repeat case_decide; (done || lia).
  - intros s' (fa' & -> & Hfa'). apply HQ. intros j. rewrite Hfa'.
    replace (i + (1 + Z.of_nat (Z.to_nat (2 ^ o - 1)))) with (i + 2 ^ o) by lia. done.
Qed.

Section marks.
Context (i o : Z) (s : mem) (Ho : order_ok o) (Hi : 0 <= i) (Hhi : i + 2 ^ o <= 2 ^ 31).
Context (Hdom : forall j, in_block i o j -> is_Some (s.(frame_array) !! j)).

Lemma wp_block_mark_free Q :
  (forall fa', marked s.(frame_array) fa' i o (head_tag true o) (body_tag true) ->
     Q tt (set_frame_array fa' s)) ->
  wp (block_mark_free i o) Q s.
Proof.
  intros HQ. unfold block_mark_free.
  rewrite i16_id by (unfold order_ok, MEMORY_BUDDY_MAX_ORDER in Ho; lia). by apply wp_mark_gen.
Qed.

Lemma wp_block_mark_alloc Q :
  (forall fa', marked s.(frame_array) fa' i o (head_tag false o) (body_tag false) ->
     Q tt (set_frame_array fa' s)) ->
  wp (block_mark_alloc i o) Q s.
Proof.
  intros HQ. unfold block_mark_alloc, alloc_tag_from_order, FRAME_ALLOC_BASE.
  unfold order_ok, MEMORY_BUDDY_MAX_ORDER in Ho.
  rewrite (i16_id o) by lia. rewrite i16_id by lia. by apply wp_mark_gen.
Qed.

End marks.

(** ** Linking *)

Lemma wp_freelist_push o i h s Q :
  0 <= i < 2 ^ 31 -> s.(free_lists) !! o = Some h -> is_Some (s.(frame_array) !! i) ->
  h = -1 \/ 0 <= h < 2 ^ 31 /\ h <> i /\ is_Some (s.(frame_array) !! h) ->
  (is_Some (s.(frame_array) !! (-1)) -> False) ->
  (forall fa' c, pushed s.(frame_array) fa' i h ->
     Q tt (with_buddy fa' (<[o := i]> s.(free_lists)) c s)) ->
  wp (freelist_push o i) Q s.
Proof.
  intros Hi Hh [m Hm] Hcase Hneg HQ. unfold freelist_push. rewrite i32_id by lia.
  apply wp_bind. eapply wp_flist_get; [done|].
  apply wp_bind. eapply wp_frame_upd; [done|].
  apply wp_bind. eapply wp_frame_upd; [mem_simpl; apply lookup_insert_eq|]. mem_simpl.
  apply wp_bind. apply wp_when; intros Eh.
  - destruct Hcase as [->|(Hb & Hne & [mh Hmh])]; [done|]. rewrite u64_id by lia.
    eapply wp_frame_upd. { mem_simpl. by rewrite !lookup_insert_ne. }
    apply wp_bind. eapply wp_flist_set; [done|]. apply wp_log_if. intros c. mem_simpl.
    apply (HQ _ c). intros j. mem_simpl. rewrite !lookup_insert.
    repeat case_decide; subst; try congruence; by rewrite ?Hm, ?Hmh.
  - assert (h = -1) as -> by lia.
    apply wp_bind. eapply wp_flist_set; [done|]. apply wp_log_if. intros c. mem_simpl.
    apply (HQ _ c). intros j. mem_simpl. rewrite !lookup_insert.
    repeat case_decide; subst; try congruence; rewrite ?Hm; try done.
    destruct (frame_array s !! (-1)) eqn:E; [exfalso; apply Hneg; eauto|done].
Qed.

(** ** Unlinking *)

Section unlink.
Context {s : mem} {fl : Z -> list Z} {o : Z}.
Context (Hn : s.(managed_page_count) < 2 ^ 31).
Context (Hk : blinks s.(managed_page_count) s.(frame_array) s.(free_lists) fl) (Ho : order_ok o).

Lemma neighbours i p nx :
  i ∈ fl o -> flinks s.(frame_array) i = Some (p, nx) ->
  0 <= i < s.(managed_page_count) /\
  (p = -1 /\ s.(free_lists) !! o = Some i \/
   0 <= p < s.(managed_page_count) /\ p <> i /\ is_Some (s.(frame_array) !! p)) /\
  (nx = -1 \/ 0 <= nx < s.(managed_page_count) /\ nx <> i /\ nx <> p /\ is_Some (s.(frame_array) !! nx)).
Proof.
  intros Hi Hl. pose proof (blinks_elem_dom Hk o i Ho Hi) as Hib. split; [done|].
  destruct (proj2 (bl_heads _ _ _ _ Hk o) Ho) as [h Hh].
  pose proof (bl_dll _ _ _ _ Hk o h Hh) as Hd. pose proof (bl_nodup _ _ _ _ Hk o Ho) as Hnd.
  pose proof (fun j => blinks_elem_dom Hk o j Ho) as Helem.
  apply list_elem_of_split in Hi as (L1 & L2 & HL). rewrite HL in Hd, Hnd, Helem.
  pose proof (dll_split _ _ _ _ _ _ _ Hd) as (nx' & Hsp & Hd2 & _).
  assert (nx' = nx /\ p = List.last L1 (-1)) as [-> Hp] by (split; congruence).
  apply NoDup_app in Hnd as (Hn1 & Hx & Hn2). apply NoDup_cons in Hn2 as [Hn2 _].
  assert (Hnx : nx = -1 \/ nx ∈ L2).
  { destruct L2 as [|b L2]; [by left|]. destruct Hd2 as (-> & _). right. set_solver. }
  split.
  - destruct L1 as [|a L1].
    + left. destruct Hd as (-> & _). done.
    + right. assert (p ∈ a :: L1) as Hpin by (rewrite Hp; by apply last_elem).
      assert (0 <= p < managed_page_count s) by (apply Helem; set_solver).
      split; [done|]. split; [intros ->; eapply Hx; [done|set_solver]|].
      by apply (bl_dom _ _ _ _ Hk).
  - destruct Hnx as [?|Hin]; [by left|right].
    assert (0 <= nx < managed_page_count s) by (apply Helem; set_solver).
    split; [done|]. split; [set_solver|]. split; [|by apply (bl_dom _ _ _ _ Hk)].
    destruct L1 as [|a L1]; [cbn in Hp; lia|].
    assert (p ∈ a :: L1) as Hpin by (rewrite Hp; by apply last_elem).
    intros ->. eapply Hx; [done|set_solver].
Qed.

Lemma elem_links i : i ∈ fl o -> exists p nx, flinks s.(frame_array) i = Some (p, nx).
Proof.
  intros Hi. destruct (proj2 (bl_heads _ _ _ _ Hk o) Ho) as [h Hh].
  destruct (dll_elem _ _ _ _ _ _ (bl_dll _ _ _ _ Hk o h Hh) Hi) as [[p nx] E]. eauto.
Qed.

Lemma wp_freelist_remove i Q :
  i ∈ fl o -> fstate s.(frame_array) i = Some o ->
  (forall p nx fa' c, flinks s.(frame_array) i = Some (p, nx) ->
     unlinked s.(frame_array) fa' i p nx ->
     Q 0 (with_buddy fa' (if p =? -1 then <[o := nx]> s.(free_lists) else s.(free_lists)) c s)) ->
  wp (freelist_remove o i) Q s.
Proof.
  intros Hi Hst HQ. destruct (elem_links i Hi) as (p & nx & Hl).
  destruct (neighbours i p nx Hi Hl) as (Hib & Hp & Hnx).
  specialize (fun fa' c => HQ p nx fa' c Hl).
  destruct (proj2 (bl_dom _ _ _ _ Hk i) Hib) as [m Hm].
  unfold flinks, fstate in Hl, Hst. rewrite Hm in Hl, Hst. injection Hl as Hmp Hmn. injection Hst as Hms.
  assert (Hneg : s.(frame_array) !! (-1) = None).
  { apply eq_None_not_Some. intros Hs. apply (bl_dom _ _ _ _ Hk) in Hs. lia. }
  unfold freelist_remove. wp_steps. rewrite (proj2 (Z.leb_gt _ _)) by lia.
  apply wp_bind. eapply wp_frame_get; [done|]. rewrite i16_id, Hms, Z.eqb_refl by (unfold order_ok, MEMORY_BUDDY_MAX_ORDER in Ho; lia).
  cbn [negb]. rewrite Hmp, Hmn.
  assert (Hfin : forall fa1 hd1,
    fa1 !! i = Some m ->
    (forall j, j <> i -> fa1 !! j = (fun m => set_next (if decide (j = p) then nx else m.(free_next)) m) <$> s.(frame_array) !! j) ->
    hd1 = (if p =? -1 then <[o := nx]> s.(free_lists) else s.(free_lists)) ->
    wp (when (0 <=? nx) (frame_upd (u64 nx) (set_prev p)) ;;
        frame_upd i (set_prev (-1)) ;; frame_upd i (set_next (-1)) ;;
        log_remove i o ;; mret 0) Q (with_buddy fa1 hd1 (console s) s)).
  { intros fa1 hd1 Hfi Hfj ->. apply wp_bind. apply wp_when; intros Enx.
    - destruct Hnx as [->|(Hb & Hne & Hnp & [mn Hmn'])]; [done|]. rewrite u64_id by lia.
      eapply wp_frame_upd. { mem_simpl. rewrite Hfj by done. rewrite Hmn'. mem_simpl. done. }
      apply wp_bind. eapply wp_frame_upd. { mem_simpl. rewrite lookup_insert_ne by done. done. }
      apply wp_bind. eapply wp_frame_upd. { mem_simpl. apply lookup_insert_eq. }
      apply wp_bind. apply wp_log_if. intros c. apply wp_ret. mem_simpl. apply (HQ _ c).
      intros j. mem_simpl. rewrite !lookup_insert.
      destruct (decide (i = j)) as [<-|Hij]; [by rewrite decide_True, Hm|].
      rewrite (decide_False (P := j = i)) by congruence. destruct (decide (nx = j)) as [<-|Hnj].
      + rewrite Hmn'. frame_eq.
      + rewrite Hfj by congruence. destruct (frame_array s !! j) as [mj|]; [|done]. frame_eq.
    - assert (nx = -1) as -> by lia.
      apply wp_bind. eapply wp_frame_upd. { mem_simpl. done. }
      apply wp_bind. eapply wp_frame_upd. { mem_simpl. apply lookup_insert_eq. }
      apply wp_bind. apply wp_log_if. intros c. apply wp_ret. mem_simpl. apply (HQ _ c).
      intros j. mem_simpl. rewrite !lookup_insert.
      destruct (decide (i = j)) as [<-|Hij]; [by rewrite decide_True, Hm|].
      rewrite (decide_False (P := j = i)) by congruence. rewrite Hfj by congruence.
      destruct (frame_array s !! j) as [mj|] eqn:Ej; [|done]. frame_eq. }
  destruct (Z.ltb_spec p 0) as [Ep|Ep].
  - destruct Hp as [[-> Hh]|]; [|lia]. apply wp_bind. eapply wp_flist_get; [done|].
    rewrite i32_id, Z.eqb_refl by lia. cbn [negb]. apply wp_bind.
    eapply wp_flist_set; [done|]. apply (Hfin (frame_array s)); [done| |done].
    intros j Hj. destruct (frame_array s !! j) as [[]|] eqn:Ej; [|done]. frame_eq.
  - destruct Hp as [[? _]|(Hb & Hne & [mp Hmp'])]; [lia|]. rewrite (u64_id p) by lia. apply wp_bind.
    eapply wp_frame_upd; [done|].
    apply (Hfin (<[p := set_next nx mp]> (frame_array s)) (free_lists s)).
    + by rewrite lookup_insert_ne.
    + intros j Hj. rewrite lookup_insert. case_decide as Ej.
      * subst j. rewrite Hmp'. frame_eq.
      * destruct (frame_array s !! j) as [[]|]; [|done]. frame_eq.
    + rewrite (proj2 (Z.eqb_neq p (-1))) by lia. done.
Qed.

(** Popping the head is unlinking it. *)
Lemma wp_freelist_pop i Q :
  s.(free_lists) !! o = Some i -> 0 <= i ->
  (forall nx fa' c, flinks s.(frame_array) i = Some (-1, nx) ->
     unlinked s.(frame_array) fa' i (-1) nx ->
     Q i (with_buddy fa' (<[o := nx]> s.(free_lists)) c s)) ->
  wp (freelist_pop o) Q s.
Proof.
  intros Hh Hi0 HQ. destruct (blinks_head Hk o i Hh) as [[-> _]|[Hib [L HL]]]; [lia|].
  assert (Hi : i ∈ fl o) by (rewrite HL; set_solver).
  destruct (elem_links i Hi) as (p & nx & Hl).
  destruct (neighbours i p nx Hi Hl) as (_ & Hp & Hnx).
  assert (p = -1) as ->.
  { pose proof (bl_dll _ _ _ _ Hk o i Hh) as Hd. rewrite HL in Hd.
    destruct Hd as (_ & _ & nx' & Hl' & _). congruence. }
  specialize (fun fa' c => HQ nx fa' c Hl).
  destruct (proj2 (bl_dom _ _ _ _ Hk i) Hib) as [m Hm].
  unfold flinks in Hl. rewrite Hm in Hl. injection Hl as Hmp Hmn.
  assert (Hneg : s.(frame_array) !! (-1) = None).
  { apply eq_None_not_Some. intros Hs. apply (bl_dom _ _ _ _ Hk) in Hs. lia. }
  unfold freelist_pop. apply wp_bind. eapply wp_flist_get; [done|]. apply wp_bind.
  apply wp_when; [intros _|lia]. rewrite u64_id by lia.
  apply wp_bind. eapply wp_frame_get; [done|]. rewrite Hmn.
  apply wp_bind. eapply wp_flist_set; [done|]. apply wp_bind. apply wp_when; intros Enx.
  - destruct Hnx as [->|(Hb & Hne & Hnp & [mn Hmn'])]; [done|]. rewrite u64_id by lia.
    eapply wp_frame_upd. { mem_simpl. done. }
    apply wp_bind. eapply wp_frame_upd. { mem_simpl. rewrite lookup_insert_ne by done. done. }
    apply wp_bind. eapply wp_frame_upd. { mem_simpl. apply lookup_insert_eq. }
    apply wp_log_if. intros c. apply wp_ret. mem_simpl. apply (HQ _ c).
    intros j. mem_simpl. rewrite !lookup_insert.
    destruct (decide (i = j)) as [<-|Hij]; [by rewrite decide_True, Hm|].
    rewrite (decide_False (P := j = i)) by congruence. destruct (decide (nx = j)) as [<-|Hnj].
    + rewrite Hmn'. frame_eq.
    + destruct (frame_array s !! j) as [[]|] eqn:Ej; [|done]. frame_eq.
  - assert (nx = -1) as -> by lia.
    apply wp_bind. eapply wp_frame_upd. { mem_simpl. done. }
    apply wp_bind. eapply wp_frame_upd. { mem_simpl. apply lookup_insert_eq. }
    apply wp_log_if. intros c. apply wp_ret. mem_simpl. apply (HQ _ c).
    intros j. mem_simpl. rewrite !lookup_insert.
    destruct (decide (i = j)) as [<-|Hij]; [by rewrite decide_True, Hm|].
    rewrite (decide_False (P := j = i)) by congruence.
    destruct (frame_array s !! j) as [[]|] eqn:Ej; [|done]. frame_eq.
Qed.

End unlink.

(** [buddy_index] finds exactly the sibling. *)
Lemma wp_buddy_index i o s Q :
  layout_ok s -> order_ok o -> 0 <= i < s.(managed_page_count) ->
  (forall b c, sibling s.(regions) i o b -> Q (Some b) (set_console c s)) ->
  ((forall b, ~ sibling s.(regions) i o b) -> Q None s) ->
  wp (buddy_index i o) Q s.
Proof.
  intros Hlo Ho Hi HS HN. pose proof (managed_bound s Hlo) as Hm. unfold buddy_index.
  wp_steps. pose proof (find_region_by_index_spec s Hlo i) as Hf.
  destruct (find_region_by_index s i) as [rid|]; [|lia]. destruct Hf as (r & Hat & Hr).
  pose proof (region_page_bounds s Hlo _ _ Hr) as (_ & Hf0 & Hfl & _).
  assert (Hp := Hr). destruct Hp as [_ Hp]. unfold page_in in Hp.
  apply wp_bind. eapply wp_access; [done|]. rewrite (u64_id (i - _)) by lia.
  rewrite shiftl_1 by (unfold order_ok in Ho; lia).
  destruct (Z.leb_spec (r_page_count r) (Z.lxor (i - r_first_idx r) (2 ^ o))).
  - apply wp_ret. apply HN. intros b (r' & Hr' & Hlt & _).
    assert (r' = r) as -> by (by eapply region_of_unique; [apply (lo_regions s Hlo)| |]). lia.
  - assert (0 <= Z.lxor (i - r_first_idx r) (2 ^ o)).
    { apply Z.lxor_nonneg. pose proof (pow2_pos o). unfold order_ok in Ho. lia. }
    rewrite u64_id by lia. apply wp_bind. apply wp_log_if. intros c. apply wp_ret.
    apply HS. exists r. done.
Qed.
