(* ===== verification/BuddyAlloc.v ===== *)
(** * Page allocation

    [p_alloc] takes the smallest sufficient free block, splits it and marks the
    front part allocated.  The lemmas below follow the three loops of the C
    function; [p_alloc_spec] puts them together. *)

From S2P Require Import Prelude Lists Memory Layout BuddyInv.

Open Scope Z_scope.

Definition fkind (fa : gmap Z frame_meta) (i : Z) : option page_kind := kind <$> fa !! i.

(** ** Counting free pages *)

Lemma free_pages_sum_set fl o L (k len : nat) :
  foldr (fun q acc => Z.of_nat (length (fl_set fl o L (Z.of_nat q))) * 2 ^ Z.of_nat q + acc) 0 (seq k len) =
  foldr (fun q acc => Z.of_nat (length (fl (Z.of_nat q))) * 2 ^ Z.of_nat q + acc) 0 (seq k len) +
  (if decide (Z.of_nat k <= o < Z.of_nat (k + len))
   then (Z.of_nat (length L) - Z.of_nat (length (fl o))) * 2 ^ o else 0).
Proof.
  revert k. induction len as [|len IH]; intros k.
  - cbn. rewrite decide_False by lia. done.
  - cbn [seq foldr]. rewrite IH. unfold fl_set at 1. destruct (Z.eqb_spec (Z.of_nat k) o) as [<-|Hne].
    + rewrite decide_False by lia. rewrite decide_True by lia. ring.
    + repeat case_decide; lia.
Qed.

Lemma free_pages_set fl o L :
  order_ok o ->
  free_pages (fl_set fl o L) = free_pages fl + (Z.of_nat (length L) - Z.of_nat (length (fl o))) * 2 ^ o.
Proof.
  intros Ho. unfold free_pages. rewrite free_pages_sum_set.
  unfold order_ok, MEMORY_BUDDY_MAX_ORDER in Ho. rewrite decide_True by lia. done.
Qed.

Lemma free_pages_push fl o i :
  order_ok o -> free_pages (fl_set fl o (i :: fl o)) = free_pages fl + 2 ^ o.
Proof. intros. rewrite free_pages_set by done. cbn [length]. lia. Qed.

Lemma free_pages_remove fl o L1 i L2 :
  order_ok o -> fl o = L1 ++ i :: L2 -> free_pages (fl_set fl o (L1 ++ L2)) = free_pages fl - 2 ^ o.
Proof.
  intros Ho E. rewrite free_pages_set, E, !length_app by done. cbn [length]. lia.
Qed.

(** ** Kinds are untouched by the block primitives *)

Lemma marked_kind fa fa' i o t b j : marked fa fa' i o t b -> fkind fa' j = fkind fa j.
Proof. intros H. unfold fkind. rewrite H. repeat case_decide; by destruct (fa !! j). Qed.
Lemma pushed_kind fa fa' i h j : pushed fa fa' i h -> fkind fa' j = fkind fa j.
Proof. intros H. unfold fkind. rewrite H. repeat case_decide; by destruct (fa !! j). Qed.
Lemma unlinked_kind fa fa' i p nx j : unlinked fa fa' i p nx -> fkind fa' j = fkind fa j.
Proof. intros H. unfold fkind. rewrite H. repeat case_decide; by destruct (fa !! j). Qed.

(** ** Changing [X] *)

Lemma bstates_frame regs n res X fa fa' fl :
  (forall j, ~ X j -> fstate fa' j = fstate fa j) ->
  bstates regs n res X fa fl -> bstates regs n res X fa' fl.
Proof.
  intros E [Hm Hb Hbu Ht HX Hc]. constructor.
  - intros o i Ho. rewrite Hm by done. split; intros [HX' Hs]; (split; [done|]); [by rewrite E|by rewrite <- E].
  - intros fr i o HXi Hs Ho. rewrite E in Hs by done. destruct (Hb fr i o HXi Hs Ho) as (? & [Hv Hp] & Hbody).
    split; [done|]. split; [done|]. intros j Hj. rewrite E; [by apply Hbody|].
    apply Hp. unfold in_block. lia.
  - intros i HXi Hs. rewrite E in Hs by done. destruct (Hbu i HXi Hs) as (h & o & ? & ? & ?).
    exists h, o. by rewrite E.
  - intros i t HXi Hs. rewrite E in Hs by done. by apply (Ht i).
  - done.
  - intros i o b HXi Hs Ho Hsib HXb. rewrite E in * by done. by apply (Hc i).
Qed.

Lemma bstates_ext regs n res X X' fa fl :
  (forall j, X' j <-> X j) -> bstates regs n res X fa fl -> bstates regs n res X' fa fl.
Proof.
  intros E [Hm Hb Hbu Ht HX Hc]. constructor; setoid_rewrite E; [done| |done..].
  intros fr i o HXi Hs Ho. destruct (Hb fr i o HXi Hs Ho) as (? & [Hv Hp] & Hbody).
  split; [done|]. split; [|done]. split; [done|]. setoid_rewrite E. done.
Qed.

Lemma binv_ext X X' s fl : (forall j, X' j <-> X j) -> binv X s fl -> binv X' s fl.
Proof. intros E [? ? ?]. constructor; [done|done|]. by eapply bstates_ext. Qed.

Lemma binv_dom X s fl j : binv X s fl -> is_Some (s.(frame_array) !! j) <-> 0 <= j < s.(managed_page_count).
Proof. intros [_ Hl _]. apply (bl_dom _ _ _ _ Hl). Qed.

Lemma binv_neg X s fl : binv X s fl -> is_Some (s.(frame_array) !! (-1)) -> False.
Proof. intros Hb Hs. apply (binv_dom X s fl) in Hs; [lia|done]. Qed.

Lemma block_bounds X s fl i o :
  binv X s fl -> 0 <= o -> valid_block s.(regions) i o -> 0 <= i /\ i + 2 ^ o <= s.(managed_page_count).
Proof.
  intros [Hl _ _] Ho (r & Hr & Hlo & Hhi & _). pose proof (pow2_pos o Ho).
  pose proof (regions_from_bounds _ _ _ _ (lo_regions s Hl) Hr). lia.
Qed.

(** A page of a free block. *)
Definition free_tag (fa : gmap Z frame_meta) (j : Z) : Prop :=
  exists t, fstate fa j = Some t /\ FRAME_BUDDY <= t.

Lemma binv_free_block X s fl o i j :
  binv X s fl -> order_ok o -> i ∈ fl o -> in_block i o j -> free_tag s.(frame_array) j.
Proof.
  intros [_ _ Hs] Ho Hi Hj. apply (bs_mem _ _ _ _ _ _ Hs) in Hi as [HX Hst]; [|done].
  unfold order_ok in Ho. destruct (bs_block _ _ _ _ _ _ Hs true i o HX Hst ltac:(lia)) as (_ & _ & Hbody).
  unfold in_block in Hj. destruct (decide (j = i)) as [->|].
  - exists o. split; [done|]. unfold FRAME_BUDDY. lia.
  - exists FRAME_BUDDY. split; [|done]. apply Hbody. lia.
Qed.

(** Rewriting inside [X] is invisible. *)
Lemma binv_mark_in_X X s fl i o t b fa' :
  binv X s fl -> 0 <= o -> (forall j, in_block i o j -> X j) -> marked s.(frame_array) fa' i o t b ->
  binv X (set_frame_array fa' s) fl.
Proof.
  intros [Hl Hk Hs] Ho Hsub Hm. constructor; [by apply (layout_ok_geo s)|by eapply (blinks_mark Hk)|].
  eapply bstates_frame; [|done]. intros j Hj. unfold fstate. mem_simpl. rewrite (Hm j).
  pose proof (pow2_pos o Ho). 
  repeat case_decide; [|exfalso; apply Hj, Hsub; unfold in_block; lia|done].
  exfalso. apply Hj, Hsub. unfold in_block. lia.
Qed.

(** ** Handing a block of [X] to the free lists *)

Lemma wp_give_free {A} X s fl i o (k : M mem A) Q :
  binv X s fl -> order_ok o -> valid_block s.(regions) i o -> (forall j, in_block i o j -> X j) ->
  (o < MEMORY_BUDDY_MAX_ORDER -> forall b, sibling s.(regions) i o b -> ~ X b ->
     fstate s.(frame_array) b <> Some o) ->
  (forall fa' hd' c,
     binv (fun j => X j /\ ~ in_block i o j) (with_buddy fa' hd' c s) (fl_set fl o (i :: fl o)) ->
     (forall j, ~ in_block i o j -> fstate fa' j = fstate s.(frame_array) j) ->
     (forall j, fkind fa' j = fkind s.(frame_array) j) ->
     wp k Q (with_buddy fa' hd' c s)) ->
  wp (block_mark_free i o ;; freelist_push o i ;; k) Q s.
Proof.
  intros Hb Ho Hv Hsub Hnosib HQ. assert (Ho0 : 0 <= o) by (unfold order_ok in Ho; lia).
  pose proof (pow2_pos o Ho0) as Hpow. pose proof (block_bounds X s fl i o Hb Ho0 Hv) as Hbnd.
  pose proof Hb as [Hl Hk Hs]. pose proof (managed_bound s Hl) as Hn.
  apply wp_bind. apply wp_block_mark_free; [done|lia|lia| |].
  { intros j Hj. apply (binv_dom X s fl); [done|]. unfold in_block in Hj. lia. }
  intros fa1 Hm. pose proof (blinks_mark Hk _ _ _ _ Hm) as Hk1.
  assert (Hs1 : bstates (regions s) (managed_page_count s) (reserves s)
                  (fun j => X j /\ ~ in_block i o j) fa1 (fl_set fl o (i :: fl o))).
  { eapply (bstates_give Hs true i o); [done|done|done|intros j; by apply (binv_dom X s fl)|done| |done|].
    - intros q j Hq. unfold fl_set. destruct (Z.eqb_spec q o) as [->|]; [|naive_solver]. set_solver.
    - intros _ Hlt j HXj Hsj Hsib. eapply (Hnosib Hlt j); [|done|done].
      destruct (bs_block _ _ _ _ _ _ Hs true j o HXj Hsj Ho0) as (_ & [Hvj _] & _).
      by eapply sibling_sym; [apply (lo_regions s Hl)| | |]. }
  assert (Hfresh : forall q, order_ok q -> i ∉ fl q).
  { intros q Hq Hin. apply (bs_mem _ _ _ _ _ _ Hs) in Hin as [HX _]; [|done].
    apply HX, Hsub. unfold in_block. lia. }
  destruct (proj2 (bl_heads _ _ _ _ Hk o) Ho) as [h Hh].
  pose proof (blinks_head Hk1 o h Hh) as Hhead.
  apply wp_bind. eapply wp_freelist_push; mem_simpl; [lia|done| | | |].
  - apply (bl_dom _ _ _ _ Hk1). lia.
  - destruct Hhead as [[-> _]|[Hhb [L HL]]]; [by left|right]. split; [lia|]. split.
    + intros ->. apply (Hfresh o Ho). rewrite HL. set_solver.
    + by apply (bl_dom _ _ _ _ Hk1).
  - intros Hneg. apply (bl_dom _ _ _ _ Hk1) in Hneg. lia.
  - intros fa2 c Hp. change (with_buddy fa2 (<[o:=i]> (free_lists s)) c (set_frame_array fa1 s))
      with (with_buddy fa2 (<[o:=i]> (free_lists s)) c s).
    apply HQ.
    + constructor; mem_simpl; [by eapply layout_ok_geo; [|done]| |].
      * eapply (blinks_push Hk1); try done; [|lia].
        intros q q' j Hq Hq'. by apply (bstates_fl_disjoint _ _ _ _ _ _ _ _ _ Hs Hq Hq').
      * eapply bstates_frame; [|done]. intros j _. by eapply pushed_state.
    + intros j Hj. rewrite (pushed_state _ _ _ _ _ Hp). unfold fstate. rewrite (Hm j).
      unfold in_block in Hj. repeat case_decide; (done || lia).
    + intros j. by rewrite (pushed_kind _ _ _ _ _ Hp), (marked_kind _ _ _ _ _ _ _ Hm).
Qed.

(** ** The three loops *)

Lemma wp_round_order pages s Q :
  0 < pages < 2 ^ 32 ->
  (forall o, order_ok o -> pages <= 2 ^ o -> (forall q, 0 <= q < o -> 2 ^ q < pages) -> Q (Some o) s) ->
  (2 ^ MEMORY_BUDDY_MAX_ORDER < pages -> Q None s) ->
  wp (round_order pages) Q s.
Proof.
  intros Hp HS HN. unfold round_order.
  apply (wp_loop (fun o s' => s' = s /\ order_ok o /\ forall q, 0 <= q < o -> 2 ^ q < pages)
           (fun o _ => MEMORY_BUDDY_MAX_ORDER - o)); unfold order_ok, MEMORY_BUDDY_MAX_ORDER in *.
  - intros o s' (_ & ? & _). lia.
  - intros o s' (-> & Ho & Hlow). rewrite shiftl_1 by lia. destruct (Z.ltb_spec (2 ^ o) pages).
    + destruct (Z.ltb_spec 20 (o + 1)); apply wp_ret.
      * assert (o = 20) as -> by lia. by apply HN.
      * split; [|lia]. split; [done|]. split; [lia|]. intros q Hq.
        destruct (decide (q = o)) as [->|]; [done|]. apply Hlow. lia.
    + apply wp_ret. by apply HS.
  - split; [done|]. split; [lia|]. intros. lia.
  - lia.
Qed.

Lemma wp_find_order need s Q :
  order_ok need -> (forall o, order_ok o -> is_Some (s.(free_lists) !! o)) ->
  (forall o h, order_ok o -> need <= o -> s.(free_lists) !! o = Some h -> 0 <= h -> Q o s) ->
  ((forall o h, order_ok o -> need <= o -> s.(free_lists) !! o = Some h -> h < 0) ->
     Q (MEMORY_BUDDY_MAX_ORDER + 1) s) ->
  wp (find_order need) Q s.
Proof.
  intros Hneed Hdom HS HN. unfold find_order.
  apply (wp_loop (fun o s' => s' = s /\ need <= o <= MEMORY_BUDDY_MAX_ORDER + 1 /\
             forall q h, need <= q < o -> s.(free_lists) !! q = Some h -> h < 0)
           (fun o _ => MEMORY_BUDDY_MAX_ORDER + 1 - o)); unfold order_ok, MEMORY_BUDDY_MAX_ORDER in *.
  - intros o s' (_ & ? & _). lia.
  - intros o s' (-> & Ho & Hlow). destruct (Z.leb_spec o 20).
    + destruct (Hdom o ltac:(lia)) as [h Hh]. apply wp_bind. eapply wp_flist_get; [done|].
      destruct (Z.ltb_spec h 0); apply wp_ret.
      * split; [|lia]. split; [done|]. split; [lia|]. intros q h' Hq Hh'.
        destruct (decide (q = o)) as [->|]; [congruence|]. eapply Hlow; [|done]. lia.
      * eapply HS; [lia|lia|done|done].
    + apply wp_ret. assert (o = 20 + 1) as -> by lia. apply HN. intros q h Hq ? Hh.
      eapply Hlow; [|done]. lia.
  - split; [done|]. split; [lia|]. intros. lia.
  - lia.
Qed.

(** Left and right half of a block. *)
Lemma split_valid regs n i o :
  regions_from 0 regs n -> 0 <= o -> valid_block regs i (o + 1) ->
  valid_block regs i o /\ valid_block regs (i + 2 ^ o) o /\
  (forall b, sibling regs (i + 2 ^ o) o b -> b = i).
Proof.
  intros Hregs Ho (r & Hr & Hlo & Hhi & Hd). rewrite pow2_S in * by done. pose proof (pow2_pos o Ho).
  assert (Hdl : (2 ^ o | i - r_first_idx r)) by (destruct Hd as [c ->]; exists (2 * c); lia).
  assert (Hvr : valid_block regs (i + 2 ^ o) o).
  { exists r. split; [done|]. split; [lia|]. split; [lia|].
    replace (i + 2 ^ o - r_first_idx r) with (i - r_first_idx r + 2 ^ o) by lia.
    apply Z.divide_add_r; [done|apply Z.divide_refl]. }
  split; [exists r; repeat split; (done || lia)|]. split; [done|].
  intros b Hsib. destruct (sibling_cases _ _ _ _ _ Hregs Ho Hvr Hsib) as (r' & Hr' & _ & _ & Hcase).
  assert (r' = r) as ->.
  { apply (region_of_unique 0 regs n (i + 2 ^ o)); [done|done|]. split; [done|unfold page_in; lia]. }
  destruct Hcase as [[-> Hdd]|[-> _]]; [|lia]. exfalso. rewrite pow2_S in Hdd by done.
  destruct Hd as [c Hc]. destruct Hdd as [c' Hc']. assert (2 ^ o = (c' - c) * (2 * 2 ^ o)) by lia. destruct (Z.le_gt_cases (c' - c) 0); nia.
Qed.

Section split.
Context (s0 : mem) (idx need cur0 total : Z) (fa0 : gmap Z frame_meta).

(** The splitting loop invariant: [idx] heads a block of order [cur] in transit. *)
Definition split_inv (cur : Z) (s : mem) : Prop :=
  need <= cur <= cur0 /\ order_ok cur /\
  exists fa hd c fl, s = with_buddy fa hd c s0 /\ binv (in_block idx cur) s fl /\
    valid_block s0.(regions) idx cur /\ free_pages fl + 2 ^ cur = total /\
    (forall j, ~ in_block idx cur0 j -> fstate fa j = fstate fa0 j) /\
    (forall j, fkind fa j = fkind fa0 j) /\
    (forall j, in_block idx cur0 j -> ~ in_block idx cur j -> free_tag fa j).

Lemma wp_split_block s Q :
  0 <= need -> split_inv cur0 s -> (forall s', split_inv need s' -> Q tt s') ->
  wp (split_block idx need cur0) Q s.
Proof.
  intros Hneed H0 HQ. unfold split_block.
  apply (wp_loop split_inv (fun cur _ => cur - need)); [| |done|].
  - intros cur s' (? & _). lia.
  - clear s H0. intros cur s (Hcur & Hoc & fa & hd & c & fl & -> & Hb & Hv & Htot & Hst & Hkd & Hfr).
    set (s := with_buddy fa hd c s0) in *.
    destruct (Z.ltb_spec need cur); cycle 1.
    { apply wp_ret. apply HQ. assert (need = cur) as -> by lia. split; [lia|]. split; [done|].
      exists fa, hd, c, fl. done. }
    set (o := cur - 1). assert (Hcur' : cur = o + 1) by lia.
    assert (Ho : order_ok o) by (unfold order_ok in *; lia).
    assert (Ho0 : 0 <= o) by lia. pose proof (pow2_pos o Ho0) as Hpow.
    rewrite shiftl_1 by done. pose proof (block_bounds _ s fl idx cur Hb ltac:(lia) Hv) as Hbnd.
    pose proof (managed_bound s (bi_layout _ _ _ Hb)) as Hn.
    pose proof (pow2_S o Ho0) as HpS. rewrite <- Hcur' in HpS.
    pose proof (lo_regions s (bi_layout _ _ _ Hb)) as Hregs.
    destruct (split_valid _ _ idx o Hregs Ho0) as (Hvl & Hvr & Hsib); [by rewrite <- Hcur'|].
    rewrite u64_id by lia.
    eapply (wp_give_free _ s); [done|done|done| | |].
    { unfold in_block. lia. }
    { intros _ b Hb' HXb. apply Hsib in Hb' as ->. exfalso. apply HXb. unfold in_block. lia. }
    intros fa1 hd1 c1 Hb1 Hst1 Hkd1. unfold s in *. rewrite with_buddy_twice in *.
    change (frame_array (with_buddy fa hd c s0)) with fa in Hst1, Hkd1.
    apply wp_bind. apply wp_gets. apply wp_bind.
    assert (Hlog : forall c2, wp (block_mark_free idx o;; mret (inl o))
      (fun r s' => match r with inl st' => split_inv st' s' /\ st' - need < cur - need | inr v => Q v s' end)
      (with_buddy fa1 hd1 c2 s0)); cycle 1.
    { destruct (index_to_pa _ _); [apply wp_log_if; intros c2; exact (Hlog c2)|apply wp_ret; exact (Hlog c1)]. }
    intros c2. apply wp_bind.
    assert (Hb2 : binv (in_block idx o) (with_buddy fa1 hd1 c2 s0) (fl_set fl o ((idx + 2 ^ o) :: fl o))).
    { eapply binv_ext; [|eapply (binv_geo (with_buddy fa1 hd1 c1 s0)); [done|done|done|exact Hb1]].
      unfold in_block. lia. }
    apply wp_block_mark_free; [done|lia|lia| |].
    { intros j Hj. apply (binv_dom _ _ _ _ Hb2). unfold in_block in Hj.
      change (managed_page_count (with_buddy fa1 hd1 c2 s0)) with (managed_page_count (with_buddy fa hd c s0)). lia. }
    intros fa2 Hm2. mem_simpl. apply wp_ret. split; [|lia]. split; [lia|]. split; [done|].
    exists fa2, hd1, c2, (fl_set fl o ((idx + 2 ^ o) :: fl o)). split; [done|]. split; [|split; [done|split; [|split; [|split]]]].
    + by eapply (binv_mark_in_X _ _ _ idx o _ _ fa2 Hb2).
    + rewrite free_pages_push by done. lia.
    + intros j Hj. rewrite <- (Hst j Hj). rewrite <- (Hst1 j).
      * pose proof (pow2_mono cur cur0). unfold fstate. rewrite (Hm2 j). mem_simpl.
        unfold in_block in Hj. repeat case_decide; (done || lia).
      * pose proof (pow2_mono cur cur0). unfold in_block in *. lia.
    + intros j. by rewrite (marked_kind _ _ _ _ _ _ _ Hm2), Hkd1, Hkd.
    + intros j Hj Hnj. assert (free_tag fa1 j) as (t & Ht & Hle).
      { destruct (decide (idx + 2 ^ o <= j < idx + 2 ^ cur)) as [Hr|Hr].
        - apply (binv_free_block _ _ _ o (idx + 2 ^ o) j Hb2 Ho); [|unfold in_block; lia].
          unfold fl_set. rewrite Z.eqb_refl. set_solver.
        - unfold free_tag. rewrite Hst1 by (unfold in_block; lia).
          apply Hfr; [done|]. unfold in_block in *. lia. }
      exists t. split; [|done]. rewrite <- Ht. unfold fstate. rewrite (Hm2 j). mem_simpl.
      unfold in_block in Hnj. repeat case_decide; (done || lia).
  - destruct H0 as (? & Ho & _). unfold order_ok, MEMORY_BUDDY_MAX_ORDER in Ho. lia.
Qed.

End split.

(** ** Taking a free block into transit *)

Lemma binv_unlink X s fl o i p nx fa' c L1 L2 :
  binv X s fl -> order_ok o -> fl o = L1 ++ i :: L2 ->
  flinks s.(frame_array) i = Some (p, nx) -> unlinked s.(frame_array) fa' i p nx ->
  binv (fun j => X j \/ in_block i o j)
    (with_buddy fa' (if p =? -1 then <[o := nx]> s.(free_lists) else s.(free_lists)) c s)
    (fl_set fl o (L1 ++ L2)).
Proof.
  intros [Hl Hk Hs] Ho HL Hlk Hu. assert (Ho0 : 0 <= o) by (unfold order_ok in Ho; lia).
  assert (Hin : i ∈ fl o) by (rewrite HL; set_solver).
  destruct (proj1 (bs_mem _ _ _ _ _ _ Hs o i Ho) Hin) as [HX Hst].
  constructor; mem_simpl; [by apply (layout_ok_geo s)| |].
  - eapply (blinks_unlink Hk); try done.
    intros q q' j Hq Hq'. by apply (bstates_fl_disjoint _ _ _ _ _ _ _ _ _ Hs Hq Hq').
  - eapply bstates_frame; [intros j _; by eapply unlinked_state|].
    eapply (bstates_take Hs true); [apply (lo_regions s Hl)|done|done|done|].
    intros q k Hq. unfold fl_set. destruct (Z.eqb_spec q o) as [->|Hne].
    + pose proof (bl_nodup _ _ _ _ Hk o Ho) as Hnd. rewrite HL in Hnd |- *.
      apply NoDup_app in Hnd as (_ & Hx & Hnd). apply NoDup_cons in Hnd as [Hi2 _].
      split; [|set_solver]. intros Hk'. split; [set_solver|]. intros ->.
      apply elem_of_app in Hk' as [Hk'|Hk']; [|done]. apply (Hx i Hk'). set_solver.
    + split; [|tauto]. intros Hk'. split; [done|]. intros ->. apply Hne.
      by apply (bstates_fl_disjoint _ _ _ _ _ _ _ _ _ Hs Hq Ho Hk').
Qed.

(** A block in transit becomes an allocated block. *)
Lemma binv_mark_alloc X s fl i o fa' :
  binv X s fl -> order_ok o -> valid_block s.(regions) i o -> (forall j, in_block i o j -> X j) ->
  marked s.(frame_array) fa' i o (head_tag false o) (body_tag false) ->
  binv (fun j => X j /\ ~ in_block i o j) (set_frame_array fa' s) fl.
Proof.
  intros Hb Ho Hv Hsub Hm. pose proof Hb as [Hl Hk Hs].
  constructor; mem_simpl; [by apply (layout_ok_geo s)|by eapply (blinks_mark Hk)|].
  eapply (bstates_give Hs false); try done; [|naive_solver].
  intros j. by apply (binv_dom X s fl).
Qed.

(** ** [p_alloc_locked] *)

(** What a successful allocation of [pages] pages does: [idx] heads an allocated
    block of the smallest sufficient order [o]; the block comes out of a free
    block, outside of which nothing changes. *)
Record alloc_done (s s' : mem) (pages pa idx o : Z) : Prop := {
  ad_order : order_ok o /\ pages <= 2 ^ o /\ (forall q, 0 <= q < o -> 2 ^ q < pages);
  ad_pa : index_to_pa s idx = Some pa /\ pa <> 0;
  ad_geo : geo s' = geo s /\ s'.(memory_ready) = s.(memory_ready) /\
           s'.(irq_on) = s.(irq_on) /\ s'.(page_free_count) = s.(page_free_count);
  ad_count : s'.(page_alloc_count) = u64 (s.(page_alloc_count) + 1);
  ad_tag : fstate s'.(frame_array) idx = Some (head_tag false o);
  ad_from : exists c, o <= c /\ fstate s.(frame_array) idx = Some c /\
    (forall j, ~ in_block idx c j -> fstate s'.(frame_array) j = fstate s.(frame_array) j) /\
    (forall j, in_block idx c j -> ~ in_block idx o j -> free_tag s'.(frame_array) j);
  ad_kind : forall j, fkind s'.(frame_array) j = fkind s.(frame_array) j;
}.

(** A page that is part of a block is not reserved. *)
Lemma block_page_not_reserved s X fl fr i o j :
  binv X s fl -> ~ X i -> fstate s.(frame_array) i = Some (head_tag fr o) -> 0 <= o -> in_block i o j ->
  exists pa, index_to_pa s j = Some pa /\ is_reserved_pa s pa = false.
Proof.
  intros [Hl Hk Hs] HX Hst Ho Hj. destruct (bs_block _ _ _ _ _ _ Hs fr i o HX Hst Ho) as (_ & [Hv Hp] & _).
  destruct (Hp j Hj) as [_ Hnr]. destruct Hv as (r & Hr & Hlo & Hhi & _). unfold in_block in Hj.
  assert (Hrj : region_of (regions s) j r) by (split; [done|unfold page_in; lia]).
  exists (page_pa r j). split; [by apply index_to_pa_spec|].
  unfold is_reserved_pa. destruct (existsb _ _) eqn:E; [|done]. exfalso. apply Hnr. by exists r.
Qed.

(** Address conversion only reads the geometry. *)
Ltac on_geometry_of s :=
  repeat match goal with
  | |- context [index_to_pa ?x ?i] => progress change (index_to_pa x i) with (index_to_pa s i)
  | |- context [pa_to_index ?x ?i] => progress change (pa_to_index x i) with (pa_to_index s i)
  end.

Section p_alloc.
Context (s : mem) (fl : Z -> list Z) (pages : Z).
Context (Hb : binv no_page s fl) (Hready : s.(memory_ready) = true).
Context (Hnull : is_reserved_pa s 0 = true) (Hpages : 0 < pages < 2 ^ 32).

Definition alloc_post (pa : Z) (s' : mem) : Prop :=
  (pa = 0 /\ s' = s /\ forall o i, order_ok o -> pages <= 2 ^ o -> fstate s.(frame_array) i <> Some o) \/
  exists idx o fl', binv no_page s' fl' /\ alloc_done s s' pages pa idx o /\
    free_pages fl' = free_pages fl - 2 ^ o.

Lemma wp_alloc_tail need idx cur fa hd c flm :
  order_ok need -> pages <= 2 ^ need -> (forall q, 0 <= q < need -> 2 ^ q < pages) ->
  need <= cur -> fstate s.(frame_array) idx = Some cur ->
  binv (in_block idx need) (with_buddy fa hd c s) flm -> valid_block s.(regions) idx need ->
  free_pages flm = free_pages fl - 2 ^ need ->
  (forall j, ~ in_block idx cur j -> fstate fa j = fstate s.(frame_array) j) ->
  (forall j, fkind fa j = fkind s.(frame_array) j) ->
  (forall j, in_block idx cur j -> ~ in_block idx need j -> free_tag fa j) ->
  forall fa', marked fa fa' idx need (head_tag false need) (body_tag false) ->
  forall pa c', index_to_pa s idx = Some pa ->
  alloc_post pa (set_page_alloc_count (u64 (s.(page_alloc_count) + 1)) (with_buddy fa' hd c' s)).
Proof.
  intros Hneed Hle Hmin Hcur Hfree Hbm Hv Htot Hst Hkd Hrest fa' Hm pa c' Hpa.
  assert (Hn0 : 0 <= need) by (unfold order_ok in Hneed; lia). pose proof (pow2_pos need Hn0) as Hpow.
  pose proof (binv_mark_alloc _ _ _ idx need fa' Hbm Hneed Hv ltac:(done) Hm) as Hb'.
  right. exists idx, need, flm. split; [|split; [constructor; mem_simpl|done]].
  - eapply binv_ext; [|eapply (binv_geo (with_buddy fa' hd c s)); [done|done|done|exact Hb']].
    unfold no_page. tauto.
  - done.
  - split; [done|]. intros ->.
    destruct (block_page_not_reserved s no_page fl true idx cur idx Hb ltac:(tauto) Hfree ltac:(lia)) as (pa & Hpa' & Hnr).
    { unfold in_block. pose proof (pow2_pos cur). lia. }
    congruence.
  - done.
  - done.
  - rewrite (marked_state _ _ _ _ _ _ _ Hm); [by rewrite decide_True|].
    apply (binv_dom _ _ _ idx Hbm). apply (block_bounds _ _ _ idx need Hbm Hn0) in Hv.
    change (managed_page_count (with_buddy fa hd c s)) with (managed_page_count s) in *. lia.
  - assert (Hout : forall j, ~ in_block idx need j -> fstate fa' j = fstate fa j).
    { intros j Hj. unfold fstate. rewrite (Hm j). unfold in_block in Hj. repeat case_decide; (done || lia). }
    pose proof (pow2_mono need cur). exists cur. split; [done|]. split; [done|]. split; intros j Hj.
    + rewrite <- Hst by done. apply Hout. unfold in_block in *. lia.
    + intros Hnj. unfold free_tag. rewrite Hout by done. by apply Hrest.
  - intros j. by rewrite (marked_kind _ _ _ _ _ _ _ Hm).
Qed.

Lemma wp_p_alloc_locked : wp (p_alloc_locked pages) alloc_post s.
Proof.
  unfold p_alloc_locked. wp_steps. rewrite Hready. destruct (Z.eqb_spec pages 0); [lia|]. cbn [negb orb].
  pose proof Hb as [Hl Hk Hs]. pose proof (managed_bound s Hl) as Hn.
  apply wp_bind. apply wp_round_order; [done| |]; cycle 1.
  { intros Hbig. apply wp_ret. left. split; [done|]. split; [done|]. intros o i Ho Hle.
    unfold order_ok in Ho. pose proof (pow2_mono o MEMORY_BUDDY_MAX_ORDER). lia. }
  intros need Hneed Hle Hmin. apply wp_bind. apply wp_find_order; [done| | |].
  { intros o Ho. by apply (bl_heads _ _ _ _ Hk). }
  2: { intros Hnone. rewrite (proj2 (Z.ltb_lt _ _)) by lia. apply wp_ret. left.
       split; [done|]. split; [done|]. intros o i Ho Hle' Hst.
       assert (need <= o).
       { destruct (Z.le_gt_cases need o); [done|]. specialize (Hmin o). unfold order_ok in Ho. lia. }
       assert (i ∈ fl o) as Hin by (apply (bs_mem _ _ _ _ _ _ Hs); [done|split; [tauto|done]]).
       destruct (proj2 (bl_heads _ _ _ _ Hk o) Ho) as [h Hh].
       specialize (Hnone o h Ho ltac:(done) Hh).
       destruct (blinks_head Hk o h Hh) as [[_ E]|[? _]]; [|lia]. rewrite E in Hin. set_solver. }
  intros cur h Hcur Hnc Hh Hh0. rewrite (proj2 (Z.ltb_ge _ _)) by (unfold order_ok in Hcur; lia).
  assert (Hc0 : 0 <= cur) by (unfold order_ok in Hcur; lia).
  destruct (blinks_head Hk cur h Hh) as [[? _]|[Hhb [L HL]]]; [lia|].
  apply wp_bind. eapply (wp_freelist_pop (s := s) ltac:(lia) Hk Hcur h); [done|done|].
  intros nx fa1 c1 Hlk Hu. rewrite (proj2 (Z.ltb_ge h 0)) by lia. rewrite u64_id by lia.
  pose proof (binv_unlink no_page s fl cur h (-1) nx fa1 c1 [] L Hb Hcur HL Hlk Hu) as Hb1.
  cbn [Z.eqb Pos.eqb app] in Hb1.
  assert (Hfree : fstate (frame_array s) h = Some cur).
  { apply (bs_mem _ _ _ _ _ _ Hs cur h Hcur). rewrite HL. set_solver. }
  destruct (bs_block _ _ _ _ _ _ Hs true h cur ltac:(tauto) Hfree Hc0) as (_ & [Hv _] & _).
  apply wp_bind. apply (wp_split_block s h need cur (free_pages fl) (frame_array s)).
  { unfold order_ok in Hneed. lia. }
  { split; [lia|]. split; [done|]. exists fa1, (<[cur := nx]> (free_lists s)), c1, (fl_set fl cur L).
    split; [done|]. split; [|split; [done|split; [|split; [|split]]]].
    - eapply binv_ext; [|exact Hb1]. unfold no_page. tauto.
    - pose proof (free_pages_remove fl cur [] h L Hcur HL) as Hfp. cbn [app] in Hfp. lia.
    - intros j _. by eapply unlinked_state.
    - intros j. by eapply unlinked_kind.
    - done. }
  intros s2 (_ & _ & fa2 & hd2 & c2 & fl2 & -> & Hb2 & Hv2 & Htot2 & Hst2 & Hkd2 & Hfr2).
  assert (Hn0 : 0 <= need) by (unfold order_ok in Hneed; lia). pose proof (pow2_pos need Hn0) as Hpow.
  pose proof (block_bounds _ _ _ h need Hb2 Hn0 Hv2) as Hbnd.
  change (managed_page_count (with_buddy fa2 hd2 c2 s)) with (managed_page_count s) in Hbnd.
  apply wp_bind. apply wp_block_mark_alloc; [done|lia|lia| |].
  { intros j Hj. apply (binv_dom _ _ _ j Hb2). unfold in_block in Hj. mem_simpl. lia. }
  intros fa3 Hm3. mem_simpl.
  destruct (index_to_pa_total s Hl h ltac:(lia)) as (r & Hr & Hpa).
  apply wp_bind, wp_gets. on_geometry_of s. rewrite Hpa.
  apply wp_bind, wp_gets. apply wp_bind. apply wp_log_if. intros c3.
  apply wp_bind, wp_gets. on_geometry_of s. rewrite Hpa.
  apply wp_bind, wp_modify. apply wp_ret.
  change (alloc_post (page_pa r h)
    (set_page_alloc_count (u64 (page_alloc_count s + 1)) (with_buddy fa3 hd2 c3 s))).
  apply (wp_alloc_tail need h cur fa2 hd2 c2 fl2); try done. lia.
Qed.

End p_alloc.

(** * Page release

    [p_free] accepts exactly the heads of allocated blocks; anything else is
    ignored.  The released block is merged with its free sibling as long as
    there is one, so that the free lists stay fully coalesced. *)

(** ** The merge loop *)

Section merge.
Context (s0 : mem) (idx o0 total : Z).

Definition merge_inv (mi mo : Z) (s : mem) : Prop :=
  o0 <= mo /\ order_ok mo /\
  exists fa hd c fl, s = with_buddy fa hd c s0 /\ binv (in_block mi mo) s fl /\
    valid_block s0.(regions) mi mo /\ free_pages fl + 2 ^ mo = total /\
    (forall j, fstate fa j = fstate s0.(frame_array) j) /\
    (forall j, fkind fa j = fkind s0.(frame_array) j) /\
    (forall j, in_block idx o0 j -> in_block mi mo j) /\
    (forall j, in_block mi mo j -> ~ in_block idx o0 j ->
       exists t, fstate s0.(frame_array) j = Some t /\ FRAME_BUDDY <= t).

(** On exit, the sibling of the merged block is not a free block of its order. *)
Definition merge_exit (r : Z * Z) (s : mem) : Prop :=
  merge_inv r.1 r.2 s /\
  (r.2 < MEMORY_BUDDY_MAX_ORDER -> forall b, sibling s0.(regions) r.1 r.2 b ->
     fstate s0.(frame_array) b <> Some r.2).

Lemma merge_step_inv mi mo b s fl fa hd c p nx fa' c' :
  o0 <= mo -> order_ok (mo + 1) -> 0 <= mo -> s = with_buddy fa hd c s0 -> binv (in_block mi mo) s fl ->
  valid_block s0.(regions) mi mo -> free_pages fl + 2 ^ mo = total ->
  (forall j, fstate fa j = fstate s0.(frame_array) j) ->
  (forall j, fkind fa j = fkind s0.(frame_array) j) ->
  (forall j, in_block idx o0 j -> in_block mi mo j) ->
  (forall j, in_block mi mo j -> ~ in_block idx o0 j ->
     exists t, fstate s0.(frame_array) j = Some t /\ FRAME_BUDDY <= t) ->
  sibling s0.(regions) mi mo b -> b ∈ fl mo -> fstate fa b = Some mo -> ~ in_block mi mo b ->
  flinks fa b = Some (p, nx) -> unlinked fa fa' b p nx ->
  merge_inv (if b <? mi then b else mi) (mo + 1)
    (with_buddy fa' (if p =? -1 then <[mo := nx]> hd else hd) c' s0).
Proof.
  intros Hle Ho1 Hmo0 -> Hb Hv Htot Hst Hkd Hsub Hwas Hsib Hin Hfb HXb Hlk Hu.
  assert (Ho : order_ok mo) by (unfold order_ok in *; lia).
  pose proof Hb as [Hl Hk Hs]. pose proof (lo_regions _ Hl) as Hregs.
  destruct (bs_block _ _ _ _ _ _ Hs true b mo HXb Hfb Hmo0) as (_ & [Hvb _] & Hbody).
  destruct (merge_valid _ _ _ _ _ Hregs Hmo0 Hv Hvb Hsib) as [Hvm Hblk].
  assert (E : (if b <? mi then b else mi) = Z.min mi b) by (destruct (Z.ltb_spec b mi); lia).
  rewrite E. apply list_elem_of_split in Hin as (L1 & L2 & HL).
  pose proof (binv_unlink _ _ fl mo b p nx fa' c' L1 L2 Hb Ho HL Hlk Hu) as Hb'.
  rewrite with_buddy_twice in Hb'.
  split; [lia|]. split; [done|]. eexists fa', _, c', (fl_set fl mo (L1 ++ L2)).
  split; [done|]. split; [|split; [done|split; [|split; [|split; [|split]]]]].
  - eapply binv_ext; [|exact Hb']. exact Hblk.
  - rewrite (free_pages_remove fl mo L1 b L2 Ho HL), pow2_S by done. lia.
  - intros j. by rewrite (unlinked_state _ _ _ _ _ _ Hu).
  - intros j. by rewrite (unlinked_kind _ _ _ _ _ _ Hu).
  - intros j Hj. apply Hblk. left. by apply Hsub.
  - intros j Hj Hnj. apply Hblk in Hj as [Hj|Hj]; [by apply Hwas|].
    destruct (decide (j = b)) as [->|Hne].
    + exists mo. split; [by rewrite <- Hst|unfold FRAME_BUDDY; lia].
    + exists FRAME_BUDDY. split; [|done]. rewrite <- Hst. apply Hbody. unfold in_block in Hj. lia.
Qed.

Lemma wp_merge_block s Q :
  0 <= o0 -> merge_inv idx o0 s -> (forall r s', merge_exit r s' -> Q r s') ->
  wp (merge_block idx o0) Q s.
Proof.
  intros Ho0 H0 HQ. unfold merge_block.
  apply (wp_loop (fun '(mi, mo) s' => merge_inv mi mo s')
           (fun '(mi, mo) _ => MEMORY_BUDDY_MAX_ORDER - mo)); [| |done|].
  - intros [mi mo] s' (_ & Ho & _). unfold order_ok in Ho. lia.
  - clear s H0. intros [mi mo] s Hinv. pose proof Hinv as (Hle & Ho & fa & hd & c & fl & -> & Hb & Hv & Htot & Hst & Hkd & Hsub & Hwas).
    assert (Hmo0 : 0 <= mo) by lia. pose proof (pow2_pos mo Hmo0) as Hpow.
    assert (Hexit : (mo < MEMORY_BUDDY_MAX_ORDER -> forall b, sibling s0.(regions) mi mo b ->
        fstate s0.(frame_array) b <> Some mo) -> forall c', Q (mi, mo) (with_buddy fa hd c' s0)).
    { intros Hx c'. apply HQ. split; [|done]. split; [done|]. split; [done|].
      exists fa, hd, c', fl. split; [done|]. split; [|done].
      by eapply (binv_geo (with_buddy fa hd c s0)). }
    destruct (Z.ltb_spec mo MEMORY_BUDDY_MAX_ORDER) as [Hlt|Hge]; cycle 1.
    { apply wp_ret. apply Hexit. lia. }
    pose proof Hb as [Hl Hk Hs]. pose proof (managed_bound _ Hl) as Hn.
    pose proof (block_bounds _ _ _ mi mo Hb Hmo0 Hv) as Hbnd.
    apply wp_bind. apply wp_buddy_index; [done|done|lia| |]; cycle 1.
    { intros Hno. apply wp_ret. apply Hexit. intros _ b Hsib. exfalso. by eapply Hno. }
    intros b c1 Hsib. change (set_console c1 (with_buddy fa hd c s0)) with (with_buddy fa hd c1 s0).
    change (regions (with_buddy fa hd c s0)) with (regions s0) in *.
    destruct (sibling_cases _ _ _ _ _ (lo_regions _ Hl) Hmo0 Hv Hsib) as (r & _ & Hrb & _ & Hcase).
    pose proof (region_page_bounds _ Hl _ _ Hrb) as (Hbb & _).
    destruct (proj2 (binv_dom _ _ _ b Hb) Hbb) as [m Hm].
    apply wp_bind. eapply wp_frame_get; [exact Hm|].
    rewrite i16_id by (unfold order_ok, MEMORY_BUDDY_MAX_ORDER in *; lia).
    destruct (Z.eqb_spec (state m) mo) as [Em|Em]; cbn [negb]; cycle 1.
    { apply wp_ret. apply Hexit. intros _ b' Hsib' Hsb.
      assert (b' = b) as -> .
      { destruct Hsib as (r1 & Hr1 & _ & ->). destruct Hsib' as (r2 & Hr2 & _ & ->).
        assert (r2 = r1) as -> by (by eapply region_of_unique; [apply (lo_regions _ Hl)| |]). done. }
      rewrite <- Hst in Hsb. unfold fstate in Hsb.
      change (frame_array (with_buddy fa hd c s0)) with fa in Hm. rewrite Hm in Hsb. cbn in Hsb. congruence. }
    assert (HXb : ~ in_block mi mo b) by (unfold in_block; destruct Hcase as [[-> _]|[-> _]]; lia).
    change (frame_array (with_buddy fa hd c s0)) with fa in Hm.
    assert (Hfb : fstate fa b = Some mo) by (unfold fstate; rewrite Hm; cbn; congruence).
    assert (Hin : b ∈ fl mo) by (by apply (bs_mem _ _ _ _ _ _ Hs)).
    apply wp_bind. eapply (wp_freelist_remove (s := with_buddy fa hd c1 s0) (fl := fl)); [mem_simpl..|].
    { change (managed_page_count (with_buddy fa hd c s0)) with (managed_page_count s0) in Hn. lia. }
    { exact Hk. } { done. } { done. } { done. }
    intros p nx fa' c' Hlk Hu. rewrite with_buddy_twice. cbn [Z.eqb negb]. apply wp_ret. split; [|lia].
    eapply merge_step_inv; try done. unfold order_ok in *. lia.
  - destruct H0 as (_ & Ho & _). unfold order_ok, MEMORY_BUDDY_MAX_ORDER in *. lia.
Qed.

End merge.

(** ** [p_free_locked] *)

(** What releasing the allocated block [(idx, o)] does: it ends up inside a
    free block [(m, mo)], everything else of which was free before. *)
Record free_done (s s' : mem) (idx o m mo : Z) : Prop := {
  fd_geo : geo s' = geo s /\ s'.(memory_ready) = s.(memory_ready) /\
           s'.(irq_on) = s.(irq_on) /\ s'.(page_alloc_count) = s.(page_alloc_count);
  fd_count : s'.(page_free_count) = u64 (s.(page_free_count) + 1);
  fd_free : order_ok mo /\ o <= mo /\ fstate s'.(frame_array) m = Some mo;
  fd_sub : forall j, in_block idx o j -> in_block m mo j;
  fd_was_free : forall j, in_block m mo j -> ~ in_block idx o j ->
    exists t, fstate s.(frame_array) j = Some t /\ FRAME_BUDDY <= t;
  fd_rest : forall j, ~ in_block m mo j -> fstate s'.(frame_array) j = fstate s.(frame_array) j;
  fd_kind : forall j, fkind s'.(frame_array) j = fkind s.(frame_array) j;
}.

(** The block that [pa] is the head of, if it is the head of one. *)
Definition alloc_head_at (s : mem) (pa idx o : Z) : Prop :=
  0 <= o /\ index_to_pa s idx = Some pa /\ fstate s.(frame_array) idx = Some (head_tag false o).

Section p_free.
Context (s : mem) (fl : Z -> list Z) (pa : Z).
Context (Hb : binv no_page s fl) (Hready : s.(memory_ready) = true) (Hpa : 0 <= pa < 2 ^ 64).

Definition free_post (s' : mem) : Prop :=
  (s' = s /\ (pa = 0 \/ forall idx o, ~ alloc_head_at s pa idx o)) \/
  exists idx o m mo fl', binv no_page s' fl' /\ alloc_head_at s pa idx o /\
    free_done s s' idx o m mo /\ free_pages fl' = free_pages fl + 2 ^ o.

Lemma pa_to_index_head idx o :
  alloc_head_at s pa idx o -> exists k, pa_to_index s pa = Some (idx, k).
Proof.
  intros (_ & Hp & Ht). pose proof Hb as [Hl Hk Hs].
  assert (0 <= idx < managed_page_count s) as Hi.
  { apply (binv_dom no_page s fl); [done|]. by eapply fstate_dom. }
  destruct (index_to_pa_total s Hl idx Hi) as (r & Hr & Hp').
  assert (pa = page_pa r idx) as -> by congruence. by apply pa_to_index_complete.
Qed.

Lemma wp_p_free_locked : wp (p_free_locked pa) (fun _ => free_post) s.
Proof.
  unfold p_free_locked. wp_steps. rewrite Hready. cbn [negb orb].
  pose proof Hb as [Hl Hk Hs]. pose proof (managed_bound s Hl) as Hn.
  destruct (Z.eqb_spec pa 0) as [->|Hpa0]; [apply wp_ret; left; split; [done|by left]|].
  destruct (Z.eqb_spec (Z.land pa (PAGE_SIZE - 1)) 0) as [Hal|Hal]; cbn [negb]; cycle 1.
  { apply wp_ret. left. split; [done|]. right. intros idx o Hh.
    destruct (pa_to_index_head idx o Hh) as [k Hk'].
    destruct (pa_to_index_sound s Hl pa _ _ ltac:(lia) Hk') as (r & Hr & <-).
    destruct (region_page_bounds s Hl _ _ Hr) as (_ & _ & _ & _ & _ & _ & Hd).
    apply Hal. change (PAGE_SIZE - 1) with (2 ^ 12 - 1). rewrite land_pow2_mask by lia.
    apply divide_mod_0; [lia|]. exact Hd. }
  wp_steps. destruct (pa_to_index s pa) as [[idx k]|] eqn:Eidx; cycle 1.
  { apply wp_ret. left. split; [done|]. right. intros idx o Hh.
    destruct (pa_to_index_head idx o Hh) as [k Hk']. congruence. }
  destruct (pa_to_index_sound s Hl pa _ _ ltac:(lia) Eidx) as (r & Hr & Hpar).
  pose proof (region_page_bounds s Hl _ _ Hr) as (Hi & _).
  destruct (proj2 (binv_dom no_page s fl idx Hb) Hi) as [m Hm].
  apply wp_bind. eapply wp_frame_get; [exact Hm|]. unfold is_alloc_head_tag.
  assert (Hfs : fstate (frame_array s) idx = Some (state m)) by (unfold fstate; by rewrite Hm).
  destruct (Z.leb_spec (state m) FRAME_ALLOC_BASE) as [Ht|Ht]; cbn [negb]; cycle 1.
  { apply wp_ret. left. split; [done|]. right. intros idx' o Hh.
    destruct (pa_to_index_head idx' o Hh) as [k' Hk']. assert (idx' = idx) as -> by congruence.
    destruct Hh as (Ho & _ & Hh). rewrite Hfs in Hh. injection Hh as Hh. unfold head_tag in Hh. lia. }
  assert (exists o, 0 <= o /\ state m = head_tag false o) as (o & Ho0 & Eo).
  { exists (FRAME_ALLOC_BASE - state m). unfold head_tag. lia. }
  rewrite Eo in Hfs.
  destruct (bs_block _ _ _ _ _ _ Hs false idx o ltac:(tauto) Hfs Ho0) as (Ho & [Hv Hp] & Hbody).
  assert (order_from_alloc_tag (state m) = o) as ->.
  { unfold order_from_alloc_tag, head_tag, order_ok, MEMORY_BUDDY_MAX_ORDER in *. rewrite Eo.
    rewrite u32_id by lia. lia. }
  assert (Hhead : alloc_head_at s pa idx o).
  { split; [done|]. split; [|done]. rewrite <- Hpar. by apply index_to_pa_spec. }
  apply wp_bind. apply (wp_merge_block s idx o (free_pages fl + 2 ^ o)); [done| |].
  { split; [lia|]. split; [done|]. exists (frame_array s), (free_lists s), (console s), fl.
    rewrite with_buddy_id. split; [done|]. split; [|split; [done|split; [done|split; [done|split; [done|split]]]]].
    - constructor; [done|done|]. eapply bstates_ext; cycle 1.
      + eapply (bstates_take Hs false idx o fl); [apply (lo_regions s Hl)|tauto|done|done|].
        intros q j Hq. split; [|tauto]. intros Hj. split; [done|]. intros ->.
        apply (bs_mem _ _ _ _ _ _ Hs) in Hj as [_ Hj]; [|done]. rewrite Hfs in Hj.
        injection Hj as Hj. unfold head_tag, FRAME_ALLOC_BASE, order_ok in *. lia.
      + unfold no_page. tauto.
    - done.
    - tauto. }
  intros [mi mo] s1 [(Hle & Hmo & fa & hd & c & fl1 & -> & Hb1 & Hv1 & Htot & Hst & Hkd & Hsub & Hwas) Hexit].
  cbn [fst snd] in *. assert (Hmo0 : 0 <= mo) by lia. pose proof (pow2_pos mo Hmo0) as Hpow.
  eapply (wp_give_free _ (with_buddy fa hd c s)); [done|done|done|done| |].
  { intros Hlt b Hsib _. mem_simpl. rewrite Hst. by apply Hexit. }
  intros fa2 hd2 c2 Hb2 Hst2 Hkd2. rewrite with_buddy_twice in *.
  pose proof Hb2 as [_ Hk2 Hs2]. destruct (proj2 (bl_heads _ _ _ _ Hk2 mo) Hmo) as [h Hh].
  apply wp_bind. eapply wp_flist_get; [exact Hh|]. apply wp_bind, wp_gets.
  apply wp_bind. apply wp_log_if. intros c3. apply wp_modify.
  right. exists idx, o, mi, mo, (fl_set fl1 mo (mi :: fl1 mo)).
  split; [|split; [done|split; [constructor; mem_simpl|]]].
  - eapply binv_ext; [|eapply (binv_geo (with_buddy fa2 hd2 c2 s)); [done|done|done|exact Hb2]].
    unfold no_page. tauto.
  - done.
  - done.
  - split; [done|]. split; [done|]. 
    apply (bs_mem _ _ _ _ _ _ Hs2 mo mi Hmo). unfold fl_set. rewrite Z.eqb_refl. set_solver.
  - done.
  - done.
  - intros j Hj. by rewrite Hst2, <- Hst.
  - intros j. by rewrite Hkd2, <- Hkd.
  - rewrite free_pages_push by done. lia.
Qed.

End p_free.
