(* ===== verification/BuddySpec.v ===== *)
(** * What the page allocator promises

    The contract of [p_alloc] / [p_free] in terms of pages: which pages are
    free and which blocks are live.  The free lists do not appear: because the
    lists are always fully coalesced, they are a function of the set of free
    pages ([free_blocks_canonical]), and an allocation fails only when no
    aligned run of free pages of the requested size exists. *)

From S2P Require Import Prelude Lists Memory Layout BuddyInv BuddyAlloc.

Open Scope Z_scope.

(** ** The abstract state *)

Definition free_page (s : mem) (i : Z) : Prop := free_tag s.(frame_array) i.

Definition live (s : mem) (i o : Z) : Prop :=
  0 <= o /\ fstate s.(frame_array) i = Some (head_tag false o).

Definition free_head (s : mem) (i o : Z) : Prop :=
  0 <= o /\ fstate s.(frame_array) i = Some o.

(** The allocator is initialised and its invariant holds. *)
Record mem_ok (s : mem) : Prop := {
  mo_ready : s.(memory_ready) = true;
  mo_null : is_reserved_pa s 0 = true;
  mo_buddy : buddy_ok s;
}.

(** Smallest order whose block holds [pages] pages. *)
Definition order_for (pages o : Z) : Prop :=
  order_ok o /\ pages <= 2 ^ o /\ forall q, 0 <= q < o -> 2 ^ q < pages.

(** An aligned run of [2^o] free pages inside one region. *)
Definition free_run (s : mem) (i o : Z) : Prop :=
  valid_block s.(regions) i o /\ forall j, in_block i o j -> free_page s j.

(** A call of the interface, with its argument and its result. *)
Inductive page_op :=
| op_alloc (pages pa : Z)
| op_free (pa : Z).

(** What one call may do, on pages and live blocks only. *)
Inductive abs_step (s s' : mem) : page_op -> Prop :=
| abs_alloc pages pa i o :
    order_for pages o -> free_run s i o -> index_to_pa s i = Some pa -> pa <> 0 ->
    (forall j, free_page s' j <-> free_page s j /\ ~ in_block i o j) ->
    (forall k q, live s' k q <-> live s k q \/ (k = i /\ q = o)) ->
    abs_step s s' (op_alloc pages pa)
| abs_alloc_fail pages :
    (forall i o, order_ok o -> pages <= 2 ^ o -> ~ free_run s i o) -> s' = s ->
    abs_step s s' (op_alloc pages 0)
| abs_free pa i o :
    live s i o -> index_to_pa s i = Some pa ->
    (forall j, free_page s' j <-> free_page s j \/ in_block i o j) ->
    (forall k q, live s' k q <-> live s k q /\ k <> i) ->
    abs_step s s' (op_free pa)
| abs_free_ignored pa :
    (forall i o, pa <> 0 -> live s i o -> index_to_pa s i <> Some pa) -> s' = s ->
    abs_step s s' (op_free pa).

(** The call [op] on the code. *)
Definition run_op (op : page_op) (s s' : mem) : Prop :=
  match op with
  | op_alloc pages pa => 0 < pages < 2 ^ 32 /\ p_alloc pages s = Some (pa, s')
  | op_free pa => 0 <= pa < 2 ^ 64 /\ p_free pa s = Some (tt, s')
  end.

(** Any number of calls. *)
Inductive calls : mem -> mem -> Prop :=
| calls_refl s : calls s s
| calls_step s s' s'' op : run_op op s s' -> calls s' s'' -> calls s s''.

(** ** Free blocks are canonical *)

Section canonical.
Context {s : mem} {fl : Z -> list Z} (Hb : binv no_page s fl).

Lemma free_page_block j : free_page s j -> exists h o, free_head s h o /\ in_block h o j.
Proof.
  intros (t & Hst & Ht). pose proof Hb as [_ _ Hs].
  destruct (bs_tags _ _ _ _ _ _ Hs j t ltac:(tauto) Hst) as [->|[->|(fr & o & Ho & ->)]].
  - destruct (bs_buddy _ _ _ _ _ _ Hs j ltac:(tauto) Hst) as (h & o & _ & Hh & Ho & Hr).
    exists h, o. split; [done|]. unfold in_block. lia.
  - unfold FRAME_USED, FRAME_BUDDY in Ht. lia.
  - destruct fr; cbn in *; [|unfold FRAME_ALLOC_BASE, FRAME_BUDDY in Ht; lia].
    exists j, o. split; [done|]. unfold in_block. pose proof (pow2_pos o Ho). lia.
Qed.

Lemma free_head_facts h o :
  free_head s h o -> order_ok o /\ valid_block s.(regions) h o /\
  forall j, in_block h o j -> free_page s j.
Proof.
  intros [Ho Hst]. pose proof Hb as [_ _ Hs].
  destruct (bs_block _ _ _ _ _ _ Hs true h o ltac:(tauto) Hst Ho) as (Hoo & [Hv _] & Hbody).
  split; [done|]. split; [done|]. intros j Hj. destruct (decide (j = h)) as [->|Hne].
  - exists o. split; [done|unfold FRAME_BUDDY; lia].
  - exists FRAME_BUDDY. split; [|done]. apply Hbody. unfold in_block in Hj. lia.
Qed.

(** Aligned blocks of one region that share a page are nested. *)
Lemma blocks_nested regs n i o k q j :
  regions_from 0 regs n -> 0 <= o <= q -> valid_block regs i o -> valid_block regs k q ->
  in_block i o j -> in_block k q j -> k <= i /\ i + 2 ^ o <= k + 2 ^ q.
Proof.
  intros Hregs Ho (r & Hr & Hlo & Hhi & Hd) (r' & Hr' & Hlo' & Hhi' & Hd') Hj Hj'. unfold in_block in *.
  assert (r' = r) as ->.
  { apply (region_of_unique 0 regs n j); [done| |]; split; try done; unfold page_in; lia. }
  assert (Hq : 2 ^ q = 2 ^ (q - o) * 2 ^ o) by (rewrite <- Z.pow_add_r by lia; f_equal; lia).
  pose proof (pow2_pos o ltac:(lia)). pose proof (pow2_pos (q - o) ltac:(lia)).
  destruct Hd as [a Ha]. destruct Hd' as [b Hb']. rewrite Hq in *.
  set (P := 2 ^ o) in *. set (R := 2 ^ (q - o)) in *.
  assert (b * R <= a) by nia. assert (a + 1 <= b * R + R) by nia. nia.
Qed.

(** Every aligned run of free pages lies inside one free block. *)
Lemma free_run_in_block b q :
  order_ok q -> free_run s b q ->
  exists h o, free_head s h o /\ q <= o /\ forall j, in_block b q j -> in_block h o j.
Proof.
  intros [Hq0 Hq]. pose proof Hb as [Hl _ Hs]. pose proof (lo_regions s Hl) as Hregs.
  revert b. revert Hq. pattern q. apply natlike_ind; [| |done]; clear q Hq0.
  - intros _ b [Hv Hfree]. destruct (free_page_block b) as (h & o & Hh & Hin).
    { apply Hfree. unfold in_block. lia. }
    exists h, o. split; [done|]. split; [by destruct Hh|]. intros j Hj.
    unfold in_block in Hj. assert (j = b) as -> by lia. done.
  - intros q Hq0 IH Hq b [Hv Hfree]. rewrite <- Z.add_1_r in *.
    destruct (split_valid _ _ b q Hregs Hq0 Hv) as (Hvl & Hvr & Hsib).
    pose proof (pow2_pos q Hq0) as Hpow. pose proof (pow2_S q Hq0) as HpS.
    destruct (IH ltac:(lia) b) as (h1 & o1 & Hh1 & Ho1 & Hin1).
    { split; [done|]. intros j Hj. apply Hfree. unfold in_block in *. lia. }
    destruct (IH ltac:(lia) (b + 2 ^ q)) as (h2 & o2 & Hh2 & Ho2 & Hin2).
    { split; [done|]. intros j Hj. apply Hfree. unfold in_block in *. lia. }
    destruct (free_head_facts _ _ Hh1) as (Hoo1 & Hv1 & _).
    destruct (free_head_facts _ _ Hh2) as (Hoo2 & Hv2 & _).
    assert (Hcontain : forall h o, free_head s h o -> q + 1 <= o ->
      (exists j, in_block b (q + 1) j /\ in_block h o j) ->
      exists h' o', free_head s h' o' /\ q + 1 <= o' /\ forall j, in_block b (q + 1) j -> in_block h' o' j).
    { intros h o Hh Ho (j & Hjb & Hjh). exists h, o. split; [done|]. split; [done|].
      destruct (free_head_facts _ _ Hh) as (_ & Hvh & _).
      pose proof (blocks_nested _ _ b (q + 1) h o j Hregs ltac:(lia) Hv Hvh Hjb Hjh).
      unfold in_block. lia. }
    destruct (decide (q + 1 <= o1)).
    { apply (Hcontain h1 o1); [done|done|]. exists b. split; [unfold in_block; lia|].
      apply Hin1. unfold in_block. lia. }
    destruct (decide (q + 1 <= o2)).
    { apply (Hcontain h2 o2); [done|done|]. exists (b + 2 ^ q). split; [unfold in_block; lia|].
      apply Hin2. unfold in_block. lia. }
    assert (o1 = q) as -> by lia. assert (o2 = q) as -> by lia.
    assert (h1 = b) as ->.
    { pose proof (blocks_nested _ _ b q h1 q b Hregs ltac:(lia) Hvl Hv1 ltac:(unfold in_block; lia)
        ltac:(apply Hin1; unfold in_block; lia)). lia. }
    assert (h2 = b + 2 ^ q) as ->.
    { pose proof (blocks_nested _ _ (b + 2 ^ q) q h2 q (b + 2 ^ q) Hregs ltac:(lia) Hvr Hv2 ltac:(unfold in_block; lia)
        ltac:(apply Hin2; unfold in_block; lia)). lia. }
    exfalso. destruct Hh1 as [_ Hs1]. destruct Hh2 as [_ Hs2].
    eapply (bs_coalesced _ _ _ _ _ _ Hs (b + 2 ^ q) q b); [tauto|done|lia| |tauto|done].
    destruct Hv as (r & Hr & Hlo & Hhi & Hd).
    assert (Hrr : region_of (regions s) (b + 2 ^ q) r) by (split; [done|unfold page_in; lia]).
    assert (Hx : Z.lxor (b + 2 ^ q - r_first_idx r) (2 ^ q) = b - r_first_idx r).
    { rewrite lxor_pow2_sibling; [|done|lia|].
      - destruct Hd as [c Hc]. rewrite HpS in Hc.
        assert ((b + 2 ^ q - r_first_idx r) / 2 ^ q = 2 * c + 1) as ->.
        { replace (b + 2 ^ q - r_first_idx r) with ((2 * c + 1) * 2 ^ q) by lia. apply Z.div_mul. lia. }
        replace ((2 * c + 1) mod 2) with 1; [cbn; lia|].
        rewrite Z.add_comm, Z.mul_comm, Z.mod_add by lia. done.
      - destruct Hd as [c Hc]. rewrite HpS in Hc. exists (2 * c + 1). lia. }
    exists r. rewrite Hx. split; [done|]. split; lia.
Qed.

(** Pages of a block carry tags of one kind, so a live block has no free page. *)
Lemma live_not_free i o j : live s i o -> in_block i o j -> ~ free_page s j.
Proof.
  intros [Ho Hst] Hj (t & Ht & Hle). pose proof Hb as [_ _ Hs].
  destruct (bs_block _ _ _ _ _ _ Hs false i o ltac:(tauto) Hst Ho) as (_ & _ & Hbody).
  unfold in_block in Hj. destruct (decide (j = i)) as [->|Hne].
  - rewrite Hst in Ht. injection Ht as <-. unfold head_tag, FRAME_ALLOC_BASE, FRAME_BUDDY in *. lia.
  - rewrite Hbody in Ht by lia. injection Ht as <-. unfold body_tag, FRAME_USED, FRAME_BUDDY in *. lia.
Qed.

Lemma free_head_unique h o h' o' j :
  free_head s h o -> free_head s h' o' -> in_block h o j -> in_block h' o' j -> h = h' /\ o = o'.
Proof.
  intros [Ho Hst] [Ho' Hst'] Hj Hj'. pose proof Hb as [_ _ Hs].
  assert (h = h') as <- by (eapply (blocks_disjoint Hs true h o true h' o' j); (done || tauto)).
  split; [done|congruence].
Qed.

Lemma live_disjoint i o i' o' j :
  live s i o -> live s i' o' -> in_block i o j -> in_block i' o' j -> i = i' /\ o = o'.
Proof.
  intros [Ho Hst] [Ho' Hst'] Hj Hj'. pose proof Hb as [_ _ Hs].
  assert (i = i') as <- by (eapply (blocks_disjoint Hs false i o false i' o' j); (done || tauto)).
  split; [done|]. assert (E : head_tag false o = head_tag false o') by congruence.
  by apply head_tag_inj in E as [_ ?].
Qed.

End canonical.

(** The free blocks are a function of the free pages. *)
Lemma free_blocks_canonical s fl s' fl' :
  binv no_page s fl -> binv no_page s' fl' -> s'.(regions) = s.(regions) ->
  (forall j, free_page s j <-> free_page s' j) ->
  forall h o, free_head s h o -> free_head s' h o.
Proof.
  intros Hb Hb' Hreg Hiff h o Hh. destruct (free_head_facts Hb h o Hh) as (Ho & Hv & Hfree).
  assert (Hhh : in_block h o h) by (unfold in_block, order_ok in *; pose proof (pow2_pos o); lia).
  destruct (free_run_in_block Hb' h o Ho) as (h' & o' & Hh' & Hle & Hin).
  { split; [by rewrite Hreg|]. intros j Hj. by apply Hiff, Hfree. }
  destruct (free_head_facts Hb' h' o' Hh') as (Ho' & Hv' & Hfree').
  destruct (free_run_in_block Hb h' o' Ho') as (h2 & o2 & Hh2 & Hle2 & Hin2).
  { split; [by rewrite <- Hreg|]. intros j Hj. by apply Hiff, Hfree'. }
  destruct (free_head_unique Hb h o h2 o2 h Hh Hh2) as [<- <-]; [done|by apply Hin2, Hin|].
  assert (o' = o) as -> by lia. unfold order_ok in Ho.
  pose proof (blocks_nested _ _ h' o h o h' (lo_regions _ (bi_layout _ _ _ Hb)) ltac:(lia)
    ltac:(by rewrite <- Hreg) Hv ltac:(unfold in_block in *; lia) ltac:(apply Hin2; unfold in_block in *; lia)).
  by assert (h' = h) as <- by lia.
Qed.

(** ** Effects of the two operations on pages and live blocks *)

Lemma fstate_of_block s fl fr i o j :
  binv no_page s fl -> 0 <= o -> fstate s.(frame_array) i = Some (head_tag fr o) -> in_block i o j ->
  fstate s.(frame_array) j = Some (if decide (j = i) then head_tag fr o else body_tag fr).
Proof.
  intros [_ _ Hs] Ho Hst Hj. destruct (bs_block _ _ _ _ _ _ Hs fr i o ltac:(tauto) Hst Ho) as (_ & _ & Hbody).
  unfold in_block in Hj. case_decide as E; [by rewrite E|]. apply Hbody. lia.
Qed.

(** No live block starts at a page with another kind of tag. *)
Lemma live_tag s i o t : live s i o -> fstate s.(frame_array) i = Some t -> t <= FRAME_ALLOC_BASE.
Proof. intros [Ho Hst] Ht. rewrite Hst in Ht. injection Ht as <-. unfold head_tag. lia. Qed.

Lemma alloc_effect s fl s' fl' pages pa i o :
  binv no_page s fl -> binv no_page s' fl' -> alloc_done s s' pages pa i o ->
  free_run s i o /\ (forall j, free_page s' j <-> free_page s j /\ ~ in_block i o j) /\
  (forall k q, live s' k q <-> live s k q \/ (k = i /\ q = o)).
Proof.
  intros Hb Hb' [(Hoo & _ & _) _ _ _ Htag (c & Hoc & Hc & Hout & Hrest) _].
  assert (Ho : 0 <= o) by (unfold order_ok in Hoo; lia). pose proof (pow2_pos o Ho) as Hpow.
  pose proof (pow2_mono o c ltac:(lia)) as Hmono.
  assert (Hhc : free_head s i c) by (split; [lia|done]).
  destruct (free_head_facts Hb i c Hhc) as (Hcc & (r & Hr & Hlo & Hhi & Hd) & Hfc).
  assert (Hlive : live s' i o) by (split; [lia|done]).
  assert (Hnl : forall k q, live s k q -> ~ in_block i c k).
  { intros k q Hl Hk. eapply (live_not_free Hb k q k Hl); [|by apply Hfc].
    destruct Hl as [Hq _]. unfold in_block. pose proof (pow2_pos q Hq). lia. }
  assert (Hsub : forall j, in_block i o j -> in_block i c j) by (unfold in_block; lia).
  split; [|split].
  - split; [|intros j Hj; by apply Hfc, Hsub].
    exists r. split; [done|]. split; [lia|]. split; [lia|].
    eapply Z.divide_trans; [|exact Hd]. exists (2 ^ (c - o)). rewrite <- Z.pow_add_r by lia. f_equal. lia.
  - intros j. split.
    + intros Hf. assert (~ in_block i o j) as Hnj by (intros Hj; by apply (live_not_free Hb' i o j)).
      split; [|done]. destruct (decide (i <= j < i + 2 ^ c)) as [Hj|Hj]; [by apply Hfc|].
      unfold free_page, free_tag in *. by rewrite <- Hout.
    + intros [Hf Hnj]. destruct (decide (i <= j < i + 2 ^ c)) as [Hj|Hj]; [by apply Hrest|].
      unfold free_page, free_tag in *. by rewrite Hout.
  - intros k q. split.
    + intros Hl. destruct (decide (i <= k < i + 2 ^ c)) as [Hk|Hk].
      * right. destruct (decide (i <= k < i + 2 ^ o)) as [Hk'|Hk'].
        -- destruct Hl as [Hq Hst]. apply (live_disjoint Hb' k q i o k); [by split|done| |done].
           unfold in_block. pose proof (pow2_pos q Hq). lia.
        -- exfalso. destruct (Hrest k Hk Hk') as (t & Ht & Hle).
           apply (live_tag _ _ _ _ Hl) in Ht. unfold FRAME_BUDDY, FRAME_ALLOC_BASE in *. lia.
      * left. destruct Hl as [Hq Hst]. split; [done|]. by rewrite <- Hout.
    + intros [Hl|[-> ->]]; [|done]. pose proof (Hnl k q Hl). destruct Hl as [Hq Hst].
      split; [done|]. by rewrite Hout.
Qed.

Lemma free_effect s fl s' fl' pa i o m mo :
  binv no_page s fl -> binv no_page s' fl' -> alloc_head_at s pa i o -> free_done s s' i o m mo ->
  (forall j, free_page s' j <-> free_page s j \/ in_block i o j) /\
  (forall k q, live s' k q <-> live s k q /\ k <> i).
Proof.
  intros Hb Hb' (Ho & _ & Hst) [_ _ (Hmo & Hle & Hm) Hsub Hwas Hout _].
  assert (Hmo0 : 0 <= mo) by lia. assert (Hlive : live s i o) by done.
  assert (Hhm : free_head s' m mo) by done.
  destruct (free_head_facts Hb' m mo Hhm) as (_ & _ & Hfm). pose proof (pow2_pos o Ho) as Hpow.
  assert (Hii : in_block i o i) by (unfold in_block; lia).
  split.
  - intros j. destruct (decide (m <= j < m + 2 ^ mo)) as [Hj|Hj].
    + split; [|intros _; by apply Hfm]. intros _.
      destruct (decide (i <= j < i + 2 ^ o)) as [Hj'|Hj']; [by right|left]. by apply Hwas.
    + unfold free_page, free_tag. rewrite (Hout j Hj). split; [by left|]. intros [|Hin]; [done|].
      exfalso. by apply Hj, Hsub.
  - intros k q. split.
    + intros Hl. assert (Hk : ~ in_block m mo k).
      { intros Hk. apply (live_not_free Hb' k q k Hl); [|by apply Hfm].
        destruct Hl as [Hq _]. unfold in_block. pose proof (pow2_pos q Hq). lia. }
      destruct Hl as [Hq Hl]. rewrite Hout in Hl by done. split; [by split|]. intros ->.
      by apply Hk, Hsub.
    + intros [Hl Hne]. split; [by destruct Hl|].
      assert (Hkk : in_block k q k) by (destruct Hl as [Hq _]; unfold in_block; pose proof (pow2_pos q Hq); lia).
      rewrite Hout; [by destruct Hl|]. intros Hk.
      destruct (decide (i <= k < i + 2 ^ o)) as [Hin|Hin].
      * apply Hne. by apply (live_disjoint Hb k q i o k).
      * apply (live_not_free Hb k q k Hl Hkk). by apply Hwas.
Qed.

(** ** The interface functions: interrupts are off during the operation only *)

Lemma set_irq_back s : set_irq_on (false || s.(irq_on)) (set_irq_on false s) = s.
Proof. by destruct s. Qed.

Lemma wp_p_alloc s fl pages :
  binv no_page s fl -> s.(memory_ready) = true -> is_reserved_pa s 0 = true -> 0 < pages < 2 ^ 32 ->
  wp (p_alloc pages) (alloc_post s fl pages) s.
Proof.
  intros Hb Hr Hz Hp. unfold p_alloc, local_irq_save, local_irq_restore. wp_steps.
  eapply wp_mono; [apply (wp_p_alloc_locked (set_irq_on false s) fl); [|done..]|].
  { by apply (binv_geo s). }
  cbn beta. intros pa s1 [(-> & -> & Hfail)|(i & o & fl' & Hb' & [Ho Hpa Hgeo Hc Ht Hfrom Hk] & Htot)]; wp_steps.
  - left. split; [done|]. split; [|done]. apply set_irq_back.
  - right. exists i, o, fl'. split; [by apply (binv_geo s1)|]. split; [|done].
    destruct Hgeo as (Hg & Hrd & Hi & Hfc). constructor; try done.
    split; [done|]. split; [done|]. split; [|done]. mem_simpl. rewrite Hi. done.
Qed.

Lemma wp_p_free s fl pa :
  binv no_page s fl -> s.(memory_ready) = true -> 0 <= pa < 2 ^ 64 ->
  wp (p_free pa) (fun _ => free_post s fl pa) s.
Proof.
  intros Hb Hr Hp. unfold p_free, local_irq_save, local_irq_restore. wp_steps.
  eapply wp_mono; [apply (wp_p_free_locked (set_irq_on false s) fl); [|done..]|].
  { by apply (binv_geo s). }
  cbn beta. intros _ s1 [(-> & Hfail)|(i & o & m & mo & fl' & Hb' & Hh & [Hgeo Hc Hf Hsub Hwas Hrest Hk] & Htot)]; wp_steps.
  - left. split; [|done]. apply set_irq_back.
  - right. exists i, o, m, mo, fl'. split; [by apply (binv_geo s1)|]. split; [done|]. split; [|done].
    destruct Hgeo as (Hg & Hrd & Hi & Hfc). constructor; try done.
    split; [done|]. split; [done|]. split; [|done]. mem_simpl. rewrite Hi. done.
Qed.

Lemma geo_reserved s s' pa : geo s' = geo s -> is_reserved_pa s' pa = is_reserved_pa s pa.
Proof. unfold geo, is_reserved_pa. intros E. injection E as _ _ -> _ _ _ _. done. Qed.

Lemma geo_index_to_pa s s' i : geo s' = geo s -> index_to_pa s' i = index_to_pa s i.
Proof.
  unfold geo, index_to_pa, find_region_by_index, region_at. intros E.
  injection E as -> _ _ -> -> -> ->. done.
Qed.

Lemma geo_regions s s' : geo s' = geo s -> s'.(regions) = s.(regions).
Proof. unfold geo. congruence. Qed.

Lemma mem_ok_geo s s' : mem_ok s -> geo s' = geo s -> s'.(memory_ready) = s.(memory_ready) ->
  buddy_ok s' -> mem_ok s'.
Proof.
  intros [Hr Hz _] Hg Hr' Hb. constructor; [congruence| |done]. by rewrite (geo_reserved s).
Qed.

Lemma alloc_post_mem_ok s fl pages pa s' :
  mem_ok s -> alloc_post s fl pages pa s' -> mem_ok s' /\ geo s' = geo s /\ s'.(irq_on) = s.(irq_on).
Proof.
  intros Hok [(_ & -> & _)|(i & o & fl' & Hb' & Hd & _)]; [done|].
  destruct (ad_geo _ _ _ _ _ _ Hd) as (Hg & Hr & Hi & _).
  split; [|done]. eapply mem_ok_geo; try done. by exists fl'.
Qed.

Lemma free_post_mem_ok s fl pa s' :
  mem_ok s -> free_post s fl pa s' -> mem_ok s' /\ geo s' = geo s /\ s'.(irq_on) = s.(irq_on).
Proof.
  intros Hok [(-> & _)|(i & o & m & mo & fl' & Hb' & _ & Hd & _)]; [done|].
  destruct (fd_geo _ _ _ _ _ _ Hd) as (Hg & Hr & Hi & _).
  split; [|done]. eapply mem_ok_geo; try done. by exists fl'.
Qed.

Lemma alloc_post_abs s fl pages pa s' :
  binv no_page s fl -> alloc_post s fl pages pa s' -> abs_step s s' (op_alloc pages pa).
Proof.
  intros Hb [(-> & -> & Hnone)|(i & o & fl' & Hb' & Hd & _)].
  - apply abs_alloc_fail; [|done]. intros i o Ho Hle Hrun.
    destruct (free_run_in_block Hb i o Ho Hrun) as (h & q & Hh & Hoq & _).
    destruct (free_head_facts Hb h q Hh) as (Hq & _). eapply (Hnone q h Hq); [|by destruct Hh].
    pose proof (pow2_mono o q). unfold order_ok in *. lia.
  - destruct (alloc_effect _ _ _ _ _ _ _ _ Hb Hb' Hd) as (Hrun & Hf & Hl).
    destruct Hd as [Hord [Hpa Hne] _ _ _ _ _]. by apply (abs_alloc s s' pages pa i o).
Qed.

Lemma free_post_abs s fl pa s' :
  binv no_page s fl -> free_post s fl pa s' -> abs_step s s' (op_free pa).
Proof.
  intros Hb [(-> & Hno)|(i & o & m & mo & fl' & Hb' & Hh & Hd & _)].
  - apply abs_free_ignored; [|done]. intros i o Hpa [Ho Hst] Hi.
    destruct Hno as [|Hno]; [done|]. by apply (Hno i o).
  - destruct (free_effect _ _ _ _ _ _ _ _ _ Hb Hb' Hh Hd) as (Hf & Hl).
    destruct Hh as (Ho & Hpa & Hst). by apply (abs_free s s' pa i o).
Qed.

Lemma run_op_step op s s' :
  mem_ok s -> run_op op s s' ->
  mem_ok s' /\ geo s' = geo s /\ s'.(irq_on) = s.(irq_on) /\ abs_step s s' op.
Proof.
  intros Hok Hrun. pose proof Hok as [Hr Hz [fl Hb]]. destruct op as [pages pa|pa]; destruct Hrun as [Hp Hrun].
  - pose proof (run_wp _ _ _ _ _ (wp_p_alloc s fl pages Hb Hr Hz Hp) Hrun) as Hpost.
    pose proof (alloc_post_mem_ok _ _ _ _ _ Hok Hpost) as (? & ? & ?).
    split_and!; try done. by eapply alloc_post_abs.
  - pose proof (run_wp _ _ _ _ _ (wp_p_free s fl pa Hb Hr Hp) Hrun) as Hpost.
    pose proof (free_post_mem_ok _ _ _ _ Hok Hpost) as (? & ? & ?).
    split_and!; try done. by eapply free_post_abs.
Qed.

(** Every call terminates without undefined behaviour. *)
Lemma p_alloc_runs s pages :
  mem_ok s -> 0 < pages < 2 ^ 32 -> exists pa s', p_alloc pages s = Some (pa, s').
Proof.
  intros [Hr Hz [fl Hb]] Hp. destruct (wp_run _ _ _ (wp_p_alloc s fl pages Hb Hr Hz Hp)) as (pa & s' & E & _). eauto.
Qed.

Lemma p_free_runs s pa :
  mem_ok s -> 0 <= pa < 2 ^ 64 -> exists s', p_free pa s = Some (tt, s').
Proof.
  intros [Hr Hz [fl Hb]] Hp. destruct (wp_run _ _ _ (wp_p_free s fl pa Hb Hr Hp)) as ([] & s' & E & _). eauto.
Qed.

Lemma calls_ok s s' : calls s s' -> mem_ok s -> mem_ok s' /\ geo s' = geo s.
Proof.
  induction 1 as [s|s s1 s2 op Hrun _ IH]; [done|]. intros Hok.
  destruct (run_op_step _ _ _ Hok Hrun) as (Hok1 & Hg & _).
  destruct (IH Hok1) as [? ?]. split; [done|congruence].
Qed.

(** ** Physical memory of live blocks *)

(** The byte at address [x] belongs to the live block [(i, o)]. *)
Definition owns (s : mem) (i o x : Z) : Prop :=
  live s i o /\ exists pa, index_to_pa s i = Some pa /\ pa <= x < pa + 2 ^ o * PAGE_SIZE.

Lemma page_pa_inj s i r j r' :
  layout_ok s -> region_of s.(regions) i r -> region_of s.(regions) j r' -> page_pa r i = page_pa r' j -> i = j.
Proof.
  intros Hl Hr Hr' E. destruct (pa_to_index_complete s Hl i r Hr) as [k Hk].
  destruct (pa_to_index_complete s Hl j r' Hr') as [k' Hk']. rewrite E in Hk. congruence.
Qed.

Lemma owns_page s fl i o x :
  binv no_page s fl -> owns s i o x ->
  exists j r, in_block i o j /\ region_of s.(regions) j r /\ page_pa r j = x - x mod PAGE_SIZE /\
    is_reserved_pa s (page_pa r j) = false.
Proof.
  intros Hb [[Ho Hst] (pa & Hpa & Hx)]. pose proof Hb as [Hl _ Hs].
  destruct (bs_block _ _ _ _ _ _ Hs false i o ltac:(tauto) Hst Ho) as (_ & [(r & Hr & Hlo & Hhi & _) Hp] & _).
  pose proof (pow2_pos o Ho) as Hpow.
  assert (Hri : region_of (regions s) i r) by (split; [done|unfold page_in; lia]).
  rewrite (index_to_pa_spec s Hl i r Hri) in Hpa. injection Hpa as <-.
  destruct (region_page_bounds s Hl i r Hri) as (_ & _ & _ & _ & _ & _ & Hd).
  set (d := (x - page_pa r i) / PAGE_SIZE).
  pose proof (Z.div_mod (x - page_pa r i) PAGE_SIZE ltac:(done)) as Hdm. fold d in Hdm.
  pose proof (Z.mod_pos_bound (x - page_pa r i) PAGE_SIZE ltac:(done)) as Hm.
  assert (Hmx : (x - page_pa r i) mod PAGE_SIZE = x mod PAGE_SIZE).
  { destruct Hd as [c ->]. replace (x - c * PAGE_SIZE) with (x + (- c) * PAGE_SIZE) by lia. by apply Z.mod_add. }
  assert (Hdr : 0 <= d < 2 ^ o) by (unfold PAGE_SIZE in *; lia).
  assert (Hrj : region_of (regions s) (i + d) r) by (split; [done|unfold page_in; lia]).
  exists (i + d), r. split; [unfold in_block; lia|]. split; [done|]. split.
  - unfold page_pa in *. unfold PAGE_SIZE in *. lia.
  - destruct (Hp (i + d)) as [_ Hnr]; [unfold in_block; lia|].
    unfold is_reserved_pa. destruct (existsb _ _) eqn:E; [|done]. exfalso. apply Hnr. by exists r.
Qed.

(** A live block and its address determine each other. *)
Lemma live_region s fl i o : binv no_page s fl -> live s i o -> exists r, region_of s.(regions) i r.
Proof.
  intros Hb [_ Hst]. apply (regions_from_cover _ _ _ i (lo_regions _ (bi_layout _ _ _ Hb))).
  apply (binv_dom _ _ _ i Hb). by eapply fstate_dom.
Qed.

Lemma live_pa_bounds s fl i o pa :
  binv no_page s fl -> live s i o -> index_to_pa s i = Some pa -> 0 <= pa < 2 ^ 64.
Proof.
  intros Hb Hl Hpa. pose proof (bi_layout _ _ _ Hb) as Hlo. destruct (live_region s fl i o Hb Hl) as [r Hr].
  rewrite (index_to_pa_spec s Hlo i r Hr) in Hpa. injection Hpa as <-.
  pose proof (region_page_bounds s Hlo i r Hr). unfold PAGE_SIZE in *. lia.
Qed.

Lemma live_pa_unique s fl i o k q pa :
  binv no_page s fl -> live s i o -> live s k q -> index_to_pa s i = Some pa -> index_to_pa s k = Some pa ->
  k = i /\ q = o.
Proof.
  intros Hb Hi Hk Epi Epk. pose proof (bi_layout _ _ _ Hb) as Hlo.
  destruct (live_region s fl i o Hb Hi) as [ri Hri]. destruct (live_region s fl k q Hb Hk) as [rk Hrk].
  rewrite (index_to_pa_spec _ Hlo _ _ Hrk) in Epk. rewrite (index_to_pa_spec _ Hlo _ _ Hri) in Epi.
  assert (k = i) as -> by (eapply (page_pa_inj s); [done|done|done|congruence]).
  destruct Hi as [Ho Hi], Hk as [Hq Hk]. split; [done|].
  assert (E : head_tag false q = head_tag false o) by congruence. by apply head_tag_inj in E as [_ ?].
Qed.

Lemma live_head_in i o s : live s i o -> in_block i o i.
Proof. intros [Ho _]. pose proof (pow2_pos o Ho). unfold in_block. lia. Qed.

(** * Counting free pages

    [total_free_pages_count] walks the free lists; its result is the number of
    pages whose tag says free, without overflow. *)

(** The set of free pages. *)
Definition free_set (s : mem) : gset Z :=
  dom (filter (fun p : Z * frame_meta => FRAME_BUDDY <= p.2.(state)) s.(frame_array)).

Lemma elem_of_free_set s j : j ∈ free_set s <-> free_page s j.
Proof.
  unfold free_set, free_page, free_tag, fstate. rewrite elem_of_dom. split.
  - intros [m Hm]. apply map_lookup_filter_Some in Hm as [Hm Hle]. rewrite Hm. by exists (state m).
  - intros (t & Ht & Hle). destruct (frame_array s !! j) as [m|] eqn:E; [|done]. injection Ht as <-.
    exists m. by apply map_lookup_filter_Some.
Qed.

(** ** The blocks on the lists, page by page *)

Definition listed (fl : Z -> list Z) : list Z :=
  seq 0 21 ≫= fun o => fl (Z.of_nat o) ≫= fun h => seqZ h (2 ^ Z.of_nat o).

Lemma length_bind_const {A B} (f : A -> list B) (l : list A) (k : nat) :
  (forall x, length (f x) = k) -> length (l ≫= f) = (length l * k)%nat.
Proof. intros H. induction l as [|x l IH]; [done|]. cbn. rewrite length_app, H. fold (mbind f l). lia. Qed.

Lemma length_listed fl : Z.of_nat (length (listed fl)) = free_pages fl.
Proof.
  unfold listed, free_pages. induction (seq 0 21) as [|o l IH]; [done|].
  rewrite bind_cons, length_app. cbn [foldr]. rewrite <- IH.
  rewrite (length_bind_const _ _ (Z.to_nat (2 ^ Z.of_nat o))) by (intros; apply length_seqZ).
  pose proof (pow2_pos (Z.of_nat o)). lia.
Qed.

Section listed.
Context (s : mem) (fl : Z -> list Z) (Hb : binv no_page s fl).

Lemma listed_head (o : nat) h :
  o ∈ seq 0 21 -> h ∈ fl (Z.of_nat o) -> free_head s h (Z.of_nat o).
Proof.
  intros Ho Hh. rewrite elem_of_seq in Ho. pose proof Hb as [_ _ Hs]. split; [lia|].
  apply (bs_mem _ _ _ _ _ _ Hs); [|done]. unfold order_ok, MEMORY_BUDDY_MAX_ORDER. lia.
Qed.

Lemma elem_of_listed j : j ∈ listed fl <-> free_page s j.
Proof.
  unfold listed. rewrite list_elem_of_bind. split.
  - intros (o & Hj & Ho). apply list_elem_of_bind in Hj as (h & Hj & Hh). apply elem_of_seqZ in Hj.
    destruct (free_head_facts Hb h (Z.of_nat o) (listed_head o h Ho Hh)) as (_ & _ & Hf). by apply Hf.
  - intros Hj. destruct (free_page_block Hb j Hj) as (h & o & Hh & Hin).
    destruct (free_head_facts Hb h o Hh) as (Ho & _). destruct Hh as [Ho0 Hst].
    exists (Z.to_nat o). unfold order_ok, MEMORY_BUDDY_MAX_ORDER in Ho. rewrite elem_of_seq. split; [|lia].
    apply list_elem_of_bind. exists h. rewrite Z2Nat.id by done. split; [by apply elem_of_seqZ|].
    pose proof Hb as [_ _ Hs]. apply (bs_mem _ _ _ _ _ _ Hs); [|by split; [tauto|]].
    unfold order_ok, MEMORY_BUDDY_MAX_ORDER. lia.
Qed.

Lemma NoDup_listed : NoDup (listed fl).
Proof.
  apply NoDup_bind; [| |apply NoDup_seq].
  - intros o o' j Ho Ho' Hj Hj'.
    apply list_elem_of_bind in Hj as (h & Hj & Hh). apply list_elem_of_bind in Hj' as (h' & Hj' & Hh').
    apply elem_of_seqZ in Hj, Hj'.
    destruct (free_head_unique Hb h (Z.of_nat o) h' (Z.of_nat o') j) as [_ E]; try done; try by apply listed_head.
    lia.
  - intros o Ho. apply NoDup_bind.
    + intros h h' j Hh Hh' Hj Hj'. apply elem_of_seqZ in Hj, Hj'.
      by destruct (free_head_unique Hb h (Z.of_nat o) h' (Z.of_nat o) j) as [E _]; try done; try by apply listed_head.
    + intros. apply NoDup_seqZ.
    + pose proof Hb as [_ Hk _]. apply (bl_nodup _ _ _ _ Hk). rewrite elem_of_seq in Ho.
      unfold order_ok, MEMORY_BUDDY_MAX_ORDER. lia.
Qed.

Lemma free_pages_size : free_pages fl = Z.of_nat (size (free_set s)).
Proof.
  rewrite <- length_listed. f_equal. rewrite <- (size_list_to_set (C := gset Z) _ NoDup_listed).
  f_equal. apply set_eq. intros j. by rewrite elem_of_list_to_set, elem_of_listed, elem_of_free_set.
Qed.

Lemma free_pages_bound : 0 <= free_pages fl <= s.(managed_page_count).
Proof.
  rewrite <- length_listed. split; [lia|].
  assert (Hn : 0 <= managed_page_count s) by (apply (managed_bound s), Hb).
  etransitivity; [apply (NoDup_bounded_length _ (managed_page_count s) NoDup_listed)|lia].
  intros j Hj. apply elem_of_listed in Hj as (t & Ht & _). apply (binv_dom _ _ _ j Hb). by eapply fstate_dom.
Qed.

Lemma flist_length o : order_ok o -> Z.of_nat (length (fl o)) <= s.(managed_page_count).
Proof.
  intros Ho. pose proof Hb as [Hl Hk Hs]. pose proof (managed_bound s Hl).
  etransitivity; [apply (NoDup_bounded_length _ (managed_page_count s))|lia].
  - by apply (bl_nodup _ _ _ _ Hk).
  - intros i Hi. apply (bs_mem _ _ _ _ _ _ Hs) in Hi as [_ Hi]; [|done]. apply (binv_dom _ _ _ i Hb). by eapply fstate_dom.
Qed.

(** The walk of one list. *)
Lemma wp_freelist_count o Q :
  order_ok o -> Q (Z.of_nat (length (fl o))) s -> wp (freelist_count_order o) Q s.
Proof.
  intros Ho HQ. pose proof Hb as [Hl Hk Hs]. pose proof (managed_bound s Hl) as Hn.
  pose proof (flist_length o Ho) as Hlen. destruct (proj2 (bl_heads _ _ _ _ Hk o) Ho) as [h Hh].
  pose proof (bl_dll _ _ _ _ Hk o h Hh) as Hd. unfold freelist_count_order.
  apply wp_bind. eapply wp_flist_get; [done|]. wp_steps.
  apply (wp_loop (fun '(cnt, cur) s' => s' = s /\ exists L1 L2 p, fl o = L1 ++ L2 /\
    cnt = Z.of_nat (length L1) /\ dll (-1) (flinks (frame_array s)) p cur L2)
    (fun '(cnt, cur) _ => Z.of_nat (length (fl o)) - cnt)).
  - intros [cnt cur] s' (_ & L1 & L2 & p & E & -> & _). rewrite E, length_app. lia.
  - intros [cnt cur] s' (-> & L1 & L2 & p & E & -> & Hd2). rewrite E, length_app in Hlen |- *.
    destruct L2 as [|i L2].
    + cbn in Hd2. subst cur. cbn [Z.leb Z.compare]. apply wp_ret. rewrite app_nil_r in E. by rewrite <- E.
    + destruct Hd2 as (-> & Hi & nx & Hlk & Hd2). destruct (flinks_dom _ _ _ Hlk) as [m Hm].
      assert (0 <= i < managed_page_count s) as Hib by (apply (binv_dom _ _ _ i Hb); by exists m).
      rewrite (proj2 (Z.leb_le _ _)), u64_id by lia. apply wp_bind. eapply wp_frame_get; [exact Hm|]. apply wp_ret.
      assert (Enx : free_next m = nx) by (unfold flinks in Hlk; rewrite Hm in Hlk; cbn in Hlk; congruence).
      cbn [length] in Hlen. rewrite Enx, u32_id by lia. split; [|cbn [length]; lia]. split; [done|].
      exists (L1 ++ [i]), L2, i. rewrite length_app, <- app_assoc. cbn [length]. split; [done|]. split; [lia|done].
  - split; [done|]. exists [], (fl o), (-1). done.
  - lia.
Qed.

(** Partial sums of [free_pages]. *)
Definition free_upto (n : nat) : Z :=
  foldr (fun o acc => Z.of_nat (length (fl (Z.of_nat o))) * 2 ^ Z.of_nat o + acc) 0 (seq 0 n).

Lemma free_upto_S n : free_upto (S n) = free_upto n + Z.of_nat (length (fl (Z.of_nat n))) * 2 ^ Z.of_nat n.
Proof.
  unfold free_upto. rewrite seq_S, foldr_app. cbn [foldr Nat.add]. rewrite Z.add_0_r.
  generalize (Z.of_nat (length (fl (Z.of_nat n))) * 2 ^ Z.of_nat n) as y. intros y.
  induction (seq 0 n) as [|o l IH]; cbn [foldr]; [done|]. rewrite IH. lia.
Qed.

Lemma free_upto_mono n k : free_upto n <= free_upto (n + k)%nat.
Proof.
  induction k as [|k IH]; [rewrite Nat.add_0_r; lia|]. rewrite Nat.add_succ_r, free_upto_S.
  pose proof (pow2_pos (Z.of_nat (n + k))). nia.
Qed.

Lemma wp_total_free_pages Q : Q (free_pages fl) s -> wp total_free_pages_count Q s.
Proof.
  intros HQ. pose proof free_pages_bound as Hfb. pose proof (managed_bound s (bi_layout _ _ _ Hb)) as Hn.
  unfold total_free_pages_count.
  apply (wp_for_acc (fun i acc s' => s' = s /\ acc = free_upto (Z.to_nat i))).
  - done.
  - intros i acc s' Hi [-> ->]. unfold MEMORY_BUDDY_MAX_ORDER in Hi.
    apply wp_bind. apply wp_freelist_count; [unfold order_ok, MEMORY_BUDDY_MAX_ORDER; lia|]. apply wp_ret. split; [done|].
    pose proof (free_upto_S (Z.to_nat i)) as HS. pose proof (free_upto_mono (S (Z.to_nat i)) (20 - Z.to_nat i)) as Hm.
    replace (S (Z.to_nat i) + (20 - Z.to_nat i))%nat with 21%nat in Hm by lia.
    change (free_upto 21) with (free_pages fl) in Hm. rewrite Z2Nat.id in HS by lia.
    pose proof (free_upto_mono 0 (Z.to_nat i)) as H0. change (free_upto 0) with 0 in H0. cbn [Nat.add] in H0.
    rewrite Z.shiftl_mul_pow2 by lia. pose proof (pow2_pos i).
    assert (0 <= Z.of_nat (length (fl i)) * 2 ^ i) by nia.
    replace (Z.to_nat (i + 1)) with (S (Z.to_nat i)) by lia. rewrite HS, (u64_id (Z.of_nat (length (fl i)) * 2 ^ i)), u64_id by lia. done.
  - intros acc s' [-> ->]. exact HQ.
Qed.

End listed.
