(* ===== verification/BuddyInit.v ===== *)
(** * Building the free lists at boot

    [buddy_build_initial_state] scans each region for runs of pages that are not
    reserved and cuts every run into aligned blocks.  The lemmas below follow
    the scan; the result satisfies the invariant of [BuddyInv], in particular
    the greedy cut leaves no two free siblings. *)

From S2P Require Import Prelude Lists Memory Layout BuddyInv BuddyAlloc.

Open Scope Z_scope.

(** ** Orders *)

Lemma wp_floor_log2 v s Q :
  0 < v < 2 ^ 62 ->
  (forall n, 0 <= n < 62 -> 2 ^ n <= v < 2 ^ (n + 1) -> Q n s) -> wp (floor_log2_u64 v) Q s.
Proof.
  intros Hv HQ. unfold floor_log2_u64.
  apply (wp_loop (fun n s' => s' = s /\ 0 <= n < 62 /\ 2 ^ n <= v) (fun n _ => 62 - n)).
  - intros n s' (_ & ? & _). lia.
  - intros n s' (-> & Hn & Hle). rewrite shiftl_1 by lia.
    rewrite u64_id by (pose proof (pow2_mono_lt (n + 1) 64); pose proof (pow2_pos (n + 1)); lia).
    destruct (Z.leb_spec (2 ^ (n + 1)) v) as [H1|H1]; apply wp_ret.
    + split; [|lia]. split; [done|]. split; [|done].
      assert (n + 1 <> 62) by (intros E; rewrite E in H1; lia). lia.
    + apply HQ; lia.
  - split; [done|]. split; [lia|]. change (2 ^ 0) with 1. lia.
  - lia.
Qed.

Lemma wp_align_order a o0 s Q :
  0 <= a -> 0 <= o0 ->
  (forall o, 0 <= o <= o0 -> (2 ^ o | a) -> (o < o0 -> ~ (2 ^ (o + 1) | a)) -> Q o s) ->
  wp (align_order a o0) Q s.
Proof.
  intros Ha Ho HQ. unfold align_order.
  apply (wp_loop (fun o s' => s' = s /\ 0 <= o <= o0 /\ (o < o0 -> ~ (2 ^ (o + 1) | a))) (fun o _ => o)).
  - intros o s' (_ & ? & _). lia.
  - intros o s' (-> & Hoo & Hmax). rewrite shiftl_1, land_pow2_mask by lia. pose proof (pow2_pos o ltac:(lia)).
    destruct (Z.ltb_spec 0 o); cbn [andb]; [destruct (Z.eqb_spec (a mod 2 ^ o) 0) as [E|E]; cbn [negb]|]; apply wp_ret.
    + apply HQ; [lia| |done]. by apply divide_mod_0.
    + split; [|lia]. split; [done|]. split; [lia|]. intros _ Hd. replace (o - 1 + 1) with o in Hd by lia.
      by apply E, divide_mod_0.
    + apply HQ; [lia| |done]. assert (o = 0) as -> by lia. apply Z.divide_1_l.
  - split; [done|]. split; [lia|]. lia.
  - lia.
Qed.

(** ** The scan *)

(** The pages from [k] on that still wait to be handed to the free lists. *)
Definition pending (regs : list mem_region_info) (n : Z) (res : list reserve_range) (k j : Z) : Prop :=
  k <= j < n /\ ~ reserved_page regs res j.

(** Where the scan has passed, exactly the pages that are not reserved are free. *)
Record scanned (regs : list mem_region_info) (res : list reserve_range) (k : Z) (fa : gmap Z frame_meta) : Prop := {
  sc_free : forall j, 0 <= j < k -> ~ reserved_page regs res j -> free_tag fa j;
  sc_none_live : forall i o, 0 <= o -> fstate fa i <> Some (head_tag false o);
  sc_kind : forall i k, fkind fa i = Some k -> k = PAGE_KIND_NONE;
}.

Lemma reserved_page_dec regs n res j r :
  regions_from 0 regs n -> region_of regs j r ->
  reserved_page regs res j <-> existsb (in_reserve (page_pa r j)) res = true.
Proof.
  intros Hregs Hr. split; [|intros; by exists r]. intros (r' & Hr' & He).
  by rewrite (region_of_unique 0 regs n j r r').
Qed.

Section add_free_run.
Context (s0 : mem) (rid a len : Z) (r : mem_region_info).
Context (Hat : region_at s0 rid = Some r) (Hr : r ∈ s0.(regions)).
Let f := r_first_idx r.
Let pend := pending s0.(regions) s0.(managed_page_count) s0.(reserves).
Context (Ha : 0 <= a) (Hlen : 0 < len) (Hend : a + len <= r.(r_page_count)).
Context (Hfree : forall j, f + a <= j < f + a + len -> ~ reserved_page s0.(regions) s0.(reserves) j).
Context (Hleft : a = 0 \/ reserved_page s0.(regions) s0.(reserves) (f + a - 1)).

(** A free block of this run that could have been the left half of a larger
    aligned block ends too close to the end of the run. *)
Definition maximal (b : Z) (fa : gmap Z frame_meta) : Prop :=
  forall h q, f + a <= h < f + b -> fstate fa h = Some q -> 0 <= q < MEMORY_BUDDY_MAX_ORDER ->
    (2 ^ (q + 1) | h - f) -> f + a + len < h + 2 ^ (q + 1).

Definition run_inv (st : Z * Z) (s : mem) : Prop :=
  let '(b, rem) := st in
  a <= b /\ 0 <= rem /\ b + rem = a + len /\
  exists fa hd c fl, s = with_buddy fa hd c s0 /\ binv (pend (f + b)) s fl /\
    scanned s0.(regions) s0.(reserves) (f + b) fa /\ maximal b fa.

(** The chosen block has no free sibling. *)
Lemma no_free_sibling b rem fa hd c fl o :
  layout_ok s0 -> a <= b -> 0 < rem -> b + rem = a + len ->
  binv (pend (f + b)) (with_buddy fa hd c s0) fl -> maximal b fa ->
  0 <= o < MEMORY_BUDDY_MAX_ORDER -> (2 ^ o | b) -> 2 ^ o <= rem -> 
  forall sb, sibling s0.(regions) (f + b) o sb -> ~ pend (f + b) sb -> fstate fa sb <> Some o.
Proof.
  intros Hl Hab Hrem Hbr Hb Hmax Ho Hd Hfit sb Hsib HX Hst.
  pose proof Hb as [_ _ Hs]. pose proof (pow2_pos o ltac:(lia)) as Hpow. pose proof (pow2_S o ltac:(lia)) as HpS.
  pose proof (lo_regions s0 Hl) as Hregs.
  destruct (bs_block _ _ _ _ _ _ Hs true sb o HX Hst ltac:(lia)) as (_ & [_ Hpg] & _).
  assert (Hv : valid_block s0.(regions) (f + b) o).
  { exists r. split_and!; [done|unfold f; lia|unfold f in *; lia|]. by replace (f + b - r_first_idx r) with b by (unfold f; lia). }
  destruct (sibling_cases _ _ (f + b) o sb Hregs ltac:(lia) Hv Hsib) as (r' & Hr' & Hrb & Hvb & Hcase).
  assert (r' = r) as ->.
  { eapply (region_of_unique 0 _ _ (f + b)); [exact Hregs|done|]. split; [done|unfold page_in, f in *; lia]. }
  pose proof (region_page_bounds s0 Hl sb r Hrb) as (Hsb & _).
  change (r_first_idx r) with f in Hcase. destruct Hcase as [[-> _]|[-> Hdd]].
  - apply HX. split; [lia|]. by apply Hpg; unfold in_block; lia.
  - destruct Hleft as [->|Hres].
    + assert (f <= f + b - 2 ^ o) by (destruct Hrb as [_ Hrb]; unfold page_in in Hrb; unfold f; lia).
      pose proof (Hmax (f + b - 2 ^ o) o ltac:(lia) Hst Ho Hdd). lia.
    + destruct (decide (f + a <= f + b - 2 ^ o)).
      * pose proof (Hmax (f + b - 2 ^ o) o ltac:(lia) Hst Ho Hdd). lia.
      * apply (Hpg (f + a - 1)); [unfold in_block; lia|done].
Qed.

Lemma run_step b rem fa hd c fl o fa' hd' c' :
  layout_ok s0 -> a <= b -> 0 < rem -> b + rem = a + len ->
  binv (pend (f + b)) (with_buddy fa hd c s0) fl ->
  scanned s0.(regions) s0.(reserves) (f + b) fa -> maximal b fa ->
  order_ok o -> 2 ^ o <= rem ->
  (o < MEMORY_BUDDY_MAX_ORDER -> (2 ^ (o + 1) | b) -> rem < 2 ^ (o + 1)) ->
  binv (fun j => pend (f + b) j /\ ~ in_block (f + b) o j) (with_buddy fa' hd' c' s0)
    (fl_set fl o ((f + b) :: fl o)) ->
  (forall j, ~ in_block (f + b) o j -> fstate fa' j = fstate fa j) -> (forall j, fkind fa' j = fkind fa j) ->
  run_inv (b + 2 ^ o, rem - 2 ^ o) (with_buddy fa' hd' c' s0).
Proof.
  intros Hl Hab Hrem Hbr Hb [Hscf Hscl Hsck] Hmax Ho Hfit Hbig Hb' Hst Hkd.
  assert (Ho0 : 0 <= o) by (unfold order_ok in Ho; lia). pose proof (pow2_pos o Ho0) as Hpow.
  assert (Hin : forall j, in_block (f + b) o j -> free_tag fa' j).
  { intros j Hj. apply (binv_free_block _ _ _ o (f + b) j Hb' Ho); [|done].
    unfold fl_set. rewrite Z.eqb_refl. set_solver. }
  pose proof Hb' as [_ _ Hs'].
  assert (Htag : fstate fa' (f + b) = Some o).
  { apply (bs_mem _ _ _ _ _ _ Hs' o (f + b) Ho). unfold fl_set. rewrite Z.eqb_refl. set_solver. }
  split; [lia|]. split; [lia|]. split; [lia|]. exists fa', hd', c', (fl_set fl o ((f + b) :: fl o)).
  split; [done|]. split; [|split].
  - eapply binv_ext; [|exact Hb']. intros j. unfold pend, pending, in_block. split.
    + intros [? Hr']. split; [split; [lia|done]|lia].
    + intros [[? Hr'] Hnj]. split; [lia|done].
  - constructor.
    + intros j Hj Hnr. destruct (decide (f + b <= j < f + b + 2 ^ o)) as [H1|H1]; [by apply Hin|].
      unfold free_tag. rewrite Hst by done. apply Hscf; [lia|done].
    + intros i q Hq Hi. destruct (decide (f + b <= i < f + b + 2 ^ o)) as [H1|H1].
      * destruct (Hin i H1) as (t & Ht & Hle). rewrite Hi in Ht. injection Ht as <-.
        unfold head_tag, FRAME_ALLOC_BASE, FRAME_BUDDY in Hle. lia.
      * rewrite Hst in Hi by done. by eapply Hscl.
    + intros i k. rewrite Hkd. apply Hsck.
  - intros h q Hh Hq Hq0 Hd. destruct (decide (h = f + b)) as [->|Hne].
    + assert (q = o) as -> by congruence. replace (f + b - f) with b in Hd by lia.
      pose proof (Hbig ltac:(lia) Hd). lia.
    + destruct (decide (h < f + b)).
      * apply (Hmax h q); [lia| |done|done]. rewrite <- Hst; [done|unfold in_block; lia].
      * exfalso. assert (H1 : f + b < h < f + b + 2 ^ o) by lia.
        destruct (bs_block _ _ _ _ _ _ Hs' true (f + b) o) as (_ & _ & Hbody);
          [unfold in_block; lia|done|done|]. specialize (Hbody h H1).
        change (frame_array (with_buddy fa' hd' c' s0)) with fa' in Hbody.
        rewrite Hq in Hbody. injection Hbody as E. unfold body_tag, FRAME_BUDDY in E. lia.
Qed.

Lemma wp_add_free_run s Q :
  layout_ok s0 -> run_inv (a, len) s -> (forall s', run_inv (a + len, 0) s' -> Q tt s') ->
  wp (add_free_run rid a len) Q s.
Proof.
  intros Hl H0 HQ. unfold add_free_run. pose proof (managed_bound s0 Hl) as Hn.
  pose proof (regions_from_bounds _ _ _ _ (lo_regions s0 Hl) Hr) as (Hf0 & Hfn & _).
  assert (Hf : 0 <= f /\ f + r_page_count r <= managed_page_count s0) by (unfold f; lia). clear Hf0 Hfn.
  apply (wp_loop run_inv (fun '(b, rem) _ => rem)); [| |done|lia].
  { intros [b rem] s' (_ & ? & _). done. }
  clear s H0. intros [b rem] s (Hab & Hrem0 & Hbr & fa & hd & c & fl & -> & Hb & Hsc & Hmax).
  destruct (Z.ltb_spec 0 rem) as [Hrem|Hrem]; cycle 1.
  { apply wp_ret. apply HQ. assert (rem = 0) as -> by lia. assert (b = a + len) as -> by lia.
    split; [lia|]. split; [lia|]. split; [lia|]. by exists fa, hd, c, fl. }
  apply wp_bind. apply wp_floor_log2; [lia|]. intros lg Hlg0 Hlg.
  set (o1 := if MEMORY_BUDDY_MAX_ORDER <? lg then MEMORY_BUDDY_MAX_ORDER else lg).
  assert (Ho1 : 0 <= o1 <= MEMORY_BUDDY_MAX_ORDER /\ o1 <= lg /\ (o1 < MEMORY_BUDDY_MAX_ORDER -> o1 = lg)).
  { unfold o1, MEMORY_BUDDY_MAX_ORDER. destruct (Z.ltb_spec 20 lg); lia. }
  apply wp_bind. apply wp_align_order; [lia|lia|]. intros o Ho Hd Hnd.
  assert (Hoo : order_ok o) by (unfold order_ok; lia).
  pose proof (pow2_pos o ltac:(lia)) as Hpow. pose proof (pow2_mono o lg ltac:(lia)) as Hmono.
  apply wp_bind. eapply wp_access; [exact Hat|].
  change (r_first_idx r) with f. rewrite (u64_id (f + b)), shiftl_1 by lia.
  eapply (wp_give_free (pend (f + b)) (with_buddy fa hd c s0)); [exact Hb|done| | | |].
  { mem_simpl. exists r. change (r_first_idx r) with f. split; [done|]. split; [lia|]. split; [lia|].
    by replace (f + b - f) with b by lia. }
  { intros j Hj. unfold in_block in Hj. split; [lia|]. apply Hfree. lia. }
  { mem_simpl. intros Hlt sb Hsib HX. eapply (no_free_sibling b rem); try done; lia. }
  intros fa' hd' c' Hb' Hst' Hkd'. rewrite with_buddy_twice in *. apply wp_ret.
  rewrite !u64_id by lia. split; [|lia].
  apply (run_step b rem fa hd c fl o); try done; [lia|].
  intros Hlt Hd1. destruct (decide (o < o1)) as [Ho1'|Ho1']; [by destruct (Hnd Ho1')|].
  assert (o = lg) as -> by lia. lia.
Qed.

End add_free_run.

(** ** The scan of one region *)

Section build_region.
Context (s0 : mem) (rid : Z) (r : mem_region_info).
Context (Hl : layout_ok s0) (Hat : region_at s0 rid = Some r) (Hr : r ∈ s0.(regions)).
Let f := r_first_idx r.
Let pend := pending s0.(regions) s0.(managed_page_count) s0.(reserves).
Let res := reserved_page s0.(regions) s0.(reserves).

(** Before page [k] of the memory: everything below is settled. *)
Definition settled (k : Z) (s : mem) : Prop :=
  exists fa hd c fl, s = with_buddy fa hd c s0 /\ binv (pend k) s fl /\
    scanned s0.(regions) s0.(reserves) k fa.

(** The locals of the scan before page [p]: the open run. *)
Definition scan_inv (p : Z) (run : Z * Z) (s : mem) : Prop :=
  let '(run_start, run_len) := run in
  0 <= run_len /\ (0 < run_len -> 0 <= run_start) /\
  let k := if decide (run_len = 0) then p else run_start in
  k + run_len = p /\ settled (f + k) s /\
  (forall j, f + k <= j < f + p -> ~ res j) /\
  (k = 0 \/ res (f + k - 1)).

Lemma settled_skip k s : settled k s -> res k -> settled (k + 1) s.
Proof.
  intros (fa & hd & c & fl & -> & Hb & [Hf Hn Hkd]) Hres. exists fa, hd, c, fl. split; [done|]. split.
  - eapply binv_ext; [|exact Hb]. intros j. unfold pend, pending. split; intros [? Hnr]; (split; [|done]); [lia|].
    assert (j <> k) by (intros ->; by apply Hnr). lia.
  - constructor; [|done|done]. intros j Hj Hnr. apply Hf; [|done].
    assert (j <> k) by (intros ->; by apply Hnr). lia.
Qed.

Lemma wp_close_run a len s Q :
  0 <= a -> 0 < len -> a + len <= r_page_count r -> settled (f + a) s ->
  (forall j, f + a <= j < f + a + len -> ~ res j) -> (a = 0 \/ res (f + a - 1)) ->
  (forall s', settled (f + (a + len)) s' -> Q tt s') -> wp (add_free_run rid a len) Q s.
Proof.
  intros Ha Hlen Hend (fa & hd & c & fl & -> & Hb & Hsc) Hfree Hleft HQ.
  eapply (wp_add_free_run s0 rid a len r); try done.
  - split; [lia|]. split; [lia|]. split; [lia|]. exists fa, hd, c, fl.
    split_and!; try done. intros h q Hh. lia.
  - intros s' (_ & _ & _ & fa' & hd' & c' & fl' & -> & Hb' & Hsc' & _). apply HQ. by exists fa', hd', c', fl'.
Qed.

(** Writing [FRAME_USED] to a reserved page changes no tag. *)
Lemma wp_mark_reserved k s Q :
  0 <= k < s0.(managed_page_count) -> res k -> settled (k + 1) s ->
  (forall s', settled (k + 1) s' -> Q tt s') -> wp (frame_upd k (set_state FRAME_USED)) Q s.
Proof.
  intros Hk Hres (fa & hd & c & fl & -> & Hb & [Hf Hn Hkd]) HQ.
  destruct (proj2 (binv_dom _ _ _ k Hb) Hk) as [m Hm]. change (frame_array (with_buddy fa hd c s0)) with fa in Hm.
  eapply wp_frame_upd; [exact Hm|]. mem_simpl.
  assert (Hst : forall j, fstate (<[k:=set_state FRAME_USED m]> fa) j = fstate fa j).
  { intros j. unfold fstate. rewrite lookup_insert. case_decide; [subst j|done]. rewrite Hm. cbn.
    f_equal. pose proof Hb as [_ _ Hs]. assert (Hx : ~ pend (k + 1) k) by (unfold pend, pending; lia).
    assert (fstate fa k = Some (state m)) as Hsk by (unfold fstate; by rewrite Hm).
    destruct (bs_tags _ _ _ _ _ _ Hs k (state m) Hx Hsk) as [E|[E|(fr & o & Ho & E)]]; [|done|].
    - exfalso. rewrite E in Hsk. destruct (bs_buddy _ _ _ _ _ _ Hs k Hx Hsk) as (h & o & HXh & Hh & Ho & Hin).
      destruct (bs_block _ _ _ _ _ _ Hs true h o HXh Hh Ho) as (_ & [_ Hp] & _).
      apply (Hp k); [unfold in_block; lia|done].
    - exfalso. rewrite E in Hsk. destruct (bs_block _ _ _ _ _ _ Hs fr k o Hx Hsk Ho) as (_ & [_ Hp] & _).
      apply (Hp k); [unfold in_block; pose proof (pow2_pos o Ho); lia|done]. }
  apply HQ. exists (<[k:=set_state FRAME_USED m]> fa), hd, c, fl. split; [done|]. split.
  - pose proof Hb as [Hlo Hk' Hs]. constructor; [by apply (layout_ok_geo s0)| |].
    + assert (Hmk : marked fa (<[k:=set_state FRAME_USED m]> fa) k 0 FRAME_USED FRAME_USED).
      { intros j. rewrite lookup_insert. change (2 ^ 0) with 1.
        destruct (decide (k = j)) as [<-|]; repeat case_decide; rewrite ?Hm; (done || lia). }
      exact (blinks_mark Hk' _ _ _ _ Hmk).
    + eapply bstates_frame; [|exact Hs]. intros j _. apply Hst.
  - constructor.
    + intros j Hj Hnr. unfold free_tag. rewrite Hst. by apply Hf.
    + intros i o Ho. rewrite Hst. by apply Hn.
    + intros i k'. unfold fkind. rewrite lookup_insert. case_decide as E; [|apply Hkd]. intros [= <-].
      apply (Hkd k). unfold fkind. by rewrite Hm.
Qed.


Lemma scan_reserved p s : scan_inv p (p, 0) s <-> settled (f + p) s /\ (p = 0 \/ res (f + p - 1)).
Proof.
  unfold scan_inv. rewrite decide_True by done. split.
  - intros (_ & _ & _ & ? & _ & ?). done.
  - intros [? ?]. split_and!; try done; lia.
Qed.

Lemma wp_build_region s Q :
  settled f s -> (forall s', settled (f + r_page_count r) s' -> Q tt s') -> wp (build_region rid) Q s.
Proof.
  intros H0 HQ. unfold build_region. pose proof (managed_bound s0 Hl) as Hn.
  pose proof (regions_from_bounds _ _ _ _ (lo_regions s0 Hl) Hr) as (Hf0 & Hfn & Hpc & Hb0 & Hbd & Hsz & Hlt).
  assert (Hf : 0 <= f /\ f + r_page_count r <= managed_page_count s0) by (unfold f; lia).
  apply wp_bind. eapply (wp_access _ r).
  { destruct H0 as (fa & hd & c & fl & -> & _). exact Hat. }
  change (r_first_idx r) with f. apply wp_bind.
  apply (wp_for_acc scan_inv).
  - unfold scan_inv. rewrite decide_True by done. split_and!; try done; try lia. by rewrite Z.add_0_r.
  - intros p [a len] s' Hp (Hlen & Ha & Hk & Hset & Hfree & Hleft). rewrite Z.add_0_l, Z2Nat.id in Hp by lia.
    rewrite (u64_id (f + p)), (u64_id (p * PAGE_SIZE)), u64_id by (unfold PAGE_SIZE in *; lia).
    assert (Hrp : region_of (regions s0) (f + p) r) by (split; [done|unfold page_in, f; lia]).
    assert (Epa : r_base r + p * PAGE_SIZE = page_pa r (f + p)) by (unfold page_pa, f; lia). rewrite Epa.
    pose proof (reserved_page_dec _ _ (reserves s0) _ _ (lo_regions s0 Hl) Hrp) as Hdec.
    assert (Eres : is_reserved_pa s' (page_pa r (f + p)) = existsb (in_reserve (page_pa r (f + p))) (reserves s0)).
    { destruct Hset as (fa & hd & c & fl & -> & _). done. }
    wp_steps. rewrite Eres. destruct (existsb _ _) eqn:E.
    + assert (Hrs : res (f + p)) by (by apply Hdec). apply wp_bind.
      assert (Hnext : forall s1, settled (f + p) s1 ->
        wp (frame_upd (f + p) (set_state FRAME_USED);; mret (a, 0)) (fun a' s' => scan_inv (p + 1) a' s') s1).
      { intros s1 Hs1. apply wp_bind. apply (wp_mark_reserved (f + p)); [lia|done|by apply settled_skip|].
        intros s2 Hs2. apply wp_ret. unfold scan_inv. rewrite decide_True by done. rewrite Z.add_assoc.
        split_and!; try done; try lia. right. by replace (f + p + 1 - 1) with (f + p) by lia. }
      destruct (Z.ltb_spec 0 len) as [Hl0|Hl0].
      * rewrite decide_False in Hk, Hset, Hfree, Hleft by lia.
        apply wp_close_run; [lia|done|lia|done| |done|].
        { intros j Hj. apply Hfree. lia. }
        intros s1 Hs1. rewrite Hk in Hs1. by apply Hnext.
      * apply wp_ret. assert (len = 0) as -> by lia. rewrite decide_True in Hset by done. by apply Hnext.
    + assert (Hnr : ~ res (f + p)) by (intros Hx; apply Hdec in Hx; congruence). apply wp_ret.
      unfold scan_inv. rewrite (decide_False (P := len + 1 = 0)) by lia.
      destruct (Z.eqb_spec len 0) as [->|Hl0].
      * rewrite decide_True in Hset, Hleft by done. split_and!; try done; try lia.
        intros j Hj. assert (j = f + p) as -> by lia. done.
      * rewrite decide_False in Hk, Hset, Hfree, Hleft by lia. split_and!; try done; try lia.
        intros j Hj. destruct (decide (j = f + p)) as [->|]; [done|]. apply Hfree. lia.
  - intros [a len] s' (Hlen & Ha & Hk & Hset & Hfree & Hleft). rewrite Z.add_0_l, Z2Nat.id in * by lia.
    apply wp_when; intros E.
    + apply Z.ltb_lt in E. rewrite decide_False in Hk, Hset, Hfree, Hleft by lia.
      apply wp_close_run; [lia|done|lia|done| |done|].
      { intros j Hj. apply Hfree. lia. }
      intros s1 Hs1. rewrite Hk in Hs1. by apply HQ.
    + apply Z.ltb_ge in E. assert (len = 0) as -> by lia. rewrite decide_True in Hset by done. by apply HQ.
Qed.

End build_region.

(** ** All regions *)

Lemma regions_from_first first regs total k r :
  regions_from first regs total -> regs !! k = Some r ->
  (k = 0%nat -> r.(r_first_idx) = first) /\
  forall r', regs !! S k = Some r' -> r'.(r_first_idx) = r.(r_first_idx) + r.(r_page_count).
Proof.
  revert first k. induction regs as [|q regs IH]; intros first k H Hk; [done|].
  destruct H as (Hf & _ & _ & _ & _ & _ & H). destruct k as [|k]; cbn in Hk.
  - injection Hk as <-. split; [done|]. intros r' Hr'. cbn in Hr'. destruct regs as [|q' regs]; [done|].
    injection Hr' as <-. destruct H as (-> & _). lia.
  - split; [done|]. intros r' Hr'. cbn in Hr'. by apply (IH _ _ H Hk).
Qed.

Lemma regions_from_total first regs total :
  regions_from first regs total ->
  match last regs with Some r => r.(r_first_idx) + r.(r_page_count) = total | None => total = first end.
Proof.
  revert first. induction regs as [|q regs IH]; intros first H; [done|].
  destruct H as (Hf & _ & _ & _ & _ & _ & H). specialize (IH _ H).
  rewrite last_cons. destruct (last regs); lia.
Qed.

(** The start of region [k], or the end of the memory. *)
Definition region_start (s : mem) (k : nat) : Z :=
  match s.(regions) !! k with Some r => r.(r_first_idx) | None => s.(managed_page_count) end.

Lemma region_start_S s k r :
  layout_ok s -> s.(regions) !! k = Some r -> region_start s (S k) = r.(r_first_idx) + r.(r_page_count).
Proof.
  intros Hl Hk. pose proof (lo_regions s Hl) as Hregs. unfold region_start.
  destruct (regions s !! S k) as [r'|] eqn:E; [by apply (regions_from_first _ _ _ _ _ Hregs Hk)|].
  pose proof (regions_from_total _ _ _ Hregs) as Ht. rewrite last_lookup in Ht.
  apply lookup_ge_None in E. apply lookup_lt_Some in Hk as Hlt.
  assert (pred (length (regions s)) = k) as Ek by lia. rewrite Ek, Hk in Ht. done.
Qed.

Lemma wp_buddy_build s Q :
  layout_ok s -> settled s 0 s -> (forall s', settled s s.(managed_page_count) s' -> Q tt s') ->
  wp buddy_build_initial_state Q s.
Proof.
  intros Hl H0 HQ. unfold buddy_build_initial_state. wp_steps.
  apply (wp_for_up (fun i s' => settled s (region_start s (Z.to_nat i)) s')).
  - assert (region_start s (Z.to_nat 0) = 0) as ->; [|done].
    unfold region_start. pose proof (lo_regions s Hl) as Hregs.
    destruct (regions s) as [|r rs]; [done|by destruct Hregs].
  - intros i s' Hi Hset. destruct (lookup_lt_is_Some_2 (regions s) (Z.to_nat i)) as [r Hr]; [lia|].
    assert (Est : region_start s (Z.to_nat i) = r_first_idx r) by (unfold region_start; by rewrite Hr).
    rewrite Est in Hset. apply (wp_build_region s i r Hl); [done|by eapply list_elem_of_lookup_2|done|].
    intros s2 Hs2. rewrite <- (region_start_S s (Z.to_nat i) r Hl Hr) in Hs2.
    by replace (Z.to_nat (i + 1)) with (S (Z.to_nat i)) by lia.
  - intros s' Hs'. apply HQ. unfold region_start in Hs'.
    rewrite lookup_ge_None_2 in Hs' by lia. done.
Qed.

(** The state in which the scan starts: fresh metadata and empty lists. *)
Record fresh (s : mem) : Prop := {
  fr_layout : layout_ok s;
  fr_frames : s.(frame_array) = fresh_frames (Z.to_nat s.(managed_page_count));
  fr_lists : forall o h, s.(free_lists) !! o = Some h <-> order_ok o /\ h = -1;
}.

Lemma fresh_frames_lookup n i :
  fresh_frames n !! i = if decide (0 <= i < Z.of_nat n) then Some (mkFrame FRAME_USED (-1) (-1) PAGE_KIND_NONE) else None.
Proof.
  unfold fresh_frames. induction n as [|n IH].
  - cbn. rewrite decide_False by lia. apply lookup_empty.
  - rewrite seq_S, map_app, list_to_map_app. cbn [map list_to_map foldr Nat.add].
    destruct (decide (0 <= i < Z.of_nat n)) as [H|H].
    + rewrite (lookup_union_Some_l _ _ _ _ IH). by rewrite decide_True by lia.
    + rewrite lookup_union_r by done. rewrite lookup_insert, lookup_empty. cbn [fst snd]. repeat case_decide; (done || lia).
Qed.

Lemma fresh_settled s : fresh s -> settled s 0 s.
Proof.
  intros [Hl Hf Hls]. pose proof (managed_bound s Hl) as Hn.
  assert (Hst : forall i t, fstate (frame_array s) i = Some t -> t = FRAME_USED).
  { intros i t. rewrite Hf. unfold fstate. rewrite fresh_frames_lookup. case_decide; cbn; congruence. }
  exists (frame_array s), (free_lists s), (console s), (fun _ => []). rewrite with_buddy_id. split; [done|]. split.
  - constructor; [done| |].
    + constructor.
      * intros i. rewrite Hf, fresh_frames_lookup. rewrite Z2Nat.id by lia. case_decide; split; try done; intros [? ?]; done.
      * intros o. split; [intros [h Hh]; apply Hls in Hh; tauto|]. intros Ho. exists (-1). by apply Hls.
      * intros o h Hh. apply Hls in Hh as [_ ->]. done.
      * intros. apply NoDup_nil_2.
    + constructor.
      * intros o i Ho. split; [set_solver|]. intros [_ Hi]. apply Hst in Hi. unfold order_ok, FRAME_USED in *. lia.
      * intros fr i o _ Hi Ho. apply Hst in Hi. by destruct (head_not_body fr false o Ho).
      * intros i _ Hi. by apply Hst in Hi.
      * intros i t _ Hi. right. left. by apply Hst in Hi.
      * intros i [Hi Hnr]. split; [lia|done].
      * intros i o b _ Hi Ho. apply Hst in Hi. unfold FRAME_USED in Hi. lia.
  - constructor; [lia| |].
    + intros i o Ho Hi. apply Hst in Hi. by destruct (head_not_body false false o Ho).
    + intros i k. rewrite Hf. unfold fkind. rewrite fresh_frames_lookup. case_decide; cbn; congruence.
Qed.
