(* ===== verification/PageIface.v ===== *)
(** * What the page allocator promises to its clients

    [slab.c] sits on top of [memory.c].  Its proofs use the page allocator only
    through the laws of the class below, which speak about block addresses,
    orders and ownership tags; the instance at the end discharges them from the
    buddy allocator's invariant. *)

From S2P Require Import Prelude Lists Memory Layout BuddyInv BuddyAlloc BuddySpec.

Open Scope Z_scope.

Class PageLaws (ok : mem -> Prop) (block : mem -> Z -> Z -> Prop) (tag : mem -> Z -> page_kind) : Prop := {
  (** Blocks are aligned, non-null and inside the address space. *)
  pl_shape s a o : ok s -> block s a o ->
    0 < a /\ (PAGE_SIZE | a) /\ order_ok o /\ a + 2 ^ o * PAGE_SIZE < 2 ^ 64;
  (** Blocks do not overlap. *)
  pl_disjoint s a o b q x : ok s -> block s a o -> block s b q ->
    a <= x < a + 2 ^ o * PAGE_SIZE -> b <= x < b + 2 ^ q * PAGE_SIZE -> a = b /\ o = q;
  (** Console and interrupt flag do not matter. *)
  pl_console s c : ok s -> ok (set_console c s);
  pl_irq s v : ok s -> ok (set_irq_on v s);
  pl_block_frame s s' a o : geo s' = geo s -> s'.(frame_array) = s.(frame_array) -> block s' a o <-> block s a o;
  pl_tag_frame s s' a : geo s' = geo s -> s'.(frame_array) = s.(frame_array) -> tag s' a = tag s a;
  (** Allocation. *)
  pl_alloc s pages Q : ok s -> 0 < pages < 2 ^ 32 -> (p_alloc pages s = Some (0, s) -> Q 0 s) ->
    (forall a o s', ok s' -> s'.(irq_on) = s.(irq_on) -> a <> 0 -> order_for pages o ->
       (forall q, ~ block s a q) ->
       (forall b q, block s' b q <-> block s b q \/ (b = a /\ q = o)) ->
       (forall b, tag s' b = tag s b) -> Q a s') ->
    wp (p_alloc pages) Q s;
  (** Release of a block. *)
  pl_free s a o Q : ok s -> block s a o ->
    (forall s', ok s' -> s'.(irq_on) = s.(irq_on) ->
       (forall b q, block s' b q <-> block s b q /\ b <> a) ->
       (forall b, tag s' b = tag s b) -> Q tt s') ->
    wp (p_free a) Q s;
  (** Ownership tags. *)
  pl_query s a Q : ok s -> 0 <= a < 2 ^ 64 ->
    (tag s a = PAGE_KIND_NONE -> (forall o, ~ block s a o) -> Q None s) ->
    (forall info, pi_kind info = tag s a ->
       (pi_allocated_head info = true <-> exists o, block s a o) -> Q (Some info) s) ->
    wp (page_query a) Q s;
  pl_set_kind s a o k Q : ok s -> block s a o ->
    (forall s', ok s' -> s'.(irq_on) = s.(irq_on) -> (forall b q, block s' b q <-> block s b q) ->
       (forall b, tag s' b = if decide (b = a) then k else tag s b) -> Q tt s') ->
    wp (page_set_kind a k) Q s;
}.

(** ** The buddy allocator keeps the promise *)

Definition pg_block (s : mem) (a o : Z) : Prop := exists i, live s i o /\ index_to_pa s i = Some a.

Definition pg_tag (s : mem) (a : Z) : page_kind :=
  match pa_to_index s a with
  | Some (i, _) => match s.(frame_array) !! i with Some m => m.(kind) | None => PAGE_KIND_NONE end
  | None => PAGE_KIND_NONE
  end.

Lemma geo_pa_to_index s s' a : geo s' = geo s -> pa_to_index s' a = pa_to_index s a.
Proof. unfold geo, pa_to_index. intros E. injection E as -> _ _ -> -> -> ->. done. Qed.

Lemma pg_tag_fkind s a :
  pg_tag s a = match pa_to_index s a with
               | Some (i, _) => default PAGE_KIND_NONE (fkind s.(frame_array) i)
               | None => PAGE_KIND_NONE
               end.
Proof. unfold pg_tag, fkind. destruct (pa_to_index s a) as [[i k]|]; [|done]. by destruct (frame_array s !! i). Qed.

Lemma pg_tag_same s s' a :
  geo s' = geo s -> (forall j, fkind s'.(frame_array) j = fkind s.(frame_array) j) -> pg_tag s' a = pg_tag s a.
Proof.
  intros Hg Hk. rewrite !pg_tag_fkind, (geo_pa_to_index s s') by done.
  destruct (pa_to_index s a) as [[i k]|]; [|done]. by rewrite Hk.
Qed.

Lemma pg_block_same s s' a o :
  geo s' = geo s -> (forall i, live s' i o <-> live s i o) -> pg_block s' a o <-> pg_block s a o.
Proof.
  intros Hg Hl. unfold pg_block. split; intros (i & Hi & Hp); exists i; rewrite ?(geo_index_to_pa s s') in *; by rewrite ?Hl in *.
Qed.

(** A block, its index and its address. *)
Lemma pg_block_index s a o :
  mem_ok s -> pg_block s a o -> exists i r k, live s i o /\ region_of s.(regions) i r /\ a = page_pa r i /\
    pa_to_index s a = Some (i, k).
Proof.
  intros [_ _ [fl Hb]] (i & Hl & Hp). pose proof (bi_layout _ _ _ Hb) as Hlo.
  destruct (regions_from_cover _ _ _ i (lo_regions s Hlo)) as [r Hr].
  { apply (binv_dom _ _ _ i Hb). destruct Hl as [_ Hst]. by eapply fstate_dom. }
  rewrite (index_to_pa_spec s Hlo i r Hr) in Hp. injection Hp as <-.
  destruct (pa_to_index_complete s Hlo i r Hr) as [k Hk]. by exists i, r, k.
Qed.

Lemma pg_block_live s a o i k :
  mem_ok s -> 0 <= a -> pa_to_index s a = Some (i, k) -> pg_block s a o <-> live s i o.
Proof.
  intros Hok Ha Hi. pose proof Hok as [_ _ [fl Hb]]. pose proof (bi_layout _ _ _ Hb) as Hlo. split.
  - intros Hbl. destruct (pg_block_index s a o Hok Hbl) as (j & r & k' & Hl & _ & _ & Hj). congruence.
  - intros Hl. exists i. split; [done|]. destruct (pa_to_index_sound s Hlo a i k Ha Hi) as (r & Hr & <-).
    by apply index_to_pa_spec.
Qed.

Lemma live_alloc_tag s i o m :
  s.(frame_array) !! i = Some m -> live s i o -> is_alloc_head_tag m.(state) = true.
Proof.
  intros Hm [Ho Hst]. unfold fstate in Hst. rewrite Hm in Hst. injection Hst as Hst.
  unfold is_alloc_head_tag. apply Z.leb_le. unfold head_tag in Hst. lia.
Qed.

Lemma alloc_tag_live s fl i m :
  binv no_page s fl -> s.(frame_array) !! i = Some m -> is_alloc_head_tag m.(state) = true -> exists o, live s i o.
Proof.
  intros Hb Hm Ht. apply Z.leb_le in Ht. exists (FRAME_ALLOC_BASE - m.(state)).
  split; [lia|]. unfold fstate, head_tag. rewrite Hm. cbn. f_equal. lia.
Qed.

(** Negative numbers are no addresses. *)
Lemma pa_to_index_nonneg s a i k : layout_ok s -> pa_to_index s a = Some (i, k) -> 0 <= a.
Proof.
  intros Hl. pose proof (lo_regions s Hl) as Hregs. unfold pa_to_index. destruct (regions_direct_map s) eqn:E.
  - destruct (lo_direct s Hl E) as (r & Hrs & -> & _). rewrite Hrs in Hregs. destruct Hregs as (_ & _ & Hb & _).
    destruct (Z.ltb_spec a (r_base r)); [done|]. intros _. lia.
  - clear E. revert Hregs. generalize 0 at 1 as f. generalize 0 at 1 as rid. generalize (managed_page_count s) as n.
    induction (regions s) as [|r rs IH]; intros n rid f Hregs; [done|]. cbn [pa_to_index_from].
    destruct Hregs as (_ & _ & Hb & _ & _ & _ & Hregs).
    destruct (Z.leb_spec (r_base r) a); cbn [andb]; [lia|]. by apply (IH n _ (f + r_page_count r)).
Qed.

(** [page_set_kind] writes one frame's kind and nothing else. *)
Lemma set_kind_fstate (fa : gmap Z frame_meta) i m k j :
  fa !! i = Some m -> fstate (<[i := set_kind k m]> fa) j = fstate fa j.
Proof. intros Hm. unfold fstate. rewrite lookup_insert. case_decide; [subst; by rewrite Hm|done]. Qed.

Lemma set_kind_flinks (fa : gmap Z frame_meta) i m k j :
  fa !! i = Some m -> flinks (<[i := set_kind k m]> fa) j = flinks fa j.
Proof. intros Hm. unfold flinks. rewrite lookup_insert. case_decide; [subst; by rewrite Hm|done]. Qed.

Lemma binv_set_kind s fl i m k :
  binv no_page s fl -> s.(frame_array) !! i = Some m ->
  binv no_page (set_frame_array (<[i := set_kind k m]> s.(frame_array)) s) fl.
Proof.
  intros [Hl [Hd Hh Hdl Hn] Hs] Hm. constructor; [by apply (layout_ok_geo s)| |].
  - constructor; mem_simpl; [|done| |done].
    + intros j. rewrite <- Hd, lookup_insert. case_decide; [subst; split; eauto|done].
    + intros o h Ho. eapply dll_ext; [|by apply Hdl]. intros j _. by apply set_kind_flinks.
  - mem_simpl. eapply bstates_frame; [|exact Hs]. intros j _. by apply set_kind_fstate.
Qed.

(** ** The laws, one by one *)

Lemma pg_shape s a o :
  mem_ok s -> pg_block s a o -> 0 < a /\ (PAGE_SIZE | a) /\ order_ok o /\ a + 2 ^ o * PAGE_SIZE < 2 ^ 64.
Proof.
  intros Hok Hbl. destruct (pg_block_index s a o Hok Hbl) as (i & r & k & [Ho Hst] & Hr & -> & _).
  pose proof Hok as [_ Hz [fl Hb]]. pose proof Hb as [Hl _ Hs]. pose proof (pow2_pos o Ho).
  destruct (bs_block _ _ _ _ _ _ Hs false i o ltac:(tauto) Hst Ho) as (Hoo & [(r' & Hr' & Hlo & Hhi & _) _] & _).
  assert (r' = r) as ->.
  { eapply (region_of_unique 0 _ _ i); [apply (lo_regions s Hl)| |done]. split; [done|unfold page_in; lia]. }
  destruct (region_page_bounds s Hl i r Hr) as (_ & _ & _ & Hge & _ & _ & Hd).
  pose proof (regions_from_bounds _ _ _ r (lo_regions s Hl) Hr') as (_ & _ & _ & _ & _ & Hsz & Hlt).
  destruct (block_page_not_reserved s no_page fl false i o i Hb ltac:(tauto) Hst Ho) as (pa & Hpa & Hnr).
  { unfold in_block. lia. }
  rewrite (index_to_pa_spec s Hl i r Hr) in Hpa. injection Hpa as <-.
  assert (page_pa r i <> 0) by (intros E; rewrite E in Hnr; congruence).
  split; [lia|]. split; [done|]. split; [done|]. unfold page_pa in *. unfold PAGE_SIZE in *. nia.
Qed.

Lemma pg_disjoint s a o b q x :
  mem_ok s -> pg_block s a o -> pg_block s b q ->
  a <= x < a + 2 ^ o * PAGE_SIZE -> b <= x < b + 2 ^ q * PAGE_SIZE -> a = b /\ o = q.
Proof.
  intros [_ _ [fl Hb]] (i & Hi & Ha) (k & Hk & Hb') Hxa Hxb. pose proof (bi_layout _ _ _ Hb) as Hl.
  destruct (owns_page s fl i o x Hb) as (j & r & Hj & Hr & Epa & _); [split; [done|by exists a]|].
  destruct (owns_page s fl k q x Hb) as (j' & r' & Hj' & Hr' & Epa' & _); [split; [done|by exists b]|].
  assert (j' = j) as -> by (eapply (page_pa_inj s); [done|done|done|congruence]).
  destruct (live_disjoint Hb i o k q j Hi Hk Hj Hj') as [-> ->]. split; [congruence|done].
Qed.

Lemma mem_ok_frame s s' :
  geo s' = geo s -> s'.(memory_ready) = s.(memory_ready) -> s'.(frame_array) = s.(frame_array) ->
  s'.(free_lists) = s.(free_lists) -> mem_ok s -> mem_ok s'.
Proof.
  intros Hg Hr Hf Hh Hok. eapply mem_ok_geo; try done. destruct Hok as [_ _ [fl Hb]]. exists fl. by apply (binv_geo s).
Qed.

Lemma pg_alloc s pages (Q : Z -> mem -> Prop) :
  mem_ok s -> 0 < pages < 2 ^ 32 -> (p_alloc pages s = Some (0, s) -> Q 0 s) ->
  (forall a o s', mem_ok s' -> geo s' = geo s -> s'.(irq_on) = s.(irq_on) -> a <> 0 -> order_for pages o ->
     (forall q, ~ pg_block s a q) ->
     (forall b q, pg_block s' b q <-> pg_block s b q \/ (b = a /\ q = o)) ->
     (forall b, pg_tag s' b = pg_tag s b) -> Q a s') ->
  wp (p_alloc pages) Q s.
Proof.
  intros Hok Hp HN HS. pose proof Hok as [Hr Hz [fl Hb]].
  eapply wp_mono_run; [by apply (wp_p_alloc s fl)|]. cbn beta. intros a s' Hrn Hpost.
  destruct (alloc_post_mem_ok _ _ _ _ _ Hok Hpost) as (Hok' & Hg & Hi).
  destruct Hpost as [(-> & -> & _)|(i & o & fl' & Hb' & Hd & _)]; [by apply HN|].
  destruct (alloc_effect _ _ _ _ _ _ _ _ Hb Hb' Hd) as (Hrun & _ & Hl). destruct Hd as [Hord [Hpa Hne] _ _ _ _ Hk].
  apply (HS a o s'); try done.
  - intros q (k & Hlk & Hpk). pose proof (bi_layout _ _ _ Hb) as Hlo.
    assert (Hlk' : live s' k q) by (apply Hl; by left). assert (Hli' : live s' i o) by (apply Hl; by right).
    destruct (live_pa_unique s' fl' i o k q a Hb' Hli' Hlk') as [-> ->]; [by rewrite (geo_index_to_pa s)..|].
    apply (live_not_free Hb i o i Hlk); [|apply Hrun]; by eapply live_head_in.
  - intros b q. unfold pg_block. setoid_rewrite Hl. setoid_rewrite (geo_index_to_pa s s' _ Hg). split.
    + intros (k & [Hlk|[-> ->]] & Hpk); [left; by exists k|right; split; [congruence|done]].
    + intros [(k & Hlk & Hpk)|[-> ->]]; [exists k; tauto|exists i; tauto].
  - intros b. by apply pg_tag_same.
Qed.

Lemma pg_free s a o (Q : unit -> mem -> Prop) :
  mem_ok s -> pg_block s a o ->
  (forall s', mem_ok s' -> geo s' = geo s -> s'.(irq_on) = s.(irq_on) ->
     (forall b q, pg_block s' b q <-> pg_block s b q /\ b <> a) ->
     (forall b, pg_tag s' b = pg_tag s b) -> Q tt s') ->
  wp (p_free a) Q s.
Proof.
  intros Hok Hbl HQ. pose proof Hok as [Hr Hz [fl Hb]].
  destruct (pg_shape s a o Hok Hbl) as (Ha0 & _ & [Ho0 _] & Ha1). pose proof (pow2_pos o Ho0).
  eapply wp_mono; [apply (wp_p_free s fl); [done|done|unfold PAGE_SIZE in *; lia]|]. cbn beta. intros [] s' Hpost.
  destruct (free_post_mem_ok _ _ _ _ Hok Hpost) as (Hok' & Hg & Hi).
  destruct Hbl as (i0 & Hli0 & Hpi0).
  destruct Hpost as [(_ & [E|Hno])|(i & q & m & mo & fl' & Hb' & Hh & Hd & _)]; [lia| |].
  { exfalso. apply (Hno i0 o). destruct Hli0. by split_and!. }
  destruct (free_effect _ _ _ _ _ _ _ _ _ Hb Hb' Hh Hd) as (_ & Hl). destruct Hd as [_ _ _ _ _ _ Hk].
  destruct Hh as (Hq & Hpi & Hsi). assert (Hli : live s i q) by done.
  destruct (live_pa_unique s fl i q i0 o a Hb Hli Hli0 Hpi Hpi0) as [-> ->].
  apply HQ; [done|done|done| |intros b; by apply pg_tag_same].
  intros b p. unfold pg_block. setoid_rewrite Hl. setoid_rewrite (geo_index_to_pa s s' _ Hg). split.
  - intros (k & [Hlk Hne] & Hpk). split; [by exists k|]. intros ->.
    destruct (live_pa_unique s fl i q k p a Hb Hli Hlk Hpi Hpk) as [-> _]. done.
  - intros [(k & Hlk & Hpk) Hne]. exists k. split; [|done]. split; [done|]. intros ->. congruence.
Qed.

Lemma pg_query s a (Q : option page_info -> mem -> Prop) :
  mem_ok s -> 0 <= a < 2 ^ 64 ->
  (pg_tag s a = PAGE_KIND_NONE -> (forall o, ~ pg_block s a o) -> Q None s) ->
  (forall info, pi_kind info = pg_tag s a ->
     (pi_allocated_head info = true <-> exists o, pg_block s a o) -> Q (Some info) s) ->
  wp (page_query a) Q s.
Proof.
  intros Hok Ha HN HS. pose proof Hok as [Hr Hz [fl Hb]]. unfold page_query. wp_steps. rewrite Hr.
  unfold pg_tag in *. destruct (pa_to_index s a) as [[i k]|] eqn:Ei.
  - destruct (pa_to_index_sound s (bi_layout _ _ _ Hb) a i k ltac:(lia) Ei) as (r & Hri & _).
    pose proof (region_page_bounds s (bi_layout _ _ _ Hb) i r Hri) as (Hi & _).
    destruct (proj2 (binv_dom _ _ _ i Hb) Hi) as [m Hm]. rewrite Hm in HS.
    apply wp_bind. eapply wp_frame_get; [exact Hm|]. apply wp_ret. apply HS; cbn; [done|].
    setoid_rewrite (pg_block_live s a _ i k Hok ltac:(lia) Ei). split; [by eapply alloc_tag_live|].
    intros [o Hl]. by eapply live_alloc_tag.
  - apply wp_ret. apply HN; [done|]. intros o Hbl.
    destruct (pg_block_index s a o Hok Hbl) as (i & r & k & _ & _ & _ & E). congruence.
Qed.

Lemma pg_set_kind s a o k (Q : unit -> mem -> Prop) :
  mem_ok s -> pg_block s a o ->
  (forall s', mem_ok s' -> geo s' = geo s -> s'.(irq_on) = s.(irq_on) -> (forall b q, pg_block s' b q <-> pg_block s b q) ->
     (forall b, pg_tag s' b = if decide (b = a) then k else pg_tag s b) -> Q tt s') ->
  wp (page_set_kind a k) Q s.
Proof.
  intros Hok Hbl HQ. pose proof Hok as [Hr Hz [fl Hb]].
  destruct (pg_block_index s a o Hok Hbl) as (i & r & rid & Hl & Hri & -> & Ei).
  unfold page_set_kind. wp_steps. rewrite Hr, Ei.
  pose proof (region_page_bounds s (bi_layout _ _ _ Hb) i r Hri) as (Hi & _).
  destruct (proj2 (binv_dom _ _ _ i Hb) Hi) as [m Hm].
  apply wp_bind. eapply wp_frame_get; [exact Hm|]. rewrite (live_alloc_tag s i o m Hm Hl). cbn [when].
  eapply wp_frame_upd; [exact Hm|]. apply HQ; [|done|done| |].
  - eapply mem_ok_geo; try done. exists fl. by apply binv_set_kind.
  - intros b q. apply pg_block_same; [done|]. intros j. unfold live. mem_simpl. by rewrite set_kind_fstate.
  - intros b. unfold pg_tag. mem_simpl. 
    match goal with |- context [pa_to_index ?x b] => change (pa_to_index x b) with (pa_to_index s b) end.
    destruct (decide (b = page_pa r i)) as [->|Hne]; [by rewrite Ei, lookup_insert_eq|].
    destruct (pa_to_index s b) as [[j k']|] eqn:Ej; [|done]. rewrite lookup_insert. case_decide as Eij; [|done].
    exfalso. subst j. apply Hne. pose proof (pa_to_index_nonneg s b i k' (bi_layout _ _ _ Hb) Ej) as Hb0.
    destruct (pa_to_index_sound s (bi_layout _ _ _ Hb) b i k' Hb0 Ej) as (r' & Hr' & <-). f_equal.
    eapply (region_of_unique 0 _ _ i); [apply (lo_regions s (bi_layout _ _ _ Hb))|done|done].
Qed.

(** The laws hold for the good states with any fixed layout of memory, [geo]. *)
Lemma page_laws_at (G : mem -> Prop) :
  (forall s s', geo s' = geo s -> G s -> G s') -> PageLaws (fun s => mem_ok s /\ G s) pg_block pg_tag.
Proof.
  intros HG. constructor.
  - intros s a o [Hok _]. by apply pg_shape.
  - intros s a o b q x [Hok _]. by apply pg_disjoint.
  - intros s c [Hok Hg]. split; [by apply (mem_ok_frame s)|by apply (HG s)].
  - intros s v [Hok Hg]. split; [by apply (mem_ok_frame s)|by apply (HG s)].
  - intros s s' a o Hg Hf. apply pg_block_same; [done|]. intros i. unfold live. by rewrite Hf.
  - intros s s' a Hg Hf. apply pg_tag_same; [done|]. intros j. by rewrite Hf.
  - intros s pages Q [Hok Hg] Hp HN HS. apply pg_alloc; [done|done|done|]. intros a o s' H1 H2. apply HS. split; [done|by apply (HG s)].
  - intros s a o Q [Hok Hg] Hb HQ. eapply pg_free; [done|exact Hb|]. intros s' H1 H2. apply HQ. split; [done|by apply (HG s)].
  - intros s a Q [Hok _]. by apply pg_query.
  - intros s a o k Q [Hok Hg] Hb HQ. eapply pg_set_kind; [done|exact Hb|]. intros s' H1 H2. apply HQ. split; [done|by apply (HG s)].
Qed.

#[export] Instance buddy_page_laws : PageLaws mem_ok pg_block pg_tag.
Proof.
  constructor; try apply (page_laws_at (fun _ => True)); try done.
  - exact pg_shape.
  - exact pg_disjoint.
  - intros s c Hok. by apply (mem_ok_frame s).
  - intros s v Hok. by apply (mem_ok_frame s).
  - intros s pages Q Hok Hp HN HS. apply pg_alloc; [done|done|done|]. intros a o s' H1 _. by apply HS.
  - intros s a o Q Hok Hb HQ. eapply pg_free; [done|exact Hb|]. intros s' H1 _. by apply HQ.
  - exact pg_query.
  - intros s a o k Q Hok Hb HQ. eapply pg_set_kind; [done|exact Hb|]. intros s' H1 _. by apply HQ.
Qed.
