(* ===== verification/Startup.v ===== *)
(** * Reservations and the startup allocator

    [memory_reserve] records page-rounded ranges; [startup_alloc] is a bump
    allocator that skips them and is used once, for the frame array. *)

From S2P Require Import Prelude Lists Memory Layout BuddyInv BuddyAlloc BuddySpec BuddyInit.

Open Scope Z_scope.

(** ** Rounding *)

Lemma align_down_page v :
  0 <= v < 2 ^ 64 -> align_down_u64 v PAGE_SIZE = v - v mod PAGE_SIZE.
Proof.
  intros Hv. unfold align_down_u64, PAGE_SIZE. change (u64 (4096 - 1)) with (2 ^ 12 - 1).
  rewrite land_not64, land_lnot_mask by lia. done.
Qed.

(** Rounding up to a power of two: the least multiple at or above [v]. *)
Lemma align_up_spec v k :
  0 <= k < 64 -> 0 <= v -> v <= UINT64_MAX - (2 ^ k - 1) ->
  (2 ^ k | align_up_u64 v (2 ^ k)) /\ v <= align_up_u64 v (2 ^ k) < v + 2 ^ k /\ align_up_u64 v (2 ^ k) < 2 ^ 64.
Proof.
  intros Hk Hv Hmax. unfold UINT64_MAX in Hmax. pose proof (pow2_pos k ltac:(lia)) as Hp.
  pose proof (pow2_mono_lt k 64 ltac:(lia)). unfold align_up_u64.
  rewrite (u64_id (2 ^ k - 1)), u64_id by lia. rewrite land_not64, land_lnot_mask by lia.
  pose proof (Z.mod_pos_bound (v + (2 ^ k - 1)) (2 ^ k) Hp). split; [by apply divide_round_down|lia].
Qed.

(** ** The reserve table *)

(** Entries are non-empty ranges of addresses. *)
Definition reserve_wf (r : reserve_range) : Prop :=
  0 <= r.(rs_start) /\ r.(rs_start) < r.(rs_end) /\ r.(rs_end) <= UINT64_MAX.

Definition reserves_wf (s : mem) : Prop := Forall reserve_wf s.(reserves).

(** The entry that [memory_reserve] computes for a non-empty range. *)
Definition reserve_entry (start size : Z) : reserve_range :=
  let e := if u64 (start + size) <? start then UINT64_MAX else u64 (start + size) in
  mkReserve (align_down_u64 start PAGE_SIZE)
    (if UINT64_MAX - (PAGE_SIZE - 1) <? e then UINT64_MAX else align_up_u64 e PAGE_SIZE).

Lemma reserve_entry_spec start size :
  0 <= start < 2 ^ 64 -> 0 < size < 2 ^ 64 ->
  let e := reserve_entry start size in
  reserve_wf e /\ e.(rs_start) <= start /\ Z.min (start + size) UINT64_MAX <= e.(rs_end).
Proof.
  intros Hs Hz. unfold reserve_entry, reserve_wf. cbn [rs_start rs_end]. rewrite align_down_page by lia.
  pose proof (round_down_bounds start PAGE_SIZE ltac:(done) ltac:(lia)) as Hd. unfold UINT64_MAX in *.
  set (e := if u64 (start + size) <? start then 2 ^ 64 - 1 else u64 (start + size)).
  assert (He : Z.min (start + size) (2 ^ 64 - 1) <= e <= 2 ^ 64 - 1 /\ start <= e).
  { unfold e. destruct (Z.lt_ge_cases (start + size) (2 ^ 64)).
    - rewrite u64_id by lia. destruct (Z.ltb_spec (start + size) start); lia.
    - assert (u64 (start + size) = start + size - 2 ^ 64) as ->.
      { unfold u64. symmetry. apply (Z.mod_unique _ _ 1); lia. }
      rewrite (proj2 (Z.ltb_lt _ _)) by lia. lia. }
  assert (Hmod : start = e -> 0 < start mod PAGE_SIZE \/ e = 2 ^ 64 - 1).
  { intros E. right. lia. }
  destruct (Z.ltb_spec (2 ^ 64 - 1 - (PAGE_SIZE - 1)) e) as [Hb|Hb].
  - split; [|lia]. split; [lia|]. split; [|lia]. unfold PAGE_SIZE in *. destruct (decide (start = 2 ^ 64 - 1)) as [->|]; [|lia].
    vm_compute. done.
  - pose proof (align_up_spec e 12 ltac:(lia) ltac:(lia)) as Hu. change (2 ^ 12) with PAGE_SIZE in Hu.
    specialize (Hu ltac:(unfold UINT64_MAX; lia)). destruct Hu as (Hdv & Hle & Hlt).
    split; [|lia]. split; [lia|]. split; [|unfold PAGE_SIZE in *; lia].
    assert (start < e) by (unfold PAGE_SIZE in *; lia). lia.
Qed.

(** The table after the call. *)
Definition reserved_after (start size : Z) (s : mem) : list reserve_range :=
  if decide (size = 0 \/ MEMORY_MAX_RESERVES <= Z.of_nat (length s.(reserves))) then s.(reserves)
  else s.(reserves) ++ [reserve_entry start size].

Lemma wp_log items Q s : (forall c, Q tt (set_console c s)) -> wp (log items) Q s.
Proof. intros HQ. apply wp_modify. apply HQ. Qed.

Lemma wp_memory_reserve start size s Q :
  0 <= start < 2 ^ 64 -> 0 <= size < 2 ^ 64 ->
  (forall c, Q tt (set_console c (set_reserves (reserved_after start size s) s))) ->
  wp (memory_reserve start size) Q s.
Proof.
  intros Hs Hz HQ. unfold memory_reserve, reserved_after in *.
  assert (Hid : forall c, set_console c (set_reserves (reserves s) s) = set_console c s) by (by destruct s).
  destruct (Z.eqb_spec size 0) as [E|E].
  { rewrite decide_True in HQ by tauto. apply wp_ret. specialize (HQ (console s)).
    by rewrite Hid, set_console_id in HQ. }
  destruct (reserve_entry_spec start size Hs ltac:(lia)) as ((_ & Hlt & _) & _).
  fold (rs_start (reserve_entry start size)) (rs_end (reserve_entry start size)).
  rewrite (proj2 (Z.leb_gt _ _)) by exact Hlt. wp_steps.
  destruct (Z.leb_spec MEMORY_MAX_RESERVES (Z.of_nat (length (reserves s)))).
  { rewrite decide_True in HQ by tauto. apply wp_log. intros c. by rewrite <- Hid. }
  rewrite decide_False in HQ by lia. wp_steps. apply wp_log. intros c.
  apply wp_bind, wp_gets. apply wp_bind.
  match goal with |- wp _ ?P ?x => assert (Hend : forall c', P tt (set_console c' x)) end.
  { intros c'. apply wp_log. intros c''. apply HQ. }
  repeat case_match; first [apply wp_ret; apply (Hend c)|apply wp_log; intros c'; apply (Hend c')].
Qed.

(** Earlier reservations stay. *)
Lemma reserved_after_mono start size s r : r ∈ s.(reserves) -> r ∈ reserved_after start size s.
Proof. unfold reserved_after. case_decide; set_solver. Qed.

Lemma reserved_after_wf start size s :
  0 <= start < 2 ^ 64 -> 0 <= size < 2 ^ 64 -> Forall reserve_wf s.(reserves) ->
  Forall reserve_wf (reserved_after start size s).
Proof.
  intros Hs Hz Hwf. unfold reserved_after. case_decide as E; [done|]. apply Forall_app. split; [done|].
  apply Forall_singleton. apply reserve_entry_spec; lia.
Qed.

Lemma existsb_reserved pa rs : existsb (in_reserve pa) rs = true <-> exists r, r ∈ rs /\ r.(rs_start) <= pa < r.(rs_end).
Proof.
  rewrite existsb_exists. split; intros (r & Hr & H); exists r; rewrite list_elem_of_In in *; unfold in_reserve in *;
    rewrite ?andb_true_iff, ?Z.leb_le, ?Z.ltb_lt in *; tauto.
Qed.

(** ** The startup allocator *)

Definition overlaps (p e : Z) (r : reserve_range) : Prop := p < r.(rs_end) /\ r.(rs_start) < e.

Lemma first_overlap_spec rs p e :
  match first_overlap rs p e with
  | Some r => r ∈ rs /\ overlaps p e r
  | None => forall r, r ∈ rs -> ~ overlaps p e r
  end.
Proof.
  unfold first_overlap. destruct (List.find _ rs) as [r|] eqn:E.
  - apply find_some in E as [Hr Ho]. rewrite list_elem_of_In. split; [done|].
    unfold ranges_overlap, overlaps in *. rewrite andb_true_iff, !Z.ltb_lt in Ho. tauto.
  - intros r Hr Ho. apply list_elem_of_In in Hr. eapply find_none in E; [|exact Hr]. cbn in E.
    unfold ranges_overlap, overlaps in *. rewrite andb_false_iff, !Z.ltb_ge in E. lia.
Qed.

(** Reservations that end above [p]: each round of the skip loop loses one. *)
Definition above (rs : list reserve_range) (p : Z) : nat := length (filter (fun r => p < r.(rs_end)) rs).

Lemma above_decreases rs p p' r :
  p <= p' -> r ∈ rs -> p < r.(rs_end) -> r.(rs_end) <= p' -> (above rs p' < above rs p)%nat.
Proof.
  unfold above. intros Hp Hr H1 H2. induction rs as [|q rs IH]; [set_solver|].
  assert (Hmono : Nat.le (length (filter (fun r => p' < rs_end r) rs)) (length (filter (fun r => p < rs_end r) rs))).
  { clear IH Hr. induction rs as [|x rs IH]; [done|]. rewrite !filter_cons. repeat case_decide; cbn; lia. }
  rewrite !filter_cons. apply list_elem_of_In in Hr as [->|Hr].
  - rewrite decide_False, decide_True by lia. cbn. lia.
  - apply list_elem_of_In in Hr. specialize (IH Hr). repeat case_decide; cbn; lia.
Qed.

(** What a successful scan returns. *)
Definition skip_ok (rs : list reserve_range) (size al p0 p : Z) : Prop :=
  p0 <= p /\ (al | p) /\ p + size < 2 ^ 64 /\ forall r, r ∈ rs -> ~ overlaps p (p + size) r.

Lemma wp_startup_skip size k rs p0 s Q :
  0 <= k < 64 -> 0 < size < 2 ^ 64 -> 0 <= p0 < 2 ^ 64 -> (2 ^ k | p0) -> Forall reserve_wf rs ->
  Q None s -> (forall p, skip_ok rs size (2 ^ k) p0 p -> Q (Some p) s) ->
  wp (startup_skip size (2 ^ k) rs p0) Q s.
Proof.
  intros Hk Hsz Hp0 Hd Hwf HN HS. unfold startup_skip.
  apply (wp_loop (fun p s' => s' = s /\ p0 <= p < 2 ^ 64 /\ (2 ^ k | p)) (fun p _ => Z.of_nat (above rs p))).
  - intros. lia.
  - intros p s' (-> & Hp & Hdp). unfold u64. destruct (Z.lt_ge_cases (p + size) (2 ^ 64)) as [Hlt|Hge]; cycle 1.
    { assert ((p + size) mod 2 ^ 64 = p + size - 2 ^ 64) as -> by (symmetry; apply (Z.mod_unique _ _ 1); lia).
      rewrite (proj2 (Z.ltb_lt _ _)) by lia. by apply wp_ret. }
    rewrite Z.mod_small by lia. rewrite (proj2 (Z.ltb_ge _ _)) by lia.
    pose proof (first_overlap_spec rs p (p + size)) as Hfo. destruct (first_overlap _ _ _) as [r|].
    + destruct Hfo as [Hr [Ho1 Ho2]]. destruct (Z.ltb_spec (UINT64_MAX - (2 ^ k - 1)) (rs_end r)); [by apply wp_ret|].
      pose proof (proj1 (Forall_forall _ _) Hwf r Hr) as (Hw1 & Hw2 & Hw3).
      destruct (align_up_spec (rs_end r) k Hk ltac:(lia) ltac:(lia)) as (Ha1 & Ha2 & Ha3).
      apply wp_ret. split; [split; [done|split; [lia|done]]|].
      pose proof (above_decreases rs p (align_up_u64 (rs_end r) (2 ^ k)) r ltac:(lia) Hr ltac:(lia) (proj1 Ha2)). lia.
    + apply wp_ret. apply HS. split; [lia|]. split; [done|]. split; [done|]. done.
  - split; [done|]. split; [lia|done].
  - unfold above. pose proof (length_filter (fun r => p0 < rs_end r) rs). lia.
Qed.

(** Outcome of [startup_alloc]: null and nothing changed, or a fresh range. *)
Definition startup_post (size al : Z) (s : mem) (p : Z) (s' : mem) : Prop :=
  (p = 0 /\ s' = s) \/
  (s.(startup_cur) <= p /\ (al | p) /\ p + size <= s.(startup_end) /\
   (forall r, r ∈ s.(reserves) -> ~ overlaps p (p + size) r) /\
   exists c, s' = set_console c (set_reserves (reserved_after p size s) (set_startup_cur (p + size) s))).

Lemma wp_startup_alloc size k s Q :
  0 <= k < 64 -> 0 < size < 2 ^ 64 -> 0 <= s.(startup_cur) < 2 ^ 64 -> s.(startup_end) < 2 ^ 64 -> reserves_wf s ->
  (forall p s', startup_post size (2 ^ k) s p s' -> Q p s') ->
  wp (startup_alloc size (2 ^ k)) Q s.
Proof.
  intros Hk Hsz Hcur Hend Hwf HQ. unfold startup_alloc. wp_steps.
  assert (Hnull : Q 0 s) by (apply HQ; by left).
  pose proof (pow2_pos k ltac:(lia)) as Hpow. pose proof (pow2_mono_lt k 64 ltac:(lia)) as Hp64.
  destruct (negb (startup_ready s) || (size =? 0)); [by apply wp_ret|].
  destruct (Z.eqb_spec (2 ^ k) 0); [lia|]. rewrite (u64_id (2 ^ k - 1)), land_pow2_mask, Z.mod_same by lia.
  cbn [Z.eqb negb]. wp_steps. destruct (Z.ltb_spec (UINT64_MAX - (2 ^ k - 1)) (startup_cur s)); [by apply wp_ret|].
  wp_steps. destruct (align_up_spec (startup_cur s) k Hk ltac:(lia) ltac:(lia)) as (Ha1 & Ha2 & Ha3).
  apply wp_startup_skip; [done|done|lia|done|done|by apply wp_ret|].
  intros p (Hp & Hd & Hlt & Hno). rewrite u64_id by lia. wp_steps.
  rewrite (proj2 (Z.ltb_ge _ _)) by lia. cbn [orb].
  destruct (Z.ltb_spec (startup_end s) (p + size)); [by apply wp_ret|]. wp_steps.
  apply wp_memory_reserve; [lia|lia|]. intros c. wp_steps. apply HQ. right.
  split; [lia|]. split; [done|]. split; [lia|]. split; [done|]. by exists c.
Qed.

(** ** The frame array *)

(** [free_lists] is an array of [MEMORY_BUDDY_MAX_ORDER + 1] entries. *)
Definition lists_allocated (s : mem) : Prop := forall o, is_Some (s.(free_lists) !! o) <-> order_ok o.

Lemma wp_clear_lists s Q :
  lists_allocated s ->
  (forall hd, (forall o h, hd !! o = Some h <-> order_ok o /\ h = -1) -> Q tt (set_free_lists hd s)) ->
  wp (for_up (Z.to_nat (MEMORY_BUDDY_MAX_ORDER + 1)) 0 (fun i => flist_set i (-1))) Q s.
Proof.
  intros Hal HQ.
  apply (wp_for_up (fun i s' => exists hd, s' = set_free_lists hd s /\
    (forall o, is_Some (hd !! o) <-> order_ok o) /\ (forall o, 0 <= o < i -> hd !! o = Some (-1)))).
  - exists (free_lists s). split; [by destruct s|]. split; [done|]. lia.
  - intros i s' Hi (hd & -> & Hdom & Hcl). destruct (proj2 (Hdom i)) as [h Hh].
    { unfold order_ok, MEMORY_BUDDY_MAX_ORDER in *. lia. }
    eapply wp_flist_set; [exact Hh|]. mem_simpl. exists (<[i := -1]> hd). split; [done|]. split.
    + intros o. rewrite <- Hdom. rewrite lookup_insert. case_decide; [subst; split; eauto|done].
    + intros o Ho. rewrite lookup_insert. case_decide; [done|]. apply Hcl. lia.
  - intros s' (hd & -> & Hdom & Hcl). apply HQ. intros o h. split.
    + intros Hh. assert (Ho : order_ok o) by (by apply Hdom). split; [done|].
      rewrite Hcl in Hh; [congruence|]. unfold order_ok, MEMORY_BUDDY_MAX_ORDER in *. lia.
    + intros [Ho ->]. apply Hcl. unfold order_ok, MEMORY_BUDDY_MAX_ORDER in *. lia.
Qed.

(** Size of the frame array in bytes. *)
Definition frame_bytes (s : mem) : Z := s.(managed_page_count) * SIZEOF_FRAME_META.

(** The metadata is in place and its own memory is reserved. *)
Definition metadata_post (s : mem) (s' : mem) : Prop :=
  fresh s' /\ s'.(regions) = s.(regions) /\ s'.(managed_page_count) = s.(managed_page_count) /\
  s'.(memory_ready) = s.(memory_ready) /\ s'.(irq_on) = s.(irq_on) /\
  let p := s'.(frame_array_addr) in
  p <> 0 /\ (PAGE_SIZE | p) /\ s.(startup_cur) <= p /\ p + frame_bytes s <= s.(startup_end) /\
  (forall r, r ∈ s.(reserves) -> ~ overlaps p (p + frame_bytes s) r) /\
  s'.(reserves) = reserved_after p (frame_bytes s) s.

Lemma wp_buddy_setup_metadata s Q :
  layout_ok s -> 0 < s.(managed_page_count) -> 0 < s.(startup_cur) < 2 ^ 64 -> s.(startup_end) < 2 ^ 64 ->
  reserves_wf s -> lists_allocated s ->
  Q (-1) (set_frame_array_addr 0 s) -> (forall s', metadata_post s s' -> Q 0 s') ->
  wp buddy_setup_metadata Q s.
Proof.
  intros Hl Hn0 Hcur Hend Hwf Hal HN HQ. pose proof (managed_bound s Hl) as Hn.
  unfold buddy_setup_metadata. wp_steps. unfold SIZEOF_FRAME_META. rewrite u64_id by lia.
  change PAGE_SIZE with (2 ^ 12). apply wp_startup_alloc; [lia|lia|lia|done|done|].
  intros p s1 [[-> ->]|(Hp & Hd & He & Hno & c & ->)]; wp_steps; [done|].
  destruct (Z.eqb_spec p 0); [lia|]. wp_steps. apply wp_clear_lists; [done|].
  intros hd Hhd. wp_steps. apply HQ. unfold frame_bytes, SIZEOF_FRAME_META.
  split; [constructor; mem_simpl; [by apply (layout_ok_geo (set_reserves (reserved_after p (managed_page_count s * 16) s) s));
    [|destruct Hl; by constructor]|done|done]|].
  mem_simpl. by split_and!.
Qed.

(** ** From boot to a working allocator *)

Lemma settled_end_ok s s' :
  settled s s.(managed_page_count) s' -> is_reserved_pa s 0 = true ->
  mem_ok (set_memory_ready true s') /\
  (forall j, free_page s' j <-> 0 <= j < s.(managed_page_count) /\ ~ reserved_page s.(regions) s.(reserves) j) /\
  (forall i o, ~ live s' i o) /\
  (forall i k, fkind s'.(frame_array) i = Some k -> k = PAGE_KIND_NONE).
Proof.
  intros (fa & hd & c & fl & -> & Hb & [Hf Hn Hkd]) Hz.
  assert (Hb0 : binv no_page (with_buddy fa hd c s) fl).
  { eapply binv_ext; [|exact Hb]. unfold pending, no_page. intros j. split; [tauto|lia]. }
  split; [|split; [|split]].
  - constructor; [done|done|]. exists fl. by eapply (binv_geo (with_buddy fa hd c s)).
  - intros j. split; [|intros [? ?]; by apply Hf]. intros Hj. split.
    + apply (binv_dom _ _ _ j Hb). destruct Hj as (t & Ht & _). by eapply fstate_dom.
    + destruct (free_page_block Hb0 j Hj) as (h & o & [Ho Hst] & Hin). pose proof Hb0 as [_ _ Hs].
      destruct (bs_block _ _ _ _ _ _ Hs true h o ltac:(tauto) Hst Ho) as (_ & [_ Hp] & _). by apply Hp.
  - intros i o [Ho Hst]. by eapply Hn.
  - exact Hkd.
Qed.

(** A small memory: 16 pages from address 0; page 0 and pages 4 to 6 reserved. *)
Definition demo : mem :=
  mkMem [mkRegion 0 65536 0 16] 16 [mkReserve 0 4096; mkReserve 16384 28672] 0 0 false 4096
    (fresh_frames 16) (list_to_map (map (fun i => (Z.of_nat i, -1)) (seq 0 21)))
    false 0 0 0 false 0 0 false true [].

Lemma demo_layout : layout_ok demo.
Proof.
  constructor; cbn.
  - split_and!; try done. exists 0. done.
  - intros r r' Hr Hr'. set_solver.
  - done.
  - done.
Qed.

Lemma demo_lists o h : demo.(free_lists) !! o = Some h <-> order_ok o /\ h = -1.
Proof.
  unfold demo, free_lists. split.
  - intros Hh. apply elem_of_list_to_map_2 in Hh. apply list_elem_of_In, in_map_iff in Hh as (k & Ek & Hk).
    apply in_seq in Hk. injection Ek as <- <-. unfold order_ok, MEMORY_BUDDY_MAX_ORDER. lia.
  - intros [Ho ->]. unfold order_ok, MEMORY_BUDDY_MAX_ORDER in Ho.
    assert (exists k : nat, o = Z.of_nat k /\ (k < 21)%nat) as (k & -> & Hk) by (exists (Z.to_nat o); lia).
    do 21 (destruct k as [|k]; [reflexivity|]). lia.
Qed.

Lemma demo_fresh : fresh demo.
Proof. constructor; [apply demo_layout|done|apply demo_lists]. Qed.

(** A memory after boot. *)
Definition booted (m : mem) : mem :=
  match buddy_build_initial_state m with
  | Some (_, s) => set_memory_ready true s
  | None => m
  end.

Lemma booted_state m :
  layout_ok m -> fresh m -> is_reserved_pa m 0 = true ->
  mem_ok (booted m) /\ forall i k, fkind (booted m).(frame_array) i = Some k -> k = PAGE_KIND_NONE.
Proof.
  intros Hl Hf H0. assert (wp buddy_build_initial_state (fun _ s' => settled m m.(managed_page_count) s') m) as H.
  { apply wp_buddy_build; [exact Hl|by apply fresh_settled|done]. }
  unfold booted, wp in *. destruct (buddy_build_initial_state m) as [[[] s]|]; [|done].
  destruct (settled_end_ok m s H) as (Hok & _ & _ & Hk); done.
Qed.

Definition demo_booted : mem := booted demo.

Lemma demo_booted_state :
  mem_ok demo_booted /\ forall i k, fkind demo_booted.(frame_array) i = Some k -> k = PAGE_KIND_NONE.
Proof. by apply booted_state; [apply demo_layout|apply demo_fresh|]. Qed.

Lemma demo_booted_ok : mem_ok demo_booted.
Proof. apply demo_booted_state. Qed.
