(* ===== verification/PageAllocator.v ===== *)
(** * Correctness of the page allocator

    The main theorems about [p_alloc], [p_free] and the boot code of
    [memory.c], each with a run on a small memory. *)

From S2P Require Import Prelude Lists Memory Layout BuddyInv BuddyAlloc BuddySpec BuddyInit Startup.

Open Scope Z_scope.

(** C1: [p_alloc] implements its contract.  On every reachable allocator state
    and for every request it returns (no undefined behaviour, every loop ends),
    keeps the allocator invariant, restores the interrupt flag, and either hands
    out an aligned run of free pages of the smallest sufficient power of two, or
    returns null with the state unchanged; the latter only when no aligned
    sufficient run of free pages exists, so fragmentation by the free lists
    themselves never makes a request fail. *)
Theorem p_alloc_refines (s : mem) (pages : Z) :
  mem_ok s -> 0 < pages < 2 ^ 32 ->
  exists pa s', p_alloc pages s = Some (pa, s') /\ mem_ok s' /\
    s'.(irq_on) = s.(irq_on) /\ abs_step s s' (op_alloc pages pa).
Proof.
  intros Hok Hp. destruct (p_alloc_runs s pages Hok Hp) as (pa & s' & E).
  exists pa, s'. split; [done|].
  destruct (run_op_step (op_alloc pages pa) s s' Hok ltac:(done)) as (? & _ & ? & ?). done.
Qed.

Lemma p_alloc_refines_witness :
  exists pa s', p_alloc 3 demo_booted = Some (pa, s') /\ mem_ok s' /\
    s'.(irq_on) = true /\ abs_step demo_booted s' (op_alloc 3 pa).
Proof. exact (p_alloc_refines demo_booted 3 demo_booted_ok ltac:(lia)). Defined.

(** C2: [p_free] implements its contract.  Releasing the head address of a live
    block makes exactly that block's pages free and the block no longer live;
    every other argument (null, misaligned, outside RAM, inside a block, already
    free) leaves the state unchanged.  The call always returns and keeps the
    invariant, including full coalescing. *)
Theorem p_free_refines (s : mem) (pa : Z) :
  mem_ok s -> 0 <= pa < 2 ^ 64 ->
  exists s', p_free pa s = Some (tt, s') /\ mem_ok s' /\
    s'.(irq_on) = s.(irq_on) /\ abs_step s s' (op_free pa).
Proof.
  intros Hok Hp. destruct (p_free_runs s pa Hok Hp) as (s' & E).
  exists s'. split; [done|].
  destruct (run_op_step (op_free pa) s s' Hok ltac:(done)) as (? & _ & ? & ?). done.
Qed.

Lemma p_free_refines_witness :
  exists s', p_free 4096 demo_booted = Some (tt, s') /\ mem_ok s' /\
    s'.(irq_on) = true /\ abs_step demo_booted s' (op_free 4096).
Proof. exact (p_free_refines demo_booted 4096 demo_booted_ok ltac:(lia)). Defined.

(** C3: whatever sequence of [p_alloc] and [p_free] calls has run, with any
    arguments and in any order, a byte of physical memory belongs to at most one
    live block and never to a reserved page. *)
Theorem live_memory_exclusive (s s' : mem) (i o k q x : Z) :
  mem_ok s -> calls s s' -> owns s' i o x ->
  is_reserved_pa s' (x - x mod PAGE_SIZE) = false /\ (owns s' k q x -> k = i /\ q = o).
Proof.
  intros Hok Hc Hx. destruct (calls_ok s s' Hc Hok) as [[_ _ [fl Hb]] _].
  destruct (owns_page s' fl i o x Hb Hx) as (j & r & Hj & Hr & Epa & Hnr).
  split; [by rewrite <- Epa|]. intros Hx'.
  destruct (owns_page s' fl k q x Hb Hx') as (j' & r' & Hj' & Hr' & Epa' & _).
  assert (j' = j) as -> by (eapply (page_pa_inj s'); [apply (bi_layout _ _ _ Hb)|done|done|congruence]).
  by apply (live_disjoint Hb k q i o j); [apply Hx'|apply Hx| |].
Qed.

(** Two allocations on the small memory, the second of which is looked at. *)
Definition demo_two : mem :=
  match p_alloc 1 demo_booted with
  | Some (_, s1) => match p_alloc 2 s1 with Some (_, s2) => s2 | None => s1 end
  | None => demo_booted
  end.

Lemma live_memory_exclusive_witness :
  is_reserved_pa demo_two (30000 - 30000 mod PAGE_SIZE) = false /\
  (owns demo_two 7 0 30000 -> 7 = 7 /\ 0 = 0).
Proof.
  apply (live_memory_exclusive demo_booted demo_two 7 0 7 0 30000 demo_booted_ok).
  - destruct (p_alloc 1 demo_booted) as [[pa s1]|] eqn:E1; [|vm_compute in E1; discriminate E1].
    apply (calls_step _ s1 _ (op_alloc 1 pa)); [split; [lia|done]|].
    unfold demo_two. rewrite E1.
    destruct (p_alloc 2 s1) as [[pb s2]|] eqn:E2; [|apply calls_refl].
    apply (calls_step _ s2 _ (op_alloc 2 pb)); [split; [lia|done]|apply calls_refl].
  - split; [split; [lia|]|exists 28672; split; [|unfold PAGE_SIZE; lia]]; vm_compute; reflexivity.
Defined.

(** ** The tags are a function of free pages and live blocks *)

Lemma fstate_determined s fl s' fl' :
  binv no_page s fl -> binv no_page s' fl' -> geo s' = geo s ->
  (forall j, free_page s' j <-> free_page s j) -> (forall k q, live s' k q <-> live s k q) ->
  forall j t, fstate s.(frame_array) j = Some t -> fstate s'.(frame_array) j = Some t.
Proof.
  intros Hb Hb' Hg Hf Hl j t Hst. pose proof Hb as [_ _ Hs]. pose proof Hb' as [_ _ Hs'].
  pose proof (geo_regions _ _ Hg) as Hreg.
  assert (Hh : forall h o, free_head s h o <-> free_head s' h o).
  { intros h o. split; [by apply (free_blocks_canonical s fl s' fl')|].
    apply (free_blocks_canonical s' fl' s fl); (done || by intros ?; symmetry). }
  assert (is_Some (frame_array s' !! j)) as [m Hm].
  { apply (binv_dom _ _ _ j Hb'). assert (managed_page_count s' = managed_page_count s) as -> by (unfold geo in Hg; congruence).
    apply (binv_dom _ _ _ j Hb). by eapply fstate_dom. }
  assert (Hst' : fstate (frame_array s') j = Some (state m)) by (unfold fstate; by rewrite Hm).
  rewrite Hst'. f_equal.
  destruct (bs_tags _ _ _ _ _ _ Hs' j _ ltac:(tauto) Hst') as [E'|[E'|(fr & o & Ho & E')]]; cycle 2.
  { rewrite E' in *. destruct fr.
    - destruct (proj2 (Hh j o)) as [_ Hx]; [by split|]. rewrite Hst in Hx. by injection Hx.
    - destruct (proj1 (Hl j o)) as [_ Hx]; [by split|]. rewrite Hst in Hx. by injection Hx. }
  all: destruct (bs_tags _ _ _ _ _ _ Hs j _ ltac:(tauto) Hst) as [E|[E|(fr & o & Ho & E)]]; rewrite ?E, ?E' in *; try done.
  - exfalso. destruct (proj1 (Hf j)) as (t' & Ht' & Hle); [by exists FRAME_BUDDY|].
    rewrite Hst in Ht'. injection Ht' as <-. done.
  - destruct fr; exfalso.
    + destruct (proj1 (Hh j o)) as [_ Hx]; [by split|]. rewrite Hst' in Hx. injection Hx as Hx. unfold FRAME_BUDDY in Hx. lia.
    + destruct (proj2 (Hl j o)) as [_ Hx]; [by split|]. rewrite Hst' in Hx. injection Hx as Hx. 
      unfold head_tag, FRAME_ALLOC_BASE, FRAME_BUDDY in Hx. lia.
  - exfalso. destruct (proj2 (Hf j)) as (t' & Ht' & Hle); [by exists FRAME_BUDDY|].
    rewrite Hst' in Ht'. injection Ht' as <-. done.
  - destruct fr; exfalso.
    + destruct (proj1 (Hh j o)) as [_ Hx]; [by split|]. rewrite Hst' in Hx. injection Hx as Hx. unfold FRAME_USED in Hx. lia.
    + destruct (proj2 (Hl j o)) as [_ Hx]; [by split|]. rewrite Hst' in Hx. injection Hx as Hx. 
      unfold head_tag, FRAME_ALLOC_BASE, FRAME_USED in Hx. lia.
Qed.

(** Taking a free run and giving it back leaves free pages and live blocks as they were. *)
Lemma taken_and_given s fl s1 s2 i o :
  binv no_page s fl -> free_run s i o -> live s1 i o ->
  (forall j, free_page s1 j <-> free_page s j /\ ~ in_block i o j) ->
  (forall k q, live s1 k q <-> live s k q \/ (k = i /\ q = o)) ->
  (forall j, free_page s2 j <-> free_page s1 j \/ in_block i o j) ->
  (forall k q, live s2 k q <-> live s1 k q /\ k <> i) ->
  (forall j, free_page s2 j <-> free_page s j) /\ (forall k q, live s2 k q <-> live s k q).
Proof.
  intros Hb [_ Hfree] Hlive Hf1 Hl1 Hf2 Hl2. split.
  - intros j. rewrite Hf2, Hf1. split; [|intros ?; destruct (decide (i <= j < i + 2 ^ o)) as [Hj|Hj]; [by right|by left]].
    intros [[? _]|Hin]; [done|by apply Hfree].
  - intros h p. rewrite Hl2, Hl1. split.
    + intros [[?|[-> _]] Hn]; done.
    + intros Hlh. split; [by left|]. intros ->.
      apply (live_not_free Hb i p i Hlh); [|apply Hfree]; by eapply live_head_in.
Qed.

(** [p_alloc] followed by [p_free] of the result puts the allocator back:
    every frame has the tag it had before, hence the same blocks are free and
    the same blocks are live (splitting and merging undo each other exactly). *)
Theorem alloc_free_roundtrip (s s1 s2 : mem) (pages pa : Z) :
  mem_ok s -> 0 < pages < 2 ^ 32 -> p_alloc pages s = Some (pa, s1) -> pa <> 0 ->
  p_free pa s1 = Some (tt, s2) ->
  forall j, fstate s2.(frame_array) j = fstate s.(frame_array) j.
Proof.
  intros Hok Hp E1 Hne E2.
  destruct (run_op_step (op_alloc pages pa) s s1 Hok ltac:(done)) as (Hok1 & Hg1 & _ & Hst1).
  pose proof Hok as [_ _ [fl Hb]]. pose proof Hok1 as [_ _ [fl1 Hb1]].
  inversion Hst1 as [? ? i o _ Hrun Hpa _ Hf1 Hl1| |?|?]; subst; [|done].
  assert (Hlive : live s1 i o) by (apply Hl1; by right).
  rewrite <- (geo_index_to_pa _ _ _ Hg1) in Hpa. pose proof (live_pa_bounds _ _ _ _ _ Hb1 Hlive Hpa) as Hpab.
  destruct (run_op_step (op_free pa) s1 s2 Hok1 ltac:(done)) as (Hok2 & Hg2 & _ & Hst2).
  pose proof Hok2 as [_ _ [fl2 Hb2]].
  inversion Hst2 as [| |? k q Hlk Hpk Hf2 Hl2|? Hno]; subst; [|by destruct (Hno i o Hne Hlive)].
  destruct (live_pa_unique _ _ _ _ _ _ _ Hb1 Hlive Hlk Hpa Hpk) as [-> ->].
  destruct (taken_and_given s fl s1 s2 i o Hb Hrun Hlive Hf1 Hl1 Hf2 Hl2) as [Hfe Hle].
  assert (Hg : geo s2 = geo s) by congruence. intros j.
  destruct (fstate (frame_array s) j) as [t|] eqn:Ej; [by apply (fstate_determined s fl s2 fl2)|].
  destruct (fstate (frame_array s2) j) as [t|] eqn:Ej2; [|done].
  rewrite (fstate_determined s2 fl2 s fl Hb2 Hb) with (t := t) in Ej; try done; by intros; symmetry.
Qed.

(** The state component of a run. *)
Definition final {A} (d : mem) (r : option (A * mem)) : mem :=
  match r with Some (_, s) => s | None => d end.

Lemma alloc_free_roundtrip_witness :
  fstate (frame_array (final demo (p_free 32768 (final demo (p_alloc 3 demo_booted))))) 9 =
  fstate (frame_array demo_booted) 9.
Proof.
  apply (alloc_free_roundtrip demo_booted (final demo (p_alloc 3 demo_booted)) _ 3 32768 demo_booted_ok).
  - lia.
  - vm_compute. reflexivity.
  - lia.
  - vm_compute. reflexivity.
Defined.

(** releasing the same address twice is harmless: the second call changes
    nothing (not even a counter), whatever the first one did. *)
Theorem double_free_ignored (s s1 : mem) (pa : Z) :
  mem_ok s -> 0 <= pa < 2 ^ 64 -> p_free pa s = Some (tt, s1) -> p_free pa s1 = Some (tt, s1).
Proof.
  intros Hok Hp E1.
  destruct (run_op_step (op_free pa) s s1 Hok ltac:(done)) as (Hok1 & Hg1 & _ & Hst1).
  destruct (p_free_runs s1 pa Hok1 Hp) as [s2 E2]. rewrite E2. do 2 f_equal.
  destruct (run_op_step (op_free pa) s1 s2 Hok1 ltac:(done)) as (_ & _ & _ & Hst2).
  inversion Hst2 as [| |? k q Hlk Hpk _ _|? _ ->]; subst; [|done]. exfalso.
  pose proof Hok as [_ _ [fl Hb]]. rewrite (geo_index_to_pa _ _ _ Hg1) in Hpk.
  inversion Hst1 as [| |? i o Hl Hpi _ Hl1|? Hno ->]; subst.
  - apply Hl1 in Hlk as [Hlk Hne]. destruct (live_pa_unique _ _ _ _ _ _ _ Hb Hl Hlk Hpi Hpk); done.
  - destruct (decide (pa = 0)) as [->|Hne]; [|by eapply Hno]. clear Hno.
    destruct (live_region s fl k q Hb Hlk) as [r Hr]. destruct Hlk as [Hq Hlk].
    destruct (block_page_not_reserved s no_page fl false k q k Hb ltac:(tauto) Hlk Hq) as (pa & Hpa & Hnr).
    { unfold in_block. pose proof (pow2_pos q Hq). lia. }
    pose proof (mo_null s Hok). congruence.
Qed.

Lemma double_free_ignored_witness :
  p_free 32768 (final demo (p_free 32768 (final demo (p_alloc 3 demo_booted)))) =
  Some (tt, final demo (p_free 32768 (final demo (p_alloc 3 demo_booted)))).
Proof.
  refine (double_free_ignored (final demo (p_alloc 3 demo_booted)) _ 32768 _ _ _); [|lia|vm_compute; reflexivity].
  destruct (p_alloc_runs demo_booted 3 demo_booted_ok ltac:(lia)) as (pa & s' & E). rewrite E. cbn [final].
  apply (run_op_step (op_alloc 3 pa) demo_booted s' demo_booted_ok). split; [lia|done].
Defined.

(** [total_free_pages_count] (used by [memory_get_stats]) returns the exact
    number of free pages, without 64-bit overflow and without changing the
    state. *)
Theorem total_free_pages_exact (s : mem) :
  mem_ok s -> total_free_pages_count s = Some (Z.of_nat (size (free_set s)), s).
Proof.
  intros [_ _ [fl Hb]].
  destruct (wp_run total_free_pages_count (fun n s' => n = free_pages fl /\ s' = s) s) as (n & s' & E & -> & ->).
  { by apply (wp_total_free_pages s fl Hb). }
  by rewrite E, (free_pages_size s fl Hb).
Qed.

Lemma total_free_pages_exact_witness :
  total_free_pages_count demo_booted = Some (Z.of_nat (size (free_set demo_booted)), demo_booted) /\
  size (free_set demo_booted) = 12%nat.
Proof. split; [exact (total_free_pages_exact demo_booted demo_booted_ok)|vm_compute; reflexivity]. Defined.

(** page indices and physical addresses are in exact correspondence, in the
    single-region fast path and in the region scan alike: every managed index
    has a page-aligned address that converts back to it, and every address that
    converts to an index is the address of that index. *)
Theorem index_address_inverse (s : mem) (i pa k : Z) :
  layout_ok s -> 0 <= pa ->
  (0 <= i < s.(managed_page_count) ->
     exists p rid, index_to_pa s i = Some p /\ (PAGE_SIZE | p) /\ pa_to_index s p = Some (i, rid)) /\
  (pa_to_index s pa = Some (i, k) -> index_to_pa s i = Some pa).
Proof.
  intros Hl Hpa. split.
  - intros Hi. destruct (index_to_pa_total s Hl i Hi) as (r & Hr & Hp).
    destruct (pa_to_index_complete s Hl i r Hr) as [rid Hrid]. exists (page_pa r i), rid.
    split; [done|]. split; [|done]. by apply (region_page_bounds s Hl i r Hr).
  - intros Hrun. destruct (pa_to_index_sound s Hl pa i k Hpa Hrun) as (r & Hr & <-). by apply index_to_pa_spec.
Qed.

Lemma index_address_inverse_witness :
  (0 <= 5 < 16 -> exists p rid, index_to_pa demo 5 = Some p /\ (PAGE_SIZE | p) /\ pa_to_index demo p = Some (5, rid)) /\
  (pa_to_index demo 20480 = Some (5, 0) -> index_to_pa demo 5 = Some 20480).
Proof. exact (index_address_inverse demo 5 20480 0 demo_layout ltac:(lia)). Defined.

(** the startup allocator never hands out memory that is already spoken for.
    With any well-formed reserve table it returns; a non-null result is aligned,
    lies between the bump pointer and the end of the region, overlaps no
    reservation, and is itself reserved afterwards (unless the table is full). *)
Theorem startup_alloc_safe (s : mem) (size k : Z) :
  0 <= k < 64 -> 0 < size < 2 ^ 64 -> 0 < s.(startup_cur) < 2 ^ 64 -> s.(startup_end) < 2 ^ 64 -> reserves_wf s ->
  exists p s', startup_alloc size (2 ^ k) s = Some (p, s') /\
    (p = 0 /\ s' = s \/
     (2 ^ k | p) /\ s.(startup_cur) <= p /\ p + size <= s.(startup_end) /\
     s'.(startup_cur) = p + size /\
     (forall r x, r ∈ s.(reserves) -> p <= x < p + size -> ~ r.(rs_start) <= x < r.(rs_end)) /\
     (Z.of_nat (length s.(reserves)) < MEMORY_MAX_RESERVES ->
        forall x, p <= x < p + size -> is_reserved_pa s' x = true)).
Proof.
  intros Hk Hsz Hcur Hend Hwf.
  destruct (wp_run (startup_alloc size (2 ^ k)) (startup_post size (2 ^ k) s) s) as (p & s' & E & Hpost).
  { apply wp_startup_alloc; try done; lia. }
  exists p, s'. split; [done|]. destruct Hpost as [?|(Hp & Hd & He & Hno & c & ->)]; [by left|right].
  split; [done|]. split; [done|]. split; [done|]. split; [done|]. split.
  - intros r x Hr Hx Hin. apply (Hno r Hr). unfold overlaps. lia.
  - intros Hlen x Hx. unfold is_reserved_pa. apply existsb_reserved. mem_simpl.
    unfold reserved_after. rewrite decide_False by lia. exists (reserve_entry p size). split; [set_solver|].
    destruct (reserve_entry_spec p size ltac:(lia) ltac:(lia)) as (_ & Hlo & Hhi). unfold UINT64_MAX in Hhi. lia.
Qed.

(** The small memory before its metadata is allocated. *)
Definition demo_early : mem :=
  set_startup_ready true (set_startup_end 65536 (set_startup_cur 4096 (set_frame_array ∅ demo))).

Lemma startup_alloc_safe_witness :
  exists p s', startup_alloc 8192 (2 ^ 12) demo_early = Some (p, s') /\
    (p = 0 /\ s' = demo_early \/
     (2 ^ 12 | p) /\ 4096 <= p /\ p + 8192 <= 65536 /\ s'.(startup_cur) = p + 8192 /\
     (forall r x, r ∈ demo.(reserves) -> p <= x < p + 8192 -> ~ r.(rs_start) <= x < r.(rs_end)) /\
     (2 < MEMORY_MAX_RESERVES -> forall x, p <= x < p + 8192 -> is_reserved_pa s' x = true)).
Proof.
  apply (startup_alloc_safe demo_early 8192 12); try (cbn; lia).
  repeat constructor; cbn; unfold UINT64_MAX; lia.
Defined.

(** boot.  From a well-formed region table and reserve table,
    [buddy_setup_metadata] and [buddy_build_initial_state] terminate; unless the
    metadata did not fit (reported as -1), the allocator invariant holds, exactly
    the managed pages outside all reservations are free, no block is live, and
    the frame array itself lies in reserved memory. *)
Theorem boot_builds_allocator (s : mem) :
  layout_ok s -> 0 < s.(managed_page_count) -> 0 < s.(startup_cur) < 2 ^ 64 -> s.(startup_end) < 2 ^ 64 ->
  reserves_wf s -> lists_allocated s -> is_reserved_pa s 0 = true ->
  Z.of_nat (length s.(reserves)) < MEMORY_MAX_RESERVES ->
  exists rc s1, buddy_setup_metadata s = Some (rc, s1) /\
    (rc = -1 \/
     rc = 0 /\ exists s2, buddy_build_initial_state s1 = Some (tt, s2) /\
       mem_ok (set_memory_ready true s2) /\
       (forall j, free_page s2 j <->
          0 <= j < s.(managed_page_count) /\ exists pa, index_to_pa s1 j = Some pa /\ is_reserved_pa s1 pa = false) /\
       (forall i o, ~ live s2 i o) /\
       (forall x, s1.(frame_array_addr) <= x < s1.(frame_array_addr) + frame_bytes s -> is_reserved_pa s2 x = true)).
Proof.
  intros Hl Hn Hcur Hend Hwf Hal Hz Hlen.
  destruct (wp_run buddy_setup_metadata (fun rc s1 => rc = -1 \/ rc = 0 /\ metadata_post s s1) s)
    as (rc & s1 & E & Hpost).
  { apply wp_buddy_setup_metadata; try done; [by left|by right]. }
  exists rc, s1. split; [done|]. destruct Hpost as [?|[-> (Hfr & Hreg & Hcnt & _ & _ & Hp0 & _ & Hp1 & Hp2 & _ & Hres)]]; [by left|right].
  split; [done|]. pose proof (fr_layout s1 Hfr) as Hl1.
  assert (Hz1 : is_reserved_pa s1 0 = true).
  { unfold is_reserved_pa in *. rewrite existsb_reserved in Hz |- *. destruct Hz as (r & Hr & Hin).
    exists r. rewrite Hres. split; [by apply reserved_after_mono|done]. }
  destruct (wp_run buddy_build_initial_state (fun _ s2 => settled s1 (managed_page_count s1) s2) s1)
    as ([] & s2 & E2 & Hset).
  { apply wp_buddy_build; [done|by apply fresh_settled|done]. }
  exists s2. split; [done|]. destruct (settled_end_ok s1 s2 Hset Hz1) as (Hok & Hf & Hlv & _).
  split; [done|]. split; [|split; [done|]].
  - intros j. rewrite Hf, Hcnt. split; intros [Hj Hr]; (split; [done|]).
    + destruct (index_to_pa_total s1 Hl1 j ltac:(lia)) as (r & Hrj & Hpa). exists (page_pa r j). split; [done|].
      unfold is_reserved_pa. destruct (existsb _ _) eqn:Ex; [|done]. exfalso. apply Hr. by exists r.
    + destruct Hr as (pa & Hpa & Hnr). intros (r & Hrj & Hex).
      rewrite (index_to_pa_spec s1 Hl1 j r Hrj) in Hpa. injection Hpa as <-. unfold is_reserved_pa in Hnr. congruence.
  - intros x Hx. destruct Hset as (fa & hd & c & fl & -> & _). unfold is_reserved_pa. mem_simpl.
    apply existsb_reserved. rewrite Hres. unfold reserved_after.
    unfold frame_bytes, SIZEOF_FRAME_META in *. pose proof (managed_bound s Hl).
    rewrite decide_False by lia. exists (reserve_entry (frame_array_addr s1) (managed_page_count s * 16)).
    split; [set_solver|].
    destruct (reserve_entry_spec (frame_array_addr s1) (managed_page_count s * 16) ltac:(lia) ltac:(lia)) as (_ & Hlo & Hhi).
    unfold UINT64_MAX in Hhi. lia.
Qed.

Lemma boot_builds_allocator_witness :
  exists rc s1, buddy_setup_metadata demo_early = Some (rc, s1) /\
    (rc = -1 \/
     rc = 0 /\ exists s2, buddy_build_initial_state s1 = Some (tt, s2) /\
       mem_ok (set_memory_ready true s2) /\
       (forall j, free_page s2 j <->
          0 <= j < 16 /\ exists pa, index_to_pa s1 j = Some pa /\ is_reserved_pa s1 pa = false) /\
       (forall i o, ~ live s2 i o) /\
       (forall x, s1.(frame_array_addr) <= x < s1.(frame_array_addr) + frame_bytes demo_early -> is_reserved_pa s2 x = true)).
Proof.
  apply (boot_builds_allocator demo_early); try (cbn; lia); try done.
  - apply (layout_ok_geo demo); [done|apply demo_layout].
  - repeat constructor; cbn; unfold UINT64_MAX; lia.
  - intros o. split; [intros [h Hh]; by apply demo_lists in Hh as [? _]|].
    intros Ho. exists (-1). by apply demo_lists.
Defined.
