(* ===== verification/Slab.v ===== *)
(** * Byte allocations: [kernel/src/slab.c]

    [kmalloc] / [kfree] over one-page slabs of eight size classes, with whole
    buddy blocks for larger requests.  Memory is modelled per type: [headers]
    holds the [struct slab_header] at a page address, [chunk_next] the [next]
    field of the [struct kmalloc_free_chunk] at an object address.  A pointer to
    [kmem_caches[i]] is the number [i + 1]; 0 is the null pointer.  The page
    allocator is a component of the state ([pages]) and is called through a
    lens.  [memory_get_stats] of [memory.c], which collects the counters of both
    files, is here too. *)

From S2P Require Import Prelude Memory.

Open Scope Z_scope.

(** ** Constants and data *)

Definition SLAB_MAGIC : Z := 0x534C4142.
Definition KMALLOC_MAX_SLAB_SIZE : Z := PAGE_SIZE / 2.
Definition KMEM_CACHE_EMPTY_LIMIT : Z := 1.
Definition POISON_FREE_OBJECT : Z := 0xAA.
Definition POISON_RECLAIM_PAGE : Z := 0xCC.

(** [enum slab_state]: poisoned memory can hold any integer. *)
Definition SLAB_EMPTY : Z := 0.
Definition SLAB_PARTIAL : Z := 1.
Definition SLAB_FULL : Z := 2.

Record kmem_cache := mkCache {
  obj_size : Z;
  slabs_partial : Z;
  slabs_full : Z;
  slabs_empty : Z;
}.

Record slab_header := mkHeader {
  link_prev : Z;
  link_next : Z;
  h_cache : Z;
  h_freelist : Z;
  inuse : Z;
  capacity : Z;
  h_state : Z;
  magic : Z;
}.

Definition SIZEOF_SLAB_HEADER : Z := 48.

Definition kmalloc_classes : list Z := [16; 32; 64; 128; 256; 512; 1024; 2048].
Definition KMALLOC_CLASS_COUNT : Z := 8.

Record slabs := mkSlabs {
  kmem_caches : gmap Z kmem_cache;
  headers : gmap Z slab_header;
  chunk_next : gmap Z Z;
  object_alloc_count : Z;
  object_free_count : Z;
  slab_reclaim_count : Z;
  slab_ready : bool;
  pages : mem;
}.

Definition set_kmem_caches (v : gmap Z kmem_cache) (s : slabs) : slabs :=
  mkSlabs v s.(headers) s.(chunk_next) s.(object_alloc_count) s.(object_free_count)
    s.(slab_reclaim_count) s.(slab_ready) s.(pages).
Definition set_headers (v : gmap Z slab_header) (s : slabs) : slabs :=
  mkSlabs s.(kmem_caches) v s.(chunk_next) s.(object_alloc_count) s.(object_free_count)
    s.(slab_reclaim_count) s.(slab_ready) s.(pages).
Definition set_chunk_next (v : gmap Z Z) (s : slabs) : slabs :=
  mkSlabs s.(kmem_caches) s.(headers) v s.(object_alloc_count) s.(object_free_count)
    s.(slab_reclaim_count) s.(slab_ready) s.(pages).
Definition set_object_alloc_count (v : Z) (s : slabs) : slabs :=
  mkSlabs s.(kmem_caches) s.(headers) s.(chunk_next) v s.(object_free_count)
    s.(slab_reclaim_count) s.(slab_ready) s.(pages).
Definition set_object_free_count (v : Z) (s : slabs) : slabs :=
  mkSlabs s.(kmem_caches) s.(headers) s.(chunk_next) s.(object_alloc_count) v
    s.(slab_reclaim_count) s.(slab_ready) s.(pages).
Definition set_slab_reclaim_count (v : Z) (s : slabs) : slabs :=
  mkSlabs s.(kmem_caches) s.(headers) s.(chunk_next) s.(object_alloc_count)
    s.(object_free_count) v s.(slab_ready) s.(pages).
Definition set_slab_ready (v : bool) (s : slabs) : slabs :=
  mkSlabs s.(kmem_caches) s.(headers) s.(chunk_next) s.(object_alloc_count)
    s.(object_free_count) s.(slab_reclaim_count) v s.(pages).
Definition set_pages (v : mem) (s : slabs) : slabs :=
  mkSlabs s.(kmem_caches) s.(headers) s.(chunk_next) s.(object_alloc_count)
    s.(object_free_count) s.(slab_reclaim_count) s.(slab_ready) v.

#[export] Instance slabs_pages : Lens slabs mem.
Proof. refine {| view := pages; put := set_pages |}; intros; by try destruct s. Defined.

(** ** Primitive accesses *)

Definition hdr_get (p : Z) : M slabs slab_header := access (fun s => s.(headers) !! p).
Definition hdr_upd (p : Z) (f : slab_header -> slab_header) : M slabs unit :=
  update (fun s => h ← s.(headers) !! p; Some (set_headers (<[p := f h]> s.(headers)) s)).
Definition hdr_put (p : Z) (h : slab_header) : M slabs unit :=
  modify (fun s => set_headers (<[p := h]> s.(headers)) s).

Definition cache_get (cache : Z) : M slabs kmem_cache := access (fun s => s.(kmem_caches) !! (cache - 1)).
Definition cache_upd (cache : Z) (f : kmem_cache -> kmem_cache) : M slabs unit :=
  update (fun s => c ← s.(kmem_caches) !! (cache - 1);
                   Some (set_kmem_caches (<[cache - 1 := f c]> s.(kmem_caches)) s)).

Definition set_hprev (v : Z) (h : slab_header) : slab_header :=
  mkHeader v h.(link_next) h.(h_cache) h.(h_freelist) h.(inuse) h.(capacity) h.(h_state) h.(magic).
Definition set_hnext (v : Z) (h : slab_header) : slab_header :=
  mkHeader h.(link_prev) v h.(h_cache) h.(h_freelist) h.(inuse) h.(capacity) h.(h_state) h.(magic).
Definition set_hcache (v : Z) (h : slab_header) : slab_header :=
  mkHeader h.(link_prev) h.(link_next) v h.(h_freelist) h.(inuse) h.(capacity) h.(h_state) h.(magic).
Definition set_hfree (v : Z) (h : slab_header) : slab_header :=
  mkHeader h.(link_prev) h.(link_next) h.(h_cache) v h.(inuse) h.(capacity) h.(h_state) h.(magic).
Definition set_inuse (v : Z) (h : slab_header) : slab_header :=
  mkHeader h.(link_prev) h.(link_next) h.(h_cache) h.(h_freelist) v h.(capacity) h.(h_state) h.(magic).
Definition set_hstate (v : Z) (h : slab_header) : slab_header :=
  mkHeader h.(link_prev) h.(link_next) h.(h_cache) h.(h_freelist) h.(inuse) h.(capacity) v h.(magic).
Definition set_magic (v : Z) (h : slab_header) : slab_header :=
  mkHeader h.(link_prev) h.(link_next) h.(h_cache) h.(h_freelist) h.(inuse) h.(capacity) h.(h_state) v.

(** The list of a cache that holds the slabs of a state. *)
Definition list_head (st : Z) (c : kmem_cache) : Z :=
  if st =? SLAB_PARTIAL then c.(slabs_partial)
  else if st =? SLAB_FULL then c.(slabs_full) else c.(slabs_empty).
Definition set_list_head (st v : Z) (c : kmem_cache) : kmem_cache :=
  if st =? SLAB_PARTIAL then mkCache c.(obj_size) v c.(slabs_full) c.(slabs_empty)
  else if st =? SLAB_FULL then mkCache c.(obj_size) c.(slabs_partial) v c.(slabs_empty)
  else mkCache c.(obj_size) c.(slabs_partial) c.(slabs_full) v.

Definition slog (items : list log_item) : M slabs unit := zoom (log items).
Definition slog_if_enabled (items : list log_item) : M slabs unit := zoom (log_if_enabled items).

(** ** Debug helpers *)

Definition slab_list_count (head : Z) : M slabs Z :=
  fuel ← gets (fun s => size s.(headers));
  loop (S fuel)
    (fun '(n, head) =>
       if head =? 0 then mret (inr n)
       else h ← hdr_get head; mret (inl (u32 (n + 1), h.(link_next))))
    (0, head).

(** [n] bytes equal to [value], read as an integer. *)
Definition pattern (value : Z) (n : Z) : Z := value * ((2 ^ (8 * n) - 1) / 255).

Definition poisoned_header (value : Z) : slab_header :=
  mkHeader (pattern value 8) (pattern value 8) (pattern value 8) (pattern value 8)
    (pattern value 4) (pattern value 4) (pattern value 4) (pattern value 4).

(** The byte loop of [poison_memory], on the two kinds of objects that live in
    slab pages.  Objects are 16-byte aligned and all sizes are multiples of 16,
    so an overlap is an inclusion. *)
Definition poison_memory (ptr size value : Z) : M slabs unit :=
  if ptr =? 0 then mret tt
  else modify (fun s =>
    set_chunk_next
      (map_imap (fun a v => Some (if (ptr <? a + 8) && (a <? ptr + size) then pattern value 8 else v)) s.(chunk_next))
      (set_headers
        (map_imap (fun p h => Some (if (ptr <? p + SIZEOF_SLAB_HEADER) && (p <? ptr + size)
                                    then poisoned_header value else h)) s.(headers)) s)).

Definition slab_log_invariant_error (class_idx : Z) (list_name : string) (slab : Z) (reason : string) : M slabs unit :=
  slog_if_enabled [LStr "[Allocator] "; LStr "[Invariant] class "; LDec class_idx; LStr " "; LStr list_name;
    LStr " slab "; LStr "0x"; LHex slab; LStr ": "; LStr reason; LStr "\n"].

(** One round of the walk: the four checks of the slab at [head]. *)
Definition slab_check_step (class_idx : Z) (list_name : string) (expected_state : Z) (st : Z * Z) : M slabs (Z * Z + Z) :=
  let '(ok, head) := st in
  if head =? 0 then mret (inr ok)
  else
    h ← hdr_get head;
    let err (bad : bool) (reason : string) (ok : Z) : M slabs Z :=
      if bad then slab_log_invariant_error class_idx list_name head reason ;; mret 0 else mret ok in
    ok1 ← err (negb (h.(h_state) =? expected_state)) "state mismatch" ok;
    ok2 ← err ((expected_state =? SLAB_PARTIAL) && (h.(h_freelist) =? 0)) "partial slab has empty freelist" ok1;
    ok3 ← err ((expected_state =? SLAB_FULL) && negb (h.(inuse) =? h.(capacity))) "full slab inuse != capacity" ok2;
    ok4 ← err ((expected_state =? SLAB_EMPTY) && negb (h.(inuse) =? 0)) "empty slab inuse != 0" ok3;
    mret (inl (ok4, h.(link_next))).

(** The result is the C int [ok]. *)
Definition slab_check_list_invariants (class_idx : Z) (list_name : string) (head expected_state : Z) : M slabs Z :=
  fuel ← gets (fun s => size s.(headers));
  loop (S fuel) (slab_check_step class_idx list_name expected_state) (1, head).

(** ** The lists of a cache *)

(** [cache_add_partial], [cache_add_full] and [cache_add_empty] differ in the
    state they write and the list they push on. *)
Definition cache_add (st cache slab : Z) : M slabs unit :=
  if (cache =? 0) || (slab =? 0) then mret tt
  else
    hdr_upd slab (set_hcache cache) ;;
    hdr_upd slab (set_hstate st) ;;
    hdr_upd slab (set_hprev 0) ;;
    c ← cache_get cache;
    hdr_upd slab (set_hnext (list_head st c)) ;;
    when (negb (list_head st c =? 0)) (hdr_upd (list_head st c) (set_hprev slab)) ;;
    cache_upd cache (set_list_head st slab).

Definition cache_add_partial : Z -> Z -> M slabs unit := cache_add SLAB_PARTIAL.
Definition cache_add_full : Z -> Z -> M slabs unit := cache_add SLAB_FULL.
Definition cache_add_empty : Z -> Z -> M slabs unit := cache_add SLAB_EMPTY.

Definition cache_remove_slab (slab : Z) : M slabs unit :=
  if slab =? 0 then mret tt
  else
    h ← hdr_get slab;
    if h.(h_cache) =? 0 then mret tt
    else
      (if negb (h.(link_prev) =? 0) then hdr_upd h.(link_prev) (set_hnext h.(link_next))
       else cache_upd h.(h_cache) (set_list_head h.(h_state) h.(link_next))) ;;
      when (negb (h.(link_next) =? 0)) (hdr_upd h.(link_next) (set_hprev h.(link_prev))) ;;
      hdr_upd slab (set_hprev 0) ;;
      hdr_upd slab (set_hnext 0).

Definition cache_move_partial_to_full (cache slab : Z) : M slabs unit :=
  if (cache =? 0) || (slab =? 0) then mret tt
  else cache_remove_slab slab ;; cache_add_full cache slab.

Definition cache_move_full_to_partial (cache slab : Z) : M slabs unit :=
  if (cache =? 0) || (slab =? 0) then mret tt
  else cache_remove_slab slab ;; cache_add_partial cache slab.

Definition cache_move_empty_to_partial (cache slab : Z) : M slabs unit :=
  if (cache =? 0) || (slab =? 0) then mret tt
  else cache_remove_slab slab ;; cache_add_partial cache slab.

(** ** The free objects of a slab *)

Definition slab_push_free (slab obj : Z) : M slabs unit :=
  if (slab =? 0) || (obj =? 0) then mret tt
  else
    h ← hdr_get slab;
    modify (fun s => set_chunk_next (<[obj := h.(h_freelist)]> s.(chunk_next)) s) ;;
    hdr_upd slab (set_hfree obj).

Definition slab_pop_free (slab : Z) : M slabs Z :=
  if slab =? 0 then mret 0
  else
    h ← hdr_get slab;
    if h.(h_freelist) =? 0 then mret 0
    else
      nx ← access (fun s => s.(chunk_next) !! h.(h_freelist));
      hdr_upd slab (set_hfree nx) ;;
      mret h.(h_freelist).

(** The walk visits distinct objects, of which a page holds fewer than 4096. *)
Definition slab_freelist_contains (slab obj : Z) : M slabs bool :=
  if (slab =? 0) || (obj =? 0) then mret false
  else
    h ← hdr_get slab;
    loop 4096
      (fun cur =>
         if cur =? 0 then mret (inr false)
         else if cur =? obj then mret (inr true)
         else nx ← access (fun s => s.(chunk_next) !! cur); mret (inl nx))
      h.(h_freelist).

(** ** Size classes and page layout *)

Fixpoint class_from (classes : list Z) (i size : Z) : Z :=
  match classes with
  | [] => -1
  | c :: classes' => if size <=? c then i else class_from classes' (i + 1) size
  end.

Definition size_to_class (size : Z) : Z :=
  if (size =? 0) || (KMALLOC_MAX_SLAB_SIZE <? size) then -1 else class_from kmalloc_classes 0 size.

Definition slab_object_start (page_base cache : Z) : M slabs Z :=
  if (page_base =? 0) || (cache =? 0) then mret 0
  else
    c ← cache_get cache;
    mret (align_up_u64 (u64 (page_base + SIZEOF_SLAB_HEADER)) c.(obj_size)).

Definition slab_calc_capacity (page_base cache : Z) : M slabs Z :=
  if (page_base =? 0) || (cache =? 0) then mret 0
  else
    c ← cache_get cache;
    if c.(obj_size) =? 0 then mret 0
    else
      start ← slab_object_start page_base cache;
      let page_end := u64 (page_base + PAGE_SIZE) in
      if (start <? page_base) || (page_end <=? start) then mret 0
      else mret (u32 (u64 (page_end - start) / c.(obj_size))).

(** ** Allocation *)

Definition kmalloc_refill_class (class_idx : Z) : M slabs Z :=
  if KMALLOC_CLASS_COUNT <=? class_idx then mret (-1)
  else
    let cache := class_idx + 1 in
    page ← zoom (p_alloc 1);
    if page =? 0 then mret (-1)
    else
      zoom (page_set_kind page PAGE_KIND_SLAB) ;;
      cap ← slab_calc_capacity page cache;
      hdr_put page (mkHeader 0 0 cache 0 0 cap SLAB_PARTIAL SLAB_MAGIC) ;;
      obj_start ← slab_object_start page cache;
      if cap =? 0 then
        zoom (page_set_kind page PAGE_KIND_NONE) ;;
        zoom (p_free page) ;;
        mret (-1)
      else
        for_up (Z.to_nat cap) 0 (fun i =>
          c ← cache_get cache;
          slab_push_free page (u64 (obj_start + u64 (i * c.(obj_size))))) ;;
        cache_add_partial cache page ;;
        mret 0.

(** Make sure that the partial list is not empty; [false] is the early return. *)
Definition kmalloc_find_partial (cls : Z) : M slabs bool :=
  let cache := cls + 1 in
  c ← cache_get cache;
  if c.(slabs_partial) =? 0 then
    if negb (c.(slabs_empty) =? 0) then
      cache_move_empty_to_partial cache c.(slabs_empty) ;; mret true
    else
      rc ← kmalloc_refill_class cls; mret (rc =? 0)
  else mret true.

(** Take an object from the first partial slab. *)
Definition kmalloc_take (cls : Z) : M slabs Z :=
  let cache := cls + 1 in
  c ← cache_get cache;
  if c.(slabs_partial) =? 0 then
    slog [LStr "[Allocator] "; LStr "[Error] kmalloc no partial slab after refill/reuse for class ";
          LDec cls; LStr "\n"] ;;
    mret 0
  else
    let slab := c.(slabs_partial) in
    h ← hdr_get slab;
    if negb (h.(h_state) =? SLAB_PARTIAL) || (h.(h_freelist) =? 0) || (h.(capacity) <=? h.(inuse)) then
      slog [LStr "[Allocator] "; LStr "[Error] kmalloc partial slab invariant broken for class ";
            LDec cls; LStr "\n"] ;;
      mret 0
    else
      obj ← slab_pop_free slab;
      if obj =? 0 then
        slog [LStr "[Allocator] "; LStr "[Error] kmalloc slab_pop_free failed for class "; LDec cls;
              LStr ", page "; LStr "0x"; LHex slab; LStr "\n"] ;;
        mret 0
      else
        hdr_upd slab (fun h => set_inuse (u32 (h.(inuse) + 1)) h) ;;
        h1 ← hdr_get slab;
        when (h1.(inuse) =? h1.(capacity)) (cache_move_partial_to_full cache slab) ;;
        h2 ← hdr_get slab;
        slog_if_enabled [LStr "[Allocator] "; LStr "[Object] Allocate "; LStr "0x"; LHex obj;
          LStr " at object size "; LDec c.(obj_size); LStr " (class "; LDec cls; LStr ", inuse ";
          LDec h2.(inuse); LStr "/"; LDec h2.(capacity); LStr ")"; LStr "\n"] ;;
        modify (fun s => set_object_alloc_count (u64 (s.(object_alloc_count) + 1)) s) ;;
        mret obj.

Definition kmalloc_locked (sz : Z) : M slabs Z :=
  ready ← gets slab_ready;
  if negb ready || (sz =? 0) then mret 0
  else if sz <=? KMALLOC_MAX_SLAB_SIZE then
    let cls := size_to_class sz in
    if cls <? 0 then mret 0
    else
      found ← kmalloc_find_partial cls;
      if negb (found : bool) then mret 0 else kmalloc_take cls
  else if u64 (Z.shiftl PAGE_SIZE MEMORY_BUDDY_MAX_ORDER) <? sz then mret 0
  else
    let pages := u64 (u64 (sz + PAGE_SIZE) - 1) / PAGE_SIZE in
    base ← zoom (p_alloc (u32 pages));
    if base =? 0 then mret 0
    else zoom (page_set_kind base PAGE_KIND_LARGE) ;; mret base.

(** ** Release *)

Definition kfree_error (items : list log_item) : M slabs unit :=
  slog ([LStr "[Allocator] "] ++ items ++ [LStr "\n"]).

(** The object goes back to its slab, the slab moves to the list of its new
    state, and a second empty slab goes back to the page allocator. *)
Definition kfree_object (slab_base slab_cache ptr : Z) : M slabs unit :=
  c ← cache_get slab_cache;
  let size := c.(obj_size) in
  poison_memory ptr size POISON_FREE_OBJECT ;;
  slab_push_free slab_base ptr ;;
  hdr_upd slab_base (fun h => set_inuse (u32 (h.(inuse) - 1)) h) ;;
  modify (fun s => set_object_free_count (u64 (s.(object_free_count) + 1)) s) ;;
  h ← hdr_get slab_base;
  when (h.(h_state) =? SLAB_FULL) (cache_move_full_to_partial slab_cache slab_base) ;;
  h1 ← hdr_get slab_base;
  if h1.(inuse) =? 0 then
    cache_remove_slab slab_base ;;
    c1 ← cache_get slab_cache;
    if c1.(slabs_empty) =? 0 then
      cache_add_empty slab_cache slab_base ;;
      slog_if_enabled [LStr "[Allocator] "; LStr "[Object] Free "; LStr "0x"; LHex ptr;
        LStr " at object size "; LDec size; LStr ". [Slab] Keep empty page "; LStr "0x"; LHex slab_base; LStr "\n"]
    else
      zoom (page_set_kind slab_base PAGE_KIND_NONE) ;;
      hdr_upd slab_base (set_magic 0) ;;
      hdr_upd slab_base (set_hcache 0) ;;
      hdr_upd slab_base (set_hfree 0) ;;
      poison_memory slab_base PAGE_SIZE POISON_RECLAIM_PAGE ;;
      slog_if_enabled [LStr "[Allocator] "; LStr "[Object] Free "; LStr "0x"; LHex ptr;
        LStr " at object size "; LDec size; LStr ". [Slab] Reclaim page "; LStr "0x"; LHex slab_base; LStr "\n"] ;;
      modify (fun s => set_slab_reclaim_count (u64 (s.(slab_reclaim_count) + 1)) s) ;;
      zoom (p_free slab_base)
  else
    hdr_upd slab_base (set_hstate SLAB_PARTIAL) ;;
    slog_if_enabled [LStr "[Allocator] "; LStr "[Object] Free "; LStr "0x"; LHex ptr;
      LStr " at object size "; LDec size; LStr "\n"].

(** The checks of the slab branch, in the order of the code. *)
Definition kfree_slab (slab_base ptr : Z) : M slabs unit :=
  h ← hdr_get slab_base;
  if negb (h.(magic) =? SLAB_MAGIC) then
    kfree_error [LStr "[Error] kfree slab magic mismatch at page "; LStr "0x"; LHex slab_base;
                 LStr " for ptr "; LStr "0x"; LHex ptr]
  else
    let cache := h.(h_cache) in
    size ← (if cache =? 0 then mret 0 else c ← cache_get cache; mret c.(obj_size));
    if size =? 0 then
      kfree_error [LStr "[Error] kfree slab cache metadata invalid at page "; LStr "0x"; LHex slab_base]
    else
      obj_start ← slab_object_start slab_base cache;
      let obj_end := u64 (obj_start + u64 (size * h.(capacity))) in
      if (ptr <? obj_start) || (obj_end <=? ptr) then
        kfree_error [LStr "[Error] kfree slab ptr out of object range: ptr "; LStr "0x"; LHex ptr;
                     LStr ", range ["; LStr "0x"; LHex obj_start; LStr ", "; LStr "0x"; LHex obj_end; LStr ")"]
      else if negb (u64 (ptr - obj_start) mod size =? 0) then
        kfree_error [LStr "[Error] kfree slab ptr misaligned to object stride: ptr "; LStr "0x"; LHex ptr;
                     LStr ", stride "; LDec size]
      else if h.(inuse) =? 0 then
        kfree_error [LStr "[Error] kfree slab underflow attempt at ptr "; LStr "0x"; LHex ptr]
      else
        dup ← slab_freelist_contains slab_base ptr;
        if (dup : bool) then kfree_error [LStr "[Object] Double free detected at "; LStr "0x"; LHex ptr]
        else kfree_object slab_base cache ptr.

Definition kfree_large (page_base ptr : Z) (info : page_info) : M slabs unit :=
  if negb (Z.land ptr (PAGE_SIZE - 1) =? 0) then
    kfree_error [LStr "[Error] kfree large ptr not page-aligned: "; LStr "0x"; LHex ptr]
  else if negb info.(pi_allocated_head) then
    kfree_error [LStr "[Error] kfree large ptr is not allocation head: ptr "; LStr "0x"; LHex ptr;
                 LStr ", page "; LDec info.(pi_index)]
  else
    zoom (page_set_kind page_base PAGE_KIND_NONE) ;;
    slog_if_enabled [LStr "[Allocator] "; LStr "[Page] Free "; LStr "0x"; LHex ptr; LStr "\n"] ;;
    zoom (p_free page_base).

Definition kfree_locked (ptr : Z) : M slabs unit :=
  ready ← gets slab_ready;
  if negb ready || (ptr =? 0) then mret tt
  else
    let page_base := align_down_u64 ptr PAGE_SIZE in
    q ← zoom (page_query page_base);
    match q with
    | None => kfree_error [LStr "[Error] kfree invalid page base for ptr "; LStr "0x"; LHex ptr]
    | Some info =>
        match info.(pi_kind) with
        | PAGE_KIND_NONE =>
            kfree_error [LStr "[Error] kfree page kind NONE for ptr "; LStr "0x"; LHex ptr;
                         LStr ", page "; LStr "0x"; LHex page_base]
        | PAGE_KIND_SLAB => kfree_slab page_base ptr
        | PAGE_KIND_LARGE => kfree_large page_base ptr info
        end
    end.

Definition kmalloc (sz : Z) : M slabs Z :=
  status ← zoom local_irq_save;
  ptr ← kmalloc_locked sz;
  zoom (local_irq_restore status) ;;
  mret ptr.

Definition kfree (ptr : Z) : M slabs unit :=
  status ← zoom local_irq_save;
  kfree_locked ptr ;;
  zoom (local_irq_restore status).

(** ** Queries and dumps *)

Record memory_slab_class_snapshot := mkClassSnapshot {
  sn_obj_size : Z;
  partial_count : Z;
  full_count : Z;
  empty_count : Z;
}.

(** [None] is the C result -1. *)
Definition memory_get_slab_class_snapshot (class_idx : Z) : M slabs (option memory_slab_class_snapshot) :=
  if KMALLOC_CLASS_COUNT <=? class_idx then mret None
  else
    status ← zoom local_irq_save;
    c ← cache_get (class_idx + 1);
    p ← slab_list_count c.(slabs_partial);
    f ← slab_list_count c.(slabs_full);
    e ← slab_list_count c.(slabs_empty);
    zoom (local_irq_restore status) ;;
    mret (Some (mkClassSnapshot c.(obj_size) p f e)).

Definition memory_print_slabinfo : M slabs unit :=
  status ← zoom local_irq_save;
  snapshot ← for_acc (Z.to_nat KMALLOC_CLASS_COUNT) 0
    (fun i acc => sn ← memory_get_slab_class_snapshot i; sn' ← defined sn; mret (acc ++ [sn'])) [];
  zoom (local_irq_restore status) ;;
  slog [LStr "Slab caches:\n"; LStr "class size partial full empty\n"] ;;
  for_up (Z.to_nat KMALLOC_CLASS_COUNT) 0 (fun i =>
    sn ← defined (snapshot !! Z.to_nat i);
    slog [LDec i; LStr " "; LDec sn.(sn_obj_size); LStr " "; LDec sn.(partial_count); LStr " ";
          LDec sn.(full_count); LStr " "; LDec sn.(empty_count); LStr "\n"]).

(** The result is the C int [ok]. *)
Definition memory_check_slabs_ok : M slabs Z :=
  status ← zoom local_irq_save;
  ok ← for_acc (Z.to_nat KMALLOC_CLASS_COUNT) 0 (fun i ok =>
    c ← cache_get (i + 1);
    r1 ← slab_check_list_invariants i "partial" c.(slabs_partial) SLAB_PARTIAL;
    r2 ← slab_check_list_invariants i "full" c.(slabs_full) SLAB_FULL;
    r3 ← slab_check_list_invariants i "empty" c.(slabs_empty) SLAB_EMPTY;
    mret (if (r1 =? 0) || (r2 =? 0) || (r3 =? 0) then 0 else ok)) 1;
  zoom (local_irq_restore status) ;;
  mret ok.

Definition memory_class_for_size (size : Z) : Z := size_to_class size.

Record memory_stats_snapshot := mkStats {
  page_allocs : Z;
  page_frees : Z;
  object_allocs : Z;
  object_frees : Z;
  slab_reclaims : Z;
  total_pages : Z;
  free_page_total : Z;
  empty_slab_limit : Z;
}.

(** [slab_get_stats] fills in the object counters. *)
Definition slab_get_stats (out : memory_stats_snapshot) (s : slabs) : memory_stats_snapshot :=
  mkStats out.(page_allocs) out.(page_frees) s.(object_alloc_count) s.(object_free_count)
    s.(slab_reclaim_count) out.(total_pages) out.(free_page_total) KMEM_CACHE_EMPTY_LIMIT.

Definition memory_get_stats : M slabs memory_stats_snapshot :=
  status ← zoom local_irq_save;
  pa ← gets (fun s => page_alloc_count s.(pages));
  pf ← gets (fun s => page_free_count s.(pages));
  n ← gets (fun s => managed_page_count s.(pages));
  fp ← zoom total_free_pages_count;
  out ← gets (slab_get_stats (mkStats pa pf 0 0 0 n fp 0));
  zoom (local_irq_restore status) ;;
  mret out.

Definition memory_print_memstat : M slabs unit :=
  sn ← memory_get_stats;
  slog [LStr "Allocator stats:\n"; LStr "page_allocs: "; LDec sn.(page_allocs); LStr "\n";
        LStr "page_frees: "; LDec sn.(page_frees); LStr "\n"; LStr "object_allocs: "; LDec sn.(object_allocs);
        LStr "\n"; LStr "object_frees: "; LDec sn.(object_frees); LStr "\n"; LStr "slab_reclaims: ";
        LDec sn.(slab_reclaims); LStr "\n"; LStr "total_pages: "; LDec sn.(total_pages); LStr "\n";
        LStr "empty_slab_limit: "; LDec KMEM_CACHE_EMPTY_LIMIT; LStr "\n"; LStr "poison_free_object: 0x";
        LHex POISON_FREE_OBJECT; LStr "\n"; LStr "poison_reclaim_page: 0x"; LHex POISON_RECLAIM_PAGE; LStr "\n"].

Definition slab_init : M slabs unit :=
  for_up (Z.to_nat KMALLOC_CLASS_COUNT) 0 (fun i =>
    sz ← defined (kmalloc_classes !! Z.to_nat i);
    modify (fun s => set_kmem_caches (<[i := mkCache sz 0 0 0]> s.(kmem_caches)) s)) ;;
  modify (set_slab_ready true).
