(* ===== verification/SlabInv.v ===== *)
(** * The slab allocator's invariant

    The three lists of each cache, the contents of a slab page and the
    ownership tags, with the specifications of the list and free-object
    primitives of [slab.c]. *)

From S2P Require Import Prelude Lists Memory BuddyInv Slab.

Open Scope Z_scope.

(** ** Size classes *)

Definition class_ok (c : Z) : Prop := 0 <= c < KMALLOC_CLASS_COUNT.
Definition csize (c : Z) : Z := 2 ^ (c + 4).
(** Offset of the first object and number of objects in a page. *)
Definition coff (c : Z) : Z := (SIZEOF_SLAB_HEADER + csize c - 1) / csize c * csize c.
Definition ccap (c : Z) : Z := (PAGE_SIZE - coff c) / csize c.

(** Enumerate the eight classes. *)
Ltac class_cases H :=
  unfold class_ok, KMALLOC_CLASS_COUNT in H;
  match type of H with 0 <= ?c < _ =>
    let E := fresh "E" in
    assert (E : c = 0 \/ c = 1 \/ c = 2 \/ c = 3 \/ c = 4 \/ c = 5 \/ c = 6 \/ c = 7) by lia;
    clear H; destruct E as [->|[->|[->|[->|[->|[->|[->| ->]]]]]]]
  end.

Lemma class_layout c : class_ok c ->
  16 <= csize c <= 2048 /\ SIZEOF_SLAB_HEADER <= coff c /\ 0 < ccap c < 4096 /\
  coff c + ccap c * csize c <= PAGE_SIZE /\ (16 | csize c) /\ (csize c | PAGE_SIZE) /\ (csize c | coff c).
Proof.
  intros Hc. class_cases Hc; (split_and!; try (vm_compute; (discriminate || reflexivity)));
    try (exists 1; reflexivity); apply Z.mod_divide; by vm_compute.
Qed.

Lemma class_lookup c : class_ok c -> kmalloc_classes !! Z.to_nat c = Some (csize c).
Proof. intros Hc. class_cases Hc; reflexivity. Qed.

Lemma size_to_class_spec sz :
  0 < sz <= KMALLOC_MAX_SLAB_SIZE ->
  class_ok (size_to_class sz) /\ sz <= csize (size_to_class sz) /\
  forall c, class_ok c -> sz <= csize c -> size_to_class sz <= c.
Proof.
  intros Hsz. unfold size_to_class. change KMALLOC_MAX_SLAB_SIZE with 2048 in *.
  destruct (Z.eqb_spec sz 0); [lia|]. destruct (Z.ltb_spec 2048 sz); [lia|]. cbn [orb]. unfold kmalloc_classes. cbn [class_from].
  repeat match goal with |- context [sz <=? ?k] => destruct (Z.leb_spec sz k) end;
    try lia; (split; [unfold class_ok, KMALLOC_CLASS_COUNT; lia|]; split; [unfold csize; cbn; lia|]);
    intros c Hc Hle; class_cases Hc; unfold csize in Hle; cbn in Hle |- *; lia.
Qed.

(** ** The lists *)

Definition state_ok (st : Z) : Prop := st = SLAB_EMPTY \/ st = SLAB_PARTIAL \/ st = SLAB_FULL.
Definition key_ok (k : Z * Z) : Prop := class_ok k.1 /\ state_ok k.2.

Definition hlinks (hs : gmap Z slab_header) (p : Z) : option (Z * Z) :=
  (fun h => (h.(link_prev), h.(link_next))) <$> hs !! p.
Definition heads (kc : gmap Z kmem_cache) (k : Z * Z) : option Z := list_head k.2 <$> kc !! k.1.

(** Everything in a header but its links. *)
Definition hcore (h : slab_header) :=
  (h.(h_cache), h.(h_freelist), h.(inuse), h.(capacity), h.(h_state), h.(magic)).

Definition core_same (hs hs' : gmap Z slab_header) : Prop :=
  forall q, hcore <$> hs' !! q = hcore <$> hs !! q.

Definition caches_ok (kc : gmap Z kmem_cache) : Prop :=
  forall c, class_ok c -> exists k, kc !! c = Some k /\ k.(obj_size) = csize c.

Definition lists_ok (kc : gmap Z kmem_cache) (hs : gmap Z slab_header) (sl : Z * Z -> list Z) : Prop :=
  dlls 0 key_ok (hlinks hs) (heads kc) sl.

Lemma list_head_set st st' v c :
  state_ok st -> state_ok st' -> list_head st' (set_list_head st v c) = if decide (st' = st) then v else list_head st' c.
Proof.
  intros [->|[->| ->]] [->|[->| ->]]; reflexivity.
Qed.

Lemma obj_size_set st v c : obj_size (set_list_head st v c) = obj_size c.
Proof. unfold set_list_head. by repeat case_match. Qed.

Lemma caches_ok_set kc c st v k :
  caches_ok kc -> kc !! c = Some k -> caches_ok (<[c := set_list_head st v k]> kc).
Proof.
  intros Hk Hc c' Hc'. rewrite lookup_insert. case_decide; [subst c'|by apply Hk].
  destruct (Hk c Hc') as (k' & Ek & Es). rewrite Hc in Ek. injection Ek as <-.
  eexists. split; [done|]. by rewrite obj_size_set.
Qed.

Lemma heads_set kc c st v k :
  class_ok c -> state_ok st -> kc !! c = Some k ->
  heads (<[c := set_list_head st v k]> kc) (c, st) = Some v /\
  forall q, key_ok q -> q <> (c, st) -> heads (<[c := set_list_head st v k]> kc) q = heads kc q.
Proof.
  intros Hc Hst Hk. unfold heads. cbn [fst snd]. split.
  - rewrite lookup_insert_eq. cbn. by rewrite list_head_set, decide_True.
  - intros [c' st'] [_ Hst'] Hne. cbn [fst snd] in *. rewrite lookup_insert. case_decide as E; [|done].
    subst c'. rewrite Hk. cbn. rewrite list_head_set by done. by rewrite decide_False by congruence.
Qed.

(** ** Running the accesses *)

Lemma wp_hdr_get p h s Q : s.(headers) !! p = Some h -> Q h s -> wp (hdr_get p) Q s.
Proof. intros. by eapply wp_access. Qed.
Lemma wp_hdr_upd p f h s Q :
  s.(headers) !! p = Some h -> Q tt (set_headers (<[p := f h]> s.(headers)) s) -> wp (hdr_upd p f) Q s.
Proof. intros Hh HQ. eapply wp_update; [by rewrite Hh|done]. Qed.
Lemma wp_cache_get c k s Q : s.(kmem_caches) !! c = Some k -> Q k s -> wp (cache_get (c + 1)) Q s.
Proof. intros. eapply wp_access; [|done]. by replace (c + 1 - 1) with c by lia. Qed.
Lemma wp_cache_upd c f k s Q :
  s.(kmem_caches) !! c = Some k -> Q tt (set_kmem_caches (<[c := f k]> s.(kmem_caches)) s) -> wp (cache_upd (c + 1) f) Q s.
Proof. intros Hk HQ. eapply wp_update; [by replace (c + 1 - 1) with c by lia; rewrite Hk|done]. Qed.

(** The part of the state that the list primitives write. *)
Definition with_lists (kc : gmap Z kmem_cache) (hs : gmap Z slab_header) (s : slabs) : slabs :=
  set_kmem_caches kc (set_headers hs s).

(** Reduce field reads of updated states, leaving map operations alone. *)
Ltac slab_simpl :=
  cbn beta iota delta [with_lists
    kmem_caches set_kmem_caches headers set_headers chunk_next set_chunk_next object_alloc_count
    set_object_alloc_count object_free_count set_object_free_count slab_reclaim_count
    set_slab_reclaim_count slab_ready set_slab_ready pages set_pages
    link_prev link_next h_cache h_freelist inuse capacity h_state magic
    set_hprev set_hnext set_hcache set_hfree set_inuse set_hstate set_magic].

Section lists.
Context (s : slabs) (sl : Z * Z -> list Z).
Context (Hkc : caches_ok s.(kmem_caches)) (Hsl : lists_ok s.(kmem_caches) s.(headers) sl).

Lemma listed_header c st p : key_ok (c, st) -> p ∈ sl (c, st) -> is_Some (s.(headers) !! p) /\ p <> 0.
Proof.
  intros Hk Hp. destruct (ds_heads Hsl _ Hk) as (h & _ & Hd).
  destruct (dll_elem _ _ _ _ _ _ Hd Hp) as [l Hl]. split; [|by eapply dll_not_null].
  unfold hlinks in Hl. destruct (headers s !! p); [eauto|done].
Qed.

(** [cache_remove_slab] unlinks the page and keeps everything else. *)
Lemma wp_cache_remove c st p h L1 L2 Q :
  key_ok (c, st) -> sl (c, st) = L1 ++ p :: L2 -> s.(headers) !! p = Some h ->
  h.(h_cache) = c + 1 -> h.(h_state) = st ->
  (forall kc hs, caches_ok kc -> lists_ok kc hs (set_list sl (c, st) (L1 ++ L2)) ->
     core_same s.(headers) hs -> Q tt (with_lists kc hs s)) ->
  wp (cache_remove_slab p) Q s.
Proof.
  intros Hk HL Hh Ec Est HQ. pose proof Hk as [Hc Hst]. cbn [fst snd] in Hc, Hst.
  assert (Hp : p ∈ sl (c, st)) by (rewrite HL; set_solver).
  destruct (listed_header c st p Hk Hp) as [_ Hp0].
  assert (Hl : hlinks (headers s) p = Some (link_prev h, link_next h)) by (unfold hlinks; by rewrite Hh).
  destruct (dlls_neighbours 0 key_ok _ _ _ _ _ _ _ Hsl Hk Hp Hl) as [Hpr Hnx].
  destruct (Hkc c Hc) as (k & Ek & Esz). destruct (ds_heads Hsl _ Hk) as (hd0 & Ehd & _).
  unfold cache_remove_slab. destruct (Z.eqb_spec p 0); [done|]. apply wp_bind. eapply wp_hdr_get; [done|].
  rewrite Ec, Est. destruct (Z.eqb_spec (c + 1) 0); [unfold class_ok in Hc; lia|].
  set (kc' := if link_prev h =? 0 then <[c := set_list_head st (link_next h) k]> (kmem_caches s) else kmem_caches s).
  assert (Hkc' : caches_ok kc') by (unfold kc'; case_match; [by apply caches_ok_set|done]).
  (* the tail of the function, from any header map that differs at the predecessor only *)
  assert (Hfin : forall hs1,
    (forall j, j <> p -> j <> 0 -> hs1 !! j = (fun x => set_hnext (if j =? link_prev h then link_next h else link_next x) x) <$> headers s !! j) ->
    hs1 !! p = Some h -> core_same (headers s) hs1 ->
    wp (when (negb (link_next h =? 0)) (hdr_upd (link_next h) (set_hprev (link_prev h))) ;;
        hdr_upd p (set_hprev 0) ;; hdr_upd p (set_hnext 0)) Q (with_lists kc' hs1 s)).
  { intros hs1 Hj Hp1 Hc1.
    assert (Hend : forall hs2,
      (forall j, j <> p -> j <> 0 -> hs2 !! j = (fun x => set_hprev (if j =? link_next h then link_prev h else link_prev x)
         (set_hnext (if j =? link_prev h then link_next h else link_next x) x)) <$> headers s !! j) ->
      hs2 !! p = Some h -> core_same (headers s) hs2 ->
      wp (hdr_upd p (set_hprev 0) ;; hdr_upd p (set_hnext 0)) Q (with_lists kc' hs2 s)).
    { intros hs2 Hj2 Hp2 Hc2. apply wp_bind. eapply wp_hdr_upd; [exact Hp2|].
      eapply wp_hdr_upd; [apply lookup_insert_eq|]. slab_simpl.
      match goal with |- Q tt ?x => change (Q tt (with_lists kc' (headers x) s)) end. slab_simpl.
      apply HQ; [done| |].
      - eapply (dlls_unlink 0 key_ok (hlinks (headers s)) _ (heads (kmem_caches s)) _ sl (c, st) p); try done.
        + intros j pj nj Hne Hj0 Hlj. unfold hlinks in *. rewrite !lookup_insert_ne by done. rewrite (Hj2 j Hne Hj0).
          destruct (headers s !! j) as [x|]; [|done]. cbn in *. injection Hlj as <- <-. done.
        + unfold kc'. destruct (Z.eqb_spec (link_prev h) 0) as [E0|E0]; [|done].
          by destruct (heads_set (kmem_caches s) c st (link_next h) k Hc Hst Ek).
        + intros q Hq Hne. unfold kc'. case_match; [|done].
          destruct (heads_set (kmem_caches s) c st (link_next h) k Hc Hst Ek) as [_ H']. by apply H'.
      - intros q. rewrite !lookup_insert. case_decide; [subst q; by rewrite Hh|]. apply Hc2. }
    apply wp_bind. apply wp_when; intros En.
    - apply negb_true_iff, Z.eqb_neq in En. destruct Hnx as [?|(_ & Hin & Hne & Hnp)]; [done|].
      destruct (listed_header c st _ Hk Hin) as [[x Hx] _].
      pose proof (Hj _ Hne En) as Hx1. rewrite Hx in Hx1. cbn [fmap option_fmap option_map] in Hx1.
      eapply (wp_hdr_upd (link_next h)); [exact Hx1|].
      eapply (Hend (<[link_next h := _]> hs1)); [|by rewrite lookup_insert_ne|
        intros q; rewrite lookup_insert; case_decide; [subst q; by rewrite Hx|apply Hc1]].
      intros j Hjp Hj0. rewrite lookup_insert. case_decide as E.
      + subst j. rewrite Hx, Z.eqb_refl. cbn. done.
      + rewrite (Hj j Hjp Hj0). destruct (Z.eqb_spec j (link_next h)); [done|]. by destruct (headers s !! j).
    - apply negb_false_iff, Z.eqb_eq in En. apply Hend; [|done|done]. intros j Hjp Hj0. rewrite (Hj j Hjp Hj0), En.
      destruct (Z.eqb_spec j 0); [done|]. by destruct (headers s !! j) as [[]|]. }
  apply wp_bind. destruct (Z.eqb_spec (link_prev h) 0) as [E0|E0]; cbn [negb].
  - eapply wp_cache_upd; [done|]. apply (Hfin (headers s)); [|done|done].
    intros j Hjp Hj0. rewrite E0. destruct (Z.eqb_spec j 0); [done|]. by destruct (headers s !! j) as [[]|].
  - destruct Hpr as [[? _]|(_ & Hin & Hne)]; [done|]. destruct (listed_header c st _ Hk Hin) as [[x Hx] _].
    eapply wp_hdr_upd; [exact Hx|].
    change (set_headers (<[link_prev h := set_hnext (link_next h) x]> (headers s)) s)
      with (with_lists kc' (<[link_prev h := set_hnext (link_next h) x]> (headers s)) s). apply Hfin.
    + intros j Hjp Hj0. rewrite lookup_insert. case_decide as E; [subst j; by rewrite Hx, Z.eqb_refl|].
      destruct (Z.eqb_spec j (link_prev h)); [congruence|]. by destruct (headers s !! j) as [[]|].
    + by rewrite lookup_insert_ne.
    + intros q. rewrite lookup_insert. case_decide; [subst q; by rewrite Hx|done].
Qed.

(** [cache_add] links a page that is in no list. *)
Lemma wp_cache_add c st p h Q :
  key_ok (c, st) -> (forall k, key_ok k -> p ∉ sl k) -> p <> 0 -> s.(headers) !! p = Some h ->
  (forall kc hs, caches_ok kc -> lists_ok kc hs (set_list sl (c, st) (p :: sl (c, st))) ->
     (forall q, q <> p -> hcore <$> hs !! q = hcore <$> s.(headers) !! q) ->
     hcore <$> hs !! p = Some (c + 1, h.(h_freelist), h.(inuse), h.(capacity), st, h.(magic)) ->
     Q tt (with_lists kc hs s)) ->
  wp (cache_add st (c + 1) p) Q s.
Proof.
  intros Hk Hfresh Hp0 Hh HQ. pose proof Hk as [Hc Hst]. cbn [fst snd] in Hc, Hst.
  destruct (Hkc c Hc) as (k & Ek & Esz). destruct (ds_heads Hsl _ Hk) as (hd & Ehd & Hd).
  assert (hd = list_head st k) as -> by (unfold heads in Ehd; cbn [fst snd] in Ehd; rewrite Ek in Ehd; cbn in Ehd; congruence).
  set (hd := list_head st k) in *.
  destruct (heads_set (kmem_caches s) c st p k Hc Hst Ek) as [Hk1 Hk2].
  unfold cache_add. destruct (Z.eqb_spec (c + 1) 0); [unfold class_ok in Hc; lia|].
  destruct (Z.eqb_spec p 0); [done|]. cbn [orb].
  do 3 (apply wp_bind; eapply wp_hdr_upd; [first [exact Hh|apply lookup_insert_eq]|]; slab_simpl).
  apply wp_bind. eapply wp_cache_get; [exact Ek|]. fold hd.
  apply wp_bind. eapply wp_hdr_upd; [apply lookup_insert_eq|]. slab_simpl.
  rewrite !insert_insert_eq.
  set (h' := mkHeader 0 hd (c + 1) (h_freelist h) (inuse h) (capacity h) st (magic h)).
  apply wp_bind. apply wp_when; intros Eh.
  - apply negb_true_iff, Z.eqb_neq in Eh. destruct (dll_head _ _ _ _ _ Hd Eh) as [L' EL].
    assert (Hin : hd ∈ sl (c, st)) by (rewrite EL; set_solver).
    destruct (listed_header c st hd Hk Hin) as [[x Hx] _].
    assert (Hne : hd <> p) by (intros E; rewrite E in Hin; by eapply Hfresh).
    eapply wp_hdr_upd; [slab_simpl; rewrite lookup_insert_ne by done; exact Hx|]. slab_simpl.
    eapply wp_cache_upd; [exact Ek|]. slab_simpl.
    apply (HQ (<[c := set_list_head st p k]> (kmem_caches s)) (<[hd := set_hprev p x]> (<[p := h']> (headers s)))).
    + by apply caches_ok_set.
    + eapply (dlls_push 0 key_ok (hlinks (headers s)) _ (heads (kmem_caches s)) _ sl (c, st) p hd); try done.
      * unfold hlinks. by rewrite lookup_insert_ne, lookup_insert_eq by done.
      * intros pr nx _ Hl. unfold hlinks in *. rewrite lookup_insert_eq. rewrite Hx in Hl. cbn in *. congruence.
      * intros j Hj1 Hj2. unfold hlinks. by rewrite !lookup_insert_ne by done.
    + intros q Hq. rewrite lookup_insert. case_decide; [subst q; by rewrite Hx|]. by rewrite lookup_insert_ne.
    + rewrite lookup_insert_ne, lookup_insert_eq by done. done.
  - apply negb_false_iff, Z.eqb_eq in Eh. eapply wp_cache_upd; [exact Ek|]. slab_simpl.
    apply (HQ (<[c := set_list_head st p k]> (kmem_caches s)) (<[p := h']> (headers s))).
    + by apply caches_ok_set.
    + eapply (dlls_push 0 key_ok (hlinks (headers s)) _ (heads (kmem_caches s)) _ sl (c, st) p hd); try done.
      * unfold hlinks. by rewrite lookup_insert_eq.
      * intros j Hj1 Hj2. unfold hlinks. by rewrite lookup_insert_ne.
    + intros q Hq. by rewrite lookup_insert_ne.
    + rewrite lookup_insert_eq. done.
Qed.

End lists.

(** ** Slab pages *)

(** The objects of a page of class [c]. *)
Definition is_obj (c p a : Z) : Prop := exists k, 0 <= k < ccap c /\ a = p + coff c + k * csize c.

(** A page of class [c] in state [st] with [n] objects in use and the free
    objects [F], in list order. *)
Record page_ok (s : slabs) (c p st n : Z) (F : list Z) : Prop := {
  po_core : exists f, hcore <$> s.(headers) !! p = Some (c + 1, f, n, ccap c, st, SLAB_MAGIC) /\
            sll 0 (fun a => s.(chunk_next) !! a) f F;
  po_nodup : NoDup F;
  po_obj : forall a, a ∈ F -> is_obj c p a;
  po_count : 0 <= n /\ n + Z.of_nat (length F) = ccap c;
}.

(** What a state promises about the number of objects in use. *)
Definition count_ok (c st n : Z) : Prop :=
  (st = SLAB_EMPTY -> n = 0) /\ (st = SLAB_PARTIAL -> 0 < n < ccap c) /\ (st = SLAB_FULL -> n = ccap c).

(** *** Moving a page between lists *)

Definition moved (sl sl' : Z * Z -> list Z) (p : Z) (dst : option (Z * Z)) : Prop :=
  forall k q, key_ok k -> q ∈ sl' k <-> (q <> p /\ q ∈ sl k) \/ (q = p /\ dst = Some k).

Lemma moved_remove kc hs sl k p L1 L2 :
  lists_ok kc hs sl -> key_ok k -> sl k = L1 ++ p :: L2 -> moved sl (set_list sl k (L1 ++ L2)) p None.
Proof.
  intros Hsl Hk HL k' q Hk'. pose proof (ds_nodup Hsl k Hk) as Hnd. rewrite HL in Hnd.
  apply NoDup_app in Hnd as (_ & Hx & Hn2). apply NoDup_cons in Hn2 as [Hp2 _].
  assert (Hp1 : p ∉ L1) by (intros Hp; apply (Hx p Hp); set_solver).
  destruct (decide (k' = k)) as [->|Hne].
  - rewrite set_list_eq, HL. set_solver.
  - rewrite set_list_ne by done. split; [|intros [[_ ?]|[_ ?]]; done]. intros Hq. left. split; [|done].
    intros ->. apply Hne. apply (ds_disjoint Hsl k' k p); [done|done|done|]. rewrite HL. set_solver.
Qed.

Lemma moved_add sl sl' k p :
  moved sl sl' p None -> key_ok k -> moved sl (set_list sl' k (p :: sl' k)) p (Some k).
Proof.
  intros Hm Hk k' q Hk'. destruct (decide (k' = k)) as [->|Hne].
  - rewrite set_list_eq, elem_of_cons, (Hm k q Hk). naive_solver.
  - rewrite set_list_ne, (Hm k' q Hk') by done. naive_solver.
Qed.

(** Remove from one list, add to another (the three [cache_move_*] functions). *)
Lemma wp_cache_move s sl c st st' p f n m Q :
  caches_ok s.(kmem_caches) -> lists_ok s.(kmem_caches) s.(headers) sl ->
  key_ok (c, st) -> key_ok (c, st') -> p ∈ sl (c, st) ->
  hcore <$> s.(headers) !! p = Some (c + 1, f, n, m, st, SLAB_MAGIC) ->
  (forall kc hs sl', caches_ok kc -> lists_ok kc hs sl' -> moved sl sl' p (Some (c, st')) ->
     (exists L1 L2, sl (c, st) = L1 ++ p :: L2 /\ sl' = set_list (set_list sl (c, st) (L1 ++ L2)) (c, st')
        (p :: set_list sl (c, st) (L1 ++ L2) (c, st'))) ->
     (forall q, q <> p -> hcore <$> hs !! q = hcore <$> s.(headers) !! q) ->
     hcore <$> hs !! p = Some (c + 1, f, n, m, st', SLAB_MAGIC) ->
     Q tt (with_lists kc hs s)) ->
  wp (cache_remove_slab p ;; cache_add st' (c + 1) p) Q s.
Proof.
  intros Hkc Hsl Hk Hk' Hp Hcore HQ. destruct (listed_header s sl Hsl c st p Hk Hp) as [[h Hh] Hp0].
  rewrite Hh in Hcore. injection Hcore as Ec Ef En Em Es Eg.
  pose proof Hp as Hsplit. apply list_elem_of_split in Hsplit as (L1 & L2 & HL).
  apply wp_bind. apply (wp_cache_remove s sl Hkc Hsl c st p h L1 L2 _ Hk HL Hh Ec Es).
  intros kc hs Hkc1 Hsl1 Hcs. pose proof (moved_remove _ _ _ _ _ _ _ Hsl Hk HL) as Hm.
  pose proof (Hcs p) as Hcp. rewrite Hh in Hcp. destruct (hs !! p) as [h1|] eqn:Hh1; [|done]. cbn in Hcp.
  injection Hcp as Hc1 Hc2 Hc3 Hc4 Hc5 Hc6.
  apply (wp_cache_add (with_lists kc hs s) (set_list sl (c, st) (L1 ++ L2)) Hkc1 Hsl1 c st' p h1); try done.
  { intros k Hkk Hin. apply Hm in Hin; [|done]. destruct Hin as [[? _]|[_ ?]]; done. }
  intros kc2 hs2 Hkc2 Hsl2 Hcs2 Hcp2. change (Q tt (with_lists kc2 hs2 s)). eapply HQ; [done|done| | | |].
  - by apply moved_add.
  - by exists L1, L2.
  - intros q Hq. by rewrite Hcs2, <- Hcs.
  - rewrite Hcp2, Hc2, Hc3, Hc4, Hc6, Ef, En, Em, Eg. done.
Qed.

(** *** Contents of a page *)

Lemma is_obj_bounds c p a :
  class_ok c -> is_obj c p a -> p + coff c <= a /\ a + csize c <= p + PAGE_SIZE.
Proof. intros Hc (k & Hk & ->). pose proof (class_layout c Hc) as (? & ? & ? & ? & _). nia. Qed.

Lemma is_obj_inj c p a b x :
  class_ok c -> is_obj c p a -> is_obj c p b -> a <= x < a + csize c -> b <= x < b + csize c -> a = b.
Proof.
  intros Hc (k & Hk & ->) (j & Hj & ->) Hx Hy. pose proof (class_layout c Hc) as (? & _).
  assert (k = j) as -> by nia. done.
Qed.

Lemma page_ok_frame s s' c p st n F :
  page_ok s c p st n F -> hcore <$> s'.(headers) !! p = hcore <$> s.(headers) !! p ->
  (forall a, a ∈ F -> s'.(chunk_next) !! a = s.(chunk_next) !! a) -> page_ok s' c p st n F.
Proof.
  intros [(f & Hf & Hl) Hn Ho Hc] Hh Hch. constructor; [|done..]. exists f. split; [congruence|].
  eapply sll_ext; [|done]. intros a Ha. by apply Hch.
Qed.

(** The header determines the free list. *)
Lemma page_ok_det s c p st n F c' st' n' F' :
  page_ok s c p st n F -> page_ok s c' p st' n' F' -> c = c' /\ st = st' /\ n = n' /\ F = F'.
Proof.
  intros [(f & Hf & Hl) _ _ _] [(f' & Hf' & Hl') _ _ _]. rewrite Hf in Hf'. injection Hf' as ? -> -> _ ->.
  split; [lia|]. split; [done|]. split; [done|]. by eapply sll_det.
Qed.

Lemma sll_cons_inv (nx : Z -> option Z) h a F :
  sll 0 nx h (a :: F) -> h = a /\ a <> 0 /\ exists n, nx a = Some n /\ sll 0 nx n F.
Proof. done. Qed.

(** [slab_pop_free] takes the first free object. *)
Lemma wp_slab_pop s c p st n a F Q :
  page_ok s c p st n (a :: F) -> p <> 0 ->
  (forall h nx, s.(headers) !! p = Some h -> sll 0 (fun x => s.(chunk_next) !! x) nx F ->
     Q a (set_headers (<[p := set_hfree nx h]> s.(headers)) s)) ->
  wp (slab_pop_free p) Q s.
Proof.
  intros [(f & Hf & Hl) _ _ _] Hp0 HQ. unfold slab_pop_free. destruct (Z.eqb_spec p 0); [done|].
  destruct (headers s !! p) as [h|] eqn:Hh; [|done]. injection Hf as _ Ef _ _ _ _.
  apply wp_bind. eapply wp_hdr_get; [done|]. apply sll_cons_inv in Hl as (-> & Ha & nx & Hnx & Hl). rewrite Ef.
  destruct (Z.eqb_spec a 0); [done|]. apply wp_bind. eapply wp_access; [exact Hnx|].
  apply wp_bind. eapply wp_hdr_upd; [exact Hh|]. apply wp_ret. by apply HQ.
Qed.

(** [slab_freelist_contains] decides membership in the free list. *)
Lemma wp_freelist_contains s c p st n F a Q :
  class_ok c -> page_ok s c p st n F -> p <> 0 -> a <> 0 ->
  (a ∈ F -> Q true s) -> (a ∉ F -> Q false s) -> wp (slab_freelist_contains p a) Q s.
Proof.
  intros Hc [(f & Hf & Hl) Hnd Ho Hcnt] Hp0 Ha HT HF. unfold slab_freelist_contains.
  destruct (Z.eqb_spec p 0); [done|]. destruct (Z.eqb_spec a 0); [done|]. cbn [orb].
  destruct (headers s !! p) as [h|] eqn:Hh; [|done]. injection Hf as _ Ef _ _ _ _.
  apply wp_bind. eapply wp_hdr_get; [done|]. rewrite Ef.
  pose proof (class_layout c Hc) as (_ & _ & Hcap & _).
  assert (Hloop : forall F2 cur fuel, (length F2 < fuel)%nat -> sll 0 (fun x => chunk_next s !! x) cur F2 ->
    (a ∈ F2 -> Q true s) -> (a ∉ F2 -> Q false s) ->
    wp (loop fuel (fun cur => if cur =? 0 then mret (inr false) else if cur =? a then mret (inr true)
          else nx ← access (fun s => s.(chunk_next) !! cur); mret (inl nx)) cur) Q s).
  { induction F2 as [|b F2 IH]; intros cur fuel Hfuel Hs HT' HF'; (destruct fuel as [|fuel]; [cbn in Hfuel; lia|]).
    - cbn in Hs. subst cur. apply HF'. set_solver.
    - destruct Hs as (-> & Hb & nx & Hnx & Hs). cbn [loop]. apply wp_bind.
      destruct (Z.eqb_spec b 0); [done|]. destruct (Z.eqb_spec b a) as [->|Hne].
      + apply wp_ret, wp_ret, HT'. set_solver.
      + apply wp_bind. eapply wp_access; [exact Hnx|]. apply wp_ret. apply IH; [cbn in Hfuel; lia|done| |].
        * intros Hin. apply HT'. set_solver.
        * intros Hin. apply HF'. set_solver. }
  apply (Hloop F); try done. lia.
Qed.
