(* ===== verification/SlabAlloc.v ===== *)
(** * Allocation of bytes

    The invariant of the whole allocator of [slab.c], its abstraction (the set of
    allocated objects) and the specification of [kmalloc].  The page allocator is
    used through [PageLaws] only. *)

From S2P Require Import Prelude Lists Memory BuddyInv BuddySpec PageIface Slab SlabInv.

Open Scope Z_scope.

(** Counts of the exempt page [X] may be off: a slab that has just been put on
    the partial list and has no object in use yet. *)
Definition count_or (X c p st n : Z) : Prop :=
  count_ok c st n \/ (p = X /\ st = SLAB_PARTIAL /\ n < ccap c).

Record slab_inv_gen (pok : mem -> Prop) (blk : mem -> Z -> Z -> Prop) (tag : mem -> Z -> page_kind)
    (X : Z) (s : slabs) (sl : Z * Z -> list Z) : Prop := {
  sv_pages : pok s.(pages);
  sv_ready : s.(slab_ready) = true;
  sv_caches : caches_ok s.(kmem_caches);
  sv_lists : lists_ok s.(kmem_caches) s.(headers) sl;
  sv_slabs : forall c st p, key_ok (c, st) -> p ∈ sl (c, st) ->
    exists n F, page_ok s c p st n F /\ count_or X c p st n;
  sv_empty : forall c, class_ok c -> (length (sl (c, SLAB_EMPTY)) <= 1)%nat;
  sv_tags : forall p, tag s.(pages) p = PAGE_KIND_SLAB <-> exists k, key_ok k /\ p ∈ sl k;
  sv_block : forall k p, key_ok k -> p ∈ sl k -> blk s.(pages) p 0;
  sv_kind : forall p, tag s.(pages) p <> PAGE_KIND_NONE -> exists o, blk s.(pages) p o;
}.

(** An allocated object of a slab, an allocated block of pages. *)
Definition slab_obj (tag : mem -> Z -> page_kind) (s : slabs) (a c p : Z) : Prop :=
  class_ok c /\ tag s.(pages) p = PAGE_KIND_SLAB /\ is_obj c p a /\
  exists st n F, page_ok s c p st n F /\ a ∉ F.

Definition large_obj (blk : mem -> Z -> Z -> Prop) (tag : mem -> Z -> page_kind) (s : slabs) (a o : Z) : Prop :=
  tag s.(pages) a = PAGE_KIND_LARGE /\ blk s.(pages) a o.

(** [z] bytes from [a] are allocated. *)
Definition allocated_gen (blk : mem -> Z -> Z -> Prop) (tag : mem -> Z -> page_kind) (s : slabs) (a z : Z) : Prop :=
  (exists c p, slab_obj tag s a c p /\ z = csize c) \/ (exists o, large_obj blk tag s a o /\ z = 2 ^ o * PAGE_SIZE).

(** The interrupt flag and the memory words inside allocated objects. *)
Record frame_gen (blk : mem -> Z -> Z -> Prop) (tag : mem -> Z -> page_kind) (s s' : slabs) : Prop := {
  fg_irq : s'.(pages).(irq_on) = s.(pages).(irq_on);
  fg_data : forall a z x, allocated_gen blk tag s a z -> a <= x -> x + 8 <= a + z ->
    s'.(chunk_next) !! x = s.(chunk_next) !! x;
}.

Section alloc.
Context {pok : mem -> Prop} {blk : mem -> Z -> Z -> Prop} {tag : mem -> Z -> page_kind}.
Context `{HP : !PageLaws pok blk tag}.
Abbreviation slab_inv := (slab_inv_gen pok blk tag).
Abbreviation allocated := (allocated_gen blk tag).
Abbreviation frame := (frame_gen blk tag).
Implicit Types (s : slabs) (sl : Z * Z -> list Z).

(** ** Pages and objects do not overlap *)

Lemma block_page_end s p o : pok s.(pages) -> blk s.(pages) p o ->
  0 < p /\ (PAGE_SIZE | p) /\ 0 <= o /\ PAGE_SIZE <= 2 ^ o * PAGE_SIZE /\ p + 2 ^ o * PAGE_SIZE < 2 ^ 64.
Proof.
  intros Hok Hb. destruct (pl_shape (PageLaws := HP) _ _ _ Hok Hb) as (? & ? & [? _] & ?).
  pose proof (pow2_pos o). split_and!; try done. unfold PAGE_SIZE. lia.
Qed.

Lemma slab_obj_in_page X s sl a c p :
  slab_inv X s sl -> slab_obj tag s a c p ->
  blk s.(pages) p 0 /\ p + coff c <= a /\ a + csize c <= p + PAGE_SIZE.
Proof.
  intros Hs (Hc & Ht & Ho & _). split; [|by apply is_obj_bounds].
  apply (sv_tags _ _ _ _ _ _ Hs) in Ht as (k & Hk & Hin). by eapply (sv_block _ _ _ _ _ _ Hs).
Qed.

(** The block an allocated range lies in. *)
Lemma allocated_block X s sl a z :
  slab_inv X s sl -> allocated s a z ->
  0 < z /\ exists b o, blk s.(pages) b o /\ b <= a /\ a + z <= b + 2 ^ o * PAGE_SIZE.
Proof.
  intros Hs [(c & p & Ho & ->)|(o & [Ht Hb] & ->)].
  - destruct (slab_obj_in_page _ _ _ _ _ _ Hs Ho) as (Hb & H1 & H2). destruct Ho as (Hc & _).
    pose proof (class_layout c Hc) as (? & Hh & _). unfold SIZEOF_SLAB_HEADER in Hh.
    split; [lia|]. exists p, 0. change (2 ^ 0) with 1. split; [done|lia].
  - pose proof (block_page_end _ _ _ (sv_pages _ _ _ _ _ _ Hs) Hb). unfold PAGE_SIZE in *.
    split; [lia|]. exists a, o. split; [done|lia].
Qed.

(** Allocated ranges are disjoint. *)
Lemma allocated_disjoint X s sl a z b y x :
  slab_inv X s sl -> allocated s a z -> allocated s b y ->
  a <= x < a + z -> b <= x < b + y -> a = b /\ z = y.
Proof.
  intros Hs Ha Hb Hxa Hxb.
  destruct (allocated_block _ _ _ _ _ Hs Ha) as (_ & pa & oa & Hba & Ha1 & Ha2).
  destruct (allocated_block _ _ _ _ _ Hs Hb) as (_ & pb & ob & Hbb & Hb1 & Hb2).
  destruct (pl_disjoint (PageLaws := HP) _ _ _ _ _ x (sv_pages _ _ _ _ _ _ Hs) Hba Hbb) as [<- <-]; [lia|lia|].
  assert (Hsl : forall c p w, slab_obj tag s w c p -> pa <= w -> w + csize c <= pa + 2 ^ oa * PAGE_SIZE -> p = pa).
  { intros c p w Ho Hw Hw2. destruct (slab_obj_in_page _ _ _ _ _ _ Hs Ho) as (Hbp & Hp1 & Hp2). destruct Ho as (Hc & _).
    pose proof (class_layout c Hc) as (? & Hh & _). unfold SIZEOF_SLAB_HEADER in Hh.
    destruct (pl_disjoint (PageLaws := HP) _ _ _ _ _ w (sv_pages _ _ _ _ _ _ Hs) Hbp Hba); [change (2 ^ 0) with 1; lia|lia|done]. }
  destruct Ha as [(c & p & Ho & ->)|(o & [Ht Hbl] & ->)], Hb as [(c' & p' & Ho' & ->)|(o' & [Ht' Hbl'] & ->)].
  - assert (p = pa) as -> by (by eapply Hsl). assert (p' = pa) as -> by (by eapply Hsl).
    destruct Ho as (Hc & _ & Hi & st & n & F & Hp & _), Ho' as (_ & _ & Hi' & st' & n' & F' & Hp' & _).
    destruct (page_ok_det _ _ _ _ _ _ _ _ _ _ Hp Hp') as (<- & _). split; [|done]. by eapply is_obj_inj.
  - exfalso. assert (p = pa) as -> by (by eapply Hsl). destruct Ho as (Hc & Hsl' & _).
    destruct (pl_disjoint (PageLaws := HP) _ _ _ _ _ x (sv_pages _ _ _ _ _ _ Hs) Hbl' Hba) as [<- _]; [lia|lia|]. congruence.
  - exfalso. assert (p' = pa) as -> by (by eapply Hsl). destruct Ho' as (Hc & Hsl' & _).
    destruct (pl_disjoint (PageLaws := HP) _ _ _ _ _ x (sv_pages _ _ _ _ _ _ Hs) Hbl Hba) as [<- _]; [lia|lia|]. congruence.
  - destruct (pl_disjoint (PageLaws := HP) _ _ _ _ _ x (sv_pages _ _ _ _ _ _ Hs) Hbl Hbl') as [-> ->]; done.
Qed.

(** Two listed pages that share an address coincide. *)
Lemma listed_page_unique X s sl k k' p p' x :
  slab_inv X s sl -> key_ok k -> key_ok k' -> p ∈ sl k -> p' ∈ sl k' ->
  p <= x < p + PAGE_SIZE -> p' <= x < p' + PAGE_SIZE -> p = p'.
Proof.
  intros Hs Hk Hk' Hp Hp' Hx Hx'.
  destruct (pl_disjoint (PageLaws := HP) _ _ _ _ _ x (sv_pages _ _ _ _ _ _ Hs)
    (sv_block _ _ _ _ _ _ Hs k p Hk Hp) (sv_block _ _ _ _ _ _ Hs k' p' Hk' Hp')); try done; change (2 ^ 0) with 1; lia.
Qed.

(** A free object is in no allocated range. *)
Lemma free_not_allocated X s sl c p st n F f a z :
  slab_inv X s sl -> class_ok c -> tag s.(pages) p = PAGE_KIND_SLAB -> page_ok s c p st n F -> f ∈ F ->
  allocated s a z -> ~ (a <= f < a + z).
Proof.
  intros Hs Hc Ht Hp Hf Ha Hx.
  pose proof (po_obj _ _ _ _ _ _ Hp f Hf) as Hobj. pose proof (is_obj_bounds c p f Hc Hobj) as Hfb.
  pose proof (class_layout c Hc) as (Hsz & Hh & _). unfold SIZEOF_SLAB_HEADER in Hh.
  apply (sv_tags _ _ _ _ _ _ Hs) in Ht as Hk. destruct Hk as (k & Hk & Hin).
  pose proof (sv_block _ _ _ _ _ _ Hs k p Hk Hin) as Hb.
  destruct Ha as [(c' & p' & Ho & ->)|(o & [Ht' Hbl] & ->)].
  - destruct (slab_obj_in_page _ _ _ _ _ _ Hs Ho) as (Hb' & H1 & H2). destruct Ho as (Hc' & _ & Hi' & st' & n' & F' & Hp' & Hnf).
    pose proof (class_layout c' Hc') as (_ & Hh' & _). unfold SIZEOF_SLAB_HEADER in Hh'.
    destruct (pl_disjoint (PageLaws := HP) _ _ _ _ _ f (sv_pages _ _ _ _ _ _ Hs) Hb Hb') as [<- _]; [change (2 ^ 0) with 1; lia..|].
    destruct (page_ok_det _ _ _ _ _ _ _ _ _ _ Hp Hp') as (<- & _ & _ & <-).
    assert (f = a) as -> by (eapply (is_obj_inj c p f a f); try done; lia). done.
  - destruct (pl_disjoint (PageLaws := HP) _ _ _ _ _ f (sv_pages _ _ _ _ _ _ Hs) Hb Hbl) as [<- _]; [change (2 ^ 0) with 1; lia|lia|]. congruence.
Qed.

(** ** Changes confined to one page *)

Record confined (s s' : slabs) (p0 : Z) : Prop := {
  cf_core : forall q, q <> p0 -> (PAGE_SIZE | q) -> hcore <$> s'.(headers) !! q = hcore <$> s.(headers) !! q;
  cf_chunk : forall x, x + 8 <= p0 \/ p0 + PAGE_SIZE <= x -> s'.(chunk_next) !! x = s.(chunk_next) !! x;
}.

Lemma confined_sym s s' p0 : confined s s' p0 -> confined s' s p0.
Proof. intros [H1 H2]. constructor; intros; symmetry; auto. Qed.

Lemma page_ok_confined s s' p0 c p st n F :
  confined s s' p0 -> class_ok c -> (PAGE_SIZE | p0) -> (PAGE_SIZE | p) -> p <> p0 ->
  page_ok s c p st n F -> page_ok s' c p st n F.
Proof.
  intros [Hcore Hch] Hc Hd0 Hd Hne Hp. apply (page_ok_frame s); [done|by apply Hcore|].
  intros a Ha. apply Hch. pose proof (is_obj_bounds c p a Hc (po_obj _ _ _ _ _ _ Hp a Ha)) as Hb.
  pose proof (class_layout c Hc) as (Hsz & Hh & _). unfold SIZEOF_SLAB_HEADER in Hh.
  destruct Hd0 as [x ->], Hd as [y ->]. unfold PAGE_SIZE in *. assert (x <> y) by (intros ->; done). lia.
Qed.

(** Allocated objects of the page [p0], and all the others. *)
Definition obj_at (s : slabs) (p0 b z : Z) : Prop := exists c, slab_obj tag s b c p0 /\ z = csize c.
Definition rest (s : slabs) (p0 b z : Z) : Prop :=
  (exists c p, p <> p0 /\ slab_obj tag s b c p /\ z = csize c) \/
  (exists o, large_obj blk tag s b o /\ z = 2 ^ o * PAGE_SIZE).

Lemma allocated_split s p0 b z : allocated s b z <-> obj_at s p0 b z \/ rest s p0 b z.
Proof.
  split.
  - intros [(c & p & Ho & ->)|Hl]; [|right; by right].
    destruct (decide (p = p0)) as [->|]; [left; by exists c|right; left; by exists c, p].
  - intros [(c & Ho & ->)|[(c & p & _ & Ho & ->)|Hl]]; [left; eauto..|by right].
Qed.

Lemma slab_obj_confined s s' p0 b c p :
  confined s s' p0 -> (PAGE_SIZE | p0) -> (forall q, tag s.(pages) q = PAGE_KIND_SLAB -> (PAGE_SIZE | q)) ->
  (forall q, q <> p0 -> tag s'.(pages) q = tag s.(pages) q) -> p <> p0 ->
  slab_obj tag s b c p -> slab_obj tag s' b c p.
Proof.
  intros Hcf Hd0 Hd Ht Hne (Hc & Hs & Ho & st & n & F & Hp & Hf).
  split; [done|]. split; [by rewrite Ht|]. split; [done|]. exists st, n, F. split; [|done].
  eapply page_ok_confined; try done. by apply Hd.
Qed.

Lemma rest_same s s' p0 b z :
  confined s s' p0 -> (PAGE_SIZE | p0) -> (forall q, tag s.(pages) q = PAGE_KIND_SLAB -> (PAGE_SIZE | q)) ->
  (forall q, q <> p0 -> tag s'.(pages) q = tag s.(pages) q) ->
  (forall q o, q <> p0 -> blk s'.(pages) q o <-> blk s.(pages) q o) ->
  tag s.(pages) p0 <> PAGE_KIND_LARGE -> tag s'.(pages) p0 <> PAGE_KIND_LARGE ->
  rest s' p0 b z <-> rest s p0 b z.
Proof.
  intros Hcf Hd0 Hd Ht Hb Hl Hl'. unfold rest, large_obj. split.
  - intros [(c & p & Hne & Ho & ->)|(o & [Hta Hba] & ->)].
    + left. exists c, p. split; [done|]. split; [|done]. eapply slab_obj_confined; [by apply confined_sym|done| | |done|done].
      * intros q Hq. destruct (decide (q = p0)) as [->|]; [done|]. apply Hd. by rewrite <- Ht.
      * intros q Hq. symmetry. by apply Ht.
    + right. exists o. destruct (decide (b = p0)) as [->|]; [done|]. by rewrite <- Ht, <- Hb.
  - intros [(c & p & Hne & Ho & ->)|(o & [Hta Hba] & ->)].
    + left. exists c, p. split; [done|]. split; [|done]. by eapply slab_obj_confined.
    + right. exists o. destruct (decide (b = p0)) as [->|]; [done|]. by rewrite Ht, Hb.
Qed.

Lemma slab_tag_aligned X s sl p : slab_inv X s sl -> tag s.(pages) p = PAGE_KIND_SLAB -> (PAGE_SIZE | p).
Proof.
  intros Hs Ht. apply (sv_tags _ _ _ _ _ _ Hs) in Ht as (k & Hk & Hp).
  by apply (block_page_end s p 0 (sv_pages _ _ _ _ _ _ Hs)), (sv_block _ _ _ _ _ _ Hs k).
Qed.

(** The objects of a page with known contents. *)
Lemma obj_at_page s c p st n F b z :
  class_ok c -> tag s.(pages) p = PAGE_KIND_SLAB -> page_ok s c p st n F ->
  obj_at s p b z <-> is_obj c p b /\ b ∉ F /\ z = csize c.
Proof.
  intros Hc Ht Hp. split.
  - intros (c' & (_ & _ & Ho & st' & n' & F' & Hp' & Hf) & ->).
    by destruct (page_ok_det _ _ _ _ _ _ _ _ _ _ Hp Hp') as (<- & _ & _ & <-).
  - intros (Ho & Hf & ->). exists c. split; [|done]. split_and!; try done. by exists st, n, F.
Qed.

Lemma obj_at_none s p b z : tag s.(pages) p <> PAGE_KIND_SLAB -> ~ obj_at s p b z.
Proof. intros Ht (c & (_ & Hs & _) & _). done. Qed.

(** ** The layout of a page *)

Lemma object_start_eq c p :
  class_ok c -> 0 < p -> (PAGE_SIZE | p) -> p + PAGE_SIZE <= 2 ^ 64 ->
  align_up_u64 (u64 (p + SIZEOF_SLAB_HEADER)) (csize c) = p + coff c.
Proof.
  intros Hc Hp [x ->] Hlt. unfold SIZEOF_SLAB_HEADER, PAGE_SIZE in *. rewrite u64_id by lia.
  unfold align_up_u64, csize. assert (Hk : 4 <= c + 4 <= 11) by (unfold class_ok, KMALLOC_CLASS_COUNT in Hc; lia).
  pose proof (pow2_pos (c + 4) ltac:(lia)). pose proof (pow2_mono (c + 4) 11 ltac:(lia)) as H11. change (2 ^ 11) with 2048 in H11.
  rewrite (u64_id (2 ^ (c + 4) - 1)), u64_id by lia. rewrite land_not64, land_lnot_mask by lia.
  assert (E : x * 4096 = x * 2 ^ (8 - c) * 2 ^ (c + 4)).
  { rewrite <- Z.mul_assoc, <- Z.pow_add_r by (unfold class_ok, KMALLOC_CLASS_COUNT in Hc; lia).
    replace (8 - c + (c + 4)) with 12 by lia. done. }
  unfold coff, csize, SIZEOF_SLAB_HEADER.
  replace (x * 4096 + 48 + (2 ^ (c + 4) - 1)) with (48 + 2 ^ (c + 4) - 1 + x * 2 ^ (8 - c) * 2 ^ (c + 4)) by lia.
  rewrite Z.mod_add by lia. pose proof (Z.div_mod (48 + 2 ^ (c + 4) - 1) (2 ^ (c + 4)) ltac:(lia)). lia.
Qed.

Lemma wp_object_start s c p Q :
  caches_ok s.(kmem_caches) -> class_ok c -> 0 < p -> (PAGE_SIZE | p) -> p + PAGE_SIZE <= 2 ^ 64 ->
  Q (p + coff c) s -> wp (slab_object_start p (c + 1)) Q s.
Proof.
  intros Hkc Hc Hp Hd Hlt HQ. destruct (Hkc c Hc) as (k & Ek & Esz). unfold slab_object_start.
  destruct (Z.eqb_spec p 0); [lia|]. destruct (Z.eqb_spec (c + 1) 0); [unfold class_ok in Hc; lia|]. cbn [orb].
  apply wp_bind. eapply wp_cache_get; [exact Ek|]. apply wp_ret. by rewrite Esz, object_start_eq.
Qed.

Lemma wp_calc_capacity s c p Q :
  caches_ok s.(kmem_caches) -> class_ok c -> 0 < p -> (PAGE_SIZE | p) -> p + PAGE_SIZE < 2 ^ 64 ->
  Q (ccap c) s -> wp (slab_calc_capacity p (c + 1)) Q s.
Proof.
  intros Hkc Hc Hp Hd Hlt HQ. destruct (Hkc c Hc) as (k & Ek & Esz). unfold slab_calc_capacity.
  pose proof (class_layout c Hc) as (Hs & Hh & Hcap & Hfit & _). unfold SIZEOF_SLAB_HEADER in Hh.
  destruct (Z.eqb_spec p 0); [lia|]. destruct (Z.eqb_spec (c + 1) 0); [unfold class_ok in Hc; lia|]. cbn [orb].
  apply wp_bind. eapply wp_cache_get; [exact Ek|]. rewrite Esz. destruct (Z.eqb_spec (csize c) 0); [lia|].
  apply wp_bind. apply wp_object_start; try done; [lia|]. unfold PAGE_SIZE in *. rewrite !u64_id by nia.
  rewrite (proj2 (Z.ltb_ge _ _)), (proj2 (Z.leb_gt _ _)) by nia. cbn [orb]. apply wp_ret.
  replace (p + 4096 - (p + coff c)) with (PAGE_SIZE - coff c) by (unfold PAGE_SIZE; lia).
  fold (ccap c). by rewrite u32_id by lia.
Qed.

(** ** Rebuilding the invariant after a change of one page *)

Record page_change (X' : Z) (s s' : slabs) (sl sl' : Z * Z -> list Z) (p0 : Z) (dst : option (Z * Z)) : Prop := {
  pc_pages : pok s'.(pages);
  pc_ready : s'.(slab_ready) = s.(slab_ready);
  pc_caches : caches_ok s'.(kmem_caches);
  pc_lists : lists_ok s'.(kmem_caches) s'.(headers) sl';
  pc_moved : moved sl sl' p0 dst;
  pc_confined : confined s s' p0;
  pc_aligned : (PAGE_SIZE | p0);
  pc_dst : forall k, dst = Some k -> key_ok k /\ blk s'.(pages) p0 0 /\
    exists n F, page_ok s' k.1 p0 k.2 n F /\ count_or X' k.1 p0 k.2 n;
  pc_empty : forall c, class_ok c -> (length (sl' (c, SLAB_EMPTY)) <= 1)%nat;
  pc_tags : forall q, q <> p0 -> tag s'.(pages) q = tag s.(pages) q;
  pc_tag : tag s'.(pages) p0 = if dst is Some _ then PAGE_KIND_SLAB else PAGE_KIND_NONE;
  pc_blocks : forall q o, q <> p0 -> blk s'.(pages) q o <-> blk s.(pages) q o;
}.

Lemma slab_inv_change X X' s s' sl sl' p0 dst :
  slab_inv X s sl -> X = 0 \/ X = p0 -> page_change X' s s' sl sl' p0 dst -> slab_inv X' s' sl'.
Proof.
  intros Hs HX H. constructor; try apply H.
  - rewrite (pc_ready _ _ _ _ _ _ _ H). apply Hs.
  - intros c st p Hk Hp. apply (pc_moved _ _ _ _ _ _ _ H) in Hp as [[Hne Hp]|[-> Hd]]; [| |done].
    + destruct (sv_slabs _ _ _ _ _ _ Hs c st p Hk Hp) as (n & F & Hpg & Hcnt). exists n, F. split.
      * eapply page_ok_confined; [apply H|apply Hk|apply H| |done|done].
        apply (block_page_end s p 0); [apply Hs|]. by eapply (sv_block _ _ _ _ _ _ Hs).
      * destruct Hcnt as [?|(-> & _)]; [by left|]. exfalso.
        destruct (listed_header s sl (sv_lists _ _ _ _ _ _ Hs) c st X Hk Hp) as [_ ?]. naive_solver.
    + destruct (pc_dst _ _ _ _ _ _ _ H _ Hd) as (_ & _ & n & F & Hpg & Hcnt). by exists n, F.
  - intros p. destruct (decide (p = p0)) as [->|Hne].
    + rewrite (pc_tag _ _ _ _ _ _ _ H). destruct dst as [k|] eqn:Ed.
      * split; [|done]. intros _. destruct (pc_dst _ _ _ _ _ _ _ H k eq_refl) as (Hk & _).
        exists k. split; [done|]. apply (pc_moved _ _ _ _ _ _ _ H); [done|]. by right.
      * split; [done|]. intros (k & Hk & Hp). apply (pc_moved _ _ _ _ _ _ _ H) in Hp as [[? _]|[_ ?]]; done.
    + rewrite (pc_tags _ _ _ _ _ _ _ H) by done. rewrite (sv_tags _ _ _ _ _ _ Hs).
      split; intros (k & Hk & Hp); exists k; (split; [done|]).
      * apply (pc_moved _ _ _ _ _ _ _ H); [done|]. by left.
      * apply (pc_moved _ _ _ _ _ _ _ H) in Hp as [[_ ?]|[? _]]; done.
  - intros k p Hk Hp. apply (pc_moved _ _ _ _ _ _ _ H) in Hp as [[Hne Hp]|[-> Hd]]; [| |done].
    + apply (pc_blocks _ _ _ _ _ _ _ H); [done|]. by eapply (sv_block _ _ _ _ _ _ Hs).
    + by destruct (pc_dst _ _ _ _ _ _ _ H _ Hd) as (_ & ? & _).
  - intros p Hp. destruct (decide (p = p0)) as [->|Hne].
    + rewrite (pc_tag _ _ _ _ _ _ _ H) in Hp. destruct dst as [k|]; [|done].
      exists 0. by destruct (pc_dst _ _ _ _ _ _ _ H k eq_refl) as (_ & ? & _).
    + rewrite (pc_tags _ _ _ _ _ _ _ H) in Hp by done. destruct (sv_kind _ _ _ _ _ _ Hs p Hp) as [o Ho].
      exists o. by apply (pc_blocks _ _ _ _ _ _ _ H).
Qed.

Lemma rest_change X X' s s' sl sl' p0 dst b z :
  slab_inv X s sl -> tag s.(pages) p0 <> PAGE_KIND_LARGE -> page_change X' s s' sl sl' p0 dst ->
  rest s' p0 b z <-> rest s p0 b z.
Proof.
  intros Hs Hl H. apply rest_same; try apply H; [|done|].
  - intros q Hq. by eapply slab_tag_aligned.
  - rewrite (pc_tag _ _ _ _ _ _ _ H). by destruct dst.
Qed.

(** Nothing allocated outside the page is inside it. *)
Lemma rest_outside X s sl p0 b z x :
  slab_inv X s sl -> blk s.(pages) p0 0 -> tag s.(pages) p0 <> PAGE_KIND_LARGE -> rest s p0 b z ->
  b <= x < b + z -> ~ (p0 <= x < p0 + PAGE_SIZE).
Proof.
  intros Hs Hb Hl [(c & p & Hne & Ho & ->)|(o & [Ht Hbl] & ->)] Hx Hin.
  - destruct (slab_obj_in_page _ _ _ _ _ _ Hs Ho) as (Hbp & H1 & H2). destruct Ho as (Hc & _).
    pose proof (class_layout c Hc) as (_ & Hh & _). unfold SIZEOF_SLAB_HEADER in Hh. apply Hne.
    apply (pl_disjoint (PageLaws := HP) _ _ _ _ _ x (sv_pages _ _ _ _ _ _ Hs) Hbp Hb); change (2 ^ 0) with 1; lia.
  - destruct (pl_disjoint (PageLaws := HP) _ _ _ _ _ x (sv_pages _ _ _ _ _ _ Hs) Hbl Hb) as [-> _]; [lia|change (2 ^ 0) with 1; lia|]. done.
Qed.

Lemma slab_inv_weaken X s sl : slab_inv 0 s sl -> slab_inv X s sl.
Proof.
  intros Hs. constructor; try apply Hs. intros c st p Hk Hp.
  destruct (sv_slabs _ _ _ _ _ _ Hs c st p Hk Hp) as (n & F & Hpg & [Hc|(-> & _)]); exists n, F; [by split; [|left]|].
  by destruct (listed_header s sl (sv_lists _ _ _ _ _ _ Hs) c st 0 Hk Hp).
Qed.

(** ** Building a new slab *)

Lemma wp_slab_push s p a h Q :
  p <> 0 -> a <> 0 -> s.(headers) !! p = Some h ->
  Q tt (set_headers (<[p := set_hfree a h]> s.(headers)) (set_chunk_next (<[a := h.(h_freelist)]> s.(chunk_next)) s)) ->
  wp (slab_push_free p a) Q s.
Proof.
  intros Hp Ha Hh HQ. unfold slab_push_free. destruct (Z.eqb_spec p 0); [done|]. destruct (Z.eqb_spec a 0); [done|]. cbn [orb].
  apply wp_bind. eapply wp_hdr_get; [exact Hh|]. wp_steps. eapply wp_hdr_upd; [exact Hh|]. exact HQ.
Qed.

(** The loop that carves a page into free objects. *)
Lemma wp_carve s c p h Q :
  caches_ok s.(kmem_caches) -> class_ok c -> 0 < p -> p + PAGE_SIZE < 2 ^ 64 ->
  s.(headers) !! p = Some h -> h.(h_freelist) = 0 ->
  (forall f F ch, sll 0 (fun a => ch !! a) f F -> NoDup F -> (forall a, a ∈ F <-> is_obj c p a) ->
     Z.of_nat (length F) = ccap c ->
     (forall x, ~ (p <= x < p + PAGE_SIZE) -> ch !! x = s.(chunk_next) !! x) ->
     Q tt (set_headers (<[p := set_hfree f h]> s.(headers)) (set_chunk_next ch s))) ->
  wp (for_up (Z.to_nat (ccap c)) 0 (fun i =>
        k ← cache_get (c + 1); slab_push_free p (u64 (p + coff c + u64 (i * k.(obj_size)))))) Q s.
Proof.
  intros Hkc Hc Hp Hlt Hh Hf0 HQ. destruct (Hkc c Hc) as (k & Ek & Esz).
  pose proof (class_layout c Hc) as (Hsz & Hhd & Hcap & Hfit & _). unfold SIZEOF_SLAB_HEADER in Hhd.
  apply (wp_for_up (fun i s' => exists f F ch, s' = set_headers (<[p := set_hfree f h]> s.(headers)) (set_chunk_next ch s) /\
    sll 0 (fun a => ch !! a) f F /\ NoDup F /\ (forall a, a ∈ F <-> exists j, 0 <= j < i /\ a = p + coff c + j * csize c) /\
    Z.of_nat (length F) = i /\ (forall x, ~ (p <= x < p + PAGE_SIZE) -> ch !! x = s.(chunk_next) !! x))).
  - exists 0, [], (chunk_next s). split_and!; try done; [|apply NoDup_nil_2|].
    + rewrite <- Hf0. destruct s, h. cbn in *. by rewrite insert_id.
    + intros a. split; [set_solver|]. intros (j & Hj & _). lia.
  - intros i s' Hi (f & F & ch & -> & Hsll & Hnd & HF & Hlen & Hout). rewrite Z2Nat.id in Hi by lia.
    apply wp_bind. eapply wp_cache_get; [exact Ek|]. rewrite Esz.
    assert (Hic : i * csize c <= (ccap c - 1) * csize c) by (apply Z.mul_le_mono_nonneg_r; lia).
    assert (0 <= i * csize c) by nia. unfold PAGE_SIZE in *.
    rewrite (u64_id (i * csize c)), u64_id by lia. set (a := p + coff c + i * csize c).
    eapply wp_slab_push; [lia|unfold a; lia|slab_simpl; apply lookup_insert_eq|]. slab_simpl.
    assert (Hnew : a ∉ F) by (rewrite HF; intros (j & Hj & E); unfold a in E; nia).
    exists a, (a :: F), (<[a := f]> ch). rewrite insert_insert_eq. split; [done|]. split_and!.
    + split; [done|]. split; [unfold a; lia|]. exists f. split; [apply lookup_insert_eq|].
      eapply sll_ext; [|exact Hsll]. intros b Hb. apply lookup_insert_ne. intros ->. done.
    + apply NoDup_cons. done.
    + intros b. rewrite elem_of_cons, HF. split.
      * intros [->|(j & Hj & ->)]; [exists i; split; [lia|done]|exists j; split; [lia|done]].
      * intros (j & Hj & ->). destruct (decide (j = i)) as [->|]; [by left|right]. exists j. split; [lia|done].
    + cbn [length]. lia.
    + intros x Hx. rewrite lookup_insert_ne; [by apply Hout|]. intros <-. apply Hx. unfold a. lia.
  - intros s' (f & F & ch & -> & Hsll & Hnd & HF & Hlen & Hout). rewrite Z.add_0_l, Z2Nat.id in * by lia.
    by apply (HQ f F ch).
Qed.

Lemma zoom_id s : put (view s) s = s.
Proof. apply put_view. Qed.

(** What a step that allocates nothing promises. *)
Definition quiet (s s' : slabs) : Prop :=
  (forall b z, allocated s' b z <-> allocated s b z) /\ frame s s'.

Lemma quiet_refl s : quiet s s.
Proof. split; [done|]. by constructor. Qed.

Lemma page_change_quiet X X' s s' sl sl' p0 dst :
  slab_inv X s sl -> tag s.(pages) p0 <> PAGE_KIND_LARGE -> page_change X' s s' sl sl' p0 dst ->
  (forall b z, obj_at s' p0 b z <-> obj_at s p0 b z) -> s'.(pages).(irq_on) = s.(pages).(irq_on) ->
  (forall a z x, allocated s a z -> a <= x < a + z -> s'.(chunk_next) !! x = s.(chunk_next) !! x) ->
  quiet s s'.
Proof.
  intros Hs Hl Hc Ho Hi Hd. split; [|constructor; [done|]; intros a z x Ha H1 H2; apply (Hd a z x Ha); lia]. intros b z.
  rewrite !(allocated_split _ p0). rewrite Ho. by rewrite (rest_change X X' s s' sl sl' p0 dst).
Qed.

Lemma moved_fresh kc hs sl p :
  lists_ok kc hs sl -> (forall k, key_ok k -> p ∉ sl k) -> moved sl sl p None.
Proof. intros _ Hf k q Hk. split; [|naive_solver]. intros Hq. left. split; [|done]. intros ->. by eapply Hf. Qed.

Lemma wp_refill s sl c Q :
  slab_inv 0 s sl -> class_ok c -> (p_alloc 1 s.(pages) = Some (0, s.(pages)) -> Q (-1) s) ->
  (forall p s' sl', slab_inv p s' sl' -> sl' (c, SLAB_PARTIAL) = p :: sl (c, SLAB_PARTIAL) -> quiet s s' -> Q 0 s') ->
  wp (kmalloc_refill_class c) Q s.
Proof.
  intros Hs Hc HN HS. pose proof Hs as [Hok Hrd Hkc Hsl Hpg Hem Htg Hbl Hkd].
  pose proof (class_layout c Hc) as (Hsz & Hhd & Hcap & Hfit & _).
  unfold kmalloc_refill_class. rewrite (proj2 (Z.leb_gt _ _)) by apply Hc.
  apply wp_bind, wp_zoom. apply (pl_alloc (PageLaws := HP)); [done|lia| |].
  { intros Hnull. cbn [Z.eqb]. apply wp_ret. rewrite zoom_id. by apply HN. }
  intros p o m1 Hok1 Hi1 Hp0 (Hoo & _ & Hmin) Hfr Hb1 Ht1. destruct (Z.eqb_spec p 0); [done|].
  assert (o = 0) as ->.
  { unfold order_ok in Hoo. destruct (Z.eq_dec o 0); [done|]. pose proof (Hmin 0 ltac:(lia)). cbn in *. lia. }
  assert (Hbp : blk m1 p 0) by (apply Hb1; by right).
  destruct (pl_shape (PageLaws := HP) _ _ _ Hok1 Hbp) as (Hpp & Hpd & _ & Hpe). change (2 ^ 0) with 1 in Hpe.
  assert (Htp : tag (pages s) p = PAGE_KIND_NONE).
  { destruct (decide (tag (pages s) p = PAGE_KIND_NONE)) as [|Hx]; [done|]. exfalso. destruct (Hkd p Hx) as [q Hq]. by eapply Hfr. }
  assert (Hnl : forall k, key_ok k -> p ∉ sl k) by (intros k Hk Hin; eapply Hfr; by eapply Hbl).
  apply wp_bind, wp_zoom. eapply (pl_set_kind (PageLaws := HP)); [exact Hok1|exact Hbp|].
  intros m2 Hok2 Hi2 Hb2 Ht2. cbn [view put slabs_pages].
  apply wp_bind. apply wp_calc_capacity; [done|done|lia|done|lia|]. slab_simpl. unfold hdr_put. wp_steps. slab_simpl.
  apply wp_object_start; [done|done|lia|done|lia|]. destruct (Z.eqb_spec (ccap c) 0); [lia|].
  apply wp_bind. eapply wp_carve; [done|done|lia|lia|slab_simpl; apply lookup_insert_eq|done|].
  intros f F ch Hsll Hnd HF Hlen Hout. change (chunk_next _) with (chunk_next s) in Hout. slab_simpl. rewrite insert_insert_eq.
  set (h := mkHeader 0 0 (c + 1) f 0 (ccap c) SLAB_PARTIAL SLAB_MAGIC).
  set (s1 := set_headers (<[p := h]> (headers s)) (set_chunk_next ch (set_pages m2 s))). wp_state s1.
  cbn [view put slabs_pages] in *. change (pages (set_pages m1 s)) with m1 in *.
  assert (Hsl1 : lists_ok (kmem_caches s1) (headers s1) sl).
  { constructor; [|apply Hsl|apply Hsl]. intros k Hk. destruct (ds_heads Hsl k Hk) as (hd & Ehd & Hd).
    exists hd. split; [done|]. eapply dll_ext; [|done]. intros q Hq. unfold hlinks, s1. slab_simpl.
    rewrite lookup_insert_ne; [done|]. intros <-. by eapply Hnl. }
  apply wp_bind. assert (Hkey : key_ok (c, SLAB_PARTIAL)) by (split; [done|right; by left]).
  eapply (wp_cache_add s1 sl); [done|exact Hsl1|done|done|done|unfold s1; slab_simpl; apply lookup_insert_eq|].
  intros kc hs Hkc2 Hsl2 Hcs Hcp. apply wp_ret. unfold s1 in *. slab_simpl.
  set (s2 := with_lists kc hs s1) in *.
  assert (Hpok : page_ok s2 c p SLAB_PARTIAL 0 F).
  { constructor; [exists f; split; [exact Hcp|exact Hsll]|done|by intros a Ha; apply HF|lia]. }
  assert (Hch : page_change p s s2 sl (set_list sl (c, SLAB_PARTIAL) (p :: sl (c, SLAB_PARTIAL))) p (Some (c, SLAB_PARTIAL))).
  { constructor; try done.
    - apply moved_add; [by eapply moved_fresh|done].
    - constructor; [|intros x Hx; apply Hout; lia]. intros q Hq _. rewrite Hcs by done. unfold s1. slab_simpl. by rewrite lookup_insert_ne.
    - intros k [= <-]. split; [done|]. split; [by apply Hb2|]. exists 0, F. split; [done|].
      right. split; [done|]. split; [done|cbn [fst]; lia].
    - intros c' Hc'. rewrite set_list_ne by done. by apply Hem.
    - intros q Hq. change (pages s2) with m2. rewrite Ht2. by rewrite decide_False, Ht1.
    - change (pages s2) with m2. rewrite Ht2. by rewrite decide_True.
    - intros q o Hq. change (pages s2) with m2. rewrite Hb2, Hb1. naive_solver. }
  assert (Hrest : forall a z x, allocated s a z -> a <= x < a + z -> ch !! x = s.(chunk_next) !! x).
  { intros a z x Ha Hx. apply Hout. intros Hxp. destruct (allocated_block _ _ _ _ _ Hs Ha) as (_ & b & o & Hb & H1 & H2).
    assert (Hb' : blk m1 b o) by (apply Hb1; by left).
    destruct (pl_disjoint (PageLaws := HP) _ _ _ _ _ x Hok1 Hb' Hbp) as [-> _]; [lia|change (2 ^ 0) with 1; lia|]. by eapply Hfr. }
  apply (HS p s2 (set_list sl (c, SLAB_PARTIAL) (p :: sl (c, SLAB_PARTIAL)))).
  - eapply slab_inv_change; [exact Hs|by left|exact Hch].
  - by rewrite set_list_eq.
  - eapply page_change_quiet; [exact Hs|by rewrite Htp|exact Hch| | |exact Hrest].
    + intros b z. split; [|intros Hx; exfalso; eapply obj_at_none; [|exact Hx]; by rewrite Htp].
      rewrite (obj_at_page s2 c p SLAB_PARTIAL 0 F); [|done| |done].
      * rewrite <- HF. tauto.
      * change (pages s2) with m2. rewrite Ht2. by rewrite decide_True.
    + change (pages s2) with m2. congruence.
Qed.

(** ** Choosing a slab *)

Lemma lists_ok_hlinks kc hs hs' sl :
  (forall k q, key_ok k -> q ∈ sl k -> hlinks hs' q = hlinks hs q) -> lists_ok kc hs sl -> lists_ok kc hs' sl.
Proof.
  intros E [H1 H2 H3]. constructor; [|done|done]. intros k Hk. destruct (H1 k Hk) as (h & Eh & Hd).
  exists h. split; [done|]. eapply dll_ext; [|done]. intros q Hq. by apply (E k).
Qed.

Lemma moved_stay kc hs sl k p : lists_ok kc hs sl -> key_ok k -> p ∈ sl k -> moved sl sl p (Some k).
Proof.
  intros Hsl Hk Hp k' q Hk'. split.
  - intros Hq. destruct (decide (q = p)) as [->|]; [|by left]. right. split; [done|]. f_equal.
    by apply (ds_disjoint Hsl k k' p).
  - intros [[_ ?]|[-> [= <-]]]; done.
Qed.

(** The head pointer of a list. *)
Lemma list_head_elem s sl c st :
  caches_ok s.(kmem_caches) -> lists_ok s.(kmem_caches) s.(headers) sl -> key_ok (c, st) ->
  exists k, s.(kmem_caches) !! c = Some k /\ k.(obj_size) = csize c /\
    (list_head st k = 0 /\ sl (c, st) = [] \/ list_head st k <> 0 /\ exists L, sl (c, st) = list_head st k :: L).
Proof.
  intros Hkc Hsl Hk. destruct (Hkc c (proj1 Hk)) as (k & Ek & Es). exists k. split; [done|]. split; [done|].
  destruct (ds_heads Hsl _ Hk) as (h & Eh & Hd). unfold heads in Eh. cbn [fst snd] in Eh. rewrite Ek in Eh. cbn in Eh.
  injection Eh as Eh. rewrite Eh. destruct (Z.eq_dec h 0) as [->|Hne].
  - left. split; [done|]. by eapply dll_head_null.
  - right. split; [done|]. by eapply dll_head.
Qed.

Lemma key_partial c : class_ok c -> key_ok (c, SLAB_PARTIAL).
Proof. intros. split; [done|right; by left]. Qed.
Lemma key_full c : class_ok c -> key_ok (c, SLAB_FULL).
Proof. intros. split; [done|right; by right]. Qed.
Lemma key_empty c : class_ok c -> key_ok (c, SLAB_EMPTY).
Proof. intros. split; [done|by left]. Qed.

(** An empty slab becomes the partial slab. *)
Lemma wp_reuse_empty s sl c p Q :
  slab_inv 0 s sl -> class_ok c -> p ∈ sl (c, SLAB_EMPTY) ->
  (forall s' sl', slab_inv p s' sl' -> sl' (c, SLAB_PARTIAL) = p :: sl (c, SLAB_PARTIAL) -> quiet s s' -> Q tt s') ->
  wp (cache_move_empty_to_partial (c + 1) p) Q s.
Proof.
  intros Hs Hc Hp HQ. pose proof Hs as [Hok Hrd Hkc Hsl Hpg Hem Htg Hbl Hkd].
  pose proof (key_empty c Hc) as Hke. pose proof (key_partial c Hc) as Hkp.
  destruct (listed_header s sl Hsl c SLAB_EMPTY p Hke Hp) as [_ Hp0].
  destruct (Hpg c SLAB_EMPTY p Hke Hp) as (n & F & Hpo & Hcnt).
  assert (n = 0) as -> by (destruct Hcnt as [(He & _)|(_ & ? & _)]; [by apply He|done]).
  assert (Htp : tag (pages s) p = PAGE_KIND_SLAB) by (apply Htg; eauto).
  pose proof (Hbl _ p Hke Hp) as Hbp. pose proof (class_layout c Hc) as (_ & _ & Hcap & _).
  destruct (block_page_end s p 0 Hok Hbp) as (_ & Hal & _).
  unfold cache_move_empty_to_partial. destruct (Z.eqb_spec (c + 1) 0); [unfold class_ok in Hc; lia|].
  destruct (Z.eqb_spec p 0); [done|]. cbn [orb].
  pose proof Hpo as [(f & Hcore & Hsll) Hnd Hobj Hct].
  eapply (wp_cache_move s sl c SLAB_EMPTY SLAB_PARTIAL p); try done.
  intros kc hs sl' Hkc' Hsl' Hmv (L1 & L2 & EL & ->) Hcs Hcp. set (s' := with_lists kc hs s) in *.
  assert (Hpo' : page_ok s' c p SLAB_PARTIAL 0 F) by (constructor; [by exists f|done..]).
  assert (Hch : page_change p s s' sl (set_list (set_list sl (c, SLAB_EMPTY) (L1 ++ L2)) (c, SLAB_PARTIAL)
    (p :: set_list sl (c, SLAB_EMPTY) (L1 ++ L2) (c, SLAB_PARTIAL))) p (Some (c, SLAB_PARTIAL))).
  { constructor; try done.
    - constructor; [|done]. intros q Hq _. by apply Hcs.
    - intros k [= <-]. split; [done|]. split; [done|]. exists 0, F. split; [done|]. right. cbn [fst]. split; [done|]. split; [done|lia].
    - intros c' Hc'. rewrite set_list_ne by done. specialize (Hem c' Hc'). unfold set_list.
      case_decide as E; [|done]. injection E as ->. rewrite EL, length_app in Hem. cbn in Hem. rewrite length_app. lia. }
  apply (HQ s' (set_list (set_list sl (c, SLAB_EMPTY) (L1 ++ L2)) (c, SLAB_PARTIAL)
    (p :: set_list sl (c, SLAB_EMPTY) (L1 ++ L2) (c, SLAB_PARTIAL)))).
  - eapply slab_inv_change; [exact Hs|by left|exact Hch].
  - rewrite set_list_eq. by rewrite set_list_ne.
  - eapply page_change_quiet; [exact Hs|by rewrite Htp|exact Hch| |done|done].
    intros b z. by rewrite (obj_at_page s' c p SLAB_PARTIAL 0 F), (obj_at_page s c p SLAB_EMPTY 0 F).
Qed.

Lemma wp_find_partial s sl c Q :
  slab_inv 0 s sl -> class_ok c -> (p_alloc 1 s.(pages) = Some (0, s.(pages)) -> Q false s) ->
  (forall X s' sl' p L, slab_inv X s' sl' -> X = 0 \/ X = p -> sl' (c, SLAB_PARTIAL) = p :: L -> quiet s s' -> Q true s') ->
  wp (kmalloc_find_partial c) Q s.
Proof.
  intros Hs Hc HF HT. pose proof Hs as [Hok Hrd Hkc Hsl Hpg Hem Htg Hbl Hkd].
  destruct (list_head_elem s sl c SLAB_PARTIAL Hkc Hsl (key_partial c Hc)) as (k & Ek & _ & Hpart).
  destruct (list_head_elem s sl c SLAB_EMPTY Hkc Hsl (key_empty c Hc)) as (k' & Ek' & _ & Hempty).
  assert (k' = k) as -> by congruence.
  unfold kmalloc_find_partial. apply wp_bind. eapply wp_cache_get; [exact Ek|].
  change (list_head SLAB_PARTIAL k) with (slabs_partial k) in Hpart. change (list_head SLAB_EMPTY k) with (slabs_empty k) in Hempty.
  destruct (Z.eqb_spec (slabs_partial k) 0) as [E|E]; cycle 1.
  { apply wp_ret. destruct Hpart as [[? _]|[_ [L EL]]]; [done|]. eapply (HT 0); [done|by left|done|apply quiet_refl]. }
  destruct (Z.eqb_spec (slabs_empty k) 0) as [E'|E']; cbn [negb].
  - apply wp_bind. apply (wp_refill s sl); [done|done|intros Hnull; by apply wp_ret, HF|].
    intros p s' sl' Hs' HL Hq. apply wp_ret. eapply (HT p); [done|by right|done|done].
  - destruct Hempty as [[? _]|[_ [L EL]]]; [done|]. apply wp_bind.
    apply (wp_reuse_empty s sl); [done|done|rewrite EL; set_solver|].
    intros s' sl' Hs' HL Hq. apply wp_ret. eapply (HT (slabs_empty k)); [done|by right|done|done].
Qed.

(** ** Taking an object from a slab *)

(** The header of a listed page, field by field. *)
Lemma page_ok_header s c p st n F :
  page_ok s c p st n F -> exists h, s.(headers) !! p = Some h /\
    h.(h_cache) = c + 1 /\ h.(inuse) = n /\ h.(capacity) = ccap c /\ h.(h_state) = st /\ h.(magic) = SLAB_MAGIC /\
    sll 0 (fun a => s.(chunk_next) !! a) h.(h_freelist) F.
Proof.
  intros [(f & Hf & Hl) _ _ _]. destruct (headers s !! p) as [h|]; [|done]. injection Hf as E1 E2 E3 E4 E5 E6.
  exists h. split; [done|]. by subst f.
Qed.

(** Rewriting the header of a page without touching its links. *)
Lemma hlinks_insert hs p h h' q :
  hs !! p = Some h -> h'.(link_prev) = h.(link_prev) -> h'.(link_next) = h.(link_next) ->
  hlinks (<[p := h']> hs) q = hlinks hs q.
Proof.
  intros Hh E1 E2. unfold hlinks. rewrite lookup_insert. case_decide; [subst q; rewrite Hh; cbn; by rewrite E1, E2|done].
Qed.

(** The result of taking the object [a] of a page of class [c]. *)
Definition took (s s' : slabs) (c a : Z) : Prop :=
  (exists sl', slab_inv 0 s' sl') /\
  (forall b z, allocated s' b z <-> allocated s b z \/ (b = a /\ z = csize c)) /\ frame s s'.

(** The page after the object has been taken: [st] is its new list. *)
Lemma took_change X s s' sl sl' c p st n a F :
  slab_inv X s sl -> X = 0 \/ X = p -> class_ok c -> key_ok (c, st) ->
  p ∈ sl (c, SLAB_PARTIAL) -> page_ok s c p SLAB_PARTIAL n (a :: F) ->
  page_ok s' c p st (n + 1) F -> count_ok c st (n + 1) ->
  caches_ok s'.(kmem_caches) -> lists_ok s'.(kmem_caches) s'.(headers) sl' -> moved sl sl' p (Some (c, st)) ->
  (forall c', class_ok c' -> sl' (c', SLAB_EMPTY) = sl (c', SLAB_EMPTY)) ->
  (forall q, q <> p -> hcore <$> s'.(headers) !! q = hcore <$> s.(headers) !! q) ->
  s'.(chunk_next) = s.(chunk_next) -> s'.(slab_ready) = s.(slab_ready) -> s'.(pages) = s.(pages) ->
  took s s' c a.
Proof.
  intros Hs HX Hc Hk Hp Hpo Hpo' Hcnt Hkc' Hsl' Hmv Hem' Hcs Hch Hrd' Hpg'.
  pose proof Hs as [Hok Hrd Hkc Hsl Hpg Hem Htg Hbl Hkd]. pose proof (key_partial c Hc) as Hkp.
  assert (Htp : tag (pages s) p = PAGE_KIND_SLAB) by (apply Htg; eauto).
  pose proof (Hbl _ p Hkp Hp) as Hbp. destruct (block_page_end s p 0 Hok Hbp) as (_ & Hal & _).
  assert (Hchg : page_change 0 s s' sl sl' p (Some (c, st))).
  { constructor; try done; try by rewrite Hpg'.
    - constructor; [intros q Hq _; by apply Hcs|]. intros. by rewrite Hch.
    - intros k [= <-]. split; [done|]. split; [by rewrite Hpg'|]. exists (n + 1), F. split; [done|by left].
    - intros c' Hc'. rewrite Hem' by done. by apply Hem. }
  pose proof (po_nodup _ _ _ _ _ _ Hpo) as Hnd. apply NoDup_cons in Hnd as [Haf _].
  pose proof (po_obj _ _ _ _ _ _ Hpo a ltac:(set_solver)) as Hao.
  split; [exists sl'; by eapply slab_inv_change|]. split.
  - intros b z. rewrite !(allocated_split _ p). rewrite (rest_change X 0 s s' sl sl' p (Some (c, st))); [|done|by rewrite Htp|done].
    rewrite (obj_at_page s' c p st (n + 1) F), (obj_at_page s c p SLAB_PARTIAL n (a :: F)); [|done|done|done|done|by rewrite Hpg'|done].
    rewrite elem_of_cons. destruct (decide (b = a)) as [->|]; naive_solver.
  - constructor; [by rewrite Hpg'|]. intros. by rewrite Hch.
Qed.

(** *** Console, interrupt flag and counters are not part of the heap *)

Record same_heap (s s' : slabs) : Prop := {
  sh_caches : s'.(kmem_caches) = s.(kmem_caches);
  sh_headers : s'.(headers) = s.(headers);
  sh_chunk : s'.(chunk_next) = s.(chunk_next);
  sh_ready : s'.(slab_ready) = s.(slab_ready);
  sh_pok : pok s.(pages) -> pok s'.(pages);
  sh_blk : forall a o, blk s'.(pages) a o <-> blk s.(pages) a o;
  sh_tag : forall a, tag s'.(pages) a = tag s.(pages) a;
}.

Lemma same_heap_pages s m :
  geo m = geo s.(pages) -> m.(frame_array) = s.(pages).(frame_array) -> (pok s.(pages) -> pok m) -> same_heap s (set_pages m s).
Proof.
  intros Hg Hf Hk. constructor; try done.
  - intros a o. by apply (pl_block_frame (PageLaws := HP)).
  - intros a. by apply (pl_tag_frame (PageLaws := HP)).
Qed.

Lemma same_heap_trans s1 s2 s3 : same_heap s1 s2 -> same_heap s2 s3 -> same_heap s1 s3.
Proof.
  intros [A1 A2 A3 A4 A5 A6 A7] [B1 B2 B3 B4 B5 B6 B7]. constructor; [congruence..|tauto|intros; by rewrite B6, A6|intros; by rewrite B7, A7].
Qed.

Lemma page_ok_same s s' c p st n F : same_heap s s' -> page_ok s' c p st n F <-> page_ok s c p st n F.
Proof.
  intros H. pose proof (sh_headers _ _ H) as Eh. pose proof (sh_chunk _ _ H) as Ec.
  split; intros Hp; eapply page_ok_frame; try exact Hp; intros; by rewrite ?Eh, ?Ec.
Qed.

Lemma slab_inv_same X s s' sl : same_heap s s' -> slab_inv X s sl -> slab_inv X s' sl.
Proof.
  intros H Hs. constructor.
  - apply (sh_pok _ _ H), Hs.
  - rewrite (sh_ready _ _ H). apply Hs.
  - rewrite (sh_caches _ _ H). apply Hs.
  - rewrite (sh_caches _ _ H), (sh_headers _ _ H). apply Hs.
  - setoid_rewrite (page_ok_same _ _ _ _ _ _ _ H). apply Hs.
  - apply Hs.
  - setoid_rewrite (sh_tag _ _ H). apply Hs.
  - setoid_rewrite (sh_blk _ _ H). apply Hs.
  - setoid_rewrite (sh_tag _ _ H). setoid_rewrite (sh_blk _ _ H). apply Hs.
Qed.

Lemma allocated_same s s' b z : same_heap s s' -> allocated s' b z <-> allocated s b z.
Proof.
  intros H. unfold allocated_gen, slab_obj, large_obj. setoid_rewrite (sh_tag _ _ H). setoid_rewrite (sh_blk _ _ H).
  setoid_rewrite (page_ok_same _ _ _ _ _ _ _ H). done.
Qed.

Lemma took_same s s1 s2 c a :
  took s s1 c a -> same_heap s1 s2 -> s2.(pages).(irq_on) = s1.(pages).(irq_on) -> took s s2 c a.
Proof.
  intros ((sl & Hs) & Hal & [Hi Hd]) H Hirq. split; [exists sl; by eapply slab_inv_same|]. split.
  - intros b z. by rewrite (allocated_same _ _ _ _ H).
  - constructor; [congruence|]. intros. rewrite (sh_chunk _ _ H). by eapply Hd.
Qed.

Lemma wp_slog items s Q :
  (forall s', same_heap s s' -> s'.(pages).(irq_on) = s.(pages).(irq_on) ->
     s'.(object_alloc_count) = s.(object_alloc_count) -> Q tt s') -> wp (slog items) Q s.
Proof.
  intros HQ. apply wp_zoom. apply wp_modify. cbn [view put slabs_pages]. apply HQ; [|done|done].
  apply same_heap_pages; [done|done|]. intros. by apply (pl_console (PageLaws := HP)).
Qed.

Lemma wp_slog_if items s Q :
  (forall s', same_heap s s' -> s'.(pages).(irq_on) = s.(pages).(irq_on) -> Q tt s') -> wp (slog_if_enabled items) Q s.
Proof.
  intros HQ. apply wp_zoom. apply wp_log_if. intros cs. cbn [view put slabs_pages]. apply HQ; [|done].
  apply same_heap_pages; [done|done|]. intros. by apply (pl_console (PageLaws := HP)).
Qed.

(** *** [kmalloc_take] *)

Lemma is_obj_aligned c p a : class_ok c -> (PAGE_SIZE | p) -> is_obj c p a -> (16 | a).
Proof.
  intros Hc Hp (k & _ & ->). pose proof (class_layout c Hc) as (_ & _ & _ & _ & H16 & _ & Hoff).
  assert (H256 : (16 | PAGE_SIZE)) by (exists 256; reflexivity).
  apply Z.divide_add_r; [apply Z.divide_add_r|by apply Z.divide_mul_r].
  - exact (Z.divide_trans _ _ _ H256 Hp).
  - exact (Z.divide_trans _ _ _ H16 Hoff).
Qed.

Lemma wp_kmalloc_take X s sl c p L Q :
  slab_inv X s sl -> X = 0 \/ X = p -> class_ok c -> sl (c, SLAB_PARTIAL) = p :: L ->
  (forall a s', a <> 0 -> (16 | a) -> took s s' c a -> (forall b z, allocated s b z -> ~ (b <= a < b + z)) -> Q a s') ->
  wp (kmalloc_take c) Q s.
Proof.
  intros Hs HX Hc HL HQ. pose proof Hs as [Hok Hrd Hkc Hsl Hpg Hem Htg Hbl Hkd]. pose proof (key_partial c Hc) as Hkp.
  assert (Hp : p ∈ sl (c, SLAB_PARTIAL)) by (rewrite HL; set_solver).
  destruct (list_head_elem s sl c SLAB_PARTIAL Hkc Hsl Hkp) as (k & Ek & Esz & [[_ E]|[Hne [L' E]]]); [by rewrite E in HL|].
  rewrite HL in E. injection E as E _. change (list_head SLAB_PARTIAL k) with (slabs_partial k) in *.
  destruct (Hpg c SLAB_PARTIAL p Hkp Hp) as (n & F & Hpo & Hcnt). pose proof (class_layout c Hc) as (_ & Hhd & Hcap & _).
  assert (Hn : 0 <= n < ccap c).
  { destruct (po_count _ _ _ _ _ _ Hpo). destruct Hcnt as [(_ & Hx & _)|(_ & _ & ?)]; [|lia]. specialize (Hx eq_refl). lia. }
  destruct F as [|a F]; [destruct (po_count _ _ _ _ _ _ Hpo) as [_ Hx]; cbn in Hx; lia|].
  assert (Hao : is_obj c p a) by (apply (po_obj _ _ _ _ _ _ Hpo); set_solver).
  pose proof (Hbl _ p Hkp Hp) as Hbp. destruct (block_page_end s p 0 Hok Hbp) as (Hp0 & Hal & _).
  assert (Htp : tag (pages s) p = PAGE_KIND_SLAB) by (apply Htg; eauto).
  pose proof (is_obj_bounds c p a Hc Hao) as Hab. unfold SIZEOF_SLAB_HEADER in Hhd.
  assert (HQa : forall s', took s s' c a -> Q a s').
  { intros s' Ht. apply HQ; [lia|by eapply is_obj_aligned|done|]. intros b z Hbz.
    eapply (free_not_allocated X s sl c p SLAB_PARTIAL n (a :: F)); try done. set_solver. }
  destruct (page_ok_header _ _ _ _ _ _ Hpo) as (h & Hh & Ec & En & Em & Est & Eg & Hsll).
  unfold kmalloc_take. apply wp_bind. eapply wp_cache_get; [exact Ek|]. destruct (Z.eqb_spec (slabs_partial k) 0); [done|].
  rewrite <- E. apply wp_bind. eapply wp_hdr_get; [exact Hh|]. rewrite Est, Em, En.
  pose proof Hsll as (Ef & Ha0 & _). rewrite Ef. destruct (Z.eqb_spec a 0); [done|].
  destruct (Z.leb_spec (ccap c) n); [lia|]. cbn [negb orb Z.eqb Pos.eqb SLAB_PARTIAL].
  apply wp_bind. eapply wp_slab_pop; [exact Hpo|lia|]. intros h0 nx Hh0 Hnx. assert (h0 = h) as -> by congruence.
  destruct (Z.eqb_spec a 0); [done|].
  apply wp_bind. eapply wp_hdr_upd; [slab_simpl; apply lookup_insert_eq|]. slab_simpl. rewrite En, u32_id by lia.
  rewrite insert_insert_eq. set (h' := mkHeader (link_prev h) (link_next h) (h_cache h) nx (n + 1) (capacity h) (h_state h) (magic h)).
  set (s1 := set_headers (<[p := h']> (headers s)) s). wp_state s1.
  assert (Hh1 : headers s1 !! p = Some h') by apply lookup_insert_eq.
  assert (Hsl1 : lists_ok (kmem_caches s1) (headers s1) sl).
  { eapply lists_ok_hlinks; [|exact Hsl]. intros k0 q _ _. by eapply hlinks_insert. }
  assert (Hcs1 : forall q, q <> p -> hcore <$> headers s1 !! q = hcore <$> headers s !! q).
  { intros q Hq. unfold s1. slab_simpl. by rewrite lookup_insert_ne. }
  assert (Hpo1 : page_ok s1 c p SLAB_PARTIAL (n + 1) F).
  { destruct Hpo as [_ Hnd Hobj Hct]. constructor.
    - exists nx. split; [|done]. rewrite Hh1. cbn. unfold hcore, h'. cbn. by rewrite Ec, Em, Est, Eg.
    - by apply NoDup_cons in Hnd as [_ ?].
    - intros b Hb. apply Hobj. set_solver.
    - cbn [length] in Hct. lia. }
  (* the log line and the counter *)
  assert (Hfin : forall s2 h2, took s s2 c a -> headers s2 !! p = Some h2 ->
    wp (h2 ← hdr_get p;
        slog_if_enabled [LStr "[Allocator] "; LStr "[Object] Allocate "; LStr "0x"; LHex a;
                LStr " at object size "; LDec k.(obj_size); LStr " (class "; LDec c; LStr ", inuse ";
                LDec h2.(inuse); LStr "/"; LDec h2.(capacity); LStr ")"; LStr "\n"] ;;
        modify (fun s => set_object_alloc_count (u64 (s.(object_alloc_count) + 1)) s) ;;
        mret a) Q s2).
  { intros s2 h2 Ht Hh2. apply wp_bind. eapply wp_hdr_get; [exact Hh2|]. apply wp_bind. apply wp_slog_if.
    intros s3 Hsh Hirq. wp_steps. apply HQa. eapply took_same; [exact Ht| |exact Hirq].
    eapply same_heap_trans; [exact Hsh|]. by constructor. }
  apply wp_bind. eapply wp_hdr_get; [exact Hh1|]. apply wp_bind. apply wp_when; intros Efull.
  - apply Z.eqb_eq in Efull. unfold h' in Efull. slab_simpl. cbn in Efull. rewrite Em in Efull.
    unfold cache_move_partial_to_full. destruct (Z.eqb_spec (c + 1) 0); [unfold class_ok in Hc; lia|].
    destruct (Z.eqb_spec p 0); [lia|]. cbn [orb]. destruct (po_core _ _ _ _ _ _ Hpo1) as (f1 & Hf1 & Hs1l).
    eapply (wp_cache_move s1 sl c SLAB_PARTIAL SLAB_FULL p); try done; [by apply key_full|].
    intros kc hs sl' Hkc' Hsl' Hmv (L1 & L2 & EL & ->) Hcs Hcp. destruct (hs !! p) as [h2|] eqn:Hh2; [|done].
    eapply Hfin; [|exact Hh2]. eapply (took_change X s _ sl _ c p SLAB_FULL n a F); try done; try by apply key_full.
    + destruct Hpo1 as [_ Hnd1 Hob1 Hct1]. constructor; [|done..]. exists f1. split; [|done]. slab_simpl. by rewrite Hh2.
    + intros c' Hc'. rewrite set_list_ne by done. by rewrite set_list_ne.
    + intros q Hq. slab_simpl. by rewrite Hcs, Hcs1.
  - apply Z.eqb_neq in Efull. unfold h' in Efull. cbn in Efull. rewrite Em in Efull.
    eapply Hfin; [|exact Hh1]. eapply (took_change X s s1 sl sl c p SLAB_PARTIAL n a F); try done.
    + split; [done|]. split; [|done]. lia.
    + by eapply moved_stay.
Qed.

(** ** Whole blocks *)

(** Only the page allocator has changed, and it agrees on slab pages. *)
Lemma slab_inv_pages X s sl m :
  slab_inv X s sl -> pok m ->
  (forall p, tag m p = PAGE_KIND_SLAB <-> tag s.(pages) p = PAGE_KIND_SLAB) ->
  (forall k p, key_ok k -> p ∈ sl k -> blk m p 0) ->
  (forall p, tag m p <> PAGE_KIND_NONE -> exists o, blk m p o) -> slab_inv X (set_pages m s) sl.
Proof.
  intros Hs Hok Ht Hb Hk. constructor; try apply Hs; try done.
  - intros c st p Hkey Hp. destruct (sv_slabs _ _ _ _ _ _ Hs c st p Hkey Hp) as (n & F & Hpo & Hc).
    exists n, F. split; [|done]. by eapply page_ok_frame.
  - intros p. slab_simpl. rewrite Ht. apply Hs.
Qed.

(** Slab objects only depend on the tags of the page allocator. *)
Lemma slab_obj_pages s m a c p :
  (tag m p = PAGE_KIND_SLAB <-> tag s.(pages) p = PAGE_KIND_SLAB) ->
  slab_obj tag (set_pages m s) a c p <-> slab_obj tag s a c p.
Proof.
  intros Ht. unfold slab_obj. slab_simpl. rewrite Ht.
  split; intros (? & ? & ? & st & n & F & Hp & ?); split_and!; try done; exists st, n, F; (split; [|done]); by eapply page_ok_frame.
Qed.

(** Result of a successful call: a fresh object of at least [size] bytes. *)
Definition kmalloc_done (size : Z) (s : slabs) (a : Z) (s' : slabs) : Prop :=
  a <> 0 /\ (16 | a) /\ exists z, size <= z /\ (exists sl', slab_inv 0 s' sl') /\
    (forall b y, allocated s' b y <-> allocated s b y \/ (b = a /\ y = z)) /\
    (forall b y x, allocated s b y -> b <= x < b + y -> ~ (a <= x < a + z)) /\ frame s s'.

Lemma wp_kmalloc_large s sl n Q :
  slab_inv 0 s sl -> 0 < n <= 2 ^ 20 -> (p_alloc n s.(pages) = Some (0, s.(pages)) -> Q 0 s) ->
  (forall a s', kmalloc_done (n * PAGE_SIZE) s a s' -> Q a s') ->
  wp (base ← zoom (p_alloc n); if base =? 0 then mret 0 else zoom (page_set_kind base PAGE_KIND_LARGE) ;; mret base) Q s.
Proof.
  intros Hs Hn HN HS. pose proof Hs as [Hok Hrd Hkc Hsl Hpg Hem Htg Hbl Hkd].
  apply wp_bind, wp_zoom. apply (pl_alloc (PageLaws := HP)); [done|lia| |].
  { intros Hnull. cbn [Z.eqb]. apply wp_ret. rewrite zoom_id. by apply HN. }
  intros a o m1 Hok1 Hi1 Ha0 (Hoo & Hle & _) Hfr Hb1 Ht1. destruct (Z.eqb_spec a 0); [done|].
  cbn [view put slabs_pages] in *. assert (Hba : blk m1 a o) by (apply Hb1; by right).
  destruct (pl_shape (PageLaws := HP) _ _ _ Hok1 Hba) as (Hpp & Hpd & _ & Hpe).
  apply wp_bind, wp_zoom. eapply (pl_set_kind (PageLaws := HP)); [exact Hok1|exact Hba|].
  intros m2 Hok2 Hi2 Hb2 Ht2. apply wp_ret. cbn [view put slabs_pages] in *. change (pages (set_pages m1 s)) with m1 in *.
  assert (Hta : tag (pages s) a = PAGE_KIND_NONE).
  { destruct (decide (tag (pages s) a = PAGE_KIND_NONE)) as [|Hx]; [done|]. exfalso. destruct (Hkd a Hx) as [q Hq]. by eapply Hfr. }
  assert (Htag : forall p, tag m2 p = if decide (p = a) then PAGE_KIND_LARGE else tag (pages s) p).
  { intros p. rewrite Ht2. case_decide; [done|by rewrite Ht1]. }
  assert (Hblk : forall b q, blk m2 b q <-> blk (pages s) b q \/ (b = a /\ q = o)) by (intros; by rewrite Hb2, Hb1).
  assert (Htslab : forall p, tag m2 p = PAGE_KIND_SLAB <-> tag (pages s) p = PAGE_KIND_SLAB).
  { intros p. rewrite Htag. case_decide; [subst p; by rewrite Hta|done]. }
  change (set_pages m2 (set_pages m1 s)) with (set_pages m2 s).
  apply HS. split; [done|]. split.
  { eapply Z.divide_trans; [|exact Hpd]. by exists 256. }
  exists (2 ^ o * PAGE_SIZE). split; [unfold PAGE_SIZE; lia|]. split.
  { exists sl. apply slab_inv_pages; try done.
    - intros k p Hk Hp. apply Hblk. left. by eapply Hbl.
    - intros p Hp. rewrite Htag in Hp. case_decide as E; [subst p; exists o; apply Hblk; by right|].
      destruct (Hkd p Hp) as [q Hq]. exists q. apply Hblk. by left. }
  split; [|split].
  - intros b y. unfold allocated_gen, large_obj. setoid_rewrite (fun a' c p => slab_obj_pages s m2 a' c p (Htslab p)).
    slab_simpl. setoid_rewrite Htag. setoid_rewrite Hblk. split.
    + intros [?|(q & [Ht Hb] & ->)]; [left; by left|]. case_decide as E.
      * subst b. right. destruct Hb as [Hb|[_ ->]]; [by destruct (Hfr q)|done].
      * left. right. exists q. split; [|done]. split; [done|]. destruct Hb as [?|[? _]]; done.
    + intros [[?|(q & [Ht Hb] & ->)]|[-> ->]]; [by left| |]; right.
      * exists q. split; [|done]. split; [case_decide as E; [subst b; by destruct (Hfr q)|done]|by left].
      * exists o. split; [|done]. split; [by rewrite decide_True|by right].
  - intros b y x Hb Hx Hxa. destruct (allocated_block _ _ _ _ _ Hs Hb) as (_ & p & q & Hpq & H1 & H2).
    assert (Hpq' : blk m1 p q) by (apply Hb1; by left).
    destruct (pl_disjoint (PageLaws := HP) _ _ _ _ _ x Hok1 Hpq' Hba) as [-> _]; [lia|lia|]. by eapply Hfr.
  - constructor; [slab_simpl; congruence|done].
Qed.

(** ** [kmalloc] *)

Lemma took_done s0 s s' sz c a :
  quiet s0 s -> (exists X sl, slab_inv X s sl) -> took s s' c a -> sz <= csize c -> a <> 0 -> (16 | a) ->
  (forall b z, allocated s b z -> ~ (b <= a < b + z)) -> 0 < csize c -> kmalloc_done sz s0 a s'.
Proof.
  intros [Hq [Hqi Hqd]] (X & sl & Hs) ((sl' & Hs') & Hal & [Hi Hd]) Hsz Ha0 Hal16 Hfresh Hpos.
  split; [done|]. split; [done|]. exists (csize c). split; [done|]. split; [by exists sl'|].
  split; [intros b y; rewrite Hal; by rewrite Hq|]. split.
  - intros b y x Hb Hx Hxa. apply Hq in Hb. assert (Hb' : allocated s' b y) by (apply Hal; by left).
    assert (Ha' : allocated s' a (csize c)) by (apply Hal; by right).
    destruct (allocated_disjoint _ _ _ _ _ _ _ x Hs' Hb' Ha' Hx Hxa) as [-> ->]. apply (Hfresh a (csize c) Hb). lia.
  - constructor; [congruence|]. intros b z x Hb Hx Hx'. rewrite <- (Hqd b z x) by done. apply (Hd b z x); [by apply Hq|done|done].
Qed.

(** Pages asked of the page allocator, and the reasons for a null result: no
    bytes, more than the largest block, or no pages. *)
Definition pages_for (sz : Z) : Z := if sz <=? KMALLOC_MAX_SLAB_SIZE then 1 else (sz + PAGE_SIZE - 1) / PAGE_SIZE.
Definition kmalloc_null (sz : Z) (m : mem) : Prop := sz = 0 \/ 2 ^ 32 < sz \/ p_alloc (pages_for sz) m = Some (0, m).

Lemma wp_kmalloc_locked s sl sz Q :
  slab_inv 0 s sl -> 0 <= sz < 2 ^ 64 -> (kmalloc_null sz s.(pages) -> Q 0 s) -> (forall a s', kmalloc_done sz s a s' -> Q a s') ->
  wp (kmalloc_locked sz) Q s.
Proof.
  intros Hs Hsz HN HS. unfold kmalloc_locked. wp_steps. rewrite (sv_ready _ _ _ _ _ _ Hs). cbn [negb orb].
  destruct (Z.eqb_spec sz 0); [apply wp_ret, HN; by left|].
  assert (Hpf : p_alloc (pages_for sz) (pages s) = Some (0, pages s) -> Q 0 s) by (intros; apply HN; right; by right).
  unfold pages_for in Hpf. destruct (Z.leb_spec sz KMALLOC_MAX_SLAB_SIZE) as [Hsm|Hlg].
  - destruct (size_to_class_spec sz ltac:(lia)) as (Hc & Hle & _). set (c := size_to_class sz) in *.
    pose proof (class_layout c Hc) as (Hcs & _).
    destruct (Z.ltb_spec c 0); [unfold class_ok in Hc; lia|]. apply wp_bind.
    apply (wp_find_partial s sl); [done|done|intros; by apply wp_ret, Hpf|].
    intros X s1 sl1 p L Hs1 HX HL Hq. cbn [negb]. eapply (wp_kmalloc_take X s1 sl1); try done.
    intros a s' Ha Hal Ht Hf. apply HS. eapply took_done; try done; [by exists X, sl1|lia].
  - change (u64 (Z.shiftl PAGE_SIZE MEMORY_BUDDY_MAX_ORDER)) with (2 ^ 32).
    destruct (Z.ltb_spec (2 ^ 32) sz); [apply wp_ret, HN; right; by left|]. change KMALLOC_MAX_SLAB_SIZE with 2048 in Hlg.
    rewrite (u64_id (sz + PAGE_SIZE)), u64_id by (unfold PAGE_SIZE; lia).
    set (np := (sz + PAGE_SIZE - 1) / PAGE_SIZE) in *.
    assert (Hn : 0 < np <= 2 ^ 20 /\ sz <= np * PAGE_SIZE) by
      (unfold np; pose proof (Z.div_mod (sz + PAGE_SIZE - 1) PAGE_SIZE ltac:(done));
       pose proof (Z.mod_pos_bound (sz + PAGE_SIZE - 1) PAGE_SIZE ltac:(done)); unfold PAGE_SIZE in *; lia).
    rewrite u32_id by lia. apply (wp_kmalloc_large s sl); [done|lia|done|].
    intros a s' (Ha & Hal & z & Hz & Hrest). apply HS. split; [done|]. split; [done|]. exists z. split; [lia|done].
Qed.

Lemma same_heap_irq s v : same_heap s (set_pages (set_irq_on v s.(pages)) s).
Proof. apply same_heap_pages; [done|done|]. intros. by apply (pl_irq (PageLaws := HP)). Qed.

(** The interrupt flag around an operation. *)
Lemma kmalloc_done_irq sz s a s1 v :
  kmalloc_done sz (set_pages (set_irq_on v s.(pages)) s) a s1 ->
  kmalloc_done sz s a (set_pages (set_irq_on s.(pages).(irq_on) s1.(pages)) s1).
Proof.
  intros (Ha & Hal & z & Hz & (sl' & Hs') & Hset & Hfr & [_ Hd]). pose proof (same_heap_irq s v) as Hh.
  pose proof (same_heap_irq s1 (irq_on (pages s))) as Hh1.
  split; [done|]. split; [done|]. exists z. split; [done|]. split; [exists sl'; by eapply slab_inv_same|]. split; [|split].
  - intros b y. rewrite (allocated_same _ _ _ _ Hh1), Hset. by rewrite (allocated_same _ _ _ _ Hh).
  - intros b y x Hb. apply Hfr. by rewrite (allocated_same _ _ _ _ Hh).
  - constructor; [done|]. intros b y x Hb Hx Hx'. apply (Hd b y x); [by rewrite (allocated_same _ _ _ _ Hh)|done|done].
Qed.

Lemma set_irq_pages_back s : set_pages (set_irq_on s.(pages).(irq_on) (set_irq_on false s.(pages))) s = s.
Proof. destruct s as [? ? ? ? ? ? ? m]. cbn. by destruct m. Qed.

Lemma wp_kmalloc s sl sz Q :
  slab_inv 0 s sl -> 0 <= sz < 2 ^ 64 -> (kmalloc_null sz (set_irq_on false s.(pages)) -> Q 0 s) -> (forall a s', kmalloc_done sz s a s' -> Q a s') ->
  wp (kmalloc sz) Q s.
Proof.
  intros Hs Hsz HN HS. unfold kmalloc, local_irq_save, local_irq_restore.
  apply wp_bind, wp_zoom. wp_steps. cbn [view put slabs_pages].
  assert (Hs1 : slab_inv 0 (set_pages (set_irq_on false (pages s)) s) sl) by (eapply slab_inv_same; [apply same_heap_irq|done]).
  apply (wp_kmalloc_locked _ sl); [done|done| |].
  - intros Hnull. specialize (HN Hnull). apply wp_bind, wp_zoom. wp_steps. cbn [view put slabs_pages].
    match goal with |- Q 0 ?x => change (Q 0 (set_pages (set_irq_on s.(pages).(irq_on) (set_irq_on false s.(pages))) s)) end.
    by rewrite set_irq_pages_back.
  - intros a s1 Hd. apply wp_bind, wp_zoom. wp_steps. cbn [view put slabs_pages].
    assert (Ei : irq_on (pages s1) = false) by (destruct Hd as (_ & _ & z & _ & _ & _ & _ & [Hi _]); by rewrite Hi).
    rewrite Ei. cbn [orb]. apply HS. by eapply kmalloc_done_irq.
Qed.

End alloc.
