(* ===== verification/SlabFree.v ===== *)
(** * Release of bytes

    [kfree]: the checks that reject everything that is not an allocated object,
    the return of an object to its slab, the moves between the cache lists and
    the return of surplus empty slabs to the page allocator. *)

From S2P Require Import Prelude Lists Memory BuddyInv BuddySpec PageIface Slab SlabInv SlabAlloc.

Open Scope Z_scope.

Section free.
Context {pok : mem -> Prop} {blk : mem -> Z -> Z -> Prop} {tag : mem -> Z -> page_kind}.
Context `{HP : !PageLaws pok blk tag}.
Abbreviation slab_inv := (slab_inv_gen pok blk tag).
Abbreviation allocated := (allocated_gen blk tag).
Abbreviation same_heap := (@same_heap pok blk tag).
Implicit Types (s : slabs) (sl : Z * Z -> list Z).

(** The release of the object at [a]. *)
Definition kfree_freed (a : Z) (s s' : slabs) : Prop :=
  (exists z, allocated s a z) /\ (exists sl', slab_inv 0 s' sl') /\
  (forall b y, allocated s' b y <-> allocated s b y /\ b <> a) /\
  s'.(pages).(irq_on) = s.(pages).(irq_on) /\
  (forall b y x, allocated s b y -> b <> a -> b <= x -> x + 8 <= b + y -> s'.(chunk_next) !! x = s.(chunk_next) !! x).

(** Anything else is refused: the heap is unchanged. *)
Definition kfree_refused (a : Z) (s s' : slabs) : Prop :=
  (forall z, ~ allocated s a z) /\ same_heap s s' /\ s'.(pages).(irq_on) = s.(pages).(irq_on).

(** ** Which page an allocated object is in *)

Lemma align_down_page_eq a p : 0 <= a < 2 ^ 64 -> (PAGE_SIZE | p) -> p <= a < p + PAGE_SIZE -> align_down_u64 a PAGE_SIZE = p.
Proof.
  intros Ha Hd Hp. assert (E : align_down_u64 a PAGE_SIZE = a - a mod PAGE_SIZE).
  { unfold align_down_u64, PAGE_SIZE. change (u64 (4096 - 1)) with (2 ^ 12 - 1). by rewrite land_not64, land_lnot_mask by lia. }
  rewrite E. pose proof (Z.mod_pos_bound a PAGE_SIZE ltac:(done)).
  eapply (divide_between PAGE_SIZE); [done|done|by apply divide_round_down|].
  assert (a mod PAGE_SIZE = a - p); [|lia]. destruct Hd as [k ->].
  symmetry. apply (Z.mod_unique _ _ k); unfold PAGE_SIZE in *; lia.
Qed.

Lemma align_down_bounds a : 0 <= a < 2 ^ 64 ->
  0 <= align_down_u64 a PAGE_SIZE < 2 ^ 64 /\ (PAGE_SIZE | align_down_u64 a PAGE_SIZE) /\
  align_down_u64 a PAGE_SIZE <= a < align_down_u64 a PAGE_SIZE + PAGE_SIZE.
Proof.
  intros Ha. assert (E : align_down_u64 a PAGE_SIZE = a - a mod PAGE_SIZE).
  { unfold align_down_u64, PAGE_SIZE. change (u64 (4096 - 1)) with (2 ^ 12 - 1). by rewrite land_not64, land_lnot_mask by lia. }
  rewrite E. pose proof (round_down_bounds a PAGE_SIZE ltac:(done) ltac:(lia)).
  split; [lia|]. split; [by apply divide_round_down|lia].
Qed.

Lemma allocated_page s sl a z :
  slab_inv 0 s sl -> 0 <= a < 2 ^ 64 -> allocated s a z ->
  let p := align_down_u64 a PAGE_SIZE in
  a <> 0 /\
  ((exists c, slab_obj tag s a c p /\ z = csize c) \/
   (p = a /\ tag s.(pages) a = PAGE_KIND_LARGE /\ exists o, blk s.(pages) a o)).
Proof.
  intros Hs Ha [(c & p & Ho & ->)|(o & [Ht Hb] & ->)]; cbn zeta.
  - destruct (slab_obj_in_page _ _ _ _ _ _ Hs Ho) as (Hb & H1 & H2). pose proof Ho as (Hc & _).
    pose proof (class_layout c Hc) as (? & Hh & _). unfold SIZEOF_SLAB_HEADER in Hh.
    destruct (block_page_end s p 0 (sv_pages _ _ _ _ _ _ Hs) Hb) as (Hp & Hd & _).
    split; [lia|]. left. exists c. rewrite (align_down_page_eq a p); [done|done|done|lia].
  - destruct (block_page_end s a o (sv_pages _ _ _ _ _ _ Hs) Hb) as (Hp & Hd & _). split; [lia|]. right.
    split; [apply align_down_page_eq; [done|done|unfold PAGE_SIZE; lia]|]. split; [done|by exists o].
Qed.

(** Every object of a full free list is free. *)
Lemma all_free s c p st F a :
  class_ok c -> page_ok s c p st 0 F -> is_obj c p a -> a ∈ F.
Proof.
  intros Hc [_ Hnd Hobj [_ Hlen]] (k & Hk & ->). pose proof (class_layout c Hc) as (Hsz & _ & Hcap & _).
  set (objs := map (fun i => p + coff c + Z.of_nat i * csize c) (seq 0 (Z.to_nat (ccap c)))).
  assert (Hincl : incl objs F).
  { apply NoDup_length_incl.
    - by apply NoDup_ListNoDup.
    - unfold objs. rewrite length_map, length_seq. lia.
    - intros x Hx. apply list_elem_of_In in Hx. destruct (Hobj x Hx) as (j & Hj & ->). unfold objs.
      apply in_map_iff. exists (Z.to_nat j). rewrite Z2Nat.id by lia. split; [done|]. apply in_seq. lia. }
  apply list_elem_of_In, Hincl. unfold objs. apply in_map_iff. exists (Z.to_nat k).
  rewrite Z2Nat.id by lia. split; [done|]. apply in_seq. lia.
Qed.

(** ** Refusals *)

Lemma refused_log s a s' :
  (forall z, ~ allocated s a z) -> same_heap s s' -> s'.(pages).(irq_on) = s.(pages).(irq_on) -> kfree_refused a s s'.
Proof. done. Qed.

Lemma wp_kfree_error items s Q :
  (forall s', same_heap s s' -> s'.(pages).(irq_on) = s.(pages).(irq_on) -> Q tt s') -> wp (kfree_error items) Q s.
Proof. intros HQ. apply wp_slog. intros. by apply HQ. Qed.

(** ** Poisoning *)

Lemma wp_poison ptr size v s Q :
  ptr <> 0 ->
  (forall ch hs, 
     (forall x, x + 8 <= ptr \/ ptr + size <= x -> ch !! x = s.(chunk_next) !! x) ->
     (forall q, q + SIZEOF_SLAB_HEADER <= ptr \/ ptr + size <= q -> hs !! q = s.(headers) !! q) ->
     Q tt (set_chunk_next ch (set_headers hs s))) ->
  wp (poison_memory ptr size v) Q s.
Proof.
  intros Hp HQ. unfold poison_memory. destruct (Z.eqb_spec ptr 0); [done|]. apply wp_modify. apply HQ.
  - intros x Hx. rewrite map_lookup_imap. destruct (chunk_next s !! x) as [w|]; [|done]. cbn.
    destruct (Z.ltb_spec ptr (x + 8)), (Z.ltb_spec x (ptr + size)); cbn; (done || lia).
  - intros q Hq. rewrite map_lookup_imap. destruct (headers s !! q) as [w|]; [|done]. cbn.
    destruct (Z.ltb_spec ptr (q + SIZEOF_SLAB_HEADER)), (Z.ltb_spec q (ptr + size)); cbn; (done || lia).
Qed.

(** The objects that remain allocated in the page. *)
Lemma freed_change s s' sl sl' c p st st' n n' F a dst :
  slab_inv 0 s sl -> class_ok c -> p ∈ sl (c, st) -> key_ok (c, st) -> page_ok s c p st n F -> is_obj c p a -> a ∉ F ->
  page_change (pok := pok) (blk := blk) (tag := tag) 0 s s' sl sl' p dst ->
  (dst = Some (c, st') /\ page_ok s' c p st' n' (a :: F) \/
   dst = None /\ forall b, is_obj c p b -> b = a \/ b ∈ F) ->
  s'.(pages).(irq_on) = s.(pages).(irq_on) ->
  (forall x, x + 8 <= a \/ a + csize c <= x -> (forall b, is_obj c p b -> b ∉ F -> b <> a -> b <= x -> x + 8 <= b + csize c ->
     s'.(chunk_next) !! x = s.(chunk_next) !! x)) ->
  kfree_freed a s s'.
Proof.
  intros Hs Hc Hp Hk Hpo Hao Haf Hchg Hdst Hirq Hdata.
  assert (Htp : tag (pages s) p = PAGE_KIND_SLAB) by (apply (sv_tags _ _ _ _ _ _ Hs); eauto).
  pose proof (sv_block _ _ _ _ _ _ Hs _ p Hk Hp) as Hbp.
  assert (Hobj : forall b z, obj_at (tag := tag) s p b z <-> is_obj c p b /\ b ∉ F /\ z = csize c) by (intros; by apply (obj_at_page s c p st n F)).
  assert (Hobj' : forall b z, obj_at (tag := tag) s' p b z <-> is_obj c p b /\ b ∉ F /\ b <> a /\ z = csize c).
  { intros b z. destruct Hdst as [[-> Hpo']|(-> & Hall)].
    - rewrite (obj_at_page s' c p st' n' (a :: F)); [|done|apply Hchg|done]. set_solver.
    - split; [|intros (Hb & Hf & Hne & _); destruct (Hall b Hb); done].
      intros Hx. exfalso. eapply obj_at_none; [|exact Hx]. by rewrite (pc_tag _ _ _ _ _ _ _ Hchg). }
  assert (Hal : allocated s a (csize c)) by (apply (allocated_split _ p); left; by apply Hobj).
  pose proof (is_obj_bounds c p a Hc Hao) as Hab. pose proof (class_layout c Hc) as (Hsz & Hh & _). unfold SIZEOF_SLAB_HEADER in Hh.
  split; [by exists (csize c)|]. split; [exists sl'; eapply slab_inv_change; [exact Hs|by left|exact Hchg]|]. split; [|split; [done|]].
  - intros b y. rewrite !(allocated_split _ p), Hobj', Hobj.
    rewrite (rest_change 0 0 s s' sl sl' p dst b y Hs ltac:(by rewrite Htp) Hchg). split.
    + intros [?|Hr]; [tauto|]. split; [by right|]. intros ->.
      assert (Har : allocated s a y) by (apply (allocated_split _ p); by right).
      destruct (allocated_block _ _ _ _ _ Hs Har) as (Hy & _).
      eapply (rest_outside 0 s sl p a y a); [done|done|by rewrite Htp|done|lia|lia].
    + tauto.
  - intros b y x Hb Hne Hx1 Hx2. apply (allocated_split _ p) in Hb as [Hb|Hb].
    + apply Hobj in Hb as (Hbo & Hbf & ->). apply (Hdata x) with (b := b); try done.
      destruct (Z.le_gt_cases (x + 8) a); [by left|right].
      destruct (Z.le_gt_cases (a + csize c) x); [done|]. exfalso. apply Hne.
      destruct Hbo as (j & Hj & ->), Hao as (k & Hk' & ->). assert (j = k) by nia. by subst.
    + apply (cf_chunk _ _ _ (pc_confined _ _ _ _ _ _ _ Hchg)).
      pose proof (rest_outside 0 s sl p b y x Hs Hbp ltac:(by rewrite Htp) Hb ltac:(lia)).
      pose proof (rest_outside 0 s sl p b y (x + 7) Hs Hbp ltac:(by rewrite Htp) Hb ltac:(lia)). unfold PAGE_SIZE in *. lia.
Qed.

Lemma kfree_freed_same a s s1 s2 :
  kfree_freed a s s1 -> same_heap s1 s2 -> s2.(pages).(irq_on) = s1.(pages).(irq_on) -> kfree_freed a s s2.
Proof.
  intros (Hz & (sl & Hs) & Hal & Hi & Hd) H Hirq. split; [done|]. split; [exists sl; by eapply slab_inv_same|].
  split; [intros b y; by rewrite (allocated_same _ _ _ _ H)|]. split; [congruence|].
  intros. rewrite (sh_chunk _ _ H). by eapply Hd.
Qed.

Lemma moved_trans sl1 sl2 sl3 p d d' : moved sl1 sl2 p d -> moved sl2 sl3 p d' -> moved sl1 sl3 p d'.
Proof. intros H1 H2 k q Hk. rewrite (H2 k q Hk), (H1 k q Hk). naive_solver. Qed.

(** ** Returning an object *)

Section object.
Context (s : slabs) (sl : Z * Z -> list Z) (c p st n : Z) (F : list Z) (a : Z).
Context (Hs : slab_inv 0 s sl) (Hc : class_ok c) (Hk : key_ok (c, st)) (Hp : p ∈ sl (c, st)).
Context (Hpo : page_ok s c p st n F) (Hn : 0 < n) (Hao : is_obj c p a) (Haf : a ∉ F).

(** The page while its object is being returned: [st'] is the list it is on. *)
Record returned (st' : Z) (s2 : slabs) (sl2 : Z * Z -> list Z) : Prop := {
  rt_caches : caches_ok s2.(kmem_caches);
  rt_lists : lists_ok s2.(kmem_caches) s2.(headers) sl2;
  rt_moved : moved sl sl2 p (Some (c, st'));
  rt_empty : forall c', class_ok c' -> sl2 (c', SLAB_EMPTY) = sl (c', SLAB_EMPTY);
  rt_page : page_ok s2 c p st' (n - 1) (a :: F);
  rt_core : forall q, q <> p -> (PAGE_SIZE | q) -> hcore <$> s2.(headers) !! q = hcore <$> s.(headers) !! q;
  rt_chunk : forall x, x + 8 <= a \/ a + csize c <= x -> s2.(chunk_next) !! x = s.(chunk_next) !! x;
  rt_pages : s2.(pages) = s.(pages);
  rt_ready : s2.(slab_ready) = s.(slab_ready);
}.

Lemma page_facts :
  0 < p /\ (PAGE_SIZE | p) /\ p + PAGE_SIZE < 2 ^ 64 /\ blk s.(pages) p 0 /\ tag s.(pages) p = PAGE_KIND_SLAB /\
  p + SIZEOF_SLAB_HEADER <= a /\ a + csize c <= p + PAGE_SIZE /\ 16 <= csize c.
Proof.
  pose proof (sv_block _ _ _ _ _ _ Hs _ p Hk Hp) as Hb.
  destruct (pl_shape (PageLaws := HP) _ _ _ (sv_pages _ _ _ _ _ _ Hs) Hb) as (H0 & H1 & _ & H2). change (2 ^ 0) with 1 in H2.
  pose proof (is_obj_bounds c p a Hc Hao) as Hab. pose proof (class_layout c Hc) as (Hsz & Hh & _).
  split_and!; try done; try lia. apply (sv_tags _ _ _ _ _ _ Hs). eauto.
Qed.

Lemma state_not_empty : st = SLAB_PARTIAL \/ st = SLAB_FULL.
Proof.
  destruct Hk as [_ [E|[E|E]]]; cbn [snd] in E; [|by left|by right]. exfalso.
  destruct (sv_slabs _ _ _ _ _ _ Hs c st p Hk Hp) as (n' & F' & Hpo' & Hcnt).
  destruct (page_ok_det _ _ _ _ _ _ _ _ _ _ Hpo Hpo') as (_ & _ & <- & _).
  destruct Hcnt as [(He & _)|(E0 & _)]; [specialize (He E); lia|]. pose proof page_facts. lia.
Qed.

(** The chunk words that the return may change lie in the page. *)
Lemma returned_confined st' s2 sl2 : returned st' s2 sl2 -> confined s s2 p.
Proof.
  intros H. constructor; [apply H|]. intros x Hx. apply (rt_chunk _ _ _ H).
  destruct page_facts as (_ & _ & _ & _ & _ & H1 & H2 & H3). unfold SIZEOF_SLAB_HEADER, PAGE_SIZE in *. lia.
Qed.

(** Poison, push, count: the first part of the function. *)
Lemma wp_return_object (k : M slabs unit) Q :
  (forall s1, returned st s1 sl -> wp k Q s1) ->
  wp (poison_memory a (csize c) POISON_FREE_OBJECT ;; slab_push_free p a ;;
      hdr_upd p (fun h => set_inuse (u32 (h.(inuse) - 1)) h) ;;
      modify (fun s => set_object_free_count (u64 (s.(object_free_count) + 1)) s) ;; k) Q s.
Proof.
  intros HQ. pose proof Hs as [Hok Hrd Hkc Hsl Hpg Hem Htg Hbl Hkd].
  destruct page_facts as (Hp0 & Hpd & Hpe & Hb & Ht & H1 & H2 & H3). unfold SIZEOF_SLAB_HEADER in H1.
  destruct (page_ok_header _ _ _ _ _ _ Hpo) as (h & Hh & Ec & En & Em & Est & Eg & Hsll).
  apply wp_bind. apply wp_poison; [lia|]. intros ch hs Hch Hhs.
  assert (Hhs' : forall q, (PAGE_SIZE | q) -> hs !! q = headers s !! q).
  { intros q [x ->]. destruct Hpd as [y ->]. apply Hhs. unfold SIZEOF_SLAB_HEADER, PAGE_SIZE in *.
    destruct (Z.le_gt_cases x y); [left|right]; lia. }
  apply wp_bind. eapply wp_slab_push; [lia|lia|slab_simpl; rewrite Hhs' by done; exact Hh|]. slab_simpl.
  apply wp_bind. eapply wp_hdr_upd; [slab_simpl; apply lookup_insert_eq|]. slab_simpl. rewrite insert_insert_eq, En.
  pose proof (po_count _ _ _ _ _ _ Hpo) as [_ Hlen]. pose proof (class_layout c Hc) as (_ & _ & Hcap & _).
  rewrite u32_id by lia.
  set (h' := mkHeader (link_prev h) (link_next h) (h_cache h) a (n - 1) (capacity h) (h_state h) (magic h)).
  apply wp_bind, wp_modify.
  set (s1 := set_object_free_count (u64 (object_free_count s + 1))
    (set_headers (<[p := h']> hs) (set_chunk_next (<[a := h_freelist h]> ch) s))). wp_state s1.
  apply HQ. constructor; try done.
  - eapply lists_ok_hlinks; [|exact Hsl]. intros k0 q Hk0 Hq. unfold s1. slab_simpl.
    rewrite (hlinks_insert hs p h h'); [|by rewrite Hhs'|done|done]. unfold hlinks. rewrite Hhs'; [done|].
    by apply (block_page_end s q 0 Hok), (Hbl k0).
  - by eapply moved_stay.
  - destruct Hpo as [_ Hnd Hobj _]. constructor.
    + exists a. unfold s1. slab_simpl. split.
      * rewrite lookup_insert_eq. cbn. unfold hcore, h'. cbn. by rewrite Ec, Em, Est, Eg.
      * split; [done|]. split; [lia|]. exists (h_freelist h). split; [apply lookup_insert_eq|].
        eapply sll_ext; [|exact Hsll]. intros b Hb'. assert (b <> a) by (intros ->; done). rewrite lookup_insert_ne by done.
        apply Hch. destruct (Hobj b Hb') as (j & Hj & ->), Hao as (i & Hi & ->).
        destruct (Z.lt_trichotomy j i) as [?|[->|?]]; [left; nia|done|right; nia].
    + by apply NoDup_cons.
    + intros b Hb'. apply elem_of_cons in Hb' as [->|Hb']; [done|by apply Hobj].
    + cbn [length]. lia.
  - intros q Hq Hqd. unfold s1. slab_simpl. rewrite lookup_insert_ne by done. by rewrite Hhs'.
  - intros x Hx. unfold s1. slab_simpl. rewrite lookup_insert_ne by lia. by apply Hch.
Qed.

(** A full slab goes to the partial list first. *)
Lemma wp_leave_full (k : M slabs unit) s1 Q :
  returned st s1 sl -> (forall s2 sl2, returned SLAB_PARTIAL s2 sl2 -> wp k Q s2) ->
  wp (h ← hdr_get p; when (h.(h_state) =? SLAB_FULL) (cache_move_full_to_partial (c + 1) p) ;; k) Q s1.
Proof.
  intros H HQ. destruct page_facts as (Hp0 & _). destruct H as [Hkc Hsl Hmv Hem Hpg Hcs Hch Hpgs Hrd].
  destruct (page_ok_header _ _ _ _ _ _ Hpg) as (h & Hh & _ & _ & _ & Est & _).
  apply wp_bind. eapply wp_hdr_get; [exact Hh|]. rewrite Est. apply wp_bind. apply wp_when; intros E.
  - apply Z.eqb_eq in E. unfold cache_move_full_to_partial. destruct (Z.eqb_spec (c + 1) 0); [unfold class_ok in Hc; lia|].
    destruct (Z.eqb_spec p 0); [lia|]. cbn [orb]. destruct (po_core _ _ _ _ _ _ Hpg) as (f & Hf & Hfl).
    eapply (wp_cache_move s1 sl c st SLAB_PARTIAL p); try done; [by apply key_partial|].
    intros kc hs sl' Hkc' Hsl' Hmv' (L1 & L2 & EL & ->) Hcs' Hcp.
    eapply (HQ _ (set_list (set_list sl (c, st) (L1 ++ L2)) (c, SLAB_PARTIAL)
      (p :: set_list sl (c, st) (L1 ++ L2) (c, SLAB_PARTIAL)))). constructor; try done.
    + intros c' Hc'. rewrite !set_list_ne; [done|rewrite E; done|done].
    + destruct Hpg as [_ Hnd Hob Hct]. constructor; [by exists f|done..].
    + intros q Hq Hqd. slab_simpl. rewrite Hcs' by done. by apply Hcs.
  - apply Z.eqb_neq in E. destruct state_not_empty as [Ep|Ep]; [|done]. rewrite Ep in *. apply (HQ s1 sl). by constructor.
Qed.

(** The slab still has objects in use. *)
Lemma freed_partial s2 sl2 :
  returned SLAB_PARTIAL s2 sl2 -> n - 1 <> 0 -> kfree_freed a s s2.
Proof.
  intros H Hn1. pose proof Hs as [Hok Hrd Hkc Hsl Hpg Hem Htg Hbl Hkd]. destruct page_facts as (_ & Hpd & _ & Hb & Ht & _).
  pose proof (po_count _ _ _ _ _ _ (rt_page _ _ _ H)) as Hct. cbn [length] in Hct.
  eapply (freed_change s s2 sl sl2 c p st SLAB_PARTIAL n (n - 1) F a (Some (c, SLAB_PARTIAL))); try done.
  - constructor; try apply H; try done; try (rewrite (rt_pages _ _ _ H); done).
    + by eapply returned_confined.
    + intros k [= <-]. split; [by apply key_partial|]. split; [by rewrite (rt_pages _ _ _ H)|].
      exists (n - 1), (a :: F). split; [apply H|]. left. split; [done|]. split; [|done]. cbn [fst]. lia.
    + intros c' Hc'. rewrite (rt_empty _ _ _ H) by done. by apply Hem.
  - left. split; [done|apply H].
  - by rewrite (rt_pages _ _ _ H).
  - intros x Hx b _ _ _ _ _. by apply (rt_chunk _ _ _ H).
Qed.

(** The slab is empty and kept. *)
Lemma freed_keep s2 sl2 s3 sl3 :
  returned SLAB_PARTIAL s2 sl2 -> n - 1 = 0 ->
  caches_ok s3.(kmem_caches) -> lists_ok s3.(kmem_caches) s3.(headers) sl3 ->
  moved sl sl3 p (Some (c, SLAB_EMPTY)) -> sl3 (c, SLAB_EMPTY) = [p] ->
  (forall c', class_ok c' -> c' <> c -> sl3 (c', SLAB_EMPTY) = sl (c', SLAB_EMPTY)) ->
  page_ok s3 c p SLAB_EMPTY 0 (a :: F) ->
  (forall q, q <> p -> (PAGE_SIZE | q) -> hcore <$> s3.(headers) !! q = hcore <$> s2.(headers) !! q) ->
  s3.(chunk_next) = s2.(chunk_next) -> s3.(pages) = s2.(pages) -> s3.(slab_ready) = s2.(slab_ready) ->
  kfree_freed a s s3.
Proof.
  intros H Hn0 Hkc' Hsl' Hmv He1 He2 Hpg' Hcs Hch Hpgs Hrd'.
  pose proof Hs as [Hok Hrd Hkc Hsl Hpg Hem Htg Hbl Hkd]. destruct page_facts as (_ & Hpd & _ & Hb & Ht & _).
  assert (Hpgs' : pages s3 = pages s) by (by rewrite Hpgs, (rt_pages _ _ _ H)).
  eapply (freed_change s s3 sl sl3 c p st SLAB_EMPTY n 0 F a (Some (c, SLAB_EMPTY))); try done.
  - constructor; try done; try (rewrite Hpgs'; done).
    + by rewrite Hrd', (rt_ready _ _ _ H).
    + destruct (returned_confined _ _ _ H) as [Hf1 Hf2]. constructor; [intros q Hq Hqd; by rewrite Hcs, Hf1|].
      intros x Hx. rewrite Hch. by apply Hf2.
    + intros k [= <-]. split; [by apply key_empty|]. split; [by rewrite Hpgs'|].
      exists 0, (a :: F). split; [done|]. left. by split_and!.
    + intros c' Hc'. destruct (decide (c' = c)) as [->|Hne]; [by rewrite He1|]. rewrite He2 by done. by apply Hem.
  - left. done.
  - by rewrite Hpgs'.
  - intros x Hx b _ _ _ _ _. rewrite Hch. by apply (rt_chunk _ _ _ H).
Qed.

(** The slab is empty and goes back to the page allocator. *)
Lemma freed_reclaim s2 sl2 s3 sl3 :
  returned SLAB_PARTIAL s2 sl2 -> n - 1 = 0 ->
  caches_ok s3.(kmem_caches) -> lists_ok s3.(kmem_caches) s3.(headers) sl3 -> moved sl sl3 p None ->
  (forall c', class_ok c' -> sl3 (c', SLAB_EMPTY) = sl (c', SLAB_EMPTY)) ->
  (forall q, q <> p -> (PAGE_SIZE | q) -> hcore <$> s3.(headers) !! q = hcore <$> s2.(headers) !! q) ->
  (forall x, x + 8 <= p \/ p + PAGE_SIZE <= x -> s3.(chunk_next) !! x = s2.(chunk_next) !! x) ->
  s3.(slab_ready) = s2.(slab_ready) -> pok s3.(pages) -> s3.(pages).(irq_on) = s.(pages).(irq_on) ->
  (forall q, tag s3.(pages) q = if decide (q = p) then PAGE_KIND_NONE else tag s.(pages) q) ->
  (forall q o, q <> p -> blk s3.(pages) q o <-> blk s.(pages) q o) ->
  kfree_freed a s s3.
Proof.
  intros H Hn0 Hkc' Hsl' Hmv He Hcs Hch Hrd' Hok' Hirq Htag Hblk.
  pose proof Hs as [Hok Hrd Hkc Hsl Hpg Hem Htg Hbl Hkd]. destruct page_facts as (_ & Hpd & _ & Hb & Ht & _).
  assert (Hall : forall b, is_obj c p b -> b = a \/ b ∈ F).
  { intros b Hbo. pose proof (rt_page _ _ _ H) as Hpg2. rewrite Hn0 in Hpg2.
    pose proof (all_free s2 c p SLAB_PARTIAL (a :: F) b Hc Hpg2 Hbo) as Hin. by apply elem_of_cons in Hin. }
  eapply (freed_change s s3 sl sl3 c p st SLAB_PARTIAL n 0 F a None); try done.
  - constructor; try done.
    + by rewrite Hrd', (rt_ready _ _ _ H).
    + destruct (returned_confined _ _ _ H) as [Hf1 Hf2]. constructor; [intros q Hq Hqd; by rewrite Hcs, Hf1|].
      intros x Hx. rewrite Hch by done. by apply Hf2.
    + intros c' Hc'. rewrite He by done. by apply Hem.
    + intros q Hq. by rewrite Htag, decide_False.
    + by rewrite Htag, decide_True.
  - right. done.
  - intros x Hx b Hbo Hbf Hne _ _. destruct (Hall b Hbo); done.
Qed.

(** Removing the empty slab from the partial list. *)
Lemma wp_unlist (k : M slabs unit) s2 sl2 Q :
  returned SLAB_PARTIAL s2 sl2 ->
  (forall kc hs sl3, caches_ok kc -> lists_ok kc hs sl3 -> moved sl sl3 p None ->
     (forall c', class_ok c' -> sl3 (c', SLAB_EMPTY) = sl (c', SLAB_EMPTY)) ->
     core_same s2.(headers) hs -> wp k Q (with_lists kc hs s2)) ->
  wp (cache_remove_slab p ;; k) Q s2.
Proof.
  intros H HQ. pose proof (key_partial c Hc) as Hkp.
  assert (Hp2 : p ∈ sl2 (c, SLAB_PARTIAL)) by (apply (rt_moved _ _ _ H); [done|]; by right).
  pose proof Hp2 as Hsplit. apply list_elem_of_split in Hsplit as (L1 & L2 & HL).
  destruct (page_ok_header _ _ _ _ _ _ (rt_page _ _ _ H)) as (h & Hh & Ec & _ & _ & Est & _).
  apply wp_bind. eapply (wp_cache_remove s2 sl2); [apply H|apply H|exact Hkp|exact HL|exact Hh|done|done|].
  intros kc hs Hkc3 Hsl3 Hcs3. apply (HQ kc hs (set_list sl2 (c, SLAB_PARTIAL) (L1 ++ L2))); try done.
  - eapply moved_trans; [apply H|]. eapply moved_remove; [apply (rt_lists _ _ _ H)|done|done].
  - intros c' Hc'. rewrite set_list_ne by done. by apply (rt_empty _ _ _ H).
Qed.

(** The return of a page to the page allocator. *)
Lemma wp_reclaim s2 sl2 kc hs sl3 Q items :
  returned SLAB_PARTIAL s2 sl2 -> n - 1 = 0 -> caches_ok kc -> lists_ok kc hs sl3 -> moved sl sl3 p None ->
  (forall c', class_ok c' -> sl3 (c', SLAB_EMPTY) = sl (c', SLAB_EMPTY)) -> core_same s2.(headers) hs ->
  (forall s', kfree_freed a s s' -> Q tt s') ->
  wp (zoom (page_set_kind p PAGE_KIND_NONE) ;;
      hdr_upd p (set_magic 0) ;; hdr_upd p (set_hcache 0) ;; hdr_upd p (set_hfree 0) ;;
      poison_memory p PAGE_SIZE POISON_RECLAIM_PAGE ;; slog_if_enabled items ;;
      modify (fun s => set_slab_reclaim_count (u64 (s.(slab_reclaim_count) + 1)) s) ;;
      zoom (p_free p)) Q (with_lists kc hs s2).
Proof.
  intros H Hn0 Hkc3 Hsl3 Hmv He Hcs HQ. destruct page_facts as (Hp0 & Hpd & Hpe & Hb & Ht & _).
  pose proof (sv_pages _ _ _ _ _ _ Hs) as Hok. pose proof (rt_pages _ _ _ H) as Hpgs.
  destruct (page_ok_header _ _ _ _ _ _ (rt_page _ _ _ H)) as (h2 & Hh2 & _).
  pose proof (Hcs p) as Hcp. rewrite Hh2 in Hcp. destruct (hs !! p) as [h|] eqn:Hh; [|done]. clear Hcp.
  apply wp_bind, wp_zoom. cbn [view put slabs_pages]. slab_simpl. rewrite Hpgs.
  eapply (pl_set_kind (PageLaws := HP)); [exact Hok|exact Hb|]. intros m1 Hok1 Hi1 Hb1 Ht1.
  apply wp_bind. eapply wp_hdr_upd; [slab_simpl; exact Hh|]. slab_simpl.
  apply wp_bind. eapply wp_hdr_upd; [slab_simpl; apply lookup_insert_eq|]. slab_simpl.
  apply wp_bind. eapply wp_hdr_upd; [slab_simpl; apply lookup_insert_eq|]. slab_simpl. rewrite !insert_insert_eq.
  match goal with |- context [<[p := ?x]> hs] => set (h' := x) end.
  apply wp_bind. apply wp_poison; [lia|]. slab_simpl. intros ch hs' Hch Hhs.
  apply wp_bind. apply wp_slog_if. intros s4 Hsh Hirq. apply wp_bind, wp_modify.
  apply wp_zoom. cbn [view put slabs_pages]. slab_simpl.
  assert (Hpok4 : pok (pages s4)) by (apply (sh_pok _ _ Hsh); done).
  assert (Hb4 : blk (pages s4) p 0) by (apply (sh_blk _ _ Hsh); slab_simpl; by apply Hb1).
  eapply (pl_free (PageLaws := HP)); [exact Hpok4|exact Hb4|]. intros m2 Hok2 Hi2 Hb2 Ht2.
  pose proof (sh_caches _ _ Hsh) as Ecaches. pose proof (sh_headers _ _ Hsh) as Ehdr. pose proof (sh_chunk _ _ Hsh) as Echunk.
  pose proof (sh_ready _ _ Hsh) as Eready. cbn in Ecaches, Ehdr, Echunk, Eready.
  assert (Hal : forall q, q <> p -> (PAGE_SIZE | q) -> hs' !! q = hs !! q).
  { intros q Hq [x ->]. rewrite Hhs; [by rewrite lookup_insert_ne|]. destruct Hpd as [y Hy].
    unfold SIZEOF_SLAB_HEADER, PAGE_SIZE in *. assert (x <> y) by (intros ->; lia). lia. }
  apply HQ. eapply (freed_reclaim s2 sl2 _ sl3); try done; slab_simpl.
  - by rewrite Ecaches.
  - rewrite Ecaches, Ehdr. eapply lists_ok_hlinks; [|exact Hsl3]. intros k0 q Hk0 Hq. unfold hlinks.
    apply Hmv in Hq as [[Hne Hq]|[_ ?]]; [|done|done].
    rewrite Hal; [done|done|]. by apply (block_page_end s q 0 Hok), (sv_block _ _ _ _ _ _ Hs k0).
  - intros q Hq Hqd. rewrite Ehdr, Hal by done. apply Hcs.
  - intros x Hx. rewrite Echunk. by apply Hch.
  - rewrite Hi2, Hirq. slab_simpl. by rewrite Hi1.
  - intros q. rewrite Ht2, (sh_tag _ _ Hsh). slab_simpl. apply Ht1.
  - intros q o Hq. rewrite Hb2, (sh_blk _ _ Hsh). slab_simpl. rewrite Hb1. naive_solver.
Qed.

Lemma wp_kfree_object Q :
  (forall s', kfree_freed a s s' -> Q tt s') -> wp (kfree_object p (c + 1) a) Q s.
Proof.
  intros HQ. pose proof Hs as [Hok Hrd Hkc Hsl Hpg Hem Htg Hbl Hkd]. destruct page_facts as (Hp0 & Hpd & _).
  destruct (Hkc c Hc) as (k & Ek & Esz). unfold kfree_object. apply wp_bind. eapply wp_cache_get; [exact Ek|]. rewrite Esz.
  apply wp_return_object. intros s1 H1. apply (wp_leave_full _ s1); [done|]. intros s2 sl2 H2.
  destruct (page_ok_header _ _ _ _ _ _ (rt_page _ _ _ H2)) as (h & Hh & Ec & En & Em & Est & Eg & _).
  apply wp_bind. eapply wp_hdr_get; [exact Hh|]. rewrite En. destruct (Z.eqb_spec (n - 1) 0) as [E0|E0].
  - apply (wp_unlist _ s2 sl2); [done|]. intros kc hs sl3 Hkc3 Hsl3 Hmv He Hcs.
    set (s3 := with_lists kc hs s2).
    destruct (list_head_elem s3 sl3 c SLAB_EMPTY Hkc3 Hsl3 (key_empty c Hc)) as (k3 & Ek3 & _ & Hhd).
    apply wp_bind. eapply wp_cache_get; [exact Ek3|]. change (list_head SLAB_EMPTY k3) with (slabs_empty k3) in Hhd.
    destruct (Z.eqb_spec (slabs_empty k3) 0) as [Eh|Eh].
    + destruct Hhd as [[_ Hnil]|[? _]]; [|done].
      pose proof (Hcs p) as Hcp. rewrite Hh in Hcp. destruct (hs !! p) as [h3|] eqn:Hh3; [|done]. cbn in Hcp.
      injection Hcp as C1 C2 C3 C4 C5 C6.
      apply wp_bind. eapply (wp_cache_add s3 sl3 Hkc3 Hsl3 c SLAB_EMPTY p h3); [by apply key_empty| |lia|exact Hh3|].
      { intros k0 Hk0 Hin. apply Hmv in Hin as [[? _]|[_ ?]]; done. }
      intros kc4 hs4 Hkc4 Hsl4 Hcs4 Hcp4. apply wp_slog_if. intros s5 Hsh Hirq.
      apply HQ. eapply kfree_freed_same; [|exact Hsh|exact Hirq].
      eapply (freed_keep s2 sl2 _ (set_list sl3 (c, SLAB_EMPTY) (p :: sl3 (c, SLAB_EMPTY)))); try done.
      * by apply moved_add; [|apply key_empty].
      * by rewrite set_list_eq, Hnil.
      * intros c' Hc' Hne. rewrite set_list_ne by congruence. by apply He.
      * destruct (rt_page _ _ _ H2) as [(f & Hf & Hfl) Hnd Hob Hct]. rewrite E0 in Hct. constructor; [|done..].
        exists f. split; [|done]. slab_simpl. rewrite Hcp4. rewrite Hh in Hf. injection Hf as D1 D2 D3 D4 D5 D6.
        by rewrite C2, C3, C4, C6, D2, En, E0, D4, D6.
      * intros q Hq Hqd. slab_simpl. rewrite Hcs4 by done. apply Hcs.
    + eapply (wp_reclaim s2 sl2 kc hs sl3); done.
  - apply wp_bind. eapply wp_hdr_upd; [exact Hh|]. apply wp_slog_if. intros s5 Hsh Hirq.
    apply HQ. eapply kfree_freed_same; [|exact Hsh|exact Hirq].
    assert (Eid : set_hstate SLAB_PARTIAL h = h) by (destruct h; cbn in *; by subst). rewrite Eid.
    rewrite insert_id by done. replace (set_headers (headers s2) s2) with s2 by (by destruct s2).
    by eapply freed_partial.
Qed.

End object.

(** ** The checks *)

Lemma is_obj_check c p a :
  class_ok c -> is_obj c p a <->
  p + coff c <= a < p + coff c + csize c * ccap c /\ (a - (p + coff c)) mod csize c = 0.
Proof.
  intros Hc. pose proof (class_layout c Hc) as (Hsz & _). split.
  - intros (k & Hk & ->). split; [nia|].
    replace (p + coff c + k * csize c - (p + coff c)) with (k * csize c) by lia. by apply Z.mod_mul; lia.
  - intros [Hr Hm]. apply Z.mod_divide in Hm as [k Hk]; [|lia]. exists k. split; [nia|lia].
Qed.

Lemma wp_kfree_slab s sl p a Q :
  slab_inv 0 s sl -> tag s.(pages) p = PAGE_KIND_SLAB -> 0 <= a < 2 ^ 64 -> p = align_down_u64 a PAGE_SIZE ->
  (forall s', kfree_freed a s s' -> Q tt s') -> (forall s', kfree_refused a s s' -> Q tt s') ->
  wp (kfree_slab p a) Q s.
Proof.
  intros Hs Ht Ha Ep HF HR. pose proof Hs as [Hok Hrd Hkc Hsl Hpg Hem Htg Hbl Hkd].
  apply Htg in Ht as Hin. destruct Hin as ([c st] & Hk & Hp). pose proof (proj1 Hk) as Hc. cbn [fst] in Hc.
  destruct (Hpg c st p Hk Hp) as (n & F & Hpo & _). pose proof (Hbl _ p Hk Hp) as Hb.
  destruct (pl_shape (PageLaws := HP) _ _ _ Hok Hb) as (Hp0 & Hpd & _ & Hpe). change (2 ^ 0) with 1 in Hpe.
  pose proof (class_layout c Hc) as (Hsz & Hhd & Hcap & Hfit & _). unfold SIZEOF_SLAB_HEADER in Hhd.
  destruct (page_ok_header _ _ _ _ _ _ Hpo) as (h & Hh & Ec & En & Em & Est & Eg & Hsll).
  (* an allocated object at [a] is an object of this page that is not free *)
  assert (Hno : ~ is_obj c p a \/ a ∈ F -> forall z, ~ allocated s a z).
  { intros Hx z Hz. destruct (allocated_page s sl a z Hs Ha Hz) as (_ & [(c' & Ho & _)|(E & Hl & _)]); rewrite <- Ep in *.
    - destruct Ho as (Hc' & _ & Hio & st' & n' & F' & Hpo' & Hnf).
      destruct (page_ok_det _ _ _ _ _ _ _ _ _ _ Hpo Hpo') as (<- & _ & _ & <-). tauto.
    - rewrite <- E in Hl. congruence. }
  assert (Herr : ~ is_obj c p a \/ a ∈ F -> forall items, wp (kfree_error items) Q s).
  { intros Hx items. apply wp_kfree_error. intros s' Hsh Hirq. apply HR. split; [by apply Hno|done]. }
  unfold kfree_slab. apply wp_bind. eapply wp_hdr_get; [exact Hh|]. rewrite Eg, Z.eqb_refl, Ec, Em, En. cbn [negb].
  destruct (Hkc c Hc) as (k & Ek & Esz). destruct (Z.eqb_spec (c + 1) 0); [unfold class_ok in Hc; lia|].
  apply wp_bind. apply wp_bind. eapply wp_cache_get; [exact Ek|]. apply wp_ret. rewrite Esz.
  destruct (Z.eqb_spec (csize c) 0); [lia|]. apply wp_bind. apply wp_object_start; [done|done|lia|done|lia|].
  assert (0 <= csize c * ccap c <= PAGE_SIZE) by nia. unfold PAGE_SIZE in *.
  rewrite (u64_id (csize c * ccap c)), u64_id by lia. pose proof (is_obj_check c p a Hc) as Hchk.
  destruct (Z.ltb_spec a (p + coff c)); cbn [orb]; [apply Herr; left; rewrite Hchk; lia|].
  destruct (Z.leb_spec (p + coff c + csize c * ccap c) a); [apply Herr; left; rewrite Hchk; lia|].
  rewrite u64_id by lia. destruct (Z.eqb_spec ((a - (p + coff c)) mod csize c) 0) as [Emod|Emod]; cbn [negb]; cycle 1.
  { apply Herr. left. rewrite Hchk. tauto. }
  assert (Hao : is_obj c p a) by (apply Hchk; split; [lia|done]).
  destruct (Z.eqb_spec n 0) as [->|Hn0]; [apply Herr; right; by eapply all_free|].
  apply wp_bind. eapply (wp_freelist_contains s c p st n F); [done|done|lia|lia| |].
  - intros Hin. apply Herr. by right.
  - intros Hnin. pose proof (po_count _ _ _ _ _ _ Hpo). eapply (wp_kfree_object s sl c p st n F); try done. lia.
Qed.

Lemma wp_kfree_large s sl p a info Q :
  slab_inv 0 s sl -> tag s.(pages) p = PAGE_KIND_LARGE -> 0 <= a < 2 ^ 64 -> p = align_down_u64 a PAGE_SIZE ->
  (pi_allocated_head info = true <-> exists o, blk s.(pages) p o) ->
  (forall s', kfree_freed a s s' -> Q tt s') -> (forall s', kfree_refused a s s' -> Q tt s') ->
  wp (kfree_large p a info) Q s.
Proof.
  intros Hs Ht Ha Ep Hinfo HF HR. pose proof Hs as [Hok Hrd Hkc Hsl Hpg Hem Htg Hbl Hkd].
  destruct (align_down_bounds a Ha) as (Hpb & Hpd & Hpa). rewrite <- Ep in *.
  unfold kfree_large. change (PAGE_SIZE - 1) with (2 ^ 12 - 1). rewrite land_pow2_mask by lia.
  destruct (Z.eqb_spec (a mod 2 ^ 12) 0) as [E|E]; cbn [negb]; cycle 1.
  { apply wp_kfree_error. intros s' Hsh Hirq. apply HR. split; [|done]. intros z Hz.
    destruct (allocated_page s sl a z Hs Ha Hz) as (_ & [(c' & (_ & Ht' & _) & _)|(E' & _ & _)]); rewrite <- Ep in *; [congruence|].
    apply E. rewrite <- E'. by apply divide_mod_0. }
  assert (a = p) as ->.
  { change (2 ^ 12) with PAGE_SIZE in E. apply divide_mod_0 in E; [|done]. exact (divide_between PAGE_SIZE p a ltac:(done) Hpd E Hpa). }
  destruct (Hkd p) as [o Ho]; [by rewrite Ht|]. rewrite (proj2 Hinfo) by eauto. cbn [negb].
  apply wp_bind, wp_zoom. eapply (pl_set_kind (PageLaws := HP)); [exact Hok|exact Ho|]. intros m1 Hok1 Hi1 Hb1 Ht1.
  cbn [view put slabs_pages] in *. apply wp_bind. apply wp_slog_if. intros s2 Hsh Hirq.
  apply wp_zoom. cbn [view put slabs_pages].
  assert (Ho2 : blk (pages s2) p o) by (apply (sh_blk _ _ Hsh); slab_simpl; by apply Hb1).
  assert (Hok2 : pok (pages s2)) by (apply (sh_pok _ _ Hsh); done).
  eapply (pl_free (PageLaws := HP)); [exact Hok2|exact Ho2|]. intros m3 Hok3 Hi3 Hb3 Ht3. apply HF.
  assert (Htag : forall q, tag m3 q = if decide (q = p) then PAGE_KIND_NONE else tag (pages s) q).
  { intros q. rewrite Ht3, (sh_tag _ _ Hsh). slab_simpl. apply Ht1. }
  assert (Hblk : forall b q, blk m3 b q <-> blk (pages s) b q /\ b <> p).
  { intros b q. rewrite Hb3, (sh_blk _ _ Hsh). slab_simpl. by rewrite Hb1. }
  assert (Htslab : forall q, tag m3 q = PAGE_KIND_SLAB <-> tag (pages s) q = PAGE_KIND_SLAB).
  { intros q. rewrite Htag. case_decide; [subst q; by rewrite Ht|done]. }
  assert (Hsh3 : same_heap (set_pages m3 s) (set_pages m3 s2)).
  { constructor; try done; apply Hsh. }
  assert (Hset : forall b y, allocated (set_pages m3 s2) b y <-> allocated s b y /\ b <> p).
  { intros b y. rewrite (allocated_same _ _ _ _ Hsh3). unfold allocated_gen, large_obj.
    setoid_rewrite (fun a' c q => slab_obj_pages s m3 a' c q (Htslab q)). slab_simpl. setoid_rewrite Htag. setoid_rewrite Hblk. split.
    - intros [(c & q & Hso & ->)|(q & [Htq [Hbq Hne]] & ->)].
      + split; [left; by exists c, q|]. intros ->. destruct (slab_obj_in_page _ _ _ _ _ _ Hs Hso) as (Hbq & Hq1 & Hq2).
        destruct Hso as (Hc & Hsl' & _). pose proof (class_layout c Hc) as (Hsz & Hhd & _). unfold SIZEOF_SLAB_HEADER in Hhd.
        destruct (pl_disjoint (PageLaws := HP) _ _ _ _ _ p Hok Hbq Ho) as [-> _]; [change (2 ^ 0) with 1; lia| |congruence].
        destruct (block_page_end s p o Hok Ho). unfold PAGE_SIZE in *. lia.
      + rewrite decide_False in Htq by done. split; [right; by exists q|done].
    - intros [[?|(q & [Htq Hbq] & ->)] Hne]; [by left|right]. exists q. by rewrite decide_False. }
  split.
  { exists (2 ^ o * PAGE_SIZE). right. by exists o. }
  split.
  { exists sl. eapply (slab_inv_same _ _ _ _ Hsh3). apply slab_inv_pages; try done.
    - intros k q Hk Hq. apply Hblk. split; [by eapply Hbl|]. intros ->.
      assert (tag (pages s) p = PAGE_KIND_SLAB) by (apply Htg; eauto). congruence.
    - intros q Hq. rewrite Htag in Hq. case_decide; [done|]. destruct (Hkd q Hq) as [r Hr]. exists r. by apply Hblk. }
  split; [done|]. split.
  - slab_simpl. rewrite Hi3, Hirq. slab_simpl. done.
  - intros. slab_simpl. by rewrite (sh_chunk _ _ Hsh).
Qed.

(** ** [kfree] *)

Lemma wp_kfree_locked s sl a Q :
  slab_inv 0 s sl -> 0 <= a < 2 ^ 64 ->
  (forall s', kfree_freed a s s' -> Q tt s') -> (forall s', kfree_refused a s s' -> Q tt s') ->
  wp (kfree_locked a) Q s.
Proof.
  intros Hs Ha HF HR. unfold kfree_locked. wp_steps. rewrite (sv_ready _ _ _ _ _ _ Hs). cbn [negb orb].
  destruct (Z.eqb_spec a 0) as [->|Ha0].
  { apply wp_ret. apply HR. split; [|by split; [constructor|]]. intros z Hz.
    by destruct (allocated_page s sl 0 z Hs Ha Hz) as (? & _). }
  destruct (align_down_bounds a Ha) as (Hpb & Hpd & Hpa). apply wp_bind, wp_zoom.
  apply (pl_query (PageLaws := HP)); [apply Hs|done| |].
  - intros Ht Hnb. rewrite zoom_id. apply wp_kfree_error. intros s' Hsh Hirq. apply HR. split; [|done]. intros z Hz.
    destruct (allocated_page s sl a z Hs Ha Hz) as (_ & [(c' & (_ & Ht' & _) & _)|(E & Ht' & _)]);
      [|rewrite <- E in Ht']; cbn [view slabs_pages] in Ht; congruence.
  - intros info Hik Hinfo. rewrite zoom_id. cbn [view slabs_pages] in *. rewrite Hik.
    destruct (tag (pages s) (align_down_u64 a PAGE_SIZE)) eqn:Ht.
    + apply wp_kfree_error. intros s' Hsh Hirq. apply HR. split; [|done]. intros z Hz.
      destruct (allocated_page s sl a z Hs Ha Hz) as (_ & [(c' & (_ & Ht' & _) & _)|(E & Ht' & _)]);
        [|rewrite <- E in Ht']; congruence.
    + by eapply (wp_kfree_slab s sl).
    + by eapply (wp_kfree_large s sl).
Qed.

Lemma wp_kfree s sl a Q :
  slab_inv 0 s sl -> 0 <= a < 2 ^ 64 ->
  (forall s', kfree_freed a s s' -> Q tt s') -> (forall s', kfree_refused a s s' -> Q tt s') ->
  wp (kfree a) Q s.
Proof.
  intros Hs Ha HF HR. unfold kfree, local_irq_save, local_irq_restore.
  apply wp_bind, wp_zoom. wp_steps. cbn [view put slabs_pages]. pose proof (same_heap_irq s false) as Hh.
  assert (Hs1 : slab_inv 0 (set_pages (set_irq_on false (pages s)) s) sl) by (eapply slab_inv_same; [exact Hh|done]).
  apply (wp_kfree_locked _ sl); [done|done| |].
  - intros s1 (Hz & (sl' & Hs') & Hset & Hi & Hd). apply wp_zoom. wp_steps. cbn [view put slabs_pages].
    change (irq_on (pages s1) = false) in Hi. rewrite Hi. cbn [orb]. apply HF.
    pose proof (same_heap_irq s1 (irq_on (pages s))) as Hh1.
    split; [destruct Hz as [z Hz]; exists z; by rewrite <- (allocated_same _ _ _ _ Hh)|].
    split; [exists sl'; by eapply slab_inv_same|].
    split; [intros b y; rewrite (allocated_same _ _ _ _ Hh1), Hset; by rewrite (allocated_same _ _ _ _ Hh)|].
    split; [done|]. intros b y x Hb. apply (Hd b y x). by rewrite (allocated_same _ _ _ _ Hh).
  - intros s1 (Hz & Hsh & Hi). apply wp_zoom. wp_steps. cbn [view put slabs_pages].
    change (irq_on (pages s1) = false) in Hi. rewrite Hi. cbn [orb]. apply HR.
    pose proof (same_heap_irq s1 (irq_on (pages s))) as Hh1.
    split; [intros z; rewrite <- (allocated_same _ _ _ _ Hh); apply Hz|]. split; [|done].
    eapply same_heap_trans; [exact Hh|]. by eapply same_heap_trans.
Qed.

End free.
