(* ===== verification/SlabHeap.v ===== *)
(** * Histories of the byte allocator, its self-check and its start

    Sequences of [kmalloc], [kfree] and stores by the owners of objects; the
    list walks of the self-check; [slab_init]. *)

From S2P Require Import Prelude Lists Memory BuddyInv BuddySpec PageIface Slab SlabInv SlabAlloc SlabFree.

Open Scope Z_scope.

(** What the owner of an object or another client may do to the heap. *)
Inductive heap_op :=
| op_kmalloc (size result : Z)
| op_kfree (ptr : Z)
| op_store (addr value : Z).

Section heap.
Context {pok : mem -> Prop} {blk : mem -> Z -> Z -> Prop} {tag : mem -> Z -> page_kind}.
Context `{HP : !PageLaws pok blk tag}.
Abbreviation slab_inv := (slab_inv_gen pok blk tag).
Abbreviation allocated := (allocated_gen blk tag).
Implicit Types (s : slabs) (sl : Z * Z -> list Z).

(** ** Stores into allocated objects *)

Lemma slab_inv_store s sl b z x v :
  slab_inv 0 s sl -> allocated s b z -> b <= x < b + z ->
  slab_inv 0 (set_chunk_next (<[x := v]> s.(chunk_next)) s) sl /\
  forall a y, allocated (set_chunk_next (<[x := v]> s.(chunk_next)) s) a y <-> allocated s a y.
Proof.
  intros Hs Ha Hx. set (s' := set_chunk_next _ s).
  assert (Hfr : forall c p st n F, class_ok c -> tag (pages s) p = PAGE_KIND_SLAB -> page_ok s c p st n F -> page_ok s' c p st n F).
  { intros c p st n F Hc Ht Hp. eapply page_ok_frame; [exact Hp|done|]. intros f Hf. unfold s'. slab_simpl.
    rewrite lookup_insert_ne; [done|]. intros ->. by eapply (free_not_allocated _ _ _ _ _ _ _ _ _ _ _ Hs Hc Ht Hp Hf Ha). }
  assert (Hpg : forall c st p, key_ok (c, st) -> p ∈ sl (c, st) ->
    class_ok c /\ tag (pages s) p = PAGE_KIND_SLAB) by (intros c st p Hk Hin; split; [apply Hk|apply (sv_tags _ _ _ _ _ _ Hs); eauto]).
  split.
  - pose proof Hs as [H1 H2 H3 H4 H5 H6 H7 H8 H9]. constructor; try done.
    intros c st p Hk Hin. destruct (H5 c st p Hk Hin) as (n & F & Hp & Hc). exists n, F. split; [|done].
    destruct (Hpg c st p Hk Hin). by apply Hfr.
  - assert (Ho : forall a c p, slab_obj tag s' a c p <-> slab_obj tag s a c p).
    { intros a c p. split.
      - intros (Hc & Ht & Hi & st & n & F & Hp & Hn). split_and!; try done.
        change (tag (pages s) p = PAGE_KIND_SLAB) in Ht. apply (sv_tags _ _ _ _ _ _ Hs) in Ht as Hk.
        destruct Hk as ([c0 st0] & Hk & Hin). destruct (sv_slabs _ _ _ _ _ _ Hs c0 st0 p Hk Hin) as (n0 & F0 & Hp0 & _).
        pose proof (Hfr _ _ _ _ _ (proj1 Hk) Ht Hp0) as Hp0'.
        destruct (page_ok_det _ _ _ _ _ _ _ _ _ _ Hp Hp0') as (E1 & E2 & E3 & E4). rewrite E1, E4 in *. by exists st0, n0, F0.
      - intros (Hc & Ht & Hi & st & n & F & Hp & Hn). split_and!; try done. exists st, n, F. split; [by apply Hfr|done]. }
    intros a y. unfold allocated_gen. split; (intros [(c & p & H & ->)|H]; [left; exists c, p; split; [by apply Ho|done]|by right]).
Qed.

(** ** Histories *)

(** One operation; a store is made by the owner of the word. *)
Definition run_heap_op (op : heap_op) (s s' : slabs) : Prop :=
  match op with
  | op_kmalloc size a => 0 <= size < 2 ^ 64 /\ kmalloc size s = Some (a, s')
  | op_kfree a => 0 <= a < 2 ^ 64 /\ kfree a s = Some (tt, s')
  | op_store x v => (8 | x) /\ (exists b z, allocated s b z /\ b <= x /\ x + 8 <= b + z) /\
                    s' = set_chunk_next (<[x := v]> s.(chunk_next)) s
  end.

Inductive heap_run : list heap_op -> slabs -> slabs -> Prop :=
| run_nil s : heap_run [] s s
| run_cons op ops s s1 s2 : run_heap_op op s s1 -> heap_run ops s1 s2 -> heap_run (op :: ops) s s2.

(** The operation concerns the object at [b] of [z] bytes. *)
Definition touches (b z : Z) (op : heap_op) : Prop :=
  match op with
  | op_kmalloc _ _ => False
  | op_kfree a => a = b
  | op_store x _ => b <= x < b + z
  end.

Lemma heap_op_ok op s s' :
  (exists sl, slab_inv 0 s sl) -> run_heap_op op s s' -> exists sl', slab_inv 0 s' sl'.
Proof.
  intros [sl Hs] Hr. destruct op as [size a|a|x v]; cbn in Hr.
  - destruct Hr as [Hz E]. refine (run_wp _ (fun a s' => exists sl', slab_inv 0 s' sl') s a s' _ E).
    apply (wp_kmalloc s sl); [done|done|eauto|]. intros b s1 (_ & _ & z & _ & H & _). done.
  - destruct Hr as [Hz E]. refine (run_wp _ (fun _ s' => exists sl', slab_inv 0 s' sl') s tt s' _ E).
    apply (wp_kfree s sl); [done|done|..].
    + intros s1 (_ & H & _). done.
    + intros s1 (_ & H & _). exists sl. by eapply slab_inv_same.
  - destruct Hr as (_ & (b & z & Ha & H1 & H2) & ->). exists sl. eapply slab_inv_store; [done|exact Ha|lia].
Qed.

Lemma heap_op_keeps op s s' b z :
  (exists sl, slab_inv 0 s sl) -> run_heap_op op s s' -> allocated s b z -> ~ touches b z op ->
  allocated s' b z /\ forall x, (8 | x) -> b <= x -> x + 8 <= b + z -> s'.(chunk_next) !! x = s.(chunk_next) !! x.
Proof.
  intros [sl Hs] Hr Hb Hnt. destruct op as [size a|a|x v]; cbn in Hr, Hnt.
  - destruct Hr as [Hz E].
    refine (run_wp _ (fun a s' => allocated s' b z /\ forall x, (8 | x) -> b <= x -> x + 8 <= b + z -> s'.(chunk_next) !! x = s.(chunk_next) !! x) s a s' _ E).
    apply (wp_kmalloc s sl); [done|done|done|]. intros c s1 (_ & _ & y & _ & _ & H & _ & [_ Hd]).
    split; [apply H; by left|]. intros x _ H1 H2. by eapply Hd.
  - destruct Hr as [Hz E].
    refine (run_wp _ (fun _ s' => allocated s' b z /\ forall x, (8 | x) -> b <= x -> x + 8 <= b + z -> s'.(chunk_next) !! x = s.(chunk_next) !! x) s tt s' _ E).
    apply (wp_kfree s sl); [done|done|..].
    + intros s1 (_ & _ & H & _ & Hd). split; [apply H; split; [done|by intros ->]|].
      intros x _ H1 H2. eapply Hd; [exact Hb|by intros ->|done|done].
    + intros s1 (_ & H & _). split; [by rewrite (allocated_same _ _ _ _ H)|]. intros. by rewrite (sh_chunk _ _ H).
  - destruct Hr as (Hx8 & (b' & z' & Ha & H1 & H2) & ->). destruct (slab_inv_store s sl b' z' x v Hs Ha ltac:(lia)) as [_ H].
    split; [by apply H|]. intros y Hy H3 H4. slab_simpl. rewrite lookup_insert_ne; [done|]. intros ->. apply Hnt. lia.
Qed.

Lemma heap_run_ok ops s s' :
  heap_run ops s s' -> (exists sl, slab_inv 0 s sl) -> exists sl', slab_inv 0 s' sl'.
Proof. induction 1; [done|]. intros. apply IHheap_run. by eapply heap_op_ok. Qed.

Lemma heap_run_keeps ops s s' b z :
  heap_run ops s s' -> (exists sl, slab_inv 0 s sl) -> allocated s b z -> Forall (fun op => ~ touches b z op) ops ->
  allocated s' b z /\ forall x, (8 | x) -> b <= x -> x + 8 <= b + z -> s'.(chunk_next) !! x = s.(chunk_next) !! x.
Proof.
  induction 1 as [|op ops s s1 s2 Hop Hrun IH]; intros Hs Hb Hall; [done|].
  apply Forall_cons in Hall as [Hop1 Hall]. destruct (heap_op_keeps _ _ _ _ _ Hs Hop Hb Hop1) as [Hb1 Hd1].
  destruct (IH (heap_op_ok _ _ _ Hs Hop) Hb1 Hall) as [Hb2 Hd2]. split; [done|]. intros x Hx8 H1 H2. by rewrite Hd2, Hd1.
Qed.

(** ** The self-check *)

(** A list of slabs is no longer than the header map. *)
Lemma list_fits s sl k : lists_ok s.(kmem_caches) s.(headers) sl -> key_ok k -> (length (sl k) <= size s.(headers))%nat.
Proof.
  intros Hl Hk. pose proof (ds_nodup Hl k Hk) as Hnd.
  rewrite <- (size_dom (headers s)), <- (size_list_to_set (C := gset Z) (sl k)) by done. apply subseteq_size.
  intros p Hp%elem_of_list_to_set. destruct (ds_heads Hl _ Hk) as (h & _ & Hd).
  destruct (dll_elem _ _ _ _ _ _ Hd Hp) as [l E]. unfold hlinks in E. apply elem_of_dom.
  destruct (headers s !! p); [eauto|done].
Qed.

(** A slab of the right list passes the four checks. *)
Lemma wp_check_step s sl c st idx name p nx Q :
  slab_inv 0 s sl -> key_ok (c, st) -> p ∈ sl (c, st) -> p <> 0 -> (exists pr, hlinks s.(headers) p = Some (pr, nx)) ->
  Q (inl (1, nx)) s -> wp (slab_check_step idx name st (1, p)) Q s.
Proof.
  intros Hs Hk Hin Hp0 [pr Hlk] HQ. unfold slab_check_step. destruct (Z.eqb_spec p 0); [done|].
  unfold hlinks in Hlk. destruct (headers s !! p) as [h|] eqn:Eh; [|done]. injection Hlk as _ Hnx.
  apply wp_bind. eapply wp_hdr_get; [exact Eh|]. cbv zeta.
  destruct (sv_slabs _ _ _ _ _ _ Hs c st p Hk Hin) as (m & F & Hp & Hcnt).
  destruct (po_core _ _ _ _ _ _ Hp) as (f & Hcore & Hsll). rewrite Eh in Hcore. injection Hcore as E1 E2 E3 E4 E5 E6.
  destruct Hcnt as [(C1 & C2 & C3)|(E & _)]; [|done]. rewrite E5, Z.eqb_refl. cbn [negb]. wp_steps.
  assert ((st =? SLAB_PARTIAL) && (h_freelist h =? 0) = false) as ->.
  { destruct (Z.eqb_spec st SLAB_PARTIAL) as [->|]; [|done]. apply Z.eqb_neq. intros E0. rewrite E0 in E2. subst f.
    destruct F as [|a F]; [|by destruct Hsll as (? & ? & _)]. specialize (C2 eq_refl).
    pose proof (po_count _ _ _ _ _ _ Hp) as [_ Hc2]. cbn in Hc2. lia. }
  wp_steps.
  assert ((st =? SLAB_FULL) && negb (inuse h =? capacity h) = false) as ->.
  { destruct (Z.eqb_spec st SLAB_FULL) as [->|]; [|done]. rewrite E3, E4, C3 by done. by rewrite Z.eqb_refl. }
  wp_steps.
  assert ((st =? SLAB_EMPTY) && negb (inuse h =? 0) = false) as ->.
  { destruct (Z.eqb_spec st SLAB_EMPTY) as [->|]; [|done]. by rewrite E3, C1 by done. }
  wp_steps. by rewrite Hnx.
Qed.

(** A list of the right slabs passes the walk, whose fuel is enough. *)
Lemma wp_check_list s sl c st idx name h Q :
  slab_inv 0 s sl -> key_ok (c, st) -> heads s.(kmem_caches) (c, st) = Some h ->
  Q 1 s -> wp (slab_check_list_invariants idx name h st) Q s.
Proof.
  intros Hs Hk Hh HQ. pose proof (sv_lists _ _ _ _ _ _ Hs) as Hl. pose proof (list_fits s sl _ Hl Hk) as Hlen.
  destruct (ds_heads Hl _ Hk) as (h' & Eh & Hd). rewrite Hh in Eh. injection Eh as <-.
  unfold slab_check_list_invariants. wp_steps. apply PeanoNat.Nat.lt_succ_r in Hlen.
  assert (Hsub : forall p, p ∈ sl (c, st) -> p ∈ sl (c, st)) by done.
  revert Hd Hlen Hsub. generalize (sl (c, st)) at 1 2 3 as L. generalize (S (size (headers s))) as fuel. generalize 0 at 2 as pr. 
  clear Hh. intros pr fuel L. revert pr fuel h. induction L as [|p L IH]; intros pr [|fuel] h Hd Hf Hsub; cbn in Hf; try lia; cbn [loop].
  - cbn in Hd. subst h. apply wp_bind. unfold slab_check_step. cbn [Z.eqb]. by wp_steps.
  - destruct Hd as (-> & Hp0 & nx & Hlk & Hd). apply wp_bind. eapply (wp_check_step s sl c st); [done|done|apply Hsub; set_solver|done|by exists pr|].
    apply (IH p); [done|lia|set_solver].
Qed.

(** ** Start *)

Definition no_lists (k : Z * Z) : list Z := [].

(** [slab_init]; the page allocator may be started later, without tagged pages. *)
Lemma wp_slab_init s Q :
  (forall s', (forall m, pok m -> (forall a, tag m a = PAGE_KIND_NONE) -> slab_inv 0 (set_pages m s') no_lists) ->
     s'.(pages) = s.(pages) -> Q tt s') -> wp slab_init Q s.
Proof.
  intros HQ. unfold slab_init. apply wp_bind.
  apply (wp_for_up (fun i s' => (forall c, 0 <= c < i -> s'.(kmem_caches) !! c = Some (mkCache (csize c) 0 0 0)) /\
    s'.(pages) = s.(pages))).
  - split; [lia|done].
  - intros i s' Hi [Hc Hp]. assert (Hci : class_ok i) by (unfold class_ok, KMALLOC_CLASS_COUNT in *; lia).
    apply wp_bind. eapply wp_defined; [by apply class_lookup|]. wp_steps. slab_simpl. split; [|done].
    intros c Hc'. rewrite lookup_insert. case_decide; [by subst|]. apply Hc. lia.
  - intros s' [Hc Hp]. change (0 + Z.of_nat (Z.to_nat KMALLOC_CLASS_COUNT)) with KMALLOC_CLASS_COUNT in Hc. wp_steps. apply HQ; [|done]. intros m Hok Ht.
    constructor; slab_simpl; try done.
    + intros c Hcc. eexists. by split; [apply Hc|].
    + constructor.
      * intros [c st] [Hk Hst]. exists 0. split; [|done]. unfold heads. cbn [fst snd] in *. rewrite (Hc c Hk). by destruct Hst as [->|[->| ->]].
      * intros. constructor.
      * intros k k' p Hk Hk' Hp'. by apply elem_of_nil in Hp'.
    + intros c st p _ Hin. by apply elem_of_nil in Hin.
    + intros c _. cbn. lia.
    + intros p. rewrite Ht. split; [done|]. intros (k & _ & Hin). by apply elem_of_nil in Hin.
    + intros k p _ Hin. by apply elem_of_nil in Hin.
    + intros p Hne. by rewrite Ht in Hne.
Qed.

End heap.
