(* ===== verification/ByteAllocator.v ===== *)
(** * Correctness of the byte allocator

    The main theorems about [kmalloc], [kfree] and [slab_init] of [slab.c] on
    top of the buddy allocator, each with a run on a small memory. *)

From S2P Require Import Prelude Lists Memory BuddyInv BuddyAlloc BuddySpec PageIface Startup Slab SlabInv SlabAlloc SlabFree SlabHeap.

Open Scope Z_scope.

(** States of the byte allocator, and the allocated ranges of one. *)
Definition slab_ok (s : slabs) : Prop := exists sl, slab_inv_gen mem_ok pg_block pg_tag 0 s sl.
Definition allocated (s : slabs) (a z : Z) : Prop := allocated_gen pg_block pg_tag s a z.
Definition heap_history : list heap_op -> slabs -> slabs -> Prop := heap_run (blk := pg_block) (tag := pg_tag).
(** Two states with the same heap: they differ in console output and interrupt
    flag only. *)
Definition heap_unchanged (s s' : slabs) : Prop := same_heap (pok := mem_ok) (blk := pg_block) (tag := pg_tag) s s'.

(** ** The small memory *)

(** The heap over a memory whose pages have no owner yet. *)
Definition raw_heap (m : mem) : slabs := mkSlabs ∅ ∅ ∅ 0 0 0 false m.
Definition heap_over (m : mem) : slabs := match slab_init (raw_heap m) with Some (_, s) => s | None => raw_heap m end.

Lemma untagged m : (forall i k, fkind m.(frame_array) i = Some k -> k = PAGE_KIND_NONE) -> forall a, pg_tag m a = PAGE_KIND_NONE.
Proof.
  intros H a. rewrite pg_tag_fkind. destruct (pa_to_index m a) as [[i k]|]; [|done].
  destruct (fkind (frame_array m) i) eqn:E; [|done]. by apply H in E.
Qed.

Lemma heap_over_inv m : mem_ok m -> (forall a, pg_tag m a = PAGE_KIND_NONE) -> slab_inv_gen mem_ok pg_block pg_tag 0 (heap_over m) no_lists.
Proof.
  intros Hm Ht. assert (wp slab_init (fun _ s => slab_inv_gen mem_ok pg_block pg_tag 0 s no_lists) (raw_heap m)) as H.
  { apply (wp_slab_init (pok := mem_ok) (blk := pg_block) (tag := pg_tag) (raw_heap m)).
    intros s' H E. specialize (H m Hm Ht). destruct s'. cbn in *. by subst. }
  unfold heap_over, wp in *. by destruct (slab_init (raw_heap m)) as [[[] s]|].
Qed.

Definition demo_raw : slabs := raw_heap demo_booted.
Definition demo_heap : slabs := heap_over demo_booted.

Lemma demo_tags a : pg_tag demo_booted a = PAGE_KIND_NONE.
Proof. apply untagged, demo_booted_state. Qed.

Lemma demo_heap_inv : slab_inv_gen mem_ok pg_block pg_tag 0 demo_heap no_lists.
Proof. exact (heap_over_inv _ demo_booted_ok demo_tags). Qed.

Lemma demo_heap_ok : slab_ok demo_heap.
Proof. exists no_lists. apply demo_heap_inv. Qed.

(** One object of 100 bytes, then a second one. *)
Definition demo_obj : Z * slabs := default (0, demo_heap) (kmalloc 100 demo_heap).
Definition demo_obj2 : Z * slabs := default (0, demo_heap) (kmalloc 100 demo_obj.2).
Definition demo_freed : slabs := default demo_heap (snd <$> kfree demo_obj2.1 demo_obj2.2).

Lemma demo_obj_run : kmalloc 100 demo_heap = Some (demo_obj.1, demo_obj.2).
Proof. unfold demo_obj. destruct (kmalloc 100 demo_heap) as [[a s]|] eqn:E; [reflexivity|vm_compute in E; discriminate E]. Qed.
Lemma demo_obj2_run : kmalloc 100 demo_obj.2 = Some (demo_obj2.1, demo_obj2.2).
Proof. unfold demo_obj2. destruct (kmalloc 100 demo_obj.2) as [[a s]|] eqn:E; [reflexivity|vm_compute in E; discriminate E]. Qed.
Lemma demo_freed_run : kfree demo_obj2.1 demo_obj2.2 = Some (tt, demo_freed).
Proof.
  unfold demo_freed. destruct (kfree demo_obj2.1 demo_obj2.2) as [[[] s]|] eqn:E; [reflexivity|vm_compute in E; discriminate E].
Qed.

(** ** Allocation *)

(** What a null result of [kmalloc sz] means: no bytes were asked for, more than
    the largest block, or no sufficient aligned run of free pages is left (for
    the slab classes: not one free page). *)
Definition kmalloc_exhausted (sz : Z) (s : slabs) : Prop :=
  sz = 0 \/ 2 ^ 32 < sz \/ forall i o, order_ok o -> pages_for sz <= 2 ^ o -> ~ free_run s.(pages) i o.

Lemma pages_for_bounds sz : 0 < sz <= 2 ^ 32 -> 0 < pages_for sz < 2 ^ 32.
Proof.
  intros Hsz. unfold pages_for. change KMALLOC_MAX_SLAB_SIZE with 2048. destruct (Z.leb_spec sz 2048); [lia|].
  pose proof (Z.div_mod (sz + PAGE_SIZE - 1) PAGE_SIZE ltac:(done)).
  pose proof (Z.mod_pos_bound (sz + PAGE_SIZE - 1) PAGE_SIZE ltac:(done)). unfold PAGE_SIZE in *. lia.
Qed.

Lemma kmalloc_null_exhausted sz s :
  slab_ok s -> 0 <= sz -> kmalloc_null sz (set_irq_on false s.(pages)) -> kmalloc_exhausted sz s.
Proof.
  intros [sl Hs] Hsz [->|[?|E]]; [by left|right; by left|].
  destruct (Z.eq_dec sz 0); [by left|]. destruct (Z.lt_ge_cases (2 ^ 32) sz); [right; by left|]. right; right.
  assert (Hok : mem_ok (set_irq_on false (pages s))) by apply (pl_irq (PageLaws := buddy_page_laws)), Hs.
  destruct (run_op_step (op_alloc (pages_for sz) 0) _ _ Hok (conj (pages_for_bounds sz ltac:(lia)) E)) as (_ & _ & _ & Hst).
  inversion Hst; [done|assumption].
Qed.

(** The contract of [kmalloc] and of [kfree]. *)
Definition kmalloc_spec (s : slabs) (sz a : Z) (s' : slabs) : Prop :=
  (a = 0 /\ s' = s /\ kmalloc_exhausted sz s) \/
  (a <> 0 /\ (16 | a) /\ exists z, sz <= z /\
     (forall b y, allocated s' b y <-> allocated s b y \/ (b = a /\ y = z)) /\
     (forall b y x, allocated s b y -> b <= x < b + y -> ~ (a <= x < a + z)) /\
     (forall b y x, allocated s b y -> b <= x -> x + 8 <= b + y -> s'.(chunk_next) !! x = s.(chunk_next) !! x)).

Definition kfree_spec (s : slabs) (a : Z) (s' : slabs) : Prop :=
  ((exists z, allocated s a z) /\ (forall b y, allocated s' b y <-> allocated s b y /\ b <> a) /\
   (forall b y x, allocated s b y -> b <> a -> b <= x -> x + 8 <= b + y -> s'.(chunk_next) !! x = s.(chunk_next) !! x)) \/
  ((forall z, ~ allocated s a z) /\ heap_unchanged s s').

Lemma kmalloc_runs s sz :
  slab_ok s -> 0 <= sz < 2 ^ 64 ->
  exists a s', kmalloc sz s = Some (a, s') /\ slab_ok s' /\ s'.(pages).(irq_on) = s.(pages).(irq_on) /\ kmalloc_spec s sz a s'.
Proof.
  intros Hok Hsz. pose proof Hok as [sl Hs]. apply wp_run. apply (wp_kmalloc s sl); [done|done| |].
  - intros Hnull. split; [done|]. split; [done|]. left. split; [done|]. split; [done|]. by apply kmalloc_null_exhausted; [|lia|].
  - intros a s' (Ha & Hal & z & Hz & Hs' & Hset & Hdis & [Hi Hd]). split; [done|]. split; [done|]. right.
    split; [done|]. split; [done|]. by exists z.
Qed.

Lemma kfree_runs s a :
  slab_ok s -> 0 <= a < 2 ^ 64 ->
  exists s', kfree a s = Some (tt, s') /\ slab_ok s' /\ s'.(pages).(irq_on) = s.(pages).(irq_on) /\ kfree_spec s a s'.
Proof.
  intros Hok Ha. pose proof Hok as [sl Hs].
  destruct (wp_run (kfree a) (fun _ s' => slab_ok s' /\ s'.(pages).(irq_on) = s.(pages).(irq_on) /\ kfree_spec s a s') s)
    as ([] & s' & E & H); [|by exists s'].
  apply (wp_kfree s sl); [done|done|..].
  - intros s' (Hz & Hs' & Hset & Hi & Hd). split; [done|]. split; [done|]. by left.
  - intros s' (Hz & Hh & Hi). split; [exists sl; by eapply slab_inv_same|]. split; [done|]. by right.
Qed.

(** C4: [kmalloc] implements its contract.  On every state of the allocator and
    for every size it returns (no undefined behaviour, every list walk ends),
    keeps the invariant and the interrupt flag.  It hands out a 16-byte aligned
    range of at least the requested size that overlaps no allocated range and
    becomes the only new allocated one, and no word of the other objects
    changes; or it returns null with the state unchanged, and then the request
    was empty or too large, or the free pages do not suffice. *)
Theorem kmalloc_correct (s : slabs) (sz : Z) :
  slab_ok s -> 0 <= sz < 2 ^ 64 ->
  exists a s', kmalloc sz s = Some (a, s') /\ slab_ok s' /\ s'.(pages).(irq_on) = s.(pages).(irq_on) /\ kmalloc_spec s sz a s'.
Proof. apply kmalloc_runs. Qed.

Lemma kmalloc_correct_witness :
  exists a s', kmalloc 100 demo_heap = Some (a, s') /\ slab_ok s' /\ s'.(pages).(irq_on) = true /\ kmalloc_spec demo_heap 100 a s'.
Proof. exact (kmalloc_correct demo_heap 100 demo_heap_ok ltac:(lia)). Defined.

(** C5: [kfree] implements its contract.  The call returns on every argument and
    keeps the invariant and the interrupt flag.  The address of an allocated
    range makes exactly that range no longer allocated and leaves the words of
    all other objects alone; every other argument (null, outside RAM, an interior
    or misaligned address, an object that is already free, a page of nobody) is
    refused with the heap unchanged. *)
Theorem kfree_correct (s : slabs) (a : Z) :
  slab_ok s -> 0 <= a < 2 ^ 64 ->
  exists s', kfree a s = Some (tt, s') /\ slab_ok s' /\ s'.(pages).(irq_on) = s.(pages).(irq_on) /\ kfree_spec s a s'.
Proof. apply kfree_runs. Qed.

Lemma kfree_correct_witness :
  exists s', kfree 8192 demo_heap = Some (tt, s') /\ slab_ok s' /\ s'.(pages).(irq_on) = true /\ kfree_spec demo_heap 8192 s'.
Proof. exact (kfree_correct demo_heap 8192 demo_heap_ok ltac:(lia)). Defined.

(** The first object of the small memory. *)
Lemma demo_obj_facts : slab_ok demo_obj.2 /\ exists z, 100 <= z /\ allocated demo_obj.2 demo_obj.1 z.
Proof.
  destruct (kmalloc_runs demo_heap 100 demo_heap_ok ltac:(lia)) as (a & s' & E & Hok & _ & Hs).
  destruct (run_det _ _ _ _ _ _ E demo_obj_run) as [-> ->]. split; [exact Hok|].
  destruct Hs as [(E0 & _)|(_ & _ & z & Hz & Hset & _)]; [exfalso; vm_compute in E0; discriminate E0|].
  exists z. split; [exact Hz|]. apply Hset. right. split; reflexivity.
Qed.

(** The second object comes and goes. *)
Definition demo_ops : list heap_op := [op_kmalloc 100 demo_obj2.1; op_kfree demo_obj2.1].

Lemma demo_history : heap_history demo_ops demo_obj.2 demo_freed.
Proof.
  apply (run_cons _ _ _ demo_obj2.2); [split; [lia|apply demo_obj2_run]|].
  apply (run_cons _ _ _ demo_freed); [|apply run_nil]. split; [vm_compute; split; [discriminate|reflexivity]|apply demo_freed_run].
Qed.

(** ** Histories *)

(** whatever sequence of [kmalloc] calls, [kfree] calls (also of wrong
    addresses) and stores by owners into their objects has run, the allocator is
    in a good state and a byte belongs to at most one allocated range. *)
Theorem heap_ranges_exclusive (ops : list heap_op) (s s' : slabs) (a z b y x : Z) :
  slab_ok s -> heap_history ops s s' ->
  slab_ok s' /\ (allocated s' a z -> allocated s' b y -> a <= x < a + z -> b <= x < b + y -> a = b /\ z = y).
Proof.
  intros Hok Hrun. destruct (heap_run_ok ops s s' Hrun Hok) as [sl Hs]. split; [by exists sl|]. by apply (allocated_disjoint 0 s' sl).
Qed.

Lemma heap_ranges_exclusive_witness :
  slab_ok demo_freed /\ (allocated demo_freed demo_obj.1 128 -> allocated demo_freed demo_obj2.1 128 ->
    demo_obj.1 <= demo_obj.1 < demo_obj.1 + 128 -> demo_obj2.1 <= demo_obj.1 < demo_obj2.1 + 128 ->
    demo_obj.1 = demo_obj2.1 /\ 128 = 128).
Proof.
  exact (heap_ranges_exclusive demo_ops demo_obj.2 demo_freed demo_obj.1 128 demo_obj2.1 128 demo_obj.1
    (proj1 demo_obj_facts) demo_history).
Defined.

(** C6: the contents of an object survive everything that other clients do: as
    long as nobody frees the object or stores into it, it stays allocated and
    each of its words keeps its value, although free objects are poisoned and
    linked through their first word and empty slabs are poisoned and returned. *)
Theorem object_contents_survive (ops : list heap_op) (s s' : slabs) (b z x : Z) :
  slab_ok s -> heap_history ops s s' -> allocated s b z -> Forall (fun op => ~ touches b z op) ops ->
  (8 | x) -> b <= x -> x + 8 <= b + z ->
  allocated s' b z /\ s'.(chunk_next) !! x = s.(chunk_next) !! x.
Proof.
  intros Hok Hrun Hb Hall H8 H1 H2. destruct (heap_run_keeps ops s s' b z Hrun Hok Hb Hall) as [Hb' Hd].
  split; [done|]. by apply Hd.
Qed.

Lemma object_contents_survive_witness :
  exists z, 100 <= z /\ allocated demo_freed demo_obj.1 z /\
    demo_freed.(chunk_next) !! (demo_obj.1 + 8) = demo_obj.2.(chunk_next) !! (demo_obj.1 + 8).
Proof.
  destruct demo_obj_facts as [Hok (z & Hz & Ha)]. exists z. split; [exact Hz|].
  apply (object_contents_survive demo_ops demo_obj.2 demo_freed demo_obj.1 z (demo_obj.1 + 8) Hok demo_history Ha); try lia.
  - repeat constructor; [intros []|vm_compute; intros E; discriminate E].
  - apply Z.mod_divide; [done|]. vm_compute. reflexivity.
Defined.

(** a [kmalloc] followed by a [kfree] of its result leaves the allocated
    ranges as they were. *)
Theorem kmalloc_kfree_roundtrip (s s1 : slabs) (sz a : Z) :
  slab_ok s -> 0 <= sz < 2 ^ 64 -> kmalloc sz s = Some (a, s1) -> 0 <= a < 2 ^ 64 ->
  exists s2, kfree a s1 = Some (tt, s2) /\ slab_ok s2 /\ forall b y, allocated s2 b y <-> allocated s b y.
Proof.
  intros Hok Hsz E Ha. destruct (kmalloc_runs s sz Hok Hsz) as (a' & s1' & E' & Hok1 & _ & Hsp).
  rewrite E in E'. injection E' as <- <-. destruct (kfree_runs s1 a Hok1 Ha) as (s2 & E2 & Hok2 & _ & Hf).
  exists s2. split; [done|]. split; [done|].
  destruct Hsp as [(-> & -> & _)|(Ha0 & _ & z & _ & Hset & Hdis & _)].
  - destruct Hf as [[[z Hz] _]|[_ Hh]]; [|intros; by apply (allocated_same (pok := mem_ok))].
    exfalso. destruct Hok as [sl Hs]. by destruct (allocated_page s sl 0 z Hs Ha Hz) as (? & _).
  - assert (Hz : allocated s1 a z) by (apply Hset; by right).
    destruct Hf as [(_ & Hf & _)|[Hno _]]; [|by destruct (Hno z)].
    intros b y. rewrite Hf, Hset. split; [naive_solver|]. intros Hb. split; [by left|]. intros ->.
    destruct Hok as [sl Hs]. destruct (allocated_block _ _ _ _ _ Hs Hb) as (Hy & _).
    destruct Hok1 as [sl1 Hs1]. destruct (allocated_block _ _ _ _ _ Hs1 Hz) as (Hz0 & _). apply (Hdis a y a Hb); lia.
Qed.

Lemma kmalloc_kfree_roundtrip_witness :
  exists s2, kfree demo_obj.1 demo_obj.2 = Some (tt, s2) /\ slab_ok s2 /\ forall b y, allocated s2 b y <-> allocated demo_heap b y.
Proof.
  apply (kmalloc_kfree_roundtrip demo_heap demo_obj.2 100 demo_obj.1 demo_heap_ok); [lia| |].
  - apply demo_obj_run.
  - vm_compute. split; [discriminate|reflexivity].
Defined.

(** a second [kfree] of the same address is refused and leaves the heap as
    it is, also when the first one sent the page back to the page allocator. *)
Theorem double_kfree_refused (s s1 : slabs) (a : Z) :
  slab_ok s -> 0 <= a < 2 ^ 64 -> kfree a s = Some (tt, s1) ->
  exists s2, kfree a s1 = Some (tt, s2) /\ heap_unchanged s1 s2.
Proof.
  intros Hok Ha E. destruct (kfree_runs s a Hok Ha) as (s1' & E' & Hok1 & _ & Hsp). rewrite E in E'. injection E' as <-.
  destruct (kfree_runs s1 a Hok1 Ha) as (s2 & E2 & _ & _ & Hf). exists s2. split; [done|].
  destruct Hf as [([z Hz] & _)|[_ Hh]]; [|done]. exfalso. destruct Hsp as [(_ & Hset & _)|[Hno Hh]].
  - apply Hset in Hz. tauto.
  - apply (Hno z). by apply (allocated_same (pok := mem_ok) _ _ _ _ Hh).
Qed.

Lemma double_kfree_refused_witness :
  exists s2, kfree demo_obj2.1 demo_freed = Some (tt, s2) /\ heap_unchanged demo_freed s2.
Proof.
  apply (double_kfree_refused demo_obj2.2 demo_freed demo_obj2.1).
  - destruct (kmalloc_runs demo_obj.2 100 (proj1 demo_obj_facts) ltac:(lia)) as (a & s' & E & Hok & _).
    destruct (run_det _ _ _ _ _ _ E demo_obj2_run) as [_ ->]. exact Hok.
  - vm_compute. split; [discriminate|reflexivity].
  - apply demo_freed_run.
Defined.

(** ** Self-check, size classes and start *)

(** the kernel's own consistency check of the slab lists,
    [memory_check_slabs_ok], walks every list to its end and reports no error in
    any state of the allocator. *)
Theorem memory_check_slabs_passes (s : slabs) :
  slab_ok s -> exists s', memory_check_slabs_ok s = Some (1, s') /\ slab_ok s'.
Proof.
  intros [sl Hs]. destruct (wp_run memory_check_slabs_ok (fun r s' => r = 1 /\ slab_ok s') s) as (r & s' & E & -> & H); [|by exists s'].
  unfold memory_check_slabs_ok, local_irq_save, local_irq_restore. apply wp_bind, wp_zoom. wp_steps. cbn [view put slabs_pages].
  set (s0 := set_pages (set_irq_on false (pages s)) s).
  assert (Hs0 : slab_inv_gen mem_ok pg_block pg_tag 0 s0 sl) by (eapply slab_inv_same; [apply same_heap_irq|done]).
  apply (wp_for_acc (fun _ ok s' => ok = 1 /\ s' = s0)); [done| |].
  - intros i ok s' Hi [-> ->]. assert (Hc : class_ok i) by (unfold class_ok, KMALLOC_CLASS_COUNT in *; lia).
    destruct (sv_caches _ _ _ _ _ _ Hs0 i Hc) as (k & Ek & _). apply wp_bind. eapply wp_cache_get; [exact Ek|].
    apply wp_bind. eapply (wp_check_list s0 sl i SLAB_PARTIAL); [done|by apply key_partial|unfold heads; cbn [fst snd]; by rewrite Ek|].
    apply wp_bind. eapply (wp_check_list s0 sl i SLAB_FULL); [done|by apply key_full|unfold heads; cbn [fst snd]; by rewrite Ek|].
    apply wp_bind. eapply (wp_check_list s0 sl i SLAB_EMPTY); [done|by apply key_empty|unfold heads; cbn [fst snd]; by rewrite Ek|].
    by wp_steps.
  - intros ok s' [-> ->]. apply wp_bind, wp_zoom. wp_steps. split; [done|]. exists sl. eapply slab_inv_same; [|exact Hs0].
    apply same_heap_irq.
Qed.

Lemma memory_check_slabs_passes_witness :
  exists s', memory_check_slabs_ok demo_heap = Some (1, s') /\ slab_ok s'.
Proof. exact (memory_check_slabs_passes demo_heap demo_heap_ok). Defined.

(** the class chosen for a size is the smallest one that fits, and sizes
    without a class (0 and everything above half a page) are rejected. *)
Theorem size_to_class_best (sz : Z) :
  0 <= sz ->
  (size_to_class sz = -1 <-> sz = 0 \/ KMALLOC_MAX_SLAB_SIZE < sz) /\
  (size_to_class sz <> -1 -> exists k, kmalloc_classes !! Z.to_nat (size_to_class sz) = Some k /\ sz <= k /\
     forall k', k' ∈ kmalloc_classes -> sz <= k' -> k <= k').
Proof.
  intros Hsz. destruct (Z.eq_dec sz 0) as [->|Hn0]; [split; [split; [by left|done]|done]|].
  destruct (Z.lt_ge_cases KMALLOC_MAX_SLAB_SIZE sz) as [Hlt|Hle].
  - assert (size_to_class sz = -1) as ->; [|split; [split; [by right|done]|done]].
    unfold size_to_class. destruct (Z.eqb_spec sz 0); [done|]. by destruct (Z.ltb_spec KMALLOC_MAX_SLAB_SIZE sz); [|lia].
  - destruct (size_to_class_spec sz ltac:(lia)) as (Hc & Hfit & Hmin). split.
    + split; [|lia]. unfold class_ok in Hc. lia.
    + intros _. exists (csize (size_to_class sz)). split; [by apply class_lookup|]. split; [done|].
      intros k' Hk Hle'. apply list_elem_of_lookup in Hk as [i Hi].
      assert (Hci : class_ok (Z.of_nat i)) by (apply lookup_lt_Some in Hi; cbn in Hi; unfold class_ok, KMALLOC_CLASS_COUNT; lia).
      pose proof (class_lookup _ Hci) as Hl. rewrite Nat2Z.id, Hi in Hl. injection Hl as ->.
      specialize (Hmin _ Hci Hle'). unfold csize. apply pow2_mono. unfold class_ok in Hc. lia.
Qed.

Lemma size_to_class_best_witness :
  (size_to_class 100 = -1 <-> 100 = 0 \/ KMALLOC_MAX_SLAB_SIZE < 100) /\
  (size_to_class 100 <> -1 -> exists k, kmalloc_classes !! Z.to_nat (size_to_class 100) = Some k /\ 100 <= k /\
     forall k', k' ∈ kmalloc_classes -> 100 <= k' -> k <= k').
Proof. exact (size_to_class_best 100 ltac:(lia)). Defined.

(** [slab_init] on a page allocator without tagged pages, as boot leaves it,
    gives a good allocator with nothing allocated. *)
Theorem slab_init_correct (s : slabs) :
  mem_ok s.(pages) -> (forall a, pg_tag s.(pages) a = PAGE_KIND_NONE) ->
  exists s', slab_init s = Some (tt, s') /\ slab_ok s' /\ s'.(pages) = s.(pages) /\ forall a z, ~ allocated s' a z.
Proof.
  intros Hok Ht. destruct (wp_run slab_init (fun _ s' => slab_ok s' /\ s'.(pages) = s.(pages)) s) as ([] & s' & E & Hs' & Hp).
  { apply (wp_slab_init (pok := mem_ok) (blk := pg_block) (tag := pg_tag) s).
    intros s' H Hp. split; [|done]. exists no_lists. specialize (H (pages s) Hok Ht). destruct s'. cbn in *. by subst. }
  exists s'. split; [done|]. split; [done|]. split; [done|].
  intros a z [(c & p & (_ & Hx & _) & _)|(o & (Hx & _) & _)]; by rewrite Hp, Ht in Hx.
Qed.

Lemma slab_init_correct_witness :
  exists s', slab_init demo_raw = Some (tt, s') /\ slab_ok s' /\ s'.(pages) = demo_booted /\ forall a z, ~ allocated s' a z.
Proof. exact (slab_init_correct demo_raw demo_booted_ok demo_tags). Defined.
