(* ===== verification/Fdt.v ===== *)
(** * Flattened device tree: [kernel/src/fdt.c]

    A device tree blob is its address and its bytes; a C pointer into it is the
    offset from its start.  A read outside the bytes has no result, so a function
    that returns has stayed inside the blob.  A null [prop] pointer, with the
    length that is then not written, is [None]. *)

From S2P Require Import Prelude.

Open Scope Z_scope.

Record dtb := mkDtb { d_addr : Z; d_bytes : list Z }.

Definition FDT_MAGIC : Z := 0xd00dfeed.
Definition FDT_BEGIN_NODE : Z := 1.
Definition FDT_END_NODE : Z := 2.
Definition FDT_PROP : Z := 3.
Definition FDT_NOP : Z := 4.
Definition FDT_END : Z := 9.
Definition FDT_MAX_DEPTH : Z := 16.
Definition FDT_MAX_MEM_REGIONS : Z := 16.
Definition SIZEOF_FDT_HEADER : Z := 40.

Record fdt_mem_region := mkFdtRegion { fr_base : Z; fr_size : Z }.

(** The characters of a C string literal. *)
Fixpoint chars (s : string) : list Z :=
  match s with
  | EmptyString => []
  | String a s' => Z.of_N (Ascii.N_of_ascii a) :: chars s'
  end.

#[global] Arguments chars : simpl never.

(** ** Reads *)

Definition byte_at (off : Z) : M dtb Z :=
  access (fun b => if off <? 0 then None else b.(d_bytes) !! Z.to_nat off).

(** A 32-bit load on a little-endian machine. *)
Definition load32 (off : Z) : M dtb Z :=
  b0 ← byte_at off; b1 ← byte_at (off + 1); b2 ← byte_at (off + 2); b3 ← byte_at (off + 3);
  mret (b0 + 256 * b1 + 65536 * b2 + 16777216 * b3).

Definition fdt32_to_cpu (v : Z) : Z :=
  Z.lor (Z.lor (Z.lor (u32 (Z.shiftl (Z.land v 0x000000ff) 24)) (u32 (Z.shiftl (Z.land v 0x0000ff00) 8)))
               (Z.shiftr (Z.land v 0x00ff0000) 8)) (Z.shiftr (Z.land v 0xff000000) 24).

Definition be32 (off : Z) : M dtb Z := v ← load32 off; mret (fdt32_to_cpu v).

(** Fields of [struct fdt_header]. *)
Definition hdr_magic : M dtb Z := be32 0.
Definition hdr_totalsize : M dtb Z := be32 4.
Definition hdr_off_dt_struct : M dtb Z := be32 8.
Definition hdr_off_dt_strings : M dtb Z := be32 12.
Definition hdr_off_mem_rsvmap : M dtb Z := be32 16.
Definition hdr_size_dt_strings : M dtb Z := be32 32.
Definition hdr_size_dt_struct : M dtb Z := be32 36.

(** Every walk below moves forward in the blob at each round. *)
Definition walk {St R} (body : St -> M dtb (St + R)) (st : St) : M dtb R :=
  fuel ← gets (fun b => length b.(d_bytes));
  loop (S fuel) body st.

(** ** String helpers *)

Definition str_len (s : Z) : M dtb Z :=
  walk (fun n => c ← byte_at (s + n); if c =? 0 then mret (inr n) else mret (inl (u32 (n + 1)))) 0.

(** [cmp] holds the [len] characters that are compared. *)
Fixpoint name_eq (name : Z) (cmp : list Z) : M dtb bool :=
  match cmp with
  | [] => c ← byte_at name; mret (c =? 0)
  | x :: cmp' => c ← byte_at name; if negb (c =? x) then mret false else name_eq (name + 1) cmp'
  end.

Fixpoint name_starts_with (name : Z) (prefix : list Z) : M dtb bool :=
  match prefix with
  | [] => mret true
  | x :: prefix' => c ← byte_at name; if negb (c =? x) then mret false else name_starts_with (name + 1) prefix'
  end.

(** Length of the string at [cur], at most up to [fin]. *)
Definition bounded_len (cur fin : Z) : M dtb Z :=
  walk (fun n =>
    if negb (cur + n <? fin) then mret (inr n)
    else c ← byte_at (cur + n); if c =? 0 then mret (inr n) else mret (inl (u32 (n + 1)))) 0.

Definition prop_has_compatible (prop len : Z) (compatible : list Z) : M dtb bool :=
  if len <=? 0 then mret false
  else
    let fin := prop + len in
    walk (fun cur =>
      if negb (cur <? fin) then mret (inr false)
      else
        c ← byte_at cur;
        if c =? 0 then mret (inr false)
        else
          cur_len ← bounded_len cur fin;
          if cur + cur_len =? fin then mret (inr false)
          else
            hit ← (if cur_len =? Z.of_nat (length compatible) then name_eq cur compatible else mret false);
            if (hit : bool) then mret (inr true) else mret (inl (cur + u32 (cur_len + 1)))) prop.

Definition align4 (n : Z) : Z := Z.land (u32 (n + 3)) (not32 3).

(** ** Validation *)

(** The declared block bounds. *)
Definition header_bounds_bad (total offset size string_offset string_size reserve_offset : Z) : bool :=
  (total <? SIZEOF_FDT_HEADER) || (0x7fffffff <? total) ||
  (offset <? SIZEOF_FDT_HEADER) || negb (Z.land offset 3 =? 0) || (total <? offset) || (total - offset <? size) ||
  (string_offset <? SIZEOF_FDT_HEADER) || (total <? string_offset) || (total - string_offset <? string_size) ||
  (reserve_offset <? SIZEOF_FDT_HEADER) || negb (Z.land reserve_offset 7 =? 0) || (total <? reserve_offset) ||
  (total - reserve_offset <? 16).

(** One token of the stream: locals [cur], [depth] and [root_seen]. *)
Definition check_token (fin strings string_size : Z) (st : Z * Z * bool) : M dtb ((Z * Z * bool) + Z) :=
  let '(cur, depth, root_seen) := st in
  if fin - cur <? 4 then mret (inr (-1))
  else
    token ← be32 cur;
    let cur := cur + 4 in
    if token =? FDT_BEGIN_NODE then
      if (depth =? 0) && root_seen then mret (inr (-1))
      else
        let depth := depth + 1 in
        if FDT_MAX_DEPTH <? depth then mret (inr (-1))
        else
          n ← bounded_len cur fin;
          if (cur + n =? fin) || (fin - cur <? align4 (u32 (n + 1))) then mret (inr (-1))
          else mret (inl (cur + align4 (u32 (n + 1)), depth, true))
    else if token =? FDT_END_NODE then
      if depth =? 0 then mret (inr (-1)) else mret (inl (cur, depth - 1, root_seen))
    else if token =? FDT_PROP then
      if (depth =? 0) || (fin - cur <? 8) then mret (inr (-1))
      else
        len ← be32 cur;
        nameoff ← be32 (cur + 4);
        let cur := cur + 8 in
        if (0x7fffffff <? len) || (fin - cur <? align4 len) || (string_size <=? nameoff) then mret (inr (-1))
        else
          n ← bounded_len (strings + nameoff) (strings + string_size);
          if n =? string_size - nameoff then mret (inr (-1))
          else mret (inl (cur + align4 len, depth, root_seen))
    else if token =? FDT_NOP then mret (inl (cur, depth, root_seen))
    else if token =? FDT_END then mret (inr (if root_seen && (depth =? 0) then 0 else -1))
    else mret (inr (-1)).

Definition fdt_check_header : M dtb Z :=
  addr ← gets d_addr;
  if (addr =? 0) || negb (Z.land addr 3 =? 0) then mret (-1)
  else
    mg ← hdr_magic;
    if negb (mg =? FDT_MAGIC) then mret (-1)
    else
      total ← hdr_totalsize;
      offset ← hdr_off_dt_struct;
      size ← hdr_size_dt_struct;
      string_offset ← hdr_off_dt_strings;
      string_size ← hdr_size_dt_strings;
      reserve_offset ← hdr_off_mem_rsvmap;
      if header_bounds_bad total offset size string_offset string_size reserve_offset then mret (-1)
      else walk (check_token (offset + size) string_offset string_size) (offset, 0, false).

Definition fdt_totalsize : M dtb Z :=
  addr ← gets d_addr;
  if addr =? 0 then mret 0
  else
    ok ← fdt_check_header;
    if negb (ok =? 0) then mret 0 else hdr_totalsize.

(** ** Paths *)

(** The components that the first loop stores in [comps]: a component ends at a
    slash or at the end of the path, and a final slash adds no component. *)
Fixpoint path_comps (p : list Z) : list (list Z) :=
  match p with
  | [] => []
  | c :: p' =>
      if c =? 47 then [] :: path_comps p'
      else match path_comps p' with
           | [] => [[c]]
           | comp :: comps => (c :: comp) :: comps
           end
  end.

(** One token of the search: locals [cur], [depth] and [match_depth]. *)
Definition path_token (struct_base fin : Z) (comps : list (list Z)) (st : Z * Z * Z) : M dtb ((Z * Z * Z) + Z) :=
  let '(cur, depth, match_depth) := st in
  let comp_count := Z.of_nat (length comps) in
  if negb (cur <? fin) then mret (inr (-1))
  else
    token ← be32 cur;
    let cur := cur + 4 in
    if token =? FDT_BEGIN_NODE then
      let name := cur in
      name_len ← str_len name;
      let node_offset := i32 ((cur - 4) - struct_base) in
      let depth := depth + 1 in
      let next := cur + align4 (u32 (name_len + 1)) in
      if depth =? 0 then
        if comp_count =? 0 then mret (inr node_offset) else mret (inl (next, depth, 0))
      else if (match_depth =? depth - 1) && (depth <=? comp_count) then
        cmp ← defined (comps !! Z.to_nat (depth - 1));
        hit ← name_eq name cmp;
        if (hit : bool) then
          if depth =? comp_count then mret (inr node_offset) else mret (inl (next, depth, depth))
        else mret (inl (next, depth, match_depth))
      else mret (inl (next, depth, match_depth))
    else if token =? FDT_END_NODE then
      mret (inl (cur, depth - 1, if match_depth =? depth then depth - 1 else match_depth))
    else if token =? FDT_PROP then
      len ← be32 cur;
      mret (inl (cur + 4 + 4 + align4 len, depth, match_depth))
    else if token =? FDT_NOP then mret (inl (cur, depth, match_depth))
    else mret (inr (-1)).

Definition fdt_path_offset (path : list Z) : M dtb Z :=
  addr ← gets d_addr;
  if addr =? 0 then mret (-1)
  else
    match path with
    | [] => mret (-1)
    | c :: p =>
        let comps := path_comps p in
        if negb (c =? 47) then mret (-1)
        else if FDT_MAX_DEPTH <? Z.of_nat (length comps) then mret (-1)
        else
          ok ← fdt_check_header;
          if negb (ok =? 0) then mret (-1)
          else
            struct_base ← hdr_off_dt_struct;
            size ← hdr_size_dt_struct;
            walk (path_token struct_base (struct_base + size) comps) (struct_base, -1, -1)
    end.

(** ** Properties *)

Definition is_node_token (base fin offset : Z) (cur : Z) : M dtb (Z + bool) :=
  if negb (cur <? fin) then mret (inr false)
  else
    let pos := u32 (cur - base) in
    token ← be32 cur;
    if pos =? offset then mret (inr (token =? FDT_BEGIN_NODE))
    else if offset <? pos then mret (inr false)
    else
      let cur := cur + 4 in
      if token =? FDT_BEGIN_NODE then
        n ← str_len cur; mret (inl (cur + align4 (u32 (n + 1))))
      else if token =? FDT_PROP then
        len ← be32 cur; mret (inl (cur + u32 (8 + align4 len)))
      else if token =? FDT_END then mret (inr false)
      else mret (inl cur).

(** The unsigned view of [offset] is compared. *)
Definition fdt_is_node_offset (base size offset : Z) : M dtb bool :=
  walk (is_node_token base (base + size) (u32 offset)) base.

(** One token of the search for a property; the result is its data and length. *)
Definition getprop_token (fin strings_base : Z) (name : list Z) (st : Z * Z) : M dtb ((Z * Z) + option (Z * Z)) :=
  let '(cur, depth) := st in
  if negb (cur <? fin) then mret (inr None)
  else
    token ← be32 cur;
    let cur := cur + 4 in
    if token =? FDT_BEGIN_NODE then
      n ← str_len cur; mret (inl (cur + align4 (u32 (n + 1)), depth + 1))
    else if token =? FDT_END_NODE then
      if depth =? 0 then mret (inr None) else mret (inl (cur, depth - 1))
    else if token =? FDT_PROP then
      len ← be32 cur;
      nameoff ← be32 (cur + 4);
      let prop_name := strings_base + nameoff in
      let prop_data := cur + 4 + 4 in
      let cur := prop_data + align4 len in
      hit ← (if depth =? 0 then name_eq prop_name name else mret false);
      if (hit : bool) then mret (inr (Some (prop_data, i32 len))) else mret (inl (cur, depth))
    else if token =? FDT_NOP then mret (inl (cur, depth))
    else mret (inr None).

Definition fdt_getprop (nodeoffset : Z) (name : list Z) : M dtb (option (Z * Z)) :=
  addr ← gets d_addr;
  if addr =? 0 then mret None
  else
    ok ← fdt_check_header;
    if negb (ok =? 0) then mret None
    else
      struct_base ← hdr_off_dt_struct;
      strings_base ← hdr_off_dt_strings;
      size ← hdr_size_dt_struct;
      let fin := struct_base + size in
      if (nodeoffset <? 0) || negb (Z.land nodeoffset 3 =? 0) || (size <=? u32 nodeoffset) then mret None
      else
        isn ← fdt_is_node_offset struct_base size nodeoffset;
        if negb (isn : bool) then mret None
        else
          let cur := struct_base + nodeoffset in
          if fin <? cur + 4 then mret None
          else
            token ← be32 cur;
            if negb (token =? FDT_BEGIN_NODE) then mret None
            else
              let cur := cur + 4 in
              n ← str_len cur;
              walk (getprop_token fin strings_base name) (cur + align4 (u32 (n + 1)), 0).

(** One token of the search by the compatible property: locals [cur], [depth] and
    [current_node]. *)
Definition compatible_token (struct_base fin : Z) (compatible : list Z) (st : Z * Z * gmap Z Z)
    : M dtb ((Z * Z * gmap Z Z) + Z) :=
  let '(cur, depth, current_node) := st in
  if negb (cur <? fin) then mret (inr (-1))
  else
    token ← be32 cur;
    let cur := cur + 4 in
    if token =? FDT_BEGIN_NODE then
      let node_offset := i32 ((cur - 4) - struct_base) in
      let depth := depth + 1 in
      if FDT_MAX_DEPTH <=? depth then mret (inr (-1))
      else
        n ← str_len cur;
        mret (inl (cur + align4 (u32 (n + 1)), depth, <[depth := node_offset]> current_node))
    else if token =? FDT_END_NODE then mret (inl (cur, depth - 1, current_node))
    else if token =? FDT_PROP then
      len ← be32 cur;
      nameoff ← be32 (cur + 4);
      strings_base ← hdr_off_dt_strings;
      let prop_name := strings_base + nameoff in
      let prop_data := cur + 4 + 4 in
      let cur := prop_data + align4 len in
      named ← (if 0 <=? depth then name_eq prop_name (chars "compatible") else mret false);
      hit ← (if (named : bool) then prop_has_compatible prop_data (i32 len) compatible else mret false);
      if (hit : bool) then node ← defined (current_node !! depth); mret (inr node)
      else mret (inl (cur, depth, current_node))
    else if token =? FDT_NOP then mret (inl (cur, depth, current_node))
    else mret (inr (-1)).

Definition fdt_find_compatible (compatible : list Z) : M dtb Z :=
  addr ← gets d_addr;
  if addr =? 0 then mret (-1)
  else
    ok ← fdt_check_header;
    if negb (ok =? 0) then mret (-1)
    else
      struct_base ← hdr_off_dt_struct;
      size ← hdr_size_dt_struct;
      walk (compatible_token struct_base (struct_base + size) compatible) (struct_base, -1, ∅).

Definition fdt_get_u32 (node : Z) (name : list Z) (defval : Z) : M dtb Z :=
  prop ← fdt_getprop node name;
  match prop with
  | Some (p, len) => if len <? 4 then mret (i32 defval) else v ← be32 p; mret (i32 v)
  | None => mret (i32 defval)
  end.

(** The out parameter is the result; [None] is the C result -1. *)
Definition fdt_get_u64_prop (node : Z) (name : list Z) : M dtb (option Z) :=
  prop ← fdt_getprop node name;
  match prop with
  | None => mret None
  | Some (p, len) =>
      if 8 <=? len then
        hi ← be32 p; lo ← be32 (p + 4); mret (Some (Z.lor (u64 (Z.shiftl hi 32)) lo))
      else if 4 <=? len then v ← be32 p; mret (Some v)
      else mret None
  end.

(** ** Memory regions *)

(** [n] big-endian cells from [entry], accumulated in 64 bits. *)
Definition read_cells (entry : Z) (n : Z) : M dtb Z :=
  for_acc (Z.to_nat n) 0 (fun i acc => c ← be32 (entry + 4 * i); mret (Z.lor (u64 (Z.shiftl acc 32)) c)) 0.

(** The tuples of one [reg] property are appended to the regions found so far;
    [None] is the early return when the array is full. *)
Definition read_reg (reg len addr_cells size_cells max_regions : Z) (out : list fdt_mem_region)
    : M dtb (option (list fdt_mem_region)) :=
  let reg_cells := addr_cells + size_cells in
  if (0 <? reg_cells) && (reg_cells * 4 <=? len) then
    for_acc (Z.to_nat (len / (reg_cells * 4))) 0 (fun t acc =>
      match acc with
      | None => mret None
      | Some out =>
          let entry := reg + 4 * (t * reg_cells) in
          addr ← read_cells entry addr_cells;
          sz ← read_cells (entry + 4 * addr_cells) size_cells;
          if negb (sz =? 0) then
            if max_regions <=? Z.of_nat (length out) then mret None
            else mret (Some (out ++ [mkFdtRegion addr sz]))
          else mret (Some out)
      end) (Some out)
  else mret (Some out).

(** Is the node at [node_offset] a memory node? *)
Definition is_memory_node (name node_offset : Z) : M dtb bool :=
  named ← name_eq name (chars "memory");
  pre ← (if (named : bool) then mret true else name_starts_with name (chars "memory@"));
  dtype ← fdt_getprop node_offset (chars "device_type");
  typed ← match dtype with
          | Some (p, len) => if 7 <=? len then name_eq p (chars "memory") else mret false
          | None => mret false
          end;
  mret (pre || typed).

Definition memory_token (struct_base fin addr_cells size_cells max_regions : Z) (st : Z * Z * list fdt_mem_region)
    : M dtb ((Z * Z * list fdt_mem_region) + option (list fdt_mem_region)) :=
  let '(cur, depth, out) := st in
  if negb (cur <? fin) then mret (inr (Some out))
  else
    token ← be32 cur;
    let cur := cur + 4 in
    if token =? FDT_BEGIN_NODE then
      let name := cur in
      name_len ← str_len name;
      let node_offset := i32 ((cur - 4) - struct_base) in
      let depth := depth + 1 in
      is_mem ← (if depth =? 1 then is_memory_node name node_offset else mret false);
      out' ← (if (is_mem : bool) then
                reg ← fdt_getprop node_offset (chars "reg");
                match reg with
                | Some (p, len) => read_reg p len addr_cells size_cells max_regions out
                | None => mret (Some out)
                end
              else mret (Some out));
      match out' with
      | None => mret (inr None)
      | Some out => mret (inl (cur + align4 (u32 (name_len + 1)), depth, out))
      end
    else if token =? FDT_END_NODE then mret (inl (cur, depth - 1, out))
    else if token =? FDT_PROP then
      len ← be32 cur; mret (inl (cur + 4 + 4 + align4 len, depth, out))
    else if token =? FDT_NOP then mret (inl (cur, depth, out))
    else if token =? FDT_END then mret (inr (Some out))
    else mret (inr None).

Definition cells_bad (addr_cells size_cells : Z) : bool :=
  (negb (addr_cells =? 1) && negb (addr_cells =? 2)) || (negb (size_cells =? 1) && negb (size_cells =? 2)).

(** [None] is the C result -1; [Some out] is the result [length out], with the
    regions in the caller's array. *)
Definition fdt_get_memory_regions (max_regions : Z) : M dtb (option (list fdt_mem_region)) :=
  addr ← gets d_addr;
  if (addr =? 0) || (max_regions <=? 0) then mret None
  else
    ok ← fdt_check_header;
    if negb (ok =? 0) then mret None
    else
      root ← fdt_path_offset (chars "/");
      if root <? 0 then mret None
      else
        addr_cells ← fdt_get_u32 root (chars "#address-cells") 2;
        size_cells ← fdt_get_u32 root (chars "#size-cells") 2;
        if cells_bad addr_cells size_cells then mret None
        else
          struct_base ← hdr_off_dt_struct;
          size ← hdr_size_dt_struct;
          walk (memory_token struct_base (struct_base + size) addr_cells size_cells max_regions) (struct_base, -1, []).

Definition reserved_token (struct_base fin addr_cells size_cells max_regions : Z) (st : Z * Z * list fdt_mem_region)
    : M dtb ((Z * Z * list fdt_mem_region) + option (list fdt_mem_region)) :=
  let '(cur, depth, out) := st in
  if negb (cur <? fin) then mret (inr (Some out))
  else
    token ← be32 cur;
    let cur := cur + 4 in
    if token =? FDT_BEGIN_NODE then
      name_len ← str_len cur;
      let child_node_offset := i32 ((cur - 4) - struct_base) in
      let depth := depth + 1 in
      out' ← (if depth =? 1 then
                reg ← fdt_getprop child_node_offset (chars "reg");
                match reg with
                | Some (p, len) => read_reg p len addr_cells size_cells max_regions out
                | None => mret (Some out)
                end
              else mret (Some out));
      match out' with
      | None => mret (inr None)
      | Some out => mret (inl (cur + align4 (u32 (name_len + 1)), depth, out))
      end
    else if token =? FDT_END_NODE then
      if depth =? 0 then mret (inr (Some out)) else mret (inl (cur, depth - 1, out))
    else if token =? FDT_PROP then
      len ← be32 cur; mret (inl (cur + 4 + 4 + align4 len, depth, out))
    else if token =? FDT_NOP then mret (inl (cur, depth, out))
    else if token =? FDT_END then mret (inr (Some out))
    else mret (inr None).

Definition fdt_get_reserved_memory_regions (max_regions : Z) : M dtb (option (list fdt_mem_region)) :=
  addr ← gets d_addr;
  if (addr =? 0) || (max_regions <=? 0) then mret None
  else
    ok ← fdt_check_header;
    if negb (ok =? 0) then mret None
    else
      node ← fdt_path_offset (chars "/reserved-memory");
      if node <? 0 then mret (Some [])
      else
        root ← fdt_path_offset (chars "/");
        if root <? 0 then mret None
        else
          root_addr ← fdt_get_u32 root (chars "#address-cells") 2;
          addr_cells ← fdt_get_u32 node (chars "#address-cells") (u32 root_addr);
          root_size ← fdt_get_u32 root (chars "#size-cells") 2;
          size_cells ← fdt_get_u32 node (chars "#size-cells") (u32 root_size);
          if cells_bad addr_cells size_cells then mret None
          else
            struct_base ← hdr_off_dt_struct;
            size ← hdr_size_dt_struct;
            let fin := struct_base + size in
            let cur := struct_base + node in
            if fin <? cur + 4 then mret None
            else
              token ← be32 cur;
              if negb (token =? FDT_BEGIN_NODE) then mret None
              else
                let cur := cur + 4 in
                n ← str_len cur;
                walk (reserved_token struct_base fin addr_cells size_cells max_regions)
                  (cur + align4 (u32 (n + 1)), 0, []).

Definition memreserve_entry (fin max_regions : Z) (st : Z * list fdt_mem_region)
    : M dtb ((Z * list fdt_mem_region) + option (list fdt_mem_region)) :=
  let '(cur, out) := st in
  if fin - cur <? 16 then mret (inr None)
  else
    w0 ← be32 cur; w1 ← be32 (cur + 4); w2 ← be32 (cur + 8); w3 ← be32 (cur + 12);
    let base := Z.lor (u64 (Z.shiftl w0 32)) w1 in
    let size := Z.lor (u64 (Z.shiftl w2 32)) w3 in
    if (base =? 0) && (size =? 0) then mret (inr (Some out))
    else if negb (size =? 0) then
      if max_regions <=? Z.of_nat (length out) then mret (inr None)
      else mret (inl (cur + 16, out ++ [mkFdtRegion base size]))
    else mret (inl (cur + 16, out)).

Definition fdt_get_memreserve_regions (max_regions : Z) : M dtb (option (list fdt_mem_region)) :=
  if max_regions <=? 0 then mret None
  else
    ok ← fdt_check_header;
    if negb (ok =? 0) then mret None
    else
      cur ← hdr_off_mem_rsvmap;
      fin ← hdr_totalsize;
      walk (memreserve_entry fin max_regions) (cur, []).

(** ** Single values: [None] is the C result -1 *)

Definition fdt_get_initrd_range : M dtb (option (Z * Z)) :=
  ok ← fdt_check_header;
  if negb (ok =? 0) then mret None
  else
    node ← fdt_path_offset (chars "/chosen");
    if node <? 0 then mret None
    else
      s ← fdt_get_u64_prop node (chars "linux,initrd-start");
      match s with
      | None => mret None
      | Some s =>
          e ← fdt_get_u64_prop node (chars "linux,initrd-end");
          match e with
          | None => mret None
          | Some e => if e <=? s then mret None else mret (Some (s, e))
          end
      end.

Definition fdt_get_timebase_frequency : M dtb (option Z) :=
  addr ← gets d_addr;
  if addr =? 0 then mret None
  else
    ok ← fdt_check_header;
    if negb (ok =? 0) then mret None
    else
      node ← fdt_path_offset (chars "/cpus");
      if node <? 0 then mret None
      else
        prop ← fdt_getprop node (chars "timebase-frequency");
        match prop with
        | Some (p, len) => if len <? 4 then mret None else v ← be32 p; mret (Some v)
        | None => mret None
        end.

Definition fdt_get_reg_base (nodeoffset : Z) : M dtb (option Z) :=
  prop ← fdt_getprop nodeoffset (chars "reg");
  match prop with
  | Some (p, len) =>
      if len <? 8 then mret None
      else hi ← be32 p; lo ← be32 (p + 4); mret (Some (Z.lor (u64 (Z.shiftl hi 32)) lo))
  | None => mret None
  end.

Definition fdt_get_interrupt_id (nodeoffset : Z) : M dtb (option Z) :=
  prop ← fdt_getprop nodeoffset (chars "interrupts");
  match prop with
  | Some (p, len) => if len <? 4 then mret None else v ← be32 p; mret (Some v)
  | None => mret None
  end.
