(* ===== verification/FdtStream.v ===== *)
(** * Token streams of a device tree

    What [fdt_check_header] establishes: a stream of well-formed tokens that lies
    inside the blob.  The file gives the meaning of the reads of [fdt.c] on a
    readable blob and the exact criterion of the check. *)

From S2P Require Import Prelude Fdt.

Open Scope Z_scope.

(** ** Reads of a readable blob *)

Definition byte (b : dtb) (off : Z) : Z := default 0 (b.(d_bytes) !! Z.to_nat off).

(** Big-endian word. *)
Definition word (b : dtb) (off : Z) : Z :=
  16777216 * byte b off + 65536 * byte b (off + 1) + 256 * byte b (off + 2) + byte b (off + 3).

Definition blob_len (b : dtb) : Z := Z.of_nat (length b.(d_bytes)).

(** The memory that the boot interface promises: whole bytes, a whole header and
    as many bytes as the header announces. *)
Record readable (b : dtb) : Prop := {
  rd_bytes : Forall (fun x => 0 <= x < 256) b.(d_bytes);
  rd_header : SIZEOF_FDT_HEADER <= blob_len b;
  rd_total : word b 4 <= blob_len b;
}.

(** A masked byte of a word. *)
Lemma land_byte v k : 0 <= k -> Z.land v (Z.shiftl 255 k) = Z.shiftl ((v / 2 ^ k) mod 256) k.
Proof.
  intros Hk. rewrite <- (Z.shiftr_div_pow2 v k) by done. change 256 with (2 ^ 8). rewrite <- Z.land_ones by lia.
  change 255 with (Z.ones 8). apply Z.bits_inj'. intros n Hn. rewrite Z.land_spec.
  destruct (Z.lt_ge_cases n k).
  - rewrite !Z.shiftl_spec_low by done. by rewrite andb_false_r.
  - rewrite !Z.shiftl_spec by lia. rewrite Z.land_spec, Z.shiftr_spec by lia. do 2 f_equal. lia.
Qed.

Lemma fdt32_to_cpu_swap b0 b1 b2 b3 :
  0 <= b0 < 256 -> 0 <= b1 < 256 -> 0 <= b2 < 256 -> 0 <= b3 < 256 ->
  fdt32_to_cpu (b0 + 256 * b1 + 65536 * b2 + 16777216 * b3) = 16777216 * b0 + 65536 * b1 + 256 * b2 + b3.
Proof.
  intros H0 H1 H2 H3. unfold fdt32_to_cpu. set (v := b0 + 256 * b1 + 65536 * b2 + 16777216 * b3).
  change 0xff with (Z.shiftl 255 0). change 0xff00 with (Z.shiftl 255 8).
  change 0xff0000 with (Z.shiftl 255 16). change 0xff000000 with (Z.shiftl 255 24).
  rewrite !land_byte by lia.
  assert (E : v / 2 ^ 0 mod 256 = b0 /\ v / 2 ^ 8 mod 256 = b1 /\ v / 2 ^ 16 mod 256 = b2 /\ v / 2 ^ 24 mod 256 = b3).
  { unfold v. cbn [Z.pow Z.pow_pos Pos.iter Z.mul Pos.mul]. repeat split; Z.div_mod_to_equations; lia. }
  destruct E as (-> & -> & -> & ->).
  rewrite !Z.shiftr_shiftl_l by lia. rewrite Z.shiftl_0_r.
  change (16 - 8) with 8. change (24 - 24) with 0. rewrite Z.shiftl_0_r.
  rewrite Z.shiftl_shiftl by lia. change (8 + 8) with 16.
  rewrite !u32_id by (rewrite Z.shiftl_mul_pow2 by lia; lia).
  rewrite <- !Z.lor_assoc. rewrite (lor_shiftl_add b2), (lor_shiftl_add b1), (lor_shiftl_add b0) by lia. lia.
Qed.

Section reads.
Context (b : dtb) (Hb : readable b).

Lemma byte_range off : 0 <= byte b off < 256.
Proof.
  unfold byte. destruct (d_bytes b !! Z.to_nat off) eqn:E; cbn; [|lia].
  pose proof (rd_bytes b Hb) as H. rewrite Forall_lookup in H. by eapply H.
Qed.

Lemma word_range off : 0 <= word b off < 2 ^ 32.
Proof.
  unfold word. pose proof (byte_range off). pose proof (byte_range (off + 1)).
  pose proof (byte_range (off + 2)). pose proof (byte_range (off + 3)). lia.
Qed.

Lemma wp_byte_at off Q : 0 <= off < blob_len b -> Q (byte b off) b -> wp (byte_at off) Q b.
Proof.
  intros Ho HQ. unfold byte_at. eapply wp_access; [|exact HQ]. destruct (Z.ltb_spec off 0); [lia|].
  unfold byte. destruct (lookup_lt_is_Some_2 (d_bytes b) (Z.to_nat off)) as [x Hx]; [unfold blob_len in Ho; lia|].
  by rewrite Hx.
Qed.

Lemma wp_be32 off Q : 0 <= off -> off + 4 <= blob_len b -> Q (word b off) b -> wp (be32 off) Q b.
Proof.
  intros Ho He HQ. unfold be32, load32.
  do 5 (apply wp_bind; try (apply wp_byte_at; [lia|])). do 2 apply wp_ret.
  rewrite fdt32_to_cpu_swap by apply byte_range. exact HQ.
Qed.

(** ** Strings *)

(** A string of [n] characters at [s]. *)
Record cstr (s n : Z) : Prop := {
  cs_len : 0 <= n;
  cs_chars : forall i, 0 <= i < n -> byte b (s + i) <> 0;
  cs_nul : byte b (s + n) = 0;
}.

Definition cname (s n : Z) : list Z := map (fun i => byte b (s + Z.of_nat i)) (seq 0 (Z.to_nat n)).

Lemma cname_cons s n : 0 < n -> cname s n = byte b s :: cname (s + 1) (n - 1).
Proof.
  intros Hn. unfold cname. replace (Z.to_nat n) with (S (Z.to_nat (n - 1))) by lia. cbn [seq map].
  rewrite Z.add_0_r. f_equal. rewrite <- seq_shift, map_map. apply map_ext. intros i. f_equal. lia.
Qed.

Lemma cname_nil s : cname s 0 = [].
Proof. done. Qed.

Lemma cstr_next s n : cstr s n -> 0 < n -> cstr (s + 1) (n - 1).
Proof.
  intros [H0 H1 H2] Hn. constructor; [lia| |].
  - intros i Hi. replace (s + 1 + i) with (s + (1 + i)) by lia. apply H1. lia.
  - by replace (s + 1 + (n - 1)) with (s + n) by lia.
Qed.

Lemma cstr_unique s n m : cstr s n -> cstr s m -> n = m.
Proof.
  intros [A0 A1 A2] [B0 B1 B2]. destruct (Z.lt_trichotomy n m) as [?|[?|?]]; [|done|]; exfalso.
  - by apply (B1 n).
  - by apply (A1 m).
Qed.

Lemma wp_walk {St R} (I : St -> Prop) (meas : St -> Z) (body : St -> M dtb (St + R)) Q st :
  I st -> (forall st, I st -> 0 <= meas st) -> meas st <= blob_len b ->
  (forall st, I st -> wp (body st) (fun r s' => s' = b /\ match r with
     | inl st' => I st' /\ meas st' < meas st | inr v => Q v b end) b) ->
  wp (walk body st) Q b.
Proof.
  intros HI Hpos Hm Hbody. unfold walk. wp_steps.
  apply (wp_loop (fun st s => s = b /\ I st) (fun st _ => meas st)); [intros ? ? [_ ?]; by apply Hpos| |done|unfold blob_len in Hm; lia].
  intros st' s [-> HI']. eapply wp_mono; [by apply Hbody|]. intros [?|?] s' [-> H]; [tauto|done].
Qed.

Lemma wp_str_len s n Q : 0 <= s -> cstr s n -> s + n < blob_len b -> s + n < 2 ^ 32 -> Q n b -> wp (str_len s) Q b.
Proof.
  intros Hs Hc He Hl HQ. pose proof (cs_len _ _ Hc). unfold str_len.
  apply (wp_walk (fun i => 0 <= i <= n) (fun i => n - i)); [lia|lia|lia|]. intros i Hi.
  apply wp_bind, wp_byte_at; [lia|]. destruct (Z.eqb_spec (byte b (s + i)) 0) as [E|E]; apply wp_ret; split; try done.
  - destruct (Z.eq_dec i n) as [->|]; [done|]. exfalso. apply (cs_chars _ _ Hc i); [lia|done].
  - assert (i <> n) by (intros ->; apply E, (cs_nul _ _ Hc)). rewrite u32_id by lia. lia.
Qed.

(** The bounded scan stops at the first zero or at the bound. *)
Lemma wp_bounded_len cur fin Q :
  0 <= cur <= fin -> fin <= blob_len b -> fin < 2 ^ 32 ->
  (forall n, 0 <= n <= fin - cur -> (forall i, 0 <= i < n -> byte b (cur + i) <> 0) ->
     (cur + n = fin \/ (cur + n < fin /\ byte b (cur + n) = 0)) -> Q n b) ->
  wp (bounded_len cur fin) Q b.
Proof.
  intros Hc Hf Hl HQ. unfold bounded_len.
  apply (wp_walk (fun n => 0 <= n <= fin - cur /\ forall i, 0 <= i < n -> byte b (cur + i) <> 0) (fun n => fin - cur - n));
    [split; [lia|intros; lia]|intros; lia|lia|]. intros n [Hn Hz].
  destruct (Z.ltb_spec (cur + n) fin); cbn [negb].
  - apply wp_bind, wp_byte_at; [lia|]. destruct (Z.eqb_spec (byte b (cur + n)) 0) as [E|E]; apply wp_ret; split; try done.
    + apply HQ; [done|done|]. right. lia.
    + rewrite u32_id by lia. split; [|lia]. split; [lia|]. intros i Hi.
      destruct (Z.eq_dec i n) as [->|]; [done|]. apply Hz. lia.
  - apply wp_ret. split; [done|]. apply HQ; [done|done|]. left. lia.
Qed.

(** Comparison with a string stays inside the string. *)
Lemma wp_name_eq s n cmp Q :
  0 <= s -> cstr s n -> s + n < blob_len b -> Forall (fun c => c <> 0) cmp ->
  Q (bool_decide (cname s n = cmp)) b -> wp (name_eq s cmp) Q b.
Proof.
  revert s n. induction cmp as [|x cmp IH]; intros s n Hs Hc He Hnz HQ; cbn [name_eq].
  - pose proof (cs_len _ _ Hc). apply wp_bind, wp_byte_at; [lia|]. apply wp_ret.
    destruct (Z.eq_dec n 0) as [->|Hn].
    + rewrite cname_nil, bool_decide_true in HQ by done. pose proof (cs_nul _ _ Hc) as E. rewrite Z.add_0_r in E. by rewrite E.
    + rewrite cname_cons, bool_decide_false in HQ by (done || lia).
      pose proof (cs_chars _ _ Hc 0 ltac:(lia)) as E. rewrite Z.add_0_r in E. by destruct (Z.eqb_spec (byte b s) 0).
  - apply Forall_cons in Hnz as [Hx Hnz]. pose proof (cs_len _ _ Hc). apply wp_bind, wp_byte_at; [lia|].
    destruct (Z.eq_dec n 0) as [->|Hn].
    + pose proof (cs_nul _ _ Hc) as E. rewrite Z.add_0_r in E. rewrite E.
      destruct (Z.eqb_spec 0 x); [congruence|]. cbn [negb]. apply wp_ret. by rewrite cname_nil, bool_decide_false in HQ.
    + rewrite cname_cons in HQ by lia. destruct (Z.eqb_spec (byte b s) x) as [E|E]; cbn [negb].
      * apply (IH _ (n - 1)); [lia|apply cstr_next; [done|lia]|lia|done|].
        rewrite E in HQ. destruct (decide (cname (s + 1) (n - 1) = cmp)) as [E1|E1].
        -- rewrite bool_decide_true in * by congruence. done.
        -- rewrite bool_decide_false in * by congruence. done.
      * apply wp_ret. rewrite bool_decide_false in HQ by congruence. done.
Qed.

(** The comparison of a prefix, too. *)
Lemma wp_name_starts_with s n pre Q :
  0 <= s -> cstr s n -> s + n < blob_len b -> Forall (fun c => c <> 0) pre ->
  Q (bool_decide (take (length pre) (cname s n) = pre)) b -> wp (name_starts_with s pre) Q b.
Proof.
  revert s n. induction pre as [|x pre IH]; intros s n Hs Hc He Hnz HQ; cbn [name_starts_with].
  - apply wp_ret. by rewrite bool_decide_true in HQ.
  - apply Forall_cons in Hnz as [Hx Hnz]. pose proof (cs_len _ _ Hc). apply wp_bind, wp_byte_at; [lia|].
    destruct (Z.eq_dec n 0) as [->|Hn].
    + pose proof (cs_nul _ _ Hc) as E. rewrite Z.add_0_r in E. rewrite E.
      destruct (Z.eqb_spec 0 x); [congruence|]. cbn [negb]. apply wp_ret. by rewrite cname_nil, bool_decide_false in HQ.
    + rewrite cname_cons in HQ by lia. cbn [length take] in HQ. destruct (Z.eqb_spec (byte b s) x) as [E|E]; cbn [negb].
      * apply (IH _ (n - 1)); [lia|apply cstr_next; [done|lia]|lia|done|].
        rewrite E in HQ. destruct (decide (take (length pre) (cname (s + 1) (n - 1)) = pre)) as [E1|E1].
        -- rewrite bool_decide_true in * by congruence. done.
        -- rewrite bool_decide_false in * by congruence. done.
      * apply wp_ret. rewrite bool_decide_false in HQ by congruence. done.
Qed.

(** A comparison inside a range of known length. *)
Lemma wp_name_eq_in s cmp Q :
  0 <= s -> s + Z.of_nat (length cmp) < blob_len b -> (forall r, Q r b) -> wp (name_eq s cmp) Q b.
Proof.
  revert s. induction cmp as [|x cmp IH]; intros s Hs He HQ; cbn [name_eq length] in *.
  - apply wp_bind, wp_byte_at; [lia|]. by apply wp_ret.
  - apply wp_bind, wp_byte_at; [lia|]. case_match; [by apply wp_ret|]. apply IH; [lia|lia|done].
Qed.

Lemma align4_eq n : 0 <= n < 2 ^ 32 - 4 -> align4 n = (n + 3) / 4 * 4.
Proof.
  intros Hn. unfold align4. rewrite u32_id by lia. rewrite land_not32 by lia. change 3 with (2 ^ 2 - 1) at 2.
  rewrite land_lnot_mask by lia. change (2 ^ 2) with 4. pose proof (Z.div_mod (n + 3) 4). lia.
Qed.

Lemma align4_bounds n : 0 <= n < 2 ^ 32 - 4 -> n <= align4 n < n + 4 /\ (4 | align4 n).
Proof.
  intros Hn. rewrite align4_eq by done. split; [|exists ((n + 3) / 4); lia].
  pose proof (Z.div_mod (n + 3) 4). pose proof (Z.mod_pos_bound (n + 3) 4). lia.
Qed.

End reads.

(** * The criterion of [fdt_check_header]

    The check accepts a readable blob exactly when its structure block is a
    stream of well-formed, properly nested tokens with one root. *)

(** A token with what the walkers look at. *)
Inductive token :=
| TBegin (name : list Z)
| TEnd
| TProp (pname : list Z) (data len : Z)
| TNop.

(** The declared blocks of a blob. *)
Definition s_base (b : dtb) : Z := word b 8.
Definition s_fin (b : dtb) : Z := word b 8 + word b 36.
Definition strings (b : dtb) : Z := word b 12.
Definition strings_size (b : dtb) : Z := word b 32.

(** [token_at b pos t nx]: token [t] at [pos], the next one at [nx]. *)
Inductive token_at (b : dtb) (pos : Z) : token -> Z -> Prop :=
| ta_begin n : word b pos = FDT_BEGIN_NODE -> cstr b (pos + 4) n ->
    pos + 4 + n < s_fin b -> pos + 4 + align4 (n + 1) <= s_fin b ->
    token_at b pos (TBegin (cname b (pos + 4) n)) (pos + 4 + align4 (n + 1))
| ta_end : word b pos = FDT_END_NODE -> pos + 4 <= s_fin b -> token_at b pos TEnd (pos + 4)
| ta_prop n : word b pos = FDT_PROP -> word b (pos + 4) <= 0x7fffffff ->
    pos + 12 + align4 (word b (pos + 4)) <= s_fin b ->
    cstr b (strings b + word b (pos + 8)) n -> word b (pos + 8) + n < strings_size b ->
    token_at b pos (TProp (cname b (strings b + word b (pos + 8)) n) (pos + 12) (word b (pos + 4)))
      (pos + 12 + align4 (word b (pos + 4)))
| ta_nop : word b pos = FDT_NOP -> pos + 4 <= s_fin b -> token_at b pos TNop (pos + 4).

(** Nesting: depth and whether a root has been seen, before and after. *)
Inductive nests : token -> Z * bool -> Z * bool -> Prop :=
| ne_begin name d seen : (d = 0 -> seen = false) -> d + 1 <= FDT_MAX_DEPTH -> nests (TBegin name) (d, seen) (d + 1, true)
| ne_end d seen : d <> 0 -> nests TEnd (d, seen) (d - 1, seen)
| ne_prop pn p l d seen : d <> 0 -> nests (TProp pn p l) (d, seen) (d, seen)
| ne_nop d seen : nests TNop (d, seen) (d, seen).

(** The tokens from [pos] to the end token. *)
Inductive stream (b : dtb) : Z -> Z * bool -> list (Z * token) -> Prop :=
| st_fin pos : word b pos = FDT_END -> pos + 4 <= s_fin b -> stream b pos (0, true) []
| st_tok pos nx t c c' toks : token_at b pos t nx -> nests t c c' -> stream b nx c' toks -> stream b pos c ((pos, t) :: toks).

Record valid (b : dtb) (toks : list (Z * token)) : Prop := {
  va_addr : b.(d_addr) <> 0 /\ Z.land b.(d_addr) 3 = 0;
  va_magic : word b 0 = FDT_MAGIC;
  va_bounds : header_bounds_bad (word b 4) (word b 8) (word b 36) (word b 12) (word b 32) (word b 16) = false;
  va_stream : stream b (s_base b) (0, false) toks;
}.

(** ** Consequences of the declared bounds *)

Lemma header_bounds total offset size so ss ro :
  header_bounds_bad total offset size so ss ro = false ->
  SIZEOF_FDT_HEADER <= total < 2 ^ 31 /\ SIZEOF_FDT_HEADER <= offset /\ offset + size <= total /\
  SIZEOF_FDT_HEADER <= so /\ so + ss <= total /\ SIZEOF_FDT_HEADER <= ro /\ ro + 16 <= total /\ (4 | offset).
Proof.
  unfold header_bounds_bad. rewrite !orb_false_iff.
  intros [[[[[[[[[[[[H1 H2] H3] Ha] H4] H5] H6] H7] H8] H9] _] H10] H11].
  apply negb_false_iff, Z.eqb_eq in Ha. change 3 with (2 ^ 2 - 1) in Ha. rewrite land_pow2_mask in Ha by lia.
  apply divide_mod_0 in Ha; [|done].
  repeat match goal with H : (_ <? _) = false |- _ => apply Z.ltb_ge in H end. split_and!; (lia || done).
Qed.

Record bounds (b : dtb) : Prop := {
  bo_total : word b 4 < 2 ^ 31;
  bo_base : SIZEOF_FDT_HEADER <= s_base b;
  bo_align : (4 | s_base b);
  bo_fin : s_base b <= s_fin b <= blob_len b;
  bo_fin31 : s_fin b < 2 ^ 31;
  bo_strings : 0 <= strings b /\ 0 <= strings_size b /\ strings b + strings_size b <= blob_len b;
  bo_strings31 : strings b + strings_size b < 2 ^ 31;
  bo_rsv : SIZEOF_FDT_HEADER <= word b 16 /\ word b 16 + 16 <= word b 4 <= blob_len b;
}.

Lemma valid_bounds b :
  readable b -> header_bounds_bad (word b 4) (word b 8) (word b 36) (word b 12) (word b 32) (word b 16) = false -> bounds b.
Proof.
  intros Hb Hv%header_bounds. pose proof (rd_total b Hb). pose proof (word_range b Hb 36). pose proof (word_range b Hb 32).
  constructor; unfold s_base, s_fin, strings, strings_size in *; unfold SIZEOF_FDT_HEADER in *; (lia || tauto).
Qed.

Section check.
Context (b : dtb) (Hb : readable b) (Hbo : bounds b).
Implicit Types (toks : list (Z * token)) (c : Z * bool).

(** A token lies inside the structure block. *)
Lemma token_at_next pos t nx :
  0 <= pos -> token_at b pos t nx -> pos + 4 <= nx <= s_fin b.
Proof.
  intros Hp Ht. pose proof (bo_fin31 b Hbo). destruct Ht as [n Hw Hc Hn Hf|Hw Hf|n Hw Hl Hf Hc Hn|Hw Hf].
  - pose proof (cs_len _ _ _ Hc). pose proof (align4_bounds (n + 1) ltac:(lia)). lia.
  - lia.
  - pose proof (word_range b Hb (pos + 4)). pose proof (align4_bounds (word b (pos + 4)) ltac:(lia)). lia.
  - lia.
Qed.

Lemma nests_depth t c c' : 0 <= c.1 -> nests t c c' -> 0 <= c'.1.
Proof. intros Hc Hn. destruct Hn; cbn in *; lia. Qed.

(** *** Every token the check lets through is one *)

(** What one round of the check establishes. *)
Definition check_result (pos : Z) (c : Z * bool) (r : (Z * Z * bool) + Z) : Prop :=
  match r with
  | inl (nx, d, seen) => exists t, token_at b pos t nx /\ nests t c (d, seen)
  | inr v => (v = 0 /\ word b pos = FDT_END /\ pos + 4 <= s_fin b /\ c = (0, true)) \/
             (v = -1 /\ forall toks, ~ stream b pos c toks)
  end.

Lemma no_stream pos c :
  (forall t nx c', token_at b pos t nx -> nests t c c' -> False) ->
  ~ (word b pos = FDT_END /\ pos + 4 <= s_fin b /\ c = (0, true)) -> forall toks, ~ stream b pos c toks.
Proof. intros H1 H2 toks Hs. destruct Hs; [by apply H2|by eapply H1]. Qed.

(** Solve a refusal: the word at [pos] decides the token. *)
Local Ltac refuse :=
  apply wp_ret; split; [done|]; right; split; [done|]; apply no_stream;
  [let Ht := fresh "Ht" in let Hne := fresh "Hne" in intros ? ? ? Ht Hne;
   destruct Ht as [m Htw Htc Htn Htf|Htw Htf|m Htw Htl Htf Htc Htn|Htw Htf]; inversion Hne; subst
  |intros (?E1 & ?E2 & ?E3)];
  unfold FDT_BEGIN_NODE, FDT_END_NODE, FDT_PROP, FDT_NOP, FDT_END in *; try congruence; try lia.

Lemma check_begin pos d seen :
  SIZEOF_FDT_HEADER <= pos -> pos + 4 <= s_fin b -> 0 <= d -> word b pos = FDT_BEGIN_NODE ->
  wp (if (d =? 0) && seen then mret (inr (-1))
      else
        let depth := d + 1 in
        if FDT_MAX_DEPTH <? depth then mret (inr (-1))
        else
          n ← bounded_len (pos + 4) (s_fin b);
          if (pos + 4 + n =? s_fin b) || (s_fin b - (pos + 4) <? align4 (u32 (n + 1))) then mret (inr (-1))
          else mret (inl (pos + 4 + align4 (u32 (n + 1)), depth, true)))
     (fun r s => s = b /\ check_result pos (d, seen) r) b.
Proof.
  intros Hp Hf Hd Hw. pose proof (bo_fin31 b Hbo) as Hf31. pose proof (bo_fin b Hbo) as [_ Hfb]. unfold SIZEOF_FDT_HEADER in Hp.
  destruct ((d =? 0) && seen) eqn:E0.
  { apply andb_true_iff in E0 as [E0%Z.eqb_eq ->]. refuse. }
  cbv zeta. destruct (Z.ltb_spec FDT_MAX_DEPTH (d + 1)); [refuse|].
  apply wp_bind, wp_bounded_len; [lia|lia|lia|]. intros n Hn Hz He. rewrite (u32_id (n + 1)) by lia.
  pose proof (align4_bounds (n + 1) ltac:(lia)) as [Hal _].
  assert (Hcs : forall m, cstr b (pos + 4) m -> pos + 4 + m < s_fin b -> m = n /\ pos + 4 + n < s_fin b).
  { intros m Hm Hfm. pose proof (cs_len _ _ _ Hm). destruct He as [He|[He1 He2]].
    - exfalso. apply (Hz m); [lia|]. apply (cs_nul _ _ _ Hm).
    - split; [|lia]. eapply (cstr_unique b (pos + 4)); [done|]. constructor; [lia|done|done]. }
  destruct ((pos + 4 + n =? s_fin b) || (s_fin b - (pos + 4) <? align4 (n + 1))) eqn:E1.
  - refuse. destruct (Hcs m Htc Htn) as [-> ?]. apply orb_true_iff in E1 as [E1%Z.eqb_eq|E1%Z.ltb_lt]; lia.
  - apply wp_ret. split; [done|]. apply orb_false_iff in E1 as [E1%Z.eqb_neq E2%Z.ltb_ge].
    destruct He as [?|[He1 He2]]; [lia|]. cbn. eexists. split.
    + apply ta_begin; [done|constructor; [lia|done|done]|lia|lia].
    + constructor; [|lia]. intros ->. by destruct seen.
Qed.

Lemma check_prop pos d seen :
  SIZEOF_FDT_HEADER <= pos -> pos + 4 <= s_fin b -> 0 <= d -> word b pos = FDT_PROP ->
  wp (if (d =? 0) || (s_fin b - (pos + 4) <? 8) then mret (inr (-1))
      else
        len ← be32 (pos + 4);
        nameoff ← be32 (pos + 4 + 4);
        let cur := pos + 4 + 8 in
        if (0x7fffffff <? len) || (s_fin b - cur <? align4 len) || (strings_size b <=? nameoff) then mret (inr (-1))
        else
          n ← bounded_len (strings b + nameoff) (strings b + strings_size b);
          if n =? strings_size b - nameoff then mret (inr (-1))
          else mret (inl (cur + align4 len, d, seen)))
     (fun r s => s = b /\ check_result pos (d, seen) r) b.
Proof.
  intros Hp Hf Hd Hw. pose proof (bo_fin31 b Hbo) as Hf31. pose proof (bo_fin b Hbo) as [_ Hfb]. unfold SIZEOF_FDT_HEADER in Hp.
  pose proof (bo_strings b Hbo) as (Hs0 & Hs1 & Hs2). pose proof (bo_strings31 b Hbo) as Hs31.
  pose proof (word_range b Hb (pos + 4)) as Hlen. pose proof (word_range b Hb (pos + 8)) as Hno.
  destruct ((d =? 0) || (s_fin b - (pos + 4) <? 8)) eqn:E0.
  { refuse. pose proof (align4_bounds (word b (pos + 4)) ltac:(lia)). apply orb_true_iff in E0 as [E0%Z.eqb_eq|E0%Z.ltb_lt]; lia. }
  apply orb_false_iff in E0 as [E0%Z.eqb_neq E1%Z.ltb_ge].
  apply wp_bind, wp_be32; [done|lia|lia|]. apply wp_bind, wp_be32; [done|lia|lia|]. cbv zeta.
  replace (pos + 4 + 4) with (pos + 8) by lia. replace (pos + 4 + 8) with (pos + 12) by lia.
  destruct ((0x7fffffff <? word b (pos + 4)) || (s_fin b - (pos + 12) <? align4 (word b (pos + 4))) || (strings_size b <=? word b (pos + 8))) eqn:E2.
  { refuse. pose proof (cs_len _ _ _ Htc). apply orb_true_iff in E2 as [E2|E2%Z.leb_le]; [apply orb_true_iff in E2 as [E2%Z.ltb_lt|E2%Z.ltb_lt]|]; lia. }
  apply orb_false_iff in E2 as [E2 E3%Z.leb_gt]. apply orb_false_iff in E2 as [E2%Z.ltb_ge E4%Z.ltb_ge].
  apply wp_bind, wp_bounded_len; [lia|lia|lia|]. intros n Hn Hz He.
  destruct (Z.eqb_spec n (strings_size b - word b (pos + 8))) as [E5|E5].
  - refuse. exfalso. pose proof (cs_len _ _ _ Htc). apply (Hz m); [lia|]. apply (cs_nul _ _ _ Htc).
  - apply wp_ret. split; [done|]. destruct He as [?|[He1 He2]]; [lia|]. cbn. eexists. split.
    + eapply ta_prop; [done|lia|lia|constructor; [|exact Hz|done]; lia|lia].
    + by constructor.
Qed.

Lemma wp_check_token pos d seen :
  SIZEOF_FDT_HEADER <= pos -> 0 <= d ->
  wp (check_token (s_fin b) (strings b) (strings_size b) (pos, d, seen)) (fun r s => s = b /\ check_result pos (d, seen) r) b.
Proof.
  intros Hp Hd. pose proof (bo_fin31 b Hbo) as Hf31. pose proof (bo_fin b Hbo) as [_ Hfb]. unfold check_token.
  assert (Hlt : forall t nx, token_at b pos t nx -> pos + 4 <= s_fin b).
  { intros t nx Ht. destruct (token_at_next pos t nx ltac:(unfold SIZEOF_FDT_HEADER in *; lia) Ht). lia. }
  destruct (Z.ltb_spec (s_fin b - pos) 4).
  { apply wp_ret. split; [done|]. right. split; [done|]. apply no_stream; [|lia]. intros t nx c' Ht _. apply Hlt in Ht. lia. }
  apply wp_bind, wp_be32; [done|unfold SIZEOF_FDT_HEADER in *; lia|lia|].
  destruct (Z.eqb_spec (word b pos) FDT_BEGIN_NODE) as [Hw|Hw1]; [apply check_begin; lia || done|].
  destruct (Z.eqb_spec (word b pos) FDT_END_NODE) as [Hw|Hw2].
  { destruct (Z.eqb_spec d 0) as [->|Hd0]; [refuse|]. apply wp_ret. split; [done|]. exists TEnd. split; [apply ta_end; [done|lia]|by constructor]. }
  destruct (Z.eqb_spec (word b pos) FDT_PROP) as [Hw|Hw3]; [apply check_prop; lia || done|].
  destruct (Z.eqb_spec (word b pos) FDT_NOP) as [Hw|Hw4].
  { apply wp_ret. split; [done|]. exists TNop. split; [apply ta_nop; [done|lia]|by constructor]. }
  destruct (Z.eqb_spec (word b pos) FDT_END) as [Hw|Hw5]; [|refuse].
  destruct seen; [|refuse]. destruct (Z.eqb_spec d 0) as [->|Hd0]; [|refuse].
  apply wp_ret. split; [done|]. left. split_and!; try done. lia.
Qed.

(** The walk of the check: 0 exactly when the rest is a stream. *)
Lemma wp_check_walk pos c :
  SIZEOF_FDT_HEADER <= pos <= s_fin b -> 0 <= c.1 ->
  wp (walk (check_token (s_fin b) (strings b) (strings_size b)) (pos, c.1, c.2))
     (fun r s => s = b /\ ((r = 0 /\ exists toks, stream b pos c toks) \/ (r = -1 /\ forall toks, ~ stream b pos c toks))) b.
Proof.
  intros Hp Hc. destruct c as [d seen]. cbn [fst snd] in *. pose proof (bo_fin b Hbo) as [_ Hfb].
  apply (wp_walk b (fun '(p, d', seen') => SIZEOF_FDT_HEADER <= p <= s_fin b /\ 0 <= d' /\
      (forall toks, stream b p (d', seen') toks -> exists toks', stream b pos (d, seen) toks') /\
      ((exists toks, stream b pos (d, seen) toks) -> exists toks', stream b p (d', seen') toks'))
    (fun '(p, _, _) => s_fin b - p)).
  - split_and!; try lia; eauto.
  - intros [[p d'] seen']. lia.
  - unfold SIZEOF_FDT_HEADER in *. lia.
  - intros [[p d'] seen'] (Hp' & Hd' & Hf & Hbk). eapply wp_mono; [by apply wp_check_token; [lia|]|].
    intros [[[nx d2] seen2]|v] s [-> Hr]; (split; [done|]); cbn in Hr.
    + destruct Hr as (t & Ht & Hn). pose proof (token_at_next p t nx ltac:(unfold SIZEOF_FDT_HEADER in *; lia) Ht) as Hnx.
      split; [|lia]. split; [lia|]. split; [by apply (nests_depth t (d', seen') (d2, seen2))|]. split.
      * intros toks Hs. apply (Hf ((p, t) :: toks)). by econstructor.
      * intros Hex. destruct (Hbk Hex) as [toks' Hs']. inversion Hs' as [? Hw|? nx' t' ? c2 toks2 Ht' Hn' Hs2]; subst.
        { exfalso. destruct Ht; unfold FDT_BEGIN_NODE, FDT_END_NODE, FDT_PROP, FDT_NOP, FDT_END in *; congruence. }
        assert (t' = t /\ nx' = nx) as [-> ->].
        { destruct Ht, Ht'; unfold FDT_BEGIN_NODE, FDT_END_NODE, FDT_PROP, FDT_NOP, FDT_END in *; try congruence; try done;
            match goal with H : cstr b ?s ?n, H' : cstr b ?s ?m |- _ => by rewrite (cstr_unique b _ _ _ H H') end. }
        assert (c2 = (d2, seen2)) as -> by (destruct Hn; inversion Hn'; congruence). by exists toks2.
    + split; [done|]. destruct Hr as [(-> & Hw & Hfi & Hcc)|[-> Hno]].
      * left. split; [done|]. apply (Hf []). rewrite Hcc. by constructor.
      * right. split; [done|]. intros toks Hs. destruct (Hbk (ex_intro _ toks Hs)) as [toks' Hs']. by eapply Hno.
Qed.

End check.

(** The exact criterion of [fdt_check_header]. *)
Lemma wp_check b Q :
  readable b ->
  (forall toks, valid b toks -> bounds b -> Q 0 b) -> ((forall toks, ~ valid b toks) -> Q (-1) b) ->
  wp fdt_check_header Q b.
Proof.
  intros Hb HQ HN. pose proof (rd_header b Hb) as Hh. unfold SIZEOF_FDT_HEADER in Hh.
  unfold fdt_check_header, hdr_magic, hdr_totalsize, hdr_off_dt_struct, hdr_size_dt_struct, hdr_off_dt_strings,
    hdr_size_dt_strings, hdr_off_mem_rsvmap.
  apply wp_bind, wp_gets. destruct ((d_addr b =? 0) || negb (Z.land (d_addr b) 3 =? 0)) eqn:E0.
  { apply wp_ret, HN. intros toks [[H1 H2] _ _ _]. apply orb_true_iff in E0 as [E0%Z.eqb_eq|E0%negb_true_iff]; [done|]. by rewrite H2 in E0. }
  apply orb_false_iff in E0 as [E0%Z.eqb_neq E1]. apply negb_false_iff, Z.eqb_eq in E1.
  apply wp_bind, wp_be32; [done|lia|lia|]. destruct (Z.eqb_spec (word b 0) FDT_MAGIC) as [Em|Em]; cbn [negb].
  2:{ apply wp_ret, HN. intros toks [_ H _ _]. done. }
  do 6 (apply wp_bind, wp_be32; [done|lia|lia|]).
  destruct (header_bounds_bad (word b 4) (word b 8) (word b 36) (word b 12) (word b 32) (word b 16)) eqn:Eh.
  { apply wp_ret, HN. intros toks [_ _ H _]. congruence. }
  pose proof (valid_bounds b Hb Eh) as Hbo.
  eapply wp_mono; [apply (wp_check_walk b Hb Hbo (s_base b) (0, false)); [split; [apply Hbo|apply Hbo]|done]|].
  intros r s [-> [[-> [toks Hs]]|[-> Hno]]].
  - eapply HQ; [by constructor|done].
  - apply HN. intros toks [_ _ _ Hs]. by eapply Hno.
Qed.
