(* ===== verification/FdtWalk.v ===== *)
(** * The walkers of [fdt.c] on token streams

    Each search over the structure block, as a function of the token list that
    [fdt_check_header] has accepted. *)

From S2P Require Import Prelude Fdt FdtStream.

Open Scope Z_scope.

Implicit Types (toks : list (Z * token)) (c : Z * bool).

(** ** Specifications *)

(** The property [name] among the tokens that follow a node's begin token:
    [depth] counts the open descendants. *)
Fixpoint getprop_spec (name : list Z) (depth : Z) toks : option (Z * Z) :=
  match toks with
  | [] => None
  | (_, TBegin _) :: toks' => getprop_spec name (depth + 1) toks'
  | (_, TEnd) :: toks' => if depth =? 0 then None else getprop_spec name (depth - 1) toks'
  | (_, TProp pn p len) :: toks' =>
      if bool_decide (depth = 0 /\ pn = name) then Some (p, len) else getprop_spec name depth toks'
  | (_, TNop) :: toks' => getprop_spec name depth toks'
  end.

(** The tokens from position [pos] on. *)
Fixpoint from_pos (pos : Z) toks : list (Z * token) :=
  match toks with
  | [] => []
  | (p, t) :: toks' => if p =? pos then toks else from_pos pos toks'
  end.

Definition prop_of (b : dtb) toks (node : Z) (name : list Z) : option (Z * Z) :=
  match from_pos (s_base b + node) toks with
  | (_, TBegin _) :: toks' => getprop_spec name 0 toks'
  | _ => None
  end.

(** The node reached by the components, or -1. *)
Fixpoint path_spec (base : Z) (comps : list (list Z)) (depth match_depth : Z) toks : Z :=
  match toks with
  | [] => -1
  | (pos, TBegin name) :: toks' =>
      let depth := depth + 1 in
      if depth =? 0 then
        if bool_decide (comps = []) then pos - base else path_spec base comps depth 0 toks'
      else if bool_decide (match_depth = depth - 1 /\ comps !! Z.to_nat (depth - 1) = Some name) then
        if depth =? Z.of_nat (length comps) then pos - base else path_spec base comps depth depth toks'
      else path_spec base comps depth match_depth toks'
  | (_, TEnd) :: toks' => path_spec base comps (depth - 1) (if match_depth =? depth then depth - 1 else match_depth) toks'
  | _ :: toks' => path_spec base comps depth match_depth toks'
  end.

(** ** Walking a stream *)

Section walk.
Context (b : dtb) (Hb : readable b) (Hbo : bounds b).

Lemma stream_start pos c toks : 0 <= pos -> stream b pos c toks -> pos + 4 <= s_fin b.
Proof. intros Hp Hs. destruct Hs as [? _ ?|pos nx t c c' toks Ht _ _]; [done|]. pose proof (token_at_next b Hb Hbo pos t nx Hp Ht). lia. Qed.

Lemma wp_tokens {St R} (cur : St -> Z) (J : St -> Z * bool -> list (Z * token) -> Prop) (body : St -> M dtb (St + R)) Q st c toks :
  stream b (cur st) c toks -> 0 <= cur st -> J st c toks ->
  (forall st c, J st c [] -> 0 <= cur st -> word b (cur st) = FDT_END -> cur st + 4 <= s_fin b ->
     wp (body st) (fun r s => s = b /\ match r with inl _ => False | inr v => Q v b end) b) ->
  (forall st c t nx c' toks, J st c ((cur st, t) :: toks) -> 0 <= cur st -> token_at b (cur st) t nx -> nests t c c' ->
     stream b nx c' toks ->
     wp (body st) (fun r s => s = b /\ match r with inl st' => cur st' = nx /\ J st' c' toks | inr v => Q v b end) b) ->
  wp (walk body st) Q b.
Proof.
  intros Hs Hp HJ Hend Hstep. pose proof (bo_fin b Hbo) as [_ Hf].
  apply (wp_walk b (fun st => 0 <= cur st /\ exists c toks, stream b (cur st) c toks /\ J st c toks) (fun st => s_fin b - cur st)).
  - eauto.
  - intros st' [Hp' (c' & toks' & Hs' & _)]. apply stream_start in Hs'; lia.
  - lia.
  - intros st' [Hp' (c' & toks' & Hs' & HJ')]. inversion Hs' as [pos Hw Hfi|pos nx t c1 c2 toks2 Ht Hn Hs2]; subst.
    + eapply wp_mono; [by eapply Hend|]. intros [?|?] b' [-> H]; done.
    + pose proof (token_at_next b Hb Hbo _ t nx Hp' Ht). pose proof (stream_start nx c2 toks2 ltac:(lia) Hs2).
      eapply wp_mono; [by eapply Hstep|]. intros [st2|v] b' [-> H2]; [|done]. destruct H2 as [<- HJ2].
      split; [done|]. split; [|lia]. split; [lia|]. by exists c2, toks2.
Qed.

(** The first read of every round, and the reads that depend on the token. *)
Lemma token_word pos t nx : token_at b pos t nx ->
  word b pos = match t with TBegin _ => FDT_BEGIN_NODE | TEnd => FDT_END_NODE | TProp _ _ _ => FDT_PROP | TNop => FDT_NOP end.
Proof. by destruct 1. Qed.

Lemma wp_token_read pos (Q : Z -> dtb -> Prop) : 0 <= pos -> pos + 4 <= s_fin b -> Q (word b pos) b -> wp (be32 pos) Q b.
Proof. intros Hp Hf HQ. apply wp_be32; [done|done|pose proof (bo_fin b Hbo); lia|done]. Qed.

Lemma wp_begin_skip pos name nx (Q : Z -> dtb -> Prop) :
  0 <= pos -> token_at b pos (TBegin name) nx ->
  (forall n, cstr b (pos + 4) n -> cname b (pos + 4) n = name -> pos + 4 + n < blob_len b -> nx = pos + 4 + align4 (u32 (n + 1)) -> Q n b) ->
  wp (str_len (pos + 4)) Q b.
Proof.
  intros Hp Ht HQ. inversion Ht as [n Hw Hc Hn Hf| | |]; subst. pose proof (bo_fin b Hbo) as [_ Hfb]. pose proof (bo_fin31 b Hbo).
  pose proof (cs_len _ _ _ Hc). apply (wp_str_len b (pos + 4) n); [lia|done|lia|lia|].
  apply HQ; [done|done|lia|]. by rewrite u32_id by lia.
Qed.

(** The data of a property. *)
Record prop_ok (p len : Z) : Prop := {
  pk_range : 0 <= p /\ 0 <= len < 2 ^ 31 /\ p + len <= s_fin b;
}.

Lemma prop_token pos pn p len nx :
  0 <= pos -> token_at b pos (TProp pn p len) nx ->
  prop_ok p len /\ p = pos + 4 + 4 + 4 /\ len = word b (pos + 4) /\ nx = pos + 4 + 4 + 4 + align4 len /\ pos + 12 <= blob_len b /\
  exists n, cstr b (strings b + word b (pos + 4 + 4)) n /\ cname b (strings b + word b (pos + 4 + 4)) n = pn /\
    strings b + word b (pos + 4 + 4) + n < blob_len b /\ 0 <= strings b + word b (pos + 4 + 4).
Proof.
  intros Hp Ht. replace (pos + 4 + 4) with (pos + 8) by lia. replace (pos + 8 + 4) with (pos + 12) by lia.
  inversion Ht as [| |n Hw Hl Hf Hc Hn|]; subst. pose proof (bo_fin b Hbo) as [_ Hfb].
  pose proof (word_range b Hb (pos + 4)). pose proof (word_range b Hb (pos + 8)). pose proof (bo_strings b Hbo) as (? & ? & ?).
  pose proof (align4_bounds (word b (pos + 4)) ltac:(lia)). pose proof (cs_len _ _ _ Hc).
  split; [constructor; lia|]. split_and!; try (done || lia). exists n. split_and!; (done || lia).
Qed.

(** ** Looking up a property *)

(** Decide the switch on a token from its word. *)
Local Ltac switch Ht :=
  rewrite (token_word _ _ _ Ht); cbv beta iota zeta;
  unfold FDT_BEGIN_NODE, FDT_END_NODE, FDT_PROP, FDT_NOP, FDT_END; cbn [Z.eqb Pos.eqb].
Local Ltac switch_end Hw :=
  rewrite Hw; unfold FDT_BEGIN_NODE, FDT_END_NODE, FDT_PROP, FDT_NOP, FDT_END; cbn [Z.eqb Pos.eqb].
Local Ltac in_block Hf := match goal with |- context [negb (?p <? s_fin b)] => destruct (Z.ltb_spec p (s_fin b)); [cbn [negb]|lia] end.

(** The invariant of the next round. *)
Local Ltac next_ok := cbn [fst snd] in *; split_and!; (done || lia).

Lemma wp_getprop_walk name pos depth c toks Q :
  Forall (fun x => x <> 0) name -> stream b pos c toks -> 0 <= pos ->
  Q (getprop_spec name depth toks) b ->
  wp (walk (getprop_token (s_fin b) (strings b) name) (pos, depth)) Q b.
Proof.
  intros Hnm Hs Hp HQ.
  apply (wp_tokens fst (fun st _ toks' => getprop_spec name st.2 toks' = getprop_spec name depth toks) _ _ (pos, depth) c toks); [done|done|done| |].
  - intros [p d] c' HJ Hp' Hw Hf. cbn [fst snd] in *. unfold getprop_token. in_block Hf.
    apply wp_bind, wp_token_read; [done|lia|]. switch_end Hw. apply wp_ret. split; [done|]. by rewrite <- HJ in HQ.
  - intros [p d] c' t nx c2 toks2 HJ Hp' Ht Hn Hs2. cbn [fst snd] in *. pose proof (token_at_next b Hb Hbo p t nx Hp' Ht).
    unfold getprop_token. in_block Ht. apply wp_bind, wp_token_read; [done|lia|]. switch Ht.
    destruct t as [nm| |pn q len|]; cbn [getprop_spec] in HJ.
    + apply wp_bind. eapply wp_begin_skip; [done|exact Ht|]. intros n _ _ _ ->. by apply wp_ret.
    + pose proof Ht as Ht'. inversion Ht'; subst. destruct (Z.eqb_spec d 0); apply wp_ret; split; try done. by rewrite <- HJ in HQ.
    + destruct (prop_token p pn q len nx Hp' Ht) as ([Hpk] & Eq & El & En & Hbl & m & Hc & Hcn & Hm & Hm0).
      apply wp_bind, wp_be32; [done|lia|lia|]. apply wp_bind, wp_be32; [done|lia|lia|]. rewrite <- El.
      assert (Hgo : forall r, r = bool_decide (d = 0 /\ pn = name) ->
        wp (if r then mret (inr (Some (p + 4 + 4 + 4, i32 len))) else mret (inl (p + 4 + 4 + 4 + align4 len, d)))
          (fun r s => s = b /\ match r with inl st' => st'.1 = nx /\ getprop_spec name st'.2 toks2 = getprop_spec name depth toks | inr v => Q v b end) b).
      { intros r ->. case_bool_decide; apply wp_ret; (split; [done|]); [|split; [done|exact HJ]].
        rewrite i32_id by lia. rewrite <- HJ in HQ. by rewrite Eq in HQ. }
      apply wp_bind. destruct (Z.eqb_spec d 0) as [->|Hd].
      * eapply wp_name_eq; [done|exact Hc|done|done|]. rewrite Hcn. apply Hgo.
        apply bool_decide_ext. naive_solver.
      * apply wp_ret. apply (Hgo false). symmetry. apply bool_decide_eq_false_2. tauto.
    + pose proof Ht as Ht'. inversion Ht'; subst. by apply wp_ret.
Qed.

Lemma token_next_aligned pos t nx : 0 <= pos -> (4 | pos) -> token_at b pos t nx -> (4 | nx).
Proof.
  intros Hp Hd Ht. pose proof (bo_fin31 b Hbo). destruct Ht as [n ? Hc ? ?|? ?|n ? ? ? ? ?|? ?].
  - pose proof (cs_len _ _ _ Hc). destruct (align4_bounds (n + 1) ltac:(lia)) as [_ ?].
    apply Z.divide_add_r; [apply Z.divide_add_r; [done|by exists 1]|done].
  - apply Z.divide_add_r; [done|by exists 1].
  - pose proof (word_range b Hb (pos + 4)). destruct (align4_bounds (word b (pos + 4)) ltac:(lia)) as [_ ?].
    apply Z.divide_add_r; [apply Z.divide_add_r; [done|by exists 3]|done].
  - apply Z.divide_add_r; [done|by exists 1].
Qed.

(** Positions grow along a stream and are aligned. *)
Lemma stream_pos pos c toks p t : 0 <= pos -> (4 | pos) -> stream b pos c toks -> (p, t) ∈ toks -> pos <= p /\ (4 | p) /\ p + 4 <= s_fin b.
Proof.
  intros Hp Hd Hs. revert Hp Hd. induction Hs as [|pos nx t0 c c' toks Ht Hn Hs IH]; intros Hp Hd Hin; [by apply elem_of_nil in Hin|].
  pose proof (token_at_next b Hb Hbo pos t0 nx Hp Ht) as Hnx. apply elem_of_cons in Hin as [E|Hin]; [injection E as -> _; split; [lia|split; [done|lia]]|].
  pose proof (token_next_aligned pos t0 nx Hp Hd Ht) as Hdn.
  destruct (IH ltac:(lia) Hdn Hin) as (? & ? & ?). split; [lia|done].
Qed.

Lemma from_pos_none pos toks : (forall t, (pos, t) ∉ toks) -> from_pos pos toks = [].
Proof.
  induction toks as [|[p t] toks IH]; intros Hn; cbn; [done|].
  destruct (Z.eqb_spec p pos) as [->|]; [exfalso; apply (Hn t); set_solver|]. apply IH. intros t' Hin. apply (Hn t'). set_solver.
Qed.

Lemma from_pos_elem q toks p t rest : from_pos q toks = (p, t) :: rest -> (q, t) ∈ toks.
Proof.
  induction toks as [|[p' t'] toks IH]; [done|]. cbn. destruct (Z.eqb_spec p' q) as [->|].
  - intros E. injection E as -> -> ->. by left.
  - intros E. right. by apply IH.
Qed.

Lemma from_pos_stream pos c toks q p t rest :
  stream b pos c toks -> from_pos q toks = (p, t) :: rest -> exists c', stream b p c' ((p, t) :: rest) /\ p = q.
Proof.
  induction 1 as [|pos nx t0 c c' toks Ht Hn Hs IH]; [done|]. cbn. destruct (Z.eqb_spec pos q); [|done].
  intros E. injection E as -> -> ->. exists c. split; [by econstructor|done].
Qed.

Definition is_begin toks : bool := match toks with (_, TBegin _) :: _ => true | _ => false end.

Lemma wp_is_node c toks off Q :
  stream b (s_base b) c toks -> 0 <= off < 2 ^ 31 -> Q (is_begin (from_pos (s_base b + off) toks)) b ->
  wp (fdt_is_node_offset (s_base b) (s_fin b - s_base b) off) Q b.
Proof.
  intros Hs Ho HQ. pose proof (bo_base b Hbo) as Hba. unfold SIZEOF_FDT_HEADER in Hba. pose proof (bo_fin31 b Hbo) as H31.
  unfold fdt_is_node_offset. replace (s_base b + (s_fin b - s_base b)) with (s_fin b) by lia. rewrite u32_id by lia.
  apply (wp_tokens id (fun p _ toks' => s_base b <= p /\ (4 | p) /\ from_pos (s_base b + off) toks' = from_pos (s_base b + off) toks) _ _ _ c toks); [done|cbn; lia| | |].
  - split; [done|]. split; [apply Hbo|done].
  - intros p c' (Hpb & Hd & HJ) Hp' Hw Hf. unfold id in *. unfold is_node_token. in_block Hf.
    apply wp_bind, wp_token_read; [lia|lia|]. rewrite u32_id by lia. cbn in HJ. rewrite <- HJ in HQ. cbn in HQ. switch_end Hw.
    by repeat case_match; apply wp_ret.
  - intros p c' t nx c2 toks2 (Hpb & Hd & HJ) Hp' Ht Hn Hs2. unfold id in *. pose proof (token_at_next b Hb Hbo p t nx Hp' Ht) as Hnx.
    unfold is_node_token. in_block Ht. apply wp_bind, wp_token_read; [lia|lia|]. rewrite u32_id by lia. cbn [from_pos] in HJ.
    pose proof (token_next_aligned p t nx Hp' Hd Ht) as Hdn.
    destruct (Z.eqb_spec (p - s_base b) off) as [E|E].
    { apply wp_ret. split; [done|]. destruct (Z.eqb_spec p (s_base b + off)); [|lia]. rewrite <- HJ in HQ. rewrite (token_word _ _ _ Ht). by destruct t. }
    destruct (Z.eqb_spec p (s_base b + off)); [lia|]. destruct (Z.ltb_spec off (p - s_base b)).
    { apply wp_ret. split; [done|]. rewrite from_pos_none in HJ; [by rewrite <- HJ in HQ|]. intros t' Hin.
      destruct (stream_pos nx c2 toks2 _ t' ltac:(lia) Hdn Hs2 Hin). lia. }
    switch Ht. destruct t as [nm| |pn q len|].
    + apply wp_bind. eapply wp_begin_skip; [done|exact Ht|]. intros n' _ _ _ ->. apply wp_ret. split; [done|]. split; [done|]. split; [lia|done].
    + inversion Ht; subst. apply wp_ret. split; [done|]. split; [done|]. split; [lia|done].
    + destruct (prop_token p pn q len nx Hp' Ht) as ([Hpk] & Eq & El & En & Hbl & _).
      apply wp_bind, wp_be32; [done|lia|lia|]. apply wp_ret. split; [done|]. rewrite <- El.
      pose proof (align4_bounds len ltac:(lia)). rewrite u32_id by lia.
      replace (p + 4 + (8 + align4 len)) with nx by lia. split; [done|]. split; [lia|done].
    + inversion Ht; subst. apply wp_ret. split; [done|]. split; [done|]. split; [lia|done].
Qed.

(** [fdt_getprop] on an accepted blob. *)
Lemma wp_getprop_valid toks node name Q :
  valid b toks -> Forall (fun x => x <> 0) name -> node < 2 ^ 31 -> Q (prop_of b toks node name) b ->
  wp (fdt_getprop node name) Q b.
Proof.
  intros Hv Hnm Hnode HQ. pose proof (va_stream b toks Hv) as Hs. pose proof (bo_base b Hbo) as Hba. unfold SIZEOF_FDT_HEADER in Hba.
  pose proof (rd_header b Hb) as Hh. unfold SIZEOF_FDT_HEADER in Hh. pose proof (bo_fin b Hbo) as [Hbf Hfb]. pose proof (bo_fin31 b Hbo) as H31.
  unfold fdt_getprop, hdr_off_dt_struct, hdr_off_dt_strings, hdr_size_dt_struct. apply wp_bind, wp_gets.
  destruct (Z.eqb_spec (d_addr b) 0); [by destruct (va_addr b toks Hv)|].
  apply wp_bind, wp_check; [done| |by intros Hno; destruct (Hno toks)]. intros toks' _ _. cbn [Z.eqb negb].
  do 3 (apply wp_bind, wp_be32; [done|lia|lia|]). fold (s_base b) (strings b).
  change (s_base b + word b 36) with (s_fin b). replace (word b 36) with (s_fin b - s_base b) by (unfold s_fin, s_base; lia).
  assert (Hout : (forall t, (s_base b + node, t) ∉ toks) -> Q None b).
  { intros Hno. unfold prop_of in HQ. by rewrite from_pos_none in HQ. }
  assert (Hpos : forall t, (s_base b + node, t) ∈ toks -> 0 <= node /\ (4 | node) /\ node + 4 <= s_fin b - s_base b).
  { intros t Hin. destruct (stream_pos (s_base b) (0, false) toks (s_base b + node) t ltac:(lia) (bo_align b Hbo) Hs Hin) as (H1 & H2 & H3). split; [lia|]. split; [|lia].
    replace node with (s_base b + node - s_base b) by lia. apply Z.divide_sub_r; [done|apply Hbo]. }
  destruct ((node <? 0) || negb (Z.land node 3 =? 0) || (s_fin b - s_base b <=? u32 node)) eqn:Eg.
  { apply wp_ret, Hout. intros t Hin. destruct (Hpos t Hin) as (H1 & H2 & H3). apply orb_true_iff in Eg as [Eg|Eg%Z.leb_le].
    - apply orb_true_iff in Eg as [Eg%Z.ltb_lt|Eg%negb_true_iff%Z.eqb_neq]; [lia|]. apply Eg. change 3 with (2 ^ 2 - 1).
      rewrite land_pow2_mask by lia. by apply divide_mod_0.
    - rewrite u32_id in Eg by lia. lia. }
  apply orb_false_iff in Eg as [Eg Eg3%Z.leb_gt]. apply orb_false_iff in Eg as [Eg1%Z.ltb_ge Eg2]. rewrite u32_id in Eg3 by lia.
  apply wp_bind. eapply wp_is_node; [done|lia|]. unfold prop_of in HQ.
  destruct (from_pos (s_base b + node) toks) as [|[p t] rest] eqn:Ef; [by apply wp_ret|].
  pose proof (from_pos_stream _ _ _ _ _ _ _ Hs Ef) as Hfp.
  destruct Hfp as (c & Hs1 & ->). inversion Hs1 as [|? nx ? ? c2 ? Ht Hn Hs2]; subst.
  pose proof (token_at_next b Hb Hbo (s_base b + node) t nx ltac:(lia) Ht).
  destruct t as [nm| |pn q len|]; cbn [is_begin negb]; try by apply wp_ret.
  destruct (Z.ltb_spec (s_fin b) (s_base b + node + 4)); [lia|].
  apply wp_bind, wp_token_read; [lia|lia|]. rewrite (token_word _ _ _ Ht), Z.eqb_refl. cbn [negb].
  apply wp_bind. eapply wp_begin_skip; [lia|exact Ht|]. intros n' _ _ _ Enx. rewrite <- Enx.
  by apply (wp_getprop_walk name nx 0 c2 rest); [| |lia|].
Qed.

(** ** Paths *)

Lemma wp_path_walk comps pos depth md c toks Q :
  Forall (Forall (fun x => x <> 0)) comps -> stream b pos c toks -> s_base b <= pos -> depth = c.1 - 1 -> 0 <= c.1 ->
  Q (path_spec (s_base b) comps depth md toks) b ->
  wp (walk (path_token (s_base b) (s_fin b) comps) (pos, depth, md)) Q b.
Proof.
  intros Hnm Hs Hp Hdc Hc0 HQ. pose proof (bo_base b Hbo) as Hba. unfold SIZEOF_FDT_HEADER in Hba. pose proof (bo_fin31 b Hbo) as H31.
  apply (wp_tokens (fun st => st.1.1) (fun st c' toks' => s_base b <= st.1.1 /\ st.1.2 = c'.1 - 1 /\ 0 <= c'.1 /\
      path_spec (s_base b) comps st.1.2 st.2 toks' = path_spec (s_base b) comps depth md toks) _ _ (pos, depth, md) c toks);
    [done|cbn; lia|done| |].
  - intros [[p d] m'] c' (Hpb & Hd & _ & HJ) Hp' Hw Hf. cbn [fst snd] in *. unfold path_token. in_block Hf.
    apply wp_bind, wp_token_read; [done|lia|]. switch_end Hw. apply wp_ret. split; [done|]. by rewrite <- HJ in HQ.
  - intros [[p d] m'] c' t nx c2 toks2 (Hpb & Hd & Hc & HJ) Hp' Ht Hn Hs2. cbn [fst snd] in *.
    pose proof (token_at_next b Hb Hbo p t nx Hp' Ht) as Hnx.
    unfold path_token. in_block Ht. apply wp_bind, wp_token_read; [done|lia|]. switch Ht.
    destruct t as [nm| |pn q len|]; cbn [path_spec] in HJ; cbv zeta in HJ.
    + assert (c2.1 = c'.1 + 1) as Hc2 by (by inversion Hn). apply wp_bind. eapply wp_begin_skip; [done|exact Ht|].
      intros n Hcs Hcn Hbl Enx. rewrite <- Enx. rewrite i32_id by lia. replace (p + 4 - 4 - s_base b) with (p - s_base b) by lia.
      destruct (Z.eqb_spec (d + 1) 0) as [E|E].
      { destruct (Z.eqb_spec (Z.of_nat (length comps)) 0) as [El|El]; apply wp_ret; (split; [done|]).
        - rewrite bool_decide_true in HJ by (by destruct comps). by rewrite <- HJ in HQ.
        - rewrite bool_decide_false in HJ by (by intros ->). next_ok. }
      assert (Hnext : path_spec (s_base b) comps (d + 1) m' toks2 = path_spec (s_base b) comps depth md toks ->
        wp (mret (inl (nx, d + 1, m'))) (fun r s => s = b /\ match r with inl st' => st'.1.1 = nx /\ s_base b <= st'.1.1 /\ st'.1.2 = c2.1 - 1 /\ 0 <= c2.1 /\
          path_spec (s_base b) comps st'.1.2 st'.2 toks2 = path_spec (s_base b) comps depth md toks | inr v => Q v b end) b).
      { intros. apply wp_ret. split; [done|]. next_ok. }
      destruct ((m' =? d + 1 - 1) && (d + 1 <=? Z.of_nat (length comps))) eqn:Eg.
      * apply andb_true_iff in Eg as [Eg1%Z.eqb_eq Eg2%Z.leb_le].
        destruct (lookup_lt_is_Some_2 comps (Z.to_nat (d + 1 - 1)) ltac:(lia)) as [cmp Hcmp].
        apply wp_bind. eapply wp_defined; [exact Hcmp|]. apply wp_bind. rewrite Forall_lookup in Hnm.
        eapply wp_name_eq; [lia|exact Hcs|done|by eapply Hnm|]. rewrite Hcn.
        destruct (bool_decide (nm = cmp)) eqn:Enm; [apply bool_decide_eq_true in Enm|apply bool_decide_eq_false in Enm].
        -- rewrite bool_decide_true in HJ by (split; [done|congruence]).
           destruct (Z.eqb_spec (d + 1) (Z.of_nat (length comps))); apply wp_ret; (split; [done|]); [by rewrite <- HJ in HQ|].
           next_ok.
        -- rewrite bool_decide_false in HJ by (intros [_ ?]; congruence). by apply Hnext.
      * rewrite bool_decide_false in HJ; [by apply Hnext|]. intros [E1 E2]. apply lookup_lt_Some in E2.
        apply andb_false_iff in Eg as [Eg%Z.eqb_neq|Eg%Z.leb_gt]; lia.
    + inversion Ht; subst. inversion Hn; subst. apply wp_ret. split; [done|]. next_ok.
    + destruct (prop_token p pn q len nx Hp' Ht) as ([Hpk] & Eq & El & En & Hbl & _). inversion Hn; subst c' c2.
      apply wp_bind, wp_be32; [done|lia|lia|]. apply wp_ret. rewrite <- El. split; [done|]. next_ok.
    + inversion Ht; subst. inversion Hn; subst. apply wp_ret. split; [done|]. next_ok.
Qed.

(** [fdt_path_offset] of an absolute path. *)
Definition path_result toks (p : list Z) : Z :=
  if FDT_MAX_DEPTH <? Z.of_nat (length (path_comps p)) then -1 else path_spec (s_base b) (path_comps p) (-1) (-1) toks.

Lemma path_comps_nz p : Forall (fun x => x <> 0) p -> Forall (Forall (fun x => x <> 0)) (path_comps p).
Proof.
  induction p as [|x p IH]; intros Hp; cbn; [constructor|]. apply Forall_cons in Hp as [Hx Hp]. specialize (IH Hp).
  case_match; [constructor; [constructor|done]|]. destruct (path_comps p); [by repeat constructor|].
  apply Forall_cons in IH as [? ?]. repeat constructor; done.
Qed.

Lemma wp_path_valid toks p Q :
  valid b toks -> Forall (fun x => x <> 0) p -> Q (path_result toks p) b -> wp (fdt_path_offset (47 :: p)) Q b.
Proof.
  intros Hv Hp HQ. pose proof (rd_header b Hb) as Hh. unfold SIZEOF_FDT_HEADER in Hh.
  unfold fdt_path_offset, hdr_off_dt_struct, hdr_size_dt_struct. apply wp_bind, wp_gets.
  destruct (Z.eqb_spec (d_addr b) 0); [by destruct (va_addr b toks Hv)|]. cbn [Z.eqb Pos.eqb negb]. cbv zeta.
  unfold path_result in HQ. case_match; [by apply wp_ret|].
  apply wp_bind, wp_check; [done| |by intros Hno; destruct (Hno toks)]. intros toks' _ _. cbn [Z.eqb negb].
  do 2 (apply wp_bind, wp_be32; [done|lia|lia|]). fold (s_base b). change (s_base b + word b 36) with (s_fin b).
  by eapply (wp_path_walk _ _ _ _ (0, false)); [apply path_comps_nz|apply (va_stream b toks Hv)|lia|done|done|].
Qed.

End walk.
