(* ===== verification/FdtTree.v ===== *)
(** * Device trees

    The tree that a token stream spells out, and the answers of [fdt_path_offset]
    and [fdt_getprop] in terms of it. *)

From S2P Require Import Prelude Fdt FdtStream FdtWalk.

Open Scope Z_scope.

Implicit Types (toks rest : list (Z * token)).

(** What a node contains, in order: properties (name, data position, length) and
    child nodes (position, name, contents). *)
Inductive item :=
| IProp (pname : list Z) (data len : Z)
| INode (pos : Z) (name : list Z) (items : list item).

Implicit Types (its : list item).

(** [contents toks its rest]: [toks] begins with the contents [its] of a node and
    goes on with [rest], whose first token ends the node. *)
Inductive contents : list (Z * token) -> list item -> list (Z * token) -> Prop :=
| co_done e rest : contents ((e, TEnd) :: rest) [] ((e, TEnd) :: rest)
| co_nop p toks its rest : contents toks its rest -> contents ((p, TNop) :: toks) its rest
| co_prop p pn q len toks its rest :
    contents toks its rest -> contents ((p, TProp pn q len) :: toks) (IProp pn q len :: its) rest
| co_node p nm inner sub e after its rest :
    contents inner sub ((e, TEnd) :: after) -> contents after its rest ->
    contents ((p, TBegin nm) :: inner) (INode p nm sub :: its) rest.

Definition is_nop (x : Z * token) : Prop := x.2 = TNop.

(** A whole stream: one root. *)
Inductive document : list (Z * token) -> item -> Prop :=
| do_nop p toks root : document toks root -> document ((p, TNop) :: toks) root
| do_root p nm inner its e post :
    contents inner its ((e, TEnd) :: post) -> Forall is_nop post -> document ((p, TBegin nm) :: inner) (INode p nm its).

(** ** Queries on trees *)

Fixpoint first_some {A B} (f : A -> option B) (l : list A) : option B :=
  match l with
  | [] => None
  | x :: l' => match f x with Some r => Some r | None => first_some f l' end
  end.

(** The first property of that name that the node itself has. *)
Definition own_prop (name : list Z) its : option (Z * Z) :=
  first_some (fun it => match it with
    | IProp pn p len => if bool_decide (pn = name) then Some (p, len) else None
    | INode _ _ _ => None
    end) its.

(** The first node in document order whose path below here is [comps]. *)
Fixpoint search (comps : list (list Z)) (it : item) {struct it} : option Z :=
  match it with
  | IProp _ _ _ => None
  | INode p nm its =>
      match comps with
      | [] => None
      | c :: cs =>
          if bool_decide (nm = c) then
            match cs with [] => Some p | _ => first_some (search cs) its end
          else None
      end
  end.

(** The position that an absolute path with these components denotes. *)
Definition lookup_path (root : item) (comps : list (list Z)) : option Z :=
  match root with
  | INode p _ its => match comps with [] => Some p | _ => first_some (search comps) its end
  | IProp _ _ _ => None
  end.

(** [node_at it q its]: the tree [it] has a node at position [q] with contents [its]. *)
Inductive node_at : item -> Z -> list item -> Prop :=
| na_here p nm its : node_at (INode p nm its) p its
| na_child p nm its it q sub : it ∈ its -> node_at it q sub -> node_at (INode p nm its) q sub.

(** ** Streams spell trees *)

(** After the root has been seen, a level is the contents of a node. *)
Lemma stream_contents b n : forall pos d toks,
  (length toks <= n)%nat -> 1 <= d -> stream b pos (d, true) toks ->
  exists its e rest pos', contents toks its ((e, TEnd) :: rest) /\ stream b pos' (d - 1, true) rest /\ (length rest < length toks)%nat.
Proof.
  induction n as [|n IH]; intros pos d toks Hn Hd Hs; inversion Hs as [|? nx t ? c' toks' Ht Hne Hs']; subst; try lia; cbn in Hn; [lia|].
  inversion Hne; subst.
  - destruct (IH nx (d + 1) toks' ltac:(lia) ltac:(lia) Hs') as (sub & e & after & pos1 & Hsub & Hs1 & Hl1).
    replace (d + 1 - 1) with d in Hs1 by lia.
    destruct (IH pos1 d after ltac:(lia) Hd Hs1) as (its & e' & rest & pos2 & Hits & Hs2 & Hl2).
    exists (INode pos name sub :: its), e', rest, pos2. split; [by econstructor|]. split; [done|cbn; lia].
  - exists [], pos, toks', nx. split; [constructor|]. split; [done|cbn; lia].
  - destruct (IH nx d toks' ltac:(lia) Hd Hs') as (its & e & rest & pos1 & Hits & Hs1 & Hl1).
    exists (IProp pn p l :: its), e, rest, pos1. split; [by constructor|]. split; [done|cbn; lia].
  - destruct (IH nx d toks' ltac:(lia) Hd Hs') as (its & e & rest & pos1 & Hits & Hs1 & Hl1).
    exists its, e, rest, pos1. split; [by constructor|]. split; [done|cbn; lia].
Qed.

Lemma stream_nops b pos toks : stream b pos (0, true) toks -> Forall is_nop toks.
Proof.
  remember (0, true) as c eqn:Ec. induction 1 as [|pos nx t c c' toks Ht Hn Hs IH]; [constructor|]. subst c.
  inversion Hn; subst; try done.
  - match goal with H : 0 = 0 -> _ |- _ => by discriminate (H eq_refl) end.
  - constructor; [done|by apply IH].
Qed.

Lemma stream_document b pos toks : stream b pos (0, false) toks -> exists root, document toks root.
Proof.
  remember (0, false) as c eqn:Ec. induction 1 as [|pos nx t c c' toks Ht Hn Hs IH]; [done|]. subst c.
  inversion Hn; subst; try done.
  - destruct (stream_contents b (length toks) nx (0 + 1) toks ltac:(lia) ltac:(lia) Hs) as (its & e & rest & pos1 & Hits & Hs1 & _).
    exists (INode pos name its). econstructor; [exact Hits|]. by apply (stream_nops b pos1).
  - destruct (IH eq_refl) as [root Hr]. exists root. by constructor.
Qed.

(** ** Properties *)

Lemma getprop_skip name d toks its rest :
  contents toks its rest -> 1 <= d -> getprop_spec name d toks = getprop_spec name d rest.
Proof.
  intros Hc. revert d. induction Hc as [| |p pn q len toks its rest Hc IH|p nm inner sub e after its rest H1 IH1 H2 IH2]; intros d Hd; cbn [getprop_spec].
  - done.
  - by apply IHHc.
  - rewrite bool_decide_false by lia. by apply IH.
  - rewrite IH1 by lia. cbn [getprop_spec]. destruct (Z.eqb_spec (d + 1) 0); [lia|].
    replace (d + 1 - 1) with d by lia. by apply IH2.
Qed.

Lemma getprop_own name toks its e rest :
  contents toks its ((e, TEnd) :: rest) -> getprop_spec name 0 toks = own_prop name its.
Proof.
  remember ((e, TEnd) :: rest) as r eqn:Er. unfold own_prop.
  induction 1 as [| |p pn q len toks its r Hc IH|p nm inner sub e1 after its r H1 IH1 H2 IH2]; cbn [getprop_spec first_some].
  - by injection Er as -> ->.
  - by apply IHcontents.
  - specialize (IH Er). destruct (decide (pn = name)).
    + by rewrite !bool_decide_true by done.
    + rewrite !bool_decide_false by tauto. done.
  - rewrite (getprop_skip name (0 + 1) inner sub _ H1) by lia. cbn [getprop_spec]. destruct (Z.eqb_spec (0 + 1) 0); [lia|].
    by apply IH2.
Qed.

(** ** Paths *)

Section paths.
Context (base : Z) (comps : list (list Z)).

(** Outside a match nothing is found. *)
Lemma path_skip d md toks its rest :
  contents toks its rest -> 0 <= d -> md < d -> path_spec base comps d md toks = path_spec base comps d md rest.
Proof.
  intros Hc. revert d. induction Hc as [| |p pn q len toks its rest Hc IH|p nm inner sub e after its rest H1 IH1 H2 IH2]; intros d Hd Hm; cbn [path_spec].
  - done.
  - by apply IHHc.
  - by apply IH.
  - destruct (Z.eqb_spec (d + 1) 0); [lia|]. rewrite bool_decide_false by lia. rewrite IH1 by lia. cbn [path_spec].
    destruct (Z.eqb_spec md (d + 1)); [lia|]. replace (d + 1 - 1) with d by lia. by apply IH2.
Qed.

(** Below a node that matches the first [d] components, the search goes on with
    the others. *)
Lemma path_match toks its rest :
  contents toks its rest -> forall d, 0 <= d -> d < Z.of_nat (length comps) ->
  path_spec base comps d d toks =
  match first_some (search (drop (Z.to_nat d) comps)) its with
  | Some p => p - base
  | None => path_spec base comps d d rest
  end.
Proof.
  induction 1 as [| |p pn q len toks its rest Hc IH|p nm inner sub e after its rest H1 IH1 H2 IH2]; intros d Hd Hl; cbn [path_spec first_some].
  - done.
  - by apply IHcontents.
  - cbn [search]. by apply IH.
  - destruct (Z.eqb_spec (d + 1) 0); [lia|]. replace (d + 1 - 1) with d by lia.
    destruct (lookup_lt_is_Some_2 comps (Z.to_nat d) ltac:(lia)) as [c Hc].
    rewrite (drop_S comps c (Z.to_nat d) Hc) at 1. cbn [search]. rewrite Hc.
    destruct (decide (nm = c)) as [->|Hne].
    + rewrite !bool_decide_true by done. destruct (Z.eqb_spec (d + 1) (Z.of_nat (length comps))) as [E|E].
      * rewrite (drop_ge comps (S (Z.to_nat d))) by lia. done.
      * rewrite (IH1 (d + 1)) by lia. replace (Z.to_nat (d + 1)) with (S (Z.to_nat d)) by lia.
        destruct (drop (S (Z.to_nat d)) comps) as [|c' cs] eqn:Ed.
        { apply (f_equal length) in Ed. rewrite length_drop in Ed. cbn in Ed. lia. }
        rewrite <- Ed. destruct (first_some (search (drop (S (Z.to_nat d)) comps)) sub); [done|]. cbn [path_spec]. rewrite Z.eqb_refl.
        replace (d + 1 - 1) with d by lia. by apply IH2.
    + rewrite !bool_decide_false by naive_solver. rewrite (path_skip (d + 1) d inner sub _ H1) by lia. cbn [path_spec].
      destruct (Z.eqb_spec d (d + 1)); [lia|]. replace (d + 1 - 1) with d by lia. by apply IH2.
Qed.

Lemma path_nops d md toks : Forall is_nop toks -> path_spec base comps d md toks = -1.
Proof. induction 1 as [|[p t] toks Ht _ IH]; [done|]. unfold is_nop in Ht. cbn in Ht. subst t. done. Qed.

Lemma path_document toks root :
  document toks root ->
  path_spec base comps (-1) (-1) toks = match lookup_path root comps with Some p => p - base | None => -1 end.
Proof.
  induction 1 as [|p nm inner its e post Hc Hp]; [done|]. cbn [path_spec lookup_path]. change (-1 + 1) with 0. cbn [Z.eqb].
  destruct comps as [|c cs] eqn:Ec; [by rewrite bool_decide_true|]. rewrite bool_decide_false by done. rewrite <- Ec.
  rewrite (path_match inner its _ Hc 0) by (rewrite ?Ec; cbn; lia). rewrite drop_0.
  destruct (first_some (search comps) its); [done|]. cbn [path_spec]. by apply path_nops.
Qed.

End paths.

(** ** Nodes and positions *)

Lemma from_pos_app q toks pre : (forall t, (q, t) ∉ pre) -> from_pos q (pre ++ toks) = from_pos q toks.
Proof.
  induction pre as [|[p t] pre IH]; intros Hn; [done|]. cbn [from_pos app].
  destruct (Z.eqb_spec p q) as [->|]; [exfalso; apply (Hn t); set_solver|]. apply IH. set_solver.
Qed.

Lemma contents_suffix toks its rest : contents toks its rest -> exists mid, toks = mid ++ rest.
Proof.
  induction 1 as [e rest|p toks its rest _ [m ->]|p pn q len toks its rest _ [m ->]|p nm inner sub e after its rest _ [m ->] _ [m' ->]].
  - by exists [].
  - by exists ((p, TNop) :: m).
  - by exists ((p, TProp pn q len) :: m).
  - exists ((p, TBegin nm) :: m ++ (e, TEnd) :: m'). cbn. by rewrite <- app_assoc.
Qed.

(** The tokens of a node of the tree. *)
Lemma contents_node toks its rest it q sub :
  contents toks its rest -> it ∈ its -> node_at it q sub ->
  exists pre nm inner e after, toks = pre ++ (q, TBegin nm) :: inner /\ contents inner sub ((e, TEnd) :: after).
Proof.
  intros Hc. revert it q sub. induction Hc as [| |p pn r len toks its rest Hc IH|p nm inner sub0 e after its rest H1 IH1 H2 IH2]; intros it q sub Hin Hna.
  - by apply elem_of_nil in Hin.
  - destruct (IHHc it q sub Hin Hna) as (pre & nm & inner & e & after & -> & Hi). by exists ((p, TNop) :: pre), nm, inner, e, after.
  - apply elem_of_cons in Hin as [->|Hin]; [by inversion Hna|].
    destruct (IH it q sub Hin Hna) as (pre & nm & inner & e & after & -> & Hi). by exists ((p, TProp pn r len) :: pre), nm, inner, e, after.
  - apply elem_of_cons in Hin as [->|Hin].
    + inversion Hna as [|? ? ? it' ? ? Hin' Hna']; subst; [by exists [], nm, inner, e, after|].
      destruct (IH1 it' q sub Hin' Hna') as (pre & nm' & inner' & e' & after' & -> & Hi).
      by exists ((p, TBegin nm) :: pre), nm', inner', e', after'.
    + destruct (IH2 it q sub Hin Hna) as (pre & nm' & inner' & e' & after' & -> & Hi).
      destruct (contents_suffix _ _ _ H1) as [mid ->].
      exists ((p, TBegin nm) :: mid ++ (e, TEnd) :: pre), nm', inner', e', after'. cbn. by rewrite <- app_assoc.
Qed.

(** Every begin token is a node of the tree. *)
Lemma contents_begin toks its rest q nm :
  contents toks its rest -> (q, TBegin nm) ∈ toks -> (q, TBegin nm) ∈ rest \/ exists it sub, it ∈ its /\ node_at it q sub.
Proof.
  intros Hc. induction Hc as [e rest|p toks its rest _ IH|p pn r len toks its rest _ IH|p nm' inner sub0 e after its rest _ IH1 _ IH2]; intros Hin.
  - by left.
  - apply elem_of_cons in Hin as [E|Hin]; [done|]. by apply IH.
  - apply elem_of_cons in Hin as [E|Hin]; [done|]. destruct (IH Hin) as [?|(it & sub & Hit & Hn)]; [by left|].
    right. exists it, sub. split; [by right|done].
  - apply elem_of_cons in Hin as [E|Hin].
    { injection E as -> ->. right. exists (INode p nm' sub0), sub0. split; [by left|constructor]. }
    destruct (IH1 Hin) as [Ha|(it & sub & Hit & Hn)].
    + apply elem_of_cons in Ha as [E|Ha]; [done|]. destruct (IH2 Ha) as [?|(it & sub & Hit & Hn)]; [by left|].
      right. exists it, sub. split; [by right|done].
    + right. exists (INode p nm' sub0), sub. split; [by left|]. by eapply na_child.
Qed.

Lemma document_begin toks root q nm : document toks root -> (q, TBegin nm) ∈ toks -> exists sub, node_at root q sub.
Proof.
  induction 1 as [p toks root _ IH|p nm' inner its e post Hc Hp]; intros Hin.
  - apply elem_of_cons in Hin as [E|Hin]; [done|]. by apply IH.
  - apply elem_of_cons in Hin as [E|Hin]; [injection E as -> ->; exists its; constructor|].
    destruct (contents_begin _ _ _ _ _ Hc Hin) as [Hr|(it & sub & Hit & Hn)].
    + apply elem_of_cons in Hr as [E|Hr]; [done|]. rewrite Forall_forall in Hp. by specialize (Hp _ Hr).
    + exists sub. by eapply na_child.
Qed.

Lemma document_node toks root q sub :
  document toks root -> node_at root q sub ->
  exists pre nm inner e after, toks = pre ++ (q, TBegin nm) :: inner /\ contents inner sub ((e, TEnd) :: after).
Proof.
  induction 1 as [p toks root _ IH|p nm inner its e post Hc Hp]; intros Hna.
  - destruct (IH Hna) as (pre & nm & inner & e & after & -> & Hi). by exists ((p, TNop) :: pre), nm, inner, e, after.
  - inversion Hna as [|? ? ? it' ? ? Hin' Hna']; subst; [by exists [], nm, inner, e, post|].
    destruct (contents_node _ _ _ _ _ _ Hc Hin' Hna') as (pre & nm' & inner' & e' & after' & -> & Hi).
    by exists ((p, TBegin nm) :: pre), nm', inner', e', after'.
Qed.

Section lookup.
Context (b : dtb) (Hb : readable b) (Hbo : bounds b).

(** Positions are strictly increasing. *)
Lemma stream_sorted pos c toks pre q t rest :
  0 <= pos -> (4 | pos) -> stream b pos c toks -> toks = pre ++ (q, t) :: rest -> forall t', (q, t') ∉ pre.
Proof.
  intros Hp Hd Hs. revert Hp Hd pre. induction Hs as [|pos nx t0 c c' toks Ht Hn Hs IH]; intros Hp Hd pre E t' Hin; [by destruct pre|].
  destruct pre as [|[p0 t1] pre]; [by apply elem_of_nil in Hin|]. injection E as -> -> ->.
  pose proof (token_at_next b Hb Hbo p0 t1 nx Hp Ht). pose proof (token_next_aligned b Hb Hbo p0 t1 nx Hp Hd Ht) as Hdn.
  destruct (stream_pos b Hb Hbo nx c' _ q t ltac:(lia) Hdn Hs ltac:(set_solver)) as [Hq _].
  apply elem_of_cons in Hin as [Eq|Hin]; [injection Eq as -> _; lia|]. by apply (IH ltac:(lia) Hdn pre eq_refl t').
Qed.

(** Property lookup in the tree. *)
Lemma prop_of_tree toks root node name :
  valid b toks -> document toks root ->
  (forall sub, node_at root (s_base b + node) sub -> prop_of b toks node name = own_prop name sub) /\
  ((forall sub, ~ node_at root (s_base b + node) sub) -> prop_of b toks node name = None).
Proof.
  intros Hv Hdoc. pose proof (va_stream b toks Hv) as Hs. pose proof (bo_base b Hbo) as Hba. unfold SIZEOF_FDT_HEADER in Hba.
  unfold prop_of. split.
  - intros sub Hna. destruct (document_node _ _ _ _ Hdoc Hna) as (pre & nm & inner & e & after & E & Hc).
    pose proof (stream_sorted (s_base b) _ _ _ _ _ _ ltac:(lia) (bo_align b Hbo) Hs E) as Hno.
    rewrite E, from_pos_app by done. cbn [from_pos]. rewrite Z.eqb_refl. by eapply getprop_own.
  - intros Hno. destruct (from_pos (s_base b + node) toks) as [|[p t] rest] eqn:Ef; [done|].
    destruct t as [nm| |pn q len|]; [|done..].
    pose proof (from_pos_elem _ _ _ _ _ Ef) as Hin.
    destruct (document_begin _ _ _ _ Hdoc Hin) as [sub Hsub]. by destruct (Hno sub).
Qed.

End lookup.
