(* ===== verification/FdtRegions.v ===== *)
(** * Memory regions and devices in a device tree

    The walkers of [fdt.c] that collect [reg] entries, the header's reserve map
    and the search for a compatible device. *)

From S2P Require Import Prelude Fdt FdtStream FdtWalk FdtTree.

Open Scope Z_scope.

Implicit Types (toks rest : list (Z * token)) (its : list item) (out : list fdt_mem_region).

(** One or two big-endian cells. *)
Definition cells (b : dtb) (entry n : Z) : Z :=
  if n =? 1 then word b entry else word b entry * 2 ^ 32 + word b (entry + 4).

(** The entries of a [reg] property, without the empty ones. *)
Definition reg_entry (b : dtb) (p ac sc t : Z) : fdt_mem_region :=
  mkFdtRegion (cells b (p + 4 * (t * (ac + sc))) ac) (cells b (p + 4 * (t * (ac + sc)) + 4 * ac) sc).

Definition nonempty (r : fdt_mem_region) : Prop := r.(fr_size) <> 0.
#[export] Instance nonempty_dec r : Decision (nonempty r).
Proof. unfold nonempty. apply _. Defined.

Definition reg_list (b : dtb) (ac sc : Z) (prop : option (Z * Z)) : list fdt_mem_region :=
  match prop with
  | Some (p, len) => filter nonempty (map (fun i => reg_entry b p ac sc (Z.of_nat i)) (seq 0 (Z.to_nat (len / ((ac + sc) * 4)))))
  | None => []
  end.

(** At most [max] regions fit in the caller's array. *)
Definition limit (max : Z) out : option (list fdt_mem_region) :=
  if Z.of_nat (length out) <=? max then Some out else None.

Lemma limit_app_none max out out' : limit max out = None -> limit max (out ++ out') = None.
Proof.
  unfold limit. destruct (Z.leb_spec (Z.of_nat (length out)) max); [done|]. intros _.
  rewrite length_app. by destruct (Z.leb_spec (Z.of_nat (length out + length out')) max); [lia|].
Qed.

(** The regions of the nodes one level below, [sel] giving those of a node;
    [stop] tells whether the end of the current node ends the walk. *)
Fixpoint child_regions (stop : bool) (sel : Z -> list Z -> list fdt_mem_region) (depth : Z) toks : list fdt_mem_region :=
  match toks with
  | [] => []
  | (pos, TBegin nm) :: toks' =>
      (if depth + 1 =? 1 then sel pos nm else []) ++ child_regions stop sel (depth + 1) toks'
  | (_, TEnd) :: toks' => if stop && (depth =? 0) then [] else child_regions stop sel (depth - 1) toks'
  | _ :: toks' => child_regions stop sel depth toks'
  end.

Definition cell_count (n : Z) : Prop := n = 1 \/ n = 2.

Section regions.
Context (b : dtb) (Hb : readable b) (Hbo : bounds b).

Lemma lor_words hi lo : 0 <= hi < 2 ^ 32 -> 0 <= lo < 2 ^ 32 -> Z.lor (u64 (Z.shiftl hi 32)) lo = hi * 2 ^ 32 + lo.
Proof. intros Hh Hl. rewrite u64_id by (rewrite Z.shiftl_mul_pow2 by lia; lia). apply lor_shiftl_add; lia. Qed.

Lemma wp_read_cells entry n Q :
  cell_count n -> 0 <= entry -> entry + 4 * n <= blob_len b -> Q (cells b entry n) b -> wp (read_cells entry n) Q b.
Proof.
  intros Hn He Hl HQ. unfold read_cells. pose proof (word_range b Hb entry). pose proof (word_range b Hb (entry + 4)).
  destruct Hn as [->| ->].
  - change (Z.to_nat 1) with 1%nat. cbn [for_acc]. apply wp_bind, wp_bind, wp_be32; [done|lia|lia|]. do 2 apply wp_ret.
    rewrite Z.add_0_r. by rewrite Z.shiftl_0_l, Z.lor_0_l.
  - change (Z.to_nat 2) with 2%nat. cbn [for_acc]. apply wp_bind, wp_bind, wp_be32; [done|lia|lia|]. apply wp_ret.
    apply wp_bind, wp_bind, wp_be32; [done|lia|lia|]. do 2 apply wp_ret. rewrite Z.add_0_r, Z.shiftl_0_l, Z.lor_0_l.
    change (4 * (0 + 1)) with 4. by rewrite lor_words.
Qed.

Lemma wp_read_reg p len ac sc max out Q :
  cell_count ac -> cell_count sc -> prop_ok b p len -> limit max out = Some out ->
  Q (limit max (out ++ reg_list b ac sc (Some (p, len)))) b ->
  wp (read_reg p len ac sc max out) Q b.
Proof.
  intros Ha Hc [Hp] Hlim HQ. unfold read_reg. pose proof (bo_fin b Hbo) as [_ Hfb].
  assert (Hrc : 0 < ac + sc <= 4) by (destruct Ha, Hc; lia).
  destruct (Z.ltb_spec 0 (ac + sc)); [|lia]. cbn [andb]. destruct (Z.leb_spec ((ac + sc) * 4) len) as [Hle|Hlt]; cycle 1.
  { apply wp_ret. cbn [reg_list] in HQ. rewrite Z.div_small in HQ by lia. cbn in HQ. by rewrite app_nil_r, Hlim in HQ. }
  set (n := len / ((ac + sc) * 4)) in *.
  assert (Hn : 0 <= n /\ n * ((ac + sc) * 4) <= len).
  { unfold n. pose proof (Z.div_pos len ((ac + sc) * 4)). pose proof (Z.mul_div_le len ((ac + sc) * 4)). lia. }
  apply (wp_for_acc (fun t acc s => s = b /\ acc = limit max (out ++ filter nonempty (map (fun i => reg_entry b p ac sc (Z.of_nat i)) (seq 0 (Z.to_nat t)))))).
  - split; [done|]. cbn. by rewrite app_nil_r.
  - intros t acc s Ht [-> ->]. replace (Z.to_nat (t + 1)) with (Z.to_nat t + 1)%nat by lia.
    rewrite seq_app, map_app, filter_app. rewrite Nat.add_0_l. cbn [seq map]. rewrite Z2Nat.id by lia. rewrite app_assoc.
    set (o := out ++ _). destruct (limit max o) as [o'|] eqn:El.
    + assert (o' = o /\ Z.of_nat (length o) <= max) as [-> Hlo] by (unfold limit in El; destruct (Z.leb_spec (Z.of_nat (length o)) max); [by injection El as <-|done]).
      assert (0 <= t * (ac + sc) /\ 4 * (t * (ac + sc)) + 4 * (ac + sc) <= len) by nia.
      assert (Hac : 0 <= ac /\ 0 <= sc) by (destruct Ha, Hc; lia).
      apply wp_bind, wp_read_cells; [done|lia|lia|]. apply wp_bind, wp_read_cells; [done|lia|lia|].
      fold (fr_size (reg_entry b p ac sc t)). fold (reg_entry b p ac sc t).
      change (cells b (p + 4 * (t * (ac + sc)) + 4 * ac) sc) with (fr_size (reg_entry b p ac sc t)).
      destruct (Z.eqb_spec (fr_size (reg_entry b p ac sc t)) 0) as [Ez|Ez]; cbn [negb].
      * apply wp_ret. split; [done|]. rewrite filter_cons_False by (intros Hx; by apply Hx). cbn. by rewrite app_nil_r, El.
      * rewrite filter_cons_True by done. cbn. destruct (Z.leb_spec max (Z.of_nat (length o))); apply wp_ret; (split; [done|]);
          unfold limit; rewrite length_app; cbn; destruct (Z.leb_spec (Z.of_nat (length o + 1)) max); (done || lia).
    + apply wp_ret. split; [done|]. by rewrite limit_app_none.
  - intros acc s [-> ->]. rewrite Z.add_0_l, Nat2Z.id. done.
Qed.

(** Properties of the stream have their data in the blob. *)
Lemma getprop_spec_ok name d pos c toks p len :
  0 <= pos -> stream b pos c toks -> getprop_spec name d toks = Some (p, len) -> prop_ok b p len.
Proof.
  intros Hp Hs. revert Hp d. induction Hs as [|pos nx t c c' toks Ht Hn Hs IH]; intros Hp d; [done|].
  pose proof (token_at_next b Hb Hbo pos t nx Hp Ht). destruct t as [nm| |pn q l|]; cbn [getprop_spec].
  - apply IH. lia.
  - case_match; [done|]. apply IH. lia.
  - case_bool_decide; [|apply IH; lia]. intros [= <- <-]. by destruct (prop_token b Hb Hbo pos pn q l nx Hp Ht).
  - apply IH. lia.
Qed.

Lemma prop_of_ok toks node name p len : valid b toks -> prop_of b toks node name = Some (p, len) -> prop_ok b p len.
Proof.
  intros Hv. pose proof (bo_base b Hbo) as Hba. unfold SIZEOF_FDT_HEADER in Hba. unfold prop_of. destruct (from_pos (s_base b + node) toks) as [|[q t] rest] eqn:Ef; [done|].
  destruct t; try done. destruct (from_pos_stream b _ _ _ _ _ _ _ (va_stream b toks Hv) Ef) as (c & Hs & ->).
  pose proof (from_pos_elem _ _ _ _ _ Ef) as Hin.
  destruct (stream_pos b Hb Hbo (s_base b) (0, false) toks (s_base b + node) _ ltac:(lia) (bo_align b Hbo) (va_stream b toks Hv) Hin) as (Hge & _).
  inversion Hs as [|? nx ? ? c2 ? Ht Hn Hs2]; subst. pose proof (token_at_next b Hb Hbo (s_base b + node) _ nx ltac:(clear -Hge Hba; lia) Ht) as Hnx.
  apply (getprop_spec_ok name 0 nx c2 rest); [lia|done].
Qed.

(** ** Memory nodes *)

(** A comparison inside a property's data. *)
Lemma wp_name_eq_raw s cmp Q :
  0 <= s -> s + Z.of_nat (length cmp) < blob_len b ->
  Q (bool_decide (cname b s (Z.of_nat (length cmp) + 1) = cmp ++ [0])) b -> wp (name_eq s cmp) Q b.
Proof.
  revert s. induction cmp as [|x cmp IH]; intros s Hs Hl HQ; cbn [name_eq length app] in *; apply wp_bind, wp_byte_at; try lia.
  - apply wp_ret. rewrite cname_cons in HQ by lia. change (Z.of_nat 0 + 1 - 1) with 0 in HQ. rewrite cname_nil in HQ.
    destruct (Z.eqb_spec (byte b s) 0) as [E|E]; [by rewrite E, bool_decide_true in HQ|]. by rewrite bool_decide_false in HQ by congruence.
  - rewrite cname_cons in HQ by lia. replace (Z.of_nat (S (length cmp)) + 1 - 1) with (Z.of_nat (length cmp) + 1) in HQ by lia.
    destruct (Z.eqb_spec (byte b s) x) as [E|E]; cbn [negb]; [|apply wp_ret; by rewrite bool_decide_false in HQ by congruence].
    apply IH; [lia|lia|]. rewrite E in HQ. destruct (decide (cname b (s + 1) (Z.of_nat (length cmp) + 1) = cmp ++ [0])) as [E1|E1].
    + rewrite bool_decide_true in * by congruence. done.
    + rewrite bool_decide_false in * by congruence. done.
Qed.

Definition mem_node (nm : list Z) (dtype : option (Z * Z)) : bool :=
  bool_decide (nm = chars "memory") || bool_decide (take 7 nm = chars "memory@") ||
  match dtype with Some (p, len) => (7 <=? len) && bool_decide (cname b p 7 = chars "memory" ++ [0]) | None => false end.

Lemma wp_is_memory_node toks pos nm nx Q :
  valid b toks -> s_base b <= pos -> token_at b pos (TBegin nm) nx ->
  Q (mem_node nm (prop_of b toks (pos - s_base b) (chars "device_type"))) b ->
  wp (is_memory_node (pos + 4) (pos - s_base b)) Q b.
Proof.
  intros Hv Hp Ht HQ. pose proof (bo_base b Hbo) as Hba. unfold SIZEOF_FDT_HEADER in Hba. pose proof (bo_fin b Hbo) as [_ Hfb]. pose proof (bo_fin31 b Hbo).
  inversion Ht as [n Hw Hc Hn Hf| | |]; subst. pose proof (cs_len _ _ _ Hc).
  unfold is_memory_node. apply wp_bind. eapply wp_name_eq; [lia|exact Hc|lia|by repeat constructor|].
  set (nm := cname b (pos + 4) n) in *.
  assert (Hrest : forall pre, pre = bool_decide (nm = chars "memory") || bool_decide (take 7 nm = chars "memory@") ->
    wp (dtype ← fdt_getprop (pos - s_base b) (chars "device_type");
        typed ← match dtype with
                | Some (p, len) => if 7 <=? len then name_eq p (chars "memory") else mret false
                | None => mret false
                end;
        mret (pre || typed)) Q b).
  { intros pre ->. apply wp_bind. eapply (wp_getprop_valid b Hb Hbo toks); [done|by repeat constructor|lia|]. unfold mem_node in HQ.
    destruct (prop_of b toks (pos - s_base b) (chars "device_type")) as [[p len]|] eqn:Ed; apply wp_bind; [|by repeat apply wp_ret].
    pose proof (prop_of_ok _ _ _ _ _ Hv Ed) as [Hpk]. destruct (Z.leb_spec 7 len); cbn [andb] in HQ; [|by repeat apply wp_ret].
    apply wp_name_eq_raw; [lia|change (length (chars "memory")) with 6%nat; lia|]. apply wp_ret. exact HQ. }
  apply wp_bind. destruct (bool_decide (nm = chars "memory")) eqn:E1.
  - apply wp_ret. by apply Hrest.
  - eapply wp_name_starts_with; [lia|exact Hc|lia|by repeat constructor|]. by apply Hrest.
Qed.

(** The regions that a node contributes. *)
Definition mem_sel toks (ac sc : Z) (pos : Z) (nm : list Z) : list fdt_mem_region :=
  if mem_node nm (prop_of b toks (pos - s_base b) (chars "device_type"))
  then reg_list b ac sc (prop_of b toks (pos - s_base b) (chars "reg")) else [].
Definition rsv_sel toks (ac sc : Z) (pos : Z) (nm : list Z) : list fdt_mem_region :=
  reg_list b ac sc (prop_of b toks (pos - s_base b) (chars "reg")).

Lemma limit_Some max out : limit max out = Some out <-> Z.of_nat (length out) <= max.
Proof. unfold limit. destruct (Z.leb_spec (Z.of_nat (length out)) max); naive_solver lia. Qed.

Lemma limit_cases max out : limit max out = Some out \/ limit max out = None.
Proof. unfold limit. case_match; [by left|by right]. Qed.

(** One [reg] property of a child node. *)
Lemma wp_child_reg toks pos ac sc max out (Q : option (list fdt_mem_region) -> dtb -> Prop) :
  valid b toks -> cell_count ac -> cell_count sc -> s_base b <= pos < s_fin b -> limit max out = Some out ->
  Q (limit max (out ++ rsv_sel toks ac sc pos [])) b ->
  wp (reg ← fdt_getprop (pos - s_base b) (chars "reg");
      match reg with Some (p, len) => read_reg p len ac sc max out | None => mret (Some out) end) Q b.
Proof.
  intros Hv Ha Hc Hp Hl HQ. pose proof (bo_base b Hbo) as Hba. unfold SIZEOF_FDT_HEADER in Hba. pose proof (bo_fin31 b Hbo).
  apply wp_bind. eapply (wp_getprop_valid b Hb Hbo toks); [done|by repeat constructor|lia|]. unfold rsv_sel in HQ.
  destruct (prop_of b toks (pos - s_base b) (chars "reg")) as [[p len]|] eqn:Er.
  - pose proof (prop_of_ok _ _ _ _ _ Hv Er). by apply wp_read_reg.
  - apply wp_ret. cbn in HQ. by rewrite app_nil_r, Hl in HQ.
Qed.

(** Invariant of both walks: what has been collected and what is still to come. *)
Definition collecting (stop : bool) sel (max : Z) (all : list fdt_mem_region) (st : Z * Z * list fdt_mem_region) (_ : Z * bool) toks : Prop :=
  s_base b <= st.1.1 /\ limit max st.2 = Some st.2 /\ st.2 ++ child_regions stop sel st.1.2 toks = all.

Local Ltac switch Ht :=
  rewrite (token_word _ _ _ _ Ht); cbv beta iota zeta;
  unfold FDT_BEGIN_NODE, FDT_END_NODE, FDT_PROP, FDT_NOP, FDT_END; cbn [Z.eqb Pos.eqb].
Local Ltac switch_end Hw :=
  rewrite Hw; unfold FDT_BEGIN_NODE, FDT_END_NODE, FDT_PROP, FDT_NOP, FDT_END; cbn [Z.eqb Pos.eqb].
Local Ltac in_block := match goal with |- context [negb (?p <? s_fin b)] => destruct (Z.ltb_spec p (s_fin b)); [cbn [negb]|lia] end.

(** The step over a begin token, once its regions are known. *)
Lemma wp_begin_collect stop sel max all (mo : M dtb (option (list fdt_mem_region))) pos d out nx n nm c2 toks2 Q :
  s_base b <= pos -> nx = pos + 4 + align4 (u32 (n + 1)) -> pos + 4 <= nx ->
  limit max out = Some out -> out ++ (if d + 1 =? 1 then sel pos nm else []) ++ child_regions stop sel (d + 1) toks2 = all ->
  (forall Q', Q' (limit max (out ++ if d + 1 =? 1 then sel pos nm else [])) b -> wp mo Q' b) -> Q (limit max all) b ->
  wp (out' ← mo; match out' with None => mret (inr None) | Some out => mret (inl (pos + 4 + align4 (u32 (n + 1)), d + 1, out)) end)
    (fun r s => s = b /\ match r with inl st' => st'.1.1 = nx /\ collecting stop sel max all st' c2 toks2 | inr v => Q v b end) b.
Proof.
  intros Hp Enx Hnx Hl Hall Hmo HQ. apply wp_bind, Hmo. clear Hmo. cbn beta. set (o := out ++ (if d + 1 =? 1 then sel pos nm else [])).
  destruct (limit_cases max o) as [E|E]; rewrite E; apply wp_ret; (split; [done|]).
  - split; [done|]. split; [cbn; lia|]. split; [done|]. cbn. unfold o. by rewrite <- app_assoc.
  - rewrite <- Hall, app_assoc in HQ. by rewrite (limit_app_none max o) in HQ.
Qed.

(** The walk of [fdt_get_memory_regions]. *)
Lemma wp_memory_walk toks ac sc max Q :
  valid b toks -> cell_count ac -> cell_count sc -> 0 < max ->
  Q (limit max (child_regions false (mem_sel toks ac sc) (-1) toks)) b ->
  wp (walk (memory_token (s_base b) (s_fin b) ac sc max) (s_base b, -1, [])) Q b.
Proof.
  intros Hv Ha Hc Hm HQ. pose proof (bo_base b Hbo) as Hba. unfold SIZEOF_FDT_HEADER in Hba. pose proof (bo_fin31 b Hbo) as H31.
  apply (wp_tokens b Hb Hbo (fun st => st.1.1) (collecting false (mem_sel toks ac sc) max (child_regions false (mem_sel toks ac sc) (-1) toks))
    _ _ (s_base b, -1, []) (0, false) toks); [apply Hv|cbn; lia| | |].
  - split; [cbn; lia|]. split; [|done]. apply limit_Some. cbn. lia.
  - intros [[p d] out] c' (Hpb & Hl & HJ) Hp' Hw Hf. cbn [fst snd] in *. unfold memory_token. in_block.
    apply wp_bind, (wp_token_read b Hb Hbo); [done|lia|]. switch_end Hw. apply wp_ret. split; [done|].
    cbn in HJ. rewrite app_nil_r in HJ. by rewrite <- HJ, Hl in HQ.
  - intros [[p d] out] c' t nx c2 toks2 (Hpb & Hl & HJ) Hp' Ht Hn Hs2. cbn [fst snd] in *.
    pose proof (token_at_next b Hb Hbo p t nx Hp' Ht) as Hnx.
    unfold memory_token. in_block. apply wp_bind, (wp_token_read b Hb Hbo); [done|lia|]. switch Ht.
    destruct t as [nm| |pn q len|]; cbn [child_regions] in HJ.
    + apply wp_bind. eapply (wp_begin_skip b Hbo); [done|exact Ht|]. intros n _ _ _ Enx. rewrite i32_id by lia.
      replace (p + 4 - 4 - s_base b) with (p - s_base b) by lia. apply wp_bind.
      assert (Hgo : forall is_mem : bool, (if d + 1 =? 1 then mem_sel toks ac sc p nm else []) = (if is_mem then rsv_sel toks ac sc p [] else []) ->
        wp (out' ← (if is_mem then
                reg ← fdt_getprop (p - s_base b) (chars "reg");
                match reg with
                | Some (p, len) => read_reg p len ac sc max out
                | None => mret (Some out)
                end
              else mret (Some out));
            match out' with None => mret (inr None) | Some out => mret (inl (p + 4 + align4 (u32 (n + 1)), d + 1, out)) end)
          (fun r s => s = b /\ match r with inl st' => st'.1.1 = nx /\ collecting false (mem_sel toks ac sc) max
             (child_regions false (mem_sel toks ac sc) (-1) toks) st' c2 toks2 | inr v => Q v b end) b).
      { intros is_mem Em. eapply wp_begin_collect; [done|done|lia|done|exact HJ| |done]. intros Q' HQ'. rewrite Em in HQ'. destruct is_mem.
        - by apply (wp_child_reg toks); [| | |lia| |].
        - apply wp_ret. by rewrite app_nil_r, Hl in HQ'. }
      destruct (Z.eqb_spec (d + 1) 1) as [Ed|Ed]; [|by apply wp_ret, (Hgo false)].
      eapply wp_is_memory_node; [done|done|exact Ht|]. apply Hgo. done.
    + inversion Ht; subst. apply wp_ret. split; [done|]. split; [done|]. split; [cbn; lia|]. by split.
    + destruct (prop_token b Hb Hbo p pn q len nx Hp' Ht) as ([Hpk] & Eq & El & En & Hbl & _).
      apply wp_bind, wp_be32; [done|lia|lia|]. apply wp_ret. rewrite <- El. split; [done|]. split; [cbn; lia|]. split; [cbn; lia|]. by split.
    + inversion Ht; subst. apply wp_ret. split; [done|]. split; [done|]. split; [cbn; lia|]. by split.
Qed.

(** The walk of [fdt_get_reserved_memory_regions], inside the node at [node]. *)
Lemma wp_reserved_walk toks ac sc max pos c rest Q :
  valid b toks -> cell_count ac -> cell_count sc -> 0 < max -> s_base b <= pos -> stream b pos c rest ->
  Q (limit max (child_regions true (rsv_sel toks ac sc) 0 rest)) b ->
  wp (walk (reserved_token (s_base b) (s_fin b) ac sc max) (pos, 0, [])) Q b.
Proof.
  intros Hv Ha Hc Hm Hpos Hs HQ. pose proof (bo_base b Hbo) as Hba. unfold SIZEOF_FDT_HEADER in Hba. pose proof (bo_fin31 b Hbo) as H31.
  apply (wp_tokens b Hb Hbo (fun st => st.1.1) (collecting true (rsv_sel toks ac sc) max (child_regions true (rsv_sel toks ac sc) 0 rest))
    _ _ (pos, 0, []) c rest); [done|cbn; lia| | |].
  - split; [cbn; lia|]. split; [|done]. apply limit_Some. cbn. lia.
  - intros [[p d] out] c' (Hpb & Hl & HJ) Hp' Hw Hf. cbn [fst snd] in *. unfold reserved_token. in_block.
    apply wp_bind, (wp_token_read b Hb Hbo); [done|lia|]. switch_end Hw. apply wp_ret. split; [done|].
    cbn in HJ. rewrite app_nil_r in HJ. by rewrite <- HJ, Hl in HQ.
  - intros [[p d] out] c' t nx c2 toks2 (Hpb & Hl & HJ) Hp' Ht Hn Hs2. cbn [fst snd] in *.
    pose proof (token_at_next b Hb Hbo p t nx Hp' Ht) as Hnx.
    unfold reserved_token. in_block. apply wp_bind, (wp_token_read b Hb Hbo); [done|lia|]. switch Ht.
    destruct t as [nm| |pn q len|]; cbn [child_regions] in HJ.
    + apply wp_bind. eapply (wp_begin_skip b Hbo); [done|exact Ht|]. intros n _ _ _ Enx. rewrite i32_id by lia.
      replace (p + 4 - 4 - s_base b) with (p - s_base b) by lia.
      eapply wp_begin_collect; [done|done|lia|done|exact HJ| |done]. intros Q' HQ'.
      destruct (Z.eqb_spec (d + 1) 1) as [Ed|Ed]; [by apply (wp_child_reg toks); [| | |lia| |]|].
      apply wp_ret. by rewrite app_nil_r, Hl in HQ'.
    + inversion Ht; subst. cbn [andb] in HJ. destruct (Z.eqb_spec d 0) as [->|Hd]; apply wp_ret; (split; [done|]).
      * rewrite app_nil_r in HJ. by rewrite <- HJ, Hl in HQ.
      * split; [done|]. split; [cbn; lia|]. by split.
    + destruct (prop_token b Hb Hbo p pn q len nx Hp' Ht) as ([Hpk] & Eq & El & En & Hbl & _).
      apply wp_bind, wp_be32; [done|lia|lia|]. apply wp_ret. rewrite <- El. split; [done|]. split; [cbn; lia|]. split; [cbn; lia|]. by split.
    + inversion Ht; subst. apply wp_ret. split; [done|]. split; [done|]. split; [cbn; lia|]. by split.
Qed.

End regions.

(** * Compatible devices, the reserve map and the interface functions

    The remaining walks of [fdt.c] and the specification of each function of its
    interface on a readable blob, accepted by the check or not. *)

(** [want] among the strings of [data]: strings end with a zero, the list ends at
    an empty string or where the terminator is missing; [acc] is the current
    string in reverse. *)
Fixpoint has_string (want : list Z) (data acc : list Z) : bool :=
  match data with
  | [] => false
  | x :: data' =>
      if x =? 0 then
        match acc with
        | [] => false
        | _ => if bool_decide (rev acc = want) then true else has_string want data' []
        end
      else has_string want data' (x :: acc)
  end.

(** The owner of the first compatible property; [stack] holds the open nodes. *)
Fixpoint compat_spec (b : dtb) (want : list Z) (stack : list Z) toks : Z :=
  match toks with
  | [] => -1
  | (pos, TBegin _) :: toks' => compat_spec b want (pos - s_base b :: stack) toks'
  | (_, TEnd) :: toks' => compat_spec b want (tail stack) toks'
  | (_, TProp pn p len) :: toks' =>
      if bool_decide (pn = chars "compatible") && has_string want (cname b p len) [] then hd 0 stack
      else compat_spec b want stack toks'
  | (_, TNop) :: toks' => compat_spec b want stack toks'
  end.

(** The same on a tree: the first node in document order with such a property. *)
Fixpoint find_compat (b : dtb) (want : list Z) (it : item) : option Z :=
  match it with
  | IProp _ _ _ => None
  | INode pos _ its =>
      first_some (fun it => match it with
        | IProp pn p len => if bool_decide (pn = chars "compatible") && has_string want (cname b p len) [] then Some (pos - s_base b) else None
        | INode _ _ _ => find_compat b want it
        end) its
  end.

(** The entries of the reserve map: [None] when the terminator is missing. *)
Fixpoint rsv_spec (b : dtb) (slots : nat) (cur : Z) : option (list fdt_mem_region) :=
  match slots with
  | O => None
  | S n =>
      let r := mkFdtRegion (cells b cur 2) (cells b (cur + 8) 2) in
      if (r.(fr_base) =? 0) && (r.(fr_size) =? 0) then Some []
      else rs ← rsv_spec b n (cur + 16); Some (if r.(fr_size) =? 0 then rs else r :: rs)
  end.

Lemma has_string_app want l r acc :
  Forall (fun x => x <> 0) l -> has_string want (l ++ r) acc = has_string want r (rev l ++ acc).
Proof.
  revert acc. induction l as [|x l IH]; intros acc Hl; [done|]. apply Forall_cons in Hl as [Hx Hl]. cbn [app has_string].
  destruct (Z.eqb_spec x 0); [done|]. rewrite IH by done. cbn [rev]. by rewrite <- app_assoc.
Qed.

Section devices.
Context (b : dtb) (Hb : readable b) (Hbo : bounds b).

Lemma cname_split s n m : 0 <= n -> 0 <= m -> cname b s (n + m) = cname b s n ++ cname b (s + n) m.
Proof.
  intros Hn Hm. unfold cname. rewrite Z2Nat.inj_add by done. rewrite seq_app, map_app. f_equal.
  rewrite Nat.add_0_l. rewrite <- (Nat.add_0_r (Z.to_nat n)) at 1. rewrite <- fmap_add_seq. change (Nat.add (Z.to_nat n) <$> seq 0 (Z.to_nat m)) with (map (Nat.add (Z.to_nat n)) (seq 0 (Z.to_nat m))). rewrite map_map.
  apply map_ext. intros i. f_equal. lia.
Qed.

Lemma cname_nz s n : (forall i, 0 <= i < n -> byte b (s + i) <> 0) -> Forall (fun x => x <> 0) (cname b s n).
Proof.
  intros H. unfold cname. apply Forall_forall. intros x Hx. apply list_elem_of_In, in_map_iff in Hx as (i & <- & Hi).
  apply in_seq in Hi. apply H. lia.
Qed.

Lemma cname_length s n : length (cname b s n) = Z.to_nat n.
Proof. unfold cname. by rewrite length_map, length_seq. Qed.

(** The scan of a list of strings stays inside the property. *)
Lemma wp_has_compatible p len want Q :
  prop_ok b p len -> Forall (fun x => x <> 0) want -> Q (has_string want (cname b p len) []) b ->
  wp (prop_has_compatible p len want) Q b.
Proof.
  intros [Hp] Hw HQ. pose proof (bo_fin b Hbo) as [_ Hfb]. pose proof (bo_fin31 b Hbo) as H31.
  unfold prop_has_compatible. destruct (Z.leb_spec len 0).
  { apply wp_ret. assert (len = 0) as -> by lia. exact HQ. }
  apply (wp_walk b (fun cur => p <= cur <= p + len /\ has_string want (cname b cur (p + len - cur)) [] = has_string want (cname b p len) [])
    (fun cur => p + len - cur)).
  - split; [lia|]. by replace (p + len - p) with len by lia.
  - intros; lia.
  - lia.
  - intros cur [Hc Hj]. destruct (Z.ltb_spec cur (p + len)) as [Hlt|Hge]; cbn [negb]; cycle 1.
    { apply wp_ret. split; [done|]. assert (p + len - cur = 0) as E by lia. rewrite E in Hj. by rewrite <- Hj in HQ. }
    apply wp_bind, wp_byte_at; [lia|]. rewrite cname_cons in Hj by lia.
    destruct (Z.eqb_spec (byte b cur) 0) as [E0|E0].
    { apply wp_ret. split; [done|]. cbn [has_string] in Hj. rewrite E0 in Hj. cbn in Hj. by rewrite <- Hj in HQ. }
    rewrite <- cname_cons in Hj by lia. apply wp_bind, wp_bounded_len; [lia|lia|lia|]. intros n Hn Hnz Hend.
    replace (p + len - cur) with (n + (p + len - cur - n)) in Hj by lia. rewrite cname_split, has_string_app in Hj by (lia || by apply cname_nz).
    rewrite app_nil_r in Hj. destruct (Z.eqb_spec (cur + n) (p + len)) as [Ef|Ef].
    { apply wp_ret. split; [done|]. assert (p + len - cur - n = 0) as E by lia. rewrite E in Hj. by rewrite <- Hj in HQ. }
    destruct Hend as [?|[_ Hz]]; [lia|]. rewrite cname_cons in Hj by lia. cbn [has_string] in Hj. rewrite Hz in Hj. cbn [Z.eqb] in Hj.
    assert (Hn0 : 0 < n) by (destruct (Z.eq_dec n 0) as [->|]; [rewrite Z.add_0_r in Hz; done|lia]).
    assert (Hrev : exists x l, rev (cname b cur n) = x :: l).
    { destruct (rev (cname b cur n)) eqn:Er; [|by eauto]. apply (f_equal length) in Er. rewrite length_rev, cname_length in Er. cbn in Er. lia. }
    destruct Hrev as (x & l & Er). rewrite Er in Hj. rewrite <- Er, rev_involutive in Hj.
    assert (Hgo : wp (if bool_decide (cname b cur n = want) then mret (inr true) else mret (inl (cur + u32 (n + 1))))
      (fun (r : Z + bool) s' => s' = b /\ match r with
        | inl st' => (p <= st' <= p + len /\ has_string want (cname b st' (p + len - st')) [] = has_string want (cname b p len) []) /\ p + len - st' < p + len - cur
        | inr v => Q v b end) b).
    { case_bool_decide; apply wp_ret; (split; [done|]); [by rewrite <- Hj in HQ|]. rewrite u32_id by lia. split; [|lia]. split; [lia|].
      rewrite <- Hj. f_equal. f_equal; lia. }
    apply wp_bind. destruct (Z.eqb_spec n (Z.of_nat (length want))) as [El|El].
    + eapply (wp_name_eq b cur n); [lia|constructor; [lia|done|done]|lia|done|]. apply Hgo.
    + apply wp_ret. rewrite bool_decide_false in Hgo; [exact Hgo|]. intros E. apply El. rewrite <- E, cname_length. lia.
Qed.

Local Ltac switch Ht :=
  rewrite (token_word _ _ _ _ Ht); cbv beta iota zeta;
  unfold FDT_BEGIN_NODE, FDT_END_NODE, FDT_PROP, FDT_NOP, FDT_END; cbn [Z.eqb Pos.eqb].
Local Ltac switch_end Hw :=
  rewrite Hw; unfold FDT_BEGIN_NODE, FDT_END_NODE, FDT_PROP, FDT_NOP, FDT_END; cbn [Z.eqb Pos.eqb].
Local Ltac in_block := match goal with |- context [negb (?p <? s_fin b)] => destruct (Z.ltb_spec p (s_fin b)); [cbn [negb]|lia] end.

(** [current_node] agrees with the stack of open nodes. *)
Definition stack_ok (depth : Z) (cn : gmap Z Z) (stack : list Z) : Prop :=
  Z.of_nat (length stack) = depth + 1 /\ forall k x, stack !! k = Some x -> cn !! (depth - Z.of_nat k) = Some x.

Lemma wp_compat_walk toks want Q :
  valid b toks -> Forall (fun x => x <> 0) want -> Q (compat_spec b want [] toks) b ->
  wp (walk (compatible_token (s_base b) (s_fin b) want) (s_base b, -1, ∅)) Q b.
Proof.
  intros Hv Hw HQ. pose proof (bo_base b Hbo) as Hba. unfold SIZEOF_FDT_HEADER in Hba. pose proof (bo_fin31 b Hbo) as H31.
  pose proof (rd_header b Hb) as Hh. unfold SIZEOF_FDT_HEADER in Hh.
  apply (wp_tokens b Hb Hbo (fun st => st.1.1) (fun st c toks' => s_base b <= st.1.1 /\ st.1.2 = c.1 - 1 /\ 0 <= c.1 /\
      exists stack, stack_ok st.1.2 st.2 stack /\ compat_spec b want stack toks' = compat_spec b want [] toks)
    _ _ (s_base b, -1, ∅) (0, false) toks); [apply Hv|cbn; lia| | |].
  - cbn. split_and!; try lia. exists []. split; [split; [done|]|done]. intros k x Hk. by rewrite lookup_nil in Hk.
  - intros [[p d] cn] c' (Hpb & Hd & _ & stack & _ & HJ) Hp' Hwd Hf. cbn [fst snd] in *. unfold compatible_token. in_block.
    apply wp_bind, (wp_token_read b Hb Hbo); [done|lia|]. switch_end Hwd. apply wp_ret. split; [done|]. by rewrite <- HJ in HQ.
  - intros [[p d] cn] c' t nx c2 toks2 (Hpb & Hd & Hc & stack & [Hsl Hsk] & HJ) Hp' Ht Hn Hs2. cbn [fst snd] in *.
    pose proof (token_at_next b Hb Hbo p t nx Hp' Ht) as Hnx.
    unfold compatible_token. in_block. apply wp_bind, (wp_token_read b Hb Hbo); [done|lia|]. switch Ht.
    destruct t as [nm| |pn q len|]; cbn [compat_spec] in HJ.
    + inversion Hn as [? d0 seen Hroot Hmax| | |]; subst c' c2. cbn [fst] in *. unfold FDT_MAX_DEPTH in *.
      destruct (Z.leb_spec 16 (d + 1)); [lia|]. apply wp_bind. eapply (wp_begin_skip b Hbo); [done|exact Ht|]. intros n _ _ _ Enx.
      apply wp_ret. split; [done|]. split; [done|]. cbn. split; [lia|]. split; [lia|]. split; [lia|].
      exists (p - s_base b :: stack). split; [|done]. rewrite i32_id by lia. split; [cbn; lia|]. intros [|k] x Hk; cbn in Hk.
      * injection Hk as <-. replace (d + 1 - Z.of_nat 0) with (d + 1) by lia. rewrite lookup_insert_eq. f_equal. lia.
      * rewrite lookup_insert_ne by lia. replace (d + 1 - Z.of_nat (S k)) with (d - Z.of_nat k) by lia. by apply Hsk.
    + inversion Hn as [|d0 seen Hd0| |]; subst c' c2. cbn [fst] in *. inversion Ht; subst nx. apply wp_ret. split; [done|]. split; [done|].
      cbn. split; [lia|]. split; [lia|]. split; [lia|]. destruct stack as [|x stack]; [cbn in Hsl; lia|]. exists stack. split; [|done].
      cbn in Hsl. split; [lia|]. intros k y Hk. specialize (Hsk (S k) y Hk). by replace (d - 1 - Z.of_nat k) with (d - Z.of_nat (S k)) by lia.
    + destruct (prop_token b Hb Hbo p pn q len nx Hp' Ht) as (Hpk & Eq & El & En & Hbl & m & Hcs & Hcn & Hm & Hm0).
      inversion Hn as [| |? ? ? d0 seen Hd0|]; subst c' c2. cbn [fst] in *.
      apply wp_bind, wp_be32; [done|lia|lia|]. apply wp_bind, wp_be32; [done|lia|lia|]. unfold hdr_off_dt_strings.
      apply wp_bind, wp_be32; [done|lia|lia|]. change (word b 12) with (strings b). rewrite <- El, <- Eq.
      destruct stack as [|x stack]; [cbn in Hsl; lia|]. pose proof (Hsk 0%nat x eq_refl) as Hx. rewrite Z.sub_0_r in Hx.
      destruct (Z.leb_spec 0 d); [|lia]. apply wp_bind. eapply (wp_name_eq b); [done|exact Hcs|done|by repeat constructor|]. rewrite Hcn.
      assert (Hskip : compat_spec b want (x :: stack) toks2 = compat_spec b want [] toks ->
        wp (mret (inl (q + align4 len, d, cn)) : M dtb ((Z * Z * gmap Z Z) + Z)) (fun r s => s = b /\ match r with
          | inl st' => st'.1.1 = nx /\ s_base b <= st'.1.1 /\ st'.1.2 = d0 - 1 /\ 0 <= d0 /\
              exists stack, stack_ok st'.1.2 st'.2 stack /\ compat_spec b want stack toks2 = compat_spec b want [] toks
          | inr v => Q v b end) b).
      { intros E. apply wp_ret. cbn. split; [done|]. split; [lia|]. split; [lia|]. split; [lia|]. split; [lia|]. by exists (x :: stack). }
      apply wp_bind. destruct (bool_decide (pn = chars "compatible")) eqn:Ec; cbn [andb] in HJ; [|by apply wp_ret, Hskip].
      pose proof Hpk as [Hpk']. rewrite i32_id by lia. eapply wp_has_compatible; [done|done|].
      destruct (has_string want (cname b q len) []) eqn:Es; [|by apply Hskip].
      apply wp_bind. eapply wp_defined; [exact Hx|]. apply wp_ret. split; [done|]. by rewrite <- HJ in HQ.
    + inversion Hn; subst c' c2. inversion Ht; subst nx. apply wp_ret. split; [done|]. split; [done|]. cbn. split; [lia|]. split; [done|]. split; [done|]. by exists stack.
Qed.

(** In a tree: the first node in document order. *)
Lemma compat_contents want toks its rest o stack :
  contents toks its rest ->
  compat_spec b want (o :: stack) toks =
  match first_some (fun it => match it with
        | IProp pn p len => if bool_decide (pn = chars "compatible") && has_string want (cname b p len) [] then Some o else None
        | INode _ _ _ => find_compat b want it
        end) its with
  | Some r => r
  | None => compat_spec b want (o :: stack) rest
  end.
Proof.
  intros Hc. revert o stack. induction Hc as [| |p pn q len toks its rest Hc IH|p nm inner sub e after its rest H1 IH1 H2 IH2]; intros o stack; cbn [compat_spec first_some].
  - done.
  - apply IHHc.
  - case_match; [done|]. apply IH.
  - rewrite IH1. cbn [find_compat]. match goal with |- context [first_some ?f sub] => destruct (first_some f sub) end; [done|].
    cbn [compat_spec tail]. apply IH2.
Qed.

Lemma compat_document want toks root :
  document toks root -> compat_spec b want [] toks = match find_compat b want root with Some r => r | None => -1 end.
Proof.
  induction 1 as [|p nm inner its e post Hc Hp]; [done|]. cbn [compat_spec find_compat]. rewrite (compat_contents want _ _ _ _ _ Hc).
  case_match; [done|]. cbn [compat_spec tail]. clear Hc. induction Hp as [|[q t] post Ht _ IH]; [done|]. unfold is_nop in Ht. cbn in Ht. by subst t.
Qed.

(** ** The reserve map *)

Lemma wp_memreserve_walk max Q :
  0 < max ->
  Q (rs ← rsv_spec b (Z.to_nat ((word b 4 - word b 16) / 16)) (word b 16); limit max rs) b ->
  wp (walk (memreserve_entry (word b 4) max) (word b 16, [])) Q b.
Proof.
  intros Hm HQ. pose proof (bo_rsv b Hbo) as [Hr1 Hr2]. unfold SIZEOF_FDT_HEADER in Hr1. set (fin := word b 4) in *.
  apply (wp_walk b (fun '(cur, out) => 40 <= cur <= fin /\ limit max out = Some out /\
      (rs ← rsv_spec b (Z.to_nat ((fin - cur) / 16)) cur; limit max (out ++ rs)) =
      (rs ← rsv_spec b (Z.to_nat ((fin - word b 16) / 16)) (word b 16); limit max rs)) (fun '(cur, _) => fin - cur)).
  - split; [lia|]. split; [apply limit_Some; cbn; lia|done].
  - intros [cur out]. lia.
  - lia.
  - intros [cur out] (Hc & Hl & Hj). unfold memreserve_entry. destruct (Z.ltb_spec (fin - cur) 16).
    { apply wp_ret. split; [done|]. rewrite Z.div_small in Hj by lia. cbn in Hj. by rewrite <- Hj in HQ. }
    do 4 (apply wp_bind, wp_be32; [done|lia|lia|]). rewrite !lor_words by apply (word_range b Hb).
    replace (Z.to_nat ((fin - cur) / 16)) with (S (Z.to_nat ((fin - (cur + 16)) / 16))) in Hj.
    2:{ replace (fin - cur) with (fin - (cur + 16) + 1 * 16) by lia. rewrite Z.div_add by lia. pose proof (Z.div_pos (fin - (cur + 16)) 16). lia. }
    cbn [rsv_spec fr_base fr_size] in Hj. replace (cur + 12) with (cur + 8 + 4) by lia.
    change (word b cur * 2 ^ 32 + word b (cur + 4)) with (cells b cur 2). change (word b (cur + 8) * 2 ^ 32 + word b (cur + 8 + 4)) with (cells b (cur + 8) 2).
    destruct ((cells b cur 2 =? 0) && (cells b (cur + 8) 2 =? 0)) eqn:E0.
    { apply wp_ret. split; [done|]. cbn in Hj. rewrite app_nil_r, Hl in Hj. by rewrite <- Hj in HQ. }
    destruct (Z.eqb_spec (cells b (cur + 8) 2) 0) as [Ez|Ez]; cbn [negb].
    { apply wp_ret. split; [done|]. split; [|lia]. split; [lia|]. split; [done|]. rewrite <- Hj. by destruct (rsv_spec b _ (cur + 16)). }
    destruct (Z.leb_spec max (Z.of_nat (length out))) as [Hfull|Hfree]; apply wp_ret; (split; [done|]).
    + rewrite <- Hj in HQ. destruct (rsv_spec b _ (cur + 16)) as [rs|]; [|done]. cbn in HQ.
      unfold limit in HQ. rewrite length_app in HQ. cbn in HQ. by destruct (Z.leb_spec (Z.of_nat (length out + S (length rs))) max); [lia|].
    + split; [|lia]. split; [lia|]. split; [apply limit_Some; rewrite length_app; cbn; lia|]. rewrite <- Hj.
      destruct (rsv_spec b _ (cur + 16)) as [rs|]; [|done]. cbn. by rewrite <- app_assoc.
Qed.

End devices.
