(* ===== verification/DeviceTree.v ===== *)
(** * Correctness of the device tree functions

    The main theorems about [fdt.c]: which blobs are accepted, that no function
    leaves the blob or runs forever on any input, and the answers of the queries
    in terms of the tree. *)

From S2P Require Import Prelude Fdt FdtStream FdtWalk FdtTree FdtRegions.

Open Scope Z_scope.

Implicit Types (toks : list (Z * token)) (its : list item).

(** C strings as character lists. *)
Definition c_string (s : list Z) : Prop := Forall (fun x => x <> 0) s.

(** The call returns: every read is inside the blob and every loop ends. *)
Definition returns {A} (m : M dtb A) (b : dtb) : Prop := exists r, m b = Some (r, b).

(** ** Accepted and rejected blobs *)

Lemma check_cases b :
  readable b ->
  (exists toks, valid b toks /\ bounds b /\ fdt_check_header b = Some (0, b)) \/
  ((forall toks, ~ valid b toks) /\ fdt_check_header b = Some (-1, b)).
Proof.
  intros Hb. destruct (wp_run fdt_check_header (fun r s => s = b /\
    ((r = 0 /\ exists toks, valid b toks /\ bounds b) \/ (r = -1 /\ forall toks, ~ valid b toks))) b) as (r & s & E & -> & H).
  { apply wp_check; [done| |]; [intros toks Hv Hbo; split; [done|left; eauto]|intros; split; [done|by right]]. }
  destruct H as [(-> & toks & Hv & Hbo)|[-> Hno]]; [left; eauto|right; by split].
Qed.

Section rejected.
Context (b : dtb) (Hrej : fdt_check_header b = Some (-1, b)).

Lemma wp_rejected Q : Q (-1) b -> wp fdt_check_header Q b.
Proof. unfold wp. by rewrite Hrej. Qed.

Lemma rejected_path path : wp (fdt_path_offset path) (fun r s => s = b /\ r = -1) b.
Proof.
  unfold fdt_path_offset. apply wp_bind, wp_gets. case_match; [by apply wp_ret|]. destruct path; [by apply wp_ret|]. cbv zeta.
  case_match; [by apply wp_ret|]. case_match; [by apply wp_ret|]. apply wp_bind, wp_rejected. cbn. by apply wp_ret.
Qed.

Lemma rejected_getprop node name : wp (fdt_getprop node name) (fun r s => s = b /\ r = None) b.
Proof.
  unfold fdt_getprop. apply wp_bind, wp_gets. case_match; [by apply wp_ret|]. apply wp_bind, wp_rejected. cbn. by apply wp_ret.
Qed.

Lemma rejected_compat want : wp (fdt_find_compatible want) (fun r s => s = b /\ r = -1) b.
Proof.
  unfold fdt_find_compatible. apply wp_bind, wp_gets. case_match; [by apply wp_ret|]. apply wp_bind, wp_rejected. cbn. by apply wp_ret.
Qed.

Lemma rejected_regions max :
  wp (fdt_get_memory_regions max) (fun r s => s = b /\ r = None) b /\
  wp (fdt_get_reserved_memory_regions max) (fun r s => s = b /\ r = None) b /\
  wp (fdt_get_memreserve_regions max) (fun r s => s = b /\ r = None) b.
Proof.
  split_and!.
  - unfold fdt_get_memory_regions. apply wp_bind, wp_gets. case_match; [by apply wp_ret|]. apply wp_bind, wp_rejected. cbn. by apply wp_ret.
  - unfold fdt_get_reserved_memory_regions. apply wp_bind, wp_gets. case_match; [by apply wp_ret|]. apply wp_bind, wp_rejected. cbn. by apply wp_ret.
  - unfold fdt_get_memreserve_regions. case_match; [by apply wp_ret|]. apply wp_bind, wp_rejected. cbn. by apply wp_ret.
Qed.

Lemma rejected_values node :
  wp fdt_totalsize (fun r s => s = b /\ r = 0) b /\
  wp fdt_get_initrd_range (fun r s => s = b /\ r = None) b /\
  wp fdt_get_timebase_frequency (fun r s => s = b /\ r = None) b /\
  wp (fdt_get_reg_base node) (fun r s => s = b /\ r = None) b /\
  wp (fdt_get_interrupt_id node) (fun r s => s = b /\ r = None) b.
Proof.
  split_and!.
  - unfold fdt_totalsize. apply wp_bind, wp_gets. case_match; [by apply wp_ret|]. apply wp_bind, wp_rejected. cbn. by apply wp_ret.
  - unfold fdt_get_initrd_range. apply wp_bind, wp_rejected. cbn. by apply wp_ret.
  - unfold fdt_get_timebase_frequency. apply wp_bind, wp_gets. case_match; [by apply wp_ret|]. apply wp_bind, wp_rejected. cbn. by apply wp_ret.
  - unfold fdt_get_reg_base. apply wp_bind. eapply wp_mono; [apply rejected_getprop|]. intros r s [-> ->]. by apply wp_ret.
  - unfold fdt_get_interrupt_id. apply wp_bind. eapply wp_mono; [apply rejected_getprop|]. intros r s [-> ->]. by apply wp_ret.
Qed.

End rejected.

(** ** Queries on an accepted blob *)

(** A 32-bit property with a default, and 32- and 64-bit values. *)
Definition prop_u32 (b : dtb) (prop : option (Z * Z)) (defval : Z) : Z :=
  match prop with Some (p, len) => if len <? 4 then i32 defval else i32 (word b p) | None => i32 defval end.
Definition prop_word (b : dtb) (prop : option (Z * Z)) : option Z :=
  '(p, len) ← prop; if len <? 4 then None else Some (word b p).
Definition prop_u64 (b : dtb) (prop : option (Z * Z)) : option Z :=
  '(p, len) ← prop; if 8 <=? len then Some (cells b p 2) else if 4 <=? len then Some (word b p) else None.

(** The regions of the child nodes of a node. *)
Definition children_regions (sel : list Z -> list item -> list fdt_mem_region) its : list fdt_mem_region :=
  flat_map (fun it => match it with INode _ nm sub => sel nm sub | IProp _ _ _ => [] end) its.
Definition memory_child (b : dtb) (ac sc : Z) (nm : list Z) its : list fdt_mem_region :=
  if mem_node b nm (own_prop (chars "device_type") its) then reg_list b ac sc (own_prop (chars "reg") its) else [].
Definition reserved_child (b : dtb) (ac sc : Z) (nm : list Z) its : list fdt_mem_region :=
  reg_list b ac sc (own_prop (chars "reg") its).

(** The cell counts that a node declares, with defaults. *)
Definition address_cells (b : dtb) its (defval : Z) : Z := prop_u32 b (own_prop (chars "#address-cells") its) defval.
Definition size_cells (b : dtb) its (defval : Z) : Z := prop_u32 b (own_prop (chars "#size-cells") its) defval.

Definition memory_regions (b : dtb) (root : item) (max : Z) : option (list fdt_mem_region) :=
  match root with
  | INode _ _ its =>
      let ac := address_cells b its 2 in
      let sc := size_cells b its 2 in
      if cells_bad ac sc then None else limit max (children_regions (memory_child b ac sc) its)
  | IProp _ _ _ => None
  end.

(** The node that a path leads to, with its contents. *)
Inductive at_path (root : item) (comps : list (list Z)) : option (Z * list item) -> Prop :=
| ap_found q its : lookup_path root comps = Some q -> node_at root q its -> at_path root comps (Some (q, its))
| ap_missing : lookup_path root comps = None -> at_path root comps None.

(** The regions below /reserved-memory: its own cell counts, or the root's. *)
Definition reserved_regions (b : dtb) (root_items : list item) (node : option (Z * list item)) (max : Z) : option (list fdt_mem_region) :=
  match node with
  | None => Some []
  | Some (_, its) =>
      let ac := address_cells b its (u32 (address_cells b root_items 2)) in
      let sc := size_cells b its (u32 (size_cells b root_items 2)) in
      if cells_bad ac sc then None else limit max (children_regions (reserved_child b ac sc) its)
  end.

(** The entries of the header's reserve map. *)
Definition memreserve_regions (b : dtb) (max : Z) : option (list fdt_mem_region) :=
  rs ← rsv_spec b (Z.to_nat ((word b 4 - word b 16) / 16)) (word b 16); limit max rs.

Lemma child_skip stop sel toks its rest d :
  contents toks its rest -> 1 <= d -> child_regions stop sel d toks = child_regions stop sel d rest.
Proof.
  intros Hc. revert d. induction Hc as [| |p pn q len toks its rest Hc IH|p nm inner sub e after its rest H1 IH1 H2 IH2]; intros d Hd; cbn [child_regions].
  - done.
  - by apply IHHc.
  - by apply IH.
  - destruct (Z.eqb_spec (d + 1) 1); [lia|]. cbn [app]. rewrite IH1 by lia. cbn [child_regions].
    destruct (Z.eqb_spec (d + 1) 0); [lia|]. rewrite andb_false_r. replace (d + 1 - 1) with d by lia. by apply IH2.
Qed.

Lemma child_contents stop sel selT toks its rest :
  contents toks its rest -> (forall p nm sub, INode p nm sub ∈ its -> sel p nm = selT nm sub) ->
  child_regions stop sel 0 toks = children_regions selT its ++ child_regions stop sel 0 rest.
Proof.
  induction 1 as [| |p pn q len toks its rest Hc IH|p nm inner sub e after its rest H1 IH1 H2 IH2]; intros Hsel; cbn [child_regions children_regions flat_map].
  - done.
  - by apply IHcontents.
  - cbn [app]. apply IH. intros. eapply Hsel. by right.
  - change (0 + 1) with 1. cbn [Z.eqb Pos.eqb]. rewrite (child_skip stop sel inner sub _ 1 H1) by lia. cbn [child_regions].
    change (1 =? 0) with false. rewrite andb_false_r. change (1 - 1) with 0. rewrite (Hsel p nm sub) by (by left).
    rewrite IH2 by (intros; eapply Hsel; by right). by rewrite app_assoc.
Qed.

Lemma child_nops stop sel d toks : Forall is_nop toks -> child_regions stop sel d toks = [].
Proof. induction 1 as [|[p t] toks Ht _ IH]; [done|]. unfold is_nop in Ht. cbn in Ht. subst t. done. Qed.

Lemma document_root toks root : document toks root -> exists p nm its, root = INode p nm its.
Proof. induction 1; eauto. Qed.

Lemma document_children sel selT toks p nm its :
  document toks (INode p nm its) -> (forall q nm' sub, INode q nm' sub ∈ its -> sel q nm' = selT nm' sub) ->
  child_regions false sel (-1) toks = children_regions selT its.
Proof.
  remember (INode p nm its) as root eqn:Er. induction 1 as [q toks root Hd IH|q nm' inner its' e post Hc Hpost]; intros Hsel.
  - cbn [child_regions]. by apply IH.
  - injection Er as -> -> ->. cbn [child_regions]. change (-1 + 1) with 0. cbn [Z.eqb app].
    rewrite (child_contents false sel selT inner its _ Hc Hsel). cbn [child_regions andb]. by rewrite child_nops, app_nil_r.
Qed.

(** The end of a search is a node. *)
Lemma search_node comps it q : search comps it = Some q -> exists sub, node_at it q sub.
Proof.
  revert it. induction comps as [|c cs IH]; intros [pn p len|p nm its]; cbn [search]; try done.
  case_bool_decide; [|done]. destruct cs as [|c' cs].
  - intros [= <-]. exists its. constructor.
  - intros Hf. assert (exists it, it ∈ its /\ search (c' :: cs) it = Some q) as (it & Hit & Hs).
    { clear -Hf. induction its as [|x its IHi]; [done|]. cbn [first_some] in Hf. destruct (search (c' :: cs) x) eqn:E.
      - injection Hf as ->. exists x. split; [by left|done].
      - destruct (IHi Hf) as (it & ? & ?). exists it. split; [by right|done]. }
    destruct (IH it Hs) as [sub Hsub]. exists sub. by eapply na_child.
Qed.

Lemma lookup_path_node root comps q : lookup_path root comps = Some q -> exists sub, node_at root q sub.
Proof.
  destruct root as [|p nm its]; cbn; [done|]. destruct comps as [|c cs]; [intros [= <-]; exists its; constructor|].
  intros Hf. induction its as [|x its IH]; [done|]. cbn [first_some] in Hf. destruct (search (c :: cs) x) eqn:E.
  - injection Hf as ->. destruct (search_node _ _ _ E) as [sub Hs]. exists sub. by eapply na_child; [left|].
  - destruct (IH Hf) as [sub Hs]. inversion Hs as [|? ? ? it ? ? Hin Hn]; subst.
    + eexists. constructor.
    + exists sub. eapply na_child; [right; exact Hin|done].
Qed.

Lemma stream_suffix b pos c toks pre q t rest :
  stream b pos c toks -> toks = pre ++ (q, t) :: rest -> exists c', stream b q c' ((q, t) :: rest).
Proof.
  intros Hs. revert pre. induction Hs as [|pos nx t0 c c' toks Ht Hn Hs IH]; intros pre E; [by destruct pre|].
  destruct pre as [|x pre].
  - injection E as -> -> ->. exists c. by econstructor.
  - injection E as _ E. by eapply IH.
Qed.

Lemma stream_cons b pos c p t rest : stream b pos c ((p, t) :: rest) -> exists nx c', token_at b p t nx /\ stream b nx c' rest.
Proof. inversion 1; subst; eauto. Qed.

Lemma at_path_node root comps q its : at_path root comps (Some (q, its)) -> node_at root q its.
Proof. by inversion 1. Qed.

Lemma node_at_trans it q its q' nm sub : node_at it q its -> INode q' nm sub ∈ its -> node_at it q' sub.
Proof.
  induction 1 as [p nm' its|p nm' its it q its' Hin _ IH]; intros Hi.
  - eapply na_child; [exact Hi|constructor].
  - eapply na_child; [exact Hin|]. by apply IH.
Qed.

Section accepted.
Context (b : dtb) (Hb : readable b) (Hbo : bounds b) (toks : list (Z * token)) (root : item).
Context (Hv : valid b toks) (Hdoc : document toks root) (Hacc : fdt_check_header b = Some (0, b)).

Lemma wp_accepted Q : Q 0 b -> wp fdt_check_header Q b.
Proof. unfold wp. by rewrite Hacc. Qed.

Lemma wp_header off Q : 0 <= off -> off + 4 <= 40 -> Q (word b off) b -> wp (be32 off) Q b.
Proof. intros H1 H2 HQ. pose proof (rd_header b Hb) as Hh. unfold SIZEOF_FDT_HEADER in Hh. apply wp_be32; [done|lia|lia|done]. Qed.

Lemma address_known : (d_addr b =? 0) = false.
Proof. apply Z.eqb_neq. by destruct (va_addr b toks Hv). Qed.

(** The node a path leads to, as the C result. *)
Definition path_answer (p : list Z) : Z :=
  if FDT_MAX_DEPTH <? Z.of_nat (length (path_comps p)) then -1
  else match lookup_path root (path_comps p) with Some q => q - s_base b | None => -1 end.

Lemma wp_path p Q : c_string p -> Q (path_answer p) b -> wp (fdt_path_offset (47 :: p)) Q b.
Proof.
  intros Hp HQ. apply (wp_path_valid b Hb Hbo toks); [done|done|]. unfold path_result, path_answer in *.
  by rewrite (path_document (s_base b) (path_comps p) toks root Hdoc).
Qed.

Lemma wp_getprop node name Q : c_string name -> node < 2 ^ 31 -> Q (prop_of b toks node name) b -> wp (fdt_getprop node name) Q b.
Proof. intros. by apply (wp_getprop_valid b Hb Hbo toks). Qed.

Lemma wp_get_u32 node name defval Q :
  c_string name -> node < 2 ^ 31 -> Q (prop_u32 b (prop_of b toks node name) defval) b -> wp (fdt_get_u32 node name defval) Q b.
Proof.
  intros Hn Hno HQ. unfold fdt_get_u32, prop_u32 in *. apply wp_bind, wp_getprop; [done|done|].
  destruct (prop_of b toks node name) as [[p len]|] eqn:E; [|by apply wp_ret].
  destruct (prop_of_ok b Hb Hbo toks node name p len Hv E) as [Hpk]. pose proof (bo_fin b Hbo). destruct (Z.ltb_spec len 4); [by apply wp_ret|].
  apply wp_bind, wp_be32; [done|lia|lia|]. by apply wp_ret.
Qed.

Lemma wp_prop_word node name Q :
  c_string name -> node < 2 ^ 31 -> Q (prop_word b (prop_of b toks node name)) b ->
  wp (prop ← fdt_getprop node name;
      match prop with Some (p, len) => if len <? 4 then mret None else v ← be32 p; mret (Some v) | None => mret None end) Q b.
Proof.
  intros Hn Hno HQ. unfold prop_word in *. apply wp_bind, wp_getprop; [done|done|].
  destruct (prop_of b toks node name) as [[p len]|] eqn:E; [|by apply wp_ret].
  destruct (prop_of_ok b Hb Hbo toks node name p len Hv E) as [Hpk]. pose proof (bo_fin b Hbo). cbn in HQ. destruct (Z.ltb_spec len 4); [by apply wp_ret|].
  apply wp_bind, wp_be32; [done|lia|lia|]. by apply wp_ret.
Qed.

Lemma wp_two_words p len Q : prop_ok b p len -> 8 <= len -> Q (Some (cells b p 2)) b ->
  wp (hi ← be32 p; lo ← be32 (p + 4); mret (Some (Z.lor (u64 (Z.shiftl hi 32)) lo))) Q b.
Proof.
  intros [Hpk] Hl HQ. pose proof (bo_fin b Hbo). do 2 (apply wp_bind, wp_be32; [done|lia|lia|]). apply wp_ret.
  rewrite lor_words by apply (word_range b Hb). exact HQ.
Qed.

Lemma wp_get_u64 node name Q :
  c_string name -> node < 2 ^ 31 -> Q (prop_u64 b (prop_of b toks node name)) b -> wp (fdt_get_u64_prop node name) Q b.
Proof.
  intros Hn Hno HQ. unfold fdt_get_u64_prop, prop_u64 in *. apply wp_bind, wp_getprop; [done|done|].
  destruct (prop_of b toks node name) as [[p len]|] eqn:E; [|by apply wp_ret].
  pose proof (prop_of_ok b Hb Hbo toks node name p len Hv E) as Hpk. cbn in HQ. destruct (Z.leb_spec 8 len); [by eapply wp_two_words|].
  destruct (Z.leb_spec 4 len); [|by apply wp_ret]. destruct Hpk as [Hpk]. pose proof (bo_fin b Hbo).
  apply wp_bind, wp_be32; [done|lia|lia|]. by apply wp_ret.
Qed.

(** *** Results of the interface functions *)

Lemma wp_find_compatible want Q :
  c_string want -> Q (match find_compat b want root with Some r => r | None => -1 end) b -> wp (fdt_find_compatible want) Q b.
Proof.
  intros Hw HQ. unfold fdt_find_compatible, hdr_off_dt_struct, hdr_size_dt_struct. apply wp_bind, wp_gets. rewrite address_known.
  apply wp_bind, wp_accepted. cbn [Z.eqb negb]. do 2 (apply wp_bind, wp_header; [lia|lia|]).
  fold (s_base b). change (s_base b + word b 36) with (s_fin b). apply (wp_compat_walk b Hb Hbo toks); [done|done|].
  by rewrite (compat_document b want toks root Hdoc).
Qed.

(** Properties of the nodes of the tree. *)
Lemma prop_of_node pos sub name : node_at root pos sub -> prop_of b toks (pos - s_base b) name = own_prop name sub.
Proof.
  intros Hn. apply (prop_of_tree b Hb Hbo toks root); [done|done|]. by replace (s_base b + (pos - s_base b)) with pos by lia.
Qed.

Lemma node_range pos sub : node_at root pos sub -> s_base b <= pos < s_fin b.
Proof.
  intros Hn. destruct (document_node _ _ _ _ Hdoc Hn) as (pre & nm & inner & e & after & E & _). pose proof (bo_base b Hbo) as Hba. unfold SIZEOF_FDT_HEADER in Hba.
  destruct (stream_pos b Hb Hbo (s_base b) (0, false) toks pos (TBegin nm) ltac:(lia) (bo_align b Hbo) (va_stream b toks Hv) ltac:(rewrite E; set_solver)). lia.
Qed.

Lemma root_known : exists p nm its, root = INode p nm its /\ node_at root p its /\ path_answer [] = p - s_base b.
Proof.
  destruct (document_root _ _ Hdoc) as (p & nm & its & E). exists p, nm, its. split; [done|].
  unfold path_answer. rewrite E. split; [constructor|done].
Qed.

Lemma cells_good ac sc : cells_bad ac sc = false -> cell_count ac /\ cell_count sc.
Proof.
  unfold cells_bad, cell_count. rewrite orb_false_iff, !andb_false_iff, !negb_false_iff, !Z.eqb_eq. tauto.
Qed.

Lemma wp_get_memory_regions max Q :
  0 < max -> Q (memory_regions b root max) b -> wp (fdt_get_memory_regions max) Q b.
Proof.
  intros Hm HQ. destruct root_known as (p & nm & its & Er & Hna & Hpa). pose proof (node_range p its Hna) as Hp. pose proof (bo_fin31 b Hbo). pose proof (bo_base b Hbo) as Hba. unfold SIZEOF_FDT_HEADER in Hba.
  unfold fdt_get_memory_regions, hdr_off_dt_struct, hdr_size_dt_struct. apply wp_bind, wp_gets. rewrite address_known.
  destruct (Z.leb_spec max 0); [lia|]. cbn [orb]. apply wp_bind, wp_accepted. cbn [Z.eqb negb].
  apply wp_bind. change (chars "/") with (47 :: []). apply wp_path; [constructor|]. rewrite Hpa. destruct (Z.ltb_spec (p - s_base b) 0); [lia|].
  apply wp_bind, wp_get_u32; [by repeat constructor|lia|]. apply wp_bind, wp_get_u32; [by repeat constructor|lia|].
  rewrite !(prop_of_node p its) by done. unfold memory_regions in HQ. rewrite Er in HQ. fold (address_cells b its 2) (size_cells b its 2).
  destruct (cells_bad (address_cells b its 2) (size_cells b its 2)) eqn:Ec; [by apply wp_ret|]. destruct (cells_good _ _ Ec) as [Ha Hs].
  do 2 (apply wp_bind, wp_header; [lia|lia|]). fold (s_base b). change (s_base b + word b 36) with (s_fin b).
  apply (wp_memory_walk b Hb Hbo toks); try done.
  assert (E : child_regions false (mem_sel b toks (address_cells b its 2) (size_cells b its 2)) (-1) toks =
              children_regions (memory_child b (address_cells b its 2) (size_cells b its 2)) its); [|by rewrite E].
  assert (Hsel : forall q nm' sub, INode q nm' sub ∈ its -> mem_sel b toks (address_cells b its 2) (size_cells b its 2) q nm' =
    memory_child b (address_cells b its 2) (size_cells b its 2) nm' sub).
  { intros q nm' sub Hin. assert (Hq : node_at root q sub) by (rewrite Er; eapply na_child; [exact Hin|constructor]).
    unfold mem_sel, memory_child. by rewrite !(prop_of_node q sub). }
  rewrite Er in Hdoc. by eapply document_children.
Qed.

Lemma at_path_exists p : exists n, at_path root (path_comps p) n.
Proof.
  destruct (lookup_path root (path_comps p)) as [q|] eqn:E; [|by exists None; constructor].
  destruct (lookup_path_node _ _ _ E) as [its Hn]. exists (Some (q, its)). by constructor.
Qed.

(** The C result of a short path and what is at the node. *)
Lemma at_path_answer p n :
  Z.of_nat (length (path_comps p)) <= FDT_MAX_DEPTH -> at_path root (path_comps p) n ->
  match n with
  | Some (q, its) => path_answer p = q - s_base b /\ 0 <= q - s_base b < 2 ^ 31 /\ forall name, prop_of b toks (q - s_base b) name = own_prop name its
  | None => path_answer p = -1
  end.
Proof.
  intros Hl Ha. unfold path_answer. destruct (Z.ltb_spec FDT_MAX_DEPTH (Z.of_nat (length (path_comps p)))); [lia|].
  destruct Ha as [q its E Hn|E]; rewrite E; [|done]. pose proof (node_range q its Hn). pose proof (bo_fin31 b Hbo).
  pose proof (bo_base b Hbo) as Hba. unfold SIZEOF_FDT_HEADER in Hba. split; [done|]. split; [lia|]. intros. by apply prop_of_node.
Qed.

Lemma wp_get_reserved_regions max rp rnm rits n Q :
  0 < max -> root = INode rp rnm rits -> at_path root [chars "reserved-memory"] n ->
  Q (reserved_regions b rits n max) b -> wp (fdt_get_reserved_memory_regions max) Q b.
Proof.
  intros Hm Er Hn HQ. pose proof (bo_fin31 b Hbo) as H31. pose proof (bo_base b Hbo) as Hba. unfold SIZEOF_FDT_HEADER in Hba.
  assert (Hrn : node_at root rp rits) by (rewrite Er; constructor). pose proof (node_range rp rits Hrn) as Hrr.
  assert (Hra : path_answer [] = rp - s_base b) by (unfold path_answer; by rewrite Er).
  unfold fdt_get_reserved_memory_regions, hdr_off_dt_struct, hdr_size_dt_struct. apply wp_bind, wp_gets. rewrite address_known.
  destruct (Z.leb_spec max 0); [lia|]. cbn [orb]. apply wp_bind, wp_accepted. cbn [Z.eqb negb]. apply wp_bind.
  change (chars "/reserved-memory") with (47 :: chars "reserved-memory"). apply wp_path; [by repeat constructor|].
  pose proof (at_path_answer (chars "reserved-memory") n ltac:(done) Hn) as Hans.
  destruct n as [[q its]|]; [|rewrite Hans; by apply wp_ret]. destruct Hans as (-> & Hq & Hprops).
  destruct (Z.ltb_spec (q - s_base b) 0); [lia|]. apply wp_bind. change (chars "/") with (47 :: []). apply wp_path; [constructor|]. rewrite Hra.
  destruct (Z.ltb_spec (rp - s_base b) 0); [lia|].
  do 4 (apply wp_bind, wp_get_u32; [by repeat constructor|lia|]). rewrite !Hprops, !(prop_of_node rp rits) by done. cbn [reserved_regions] in HQ.
  fold (address_cells b rits 2) (size_cells b rits 2). fold (address_cells b its (u32 (address_cells b rits 2))) (size_cells b its (u32 (size_cells b rits 2))).
  set (ac := address_cells b its (u32 (address_cells b rits 2))) in *. set (sc := size_cells b its (u32 (size_cells b rits 2))) in *. cbv zeta in HQ.
  destruct (cells_bad ac sc) eqn:Ec; [by apply wp_ret|]. destruct (cells_good _ _ Ec) as [Hac Hsc].
  do 2 (apply wp_bind, wp_header; [lia|lia|]). fold (s_base b). change (s_base b + word b 36) with (s_fin b).
  pose proof (at_path_node _ _ _ _ Hn) as Hna. destruct (document_node _ _ _ _ Hdoc Hna) as (pre & nm & inner & e & after & Et & Hc).
  destruct (stream_suffix b (s_base b) (0, false) toks pre q (TBegin nm) inner (va_stream b toks Hv) Et) as (c & Hs).
  destruct (stream_cons _ _ _ _ _ _ Hs) as (nx & c2 & Ht & Hs2). pose proof (node_range q its Hna).
  pose proof (token_at_next b Hb Hbo q _ nx ltac:(lia) Ht) as Hnx. replace (s_base b + (q - s_base b)) with q by lia.
  destruct (Z.ltb_spec (s_fin b) (q + 4)); [lia|]. apply wp_bind, (wp_token_read b Hb Hbo); [lia|lia|].
  rewrite (token_word _ _ _ _ Ht), Z.eqb_refl. cbn [negb]. apply wp_bind. eapply (wp_begin_skip b Hbo); [lia|exact Ht|]. intros n' _ _ _ <-.
  eapply (wp_reserved_walk b Hb Hbo toks ac sc max nx c2 inner); try done; [lia|].
  rewrite (child_contents true _ (reserved_child b ac sc) inner its _ Hc).
  - cbn [child_regions andb Z.eqb]. by rewrite app_nil_r.
  - intros q' nm' sub Hin. unfold rsv_sel, reserved_child.
    by rewrite (prop_of_node q' sub _ (node_at_trans _ _ _ _ _ _ Hna Hin)).
Qed.

Lemma wp_get_memreserve_regions max Q : 0 < max -> Q (memreserve_regions b max) b -> wp (fdt_get_memreserve_regions max) Q b.
Proof.
  intros Hm HQ. unfold fdt_get_memreserve_regions, hdr_off_mem_rsvmap, hdr_totalsize. destruct (Z.leb_spec max 0); [lia|].
  apply wp_bind, wp_accepted. cbn [Z.eqb negb]. do 2 (apply wp_bind, wp_header; [lia|lia|]). by apply (wp_memreserve_walk b Hb Hbo).
Qed.

(** *** Single values *)

Definition initrd_range (n : option (Z * list item)) : option (Z * Z) :=
  '(_, its) ← n; s ← prop_u64 b (own_prop (chars "linux,initrd-start") its);
  e ← prop_u64 b (own_prop (chars "linux,initrd-end") its); if e <=? s then None else Some (s, e).

Definition timebase (n : option (Z * list item)) : option Z :=
  '(_, its) ← n; prop_word b (own_prop (chars "timebase-frequency") its).

Lemma wp_initrd n Q : at_path root [chars "chosen"] n -> Q (initrd_range n) b -> wp fdt_get_initrd_range Q b.
Proof.
  intros Hn HQ. unfold fdt_get_initrd_range. apply wp_bind, wp_accepted. cbn [Z.eqb negb]. apply wp_bind.
  change (chars "/chosen") with (47 :: chars "chosen"). apply wp_path; [by repeat constructor|].
  pose proof (at_path_answer (chars "chosen") n ltac:(done) Hn) as Hans.
  destruct n as [[q its]|]; [|rewrite Hans; by apply wp_ret]. destruct Hans as (-> & Hq & Hprops). destruct (Z.ltb_spec (q - s_base b) 0); [lia|].
  unfold initrd_range in HQ. cbn in HQ. apply wp_bind, wp_get_u64; [by repeat constructor|lia|]. rewrite Hprops.
  destruct (prop_u64 b (own_prop (chars "linux,initrd-start") its)) as [s|]; [|apply wp_ret; exact HQ].
  apply wp_bind, wp_get_u64; [by repeat constructor|lia|]. rewrite Hprops.
  destruct (prop_u64 b (own_prop (chars "linux,initrd-end") its)) as [e|]; [|apply wp_ret; exact HQ]. change (Q (if e <=? s then None else Some (s, e)) b) in HQ. by destruct (e <=? s); apply wp_ret.
Qed.

Lemma wp_timebase n Q : at_path root [chars "cpus"] n -> Q (timebase n) b -> wp fdt_get_timebase_frequency Q b.
Proof.
  intros Hn HQ. unfold fdt_get_timebase_frequency. apply wp_bind, wp_gets. rewrite address_known. apply wp_bind, wp_accepted. cbn [Z.eqb negb]. apply wp_bind.
  change (chars "/cpus") with (47 :: chars "cpus"). apply wp_path; [by repeat constructor|].
  pose proof (at_path_answer (chars "cpus") n ltac:(done) Hn) as Hans.
  destruct n as [[q its]|]; [|rewrite Hans; by apply wp_ret]. destruct Hans as (-> & Hq & Hprops). destruct (Z.ltb_spec (q - s_base b) 0); [lia|].
  apply wp_prop_word; [by repeat constructor|lia|]. by rewrite Hprops.
Qed.

(** The base address of a device: two cells. *)
Definition reg_base (prop : option (Z * Z)) : option Z := '(p, len) ← prop; if len <? 8 then None else Some (cells b p 2).

Lemma wp_reg_base node Q : node < 2 ^ 31 -> Q (reg_base (prop_of b toks node (chars "reg"))) b -> wp (fdt_get_reg_base node) Q b.
Proof.
  intros Hn HQ. unfold fdt_get_reg_base. apply wp_bind, wp_getprop; [by repeat constructor|done|].
  destruct (prop_of b toks node (chars "reg")) as [[p len]|] eqn:E; [|by apply wp_ret].
  pose proof (prop_of_ok b Hb Hbo toks node _ p len Hv E) as Hpk. cbn in HQ. destruct (Z.ltb_spec len 8); [by apply wp_ret|]. by eapply wp_two_words.
Qed.

Lemma wp_interrupt node Q : node < 2 ^ 31 -> Q (prop_word b (prop_of b toks node (chars "interrupts"))) b -> wp (fdt_get_interrupt_id node) Q b.
Proof. intros Hn HQ. unfold fdt_get_interrupt_id. apply wp_prop_word; [by repeat constructor|done|done]. Qed.

Lemma wp_totalsize Q : Q (word b 4) b -> wp fdt_totalsize Q b.
Proof.
  intros HQ. unfold fdt_totalsize, hdr_totalsize. apply wp_bind, wp_gets. rewrite address_known. apply wp_bind, wp_accepted. cbn [Z.eqb negb].
  by apply wp_header; [lia|lia|].
Qed.

End accepted.

(** ** A small tree *)

Definition be_bytes (v : Z) : list Z := [v / 16777216; v / 65536 mod 256; v / 256 mod 256; v mod 256].
Definition words (ws : list Z) : list Z := concat (map be_bytes ws).
Definition padded (s : list Z) : list Z := s ++ repeat 0 (4 - length s mod 4)%nat.

(** The root with one-cell addresses and sizes, a memory node of 1 MiB at
    0x80000000 and a serial device; one entry in the reserve map. *)
Definition demo_strings : list Z :=
  chars "#address-cells" ++ [0] ++ chars "#size-cells" ++ [0] ++ chars "reg" ++ [0] ++ chars "compatible" ++ [0].
Definition demo_struct : list Z :=
  words [1] ++ padded [] ++ words [3; 4; 0; 1] ++ words [3; 4; 15; 1] ++
  words [1] ++ padded (chars "memory@80000000") ++ words [3; 8; 27; 0x80000000; 0x100000; 2] ++
  words [1] ++ padded (chars "serial") ++ words [3; 9; 31] ++ chars "ns16550a" ++ [0; 0; 0; 0] ++ words [2] ++
  words [2; 9].
Definition demo_rsvmap : list Z := words [0; 0x80000000; 0; 0x1000; 0; 0; 0; 0].
Definition demo_dtb : dtb :=
  let body := Z.of_nat (length demo_struct) in
  let strs := Z.of_nat (length demo_strings) in
  mkDtb 0x1000 (words [FDT_MAGIC; 72 + body + strs; 72; 72 + body; 40; 17; 16; 0; strs; body] ++ demo_rsvmap ++ demo_struct ++ demo_strings).

Lemma demo_readable : readable demo_dtb.
Proof. constructor; [apply (bool_decide_unpack _); vm_compute; exact I|vm_compute; discriminate..]. Qed.

Lemma demo_accepted : fdt_check_header demo_dtb = Some (0, demo_dtb).
Proof. vm_compute. reflexivity. Qed.

(** ** Main theorems *)

(** C7: [fdt_check_header] decides well-formedness.  On any readable blob it
    returns 0 or -1, and 0 exactly when the header's blocks lie inside the blob
    and the structure block is a stream of well-formed tokens, properly nested
    under one root, at most 16 deep, with every name terminated inside its block. *)
Theorem fdt_check_header_exact (b : dtb) :
  readable b ->
  exists r, fdt_check_header b = Some (r, b) /\ (r = 0 \/ r = -1) /\ (r = 0 <-> exists toks, valid b toks).
Proof.
  intros Hb. destruct (check_cases b Hb) as [(toks & Hv & _ & E)|[Hno E]]; [exists 0|exists (-1)]; (split; [done|]).
  - split; [by left|]. split; eauto.
  - split; [by right|]. split; [done|]. intros [toks Hv]. by destruct (Hno toks).
Qed.

Lemma fdt_check_header_exact_witness :
  exists r, fdt_check_header demo_dtb = Some (r, demo_dtb) /\ (r = 0 \/ r = -1) /\ (r = 0 <-> exists toks, valid demo_dtb toks).
Proof. exact (fdt_check_header_exact demo_dtb demo_readable). Defined.

Lemma returns_wp {A} (m : M dtb A) b : wp m (fun _ s => s = b) b -> returns m b.
Proof. intros H. destruct (wp_run _ _ _ H) as (r & s & E & ->). by exists r. Qed.

(** Every interface function returns. *)
Definition all_return (b : dtb) (path name : list Z) (node max : Z) : Prop :=
  returns fdt_totalsize b /\ returns (fdt_path_offset path) b /\ returns (fdt_getprop node name) b /\
  returns (fdt_find_compatible name) b /\ returns (fdt_get_memory_regions max) b /\
  returns (fdt_get_reserved_memory_regions max) b /\ returns (fdt_get_memreserve_regions max) b /\
  returns fdt_get_initrd_range b /\ returns fdt_get_timebase_frequency b /\
  returns (fdt_get_reg_base node) b /\ returns (fdt_get_interrupt_id node) b.

Lemma all_return_holds (b : dtb) (path name : list Z) (node max : Z) :
  readable b -> c_string path -> c_string name -> node < 2 ^ 31 -> all_return b path name node max.
Proof.
  intros Hb Hpath Hname Hnode. unfold all_return. destruct (check_cases b Hb) as [(toks & Hv & Hbo & E)|[Hno E]]; cycle 1.
  { destruct (rejected_regions b E max) as (R1 & R2 & R3). destruct (rejected_values b E node) as (V1 & V2 & V3 & V4 & V5).
    pose proof (rejected_path b E path) as P. pose proof (rejected_getprop b E node name) as G. pose proof (rejected_compat b E name) as C.
    split_and!; apply returns_wp; (eapply wp_mono; [eassumption|]); intros ? ? [-> _]; done. }
  destruct (stream_document b _ _ (va_stream b toks Hv)) as [root Hdoc]. destruct (document_root _ _ Hdoc) as (rp & rnm & rits & Er).
  destruct (at_path_exists root (chars "reserved-memory")) as [n1 H1]. destruct (at_path_exists root (chars "chosen")) as [n2 H2].
  destruct (at_path_exists root (chars "cpus")) as [n3 H3].
  split_and!; apply returns_wp.
  - by eapply wp_totalsize.
  - destruct path as [|c p].
    { unfold fdt_path_offset. apply wp_bind, wp_gets. by case_match; apply wp_ret. }
    destruct (Z.eq_dec c 47) as [->|Hc]; [apply Forall_cons in Hpath as [_ Hp]; by eapply wp_path|].
    unfold fdt_path_offset. apply wp_bind, wp_gets. case_match; [by apply wp_ret|]. destruct (Z.eqb_spec c 47); [done|]. by apply wp_ret.
  - by eapply wp_getprop.
  - by eapply wp_find_compatible.
  - destruct (Z.lt_ge_cases 0 max); [by eapply wp_get_memory_regions|]. unfold fdt_get_memory_regions. apply wp_bind, wp_gets.
    destruct (Z.leb_spec max 0); [|lia]. rewrite orb_true_r. by apply wp_ret.
  - destruct (Z.lt_ge_cases 0 max); [by eapply wp_get_reserved_regions|]. unfold fdt_get_reserved_memory_regions. apply wp_bind, wp_gets.
    destruct (Z.leb_spec max 0); [|lia]. rewrite orb_true_r. by apply wp_ret.
  - destruct (Z.lt_ge_cases 0 max); [by eapply wp_get_memreserve_regions|]. unfold fdt_get_memreserve_regions.
    destruct (Z.leb_spec max 0); [|lia]. by apply wp_ret.
  - by eapply wp_initrd.
  - by eapply wp_timebase.
  - by eapply wp_reg_base.
  - by eapply wp_interrupt.
Qed.

(** C8: no input makes the device tree code read outside the blob or loop.  For
    every readable blob, whatever its bytes, and for all arguments, each function
    of the interface returns. *)
Theorem fdt_functions_total (b : dtb) (path name : list Z) (node max : Z) :
  readable b -> c_string path -> c_string name -> node < 2 ^ 31 -> all_return b path name node max.
Proof. apply all_return_holds. Qed.

Lemma fdt_functions_total_witness : all_return demo_dtb (chars "/serial") (chars "reg") 60 16.
Proof. apply fdt_functions_total; [exact demo_readable|by repeat constructor|by repeat constructor|lia]. Defined.

(** C9: an accepted blob is a tree, and the queries answer about that tree.  A
    path leads to the first node in document order whose ancestors and itself
    have the path's names, or nowhere; [fdt_getprop] returns the first property
    of that name which the node itself has (never one of a descendant, and
    nothing for an offset that is not a node's); [fdt_find_compatible] returns
    the first node one of whose [compatible] strings is the given one. *)
Theorem fdt_queries_correct (b : dtb) :
  readable b -> fdt_check_header b = Some (0, b) ->
  exists toks root, stream b (s_base b) (0, false) toks /\ document toks root /\
    (forall p, c_string p -> fdt_path_offset (47 :: p) b = Some (path_answer b root p, b)) /\
    (forall node name sub, c_string name -> node < 2 ^ 31 -> node_at root (s_base b + node) sub ->
       fdt_getprop node name b = Some (own_prop name sub, b)) /\
    (forall node name, c_string name -> node < 2 ^ 31 -> (forall sub, ~ node_at root (s_base b + node) sub) ->
       fdt_getprop node name b = Some (None, b)) /\
    (forall want, c_string want -> fdt_find_compatible want b =
       Some (match find_compat b want root with Some r => r | None => -1 end, b)).
Proof.
  intros Hb E. destruct (check_cases b Hb) as [(toks & Hv & Hbo & _)|[_ E']]; [|congruence].
  destruct (stream_document b _ _ (va_stream b toks Hv)) as [root Hdoc]. exists toks, root.
  assert (Hr : forall A (m : M dtb A) v, wp m (fun r s => s = b /\ r = v) b -> m b = Some (v, b)).
  { intros A m v H. destruct (wp_run _ _ _ H) as (r & s & -> & -> & ->). done. }
  split; [apply Hv|]. split; [done|]. split_and!; intros; apply Hr.
  - by eapply wp_path.
  - eapply wp_getprop; [done..|]. split; [done|]. by eapply (prop_of_tree b Hb Hbo toks root).
  - eapply wp_getprop; [done..|]. split; [done|]. by eapply (prop_of_tree b Hb Hbo toks root).
  - by eapply wp_find_compatible.
Qed.

Lemma fdt_queries_correct_witness :
  exists toks root, stream demo_dtb (s_base demo_dtb) (0, false) toks /\ document toks root /\
    (forall p, c_string p -> fdt_path_offset (47 :: p) demo_dtb = Some (path_answer demo_dtb root p, demo_dtb)) /\
    (forall node name sub, c_string name -> node < 2 ^ 31 -> node_at root (s_base demo_dtb + node) sub ->
       fdt_getprop node name demo_dtb = Some (own_prop name sub, demo_dtb)) /\
    (forall node name, c_string name -> node < 2 ^ 31 -> (forall sub, ~ node_at root (s_base demo_dtb + node) sub) ->
       fdt_getprop node name demo_dtb = Some (None, demo_dtb)) /\
    (forall want, c_string want -> fdt_find_compatible want demo_dtb =
       Some (match find_compat demo_dtb want root with Some r => r | None => -1 end, demo_dtb)).
Proof. exact (fdt_queries_correct demo_dtb demo_readable demo_accepted). Defined.

(** C10: the region lists are complete and exact.  On an accepted blob,
    [fdt_get_memory_regions] returns all nonempty [reg] entries of the memory
    nodes below the root in order, [fdt_get_reserved_memory_regions] those of the
    children of /reserved-memory with the cell counts of that node or else of the
    root, and [fdt_get_memreserve_regions] the nonempty entries of the reserve map
    up to its terminator; each fails when they do not fit in the array (no region
    is ever dropped silently) or the cell counts are not 1 or 2. *)
Theorem fdt_regions_correct (b : dtb) (max : Z) :
  readable b -> fdt_check_header b = Some (0, b) -> 0 < max ->
  exists toks rp rnm rits node, stream b (s_base b) (0, false) toks /\ document toks (INode rp rnm rits) /\
    at_path (INode rp rnm rits) [chars "reserved-memory"] node /\
    fdt_get_memory_regions max b = Some (memory_regions b (INode rp rnm rits) max, b) /\
    fdt_get_reserved_memory_regions max b = Some (reserved_regions b rits node max, b) /\
    fdt_get_memreserve_regions max b = Some (memreserve_regions b max, b).
Proof.
  intros Hb E Hm. destruct (check_cases b Hb) as [(toks & Hv & Hbo & _)|[_ E']]; [|congruence].
  destruct (stream_document b _ _ (va_stream b toks Hv)) as [root Hdoc]. destruct (document_root _ _ Hdoc) as (rp & rnm & rits & Er).
  destruct (at_path_exists root (chars "reserved-memory")) as [n Hn]. exists toks, rp, rnm, rits, n. rewrite <- Er.
  assert (Hr : forall A (m : M dtb A) v, wp m (fun r s => s = b /\ r = v) b -> m b = Some (v, b)).
  { intros A m v H. destruct (wp_run _ _ _ H) as (r & s & -> & -> & ->). done. }
  split; [apply Hv|]. split; [done|]. split; [done|]. split_and!; apply Hr.
  - by eapply wp_get_memory_regions.
  - by eapply wp_get_reserved_regions.
  - by eapply wp_get_memreserve_regions.
Qed.

Lemma fdt_regions_correct_witness :
  exists toks rp rnm rits node, stream demo_dtb (s_base demo_dtb) (0, false) toks /\ document toks (INode rp rnm rits) /\
    at_path (INode rp rnm rits) [chars "reserved-memory"] node /\
    fdt_get_memory_regions 16 demo_dtb = Some (memory_regions demo_dtb (INode rp rnm rits) 16, demo_dtb) /\
    fdt_get_reserved_memory_regions 16 demo_dtb = Some (reserved_regions demo_dtb rits node 16, demo_dtb) /\
    fdt_get_memreserve_regions 16 demo_dtb = Some (memreserve_regions demo_dtb 16, demo_dtb).
Proof. exact (fdt_regions_correct demo_dtb 16 demo_readable demo_accepted ltac:(lia)). Defined.

(** The demo blob, evaluated. *)
Example demo_memory :
  fst <$> fdt_get_memory_regions 16 demo_dtb = Some (Some [mkFdtRegion 0x80000000 0x100000]) /\
  fst <$> fdt_get_memreserve_regions 16 demo_dtb = Some (Some [mkFdtRegion 0x80000000 0x1000]) /\
  fst <$> fdt_find_compatible (chars "ns16550a") demo_dtb = fst <$> fdt_path_offset (chars "/serial") demo_dtb.
Proof. vm_compute. split_and!; reflexivity. Qed.
