(* ===== verification/MemoryInit.v ===== *)
(** * Boot of the memory system: [memory_init] of [kernel/src/memory.c]

    The RAM regions and reservations come from the device tree; the page allocator
    and the slab caches are set up.  The linker symbols and the build
    configuration are arguments. *)

From S2P Require Import Prelude Memory Slab Fdt.

Open Scope Z_scope.

(** [user_layout.h]: the window of raw user images. *)
Definition USER_CODE_BASE (qemu : bool) : Z := if qemu then 0x83000000 else 0x32000000.
Definition USER_CODE_SIZE : Z := 0x00100000.
Definition USER_STACK_SIZE : Z := 0x00010000.

(** What the kernel gets from the boot loader and the linker script. *)
Record boot_info := mkBoot {
  phys_start : Z; (* the address of _phys_start *)
  phys_end : Z;
  qemu_build : bool;
  initrd_start : Z;
  initrd_end : Z;
}.

(** A call of a device tree function. *)
Definition fdt_call {A} (f : M dtb A) (fdt : dtb) : M slabs A := defined (fst <$> f fdt).

Definition init_log (items : list log_item) : M slabs unit := slog ([LStr "[Allocator] "] ++ items).

Definition set_direct_map (on : bool) (base first_idx last_idx : Z) (m : mem) : mem :=
  set_direct_map_last_idx last_idx (set_direct_map_first_idx first_idx (set_direct_map_base base (set_regions_direct_map on m))).

(** The loop over the regions of the device tree, with [total_pages]; [None] is
    an early return of the function. *)
Fixpoint init_regions (dts : list fdt_mem_region) (total_pages : Z) : M slabs (option Z) :=
  match dts with
  | [] => mret (Some total_pages)
  | d :: dts' =>
      region_count ← gets (fun s => Z.of_nat (length s.(pages).(regions)));
      if FDT_MAX_MEM_REGIONS <=? region_count then mret (Some total_pages)
      else if UINT64_MAX - (PAGE_SIZE - 1) <? d.(fr_base) then mret None
      else
        let start := align_up_u64 d.(fr_base) PAGE_SIZE in
        let raw_end := u64 (d.(fr_base) + d.(fr_size)) in
        let raw_end := if raw_end <? d.(fr_base) then UINT64_MAX else raw_end in
        let end_ := align_down_u64 raw_end PAGE_SIZE in
        if end_ <=? start then init_regions dts' total_pages
        else
          let npages := u64 (end_ - start) / PAGE_SIZE in
          if npages =? 0 then init_regions dts' total_pages
          else if u64 (INT32_MAX - total_pages) <? npages then
            init_log [LStr "too many pages for frame indices\n"] ;; mret None
          else
            overlap ← gets (fun s => existsb (fun r => ranges_overlap start end_ r.(r_base) (u64 (r.(r_base) + r.(r_size)))) s.(pages).(regions));
            if (overlap : bool) then init_log [LStr "overlapping RAM regions\n"] ;; mret None
            else
              modify (fun s => set_pages (set_regions (s.(pages).(regions) ++ [mkRegion start (u64 (end_ - start)) total_pages npages]) s.(pages)) s) ;;
              init_regions dts' (u64 (total_pages + npages))
  end.

Fixpoint reserve_all (rs : list fdt_mem_region) : M slabs unit :=
  match rs with
  | [] => mret tt
  | r :: rs' => zoom (memory_reserve r.(fr_base) r.(fr_size)) ;; reserve_all rs'
  end.

(** From the reservations on; the RAM regions are known. *)
Definition init_reserves (fdt : dtb) (bi : boot_info) : M slabs bool :=
  zoom (memory_reserve 0 PAGE_SIZE) ;;
  dtb_size ← fdt_call fdt_totalsize fdt;
  when (negb (dtb_size =? 0)) (zoom (memory_reserve fdt.(d_addr) dtb_size)) ;;
  zoom (memory_reserve bi.(phys_start) (u64 (bi.(phys_end) - bi.(phys_start)))) ;;
  zoom (memory_reserve (USER_CODE_BASE bi.(qemu_build)) USER_CODE_SIZE) ;;
  when (bi.(initrd_start) <? bi.(initrd_end)) (zoom (memory_reserve bi.(initrd_start) (u64 (bi.(initrd_end) - bi.(initrd_start))))) ;;
  rsv ← fdt_call (fdt_get_memreserve_regions FDT_MAX_MEM_REGIONS) fdt;
  match rsv with
  | None => init_log [LStr "invalid or oversized FDT reserve map\n"] ;; mret false
  | Some rs =>
      reserve_all rs ;;
      rsv2 ← fdt_call (fdt_get_reserved_memory_regions FDT_MAX_MEM_REGIONS) fdt;
      match rsv2 with
      | None => init_log [LStr "invalid or oversized reserved-memory list\n"] ;; mret false
      | Some rs2 => reserve_all rs2 ;; mret true
      end
  end.

(** The allocators themselves. *)
Definition init_allocators : M slabs unit :=
  rc ← zoom buddy_setup_metadata;
  if negb (rc =? 0) then init_log [LStr "metadata allocation failed\n"]
  else
    slab_init ;;
    zoom buddy_build_initial_state ;;
    modify (fun s => set_pages (set_memory_ready true s.(pages)) s) ;;
    n ← gets (fun s => Z.of_nat (length s.(pages).(regions)));
    np ← gets (fun s => s.(pages).(managed_page_count));
    init_log [LStr "memory init done regions="; LDec n; LStr " pages="; LDec np; LStr "\n"] ;;
    modify (fun s => set_pages (set_allocator_log_enabled false s.(pages)) s).

Definition memory_init (fdt : dtb) (bi : boot_info) : M slabs unit :=
  ready ← gets (fun s => s.(pages).(memory_ready));
  if (ready : bool) then mret tt
  else
    modify (fun s => set_pages (set_direct_map false 0 0 0 (set_allocator_log_enabled true s.(pages))) s) ;;
    dts ← fdt_call (fdt_get_memory_regions FDT_MAX_MEM_REGIONS) fdt;
    match dts with
    | None | Some [] => init_log [LStr "no memory regions from FDT\n"]
    | Some dts =>
        modify (fun s => set_pages (set_regions [] s.(pages)) s) ;;
        total ← init_regions dts 0;
        match total with
        | None => mret tt
        | Some total_pages =>
            regs ← gets (fun s => s.(pages).(regions));
            match regs with
            | [] => init_log [LStr "no usable page-aligned memory\n"]
            | r :: rest =>
                if total_pages =? 0 then init_log [LStr "no usable page-aligned memory\n"]
                else
                  when (Z.of_nat (length regs) =? 1)
                    (modify (fun s => set_pages (set_direct_map true r.(r_base) r.(r_first_idx)
                                                   (u64 (r.(r_first_idx) + r.(r_page_count))) s.(pages)) s)) ;;
                  modify (fun s => set_pages (set_managed_page_count total_pages s.(pages)) s) ;;
                  zoom (startup_allocator_init r.(r_base) r.(r_size)) ;;
                  ok ← init_reserves fdt bi;
                  if (ok : bool) then init_allocators else mret tt
            end
        end
    end.
