(* ===== verification/Boot.v ===== *)
(** * Boot of the memory system is correct

    From the bytes of the device tree to working allocators: the regions are
    sound, everything that must survive is reserved, and the allocators start in
    a good state. *)

From S2P Require Import Prelude Lists Memory Layout BuddyInv BuddyAlloc BuddySpec BuddyInit PageIface Startup.
From S2P Require Import Slab SlabInv SlabAlloc SlabFree SlabHeap ByteAllocator Fdt FdtStream FdtWalk FdtTree FdtRegions DeviceTree MemoryInit.

Open Scope Z_scope.

(** ** Regions from the device tree *)

Definition region_u64 (r : fdt_mem_region) : Prop := 0 <= r.(fr_base) < 2 ^ 64 /\ 0 <= r.(fr_size) < 2 ^ 64.

(** At most 16 regions of 64-bit values. *)
Definition small_list (rs : option (list fdt_mem_region)) : Prop :=
  forall l, rs = Some l -> Z.of_nat (length l) <= FDT_MAX_MEM_REGIONS /\ Forall region_u64 l.

Lemma cells_range b entry n : readable b -> 0 <= cells b entry n < 2 ^ 64.
Proof. intros Hb. unfold cells. pose proof (word_range b Hb entry). pose proof (word_range b Hb (entry + 4)). case_match; lia. Qed.

Lemma reg_list_u64 b ac sc prop : readable b -> Forall region_u64 (reg_list b ac sc prop).
Proof.
  intros Hb. destruct prop as [[p len]|]; [|constructor]. cbn. apply Forall_forall. intros r Hr. apply list_elem_of_filter in Hr as [_ Hr].
  apply list_elem_of_In, in_map_iff in Hr as (i & <- & _). split; by apply cells_range.
Qed.

Lemma limit_small max l : Forall region_u64 l -> max = FDT_MAX_MEM_REGIONS -> small_list (limit max l).
Proof. intros Hl -> l'. unfold limit. case_match eqn:E; [|done]. intros [= <-]. apply Z.leb_le in E. done. Qed.

Lemma children_u64 sel its : (forall nm sub, Forall region_u64 (sel nm sub)) -> Forall region_u64 (children_regions sel its).
Proof.
  intros Hs. induction its as [|it its IH]; [constructor|]. cbn. apply Forall_app. split; [|done]. destruct it; [constructor|apply Hs].
Qed.

Lemma rsv_spec_u64 b n cur l : readable b -> rsv_spec b n cur = Some l -> Forall region_u64 l.
Proof.
  intros Hb. revert cur l. induction n as [|n IH]; intros cur l; [done|]. cbn [rsv_spec]. cbv zeta. case_match; [intros [= <-]; constructor|].
  destruct (rsv_spec b n (cur + 16)) as [rs|] eqn:E; [|done]. cbn [mbind option_bind]. intros [= <-]. specialize (IH _ _ E).
  case_match; [done|]. constructor; [|done]. split; by apply cells_range.
Qed.

(** The three lists of regions are short and their values fit in 64 bits. *)
Lemma fdt_lists_small b :
  readable b ->
  (exists r, fdt_get_memory_regions FDT_MAX_MEM_REGIONS b = Some (r, b) /\ small_list r) /\
  (exists r, fdt_get_memreserve_regions FDT_MAX_MEM_REGIONS b = Some (r, b) /\ small_list r) /\
  (exists r, fdt_get_reserved_memory_regions FDT_MAX_MEM_REGIONS b = Some (r, b) /\ small_list r) /\
  (exists r, fdt_totalsize b = Some (r, b) /\ 0 <= r < 2 ^ 32).
Proof.
  intros Hb.
  assert (Hw : forall A (m : M dtb A) P, wp m (fun r s => s = b /\ P r) b -> exists r, m b = Some (r, b) /\ P r).
  { intros A m P H. destruct (wp_run _ _ _ H) as (r & s & E & -> & HP). eauto. }
  destruct (check_cases b Hb) as [(toks & Hv & Hbo & E)|[Hno E]]; cycle 1.
  { destruct (rejected_regions b E FDT_MAX_MEM_REGIONS) as (R1 & R2 & R3). destruct (rejected_values b E 0) as (V1 & _).
    split_and!; apply Hw; (eapply wp_mono; [eassumption|]); intros ? ? [-> ->]; split; (done || intros ? [=]). }
  destruct (stream_document b _ _ (va_stream b toks Hv)) as [root Hdoc]. destruct (document_root _ _ Hdoc) as (rp & rnm & rits & Er).
  destruct (at_path_exists root (chars "reserved-memory")) as [n Hn]. split_and!; apply Hw.
  - eapply wp_get_memory_regions; try done. split; [done|]. rewrite Er. cbn [memory_regions]. cbv zeta. case_match; [by intros ?|].
    apply limit_small; [|done]. apply children_u64. intros nm sub. unfold memory_child. case_match; [by apply reg_list_u64|constructor].
  - eapply wp_get_memreserve_regions; try done. split; [done|]. unfold memreserve_regions.
    destruct (rsv_spec b _ (word b 16)) as [rs|] eqn:Ers; [|by intros ?]. cbn. apply limit_small; [|done]. by eapply rsv_spec_u64.
  - eapply wp_get_reserved_regions; try done. split; [done|]. destruct n as [[q its]|]; cbn [reserved_regions].
    + cbv zeta. case_match; [by intros ?|]. apply limit_small; [|done]. apply children_u64. intros nm sub. by apply reg_list_u64.
    + intros l [= <-]. split; [done|constructor].
  - eapply wp_totalsize; try done. split; [done|]. by apply word_range.
Qed.

(** ** The RAM regions *)

(** [r] lies inside a region of the device tree. *)
Definition inside_dt (dts : list fdt_mem_region) (r : mem_region_info) : Prop :=
  exists d, d ∈ dts /\ d.(fr_base) <= r.(r_base) /\ r.(r_base) + r.(r_size) <= d.(fr_base) + d.(fr_size).

Record regions_good (dts : list fdt_mem_region) (regs : list mem_region_info) (total : Z) : Prop := {
  rg_from : regions_from 0 regs total;
  rg_disjoint : regions_disjoint regs;
  rg_total : 0 <= total <= INT32_MAX;
  rg_inside : Forall (inside_dt dts) regs;
}.

Lemma regions_from_app f regs r total :
  regions_from f regs total -> r.(r_first_idx) = total -> 0 < r.(r_page_count) -> 0 <= r.(r_base) -> (PAGE_SIZE | r.(r_base)) ->
  r.(r_size) = r.(r_page_count) * PAGE_SIZE -> r.(r_base) + r.(r_size) < 2 ^ 64 ->
  regions_from f (regs ++ [r]) (total + r.(r_page_count)).
Proof.
  revert f. induction regs as [|q regs IH]; intros f H; intros; cbn in *.
  - subst f. split_and!; done.
  - destruct H as (? & ? & ? & ? & ? & ? & H). split_and!; try done. by apply IH.
Qed.

(** One region: rounding inwards. *)
Lemma region_rounding base size :
  0 <= base -> base <= UINT64_MAX - (PAGE_SIZE - 1) -> 0 <= size < 2 ^ 64 ->
  let start := align_up_u64 base PAGE_SIZE in
  let raw := if u64 (base + size) <? base then UINT64_MAX else u64 (base + size) in
  let end_ := align_down_u64 raw PAGE_SIZE in
  start < end_ ->
  (PAGE_SIZE | start) /\ (PAGE_SIZE | end_) /\ base <= start /\ end_ <= base + size /\ end_ < 2 ^ 64.
Proof.
  intros Hb Hm Hz. cbv zeta. pose proof (align_up_spec base 12 ltac:(lia) Hb Hm) as (Hd & Hle & _). change (2 ^ 12) with PAGE_SIZE in *.
  set (raw := if u64 (base + size) <? base then UINT64_MAX else u64 (base + size)).
  assert (Hraw : 0 <= raw < 2 ^ 64 /\ raw <= base + size).
  { unfold raw, UINT64_MAX in *. pose proof (u64_range (base + size)). destruct (Z.lt_ge_cases (base + size) (2 ^ 64)).
    - rewrite u64_id by (unfold PAGE_SIZE in *; lia). destruct (Z.ltb_spec (base + size) base); lia.
    - assert (u64 (base + size) = base + size - 2 ^ 64) as ->.
      { unfold u64. symmetry. apply (Z.mod_unique _ _ 1); unfold PAGE_SIZE in *; lia. }
      destruct (Z.ltb_spec (base + size - 2 ^ 64) base); lia. }
  rewrite (align_down_page raw) by lia. pose proof (round_down_bounds raw PAGE_SIZE ltac:(done) ltac:(lia)).
  intros Hlt. split; [done|]. split; [by apply divide_round_down|]. lia.
Qed.

(** A whole number of pages. *)
Lemma divide_exact x y : (PAGE_SIZE | x) -> (PAGE_SIZE | y) -> x < y ->
  0 < (y - x) / PAGE_SIZE /\ y - x = (y - x) / PAGE_SIZE * PAGE_SIZE.
Proof.
  intros [p ->] [q ->] Hlt. unfold PAGE_SIZE in *. replace (q * 4096 - p * 4096) with ((q - p) * 4096) by lia.
  rewrite Z.div_mul by lia. lia.
Qed.

Section boot.
Context (b : dtb) (Hb : readable b).

Lemma zoom_log items s Q : (forall c, Q tt (set_pages (set_console c s.(pages)) s)) -> wp (init_log items) Q s.
Proof. intros HQ. unfold init_log, slog. apply wp_zoom, wp_log. apply HQ. Qed.

(** The states that differ from [s] in the console and the regions only. *)
Definition with_regions (c : list log_item) (regs : list mem_region_info) (s : slabs) : slabs :=
  set_pages (set_console c (set_regions regs s.(pages))) s.

Lemma wp_init_regions dts all regs total c s Q :
  Forall region_u64 dts -> (forall d, d ∈ dts -> d ∈ all) -> regions_good all regs total ->
  (forall c regs', Q None (with_regions c regs' s)) ->
  (forall c regs' total', regions_good all regs' total' -> Q (Some total') (with_regions c regs' s)) ->
  wp (init_regions dts total) Q (with_regions c regs s).
Proof.
  revert regs total c. induction dts as [|d dts IH]; intros regs total c Hu Hin Hg HN HS; cbn [init_regions]; [by apply wp_ret, HS|].
  apply Forall_cons in Hu as [[Hb0 Hz0] Hu]. apply wp_bind, wp_gets. case_match; [by apply wp_ret, HS|].
  destruct (Z.ltb_spec (UINT64_MAX - (PAGE_SIZE - 1)) (fr_base d)) as [Hbig|Hsmall]; [by apply wp_ret, HN|]. cbv zeta.
  pose proof (region_rounding (fr_base d) (fr_size d) ltac:(lia) Hsmall Hz0) as Hround. cbv zeta in Hround.
  set (start := align_up_u64 (fr_base d) PAGE_SIZE) in *. set (end_ := align_down_u64 _ PAGE_SIZE) in *.
  assert (Hskip : wp (init_regions dts total) Q (with_regions c regs s)) by (apply IH; try done; set_solver).
  destruct (Z.leb_spec end_ start) as [|Hlt]; [exact Hskip|]. destruct (Hround Hlt) as (Hd1 & Hd2 & Hbs & Hes & He64).
  rewrite (u64_id (end_ - start)) by lia. pose proof (divide_exact start end_ Hd1 Hd2 Hlt) as [Hpos Hexact].
  destruct (Z.eqb_spec ((end_ - start) / PAGE_SIZE) 0); [exact Hskip|]. pose proof Hg as [Hfrom Hdisj Htot Hins]. unfold INT32_MAX in *.
  rewrite (u64_id (2 ^ 31 - 1 - total)) by lia.
  destruct (Z.ltb_spec (2 ^ 31 - 1 - total) ((end_ - start) / PAGE_SIZE)) as [|Hfit]; [apply wp_bind, zoom_log; intros c'; apply wp_ret, HN|].
  apply wp_bind, wp_gets. destruct (existsb _ _) eqn:Ho; [apply wp_bind, zoom_log; intros c'; apply wp_ret, HN|].
  change (regions (pages (with_regions c regs s))) with regs in Ho. apply wp_bind, wp_modify. rewrite u64_id by lia.
  set (r := mkRegion start (end_ - start) total ((end_ - start) / PAGE_SIZE)).
  match goal with |- wp _ _ ?x => change (wp (init_regions dts (total + (end_ - start) / PAGE_SIZE)) Q (with_regions c (regs ++ [r]) s)) end.
  apply IH; [done|set_solver| |done|done].
  assert (Hno : forall q, q ∈ regs -> end_ <= q.(r_base) \/ q.(r_base) + q.(r_size) <= start).
  { intros q Hq. destruct (Z.le_gt_cases end_ (r_base q)); [by left|]. destruct (Z.le_gt_cases (r_base q + r_size q) start); [by right|].
    exfalso. assert (Ht : existsb (fun r => ranges_overlap start end_ r.(r_base) (u64 (r.(r_base) + r.(r_size)))) regs = true); [|congruence].
    apply existsb_exists. exists q. split; [by apply list_elem_of_In|]. destruct (regions_from_bounds _ _ _ q Hfrom Hq) as (_ & _ & _ & ? & _ & _ & ?).
    destruct (regions_from_bounds _ _ _ q Hfrom Hq) as (_ & _ & Hpc & _ & _ & Hsz & _). unfold PAGE_SIZE in Hsz.
    unfold ranges_overlap. rewrite u64_id by lia. apply andb_true_iff. rewrite !Z.ltb_lt. lia. }
  constructor; [|intros q q' Hq Hq' Hne|unfold INT32_MAX; lia|].
  - change ((end_ - start) / PAGE_SIZE) with (r_page_count r). apply regions_from_app; try done; cbn [r_page_count r_base r_size r]; lia.
  - apply elem_of_app in Hq, Hq'. rewrite !list_elem_of_singleton in Hq, Hq'. destruct Hq as [Hq| ->], Hq' as [Hq'| ->].
    + by apply Hdisj.
    + destruct (Hno q Hq); cbn [r_base r_size r]; lia.
    + destruct (Hno q' Hq'); cbn [r_base r_size r]; lia.
    + done.
  - apply Forall_app. split; [done|]. apply Forall_singleton. exists d. split; [set_solver|]. cbn [r_base r_size r]. lia.
Qed.

(** ** Reservations *)

(** [s1] is [s] with at most [n] reservations that cover [cov]. *)
Definition reserving (s : slabs) (n : Z) (cov : Z -> Prop) (s1 : slabs) : Prop :=
  exists c R, s1 = set_pages (set_console c (set_reserves R s.(pages))) s /\ Forall reserve_wf R /\
    Z.of_nat (length R) <= n /\ forall x, cov x -> 0 <= x < UINT64_MAX -> existsb (in_reserve x) R = true.

Definition in_range (base size x : Z) : Prop := base <= x < base + size.

Lemma reserving_weaken s n n' (cov cov' : Z -> Prop) s1 :
  reserving s n cov s1 -> n <= n' -> (forall x, cov' x -> cov x) -> reserving s n' cov' s1.
Proof. intros (c & R & E & Hwf & Hl & Hc) Hn Himp. exists c, R. split_and!; try done; [lia|]. auto. Qed.

Lemma wp_reserve_step s n cov s1 base size Q :
  reserving s n cov s1 -> n < MEMORY_MAX_RESERVES -> 0 <= base < 2 ^ 64 -> 0 <= size < 2 ^ 64 ->
  (forall s2, reserving s (n + 1) (fun x => cov x \/ in_range base size x) s2 -> Q tt s2) ->
  wp (zoom (memory_reserve base size)) Q s1.
Proof.
  intros (c & R & -> & Hwf & Hl & Hc) Hn Hba Hsz HQ. apply wp_zoom, wp_memory_reserve; [done|done|]. intros c'. apply HQ.
  set (m := set_console c (set_reserves R (pages s))). change (view _) with m.
  exists c', (reserved_after base size m). split; [done|]. split; [by apply reserved_after_wf|]. split.
  - unfold reserved_after. case_decide; [cbn; lia|]. rewrite length_app. cbn. lia.
  - intros x Hx Hr. rewrite existsb_reserved. destruct Hx as [Hx|Hx].
    + specialize (Hc x Hx Hr). rewrite existsb_reserved in Hc. destruct Hc as (r & Hin & Hrx). exists r. split; [|done].
      by apply reserved_after_mono.
    + unfold in_range in Hx. unfold reserved_after. rewrite decide_False by (cbn; lia).
      exists (reserve_entry base size). split; [set_solver|]. destruct (reserve_entry_spec base size Hba ltac:(lia)) as (_ & H1 & H2). cbn zeta in *. lia.
Qed.

Lemma wp_reserve_all s rs : forall n cov s1 Q,
  reserving s n cov s1 -> n + Z.of_nat (length rs) <= MEMORY_MAX_RESERVES -> Forall region_u64 rs ->
  (forall s2, reserving s (n + Z.of_nat (length rs)) (fun x => cov x \/ exists r, r ∈ rs /\ in_range r.(fr_base) r.(fr_size) x) s2 -> Q tt s2) ->
  wp (reserve_all rs) Q s1.
Proof.
  induction rs as [|r rs IH]; intros n cov s1 Q Hr Hn Hu HQ; cbn [reserve_all length] in *.
  - apply wp_ret, HQ. eapply reserving_weaken; [exact Hr|lia|]. intros x [Hx|(q & Hq & _)]; [done|by apply elem_of_nil in Hq].
  - apply Forall_cons in Hu as [[Hu1 Hu2] Hu]. apply wp_bind. eapply wp_reserve_step; [exact Hr|lia|done|done|]. intros s2 Hs2.
    eapply IH; [exact Hs2|lia|done|]. intros s3 Hs3. apply HQ. eapply reserving_weaken; [exact Hs3|lia|].
    intros x [Hx|(q & Hq & Hx)]; [left; by left|]. apply elem_of_cons in Hq as [->|Hq]; [left; by right|right; eauto].
Qed.

(** What must survive: page 0, the device tree, the kernel image, the user window
    and the ramdisk, and what firmware has reserved. *)
Definition protected (bi : boot_info) (rs1 rs2 : list fdt_mem_region) (total x : Z) : Prop :=
  in_range 0 PAGE_SIZE x \/ in_range b.(d_addr) total x \/
  in_range bi.(phys_start) (bi.(phys_end) - bi.(phys_start)) x \/
  in_range (USER_CODE_BASE bi.(qemu_build)) USER_CODE_SIZE x \/
  in_range bi.(initrd_start) (bi.(initrd_end) - bi.(initrd_start)) x \/
  exists r, r ∈ rs1 ++ rs2 /\ in_range r.(fr_base) r.(fr_size) x.

(** Values of the machine. *)
Record boot_ok (bi : boot_info) : Prop := {
  bk_addr : 0 <= b.(d_addr) < 2 ^ 64;
  bk_kernel : 0 <= bi.(phys_start) <= bi.(phys_end) /\ bi.(phys_end) < 2 ^ 64;
  bk_initrd : 0 <= bi.(initrd_start) < 2 ^ 64 /\ 0 <= bi.(initrd_end) < 2 ^ 64;
}.

(** The answers of the device tree functions that boot relies on. *)
Record fdt_answers (rs1 rs2 : option (list fdt_mem_region)) (total : Z) : Prop := {
  fa_reserve : fdt_get_memreserve_regions FDT_MAX_MEM_REGIONS b = Some (rs1, b);
  fa_reserve_small : small_list rs1;
  fa_nodes : fdt_get_reserved_memory_regions FDT_MAX_MEM_REGIONS b = Some (rs2, b);
  fa_nodes_small : small_list rs2;
  fa_total : fdt_totalsize b = Some (total, b);
  fa_total_small : 0 <= total < 2 ^ 32;
}.

Lemma wp_fdt_call {A} (f : M dtb A) r (s : slabs) Q : f b = Some (r, b) -> Q r s -> wp (fdt_call f b) Q s.
Proof. intros E HQ. unfold fdt_call. eapply wp_defined; [by rewrite E|done]. Qed.

Lemma wp_init_reserves bi rs1 rs2 total s Q :
  boot_ok bi -> fdt_answers rs1 rs2 total -> s.(pages).(reserves) = [] ->
  (forall s1, s1.(pages).(memory_ready) = s.(pages).(memory_ready) -> Q false s1) ->
  (forall l1 l2 s1, rs1 = Some l1 -> rs2 = Some l2 -> reserving s 40 (protected bi l1 l2 total) s1 -> Q true s1) ->
  wp (init_reserves b bi) Q s.
Proof.
  intros [Ha [Hk1 Hk2] [Hi1 Hi2]] [Er1 Hs1 Er2 Hs2 Et Ht] Hemp HF HT. unfold init_reserves.
  assert (H0 : reserving s 0 (fun _ => False) s).
  { exists (console (pages s)), []. rewrite <- Hemp. split; [by destruct s as [? ? ? ? ? ? ? []]|]. rewrite Hemp. split; [constructor|]. by split. }
  apply wp_bind. eapply wp_reserve_step; [exact H0|done|lia|unfold PAGE_SIZE; lia|]. intros s1 R1.
  apply wp_bind. eapply wp_fdt_call; [exact Et|].
  assert (Hd : forall s1 Q, reserving s (0 + 1) (fun x => False \/ in_range 0 PAGE_SIZE x) s1 ->
    (forall s2, reserving s 2 (fun x => (False \/ in_range 0 PAGE_SIZE x) \/ in_range (d_addr b) total x) s2 -> Q tt s2) ->
    wp (when (negb (total =? 0)) (zoom (memory_reserve (d_addr b) total))) Q s1).
  { intros s2 Q' R HQ'. apply wp_when; intros E.
    - eapply wp_reserve_step; [exact R|done|done|lia|exact HQ'].
    - apply negb_false_iff, Z.eqb_eq in E. apply HQ'. eapply reserving_weaken; [exact R|lia|]. unfold in_range. intros x. lia. }
  apply wp_bind. apply Hd; [done|]. intros s2 R2. rewrite (u64_id (phys_end bi - phys_start bi)) by lia.
  apply wp_bind. eapply wp_reserve_step; [exact R2|done|lia|lia|]. intros s3 R3.
  apply wp_bind. eapply wp_reserve_step; [exact R3|done|unfold USER_CODE_BASE; case_match; lia|unfold USER_CODE_SIZE; lia|]. intros s4 R4.
  set (cov4 := fun x => _) in R4.
  assert (Hi : forall Q, (forall s5, reserving s 5 (fun x => cov4 x \/ in_range (initrd_start bi) (initrd_end bi - initrd_start bi) x) s5 -> Q tt s5) ->
    wp (when (initrd_start bi <? initrd_end bi) (zoom (memory_reserve (initrd_start bi) (u64 (initrd_end bi - initrd_start bi))))) Q s4).
  { intros Q' HQ'. apply wp_when; intros E.
    - apply Z.ltb_lt in E. rewrite u64_id by lia. eapply wp_reserve_step; [exact R4|done|done|lia|exact HQ'].
    - apply Z.ltb_ge in E. apply HQ'. eapply reserving_weaken; [exact R4|lia|]. unfold in_range. intros x [?|?]; [done|lia]. }
  apply wp_bind, Hi. intros s5 R5. apply wp_bind. eapply wp_fdt_call; [exact Er1|].
  assert (Hrd : forall n cov s', reserving s n cov s' -> forall c, memory_ready (pages (set_pages (set_console c (pages s')) s')) = memory_ready (pages s)).
  { intros n cov s' (c & R & -> & _) c'. done. }
  destruct rs1 as [l1|]; [|apply wp_bind, zoom_log; intros c; apply wp_ret, HF; by eapply Hrd].
  destruct (Hs1 l1 eq_refl) as [Hl1 Hu1]. unfold FDT_MAX_MEM_REGIONS, MEMORY_MAX_RESERVES in *.
  apply wp_bind. eapply wp_reserve_all; [exact R5|unfold MEMORY_MAX_RESERVES; lia|done|]. intros s6 R6.
  apply wp_bind. eapply wp_fdt_call; [exact Er2|].
  destruct rs2 as [l2|]; [|apply wp_bind, zoom_log; intros c; apply wp_ret, HF; by eapply Hrd].
  destruct (Hs2 l2 eq_refl) as [Hl2 Hu2]. unfold FDT_MAX_MEM_REGIONS in Hl2. apply wp_bind. eapply wp_reserve_all; [exact R6|unfold MEMORY_MAX_RESERVES; lia|done|]. intros s7 R7.
  apply wp_ret. apply (HT l1 l2); [done|done|]. eapply reserving_weaken; [exact R7|lia|].
  unfold protected, cov4. setoid_rewrite elem_of_app. naive_solver.
Qed.

(** ** Start of the allocators *)

(** What a successful boot leaves. *)
Record booted (s0 : slabs) (cov : Z -> Prop) (s : slabs) : Prop := {
  bt_ready : s.(pages).(memory_ready) = true;
  bt_ok : slab_ok s;
  bt_empty : forall a z, ~ allocated s a z;
  bt_no_blocks : forall i o, ~ live s.(pages) i o;
  bt_regions : s.(pages).(regions) = s0.(pages).(regions);
  bt_free : forall j, free_page s.(pages) j <-> 0 <= j < s.(pages).(managed_page_count) /\
    exists pa, index_to_pa s.(pages) j = Some pa /\ is_reserved_pa s.(pages) pa = false;
  bt_cov : forall x, cov x -> 0 <= x < UINT64_MAX -> is_reserved_pa s.(pages) x = true;
}.

Lemma free_page_frame (m m' : mem) j : m'.(frame_array) = m.(frame_array) -> free_page m' j <-> free_page m j.
Proof. intros E. unfold free_page. by rewrite E. Qed.

Lemma pg_tag_none m : (forall i k, fkind m.(frame_array) i = Some k -> k = PAGE_KIND_NONE) -> forall a, pg_tag m a = PAGE_KIND_NONE.
Proof.
  intros Hk a. rewrite pg_tag_fkind. destruct (pa_to_index m a) as [[i k]|]; [|done].
  destruct (fkind (frame_array m) i) eqn:E; [|done]. by apply Hk in E.
Qed.

Lemma wp_init_allocators s cov Q :
  layout_ok s.(pages) -> 0 < s.(pages).(managed_page_count) -> 0 < s.(pages).(startup_cur) < 2 ^ 64 -> s.(pages).(startup_end) < 2 ^ 64 ->
  reserves_wf s.(pages) -> lists_allocated s.(pages) -> (forall x, cov x -> 0 <= x < UINT64_MAX -> is_reserved_pa s.(pages) x = true) -> cov 0 ->
  (forall s1, s1.(pages).(memory_ready) = s.(pages).(memory_ready) -> Q tt s1) -> (forall s1, booted s cov s1 -> Q tt s1) ->
  wp init_allocators Q s.
Proof.
  intros Hl Hn Hcur Hend Hwf Hal Hcov Hc0 HF HT. unfold init_allocators. apply wp_bind, wp_zoom.
  apply wp_buddy_setup_metadata; try done; cbn [view put slabs_pages]; [apply zoom_log; intros c; by apply HF|].
  intros m1 (Hfr & Hreg & Hcnt & Hrdy & Hirq & Hp0 & _ & Hp1 & Hp2 & _ & Hres). cbn [Z.eqb negb].
  apply wp_bind. apply (wp_slab_init (pok := mem_ok) (blk := pg_block) (tag := pg_tag)). intros s2 Hinv Hpg. cbn in Hpg.
  assert (Hmono : forall x, is_reserved_pa (pages s) x = true -> is_reserved_pa m1 x = true).
  { intros x. unfold is_reserved_pa. rewrite !existsb_reserved. intros (r & Hr & Hx). exists r. rewrite Hres. split; [by apply reserved_after_mono|done]. }
  assert (Hz : is_reserved_pa m1 0 = true) by (apply Hmono, Hcov; [done|unfold UINT64_MAX; lia]).
  apply wp_bind, wp_zoom. change (view s2) with (pages s2). rewrite Hpg. pose proof (fr_layout m1 Hfr) as Hl1.
  apply (wp_buddy_build m1); [done|by apply fresh_settled|]. intros m2 Hset.
  destruct (settled_end_ok m1 m2 Hset Hz) as (Hok & Hf & Hlv & Hk).
  wp_steps. apply zoom_log. intros c. wp_steps. apply HT. cbn [put slabs_pages].
  set (m3 := set_allocator_log_enabled false (set_console c (set_memory_ready true m2))).
  match goal with |- booted _ _ ?x => change x with (set_pages m3 s2) end.
  assert (Hok3 : mem_ok m3) by (apply (mem_ok_frame (set_memory_ready true m2)); done).
  assert (Htag : forall a, pg_tag m3 a = PAGE_KIND_NONE) by (by apply pg_tag_none).
  assert (Hm2 : geo m2 = geo m1 /\ m2.(reserves) = m1.(reserves)) by (destruct Hset as (fa & hd & c' & fl & -> & _); done).
  destruct Hm2 as [Hg2 Hr2].
  constructor; slab_simpl.
  - done.
  - exists no_lists. by apply Hinv.
  - intros a z [(cl & p & (_ & Hx & _) & _)|(o & (Hx & _) & _)]; cbn in Hx; by rewrite Htag in Hx.
  - done.
  - change (regions m3) with (regions m2). unfold geo in Hg2. congruence.
  - intros j. rewrite (free_page_frame m2 m3) by done. rewrite Hf. change (managed_page_count m3) with (managed_page_count m2).
    assert (managed_page_count m2 = managed_page_count m1) as -> by (unfold geo in Hg2; congruence).
    split; intros [Hj Hr]; (split; [done|]).
    + destruct (index_to_pa_total m1 Hl1 j ltac:(lia)) as (r & Hrj & Hpa). exists (page_pa r j).
      split; [rewrite (geo_index_to_pa m1 m3 j Hg2); exact Hpa|].
      unfold is_reserved_pa. change (reserves m3) with (reserves m2). rewrite Hr2. destruct (existsb _ _) eqn:Ex; [|done]. exfalso. apply Hr. by exists r.
    + destruct Hr as (pa & Hpa & Hnr). intros (r & Hrj & Hex). rewrite (geo_index_to_pa m1 m3 j Hg2) in Hpa.
      rewrite (index_to_pa_spec m1 Hl1 j r Hrj) in Hpa. injection Hpa as <-. unfold is_reserved_pa in Hnr. change (reserves m3) with (reserves m2) in Hnr.
      rewrite Hr2 in Hnr. congruence.
  - intros x Hx Hrx. unfold is_reserved_pa. change (reserves m3) with (reserves m2). rewrite Hr2. by apply Hmono, Hcov.
Qed.

(** ** The whole function *)

(** Memory as the loader leaves it: nothing is set up. *)
Record cold (s : slabs) : Prop := {
  cd_ready : s.(pages).(memory_ready) = false;
  cd_reserves : s.(pages).(reserves) = [];
  cd_lists : lists_allocated s.(pages);
}.

(** What the device tree says about RAM and reserved memory. *)
Record described (dts l1 l2 : list fdt_mem_region) (total : Z) : Prop := {
  de_ram : fdt_get_memory_regions FDT_MAX_MEM_REGIONS b = Some (Some dts, b);
  de_reserve : fdt_get_memreserve_regions FDT_MAX_MEM_REGIONS b = Some (Some l1, b);
  de_nodes : fdt_get_reserved_memory_regions FDT_MAX_MEM_REGIONS b = Some (Some l2, b);
  de_total : fdt_totalsize b = Some (total, b);
}.

(** Once the regions are in place. *)
Lemma wp_init_rest bi dts rs1 rs2 total npages r rest s Q :
  boot_ok bi -> fdt_answers rs1 rs2 total -> cold s -> s.(pages).(regions) = r :: rest -> s.(pages).(regions_direct_map) = false ->
  regions_good dts (r :: rest) npages -> npages <> 0 ->
  (forall s1, s1.(pages).(memory_ready) = false -> Q tt s1) ->
  (forall l1 l2 s0 s1, rs1 = Some l1 -> rs2 = Some l2 -> s0.(pages).(regions) = r :: rest -> booted s0 (protected bi l1 l2 total) s1 -> Q tt s1) ->
  wp (when (Z.of_nat (length (r :: rest)) =? 1)
        (modify (fun s => set_pages (set_direct_map true r.(r_base) r.(r_first_idx) (u64 (r.(r_first_idx) + r.(r_page_count))) s.(pages)) s)) ;;
      modify (fun s => set_pages (set_managed_page_count npages s.(pages)) s) ;;
      zoom (startup_allocator_init r.(r_base) r.(r_size)) ;;
      ok ← init_reserves b bi;
      if (ok : bool) then init_allocators else mret tt) Q s.
Proof.
  intros Hbi Hfa [Hrd Hrs Hal] Hregs Hdm Hg Hnp HF HT. pose proof Hg as [Hfrom Hdis Htot Hins].
  pose proof Hfrom as (Hf0 & Hpc & Hb0 & Hd & Hsz & Hend & _). unfold PAGE_SIZE, INT32_MAX in *.
  destruct (regions_from_bounds 0 _ _ r Hfrom ltac:(by left)) as (_ & Hlast & _).
  set (m0 := if Z.of_nat (length (r :: rest)) =? 1 then set_direct_map true (r_base r) (r_first_idx r) (r_first_idx r + r_page_count r) (pages s) else pages s).
  assert (Hgo : wp (modify (fun s => set_pages (set_managed_page_count npages s.(pages)) s) ;;
      zoom (startup_allocator_init r.(r_base) r.(r_size)) ;;
      ok ← init_reserves b bi;
      if (ok : bool) then init_allocators else mret tt) Q (set_pages m0 s)).
  { wp_steps. apply wp_zoom. unfold startup_allocator_init. wp_steps. slab_simpl. cbn [view put slabs_pages].
    rewrite u64_id by lia. destruct (Z.ltb_spec (r_base r + r_size r) (r_base r)); [lia|]. unfold PAGE_SIZE.
    set (cur := if r_base r <? 4096 then 4096 else r_base r).
    assert (Hcur : 0 < cur < 2 ^ 64) by (unfold cur; destruct (Z.ltb_spec (r_base r) 4096); lia).
    set (m1 := set_startup_ready (cur <? r_base r + r_size r) (set_startup_end (r_base r + r_size r) (set_startup_cur cur (set_managed_page_count npages m0)))).
    wp_state (set_pages m1 s).
    assert (Hm0 : reserves m0 = [] /\ memory_ready m0 = false /\ free_lists m0 = free_lists (pages s) /\ regions m0 = r :: rest).
    { unfold m0. case_match; cbn; done. }
    destruct Hm0 as (Hm1 & Hm2 & Hm3 & Hm4).
    apply (wp_init_reserves bi rs1 rs2 total); [done|done|exact Hm1|intros s1 Hs1; apply wp_ret, HF; by rewrite Hs1|].
    intros l1 l2 s1 E1 E2 (c & R & -> & Hwf & Hl & Hc). set (s1 := set_pages _ _).
    apply (wp_init_allocators s1 (protected bi l1 l2 total)).
    - constructor.
      + change (regions_from 0 (regions m0) npages). by rewrite Hm4.
      + change (regions_disjoint (regions m0)). by rewrite Hm4.
      + cbn. unfold INT32_MAX. lia.
      + intros Hdir. change (regions_direct_map m0 = true) in Hdir. exists r. change (regions (pages s1)) with (regions m0). rewrite Hm4.
        change (direct_map_base (pages s1)) with (direct_map_base m0). change (direct_map_first_idx (pages s1)) with (direct_map_first_idx m0).
        change (direct_map_last_idx (pages s1)) with (direct_map_last_idx m0).
        unfold m0 in *. destruct (Z.eqb_spec (Z.of_nat (length (r :: rest))) 1) as [El|El]; [|congruence].
        destruct rest; [done|cbn in El; lia].
    - cbn. lia.
    - exact Hcur.
    - cbn. lia.
    - exact Hwf.
    - intros o. change (free_lists (pages s1)) with (free_lists m0). rewrite Hm3. apply Hal.
    - exact Hc.
    - left. unfold in_range, PAGE_SIZE. lia.
    - intros s2 Hs2. apply HF. by rewrite Hs2.
    - intros s2 Hs2. eapply (HT l1 l2 s1); done. }
  apply wp_bind. apply wp_when; intros El.
  - apply wp_modify. rewrite u64_id by lia. unfold m0 in Hgo. rewrite El in Hgo. exact Hgo.
  - unfold m0 in Hgo. rewrite El in Hgo. by destruct s.
Qed.

Lemma wp_memory_init bi s Q :
  boot_ok bi -> cold s ->
  (forall s1, s1.(pages).(memory_ready) = false -> Q tt s1) ->
  (forall dts l1 l2 total s0 s1, described dts l1 l2 total -> booted s0 (protected bi l1 l2 total) s1 ->
     Forall (inside_dt dts) s1.(pages).(regions) -> Q tt s1) ->
  wp (memory_init b bi) Q s.
Proof.
  intros Hbi Hcold HF HT. destruct (fdt_lists_small b Hb) as ((rd & Ed & Hsd) & (r1 & E1 & Hs1) & (r2 & E2 & Hs2) & (tot & Et & Htot)).
  pose proof Hcold as [Hrd Hrs Hal]. unfold memory_init. apply wp_bind, wp_gets. rewrite Hrd. apply wp_bind, wp_modify.
  apply wp_bind. eapply wp_fdt_call; [exact Ed|].
  destruct rd as [[|d dts]|]; [apply zoom_log; intros c; by apply HF| |apply zoom_log; intros c; by apply HF].
  destruct (Hsd _ eq_refl) as [_ Hu]. set (all := d :: dts) in *. apply wp_bind, wp_modify. slab_simpl.
  set (s1 := set_pages (set_direct_map false 0 0 0 (set_allocator_log_enabled true (pages s))) s).
  match goal with |- wp _ _ ?x => assert (Ex : x = with_regions s1.(pages).(console) [] s1) by (by destruct s as [? ? ? ? ? ? ? []]); rewrite Ex; clear Ex end.
  apply wp_bind. apply (wp_init_regions all all); [done|done| | |].
  { constructor; [done|intros r r' Hr; by apply elem_of_nil in Hr|unfold INT32_MAX; lia|constructor]. }
  { intros c regs. apply wp_ret, HF. exact Hrd. }
  intros c regs total Hg. apply wp_bind, wp_gets. change (regions (pages (with_regions c regs s1))) with regs.
  destruct regs as [|r rest]; [apply zoom_log; intros c'; by apply HF|].
  destruct (Z.eqb_spec total 0); [apply zoom_log; intros c'; by apply HF|].
  apply (wp_init_rest bi all r1 r2 tot); try done.
  intros l1 l2 s0 s2 -> -> Hreg Hbt. apply (HT all l1 l2 tot s0); [done|done|]. rewrite (bt_regions _ _ _ Hbt), Hreg. apply Hg.
Qed.

End boot.

(** C11: boot is correct.  For every readable device tree, whatever its contents,
    [memory_init] returns.  If it does not give up, the allocators are in a good
    state with nothing allocated; the managed pages lie inside the RAM regions
    that the tree describes; the free pages are exactly the unreserved ones; and
    page 0, the device tree, the kernel image, the user code window, the ramdisk
    and everything that the tree reserves (both the reserve map and
    /reserved-memory) are reserved, so the allocators never hand them out. *)
Theorem memory_init_correct (b : dtb) (bi : boot_info) (s : slabs) :
  readable b -> boot_ok b bi -> cold s ->
  exists s', memory_init b bi s = Some (tt, s') /\
    (s'.(pages).(memory_ready) = false \/
     exists dts l1 l2 total s0, described b dts l1 l2 total /\ booted s0 (protected b bi l1 l2 total) s' /\
       Forall (inside_dt dts) s'.(pages).(regions)).
Proof.
  intros Hb Hbi Hc. destruct (wp_run (memory_init b bi) (fun _ s' => s'.(pages).(memory_ready) = false \/
     exists dts l1 l2 total s0, described b dts l1 l2 total /\ booted s0 (protected b bi l1 l2 total) s' /\
       Forall (inside_dt dts) s'.(pages).(regions)) s) as ([] & s' & E & H); [|by exists s'].
  apply wp_memory_init; [done|done|done|by left|]. intros. right. by eexists _, _, _, _, _.
Qed.

(** A machine with the RAM of the small device tree. *)
Definition demo_cold : slabs :=
  mkSlabs ∅ ∅ ∅ 0 0 0 false
    (mkMem [] 0 [] 0 0 false 0 ∅ (list_to_map (map (fun i => (Z.of_nat i, 0)) (seq 0 21))) false 0 0 0 false 0 0 false true []).
Definition demo_boot : boot_info := mkBoot 0x80001000 0x80020000 true 0x80030000 0x80038000.

Lemma demo_cold_lists : lists_allocated demo_cold.(pages).
Proof.
  intros o. change (is_Some ((list_to_map (map (fun i => (Z.of_nat i, 0)) (seq 0 21)) : gmap Z Z) !! o) <-> order_ok o). split.
  - intros [h Hh]. apply elem_of_list_to_map_2 in Hh. apply list_elem_of_In, in_map_iff in Hh as (k & Ek & Hk).
    apply in_seq in Hk. injection Ek as <- <-. unfold order_ok, MEMORY_BUDDY_MAX_ORDER. lia.
  - intros Ho. unfold order_ok, MEMORY_BUDDY_MAX_ORDER in Ho.
    assert (exists k : nat, o = Z.of_nat k /\ (k < 21)%nat) as (k & -> & Hk) by (exists (Z.to_nat o); lia).
    do 21 (destruct k as [|k]; [by eexists|]). lia.
Qed.

Lemma memory_init_correct_witness :
  exists s', memory_init demo_dtb demo_boot demo_cold = Some (tt, s') /\
    (s'.(pages).(memory_ready) = false \/
     exists dts l1 l2 total s0, described demo_dtb dts l1 l2 total /\ booted s0 (protected demo_dtb demo_boot l1 l2 total) s' /\
       Forall (inside_dt dts) s'.(pages).(regions)).
Proof.
  apply (memory_init_correct demo_dtb demo_boot demo_cold demo_readable).
  - constructor; cbn; lia.
  - constructor; [reflexivity|reflexivity|apply demo_cold_lists].
Defined.

(** On that machine boot succeeds, and a first allocation does too. *)
Example demo_boot_runs :
  match memory_init demo_dtb demo_boot demo_cold with
  | Some (_, s) => s.(pages).(memory_ready) = true /\ s.(pages).(managed_page_count) = 256 /\
                   match kmalloc 100 s with Some (a, _) => a <> 0 | None => False end
  | None => False
  end.
Proof. vm_compute. split_and!; [reflexivity|reflexivity|discriminate]. Qed.
