(* ===== verification/Task.v ===== *)
(** * Threads, wait entries and the scheduler's state

    The structures of [thread.h], [wait.h] and [trap.h] and the static variables
    of [sched.c] and [thread.c].  Objects are addressed as in the code: a
    [struct thread *] is a [Z], and the maps below hold the objects that exist in
    memory, so that an access through a dangling pointer is undefined. *)

From S2P Require Import Prelude Lists Memory Slab.

Open Scope Z_scope.

(** ** Data *)

Inductive thread_kind := THREAD_KERNEL | THREAD_USER.
Inductive thread_state := THREAD_RUNNING | THREAD_RUNNABLE | THREAD_NEW | THREAD_WAITING | THREAD_ZOMBIE.

#[export] Instance thread_kind_eq : EqDecision thread_kind.
Proof. solve_decision. Defined.
#[export] Instance thread_state_eq : EqDecision thread_state.
Proof. solve_decision. Defined.

(** Code addresses: the null pointer, the functions the sources take the address
    of, the instruction after the call of [switch_to] in [schedule], and the
    functions of clients. *)
Inductive code := c_null | c_thread_bootstrap | c_user_task_entry | c_schedule_resume | c_client (addr : Z).

#[export] Instance code_eq : EqDecision code.
Proof. solve_decision. Defined.

(** Callee-saved registers at a call of [switch_to]. *)
Record thread_context := mkContext {
  c_ra : code;
  c_sp : Z;
  c_s0 : Z;
  c_s1 : Z;
  c_s2 : Z;
  c_s3 : Z;
  c_s4 : Z;
  c_s5 : Z;
  c_s6 : Z;
  c_s7 : Z;
  c_s8 : Z;
  c_s9 : Z;
  c_s10 : Z;
  c_s11 : Z;
}.

(** The thread control block. *)
Record thread := mkThread {
  t_context : thread_context;
  t_tid : Z; (* unique scheduler identity *)
  t_tgid : Z; (* process id *)
  t_kind : thread_kind;
  t_state : thread_state;
  t_entry : code;
  t_arg : Z;
  t_kstack_base : Z;
  t_kstack_top : Z;
  t_next : Z; (* run queue linkage *)
  t_znext : Z; (* zombie list linkage *)
  t_all_next : Z; (* global task list linkage *)
  t_wait_entries : Z; (* active registrations *)
  t_is_idle : Z;
  t_user_entry : Z;
  t_user_stack_base : Z;
  t_user_stack_top : Z;
  t_exit_status : Z;
  t_tc : Z; (* points into this thread's kernel stack *)
}.

Record wait_entry := mkEntry {
  e_task : Z;
  e_queue : Z;
  e_prev : Z;
  e_next : Z;
  e_task_prev : Z;
  e_task_next : Z;
}.

Record wait_queue := mkQueue {
  q_head : Z;
  q_tail : Z;
}.

(** The registers saved at a trap. *)
Record trap_context := mkTrapContext {
  tc_ra : Z;
  tc_sp : Z;
  tc_gp : Z;
  tc_tp : Z;
  tc_t0 : Z;
  tc_t1 : Z;
  tc_t2 : Z;
  tc_s0 : Z;
  tc_s1 : Z;
  tc_a0 : Z;
  tc_a1 : Z;
  tc_a2 : Z;
  tc_a3 : Z;
  tc_a4 : Z;
  tc_a5 : Z;
  tc_a6 : Z;
  tc_a7 : Z;
  tc_s2 : Z;
  tc_s3 : Z;
  tc_s4 : Z;
  tc_s5 : Z;
  tc_s6 : Z;
  tc_s7 : Z;
  tc_s8 : Z;
  tc_s9 : Z;
  tc_s10 : Z;
  tc_s11 : Z;
  tc_t3 : Z;
  tc_t4 : Z;
  tc_t5 : Z;
  tc_t6 : Z;
  tc_sepc : Z;
  tc_sstatus : Z;
  tc_scause : Z;
  tc_stval : Z;
}.

Definition zero_context : thread_context := mkContext c_null 0 0 0 0 0 0 0 0 0 0 0 0 0.
(** The all-zero objects of [(struct ...){0}]. *)
Definition zero_thread : thread :=
  mkThread zero_context 0 0 THREAD_KERNEL THREAD_RUNNING c_null 0 0 0 0 0 0 0 0 0 0 0 0 0.
Definition zero_entry : wait_entry := mkEntry 0 0 0 0 0 0.
Definition zero_trap_context : trap_context :=
  mkTrapContext 0 0 0 0 0 0 0 0 0 0 0 0 0 0 0 0 0 0 0 0 0 0 0 0 0 0 0 0 0 0 0 0 0 0 0.

(** ** The state *)

Record sched := mkSched {
  tasks : gmap Z thread; (* every struct thread in memory, by address *)
  entries : gmap Z wait_entry; (* every struct wait_entry in memory *)
  queues : gmap Z wait_queue; (* every struct wait_queue *)
  tcs : gmap Z trap_context; (* trap contexts in kernel stacks *)
  frames : gmap Z bool; (* [sstatus] of the suspended [schedule] calls, by thread *)
  boot_idle_thread : Z; (* its address *)
  run_head : Z;
  run_tail : Z;
  threading_started : Z;
  need_resched : Z;
  zombie_head : Z;
  all_threads : Z;
  next_tid : Z;
  tp : Z; (* register tp *)
  regs : thread_context; (* registers ra, sp, s0-s11 *)
  bh_running : Z; (* [running] of bottom_half.c *)
  qemu : bool; (* built with QEMU defined *)
  heap : slabs;
}.

(** ** Field updates *)

Definition set_c_ra (v : code) (c : thread_context) : thread_context :=
  mkContext v c.(c_sp) c.(c_s0) c.(c_s1) c.(c_s2) c.(c_s3) c.(c_s4) c.(c_s5) c.(c_s6) c.(c_s7) c.(c_s8) c.(c_s9)
    c.(c_s10) c.(c_s11).
Definition set_c_sp (v : Z) (c : thread_context) : thread_context :=
  mkContext c.(c_ra) v c.(c_s0) c.(c_s1) c.(c_s2) c.(c_s3) c.(c_s4) c.(c_s5) c.(c_s6) c.(c_s7) c.(c_s8) c.(c_s9)
    c.(c_s10) c.(c_s11).

Definition set_t_context (v : thread_context) (t : thread) : thread :=
  mkThread v t.(t_tid) t.(t_tgid) t.(t_kind) t.(t_state) t.(t_entry) t.(t_arg) t.(t_kstack_base) t.(t_kstack_top)
    t.(t_next) t.(t_znext) t.(t_all_next) t.(t_wait_entries) t.(t_is_idle) t.(t_user_entry) t.(t_user_stack_base)
    t.(t_user_stack_top) t.(t_exit_status) t.(t_tc).
Definition set_t_tid (v : Z) (t : thread) : thread :=
  mkThread t.(t_context) v t.(t_tgid) t.(t_kind) t.(t_state) t.(t_entry) t.(t_arg) t.(t_kstack_base) t.(t_kstack_top)
    t.(t_next) t.(t_znext) t.(t_all_next) t.(t_wait_entries) t.(t_is_idle) t.(t_user_entry) t.(t_user_stack_base)
    t.(t_user_stack_top) t.(t_exit_status) t.(t_tc).
Definition set_t_tgid (v : Z) (t : thread) : thread :=
  mkThread t.(t_context) t.(t_tid) v t.(t_kind) t.(t_state) t.(t_entry) t.(t_arg) t.(t_kstack_base) t.(t_kstack_top)
    t.(t_next) t.(t_znext) t.(t_all_next) t.(t_wait_entries) t.(t_is_idle) t.(t_user_entry) t.(t_user_stack_base)
    t.(t_user_stack_top) t.(t_exit_status) t.(t_tc).
Definition set_t_kind (v : thread_kind) (t : thread) : thread :=
  mkThread t.(t_context) t.(t_tid) t.(t_tgid) v t.(t_state) t.(t_entry) t.(t_arg) t.(t_kstack_base) t.(t_kstack_top)
    t.(t_next) t.(t_znext) t.(t_all_next) t.(t_wait_entries) t.(t_is_idle) t.(t_user_entry) t.(t_user_stack_base)
    t.(t_user_stack_top) t.(t_exit_status) t.(t_tc).
Definition set_t_state (v : thread_state) (t : thread) : thread :=
  mkThread t.(t_context) t.(t_tid) t.(t_tgid) t.(t_kind) v t.(t_entry) t.(t_arg) t.(t_kstack_base) t.(t_kstack_top)
    t.(t_next) t.(t_znext) t.(t_all_next) t.(t_wait_entries) t.(t_is_idle) t.(t_user_entry) t.(t_user_stack_base)
    t.(t_user_stack_top) t.(t_exit_status) t.(t_tc).
Definition set_t_entry (v : code) (t : thread) : thread :=
  mkThread t.(t_context) t.(t_tid) t.(t_tgid) t.(t_kind) t.(t_state) v t.(t_arg) t.(t_kstack_base) t.(t_kstack_top)
    t.(t_next) t.(t_znext) t.(t_all_next) t.(t_wait_entries) t.(t_is_idle) t.(t_user_entry) t.(t_user_stack_base)
    t.(t_user_stack_top) t.(t_exit_status) t.(t_tc).
Definition set_t_arg (v : Z) (t : thread) : thread :=
  mkThread t.(t_context) t.(t_tid) t.(t_tgid) t.(t_kind) t.(t_state) t.(t_entry) v t.(t_kstack_base) t.(t_kstack_top)
    t.(t_next) t.(t_znext) t.(t_all_next) t.(t_wait_entries) t.(t_is_idle) t.(t_user_entry) t.(t_user_stack_base)
    t.(t_user_stack_top) t.(t_exit_status) t.(t_tc).
Definition set_t_kstack_base (v : Z) (t : thread) : thread :=
  mkThread t.(t_context) t.(t_tid) t.(t_tgid) t.(t_kind) t.(t_state) t.(t_entry) t.(t_arg) v t.(t_kstack_top)
    t.(t_next) t.(t_znext) t.(t_all_next) t.(t_wait_entries) t.(t_is_idle) t.(t_user_entry) t.(t_user_stack_base)
    t.(t_user_stack_top) t.(t_exit_status) t.(t_tc).
Definition set_t_kstack_top (v : Z) (t : thread) : thread :=
  mkThread t.(t_context) t.(t_tid) t.(t_tgid) t.(t_kind) t.(t_state) t.(t_entry) t.(t_arg) t.(t_kstack_base) v
    t.(t_next) t.(t_znext) t.(t_all_next) t.(t_wait_entries) t.(t_is_idle) t.(t_user_entry) t.(t_user_stack_base)
    t.(t_user_stack_top) t.(t_exit_status) t.(t_tc).
Definition set_t_next (v : Z) (t : thread) : thread :=
  mkThread t.(t_context) t.(t_tid) t.(t_tgid) t.(t_kind) t.(t_state) t.(t_entry) t.(t_arg) t.(t_kstack_base)
    t.(t_kstack_top) v t.(t_znext) t.(t_all_next) t.(t_wait_entries) t.(t_is_idle) t.(t_user_entry)
    t.(t_user_stack_base) t.(t_user_stack_top) t.(t_exit_status) t.(t_tc).
Definition set_t_znext (v : Z) (t : thread) : thread :=
  mkThread t.(t_context) t.(t_tid) t.(t_tgid) t.(t_kind) t.(t_state) t.(t_entry) t.(t_arg) t.(t_kstack_base)
    t.(t_kstack_top) t.(t_next) v t.(t_all_next) t.(t_wait_entries) t.(t_is_idle) t.(t_user_entry)
    t.(t_user_stack_base) t.(t_user_stack_top) t.(t_exit_status) t.(t_tc).
Definition set_t_all_next (v : Z) (t : thread) : thread :=
  mkThread t.(t_context) t.(t_tid) t.(t_tgid) t.(t_kind) t.(t_state) t.(t_entry) t.(t_arg) t.(t_kstack_base)
    t.(t_kstack_top) t.(t_next) t.(t_znext) v t.(t_wait_entries) t.(t_is_idle) t.(t_user_entry) t.(t_user_stack_base)
    t.(t_user_stack_top) t.(t_exit_status) t.(t_tc).
Definition set_t_wait_entries (v : Z) (t : thread) : thread :=
  mkThread t.(t_context) t.(t_tid) t.(t_tgid) t.(t_kind) t.(t_state) t.(t_entry) t.(t_arg) t.(t_kstack_base)
    t.(t_kstack_top) t.(t_next) t.(t_znext) t.(t_all_next) v t.(t_is_idle) t.(t_user_entry) t.(t_user_stack_base)
    t.(t_user_stack_top) t.(t_exit_status) t.(t_tc).
Definition set_t_is_idle (v : Z) (t : thread) : thread :=
  mkThread t.(t_context) t.(t_tid) t.(t_tgid) t.(t_kind) t.(t_state) t.(t_entry) t.(t_arg) t.(t_kstack_base)
    t.(t_kstack_top) t.(t_next) t.(t_znext) t.(t_all_next) t.(t_wait_entries) v t.(t_user_entry) t.(t_user_stack_base)
    t.(t_user_stack_top) t.(t_exit_status) t.(t_tc).
Definition set_t_user_entry (v : Z) (t : thread) : thread :=
  mkThread t.(t_context) t.(t_tid) t.(t_tgid) t.(t_kind) t.(t_state) t.(t_entry) t.(t_arg) t.(t_kstack_base)
    t.(t_kstack_top) t.(t_next) t.(t_znext) t.(t_all_next) t.(t_wait_entries) t.(t_is_idle) v t.(t_user_stack_base)
    t.(t_user_stack_top) t.(t_exit_status) t.(t_tc).
Definition set_t_user_stack_base (v : Z) (t : thread) : thread :=
  mkThread t.(t_context) t.(t_tid) t.(t_tgid) t.(t_kind) t.(t_state) t.(t_entry) t.(t_arg) t.(t_kstack_base)
    t.(t_kstack_top) t.(t_next) t.(t_znext) t.(t_all_next) t.(t_wait_entries) t.(t_is_idle) t.(t_user_entry) v
    t.(t_user_stack_top) t.(t_exit_status) t.(t_tc).
Definition set_t_user_stack_top (v : Z) (t : thread) : thread :=
  mkThread t.(t_context) t.(t_tid) t.(t_tgid) t.(t_kind) t.(t_state) t.(t_entry) t.(t_arg) t.(t_kstack_base)
    t.(t_kstack_top) t.(t_next) t.(t_znext) t.(t_all_next) t.(t_wait_entries) t.(t_is_idle) t.(t_user_entry)
    t.(t_user_stack_base) v t.(t_exit_status) t.(t_tc).
Definition set_t_exit_status (v : Z) (t : thread) : thread :=
  mkThread t.(t_context) t.(t_tid) t.(t_tgid) t.(t_kind) t.(t_state) t.(t_entry) t.(t_arg) t.(t_kstack_base)
    t.(t_kstack_top) t.(t_next) t.(t_znext) t.(t_all_next) t.(t_wait_entries) t.(t_is_idle) t.(t_user_entry)
    t.(t_user_stack_base) t.(t_user_stack_top) v t.(t_tc).
Definition set_t_tc (v : Z) (t : thread) : thread :=
  mkThread t.(t_context) t.(t_tid) t.(t_tgid) t.(t_kind) t.(t_state) t.(t_entry) t.(t_arg) t.(t_kstack_base)
    t.(t_kstack_top) t.(t_next) t.(t_znext) t.(t_all_next) t.(t_wait_entries) t.(t_is_idle) t.(t_user_entry)
    t.(t_user_stack_base) t.(t_user_stack_top) t.(t_exit_status) v.

Definition set_e_task (v : Z) (e : wait_entry) : wait_entry :=
  mkEntry v e.(e_queue) e.(e_prev) e.(e_next) e.(e_task_prev) e.(e_task_next).
Definition set_e_queue (v : Z) (e : wait_entry) : wait_entry :=
  mkEntry e.(e_task) v e.(e_prev) e.(e_next) e.(e_task_prev) e.(e_task_next).
Definition set_e_prev (v : Z) (e : wait_entry) : wait_entry :=
  mkEntry e.(e_task) e.(e_queue) v e.(e_next) e.(e_task_prev) e.(e_task_next).
Definition set_e_next (v : Z) (e : wait_entry) : wait_entry :=
  mkEntry e.(e_task) e.(e_queue) e.(e_prev) v e.(e_task_prev) e.(e_task_next).
Definition set_e_task_prev (v : Z) (e : wait_entry) : wait_entry :=
  mkEntry e.(e_task) e.(e_queue) e.(e_prev) e.(e_next) v e.(e_task_next).
Definition set_e_task_next (v : Z) (e : wait_entry) : wait_entry :=
  mkEntry e.(e_task) e.(e_queue) e.(e_prev) e.(e_next) e.(e_task_prev) v.

Definition set_q_head (v : Z) (q : wait_queue) : wait_queue :=
  mkQueue v q.(q_tail).
Definition set_q_tail (v : Z) (q : wait_queue) : wait_queue :=
  mkQueue q.(q_head) v.

Definition set_tc_ra (v : Z) (c : trap_context) : trap_context :=
  mkTrapContext v c.(tc_sp) c.(tc_gp) c.(tc_tp) c.(tc_t0) c.(tc_t1) c.(tc_t2) c.(tc_s0) c.(tc_s1) c.(tc_a0) c.(tc_a1)
    c.(tc_a2) c.(tc_a3) c.(tc_a4) c.(tc_a5) c.(tc_a6) c.(tc_a7) c.(tc_s2) c.(tc_s3) c.(tc_s4) c.(tc_s5) c.(tc_s6)
    c.(tc_s7) c.(tc_s8) c.(tc_s9) c.(tc_s10) c.(tc_s11) c.(tc_t3) c.(tc_t4) c.(tc_t5) c.(tc_t6) c.(tc_sepc)
    c.(tc_sstatus) c.(tc_scause) c.(tc_stval).
Definition set_tc_sp (v : Z) (c : trap_context) : trap_context :=
  mkTrapContext c.(tc_ra) v c.(tc_gp) c.(tc_tp) c.(tc_t0) c.(tc_t1) c.(tc_t2) c.(tc_s0) c.(tc_s1) c.(tc_a0) c.(tc_a1)
    c.(tc_a2) c.(tc_a3) c.(tc_a4) c.(tc_a5) c.(tc_a6) c.(tc_a7) c.(tc_s2) c.(tc_s3) c.(tc_s4) c.(tc_s5) c.(tc_s6)
    c.(tc_s7) c.(tc_s8) c.(tc_s9) c.(tc_s10) c.(tc_s11) c.(tc_t3) c.(tc_t4) c.(tc_t5) c.(tc_t6) c.(tc_sepc)
    c.(tc_sstatus) c.(tc_scause) c.(tc_stval).
Definition set_tc_gp (v : Z) (c : trap_context) : trap_context :=
  mkTrapContext c.(tc_ra) c.(tc_sp) v c.(tc_tp) c.(tc_t0) c.(tc_t1) c.(tc_t2) c.(tc_s0) c.(tc_s1) c.(tc_a0) c.(tc_a1)
    c.(tc_a2) c.(tc_a3) c.(tc_a4) c.(tc_a5) c.(tc_a6) c.(tc_a7) c.(tc_s2) c.(tc_s3) c.(tc_s4) c.(tc_s5) c.(tc_s6)
    c.(tc_s7) c.(tc_s8) c.(tc_s9) c.(tc_s10) c.(tc_s11) c.(tc_t3) c.(tc_t4) c.(tc_t5) c.(tc_t6) c.(tc_sepc)
    c.(tc_sstatus) c.(tc_scause) c.(tc_stval).
Definition set_tc_tp (v : Z) (c : trap_context) : trap_context :=
  mkTrapContext c.(tc_ra) c.(tc_sp) c.(tc_gp) v c.(tc_t0) c.(tc_t1) c.(tc_t2) c.(tc_s0) c.(tc_s1) c.(tc_a0) c.(tc_a1)
    c.(tc_a2) c.(tc_a3) c.(tc_a4) c.(tc_a5) c.(tc_a6) c.(tc_a7) c.(tc_s2) c.(tc_s3) c.(tc_s4) c.(tc_s5) c.(tc_s6)
    c.(tc_s7) c.(tc_s8) c.(tc_s9) c.(tc_s10) c.(tc_s11) c.(tc_t3) c.(tc_t4) c.(tc_t5) c.(tc_t6) c.(tc_sepc)
    c.(tc_sstatus) c.(tc_scause) c.(tc_stval).
Definition set_tc_a0 (v : Z) (c : trap_context) : trap_context :=
  mkTrapContext c.(tc_ra) c.(tc_sp) c.(tc_gp) c.(tc_tp) c.(tc_t0) c.(tc_t1) c.(tc_t2) c.(tc_s0) c.(tc_s1) v c.(tc_a1)
    c.(tc_a2) c.(tc_a3) c.(tc_a4) c.(tc_a5) c.(tc_a6) c.(tc_a7) c.(tc_s2) c.(tc_s3) c.(tc_s4) c.(tc_s5) c.(tc_s6)
    c.(tc_s7) c.(tc_s8) c.(tc_s9) c.(tc_s10) c.(tc_s11) c.(tc_t3) c.(tc_t4) c.(tc_t5) c.(tc_t6) c.(tc_sepc)
    c.(tc_sstatus) c.(tc_scause) c.(tc_stval).
Definition set_tc_sepc (v : Z) (c : trap_context) : trap_context :=
  mkTrapContext c.(tc_ra) c.(tc_sp) c.(tc_gp) c.(tc_tp) c.(tc_t0) c.(tc_t1) c.(tc_t2) c.(tc_s0) c.(tc_s1) c.(tc_a0)
    c.(tc_a1) c.(tc_a2) c.(tc_a3) c.(tc_a4) c.(tc_a5) c.(tc_a6) c.(tc_a7) c.(tc_s2) c.(tc_s3) c.(tc_s4) c.(tc_s5)
    c.(tc_s6) c.(tc_s7) c.(tc_s8) c.(tc_s9) c.(tc_s10) c.(tc_s11) c.(tc_t3) c.(tc_t4) c.(tc_t5) c.(tc_t6) v
    c.(tc_sstatus) c.(tc_scause) c.(tc_stval).
Definition set_tc_sstatus (v : Z) (c : trap_context) : trap_context :=
  mkTrapContext c.(tc_ra) c.(tc_sp) c.(tc_gp) c.(tc_tp) c.(tc_t0) c.(tc_t1) c.(tc_t2) c.(tc_s0) c.(tc_s1) c.(tc_a0)
    c.(tc_a1) c.(tc_a2) c.(tc_a3) c.(tc_a4) c.(tc_a5) c.(tc_a6) c.(tc_a7) c.(tc_s2) c.(tc_s3) c.(tc_s4) c.(tc_s5)
    c.(tc_s6) c.(tc_s7) c.(tc_s8) c.(tc_s9) c.(tc_s10) c.(tc_s11) c.(tc_t3) c.(tc_t4) c.(tc_t5) c.(tc_t6) c.(tc_sepc)
    v c.(tc_scause) c.(tc_stval).

Definition set_tasks (v : gmap Z thread) (s : sched) : sched :=
  mkSched v s.(entries) s.(queues) s.(tcs) s.(frames) s.(boot_idle_thread) s.(run_head) s.(run_tail)
    s.(threading_started) s.(need_resched) s.(zombie_head) s.(all_threads) s.(next_tid) s.(tp) s.(regs) s.(bh_running)
    s.(qemu) s.(heap).
Definition set_entries (v : gmap Z wait_entry) (s : sched) : sched :=
  mkSched s.(tasks) v s.(queues) s.(tcs) s.(frames) s.(boot_idle_thread) s.(run_head) s.(run_tail)
    s.(threading_started) s.(need_resched) s.(zombie_head) s.(all_threads) s.(next_tid) s.(tp) s.(regs) s.(bh_running)
    s.(qemu) s.(heap).
Definition set_queues (v : gmap Z wait_queue) (s : sched) : sched :=
  mkSched s.(tasks) s.(entries) v s.(tcs) s.(frames) s.(boot_idle_thread) s.(run_head) s.(run_tail)
    s.(threading_started) s.(need_resched) s.(zombie_head) s.(all_threads) s.(next_tid) s.(tp) s.(regs) s.(bh_running)
    s.(qemu) s.(heap).
Definition set_tcs (v : gmap Z trap_context) (s : sched) : sched :=
  mkSched s.(tasks) s.(entries) s.(queues) v s.(frames) s.(boot_idle_thread) s.(run_head) s.(run_tail)
    s.(threading_started) s.(need_resched) s.(zombie_head) s.(all_threads) s.(next_tid) s.(tp) s.(regs) s.(bh_running)
    s.(qemu) s.(heap).
Definition set_frames (v : gmap Z bool) (s : sched) : sched :=
  mkSched s.(tasks) s.(entries) s.(queues) s.(tcs) v s.(boot_idle_thread) s.(run_head) s.(run_tail)
    s.(threading_started) s.(need_resched) s.(zombie_head) s.(all_threads) s.(next_tid) s.(tp) s.(regs) s.(bh_running)
    s.(qemu) s.(heap).
Definition set_boot_idle_thread (v : Z) (s : sched) : sched :=
  mkSched s.(tasks) s.(entries) s.(queues) s.(tcs) s.(frames) v s.(run_head) s.(run_tail) s.(threading_started)
    s.(need_resched) s.(zombie_head) s.(all_threads) s.(next_tid) s.(tp) s.(regs) s.(bh_running) s.(qemu) s.(heap).
Definition set_run_head (v : Z) (s : sched) : sched :=
  mkSched s.(tasks) s.(entries) s.(queues) s.(tcs) s.(frames) s.(boot_idle_thread) v s.(run_tail)
    s.(threading_started) s.(need_resched) s.(zombie_head) s.(all_threads) s.(next_tid) s.(tp) s.(regs) s.(bh_running)
    s.(qemu) s.(heap).
Definition set_run_tail (v : Z) (s : sched) : sched :=
  mkSched s.(tasks) s.(entries) s.(queues) s.(tcs) s.(frames) s.(boot_idle_thread) s.(run_head) v
    s.(threading_started) s.(need_resched) s.(zombie_head) s.(all_threads) s.(next_tid) s.(tp) s.(regs) s.(bh_running)
    s.(qemu) s.(heap).
Definition set_threading_started (v : Z) (s : sched) : sched :=
  mkSched s.(tasks) s.(entries) s.(queues) s.(tcs) s.(frames) s.(boot_idle_thread) s.(run_head) s.(run_tail) v
    s.(need_resched) s.(zombie_head) s.(all_threads) s.(next_tid) s.(tp) s.(regs) s.(bh_running) s.(qemu) s.(heap).
Definition set_need_resched (v : Z) (s : sched) : sched :=
  mkSched s.(tasks) s.(entries) s.(queues) s.(tcs) s.(frames) s.(boot_idle_thread) s.(run_head) s.(run_tail)
    s.(threading_started) v s.(zombie_head) s.(all_threads) s.(next_tid) s.(tp) s.(regs) s.(bh_running) s.(qemu)
    s.(heap).
Definition set_zombie_head (v : Z) (s : sched) : sched :=
  mkSched s.(tasks) s.(entries) s.(queues) s.(tcs) s.(frames) s.(boot_idle_thread) s.(run_head) s.(run_tail)
    s.(threading_started) s.(need_resched) v s.(all_threads) s.(next_tid) s.(tp) s.(regs) s.(bh_running) s.(qemu)
    s.(heap).
Definition set_all_threads (v : Z) (s : sched) : sched :=
  mkSched s.(tasks) s.(entries) s.(queues) s.(tcs) s.(frames) s.(boot_idle_thread) s.(run_head) s.(run_tail)
    s.(threading_started) s.(need_resched) s.(zombie_head) v s.(next_tid) s.(tp) s.(regs) s.(bh_running) s.(qemu)
    s.(heap).
Definition set_next_tid (v : Z) (s : sched) : sched :=
  mkSched s.(tasks) s.(entries) s.(queues) s.(tcs) s.(frames) s.(boot_idle_thread) s.(run_head) s.(run_tail)
    s.(threading_started) s.(need_resched) s.(zombie_head) s.(all_threads) v s.(tp) s.(regs) s.(bh_running) s.(qemu)
    s.(heap).
Definition set_tp (v : Z) (s : sched) : sched :=
  mkSched s.(tasks) s.(entries) s.(queues) s.(tcs) s.(frames) s.(boot_idle_thread) s.(run_head) s.(run_tail)
    s.(threading_started) s.(need_resched) s.(zombie_head) s.(all_threads) s.(next_tid) v s.(regs) s.(bh_running)
    s.(qemu) s.(heap).
Definition set_regs (v : thread_context) (s : sched) : sched :=
  mkSched s.(tasks) s.(entries) s.(queues) s.(tcs) s.(frames) s.(boot_idle_thread) s.(run_head) s.(run_tail)
    s.(threading_started) s.(need_resched) s.(zombie_head) s.(all_threads) s.(next_tid) s.(tp) v s.(bh_running)
    s.(qemu) s.(heap).
Definition set_bh_running (v : Z) (s : sched) : sched :=
  mkSched s.(tasks) s.(entries) s.(queues) s.(tcs) s.(frames) s.(boot_idle_thread) s.(run_head) s.(run_tail)
    s.(threading_started) s.(need_resched) s.(zombie_head) s.(all_threads) s.(next_tid) s.(tp) s.(regs) v s.(qemu)
    s.(heap).
Definition set_qemu (v : bool) (s : sched) : sched :=
  mkSched s.(tasks) s.(entries) s.(queues) s.(tcs) s.(frames) s.(boot_idle_thread) s.(run_head) s.(run_tail)
    s.(threading_started) s.(need_resched) s.(zombie_head) s.(all_threads) s.(next_tid) s.(tp) s.(regs) s.(bh_running)
    v s.(heap).
Definition set_heap (v : slabs) (s : sched) : sched :=
  mkSched s.(tasks) s.(entries) s.(queues) s.(tcs) s.(frames) s.(boot_idle_thread) s.(run_head) s.(run_tail)
    s.(threading_started) s.(need_resched) s.(zombie_head) s.(all_threads) s.(next_tid) s.(tp) s.(regs) s.(bh_running)
    s.(qemu) v.

#[export] Instance sched_heap : Lens sched slabs.
Proof. refine {| view := heap; put := set_heap |}; intros; by try destruct s. Defined.

(** The interrupt flag lives with the page allocator. *)
#[export] Instance sched_irq : Lens sched mem.
Proof.
  refine {| view := fun s => s.(heap).(pages); put := fun m s => set_heap (set_pages m s.(heap)) s |}.
  - intros t [? ? ? ? ? ? ? ? ? ? ? ? ? ? ? ? ? []]. reflexivity.
  - intros [? ? ? ? ? ? ? ? ? ? ? ? ? ? ? ? ? []]. reflexivity.
  - intros t t' [? ? ? ? ? ? ? ? ? ? ? ? ? ? ? ? ? []]. reflexivity.
Defined.

(** ** Accesses *)

Definition task_get (t : Z) : M sched thread := access (fun s => s.(tasks) !! t).
Definition task_upd (t : Z) (f : thread -> thread) : M sched unit :=
  update (fun s => x ← s.(tasks) !! t; Some (set_tasks (<[t := f x]> s.(tasks)) s)).
Definition entry_get (e : Z) : M sched wait_entry := access (fun s => s.(entries) !! e).
Definition entry_upd (e : Z) (f : wait_entry -> wait_entry) : M sched unit :=
  update (fun s => x ← s.(entries) !! e; Some (set_entries (<[e := f x]> s.(entries)) s)).
Definition queue_get (q : Z) : M sched wait_queue := access (fun s => s.(queues) !! q).
Definition queue_upd (q : Z) (f : wait_queue -> wait_queue) : M sched unit :=
  update (fun s => x ← s.(queues) !! q; Some (set_queues (<[q := f x]> s.(queues)) s)).
Definition tc_get (p : Z) : M sched trap_context := access (fun s => s.(tcs) !! p).
Definition tc_upd (p : Z) (f : trap_context -> trap_context) : M sched unit :=
  update (fun s => x ← s.(tcs) !! p; Some (set_tcs (<[p := f x]> s.(tcs)) s)).

(** The operations of [irqflags.h]. *)
Definition irq_save : M sched bool := zoom local_irq_save.
Definition irq_restore (status : bool) : M sched unit := zoom (local_irq_restore status).
Definition irq_enable : M sched unit := zoom (modify (set_irq_on true)).
Definition irqs_enabled : M sched bool := zoom (gets irq_on).
