(* ===== verification/Sched.v ===== *)
(** * The scheduler ([sched.c])

    The run queue, [schedule] with its context switch, and the reschedule
    request.  [switch_to] (assembly) exchanges the callee-saved registers, the
    stack and [tp]; control then continues where the chosen thread stopped,
    which is either inside an earlier call of [schedule] or at
    [thread_bootstrap].  A call of [schedule] in the model therefore ends when
    the hart has left [schedule] again, possibly as another thread. *)

From S2P Require Import Prelude Lists Memory Slab Task.

Open Scope Z_scope.

(** ** The run queue *)

Definition sched_enqueue (t : Z) : M sched unit :=
  task_upd t (set_t_next 0) ;;
  run_tail ← gets run_tail;
  if run_tail =? 0 then
    modify (set_run_head t) ;;
    modify (set_run_tail t)
  else
    task_upd run_tail (set_t_next t) ;;
    modify (set_run_tail t).

Definition runq_pop : M sched Z :=
  t ← gets run_head;
  if t =? 0 then mret 0
  else
    x ← task_get t;
    modify (set_run_head x.(t_next)) ;;
    run_head ← gets run_head;
    when (run_head =? 0) (modify (set_run_tail 0)) ;;
    task_upd t (set_t_next 0) ;;
    mret t.

(** The walk visits distinct threads. *)
Definition sched_remove (target : Z) : M sched unit :=
  head ← gets run_head;
  fuel ← gets (fun s => size s.(tasks));
  loop (S fuel)
    (fun '(prev, cur) =>
       if cur =? 0 then mret (inr tt)
       else
         x ← task_get cur;
         if cur =? target then
           (if prev =? 0 then modify (set_run_head x.(t_next)) else task_upd prev (set_t_next x.(t_next))) ;;
           run_tail ← gets run_tail;
           when (run_tail =? cur) (modify (set_run_tail prev)) ;;
           task_upd cur (set_t_next 0) ;;
           mret (inr tt)
         else mret (inl (cur, x.(t_next))))
    (0, head).

(** ** The current thread *)

Definition thread_current : M sched Z :=
  started ← gets threading_started;
  if started =? 0 then mret 0 else gets tp.

(** Assembly: save the callee-saved registers of [prev], load those of [next]. *)
Definition switch_to (prev next : Z) : M sched unit :=
  saved ← gets regs;
  task_upd prev (set_t_context saved) ;;
  n ← task_get next;
  modify (set_regs n.(t_context)) ;;
  modify (set_tp next).

(** The start of a new thread, up to the call of its entry function.  Without an
    entry function the thread waits forever. *)
Definition thread_bootstrap : M sched unit :=
  cur ← thread_current;
  irq_enable ;;
  if cur =? 0 then ub
  else
    x ← task_get cur;
    if bool_decide (x.(t_entry) = c_null) then ub else mret tt.

(** The [ret] that ends [switch_to]: the thread in [tp] goes on at the address in
    [ra].  A thread suspended in [schedule] finds its local [sstatus] on its
    stack and restores it. *)
Definition resume : M sched unit :=
  r ← gets regs;
  match r.(c_ra) with
  | c_schedule_resume =>
      t ← gets tp;
      sstatus ← access (fun s => s.(frames) !! t);
      modify (fun s => set_frames (delete t s.(frames)) s) ;;
      irq_restore sstatus
  | c_thread_bootstrap => thread_bootstrap
  | _ => ub
  end.

(** [switch_to(prev, next)] as called by [schedule]: the call leaves the return
    address in [ra] and the local variable on the stack of [prev]. *)
Definition call_switch_to (sstatus : bool) (prev next : Z) : M sched unit :=
  modify (fun s => set_regs (set_c_ra c_schedule_resume s.(regs)) s) ;;
  modify (fun s => set_frames (<[prev := sstatus]> s.(frames)) s) ;;
  switch_to prev next ;;
  resume.

(** The loop that pops until a runnable thread is found. *)
Definition pop_runnable : M sched Z :=
  fuel ← gets (fun s => size s.(tasks));
  next ← runq_pop;
  loop (S fuel)
    (fun next =>
       if next =? 0 then mret (inr 0)
       else
         x ← task_get next;
         if bool_decide (x.(t_state) <> THREAD_RUNNABLE) then next ← runq_pop; mret (inl next)
         else mret (inr next))
    next.

Definition schedule : M sched unit :=
  started ← gets threading_started;
  if started =? 0 then mret tt
  else
    prev ← thread_current;
    if prev =? 0 then mret tt
    else
      sstatus ← irq_save;
      modify (set_need_resched 0) ;;
      next ← pop_runnable;
      p ← task_get prev;
      if (next =? 0) && negb (p.(t_is_idle) =? 0) then irq_restore sstatus
      else
        boot ← gets boot_idle_thread;
        let next := if next =? 0 then boot else next in
        if prev =? next then
          task_upd prev (set_t_state THREAD_RUNNING) ;;
          irq_restore sstatus
        else
          when (bool_decide (p.(t_state) = THREAD_RUNNING)) (task_upd prev (set_t_state THREAD_RUNNABLE)) ;;
          task_upd next (set_t_state THREAD_RUNNING) ;;
          p ← task_get prev;
          when (bool_decide (p.(t_state) = THREAD_RUNNABLE) && (p.(t_is_idle) =? 0)) (sched_enqueue prev) ;;
          call_switch_to sstatus prev next.

Definition thread_yield : M sched unit := schedule.

Definition thread_has_runnable_tasks : M sched bool :=
  sstatus ← irq_save;
  has_runnable ← gets (fun s => negb (s.(run_head) =? 0));
  irq_restore sstatus ;;
  mret has_runnable.

Definition thread_request_resched : M sched unit :=
  sstatus ← irq_save;
  modify (set_need_resched 1) ;;
  irq_restore sstatus.

Definition thread_consume_resched_request : M sched Z :=
  sstatus ← irq_save;
  requested ← gets need_resched;
  modify (set_need_resched 0) ;;
  irq_restore sstatus ;;
  mret requested.
