(* ===== verification/Wait.v ===== *)
(** * Wait queues ([wait.c])

    A wait queue links registrations ([struct wait_entry], usually on the stack
    of the waiting thread), and every thread links its own registrations. *)

From S2P Require Import Prelude Lists Memory Slab Task Sched.

Open Scope Z_scope.

Definition thread_can_sleep : M sched bool :=
  task ← thread_current;
  if task =? 0 then mret false
  else
    x ← task_get task;
    on ← irqs_enabled;
    bh ← gets bh_running;
    mret ((x.(t_is_idle) =? 0) && bool_decide (x.(t_state) = THREAD_RUNNING) && on && (bh =? 0)).

(** The guard of [wait_queue_prepare_locked], in the order of the code: the
    pointers are read only when the tests before them have passed. *)
Definition prepare_refused (queue entry task : Z) : M sched bool :=
  on ← irqs_enabled;
  bh ← gets bh_running;
  if (queue =? 0) || (entry =? 0) || on || negb (bh =? 0) || (task =? 0) then mret true
  else
    x ← task_get task;
    if negb (x.(t_is_idle) =? 0) ||
       (bool_decide (x.(t_state) <> THREAD_RUNNING) && bool_decide (x.(t_state) <> THREAD_WAITING)) then mret true
    else
      e ← entry_get entry;
      mret (negb (e.(e_task) =? 0) || negb (e.(e_queue) =? 0)).

(** The writes that append the entry to the queue and put it in front of the
    thread's own list. *)
Definition link_entry (queue entry task : Z) : M sched unit :=
  entry_upd entry (set_e_task task) ;;
  entry_upd entry (set_e_queue queue) ;;
  q ← queue_get queue;
  entry_upd entry (set_e_prev q.(q_tail)) ;;
  entry_upd entry (set_e_next 0) ;;
  (if negb (q.(q_tail) =? 0) then entry_upd q.(q_tail) (set_e_next entry)
   else queue_upd queue (set_q_head entry)) ;;
  queue_upd queue (set_q_tail entry) ;;
  entry_upd entry (set_e_task_prev 0) ;;
  x ← task_get task;
  entry_upd entry (set_e_task_next x.(t_wait_entries)) ;;
  when (negb (x.(t_wait_entries) =? 0)) (entry_upd x.(t_wait_entries) (set_e_task_prev entry)) ;;
  task_upd task (set_t_wait_entries entry).

Definition wait_queue_prepare_locked (queue entry : Z) : M sched Z :=
  task ← thread_current;
  refused ← prepare_refused queue entry task;
  if (refused : bool) then mret (-1)
  else
    link_entry queue entry task ;;
    task_upd task (set_t_state THREAD_WAITING) ;;
    mret 0.

(** What follows a call of [schedule] belongs to the thread that called it: it
    runs at once when that thread goes on, and otherwise when it is resumed.  The
    result [None] says that the hart now runs another thread. *)
Definition after_schedule {A} (self : Z) (k : M sched A) : M sched (option A) :=
  cur ← gets tp;
  if cur =? self then r ← k; mret (Some r) else mret None.

Definition wait_queue_wait_locked : M sched (option Z) :=
  task ← thread_current;
  on ← irqs_enabled;
  bh ← gets bh_running;
  if on || negb (bh =? 0) || (task =? 0) then mret (Some (-1))
  else
    x ← task_get task;
    if negb (x.(t_is_idle) =? 0) || (x.(t_wait_entries) =? 0) ||
       (bool_decide (x.(t_state) <> THREAD_WAITING) && bool_decide (x.(t_state) <> THREAD_RUNNING)) then mret (Some (-1))
    else if bool_decide (x.(t_state) = THREAD_WAITING) then
      schedule ;;
      after_schedule task (mret 0)
    else mret (Some 0).

(** The writes that take the entry out of both lists and clear it. *)
Definition unlink_entry (entry : Z) (e : wait_entry) : M sched unit :=
  (if negb (e.(e_prev) =? 0) then entry_upd e.(e_prev) (set_e_next e.(e_next))
   else queue_upd e.(e_queue) (set_q_head e.(e_next))) ;;
  (if negb (e.(e_next) =? 0) then entry_upd e.(e_next) (set_e_prev e.(e_prev))
   else queue_upd e.(e_queue) (set_q_tail e.(e_prev))) ;;
  (if negb (e.(e_task_prev) =? 0) then entry_upd e.(e_task_prev) (set_e_task_next e.(e_task_next))
   else task_upd e.(e_task) (set_t_wait_entries e.(e_task_next))) ;;
  when (negb (e.(e_task_next) =? 0)) (entry_upd e.(e_task_next) (set_e_task_prev e.(e_task_prev))) ;;
  entry_upd entry (set_e_task 0) ;;
  entry_upd entry (set_e_queue 0) ;;
  entry_upd entry (set_e_prev 0) ;;
  entry_upd entry (set_e_next 0) ;;
  entry_upd entry (set_e_task_prev 0) ;;
  entry_upd entry (set_e_task_next 0).

Definition wait_queue_finish_locked (entry : Z) : M sched unit :=
  e ← entry_get entry;
  let queue := e.(e_queue) in
  let task := e.(e_task) in
  if queue =? 0 then mret tt
  else
    unlink_entry entry e ;;
    cur ← thread_current;
    if negb (task =? cur) then mret tt
    else
      x ← task_get task;
      when (bool_decide (x.(t_state) = THREAD_WAITING) && (x.(t_wait_entries) =? 0))
        (task_upd task (set_t_state THREAD_RUNNING)).

(** [wait_queue_sleep_locked] up to the point where the thread is suspended or
    goes on; [entry] is the address of its local variable.  When the result is
    [None] the thread executes [wait_queue_sleep_rest] once it is resumed. *)
Definition wait_queue_sleep_rest (entry ret : Z) : M sched Z :=
  wait_queue_finish_locked entry ;;
  mret ret.

Definition wait_queue_sleep_locked (queue entry : Z) : M sched (option Z) :=
  modify (fun s => set_entries (<[entry := zero_entry]> s.(entries)) s) ;;
  ret ← wait_queue_prepare_locked queue entry;
  if negb (ret =? 0) then mret (Some ret)
  else
    r ← wait_queue_wait_locked;
    match r with
    | Some ret => ret ← wait_queue_sleep_rest entry ret; mret (Some ret)
    | None => mret None
    end.

Definition wait_queue_cancel_locked (task : Z) : M sched unit :=
  fuel ← gets (fun s => size s.(entries));
  loop (S fuel)
    (fun _ : unit =>
       x ← task_get task;
       if x.(t_wait_entries) =? 0 then mret (inr tt)
       else wait_queue_finish_locked x.(t_wait_entries) ;; mret (inl tt))
    tt.

Definition wake_waiter_locked (entry : Z) : M sched bool :=
  e ← entry_get entry;
  let task := e.(e_task) in
  x ← task_get task;
  if bool_decide (x.(t_state) <> THREAD_WAITING) then mret false
  else
    cur ← thread_current;
    (if task =? cur then task_upd task (set_t_state THREAD_RUNNING)
     else
       task_upd task (set_t_state THREAD_RUNNABLE) ;;
       sched_enqueue task ;;
       thread_request_resched) ;;
    mret true.

Definition wait_queue_wake_one (queue : Z) : M sched unit :=
  status ← irq_save;
  q ← queue_get queue;
  fuel ← gets (fun s => size s.(entries));
  loop (S fuel)
    (fun entry =>
       if entry =? 0 then mret (inr tt)
       else
         woken ← wake_waiter_locked entry;
         if (woken : bool) then mret (inr tt)
         else e ← entry_get entry; mret (inl e.(e_next)))
    q.(q_head) ;;
  irq_restore status.

Definition wait_queue_wake_all (queue : Z) : M sched unit :=
  status ← irq_save;
  q ← queue_get queue;
  fuel ← gets (fun s => size s.(entries));
  loop (S fuel)
    (fun entry =>
       if entry =? 0 then mret (inr tt)
       else
         wake_waiter_locked entry ;;
         e ← entry_get entry;
         mret (inl e.(e_next)))
    q.(q_head) ;;
  irq_restore status.
