(* ===== verification/Thread.v ===== *)
(** * Thread creation, exit and reclamation ([thread.c])

    Also [user_reset_trap_context] and the exit helpers of [user.c], and the
    parts of [sched.c] that use this file: the registration of the boot thread
    and the two idle loops. *)

From S2P Require Import Prelude Lists Memory Slab MemoryInit Task Sched Wait.

Open Scope Z_scope.

Definition THREAD_STACK_SIZE : Z := 16384.
Definition TRAP_CONTEXT_ALLOC_SIZE : Z := 288.
Definition SIZEOF_THREAD : Z := 240.
Definition SSTATUS_SPIE : Z := Z.shiftl 1 5.
Definition USER_CODE_LIMIT (qemu : bool) : Z := USER_CODE_BASE qemu + USER_CODE_SIZE.

(** ** Identities and the list of all threads *)

Definition thread_next_tid : M sched Z :=
  status ← irq_save;
  n ← gets next_tid;
  tid ← (if n <=? INT32_MAX then modify (set_next_tid (u32 (n + 1))) ;; mret (i32 n) else mret (-1));
  irq_restore status ;;
  mret tid.

Definition thread_list_add (t : Z) : M sched unit :=
  sstatus ← irq_save;
  head ← gets all_threads;
  task_upd t (set_t_all_next head) ;;
  modify (set_all_threads t) ;;
  irq_restore sstatus.

Definition thread_list_remove (t : Z) : M sched unit :=
  sstatus ← irq_save;
  head ← gets all_threads;
  fuel ← gets (fun s => size s.(tasks));
  loop (S fuel)
    (fun '(prev, cur) =>
       if cur =? 0 then mret (inr tt)
       else
         x ← task_get cur;
         if cur =? t then
           (if prev =? 0 then modify (set_all_threads x.(t_all_next)) else task_upd prev (set_t_all_next x.(t_all_next))) ;;
           task_upd cur (set_t_all_next 0) ;;
           mret (inr tt)
         else mret (inl (cur, x.(t_all_next))))
    (0, head) ;;
  irq_restore sstatus.

Definition thread_register_boot (task : Z) : M sched unit := thread_list_add task.

(** ** Creation *)

(** [kfree] of a thread control block or of a kernel stack: the objects in it
    exist no longer. *)
Definition free_task (t : Z) : M sched unit :=
  zoom (kfree t) ;;
  modify (fun s => set_tasks (delete t s.(tasks)) s).

Definition outside (lo hi : Z) {A} (m : gmap Z A) : gmap Z A := filter (fun '(a, _) => ~ (lo <= a < hi)) m.

Definition free_kstack (base : Z) : M sched unit :=
  zoom (kfree base) ;;
  modify (fun s => set_entries (outside base (base + THREAD_STACK_SIZE) s.(entries))
                     (set_tcs (outside base (base + THREAD_STACK_SIZE) s.(tcs)) s)).

Definition thread_alloc : M sched Z :=
  tid ← thread_next_tid;
  if tid <? 0 then mret 0
  else
    task ← zoom (kmalloc SIZEOF_THREAD);
    if task =? 0 then mret 0
    else
      modify (fun s => set_tasks (<[task := zero_thread]> s.(tasks)) s) ;;
      base ← zoom (kmalloc THREAD_STACK_SIZE);
      task_upd task (set_t_kstack_base base) ;;
      if base =? 0 then free_task task ;; mret 0
      else
        let top := Z.land (u64 (base + THREAD_STACK_SIZE)) (not64 15) in
        task_upd task (set_t_kstack_top top) ;;
        task_upd task (fun x => set_t_context (set_c_ra c_thread_bootstrap x.(t_context)) x) ;;
        task_upd task (fun x => set_t_context (set_c_sp top x.(t_context)) x) ;;
        task_upd task (set_t_tid tid) ;;
        task_upd task (set_t_tgid tid) ;;
        task_upd task (set_t_state THREAD_NEW) ;;
        mret task.

Definition thread_publish (task : Z) : M sched unit :=
  status ← irq_save;
  (if task =? 0 then mret tt
   else
     x ← task_get task;
     when (bool_decide (x.(t_state) = THREAD_NEW))
       (task_upd task (set_t_state THREAD_RUNNABLE) ;;
        thread_list_add task ;;
        sched_enqueue task)) ;;
  irq_restore status.

Definition thread_create_kernel (entry : code) (arg : Z) : M sched Z :=
  if bool_decide (entry = c_null) then mret (-1)
  else
    task ← thread_alloc;
    if task =? 0 then mret (-1)
    else
      task_upd task (set_t_kind THREAD_KERNEL) ;;
      task_upd task (set_t_entry entry) ;;
      task_upd task (set_t_arg arg) ;;
      thread_publish task ;;
      x ← task_get task;
      mret x.(t_tid).

Definition user_reset_trap_context (task : Z) : M sched unit :=
  if task =? 0 then mret tt
  else
    x ← task_get task;
    if x.(t_tc) =? 0 then mret tt
    else
      modify (fun s => set_tcs (<[x.(t_tc) := zero_trap_context]> s.(tcs)) s) ;;
      tc_upd x.(t_tc) (set_tc_sp x.(t_user_stack_top)) ;;
      tc_upd x.(t_tc) (set_tc_tp task) ;;
      tc_upd x.(t_tc) (set_tc_sepc x.(t_user_entry)) ;;
      tc_upd x.(t_tc) (set_tc_sstatus SSTATUS_SPIE).

(** An entry point outside the user window or at an odd address. *)
Definition bad_user_pc (qemu : bool) (pc : Z) : bool :=
  (pc <? USER_CODE_BASE qemu) || (USER_CODE_LIMIT qemu <=? pc) || negb (Z.land pc 1 =? 0).

Definition thread_prepare_user (entry stack_base stack_top : Z) : M sched Z :=
  qemu ← gets qemu;
  if bad_user_pc qemu entry || (stack_base =? 0) || (stack_top <=? stack_base) || negb (Z.land stack_top 15 =? 0) then mret 0
  else
    task ← thread_alloc;
    if task =? 0 then mret 0
    else
      task_upd task (set_t_kind THREAD_USER) ;;
      task_upd task (set_t_entry c_user_task_entry) ;;
      task_upd task (set_t_user_entry entry) ;;
      task_upd task (set_t_user_stack_base stack_base) ;;
      task_upd task (set_t_user_stack_top stack_top) ;;
      task_upd task (fun x => set_t_tc (u64 (x.(t_kstack_top) - TRAP_CONTEXT_ALLOC_SIZE)) x) ;;
      task_upd task (fun x => set_t_context (set_c_sp x.(t_tc) x.(t_context)) x) ;;
      user_reset_trap_context task ;;
      mret task.

Definition user_process_create (entry stack_base stack_top : Z) : M sched Z :=
  task ← thread_prepare_user entry stack_base stack_top;
  if task =? 0 then mret (-1)
  else
    thread_publish task ;;
    x ← task_get task;
    mret x.(t_tid).

Definition thread_create_user (entry arg return_pc : Z) : M sched Z :=
  parent ← thread_current;
  qemu ← gets qemu;
  if parent =? 0 then mret (-1)
  else
    p ← task_get parent;
    if bool_decide (p.(t_kind) <> THREAD_USER) || (p.(t_tc) =? 0) || bool_decide (p.(t_state) = THREAD_ZOMBIE) ||
       bad_user_pc qemu entry || bad_user_pc qemu return_pc then mret (-1)
    else
      stack ← zoom (kmalloc USER_STACK_SIZE);
      if stack =? 0 then mret (-1)
      else
        child ← thread_prepare_user entry stack (u64 (stack + USER_STACK_SIZE));
        if child =? 0 then zoom (kfree stack) ;; mret (-1)
        else
          p ← task_get parent;
          task_upd child (set_t_tgid p.(t_tgid)) ;;
          c ← task_get child;
          tc_upd c.(t_tc) (set_tc_a0 arg) ;;
          tc_upd c.(t_tc) (set_tc_ra return_pc) ;;
          pc ← tc_get p.(t_tc);
          tc_upd c.(t_tc) (set_tc_gp pc.(tc_gp)) ;;
          thread_publish child ;;
          c ← task_get child;
          mret c.(t_tid).

(** ** Exit *)

Definition thread_find_by_tid (tid : Z) : M sched Z :=
  sstatus ← irq_save;
  head ← gets all_threads;
  fuel ← gets (fun s => size s.(tasks));
  cur ← loop (S fuel)
    (fun cur =>
       if cur =? 0 then mret (inr 0)
       else
         x ← task_get cur;
         if x.(t_tid) =? tid then mret (inr cur) else mret (inl x.(t_all_next)))
    head;
  irq_restore sstatus ;;
  mret cur.

(** The common end of the two ways to stop a thread. *)
Definition make_zombie (t exit_status : Z) : M sched unit :=
  wait_queue_cancel_locked t ;;
  task_upd t (set_t_state THREAD_ZOMBIE) ;;
  task_upd t (set_t_exit_status exit_status) ;;
  head ← gets zombie_head;
  task_upd t (set_t_znext head) ;;
  modify (set_zombie_head t).

Definition thread_mark_current_zombie (exit_status : Z) : M sched unit :=
  cur ← thread_current;
  if cur =? 0 then mret tt
  else
    x ← task_get cur;
    if negb (x.(t_is_idle) =? 0) then mret tt
    else
      sstatus ← irq_save;
      x ← task_get cur;
      if bool_decide (x.(t_state) = THREAD_ZOMBIE) then irq_restore sstatus
      else make_zombie cur exit_status ;; irq_restore sstatus.

Definition thread_stop_tid (tid exit_status : Z) : M sched Z :=
  target ← thread_find_by_tid tid;
  if target =? 0 then mret (-1)
  else
    x ← task_get target;
    if negb (x.(t_is_idle) =? 0) then mret (-1)
    else
      cur ← thread_current;
      if target =? cur then thread_mark_current_zombie exit_status ;; mret 0
      else
        sstatus ← irq_save;
        x ← task_get target;
        if bool_decide (x.(t_state) = THREAD_ZOMBIE) then irq_restore sstatus ;; mret 0
        else
          sched_remove target ;;
          make_zombie target exit_status ;;
          irq_restore sstatus ;;
          mret 0.

Definition thread_stop_process (tgid exit_status : Z) : M sched Z :=
  status ← irq_save;
  head ← gets all_threads;
  fuel ← gets (fun s => size s.(tasks));
  found ← loop (S fuel)
    (fun '((cur, found) : Z * bool) =>
       if cur =? 0 then mret (inr found)
       else
         x ← task_get cur;
         found ← (if bool_decide (x.(t_kind) = THREAD_USER) && (x.(t_tgid) =? tgid)
                  then thread_stop_tid x.(t_tid) exit_status ;; mret true
                  else mret found);
         x ← task_get cur;
         mret (inl (x.(t_all_next), found)))
    (head, false);
  irq_restore status ;;
  mret (if (found : bool) then 0 else -1).

(** The current thread marks itself and leaves; on the boot thread, or if it were
    ever resumed, the call would not end. *)
Definition thread_exit : M sched unit :=
  cur ← thread_current;
  if cur =? 0 then ub
  else
    x ← task_get cur;
    if negb (x.(t_is_idle) =? 0) then ub
    else
      thread_mark_current_zombie 0 ;;
      schedule ;;
      after_schedule cur (ub : M sched unit) ;;
      mret tt.

(** ** Reclamation *)

(** One round of [thread_reap_zombies]; the result says whether the loop ends. *)
Definition reap_round : M sched bool :=
  sstatus ← irq_save;
  z ← gets zombie_head;
  cur ← thread_current;
  when (negb (z =? 0) && negb (z =? cur)) (x ← task_get z; modify (set_zombie_head x.(t_znext))) ;;
  irq_restore sstatus ;;
  if (z =? 0) || (z =? cur) then mret true
  else
    x ← task_get z;
    if negb (x.(t_is_idle) =? 0) then mret false
    else
      thread_list_remove z ;;
      x ← task_get z;
      when (bool_decide (x.(t_kind) = THREAD_USER) && negb (x.(t_user_stack_base) =? 0))
        (zoom (kfree x.(t_user_stack_base))) ;;
      when (negb (x.(t_kstack_base) =? 0)) (free_kstack x.(t_kstack_base)) ;;
      free_task z ;;
      mret false.

Definition thread_reap_zombies : M sched unit :=
  fuel ← gets (fun s => size s.(tasks));
  loop (S fuel) (fun _ : unit => ended ← reap_round; mret (if (ended : bool) then inr tt else inl tt)) tt.

(** ** Queries *)

Definition thread_has_live_workers : M sched bool :=
  status ← irq_save;
  head ← gets all_threads;
  fuel ← gets (fun s => size s.(tasks));
  found ← loop (S fuel)
    (fun task =>
       if task =? 0 then mret (inr false)
       else
         x ← task_get task;
         if (x.(t_is_idle) =? 0) && bool_decide (x.(t_state) <> THREAD_ZOMBIE) then mret (inr true)
         else mret (inl x.(t_all_next)))
    head;
  irq_restore status ;;
  mret found.

(** A live user thread of the group [tgid]. *)
Definition live_member (tgid : Z) (x : thread) : bool :=
  bool_decide (x.(t_kind) = THREAD_USER) && (x.(t_tgid) =? tgid) && bool_decide (x.(t_state) <> THREAD_ZOMBIE).

Definition thread_user_group_size (task : Z) : M sched Z :=
  status ← irq_save;
  count ← (if task =? 0 then mret 0
           else
             t ← task_get task;
             if bool_decide (t.(t_kind) <> THREAD_USER) then mret 0
             else
               head ← gets all_threads;
               fuel ← gets (fun s => size s.(tasks));
               loop (S fuel)
                 (fun '(cur, count) =>
                    if cur =? 0 then mret (inr count)
                    else
                      x ← task_get cur;
                      t ← task_get task;
                      mret (inl (x.(t_all_next), if live_member t.(t_tgid) x then count + 1 else count)))
                 (head, 0));
  irq_restore status ;;
  mret count.

Definition thread_user_stack_contains (task start end_ : Z) : M sched bool :=
  status ← irq_save;
  found ← (if task =? 0 then mret false
           else
             t ← task_get task;
             if bool_decide (t.(t_kind) <> THREAD_USER) || (end_ <=? start) then mret false
             else
               head ← gets all_threads;
               fuel ← gets (fun s => size s.(tasks));
               loop (S fuel)
                 (fun cur =>
                    if cur =? 0 then mret (inr false)
                    else
                      x ← task_get cur;
                      t ← task_get task;
                      if live_member t.(t_tgid) x && (x.(t_user_stack_base) <=? start) && (end_ <=? x.(t_user_stack_top))
                      then mret (inr true)
                      else mret (inl x.(t_all_next)))
                 head);
  irq_restore status ;;
  mret found.

Definition thread_user_image_busy (except : Z) : M sched bool :=
  status ← irq_save;
  head ← gets all_threads;
  fuel ← gets (fun s => size s.(tasks));
  busy ← loop (S fuel)
    (fun cur =>
       if cur =? 0 then mret (inr false)
       else
         x ← task_get cur;
         if negb (cur =? except) && bool_decide (x.(t_kind) = THREAD_USER) && bool_decide (x.(t_state) <> THREAD_ZOMBIE)
         then mret (inr true)
         else mret (inl x.(t_all_next)))
    head;
  irq_restore status ;;
  mret busy.

(** ** The end of a user thread ([user.c]) *)

Definition user_mark_exit : M sched unit :=
  task ← thread_current;
  if task =? 0 then mret tt
  else
    x ← task_get task;
    if bool_decide (x.(t_kind) <> THREAD_USER) then mret tt else thread_mark_current_zombie 0.

Definition user_has_exited : M sched bool :=
  task ← thread_current;
  if task =? 0 then mret false
  else
    x ← task_get task;
    if bool_decide (x.(t_kind) <> THREAD_USER) then mret false else mret (bool_decide (x.(t_state) = THREAD_ZOMBIE)).

Definition user_schedule_after_exit : M sched unit :=
  irq_enable ;;
  cur ← gets tp;
  schedule ;;
  after_schedule cur (ub : M sched unit) ;;
  mret tt.

(** ** The boot thread ([sched.c]) *)

Definition thread_system_bootstrap_init : M sched unit :=
  status ← irq_save;
  started ← gets threading_started;
  if negb (started =? 0) then irq_restore status
  else
    sp ← gets (fun s => s.(regs).(c_sp));
    boot ← gets boot_idle_thread;
    task_upd boot (set_t_kind THREAD_KERNEL) ;;
    task_upd boot (set_t_state THREAD_RUNNING) ;;
    task_upd boot (set_t_is_idle 1) ;;
    task_upd boot (set_t_kstack_top sp) ;;
    thread_register_boot boot ;;
    modify (set_tp boot) ;;
    modify (set_threading_started 1) ;;
    irq_restore status.

(** One round of the endless loop of [thread_enter_idle]; [wfi] only waits. *)
Definition enter_idle_round : M sched unit :=
  thread_reap_zombies ;;
  status ← irq_save;
  head ← gets run_head;
  (if head =? 0 then irq_enable else irq_restore status) ;;
  schedule.

(** One round of the loop of [thread_run_until_idle]; the result says whether the
    function returns. *)
Definition run_until_idle_round (caller_status : bool) : M sched bool :=
  thread_reap_zombies ;;
  sstatus ← irq_save;
  cur ← thread_current;
  idle ← (if cur =? 0 then mret false else x ← task_get cur; mret (negb (x.(t_is_idle) =? 0)));
  head ← gets run_head;
  live ← (if (idle : bool) && (head =? 0) then thread_has_live_workers else mret true);
  if (idle : bool) && (head =? 0) && negb (live : bool) then
    irq_restore caller_status ;;
    mret true
  else
    (if (head =? 0) && (idle : bool) then irq_enable else irq_restore sstatus) ;;
    schedule ;;
    mret false.
