(* ===== verification/HeapIface.v ===== *)
(** * What the byte allocator promises to its clients

    [thread.c] allocates control blocks and stacks with [kmalloc].  The proofs
    about threads use the allocator only through the laws below: which ranges
    are allocated, and which addresses (of static variables) can never lie in an
    allocated range. *)

From S2P Require Import Prelude Memory Slab.

Open Scope Z_scope.

Class HeapLaws (hok : slabs -> Prop) (owned : slabs -> Z -> Z -> Prop) (static : slabs -> Z -> Prop) : Prop := {
  hl_shape h a z : hok h -> owned h a z -> 0 < a /\ 0 < z /\ a + z < 2 ^ 64;
  hl_disjoint h a z b y x : hok h -> owned h a z -> owned h b y -> a <= x < a + z -> b <= x < b + y -> a = b /\ z = y;
  hl_static h a z x : hok h -> static h x -> owned h a z -> ~ (a <= x < a + z);
  hl_irq h v : hok h -> hok (set_pages (set_irq_on v h.(pages)) h);
  hl_irq_owned h v a z : owned (set_pages (set_irq_on v h.(pages)) h) a z <-> owned h a z;
  hl_irq_static h v x : static (set_pages (set_irq_on v h.(pages)) h) x <-> static h x;
  hl_kmalloc h size Q : hok h -> 0 <= size < 2 ^ 64 -> Q 0 h ->
    (forall a z h', hok h' -> h'.(pages).(irq_on) = h.(pages).(irq_on) -> a <> 0 -> (16 | a) -> size <= z ->
       (forall b y, owned h' b y <-> owned h b y \/ (b = a /\ y = z)) ->
       (forall b y x, owned h b y -> b <= x < b + y -> ~ (a <= x < a + z)) ->
       (forall x, static h' x <-> static h x) -> Q a h') ->
    wp (kmalloc size) Q h;
  hl_kfree h a z Q : hok h -> owned h a z ->
    (forall h', hok h' -> h'.(pages).(irq_on) = h.(pages).(irq_on) ->
       (forall b y, owned h' b y <-> owned h b y /\ b <> a) ->
       (forall x, static h' x <-> static h x) -> Q tt h') ->
    wp (kfree a) Q h;
}.
