(* ===== verification/HeapLink.v ===== *)
(** * The byte allocator keeps its promise

    The laws of [HeapIface] for [kmalloc] and [kfree] on top of the buddy
    allocator.  Static variables lie in pages that are reserved at boot, and the
    table of reserved ranges never changes afterwards. *)

From S2P Require Import Prelude Lists Memory BuddyInv BuddySpec PageIface Slab SlabInv SlabAlloc SlabFree SlabHeap ByteAllocator HeapIface.

Open Scope Z_scope.

(** The page of an address is reserved. *)
Definition in_reserved_page (s : slabs) (x : Z) : Prop := is_reserved_pa s.(pages) (x - x mod PAGE_SIZE) = true.

Definition at_geo (m m' : mem) : Prop := geo m' = geo m.

Lemma at_geo_laws m : PageLaws (fun s => mem_ok s /\ at_geo m s) pg_block pg_tag.
Proof. apply page_laws_at. unfold at_geo. congruence. Qed.

Lemma slab_inv_at s sl :
  slab_inv_gen mem_ok pg_block pg_tag 0 s sl -> slab_inv_gen (fun m => mem_ok m /\ at_geo s.(pages) m) pg_block pg_tag 0 s sl.
Proof. intros [H1 H2 H3 H4 H5 H6 H7 H8 H9]. by constructor. Qed.

Lemma slab_inv_of m s sl :
  slab_inv_gen (fun m' => mem_ok m' /\ at_geo m m') pg_block pg_tag 0 s sl -> slab_inv_gen mem_ok pg_block pg_tag 0 s sl /\ geo s.(pages) = geo m.
Proof. intros [[H1 H1'] H2 H3 H4 H5 H6 H7 H8 H9]. split; [by constructor|done]. Qed.

Lemma in_reserved_page_geo s s' x : geo s'.(pages) = geo s.(pages) -> in_reserved_page s' x <-> in_reserved_page s x.
Proof. intros Hg. unfold in_reserved_page. by rewrite (geo_reserved s.(pages)). Qed.

Lemma allocated_shape s a z : slab_ok s -> allocated s a z -> 0 < a /\ 0 < z /\ a + z < 2 ^ 64.
Proof.
  intros [sl Hs] Ha. destruct (allocated_block _ _ _ _ _ Hs Ha) as (Hz & b & o & Hb & H1 & H2).
  destruct (pl_shape (PageLaws := buddy_page_laws) _ _ _ (sv_pages _ _ _ _ _ _ Hs) Hb) as (H3 & _ & _ & H4). lia.
Qed.

Lemma allocated_not_reserved s a z x : slab_ok s -> in_reserved_page s x -> allocated s a z -> ~ (a <= x < a + z).
Proof.
  intros [sl Hs] Hx Ha Hin. destruct (allocated_block _ _ _ _ _ Hs Ha) as (Hz & b & o & (i & Hl & Hp) & H1 & H2).
  destruct (sv_pages _ _ _ _ _ _ Hs) as [_ _ [fl Hb]].
  destruct (owns_page _ fl i o x Hb) as (j & r & _ & _ & Epa & Hnr); [split; [done|exists b; split; [done|lia]]|].
  unfold in_reserved_page in Hx. rewrite Epa in Hnr. congruence.
Qed.

Lemma kmalloc_law s sz (Q : Z -> slabs -> Prop) :
  slab_ok s -> 0 <= sz < 2 ^ 64 -> Q 0 s ->
  (forall a z s', slab_ok s' -> s'.(pages).(irq_on) = s.(pages).(irq_on) -> a <> 0 -> (16 | a) -> sz <= z ->
     (forall b y, allocated s' b y <-> allocated s b y \/ (b = a /\ y = z)) ->
     (forall b y x, allocated s b y -> b <= x < b + y -> ~ (a <= x < a + z)) ->
     (forall x, in_reserved_page s' x <-> in_reserved_page s x) -> Q a s') -> wp (kmalloc sz) Q s.
Proof.
  intros [sl Hs] Hsz HN HS. apply slab_inv_at in Hs. apply (wp_kmalloc (HP := at_geo_laws (pages s)) s sl); [done|done|done|].
  intros a s' (Ha & Hal & z & Hz & (sl' & Hs') & Hset & Hdis & [Hi _]). apply slab_inv_of in Hs' as [Hs' Hg].
  eapply (HS a z); try done; [by exists sl'|]. intros x. by apply in_reserved_page_geo.
Qed.

Lemma kfree_law s a z (Q : unit -> slabs -> Prop) :
  slab_ok s -> allocated s a z ->
  (forall s', slab_ok s' -> s'.(pages).(irq_on) = s.(pages).(irq_on) ->
     (forall b y, allocated s' b y <-> allocated s b y /\ b <> a) ->
     (forall x, in_reserved_page s' x <-> in_reserved_page s x) -> Q tt s') -> wp (kfree a) Q s.
Proof.
  intros Hok Ha HQ. destruct (allocated_shape s a z Hok Ha) as (H1 & H2 & H3). destruct Hok as [sl Hs]. apply slab_inv_at in Hs.
  apply (wp_kfree (HP := at_geo_laws (pages s)) s sl); [done|lia|..].
  - intros s' (_ & (sl' & Hs') & Hset & Hi & _). apply slab_inv_of in Hs' as [Hs' Hg]. apply HQ; [by exists sl'|done|done|].
    intros x. by apply in_reserved_page_geo.
  - intros s' (Hno & _). by destruct (Hno z).
Qed.

#[export] Instance byte_heap_laws : HeapLaws slab_ok allocated in_reserved_page.
Proof.
  constructor.
  - exact allocated_shape.
  - intros h a z b y x [sl Hs] Ha Hb H1 H2. by apply (allocated_disjoint 0 h sl a z b y x Hs Ha Hb).
  - exact allocated_not_reserved.
  - intros h v [sl Hs]. exists sl. eapply slab_inv_same; [apply same_heap_irq|exact Hs].
  - intros h v a z. apply (allocated_same (pok := mem_ok)). apply same_heap_irq.
  - intros h v x. by apply in_reserved_page_geo.
  - exact kmalloc_law.
  - exact kfree_law.
Qed.
