(* ===== verification/SchedRep.v ===== *)
(** * Representation of the scheduler's lists

    The link fields of the threads, wait entries and queues spell out lists.
    [rep s e g] says that the state [s] represents the lists [g] and, apart from
    the link fields and list heads, is the state [e].  Each list operation of the
    code is shown to act on [g] alone, and each write of another field on [e]
    alone, so that the functions above them can be understood on [e] and [g]. *)

From S2P Require Import Prelude Lists Memory Slab Task Sched Wait.

Open Scope Z_scope.

(** ** The state without its links *)

Definition core_thread (x : thread) : thread :=
  set_t_next 0 (set_t_znext 0 (set_t_all_next 0 (set_t_wait_entries 0 x))).
Definition core_entry (x : wait_entry) : wait_entry := mkEntry x.(e_task) x.(e_queue) 0 0 0 0.
Definition core_queue (x : wait_queue) : wait_queue := mkQueue 0 0.

Definition erase (s : sched) : sched :=
  set_tasks (core_thread <$> s.(tasks)) (set_entries (core_entry <$> s.(entries)) (set_queues (core_queue <$> s.(queues))
    (set_run_head 0 (set_run_tail 0 (set_zombie_head 0 (set_all_threads 0 s)))))).

(** All threads, the run queue, the zombies, the registrations of each wait queue
    in order, and those of each thread. *)
Record lists := mkLists {
  l_all : list Z;
  l_run : list Z;
  l_zombies : list Z;
  l_queue : Z -> list Z;
  l_task : Z -> list Z;
}.

Definition set_l_all (v : list Z) (g : lists) : lists := mkLists v g.(l_run) g.(l_zombies) g.(l_queue) g.(l_task).
Definition set_l_run (v : list Z) (g : lists) : lists := mkLists g.(l_all) v g.(l_zombies) g.(l_queue) g.(l_task).
Definition set_l_zombies (v : list Z) (g : lists) : lists := mkLists g.(l_all) g.(l_run) v g.(l_queue) g.(l_task).
Definition set_l_queue (v : Z -> list Z) (g : lists) : lists := mkLists g.(l_all) g.(l_run) g.(l_zombies) v g.(l_task).
Definition set_l_task (v : Z -> list Z) (g : lists) : lists := mkLists g.(l_all) g.(l_run) g.(l_zombies) g.(l_queue) v.

Definition link (f : thread -> Z) (ts : gmap Z thread) (t : Z) : option Z := f <$> ts !! t.
Definition qlinks (es : gmap Z wait_entry) (i : Z) : option (Z * Z) := (fun x => (e_prev x, e_next x)) <$> es !! i.
Definition tlinks (es : gmap Z wait_entry) (i : Z) : option (Z * Z) := (fun x => (e_task_prev x, e_task_next x)) <$> es !! i.
Definition is_queue (qs : gmap Z wait_queue) (q : Z) : Prop := is_Some (qs !! q).
Definition is_task (ts : gmap Z thread) (t : Z) : Prop := is_Some (ts !! t).

(** A list of distinct threads linked through [f]. *)
Definition chain (f : thread -> Z) (ts : gmap Z thread) (h : Z) (L : list Z) : Prop := sll 0 (link f ts) h L /\ NoDup L.

Record rep (s e : sched) (g : lists) : Prop := {
  rp_core : erase s = e;
  rp_all : chain t_all_next s.(tasks) s.(all_threads) g.(l_all);
  rp_run : chain t_next s.(tasks) s.(run_head) g.(l_run);
  rp_tail : s.(run_tail) = List.last g.(l_run) 0;
  rp_zombies : chain t_znext s.(tasks) s.(zombie_head) g.(l_zombies);
  rp_queue : dlls 0 (is_queue s.(queues)) (qlinks s.(entries)) (fun q => q_head <$> s.(queues) !! q) g.(l_queue);
  rp_qtail : forall q x, s.(queues) !! q = Some x -> x.(q_tail) = List.last (g.(l_queue) q) 0;
  rp_task : dlls 0 (is_task s.(tasks)) (tlinks s.(entries)) (link t_wait_entries s.(tasks)) g.(l_task);
}.

(** ** Field updates on the reduced state *)

Definition upd_task (t : Z) (f : thread -> thread) (e : sched) : sched := set_tasks (alter f t e.(tasks)) e.
Definition upd_entry (i : Z) (f : wait_entry -> wait_entry) (e : sched) : sched := set_entries (alter f i e.(entries)) e.
Definition irq (e : sched) : bool := e.(heap).(pages).(irq_on).
Definition set_irq (v : bool) (e : sched) : sched := set_heap (set_pages (set_irq_on v e.(heap).(pages)) e.(heap)) e.

(** Reduce field reads of updated states, leaving map operations alone. *)
Ltac sched_simpl :=
  cbn beta iota delta [tasks entries queues tcs frames boot_idle_thread run_head run_tail threading_started
    need_resched zombie_head all_threads next_tid tp regs bh_running qemu heap
    set_tasks set_entries set_queues set_tcs set_frames set_boot_idle_thread set_run_head set_run_tail
    set_threading_started set_need_resched set_zombie_head set_all_threads set_next_tid set_tp set_regs
    set_bh_running set_qemu set_heap
    t_context t_tid t_tgid t_kind t_state t_entry t_arg t_kstack_base t_kstack_top t_next t_znext t_all_next
    t_wait_entries t_is_idle t_user_entry t_user_stack_base t_user_stack_top t_exit_status t_tc
    set_t_context set_t_tid set_t_tgid set_t_kind set_t_state set_t_entry set_t_arg set_t_kstack_base
    set_t_kstack_top set_t_next set_t_znext set_t_all_next set_t_wait_entries set_t_is_idle set_t_user_entry
    set_t_user_stack_base set_t_user_stack_top set_t_exit_status set_t_tc
    e_task e_queue e_prev e_next e_task_prev e_task_next set_e_task set_e_queue set_e_prev set_e_next
    set_e_task_prev set_e_task_next q_head q_tail set_q_head set_q_tail
    upd_task upd_entry set_irq irq irq_on set_irq_on pages set_pages
    l_all l_run l_zombies l_queue l_task set_l_all set_l_run set_l_zombies set_l_queue set_l_task].

Lemma erase_set_tasks ts s : erase (set_tasks ts s) = set_tasks (core_thread <$> ts) (erase s).
Proof. done. Qed.
Lemma erase_set_entries es s : erase (set_entries es s) = set_entries (core_entry <$> es) (erase s).
Proof. done. Qed.
Lemma erase_set_queues qs s : erase (set_queues qs s) = set_queues (core_queue <$> qs) (erase s).
Proof. done. Qed.

Lemma irq_set_irq v e : irq (set_irq v e) = v.
Proof. done. Qed.
Lemma set_irq_twice v w e : set_irq v (set_irq w e) = set_irq v e.
Proof. done. Qed.
Lemma set_irq_self e : set_irq (irq e) e = e.
Proof. by destruct e as [? ? ? ? ? ? ? ? ? ? ? ? ? ? ? ? ? [? ? ? ? ? ? ? []]]. Qed.
Lemma set_irq_same v e : irq e = v -> set_irq v e = e.
Proof. intros <-. apply set_irq_self. Qed.

Lemma alter_insert_eq {A} (f : A -> A) (m : gmap Z A) i x : m !! i = Some x -> alter f i m = <[i := f x]> m.
Proof.
  intros Hx. apply map_eq. intros j. rewrite lookup_alter, lookup_insert. case_decide; [subst; by rewrite Hx|done].
Qed.

Lemma upd_task_self t f e x : e.(tasks) !! t = Some x -> (upd_task t f e).(tasks) !! t = Some (f x).
Proof. intros Hx. sched_simpl. by rewrite lookup_alter_eq, Hx. Qed.
Lemma upd_task_other t f e u : t <> u -> (upd_task t f e).(tasks) !! u = e.(tasks) !! u.
Proof. intros Hu. sched_simpl. by rewrite lookup_alter_ne. Qed.

Section rep.
Context {s e : sched} {g : lists} (H : rep s e g).

(** ** Reading *)

Lemma rep_task t y : e.(tasks) !! t = Some y -> exists x, s.(tasks) !! t = Some x /\ core_thread x = y.
Proof. rewrite <- (rp_core _ _ _ H). sched_simpl. unfold erase. sched_simpl. rewrite lookup_fmap. destruct (tasks s !! t); naive_solver. Qed.
Lemma task_rep t x : s.(tasks) !! t = Some x -> e.(tasks) !! t = Some (core_thread x).
Proof. rewrite <- (rp_core _ _ _ H). unfold erase. sched_simpl. rewrite lookup_fmap. by intros ->. Qed.
Lemma rep_entry i y : e.(entries) !! i = Some y -> exists x, s.(entries) !! i = Some x /\ core_entry x = y.
Proof. rewrite <- (rp_core _ _ _ H). unfold erase. sched_simpl. rewrite lookup_fmap. destruct (entries s !! i); naive_solver. Qed.
Lemma entry_rep i x : s.(entries) !! i = Some x -> e.(entries) !! i = Some (core_entry x).
Proof. rewrite <- (rp_core _ _ _ H). unfold erase. sched_simpl. rewrite lookup_fmap. by intros ->. Qed.
Lemma rep_is_task t : is_task e.(tasks) t <-> is_task s.(tasks) t.
Proof. rewrite <- (rp_core _ _ _ H). unfold erase, is_task. sched_simpl. rewrite lookup_fmap. by rewrite fmap_is_Some. Qed.
Lemma rep_is_queue q : is_queue e.(queues) q <-> is_queue s.(queues) q.
Proof. rewrite <- (rp_core _ _ _ H). unfold erase, is_queue. sched_simpl. rewrite lookup_fmap. by rewrite fmap_is_Some. Qed.
Lemma rep_size : size s.(tasks) = size e.(tasks).
Proof. rewrite <- (rp_core _ _ _ H). unfold erase. sched_simpl. by rewrite map_size_fmap. Qed.
Lemma rep_esize : size s.(entries) = size e.(entries).
Proof. rewrite <- (rp_core _ _ _ H). unfold erase. sched_simpl. by rewrite map_size_fmap. Qed.

Lemma wp_task_get t y Q :
  e.(tasks) !! t = Some y -> (forall x, s.(tasks) !! t = Some x -> core_thread x = y -> Q x s) -> wp (task_get t) Q s.
Proof. intros Hy HQ. destruct (rep_task t y Hy) as (x & Hx & E). eapply wp_access; [exact Hx|by apply HQ]. Qed.

Lemma wp_entry_get i y Q :
  e.(entries) !! i = Some y -> (forall x, s.(entries) !! i = Some x -> core_entry x = y -> Q x s) -> wp (entry_get i) Q s.
Proof. intros Hy HQ. destruct (rep_entry i y Hy) as (x & Hx & E). eapply wp_access; [exact Hx|by apply HQ]. Qed.

Lemma wp_gets_core {A} (f : sched -> A) Q : (forall s, f (erase s) = f s) -> Q (f e) s -> wp (gets f) Q s.
Proof. intros Hf HQ. apply wp_gets. rewrite <- (rp_core _ _ _ H), Hf in HQ. done. Qed.

(** ** Writing fields that are no links *)

Definition links (s : sched) :=
  (s.(tasks), s.(entries), s.(queues), s.(run_head), s.(run_tail), s.(zombie_head), s.(all_threads)).

Lemma wp_modify_core (f : sched -> sched) Q :
  (forall s, erase (f s) = f (erase s)) -> links (f s) = links s -> (forall s', rep s' (f e) g -> Q tt s') -> wp (modify f) Q s.
Proof.
  intros Hf Hl HQ. apply wp_modify, HQ. unfold links in Hl. injection Hl as E1 E2 E3 E4 E5 E6 E7. destruct H as [H1 H2 H3 H4 H5 H6 H7 H8].
  constructor; [by rewrite Hf, H1|..]; by rewrite ?E1, ?E2, ?E3, ?E4, ?E5, ?E6, ?E7.
Qed.

Lemma wp_zoom_heap {A} (m : M slabs A) Q :
  wp m (fun a h => forall s', rep s' (set_heap h e) g -> Q a s') e.(heap) -> wp (zoom m) Q s.
Proof.
  intros Hm. apply wp_zoom. assert (view s = heap e) as -> by (by rewrite <- (rp_core _ _ _ H)).
  eapply wp_mono; [exact Hm|]. cbn beta. intros a h HQ. apply HQ. destruct H as [H1 H2 H3 H4 H5 H6 H7 H8].
  constructor; try done. cbn [put sched_heap]. rewrite <- H1. done.
Qed.

Lemma wp_irq_save Q : (forall s', rep s' (set_irq false e) g -> Q (irq e) s') -> wp irq_save Q s.
Proof.
  intros HQ. assert (E : irq e = irq_on (pages (heap s))) by (by rewrite <- (rp_core _ _ _ H)).
  rewrite E in HQ. apply wp_zoom. unfold local_irq_save. wp_steps. apply HQ. destruct H as [H1 H2 H3 H4 H5 H6 H7 H8].
  constructor; try done. rewrite <- H1. done.
Qed.

Lemma wp_irq_restore b Q : (forall s', rep s' (set_irq (irq e || b) e) g -> Q tt s') -> wp (irq_restore b) Q s.
Proof.
  intros HQ. apply wp_zoom. unfold local_irq_restore. wp_steps. apply HQ. destruct H as [H1 H2 H3 H4 H5 H6 H7 H8].
  constructor; try done. rewrite <- H1. done.
Qed.

Lemma wp_irq_enable Q : (forall s', rep s' (set_irq true e) g -> Q tt s') -> wp irq_enable Q s.
Proof.
  intros HQ. apply wp_zoom. wp_steps. apply HQ. destruct H as [H1 H2 H3 H4 H5 H6 H7 H8].
  constructor; try done. rewrite <- H1. done.
Qed.

Lemma wp_irqs_enabled Q : Q (irq e) s -> wp irqs_enabled Q s.
Proof.
  intros HQ. apply wp_zoom. wp_steps. assert (E : irq e = irq_on (pages (heap s))) by (by rewrite <- (rp_core _ _ _ H)).
  rewrite E in HQ. cbn [put sched_irq view]. replace (set_heap (set_pages (pages (heap s)) (heap s)) s) with s; [done|].
  by destruct s as [? ? ? ? ? ? ? ? ? ? ? ? ? ? ? ? ? []].
Qed.

Lemma wp_thread_current Q : e.(threading_started) <> 0 -> Q e.(tp) s -> wp thread_current Q s.
Proof.
  intros Hst HQ. unfold thread_current. apply wp_bind. apply wp_gets_core; [done|]. destruct (Z.eqb_spec (threading_started e) 0); [done|].
  by apply wp_gets_core.
Qed.

(** A write of a thread field that is no link. *)
Record core_fun (f : thread -> thread) : Prop := {
  cf_core x : core_thread (f x) = f (core_thread x);
  cf_next x : t_next (f x) = t_next x;
  cf_znext x : t_znext (f x) = t_znext x;
  cf_all x : t_all_next (f x) = t_all_next x;
  cf_wait x : t_wait_entries (f x) = t_wait_entries x;
}.

Lemma link_upd (fld : thread -> Z) (f : thread -> thread) t x i :
  s.(tasks) !! t = Some x -> fld (f x) = fld x -> link fld (<[t := f x]> s.(tasks)) i = link fld s.(tasks) i.
Proof. intros Hx Hf. unfold link. rewrite lookup_insert. case_decide; [subst; rewrite Hx; cbn; by rewrite Hf|done]. Qed.

Lemma chain_ext fld ts ts' h L : (forall i, i ∈ L -> link fld ts' i = link fld ts i) -> chain fld ts h L -> chain fld ts' h L.
Proof. intros E [Hs Hn]. split; [by eapply sll_ext|done]. Qed.

Lemma is_task_upd (f : thread -> thread) t x i : s.(tasks) !! t = Some x -> is_task (<[t := f x]> s.(tasks)) i <-> is_task s.(tasks) i.
Proof. intros Hx. unfold is_task. rewrite lookup_insert. case_decide; [subst; rewrite Hx; naive_solver|done]. Qed.

Lemma dlls_ok {K} (ok ok' : K -> Prop) null lk hd L : (forall k, ok' k <-> ok k) -> dlls null ok lk hd L -> dlls null ok' lk hd L.
Proof. intros E [H1 H2 H3]. constructor; intros; (apply H1 || apply H2 || eapply H3); by try apply E. Qed.

Lemma wp_task_core t y f Q :
  e.(tasks) !! t = Some y -> core_fun f -> (forall s', rep s' (upd_task t f e) g -> Q tt s') -> wp (task_upd t f) Q s.
Proof.
  intros Hy [F1 F2 F3 F4 F5] HQ. destruct (rep_task t y Hy) as (x & Hx & E). eapply wp_update; [by rewrite Hx|]. apply HQ.
  destruct H as [H1 H2 H3 H4 H5 H6 H7 H8].
  constructor; try done; sched_simpl.
  - rewrite erase_set_tasks, H1. unfold upd_task. f_equal. rewrite fmap_insert, F1, <- H1.
    symmetry. apply alter_insert_eq. unfold erase. sched_simpl. by rewrite lookup_fmap, Hx.
  - eapply chain_ext; [|exact H2]. intros. by apply link_upd.
  - eapply chain_ext; [|exact H3]. intros. by apply link_upd.
  - eapply chain_ext; [|exact H5]. intros. by apply link_upd.
  - eapply dlls_ok; [intros; by apply is_task_upd|]. eapply dlls_ext; [exact H8|done| |done]. intros. by apply link_upd.
Qed.

End rep.
