(* ===== verification/SchedLists.v ===== *)
(** * The list operations of the scheduler

    What [sched_enqueue], [runq_pop], [sched_remove] and the code that maintains
    the list of all threads and the zombie list do to the lists they represent. *)

From S2P Require Import Prelude Lists Memory Slab Task Sched Wait Thread SchedRep.

Open Scope Z_scope.

Lemma wp_task_upd t x f s Q :
  s.(tasks) !! t = Some x -> Q tt (set_tasks (<[t := f x]> s.(tasks)) s) -> wp (task_upd t f) Q s.
Proof. intros Hx HQ. eapply wp_update; [by rewrite Hx|done]. Qed.

Lemma core_insert (ts : gmap Z thread) t x x' :
  ts !! t = Some x -> core_thread x' = core_thread x -> core_thread <$> <[t := x']> ts = core_thread <$> ts.
Proof. intros Hx E. rewrite fmap_insert, E. apply insert_id. by rewrite lookup_fmap, Hx. Qed.

Lemma link_insert fld ts t x i : link fld (<[t := x]> ts) i = if decide (t = i) then Some (fld x) else link fld ts i.
Proof. unfold link. rewrite lookup_insert. by case_decide. Qed.

Lemma link_insert_same fld ts t x x' i : ts !! t = Some x -> fld x' = fld x -> link fld (<[t := x']> ts) i = link fld ts i.
Proof. intros Hx E. rewrite link_insert. case_decide; [subst; unfold link; by rewrite Hx, E|done]. Qed.

(** Replacing links of threads only. *)
Lemma rep_relink s s' e g g' :
  rep s e g -> core_thread <$> s'.(tasks) = core_thread <$> s.(tasks) ->
  erase s' = set_tasks (core_thread <$> s'.(tasks)) (erase s) -> s'.(entries) = s.(entries) -> s'.(queues) = s.(queues) ->
  (forall t, link t_wait_entries s'.(tasks) t = link t_wait_entries s.(tasks) t) ->
  g'.(l_queue) = g.(l_queue) -> g'.(l_task) = g.(l_task) ->
  chain t_all_next s'.(tasks) s'.(all_threads) g'.(l_all) ->
  chain t_next s'.(tasks) s'.(run_head) g'.(l_run) -> s'.(run_tail) = List.last g'.(l_run) 0 ->
  chain t_znext s'.(tasks) s'.(zombie_head) g'.(l_zombies) -> rep s' e g'.
Proof.
  intros [H1 H2 H3 H4 H5 H6 H7 H8] Ec Ee Een Eq Ew Eg1 Eg2 Ha Hr Ht Hz.
  constructor; try done; rewrite ?Een, ?Eq, ?Eg1, ?Eg2; try done.
  - rewrite Ee, Ec, <- H1. done.
  - eapply dlls_ok; [|eapply dlls_ext; [exact H8|done|intros; by apply Ew|done]].
    intros t. unfold is_task. apply (f_equal (fun m => m !! t)) in Ec. rewrite !lookup_fmap in Ec.
    destruct (tasks s' !! t), (tasks s !! t); cbn in Ec; naive_solver.
Qed.

Lemma set_l_run_id (g : lists) : set_l_run g.(l_run) g = g.
Proof. by destruct g. Qed.
Lemma set_l_all_id (g : lists) : set_l_all g.(l_all) g = g.
Proof. by destruct g. Qed.

Section ops.
Context {s e : sched} {g : lists} (H : rep s e g).

(** The lists are no longer than the map of threads. *)
Lemma chain_fits fld h L : chain fld s.(tasks) h L -> (length L <= size s.(tasks))%nat.
Proof.
  intros [Hs Hn]. rewrite <- (size_dom (tasks s)), <- (size_list_to_set (C := gset Z) L) by done. apply subseteq_size.
  intros t Ht%elem_of_list_to_set. destruct (sll_elem _ _ _ _ _ Hs Ht) as [v E]. unfold link in E. apply elem_of_dom.
  destruct (tasks s !! t); [eauto|done].
Qed.

Lemma chain_task fld h L t : chain fld s.(tasks) h L -> t ∈ L -> t <> 0 /\ exists x, s.(tasks) !! t = Some x.
Proof.
  intros [Hs _] Ht. split; [by eapply sll_not_null|]. destruct (sll_elem _ _ _ _ _ Hs Ht) as [v E]. unfold link in E.
  destruct (tasks s !! t); [eauto|done].
Qed.

Lemma wp_sched_enqueue t Q :
  t ∉ g.(l_run) -> t <> 0 -> is_task e.(tasks) t ->
  (forall s', rep s' e (set_l_run (g.(l_run) ++ [t]) g) -> Q tt s') -> wp (sched_enqueue t) Q s.
Proof.
  intros Hni Hn0 Ht HQ. apply (rep_is_task H) in Ht as [x Hx]. unfold sched_enqueue. apply wp_bind.
  eapply wp_task_upd; [exact Hx|]. wp_steps. sched_simpl. pose proof (rp_tail _ _ _ H) as Etl. rewrite Etl.
  pose proof (rp_run _ _ _ H) as [Hs Hnd].
  destruct (Z.eqb_spec (List.last (l_run g) 0) 0) as [E0|E0].
  - assert (l_run g = []) as El.
    { destruct (l_run g) eqn:El; [done|]. exfalso. eapply sll_not_null; [exact Hs| |exact E0]. by apply last_elem. }
    wp_steps. apply HQ. eapply (rep_relink s); [exact H|..]; try done; sched_simpl; rewrite ?El.
    + by eapply core_insert.
    + intros. by eapply link_insert_same.
    + eapply chain_ext; [|apply H]. intros. by eapply link_insert_same.
    + split; [|apply NoDup_singleton]. cbn. split; [done|]. split; [done|]. exists 0. split; [|done].
      rewrite link_insert. by rewrite decide_True.
    + done.
    + eapply chain_ext; [|apply H]. intros. by eapply link_insert_same.
  - assert (Htl : List.last (l_run g) 0 ∈ l_run g) by (apply last_elem; intros El; by rewrite El in E0).
    destruct (chain_task _ _ _ _ (conj Hs Hnd) Htl) as [_ [y Hy]]. set (tl := List.last (l_run g) 0) in *.
    assert (Hne : tl <> t) by (by intros ->). apply wp_bind.
    eapply wp_task_upd; [sched_simpl; rewrite lookup_insert_ne by done; exact Hy|]. wp_steps. apply HQ.
    assert (Hcore : forall fld : thread -> Z, (forall v x, fld (set_t_next v x) = fld x) -> forall i,
      link fld (<[tl := set_t_next t y]> (<[t := set_t_next 0 x]> (tasks s))) i = link fld (tasks s) i).
    { intros fld Hf i. erewrite link_insert_same; [by eapply link_insert_same|by rewrite lookup_insert_ne|done]. }
    eapply (rep_relink s); [exact H|..]; try done; sched_simpl.
    + erewrite core_insert; [by eapply core_insert|by rewrite lookup_insert_ne|done].
    + intros. by apply Hcore.
    + eapply chain_ext; [|apply H]. intros. by apply Hcore.
    + split.
      * assert (run_head s = match l_run g with [] => t | _ => run_head s end) as -> by (by destruct (l_run g)).
        eapply sll_snoc; [exact Hs|done|done|done| |].
        -- rewrite !link_insert. by rewrite decide_False, decide_True by done.
        -- intros j Hj. rewrite !link_insert. fold tl. destruct (Z.eqb_spec j tl) as [->|Hj']; [by rewrite decide_True|].
           rewrite decide_False by done. rewrite decide_False; [done|]. by intros ->.
      * apply NoDup_app. split; [done|]. split; [|apply NoDup_singleton]. set_solver.
    + by rewrite last_last.
    + eapply chain_ext; [|apply H]. intros. by apply Hcore.
Qed.

Lemma wp_runq_pop Q :
  (g.(l_run) = [] -> Q 0 s) ->
  (forall t R s', g.(l_run) = t :: R -> rep s' e (set_l_run R g) -> Q t s') -> wp runq_pop Q s.
Proof.
  intros Hnil Hcons. unfold runq_pop. wp_steps. pose proof (rp_run _ _ _ H) as [Hs Hnd].
  destruct (l_run g) as [|t R] eqn:El; [cbn in Hs; rewrite Hs; cbn; by apply wp_ret, Hnil|].
  destruct Hs as (Eh & Ht0 & n & Hn & Hs). rewrite Eh. destruct (Z.eqb_spec t 0); [done|].
  unfold link in Hn. destruct (tasks s !! t) as [x|] eqn:Hx; [|done]. injection Hn as Hn.
  apply wp_bind. eapply wp_access; [exact Hx|]. wp_steps. sched_simpl. apply NoDup_cons in Hnd as [HtR Hnd].
  assert (Hgo : forall s0, tasks s0 = tasks s -> erase s0 = erase s -> entries s0 = entries s -> queues s0 = queues s ->
    all_threads s0 = all_threads s -> zombie_head s0 = zombie_head s -> run_head s0 = n -> run_tail s0 = List.last R 0 ->
    wp (task_upd t (set_t_next 0) ;; mret t) Q s0).
  { intros s0 E1 E2 E3 E4 E5 E6 E7 E8. apply wp_bind. eapply wp_task_upd; [by rewrite E1|]. wp_steps. apply (Hcons t R); [done|].
    eapply (rep_relink s); [exact H|..]; try done; sched_simpl; rewrite ?E1.
    + by eapply core_insert.
    + by rewrite erase_set_tasks, E2.
    + intros. by eapply link_insert_same.
    + rewrite E5. eapply chain_ext; [|apply H]. intros. by eapply link_insert_same.
    + rewrite E7. split; [|done]. eapply sll_ext; [|exact Hs]. intros i Hi. rewrite link_insert. rewrite decide_False; [done|]. by intros ->.
    + rewrite E6. eapply chain_ext; [|apply H]. intros. by eapply link_insert_same. }
  rewrite Hn. pose proof (rp_tail _ _ _ H) as Etl. rewrite El in Etl. destruct R as [|b R].
  - cbn in Hs. subst n. rewrite Hs. cbn [Z.eqb when]. apply wp_modify. by apply Hgo.
  - destruct Hs as (E & Hb & Hs'). rewrite E in *. destruct (Z.eqb_spec b 0); [done|]. cbn [when]. apply wp_ret. by apply Hgo.
Qed.

(** Unlinking a thread from a list through [fld]. *)
Lemma chain_unlink (fld : thread -> Z) ts' h L1 t L2 x :
  chain fld s.(tasks) h (L1 ++ t :: L2) -> s.(tasks) !! t = Some x ->
  (forall j, j <> t -> link fld ts' j = if bool_decide (last L1 = Some j) then Some (fld x) else link fld s.(tasks) j) ->
  chain fld ts' (match L1 with [] => fld x | _ => h end) (L1 ++ L2).
Proof.
  intros [Hs Hnd] Hx Hupd. split.
  - eapply sll_remove; [exact Hs|done|unfold link; by rewrite Hx|]. intros j Hj. apply Hupd. intros ->.
    rewrite <- (without_split t L1 L2 Hnd), elem_of_without in Hj. tauto.
  - rewrite <- (without_split t L1 L2 Hnd). by apply NoDup_without.
Qed.

Lemma last_opt (L : list Z) (d : Z) : List.last L d = match last L with Some p => p | None => d end.
Proof. induction L as [|a L IH]; [done|]. destruct L; [done|]. exact IH. Qed.

(** Both lists are unlinked from in the same way: the predecessor or the head
    takes over the successor, then the node's own link is cleared. *)
Lemma unlink_tasks (fld : thread -> Z) (setf : Z -> thread -> thread) h L1 t L2 x :
  (forall v y, fld (setf v y) = v) ->
  chain fld s.(tasks) h (L1 ++ t :: L2) -> s.(tasks) !! t = Some x ->
  exists ts1, (if List.last L1 0 =? 0 then ts1 = s.(tasks)
     else exists y, s.(tasks) !! List.last L1 0 = Some y /\ ts1 = <[List.last L1 0 := setf (fld x) y]> s.(tasks)) /\
    ts1 !! t = Some x /\
    chain fld (<[t := setf 0 x]> ts1) (if List.last L1 0 =? 0 then fld x else h) (L1 ++ L2).
Proof.
  intros Hset Hc Hx. destruct (last L1) as [p|] eqn:El.
  - assert (HpL : p ∈ L1) by (by apply last_Some_elem_of). rewrite last_opt, El.
    destruct (chain_task _ _ _ p Hc ltac:(set_solver)) as [Hp0 [y Hy]]. destruct (Z.eqb_spec p 0); [done|].
    assert (Hpt : p <> t).
    { intros ->. destruct Hc as [_ Hnd]. apply NoDup_app in Hnd as (_ & Hd & _). apply (Hd t HpL). set_solver. }
    exists (<[p := setf (fld x) y]> (tasks s)). cbn iota. split; [by exists y|]. split; [by rewrite lookup_insert_ne|].
    assert (h = match L1 with [] => fld x | _ => h end) as -> by (by destruct L1).
    eapply chain_unlink; [done|done|]. intros j Hj. rewrite !link_insert. rewrite decide_False by done. rewrite El.
    case_decide; [subst; rewrite bool_decide_true by done; by rewrite Hset|rewrite bool_decide_false; [done|congruence]].
  - apply last_None in El as ->. cbn [List.last Z.eqb]. exists (tasks s). split; [done|]. split; [done|].
    eapply (chain_unlink fld _ h []); [done|done|]. intros j Hj. rewrite link_insert. by rewrite decide_False.
Qed.

(** Position of a walk with a trailing pointer: [L1] is behind, [L2] ahead. *)
Definition walked (fld : thread -> Z) (L : list Z) (t : Z) (L2 : list Z) (st : Z * Z) (s' : sched) : Prop :=
  s' = s /\ exists L1, L = L1 ++ L2 /\ st.1 = List.last L1 0 /\ sll 0 (link fld s.(tasks)) st.2 L2 /\ t ∉ L1.

Lemma walked_start fld h L t : chain fld s.(tasks) h L -> walked fld L t L (0, h) s.
Proof. intros [Hs _]. split; [done|]. exists []. split; [done|]. split; [done|]. split; [done|set_solver]. Qed.

Lemma walked_next fld h L t a L2 st s' x :
  chain fld s.(tasks) h L -> walked fld L t (a :: L2) st s' -> s.(tasks) !! a = Some x -> a <> t ->
  walked fld L t L2 (a, fld x) s.
Proof.
  intros Hc (-> & L1 & EL & E1 & (E2 & _ & n & Hn & Hs) & Ht) Hx Hat. unfold link in Hn. rewrite Hx in Hn. injection Hn as <-.
  split; [done|]. exists (L1 ++ [a]). split; [by rewrite EL, <- app_assoc|]. split; [by rewrite last_last|].
  split; [done|]. rewrite elem_of_app, list_elem_of_singleton. naive_solver.
Qed.

Lemma wp_sched_remove t Q :
  (forall s', rep s' e (set_l_run (without t g.(l_run)) g) -> Q tt s') -> wp (sched_remove t) Q s.
Proof.
  intros HQ. pose proof (rp_run _ _ _ H) as Hc. unfold sched_remove. wp_steps.
  apply (wp_loop_list (walked t_next (l_run g) t)) with (L := l_run g); [| |by eapply walked_start|].
  - intros [pr cur] s' (-> & L1 & EL & _ & E2 & Ht). cbn in E2. rewrite E2. cbn [Z.eqb]. wp_steps. apply HQ.
    rewrite app_nil_r in EL. rewrite <- EL in Ht. by rewrite (without_absent _ _ Ht), set_l_run_id.
  - intros a L2 [pr cur] s' Hw. pose proof Hw as (-> & L1 & EL & E1 & (E2 & Ha0 & _) & Ht). cbn [fst snd] in E1, E2. rewrite E1, E2.
    destruct (Z.eqb_spec a 0); [done|].
    destruct (chain_task _ _ _ a Hc) as [_ [x Hx]]; [rewrite EL; set_solver|].
    apply wp_bind. eapply wp_access; [exact Hx|]. destruct (Z.eqb_spec a t) as [->|Hat]; [|wp_steps; by eapply walked_next].
    pose proof Hc as [_ Hnd]. rewrite EL in Hc, Hnd.
    destruct (unlink_tasks t_next set_t_next _ L1 t L2 x ltac:(done) Hc Hx) as (ts1 & Hts1 & Hx1 & Hc').
    assert (Hother : forall fld : thread -> Z, (forall v y, fld (set_t_next v y) = fld y) -> forall i,
      link fld (<[t := set_t_next 0 x]> ts1) i = link fld (tasks s) i).
    { intros fld Hf i. erewrite link_insert_same; [|exact Hx1|done].
      destruct (List.last L1 0 =? 0); [by subst|]. destruct Hts1 as (y & Hy & ->). by eapply link_insert_same. }
    assert (Hcore : core_thread <$> <[t := set_t_next 0 x]> ts1 = core_thread <$> tasks s).
    { erewrite core_insert; [|exact Hx1|done]. destruct (List.last L1 0 =? 0); [by subst|]. destruct Hts1 as (y & Hy & ->). by eapply core_insert. }
    assert (Hend : forall s', tasks s' = ts1 -> erase s' = set_tasks (core_thread <$> ts1) (erase s) -> entries s' = entries s ->
      queues s' = queues s -> all_threads s' = all_threads s -> zombie_head s' = zombie_head s -> run_tail s' = run_tail s ->
      run_head s' = (if List.last L1 0 =? 0 then t_next x else run_head s) ->
      wp (run_tail ← gets run_tail; when (run_tail =? t) (modify (set_run_tail (List.last L1 0))) ;; task_upd t (set_t_next 0) ;; mret (inr tt))
        (fun r s' => match r with inr v => Q v s' | inl st' => walked t_next (l_run g) t L2 st' s' end) s').
    { intros s' F1 F2 F3 F4 F5 F6 F7 F8. wp_steps. rewrite F7, (rp_tail _ _ _ H), EL.
      assert (Hfin : forall s1, tasks s1 = ts1 -> erase s1 = set_tasks (core_thread <$> ts1) (erase s) -> entries s1 = entries s ->
        queues s1 = queues s -> all_threads s1 = all_threads s -> zombie_head s1 = zombie_head s ->
        run_tail s1 = List.last (L1 ++ L2) 0 -> run_head s1 = (if List.last L1 0 =? 0 then t_next x else run_head s) ->
        wp (task_upd t (set_t_next 0)) (fun _ s0 => Q tt s0) s1).
      { intros s1 G1 G2 G3 G4 G5 G6 G7 G8. eapply wp_task_upd; [by rewrite G1|]. apply HQ. rewrite EL, (without_split _ _ _ Hnd).
        eapply (rep_relink s); [exact H|..]; try done; sched_simpl; rewrite ?G1, ?G5, ?G6, ?G7, ?G8; try done.
        - by rewrite erase_set_tasks, G2.
        - intros. by apply Hother.
        - eapply chain_ext; [|apply H]. intros. by apply Hother.
        - eapply chain_ext; [|apply H]. intros. by apply Hother. }
      pose proof (last_without t L1 L2 Hnd) as Elast.
      apply wp_when; intros Et; rewrite Et in Elast; [apply wp_modify|]; apply wp_bind; (eapply wp_mono; [apply Hfin; try done|by intros]).
      by rewrite Elast, <- EL, F7, (rp_tail _ _ _ H). }
    apply wp_bind. destruct (List.last L1 0 =? 0) eqn:E0; [subst ts1; wp_step; by apply Hend|].
    destruct Hts1 as (y & Hy & ->). eapply wp_task_upd; [exact Hy|]. by apply Hend.
  - pose proof (chain_fits _ _ _ Hc). lia.
Qed.

(** The two writes that put a thread in front of a list. *)
Lemma wp_all_push {A} t (k : M sched A) Q :
  t ∉ g.(l_all) -> t <> 0 -> is_task e.(tasks) t ->
  (forall s', rep s' e (set_l_all (t :: g.(l_all)) g) -> wp k Q s') ->
  wp (head ← gets all_threads; task_upd t (set_t_all_next head) ;; modify (set_all_threads t) ;; k) Q s.
Proof.
  intros Hni Hn0 Ht HQ. apply (rep_is_task H) in Ht as [x Hx]. wp_step. wp_step. apply wp_bind.
  eapply wp_task_upd; [exact Hx|]. wp_step. wp_step. apply HQ. pose proof (rp_all _ _ _ H) as [Hs Hnd].
  eapply (rep_relink s); [exact H|..]; try done; sched_simpl.
  - by eapply core_insert.
  - intros. by eapply link_insert_same.
  - split; [|by apply NoDup_cons]. eapply sll_push; [exact Hs|done|done| |].
    + rewrite link_insert. by rewrite decide_True.
    + intros j Hj. rewrite link_insert. by rewrite decide_False.
  - eapply chain_ext; [|apply H]. intros. by eapply link_insert_same.
  - apply H.
  - eapply chain_ext; [|apply H]. intros. by eapply link_insert_same.
Qed.

Lemma wp_zombie_push t Q :
  t ∉ g.(l_zombies) -> t <> 0 -> is_task e.(tasks) t ->
  (forall s', rep s' e (set_l_zombies (t :: g.(l_zombies)) g) -> Q tt s') ->
  wp (head ← gets zombie_head; task_upd t (set_t_znext head) ;; modify (set_zombie_head t)) Q s.
Proof.
  intros Hni Hn0 Ht HQ. apply (rep_is_task H) in Ht as [x Hx]. wp_step. wp_step. apply wp_bind.
  eapply wp_task_upd; [exact Hx|]. wp_steps. apply HQ. pose proof (rp_zombies _ _ _ H) as [Hs Hnd].
  eapply (rep_relink s); [exact H|..]; try done; sched_simpl.
  - by eapply core_insert.
  - intros. by eapply link_insert_same.
  - eapply chain_ext; [|apply H]. intros. by eapply link_insert_same.
  - eapply chain_ext; [|apply H]. intros. by eapply link_insert_same.
  - apply H.
  - split; [|by apply NoDup_cons]. eapply sll_push; [exact Hs|done|done| |].
    + rewrite link_insert. by rewrite decide_True.
    + intros j Hj. rewrite link_insert. by rewrite decide_False.
Qed.

Lemma zombie_first : s.(zombie_head) = match g.(l_zombies) with [] => 0 | z :: _ => z end.
Proof. pose proof (rp_zombies _ _ _ H) as [Hs _]. destruct (l_zombies g); [done|]. by destruct Hs. Qed.
Lemma run_first : s.(run_head) = match g.(l_run) with [] => 0 | t :: _ => t end.
Proof. pose proof (rp_run _ _ _ H) as [Hs _]. destruct (l_run g); [done|]. by destruct Hs. Qed.
Lemma run_nonzero t : t ∈ g.(l_run) -> t <> 0.
Proof. intros Ht. by apply (chain_task _ _ _ t (rp_run _ _ _ H)). Qed.
Lemma all_nonzero t : t ∈ g.(l_all) -> t <> 0.
Proof. intros Ht. by apply (chain_task _ _ _ t (rp_all _ _ _ H)). Qed.
Lemma zombies_nonzero t : t ∈ g.(l_zombies) -> t <> 0.
Proof. intros Ht. by apply (chain_task _ _ _ t (rp_zombies _ _ _ H)). Qed.

Lemma wp_zombie_pop z L Q :
  g.(l_zombies) = z :: L -> (forall s', rep s' e (set_l_zombies L g) -> Q tt s') ->
  wp (x ← task_get z; modify (set_zombie_head x.(t_znext))) Q s.
Proof.
  intros EL HQ. pose proof (rp_zombies _ _ _ H) as [Hs Hnd]. rewrite EL in Hs, Hnd. destruct Hs as (_ & _ & n & Hn & Hs).
  unfold link in Hn. destruct (tasks s !! z) as [x|] eqn:Hx; [|done]. injection Hn as <-. apply wp_bind.
  eapply wp_access; [exact Hx|]. wp_steps. apply HQ. apply NoDup_cons in Hnd as [_ Hnd].
  eapply (rep_relink s); [exact H|..]; try done; sched_simpl; by try apply H.
Qed.

End ops.

(** Saving and restoring the interrupt flag. *)
Lemma irq_pair e : set_irq (irq (set_irq false e) || irq e) (set_irq false e) = e.
Proof. rewrite irq_set_irq, set_irq_twice. apply set_irq_self. Qed.

Lemma wp_thread_list_add s e g t Q :
  rep s e g -> t ∉ g.(l_all) -> t <> 0 -> is_task e.(tasks) t ->
  (forall s', rep s' e (set_l_all (t :: g.(l_all)) g) -> Q tt s') -> wp (thread_list_add t) Q s.
Proof.
  intros H Hni Hn0 Ht HQ. unfold thread_list_add. apply wp_bind, (wp_irq_save H). intros s1 H1.
  apply (wp_all_push H1); [done..|]. intros s2 H2. apply (wp_irq_restore H2). intros s3 H3. apply HQ. by rewrite irq_pair in H3.
Qed.

(** The loop of [thread_list_remove]. *)
Lemma wp_all_unlink s e g t Q :
  rep s e g -> (forall s', rep s' e (set_l_all (without t g.(l_all)) g) -> Q tt s') ->
  wp (loop (S (size s.(tasks)))
    (fun '(prev, cur) =>
       if cur =? 0 then mret (inr tt)
       else
         x ← task_get cur;
         if cur =? t then
           (if prev =? 0 then modify (set_all_threads x.(t_all_next)) else task_upd prev (set_t_all_next x.(t_all_next))) ;;
           task_upd cur (set_t_all_next 0) ;;
           mret (inr tt)
         else mret (inl (cur, x.(t_all_next))))
    (0, s.(all_threads))) Q s.
Proof.
  intros H HQ. pose proof (rp_all _ _ _ H) as Hc.
  apply (wp_loop_list (walked (s := s) t_all_next (l_all g) t)) with (L := l_all g); [| |by eapply walked_start|].
  - intros [pr cur] s' (-> & L1 & EL & _ & E2 & Ht). cbn in E2. rewrite E2. cbn [Z.eqb]. wp_steps. apply HQ.
    rewrite app_nil_r in EL. rewrite <- EL in Ht. by rewrite (without_absent _ _ Ht), set_l_all_id.
  - intros a L2 [pr cur] s' Hw. pose proof Hw as (-> & L1 & EL & E1 & (E2 & Ha0 & _) & Ht). cbn [fst snd] in E1, E2. rewrite E1, E2.
    destruct (Z.eqb_spec a 0); [done|].
    destruct (chain_task _ _ _ a Hc) as [_ [x Hx]]; [rewrite EL; set_solver|].
    apply wp_bind. eapply wp_access; [exact Hx|]. destruct (Z.eqb_spec a t) as [->|Hat]; [|wp_steps; by eapply walked_next].
    pose proof Hc as [_ Hnd]. rewrite EL in Hc, Hnd.
    destruct (unlink_tasks H t_all_next set_t_all_next _ L1 t L2 x ltac:(done) Hc Hx) as (ts1 & Hts1 & Hx1 & Hc').
    assert (Hother : forall fld : thread -> Z, (forall v y, fld (set_t_all_next v y) = fld y) -> forall i,
      link fld (<[t := set_t_all_next 0 x]> ts1) i = link fld (tasks s) i).
    { intros fld Hf i. erewrite link_insert_same; [|exact Hx1|done].
      destruct (List.last L1 0 =? 0); [by subst|]. destruct Hts1 as (y & Hy & ->). by eapply link_insert_same. }
    assert (Hcore : core_thread <$> <[t := set_t_all_next 0 x]> ts1 = core_thread <$> tasks s).
    { erewrite core_insert; [|exact Hx1|done]. destruct (List.last L1 0 =? 0); [by subst|]. destruct Hts1 as (y & Hy & ->). by eapply core_insert. }
    assert (Hfin : forall s1, tasks s1 = ts1 -> erase s1 = set_tasks (core_thread <$> ts1) (erase s) -> entries s1 = entries s ->
      queues s1 = queues s -> run_head s1 = run_head s -> zombie_head s1 = zombie_head s ->
      run_tail s1 = run_tail s -> all_threads s1 = (if List.last L1 0 =? 0 then t_all_next x else all_threads s) ->
      wp (task_upd t (set_t_all_next 0) ;; mret (inr tt))
        (fun r s' => match r with inr v => Q v s' | inl st' => walked (s := s) t_all_next (l_all g) t L2 st' s' end) s1).
    { intros s1 G1 G2 G3 G4 G5 G6 G7 G8. apply wp_bind. eapply wp_task_upd; [by rewrite G1|]. apply wp_ret, HQ.
      rewrite EL, (without_split _ _ _ Hnd).
      eapply (rep_relink s); [exact H|..]; try done; sched_simpl; rewrite ?G1, ?G5, ?G6, ?G7, ?G8; try done.
      - by rewrite erase_set_tasks, G2.
      - intros. by apply Hother.
      - eapply chain_ext; [|apply H]. intros. by apply Hother.
      - apply H.
      - eapply chain_ext; [|apply H]. intros. by apply Hother. }
    apply wp_bind. destruct (List.last L1 0 =? 0) eqn:E0; [subst ts1; wp_step; by apply Hfin|].
    destruct Hts1 as (y & Hy & ->). eapply wp_task_upd; [exact Hy|]. by apply Hfin.
  - pose proof (chain_fits _ _ _ Hc). lia.
Qed.

Lemma wp_thread_list_remove s e g t Q :
  rep s e g -> (forall s', rep s' e (set_l_all (without t g.(l_all)) g) -> Q tt s') -> wp (thread_list_remove t) Q s.
Proof.
  intros H HQ. unfold thread_list_remove. apply wp_bind, (wp_irq_save H). intros s1 H1. wp_steps.
  eapply wp_all_unlink; [exact H1|]. intros s2 H2. apply (wp_irq_restore H2). intros s3 H3. apply HQ. by rewrite irq_pair in H3.
Qed.

(** ** Walks over all threads *)

(** A loop that visits the threads in list order without changing the state:
    [visit] says what one round does with the thread it sees. *)
Lemma wp_all_walk {St R} s e g (body : St -> M sched (St + R)) (ptr : St -> Z) (P : list Z -> St -> Prop) Q :
  rep s e g ->
  (forall st, ptr st = 0 -> P g.(l_all) st -> wp (body st) (fun r s' => match r with inr v => Q v s' | inl _ => False end) s) ->
  (forall L1 t L2 x st, g.(l_all) = L1 ++ t :: L2 -> ptr st = t -> t <> 0 -> s.(tasks) !! t = Some x -> P L1 st ->
     wp (body st) (fun r s' => match r with
       | inr v => Q v s'
       | inl st' => s' = s /\ ptr st' = x.(t_all_next) /\ P (L1 ++ [t]) st' end) s) ->
  forall st, ptr st = s.(all_threads) -> P [] st -> wp (loop (S (size s.(tasks))) body st) Q s.
Proof.
  intros H Hnil Hcons st Hst HP. pose proof (rp_all _ _ _ H) as Hc. pose proof Hc as [Hs _].
  apply (wp_loop_list (fun L2 st s' => s' = s /\ exists L1, g.(l_all) = L1 ++ L2 /\ P L1 st /\ sll 0 (link t_all_next s.(tasks)) (ptr st) L2))
    with (L := l_all g).
  - intros st' s' (-> & L1 & EL & HP1 & E). rewrite app_nil_r in EL. subst L1. by apply Hnil.
  - intros a L2 st' s' (-> & L1 & EL & HP1 & (E & Ha0 & n & Hn & Hs2)). destruct (chain_task _ _ _ a Hc) as [_ [x Hx]]; [rewrite EL; set_solver|].
    eapply wp_mono; [by eapply (Hcons L1 a L2 x)|]. intros [st2|v] s2 HQ; [|done]. destruct HQ as (-> & Ep & HP2). split; [done|].
    exists (L1 ++ [a]). split; [by rewrite EL, <- app_assoc|]. split; [done|]. rewrite Ep. unfold link in Hn. rewrite Hx in Hn. by injection Hn as <-.
  - split; [done|]. exists []. split; [done|]. split; [done|]. by rewrite Hst.
  - pose proof (chain_fits _ _ _ Hc). lia.
Qed.
