(* ===== verification/WaitLists.v ===== *)
(** * Registrations in wait queues

    What the pointer writes of [wait_queue_prepare_locked] and
    [wait_queue_finish_locked] do to the lists of a queue and of a thread. *)

From S2P Require Import Prelude Lists Memory Slab Task Sched Wait SchedRep SchedLists.

Open Scope Z_scope.

Lemma wp_entry_upd i x f s Q :
  s.(entries) !! i = Some x -> Q tt (set_entries (<[i := f x]> s.(entries)) s) -> wp (entry_upd i f) Q s.
Proof. intros Hx HQ. eapply wp_update; [by rewrite Hx|done]. Qed.
Lemma wp_queue_upd q x f s Q :
  s.(queues) !! q = Some x -> Q tt (set_queues (<[q := f x]> s.(queues)) s) -> wp (queue_upd q f) Q s.
Proof. intros Hx HQ. eapply wp_update; [by rewrite Hx|done]. Qed.

(** An entry whose four links are written where the new values are given. *)
Definition relink (pr nx tpr tnx : option Z) (x : wait_entry) : wait_entry :=
  mkEntry x.(e_task) x.(e_queue) (default x.(e_prev) pr) (default x.(e_next) nx)
    (default x.(e_task_prev) tpr) (default x.(e_task_next) tnx).

Definition on (j i v : Z) : option Z := if decide (j = i /\ i <> 0) then Some v else None.

(** The entries after [en] was appended behind [tl] and pushed before [w]. *)
Definition registered (es es' : gmap Z wait_entry) (en task queue tl w : Z) : Prop :=
  es' !! en = Some (mkEntry task queue tl 0 0 w) /\
  forall j, j <> en -> es' !! j = relink None (on j tl en) (on j w en) None <$> es !! j.

(** The entries after [en], between [p] and [n] and between [tp] and [tn], was
    taken out. *)
Definition unregistered (es es' : gmap Z wait_entry) (en p n tp tn : Z) : Prop :=
  es' !! en = Some zero_entry /\
  forall j, j <> en -> es' !! j = relink (on j n p) (on j p n) (on j tn tp) (on j tp tn) <$> es !! j.

Lemma on_none j i v : j <> i \/ i = 0 -> on j i v = None.
Proof. intros. unfold on. apply decide_False. naive_solver. Qed.
Lemma on_some i v : i <> 0 -> on i i v = Some v.
Proof. intros. unfold on. by apply decide_True. Qed.
Lemma on_default j i v d : default d (on j i v) = if decide (j = i /\ i <> 0) then v else d.
Proof. unfold on. by case_decide. Qed.

Section waits.
Context {s e : sched} {g : lists} (H : rep s e g).

Lemma queued_entry q i : is_queue s.(queues) q -> i ∈ g.(l_queue) q -> i <> 0 /\ exists x, s.(entries) !! i = Some x.
Proof.
  intros Hq Hi. destruct (ds_heads (rp_queue _ _ _ H) q Hq) as (h & _ & Hd). split; [by eapply dll_not_null|].
  destruct (dll_elem _ _ _ _ _ _ Hd Hi) as [l E]. unfold qlinks in E. destruct (entries s !! i); [eauto|done].
Qed.
Lemma tasked_entry t i : is_task s.(tasks) t -> i ∈ g.(l_task) t -> i <> 0 /\ exists x, s.(entries) !! i = Some x.
Proof.
  intros Hq Hi. destruct (ds_heads (rp_task _ _ _ H) t Hq) as (h & _ & Hd). split; [by eapply dll_not_null|].
  destruct (dll_elem _ _ _ _ _ _ Hd Hi) as [l E]. unfold tlinks in E. destruct (entries s !! i); [eauto|done].
Qed.

Lemma task_head t x : s.(tasks) !! t = Some x -> x.(t_wait_entries) = match g.(l_task) t with [] => 0 | i :: _ => i end.
Proof.
  intros Hx. destruct (ds_heads (rp_task _ _ _ H) t ltac:(by exists x)) as (h & Eh & Hd). unfold link in Eh. rewrite Hx in Eh.
  injection Eh as <-. destruct (l_task g t); [done|]. by destruct Hd.
Qed.
Lemma queue_head q x : s.(queues) !! q = Some x -> x.(q_head) = match g.(l_queue) q with [] => 0 | i :: _ => i end.
Proof.
  intros Hx. destruct (ds_heads (rp_queue _ _ _ H) q ltac:(by exists x)) as (h & Eh & Hd). rewrite Hx in Eh.
  injection Eh as <-. destruct (l_queue g q); [done|]. by destruct Hd.
Qed.

Lemma core_registered es es' en x task queue tl w :
  es !! en = Some x -> registered es es' en task queue tl w ->
  core_entry <$> es' = alter (fun y => set_e_queue queue (set_e_task task y)) en (core_entry <$> es).
Proof.
  intros Hx [H1 H2]. apply map_eq. intros j. rewrite lookup_alter, !lookup_fmap. case_decide as E.
  - subst j. by rewrite H1, Hx.
  - rewrite H2 by done. by destruct (es !! j).
Qed.

Lemma rep_register s' en x q qr task tk :
  s.(entries) !! en = Some x -> en <> 0 -> s.(queues) !! q = Some qr -> s.(tasks) !! task = Some tk ->
  (forall k, is_queue s.(queues) k -> en ∉ g.(l_queue) k) -> (forall k, is_task s.(tasks) k -> en ∉ g.(l_task) k) ->
  registered s.(entries) s'.(entries) en task q qr.(q_tail) tk.(t_wait_entries) ->
  s' = set_tasks (<[task := set_t_wait_entries en tk]> s.(tasks))
        (set_queues (<[q := mkQueue (if qr.(q_tail) =? 0 then en else qr.(q_head)) en]> s.(queues))
          (set_entries s'.(entries) s)) ->
  rep s' (upd_entry en (fun y => set_e_queue q (set_e_task task y)) e)
    (set_l_queue (set_list g.(l_queue) q (g.(l_queue) q ++ [en])) (set_l_task (set_list g.(l_task) task (en :: g.(l_task) task)) g)).
Proof.
  intros Hx Hn0 Hq Ht Hfq Hft Hreg Es. pose proof H as [H1 H2 H3 H4 H5 H6 H7 H8].
  assert (Ets : tasks s' = <[task := set_t_wait_entries en tk]> (tasks s)) by (by rewrite Es).
  assert (Eqs : queues s' = <[q := mkQueue (if q_tail qr =? 0 then en else q_head qr) en]> (queues s)) by (by rewrite Es).
  assert (Hl : forall fld : thread -> Z, (forall v y, fld (set_t_wait_entries v y) = fld y) -> forall i, link fld (tasks s') i = link fld (tasks s) i).
  { intros fld Hf i. rewrite Ets. by eapply link_insert_same. }
  assert (Etl : q_tail qr = List.last (l_queue g q) 0) by (by apply H7).
  pose proof Hreg as [Hr1 Hr2].
  constructor; sched_simpl.
  - rewrite Es, erase_set_tasks, erase_set_queues, erase_set_entries, (core_registered _ _ _ _ _ _ _ _ Hx Hreg).
    erewrite core_insert; [|exact Ht|done]. rewrite fmap_insert, (insert_id (core_queue <$> queues s)); [|by rewrite lookup_fmap, Hq].
    rewrite <- H1. done.
  - rewrite Es. sched_simpl. rewrite <- Ets. eapply chain_ext; [|exact H2]. intros. by apply Hl.
  - rewrite Es. sched_simpl. rewrite <- Ets. eapply chain_ext; [|exact H3]. intros. by apply Hl.
  - by rewrite Es.
  - rewrite Es. sched_simpl. rewrite <- Ets. eapply chain_ext; [|exact H5]. intros. by apply Hl.
  - eapply dlls_ok; [|eapply (dlls_snoc 0 (is_queue (queues s)) (qlinks (entries s))); [exact H6|by exists qr|done|done|..]].
    + intros k. unfold is_queue. rewrite Eqs, lookup_insert. case_decide; [subst; rewrite Hq; naive_solver|done].
    + unfold qlinks. rewrite Hr1. cbn. by rewrite Etl.
    + intros j pj nj Hj. unfold qlinks. rewrite Hr2 by done. destruct (entries s !! j) as [y|]; [|done]. intros [= <- <-]. cbn.
      rewrite on_default, Etl. do 2 f_equal. repeat case_decide; naive_solver.
    + intros h. cbn beta. rewrite Hq, Eqs, lookup_insert_eq. intros [= <-]. cbn. f_equal. rewrite Etl. destruct (l_queue g q) eqn:El; [done|].
      destruct (Z.eqb_spec (List.last (z :: l) 0) 0) as [E|]; [|done]. exfalso.
      eapply (queued_entry q 0); [by exists qr| |done]. rewrite El, <- E at 1. by apply last_elem.
    + intros k _ Hk. cbn beta. by rewrite Eqs, lookup_insert_ne.
  - intros k y. rewrite Eqs, lookup_insert. case_decide as Ek.
    + subst k. intros [= <-]. cbn. by rewrite set_list_eq, last_last.
    + intros Hy. rewrite set_list_ne by done. by apply H7.
  - eapply dlls_ok; [intros k; rewrite Ets; by apply is_task_upd|].
    eapply (dlls_push 0 (is_task (tasks s)) (tlinks (entries s))); [exact H8|by exists tk|unfold link; by rewrite Ht|done|done|..].
    + unfold tlinks. by rewrite Hr1.
    + intros p n Hw. assert (Hwe : t_wait_entries tk <> en).
      { intros E. apply (Hft task ltac:(by exists tk)). pose proof (task_head task tk Ht) as Eh. rewrite Eh in E, Hw.
        destruct (l_task g task); [done|]. subst. set_solver. }
      unfold tlinks. rewrite Hr2 by done. destruct (entries s !! t_wait_entries tk) as [y|]; [|done]. intros [= <- <-]. cbn. rewrite on_default. by rewrite decide_True.
    + intros j Hj Hjw. unfold tlinks. rewrite Hr2 by done. destruct (entries s !! j) as [y|]; [|done]. cbn. rewrite on_default.
      rewrite decide_False; [done|naive_solver].
    + rewrite Ets, link_insert. by rewrite decide_True.
    + intros k _ Hk. rewrite Ets, link_insert. by rewrite decide_False.
Qed.

Lemma core_unregistered es es' en x p n tp tn :
  es !! en = Some x -> unregistered es es' en p n tp tn ->
  core_entry <$> es' = alter (fun _ => zero_entry) en (core_entry <$> es).
Proof.
  intros Hx [H1 H2]. apply map_eq. intros j. rewrite lookup_alter, !lookup_fmap. case_decide as E.
  - subst j. by rewrite H1, Hx.
  - rewrite H2 by done. by destruct (es !! j).
Qed.

Lemma rep_unregister s' en x q qr task tk :
  s.(entries) !! en = Some x -> s.(queues) !! q = Some qr -> s.(tasks) !! task = Some tk ->
  en ∈ g.(l_queue) q -> en ∈ g.(l_task) task ->
  unregistered s.(entries) s'.(entries) en x.(e_prev) x.(e_next) x.(e_task_prev) x.(e_task_next) ->
  s' = set_tasks (<[task := set_t_wait_entries (if x.(e_task_prev) =? 0 then x.(e_task_next) else tk.(t_wait_entries)) tk]> s.(tasks))
        (set_queues (<[q := mkQueue (if x.(e_prev) =? 0 then x.(e_next) else qr.(q_head)) (if x.(e_next) =? 0 then x.(e_prev) else qr.(q_tail))]> s.(queues))
          (set_entries s'.(entries) s)) ->
  rep s' (upd_entry en (fun _ => zero_entry) e)
    (set_l_queue (set_list g.(l_queue) q (without en (g.(l_queue) q))) (set_l_task (set_list g.(l_task) task (without en (g.(l_task) task))) g)).
Proof.
  intros Hx Hq Ht Hinq Hint Hreg Es. pose proof H as [H1 H2 H3 H4 H5 H6 H7 H8].
  set (tk' := set_t_wait_entries _ tk) in Es. set (qr' := mkQueue _ _) in Es.
  assert (Ets : tasks s' = <[task := tk']> (tasks s)) by (by rewrite Es).
  assert (Eqs : queues s' = <[q := qr']> (queues s)) by (by rewrite Es).
  assert (Hl : forall fld : thread -> Z, (forall v y, fld (set_t_wait_entries v y) = fld y) -> forall i, link fld (tasks s') i = link fld (tasks s) i).
  { intros fld Hf i. rewrite Ets. eapply link_insert_same; [exact Ht|apply Hf]. }
  assert (Hiq : is_queue (queues s) q) by (by exists qr). assert (Hit : is_task (tasks s) task) by (by exists tk).
  pose proof (ds_nodup H6 q Hiq) as Hndq. pose proof (ds_nodup H8 task Hit) as Hndt.
  apply list_elem_of_split in Hinq as (L1 & L2 & EL). apply list_elem_of_split in Hint as (M1 & M2 & EM).
  assert (Hql : qlinks (entries s) en = Some (e_prev x, e_next x)) by (unfold qlinks; by rewrite Hx).
  assert (Htl : tlinks (entries s) en = Some (e_task_prev x, e_task_next x)) by (unfold tlinks; by rewrite Hx).
  assert (EwL : without en (l_queue g q) = L1 ++ L2) by (rewrite EL in Hndq |- *; by apply without_split).
  assert (EwM : without en (l_task g task) = M1 ++ M2) by (rewrite EM in Hndt |- *; by apply without_split).
  pose proof Hreg as [Hr1 Hr2]. rewrite EwL, EwM. constructor; sched_simpl.
  - rewrite Es, erase_set_tasks, erase_set_queues, erase_set_entries, (core_unregistered _ _ _ _ _ _ _ _ Hx Hreg).
    erewrite core_insert; [|exact Ht|done]. rewrite fmap_insert, (insert_id (core_queue <$> queues s)); [|by rewrite lookup_fmap, Hq].
    rewrite <- H1. done.
  - rewrite Es. sched_simpl. rewrite <- Ets. eapply chain_ext; [|exact H2]. intros. by apply Hl.
  - rewrite Es. sched_simpl. rewrite <- Ets. eapply chain_ext; [|exact H3]. intros. by apply Hl.
  - by rewrite Es.
  - rewrite Es. sched_simpl. rewrite <- Ets. eapply chain_ext; [|exact H5]. intros. by apply Hl.
  - eapply dlls_ok; [|eapply (dlls_unlink 0 (is_queue (queues s)) (qlinks (entries s))); [exact H6|done|exact EL|exact Hql|..]].
    + intros k. unfold is_queue. rewrite Eqs, lookup_insert. case_decide; [subst; rewrite Hq; naive_solver|done].
    + intros j pj nj Hj Hj0. unfold qlinks. rewrite Hr2 by done. destruct (entries s !! j) as [y|]; [|done]. intros [= <- <-]. cbn.
      rewrite !on_default. f_equal. f_equal.
      * case_decide; destruct (Z.eqb_spec j (e_next x)); naive_solver.
      * case_decide; destruct (Z.eqb_spec j (e_prev x)); naive_solver.
    + cbn beta. by rewrite Hq.
    + cbn beta. by rewrite Eqs, lookup_insert_eq.
    + intros k _ Hk. cbn beta. by rewrite Eqs, lookup_insert_ne.
  - intros k y. rewrite Eqs, lookup_insert. case_decide as Ek.
    + subst k. intros [= <-]. unfold qr'. cbn. rewrite set_list_eq, (H7 q qr Hq).
      symmetry. by eapply (dlls_last 0 (is_queue (queues s)) (qlinks (entries s))).
    + intros Hy. rewrite set_list_ne by done. by apply H7.
  - eapply dlls_ok; [intros k; rewrite Ets; unfold tk'; by apply (is_task_upd (set_t_wait_entries _))|].
    eapply (dlls_unlink 0 (is_task (tasks s)) (tlinks (entries s))); [exact H8|done|exact EM|exact Htl|..].
    + intros j pj nj Hj Hj0. unfold tlinks. rewrite Hr2 by done. destruct (entries s !! j) as [y|]; [|done]. intros [= <- <-]. cbn.
      rewrite !on_default. f_equal. f_equal.
      * case_decide; destruct (Z.eqb_spec j (e_task_next x)); naive_solver.
      * case_decide; destruct (Z.eqb_spec j (e_task_prev x)); naive_solver.
    + unfold link. by rewrite Ht.
    + rewrite Ets, link_insert. by rewrite decide_True.
    + intros k _ Hk. rewrite Ets, link_insert. by rewrite decide_False.
Qed.

Lemma wp_link_entry en q task Q :
  is_queue e.(queues) q -> is_task e.(tasks) task -> is_Some (e.(entries) !! en) -> en <> 0 ->
  (forall k, is_queue e.(queues) k -> en ∉ g.(l_queue) k) -> (forall k, is_task e.(tasks) k -> en ∉ g.(l_task) k) ->
  (forall s', rep s' (upd_entry en (fun y => set_e_queue q (set_e_task task y)) e)
    (set_l_queue (set_list g.(l_queue) q (g.(l_queue) q ++ [en])) (set_l_task (set_list g.(l_task) task (en :: g.(l_task) task)) g)) -> Q tt s') ->
  wp (link_entry q en task) Q s.
Proof.
  intros Hq%(rep_is_queue H) Ht%(rep_is_task H) [x0 He] Hn0 Hfq Hft HQ.
  destruct Hq as [qr Hq]. destruct Ht as [tk Ht]. destruct (rep_entry H en x0 He) as (x & Hx & _).
  assert (Hq' : is_queue (queues s) q) by (by exists qr). assert (Ht' : is_task (tasks s) task) by (by exists tk).
  assert (Hfq' : forall k, is_queue (queues s) k -> en ∉ l_queue g k) by (intros k Hk; apply Hfq; by apply (rep_is_queue H)).
  assert (Hft' : forall k, is_task (tasks s) k -> en ∉ l_task g k) by (intros k Hk; apply Hft; by apply (rep_is_task H)).
  pose proof (rp_qtail _ _ _ H q qr Hq) as Etl. pose proof (task_head task tk Ht) as Ew.
  assert (Htl : q_tail qr <> 0 -> q_tail qr <> en /\ exists y, entries s !! q_tail qr = Some y).
  { intros Hne. assert (Hin : q_tail qr ∈ l_queue g q) by (rewrite Etl in Hne |- *; apply last_elem; intros E; by rewrite E in Hne).
    split; [intros E; apply (Hfq' q Hq'); by rewrite <- E|by apply (queued_entry q)]. }
  assert (Hw : t_wait_entries tk <> 0 -> t_wait_entries tk <> en /\ exists y, entries s !! t_wait_entries tk = Some y).
  { intros Hne. assert (Hin : t_wait_entries tk ∈ l_task g task) by (rewrite Ew in Hne |- *; destruct (l_task g task); [done|set_solver]).
    split; [intros E; apply (Hft' task Ht'); by rewrite <- E|by apply (tasked_entry task)]. }
  unfold link_entry.
  apply wp_bind. eapply wp_entry_upd; [exact Hx|]. apply wp_bind. eapply wp_entry_upd; [sched_simpl; apply lookup_insert_eq|]. sched_simpl.
  apply wp_bind. eapply wp_access; [exact Hq|].
  apply wp_bind. eapply wp_entry_upd; [sched_simpl; apply lookup_insert_eq|]. apply wp_bind. eapply wp_entry_upd; [sched_simpl; apply lookup_insert_eq|].
  sched_simpl. rewrite !insert_insert_eq. sched_simpl.
  (* the queue side *)
  set (x1 := mkEntry task q (q_tail qr) 0 (e_task_prev x) (e_task_next x)). apply wp_bind.
  assert (Hrest : forall es1 qh, es1 !! en = Some x1 -> (forall j, j <> en -> es1 !! j = relink None (on j (q_tail qr) en) None None <$> entries s !! j) ->
    qh = (if q_tail qr =? 0 then en else q_head qr) ->
    wp (queue_upd q (set_q_tail en) ;; entry_upd en (set_e_task_prev 0) ;; x ← task_get task; entry_upd en (set_e_task_next (t_wait_entries x)) ;;
        when (negb (t_wait_entries x =? 0)) (entry_upd (t_wait_entries x) (set_e_task_prev en)) ;; task_upd task (set_t_wait_entries en)) Q
      (set_queues (<[q := mkQueue qh (q_tail qr)]> (queues s)) (set_entries es1 s))).
  { intros es1 qh E1 E2 Eqh. apply wp_bind. eapply wp_queue_upd; [sched_simpl; apply lookup_insert_eq|]. sched_simpl. rewrite insert_insert_eq.
    apply wp_bind. eapply wp_entry_upd; [exact E1|]. apply wp_bind. eapply wp_access; [exact Ht|].
    apply wp_bind. eapply wp_entry_upd; [sched_simpl; apply lookup_insert_eq|]. sched_simpl. rewrite insert_insert_eq. apply wp_bind.
    assert (Hfin : forall es2, registered (entries s) es2 en task q (q_tail qr) (t_wait_entries tk) ->
      wp (task_upd task (set_t_wait_entries en)) Q (set_queues (<[q := mkQueue qh en]> (queues s)) (set_entries es2 s))).
    { intros es2 Hreg. eapply wp_task_upd; [exact Ht|]. apply HQ. rewrite Eqh. by eapply (rep_register _ en x q qr task tk). }
    apply wp_when; intros Ew0.
    - apply negb_true_iff, Z.eqb_neq in Ew0. destruct (Hw Ew0) as [Hwe [y Hy]].
      eapply wp_entry_upd; [sched_simpl; rewrite lookup_insert_ne by done; rewrite E2 by done; by rewrite Hy|].
      apply (Hfin (<[t_wait_entries tk := set_e_task_prev en (relink None (on (t_wait_entries tk) (q_tail qr) en) None None y)]>
        (<[en := mkEntry task q (q_tail qr) 0 0 (t_wait_entries tk)]> es1))). split.
      + rewrite lookup_insert_ne by done. by rewrite lookup_insert_eq.
      + intros j Hj. rewrite lookup_insert. case_decide as Ej.
        * subst j. rewrite Hy. by rewrite (on_some (t_wait_entries tk)).
        * rewrite lookup_insert_ne by done. rewrite E2 by done. by rewrite (on_none j (t_wait_entries tk)) by naive_solver.
    - apply negb_false_iff, Z.eqb_eq in Ew0. apply (Hfin (<[en := mkEntry task q (q_tail qr) 0 0 (t_wait_entries tk)]> es1)). split; [by rewrite lookup_insert_eq|].
      intros j Hj. rewrite lookup_insert_ne by done. rewrite E2 by done. by rewrite (on_none j (t_wait_entries tk)) by naive_solver. }
  destruct (Z.eqb_spec (q_tail qr) 0) as [E0|E0]; cbn [negb].
  - eapply wp_queue_upd; [exact Hq|]. apply (Hrest (<[en := x1]> (entries s)) en); [apply lookup_insert_eq| |done].
    intros j Hj. rewrite lookup_insert_ne by done. rewrite on_none by naive_solver. destruct (entries s !! j) as [[]|]; done.
  - destruct (Htl E0) as [Hte [y Hy]]. eapply wp_entry_upd; [sched_simpl; rewrite lookup_insert_ne by done; exact Hy|].
    set (es1 := <[q_tail qr := set_e_next en y]> (<[en := x1]> (entries s))). assert (Hself : queues s = <[q := mkQueue (q_head qr) (q_tail qr)]> (queues s)).
    { symmetry. apply insert_id. rewrite Hq. by destruct qr. }
    specialize (Hrest es1 (q_head qr)). rewrite <- Hself in Hrest.
    apply Hrest; [unfold es1; rewrite lookup_insert_ne by done; apply lookup_insert_eq| |done].
    intros j Hj. unfold es1. rewrite lookup_insert. case_decide as Ej.
    + subst j. rewrite Hy. by rewrite on_some.
    + rewrite lookup_insert_ne by done. rewrite on_none by naive_solver. destruct (entries s !! j) as [[]|]; done.
Qed.

(** *** Taking an entry out *)

(** The state with other entries, another queue [q] and another thread [task]. *)
Definition with_waits (q task : Z) (es : gmap Z wait_entry) (qr : wait_queue) (tk : thread) : sched :=
  set_tasks (<[task := tk]> s.(tasks)) (set_queues (<[q := qr]> s.(queues)) (set_entries es s)).

Lemma with_waits_id q task qr tk :
  s.(queues) !! q = Some qr -> s.(tasks) !! task = Some tk -> with_waits q task s.(entries) qr tk = s.
Proof. intros Hq Ht. unfold with_waits. rewrite !insert_id by done. by destruct s. Qed.

Lemma wp_waits_queue q task es qr tk f Q :
  Q tt (with_waits q task es (f qr) tk) -> wp (queue_upd q f) Q (with_waits q task es qr tk).
Proof.
  intros HQ. eapply wp_queue_upd; [sched_simpl; apply lookup_insert_eq|]. unfold with_waits in *. sched_simpl.
  rewrite insert_insert_eq. exact HQ.
Qed.

Lemma wp_waits_task q task es qr tk f Q :
  Q tt (with_waits q task es qr (f tk)) -> wp (task_upd task f) Q (with_waits q task es qr tk).
Proof.
  intros HQ. eapply wp_task_upd; [sched_simpl; apply lookup_insert_eq|]. unfold with_waits in *. sched_simpl.
  rewrite insert_insert_eq. exact HQ.
Qed.

Lemma wp_waits_entry q task es qr tk i x f Q :
  es !! i = Some x -> Q tt (with_waits q task (<[i := f x]> es) qr tk) -> wp (entry_upd i f) Q (with_waits q task es qr tk).
Proof. intros Hx HQ. eapply wp_entry_upd; [exact Hx|]. exact HQ. Qed.

(** The write to a neighbour, if there is one. *)
Lemma wp_neighbour q task (es es1 : gmap Z wait_entry) qr tk i f (F G : Z -> wait_entry -> wait_entry) alt Q :
  (forall j, es1 !! j = F j <$> es !! j) -> (i <> 0 -> is_Some (es !! i)) ->
  (forall x, i <> 0 -> G i x = f (F i x)) -> (forall j x, j <> i \/ i = 0 -> G j x = F j x) ->
  (forall es2 : gmap Z wait_entry, (forall j, es2 !! j = G j <$> es !! j) ->
     if i =? 0 then wp alt Q (with_waits q task es2 qr tk) else Q tt (with_waits q task es2 qr tk)) ->
  wp (if negb (i =? 0) then entry_upd i f else alt) Q (with_waits q task es1 qr tk).
Proof.
  intros HF Hi HG HGo HQ. destruct (Z.eqb_spec i 0) as [E0|E0]; cbn [negb].
  - apply HQ. intros j. rewrite HF. destruct (es !! j) as [x|]; [|done]. cbn. f_equal. symmetry. apply HGo. by right.
  - destruct (Hi E0) as [x Hx]. eapply wp_waits_entry; [by rewrite HF, Hx|]. apply HQ. intros j. rewrite lookup_insert.
    case_decide as Ej; [subst j; rewrite Hx; cbn; f_equal; symmetry; by apply HG|].
    rewrite HF. destruct (es !! j) as [y|]; [|done]. cbn. f_equal. symmetry. apply HGo. left. by intros ->.
Qed.

(** With nothing in front (behind), the head (tail) of the queue or of the
    thread's list is written instead. *)
Section neighbour.
Context (q task : Z) (es es1 : gmap Z wait_entry) (qr : wait_queue) (tk : thread) (i : Z) (f : wait_entry -> wait_entry).
Context (F G : Z -> wait_entry -> wait_entry) (Q : unit -> sched -> Prop).
Context (HF : forall j, es1 !! j = F j <$> es !! j) (Hi : i <> 0 -> is_Some (es !! i)).
Context (HG : forall x, i <> 0 -> G i x = f (F i x)) (HGo : forall j x, j <> i \/ i = 0 -> G j x = F j x).

Lemma wp_neighbour_queue h :
  (forall es2 : gmap Z wait_entry, (forall j, es2 !! j = G j <$> es !! j) -> Q tt (with_waits q task es2 (if i =? 0 then h qr else qr) tk)) ->
  wp (if negb (i =? 0) then entry_upd i f else queue_upd q h) Q (with_waits q task es1 qr tk).
Proof.
  intros HQ. eapply wp_neighbour; [exact HF|exact Hi|exact HG|exact HGo|]. intros es2 E2. specialize (HQ es2 E2).
  destruct (i =? 0); [by apply wp_waits_queue|done].
Qed.

Lemma wp_neighbour_task h :
  (forall es2 : gmap Z wait_entry, (forall j, es2 !! j = G j <$> es !! j) -> Q tt (with_waits q task es2 qr (if i =? 0 then h tk else tk))) ->
  wp (if negb (i =? 0) then entry_upd i f else task_upd task h) Q (with_waits q task es1 qr tk).
Proof.
  intros HQ. eapply wp_neighbour; [exact HF|exact Hi|exact HG|exact HGo|]. intros es2 E2. specialize (HQ es2 E2).
  destruct (i =? 0); [by apply wp_waits_task|done].
Qed.

Lemma wp_neighbour_when :
  (forall es2 : gmap Z wait_entry, (forall j, es2 !! j = G j <$> es !! j) -> Q tt (with_waits q task es2 qr tk)) ->
  wp (when (negb (i =? 0)) (entry_upd i f)) Q (with_waits q task es1 qr tk).
Proof.
  intros HQ. unfold when. eapply wp_neighbour; [exact HF|exact Hi|exact HG|exact HGo|]. intros es2 E2. specialize (HQ es2 E2).
  destruct (i =? 0); [by apply wp_ret|done].
Qed.
End neighbour.

Lemma neighbours_exist en x q task :
  s.(entries) !! en = Some x -> is_queue s.(queues) q -> is_task s.(tasks) task -> en ∈ g.(l_queue) q -> en ∈ g.(l_task) task ->
  (x.(e_prev) <> 0 -> x.(e_prev) <> en /\ is_Some (s.(entries) !! x.(e_prev))) /\
  (x.(e_next) <> 0 -> x.(e_next) <> en /\ x.(e_next) <> x.(e_prev) /\ is_Some (s.(entries) !! x.(e_next))) /\
  (x.(e_task_prev) <> 0 -> x.(e_task_prev) <> en /\ is_Some (s.(entries) !! x.(e_task_prev))) /\
  (x.(e_task_next) <> 0 -> x.(e_task_next) <> en /\ x.(e_task_next) <> x.(e_task_prev) /\ is_Some (s.(entries) !! x.(e_task_next))).
Proof.
  intros Hx Hq Ht Hinq Hint.
  destruct (dlls_neighbours 0 _ _ _ _ q en (e_prev x) (e_next x) (rp_queue _ _ _ H) Hq Hinq ltac:(unfold qlinks; by rewrite Hx)) as [N1 N2].
  destruct (dlls_neighbours 0 _ _ _ _ task en (e_task_prev x) (e_task_next x) (rp_task _ _ _ H) Ht Hint ltac:(unfold tlinks; by rewrite Hx)) as [N3 N4].
  split_and!; intros Hne.
  - destruct N1 as [[? _]|(_ & Hin & ?)]; [done|]. split; [done|]. by destruct (queued_entry q _ Hq Hin) as [_ [y ->]].
  - destruct N2 as [?|(_ & Hin & ? & ?)]; [done|]. split; [done|]. split; [done|]. by destruct (queued_entry q _ Hq Hin) as [_ [y ->]].
  - destruct N3 as [[? _]|(_ & Hin & ?)]; [done|]. split; [done|]. by destruct (tasked_entry task _ Ht Hin) as [_ [y ->]].
  - destruct N4 as [?|(_ & Hin & ? & ?)]; [done|]. split; [done|]. split; [done|]. by destruct (tasked_entry task _ Ht Hin) as [_ [y ->]].
Qed.

(** The six writes that clear the entry itself. *)
Lemma wp_clear_entry q task es qr tk en x Q :
  es !! en = Some x -> Q tt (with_waits q task (<[en := zero_entry]> es) qr tk) ->
  wp (entry_upd en (set_e_task 0) ;; entry_upd en (set_e_queue 0) ;; entry_upd en (set_e_prev 0) ;; entry_upd en (set_e_next 0) ;;
      entry_upd en (set_e_task_prev 0) ;; entry_upd en (set_e_task_next 0)) Q (with_waits q task es qr tk).
Proof.
  intros Hx HQ. apply wp_bind. eapply wp_waits_entry; [exact Hx|].
  do 4 (apply wp_bind; eapply wp_waits_entry; [apply lookup_insert_eq|]). eapply wp_waits_entry; [apply lookup_insert_eq|].
  rewrite !insert_insert_eq. exact HQ.
Qed.

Lemma wp_unlink_entry en x Q :
  s.(entries) !! en = Some x -> is_queue s.(queues) x.(e_queue) -> is_task s.(tasks) x.(e_task) ->
  en ∈ g.(l_queue) x.(e_queue) -> en ∈ g.(l_task) x.(e_task) ->
  (forall s', rep s' (upd_entry en (fun _ => zero_entry) e)
    (set_l_queue (set_list g.(l_queue) x.(e_queue) (without en (g.(l_queue) x.(e_queue))))
      (set_l_task (set_list g.(l_task) x.(e_task) (without en (g.(l_task) x.(e_task)))) g)) -> Q tt s') ->
  wp (unlink_entry en x) Q s.
Proof.
  intros Hx Hq Ht Hinq Hint HQ. destruct (neighbours_exist en x _ _ Hx Hq Ht Hinq Hint) as (N1 & N2 & N3 & N4).
  destruct Hq as [qr Hq]. destruct Ht as [tk Ht]. rewrite <- (with_waits_id _ _ qr tk Hq Ht). unfold unlink_entry.
  set (p := e_prev x) in *. set (n := e_next x) in *. set (tp := e_task_prev x) in *. set (tn := e_task_next x) in *.
  apply wp_bind. eapply (wp_neighbour_queue _ _ (entries s) _ _ _ p _ (fun _ => relink None None None None) (fun j => relink None (on j p n) None None));
    [intros j; by destruct (entries s !! j) as [[]|]|naive_solver|intros; by rewrite on_some|intros; by rewrite on_none|].
  intros es1 E1. apply wp_bind. eapply (wp_neighbour_queue _ _ (entries s) _ _ _ n _ _ (fun j => relink (on j n p) (on j p n) None None));
    [exact E1|naive_solver|intros; cbn beta; rewrite on_some by done; done|intros; cbn beta; by rewrite (on_none j n)|].
  intros es2 E2. apply wp_bind. eapply (wp_neighbour_task _ _ (entries s) _ _ _ tp _ _ (fun j => relink (on j n p) (on j p n) None (on j tp tn)));
    [exact E2|naive_solver|intros; cbn beta; rewrite (on_some tp) by done; done|intros; cbn beta; by rewrite (on_none j tp)|].
  intros es3 E3. apply wp_bind.
  eapply (wp_neighbour_when _ _ (entries s) _ _ _ tn _ _ (fun j => relink (on j n p) (on j p n) (on j tn tp) (on j tp tn)));
    [exact E3|naive_solver|intros; cbn beta; rewrite (on_some tn) by done; done|intros; cbn beta; by rewrite (on_none j tn)|].
  intros es4 E4.
  eapply wp_clear_entry; [by rewrite E4, Hx|]. apply HQ. eapply (rep_unregister _ en x _ qr _ tk); try done.
  2: { fold p n tp tn. unfold with_waits. sched_simpl. do 2 f_equal; destruct (p =? 0), (n =? 0), (tp =? 0), qr, tk; reflexivity. }
  unfold with_waits. sched_simpl. split; [apply lookup_insert_eq|]. intros j Hj. rewrite lookup_insert_ne by done. apply E4.
Qed.

End waits.
