(* ===== verification/ThreadInv.v ===== *)
(** * The invariant of threads, scheduler and wait queues

    Four groups of facts about a state without links [e] and its lists [g]: the
    state of each thread agrees with the lists it is on; registrations agree with
    the entries; thread ids are distinct; every thread owns its control block and
    stacks in the heap. *)

From S2P Require Import Prelude Lists Memory Slab Task Sched Wait Thread HeapIface SchedRep SchedLists.

Open Scope Z_scope.

(** ** Thread states *)

(** Where a thread that is not running goes on: in [schedule], which left its
    interrupt status on the stack, or at the start. *)
Definition ctx_ok (e : sched) (t : Z) (x : thread) : Prop :=
  (x.(t_context).(c_ra) = c_schedule_resume /\ is_Some (e.(frames) !! t)) \/
  (x.(t_context).(c_ra) = c_thread_bootstrap /\ t <> e.(boot_idle_thread)).

Record thread_ok (e : sched) (g : lists) (t : Z) (x : thread) : Prop := {
  to_all : t ∈ g.(l_all) <-> x.(t_state) <> THREAD_NEW;
  to_run : t ∈ g.(l_run) <-> x.(t_state) = THREAD_RUNNABLE /\ t <> e.(boot_idle_thread);
  to_zombie : t ∈ g.(l_zombies) <-> x.(t_state) = THREAD_ZOMBIE;
  to_idle : x.(t_is_idle) = if decide (t = e.(boot_idle_thread)) then 1 else 0;
  to_cur : t = e.(tp) -> x.(t_state) = THREAD_RUNNING \/ x.(t_state) = THREAD_WAITING \/ x.(t_state) = THREAD_ZOMBIE;
  to_running : x.(t_state) = THREAD_RUNNING -> t = e.(tp);
  to_boot : t = e.(boot_idle_thread) -> x.(t_state) = THREAD_RUNNING \/ x.(t_state) = THREAD_RUNNABLE;
  to_waiting : x.(t_state) = THREAD_WAITING -> g.(l_task) t <> [];
  to_unwaiting : x.(t_state) = THREAD_ZOMBIE \/ x.(t_state) = THREAD_NEW \/ t = e.(boot_idle_thread) -> g.(l_task) t = [];
  to_entry : x.(t_state) <> THREAD_NEW -> t <> e.(boot_idle_thread) -> x.(t_entry) <> c_null;
  to_ctx : t <> e.(tp) -> ctx_ok e t x;
}.

Record state_inv (e : sched) (g : lists) : Prop := {
  si_started : e.(threading_started) <> 0;
  si_cur : e.(tp) ∈ g.(l_all);
  si_boot : e.(boot_idle_thread) ∈ g.(l_all);
  si_threads : forall t x, e.(tasks) !! t = Some x -> thread_ok e g t x;
}.

(** A thread that an operation does not touch. *)
Lemma thread_ok_same e e' g g' t x :
  thread_ok e g t x -> e'.(boot_idle_thread) = e.(boot_idle_thread) -> e'.(tp) = e.(tp) -> e'.(frames) = e.(frames) ->
  (t ∈ g'.(l_all) <-> t ∈ g.(l_all)) -> (t ∈ g'.(l_run) <-> t ∈ g.(l_run)) -> (t ∈ g'.(l_zombies) <-> t ∈ g.(l_zombies)) ->
  g'.(l_task) t = g.(l_task) t -> thread_ok e' g' t x.
Proof.
  intros [B1 B2 B3 B4 B5 B6 B7 B8 B9 B10 B11] Eb Et Ef E1 E2 E3 E4.
  constructor; rewrite ?Eb, ?Et, ?E1, ?E2, ?E3, ?E4; try done. unfold ctx_ok in *. by rewrite Eb, Ef.
Qed.

(** ** Registrations *)

Definition in_stack (x : thread) (a : Z) : Prop := x.(t_kstack_base) <= a < x.(t_kstack_base) + THREAD_STACK_SIZE.

Record wait_inv (e : sched) (g : lists) : Prop := {
  wi_null : e.(tasks) !! 0 = None /\ e.(queues) !! 0 = None;
  wi_queue : forall q i, is_queue e.(queues) q -> i ∈ g.(l_queue) q <-> exists y, e.(entries) !! i = Some y /\ y.(e_queue) = q;
  wi_task : forall t i, is_task e.(tasks) t -> i ∈ g.(l_task) t <-> exists y, e.(entries) !! i = Some y /\ y.(e_task) = t;
  wi_entry : forall i y, e.(entries) !! i = Some y ->
    (y.(e_task) = 0 /\ y.(e_queue) = 0) \/
    (is_queue e.(queues) y.(e_queue) /\ exists x, e.(tasks) !! y.(e_task) = Some x /\ in_stack x i);
}.

(** ** Identities *)

Record ids_inv (e : sched) : Prop := {
  id_next : 1 <= e.(next_tid) <= 2 ^ 31;
  id_boot : forall x, e.(tasks) !! e.(boot_idle_thread) = Some x -> x.(t_tid) = 0;
  id_range : forall t x, e.(tasks) !! t = Some x -> t <> e.(boot_idle_thread) -> 0 < x.(t_tid) < e.(next_tid);
  id_inj : forall t x t' x', e.(tasks) !! t = Some x -> e.(tasks) !! t' = Some x' -> x.(t_tid) = x'.(t_tid) -> t = t';
}.

(** ** Memory *)

(** The heap ranges of a thread. *)
Inductive slot := sl_tcb | sl_kstack | sl_ustack.

Definition slot_addr (t : Z) (x : thread) (sl : slot) : option Z :=
  match sl with
  | sl_tcb => Some t
  | sl_kstack => Some x.(t_kstack_base)
  | sl_ustack => if decide (x.(t_kind) = THREAD_USER) then Some x.(t_user_stack_base) else None
  end.
Definition slot_size (x : thread) (sl : slot) : Z :=
  match sl with
  | sl_tcb => SIZEOF_THREAD
  | sl_kstack => THREAD_STACK_SIZE
  | sl_ustack => x.(t_user_stack_top) - x.(t_user_stack_base)
  end.

Section inv.
Context {hok : slabs -> Prop} {owned : slabs -> Z -> Z -> Prop} {static : slabs -> Z -> Prop}.
Context `{HL : !HeapLaws hok owned static}.

Record mem_inv (e : sched) : Prop := {
  mi_heap : hok e.(heap);
  mi_boot : static e.(heap) e.(boot_idle_thread);
  mi_kind : forall x, e.(tasks) !! e.(boot_idle_thread) = Some x -> x.(t_kind) = THREAD_KERNEL;
  mi_owned : forall t x sl a, e.(tasks) !! t = Some x -> t <> e.(boot_idle_thread) -> slot_addr t x sl = Some a ->
    exists z, owned e.(heap) a z /\ slot_size x sl <= z;
  mi_inj : forall t x sl t' x' sl' a, e.(tasks) !! t = Some x -> t <> e.(boot_idle_thread) -> slot_addr t x sl = Some a ->
    e.(tasks) !! t' = Some x' -> t' <> e.(boot_idle_thread) -> slot_addr t' x' sl' = Some a -> t = t' /\ sl = sl';
  mi_top : forall t x, e.(tasks) !! t = Some x -> t <> e.(boot_idle_thread) -> x.(t_kstack_top) = x.(t_kstack_base) + THREAD_STACK_SIZE;
  mi_tc : forall t x, e.(tasks) !! t = Some x -> x.(t_kind) = THREAD_USER ->
    x.(t_tc) = x.(t_kstack_top) - TRAP_CONTEXT_ALLOC_SIZE /\ is_Some (e.(tcs) !! x.(t_tc));
}.

Record inv (e : sched) (g : lists) : Prop := {
  iv_state : state_inv e g;
  iv_wait : wait_inv e g;
  iv_ids : ids_inv e;
  iv_mem : mem_inv e;
}.

(** The scheduler is in a good state. *)
Definition sched_inv (s e : sched) (g : lists) : Prop := rep s e g /\ inv e g.

(** ** What each group depends on *)

Definition same_view {A} (f : thread -> A) (e e' : sched) : Prop := forall t, f <$> e'.(tasks) !! t = f <$> e.(tasks) !! t.

Lemma same_view_get {A} (f : thread -> A) e e' t x' :
  same_view f e e' -> e'.(tasks) !! t = Some x' -> exists x, e.(tasks) !! t = Some x /\ f x' = f x.
Proof. intros Hv Hx. specialize (Hv t). rewrite Hx in Hv. destruct (tasks e !! t) as [x|]; [|done]. cbn in Hv. injection Hv as E. eauto. Qed.

Lemma same_view_refl {A} (f : thread -> A) e e' : e'.(tasks) = e.(tasks) -> same_view f e e'.
Proof. intros E t. by rewrite E. Qed.

Lemma same_view_upd {A} (f : thread -> A) t h e e' :
  (forall x, f (h x) = f x) -> e'.(tasks) = alter h t e.(tasks) -> same_view f e e'.
Proof. intros Hf E i. rewrite E, lookup_alter. case_decide; [|done]. subst. destruct (tasks e !! i); [cbn; by rewrite Hf|done]. Qed.

Lemma same_view_trans {A} (f : thread -> A) e e' e'' : same_view f e e' -> same_view f e' e'' -> same_view f e e''.
Proof. intros H1 H2 t. by rewrite H2, H1. Qed.

Lemma ids_inv_same e e' :
  ids_inv e -> same_view t_tid e e' -> e'.(boot_idle_thread) = e.(boot_idle_thread) -> e'.(next_tid) = e.(next_tid) -> ids_inv e'.
Proof.
  intros [H1 H2 H3 H4] Hv Eb En. constructor; rewrite ?Eb, ?En; [done|..].
  - intros x Hx. destruct (same_view_get _ _ _ _ _ Hv Hx) as (y & Hy & ->). by apply H2.
  - intros t x Hx. destruct (same_view_get _ _ _ _ _ Hv Hx) as (y & Hy & ->). by apply H3.
  - intros t x t' x' Hx Hx'. destruct (same_view_get _ _ _ _ _ Hv Hx) as (y & Hy & ->).
    destruct (same_view_get _ _ _ _ _ Hv Hx') as (y' & Hy' & ->). by apply (H4 t y t' y').
Qed.

(** The fields that describe a thread's memory. *)
Definition mem_view (x : thread) :=
  (x.(t_kind), x.(t_kstack_base), x.(t_kstack_top), x.(t_user_stack_base), x.(t_user_stack_top), x.(t_tc)).

Lemma mem_view_slots x y t sl : mem_view x = mem_view y -> slot_addr t x sl = slot_addr t y sl /\ slot_size x sl = slot_size y sl.
Proof. intros E. injection E as E1 E2 E3 E4 E5 E6. destruct sl; cbn; by rewrite ?E1, ?E2, ?E4, ?E5. Qed.

Lemma mem_inv_same e e' :
  mem_inv e -> same_view mem_view e e' -> e'.(boot_idle_thread) = e.(boot_idle_thread) -> e'.(tcs) = e.(tcs) ->
  hok e'.(heap) -> (forall x, static e'.(heap) x <-> static e.(heap) x) ->
  (forall a z, owned e'.(heap) a z <-> owned e.(heap) a z) -> mem_inv e'.
Proof.
  intros [H1 H2 H3 H4 H5 H6 H7] Hv Eb Et Hh Hs Ho. constructor; rewrite ?Eb, ?Et; [done|by apply Hs|..].
  - intros x Hx. destruct (same_view_get _ _ _ _ _ Hv Hx) as (y & Hy & E). injection E as -> _. by apply H3.
  - intros t x sl a Hx Hb. destruct (same_view_get _ _ _ _ _ Hv Hx) as (y & Hy & E).
    destruct (mem_view_slots _ _ t sl E) as [-> ->]. intros Ha. destruct (H4 t y sl a Hy Hb Ha) as (z & Hz & Hle). exists z. by rewrite Ho.
  - intros t x sl t' x' sl' a Hx Hb Ha Hx' Hb' Ha'. destruct (same_view_get _ _ _ _ _ Hv Hx) as (y & Hy & E).
    destruct (same_view_get _ _ _ _ _ Hv Hx') as (y' & Hy' & E'). destruct (mem_view_slots _ _ t sl E) as [Es _].
    destruct (mem_view_slots _ _ t' sl' E') as [Es' _]. rewrite Es in Ha. rewrite Es' in Ha'. by eapply (H5 t y sl t' y' sl').
  - intros t x Hx Hb. destruct (same_view_get _ _ _ _ _ Hv Hx) as (y & Hy & E). injection E as _ -> -> _. by apply (H6 t).
  - intros t x Hx. destruct (same_view_get _ _ _ _ _ Hv Hx) as (y & Hy & E). injection E as -> _ -> _ _ ->. by apply (H7 t).
Qed.

(** The interrupt flag does not matter to the heap. *)
Lemma mem_inv_irq e e' v :
  mem_inv e -> same_view mem_view e e' -> e'.(boot_idle_thread) = e.(boot_idle_thread) -> e'.(tcs) = e.(tcs) ->
  e'.(heap) = (set_irq v e).(heap) -> mem_inv e'.
Proof.
  intros Hm Hv Eb Et Eh. eapply mem_inv_same; [exact Hm|done|done|done|..]; rewrite Eh; sched_simpl.
  - apply hl_irq, Hm.
  - intros x. apply hl_irq_static.
  - intros a z. apply hl_irq_owned.
Qed.

Lemma wait_inv_same e e' g g' :
  wait_inv e g -> same_view t_kstack_base e e' -> e'.(queues) = e.(queues) -> e'.(entries) = e.(entries) ->
  (forall q, is_queue e.(queues) q -> g'.(l_queue) q = g.(l_queue) q) ->
  (forall t, is_task e.(tasks) t -> g'.(l_task) t = g.(l_task) t) -> wait_inv e' g'.
Proof.
  intros [[H0 H0'] H1 H2 H3] Hv Eq Ee Egq Egt.
  assert (Ht : forall t, is_task (tasks e') t -> is_task (tasks e) t).
  { intros t [x Hx]. destruct (same_view_get _ _ _ _ _ Hv Hx) as (y & Hy & _). by exists y. }
  constructor; rewrite ?Eq, ?Ee.
  - split; [|done]. specialize (Hv 0). rewrite H0 in Hv. by destruct (tasks e' !! 0).
  - intros q i Hq. rewrite Egq by done. by apply H1.
  - intros t i Hi. rewrite Egt by auto. auto.
  - intros i y Hy. destruct (H3 i y Hy) as [?|(Hq & x & Hx & Hin)]; [by left|right]. split; [done|].
    specialize (Hv (e_task y)). rewrite Hx in Hv. destruct (tasks e' !! e_task y) as [x'|]; [|done]. cbn in Hv. injection Hv as Hv.
    exists x'. split; [done|]. unfold in_stack in *. by rewrite Hv.
Qed.

End inv.
