(* ===== verification/SchedOps.v ===== *)
(** * What [schedule] does

    [schedule] on the state without links: which thread runs next, how the run
    queue changes, what is saved and restored; and that the invariant is kept. *)

From S2P Require Import Prelude Lists Memory Slab Task Sched Wait Thread HeapIface SchedRep SchedLists ThreadInv.

Open Scope Z_scope.

(** ** The effect of a switch *)

(** The thread that runs next. *)
Definition next_thread (e : sched) (g : lists) : Z :=
  match g.(l_run) with [] => e.(boot_idle_thread) | t :: _ => t end.

Definition is_running (e : sched) (t : Z) : bool :=
  match e.(tasks) !! t with Some x => bool_decide (x.(t_state) = THREAD_RUNNING) | None => false end.

(** Whether the thread that gives up the processor is queued again. *)
Definition requeued (e : sched) (p : Z) : bool := is_running e p && negb (p =? e.(boot_idle_thread)).

(** Up to the end of [switch_to(p, n)]. *)
Definition switched (st : bool) (p n : Z) (e : sched) : sched :=
  let e1 := if is_running e p then upd_task p (set_t_state THREAD_RUNNABLE) e else e in
  let e2 := upd_task n (set_t_state THREAD_RUNNING) e1 in
  let e3 := set_frames (<[p := st]> e2.(frames)) (set_regs (set_c_ra c_schedule_resume e2.(regs)) e2) in
  let e4 := upd_task p (set_t_context e3.(regs)) e3 in
  set_tp n (set_regs (match e4.(tasks) !! n with Some x => x.(t_context) | None => e4.(regs) end) e4).

(** The interrupt flag of the resumed thread. *)
Definition resumed (e : sched) : sched :=
  match e.(regs).(c_ra) with
  | c_schedule_resume => set_irq (default false (e.(frames) !! e.(tp))) (set_frames (delete e.(tp) e.(frames)) e)
  | _ => set_irq true e
  end.

Definition schedule_state (e : sched) (g : lists) : sched :=
  if bool_decide (g.(l_run) = []) && (e.(tp) =? e.(boot_idle_thread)) then set_need_resched 0 e
  else resumed (switched (irq e) e.(tp) (next_thread e g) (set_need_resched 0 (set_irq false e))).

Definition schedule_lists (e : sched) (g : lists) : lists :=
  set_l_run (tail g.(l_run) ++ if requeued e e.(tp) then [e.(tp)] else []) g.

Section sched_ops.
Context {hok : slabs -> Prop} {owned : slabs -> Z -> Z -> Prop} {static : slabs -> Z -> Prop}.
Context `{HL : !HeapLaws hok owned static}.
Abbreviation inv := (@inv hok owned static).
Abbreviation sched_inv := (@sched_inv hok owned static).

(** *** Facts about a good state *)

Section facts.
Context {s e : sched} {g : lists} (HI : sched_inv s e g).

Lemma rep_of : rep s e g.
Proof. apply HI. Qed.

Lemma all_task t : t ∈ g.(l_all) -> exists x, e.(tasks) !! t = Some x /\ thread_ok e g t x /\ t <> 0.
Proof.
  destruct HI as [HR [Hs _ _ _]]. intros Ht. destruct (chain_task _ _ _ t (rp_all _ _ _ HR) Ht) as [H0 [x Hx]].
  apply (task_rep HR) in Hx. exists (core_thread x). split; [done|]. split; [by apply (si_threads _ _ Hs)|done].
Qed.

Lemma cur_task : exists x, e.(tasks) !! e.(tp) = Some x /\ thread_ok e g e.(tp) x /\ e.(tp) <> 0.
Proof. apply all_task. apply HI. Qed.
Lemma boot_task : exists x, e.(tasks) !! e.(boot_idle_thread) = Some x /\ thread_ok e g e.(boot_idle_thread) x /\ e.(boot_idle_thread) <> 0.
Proof. apply all_task. apply HI. Qed.

Lemma run_task t : t ∈ g.(l_run) -> exists x, e.(tasks) !! t = Some x /\ thread_ok e g t x /\ t <> 0 /\
  x.(t_state) = THREAD_RUNNABLE /\ t <> e.(boot_idle_thread) /\ t <> e.(tp).
Proof.
  destruct HI as [HR [Hs _ _ _]]. intros Ht. destruct (chain_task _ _ _ t (rp_run _ _ _ HR) Ht) as [H0 [x Hx]].
  apply (task_rep HR) in Hx. exists (core_thread x). pose proof (si_threads _ _ Hs _ _ Hx) as Hok.
  pose proof (proj1 (to_run _ _ _ _ Hok) Ht) as [Hst Hb]. split_and!; try done.
  intros E. destruct (to_cur _ _ _ _ Hok E) as [E'|[E'|E']]; congruence.
Qed.

Lemma wp_current Q : Q e.(tp) s -> wp thread_current Q s.
Proof. intros HQ. apply (wp_thread_current rep_of); [apply HI|done]. Qed.

(** The next thread is another one, unless the boot thread is alone. *)
Lemma next_task :
  bool_decide (g.(l_run) = []) && (e.(tp) =? e.(boot_idle_thread)) = false ->
  exists x, e.(tasks) !! next_thread e g = Some x /\ thread_ok e g (next_thread e g) x /\
    next_thread e g <> 0 /\ next_thread e g <> e.(tp) /\ x.(t_state) = THREAD_RUNNABLE.
Proof.
  intros Hne. unfold next_thread. destruct (l_run g) as [|n R] eqn:El.
  - rewrite bool_decide_true in Hne by done. cbn in Hne. apply Z.eqb_neq in Hne. destruct boot_task as (x & Hx & Hok & H0).
    exists x. split_and!; try done. destruct (to_boot _ _ _ _ Hok eq_refl) as [E|E]; [|done]. by apply (to_running _ _ _ _ Hok) in E.
  - destruct (run_task n) as (x & Hx & Hok & H0 & Hst & _ & Htp); [rewrite El; set_solver|]. by exists x.
Qed.

Lemma wp_pop_runnable Q :
  (g.(l_run) = [] -> Q 0 s) ->
  (forall t R s', g.(l_run) = t :: R -> rep s' e (set_l_run R g) -> Q t s') -> wp pop_runnable Q s.
Proof.
  intros Hnil Hcons. unfold pop_runnable. wp_steps. apply (wp_runq_pop rep_of).
  - intros El. cbn [loop Z.eqb]. wp_steps. by apply Hnil.
  - intros t R s' El HR'. destruct (run_task t) as (x & Hx & Hok & H0 & Hst & _); [rewrite El; set_solver|].
    cbn [loop]. apply wp_bind. destruct (Z.eqb_spec t 0); [done|]. apply wp_bind. eapply (wp_task_get HR'); [exact Hx|].
    intros y _ Ey. assert (t_state y = THREAD_RUNNABLE) as -> by (by rewrite <- Hst, <- Ey). cbn. wp_steps. by eapply Hcons.
Qed.

End facts.

(** The part of [schedule] from the call of [switch_to] on. *)
Lemma wp_call_switch s e g st p n xp xn Q :
  rep s e g -> e.(tasks) !! p = Some xp -> e.(tasks) !! n = Some xn -> n <> p -> n <> 0 -> irq e = false -> e.(threading_started) <> 0 ->
  (xn.(t_context).(c_ra) = c_schedule_resume /\ is_Some (e.(frames) !! n) \/
   xn.(t_context).(c_ra) = c_thread_bootstrap /\ xn.(t_entry) <> c_null) ->
  (forall s', rep s' (resumed (set_tp n (set_regs xn.(t_context)
     (upd_task p (set_t_context (set_c_ra c_schedule_resume e.(regs)))
       (set_frames (<[p := st]> e.(frames)) (set_regs (set_c_ra c_schedule_resume e.(regs)) e)))))) g -> Q tt s') ->
  wp (call_switch_to st p n) Q s.
Proof.
  intros HR Hp Hn Hne Hn0 Hirq Hst Hctx HQ. unfold call_switch_to, switch_to.
  apply wp_bind, (wp_modify_core HR); [done|done|]. intros s1 H1. apply wp_bind, (wp_modify_core H1); [done|done|]. intros s2 H2.
  apply wp_bind. apply wp_bind. apply (wp_gets_core H2); [done|]. apply wp_bind. eapply (wp_task_core H2); [exact Hp|done|]. intros s3 H3.
  assert (Hn3 : tasks (upd_task p (set_t_context (set_c_ra c_schedule_resume (regs e)))
    (set_frames (<[p := st]> (frames e)) (set_regs (set_c_ra c_schedule_resume (regs e)) e))) !! n = Some xn).
  { sched_simpl. by rewrite lookup_alter_ne. }
  apply wp_bind. eapply (wp_task_get H3); [exact Hn3|]. intros y _ Ey.
  assert (t_context y = t_context xn) as -> by (by rewrite <- Ey).
  apply wp_bind, (wp_modify_core H3); [done|done|]. intros s4 H4. apply (wp_modify_core H4); [done|done|]. intros s5 H5.
  unfold resume. apply wp_bind, (wp_gets_core H5); [done|]. sched_simpl. unfold resumed in HQ. sched_simpl. cbn [tp set_tp regs set_regs] in HQ.
  destruct Hctx as [(Era & Hfr)|(Era & Hen)]; rewrite Era in *.
  - apply wp_bind, (wp_gets_core H5); [done|]. sched_simpl. destruct Hfr as [b Hb]. apply wp_bind.
    assert (Hfr : frames s5 !! n = Some b).
    { assert (frames s5 = <[p := st]> (frames e)) as ->; [|by rewrite lookup_insert_ne].
      change (frames s5) with (frames (erase s5)). by rewrite (rp_core _ _ _ H5). }
    eapply wp_access; [exact Hfr|]. apply wp_bind, (wp_modify_core H5); [done|done|]. intros s6 H6. apply (wp_irq_restore H6). intros s7 H7.
    apply HQ.
    assert (Ed : default false (<[p := st]> (frames e) !! n) = irq e || b) by (by rewrite lookup_insert_ne, Hb, Hirq).
    change (irq _) with (irq e) in H7. rewrite <- Ed in H7. exact H7.
  - unfold thread_bootstrap. apply wp_bind, (wp_thread_current H5); [done|]. apply wp_bind, (wp_irq_enable H5). intros s6 H6. sched_simpl.
    destruct (Z.eqb_spec n 0); [done|]. apply wp_bind. eapply (wp_task_get H6); [sched_simpl; exact Hn3|]. intros z _ Ez.
    assert (t_entry z = t_entry xn) as -> by (by rewrite <- Ez). rewrite bool_decide_false by done. wp_steps. by apply HQ.
Qed.

Lemma inv_irq e g v : inv e g -> inv (set_irq v e) g.
Proof.
  intros [[A1 A2 A3 A4] Hw Hi Hm]. constructor; [constructor; try done|..].
  - intros t x Hx. destruct (A4 t x Hx) as [B1 B2 B3 B4 B5 B6 B7 B8 B9 B10 B11]. by constructor.
  - eapply wait_inv_same; [exact Hw|by apply same_view_refl|done|done|done|done].
  - eapply ids_inv_same; [exact Hi|by apply same_view_refl|done|done].
  - eapply mem_inv_irq; [exact Hm|by apply same_view_refl|done|done|done].
Qed.

Lemma inv_resched e g v : inv e g -> inv (set_need_resched v e) g.
Proof.
  intros [[A1 A2 A3 A4] Hw Hi Hm]. constructor; [constructor; try done|..].
  - intros t x Hx. destruct (A4 t x Hx) as [B1 B2 B3 B4 B5 B6 B7 B8 B9 B10 B11]. by constructor.
  - eapply wait_inv_same; [exact Hw|by apply same_view_refl|done|done|done|done].
  - eapply ids_inv_same; [exact Hi|by apply same_view_refl|done|done].
  - eapply mem_inv_same; [exact Hm|by apply same_view_refl|done|done|apply Hm|done|done].
Qed.

Lemma is_running_get e t x : e.(tasks) !! t = Some x -> is_running e t = bool_decide (x.(t_state) = THREAD_RUNNING).
Proof. unfold is_running. by intros ->. Qed.

(** From the choice of [n] on. *)
Lemma wp_switch_to_next s e g st n R Q :
  sched_inv s e g -> irq e = false -> bool_decide (g.(l_run) = []) && (e.(tp) =? e.(boot_idle_thread)) = false ->
  n = next_thread e g -> R = tail g.(l_run) ->
  (forall s', rep s' (resumed (switched st e.(tp) n e)) (set_l_run (R ++ if requeued e e.(tp) then [e.(tp)] else []) g) -> Q tt s') ->
  forall s1 y, rep s1 e (set_l_run R g) -> s1.(tasks) !! e.(tp) = Some y ->
  wp (when (bool_decide (y.(t_state) = THREAD_RUNNING)) (task_upd e.(tp) (set_t_state THREAD_RUNNABLE)) ;;
      task_upd n (set_t_state THREAD_RUNNING) ;;
      p ← task_get e.(tp);
      when (bool_decide (p.(t_state) = THREAD_RUNNABLE) && (p.(t_is_idle) =? 0)) (sched_enqueue e.(tp)) ;;
      call_switch_to st e.(tp) n) Q s1.
Proof.
  intros HI Hirq Hne En ER HQ s1 y H1 Hy. destruct (next_task HI Hne) as (xn & Hxn & Hokn & Hn0 & Hntp & Hnst). rewrite <- En in *.
  destruct (cur_task HI) as (xp & Hxp & Hokp & Hp0).
  assert (Hyp : core_thread y = xp) by (apply (task_rep H1) in Hy; congruence).
  assert (Est : t_state y = t_state xp) by (by rewrite <- Hyp). rewrite Est.
  set (e1 := if is_running e (tp e) then upd_task (tp e) (set_t_state THREAD_RUNNABLE) e else e).
  assert (Hp1 : tasks e1 !! tp e = Some (if is_running e (tp e) then set_t_state THREAD_RUNNABLE xp else xp)).
  { unfold e1. destruct (is_running e (tp e)); [sched_simpl; by rewrite lookup_alter_eq, Hxp|done]. }
  assert (Hn1 : tasks e1 !! n = Some xn) by (unfold e1; destruct (is_running e (tp e)); [sched_simpl; by rewrite lookup_alter_ne|done]).
  assert (Hes : threading_started e1 = threading_started e /\ irq e1 = false /\ frames e1 = frames e /\ regs e1 = regs e /\ tp e1 = tp e)
    by (unfold e1; destruct (is_running e (tp e)); done). destruct Hes as (Es1 & Es2 & Es3 & Es4 & Es5).
  apply wp_bind. cut (forall s2, rep s2 e1 (set_l_run R g) -> wp (task_upd n (set_t_state THREAD_RUNNING) ;;
      p ← task_get e.(tp);
      when (bool_decide (p.(t_state) = THREAD_RUNNABLE) && (p.(t_is_idle) =? 0)) (sched_enqueue e.(tp)) ;;
      call_switch_to st e.(tp) n) Q s2).
  { intros Hk. rewrite <- (is_running_get e (tp e) xp Hxp). apply wp_when; intros Er; unfold e1 in Hk; rewrite Er in Hk; [|by apply Hk].
    eapply (wp_task_core H1); [exact Hxp|done|]. exact Hk. }
  intros s2 H2. apply wp_bind. eapply (wp_task_core H2); [exact Hn1|done|]. intros s3 H3. set (e2 := upd_task n _ e1) in H3.
  assert (Hp2 : tasks e2 !! tp e = Some (if is_running e (tp e) then set_t_state THREAD_RUNNABLE xp else xp))
    by (unfold e2; sched_simpl; by rewrite lookup_alter_ne). apply wp_bind. eapply (wp_task_get H3); [exact Hp2|]. intros z _ Ez.
  assert (Ec : bool_decide (t_state z = THREAD_RUNNABLE) && (t_is_idle z =? 0) = requeued e (tp e)).
  { assert (t_state z = t_state (if is_running e (tp e) then set_t_state THREAD_RUNNABLE xp else xp)) as -> by (by rewrite <- Ez).
    assert (t_is_idle z = t_is_idle xp) as -> by (transitivity (t_is_idle (core_thread z)); [done|rewrite Ez; by destruct (is_running e (tp e))]).
    unfold requeued. rewrite (to_idle _ _ _ _ Hokp), (is_running_get e (tp e) xp Hxp).
    destruct (to_cur _ _ _ _ Hokp eq_refl) as [E|E].
    - rewrite (bool_decide_true (t_state xp = THREAD_RUNNING)) by done. rewrite bool_decide_true by done.
      destruct (Z.eqb_spec (tp e) (boot_idle_thread e)); [by rewrite decide_True|by rewrite decide_False].
    - rewrite (bool_decide_false (t_state xp = THREAD_RUNNING)) by (destruct E; congruence).
      rewrite bool_decide_false; [done|]. destruct E; congruence. }
  rewrite Ec. apply wp_bind. set (g2 := set_l_run (R ++ if requeued e (tp e) then [tp e] else []) g) in HQ.
  cut (forall s4, rep s4 e2 g2 -> wp (call_switch_to st (tp e) n) Q s4).
  { intros Hk. unfold g2 in Hk. apply wp_when; intros Er; rewrite Er in Hk.
    - apply (wp_sched_enqueue H3); [|done|by eexists|exact Hk]. cbn [l_run set_l_run]. intros Hin. assert (tp e ∈ l_run g).
      { rewrite ER in Hin. destruct (l_run g); [done|]. cbn in Hin. set_solver. }
      destruct (run_task HI (tp e)) as (? & _ & _ & _ & _ & _ & ?); done.
    - rewrite app_nil_r in Hk. by apply Hk. }
  intros s4 H4.
  assert (Hn2 : tasks e2 !! n = Some (set_t_state THREAD_RUNNING xn)) by (unfold e2; sched_simpl; by rewrite lookup_alter_eq, Hn1).
  eapply (wp_call_switch s4 e2 g2); [exact H4|exact Hp2|exact Hn2|done|done|done|change (threading_started e1 <> 0); rewrite Es1; apply HI|..].
  - cbn [t_context t_entry set_t_state]. destruct (to_ctx _ _ _ _ Hokn Hntp) as [[? ?]|[? ?]]; [left|right].
    + split; [done|]. unfold e2. sched_simpl. by rewrite Es3.
    + split; [done|]. apply (to_entry _ _ _ _ Hokn); [congruence|done].
  - intros s' H'. apply HQ. revert H'. unfold switched. fold e1. fold e2. sched_simpl. rewrite lookup_alter_ne by done.
    rewrite Hn2. done.
Qed.

Lemma set_l_run_tail_nil g : g.(l_run) = [] -> set_l_run (tail g.(l_run)) g = g.
Proof. intros E. rewrite E. cbn. rewrite <- E. apply set_l_run_id. Qed.

Lemma wp_schedule s e g Q :
  sched_inv s e g -> (forall s', rep s' (schedule_state e g) (schedule_lists e g) -> Q tt s') -> wp schedule Q s.
Proof.
  intros HI HQ. pose proof (rep_of HI) as HR. destruct (cur_task HI) as (xp & Hxp & Hokp & Hp0).
  unfold schedule. apply wp_bind, (wp_gets_core HR); [done|]. destruct (Z.eqb_spec (threading_started e) 0) as [E|_]; [by apply HI in E|].
  apply wp_bind, (wp_current HI). destruct (Z.eqb_spec (tp e) 0); [done|]. apply wp_bind, (wp_irq_save HR). intros s1 H1.
  apply wp_bind, (wp_modify_core H1); [done|done|]. intros s2 H2. set (e0 := set_need_resched 0 (set_irq false e)) in H2.
  assert (HI2 : sched_inv s2 e0 g) by (split; [done|apply inv_resched, inv_irq, HI]).
  assert (Hgo : forall n s3, rep s3 e0 (set_l_run (tail (l_run g)) g) ->
    bool_decide (g.(l_run) = []) && (e.(tp) =? e.(boot_idle_thread)) = false ->
    (if n =? 0 then boot_idle_thread e0 else n) = next_thread e g ->
    wp (boot ← gets boot_idle_thread;
        let next := if n =? 0 then boot else n in
        if tp e =? next then task_upd (tp e) (set_t_state THREAD_RUNNING) ;; irq_restore (irq e)
        else
          when (bool_decide ((core_thread xp).(t_state) = THREAD_RUNNING)) (task_upd (tp e) (set_t_state THREAD_RUNNABLE)) ;;
          task_upd next (set_t_state THREAD_RUNNING) ;;
          p ← task_get (tp e);
          when (bool_decide (p.(t_state) = THREAD_RUNNABLE) && (p.(t_is_idle) =? 0)) (sched_enqueue (tp e)) ;;
          call_switch_to (irq e) (tp e) next) Q s3).
  { intros m s3 H3 Hne En. apply wp_bind, (wp_gets_core H3); [done|]. cbv zeta. rewrite En.
    destruct (next_task HI Hne) as (xn & _ & _ & _ & Hntp & _). destruct (Z.eqb_spec (tp e) (next_thread e g)); [done|].
    destruct (rep_task H3 (tp e) xp Hxp) as (y & Hy & Ey).
    assert (t_state (core_thread xp) = t_state y) as -> by (by rewrite <- Ey).
    eapply (wp_switch_to_next s2 e0 g); [exact HI2|done|exact Hne|done|done| |exact H3|exact Hy].
    intros s' H'. apply HQ. unfold schedule_state, schedule_lists. rewrite Hne. exact H'. }
  apply wp_bind. apply (wp_pop_runnable HI2).
  - intros El. apply wp_bind. eapply (wp_task_get H2); [exact Hxp|]. intros y _ Ey.
    assert (t_is_idle y = if decide (tp e = boot_idle_thread e) then 1 else 0) as -> by (rewrite <- (to_idle _ _ _ _ Hokp), <- Ey; done).
    assert (t_state y = t_state (core_thread xp)) as -> by (by rewrite <- Ey).
    destruct (decide (tp e = boot_idle_thread e)) as [Eb|Eb]; cbn [Z.eqb negb andb].
    + apply (wp_irq_restore H2). intros s3 H3. apply HQ. unfold schedule_state, schedule_lists, requeued.
      rewrite bool_decide_true, (proj2 (Z.eqb_eq _ _) Eb), andb_false_r by done. cbn [andb]. rewrite app_nil_r, set_l_run_tail_nil by done.
      change (irq e0) with false in H3. cbn [orb] in H3.
      assert (set_irq (irq e) e0 = set_need_resched 0 e) as E
        by (transitivity (set_need_resched 0 (set_irq (irq e) e)); [done|by rewrite set_irq_self]). by rewrite E in H3.
    + apply (Hgo 0); [by rewrite set_l_run_tail_nil| |unfold next_thread; by rewrite El].
      rewrite (proj2 (Z.eqb_neq _ _) Eb). apply andb_false_r.
  - intros t R s3 El H3. apply wp_bind. eapply (wp_task_get H3); [exact Hxp|]. intros y _ Ey.
    assert (t_state y = t_state (core_thread xp)) as -> by (by rewrite <- Ey).
    assert (Ht0 : t <> 0) by (apply (run_nonzero HR); rewrite El; set_solver).
    rewrite (proj2 (Z.eqb_neq t 0) Ht0). cbn [andb]. specialize (Hgo t s3). rewrite (proj2 (Z.eqb_neq t 0) Ht0) in Hgo. apply Hgo.
    + by rewrite El.
    + by rewrite El, bool_decide_false.
    + unfold next_thread. by rewrite El.
Qed.

(** *** The invariant after a switch *)

Definition left_behind (e : sched) (x : thread) : thread :=
  set_t_context (set_c_ra c_schedule_resume e.(regs))
    (if bool_decide (x.(t_state) = THREAD_RUNNING) then set_t_state THREAD_RUNNABLE x else x).

Lemma resumed_tasks e : (resumed e).(tasks) = e.(tasks).
Proof. unfold resumed. by destruct (c_ra (regs e)). Qed.

Lemma resumed_rest e :
  (resumed e).(tp) = e.(tp) /\ (resumed e).(boot_idle_thread) = e.(boot_idle_thread) /\
  (resumed e).(threading_started) = e.(threading_started) /\ (resumed e).(next_tid) = e.(next_tid) /\
  (resumed e).(queues) = e.(queues) /\ (resumed e).(entries) = e.(entries) /\ (resumed e).(tcs) = e.(tcs) /\
  (resumed e).(regs) = e.(regs) /\ (exists v, (resumed e).(heap) = (set_irq v e).(heap)) /\
  (forall t, t <> e.(tp) -> (resumed e).(frames) !! t = e.(frames) !! t).
Proof.
  unfold resumed. destruct (c_ra (regs e)); split_and!; try done; try (by eexists).
  intros t Ht. sched_simpl. by rewrite lookup_delete_ne.
Qed.

Lemma switched_tasks st p n e xp xn t :
  e.(tasks) !! p = Some xp -> e.(tasks) !! n = Some xn -> n <> p ->
  (resumed (switched st p n e)).(tasks) !! t =
    if decide (t = p) then Some (left_behind e xp)
    else if decide (t = n) then Some (set_t_state THREAD_RUNNING xn) else e.(tasks) !! t.
Proof.
  intros Hp Hn Hne. rewrite resumed_tasks.
  assert (tasks (switched st p n e) = alter (set_t_context (set_c_ra c_schedule_resume (regs e))) p (alter (set_t_state THREAD_RUNNING) n
    (if is_running e p then alter (set_t_state THREAD_RUNNABLE) p (tasks e) else tasks e))) as -> by (unfold switched; by destruct (is_running e p)).
  rewrite (is_running_get e p xp Hp). unfold left_behind. rewrite !lookup_alter.
  destruct (decide (t = p)) as [->|Htp].
  - rewrite !decide_True by done. rewrite decide_False by done. destruct (bool_decide _); [rewrite lookup_alter_eq, Hp; done|by rewrite Hp].
  - rewrite (decide_False (P := p = t)) by congruence. destruct (decide (t = n)) as [->|Htn].
    + rewrite decide_True by done. destruct (bool_decide _); [rewrite lookup_alter_ne by done|]; by rewrite Hn.
    + rewrite decide_False by congruence. destruct (bool_decide _); [by rewrite lookup_alter_ne by congruence|done].
Qed.

Lemma switched_rest st p n e :
  let e' := resumed (switched st p n e) in
  e'.(tp) = n /\ e'.(boot_idle_thread) = e.(boot_idle_thread) /\ e'.(threading_started) = e.(threading_started) /\
  e'.(next_tid) = e.(next_tid) /\ e'.(queues) = e.(queues) /\ e'.(entries) = e.(entries) /\ e'.(tcs) = e.(tcs) /\
  (exists v, e'.(heap) = (set_irq v e).(heap)) /\
  forall t, t <> n -> e'.(frames) !! t = if decide (t = p) then Some st else e.(frames) !! t.
Proof.
  cbv zeta. destruct (resumed_rest (switched st p n e)) as (-> & -> & -> & -> & -> & -> & -> & _ & (v & ->) & Hf).
  split_and!; try (unfold switched; by destruct (is_running e p)).
  - exists v. unfold switched. by destruct (is_running e p).
  - intros t Ht. rewrite Hf by done. assert (frames (switched st p n e) = <[p := st]> (frames e)) as -> by (unfold switched; by destruct (is_running e p)).
    rewrite lookup_insert. repeat case_decide; congruence.
Qed.

Lemma switched_frames st p n e t :
  t <> n -> (resumed (switched st p n e)).(frames) !! t = if decide (t = p) then Some st else e.(frames) !! t.
Proof. apply (switched_rest st p n e). Qed.

Lemma schedule_switch_ok s e g st t x :
  sched_inv s e g -> bool_decide (g.(l_run) = []) && (e.(tp) =? e.(boot_idle_thread)) = false ->
  (resumed (switched st e.(tp) (next_thread e g) e)).(tasks) !! t = Some x ->
  thread_ok (resumed (switched st e.(tp) (next_thread e g) e)) (schedule_lists e g) t x.
Proof.
  intros HI Hne Hx. destruct (next_task HI Hne) as (xn & Hxn & Hokn & Hn0 & Hntp & Hnst).
  destruct (cur_task HI) as (xp & Hxp & Hokp & Hp0). set (n := next_thread e g) in *.
  destruct (switched_rest st (tp e) n e) as (Etp & Eb & _). rewrite (switched_tasks st (tp e) n e xp xn) in Hx by done.
  assert (Hrun : forall u, u ∈ l_run (schedule_lists e g) <-> (u ∈ l_run g /\ u <> n) \/ (u = tp e /\ requeued e (tp e) = true)).
  { intros u. cbn [l_run schedule_lists set_l_run]. rewrite elem_of_app.
    assert (u ∈ tail (l_run g) <-> u ∈ l_run g /\ u <> n) as ->.
    { pose proof (rp_run _ _ _ (rep_of HI)) as [_ Hnd]. unfold n, next_thread. destruct (l_run g) as [|a R]; [set_solver|].
      apply NoDup_cons in Hnd as [Ha _]. cbn [tail]. set_solver. }
    destruct (requeued e (tp e)); set_solver. }
  assert (Htpr : tp e ∉ l_run g) by (intros Hin; destruct (run_task HI (tp e) Hin) as (? & _ & _ & _ & _ & _ & ?); done).
  destruct (decide (t = tp e)) as [->|Htp]; [injection Hx as <-|destruct (decide (t = n)) as [->|Htn]; [injection Hx as <-|]].
  - destruct Hokp as [B1 B2 B3 B4 B5 B6 B7 B8 B9 B10 B11]. unfold left_behind.
    assert (Hctx : forall y, ctx_ok (resumed (switched st (tp e) n e)) (tp e) (set_t_context (set_c_ra c_schedule_resume (regs e)) y)).
    { intros y. left. split; [done|]. rewrite switched_frames by done. rewrite decide_True by done. by eexists. }
    unfold requeued in Hrun. rewrite (is_running_get e (tp e) xp Hxp) in Hrun.
    destruct (B5 eq_refl) as [E|E].
    + rewrite !(bool_decide_true (t_state xp = THREAD_RUNNING)) in * by done.
      constructor; rewrite ?Etp, ?Eb; cbn [t_state t_is_idle t_entry set_t_context set_t_state l_all l_zombies l_task schedule_lists set_l_run]; try done.
      * rewrite B1, E. split; intros _; discriminate.
      * rewrite Hrun. destruct (Z.eqb_spec (tp e) (boot_idle_thread e)) as [Eb2|Eb2]; cbn [negb andb]; clear - Htpr Eb2; intuition discriminate.
      * rewrite B3, E. split; discriminate.
      * intros _. by right.
      * intros [?|[?|?]]; [done|done|]. apply B9. by right; right.
      * intros _. apply B10. congruence.
    + rewrite !(bool_decide_false (t_state xp = THREAD_RUNNING)) in * by (destruct E; congruence).
      constructor; rewrite ?Etp, ?Eb; cbn [t_state t_is_idle t_entry set_t_context set_t_state l_all l_zombies l_task schedule_lists set_l_run]; try done.
      * rewrite Hrun. clear - Htpr E. destruct E as [E|E]; rewrite E; cbn [andb]; intuition discriminate.
      * intros ?. by destruct E; congruence.
  - destruct Hokn as [B1 B2 B3 B4 B5 B6 B7 B8 B9 B10 B11].
    constructor; rewrite ?Etp, ?Eb; cbn [t_state t_is_idle t_entry set_t_context set_t_state l_all l_zombies l_task schedule_lists set_l_run]; try done.
    + rewrite B1, Hnst. split; intros _; discriminate.
    + rewrite Hrun. clear - Hntp. split; [|intros [? _]; discriminate]. intros [[_ ?]|[? _]]; done.
    + rewrite B3, Hnst. split; discriminate.
    + by left.
    + by left.
    + intros [?|[?|?]]; [done|done|]. apply B9. by right; right.
    + intros _ ?. apply B10; [congruence|done].
  - pose proof (si_threads _ _ (iv_state _ _ (proj2 HI)) t x Hx) as [B1 B2 B3 B4 B5 B6 B7 B8 B9 B10 B11].
    constructor; rewrite ?Etp, ?Eb; cbn [l_all l_zombies l_task schedule_lists set_l_run]; try done.
    + rewrite Hrun, <- B2. clear - Htp Htn. tauto.
    + intros E. by apply B6 in E.
    + intros _. destruct (B11 Htp) as [[? ?]|[? ?]]; [left|right; by rewrite Eb]. split; [done|].
      rewrite switched_frames, decide_False by done. done.
Qed.

Lemma same_view_switched {A} (f : thread -> A) st p n e xp xn :
  e.(tasks) !! p = Some xp -> e.(tasks) !! n = Some xn -> n <> p ->
  (forall c x, f (set_t_context c x) = f x) -> (forall v x, f (set_t_state v x) = f x) -> same_view f e (resumed (switched st p n e)).
Proof.
  intros Hp Hn Hne Hc Hs t. rewrite (switched_tasks st p n e xp xn) by done.
  repeat case_decide; subst; rewrite ?Hp, ?Hn; cbn; [|by rewrite Hs|done]. unfold left_behind. rewrite Hc. by case_match; rewrite ?Hs.
Qed.

Lemma inv_switch s e g st :
  sched_inv s e g -> bool_decide (g.(l_run) = []) && (e.(tp) =? e.(boot_idle_thread)) = false ->
  inv (resumed (switched st e.(tp) (next_thread e g) e)) (schedule_lists e g).
Proof.
  intros HI Hne. destruct (next_task HI Hne) as (xn & Hxn & Hokn & Hn0 & Hntp & Hnst).
  destruct (cur_task HI) as (xp & Hxp & Hokp & Hp0).
  destruct (switched_rest st (tp e) (next_thread e g) e) as (Etp & Eb & Est & Eti & Eq & Een & Etc & (v & Eh) & _).
  pose proof HI as [HR [[A1 A2 A3 A4] Hw Hi Hm]]. constructor.
  - constructor; rewrite ?Etp, ?Eb, ?Est; try done; [|intros t x Hx; by eapply schedule_switch_ok].
    cbn [l_all schedule_lists set_l_run]. apply (to_all _ _ _ _ Hokn). congruence.
  - eapply wait_inv_same; [exact Hw|by eapply same_view_switched|done..].
  - eapply ids_inv_same; [exact Hi|by eapply same_view_switched|done..].
  - eapply mem_inv_irq; [exact Hm|by eapply same_view_switched|done..].
Qed.

Lemma inv_schedule s e g : sched_inv s e g -> inv (schedule_state e g) (schedule_lists e g).
Proof.
  intros HI. unfold schedule_state. destruct (bool_decide _ && _) eqn:Hne.
  - apply andb_true_iff in Hne as [El Eb]. apply bool_decide_eq_true in El. apply Z.eqb_eq in Eb.
    assert (schedule_lists e g = g) as ->; [|apply inv_resched, HI].
    unfold schedule_lists, requeued. rewrite (proj2 (Z.eqb_eq _ _) Eb), andb_false_r, app_nil_r. by apply set_l_run_tail_nil.
  - assert (HI0 : sched_inv (set_need_resched 0 (set_irq false s)) (set_need_resched 0 (set_irq false e)) g).
    { split; [|apply inv_resched, inv_irq, HI]. destruct (rep_of HI) as [H1 H2 H3 H4 H5 H6 H7 H8]. constructor; try done. by rewrite <- H1. }
    exact (inv_switch _ _ _ (irq e) HI0 Hne).
Qed.

End sched_ops.
