(* ===== verification/WaitOps.v ===== *)
(** * What the wait-queue operations do

    Registration, waiting, withdrawal and wake-up on the state without links. *)

From S2P Require Import Prelude Lists Memory Slab Task Sched Wait Thread HeapIface SchedRep SchedLists WaitLists ThreadInv SchedOps.

Open Scope Z_scope.

(** ** Effects *)

(** Registration of the current thread. *)
Definition prepared (q en : Z) (e : sched) : sched :=
  upd_task e.(tp) (set_t_state THREAD_WAITING) (upd_entry en (fun y => set_e_queue q (set_e_task e.(tp) y)) e).
Definition enlisted (q en t : Z) (g : lists) : lists :=
  set_l_queue (set_list g.(l_queue) q (g.(l_queue) q ++ [en])) (set_l_task (set_list g.(l_task) t (en :: g.(l_task) t)) g).
Definition delisted (q en t : Z) (g : lists) : lists :=
  set_l_queue (set_list g.(l_queue) q (without en (g.(l_queue) q)))
    (set_l_task (set_list g.(l_task) t (without en (g.(l_task) t))) g).

(** Whether [wait_queue_prepare_locked] accepts. *)
Definition may_prepare (e : sched) (q en : Z) : bool :=
  negb (q =? 0) && negb (en =? 0) && negb (irq e) && (e.(bh_running) =? 0) && negb (e.(tp) =? e.(boot_idle_thread)) &&
  match e.(tasks) !! e.(tp) with
  | Some x => bool_decide (x.(t_state) = THREAD_RUNNING \/ x.(t_state) = THREAD_WAITING)
  | None => false
  end &&
  match e.(entries) !! en with Some y => (y.(e_task) =? 0) && (y.(e_queue) =? 0) | None => false end.

(** The thread behind a registration. *)
Definition waiter (e : sched) (en : Z) : Z := match e.(entries) !! en with Some y => y.(e_task) | None => 0 end.
Definition is_waiting (e : sched) (t : Z) : bool :=
  match e.(tasks) !! t with Some x => bool_decide (x.(t_state) = THREAD_WAITING) | None => false end.

(** The end of a wait: the thread becomes runnable, once. *)
Definition woken (t : Z) (eg : sched * lists) : sched * lists :=
  let '(e, g) := eg in
  if t =? e.(tp) then (upd_task t (set_t_state THREAD_RUNNING) e, g)
  else (set_need_resched 1 (upd_task t (set_t_state THREAD_RUNNABLE) e), set_l_run (g.(l_run) ++ [t]) g).
Definition wake_entry (eg : sched * lists) (en : Z) : sched * lists :=
  if is_waiting eg.1 (waiter eg.1 en) then woken (waiter eg.1 en) eg else eg.

Definition wake_one_state (q : Z) (e : sched) (g : lists) : sched * lists :=
  match List.find (fun en => is_waiting e (waiter e en)) (g.(l_queue) q) with
  | Some en => woken (waiter e en) (e, g)
  | None => (e, g)
  end.
Definition wake_all_state (q : Z) (e : sched) (g : lists) : sched * lists := foldl wake_entry (e, g) (g.(l_queue) q).

(** Withdrawal of a registration. *)
Definition finish_lists (en : Z) (y : wait_entry) (g : lists) : lists := delisted y.(e_queue) en y.(e_task) g.
Definition finish_state (en : Z) (y : wait_entry) (e : sched) (g : lists) : sched :=
  let e1 := upd_entry en (fun _ => zero_entry) e in
  if (y.(e_task) =? e.(tp)) && is_waiting e y.(e_task) && bool_decide (without en (g.(l_task) y.(e_task)) = [])
  then upd_task y.(e_task) (set_t_state THREAD_RUNNING) e1 else e1.

Section wait_ops.
Context {hok : slabs -> Prop} {owned : slabs -> Z -> Z -> Prop} {static : slabs -> Z -> Prop}.
Context `{HL : !HeapLaws hok owned static}.
Abbreviation inv := (@inv hok owned static).
Abbreviation sched_inv := (@sched_inv hok owned static).

(** ** Registration *)

Lemma wp_prepare_refused s e g q en Q :
  sched_inv s e g -> (en <> 0 -> is_Some (e.(entries) !! en)) ->
  Q (negb (may_prepare e q en)) s -> wp (prepare_refused q en e.(tp)) Q s.
Proof.
  intros HI Hen HQ. pose proof (rep_of HI) as HR. destruct (cur_task HI) as (x & Hx & Hok & Hp0).
  unfold prepare_refused. apply wp_bind, (wp_irqs_enabled HR). apply wp_bind, (wp_gets_core HR); [done|].
  unfold may_prepare in HQ. rewrite Hx in HQ. rewrite (proj2 (Z.eqb_neq (tp e) 0) Hp0), orb_false_r.
  destruct (q =? 0); [by wp_steps|]. destruct (Z.eqb_spec en 0) as [->|Hen0]; [by wp_steps|].
  destruct (irq e); [by wp_steps|]. destruct (bh_running e =? 0); [|by wp_steps]. cbn [negb orb andb] in *.
  apply wp_bind. eapply (wp_task_get HR); [exact Hx|]. intros y _ Ey.
  assert (t_is_idle y = if decide (tp e = boot_idle_thread e) then 1 else 0) as -> by (rewrite <- (to_idle _ _ _ _ Hok), <- Ey; done).
  assert (t_state y = t_state x) as -> by (by rewrite <- Ey).
  destruct (decide (tp e = boot_idle_thread e)) as [Eb|Eb].
  { rewrite (proj2 (Z.eqb_eq _ _) Eb) in HQ. by wp_steps. }
  rewrite (proj2 (Z.eqb_neq _ _) Eb) in HQ. cbn [Z.eqb negb orb andb] in *.
  destruct (to_cur _ _ _ _ Hok eq_refl) as [E|[E|E]].
  3: { rewrite bool_decide_true, bool_decide_true by congruence. rewrite bool_decide_false in HQ by (rewrite E; intros [?|?]; done). by wp_steps. }
  all: rewrite (bool_decide_true (t_state x = THREAD_RUNNING \/ _)) in HQ by (rewrite E; tauto).
  - rewrite (bool_decide_false (t_state x <> THREAD_RUNNING)) by (rewrite E; tauto). cbn [andb].
    destruct (Hen Hen0) as [z Hz]. apply wp_bind. eapply (wp_entry_get HR); [exact Hz|]. intros w _ Ew. wp_steps. rewrite Hz in HQ.
    assert (e_task w = e_task z /\ e_queue w = e_queue z) as [-> ->] by (by rewrite <- Ew).
    by destruct (e_task z =? 0), (e_queue z =? 0).
  - rewrite (bool_decide_false (t_state x <> THREAD_WAITING)) by (rewrite E; tauto). rewrite andb_false_r.
    destruct (Hen Hen0) as [z Hz]. apply wp_bind. eapply (wp_entry_get HR); [exact Hz|]. intros w _ Ew. wp_steps. rewrite Hz in HQ.
    assert (e_task w = e_task z /\ e_queue w = e_queue z) as [-> ->] by (by rewrite <- Ew).
    by destruct (e_task z =? 0), (e_queue z =? 0).
Qed.

(** A registered entry has a queue and a thread. *)
Lemma unlisted e g en y :
  wait_inv e g -> e.(entries) !! en = Some y -> y.(e_task) = 0 -> y.(e_queue) = 0 ->
  (forall k, is_queue e.(queues) k -> en ∉ g.(l_queue) k) /\ (forall k, is_task e.(tasks) k -> en ∉ g.(l_task) k).
Proof.
  intros [[N1 N2] W1 W2 W3] Hy E1 E2. split; intros k Hk Hin.
  - apply (W1 k en Hk) in Hin as (y' & Hy' & E). destruct Hk as [? Hk]. congruence.
  - apply (W2 k en Hk) in Hin as (y' & Hy' & E). destruct Hk as [? Hk]. congruence.
Qed.

Lemma wp_prepare s e g q en Q :
  sched_inv s e g -> (q <> 0 -> is_queue e.(queues) q) -> (en <> 0 -> is_Some (e.(entries) !! en)) ->
  (may_prepare e q en = false -> Q (-1) s) ->
  (may_prepare e q en = true -> forall s', rep s' (prepared q en e) (enlisted q en e.(tp) g) -> Q 0 s') ->
  wp (wait_queue_prepare_locked q en) Q s.
Proof.
  intros HI Hq Hen Hno Hyes. pose proof (rep_of HI) as HR. destruct (cur_task HI) as (x & Hx & Hok & Hp0).
  unfold wait_queue_prepare_locked. apply wp_bind, (wp_current HI). apply wp_bind. eapply wp_prepare_refused; [exact HI|done|].
  destruct (may_prepare e q en) eqn:Em; cbn [negb]; [|wp_steps; by apply Hno]. specialize (Hyes eq_refl).
  unfold may_prepare in Em. rewrite !andb_true_iff, !negb_true_iff, !Z.eqb_neq in Em. destruct Em as ((((((E1 & E2) & _) & _) & _) & _) & E3).
  destruct (entries e !! en) as [y|] eqn:Hy; [|done]. apply andb_true_iff in E3 as [E3 E4]. apply Z.eqb_eq in E3, E4.
  destruct (unlisted e g en y (iv_wait _ _ (proj2 HI)) Hy E3 E4) as [Hu1 Hu2].
  apply wp_bind. eapply (wp_link_entry HR); [by apply Hq|by exists x|by exists y|done|done|done|]. intros s1 H1.
  apply wp_bind. eapply (wp_task_core H1); [exact Hx|done|]. intros s2 H2. wp_steps. by apply Hyes.
Qed.

Lemma may_prepare_facts e q en :
  may_prepare e q en = true ->
  q <> 0 /\ en <> 0 /\ irq e = false /\ e.(tp) <> e.(boot_idle_thread) /\
  (exists x, e.(tasks) !! e.(tp) = Some x /\ (x.(t_state) = THREAD_RUNNING \/ x.(t_state) = THREAD_WAITING)) /\
  exists y, e.(entries) !! en = Some y /\ y.(e_task) = 0 /\ y.(e_queue) = 0.
Proof.
  unfold may_prepare. rewrite !andb_true_iff, !negb_true_iff, !Z.eqb_neq. intros ((((((E1 & E2) & E3) & _) & E4) & E5) & E6).
  split_and!; try done.
  - destruct (tasks e !! tp e) as [x|]; [|done]. apply bool_decide_eq_true in E5. by exists x.
  - destruct (entries e !! en) as [y|]; [|done]. apply andb_true_iff in E6 as [F1%Z.eqb_eq F2%Z.eqb_eq]. by exists y.
Qed.

Lemma wait_inv_prepare e g q en x :
  wait_inv e g -> e.(tasks) !! e.(tp) = Some x -> is_queue e.(queues) q -> in_stack x en ->
  (exists y, e.(entries) !! en = Some y /\ y.(e_task) = 0 /\ y.(e_queue) = 0) ->
  wait_inv (prepared q en e) (enlisted q en e.(tp) g).
Proof.
  intros Hw Hx Hq Hin (y & Hy & Y1 & Y2). destruct (unlisted e g en y Hw Hy Y1 Y2) as [U1 U2]. destruct Hw as [[N1 N2] W1 W2 W3].
  assert (Htask : forall t, is_task (alter (set_t_state THREAD_WAITING) (tp e) (tasks e)) t <-> is_task (tasks e) t)
    by (intros t; unfold is_task; rewrite lookup_alter; case_decide; [subst; rewrite Hx; naive_solver|done]).
  assert (Hent : forall i, entries (prepared q en e) !! i = if decide (i = en) then Some (set_e_queue q (set_e_task (tp e) y)) else entries e !! i).
  { intros i. unfold prepared. sched_simpl. rewrite lookup_alter. case_decide as E; [subst; by rewrite decide_True, Hy|by rewrite decide_False]. }
  constructor.
  - split; [|done]. assert (tp e <> 0) by (intros E; rewrite E in Hx; congruence). unfold prepared. sched_simpl. by rewrite lookup_alter_ne.
  - intros k i Hk. change (is_queue (queues e) k) in Hk. cbn [l_queue enlisted set_l_queue]. setoid_rewrite Hent. unfold set_list. destruct (decide (k = q)) as [->|Hkq].
    + rewrite elem_of_app, list_elem_of_singleton, (W1 q i Hk). destruct (decide (i = en)) as [->|Hi]; [|naive_solver].
      split; [intros _; by eexists|by right].
    + rewrite (W1 k i Hk). destruct (decide (i = en)) as [->|Hi]; [|done]. destruct Hk as [? Hk]. split; [|by intros (? & [= <-] & ?)].
      intros (y' & Hy' & E). congruence.
  - intros t i Ht%Htask. cbn [l_task enlisted set_l_queue set_l_task]. setoid_rewrite Hent. unfold set_list. destruct (decide (t = tp e)) as [->|Hne].
    + rewrite elem_of_cons, (W2 _ i Ht). destruct (decide (i = en)) as [->|Hi]; [|naive_solver].
      split; [intros _; by eexists|by left].
    + rewrite (W2 t i Ht). destruct (decide (i = en)) as [->|Hi]; [|done]. destruct Ht as [? Ht]. split; [|by intros (? & [= <-] & ?)].
      intros (y' & Hy' & E). congruence.
  - intros i z. rewrite Hent. destruct (decide (i = en)) as [->|Hi].
    + intros [= <-]. right. cbn [e_queue e_task set_e_queue set_e_task]. split; [done|].
      exists (set_t_state THREAD_WAITING x). split; [|done]. unfold prepared. sched_simpl. by rewrite lookup_alter_eq, Hx.
    + intros Hz. destruct (W3 i z Hz) as [?|(Hzq & w & Hw & Hs)]; [by left|right]. split; [done|].
      unfold prepared. sched_simpl. rewrite lookup_alter. case_decide as E; [|by exists w].
      rewrite <- E, Hx in Hw. injection Hw as <-. exists (set_t_state THREAD_WAITING x). split; [|done]. by rewrite Hx.
Qed.

Lemma inv_prepare s e g q en x :
  sched_inv s e g -> may_prepare e q en = true -> is_queue e.(queues) q -> e.(tasks) !! e.(tp) = Some x -> in_stack x en ->
  inv (prepared q en e) (enlisted q en e.(tp) g).
Proof.
  intros HI Hm Hq Hx Hin. destruct (may_prepare_facts _ _ _ Hm) as (_ & _ & _ & Hb & (x' & Hx' & Hst) & Hy). rewrite Hx in Hx'. injection Hx' as <-.
  destruct HI as [HR [[A1 A2 A3 A4] Hw Hi Hmem]]. pose proof (A4 _ _ Hx) as [B1 B2 B3 B4 B5 B6 B7 B8 B9 B10 B11].
  assert (Hv : forall A (f : thread -> A), (forall y, f (set_t_state THREAD_WAITING y) = f y) -> same_view f e (prepared q en e))
    by (intros; by eapply same_view_upd).
  constructor.
  - constructor; try done. intros t z. unfold prepared. sched_simpl. rewrite lookup_alter. destruct (decide (tp e = t)) as [<-|E].
    + rewrite Hx. intros [= <-]. constructor; cbn [t_state set_t_state t_is_idle t_entry tp boot_idle_thread
        upd_task upd_entry set_tasks set_entries l_all l_run l_zombies l_task enlisted set_l_queue set_l_task]; try done.
      * rewrite B2. destruct Hst as [E|E]; rewrite E; split; intros []; discriminate.
      * rewrite B3. destruct Hst as [E|E]; rewrite E; split; discriminate.
      * intros _. right. by left.
      * intros _. by rewrite set_list_eq.
      * by intros [?|[?|?]].
      * intros _. apply B10. destruct Hst as [E|E]; rewrite E; discriminate.
    + intros Hz. eapply thread_ok_same; [by apply A4|done..|]. cbn [l_task enlisted set_l_queue set_l_task]. by rewrite set_list_ne.
  - by eapply wait_inv_prepare.
  - eapply ids_inv_same; [exact Hi|by apply Hv|done|done].
  - eapply mem_inv_same; [exact Hmem|by apply Hv|done|done|apply Hmem|done|done].
Qed.

(** ** Withdrawal *)

Lemma registered_facts e g en y :
  wait_inv e g -> e.(entries) !! en = Some y -> y.(e_queue) <> 0 ->
  is_queue e.(queues) y.(e_queue) /\ (exists x, e.(tasks) !! y.(e_task) = Some x /\ in_stack x en) /\
  en ∈ g.(l_queue) y.(e_queue) /\ en ∈ g.(l_task) y.(e_task).
Proof.
  intros [_ W1 W2 W3] Hy Hq. destruct (W3 en y Hy) as [[_ ?]|(H1 & x & Hx & Hs)]; [done|].
  split; [done|]. split; [by exists x|]. split; [apply W1; [done|by exists y]|apply W2; [by exists x|by exists y]].
Qed.

Lemma wp_finish s e g en y Q :
  rep s e g -> e.(threading_started) <> 0 -> wait_inv e g -> e.(entries) !! en = Some y ->
  (y.(e_queue) = 0 -> Q tt s) ->
  (y.(e_queue) <> 0 -> forall s', rep s' (finish_state en y e g) (finish_lists en y g) -> Q tt s') ->
  wp (wait_queue_finish_locked en) Q s.
Proof.
  intros HR Hst Hw Hy Hno Hyes. unfold wait_queue_finish_locked. apply wp_bind. eapply (wp_entry_get HR); [exact Hy|]. intros z Hz Ez.
  assert (e_task z = e_task y /\ e_queue z = e_queue y) as [E1 E2] by (by rewrite <- Ez). cbv zeta. rewrite E2.
  destruct (Z.eqb_spec (e_queue y) 0) as [E0|E0]; [wp_steps; by apply Hno|]. specialize (Hyes E0).
  destruct (registered_facts e g en y Hw Hy E0) as (Hq & (x & Hx & _) & Hin1 & Hin2). apply wp_bind.
  eapply (wp_unlink_entry HR); [exact Hz|rewrite E2; by apply (rep_is_queue HR)|rewrite E1; apply (rep_is_task HR); by exists x|by rewrite E2|by rewrite E1|].
  rewrite E1, E2. fold (delisted (e_queue y) en (e_task y) g). fold (finish_lists en y g). intros s1 H1.
  apply wp_bind, (wp_thread_current H1); [done|]. unfold finish_state in Hyes. cbv zeta in Hyes. change (tp (upd_entry en (fun _ => zero_entry) e)) with (tp e).
  destruct (e_task y =? tp e); cbn [negb andb] in *; [|wp_steps; by apply Hyes].
  apply wp_bind. eapply (wp_task_get H1); [exact Hx|]. intros w Hw' Ew.
  assert (t_state w = t_state x) as -> by (by rewrite <- Ew). rewrite (task_head H1 _ _ Hw').
  unfold is_waiting in Hyes. rewrite Hx in Hyes.
  assert (El : l_task (finish_lists en y g) (e_task y) = without en (l_task g (e_task y))) by apply set_list_eq. rewrite El.
  assert (Hnz : forall i L, without en (l_task g (e_task y)) = i :: L -> i <> 0).
  { intros i L E. apply (tasked_entry HR (e_task y)); [apply (rep_is_task HR); by exists x|].
    assert (i ∈ without en (l_task g (e_task y))) as [? _]%elem_of_without by (rewrite E; set_solver). done. }
  destruct (bool_decide (t_state x = THREAD_WAITING)); cbn [andb] in *; [|wp_steps; by apply Hyes].
  destruct (without en (l_task g (e_task y))) as [|i L].
  - rewrite bool_decide_true in Hyes by done. cbn [Z.eqb when]. eapply (wp_task_core H1); [exact Hx|done|]. exact Hyes.
  - rewrite bool_decide_false in Hyes by done. rewrite (proj2 (Z.eqb_neq i 0) (Hnz i L eq_refl)). cbn [when]. wp_steps. by apply Hyes.
Qed.

Lemma finish_state_tasks en y e g :
  (finish_state en y e g).(tasks) = e.(tasks) \/
  ((finish_state en y e g).(tasks) = alter (set_t_state THREAD_RUNNING) y.(e_task) e.(tasks) /\ y.(e_task) = e.(tp) /\
   is_waiting e e.(tp) = true /\ without en (g.(l_task) y.(e_task)) = []).
Proof.
  unfold finish_state. cbv zeta. destruct (Z.eqb_spec (e_task y) (tp e)) as [Et|]; [|by left]. rewrite Et.
  destruct (is_waiting e (tp e)) eqn:Ew; [|by left]. cbn [andb]. destruct (bool_decide _) eqn:Eb; [|by left].
  apply bool_decide_eq_true in Eb. by right.
Qed.

Lemma finish_state_rest en y e g :
  finish_state en y e g = set_tasks (finish_state en y e g).(tasks) (upd_entry en (fun _ => zero_entry) e).
Proof.
  unfold finish_state. cbv zeta. set (b := (e_task y =? tp e) && is_waiting e (e_task y) && bool_decide (without en (l_task g (e_task y)) = [])).
  clearbody b. destruct b; [done|by destruct e].
Qed.

Lemma wait_inv_finish e g en y :
  wait_inv e g -> e.(entries) !! en = Some y -> y.(e_queue) <> 0 -> wait_inv (finish_state en y e g) (finish_lists en y g).
Proof.
  intros Hw Hy Hq. destruct (registered_facts e g en y Hw Hy Hq) as (Hiq & (x & Hx & _) & Hin1 & Hin2). pose proof Hw as [[N1 N2] W1 W2 W3].
  eapply (wait_inv_same (upd_entry en (fun _ => zero_entry) e) _ (finish_lists en y g)).
  2: { destruct (finish_state_tasks en y e g) as [E|(E & _)]; [by apply same_view_refl|by eapply same_view_upd; [|exact E]]. }
  2-3: by rewrite finish_state_rest.
  2-3: done.
  assert (Hent : forall i, entries (upd_entry en (fun _ => zero_entry) e) !! i = if decide (i = en) then Some zero_entry else entries e !! i).
  { intros i. sched_simpl. rewrite lookup_alter. case_decide as E; [subst; by rewrite decide_True, Hy|by rewrite decide_False]. }
  constructor.
  - done.
  - intros k i Hk. change (is_queue (queues e) k) in Hk. cbn [l_queue finish_lists delisted set_l_queue]. setoid_rewrite Hent. unfold set_list.
    destruct (decide (k = e_queue y)) as [->|Hkq].
    + rewrite elem_of_without, (W1 _ i Hk). destruct (decide (i = en)) as [->|Hi]; [|naive_solver].
      split; [by intros [_ ?]|]. intros (? & [= <-] & E). by destruct Hq.
    + rewrite (W1 k i Hk). destruct (decide (i = en)) as [->|Hi]; [|done]. split; [intros (? & ? & ?); congruence|].
      intros (? & [= <-] & <-). destruct Hk as [? Hk]. unfold zero_entry in Hk. cbn in Hk. congruence.
  - intros t i Ht. change (is_task (tasks e) t) in Ht. cbn [l_task finish_lists delisted set_l_queue set_l_task]. setoid_rewrite Hent. unfold set_list.
    assert (Ht0 : t <> 0) by (intros ->; destruct Ht; congruence).
    destruct (decide (t = e_task y)) as [->|Hne].
    + rewrite elem_of_without, (W2 _ i Ht). destruct (decide (i = en)) as [->|Hi]; [|naive_solver].
      split; [by intros [_ ?]|]. intros (? & [= <-] & E). by destruct Ht0.
    + rewrite (W2 t i Ht). destruct (decide (i = en)) as [->|Hi]; [|done]. split; [intros (? & ? & ?); congruence|].
      intros (? & [= <-] & E). by destruct Ht0.
  - intros i z. rewrite Hent. destruct (decide (i = en)) as [->|Hi]; [intros [= <-]; by left|]. apply W3.
Qed.

(** The current thread withdraws one of its registrations. *)
Lemma inv_finish s e g en y :
  sched_inv s e g -> e.(entries) !! en = Some y -> y.(e_queue) <> 0 -> y.(e_task) = e.(tp) ->
  inv (finish_state en y e g) (finish_lists en y g).
Proof.
  intros HI Hy Hq Et. destruct (cur_task HI) as (x & Hx & Hok & _). pose proof HI as [HR [[A1 A2 A3 A4] Hw Hi Hmem]].
  pose proof (finish_state_rest en y e g) as Er. destruct (finish_state_tasks en y e g) as [E|(E & _ & Hwt & Hnil)].
  - rewrite E in Er. constructor.
    + rewrite Er. constructor; try done. intros t z Hz. change (tasks e !! t = Some z) in Hz. pose proof (A4 t z Hz) as Hokz.
      destruct (decide (t = tp e)) as [->|Hne].
      2: { eapply thread_ok_same; [exact Hokz|done..|]. cbn [l_task finish_lists delisted set_l_queue set_l_task]. by rewrite set_list_ne by congruence. }
      rewrite Hx in Hz. injection Hz as <-. destruct Hok as [B1 B2 B3 B4 B5 B6 B7 B8 B9 B10 B11].
      assert (El : l_task (finish_lists en y g) (tp e) = without en (l_task g (tp e))).
      { cbn [l_task finish_lists delisted set_l_queue set_l_task]. rewrite Et. apply set_list_eq. }
      constructor; rewrite ?El; try done.
      * intros Hwait Hnil. unfold finish_state in E. cbv zeta in E. rewrite Et, Z.eqb_refl in E. unfold is_waiting in E. rewrite Hx in E.
        rewrite !bool_decide_true in E by done. cbn [andb] in E. apply (f_equal (fun m => t_state <$> m !! tp e)) in E.
        revert E. sched_simpl. rewrite lookup_alter_eq, Hx. intros [= E]. congruence.
      * intros Hz. by rewrite (B9 Hz).
    + by apply wait_inv_finish.
    + rewrite Er. eapply ids_inv_same; [exact Hi|by apply same_view_refl|done|done].
    + rewrite Er. eapply mem_inv_same; [exact Hmem|by apply same_view_refl|done|done|apply Hmem|done|done].
  - rewrite E in Er. rewrite Et in *. constructor.
    + rewrite Er. constructor; try done. intros t z. sched_simpl. rewrite lookup_alter. destruct (decide (tp e = t)) as [<-|Hne].
      2: { intros Hz. eapply thread_ok_same; [by apply A4|done..|]. cbn [l_task finish_lists delisted set_l_queue set_l_task]. by rewrite set_list_ne by congruence. }
      rewrite Hx. intros [= <-]. unfold is_waiting in Hwt. rewrite Hx in Hwt. apply bool_decide_eq_true in Hwt.
      destruct Hok as [B1 B2 B3 B4 B5 B6 B7 B8 B9 B10 B11].
      assert (El : l_task (finish_lists en y g) (tp e) = []).
      { cbn [l_task finish_lists delisted set_l_queue set_l_task]. rewrite Et. by rewrite set_list_eq. }
      constructor; rewrite ?El; cbn [t_state set_t_state t_is_idle t_entry tp boot_idle_thread
        upd_task upd_entry set_tasks set_entries l_all l_run l_zombies finish_lists delisted set_l_queue set_l_task]; try done.
      * rewrite B2, Hwt. split; intros []; discriminate.
      * rewrite B3, Hwt. split; discriminate.
      * intros _. by left.
      * intros _. by left.
      * intros _. apply B10. congruence.
    + by apply wait_inv_finish.
    + rewrite Er. eapply ids_inv_same; [exact Hi|by apply (same_view_upd _ (tp e) (set_t_state THREAD_RUNNING))|done|done].
    + rewrite Er. eapply mem_inv_same; [exact Hmem|by apply (same_view_upd _ (tp e) (set_t_state THREAD_RUNNING))|done|done|apply Hmem|done|done].
Qed.

(** *** Cancelling all registrations of a thread *)

(** Some of the registrations of [t] have been withdrawn; [l_task g' t] are left. *)
Record cancelling (t : Z) (e e' : sched) (g g' : lists) : Prop := {
  cn_wait : wait_inv e' g';
  cn_tasks : e'.(tasks) = e.(tasks) \/ (e'.(tasks) = alter (set_t_state THREAD_RUNNING) t e.(tasks) /\ g'.(l_task) t = []);
  cn_rest : e' = set_tasks e'.(tasks) (set_entries e'.(entries) e);
  cn_entries : forall i, e'.(entries) !! i = (fun y => if decide (y.(e_task) = t /\ i ∉ g'.(l_task) t) then zero_entry else y) <$> e.(entries) !! i;
  cn_lists : g'.(l_all) = g.(l_all) /\ g'.(l_run) = g.(l_run) /\ g'.(l_zombies) = g.(l_zombies);
  cn_others : forall u, u <> t -> g'.(l_task) u = g.(l_task) u;
}.

Lemma cancelling_start t e g : wait_inv e g -> is_task e.(tasks) t -> cancelling t e e g g.
Proof.
  intros Hw Ht. constructor; [done|by left|by destruct e| |done|done]. intros i. destruct (entries e !! i) as [y|] eqn:Hy; [|done]. cbn.
  rewrite decide_False; [done|]. intros [E Hi]. apply Hi. apply (wi_task _ _ Hw t i Ht). by exists y.
Qed.

Lemma cancelling_step t e e' g g' en y L :
  cancelling t e e' g g' -> e'.(entries) !! en = Some y -> is_task e'.(tasks) t -> g'.(l_task) t = en :: L -> NoDup (en :: L) ->
  cancelling t e (finish_state en y e' g') g (finish_lists en y g') /\ (finish_lists en y g').(l_task) t = L.
Proof.
  intros [C1 C2 C3 C4 C5 C6] Hy Ht El Hnd.
  assert (Hin : en ∈ l_task g' t) by (rewrite El; set_solver).
  assert (Ety : e_task y = t) by (apply (wi_task _ _ C1 t en Ht) in Hin as (y' & Hy' & <-); congruence).
  assert (Hq : e_queue y <> 0).
  { intros E. destruct (wi_entry _ _ C1 en y Hy) as [[E0 _]|(Hq & _)].
    - destruct Ht as [x Hx]. rewrite <- Ety, E0 in Hx. destruct (wi_null _ _ C1). congruence.
    - rewrite E in Hq. destruct Hq as [? Hq]. destruct (wi_null _ _ C1). congruence. }
  assert (El' : l_task (finish_lists en y g') t = L).
  { cbn [l_task finish_lists delisted set_l_queue set_l_task]. rewrite Ety, set_list_eq, El. apply (without_split en [] L Hnd). }
  split; [|done]. constructor.
  - by apply wait_inv_finish.
  - rewrite El'. destruct C2 as [E2|[E2 E2']]; [|by rewrite El in E2'].
    destruct (finish_state_tasks en y e' g') as [E|(E & _ & _ & Hnil)]; rewrite E, E2; [by left|right].
    rewrite Ety in *. split; [done|]. rewrite El in Hnil. pose proof (without_split en [] L Hnd) as Ew. cbn [app] in Ew. by rewrite <- Ew.
  - rewrite finish_state_rest. rewrite C3 at 2. done.
  - intros i. rewrite El'. assert (entries (finish_state en y e' g') !! i = if decide (i = en) then Some zero_entry else entries e' !! i) as ->.
    { rewrite finish_state_rest. sched_simpl. rewrite lookup_alter. case_decide as E; [subst; by rewrite decide_True, Hy|by rewrite decide_False]. }
    specialize (C4 i). rewrite El in C4. destruct (decide (i = en)) as [->|Hi].
    + rewrite Hy in C4. destruct (entries e !! en) as [y0|]; [|done]. cbn in C4 |- *. injection C4 as C4.
      rewrite decide_False in C4 by set_solver. subst y0. rewrite decide_True; [done|]. split; [done|]. by apply NoDup_cons in Hnd as [? _].
    + rewrite C4. destruct (entries e !! i) as [y0|]; [|done]. cbn. do 2 f_equal. apply decide_ext. set_solver.
  - exact C5.
  - intros u Hu. rewrite <- C6 by done. cbn [l_task finish_lists delisted set_l_queue set_l_task]. by rewrite Ety, set_list_ne.
Qed.

Lemma task_list_fits s e g t : rep s e g -> is_task e.(tasks) t -> (length (g.(l_task) t) <= size s.(entries))%nat.
Proof.
  intros HR Ht%(rep_is_task HR). pose proof (ds_nodup (rp_task _ _ _ HR) t Ht) as Hnd.
  rewrite <- (size_dom (entries s)), <- (size_list_to_set (C := gset Z) (l_task g t)) by done. apply subseteq_size.
  intros i Hi%elem_of_list_to_set. destruct (tasked_entry HR t i Ht Hi) as [_ [x Hx]]. apply elem_of_dom. by exists x.
Qed.

Lemma wp_cancel s e g t Q :
  rep s e g -> e.(threading_started) <> 0 -> wait_inv e g -> is_task e.(tasks) t ->
  (forall s' e' g', rep s' e' g' -> cancelling t e e' g g' -> g'.(l_task) t = [] -> Q tt s') ->
  wp (wait_queue_cancel_locked t) Q s.
Proof.
  intros HR Hst Hw Ht HQ. unfold wait_queue_cancel_locked. wp_steps.
  apply (wp_loop_list (fun L (_ : unit) s' => exists e' g', rep s' e' g' /\ cancelling t e e' g g' /\ g'.(l_task) t = L)) with (L := l_task g t).
  - intros [] s' (e' & g' & H' & Hc & El). destruct (cn_tasks _ _ _ _ _ Hc) as [E|[E _]];
      (assert (is_task (tasks e') t) as [x Hx] by (rewrite E; unfold is_task; rewrite ?lookup_alter_eq, ?fmap_is_Some; exact Ht));
      (apply wp_bind; eapply (wp_task_get H'); [exact Hx|]; intros y Hy _; rewrite (task_head H' _ _ Hy), El; cbn; wp_steps; by eapply HQ).
  - intros i L [] s' (e' & g' & H' & Hc & El).
    assert (Ht' : is_task (tasks e') t).
    { destruct (cn_tasks _ _ _ _ _ Hc) as [E|[E _]]; rewrite E; [done|]. unfold is_task. rewrite lookup_alter_eq, fmap_is_Some. exact Ht. }
    pose proof Ht' as [x Hx]. apply wp_bind. eapply (wp_task_get H'); [exact Hx|]. intros y Hy _. rewrite (task_head H' _ _ Hy), El.
    assert (Hi : i ∈ l_task g' t) by (rewrite El; set_solver).
    destruct (tasked_entry H' t i) as [Hi0 [z Hz]]; [by apply (rep_is_task H')|done|]. rewrite (proj2 (Z.eqb_neq i 0) Hi0). apply wp_bind.
    assert (Hz' := entry_rep H' i z Hz).
    assert (Hnd : NoDup (i :: L)) by (rewrite <- El; apply (ds_nodup (rp_task _ _ _ H')); by apply (rep_is_task H')).
    destruct (cancelling_step t e e' g g' i _ L Hc Hz' Ht' El Hnd) as [Hc' El'].
    eapply (wp_finish s' e' g'); [exact H'|rewrite (cn_rest _ _ _ _ _ Hc); exact Hst|apply Hc|exact Hz'|..].
    + intros Hq. exfalso. apply (wi_task _ _ (cn_wait _ _ _ _ _ Hc) t i Ht') in Hi as (w & Hw' & Ew). rewrite Hz' in Hw'. injection Hw' as <-.
      destruct (wi_entry _ _ (cn_wait _ _ _ _ _ Hc) i _ Hz') as [[E0 _]|(Hq' & _)].
      * rewrite <- Ew, E0 in Hx. destruct (wi_null _ _ (cn_wait _ _ _ _ _ Hc)). congruence.
      * rewrite Hq in Hq'. destruct Hq' as [? Hq']. destruct (wi_null _ _ (cn_wait _ _ _ _ _ Hc)). congruence.
    + intros _ s2 H2. wp_steps. by eexists _, _.
  - exists e, g. split; [done|]. split; [by apply cancelling_start|done].
  - pose proof (task_list_fits s e g t HR Ht). lia.
Qed.

(** ** Wake-up *)

Lemma wp_request_resched s e g Q :
  rep s e g -> (forall s', rep s' (set_need_resched 1 e) g -> Q tt s') -> wp thread_request_resched Q s.
Proof.
  intros HR HQ. unfold thread_request_resched. apply wp_bind, (wp_irq_save HR). intros s1 H1. apply wp_bind, (wp_modify_core H1); [done|done|].
  intros s2 H2. apply (wp_irq_restore H2). intros s3 H3. apply HQ. rewrite <- (irq_pair e). exact H3.
Qed.

Lemma is_waiting_get e t x : e.(tasks) !! t = Some x -> is_waiting e t = bool_decide (x.(t_state) = THREAD_WAITING).
Proof. unfold is_waiting. by intros ->. Qed.

Lemma waiting_task s e g t x :
  sched_inv s e g -> e.(tasks) !! t = Some x -> x.(t_state) = THREAD_WAITING -> t ∉ g.(l_run) /\ t <> 0 /\ t <> e.(boot_idle_thread).
Proof.
  intros HI Hx Hst. pose proof (si_threads _ _ (iv_state _ _ (proj2 HI)) t x Hx) as [B1 B2 B3 B4 B5 B6 B7 B8 B9 B10 B11]. split_and!.
  - rewrite B2, Hst. by intros [? _].
  - intros ->. destruct (wi_null _ _ (iv_wait _ _ (proj2 HI))). congruence.
  - intros E. destruct (B7 E); congruence.
Qed.

Lemma wp_wake_waiter s e g en y x Q :
  sched_inv s e g -> e.(entries) !! en = Some y -> e.(tasks) !! y.(e_task) = Some x ->
  (forall s', rep s' (wake_entry (e, g) en).1 (wake_entry (e, g) en).2 -> Q (is_waiting e y.(e_task)) s') ->
  wp (wake_waiter_locked en) Q s.
Proof.
  intros HI Hy Hx HQ. pose proof (rep_of HI) as HR. unfold wake_waiter_locked. apply wp_bind. eapply (wp_entry_get HR); [exact Hy|]. intros z _ Ez.
  assert (e_task z = e_task y) as -> by (by rewrite <- Ez). cbv zeta. apply wp_bind. eapply (wp_task_get HR); [exact Hx|]. intros w _ Ew.
  assert (t_state w = t_state x) as -> by (by rewrite <- Ew).
  unfold wake_entry in HQ. cbn [fst] in HQ. assert (waiter e en = e_task y) as E by (unfold waiter; by rewrite Hy). rewrite E in HQ.
  rewrite (is_waiting_get _ _ _ Hx) in HQ. destruct (decide (t_state x = THREAD_WAITING)) as [Hst|Hst].
  2: { rewrite bool_decide_true by done. wp_steps. rewrite bool_decide_false in HQ by done. by apply HQ. }
  rewrite bool_decide_false by tauto. rewrite bool_decide_true in HQ by done. destruct (waiting_task s e g _ x HI Hx Hst) as (Hnr & Hn0 & _).
  apply wp_bind, (wp_current HI). apply wp_bind. unfold woken in HQ. destruct (e_task y =? tp e).
  - eapply (wp_task_core HR); [exact Hx|done|]. intros s1 H1. wp_steps. by apply HQ.
  - apply wp_bind. eapply (wp_task_core HR); [exact Hx|done|]. intros s1 H1. apply wp_bind.
    apply (wp_sched_enqueue H1); [done|done|sched_simpl; unfold is_task; by rewrite lookup_alter_eq, Hx; eexists|]. intros s2 H2.
    eapply wp_request_resched; [exact H2|]. intros s3 H3. wp_steps. by apply HQ.
Qed.

Lemma inv_woken s e g t x :
  sched_inv s e g -> e.(tasks) !! t = Some x -> x.(t_state) = THREAD_WAITING -> inv (woken t (e, g)).1 (woken t (e, g)).2.
Proof.
  intros HI Hx Hst. destruct (waiting_task s e g t x HI Hx Hst) as (Hnr & Hn0 & Hnb). destruct HI as [HR [[A1 A2 A3 A4] Hw Hi Hmem]].
  pose proof (A4 _ _ Hx) as [B1 B2 B3 B4 B5 B6 B7 B8 B9 B10 B11]. unfold woken. destruct (Z.eqb_spec t (tp e)) as [Et|Et]; cbn [fst snd].
  - constructor; [constructor; try done|..].
    + intros u z. sched_simpl. rewrite lookup_alter. destruct (decide (t = u)) as [<-|Hne]; [|intros Hz; by eapply thread_ok_same; [by apply A4|..]].
      rewrite Hx. intros [= <-]. constructor; cbn [t_state set_t_state t_is_idle t_entry tp boot_idle_thread upd_task set_tasks]; try done.
      * rewrite B1, Hst. split; intros _; discriminate.
      * rewrite B2, Hst. split; intros []; discriminate.
      * rewrite B3, Hst. split; discriminate.
      * intros _. by left.
      * intros [?|[?|?]]; done.
      * intros _. apply B10. congruence.
    + eapply wait_inv_same; [exact Hw|by apply (same_view_upd _ t (set_t_state THREAD_RUNNING))|done..].
    + eapply ids_inv_same; [exact Hi|by apply (same_view_upd _ t (set_t_state THREAD_RUNNING))|done..].
    + eapply mem_inv_same; [exact Hmem|by apply (same_view_upd _ t (set_t_state THREAD_RUNNING))|done|done|apply Hmem|done|done].
  - constructor; [constructor; try done|..].
    + intros u z. sched_simpl. rewrite lookup_alter. destruct (decide (t = u)) as [<-|Hne].
      * rewrite Hx. intros [= <-]. constructor; cbn [t_state set_t_state t_is_idle t_entry tp boot_idle_thread upd_task set_tasks
          set_need_resched l_all l_run l_zombies l_task set_l_run]; try done.
        -- rewrite B1, Hst. split; intros _; discriminate.
        -- split; [done|]. intros _. set_solver.
        -- rewrite B3, Hst. split; discriminate.
        -- intros [?|[?|?]]; done.
        -- intros _. apply B10. congruence.
      * intros Hz. eapply thread_ok_same; [by apply A4|done..| |done|done]. cbn [l_run set_l_run]. set_solver.
    + eapply wait_inv_same; [exact Hw|by apply (same_view_upd _ t (set_t_state THREAD_RUNNABLE))|done..].
    + eapply ids_inv_same; [exact Hi|by apply (same_view_upd _ t (set_t_state THREAD_RUNNABLE))|done..].
    + eapply mem_inv_same; [exact Hmem|by apply (same_view_upd _ t (set_t_state THREAD_RUNNABLE))|done|done|apply Hmem|done|done].
Qed.

Lemma inv_wake_entry s e g en y x :
  sched_inv s e g -> e.(entries) !! en = Some y -> e.(tasks) !! y.(e_task) = Some x ->
  inv (wake_entry (e, g) en).1 (wake_entry (e, g) en).2.
Proof.
  intros HI Hy Hx. unfold wake_entry. cbn [fst]. assert (waiter e en = e_task y) as -> by (unfold waiter; by rewrite Hy).
  rewrite (is_waiting_get _ _ _ Hx). destruct (bool_decide _) eqn:E; [|apply HI]. apply bool_decide_eq_true in E. by eapply inv_woken.
Qed.

(** What no wake-up changes. *)
Lemma woken_rest t e g :
  let '(e', g') := woken t (e, g) in
  e'.(entries) = e.(entries) /\ e'.(queues) = e.(queues) /\ e'.(tp) = e.(tp) /\ g'.(l_queue) = g.(l_queue) /\ irq e' = irq e /\
  (forall u, is_task e'.(tasks) u <-> is_task e.(tasks) u).
Proof.
  unfold woken. destruct (t =? tp e); split_and!; try done; intros u; sched_simpl; unfold is_task; rewrite lookup_alter;
    case_decide; [subst; by rewrite fmap_is_Some|done|subst; by rewrite fmap_is_Some|done].
Qed.

Lemma wake_entry_rest en e g :
  let '(e', g') := wake_entry (e, g) en in
  e'.(entries) = e.(entries) /\ e'.(queues) = e.(queues) /\ e'.(tp) = e.(tp) /\ g'.(l_queue) = g.(l_queue) /\ irq e' = irq e /\
  (forall u, is_task e'.(tasks) u <-> is_task e.(tasks) u).
Proof. unfold wake_entry. cbn [fst]. destruct (is_waiting e (waiter e en)); [apply woken_rest|done]. Qed.

Lemma woken_irq t e g v : woken t (set_irq v e, g) = (set_irq v (woken t (e, g)).1, (woken t (e, g)).2).
Proof. unfold woken. change (tp (set_irq v e)) with (tp e). by destruct (t =? tp e). Qed.

Lemma wake_entry_irq en e g v : wake_entry (set_irq v e, g) en = (set_irq v (wake_entry (e, g) en).1, (wake_entry (e, g) en).2).
Proof.
  unfold wake_entry. cbn [fst]. change (is_waiting (set_irq v e) (waiter (set_irq v e) en)) with (is_waiting e (waiter e en)).
  change (waiter (set_irq v e) en) with (waiter e en). destruct (is_waiting e (waiter e en)); [apply woken_irq|done].
Qed.

Lemma foldl_wake_irq L e g v : foldl wake_entry (set_irq v e, g) L = (set_irq v (foldl wake_entry (e, g) L).1, (foldl wake_entry (e, g) L).2).
Proof.
  revert e g. induction L as [|en L IH]; intros e g; [done|]. cbn [foldl]. rewrite wake_entry_irq. destruct (wake_entry (e, g) en). apply IH.
Qed.

Lemma foldl_wake_irq_same L e g : irq (foldl wake_entry (e, g) L).1 = irq e.
Proof.
  revert e g. induction L as [|en L IH]; intros e g; [done|]. cbn [foldl]. pose proof (wake_entry_rest en e g) as H.
  destruct (wake_entry (e, g) en) as [e' g']. rewrite IH. apply H.
Qed.

(** The queue in the middle of a walk. *)
Lemma queue_next s e g q L1 i L2 x :
  rep s e g -> is_queue s.(queues) q -> g.(l_queue) q = L1 ++ i :: L2 -> s.(entries) !! i = Some x ->
  i <> 0 /\ x.(e_next) = match L2 with [] => 0 | j :: _ => j end.
Proof.
  intros HR Hq EL Hx. destruct (ds_heads (rp_queue _ _ _ HR) q Hq) as (h & _ & Hd). rewrite EL in Hd.
  destruct (dll_split _ _ _ _ _ _ _ Hd) as (n & Hl & Hd2 & Hi). split; [done|]. unfold qlinks in Hl. rewrite Hx in Hl. injection Hl as _ ->.
  destruct L2; [done|]. by destruct Hd2.
Qed.

Lemma queued_waiter s e g q i :
  sched_inv s e g -> is_queue e.(queues) q -> i ∈ g.(l_queue) q ->
  exists y x, e.(entries) !! i = Some y /\ e.(tasks) !! y.(e_task) = Some x.
Proof.
  intros HI Hq Hi. pose proof (iv_wait _ _ (proj2 HI)) as Hw. apply (wi_queue _ _ Hw q i Hq) in Hi as (y & Hy & E). exists y.
  destruct (wi_entry _ _ Hw i y Hy) as [[_ E0]|(_ & x & Hx & _)]; [|by exists x].
  exfalso. rewrite <- E, E0 in Hq. destruct Hq as [? Hq]. destruct (wi_null _ _ Hw). congruence.
Qed.

Lemma queue_list_fits s e g q : rep s e g -> is_queue s.(queues) q -> (length (g.(l_queue) q) <= size s.(entries))%nat.
Proof.
  intros HR Hq. pose proof (ds_nodup (rp_queue _ _ _ HR) q Hq) as Hnd.
  rewrite <- (size_dom (entries s)), <- (size_list_to_set (C := gset Z) (l_queue g q)) by done. apply subseteq_size.
  intros i Hi%elem_of_list_to_set. destruct (queued_entry HR q i Hq Hi) as [_ [x Hx]]. apply elem_of_dom. by exists x.
Qed.

Lemma wp_wake_one s e g q Q :
  sched_inv s e g -> is_queue e.(queues) q ->
  (forall s', rep s' (wake_one_state q e g).1 (wake_one_state q e g).2 -> Q tt s') -> wp (wait_queue_wake_one q) Q s.
Proof.
  intros HI Hq HQ. unfold wait_queue_wake_one. apply wp_bind, (wp_irq_save (rep_of HI)). intros s1 H1.
  set (e1 := set_irq false e) in *. assert (Hinv : inv e1 g) by apply inv_irq, HI.
  assert (Hq1 : is_queue (queues s1) q) by (by apply (rep_is_queue H1)). destruct Hq1 as [qr Hqr].
  apply wp_bind. eapply wp_access; [exact Hqr|]. wp_steps. rewrite (queue_head H1 q qr Hqr).
  set (F := fun en => is_waiting e (waiter e en)).
  apply (wp_loop_list (fun L st s' => rep s' e1 g /\ st = match L with [] => 0 | i :: _ => i end /\
    (exists L1, g.(l_queue) q = L1 ++ L) /\ List.find F (g.(l_queue) q) = List.find F L)) with (L := l_queue g q).
  - intros st s' (H' & -> & _ & Ef). cbn [Z.eqb]. wp_steps. apply (wp_irq_restore H'). intros s2 H2. apply HQ.
    unfold wake_one_state. fold F. rewrite Ef. cbn [List.find fst snd]. unfold e1 in H2. by rewrite irq_pair in H2.
  - intros i L st s' (H' & -> & (L1 & EL) & Ef). assert (Hi : i ∈ l_queue g q) by (rewrite EL; set_solver).
    assert (HI' : sched_inv s' e1 g) by done.
    destruct (queued_waiter s' e1 g q i HI' Hq Hi) as (y & x & Hy & Hx). destruct (rep_entry H' i y Hy) as (z0 & Hz0 & _).
    destruct (queue_next s' e1 g q L1 i L z0 H' ltac:(by apply (rep_is_queue H')) EL Hz0) as [Hi0 _]. rewrite (proj2 (Z.eqb_neq i 0) Hi0).
    apply wp_bind. eapply wp_wake_waiter; [exact HI'|exact Hy|exact Hx|]. intros s2 H2. cbn [List.find] in Ef.
    assert (EF : F i = is_waiting e1 (e_task y)) by (unfold F, waiter; change (entries e) with (entries e1); by rewrite Hy).
    unfold wake_entry in H2. cbn [fst] in H2. change (is_waiting e1 (waiter e1 i)) with (F i) in H2. rewrite EF in Ef, H2.
    destruct (is_waiting e1 (e_task y)).
    + wp_steps. apply (wp_irq_restore H2). intros s3 H3. apply HQ. unfold wake_one_state. fold F. rewrite Ef.
      revert H3. change (waiter e1 i) with (waiter e i). unfold e1. rewrite woken_irq. cbn [fst snd]. rewrite irq_set_irq, set_irq_twice. cbn [orb].
      rewrite set_irq_same; [done|]. pose proof (woken_rest (waiter e i) e g) as Hr. destruct (woken (waiter e i) (e, g)). apply Hr.
    + cbn [fst snd] in H2. apply wp_bind. eapply (wp_entry_get H2); [exact Hy|]. intros z Hz _. wp_steps. split; [done|].
      destruct (queue_next s2 e1 g q L1 i L z H2 ltac:(by apply (rep_is_queue H2)) EL Hz) as [_ Hnx].
      split; [exact Hnx|]. split; [|done]. exists (L1 ++ [i]). by rewrite EL, <- app_assoc.
  - split; [done|]. split; [done|]. split; [by exists []|done].
  - pose proof (queue_list_fits s1 e1 g q H1 ltac:(by exists qr)). lia.
Qed.

Lemma wp_wake_all s e g q Q :
  sched_inv s e g -> is_queue e.(queues) q ->
  (forall s', rep s' (wake_all_state q e g).1 (wake_all_state q e g).2 -> inv (wake_all_state q e g).1 (wake_all_state q e g).2 -> Q tt s') ->
  wp (wait_queue_wake_all q) Q s.
Proof.
  intros HI Hq HQ. unfold wait_queue_wake_all. apply wp_bind, (wp_irq_save (rep_of HI)). intros s1 H1.
  set (e1 := set_irq false e) in *. assert (Hinv : inv e1 g) by apply inv_irq, HI.
  assert (Hq1 : is_queue (queues s1) q) by (by apply (rep_is_queue H1)). destruct Hq1 as [qr Hqr].
  apply wp_bind. eapply wp_access; [exact Hqr|]. wp_steps. rewrite (queue_head H1 q qr Hqr).
  apply (wp_loop_list (fun L st s' => exists e' g', rep s' e' g' /\ inv e' g' /\ st = match L with [] => 0 | i :: _ => i end /\
    e'.(queues) = e1.(queues) /\ g'.(l_queue) = g.(l_queue) /\ (exists L1, g.(l_queue) q = L1 ++ L) /\
    foldl wake_entry (e1, g) (g.(l_queue) q) = foldl wake_entry (e', g') L)) with (L := l_queue g q).
  - intros st s' (e' & g' & H' & Hi' & -> & _ & _ & _ & Ef). cbn [Z.eqb foldl] in *. wp_steps. apply (wp_irq_restore H'). intros s2 H2.
    unfold e1 in Ef. rewrite foldl_wake_irq in Ef. fold (wake_all_state q e g) in Ef. injection Ef as E1 E2.
    assert (Eq : set_irq (irq e' || irq e) e' = (wake_all_state q e g).1).
    { rewrite <- E1, irq_set_irq, set_irq_twice. cbn [orb]. apply set_irq_same. apply foldl_wake_irq_same. }
    apply HQ; rewrite <- Eq, E2; [done|]. by apply inv_irq.
  - intros i L st s' (e' & g' & H' & Hinv' & -> & Eq & Egq & (L1 & EL) & Ef). assert (HI' : sched_inv s' e' g') by done.
    assert (Hq' : is_queue (queues e') q) by (rewrite Eq; exact Hq). assert (EL' : l_queue g' q = L1 ++ i :: L) by (by rewrite Egq).
    destruct (queued_waiter s' e' g' q i HI' Hq') as (y & x & Hy & Hx); [rewrite EL'; set_solver|].
    destruct (rep_entry H' i y Hy) as (z0 & Hz0 & _).
    destruct (queue_next s' e' g' q L1 i L z0 H' ltac:(by apply (rep_is_queue H')) EL' Hz0) as [Hi0 _]. rewrite (proj2 (Z.eqb_neq i 0) Hi0).
    apply wp_bind. eapply wp_wake_waiter; [exact HI'|exact Hy|exact Hx|]. intros s2 H2.
    pose proof (inv_wake_entry s' e' g' i y x HI' Hy Hx) as Hinv2. pose proof (wake_entry_rest i e' g') as Hr. cbn [foldl] in Ef.
    destruct (wake_entry (e', g') i) as [e2 g2]. cbn [fst snd] in *. destruct Hr as (R1 & R2 & _ & R4 & _ & _).
    apply wp_bind. eapply (wp_entry_get H2); [by rewrite R1|]. intros z Hz _. wp_steps. exists e2, g2.
    assert (Hq2 : is_queue (queues e2) q) by (rewrite R2; exact Hq').
    destruct (queue_next s2 e2 g2 q L1 i L z H2 ltac:(by apply (rep_is_queue H2)) ltac:(by rewrite R4) Hz) as [_ Hnx].
    split_and!; try done; [by rewrite R2|by rewrite R4|]. exists (L1 ++ [i]). by rewrite EL, <- app_assoc.
  - exists e1, g. split_and!; try done. by exists [].
  - pose proof (queue_list_fits s1 e1 g q H1 ltac:(by exists qr)). lia.
Qed.

Lemma inv_wake_one s e g q :
  sched_inv s e g -> is_queue e.(queues) q -> inv (wake_one_state q e g).1 (wake_one_state q e g).2.
Proof.
  intros HI Hq. unfold wake_one_state. destruct (List.find _ _) as [i|] eqn:E; [|apply HI].
  apply List.find_some in E as [Hi Hw]. apply list_elem_of_In in Hi. destruct (queued_waiter s e g q i HI Hq Hi) as (y & x & Hy & Hx).
  unfold waiter in *. rewrite Hy in *. rewrite (is_waiting_get _ _ _ Hx) in Hw. apply bool_decide_eq_true in Hw. by eapply inv_woken.
Qed.

(** ** Waiting *)

(** The thread gives up the processor until it is woken, unless that has happened
    already. *)
Lemma wp_wait_locked s e g x Q :
  sched_inv s e g -> e.(tasks) !! e.(tp) = Some x ->
  ((irq e = true \/ e.(bh_running) <> 0 \/ e.(tp) = e.(boot_idle_thread) \/ g.(l_task) e.(tp) = [] \/ x.(t_state) = THREAD_ZOMBIE) -> Q (Some (-1)) s) ->
  (irq e = false -> e.(bh_running) = 0 -> x.(t_state) = THREAD_RUNNING -> Q (Some 0) s) ->
  (irq e = false -> e.(bh_running) = 0 -> x.(t_state) = THREAD_WAITING -> forall s', rep s' (schedule_state e g) (schedule_lists e g) -> Q None s') ->
  wp wait_queue_wait_locked Q s.
Proof.
  intros HI Hx Hno Hrun Hwait. pose proof (rep_of HI) as HR. destruct (cur_task HI) as (x' & Hx' & Hok & Hp0). rewrite Hx in Hx'. injection Hx' as <-.
  unfold wait_queue_wait_locked. apply wp_bind, (wp_current HI). apply wp_bind, (wp_irqs_enabled HR). apply wp_bind, (wp_gets_core HR); [done|].
  rewrite (proj2 (Z.eqb_neq (tp e) 0) Hp0), orb_false_r. destruct (irq e) eqn:Ei; [wp_steps; apply Hno; by left|].
  destruct (Z.eqb_spec (bh_running e) 0) as [Ebh|Ebh]; cbn [negb orb]; [|wp_steps; apply Hno; right; by left].
  apply wp_bind. eapply (wp_task_get HR); [exact Hx|]. intros y Hy Ey. rewrite (task_head HR _ _ Hy).
  assert (t_is_idle y = if decide (tp e = boot_idle_thread e) then 1 else 0) as -> by (rewrite <- (to_idle _ _ _ _ Hok), <- Ey; done).
  assert (t_state y = t_state x) as -> by (by rewrite <- Ey).
  destruct (decide (tp e = boot_idle_thread e)) as [Eb|Eb]; cbn [Z.eqb negb orb]; [wp_steps; apply Hno; tauto|].
  destruct (l_task g (tp e)) as [|i L] eqn:El; [cbn [Z.eqb orb]; wp_steps; apply Hno; tauto|].
  assert (Hi0 : i <> 0) by (apply (tasked_entry HR (tp e)); [by exists y|rewrite El; set_solver]). rewrite (proj2 (Z.eqb_neq i 0) Hi0). cbn [orb].
  destruct (to_cur _ _ _ _ Hok eq_refl) as [E|[E|E]].
  - rewrite (bool_decide_false (t_state x <> THREAD_RUNNING)) by tauto. rewrite andb_false_r, bool_decide_false by congruence. wp_steps. by apply Hrun.
  - rewrite (bool_decide_false (t_state x <> THREAD_WAITING)) by tauto. cbn [andb]. rewrite bool_decide_true by done.
    apply wp_bind. eapply wp_schedule; [exact HI|]. intros s1 H1. unfold after_schedule. apply wp_bind, (wp_gets_core H1); [done|].
    assert (Hne : bool_decide (l_run g = []) && (tp e =? boot_idle_thread e) = false).
    { rewrite (proj2 (Z.eqb_neq _ _) Eb). apply andb_false_r. }
    assert (tp (schedule_state e g) <> tp e) as Htp.
    { unfold schedule_state. rewrite Hne. destruct (switched_rest (irq e) (tp e) (next_thread e g) (set_need_resched 0 (set_irq false e))) as (-> & _).
      by destruct (next_task HI Hne) as (? & _ & _ & _ & ? & _). }
    rewrite (proj2 (Z.eqb_neq _ _) Htp). wp_steps. by apply Hwait.
  - rewrite !bool_decide_true by congruence. cbn [andb]. wp_steps. apply Hno. tauto.
Qed.

End wait_ops.
