(* ===== verification/ThreadNew.v ===== *)
(** * Thread creation

    New threads in the representation, [thread_alloc], [thread_prepare_user] and
    [thread_publish] on the state without links, and the invariant after them. *)

From S2P Require Import Prelude Lists Memory Slab MemoryInit Task Sched Wait Thread HeapIface SchedRep SchedLists WaitLists ThreadInv SchedOps WaitOps.

Open Scope Z_scope.

(** ** Threads come and go *)

Lemma dlls_weaken {K} `{EqDecision K} null (ok ok' : K -> Prop) lk hd L :
  dlls null ok lk hd L -> (forall k, ok' k -> ok k) -> dlls null ok' lk hd L.
Proof. intros [H1 H2 H3] E. constructor; intros; [apply H1|apply H2|eapply H3]; eauto. Qed.

Definition with_task (a : Z) (x : thread) (e : sched) : sched := set_tasks (<[a := x]> e.(tasks)) e.
Definition without_task (a : Z) (e : sched) : sched := set_tasks (delete a e.(tasks)) e.
(** A thread without registrations. *)
Definition no_waits (a : Z) (g : lists) : lists := set_l_task (set_list g.(l_task) a []) g.

Lemma rep_new_task s e g a x :
  rep s e g -> e.(tasks) !! a = None -> x.(t_wait_entries) = 0 -> rep (with_task a x s) (with_task a (core_thread x) e) (no_waits a g).
Proof.
  intros HR Ha Hx. assert (Has : tasks s !! a = None).
  { destruct (tasks s !! a) as [y|] eqn:E; [|done]. apply (task_rep HR) in E. congruence. }
  pose proof HR as [H1 H2 H3 H4 H5 H6 H7 H8].
  assert (Hne : forall fld h L, chain fld (tasks s) h L -> chain fld (<[a := x]> (tasks s)) h L).
  { intros fld h L Hc. eapply chain_ext; [|exact Hc]. intros i Hi. destruct (chain_task _ _ _ i Hc Hi) as [_ [y Hy]].
    unfold link. rewrite lookup_insert_ne; [done|]. congruence. }
  constructor; unfold with_task; sched_simpl; try done; try (by apply Hne).
  - rewrite erase_set_tasks, fmap_insert, <- H1. done.
  - constructor.
    + intros t Ht. cbn [l_task no_waits set_l_task]. unfold set_list. destruct (decide (t = a)) as [->|Hta].
      * exists 0. unfold link. by rewrite lookup_insert_eq, <- Hx.
      * unfold is_task in Ht. rewrite lookup_insert_ne in Ht by done. destruct (ds_heads H8 t Ht) as (h & Eh & Hd). exists h.
        unfold link. by rewrite lookup_insert_ne.
    + intros t Ht. cbn [l_task no_waits set_l_task]. unfold set_list. case_decide; [constructor|].
      unfold is_task in Ht. rewrite lookup_insert_ne in Ht by done. by apply (ds_nodup H8).
    + intros t t' i Ht Ht'. cbn [l_task no_waits set_l_task]. unfold set_list. unfold is_task in *.
      destruct (decide (t = a)); [set_solver|]. destruct (decide (t' = a)); [set_solver|].
      rewrite lookup_insert_ne in Ht, Ht' by done. by apply (ds_disjoint H8).
Qed.

Lemma rep_del_task s e g a :
  rep s e g -> a ∉ g.(l_all) -> a ∉ g.(l_run) -> a ∉ g.(l_zombies) -> rep (without_task a s) (without_task a e) g.
Proof.
  intros [H1 H2 H3 H4 H5 H6 H7 H8] N1 N2 N3.
  assert (Hc : forall fld h L, a ∉ L -> chain fld (tasks s) h L -> chain fld (delete a (tasks s)) h L).
  { intros fld h L Hn Hc. eapply chain_ext; [|exact Hc]. intros i Hi. unfold link. rewrite lookup_delete_ne; [done|]. by intros ->. }
  constructor; unfold without_task; sched_simpl; try done; try (by apply Hc).
  - rewrite erase_set_tasks, fmap_delete, <- H1. done.
  - assert (Hsub : forall k, is_task (delete a (tasks s)) k -> k <> a /\ is_task (tasks s) k).
    { intros k [y Hy]. apply lookup_delete_Some in Hy as [? Hy]. split; [congruence|by exists y]. }
    eapply dlls_ext; [eapply dlls_weaken; [exact H8|intros k Hk; by apply Hsub]|done| |done].
    intros k Hk. unfold link. rewrite lookup_delete_ne; [done|]. destruct (Hsub k Hk). congruence.
Qed.

Section new.
Context {hok : slabs -> Prop} {owned : slabs -> Z -> Z -> Prop} {static : slabs -> Z -> Prop}.
Context `{HL : !HeapLaws hok owned static}.
Abbreviation inv := (@inv hok owned static).
Abbreviation sched_inv := (@sched_inv hok owned static).

(** ** The invariant with a new thread *)

(** [a] is free in the heap [h] and allocated in [h'], next to what was there. *)
Record grown (h h' : slabs) (a z : Z) : Prop := {
  gr_ok : hok h';
  gr_irq : h'.(pages).(irq_on) = h.(pages).(irq_on);
  gr_new : a <> 0 /\ (16 | a);
  gr_owned : forall b y, owned h' b y <-> owned h b y \/ (b = a /\ y = z);
  gr_fresh : forall b y x, owned h b y -> b <= x < b + y -> ~ (a <= x < a + z);
  gr_static : forall x, static h' x <-> static h x;
}.

(** The same ranges are allocated. *)
Record same_ranges (h h' : slabs) : Prop := {
  sr_ok : hok h';
  sr_irq : h'.(pages).(irq_on) = h.(pages).(irq_on);
  sr_owned : forall b y, owned h' b y <-> owned h b y;
  sr_static : forall x, static h' x <-> static h x;
}.

Lemma grown_not_owned h h' a z : hok h -> grown h h' a z -> 0 < z -> forall y, ~ owned h a y.
Proof. intros Hh Hg Hz y Hy. destruct (hl_shape h a y Hh Hy) as (_ & ? & _). apply (gr_fresh _ _ _ _ Hg a y a Hy); lia. Qed.

Lemma grown_pos h h' a z : grown h h' a z -> 0 < a /\ 0 < z /\ a + z < 2 ^ 64.
Proof. intros Hg. apply (hl_shape h' a z); [apply Hg|]. apply Hg. by right. Qed.

(** A new block is no thread's memory. *)
Lemma grown_fresh_slot e h' a z t x sl :
  mem_inv e (hok := hok) (owned := owned) (static := static) -> grown e.(heap) h' a z -> e.(tasks) !! t = Some x ->
  t <> e.(boot_idle_thread) -> slot_addr t x sl <> Some a.
Proof.
  intros Hm Hg Hx Hb Ha. destruct (mi_owned _ Hm t x sl a Hx Hb Ha) as (y & Hy & _).
  destruct (grown_pos _ _ _ _ Hg) as (_ & Hz & _). by eapply (grown_not_owned _ _ _ _ (mi_heap _ Hm) Hg Hz).
Qed.

Lemma grown_not_boot e h' a z :
  mem_inv e (hok := hok) (owned := owned) (static := static) -> grown e.(heap) h' a z -> a <> e.(boot_idle_thread).
Proof.
  intros Hm Hg E. destruct (grown_pos _ _ _ _ Hg) as (_ & Hz & _).
  eapply (hl_static h' a z a); [apply Hg|apply Hg; rewrite E; apply Hm|apply Hg; by right|lia].
Qed.

Lemma grown_not_task e h' a z :
  mem_inv e (hok := hok) (owned := owned) (static := static) -> grown e.(heap) h' a z -> e.(tasks) !! a = None.
Proof.
  intros Hm Hg. destruct (tasks e !! a) as [x|] eqn:Hx; [|done]. exfalso.
  by apply (grown_fresh_slot e h' a z a x sl_tcb Hm Hg Hx (grown_not_boot e h' a z Hm Hg)).
Qed.

(** What the constructors guarantee of a thread [x] at [a] before anyone can see
    it; [h] is the heap and [tc] the trap contexts then. *)
Record new_ok (e : sched) (h : slabs) (tc : gmap Z trap_context) (a : Z) (x : thread) : Prop := {
  nw_addr : e.(tasks) !! a = None /\ a <> 0 /\ a <> e.(boot_idle_thread);
  nw_state : x.(t_state) = THREAD_NEW /\ x.(t_is_idle) = 0 /\ x.(t_context).(c_ra) = c_thread_bootstrap;
  nw_tid : x.(t_tid) = e.(next_tid) /\ e.(next_tid) <= INT32_MAX;
  nw_heap : hok h /\ (forall b, static h b <-> static e.(heap) b) /\ (forall b y, owned e.(heap) b y -> owned h b y);
  nw_slots : forall sl b, slot_addr a x sl = Some b -> exists z, owned h b z /\ slot_size x sl <= z;
  nw_inj : forall sl sl' b, slot_addr a x sl = Some b -> slot_addr a x sl' = Some b -> sl = sl';
  nw_fresh : forall t y sl sl' b, e.(tasks) !! t = Some y -> t <> e.(boot_idle_thread) -> slot_addr t y sl = Some b -> slot_addr a x sl' <> Some b;
  nw_top : x.(t_kstack_top) = x.(t_kstack_base) + THREAD_STACK_SIZE;
  nw_tc : x.(t_kind) = THREAD_USER -> x.(t_tc) = x.(t_kstack_top) - TRAP_CONTEXT_ALLOC_SIZE /\ is_Some (tc !! x.(t_tc));
  nw_tcs : forall p, is_Some (e.(tcs) !! p) -> is_Some (tc !! p);
}.

Definition created (a : Z) (x : thread) (h : slabs) (tc : gmap Z trap_context) (e : sched) : sched :=
  with_task a x (set_heap h (set_tcs tc (set_next_tid (e.(next_tid) + 1) e))).

Lemma created_task a x h tc e t y : (created a x h tc e).(tasks) !! t = Some y -> (t = a /\ y = x) \/ (t <> a /\ e.(tasks) !! t = Some y).
Proof. unfold created, with_task. sched_simpl. rewrite lookup_insert. case_decide; naive_solver. Qed.

Lemma mem_inv_new e a x h tc :
  mem_inv e (hok := hok) (owned := owned) (static := static) -> new_ok e h tc a x ->
  mem_inv (created a x h tc e) (hok := hok) (owned := owned) (static := static).
Proof.
  intros [M1 M2 M3 M4 M5 M6 M7] [(N1 & N1' & Nb) N2 N3 (N4 & N4s & N4o) N5 N6 N7 N8 N9 N10]. constructor.
  - done.
  - by apply N4s.
  - intros y Hy. apply created_task in Hy as [[E _]|[_ Hy]]; [by destruct Nb|by apply M3].
  - intros t y sl b Hy Hb Hs. apply created_task in Hy as [[-> ->]|[_ Hy]]; [by apply N5|].
    destruct (M4 t y sl b Hy Hb Hs) as (z & Hz & Hle). exists z. split; [by apply N4o|done].
  - intros t y sl t' y' sl' b Hy Hb Hs Hy' Hb' Hs'.
    apply created_task in Hy as [[-> ->]|[_ Hy]]; apply created_task in Hy' as [[-> ->]|[_ Hy']].
    + split; [done|]. by eapply N6.
    + by destruct (N7 t' y' sl' sl b Hy' Hb' Hs').
    + by destruct (N7 t y sl sl' b Hy Hb Hs).
    + by eapply M5.
  - intros t y Hy Hb. apply created_task in Hy as [[-> ->]|[_ Hy]]; [done|by apply (M6 t)].
  - intros t y Hy Hk. apply created_task in Hy as [[-> ->]|[_ Hy]]; [by apply N9|]. destruct (M7 t y Hy Hk). split; [done|by apply N10].
Qed.

Lemma inv_new s e g a x h tc : sched_inv s e g -> new_ok e h tc a x -> inv (created a x h tc e) (no_waits a g).
Proof.
  intros HI Hn. pose proof HI as [HR [[A1 A2 A3 A4] Hw Hi Hm]]. pose proof Hn as [(N1 & N1' & Nb) (Ns & Nidle & Nra) (Nt & Nmax) _ _ _ _ _ _ _].
  assert (Hna : forall L fld hd, chain fld (tasks s) hd L -> a ∉ L).
  { intros L fld hd Hc Hin. destruct (chain_task _ _ _ a Hc Hin) as [_ [y Hy]]. apply (task_rep HR) in Hy. congruence. }
  constructor.
  - constructor; try done. intros t y Hy. apply created_task in Hy as [[-> ->]|[Ht Hy]].
    + assert (El : l_task (no_waits a g) a = []) by apply set_list_eq.
      constructor; rewrite ?El; cbn [l_all l_run l_zombies no_waits set_l_task boot_idle_thread created with_task set_tasks set_heap set_tcs set_next_tid tp]; try congruence.
      * rewrite Ns. split; [|done]. intros Hin. by apply (Hna _ _ _ (rp_all _ _ _ HR)) in Hin.
      * rewrite Ns. split; [|by intros [? _]]. intros Hin. by apply (Hna _ _ _ (rp_run _ _ _ HR)) in Hin.
      * rewrite Ns. split; [|done]. intros Hin. by apply (Hna _ _ _ (rp_zombies _ _ _ HR)) in Hin.
      * by rewrite decide_False.
      * intros E. rewrite <- E in A2. by apply (Hna _ _ _ (rp_all _ _ _ HR)) in A2.
      * by right.
    + eapply thread_ok_same; [by apply A4|done..|]. cbn [l_task no_waits set_l_task]. by rewrite set_list_ne.
  - destruct Hw as [[W0 W0'] W1 W2 W3]. constructor.
    + split; [|done]. unfold created, with_task. sched_simpl. by rewrite lookup_insert_ne.
    + intros q i Hq. by apply W1.
    + intros t i Ht. cbn [l_task no_waits set_l_task]. unfold set_list. case_decide as E.
      * subst t. split; [set_solver|]. intros (y & Hy & Ey). exfalso. destruct (W3 i y Hy) as [[? _]|(_ & z & Hz & _)]; congruence.
      * apply W2. unfold is_task, created, with_task in *. revert Ht. sched_simpl. by rewrite lookup_insert_ne.
    + intros i y Hy. destruct (W3 i y Hy) as [?|(Hq & z & Hz & Hin)]; [by left|right]. split; [done|]. exists z. split; [|done].
      unfold created, with_task. sched_simpl. rewrite lookup_insert_ne; [done|congruence].
  - destruct Hi as [I1 I2 I3 I4]. unfold INT32_MAX in Nmax. constructor.
    + cbn [next_tid created with_task set_tasks set_heap set_tcs set_next_tid]. lia.
    + intros y Hy. apply created_task in Hy as [[E _]|[_ Hy]]; [by destruct Nb|by apply I2].
    + intros t y Hy Hb. cbn [next_tid created with_task set_tasks set_heap set_tcs set_next_tid].
      apply created_task in Hy as [[-> ->]|[_ Hy]]; [lia|]. specialize (I3 t y Hy Hb). lia.
    + assert (Hlt : forall t y, tasks e !! t = Some y -> t_tid y < next_tid e).
      { intros t y Hy. destruct (decide (t = boot_idle_thread e)) as [->|Hb]; [rewrite (I2 y Hy); lia|by apply (I3 t)]. }
      intros t y t' y' Hy Hy' E. apply created_task in Hy as [[-> ->]|[_ Hy]]; apply created_task in Hy' as [[-> ->]|[_ Hy']]; [done|..].
      * specialize (Hlt _ _ Hy'). lia.
      * specialize (Hlt _ _ Hy). lia.
      * by eapply I4.
  - by apply mem_inv_new.
Qed.

(** ** Heap calls *)

Record shrunk (h h' : slabs) (a : Z) : Prop := {
  sh_ok : hok h';
  sh_irq : h'.(pages).(irq_on) = h.(pages).(irq_on);
  sh_owned : forall b y, owned h' b y <-> owned h b y /\ b <> a;
  sh_static : forall x, static h' x <-> static h x;
}.

Lemma set_heap_self e : set_heap e.(heap) e = e.
Proof. by destruct e. Qed.

Lemma wp_heap_kmalloc s e g size Q :
  rep s e g -> hok e.(heap) -> 0 <= size < 2 ^ 64 -> (forall s', rep s' e g -> kmalloc size e.(heap) = Some (0, e.(heap)) -> Q 0 s') ->
  (forall s' h' a z, rep s' (set_heap h' e) g -> grown e.(heap) h' a z -> size <= z -> kmalloc size e.(heap) = Some (a, h') -> Q a s') ->
  wp (zoom (kmalloc size)) Q s.
Proof.
  intros HR Hh Hsz Hno Hyes. apply (wp_zoom_heap HR), wp_know. apply hl_kmalloc; [done|done|..].
  - intros Er s' H'. rewrite set_heap_self in H'. by apply Hno.
  - intros a z h' G1 G2 G3 G4 G5 G6 G7 G8 Er s' H'. by eapply (Hyes s' h' a z); [|constructor| |].
Qed.

(** The heap can serve the requests one after the other. *)
Fixpoint room_for (sizes : list Z) (h : slabs) : bool :=
  match sizes with
  | [] => true
  | size :: rest => match kmalloc size h with Some (a, h') => negb (a =? 0) && room_for rest h' | None => false end
  end.

Lemma room_for_none size rest h h' : kmalloc size h = Some (0, h') -> room_for (size :: rest) h = false.
Proof. intros E. cbn [room_for]. by rewrite E. Qed.

Lemma room_for_some size rest h a h' : kmalloc size h = Some (a, h') -> a <> 0 -> room_for (size :: rest) h = room_for rest h'.
Proof. intros E Ha. cbn [room_for]. rewrite E. by rewrite (proj2 (Z.eqb_neq a 0) Ha). Qed.

(** There are an id and memory for one more thread, after the blocks [sizes]. *)
Definition thread_room (sizes : list Z) (e : sched) : bool :=
  (e.(next_tid) <=? INT32_MAX) && room_for (sizes ++ [SIZEOF_THREAD; THREAD_STACK_SIZE]) e.(heap).

Lemma wp_heap_kfree s e g a z Q :
  rep s e g -> hok e.(heap) -> owned e.(heap) a z ->
  (forall s' h', rep s' (set_heap h' e) g -> shrunk e.(heap) h' a -> Q tt s') -> wp (zoom (kfree a)) Q s.
Proof.
  intros HR Hh Ha HQ. apply (wp_zoom_heap HR). eapply hl_kfree; [done|exact Ha|]. intros h' G1 G2 G3 G4 s' H'. by eapply (HQ s' h').
Qed.

Lemma grown_shrunk h h1 h2 a z : hok h -> grown h h1 a z -> shrunk h1 h2 a -> same_ranges h h2.
Proof.
  intros Hh Hg [S1 S2 S3 S4]. pose proof (grown_pos _ _ _ _ Hg) as (_ & Hz & _). constructor; [done| | |].
  - by rewrite S2, (gr_irq _ _ _ _ Hg).
  - intros b y. rewrite S3, (gr_owned _ _ _ _ Hg). split; [naive_solver|]. intros Hb. split; [by left|]. intros ->.
    by eapply (grown_not_owned _ _ _ _ Hh Hg Hz).
  - intros x. by rewrite S4, (gr_static _ _ _ _ Hg).
Qed.

Lemma inv_heap_tid e g h n :
  inv e g -> same_ranges e.(heap) h -> e.(next_tid) <= n <= 2 ^ 31 -> inv (set_heap h (set_next_tid n e)) g.
Proof.
  intros [[A1 A2 A3 A4] Hw [I1 I2 I3 I4] Hm] [S1 S2 S3 S4] Hn. constructor; [constructor; try done|..].
  - intros t x Hx. by eapply thread_ok_same; [by apply A4|..].
  - eapply wait_inv_same; [exact Hw|by apply same_view_refl|done..].
  - constructor; try done; cbn [next_tid set_heap set_next_tid]; [lia|]. intros t x Hx Hb. specialize (I3 t x Hx Hb). lia.
  - eapply mem_inv_same; [exact Hm|by apply same_view_refl|done..].
Qed.

Lemma inv_no_waits e g a : inv e g -> e.(tasks) !! a = None -> inv e (no_waits a g).
Proof.
  intros [[A1 A2 A3 A4] Hw Hi Hm] Ha.
  assert (El : forall t, is_task (tasks e) t -> l_task (no_waits a g) t = l_task g t).
  { intros t [x Hx]. cbn [l_task no_waits set_l_task]. apply set_list_ne. congruence. }
  constructor; [constructor; try done| |done|done].
  - intros t x Hx. eapply thread_ok_same; [by apply A4|done..|]. apply El. by exists x.
  - eapply wait_inv_same; [exact Hw|by apply same_view_refl|done..].
Qed.

(** ** Allocation *)

Lemma wp_next_tid s e g Q :
  rep s e g -> ids_inv e -> (INT32_MAX < e.(next_tid) -> forall s', rep s' e g -> Q (-1) s') ->
  (e.(next_tid) <= INT32_MAX -> forall s', rep s' (set_next_tid (e.(next_tid) + 1) e) g -> Q e.(next_tid) s') ->
  wp thread_next_tid Q s.
Proof.
  intros HR [I1 _ _ _] Hno Hyes. unfold thread_next_tid. apply wp_bind, (wp_irq_save HR). intros s1 H1.
  apply wp_bind, (wp_gets_core H1); [done|]. change (next_tid (set_irq false e)) with (next_tid e). unfold INT32_MAX in *.
  destruct (Z.leb_spec (next_tid e) (2 ^ 31 - 1)).
  - apply wp_bind, wp_bind, (wp_modify_core H1); [done|done|]. intros s2 H2. wp_steps. apply (wp_irq_restore H2). intros s3 H3. wp_steps.
    rewrite u32_id in H3 by lia. rewrite i32_id by lia. apply Hyes; [done|].
    assert (Er : set_irq (irq (set_next_tid (next_tid e + 1) (set_irq false e)) || irq e) (set_next_tid (next_tid e + 1) (set_irq false e)) =
      set_next_tid (next_tid e + 1) e)
      by (transitivity (set_next_tid (next_tid e + 1) (set_irq (irq (set_irq false e) || irq e) (set_irq false e))); [done|by rewrite irq_pair]).
    by rewrite Er in H3.
  - apply wp_bind. wp_steps. apply (wp_irq_restore H1). intros s2 H2. wp_steps. rewrite irq_pair in H2. by apply Hno.
Qed.

(** The thread that [thread_alloc] returns. *)
Definition fresh_thread (tid base : Z) : thread :=
  let top := base + THREAD_STACK_SIZE in
  set_t_state THREAD_NEW (set_t_tgid tid (set_t_tid tid
    (set_t_context (set_c_sp top (set_c_ra c_thread_bootstrap zero_context)) (set_t_kstack_top top (set_t_kstack_base base zero_thread))))).

Lemma stack_top_aligned base :
  0 < base -> (16 | base) -> base + THREAD_STACK_SIZE < 2 ^ 64 ->
  Z.land (u64 (base + THREAD_STACK_SIZE)) (not64 15) = base + THREAD_STACK_SIZE.
Proof.
  unfold THREAD_STACK_SIZE. intros H1 [k Hk] H2. rewrite u64_id by lia. rewrite land_not64 by lia.
  change 15 with (2 ^ 4 - 1). rewrite land_lnot_mask by lia. change (2 ^ 4) with 16. rewrite Hk.
  replace (k * 16 + 16384) with ((k + 1024) * 16) by lia. rewrite Z.mod_mul by lia. lia.
Qed.

Lemma wp_with_task s e g a x f Q :
  rep s (with_task a x e) g -> core_fun f -> (forall s', rep s' (with_task a (f x) e) g -> Q tt s') -> wp (task_upd a f) Q s.
Proof.
  intros HR Hf HQ. eapply (wp_task_core HR); [apply lookup_insert_eq|done|]. intros s' H'. apply HQ.
  assert (E : upd_task a f (with_task a x e) = with_task a (f x) e); [|by rewrite E in H'].
  change (upd_task a f (with_task a x e)) with (set_tasks (alter f a (<[a := x]> (tasks e))) e). unfold with_task. f_equal. apply map_eq. intros j. rewrite lookup_alter, !lookup_insert. by repeat case_decide.
Qed.

Lemma wp_thread_alloc s e g Q :
  sched_inv s e g ->
  (forall s' g' h n, rep s' (set_heap h (set_next_tid n e)) g' -> inv (set_heap h (set_next_tid n e)) g' -> same_ranges e.(heap) h ->
     g'.(l_all) = g.(l_all) -> g'.(l_run) = g.(l_run) -> g'.(l_zombies) = g.(l_zombies) -> g'.(l_queue) = g.(l_queue) -> thread_room [] e = false -> Q 0 s') ->
  (forall s' a base h1 h2 za zb, e.(next_tid) <= INT32_MAX -> grown e.(heap) h1 a za -> grown h1 h2 base zb -> SIZEOF_THREAD <= za -> THREAD_STACK_SIZE <= zb ->
     rep s' (created a (fresh_thread e.(next_tid) base) h2 e.(tcs) e) (no_waits a g) -> Q a s') ->
  wp thread_alloc Q s.
Proof.
  intros HI Hno Hyes. pose proof HI as [HR Hinv]. pose proof (iv_mem _ _ Hinv) as Hm. pose proof (iv_ids _ _ Hinv) as Hids.
  assert (Hrefl : same_ranges (heap e) (heap e)) by (constructor; [apply Hm|done..]).
  unfold thread_alloc. apply wp_bind. eapply wp_next_tid; [exact HR|done|..].
  { intros Hmax s1 H1. cbn [Z.ltb Z.compare]. wp_steps. eapply (Hno s1 g (heap e) (next_tid e)); try done.
    - by destruct e.
    - by apply inv_heap_tid; [..|pose proof (id_next _ Hids); lia].
    - unfold thread_room. by rewrite (proj2 (Z.leb_gt _ _) Hmax). }
  intros Hmax s1 H1. pose proof (id_next _ Hids) as Hn. destruct (Z.ltb_spec (next_tid e) 0); [lia|]. set (e1 := set_next_tid _ e) in *.
  apply wp_bind. eapply (wp_heap_kmalloc s1 e1 g); [exact H1|apply Hm|unfold SIZEOF_THREAD; lia|..].
  { intros s2 H2 Er. cbn [Z.eqb]. wp_steps. eapply (Hno s2 g (heap e) (next_tid e + 1)); try done.
    - by apply inv_heap_tid; [..|unfold INT32_MAX in *; lia].
    - unfold thread_room. cbn [app]. by rewrite (room_for_none _ _ _ _ Er), andb_false_r. }
  intros s2 h1 a za H2 Hg1 Hza Er1. pose proof (gr_new _ _ _ _ Hg1) as [Ha0 _]. rewrite (proj2 (Z.eqb_neq a 0) Ha0).
  pose proof (grown_not_task e h1 a za Hm Hg1) as Hna.
  apply wp_bind, wp_modify. pose proof (rep_new_task s2 _ g a zero_thread H2 Hna eq_refl) as H3.
  change (core_thread zero_thread) with zero_thread in H3. unfold with_task at 1 in H3.
  apply wp_bind. eapply wp_heap_kmalloc; [exact H3|apply Hg1|unfold THREAD_STACK_SIZE; lia|..].
  - intros s4 H4 Er2. apply wp_bind. eapply wp_with_task; [exact H4|done|]. intros s5 H5. cbn [Z.eqb]. unfold free_task. apply wp_bind, wp_bind.
    eapply wp_heap_kfree; [exact H5|apply Hg1|apply Hg1; by right|]. intros s6 h2 H6 Hsh. wp_steps.
    pose proof (rep_del_task s6 _ _ a H6) as H7. pose proof (grown_shrunk _ _ _ _ _ (mi_heap _ Hm) Hg1 Hsh) as Hsr.
    assert (Hnl : forall fld hd L, chain fld (tasks s) hd L -> a ∉ L).
    { intros fld hd L Hc Hin. destruct (chain_task _ _ _ a Hc Hin) as [_ [y Hy]]. apply (task_rep HR) in Hy. congruence. }
    specialize (H7 (Hnl _ _ _ (rp_all _ _ _ HR)) (Hnl _ _ _ (rp_run _ _ _ HR)) (Hnl _ _ _ (rp_zombies _ _ _ HR))).
    assert (Ee : without_task a (set_heap h2 (with_task a (set_t_kstack_base 0 zero_thread) (set_heap h1 e1))) = set_heap h2 e1).
    { change (without_task _ _) with (set_tasks (delete a (<[a := set_t_kstack_base 0 zero_thread]> (tasks e))) (set_heap h2 e1)).
      rewrite delete_insert_id by exact Hna. by destruct e. }
    rewrite Ee in H7. eapply (Hno _ (no_waits a g) h2 (next_tid e + 1)); try done.
    + apply inv_no_waits; [|done]. by apply inv_heap_tid; [..|unfold INT32_MAX in *; lia].
    + unfold thread_room. cbn [app]. rewrite (room_for_some _ _ _ _ _ Er1 Ha0). change (kmalloc THREAD_STACK_SIZE h1 = Some (0, h1)) in Er2.
      by rewrite (room_for_none _ _ _ _ Er2), andb_false_r.
  - intros s4 h2 base zb H4 Hg2 Hzb _. pose proof (grown_pos _ _ _ _ Hg2) as (Hb0 & _ & Hb64). pose proof (gr_new _ _ _ _ Hg2) as [Hbn Hb16].
    apply wp_bind. eapply (wp_with_task _ (set_heap h2 (set_heap h1 e1))); [exact H4|done|]. intros s5 H5. rewrite (proj2 (Z.eqb_neq base 0) Hbn).
    rewrite stack_top_aligned by (unfold THREAD_STACK_SIZE in *; lia || done). cbv zeta.
    do 6 (apply wp_bind; eapply wp_with_task; [eassumption|done|]; clear dependent s5; intros s5 H5). wp_steps.
    eapply (Hyes s5 a base h1 h2 za zb); try done.
Qed.

(** ** Publication *)

Definition published (t : Z) (e : sched) : sched := upd_task t (set_t_state THREAD_RUNNABLE) e.
Definition publish_lists (t : Z) (g : lists) : lists := set_l_run (g.(l_run) ++ [t]) (set_l_all (t :: g.(l_all)) g).

Lemma published_self t e x : e.(tasks) !! t = Some x -> (published t e).(tasks) !! t = Some (set_t_state THREAD_RUNNABLE x).
Proof. intros Hx. unfold published. sched_simpl. by rewrite lookup_alter_eq, Hx. Qed.

Lemma wp_publish s e g t x Q :
  sched_inv s e g -> e.(tasks) !! t = Some x -> x.(t_state) = THREAD_NEW ->
  (forall s', rep s' (published t e) (publish_lists t g) -> Q tt s') -> wp (thread_publish t) Q s.
Proof.
  intros HI Hx Hst HQ. pose proof HI as [HR Hinv]. pose proof (si_threads _ _ (iv_state _ _ Hinv) t x Hx) as [B1 B2 _ _ _ _ _ _ _ _ _].
  assert (Ht0 : t <> 0) by (intros ->; destruct (wi_null _ _ (iv_wait _ _ Hinv)); congruence).
  unfold thread_publish. apply wp_bind, (wp_irq_save HR). intros s1 H1. apply wp_bind. rewrite (proj2 (Z.eqb_neq t 0) Ht0).
  apply wp_bind. eapply (wp_task_get H1); [exact Hx|]. intros y _ Ey.
  assert (t_state y = THREAD_NEW) as -> by (by rewrite <- Hst, <- Ey). rewrite bool_decide_true by done. cbn [when].
  apply wp_bind. eapply (wp_task_core H1); [exact Hx|done|]. intros s2 H2.
  assert (Hit : is_task (tasks (upd_task t (set_t_state THREAD_RUNNABLE) (set_irq false e))) t)
    by (sched_simpl; unfold is_task; rewrite lookup_alter_eq, Hx; by eexists).
  apply wp_bind. eapply wp_thread_list_add; [exact H2|rewrite B1, Hst; tauto|done|exact Hit|]. intros s3 H3.
  apply (wp_sched_enqueue H3); [cbn [l_run set_l_all]; rewrite B2, Hst; by intros [? _]|done|exact Hit|]. intros s4 H4.
  apply (wp_irq_restore H4). intros s5 H5. apply HQ.
  assert (Er : set_irq (irq (upd_task t (set_t_state THREAD_RUNNABLE) (set_irq false e)) || irq e) (upd_task t (set_t_state THREAD_RUNNABLE) (set_irq false e)) = published t e)
    by (transitivity (upd_task t (set_t_state THREAD_RUNNABLE) (set_irq (irq (set_irq false e) || irq e) (set_irq false e))); [done|by rewrite irq_pair]).
  by rewrite Er in H5.
Qed.

Lemma inv_publish s e g t x :
  sched_inv s e g -> e.(tasks) !! t = Some x -> x.(t_state) = THREAD_NEW -> x.(t_entry) <> c_null ->
  inv (published t e) (publish_lists t g).
Proof.
  intros HI Hx Hst Hen. pose proof HI as [HR [[A1 A2 A3 A4] Hw Hi Hm]]. pose proof (A4 _ _ Hx) as [B1 B2 B3 B4 B5 B6 B7 B8 B9 B10 B11].
  assert (Hntp : t <> tp e) by (intros E; destruct (B5 E) as [?|[?|?]]; congruence).
  assert (Hnb : t <> boot_idle_thread e) by (intros E; destruct (B7 E); congruence).
  constructor.
  - constructor; try done.
    + cbn [l_all publish_lists set_l_run set_l_all]. right. exact A2.
    + cbn [l_all publish_lists set_l_run set_l_all]. right. exact A3.
    + intros u z. unfold published. sched_simpl. rewrite lookup_alter. destruct (decide (t = u)) as [<-|Hne].
      * rewrite Hx. intros [= <-]. constructor; cbn [t_state set_t_state t_is_idle t_entry tp boot_idle_thread upd_task set_tasks
          l_all l_run l_zombies l_task publish_lists set_l_run set_l_all]; try done.
        -- split; [done|]. intros _. set_solver.
        -- split; [done|]. intros _. set_solver.
        -- rewrite B3, Hst. split; discriminate.
        -- intros [?|[?|?]]; done.
      * intros Hz. eapply thread_ok_same; [by apply A4|done..| | |done|done]; cbn [l_all l_run publish_lists set_l_run set_l_all]; set_solver.
  - eapply wait_inv_same; [exact Hw|by apply (same_view_upd _ t (set_t_state THREAD_RUNNABLE))|done..].
  - eapply ids_inv_same; [exact Hi|by apply (same_view_upd _ t (set_t_state THREAD_RUNNABLE))|done..].
  - eapply mem_inv_same; [exact Hm|by apply (same_view_upd _ t (set_t_state THREAD_RUNNABLE))|done|done|apply Hm|done|done].
Qed.

(** ** The two kinds of threads *)

(** The memory at [b] belongs to no thread. *)
Definition unclaimed (e : sched) (b : Z) : Prop :=
  forall t y sl, e.(tasks) !! t = Some y -> t <> e.(boot_idle_thread) -> slot_addr t y sl <> Some b.

Lemma fresh_new_ok e h1 h2 tc a base za zb x :
  mem_inv e (hok := hok) (owned := owned) (static := static) -> e.(next_tid) <= INT32_MAX ->
  grown e.(heap) h1 a za -> grown h1 h2 base zb -> SIZEOF_THREAD <= za -> THREAD_STACK_SIZE <= zb ->
  x.(t_state) = THREAD_NEW -> x.(t_is_idle) = 0 -> x.(t_context).(c_ra) = c_thread_bootstrap -> x.(t_tid) = e.(next_tid) ->
  x.(t_kstack_base) = base -> x.(t_kstack_top) = base + THREAD_STACK_SIZE ->
  (forall p, is_Some (e.(tcs) !! p) -> is_Some (tc !! p)) ->
  (x.(t_kind) = THREAD_USER -> unclaimed e x.(t_user_stack_base) /\
     (exists zu, owned e.(heap) x.(t_user_stack_base) zu /\ x.(t_user_stack_top) - x.(t_user_stack_base) <= zu) /\
     x.(t_tc) = x.(t_kstack_top) - TRAP_CONTEXT_ALLOC_SIZE /\ is_Some (tc !! x.(t_tc))) ->
  new_ok e h2 tc a x.
Proof.
  intros Hm Hmax Hg1 Hg2 Hza Hzb Est Eid Era Etid Ebase Etop Htc Hu.
  pose proof (grown_pos _ _ _ _ Hg1) as (_ & Hza0 & _). pose proof (grown_pos _ _ _ _ Hg2) as (_ & Hzb0 & _).
  assert (Hn1 : forall y, ~ owned (heap e) a y) by (intros y; by eapply (grown_not_owned _ _ _ _ (mi_heap _ Hm) Hg1)).
  assert (Hn2 : forall y, ~ owned h1 base y) by (intros y; by eapply (grown_not_owned _ _ _ _ (gr_ok _ _ _ _ Hg1) Hg2)).
  assert (Hab : a <> base) by (intros ->; apply (Hn2 za), Hg1; by right).
  assert (Hold : forall b y, owned (heap e) b y -> owned h1 b y /\ owned h2 b y /\ b <> a /\ b <> base).
  { intros b y Hb. assert (owned h1 b y) by (apply Hg1; by left). split; [done|]. split; [apply Hg2; by left|].
    split; intros ->; [by apply (Hn1 y)|by apply (Hn2 y)]. }
  assert (Hslot : forall sl b, slot_addr a x sl = Some b -> (sl = sl_tcb /\ b = a) \/ (sl = sl_kstack /\ b = base) \/
    (sl = sl_ustack /\ b = t_user_stack_base x /\ t_kind x = THREAD_USER)).
  { intros [| |] b; cbn; rewrite ?Ebase; [naive_solver|naive_solver|]. case_decide; naive_solver. }
  constructor; try done.
  - split; [by eapply grown_not_task|]. split; [apply Hg1|by eapply grown_not_boot].
  - split; [apply Hg2|]. split; [intros b; by rewrite (gr_static _ _ _ _ Hg2), (gr_static _ _ _ _ Hg1)|]. intros b y Hb. by apply Hold.
  - intros sl b Hs. destruct (Hslot sl b Hs) as [[-> ->]|[[-> ->]|(-> & -> & Hk)]]; cbn [slot_size].
    + exists za. split; [|done]. apply Hg2. left. apply Hg1. by right.
    + exists zb. split; [|done]. apply Hg2. by right.
    + destruct (Hu Hk) as (_ & (zu & Hzu & Hle) & _). exists zu. split; [by apply Hold|done].
  - assert (Hub : t_kind x = THREAD_USER -> t_user_stack_base x <> a /\ t_user_stack_base x <> base).
    { intros Hk. destruct (Hu Hk) as (_ & (zu & Hzu & _) & _). by destruct (Hold _ _ Hzu) as (_ & _ & ?). }
    intros sl sl' b Hs Hs'. destruct (Hslot sl b Hs) as [[-> ->]|[[-> ->]|(-> & -> & Hk)]], (Hslot sl' _ Hs') as [[-> E]|[[-> E]|(-> & E & Hk')]];
      try done; try congruence; exfalso; naive_solver.
  - intros t y sl sl' b Hy Hb Hs Hs'. destruct (Hslot sl' b Hs') as [[_ ->]|[[_ ->]|(_ & -> & Hk)]].
    + by eapply grown_fresh_slot.
    + destruct (mi_owned _ Hm t y sl base Hy Hb Hs) as (w & Hw & _). by destruct (Hold _ _ Hw) as (_ & _ & _ & ?).
    + destruct (Hu Hk) as (Hun & _). by apply (Hun t y sl Hy Hb).
  - by rewrite Etop, Ebase.
  - intros Hk. by destruct (Hu Hk) as (_ & _ & ?).
Qed.

(** A kernel worker with its entry function. *)
Definition kernel_thread (tid base : Z) (entry : code) (arg : Z) : thread :=
  set_t_arg arg (set_t_entry entry (set_t_kind THREAD_KERNEL (fresh_thread tid base))).

(** The trap context of a fresh user thread. *)
Definition user_tc (a entry top : Z) : trap_context :=
  set_tc_sstatus SSTATUS_SPIE (set_tc_sepc entry (set_tc_tp a (set_tc_sp top zero_trap_context))).

Definition user_thread (tid base entry ub utop : Z) : thread :=
  let tcp := base + THREAD_STACK_SIZE - TRAP_CONTEXT_ALLOC_SIZE in
  set_t_context (set_c_sp tcp (set_c_ra c_thread_bootstrap zero_context))
    (set_t_tc tcp (set_t_user_stack_top utop (set_t_user_stack_base ub (set_t_user_entry entry
      (set_t_entry c_user_task_entry (set_t_kind THREAD_USER (fresh_thread tid base))))))).

(** What a failed construction leaves behind: nothing but a used-up id. *)
Definition failed (e : sched) (g : lists) (e' : sched) (g' : lists) : Prop :=
  (exists h n, e' = set_heap h (set_next_tid n e) /\ same_ranges e.(heap) h) /\ inv e' g' /\
  g'.(l_all) = g.(l_all) /\ g'.(l_run) = g.(l_run) /\ g'.(l_zombies) = g.(l_zombies) /\ g'.(l_queue) = g.(l_queue).

(** The memory of a new thread is new. *)
Definition new_memory (e : sched) (h2 : slabs) (a base : Z) : Prop :=
  exists h1 za zb, grown e.(heap) h1 a za /\ grown h1 h2 base zb /\ SIZEOF_THREAD <= za /\ THREAD_STACK_SIZE <= zb.

Lemma failed_refl e g : inv e g -> failed e g e g.
Proof.
  intros Hinv. split; [|done]. exists (heap e), (next_tid e). split; [by destruct e|]. constructor; [apply Hinv|done..].
Qed.

Lemma wp_create_kernel s e g entry arg Q :
  sched_inv s e g ->
  (forall s' e' g', rep s' e' g' -> failed e g e' g' -> Q (-1) s') ->
  (forall s' a base h, entry <> c_null -> let x := kernel_thread e.(next_tid) base entry arg in
     new_memory e h a base -> e.(next_tid) <= INT32_MAX ->
     rep s' (published a (created a x h e.(tcs) e)) (publish_lists a (no_waits a g)) ->
     inv (published a (created a x h e.(tcs) e)) (publish_lists a (no_waits a g)) -> Q e.(next_tid) s') ->
  wp (thread_create_kernel entry arg) Q s.
Proof.
  intros HI Hno Hyes. pose proof HI as [HR Hinv]. unfold thread_create_kernel.
  destruct (bool_decide (entry = c_null)) eqn:Een; [wp_steps; eapply Hno; [exact HR|by apply failed_refl]|]. apply bool_decide_eq_false in Een.
  apply wp_bind. apply (wp_thread_alloc s e g); [done|..].
  - intros s' g' h n H' Hi' Hsr E1 E2 E3 E4 _. cbn [Z.eqb]. wp_steps. eapply Hno; [exact H'|]. split; [by exists h, n|done].
  - intros s1 a base h1 h2 za zb Hmax Hg1 Hg2 Hza Hzb H1. pose proof (gr_new _ _ _ _ Hg1) as [Ha0 _]. rewrite (proj2 (Z.eqb_neq a 0) Ha0).
    unfold created in H1. do 3 (apply wp_bind; eapply wp_with_task; [eassumption|done|]; clear dependent s1; intros s1 H1).
    set (x := kernel_thread (next_tid e) base entry arg).
    assert (Hnew : new_ok e h2 (tcs e) a x) by (eapply (fresh_new_ok e h1 h2); try done; apply Hinv).
    assert (HI1 : sched_inv s1 (created a x h2 (tcs e) e) (no_waits a g)) by (split; [exact H1|by eapply inv_new]).
    assert (Hx : tasks (created a x h2 (tcs e) e) !! a = Some x) by apply lookup_insert_eq.
    apply wp_bind. eapply wp_publish; [exact HI1|exact Hx|done|]. intros s2 H2. apply wp_bind. eapply (wp_task_get H2); [apply published_self, Hx|].
    intros y _ Ey. assert (t_tid y = next_tid e) as -> by (transitivity (t_tid (core_thread y)); [done|by rewrite Ey]).
    wp_steps. eapply (Hyes s2 a base h2); [done| |done|exact H2|by eapply inv_publish]. by exists h1, za, zb.
Qed.

(** ** User threads *)

Lemma wp_tc_core s e g p c f Q :
  rep s e g -> e.(tcs) !! p = Some c -> (forall s', rep s' (set_tcs (<[p := f c]> e.(tcs)) e) g -> Q tt s') -> wp (tc_upd p f) Q s.
Proof.
  intros HR Hc HQ. assert (Et : tcs s = tcs e) by (by rewrite <- (rp_core _ _ _ HR)). eapply wp_update; [by rewrite Et, Hc|].
  apply HQ. destruct HR as [H1 H2 H3 H4 H5 H6 H7 H8]. constructor; try done. rewrite <- H1. done.
Qed.

Lemma wp_tc_get s e g p c Q : rep s e g -> e.(tcs) !! p = Some c -> Q c s -> wp (tc_get p) Q s.
Proof. intros HR Hc HQ. eapply wp_access; [|exact HQ]. rewrite <- Hc. by rewrite <- (rp_core _ _ _ HR). Qed.

Definition with_tc (p : Z) (c : trap_context) (e : sched) : sched := set_tcs (<[p := c]> e.(tcs)) e.

Lemma wp_with_tc s e g p c f Q :
  rep s (with_tc p c e) g -> (forall s', rep s' (with_tc p (f c) e) g -> Q tt s') -> wp (tc_upd p f) Q s.
Proof.
  intros HR HQ. eapply wp_tc_core; [exact HR|apply lookup_insert_eq|]. intros s' H'. apply HQ.
  assert (E : set_tcs (<[p := f c]> (tcs (with_tc p c e))) (with_tc p c e) = with_tc p (f c) e); [|by rewrite E in H'].
  change (set_tcs (<[p := f c]> (<[p := c]> (tcs e))) e = with_tc p (f c) e). by rewrite insert_insert_eq.
Qed.

Lemma wp_reset_trap_context s e g a x Q :
  rep s e g -> e.(tasks) !! a = Some x -> a <> 0 -> x.(t_tc) <> 0 ->
  (forall s', rep s' (with_tc x.(t_tc) (user_tc a x.(t_user_entry) x.(t_user_stack_top)) e) g -> Q tt s') ->
  wp (user_reset_trap_context a) Q s.
Proof.
  intros HR Hx Ha Htc HQ. unfold user_reset_trap_context. rewrite (proj2 (Z.eqb_neq a 0) Ha). apply wp_bind.
  eapply (wp_task_get HR); [exact Hx|]. intros y _ Ey.
  assert (t_tc y = t_tc x /\ t_user_entry y = t_user_entry x /\ t_user_stack_top y = t_user_stack_top x) as (-> & -> & ->) by (by rewrite <- Ey).
  rewrite (proj2 (Z.eqb_neq (t_tc x) 0) Htc). apply wp_bind. apply (wp_modify_core HR); [done|done|]. intros s1 H1.
  apply wp_bind. apply (wp_with_tc s1 e g (t_tc x) zero_trap_context); [exact H1|]. intros s2 H2.
  do 2 (apply wp_bind; eapply wp_with_tc; [eassumption|]; clear dependent s2; intros s2 H2). eapply wp_with_tc; [exact H2|]. exact HQ.
Qed.

(** The guard of [thread_prepare_user]. *)
Definition bad_user_args (q : bool) (entry ub utop : Z) : bool :=
  bad_user_pc q entry || (ub =? 0) || (utop <=? ub) || negb (Z.land utop 15 =? 0).

(** A stack that may be handed over. *)
Definition stack_ok (e : sched) (ub utop : Z) : Prop :=
  unclaimed e ub /\ exists zu, owned e.(heap) ub zu /\ utop - ub <= zu.

Definition user_created (e : sched) (h : slabs) (a base entry ub utop : Z) : sched :=
  created a (user_thread e.(next_tid) base entry ub utop) h
    (<[base + THREAD_STACK_SIZE - TRAP_CONTEXT_ALLOC_SIZE := user_tc a entry utop]> e.(tcs)) e.

Lemma user_created_tcs e h a base entry ub utop :
  (user_created e h a base entry ub utop).(tcs) = <[base + THREAD_STACK_SIZE - TRAP_CONTEXT_ALLOC_SIZE := user_tc a entry utop]> e.(tcs).
Proof. reflexivity. Qed.
Lemma user_created_tasks e h a base entry ub utop :
  (user_created e h a base entry ub utop).(tasks) = <[a := user_thread e.(next_tid) base entry ub utop]> e.(tasks).
Proof. reflexivity. Qed.

Lemma wp_prepare_user s e g entry ub utop Q :
  sched_inv s e g -> stack_ok e ub utop ->
  (forall s' e' g', rep s' e' g' -> failed e g e' g' -> negb (bad_user_args e.(qemu) entry ub utop) && thread_room [] e = false -> Q 0 s') ->
  (forall s' a base h, bad_user_args e.(qemu) entry ub utop = false -> new_memory e h a base -> e.(next_tid) <= INT32_MAX -> a <> 0 ->
     rep s' (user_created e h a base entry ub utop) (no_waits a g) ->
     inv (user_created e h a base entry ub utop) (no_waits a g) -> Q a s') ->
  wp (thread_prepare_user entry ub utop) Q s.
Proof.
  intros HI [Hun Hown] Hno Hyes. pose proof HI as [HR Hinv]. unfold thread_prepare_user. apply wp_bind, (wp_gets_core HR); [done|].
  fold (bad_user_args (qemu e) entry ub utop). destruct (bad_user_args (qemu e) entry ub utop) eqn:Eb.
  { wp_steps. eapply Hno; [exact HR|by apply failed_refl|done]. }
  apply wp_bind. apply (wp_thread_alloc s e g); [done|..].
  - intros s' g' h n H' Hi' Hsr E1 E2 E3 E4 Hroom. cbn [Z.eqb]. wp_steps. eapply Hno; [exact H'|split; [by exists h, n|done]|]. by rewrite Hroom, andb_false_r.
  - intros s1 a base h1 h2 za zb Hmax Hg1 Hg2 Hza Hzb H1. pose proof (gr_new _ _ _ _ Hg1) as [Ha0 _]. rewrite (proj2 (Z.eqb_neq a 0) Ha0).
    pose proof (grown_pos _ _ _ _ Hg2) as (Hb0 & _ & Hb64). set (tcp := base + THREAD_STACK_SIZE - TRAP_CONTEXT_ALLOC_SIZE).
    assert (Etc : u64 (base + THREAD_STACK_SIZE - TRAP_CONTEXT_ALLOC_SIZE) = tcp)
      by (apply u64_id; unfold THREAD_STACK_SIZE, TRAP_CONTEXT_ALLOC_SIZE in *; lia).
    assert (Htcp : tcp <> 0) by (unfold tcp, THREAD_STACK_SIZE, TRAP_CONTEXT_ALLOC_SIZE; lia).
    unfold created in H1. do 7 (apply wp_bind; eapply wp_with_task; [eassumption|done|]; clear dependent s1; intros s1 H1).
    set (x := user_thread (next_tid e) base entry ub utop). set (e1 := set_heap h2 (set_tcs (tcs e) (set_next_tid (next_tid e + 1) e))) in *.
    assert (H1' : rep s1 (with_task a x e1) (no_waits a g)).
    { cbn [t_kstack_top set_t_user_stack_top set_t_user_stack_base set_t_user_entry set_t_entry set_t_kind fresh_thread set_t_state set_t_tgid
        set_t_tid set_t_context set_t_kstack_top] in H1. rewrite Etc in H1. exact H1. }
    apply wp_bind. eapply (wp_reset_trap_context s1 _ _ a x); [exact H1'|apply lookup_insert_eq|done|done|]. intros s2 H2. wp_steps.
    assert (Hnew : new_ok e h2 (<[tcp := user_tc a entry utop]> (tcs e)) a x).
    { eapply (fresh_new_ok e h1 h2); try done; [apply Hinv|..].
      - intros p [c Hc]. rewrite lookup_insert. case_decide; [by eexists|by exists c].
      - intros _. split; [done|]. split; [done|]. split; [done|]. rewrite lookup_insert_eq. by eexists. }
    eapply (Hyes s2 a base h2); [done|by exists h1, za, zb|done|done|exact H2|by eapply inv_new].
Qed.

Lemma wp_process_create s e g entry ub utop Q :
  sched_inv s e g -> stack_ok e ub utop ->
  (forall s' e' g', rep s' e' g' -> failed e g e' g' -> Q (-1) s') ->
  (forall s' a base h, bad_user_args e.(qemu) entry ub utop = false -> new_memory e h a base -> e.(next_tid) <= INT32_MAX ->
     rep s' (published a (user_created e h a base entry ub utop)) (publish_lists a (no_waits a g)) ->
     inv (published a (user_created e h a base entry ub utop)) (publish_lists a (no_waits a g)) -> Q e.(next_tid) s') ->
  wp (user_process_create entry ub utop) Q s.
Proof.
  intros HI Hs Hno Hyes. unfold user_process_create. apply wp_bind. apply (wp_prepare_user s e g); [done|done|..].
  - intros s' e' g' H' Hf _. cbn [Z.eqb]. wp_steps. by eapply Hno.
  - intros s1 a base h Hb Hm Hmax Ha0 H1 Hi1. rewrite (proj2 (Z.eqb_neq a 0) Ha0).
    assert (Hx : tasks (user_created e h a base entry ub utop) !! a = Some (user_thread (next_tid e) base entry ub utop)) by apply lookup_insert_eq.
    apply wp_bind. eapply wp_publish; [split; [exact H1|exact Hi1]|exact Hx|done|]. intros s2 H2. apply wp_bind. eapply (wp_task_get H2); [apply published_self, Hx|].
    intros y _ Ey. assert (t_tid y = next_tid e) as -> by (transitivity (t_tid (core_thread y)); [done|by rewrite Ey]).
    wp_steps. eapply (Hyes s2 a base h); try done. eapply inv_publish; [split; [exact H1|exact Hi1]|exact Hx|done|done].
Qed.

(** *** Threads of the same process *)

Lemma inv_grown e g h a z : inv e g -> grown e.(heap) h a z -> inv (set_heap h e) g.
Proof.
  intros [[A1 A2 A3 A4] Hw [I1 I2 I3 I4] [M1 M2 M3 M4 M5 M6 M7]] Hg. constructor; [constructor; try done| |done|].
  - intros t x Hx. by eapply thread_ok_same; [by apply A4|..].
  - eapply wait_inv_same; [exact Hw|by apply same_view_refl|done..].
  - constructor; try done; [apply Hg|by apply Hg|]. intros t x sl b Hx Hb Hs. destruct (M4 t x sl b Hx Hb Hs) as (y & Hy & Hle).
    exists y. split; [|done]. apply Hg. by left.
Qed.

Lemma inv_with_tc e g p c : inv e g -> inv (with_tc p c e) g.
Proof.
  intros [[A1 A2 A3 A4] Hw [I1 I2 I3 I4] [M1 M2 M3 M4 M5 M6 M7]]. constructor; [constructor; try done| |done|].
  - intros t x Hx. by eapply thread_ok_same; [by apply A4|..].
  - eapply wait_inv_same; [exact Hw|by apply same_view_refl|done..].
  - constructor; try done. intros t x Hx Hk. destruct (M7 t x Hx Hk) as [E Hs]. split; [done|]. unfold with_tc. sched_simpl.
    rewrite lookup_insert. case_decide; [by eexists|done].
Qed.

(** A change of fields that the invariant does not mention. *)
Definition soft (f : thread -> thread) : Prop := forall x,
  (f x).(t_state) = x.(t_state) /\ (f x).(t_is_idle) = x.(t_is_idle) /\ (f x).(t_entry) = x.(t_entry) /\
  (f x).(t_context) = x.(t_context) /\ (f x).(t_tid) = x.(t_tid) /\ mem_view (f x) = mem_view x.

Lemma inv_soft e g a f : soft f -> inv e g -> inv (upd_task a f e) g.
Proof.
  intros Hf [[A1 A2 A3 A4] Hw Hi Hm].
  assert (Hv : forall x, (f x).(t_kstack_base) = x.(t_kstack_base)) by (intros x; destruct (Hf x) as (_ & _ & _ & _ & _ & E); by injection E).
  constructor; [constructor; try done|..].
  - intros t x. sched_simpl. rewrite lookup_alter. destruct (decide (a = t)) as [<-|Hne]; [|intros Hx; by eapply thread_ok_same; [by apply A4|..]].
    destruct (tasks e !! a) as [y|] eqn:Hy; [|done]. intros [= <-]. destruct (A4 a y Hy) as [B1 B2 B3 B4 B5 B6 B7 B8 B9 B10 B11].
    destruct (Hf y) as (E1 & E2 & E3 & E4 & _). constructor; rewrite ?E1, ?E2, ?E3; try done. unfold ctx_ok in *. by rewrite E4.
  - eapply wait_inv_same; [exact Hw|apply (same_view_upd _ a f); [exact Hv|done]|done..].
  - eapply ids_inv_same; [exact Hi|apply (same_view_upd _ a f); [apply Hf|done]|done..].
  - eapply mem_inv_same; [exact Hm|apply (same_view_upd _ a f); [apply Hf|done]|done|done|apply Hm|done|done].
Qed.

(** The condition under which [thread_create_user] goes ahead. *)
Definition may_create_user (e : sched) (p : thread) (entry return_pc : Z) : bool :=
  bool_decide (p.(t_kind) = THREAD_USER) && negb (p.(t_tc) =? 0) && bool_decide (p.(t_state) <> THREAD_ZOMBIE) &&
  negb (bad_user_pc e.(qemu) entry) && negb (bad_user_pc e.(qemu) return_pc).

(** The sibling thread and its trap context. *)
Definition sibling_tc (p : trap_context) (a entry arg return_pc utop : Z) : trap_context :=
  set_tc_gp p.(tc_gp) (set_tc_ra return_pc (set_tc_a0 arg (user_tc a entry utop))).
Definition sibling (e : sched) (p : thread) (pc : trap_context) (a base entry arg return_pc u : Z) (h : slabs) : sched :=
  let tcp := base + THREAD_STACK_SIZE - TRAP_CONTEXT_ALLOC_SIZE in
  with_tc tcp (sibling_tc pc a entry arg return_pc (u + USER_STACK_SIZE))
    (upd_task a (set_t_tgid p.(t_tgid)) (user_created e h a base entry u (u + USER_STACK_SIZE))).

(** The parent's trap context is not in the new stack. *)
Lemma parent_tc_other e h a base t p :
  mem_inv e (hok := hok) (owned := owned) (static := static) -> new_memory e h a base -> e.(tasks) !! t = Some p ->
  t <> e.(boot_idle_thread) -> p.(t_kind) = THREAD_USER -> p.(t_tc) <> base + THREAD_STACK_SIZE - TRAP_CONTEXT_ALLOC_SIZE.
Proof.
  intros Hm (h1 & za & zb & Hg1 & Hg2 & Hza & Hzb) Hp Hb Hk E. destruct (mi_tc _ Hm t p Hp Hk) as [Et _]. rewrite (mi_top _ Hm t p Hp Hb) in Et.
  destruct (mi_owned _ Hm t p sl_kstack _ Hp Hb eq_refl) as (z & Hz & Hle). cbn [slot_size] in Hle.
  apply (gr_fresh _ _ _ _ Hg2 (t_kstack_base p) z (t_tc p)); [apply Hg1; by left|..];
    unfold THREAD_STACK_SIZE, TRAP_CONTEXT_ALLOC_SIZE in *; lia.
Qed.

(** Freeing memory that belongs to no thread. *)
Lemma inv_shrunk e g h u : inv e g -> shrunk e.(heap) h u -> unclaimed e u -> inv (set_heap h e) g.
Proof.
  intros [[A1 A2 A3 A4] Hw [I1 I2 I3 I4] [M1 M2 M3 M4 M5 M6 M7]] Hs Hu. constructor; [constructor; try done| |done|].
  - intros t x Hx. by eapply thread_ok_same; [by apply A4|..].
  - eapply wait_inv_same; [exact Hw|by apply same_view_refl|done..].
  - constructor; try done; [apply Hs|by apply Hs|]. intros t x sl b Hx Hb Hsl. destruct (M4 t x sl b Hx Hb Hsl) as (y & Hy & Hle).
    exists y. split; [|done]. apply Hs. split; [done|]. intros ->. by apply (Hu t x sl).
Qed.

(** A failure after the user stack was allocated, with the stack freed again. *)
Lemma failed_free e g e1 g1 h0 u zu h2 :
  inv e g -> grown e.(heap) h0 u zu -> failed (set_heap h0 e) g e1 g1 -> shrunk e1.(heap) h2 u -> failed e g (set_heap h2 e1) g1.
Proof.
  intros Hinv Hg ((h & n & -> & Hsr) & Hi & E) Hsh. pose proof (iv_mem _ _ Hinv) as Hm. split; [|split; [|done]].
  - exists h2, n. split; [done|]. change (shrunk h h2 u) in Hsh. destruct Hsr as [S1 S2 S3 S4], Hsh as [T1 T2 T3 T4].
    cbn [heap set_heap] in S2, S3, S4. apply (grown_shrunk _ h0 _ u zu); [apply Hm|done|].
    constructor; [done|congruence| |]; intros; [by rewrite T3, S3|by rewrite T4, S4].
  - eapply inv_shrunk; [exact Hi|exact Hsh|]. intros t y sl Hy Hb. by eapply (grown_fresh_slot e).
Qed.

Lemma stack_aligned u size : (16 | u) -> (16 | size) -> 0 <= u -> 0 <= size -> Z.land (u + size) 15 = 0.
Proof.
  intros Hu Hs H1 H2. change 15 with (Z.ones 4). rewrite Z.land_ones by lia. change (2 ^ 4) with 16. apply Z.mod_divide; [lia|]. by apply Z.divide_add_r.
Qed.

Lemma good_user_args q entry u z h h' :
  grown h h' u z -> USER_STACK_SIZE <= z -> bad_user_pc q entry = false -> bad_user_args q entry u (u + USER_STACK_SIZE) = false.
Proof.
  intros Hg Hz Hpc. pose proof (gr_new _ _ _ _ Hg) as [Hu0 Hu16]. pose proof (grown_pos _ _ _ _ Hg) as (Hu & _ & _). unfold bad_user_args. rewrite Hpc.
  rewrite (proj2 (Z.eqb_neq u 0) Hu0), (proj2 (Z.leb_gt _ u)) by (unfold USER_STACK_SIZE; lia).
  rewrite stack_aligned; [done|done| |lia|done]. by exists 4096.
Qed.

(** After the user stack, memory for the thread itself. *)
Lemma thread_room_stack e h u size : kmalloc size e.(heap) = Some (u, h) -> u <> 0 -> thread_room [] (set_heap h e) = thread_room [size] e.
Proof. intros E Hu. unfold thread_room. cbn [app]. by rewrite (room_for_some _ _ _ _ _ E Hu). Qed.

Lemma wp_create_user s e g p entry arg return_pc Q :
  sched_inv s e g -> e.(tasks) !! e.(tp) = Some p ->
  (forall s' e' g', rep s' e' g' -> failed e g e' g' -> may_create_user e p entry return_pc && thread_room [USER_STACK_SIZE] e = false -> Q (-1) s') ->
  (forall s' a base u zu h0 h pc, may_create_user e p entry return_pc = true -> e.(tcs) !! p.(t_tc) = Some pc ->
     grown e.(heap) h0 u zu -> USER_STACK_SIZE <= zu -> let e0 := set_heap h0 e in new_memory e0 h a base -> e.(next_tid) <= INT32_MAX ->
     rep s' (published a (sibling e0 p pc a base entry arg return_pc u h)) (publish_lists a (no_waits a g)) ->
     inv (published a (sibling e0 p pc a base entry arg return_pc u h)) (publish_lists a (no_waits a g)) -> Q e.(next_tid) s') ->
  wp (thread_create_user entry arg return_pc) Q s.
Proof.
  intros HI Hp Hno Hyes. pose proof HI as [HR Hinv]. destruct (cur_task HI) as (p' & Hp' & Hok & Hp0). rewrite Hp in Hp'. injection Hp' as <-.
  pose proof (iv_mem _ _ Hinv) as Hm. unfold thread_create_user. apply wp_bind, (wp_current HI). apply wp_bind, (wp_gets_core HR); [done|].
  rewrite (proj2 (Z.eqb_neq (tp e) 0) Hp0). apply wp_bind. eapply (wp_task_get HR); [exact Hp|]. intros y _ Ey.
  assert (t_kind y = t_kind p /\ t_tc y = t_tc p /\ t_state y = t_state p) as (-> & -> & ->) by (by rewrite <- Ey).
  assert (Eg : bool_decide (t_kind p <> THREAD_USER) || (t_tc p =? 0) || bool_decide (t_state p = THREAD_ZOMBIE) ||
    bad_user_pc (qemu e) entry || bad_user_pc (qemu e) return_pc = negb (may_create_user e p entry return_pc)).
  { unfold may_create_user. rewrite !negb_andb, !negb_involutive, !bool_decide_not, negb_involutive. done. }
  rewrite Eg. destruct (may_create_user e p entry return_pc) eqn:Em; cbn [negb]; [|wp_steps; eapply Hno; [exact HR|by apply failed_refl|done]].
  apply wp_bind. eapply (wp_heap_kmalloc s e g); [exact HR|apply Hm|unfold USER_STACK_SIZE; lia|..].
  { intros s1 H1 Er. cbn [Z.eqb]. wp_steps. eapply Hno; [exact H1|by apply failed_refl|]. unfold thread_room. cbn [app]. by rewrite (room_for_none _ _ _ _ Er), andb_false_r. }
  intros s1 h0 u zu H1 Hg Hzu Er. pose proof (gr_new _ _ _ _ Hg) as [Hu0 _]. pose proof (grown_pos _ _ _ _ Hg) as (Hu & _ & Hu64).
  rewrite (proj2 (Z.eqb_neq u 0) Hu0). rewrite u64_id by (unfold USER_STACK_SIZE in *; lia). set (e0 := set_heap h0 e) in *.
  assert (HI0 : sched_inv s1 e0 g) by (split; [done|by eapply inv_grown]).
  assert (Hun : unclaimed e0 u) by (intros t z sl Hz Hb; by eapply (grown_fresh_slot e)).
  assert (Hst : stack_ok e0 u (u + USER_STACK_SIZE)) by (split; [done|]; exists zu; split; [apply Hg; by right|lia]).
  apply wp_bind. apply (wp_prepare_user s1 e0 g); [done|done|..].
  - intros s2 e2 g2 H2 Hf Hroom. cbn [Z.eqb]. apply wp_bind.
    assert (Howned : hok (heap e2) /\ owned (heap e2) u zu).
    { destruct Hf as ((h & n & -> & [S1 _ S3 _]) & _). split; [done|]. apply S3, Hg. by right. }
    eapply wp_heap_kfree; [exact H2|apply Howned|apply Howned|]. intros s3 h3 H3 Hsh. wp_steps.
    eapply Hno; [exact H3|by eapply failed_free|]. cbn [andb]. unfold e0 in Hroom. rewrite (thread_room_stack e h0 u _ Er Hu0) in Hroom.
    assert (Hpc : bad_user_pc (qemu e) entry = false) by (unfold may_create_user in Em; rewrite !andb_true_iff, !negb_true_iff in Em; tauto).
    change (qemu (set_heap h0 e)) with (qemu e) in Hroom. by rewrite (good_user_args _ _ _ _ _ _ Hg Hzu Hpc) in Hroom.
  - intros s2 a base h Hb Hmem Hmax Ha0 H2 Hi2. rewrite (proj2 (Z.eqb_neq a 0) Ha0).
    assert (Hna : tasks e !! a = None) by (destruct Hmem as (h1 & za & zb & Hg1 & _); by eapply (grown_not_task e0 h1); [apply HI0|]).
    assert (Hatp : a <> tp e) by congruence.
    assert (Hk : t_kind p = THREAD_USER /\ t_tc p <> 0).
    { unfold may_create_user in Em. rewrite !andb_true_iff, bool_decide_eq_true, negb_true_iff, Z.eqb_neq in Em. tauto. }
    assert (Hnb : tp e <> boot_idle_thread e) by (intros E; rewrite E in Hp; apply (mi_kind _ Hm) in Hp; destruct Hk; congruence).
    destruct (mi_tc _ Hm _ _ Hp (proj1 Hk)) as [_ [pc Hpc]].
    pose proof (parent_tc_other e0 h a base (tp e) p (iv_mem _ _ (proj2 HI0)) Hmem Hp Hnb (proj1 Hk)) as Hne.
    set (e2 := user_created e0 h a base entry u (u + USER_STACK_SIZE)) in *. set (x := user_thread (next_tid e0) base entry u (u + USER_STACK_SIZE)).
    set (tcp := base + THREAD_STACK_SIZE - TRAP_CONTEXT_ALLOC_SIZE) in *.
    assert (Hp2 : tasks e2 !! tp e = Some p) by (unfold e2; rewrite user_created_tasks; by rewrite lookup_insert_ne).
    assert (Hx2 : tasks e2 !! a = Some x) by (unfold e2; rewrite user_created_tasks; apply lookup_insert_eq).
    apply wp_bind. eapply (wp_task_get H2); [exact Hp2|]. intros y2 _ Ey2.
    assert (t_tgid y2 = t_tgid p /\ t_tc y2 = t_tc p) as (-> & ->) by (by rewrite <- Ey2).
    apply wp_bind. eapply (wp_task_core H2); [exact Hx2|done|]. intros s3 H3. set (e3 := upd_task a (set_t_tgid (t_tgid p)) e2) in *.
    assert (Hx3 : tasks e3 !! a = Some (set_t_tgid (t_tgid p) x)) by (apply upd_task_self, Hx2).
    apply wp_bind. eapply (wp_task_get H3); [exact Hx3|]. intros y3 _ Ey3.
    assert (t_tc y3 = tcp) as -> by (transitivity (t_tc (core_thread y3)); [done|by rewrite Ey3]).
    assert (Htc3 : tcs e3 !! tcp = Some (user_tc a entry (u + USER_STACK_SIZE))) 
      by (unfold e3, e2, upd_task; cbn [tcs set_tasks]; rewrite user_created_tcs; apply lookup_insert_eq).
    apply wp_bind. eapply wp_tc_core; [exact H3|exact Htc3|]. intros s4 H4. apply wp_bind. eapply (wp_with_tc s4 e3); [exact H4|]. intros s5 H5.
    apply wp_bind. eapply wp_tc_get; [exact H5| |].
    { unfold with_tc. cbn [tcs set_tcs]. rewrite lookup_insert_ne by done. unfold e3, e2, upd_task. cbn [tcs set_tasks].
      rewrite user_created_tcs, lookup_insert_ne by done. exact Hpc. }
    apply wp_bind. eapply wp_with_tc; [exact H5|]. intros s6 H6.
    assert (Hi6 : inv (sibling e0 p pc a base entry arg return_pc u h) (no_waits a g)) by (apply inv_with_tc, inv_soft; [done|exact Hi2]).
    assert (Hx6 : tasks (sibling e0 p pc a base entry arg return_pc u h) !! a = Some (set_t_tgid (t_tgid p) x)) by exact Hx3.
    apply wp_bind. eapply wp_publish; [split; [exact H6|exact Hi6]|exact Hx6|done|]. intros s7 H7.
    apply wp_bind. eapply (wp_task_get H7); [apply published_self, Hx6|]. intros y7 _ Ey7.
    assert (t_tid y7 = next_tid e) as -> by (transitivity (t_tid (core_thread y7)); [done|by rewrite Ey7]).
    wp_steps. eapply (Hyes s7 a base u zu h0 h pc); try done. eapply inv_publish; [split; [exact H6|exact Hi6]|exact Hx6|done|done].
Qed.

End new.
