(* ===== verification/ThreadExit.v ===== *)
(** * The end of threads

    Stopping threads and processes: who becomes a zombie, what happens to its
    registrations, and that the invariant is kept. *)

From S2P Require Import Prelude Lists Memory Slab MemoryInit Task Sched Wait Thread HeapIface SchedRep SchedLists WaitLists ThreadInv SchedOps WaitOps.

Open Scope Z_scope.

(** ** Effects *)

(** The thread with an id, as a walk over the list of all threads finds it. *)
Definition has_tid (e : sched) (tid t : Z) : bool :=
  match e.(tasks) !! t with Some x => x.(t_tid) =? tid | None => false end.
Definition find_tid (e : sched) (g : lists) (tid : Z) : Z := default 0 (List.find (has_tid e tid) g.(l_all)).

Definition is_zombie (e : sched) (t : Z) : bool :=
  match e.(tasks) !! t with Some x => bool_decide (x.(t_state) = THREAD_ZOMBIE) | None => false end.

(** [t] is off the run queue, has no registrations and is a zombie. *)
Definition zombified (t c : Z) (e : sched) (g : lists) (e' : sched) (g' : lists) : Prop :=
  exists e1 g1, cancelling t e e1 (set_l_run (without t g.(l_run)) g) g1 /\ g1.(l_task) t = [] /\
    e' = upd_task t (set_t_exit_status c) (upd_task t (set_t_state THREAD_ZOMBIE) e1) /\
    g' = set_l_zombies (t :: g.(l_zombies)) g1.

Definition stopped (t c : Z) (e : sched) (g : lists) (e' : sched) (g' : lists) : Prop :=
  if is_zombie e t then e' = e /\ g' = g else zombified t c e g e' g'.

(** A thread of the user process [tgid]. *)
Definition is_member (e : sched) (tgid t : Z) : bool :=
  match e.(tasks) !! t with Some x => bool_decide (x.(t_kind) = THREAD_USER) && (x.(t_tgid) =? tgid) | None => false end.

(** The record of a thread that is stopped, unless it was stopped before. *)
Definition end_thread (c : Z) (x : thread) : thread :=
  if bool_decide (x.(t_state) = THREAD_ZOMBIE) then x else set_t_exit_status c (set_t_state THREAD_ZOMBIE x).

(** The threads that satisfy [D] are stopped and nothing else happens. *)
Record ended (D : Z -> bool) (c : Z) (e : sched) (g : lists) (e' : sched) (g' : lists) : Prop := {
  en_tasks : forall u, e'.(tasks) !! u = (if D u then end_thread c else id) <$> e.(tasks) !! u;
  en_rest : e' = set_tasks e'.(tasks) (set_entries e'.(entries) e);
  en_all : g'.(l_all) = g.(l_all);
  en_run : g'.(l_run) = filter (fun t => D t = false) g.(l_run);
  en_waits : forall u, is_task e.(tasks) u -> g'.(l_task) u = if D u then [] else g.(l_task) u;
}.

Section exit.
Context {hok : slabs -> Prop} {owned : slabs -> Z -> Z -> Prop} {static : slabs -> Z -> Prop}.
Context `{HL : !HeapLaws hok owned static}.
Abbreviation inv := (@inv hok owned static).
Abbreviation sched_inv := (@sched_inv hok owned static).

(** ** Search *)

Lemma wp_find_by_tid s e g tid Q :
  sched_inv s e g -> (forall s', rep s' e g -> Q (find_tid e g tid) s') -> wp (thread_find_by_tid tid) Q s.
Proof.
  intros HI HQ. unfold thread_find_by_tid. apply wp_bind, (wp_irq_save (rep_of HI)). intros s1 H1. wp_steps.
  set (F := has_tid e tid). assert (Hend : forall v, v = find_tid e g tid -> wp (irq_restore (irq e) ;; mret v) Q s1).
  { intros v ->. apply wp_bind, (wp_irq_restore H1). intros s2 H2. wp_steps. rewrite irq_pair in H2. by apply HQ. }
  eapply (wp_all_walk s1 _ g _ (fun st => st) (fun L1 _ => List.find F L1 = None)); [exact H1| | |done|done].
  - intros st -> HP. cbn [Z.eqb]. wp_steps. apply Hend. unfold find_tid. fold F. by rewrite HP.
  - intros L1 t L2 x st EL -> Ht0 Hx HP. rewrite (proj2 (Z.eqb_neq t 0) Ht0). apply wp_bind. eapply wp_access; [exact Hx|].
    assert (EF : F t = (t_tid x =? tid)).
    { unfold F, has_tid. apply (task_rep H1) in Hx. change (tasks (set_irq false e)) with (tasks e) in Hx. by rewrite Hx. }
    destruct (t_tid x =? tid) eqn:E.
    + wp_steps. apply Hend. unfold find_tid. fold F. rewrite EL, find_none_app by done. cbn [List.find]. by rewrite EF.
    + wp_steps. split; [done|]. split; [done|]. rewrite find_none_app by done. cbn [List.find]. by rewrite EF.
Qed.

(** What the result means. *)
Lemma find_tid_found s e g tid :
  sched_inv s e g -> find_tid e g tid <> 0 ->
  exists x, e.(tasks) !! find_tid e g tid = Some x /\ x.(t_tid) = tid /\ find_tid e g tid ∈ g.(l_all).
Proof.
  intros HI. unfold find_tid. destruct (List.find _ _) as [t|] eqn:E; [|done]. intros _. cbn. apply List.find_some in E as [Hin Ht].
  unfold has_tid in Ht. destruct (tasks e !! t) as [x|]; [|done]. apply Z.eqb_eq in Ht. exists x. split; [done|]. split; [done|].
  by apply list_elem_of_In.
Qed.

Lemma find_tid_unique s e g t x :
  sched_inv s e g -> t ∈ g.(l_all) -> e.(tasks) !! t = Some x -> find_tid e g x.(t_tid) = t.
Proof.
  intros HI Ht Hx. assert (Hne : find_tid e g (t_tid x) <> 0).
  { unfold find_tid. destruct (List.find _ _) as [u|] eqn:E; cbn.
    - apply List.find_some in E as [Hin _]. apply (all_nonzero (rep_of HI)). by apply list_elem_of_In.
    - exfalso. apply list_elem_of_In in Ht. pose proof (List.find_none _ _ E t Ht) as Hf. unfold has_tid in Hf. rewrite Hx in Hf.
      apply Z.eqb_neq in Hf. done. }
  destruct (find_tid_found s e g _ HI Hne) as (y & Hy & Ey & _). by apply (id_inj _ (iv_ids _ _ (proj2 HI)) _ y _ x).
Qed.

(** ** Becoming a zombie *)

Lemma wp_make_zombie s e g t c Q :
  rep s e g -> e.(threading_started) <> 0 -> wait_inv e g -> is_task e.(tasks) t -> t ∉ g.(l_zombies) -> t <> 0 ->
  (forall s' e1 g1, cancelling t e e1 g g1 -> g1.(l_task) t = [] ->
     rep s' (upd_task t (set_t_exit_status c) (upd_task t (set_t_state THREAD_ZOMBIE) e1)) (set_l_zombies (t :: g.(l_zombies)) g1) -> Q tt s') ->
  wp (make_zombie t c) Q s.
Proof.
  intros HR Hst Hw Ht Hnz Ht0 HQ. unfold make_zombie. apply wp_bind. eapply wp_cancel; [exact HR|done|done|done|].
  intros s1 e1 g1 H1 Hc El. assert (is_task (tasks e1) t) as [x Hx].
  { destruct (cn_tasks _ _ _ _ _ Hc) as [E|[E _]]; rewrite E; [done|]. unfold is_task. rewrite lookup_alter_eq, fmap_is_Some. exact Ht. }
  apply wp_bind. eapply (wp_task_core H1); [exact Hx|done|]. intros s2 H2.
  apply wp_bind. eapply (wp_task_core H2); [apply upd_task_self, Hx|done|]. intros s3 H3.
  destruct (cn_lists _ _ _ _ _ Hc) as (_ & _ & Ez).
  eapply (wp_zombie_push H3); [by rewrite Ez|done|eexists; apply upd_task_self, upd_task_self, Hx|].
  intros s4 H4. rewrite Ez in H4. by eapply HQ.
Qed.

(** The thread itself after the change, and the others. *)
Lemma zombified_task t c e g e' g' u :
  zombified t c e g e' g' -> is_task e.(tasks) t ->
  e'.(tasks) !! u = (if decide (t = u) then (fun x => set_t_exit_status c (set_t_state THREAD_ZOMBIE x)) <$> e.(tasks) !! u else e.(tasks) !! u).
Proof.
  intros (e1 & g1 & Hc & _ & -> & _) Ht. destruct (decide (t = u)) as [<-|Hne].
  - destruct Ht as [x Hx]. rewrite Hx. destruct (cn_tasks _ _ _ _ _ Hc) as [E|[E _]].
    + erewrite upd_task_self; [|apply upd_task_self; by rewrite E]. done.
    + erewrite upd_task_self; [|apply upd_task_self; rewrite E, lookup_alter_eq, Hx; done]. done.
  - rewrite !upd_task_other by done. destruct (cn_tasks _ _ _ _ _ Hc) as [E|[E _]]; rewrite E; [done|]. by rewrite lookup_alter_ne.
Qed.

Lemma zombified_rest t c e g e' g' :
  zombified t c e g e' g' -> is_task e.(tasks) t ->
  e' = set_tasks e'.(tasks) (set_entries e'.(entries) e) /\ wait_inv e' g' /\ g'.(l_all) = g.(l_all) /\ g'.(l_run) = without t g.(l_run) /\
  g'.(l_zombies) = t :: g.(l_zombies) /\ g'.(l_task) t = [] /\ (forall u, u <> t -> g'.(l_task) u = g.(l_task) u).
Proof.
  intros (e1 & g1 & Hc & El & -> & ->) Ht. destruct Hc as [C1 C2 C3 C4 (C5 & C6 & C7) C8]. split_and!; try done.
  - rewrite C3. done.
  - eapply wait_inv_same; [exact C1| |done..]. 
    apply (same_view_trans _ _ (upd_task t (set_t_state THREAD_ZOMBIE) e1)); [by apply (same_view_upd _ t (set_t_state THREAD_ZOMBIE))|].
    by apply (same_view_upd _ t (set_t_exit_status c)).
Qed.

Lemma same_view_zombified {A} (f : thread -> A) t c e g e' g' :
  zombified t c e g e' g' -> is_task e.(tasks) t -> (forall v x, f (set_t_state v x) = f x) -> (forall v x, f (set_t_exit_status v x) = f x) ->
  same_view f e e'.
Proof.
  intros Hz Ht H1 H2 u. rewrite (zombified_task t c e g e' g' u Hz Ht). case_decide; [|done]. subst.
  destruct (tasks e !! u) as [x|]; [|done]. cbn. by rewrite H2, H1.
Qed.

Lemma inv_zombified s e g t c e' g' x :
  sched_inv s e g -> e.(tasks) !! t = Some x -> t ∈ g.(l_all) -> t <> e.(boot_idle_thread) -> zombified t c e g e' g' -> inv e' g'.
Proof.
  intros HI Hx Hin Hb Hz. assert (Ht : is_task (tasks e) t) by (by exists x). pose proof HI as [HR [[A1 A2 A3 A4] Hw Hi Hm]].
  destruct (zombified_rest _ _ _ _ _ _ Hz Ht) as (Er & Hw' & E1 & E2 & E3 & E4 & E5).
  pose proof (A4 t x Hx) as [B1 B2 B3 B4 B5 B6 B7 B8 B9 B10 B11].
  assert (Ebt : boot_idle_thread e' = boot_idle_thread e /\ tp e' = tp e /\ frames e' = frames e /\ threading_started e' = threading_started e /\
    next_tid e' = next_tid e /\ tcs e' = tcs e /\ heap e' = heap e) by (by rewrite Er). destruct Ebt as (R1 & R2 & R3 & R4 & R5 & R6 & R7).
  constructor.
  - constructor; rewrite ?R1, ?R2, ?R4, ?E1; try done. intros u z. rewrite (zombified_task _ _ _ _ _ _ u Hz Ht).
    destruct (decide (t = u)) as [<-|Hne].
    + rewrite Hx. intros [= <-]. constructor; rewrite ?R1, ?R2, ?E1, ?E2, ?E3, ?E4;
        cbn [t_state set_t_state t_is_idle t_entry set_t_exit_status]; try done.
      * rewrite elem_of_without. split; [by intros [_ ?]|by intros [? _]].
      * split; [done|]. intros _. set_solver.
      * intros _. tauto.
      * intros _. apply B10. by apply B1.
      * intros Htp. destruct (B11 Htp) as [[? ?]|[? ?]]; [left|right; by rewrite R1]. by rewrite R3.
    + intros Hu. eapply thread_ok_same; [by apply A4|done|done|done|by rewrite E1| | |by apply E5].
      * rewrite E2, elem_of_without. split; [tauto|]. intros ?. split; [done|congruence].
      * rewrite E3. set_solver.
  - done.
  - eapply ids_inv_same; [exact Hi|by eapply same_view_zombified|done..].
  - eapply mem_inv_same; [exact Hm|by eapply same_view_zombified|done|done|rewrite R7; apply Hm|by rewrite R7|by rewrite R7].
Qed.

(** *** The interrupt flag *)

Lemma wait_inv_irq e g v : wait_inv e g -> wait_inv (set_irq v e) g.
Proof. intros Hw. eapply wait_inv_same; [exact Hw|by apply same_view_refl|done..]. Qed.

Lemma cancelling_irq t e e' g g' v : cancelling t e e' g g' -> cancelling t (set_irq v e) (set_irq v e') g g'.
Proof.
  intros [C1 C2 C3 C4 C5 C6]. constructor; try done; [by apply wait_inv_irq|].
  transitivity (set_irq v (set_tasks (tasks e') (set_entries (entries e') e))); [by rewrite <- C3|done].
Qed.

Lemma zombified_irq t c e g e' g' v : zombified t c e g e' g' -> zombified t c (set_irq v e) g (set_irq v e') g'.
Proof. intros (e1 & g1 & Hc & El & -> & ->). exists (set_irq v e1), g1. split; [by apply cancelling_irq|done]. Qed.

Lemma zombified_restore t c e g e' g' :
  zombified t c (set_irq false e) g e' g' -> is_task e.(tasks) t -> zombified t c e g (set_irq (irq e' || irq e) e') g'.
Proof.
  intros Hz Ht. destruct (zombified_rest _ _ _ _ _ _ Hz Ht) as (Er & _). assert (irq e' = false) as -> by (by rewrite Er). cbn [orb].
  apply (zombified_irq _ _ _ _ _ _ (irq e)) in Hz. by rewrite set_irq_twice, set_irq_self in Hz.
Qed.

(** ** Stopping a thread *)

Lemma wp_zombie_body s e g t c x Q :
  sched_inv s e g -> e.(tasks) !! t = Some x -> t ∈ g.(l_all) -> is_zombie e t = false ->
  forall s1, rep s1 (set_irq false e) (set_l_run (without t g.(l_run)) g) ->
  (forall s' e' g', rep s' e' g' -> zombified t c e g e' g' -> Q tt s') ->
  wp (make_zombie t c ;; irq_restore (irq e)) Q s1.
Proof.
  intros HI Hx Hin Hz s1 H1 HQ. pose proof HI as [HR Hinv]. pose proof (si_threads _ _ (iv_state _ _ Hinv) t x Hx) as Hok.
  apply wp_bind. eapply (wp_make_zombie s1); [exact H1|apply Hinv|..].
  - eapply wait_inv_same; [apply Hinv|by apply same_view_refl|done..].
  - by exists x.
  - cbn [l_zombies set_l_run]. rewrite (to_zombie _ _ _ _ Hok). unfold is_zombie in Hz. rewrite Hx in Hz. by apply bool_decide_eq_false in Hz.
  - by apply (all_nonzero HR).
  - intros s2 e1 g1 Hc El H2. apply (wp_irq_restore H2). intros s3 H3. eapply HQ; [exact H3|]. apply zombified_restore; [|by exists x].
    by exists e1, g1.
Qed.

Lemma wp_mark_zombie s e g c Q :
  sched_inv s e g -> (e.(tp) = e.(boot_idle_thread) -> Q tt s) ->
  (e.(tp) <> e.(boot_idle_thread) -> forall s' e' g', rep s' e' g' -> stopped e.(tp) c e g e' g' -> Q tt s') ->
  wp (thread_mark_current_zombie c) Q s.
Proof.
  intros HI Hno Hyes. pose proof (rep_of HI) as HR. destruct (cur_task HI) as (x & Hx & Hok & Hp0).
  unfold thread_mark_current_zombie. apply wp_bind, (wp_current HI). rewrite (proj2 (Z.eqb_neq (tp e) 0) Hp0).
  apply wp_bind. eapply (wp_task_get HR); [exact Hx|]. intros y _ Ey.
  assert (t_is_idle y = if decide (tp e = boot_idle_thread e) then 1 else 0) as -> by (rewrite <- (to_idle _ _ _ _ Hok), <- Ey; done).
  destruct (decide (tp e = boot_idle_thread e)) as [Eb|Eb]; cbn [Z.eqb negb]; [wp_steps; by apply Hno|]. specialize (Hyes Eb).
  apply wp_bind, (wp_irq_save HR). intros s1 H1. apply wp_bind. eapply (wp_task_get H1); [exact Hx|]. intros z _ Ez.
  assert (t_state z = t_state x) as -> by (by rewrite <- Ez). unfold stopped in Hyes.
  assert (Ezb : is_zombie e (tp e) = bool_decide (t_state x = THREAD_ZOMBIE)) by (unfold is_zombie; by rewrite Hx).
  destruct (bool_decide (t_state x = THREAD_ZOMBIE)); rewrite Ezb in Hyes.
  - apply (wp_irq_restore H1). intros s2 H2. rewrite irq_pair in H2. by eapply Hyes.
  - assert (Hnr : tp e ∉ l_run g) by (intros Hin; destruct (run_task HI _ Hin) as (? & _ & _ & _ & _ & _ & ?); done).
    eapply (wp_zombie_body s e g); [exact HI|exact Hx|apply HI|done| |exact Hyes]. by rewrite without_absent, set_l_run_id.
Qed.

Lemma inv_stopped s e g t c e' g' x :
  sched_inv s e g -> e.(tasks) !! t = Some x -> t ∈ g.(l_all) -> t <> e.(boot_idle_thread) -> stopped t c e g e' g' -> inv e' g'.
Proof. intros HI Hx Hin Hb. unfold stopped. destruct (is_zombie e t); [intros [-> ->]; apply HI|by eapply inv_zombified]. Qed.

Lemma wp_stop_tid s e g tid c Q :
  sched_inv s e g ->
  (find_tid e g tid = 0 \/ find_tid e g tid = e.(boot_idle_thread) -> forall s', rep s' e g -> Q (-1) s') ->
  (find_tid e g tid <> 0 -> find_tid e g tid <> e.(boot_idle_thread) ->
     forall s' e' g', rep s' e' g' -> stopped (find_tid e g tid) c e g e' g' -> Q 0 s') ->
  wp (thread_stop_tid tid c) Q s.
Proof.
  intros HI Hno Hyes. unfold thread_stop_tid. apply wp_bind. eapply wp_find_by_tid; [exact HI|]. intros s1 H1.
  assert (HI1 : sched_inv s1 e g) by (split; [done|apply HI]). destruct (Z.eqb_spec (find_tid e g tid) 0) as [E0|E0]; [wp_steps; apply Hno; [by left|done]|].
  destruct (find_tid_found s e g tid HI E0) as (x & Hx & _ & Hin). set (t := find_tid e g tid) in *.
  pose proof (si_threads _ _ (iv_state _ _ (proj2 HI)) t x Hx) as Hok. apply wp_bind. eapply (wp_task_get H1); [exact Hx|]. intros y _ Ey.
  assert (t_is_idle y = if decide (t = boot_idle_thread e) then 1 else 0) as -> by (rewrite <- (to_idle _ _ _ _ Hok), <- Ey; done).
  destruct (decide (t = boot_idle_thread e)) as [Eb|Eb]; cbn [Z.eqb negb]; [wp_steps; apply Hno; [by right|done]|]. specialize (Hyes E0 Eb).
  apply wp_bind, (wp_current HI1). destruct (Z.eqb_spec t (tp e)) as [Et|Et].
  - apply wp_bind. eapply wp_mark_zombie; [exact HI1|congruence|]. intros _ s2 e2 g2 H2 Hs. wp_steps. rewrite <- Et in Hs. by eapply Hyes.
  - apply wp_bind, (wp_irq_save H1). intros s2 H2. apply wp_bind. eapply (wp_task_get H2); [exact Hx|]. intros z _ Ez.
    assert (t_state z = t_state x) as -> by (by rewrite <- Ez). unfold stopped in Hyes.
    assert (Ezb : is_zombie e t = bool_decide (t_state x = THREAD_ZOMBIE)) by (unfold is_zombie; by rewrite Hx).
    destruct (bool_decide (t_state x = THREAD_ZOMBIE)); rewrite Ezb in Hyes.
    + apply wp_bind, (wp_irq_restore H2). intros s3 H3. wp_steps. rewrite irq_pair in H3. by eapply Hyes.
    + apply wp_bind. apply (wp_sched_remove H2). intros s3 H3.
      pose proof (wp_zombie_body s e g t c x (fun _ s' => Q 0 s') HI Hx Hin Ezb s3 H3) as Hb. specialize (Hb Hyes).
      apply wp_bind. unfold wp, mbind, M_bind in Hb |- *. destruct (make_zombie t c s3) as [[[] s4]|]; [|done].
      destruct (irq_restore (irq e) s4) as [[[] s5]|]; done.
Qed.

(** ** Stopping a process *)

Lemma ended_refl c e g : ended (fun _ => false) c e g e g.
Proof.
  constructor; try done.
  - intros u. by destruct (tasks e !! u).
  - by destruct e.
  - induction (l_run g) as [|t R IH]; [done|]. by rewrite filter_cons_True, <- IH.
Qed.

Lemma filter_step (D D' : Z -> bool) t (L : list Z) :
  (forall u, D' u = D u || (u =? t)) -> filter (fun u => D' u = false) L = without t (filter (fun u => D u = false) L).
Proof.
  intros E. unfold without. induction L as [|u L IH]; [done|]. rewrite !filter_cons, E. destruct (D u) eqn:Du; cbn [orb].
  - by rewrite !decide_False by done.
  - rewrite (decide_True (P := false = false)) by done. rewrite filter_cons. destruct (Z.eqb_spec u t) as [->|Hu].
    + rewrite decide_False by done. rewrite decide_False by tauto. exact IH.
    + rewrite !decide_True by done. by rewrite IH.
Qed.

(** One more thread. *)
Lemma ended_stop s1 D D' t c e g e1 g1 e2 g2 :
  ended D c e g e1 g1 -> sched_inv s1 e1 g1 -> t ∈ g1.(l_all) -> stopped t c e1 g1 e2 g2 -> (forall u, D' u = D u || (u =? t)) ->
  ended D' c e g e2 g2.
Proof.
  intros [H1 H2 H3 H4 H5] HI Ht Hs ED. destruct (all_task HI _ Ht) as (x1 & Hx1 & Hok & _).
  assert (Hx : exists x, tasks e !! t = Some x /\ x1 = (if D t then end_thread c else id) x).
  { rewrite H1 in Hx1. destruct (tasks e !! t) as [x|]; [|done]. injection Hx1 as <-. by exists x. }
  destruct Hx as (x & Hx & Ex1). unfold stopped, is_zombie in Hs. rewrite Hx1 in Hs. case_bool_decide as Hz.
  - destruct Hs as [-> ->]. constructor; try done.
    + intros u. rewrite H1, ED. destruct (Z.eqb_spec u t) as [->|Hu]; [|by rewrite orb_false_r]. rewrite orb_true_r, Hx.
      destruct (D t); [done|]. cbn. unfold end_thread. rewrite bool_decide_true; [done|]. by rewrite Ex1 in Hz.
    + rewrite (filter_step D D' t _ ED), <- H4. symmetry. apply without_absent. rewrite (to_run _ _ _ _ Hok). by intros [? _]; congruence.
    + intros u Hu. rewrite H5, ED by done. destruct (Z.eqb_spec u t) as [->|Hne]; [|by rewrite orb_false_r]. rewrite orb_true_r.
      destruct (D t) eqn:Dt; [done|]. pose proof (to_unwaiting _ _ _ _ Hok (or_introl Hz)) as Hl. by rewrite H5, Dt in Hl.
  - assert (Hit : is_task (tasks e1) t) by (by exists x1).
    destruct (zombified_rest _ _ _ _ _ _ Hs Hit) as (Er & _ & E1 & E2 & _ & E4 & E5). constructor.
    + intros u. rewrite (zombified_task _ _ _ _ _ _ u Hs Hit), H1, ED. destruct (decide (t = u)) as [<-|Hu].
      * rewrite Z.eqb_refl, orb_true_r, Hx. cbn. f_equal. destruct (D t).
        -- exfalso. apply Hz. rewrite Ex1. unfold end_thread. by case_bool_decide.
        -- cbn [id]. unfold end_thread. rewrite bool_decide_false; [done|]. by rewrite Ex1 in Hz.
      * destruct (Z.eqb_spec u t); [congruence|]. by rewrite orb_false_r.
    + transitivity (set_tasks (tasks e2) (set_entries (entries e2) (set_tasks (tasks e1) (set_entries (entries e1) e)))); [by rewrite <- H2|done].
    + by rewrite E1.
    + by rewrite E2, H4, (filter_step D D' t _ ED).
    + intros u Hu. rewrite ED. destruct (Z.eqb_spec u t) as [->|Hne]; [by rewrite orb_true_r|]. rewrite orb_false_r, E5 by done. by apply H5.
Qed.

Lemma ended_skip D D' c e g e1 g1 :
  ended D c e g e1 g1 -> (forall u, D' u = D u) -> ended D' c e g e1 g1.
Proof.
  intros [H1 H2 H3 H4 H5] E. constructor; try done.
  - intros u. by rewrite E.
  - rewrite H4. clear - E. induction (l_run g) as [|u L IH]; [done|]. rewrite !filter_cons, E, IH. done.
  - intros u. rewrite E. apply H5.
Qed.

Lemma ended_restore D c e g e' g' : ended D c (set_irq false e) g e' g' -> ended D c e g (set_irq (irq e' || irq e) e') g'.
Proof.
  intros [H1 H2 H3 H4 H5]. assert (irq e' = false) as -> by (by rewrite H2). cbn [orb]. constructor; try done.
  transitivity (set_irq (irq e) (set_tasks (tasks e') (set_entries (entries e') (set_irq false e)))); [by rewrite <- H2|].
  transitivity (set_tasks (tasks e') (set_entries (entries e') (set_irq (irq e) e))); [done|]. rewrite set_irq_self. done.
Qed.

(** The kind, group and id of a thread never change here. *)
Lemma ended_member D c e g e' g' tgid t : ended D c e g e' g' -> is_member e' tgid t = is_member e tgid t.
Proof.
  intros H. unfold is_member. rewrite (en_tasks _ _ _ _ _ _ H). destruct (tasks e !! t) as [x|]; [|done]. cbn. destruct (D t); [|done].
  unfold end_thread. by destruct (bool_decide (t_state x = THREAD_ZOMBIE)).
Qed.

Definition members (e : sched) (tgid : Z) (L : list Z) (u : Z) : bool := is_member e tgid u && bool_decide (u ∈ L).

Lemma members_snoc e tgid L t : is_member e tgid t = true -> forall u, members e tgid (L ++ [t]) u = members e tgid L u || (u =? t).
Proof.
  intros Ht u. unfold members. destruct (Z.eqb_spec u t) as [->|Hu].
  - rewrite Ht, orb_true_r. apply bool_decide_true. set_solver.
  - rewrite orb_false_r. f_equal. apply bool_decide_ext. set_solver.
Qed.
Lemma members_skip e tgid L t : is_member e tgid t = false -> forall u, members e tgid (L ++ [t]) u = members e tgid L u.
Proof.
  intros Ht u. unfold members. destruct (decide (u = t)) as [->|Hu]; [by rewrite Ht|]. f_equal. apply bool_decide_ext. set_solver.
Qed.

(** In the loop of [thread_stop_process]: the members among the visited threads
    are stopped, and [L2] is left. *)
Definition stopping (tgid c : Z) (e : sched) (g : lists) (L2 : list Z) (st : Z * bool) (s' : sched) : Prop :=
  exists e' g' L1, sched_inv s' e' g' /\ g.(l_all) = L1 ++ L2 /\ ended (members e tgid L1) c e g e' g' /\
    sll 0 (link t_all_next s'.(tasks)) (fst st) L2 /\ snd st = existsb (is_member e tgid) L1.

Lemma stopping_next tgid c e g s' e' g' L1 t L2 (f : bool) (Q : bool -> sched -> Prop) :
  sched_inv s' e' g' -> g.(l_all) = L1 ++ t :: L2 -> ended (members e tgid (L1 ++ [t])) c e g e' g' ->
  f = existsb (is_member e tgid) (L1 ++ [t]) ->
  wp (x ← task_get t; mret (inl (t_all_next x, f)))
    (fun r s1 => match r with inr v => Q v s1 | inl st => stopping tgid c e g L2 st s1 end) s'.
Proof.
  intros HI EL He Hf. pose proof (rp_all _ _ _ (rep_of HI)) as [Hsl Hnd].
  rewrite (en_all _ _ _ _ _ _ He), EL in Hsl. destruct (sll_split _ _ _ _ _ _ Hsl) as (_ & n & Hn & Hs).
  unfold link in Hn. destruct (tasks s' !! t) as [y|] eqn:Hy; [|done]. injection Hn as <-.
  apply wp_bind. eapply wp_access; [exact Hy|]. wp_steps. exists e', g', (L1 ++ [t]). by rewrite <- app_assoc.
Qed.

Lemma wp_stop_round tgid c e g t L2 cur found s' (Q : bool -> sched -> Prop) :
  stopping tgid c e g (t :: L2) (cur, found) s' ->
  wp (if cur =? 0 then mret (inr found)
       else
         x ← task_get cur;
         found ← (if bool_decide (x.(t_kind) = THREAD_USER) && (x.(t_tgid) =? tgid)
                  then thread_stop_tid x.(t_tid) c ;; mret true
                  else mret found);
         x ← task_get cur;
         mret (inl (x.(t_all_next), found)))
    (fun r s1 => match r with inr v => Q v s1 | inl st => stopping tgid c e g L2 st s1 end) s'.
Proof.
  intros (e' & g' & L1 & HI' & EL & He & (E & Ht0 & n & Hn & _) & Ef). cbn [fst snd] in E, Ef. subst cur.
  rewrite (proj2 (Z.eqb_neq t 0) Ht0). pose proof (rep_of HI') as HR'. unfold link in Hn. destruct (tasks s' !! t) as [x|] eqn:Hx; [|done].
  apply wp_bind. eapply wp_access; [exact Hx|].
  assert (Hin : t ∈ l_all g') by (rewrite (en_all _ _ _ _ _ _ He), EL; set_solver).
  pose proof (task_rep HR' _ _ Hx) as Hxe. assert (Em : is_member e tgid t = bool_decide (t_kind x = THREAD_USER) && (t_tgid x =? tgid)).
  { rewrite <- (ended_member _ _ _ _ _ _ _ _ He). unfold is_member. by rewrite Hxe. }
  rewrite <- Em. destruct (is_member e tgid t) eqn:Emt.
  - assert (Hb : t <> boot_idle_thread e').
    { intros E1. symmetry in Em. apply andb_true_iff in Em as [Hk _]. apply bool_decide_eq_true in Hk.
      pose proof (mi_kind _ (iv_mem _ _ (proj2 HI')) (core_thread x)) as Hkk. rewrite <- E1 in Hkk. specialize (Hkk Hxe). cbn in Hkk. congruence. }
    assert (Ef' : find_tid e' g' (t_tid x) = t) by (by apply (find_tid_unique s' e' g' t (core_thread x))).
    apply wp_bind, wp_bind. eapply wp_stop_tid; [exact HI'|..]; rewrite Ef'; [by intros [?|?]|]. intros _ _ s2 e2 g2 H2 Hst. apply wp_ret.
    eapply (stopping_next _ _ _ _ _ e2 g2 L1); [split; [done|by eapply inv_stopped]|done| |].
    + eapply (ended_stop s'); [exact He|exact HI'|done|exact Hst|by apply members_snoc].
    + rewrite existsb_app. cbn [existsb]. by rewrite Emt, orb_true_r.
  - apply wp_bind, wp_ret. eapply (stopping_next _ _ _ _ _ e' g' L1); [done|done| |].
    + eapply ended_skip; [exact He|by apply members_skip].
    + rewrite existsb_app. cbn [existsb]. by rewrite Emt, !orb_false_r.
Qed.

Lemma wp_stop_process s e g tgid c Q :
  sched_inv s e g ->
  (forall s' e' g', sched_inv s' e' g' -> ended (members e tgid g.(l_all)) c e g e' g' ->
     Q (if existsb (is_member e tgid) g.(l_all) then 0 else -1) s') ->
  wp (thread_stop_process tgid c) Q s.
Proof.
  intros HI HQ. unfold thread_stop_process. apply wp_bind, (wp_irq_save (rep_of HI)). intros s1 H1. wp_steps.
  set (e0 := set_irq false e) in *. assert (HI1 : sched_inv s1 e0 g) by (split; [done|apply inv_irq, HI]).
  apply (wp_loop_list (stopping tgid c e0 g)) with (L := l_all g).
  - intros [cur found] s' (e' & g' & L1 & HI' & EL & He & Hc & Ef). cbn in Hc, Ef. rewrite Hc, Ef. cbn [Z.eqb]. wp_steps.
    rewrite app_nil_r in EL. subst L1. apply (wp_irq_restore (rep_of HI')). intros s2 H2. wp_steps. eapply HQ; [|by apply ended_restore, He].
    split; [done|apply inv_irq, HI'].
  - intros t L2 [cur found] s' Hst. eapply wp_stop_round. exact Hst.
  - exists e0, g, []. split; [done|]. split; [done|]. split; [|by split; [apply H1|]].
    eapply ended_skip; [apply ended_refl|]. intros u. unfold members. rewrite bool_decide_false by set_solver. apply andb_false_r.
  - pose proof (chain_fits _ _ _ (rp_all _ _ _ H1)). lia.
Qed.

End exit.
