(* ===== verification/ThreadReap.v ===== *)
(** * Reclaiming zombies

    [thread_reap_zombies] on the state without links: the threads that go, the
    memory that is given back, and that everything else stays. *)

From S2P Require Import Prelude Lists Memory Slab MemoryInit Task Sched Wait Thread HeapIface SchedRep SchedLists WaitLists ThreadInv SchedOps WaitOps ThreadNew ThreadExit.

Open Scope Z_scope.

Lemma outside_lookup {A} lo hi (m : gmap Z A) i x : outside lo hi m !! i = Some x <-> m !! i = Some x /\ ~ (lo <= i < hi).
Proof. unfold outside. by rewrite map_lookup_filter_Some. Qed.

Lemma outside_keep {A} lo hi (m : gmap Z A) i : ~ (lo <= i < hi) -> outside lo hi m !! i = m !! i.
Proof.
  intros Hi. destruct (m !! i) as [x|] eqn:E; [by apply outside_lookup|]. destruct (outside lo hi m !! i) as [x|] eqn:E'; [|done].
  apply outside_lookup in E' as [E' _]. congruence.
Qed.

Lemma outside_fmap {A B} (f : A -> B) lo hi (m : gmap Z A) : f <$> outside lo hi m = outside lo hi (f <$> m).
Proof.
  apply map_eq. intros i. rewrite lookup_fmap. destruct (decide (lo <= i < hi)) as [Hi|Hi].
  - assert (E : forall C (m' : gmap Z C), outside lo hi m' !! i = None).
    { intros C m'. destruct (outside lo hi m' !! i) eqn:E; [|done]. by apply outside_lookup in E as [_ ?]. }
    by rewrite !E.
  - by rewrite !outside_keep, lookup_fmap.
Qed.

(** Entries that are on no list may go. *)
Definition without_stack (base : Z) (e : sched) : sched :=
  set_entries (outside base (base + THREAD_STACK_SIZE) e.(entries)) (set_tcs (outside base (base + THREAD_STACK_SIZE) e.(tcs)) e).

Definition clear_of (base : Z) (L : list Z) : Prop := forall i, i ∈ L -> ~ (base <= i < base + THREAD_STACK_SIZE).

Lemma rep_without_stack s e g base :
  rep s e g -> (forall q, is_queue e.(queues) q -> clear_of base (g.(l_queue) q)) ->
  (forall t, is_task e.(tasks) t -> clear_of base (g.(l_task) t)) -> rep (without_stack base s) (without_stack base e) g.
Proof.
  intros HR Cq Ct. pose proof HR as [H1 H2 H3 H4 H5 H6 H7 H8]. constructor; unfold without_stack; sched_simpl; try done.
  - rewrite erase_set_entries, outside_fmap, <- H1. done.
  - eapply dlls_ext; [exact H6| |done|done]. intros q i Hq Hi. unfold qlinks. rewrite outside_keep; [done|].
    apply (Cq q); [by apply (rep_is_queue HR)|done].
  - eapply dlls_ext; [exact H8| |done|done]. intros t i Ht Hi. unfold tlinks. rewrite outside_keep; [done|].
    apply (Ct t); [by apply (rep_is_task HR)|done].
Qed.

(** ** What is given back *)

(** The heap blocks of a thread, in the order in which they are freed. *)
Definition thread_blocks (e : sched) (t : Z) : list Z :=
  match e.(tasks) !! t with Some x => omap (slot_addr t x) [sl_ustack; sl_kstack; sl_tcb] | None => [] end.

Section reap.
Context {hok : slabs -> Prop} {owned : slabs -> Z -> Z -> Prop} {static : slabs -> Z -> Prop}.
Context `{HL : !HeapLaws hok owned static}.
Abbreviation inv := (@inv hok owned static).
Abbreviation sched_inv := (@sched_inv hok owned static).
Abbreviation shrunk := (@shrunk hok owned static).

(** The blocks [D] are free, all others as before. *)
Record released (D : list Z) (h h' : slabs) : Prop := {
  rl_ok : hok h';
  rl_irq : h'.(pages).(irq_on) = h.(pages).(irq_on);
  rl_owned : forall b y, owned h' b y <-> owned h b y /\ b ∉ D;
  rl_static : forall x, static h' x <-> static h x;
}.

Lemma released_refl h : hok h -> released [] h h.
Proof. intros Hh. constructor; try done. set_solver. Qed.

Lemma released_trans D D' h h1 h2 : released D h h1 -> released D' h1 h2 -> released (D ++ D') h h2.
Proof.
  intros [A1 A2 A3 A4] [B1 B2 B3 B4]. constructor; [done|by rewrite B2| |].
  - intros b y. rewrite B3, A3, not_elem_of_app. tauto.
  - intros x. by rewrite B4.
Qed.

Lemma released_shrunk D h h1 h2 a : released D h h1 -> shrunk h1 h2 a -> released (D ++ [a]) h h2.
Proof.
  intros Hr [B1 B2 B3 B4]. eapply released_trans; [exact Hr|]. constructor; try done. intros b y. rewrite B3. set_solver.
Qed.

(** *** One zombie *)

Definition reaped_one (z base : Z) (h : slabs) (e : sched) : sched := without_task z (without_stack base (set_heap h e)).
Definition reaped_lists (z : Z) (g : lists) : lists := set_l_all (without z g.(l_all)) (set_l_zombies (tail g.(l_zombies)) g).

(** A stack that is not the one of [z] does not meet it. *)
Lemma stacks_apart e z x t y i :
  mem_inv e (hok := hok) (owned := owned) (static := static) ->
  e.(tasks) !! z = Some x -> z <> e.(boot_idle_thread) -> e.(tasks) !! t = Some y -> t <> e.(boot_idle_thread) -> t <> z ->
  in_stack y i -> ~ in_stack x i.
Proof.
  intros Hm Hx Hzb Hy Htb Htz Hi Hi'. destruct (mi_owned _ Hm z x sl_kstack _ Hx Hzb eq_refl) as (a & Ha & Hal).
  destruct (mi_owned _ Hm t y sl_kstack _ Hy Htb eq_refl) as (b & Hb & Hbl). unfold in_stack in *. cbn [slot_size] in *.
  destruct (hl_disjoint _ _ _ _ _ i (mi_heap _ Hm) Ha Hb) as [E _]; [lia|lia|].
  destruct (mi_inj _ Hm t y sl_kstack z x sl_kstack (t_kstack_base y)) as [? _]; try done. cbn. by rewrite E.
Qed.

Section one.
Context {s e : sched} {g : lists} (HI : sched_inv s e g) {z : Z} {x : thread}.
Context (Hx : e.(tasks) !! z = Some x) (Hz : z ∈ g.(l_zombies)).

Lemma zombie_state : x.(t_state) = THREAD_ZOMBIE /\ z <> e.(boot_idle_thread) /\ g.(l_task) z = [] /\ z ∉ g.(l_run) /\ z <> 0.
Proof.
  pose proof (si_threads _ _ (iv_state _ _ (proj2 HI)) z x Hx) as Hok. pose proof (proj1 (to_zombie _ _ _ _ Hok) Hz) as Hst.
  split_and!; [done| | | |].
  - intros E. destruct (to_boot _ _ _ _ Hok E); congruence.
  - apply (to_unwaiting _ _ _ _ Hok). by left.
  - rewrite (to_run _ _ _ _ Hok). intros [? _]. congruence.
  - by apply (zombies_nonzero (rep_of HI)).
Qed.

(** A registered entry is in the stack of another thread. *)
Lemma registered_apart i y : e.(entries) !! i = Some y -> y.(e_task) <> 0 -> y.(e_task) <> z /\ ~ in_stack x i.
Proof.
  intros Hy Ht. destruct HI as [HR [Hs Hw Hi Hm]]. destruct zombie_state as (_ & Hzb & Hzl & _).
  destruct (wi_entry _ _ Hw i y Hy) as [[? _]|(_ & x' & Hx' & Hst)]; [done|].
  assert (Hin : i ∈ l_task g (e_task y)) by (apply (wi_task _ _ Hw); [by exists x'|by exists y]).
  assert (Hne : e_task y <> z) by (intros E; rewrite E, Hzl in Hin; by apply not_elem_of_nil in Hin). split; [done|].
  eapply (stacks_apart e z x (e_task y) x'); try done. intros E.
  pose proof (to_unwaiting _ _ _ _ (si_threads _ _ Hs _ _ Hx') (or_intror (or_intror E))) as El. rewrite El in Hin. by apply not_elem_of_nil in Hin.
Qed.

Lemma queue_apart q : is_queue e.(queues) q -> clear_of x.(t_kstack_base) (g.(l_queue) q).
Proof.
  intros Hq i Hi. apply (wi_queue _ _ (iv_wait _ _ (proj2 HI))) in Hi as (y & Hy & Ey); [|done].
  apply (registered_apart i y Hy). destruct (wi_entry _ _ (iv_wait _ _ (proj2 HI)) i y Hy) as [[_ E]|(_ & x' & Hx' & _)].
  - rewrite E in Ey. subst q. destruct Hq as [? Hq]. pose proof (proj2 (wi_null _ _ (iv_wait _ _ (proj2 HI)))). congruence.
  - intros E. rewrite E in Hx'. pose proof (proj1 (wi_null _ _ (iv_wait _ _ (proj2 HI)))). congruence.
Qed.

Lemma task_apart t : is_task e.(tasks) t -> clear_of x.(t_kstack_base) (g.(l_task) t).
Proof.
  intros Ht i Hi. apply (wi_task _ _ (iv_wait _ _ (proj2 HI))) in Hi as (y & Hy & Ey); [|done].
  apply (registered_apart i y Hy). rewrite Ey. intros ->. destruct Ht as [? Ht].
  pose proof (proj1 (wi_null _ _ (iv_wait _ _ (proj2 HI)))). congruence.
Qed.

Lemma thread_blocks_slots b : b ∈ thread_blocks e z <-> exists sl, slot_addr z x sl = Some b.
Proof.
  unfold thread_blocks. rewrite Hx, list_elem_of_omap. split; [intros (sl & _ & E); by exists sl|].
  intros (sl & E). exists sl. split; [destruct sl; set_solver|done].
Qed.

Lemma mem_inv_reaped h :
  released (thread_blocks e z) e.(heap) h -> mem_inv (reaped_one z x.(t_kstack_base) h e) (hok := hok) (owned := owned) (static := static).
Proof.
  intros [R1 R2 R3 R4]. destruct HI as [_ [_ _ _ Hm]]. destruct zombie_state as (_ & Hzb & _). pose proof Hm as [M1 M2 M3 M4 M5 M6 M7].
  assert (Hget : forall t y, tasks (reaped_one z (t_kstack_base x) h e) !! t = Some y -> t <> z /\ tasks e !! t = Some y).
  { intros t y Hy. unfold reaped_one, without_task in Hy. cbn in Hy. apply lookup_delete_Some in Hy as [? ?]. by split. }
  constructor; [exact R1|by apply R4|..].
  - intros y Hy. apply Hget in Hy as [_ Hy]. by apply M3.
  - intros t y sl a Hy Hb Ha. apply Hget in Hy as [Htz Hy]. destruct (M4 t y sl a Hy Hb Ha) as (w & Hw & Hle). exists w. split; [|done].
    apply R3. split; [done|]. rewrite thread_blocks_slots. intros (sl' & Hsl'). by destruct (M5 t y sl z x sl' a Hy Hb Ha Hx Hzb Hsl').
  - intros t y sl t' y' sl' a Hy Hb Ha Hy' Hb' Ha'. apply Hget in Hy as [_ Hy]. apply Hget in Hy' as [_ Hy']. by eapply M5.
  - intros t y Hy Hb. apply Hget in Hy as [_ Hy]. by apply (M6 t).
  - intros t y Hy Hk. apply Hget in Hy as [Htz Hy]. destruct (M7 t y Hy Hk) as [Etc Htc]. split; [done|].
    assert (Htb : t <> boot_idle_thread e) by (intros ->; specialize (M3 _ Hy); congruence). change (tcs (reaped_one z (t_kstack_base x) h e)) with
      (outside (t_kstack_base x) (t_kstack_base x + THREAD_STACK_SIZE) (tcs e)). rewrite outside_keep; [done|].
    change (~ in_stack x (t_tc y)). eapply (stacks_apart e z x t y); try done. unfold in_stack. rewrite Etc, (M6 t y Hy Htb).
    unfold THREAD_STACK_SIZE, TRAP_CONTEXT_ALLOC_SIZE. lia.
Qed.

Lemma inv_reaped h L :
  g.(l_zombies) = z :: L -> z <> e.(tp) -> released (thread_blocks e z) e.(heap) h ->
  inv (reaped_one z x.(t_kstack_base) h e) (reaped_lists z g).
Proof.
  intros EL Hcur Hr. pose proof (mem_inv_reaped h Hr) as Hm'. destruct zombie_state as (_ & Hzb & _).
  assert (Hnd : z ∉ L). { pose proof (rp_zombies _ _ _ (rep_of HI)) as [_ Hn]. rewrite EL in Hn. apply NoDup_cons in Hn as [? _]. done. }
  assert (Hget : forall t y, tasks (reaped_one z (t_kstack_base x) h e) !! t = Some y -> t <> z /\ tasks e !! t = Some y).
  { intros t y Hy. unfold reaped_one, without_task in Hy. cbn in Hy. apply lookup_delete_Some in Hy as [? ?]. by split. }
  pose proof HI as [HR [[A1 A2 A3 A4] Hw [I1 I2 I3 I4] Hm]]. constructor; [| | |exact Hm'].
  - constructor; [done| | |]; cbn [l_all reaped_lists set_l_all]; rewrite ?elem_of_without; try done.
    intros t y Hy. apply Hget in Hy as [Htz Hy]. eapply thread_ok_same; [by apply A4|done|done|done| |done| |done].
    + cbn [l_all reaped_lists set_l_all]. rewrite elem_of_without. tauto.
    + cbn [l_zombies reaped_lists set_l_all set_l_zombies]. rewrite EL. cbn [tail]. set_solver.
  - pose proof Hw as [[W0 W0'] W1 W2 W3].
    assert (Hent : forall i y, outside (t_kstack_base x) (t_kstack_base x + THREAD_STACK_SIZE) (entries e) !! i = Some y -> entries e !! i = Some y)
      by (intros i y Hy; apply outside_lookup in Hy as [Hy _]; exact Hy).
    assert (Hkeep : forall L0, clear_of (t_kstack_base x) L0 -> forall i, i ∈ L0 ->
      outside (t_kstack_base x) (t_kstack_base x + THREAD_STACK_SIZE) (entries e) !! i = entries e !! i)
      by (intros L0 Hcl i Hi; apply outside_keep, Hcl, Hi).
    constructor.
    + split; [|done]. destruct (tasks (reaped_one z (t_kstack_base x) h e) !! 0) eqn:E; [|done]. apply Hget in E as [_ E]. congruence.
    + intros q i Hq. change (l_queue (reaped_lists z g)) with (l_queue g). rewrite W1 by done. split; intros (y & Hy & Ey); exists y; (split; [|done]).
      * change (outside (t_kstack_base x) (t_kstack_base x + THREAD_STACK_SIZE) (entries e) !! i = Some y).
        rewrite (Hkeep _ (queue_apart q Hq)); [done|]. apply W1; [done|by exists y].
      * by apply Hent.
    + intros t i [y0 Ht]. apply Hget in Ht as [Htz Ht]. assert (is_task (tasks e) t) as Hit by (by exists y0).
      change (l_task (reaped_lists z g)) with (l_task g). rewrite W2 by done. split; intros (y & Hy & Ey); exists y; (split; [|done]).
      * change (outside (t_kstack_base x) (t_kstack_base x + THREAD_STACK_SIZE) (entries e) !! i = Some y).
        rewrite (Hkeep _ (task_apart t Hit)); [done|]. apply W2; [done|by exists y].
      * by apply Hent.
    + intros i y Hy. apply Hent in Hy. destruct (W3 i y Hy) as [?|(Hq & x' & Hx' & Hst)]; [by left|right]. split; [done|]. exists x'.
      split; [|done]. assert (e_task y <> 0) as Hn0 by (intros E; rewrite E in Hx'; congruence).
      destruct (registered_apart i y Hy Hn0) as [Hne _]. unfold reaped_one, without_task. cbn. by rewrite lookup_delete_ne.
  - constructor; [done|..].
    + intros y Hy. apply Hget in Hy as [_ Hy]. by apply I2.
    + intros t y Hy Hb. apply Hget in Hy as [_ Hy]. by apply (I3 t).
    + intros t y t' y' Hy Hy' E. apply Hget in Hy as [_ Hy]. apply Hget in Hy' as [_ Hy']. by apply (I4 t y t' y').
Qed.

(** The code of a round after the zombie is taken off the list: [z] is on no
    list any more. *)
Lemma wp_free_zombie s1 h e1 g1 Q :
  rep s1 (set_heap h e1) g1 -> e1 = e -> g1.(l_queue) = g.(l_queue) -> g1.(l_task) = g.(l_task) -> z ∉ g1.(l_all) -> z ∉ g1.(l_run) -> z ∉ g1.(l_zombies) ->
  forall D, released D e.(heap) h -> x.(t_kstack_base) ∉ D -> z ∉ D ->
  (forall s' h', rep s' (reaped_one z x.(t_kstack_base) h' e) g1 -> released (D ++ [x.(t_kstack_base)] ++ [z]) e.(heap) h' -> Q tt s') ->
  wp (free_kstack x.(t_kstack_base) ;; free_task z) Q s1.
Proof.
  intros H1 -> Eq Et N1 N2 N3 D Hr Dk Dz HQ. destruct HI as [HR [_ _ _ Hm]]. destruct zombie_state as (_ & Hzb & _).
  destruct (mi_owned _ Hm z x sl_kstack _ Hx Hzb eq_refl) as (a & Ha & Hal).
  destruct (mi_owned _ Hm z x sl_tcb _ Hx Hzb eq_refl) as (b & Hb & Hbl).
  apply wp_bind. unfold free_kstack. apply wp_bind. eapply wp_heap_kfree; [exact H1|apply Hr|by apply Hr|].
  intros s2 h2 H2 Hs2. pose proof (released_shrunk _ _ _ _ _ Hr Hs2) as Hr2. wp_step.
  pose proof (rep_without_stack _ _ _ (t_kstack_base x) H2) as H3. rewrite Eq, Et in H3. specialize (H3 queue_apart task_apart).
  unfold free_task. apply wp_bind. eapply wp_heap_kfree; [exact H3|apply Hr2|apply Hr2; split; [exact Hb|]|].
  - rewrite not_elem_of_app. split; [done|]. intros E%list_elem_of_singleton.
    destruct (mi_inj _ Hm z x sl_tcb z x sl_kstack z Hx Hzb eq_refl Hx Hzb) as [_ ?]; [cbn; by rewrite <- E|done].
  - intros s4 h4 H4 Hs4. wp_step. eapply (HQ _ h4); [|rewrite app_assoc; by eapply released_shrunk].
    apply (rep_del_task _ _ _ z) in H4; [|done..]. exact H4.
Qed.

End one.

(** ** One round *)

(** The effect of taking the first zombie away. *)
Definition reaps (z : Z) (e : sched) (g : lists) (e' : sched) (g' : lists) : Prop :=
  exists x h, e.(tasks) !! z = Some x /\ released (thread_blocks e z) e.(heap) h /\
    e' = reaped_one z x.(t_kstack_base) h e /\ g' = reaped_lists z g.

Lemma wp_reap_round s e g Q :
  sched_inv s e g ->
  (g.(l_zombies) = [] \/ (exists L, g.(l_zombies) = e.(tp) :: L) -> forall s', rep s' e g -> Q true s') ->
  (forall z L s' e' g', g.(l_zombies) = z :: L -> z <> e.(tp) -> sched_inv s' e' g' -> reaps z e g e' g' -> Q false s') ->
  wp reap_round Q s.
Proof.
  intros HI Hend Hgo. pose proof (rep_of HI) as HR. unfold reap_round. apply wp_bind, (wp_irq_save HR). intros s1 H1. wp_steps.
  rewrite (zombie_first H1). apply wp_bind, (wp_thread_current H1); [apply HI|]. change (tp (set_irq false e)) with (tp e).
  destruct (l_zombies g) as [|z L] eqn:EL.
  { cbn [Z.eqb negb andb orb]. apply wp_bind, wp_when; [done|intros _]. apply wp_bind, (wp_irq_restore H1). intros s2 H2. wp_steps. rewrite irq_pair in H2. apply Hend; [by left|done]. }
  assert (Hz : z ∈ l_zombies g) by (rewrite EL; set_solver). pose proof (zombies_nonzero HR z Hz) as Hz0.
  rewrite (proj2 (Z.eqb_neq z 0) Hz0). cbn [negb andb orb]. destruct (Z.eqb_spec z (tp e)) as [Et|Et]; cbn [negb].
  { apply wp_bind, wp_when; [done|intros _]. apply wp_bind, (wp_irq_restore H1). intros s2 H2. wp_steps. rewrite irq_pair in H2. apply Hend; [right; exists L; by rewrite Et|done]. }
  destruct (chain_task _ _ _ z (rp_zombies _ _ _ HR) Hz) as [_ [x0 Hx]]. apply (task_rep HR) in Hx. set (x := core_thread x0) in Hx.
  destruct (zombie_state HI Hx Hz) as (Hst & Hzb & Hzl & Hzr & _). pose proof (iv_mem _ _ (proj2 HI)) as Hm.
  pose proof (si_threads _ _ (iv_state _ _ (proj2 HI)) z x Hx) as Hok.
  assert (Hnd : z ∉ L). { pose proof (rp_zombies _ _ _ HR) as [_ Hn]. rewrite EL in Hn. apply NoDup_cons in Hn as [? _]. done. }
  apply wp_bind. apply wp_when; [intros _|done]. apply (wp_zombie_pop H1 z L); [done|]. intros s2 H2.
  apply wp_bind, (wp_irq_restore H2). intros s3 H3. rewrite irq_pair in H3.
  apply wp_bind. eapply (wp_task_get H3); [exact Hx|]. intros y _ Ey.
  assert (t_is_idle y = 0) as -> by (transitivity (t_is_idle x); [by rewrite <- Ey|rewrite (to_idle _ _ _ _ Hok); by rewrite decide_False]).
  cbn [Z.eqb negb]. apply wp_bind. eapply wp_thread_list_remove; [exact H3|]. intros s4 H4.
  apply wp_bind. eapply (wp_task_get H4); [exact Hx|]. intros w _ Ew.
  assert (t_kind w = t_kind x /\ t_user_stack_base w = t_user_stack_base x /\ t_kstack_base w = t_kstack_base x) as (-> & -> & ->)
    by (by rewrite <- Ew). destruct (mi_owned _ Hm z x sl_kstack _ Hx Hzb eq_refl) as (a & Ha & _).
  destruct (hl_shape _ _ _ (mi_heap _ Hm) Ha) as (Ha0 & _).
  set (g4 := set_l_all _ _) in H4. assert (Eg : g4 = reaped_lists z g) by (unfold g4, reaped_lists; by rewrite EL).
  assert (Hend2 : forall h D s', rep s' (set_heap h e) g4 -> released D (heap e) h -> D ++ [t_kstack_base x] ++ [z] = thread_blocks e z ->
    t_kstack_base x ∉ D -> z ∉ D -> wp (when (negb (t_kstack_base x =? 0)) (free_kstack (t_kstack_base x)) ;; free_task z ;; mret false) Q s').
  { intros h D s' H' Hr ED Dk Dz. rewrite (proj2 (Z.eqb_neq (t_kstack_base x) 0)) by lia. cbn [negb when].
    pose proof (wp_free_zombie HI Hx Hz s' h e g4 (fun _ s'' => Q false s'') H' eq_refl eq_refl eq_refl) as Hf. 
    assert (Hw : wp (free_kstack (t_kstack_base x) ;; free_task z) (fun _ s'' => Q false s'') s').
    { apply (Hf ltac:(unfold g4; cbn [l_all set_l_all]; rewrite elem_of_without; tauto) Hzr Hnd D Hr Dk Dz). intros s'' h' H'' Hr'.
      rewrite ED in Hr'. eapply (Hgo z L s'' _ (reaped_lists z g)); [done|done| |exists x, h'; done]. split; [by rewrite <- Eg|by eapply inv_reaped]. }
    unfold wp, mbind, M_bind in Hw |- *. destruct (free_kstack (t_kstack_base x) s') as [[[] s5]|]; [|done].
    destruct (free_task z s5) as [[[] s6]|]; [|done]. exact Hw. }
  destruct (decide (t_kind x = THREAD_USER)) as [Hk|Hk].
  - destruct (mi_owned _ Hm z x sl_ustack (t_user_stack_base x) Hx Hzb) as (b & Hb & _); [cbn; by rewrite decide_True|].
    destruct (hl_shape _ _ _ (mi_heap _ Hm) Hb) as (Hb0 & _). rewrite bool_decide_true by done.
    rewrite (proj2 (Z.eqb_neq (t_user_stack_base x) 0)) by lia. cbn [negb andb when]. apply wp_bind.
    eapply wp_heap_kfree; [exact H4|apply Hm|exact Hb|]. intros s5 h5 H5 Hs5.
    pose proof (released_shrunk _ _ _ _ _ (released_refl _ (mi_heap _ Hm)) Hs5) as Hr5.
    assert (Hu : slot_addr z x sl_ustack = Some (t_user_stack_base x)) by (cbn; by rewrite decide_True).
    eapply (Hend2 h5 [t_user_stack_base x]); [done|done| | |].
    + unfold thread_blocks. rewrite Hx. cbn. by rewrite decide_True.
    + intros E%list_elem_of_singleton.
      destruct (mi_inj _ Hm z x sl_ustack z x sl_kstack (t_user_stack_base x) Hx Hzb Hu Hx Hzb (f_equal Some E)) as [_ ?]; done.
    + intros E%list_elem_of_singleton.
      destruct (mi_inj _ Hm z x sl_ustack z x sl_tcb (t_user_stack_base x) Hx Hzb Hu Hx Hzb (f_equal Some E)) as [_ ?]; done.
  - rewrite bool_decide_false by done. cbn [andb when]. apply wp_bind, wp_ret.
    eapply (Hend2 (heap e) []); [by rewrite set_heap_self|apply released_refl, Hm| |set_solver|set_solver].
    unfold thread_blocks. rewrite Hx. cbn. by rewrite decide_False.
Qed.

(** ** The whole loop *)

(** The threads [zs] are gone with their memory; nothing else changed. *)
Record reaped (zs : list Z) (e : sched) (g : lists) (e' : sched) (g' : lists) : Prop := {
  re_tasks : forall u, e'.(tasks) !! u = if decide (u ∈ zs) then None else e.(tasks) !! u;
  re_entries : forall i y, e.(entries) !! i = Some y -> y.(e_task) <> 0 -> e'.(entries) !! i = Some y;
  re_heap : released (zs ≫= thread_blocks e) e.(heap) e'.(heap);
  re_rest : e' = set_tasks e'.(tasks) (set_entries e'.(entries) (set_tcs e'.(tcs) (set_heap e'.(heap) e)));
  re_zombies : g.(l_zombies) = zs ++ g'.(l_zombies);
  re_all : g'.(l_all) = filter (fun t => t ∉ zs) g.(l_all);
  re_lists : g'.(l_run) = g.(l_run) /\ g'.(l_queue) = g.(l_queue) /\ g'.(l_task) = g.(l_task);
}.

Lemma reaped_refl s e g : sched_inv s e g -> reaped [] e g e g.
Proof.
  intros HI. constructor; try done.
  - apply released_refl, HI.
  - by destruct e.
  - induction (l_all g) as [|t L IH]; [done|]. rewrite filter_cons_True by set_solver. by rewrite <- IH.
Qed.

Lemma filter_without zs z (L : list Z) : without z (filter (fun t => t ∉ zs) L) = filter (fun t => t ∉ zs ++ [z]) L.
Proof.
  unfold without. induction L as [|t L IH]; [done|]. rewrite !filter_cons. destruct (decide (t ∉ zs)) as [H|H].
  - rewrite filter_cons. destruct (decide (t <> z)).
    + rewrite decide_True by set_solver. by rewrite IH.
    + rewrite decide_False by set_solver. done.
  - rewrite decide_False by set_solver. done.
Qed.

Lemma reaped_step s1 zs z e g e1 g1 e2 g2 L :
  reaped zs e g e1 g1 -> sched_inv s1 e1 g1 -> g1.(l_zombies) = z :: L -> reaps z e1 g1 e2 g2 -> reaped (zs ++ [z]) e g e2 g2.
Proof.
  intros [A1 A2 A3 A4 A5 A6 (A7 & A8 & A9)] HI EL (x & h & Hx & Hr & -> & ->). assert (Hz : z ∈ l_zombies g1) by (rewrite EL; set_solver).
  assert (Hxe : tasks e !! z = Some x /\ z ∉ zs) by (rewrite A1 in Hx; by case_decide). destruct Hxe as [Hxe Hnz].
  assert (Eb : thread_blocks e1 z = thread_blocks e z) by (unfold thread_blocks; by rewrite Hx, Hxe).
  constructor.
  - intros u. transitivity (delete z (tasks e1) !! u); [done|]. rewrite lookup_delete, A1. destruct (decide (z = u)) as [<-|Hne].
    + by rewrite decide_True by set_solver.
    + destruct (decide (u ∈ zs)); [by rewrite decide_True by set_solver|]. by rewrite decide_False by set_solver.
  - intros i y Hy Ht. pose proof (A2 i y Hy Ht) as Hy1. apply outside_lookup. split; [done|]. by apply (registered_apart HI Hx Hz i y).
  - rewrite bind_app. cbn [mbind list_bind]. rewrite app_nil_r, <- Eb. by eapply released_trans.
  - transitivity (reaped_one z (t_kstack_base x) h (set_tasks (tasks e1) (set_entries (entries e1) (set_tcs (tcs e1) (set_heap (heap e1) e)))));
      [by rewrite <- A4|done].
  - change (l_zombies (reaped_lists z g1)) with (tail (l_zombies g1)). rewrite EL. cbn [tail]. rewrite A5, EL, <- app_assoc. done.
  - change (l_all (reaped_lists z g1)) with (without z (l_all g1)). by rewrite A6, filter_without.
  - done.
Qed.

(** The zombies up to the current thread. *)
Fixpoint zombies_before (c : Z) (L : list Z) : list Z :=
  match L with [] => [] | z :: L' => if z =? c then [] else z :: zombies_before c L' end.

Lemma zombies_before_split c L : exists R, L = zombies_before c L ++ R /\ (R = [] \/ exists R', R = c :: R').
Proof.
  induction L as [|z L IH]; [exists []; split; [done|by left]|]. cbn [zombies_before]. destruct (Z.eqb_spec z c) as [->|Hz].
  - exists (c :: L). split; [done|]. right. by exists L.
  - destruct IH as (R & E & HR). exists R. split; [by rewrite E at 1|done].
Qed.
Lemma zombies_before_ne c L : c ∉ zombies_before c L.
Proof. induction L as [|z L IH]; cbn [zombies_before]; [set_solver|]. destruct (Z.eqb_spec z c); set_solver. Qed.

Lemma wp_reap_zombies s e g Q :
  sched_inv s e g ->
  (forall s' e' g', sched_inv s' e' g' -> reaped (zombies_before e.(tp) g.(l_zombies)) e g e' g' -> Q tt s') ->
  wp thread_reap_zombies Q s.
Proof.
  intros HI HQ. pose proof (rep_of HI) as HR. unfold thread_reap_zombies. wp_steps.
  destruct (zombies_before_split (tp e) (l_zombies g)) as (R & ER & HRt). pose proof (zombies_before_ne (tp e) (l_zombies g)) as Hnc.
  set (B := zombies_before _ _) in *.
  apply (wp_loop_list (fun L2 _ s' => exists e' g' zs, sched_inv s' e' g' /\ B = zs ++ L2 /\ l_zombies g' = L2 ++ R /\ reaped zs e g e' g'))
    with (L := B).
  - intros [] s' (e' & g' & zs & HI' & EB & EZ & Hre). rewrite app_nil_r in EB. subst zs. cbn in EZ. apply wp_bind.
    assert (Etp : tp e' = tp e) by (by rewrite (re_rest _ _ _ _ _ Hre)). eapply wp_reap_round; [exact HI'|..]; rewrite EZ.
    + intros _ s2 H2. wp_steps. eapply HQ; [|exact Hre]. split; [done|apply HI'].
    + intros z L s2 e2 g2 E Hz _ _. exfalso. destruct HRt as [->|(R' & ->)]; [done|]. injection E as <- _. congruence.
  - intros z L2 [] s' (e' & g' & zs & HI' & EB & EZ & Hre). apply wp_bind. assert (Etp : tp e' = tp e) by (by rewrite (re_rest _ _ _ _ _ Hre)).
    assert (Hz : z <> tp e) by (intros ->; apply Hnc; rewrite EB; set_solver).
    eapply wp_reap_round; [exact HI'|..]; rewrite EZ, ?Etp; cbn [app].
    + intros [?|(? & E)]; [done|]. injection E as E _. by destruct Hz.
    + intros z' L s2 e2 g2 E Hz' HI2 Hre2. injection E as <- <-. wp_steps. exists e2, g2, (zs ++ [z]). split; [done|]. split; [by rewrite <- app_assoc|].
      split; [|by eapply (reaped_step s'); [exact Hre|exact HI'|rewrite EZ; done|]]. destruct Hre2 as (x & h & _ & _ & _ & ->).
      change (l_zombies (reaped_lists z g')) with (tail (l_zombies g')). by rewrite EZ.
  - exists e, g, []. split; [done|]. split; [done|]. split; [done|]. by eapply reaped_refl.
  - pose proof (chain_fits _ _ _ (rp_zombies _ _ _ HR)) as Hl. rewrite ER in Hl. rewrite length_app in Hl. lia.
Qed.

End reap.
