(* ===== verification/ThreadLoops.v ===== *)
(** * Queries, exit, sleeping and the idle loops

    The functions that combine the operations of the previous files: the walks
    that only look at threads, [thread_exit], [wait_queue_sleep_locked] and the
    rounds of the two idle loops. *)

From S2P Require Import Prelude Lists Memory Slab MemoryInit Task Sched Wait Thread HeapIface SchedRep SchedLists WaitLists ThreadInv SchedOps WaitOps ThreadNew ThreadExit ThreadReap.

Open Scope Z_scope.

(** ** What the queries compute *)

Definition thread_is (f : Z -> thread -> bool) (e : sched) (t : Z) : bool :=
  match e.(tasks) !! t with Some x => f t x | None => false end.

Definition live_worker (_ : Z) (x : thread) : bool := (x.(t_is_idle) =? 0) && bool_decide (x.(t_state) <> THREAD_ZOMBIE).
Definition live_user_except (except t : Z) (x : thread) : bool :=
  negb (t =? except) && bool_decide (x.(t_kind) = THREAD_USER) && bool_decide (x.(t_state) <> THREAD_ZOMBIE).
Definition stack_of_group (tgid start end_ _ : Z) (x : thread) : bool :=
  live_member tgid x && (x.(t_user_stack_base) <=? start) && (end_ <=? x.(t_user_stack_top)).

Definition group_size (e : sched) (g : lists) (tgid : Z) : Z :=
  Z.of_nat (length (filter (fun t => thread_is (fun _ => live_member tgid) e t = true) g.(l_all))).

(** ** Local entries *)

(** An entry that is on no list. *)
Definition unregistered (e : sched) (en : Z) : Prop := forall y, e.(entries) !! en = Some y -> y.(e_task) = 0 /\ y.(e_queue) = 0.
Definition with_entry (en : Z) (e : sched) : sched := set_entries (<[en := zero_entry]> e.(entries)) e.

Section loops.
Context {hok : slabs -> Prop} {owned : slabs -> Z -> Z -> Prop} {static : slabs -> Z -> Prop}.
Context `{HL : !HeapLaws hok owned static}.
Abbreviation inv := (@inv hok owned static).
Abbreviation sched_inv := (@sched_inv hok owned static).
Abbreviation reaped := (@reaped hok owned static).

Lemma task_get_run {A} s t x (k : thread -> M sched A) : s.(tasks) !! t = Some x -> (y ← task_get t; k y) s = k x s.
Proof. intros Hx. unfold mbind, M_bind, task_get, access. by rewrite Hx. Qed.

(** A search among all threads. *)
Lemma wp_all_exists s e g (f : Z -> thread -> bool) (body : Z -> M sched (Z + bool)) Q :
  rep s e g -> (forall t x, f t (core_thread x) = f t x) -> body 0 = mret (inr false) ->
  (forall t x, t <> 0 -> s.(tasks) !! t = Some x -> body t s = Some (if f t x then inr true else inl x.(t_all_next), s)) ->
  Q (existsb (thread_is f e) g.(l_all)) s -> wp (loop (S (size s.(tasks))) body s.(all_threads)) Q s.
Proof.
  intros HR Hf Hb0 Hb HQ. eapply (wp_all_walk s e g body (fun st => st) (fun L1 _ => existsb (thread_is f e) L1 = false)); [exact HR| | |done|done].
  - intros st -> HP. rewrite Hb0. apply wp_ret. by rewrite HP in HQ.
  - intros L1 t L2 x st EL -> Ht0 Hx HP. unfold wp. rewrite (Hb t x Ht0 Hx).
    assert (Et : thread_is f e t = f t x) by (unfold thread_is; rewrite (task_rep HR _ _ Hx); apply Hf).
    destruct (f t x); cbn.
    + rewrite EL, existsb_app in HQ. cbn [existsb] in HQ. rewrite Et in HQ. cbn [orb] in HQ. by rewrite orb_true_r in HQ.
    + split; [done|]. split; [done|]. rewrite existsb_app. cbn [existsb]. by rewrite HP, Et.
Qed.

Section queries.
Context {s e : sched} {g : lists} (HI : sched_inv s e g).

Lemma wp_has_live_workers Q :
  (forall s', rep s' e g -> Q (existsb (thread_is live_worker e) g.(l_all)) s') -> wp thread_has_live_workers Q s.
Proof.
  intros HQ. unfold thread_has_live_workers. apply wp_bind, (wp_irq_save (rep_of HI)). intros s1 H1. wp_steps.
  eapply (wp_all_exists s1 _ g live_worker); [exact H1|done|done| |].
  - intros t x Ht Hx. rewrite (proj2 (Z.eqb_neq t 0) Ht). rewrite (task_get_run _ _ _ _ Hx). unfold live_worker, live_user_except. by destruct (_ && _).
  - apply wp_bind, (wp_irq_restore H1). intros s2 H2. wp_steps. rewrite irq_pair in H2. by apply HQ.
Qed.

Lemma wp_image_busy except Q :
  (forall s', rep s' e g -> Q (existsb (thread_is (live_user_except except) e) g.(l_all)) s') -> wp (thread_user_image_busy except) Q s.
Proof.
  intros HQ. unfold thread_user_image_busy. apply wp_bind, (wp_irq_save (rep_of HI)). intros s1 H1. wp_steps.
  eapply (wp_all_exists s1 _ g (live_user_except except)); [exact H1|done|done| |].
  - intros t x Ht Hx. rewrite (proj2 (Z.eqb_neq t 0) Ht). rewrite (task_get_run _ _ _ _ Hx). unfold live_worker, live_user_except. by destruct (_ && _).
  - apply wp_bind, (wp_irq_restore H1). intros s2 H2. wp_steps. rewrite irq_pair in H2. by apply HQ.
Qed.

Lemma wp_stack_contains task t start end_ Q :
  e.(tasks) !! task = Some t ->
  (forall s', rep s' e g ->
     Q (bool_decide (t.(t_kind) = THREAD_USER) && (start <? end_) && existsb (thread_is (stack_of_group t.(t_tgid) start end_) e) g.(l_all)) s') ->
  wp (thread_user_stack_contains task start end_) Q s.
Proof.
  intros Ht HQ. unfold thread_user_stack_contains. apply wp_bind, (wp_irq_save (rep_of HI)). intros s1 H1.
  assert (Ht0 : task <> 0) by (intros ->; pose proof (proj1 (wi_null _ _ (iv_wait _ _ (proj2 HI)))); congruence).
  rewrite (proj2 (Z.eqb_neq task 0) Ht0). apply wp_bind, wp_bind. eapply (wp_task_get H1); [exact Ht|]. intros x Hx Ex.
  assert (t_kind x = t_kind t /\ t_tgid x = t_tgid t) as [Ek Eg] by (by rewrite <- Ex). rewrite Ek.
  assert (Hend : forall b, b = bool_decide (t.(t_kind) = THREAD_USER) && (start <? end_) && existsb (thread_is (stack_of_group t.(t_tgid) start end_) e) g.(l_all) ->
    wp (irq_restore (irq e) ;; mret b) Q s1).
  { intros b ->. apply wp_bind, (wp_irq_restore H1). intros s2 H2. wp_steps. rewrite irq_pair in H2. by apply HQ. }
  destruct (decide (t_kind t = THREAD_USER)) as [Hk|Hk].
  - rewrite (bool_decide_false (t_kind t <> THREAD_USER)) by tauto. rewrite (bool_decide_true (t_kind t = THREAD_USER)) in Hend by done. cbn [orb andb] in *.
    destruct (Z.leb_spec end_ start) as [Hle|Hle].
    + wp_steps. apply Hend. by destruct (Z.ltb_spec start end_); [lia|].
    + wp_steps. eapply (wp_all_exists s1 _ g (stack_of_group (t_tgid t) start end_)); [exact H1|done|done| |].
      * intros u y Hu Hy. rewrite (proj2 (Z.eqb_neq u 0) Hu). rewrite (task_get_run _ _ _ _ Hy), (task_get_run _ _ _ _ Hx), Eg. unfold stack_of_group. by destruct (live_member (t_tgid t) y && (t_user_stack_base y <=? start) && (end_ <=? t_user_stack_top y)).
      * apply Hend. destruct (Z.ltb_spec start end_); [done|lia].
  - rewrite (bool_decide_true (t_kind t <> THREAD_USER)) by done. cbn [orb]. wp_steps. apply Hend. by rewrite bool_decide_false.
Qed.

Lemma wp_group_size task t Q :
  e.(tasks) !! task = Some t ->
  (forall s', rep s' e g -> Q (if decide (t.(t_kind) = THREAD_USER) then group_size e g t.(t_tgid) else 0) s') ->
  wp (thread_user_group_size task) Q s.
Proof.
  intros Ht HQ. unfold thread_user_group_size. apply wp_bind, (wp_irq_save (rep_of HI)). intros s1 H1.
  assert (Ht0 : task <> 0) by (intros ->; pose proof (proj1 (wi_null _ _ (iv_wait _ _ (proj2 HI)))); congruence).
  rewrite (proj2 (Z.eqb_neq task 0) Ht0). apply wp_bind, wp_bind. eapply (wp_task_get H1); [exact Ht|]. intros x Hx Ex.
  assert (t_kind x = t_kind t /\ t_tgid x = t_tgid t) as [Ek Eg] by (by rewrite <- Ex). rewrite Ek.
  assert (Hend : forall n, n = (if decide (t.(t_kind) = THREAD_USER) then group_size e g t.(t_tgid) else 0) -> wp (irq_restore (irq e) ;; mret n) Q s1).
  { intros n ->. apply wp_bind, (wp_irq_restore H1). intros s2 H2. wp_steps. rewrite irq_pair in H2. by apply HQ. }
  destruct (decide (t_kind t = THREAD_USER)) as [Hk|Hk]; [|rewrite bool_decide_true by done; wp_steps; by apply Hend].
  rewrite bool_decide_false by tauto. wp_steps. unfold group_size in Hend. set (P := fun u => thread_is (fun _ => live_member (t_tgid t)) e u = true) in *.
  eapply (wp_all_walk s1 _ g _ fst (fun L1 st => snd st = Z.of_nat (length (filter P L1)))); [exact H1| | |done|done].
  - intros [cur n] E HP. cbn in E, HP. rewrite E, HP. cbn [Z.eqb]. wp_steps. by apply Hend.
  - intros L1 u L2 y [cur n] EL E Hu Hy HP. cbn [fst snd] in E, HP. subst cur n. rewrite (proj2 (Z.eqb_neq u 0) Hu).
    apply wp_bind. eapply wp_access; [exact Hy|]. apply wp_bind. eapply wp_access; [exact Hx|]. wp_steps. split; [done|]. split; [done|].
    rewrite Eg, filter_app, length_app. assert (Eu : thread_is (fun _ => live_member (t_tgid t)) e u = live_member (t_tgid t) y).
    { unfold thread_is. pose proof (task_rep H1 _ _ Hy) as Hye. change (tasks (set_irq false e)) with (tasks e) in Hye. by rewrite Hye. }
    rewrite filter_cons. destruct (live_member (t_tgid t) y).
    + rewrite decide_True by done. cbn. lia.
    + rewrite decide_False by (unfold P; by rewrite Eu). cbn. lia.
Qed.

End queries.

(** ** Exit *)

Lemma tp_schedule s e g : sched_inv s e g -> e.(tp) <> e.(boot_idle_thread) -> tp (schedule_state e g) = next_thread e g /\ next_thread e g <> e.(tp).
Proof.
  intros HI Hb. unfold schedule_state. rewrite (proj2 (Z.eqb_neq _ _) Hb), andb_false_r.
  destruct (switched_rest (irq e) (tp e) (next_thread e g) (set_need_resched 0 (set_irq false e))) as (-> & _). split; [done|].
  destruct (next_task HI) as (? & _ & _ & _ & ? & _); [|done]. by rewrite (proj2 (Z.eqb_neq _ _) Hb), andb_false_r.
Qed.

Lemma wp_leave s e g Q :
  sched_inv s e g -> e.(tp) <> e.(boot_idle_thread) ->
  (forall s', sched_inv s' (schedule_state e g) (schedule_lists e g) -> Q tt s') ->
  forall A (k : M sched A), wp (schedule ;; after_schedule e.(tp) k ;; mret tt) Q s.
Proof.
  intros HI Hb HQ A k. apply wp_bind. eapply wp_schedule; [exact HI|]. intros s1 H1. unfold after_schedule. apply wp_bind, wp_bind.
  apply (wp_gets_core H1); [done|]. destruct (tp_schedule s e g HI Hb) as [-> Hne]. rewrite (proj2 (Z.eqb_neq _ _) Hne). wp_steps.
  apply HQ. split; [done|by eapply inv_schedule].
Qed.

Lemma wp_thread_exit s e g Q :
  sched_inv s e g -> e.(tp) <> e.(boot_idle_thread) ->
  (forall s' s1 e1 g1, stopped e.(tp) 0 e g e1 g1 -> sched_inv s1 e1 g1 -> sched_inv s' (schedule_state e1 g1) (schedule_lists e1 g1) -> Q tt s') ->
  wp thread_exit Q s.
Proof.
  intros HI Hb HQ. destruct (cur_task HI) as (x & Hx & Hok & Hp0). unfold thread_exit. apply wp_bind, (wp_current HI).
  rewrite (proj2 (Z.eqb_neq _ 0) Hp0). apply wp_bind. eapply (wp_task_get (rep_of HI)); [exact Hx|]. intros y _ Ey.
  assert (t_is_idle y = 0) as -> by (transitivity (t_is_idle x); [by rewrite <- Ey|rewrite (to_idle _ _ _ _ Hok); by rewrite decide_False]).
  cbn [Z.eqb negb]. apply wp_bind. eapply wp_mark_zombie; [exact HI|done|]. intros _ s1 e1 g1 H1 Hs.
  assert (HI1 : sched_inv s1 e1 g1) by (split; [done|eapply inv_stopped; [exact HI|exact Hx|apply HI|done|exact Hs]]).
  assert (Er : tp e1 = tp e /\ boot_idle_thread e1 = boot_idle_thread e).
  { unfold stopped in Hs. destruct (is_zombie e (tp e)); [by destruct Hs as [-> _]|].
    destruct (zombified_rest _ _ _ _ _ _ Hs) as (E & _); [by exists x|]. by rewrite E. }
  destruct Er as [Et Ebt]. rewrite <- Et. eapply wp_leave; [exact HI1|congruence|]. intros s2 HI2. by eapply (HQ s2 s1).
Qed.

Lemma wp_user_mark_exit s e g x Q :
  sched_inv s e g -> e.(tasks) !! e.(tp) = Some x -> (x.(t_kind) = THREAD_KERNEL -> Q tt s) ->
  (x.(t_kind) = THREAD_USER -> forall s' e' g', sched_inv s' e' g' -> stopped e.(tp) 0 e g e' g' -> Q tt s') -> wp user_mark_exit Q s.
Proof.
  intros HI Hx Hk Hu. destruct (cur_task HI) as (x' & Hx' & _ & Hp0). unfold user_mark_exit. apply wp_bind, (wp_current HI).
  rewrite (proj2 (Z.eqb_neq _ 0) Hp0). apply wp_bind. eapply (wp_task_get (rep_of HI)); [exact Hx|]. intros y _ Ey.
  assert (t_kind y = t_kind x) as -> by (by rewrite <- Ey). destruct (t_kind x) eqn:Ek; cbn; [wp_steps; by apply Hk|].
  assert (Hb : tp e <> boot_idle_thread e).
  { intros E. pose proof (mi_kind _ (iv_mem _ _ (proj2 HI)) x) as Hm. rewrite <- E in Hm. specialize (Hm Hx). congruence. }
  eapply wp_mark_zombie; [exact HI|done|]. intros _ s' e' g' H' Hs. eapply Hu; [done| |exact Hs]. split; [done|].
  eapply inv_stopped; [exact HI|exact Hx|apply HI|done|exact Hs].
Qed.

Lemma wp_user_has_exited s e g x Q :
  sched_inv s e g -> e.(tasks) !! e.(tp) = Some x ->
  Q (bool_decide (x.(t_kind) = THREAD_USER) && bool_decide (x.(t_state) = THREAD_ZOMBIE)) s -> wp user_has_exited Q s.
Proof.
  intros HI Hx HQ. destruct (cur_task HI) as (x' & Hx' & _ & Hp0). unfold user_has_exited. apply wp_bind, (wp_current HI).
  rewrite (proj2 (Z.eqb_neq _ 0) Hp0). apply wp_bind. eapply (wp_task_get (rep_of HI)); [exact Hx|]. intros y _ Ey.
  assert (t_kind y = t_kind x /\ t_state y = t_state x) as [-> ->] by (by rewrite <- Ey). destruct (t_kind x); cbn in *; by wp_steps.
Qed.

(** ** Sleeping *)

Lemma unregistered_lists s e g en : sched_inv s e g -> unregistered e en ->
  (forall q, is_queue e.(queues) q -> en ∉ g.(l_queue) q) /\ (forall t, is_task e.(tasks) t -> en ∉ g.(l_task) t).
Proof.
  intros [_ [_ [[W0 W0'] W1 W2 _] _ _]] Hu. split.
  - intros q Hq Hin. apply W1 in Hin as (y & Hy & <-); [|done]. destruct (Hu y Hy) as [_ E]. rewrite E in Hq. destruct Hq. congruence.
  - intros t Ht Hin. apply W2 in Hin as (y & Hy & <-); [|done]. destruct (Hu y Hy) as [E _]. rewrite E in Ht. destruct Ht. congruence.
Qed.

Lemma sched_inv_entry s e g en : sched_inv s e g -> unregistered e en -> sched_inv (with_entry en s) (with_entry en e) g.
Proof.
  intros HI Hu. destruct (unregistered_lists s e g en HI Hu) as [Nq Nt]. pose proof HI as [HR [Hs [[W0 W0'] W1 W2 W3] Hi Hm]]. split.
  - pose proof HR as [H1 H2 H3 H4 H5 H6 H7 H8]. constructor; unfold with_entry; sched_simpl; try done.
    + rewrite erase_set_entries, fmap_insert, <- H1. done.
    + eapply dlls_ext; [exact H6| |done|done]. intros q i Hq Hi'. unfold qlinks. rewrite lookup_insert_ne; [done|]. intros <-.
      eapply (Nq q); [by apply (rep_is_queue HR)|done].
    + eapply dlls_ext; [exact H8| |done|done]. intros t i Ht Hi'. unfold tlinks. rewrite lookup_insert_ne; [done|]. intros <-.
      eapply (Nt t); [by apply (rep_is_task HR)|done].
  - constructor; [| |eapply ids_inv_same; [exact Hi|by apply same_view_refl|done..]|].
    + destruct Hs as [A1 A2 A3 A4]. constructor; try done. intros t x Hx. by eapply thread_ok_same; [by apply A4|..].
    + constructor; unfold with_entry; sched_simpl; [done|..].
      * intros q i Hq. rewrite lookup_insert. case_decide as E; [subst i|by apply W1]. split; [intros ?; by destruct (Nq q Hq)|].
        intros (y & [= <-] & Ey). cbn in Ey. subst q. destruct Hq. congruence.
      * intros t i Ht. rewrite lookup_insert. case_decide as E; [subst i|by apply W2]. split; [intros ?; by destruct (Nt t Ht)|].
        intros (y & [= <-] & Ey). cbn in Ey. subst t. destruct Ht. congruence.
      * intros i y. rewrite lookup_insert. case_decide as E; [intros [= <-]; by left|by apply W3].
    + eapply mem_inv_same; [exact Hm|by apply same_view_refl|done|done|apply Hm|done|done].
Qed.

Lemma wp_sleep s e g q en x Q :
  sched_inv s e g -> is_queue e.(queues) q -> unregistered e en -> e.(tasks) !! e.(tp) = Some x -> (e.(tp) <> e.(boot_idle_thread) -> in_stack x en) ->
  (may_prepare (with_entry en e) q en = false -> forall s', sched_inv s' (with_entry en e) g -> Q (Some (-1)) s') ->
  (may_prepare (with_entry en e) q en = true -> forall s',
     let e1 := prepared q en (with_entry en e) in let g1 := enlisted q en e.(tp) g in
     sched_inv s' (schedule_state e1 g1) (schedule_lists e1 g1) -> Q None s') ->
  wp (wait_queue_sleep_locked q en) Q s.
Proof.
  intros HI Hq Hu Hx Hin Hno Hyes. unfold wait_queue_sleep_locked. wp_steps. pose proof (sched_inv_entry s e g en HI Hu) as HI0.
  change (set_entries (<[en := zero_entry]> (entries s)) s) with (with_entry en s). set (e0 := with_entry en e) in *.
  eapply wp_prepare; [exact HI0|done|intros _; unfold e0; exists zero_entry; apply lookup_insert_eq|..].
  - intros Hm. change (-1 =? 0) with false. cbn [negb]. wp_steps. by apply Hno.
  - intros Hm s1 H1. destruct (may_prepare_facts _ _ _ Hm) as (_ & _ & Hirq & Hb & _ & _). cbn [Z.eqb negb].
    assert (Hinv : inv (prepared q en e0) (enlisted q en (tp e) g)) by (exact (inv_prepare (with_entry en s) e0 g q en x HI0 Hm Hq Hx (Hin Hb))).
    assert (HI1 : sched_inv s1 (prepared q en e0) (enlisted q en (tp e) g)) by (by split).
    assert (Hx1 : tasks (prepared q en e0) !! tp (prepared q en e0) = Some (set_t_state THREAD_WAITING x)) by (by apply upd_task_self).
    apply wp_bind. eapply wp_wait_locked; [exact HI1|exact Hx1|..].
    + intros Hbad. exfalso. destruct Hbad as [E|[E|[E|[E|E]]]].
      * change (irq e0 = true) in E. congruence.
      * unfold may_prepare in Hm. rewrite !andb_true_iff in Hm. destruct Hm as ((((_ & Hbh) & _) & _) & _). apply Z.eqb_eq in Hbh. done.
      * done.
      * change (set_list (l_task g) (tp e) (en :: l_task g (tp e)) (tp e) = []) in E. by rewrite set_list_eq in E.
      * done.
    + intros _ _ E. done.
    + intros _ _ _ s2 H2. wp_steps. apply (Hyes Hm). split; [done|]. by eapply inv_schedule.
Qed.

(** ** The idle loops *)

(** After a reap by the boot thread no zombie is left. *)
Lemma reaped_all s e g e' g' : sched_inv s e g -> e.(tp) = e.(boot_idle_thread) ->
  reaped (zombies_before e.(tp) g.(l_zombies)) e g e' g' -> zombies_before e.(tp) g.(l_zombies) = g.(l_zombies) /\ g'.(l_zombies) = [].
Proof.
  intros HI Eb Hre. assert (Hnb : tp e ∉ l_zombies g).
  { intros Hz. destruct (boot_task HI) as (x & Hx & _). rewrite <- Eb in Hx. by destruct (zombie_state HI Hx Hz) as (_ & ? & _). }
  assert (E : zombies_before (tp e) (l_zombies g) = l_zombies g).
  { destruct (zombies_before_split (tp e) (l_zombies g)) as (R & ER & [->|(R' & ->)]); [by rewrite app_nil_r in ER|].
    exfalso. apply Hnb. rewrite ER. set_solver. }
  split; [done|]. pose proof (re_zombies _ _ _ _ _ Hre) as Ez. rewrite E in Ez. rewrite <- (app_nil_r (l_zombies g)) in Ez at 1.
  by apply app_inv_head in Ez.
Qed.

(** Without live workers and zombies the boot thread is alone. *)
Lemma only_boot s e g : sched_inv s e g -> g.(l_zombies) = [] -> existsb (thread_is live_worker e) g.(l_all) = false -> g.(l_all) = [e.(boot_idle_thread)].
Proof.
  intros HI Hz Hno. assert (Hall : forall t, t ∈ l_all g -> t = boot_idle_thread e).
  { intros t Ht. destruct (all_task HI _ Ht) as (x & Hx & Hok & _). destruct (decide (t = boot_idle_thread e)) as [|Hb]; [done|exfalso].
    assert (Ht' : thread_is live_worker e t = false).
    { destruct (thread_is live_worker e t) eqn:E; [|done]. assert (existsb (thread_is live_worker e) (l_all g) = true); [|congruence].
      apply existsb_exists. exists t. split; [by apply list_elem_of_In|done]. }
    unfold thread_is, live_worker in Ht'. rewrite Hx, (to_idle _ _ _ _ Hok), decide_False in Ht' by done. cbn [Z.eqb andb] in Ht'.
    apply bool_decide_eq_false in Ht'. assert (Est : t_state x = THREAD_ZOMBIE) by (destruct (decide (t_state x = THREAD_ZOMBIE)); tauto).
    apply (to_zombie _ _ _ _ Hok) in Est. rewrite Hz in Est. by apply not_elem_of_nil in Est. }
  pose proof (si_boot _ _ (iv_state _ _ (proj2 HI))) as Hb. pose proof (rp_all _ _ _ (rep_of HI)) as [_ Hnd].
  destruct (l_all g) as [|t [|t' L]]; [by apply not_elem_of_nil in Hb| |].
  - by rewrite (Hall t) by set_solver.
  - exfalso. apply NoDup_cons in Hnd as [Hn _]. apply Hn. rewrite (Hall t) by set_solver. rewrite (Hall t') by set_solver. set_solver.
Qed.

(** Interrupts during [schedule] in an idle loop. *)
Definition idle_irq (e : sched) (g : lists) : sched :=
  if bool_decide (g.(l_run) = []) then set_irq true e else e.

Lemma sched_inv_idle s e g : sched_inv s e g -> inv (idle_irq e g) g.
Proof. intros HI. unfold idle_irq. case_bool_decide; [apply inv_irq|]; apply HI. Qed.

Lemma wp_idle_schedule {A} s e g (k : M sched A) Q :
  inv e g -> rep s (set_irq false e) g ->
  (forall s', sched_inv s' (schedule_state (idle_irq e g) g) (schedule_lists (idle_irq e g) g) -> wp k Q s') ->
  forall head, head = match g.(l_run) with [] => 0 | t :: _ => t end ->
  wp ((if head =? 0 then irq_enable else irq_restore (irq e)) ;; schedule ;; k) Q s.
Proof.
  intros Hinv H1 HQ head ->.
  assert (Hgo : forall s2, rep s2 (idle_irq e g) g -> wp (schedule ;; k) Q s2).
  { intros s2 H2. assert (HI2 : sched_inv s2 (idle_irq e g) g).
    { split; [done|]. unfold idle_irq. case_bool_decide; [by apply inv_irq|done]. }
    apply wp_bind. eapply wp_schedule; [exact HI2|]. intros s3 H3. apply HQ. split; [done|by eapply inv_schedule]. }
  apply wp_bind. unfold idle_irq in Hgo. destruct (l_run g) as [|t R] eqn:El.
  - rewrite bool_decide_true in Hgo by done. cbn [Z.eqb]. apply (wp_irq_enable H1). intros s2 H2. apply Hgo. by rewrite set_irq_twice in H2.
  - rewrite bool_decide_false in Hgo by done. assert (Ht : t <> 0) by (apply (run_nonzero H1); rewrite El; set_solver).
    rewrite (proj2 (Z.eqb_neq t 0) Ht). apply (wp_irq_restore H1). intros s2 H2. apply Hgo. by rewrite irq_pair in H2.
Qed.

Lemma wp_enter_idle_round s e g Q :
  sched_inv s e g ->
  (forall s' e1 g1, reaped (zombies_before e.(tp) g.(l_zombies)) e g e1 g1 ->
     sched_inv s' (schedule_state (idle_irq e1 g1) g1) (schedule_lists (idle_irq e1 g1) g1) -> Q tt s') ->
  wp enter_idle_round Q s.
Proof.
  intros HI HQ. unfold enter_idle_round. apply wp_bind. eapply wp_reap_zombies; [exact HI|]. intros s1 e1 g1 HI1 Hre.
  apply wp_bind, (wp_irq_save (rep_of HI1)). intros s2 H2. apply wp_bind, wp_gets. apply wp_bind.
  pose proof (wp_idle_schedule s2 e1 g1 (mret tt) Q (proj2 HI1) H2) as Hw. specialize (Hw ltac:(intros s' HI'; apply wp_ret; by eapply HQ) _ (run_first H2)).
  unfold wp, mbind, M_bind in Hw |- *. destruct ((if _ =? 0 then irq_enable else _) s2) as [[[] s3]|]; [|done].
  destruct (schedule s3) as [[[] s4]|]; [|done]. exact Hw.
Qed.

Lemma wp_run_until_idle_round s e g caller Q :
  sched_inv s e g -> e.(tp) = e.(boot_idle_thread) ->
  (forall s' e1 g1, reaped g.(l_zombies) e g e1 g1 -> g1.(l_all) = [e.(boot_idle_thread)] -> g1.(l_run) = [] -> g1.(l_zombies) = [] ->
     sched_inv s' (set_irq caller e1) g1 -> Q true s') ->
  (forall s' s1 e1 g1, reaped g.(l_zombies) e g e1 g1 -> sched_inv s1 e1 g1 -> g1.(l_run) <> [] \/ existsb (thread_is live_worker e1) g1.(l_all) = true ->
     sched_inv s' (schedule_state (idle_irq e1 g1) g1) (schedule_lists (idle_irq e1 g1) g1) -> Q false s') ->
  wp (run_until_idle_round caller) Q s.
Proof.
  intros HI Eb Hyes Hno. unfold run_until_idle_round. apply wp_bind. eapply wp_reap_zombies; [exact HI|]. intros s1 e1 g1 HI1 Hre.
  destruct (reaped_all s e g e1 g1 HI Eb Hre) as [Ez Ez1]. rewrite Ez in Hre.
  assert (Er : tp e1 = tp e /\ boot_idle_thread e1 = boot_idle_thread e) by (by rewrite (re_rest _ _ _ _ _ Hre)). destruct Er as [Etp Eboot].
  apply wp_bind, (wp_irq_save (rep_of HI1)). intros s2 H2. assert (HI2 : sched_inv s2 (set_irq false e1) g1) by (split; [done|apply inv_irq, HI1]).
  apply wp_bind, (wp_current HI2). change (tp (set_irq false e1)) with (tp e1). destruct (cur_task HI1) as (x & Hx & Hok & Hp0).
  rewrite (proj2 (Z.eqb_neq _ 0) Hp0). apply wp_bind, wp_bind. eapply (wp_task_get H2); [exact Hx|]. intros y _ Ey.
  assert (t_is_idle y = 1) as ->.
  { transitivity (t_is_idle x); [by rewrite <- Ey|]. rewrite (to_idle _ _ _ _ Hok), decide_True; [done|]. congruence. }
  apply wp_ret. apply wp_bind, wp_gets. cbn [Z.eqb negb andb]. rewrite andb_true_r.
  assert (Hsched : forall s3, rep s3 (set_irq false e1) g1 -> g1.(l_run) <> [] \/ existsb (thread_is live_worker e1) g1.(l_all) = true ->
    wp ((if run_head s2 =? 0 then irq_enable else irq_restore (irq e1)) ;; schedule ;; mret false) Q s3).
  { intros s3 H3 Hl. eapply (wp_idle_schedule s3 e1 g1); [apply HI1|exact H3| |apply (run_first H2)]. intros s4 HI4. apply wp_ret. by eapply (Hno s4 s1). }
  pose proof (run_first H2) as Eh. destruct (l_run g1) as [|t R] eqn:El; rewrite Eh in *.
  - cbn [Z.eqb andb] in *. apply wp_bind. eapply (wp_has_live_workers HI2). intros s3 H3. change (thread_is live_worker (set_irq false e1)) with (thread_is live_worker e1).
    destruct (existsb (thread_is live_worker e1) (l_all g1)) eqn:Ew; cbn [negb].
    + apply Hsched; [done|by right].
    + apply wp_bind, (wp_irq_restore H3). intros s4 H4. apply wp_ret. assert (Ea : l_all g1 = [boot_idle_thread e]) by (rewrite <- Eboot; by eapply only_boot).
      eapply (Hyes s4 e1 g1); [done|done|done|done|]. split; [done|]. apply inv_irq, HI1.
  - assert (Ht : t <> 0) by (apply (run_nonzero H2); rewrite El; set_solver). rewrite (proj2 (Z.eqb_neq t 0) Ht) in *. cbn [andb]. apply wp_bind, wp_ret.
    cbn [negb andb]. apply Hsched; [done|by left].
Qed.

(** ** The start *)

(** The scheduler's variables before [thread_system_bootstrap_init]. *)
Record cold_sched (s : sched) : Prop := {
  co_started : s.(threading_started) = 0;
  co_lists : s.(run_head) = 0 /\ s.(run_tail) = 0 /\ s.(zombie_head) = 0 /\ s.(all_threads) = 0;
  co_tasks : s.(tasks) = {[s.(boot_idle_thread) := zero_thread]} /\ s.(boot_idle_thread) <> 0;
  co_entries : s.(entries) = ∅;
  co_queues : s.(queues) !! 0 = None /\ (forall q x, s.(queues) !! q = Some x -> x = mkQueue 0 0);
  co_tid : s.(next_tid) = 1;
  co_heap : hok s.(heap) /\ static s.(heap) s.(boot_idle_thread);
}.

Definition boot_thread (sp : Z) : thread :=
  set_t_kstack_top sp (set_t_is_idle 1 (set_t_state THREAD_RUNNING (set_t_kind THREAD_KERNEL zero_thread))).
Definition started (e : sched) : sched :=
  set_threading_started 1 (set_tp e.(boot_idle_thread)
    (set_tasks {[e.(boot_idle_thread) := boot_thread e.(regs).(c_sp)]} e)).
Definition boot_lists (b : Z) : lists := mkLists [b] [] [] (fun _ => []) (fun _ => []).

Lemma rep_cold s : cold_sched s -> rep s (erase s) (mkLists [] [] [] (fun _ => []) (fun _ => [])).
Proof.
  intros [C1 (C2 & C3 & C4 & C5) (C6 & _) C7 (_ & C8) C9 C10]. constructor; try done.
  - split; [done|constructor].
  - split; [done|constructor].
  - split; [done|constructor].
  - constructor; [|intros; apply NoDup_nil_2|intros k k' i _ _ Hi; by apply not_elem_of_nil in Hi]. intros q [x Hx]. exists 0. rewrite Hx, (C8 q x Hx). done.
  - intros q x Hx. by rewrite (C8 q x Hx).
  - constructor; [|intros; apply NoDup_nil_2|intros k k' i _ _ Hi; by apply not_elem_of_nil in Hi]. intros t [x Hx]. exists 0. unfold link. rewrite Hx. split; [|done].
    rewrite C6 in Hx. apply lookup_singleton_Some in Hx as [_ <-]. done.
Qed.

Lemma inv_started s : cold_sched s -> inv (started (erase s)) (boot_lists s.(boot_idle_thread)).
Proof.
  intros [C1 _ (C6 & C6') C7 (C8 & C8') C9 (C10 & C10')]. set (b := boot_idle_thread s) in *.
  assert (Hget : forall t x, tasks (started (erase s)) !! t = Some x -> t = b /\ x = boot_thread (c_sp (regs s))).
  { intros t x Hx. change (({[b := boot_thread (c_sp (regs s))]} : gmap Z thread) !! t = Some x) in Hx. by apply lookup_singleton_Some in Hx as [<- <-]. }
  constructor.
  - constructor; [done|set_solver|set_solver|]. intros t x Hx. apply Hget in Hx as [-> ->].
    constructor; cbn [l_all l_run l_zombies l_task boot_lists t_state boot_thread set_t_state set_t_kstack_top set_t_is_idle t_is_idle]; try done.
    + split; [done|]. intros _. set_solver.
    + split; [set_solver|]. by intros [? _].
    + split; [set_solver|done].
    + by rewrite decide_True.
    + intros _. by left.
    + intros _. by left.
  - assert (Ee : entries (started (erase s)) = ∅) by (change (core_entry <$> entries s = ∅); by rewrite C7, fmap_empty).
    constructor; rewrite ?Ee.
    + split; [by apply lookup_singleton_ne|]. change ((core_queue <$> queues s) !! 0 = None). by rewrite lookup_fmap, C8.
    + intros q i _. split; [set_solver|]. by intros (y & Hy & _).
    + intros t i _. split; [set_solver|]. by intros (y & Hy & _).
    + intros i y Hy. done.
  - constructor.
    + change (next_tid (started (erase s))) with (next_tid s). rewrite C9. lia.
    + intros x Hx. by apply Hget in Hx as [_ ->].
    + intros t x Hx Hb. by apply Hget in Hx as [-> _].
    + intros t x t' x' Hx Hx' _. apply Hget in Hx as [-> _]. by apply Hget in Hx' as [-> _].
  - constructor; [done|done|..].
    + intros x Hx. by apply Hget in Hx as [_ ->].
    + intros t x sl a Hx Hb. by apply Hget in Hx as [-> _].
    + intros t x sl t' x' sl' a Hx Hb. by apply Hget in Hx as [-> _].
    + intros t x Hx Hb. by apply Hget in Hx as [-> _].
    + intros t x Hx Hk. by apply Hget in Hx as [_ ->].
Qed.

Lemma alter_singleton {A} (f : A -> A) (b : Z) x : alter f b ({[b := x]} : gmap Z A) = {[b := f x]}.
Proof. erewrite alter_insert_eq by apply lookup_singleton_eq. apply insert_singleton_eq. Qed.

Lemma wp_bootstrap_init s Q :
  cold_sched s -> (forall s', sched_inv s' (started (erase s)) (boot_lists s.(boot_idle_thread)) -> Q tt s') -> wp thread_system_bootstrap_init Q s.
Proof.
  intros HC HQ. pose proof (rep_cold s HC) as HR. pose proof (inv_started s HC) as Hinv. destruct HC as [C1 _ (C6 & C6') _ _ _ _].
  unfold thread_system_bootstrap_init. apply wp_bind, (wp_irq_save HR). intros s1 H1. set (b := boot_idle_thread s) in *.
  apply wp_bind, (wp_gets_core H1); [done|]. change (threading_started (set_irq false (erase s))) with (threading_started s). rewrite C1. cbn [Z.eqb negb].
  apply wp_bind, (wp_gets_core H1); [done|]. apply wp_bind, (wp_gets_core H1); [done|]. change (boot_idle_thread (set_irq false (erase s))) with b.
  assert (E0 : set_irq false (erase s) = set_tasks {[b := zero_thread]} (set_irq false (erase s))).
  { assert (core_thread <$> tasks s = {[b := zero_thread]}) as <- by (by rewrite C6, map_fmap_singleton). done. }
  rewrite E0 in H1. assert (Hb : forall e' x f, upd_task b f (set_tasks {[b := x]} e') = set_tasks {[b := f x]} e').
  { intros e' x f. unfold upd_task. change (tasks (set_tasks {[b := x]} e')) with ({[b := x]} : gmap Z thread). by rewrite alter_singleton. }
  do 4 (apply wp_bind; eapply wp_task_core; [exact H1|apply lookup_singleton_eq|done|]; clear dependent s1; intros s1 H1; rewrite Hb in H1).
  apply wp_bind. eapply wp_thread_list_add; [exact H1|set_solver|done|eexists; apply lookup_singleton_eq|]. intros s2 H2.
  apply wp_bind, (wp_modify_core H2); [done|done|]. intros s3 H3. apply wp_bind, (wp_modify_core H3); [done|done|]. intros s4 H4.
  apply (wp_irq_restore H4). intros s5 H5. apply HQ. split; [|done].
  assert (E : set_irq (irq (erase s)) (started (erase s)) = started (erase s)) by (by rewrite set_irq_same). rewrite <- E. exact H5.
Qed.

End loops.
