(* ===== verification/SchedHistory.v ===== *)
(** * Histories of the thread system

    The operations that kernel code may call, in any order, as one type; when
    each may be called; and that a good state stays good.  Everything from here
    on is about the real byte allocator. *)

From S2P Require Import Prelude Lists Memory Slab MemoryInit ByteAllocator Task Sched Wait Thread HeapIface HeapLink SchedRep SchedLists WaitLists ThreadInv SchedOps WaitOps ThreadNew ThreadExit ThreadReap ThreadLoops.

Open Scope Z_scope.

Abbreviation sched_inv := (@ThreadInv.sched_inv slab_ok allocated in_reserved_page).
Abbreviation inv := (@ThreadInv.inv slab_ok allocated in_reserved_page).
Abbreviation reaped := (@ThreadReap.reaped slab_ok allocated in_reserved_page).
Abbreviation stack_ok := (@ThreadNew.stack_ok allocated).

(** A good state of the thread system. *)
Definition sched_ok (s : sched) : Prop := exists g, sched_inv s (erase s) g.

Lemma sched_ok_of s e g : sched_inv s e g -> sched_ok s.
Proof. intros HI. exists g. by rewrite (rp_core _ _ _ (proj1 HI)). Qed.

Inductive sched_op :=
  | op_yield
  | op_create_kernel (entry : code) (arg : Z)
  | op_process_create (entry stack_base stack_top : Z)
  | op_create_user (entry arg return_pc : Z)
  | op_exit
  | op_user_exit
  | op_stop_tid (tid exit_status : Z)
  | op_stop_process (tgid exit_status : Z)
  | op_reap
  | op_idle_round
  | op_run_until_idle_round (caller_status : bool)
  | op_local_entry (entry : Z)
  | op_prepare (queue entry : Z)
  | op_wait
  | op_finish (entry : Z)
  | op_sleep (queue entry : Z)
  | op_wake_one (queue : Z)
  | op_wake_all (queue : Z)
  | op_request_resched
  | op_consume_resched
  | op_interrupts (on : bool)
  | op_bottom_half (running : Z)
  | op_compute (r : thread_context).

Definition drop {A} (m : M sched A) : M sched unit := m ;; mret tt.

Definition run_sched_op (op : sched_op) : M sched unit :=
  match op with
  | op_yield => thread_yield
  | op_create_kernel entry arg => drop (thread_create_kernel entry arg)
  | op_process_create entry ub utop => drop (user_process_create entry ub utop)
  | op_create_user entry arg ret => drop (thread_create_user entry arg ret)
  | op_exit => thread_exit
  | op_user_exit => user_mark_exit
  | op_stop_tid tid c => drop (thread_stop_tid tid c)
  | op_stop_process tgid c => drop (thread_stop_process tgid c)
  | op_reap => thread_reap_zombies
  | op_idle_round => enter_idle_round
  | op_run_until_idle_round b => drop (run_until_idle_round b)
  | op_local_entry en => modify (with_entry en)
  | op_prepare q en => drop (wait_queue_prepare_locked q en)
  | op_wait => drop wait_queue_wait_locked
  | op_finish en => wait_queue_finish_locked en
  | op_sleep q en => drop (wait_queue_sleep_locked q en)
  | op_wake_one q => wait_queue_wake_one q
  | op_wake_all q => wait_queue_wake_all q
  | op_request_resched => thread_request_resched
  | op_consume_resched => drop thread_consume_resched_request
  | op_interrupts v => modify (set_irq v)
  | op_bottom_half v => modify (set_bh_running v)
  | op_compute r => modify (set_regs r)
  end.

(** The address of a local variable of the current thread. *)
Definition own_local (s : sched) (en : Z) : Prop :=
  s.(tp) <> s.(boot_idle_thread) -> forall x, s.(tasks) !! s.(tp) = Some x -> in_stack x en.

(** When the kernel calls an operation: queues and entries exist, an entry is a
    local variable of the thread that uses it, a stack handed over is an
    allocated block of nobody else, and the idle loop runs on the boot thread,
    which never exits. *)
Definition op_allowed (op : sched_op) (s : sched) : Prop :=
  match op with
  | op_process_create _ ub utop => stack_ok s ub utop
  | op_exit => s.(tp) <> s.(boot_idle_thread)
  | op_run_until_idle_round _ => s.(tp) = s.(boot_idle_thread)
  | op_local_entry en => unregistered s en
  | op_prepare q en => is_queue s.(queues) q /\ is_Some (s.(entries) !! en) /\ own_local s en
  | op_finish en => exists y, s.(entries) !! en = Some y /\ (y.(e_queue) = 0 \/ y.(e_task) = s.(tp))
  | op_sleep q en => is_queue s.(queues) q /\ unregistered s en /\ own_local s en
  | op_wake_one q | op_wake_all q => is_queue s.(queues) q
  | _ => True
  end.

(** ** The parts of the state that are read directly *)

Lemma rep_fields s e g : rep s e g ->
  s.(tp) = e.(tp) /\ s.(boot_idle_thread) = e.(boot_idle_thread) /\ s.(heap) = e.(heap) /\ s.(regs) = e.(regs) /\ s.(next_tid) = e.(next_tid) /\
  irq s = irq e /\ s.(need_resched) = e.(need_resched).
Proof. intros HR. by rewrite <- (rp_core _ _ _ HR). Qed.

Lemma unregistered_rep s e g en : rep s e g -> unregistered s en -> unregistered e en.
Proof. intros HR Hu y Hy. destruct (rep_entry HR _ _ Hy) as (x & Hx & <-). exact (Hu x Hx). Qed.

Lemma own_local_rep s e g en x : rep s e g -> own_local s en -> e.(tasks) !! e.(tp) = Some x -> e.(tp) <> e.(boot_idle_thread) -> in_stack x en.
Proof.
  intros HR Ho Hx Hb. destruct (rep_fields _ _ _ HR) as (E1 & E2 & _). destruct (rep_task HR _ _ Hx) as (y & Hy & <-).
  unfold own_local in Ho. rewrite E1, E2 in Ho. exact (Ho Hb y Hy).
Qed.

Lemma stack_ok_rep s e g ub utop : rep s e g -> stack_ok s ub utop -> stack_ok e ub utop.
Proof.
  intros HR [Hu Hz]. destruct (rep_fields _ _ _ HR) as (_ & E2 & E3 & _). split; [|by rewrite <- E3].
  intros t y sl Hy Hb. destruct (rep_task HR _ _ Hy) as (x & Hx & <-). rewrite <- E2 in Hb. exact (Hu t x sl Hx Hb).
Qed.

Lemma inv_regs e g r : inv e g -> inv (set_regs r e) g.
Proof.
  intros [[A1 A2 A3 A4] Hw Hi Hm]. constructor; [constructor; try done|..].
  - intros t x Hx. by eapply thread_ok_same; [by apply A4|..].
  - eapply wait_inv_same; [exact Hw|by apply same_view_refl|done..].
  - eapply ids_inv_same; [exact Hi|by apply same_view_refl|done..].
  - eapply mem_inv_same; [exact Hm|by apply same_view_refl|done|done|apply Hm|done|done].
Qed.

Lemma inv_bh e g v : inv e g -> inv (set_bh_running v e) g.
Proof.
  intros [[A1 A2 A3 A4] Hw Hi Hm]. constructor; [constructor; try done|..].
  - intros t x Hx. by eapply thread_ok_same; [by apply A4|..].
  - eapply wait_inv_same; [exact Hw|by apply same_view_refl|done..].
  - eapply ids_inv_same; [exact Hi|by apply same_view_refl|done..].
  - eapply mem_inv_same; [exact Hm|by apply same_view_refl|done|done|apply Hm|done|done].
Qed.

Lemma wp_drop {A} (m : M sched A) Q s : wp m (fun _ s' => Q tt s') s -> wp (drop m) Q s.
Proof. intros H. apply wp_bind. eapply wp_mono; [exact H|]. intros a s' HQ. by apply wp_ret. Qed.

(** ** Every operation keeps a good state *)

Definition good : unit -> sched -> Prop := fun _ => sched_ok.

Section keep.
Context {s e : sched} {g : lists} (HI : sched_inv s e g).

Lemma good_ok s' e' g' : rep s' e' g' -> inv e' g' -> sched_ok s'.
Proof. intros HR Hi. exact (sched_ok_of s' e' g' (conj HR Hi)). Qed.

Lemma keep_yield : wp thread_yield good s.
Proof. eapply wp_schedule; [exact HI|]. intros s' H'. eapply good_ok; [exact H'|by eapply inv_schedule]. Qed.

Lemma keep_create_kernel entry arg : wp (thread_create_kernel entry arg) (fun _ => sched_ok) s.
Proof.
  eapply wp_create_kernel; [exact HI|..].
  - intros s' e' g' H' Hf. eapply good_ok; [exact H'|apply Hf].
  - intros. eapply good_ok; eassumption.
Qed.

Lemma keep_process_create entry ub utop : stack_ok e ub utop -> wp (user_process_create entry ub utop) (fun _ => sched_ok) s.
Proof.
  intros Hs. eapply wp_process_create; [exact HI|exact Hs|..].
  - intros s' e' g' H' Hf. eapply good_ok; [exact H'|apply Hf].
  - intros. eapply good_ok; eassumption.
Qed.

Lemma keep_create_user entry arg ret : wp (thread_create_user entry arg ret) (fun _ => sched_ok) s.
Proof.
  destruct (cur_task HI) as (x & Hx & _). eapply wp_create_user; [exact HI|exact Hx|..].
  - intros s' e' g' H' Hf _. eapply good_ok; [exact H'|apply Hf].
  - intros. eapply good_ok; eassumption.
Qed.

Lemma keep_exit : e.(tp) <> e.(boot_idle_thread) -> wp thread_exit good s.
Proof. intros Hb. eapply wp_thread_exit; [exact HI|exact Hb|]. intros s' s1 e1 g1 _ _ HI'. by eapply sched_ok_of. Qed.

Lemma keep_user_exit : wp user_mark_exit good s.
Proof.
  destruct (cur_task HI) as (x & Hx & _). eapply wp_user_mark_exit; [exact HI|exact Hx|intros _; by eapply sched_ok_of|].
  intros _ s' e' g' HI' _. by eapply sched_ok_of.
Qed.

Lemma keep_stop_tid tid c : wp (thread_stop_tid tid c) (fun _ => sched_ok) s.
Proof.
  eapply wp_stop_tid; [exact HI|..].
  - intros _ s' H'. eapply good_ok; [exact H'|apply HI].
  - intros H0 Hb s' e' g' H' Hs. destruct (find_tid_found s e g tid HI H0) as (x & Hx & _ & Hin).
    eapply good_ok; [exact H'|eapply inv_stopped; [exact HI|exact Hx|exact Hin|exact Hb|exact Hs]].
Qed.

Lemma keep_stop_process tgid c : wp (thread_stop_process tgid c) (fun _ => sched_ok) s.
Proof. eapply wp_stop_process; [exact HI|]. intros s' e' g' HI' _. by eapply sched_ok_of. Qed.

Lemma keep_reap : wp thread_reap_zombies good s.
Proof. eapply wp_reap_zombies; [exact HI|]. intros s' e' g' HI' _. by eapply sched_ok_of. Qed.

Lemma keep_idle_round : wp enter_idle_round good s.
Proof. eapply wp_enter_idle_round; [exact HI|]. intros s' e1 g1 _ HI'. by eapply sched_ok_of. Qed.

Lemma keep_run_until_idle b : e.(tp) = e.(boot_idle_thread) -> wp (run_until_idle_round b) (fun _ => sched_ok) s.
Proof.
  intros Hb. eapply wp_run_until_idle_round; [exact HI|exact Hb|..].
  - intros s' e1 g1 _ _ _ _ HI'. by eapply sched_ok_of.
  - intros s' s1 e1 g1 _ _ _ HI'. by eapply sched_ok_of.
Qed.

Lemma keep_prepare q en : is_queue e.(queues) q -> is_Some (e.(entries) !! en) -> own_local s en ->
  wp (wait_queue_prepare_locked q en) (fun _ => sched_ok) s.
Proof.
  intros Hq Hen Ho. eapply wp_prepare; [exact HI|done|done|intros _; by eapply sched_ok_of|].
  intros Hm s' H'. destruct (cur_task HI) as (x & Hx & _). eapply good_ok; [exact H'|]. eapply inv_prepare; [exact HI|done|done|exact Hx|].
  eapply own_local_rep; [apply HI|exact Ho|exact Hx|]. by destruct (may_prepare_facts _ _ _ Hm) as (_ & _ & _ & ? & _).
Qed.

Lemma keep_wait : wp wait_queue_wait_locked (fun _ => sched_ok) s.
Proof.
  destruct (cur_task HI) as (x & Hx & _). eapply wp_wait_locked; [exact HI|exact Hx|..].
  - intros _. by eapply sched_ok_of.
  - intros _ _ _. by eapply sched_ok_of.
  - intros _ _ _ s' H'. eapply good_ok; [exact H'|by eapply inv_schedule].
Qed.

Lemma keep_finish en y : e.(entries) !! en = Some y -> y.(e_queue) = 0 \/ y.(e_task) = e.(tp) -> wp (wait_queue_finish_locked en) good s.
Proof.
  intros Hy Ho. eapply wp_finish; [apply HI|apply HI|apply HI|exact Hy|intros _; by eapply sched_ok_of|].
  intros Hq s' H'. eapply good_ok; [exact H'|]. eapply inv_finish; [exact HI|exact Hy|exact Hq|]. by destruct Ho.
Qed.

Lemma keep_sleep q en : is_queue e.(queues) q -> unregistered s en -> own_local s en -> wp (wait_queue_sleep_locked q en) (fun _ => sched_ok) s.
Proof.
  intros Hq Hu Ho. destruct (cur_task HI) as (x & Hx & _). eapply wp_sleep; [exact HI|exact Hq| |exact Hx| | |].
  - eapply unregistered_rep; [apply HI|exact Hu].
  - intros Hb. eapply own_local_rep; [apply HI|exact Ho|exact Hx|exact Hb].
  - intros _ s' HI'. by eapply sched_ok_of.
  - intros _ s' e1 g1 HI'. by eapply sched_ok_of.
Qed.

Lemma keep_wake_one q : is_queue e.(queues) q -> wp (wait_queue_wake_one q) good s.
Proof. intros Hq. eapply wp_wake_one; [exact HI|exact Hq|]. intros s' H'. eapply good_ok; [exact H'|by eapply inv_wake_one]. Qed.

Lemma keep_wake_all q : is_queue e.(queues) q -> wp (wait_queue_wake_all q) good s.
Proof. intros Hq. eapply wp_wake_all; [exact HI|exact Hq|]. intros s' H' Hi. eapply good_ok; [exact H'|exact Hi]. Qed.

Lemma keep_request : wp thread_request_resched good s.
Proof. eapply wp_request_resched; [apply HI|]. intros s' H'. eapply good_ok; [exact H'|apply inv_resched, HI]. Qed.

Lemma keep_consume : wp thread_consume_resched_request (fun _ => sched_ok) s.
Proof.
  unfold thread_consume_resched_request. apply wp_bind, (wp_irq_save (rep_of HI)). intros s1 H1. apply wp_bind, wp_gets.
  apply wp_bind, (wp_modify_core H1); [done|done|]. intros s2 H2. apply wp_bind, (wp_irq_restore H2). intros s3 H3. apply wp_ret.
  eapply good_ok; [exact H3|]. apply inv_irq, inv_resched, inv_irq, HI.
Qed.

End keep.

Lemma run_sched_op_keeps op s : sched_ok s -> op_allowed op s -> wp (run_sched_op op) good s.
Proof.
  intros [g HI] Ha. pose proof (proj1 HI) as HR. destruct (rep_fields _ _ _ HR) as (E1 & E2 & _).
  destruct op; cbn [run_sched_op op_allowed] in *; try apply wp_drop.
  - by eapply keep_yield.
  - by eapply keep_create_kernel.
  - eapply keep_process_create; [exact HI|by eapply stack_ok_rep].
  - by eapply keep_create_user.
  - eapply keep_exit; [exact HI|congruence].
  - by eapply keep_user_exit.
  - by eapply keep_stop_tid.
  - by eapply keep_stop_process.
  - by eapply keep_reap.
  - by eapply keep_idle_round.
  - eapply keep_run_until_idle; [exact HI|congruence].
  - apply wp_modify. eapply sched_ok_of. apply sched_inv_entry; [exact HI|by eapply unregistered_rep].
  - destruct Ha as (Hq & Hen & Ho). eapply keep_prepare; [exact HI|by apply (rep_is_queue HR)| |exact Ho].
    destruct Hen as [y Hy]. exists (core_entry y). by apply (entry_rep HR).
  - by eapply keep_wait.
  - destruct Ha as (y & Hy & Ho). eapply keep_finish; [exact HI|by apply (entry_rep HR)|]. by rewrite E1 in Ho.
  - destruct Ha as (Hq & Hu & Ho). eapply keep_sleep; [exact HI|by apply (rep_is_queue HR)|done|done].
  - eapply keep_wake_one; [exact HI|by apply (rep_is_queue HR)].
  - eapply keep_wake_all; [exact HI|by apply (rep_is_queue HR)].
  - by eapply keep_request.
  - by eapply keep_consume.
  - apply (wp_modify_core HR); [done|done|]. intros s' H'. eapply good_ok; [exact H'|apply inv_irq, HI].
  - apply (wp_modify_core HR); [done|done|]. intros s' H'. eapply good_ok; [exact H'|apply inv_bh, HI].
  - apply (wp_modify_core HR); [done|done|]. intros s' H'. eapply good_ok; [exact H'|apply inv_regs, HI].
Qed.

(** A history: each operation is allowed in the state it meets. *)
Inductive sched_history : list sched_op -> sched -> sched -> Prop :=
  | history_nil s : sched_history [] s s
  | history_cons op ops s s1 s2 :
      op_allowed op s -> run_sched_op op s = Some (tt, s1) -> sched_history ops s1 s2 -> sched_history (op :: ops) s s2.

Lemma run_sched_op_ok op s : sched_ok s -> op_allowed op s -> exists s', run_sched_op op s = Some (tt, s') /\ sched_ok s'.
Proof.
  intros Hok Ha. destruct (wp_run _ _ _ (run_sched_op_keeps op s Hok Ha)) as ([] & s' & E & H). by exists s'.
Qed.

Lemma sched_history_ok ops s s' : sched_history ops s s' -> sched_ok s -> sched_ok s'.
Proof.
  induction 1 as [|op ops s s1 s2 Ha E _ IH]; [done|]. intros Hok. apply IH.
  destruct (run_sched_op_ok op s Hok Ha) as (s1' & E' & H'). rewrite E in E'. by injection E' as <-.
Qed.
