(* ===== verification/SchedSpec.v ===== *)
(** * What the scheduler guarantees to threads

    Lemmas behind the main theorems: the state after one call of [schedule], a
    sequence of turns, the effect of a wake-up on every thread, and a run of
    workers that exit. *)

From S2P Require Import Prelude Lists Memory Slab MemoryInit ByteAllocator Task Sched Wait Thread HeapIface HeapLink SchedRep SchedLists WaitLists ThreadInv SchedOps WaitOps ThreadNew ThreadExit ThreadReap ThreadLoops SchedHistory.

Open Scope Z_scope.

(** ** One call of [schedule] *)

(** The thread that runs after the call, and whether the caller is queued. *)
Definition requeue (e : sched) (x : thread) : list Z :=
  if bool_decide (x.(t_state) = THREAD_RUNNING) && negb (e.(tp) =? e.(boot_idle_thread)) then [e.(tp)] else [].

Record rescheduled (e : sched) (g : lists) (x : thread) (e' : sched) (g' : lists) : Prop := {
  rs_lists : g' = set_l_run (tail g.(l_run) ++ requeue e x) g;
  rs_next : e'.(tp) = next_thread e g;
  rs_request : e'.(need_resched) = 0;
  rs_runs : is_running e' e'.(tp) = true;
  rs_left : next_thread e g <> e.(tp) -> e'.(tasks) !! e.(tp) = Some (left_behind e x) /\ e'.(frames) !! e.(tp) = Some (irq e);
  rs_resumed : next_thread e g <> e.(tp) -> exists y, e.(tasks) !! next_thread e g = Some y /\ y.(t_state) = THREAD_RUNNABLE /\
    e'.(tasks) !! next_thread e g = Some (set_t_state THREAD_RUNNING y) /\ e'.(regs) = y.(t_context) /\
    irq e' = (if decide (y.(t_context).(c_ra) = c_schedule_resume) then default false (e.(frames) !! next_thread e g) else true);
  rs_others : forall u, u <> e.(tp) -> u <> next_thread e g -> e'.(tasks) !! u = e.(tasks) !! u /\ e'.(frames) !! u = e.(frames) !! u;
  rs_rest : e'.(queues) = e.(queues) /\ e'.(entries) = e.(entries) /\ e'.(tcs) = e.(tcs) /\ e'.(next_tid) = e.(next_tid) /\
    e'.(boot_idle_thread) = e.(boot_idle_thread);
}.

Lemma switched_need st p n e : need_resched (switched st p n e) = need_resched e.
Proof. unfold switched. by destruct (is_running e p). Qed.

Lemma switched_regs st p n e xn : e.(tasks) !! n = Some xn -> n <> p -> regs (switched st p n e) = xn.(t_context).
Proof.
  intros Hn Hne. unfold switched. sched_simpl. rewrite lookup_alter_ne by done. rewrite lookup_alter_eq.
  destruct (is_running e p); sched_simpl; [rewrite lookup_alter_ne by done|]; by rewrite Hn.
Qed.

Lemma switched_frames_eq st p n e : frames (switched st p n e) = <[p := st]> e.(frames).
Proof. unfold switched. by destruct (is_running e p). Qed.
Lemma switched_tp st p n e : tp (switched st p n e) = n.
Proof. unfold switched. by destruct (is_running e p). Qed.

Lemma schedule_facts s e g x : sched_inv s e g -> e.(tasks) !! e.(tp) = Some x ->
  rescheduled e g x (schedule_state e g) (schedule_lists e g).
Proof.
  intros HI Hx. destruct (cur_task HI) as (x' & Hx' & Hok & Hp0). rewrite Hx in Hx'. injection Hx' as <-.
  assert (El : schedule_lists e g = set_l_run (tail (l_run g) ++ requeue e x) g).
  { unfold schedule_lists, requeued, requeue. by rewrite (is_running_get _ _ _ Hx). }
  unfold schedule_state. destruct (bool_decide (l_run g = []) && (tp e =? boot_idle_thread e)) eqn:Hne.
  - apply andb_true_iff in Hne as [Er Eb]. apply bool_decide_eq_true in Er. apply Z.eqb_eq in Eb.
    assert (En : next_thread e g = tp e) by (unfold next_thread; by rewrite Er).
    constructor; try done.
    assert (Hst : t_state x = THREAD_RUNNING).
    { destruct (to_cur _ _ _ _ Hok eq_refl) as [E|[E|E]]; [done|..]; destruct (to_boot _ _ _ _ Hok Eb); congruence. }
    change (is_running e (tp e) = true). rewrite (is_running_get _ _ _ Hx). by apply bool_decide_eq_true.
  - destruct (next_task HI Hne) as (xn & Hxn & Hokn & Hn0 & Hntp & Hnst).
    set (e0 := set_need_resched 0 (set_irq false e)). set (n := next_thread e g) in *.
    destruct (switched_rest (irq e) (tp e) n e0) as (E1 & E2 & E3 & E4 & E5 & E6 & E7 & _ & E9).
    pose proof (fun t => switched_tasks (irq e) (tp e) n e0 x xn t Hx Hxn Hntp) as Ht.
    pose proof (switched_regs (irq e) (tp e) n e0 xn Hxn Hntp) as Hr.
    constructor; try done.
    + assert (Hneed : forall e1, need_resched (resumed e1) = need_resched e1) by (intros e1; unfold resumed; by destruct (c_ra (regs e1))).
      rewrite Hneed, switched_need. done.
    + rewrite E1. unfold is_running. rewrite Ht, decide_False, decide_True by done. by apply bool_decide_eq_true.
    + intros _. rewrite Ht, decide_True by done. split; [done|]. rewrite E9 by done. by rewrite decide_True.
    + intros _. exists xn. split; [done|]. split; [done|]. rewrite Ht, decide_False, decide_True by done. split; [done|].
      destruct (resumed_rest (switched (irq e) (tp e) n e0)) as (_ & _ & _ & _ & _ & _ & _ & E & _). split; [by rewrite E|].
      unfold resumed. rewrite Hr, switched_tp, switched_frames_eq. destruct (c_ra (t_context xn)); try done.
      rewrite decide_True by done. rewrite irq_set_irq. by rewrite lookup_insert_ne.
    + intros u Hu Hun. rewrite Ht, !decide_False by done. split; [done|]. rewrite E9 by done. by rewrite decide_False.
Qed.

(** The end of [schedule] as the hart sees it. *)
Lemma schedule_runs s e g x : sched_inv s e g -> e.(tasks) !! e.(tp) = Some x ->
  exists s' e' g', schedule s = Some (tt, s') /\ sched_inv s' e' g' /\ rescheduled e g x e' g'.
Proof.
  intros HI Hx. destruct (wp_run schedule (fun _ s' => sched_inv s' (schedule_state e g) (schedule_lists e g)) s) as ([] & s' & E & H).
  { eapply wp_schedule; [exact HI|]. intros s' H'. split; [done|by eapply inv_schedule]. }
  exists s', (schedule_state e g), (schedule_lists e g). split; [done|]. split; [done|by eapply schedule_facts].
Qed.

(** ** Turns *)

(** Each running thread computes, leaving [r] in the callee-saved registers, and
    yields. *)
Fixpoint turns (rs : list thread_context) : M sched unit :=
  match rs with
  | [] => mret tt
  | r :: rs' => modify (set_regs r) ;; thread_yield ;; turns rs'
  end.

Lemma wp_turn s e g r rs Q :
  sched_inv s e g ->
  (forall s' e' g' x, e.(tasks) !! e.(tp) = Some x -> sched_inv s' e' g' -> rescheduled (set_regs r e) g x e' g' -> wp (turns rs) Q s') ->
  wp (turns (r :: rs)) Q s.
Proof.
  intros HI HQ. cbn [turns]. apply wp_bind, (wp_modify_core (rep_of HI)); [done|done|]. intros s1 H1.
  assert (HI1 : sched_inv s1 (set_regs r e) g) by (split; [done|apply inv_regs, HI]). destruct (cur_task HI) as (x & Hx & _).
  apply wp_bind. eapply wp_schedule; [exact HI1|]. intros s2 H2. eapply (HQ s2 _ _ x Hx); [split; [exact H2|by eapply inv_schedule]|].
  by eapply schedule_facts.
Qed.

Lemma tail_lookup {A} (L : list A) k : tail L !! k = L !! S k.
Proof. by destruct L. Qed.

(** The thread at position [k] of the run queue runs after [k + 1] turns. *)
Lemma wp_turns_reach rs : forall k s e g t Q,
  sched_inv s e g -> g.(l_run) !! k = Some t -> length rs = S k ->
  (forall s' e' g', sched_inv s' e' g' -> e'.(tp) = t -> is_running e' t = true -> Q tt s') -> wp (turns rs) Q s.
Proof.
  induction rs as [|r rs IH]; intros k s e g t Q HI Hk Hlen HQ; [done|]. eapply wp_turn; [exact HI|]. intros s1 e1 g1 x Hx HI1 Hre.
  cbn in Hlen. injection Hlen as Hlen. destruct k as [|k].
  - destruct rs; [|done]. cbn [turns]. apply wp_ret. assert (Et : tp e1 = t).
    { rewrite (rs_next _ _ _ _ _ Hre). unfold next_thread. destruct (l_run g) as [|t' R]; [done|]. by injection Hk as ->. }
    eapply HQ; [exact HI1|done|]. rewrite <- Et. apply Hre.
  - eapply (IH k); [exact HI1| |done|exact HQ]. rewrite (rs_lists _ _ _ _ _ Hre). cbn [l_run set_l_run].
    rewrite lookup_app_l; [by rewrite tail_lookup|]. apply lookup_lt_Some in Hk. destruct (l_run g); cbn in *; lia.
Qed.

(** A thread that left [schedule] pending finds its registers and its interrupt
    flag when its turn comes. *)
Lemma wp_turns_resume rs : forall k s e g p x b Q,
  sched_inv s e g -> g.(l_run) !! k = Some p -> length rs = S k -> e.(tasks) !! p = Some x ->
  x.(t_context).(c_ra) = c_schedule_resume -> e.(frames) !! p = Some b ->
  (forall s' e' g', sched_inv s' e' g' -> e'.(tp) = p -> e'.(regs) = x.(t_context) -> irq e' = b -> Q tt s') -> wp (turns rs) Q s.
Proof.
  induction rs as [|r rs IH]; intros k s e g p x b Q HI Hk Hlen Hp Hra Hf HQ; [done|]. eapply wp_turn; [exact HI|]. intros s1 e1 g1 y Hy HI1 Hre.
  cbn in Hlen. injection Hlen as Hlen. assert (Hin : p ∈ l_run g) by (by eapply list_elem_of_lookup_2).
  destruct (run_task HI p Hin) as (_ & _ & _ & _ & _ & _ & Hptp). pose proof (rp_run _ _ _ (rep_of HI)) as [_ Hnd]. destruct k as [|k].
  - destruct rs; [|done]. cbn [turns]. apply wp_ret. assert (Et : next_thread (set_regs r e) g = p).
    { unfold next_thread. destruct (l_run g) as [|t' R]; [done|]. by injection Hk as ->. }
    destruct (rs_resumed _ _ _ _ _ Hre) as (z & Hz & _ & _ & Er & Ei); [by rewrite Et|]. rewrite Et in Hz. change (tasks e !! p = Some z) in Hz.
    rewrite Hp in Hz. injection Hz as <-. eapply HQ; [exact HI1|by rewrite (rs_next _ _ _ _ _ Hre)|done|].
    rewrite decide_True in Ei by done. rewrite Ei, Et. change (frames (set_regs r e)) with (frames e). by rewrite Hf.
  - assert (Hne : p <> next_thread (set_regs r e) g).
    { unfold next_thread. destruct (l_run g) as [|t' R]; [done|]. intros ->. apply NoDup_cons in Hnd as [Hn _]. apply Hn. by eapply list_elem_of_lookup_2. }
    destruct (rs_others _ _ _ _ _ Hre p Hptp Hne) as [Et Ef]. change (frames (set_regs r e)) with (frames e) in Ef.
    change (tasks (set_regs r e)) with (tasks e) in Et.
    eapply (IH k); [exact HI1| |done|by rewrite Et|done|by rewrite Ef|exact HQ]. rewrite (rs_lists _ _ _ _ _ Hre). cbn [l_run set_l_run].
    rewrite lookup_app_l; [by rewrite tail_lookup|]. apply lookup_lt_Some in Hk. destruct (l_run g); cbn in *; lia.
Qed.

(** A full rotation. *)
Lemma wp_rotation s e g x r rs Q :
  sched_inv s e g -> e.(tasks) !! e.(tp) = Some x -> x.(t_state) = THREAD_RUNNING -> e.(tp) <> e.(boot_idle_thread) ->
  length rs = Nat.max 1 (length g.(l_run)) ->
  (forall s' e' g', sched_inv s' e' g' -> e'.(tp) = e.(tp) -> e'.(regs) = set_c_ra c_schedule_resume r -> irq e' = irq e -> Q tt s') ->
  wp (turns (r :: rs)) Q s.
Proof.
  intros HI Hx Hst Hb Hlen HQ. eapply wp_turn; [exact HI|]. intros s1 e1 g1 y Hy HI1 Hre. rewrite Hx in Hy. injection Hy as <-.
  assert (Hq : requeue (set_regs r e) x = [tp e]) by (change (requeue e x = [tp e]); unfold requeue; rewrite bool_decide_true by done; by rewrite (proj2 (Z.eqb_neq _ _) Hb)).
  assert (Hne : next_thread (set_regs r e) g <> tp e) by apply (tp_schedule s e g HI Hb).
  destruct (rs_left _ _ _ _ _ Hre Hne) as [El Ef]. change (tasks e1 !! tp e = Some (left_behind (set_regs r e) x)) in El.
  eapply (wp_turns_resume rs (length (tail (l_run g))) s1 e1 g1 (tp e)); [exact HI1| | |exact El|done|exact Ef|].
  - rewrite (rs_lists _ _ _ _ _ Hre), Hq. cbn [l_run set_l_run]. by rewrite list_lookup_middle.
  - rewrite Hlen. destruct (l_run g); cbn; lia.
  - intros s' e' g' HI' E1 E2 E3. by eapply HQ.
Qed.

(** ** Wake-ups *)

(** What waking the waiters of the registrations [L] does to one thread. *)
Definition wake_thread (e : sched) (L : list Z) (u : Z) (x : thread) : thread :=
  if bool_decide (x.(t_state) = THREAD_WAITING) && bool_decide (u ∈ waiter e <$> L)
  then set_t_state (if u =? e.(tp) then THREAD_RUNNING else THREAD_RUNNABLE) x else x.

Record woke_all (e : sched) (g : lists) (L : list Z) (e' : sched) (g' : lists) : Prop := {
  wk_tasks : forall u, e'.(tasks) !! u = wake_thread e L u <$> e.(tasks) !! u;
  wk_run : exists W, g'.(l_run) = g.(l_run) ++ W /\ sublist W (waiter e <$> L) /\
    forall u, u ∈ W <-> is_waiting e u = true /\ u ∈ waiter e <$> L /\ u <> e.(tp);
  wk_rest : e' = set_need_resched e'.(need_resched) (set_tasks e'.(tasks) e);
  wk_request : (exists u, is_waiting e u = true /\ u ∈ waiter e <$> L /\ u <> e.(tp)) -> e'.(need_resched) = 1;
  wk_lists : g' = set_l_run g'.(l_run) g;
}.

Lemma woke_all_nil e g : woke_all e g [] e g.
Proof.
  constructor.
  - intros u. destruct (tasks e !! u) as [x|]; [|done]. cbn. f_equal. unfold wake_thread. rewrite (bool_decide_false (u ∈ _)) by set_solver.
    by rewrite andb_false_r.
  - exists []. split; [by rewrite app_nil_r|]. split; [constructor|]. set_solver.
  - by destruct e.
  - intros (u & _ & Hu & _). set_solver.
  - by destruct g.
Qed.

Lemma waiter_same e e' i : e'.(entries) = e.(entries) -> waiter e' i = waiter e i.
Proof. unfold waiter. by intros ->. Qed.

Lemma woke_all_snoc e g L i e1 g1 :
  woke_all e g L e1 g1 -> woke_all e g (L ++ [i]) (wake_entry (e1, g1) i).1 (wake_entry (e1, g1) i).2.
Proof.
  intros [H1 (W & HW1 & HW2 & HW3) H3 H4 H5].
  assert (Ew : waiter e1 i = waiter e i) by (apply waiter_same; by rewrite H3). set (w := waiter e i) in *.
  assert (Etp : tp e1 = tp e) by (by rewrite H3).
  assert (Hin : forall u, u ∈ waiter e <$> (L ++ [i]) <-> u ∈ waiter e <$> L \/ u = w) by (intros u; rewrite fmap_app; set_solver).
  assert (Hwt : is_waiting e1 w = is_waiting e w && negb (bool_decide (w ∈ waiter e <$> L))).
  { unfold is_waiting. rewrite H1. destruct (tasks e !! w) as [x|]; [|done]. cbn. unfold wake_thread.
    destruct (bool_decide (t_state x = THREAD_WAITING)) eqn:Est; cbn [andb]; [|done].
    destruct (bool_decide (w ∈ waiter e <$> L)); cbn; [|done]. by destruct (w =? tp e). }
  assert (Hskip : is_waiting e1 w = false -> forall u x, tasks e !! u = Some x -> wake_thread e (L ++ [i]) u x = wake_thread e L u x).
  { intros Hf u x Hx. unfold wake_thread. destruct (bool_decide (t_state x = THREAD_WAITING)) eqn:Est; [|done]. cbn [andb].
    assert (bool_decide (u ∈ waiter e <$> L ++ [i]) = bool_decide (u ∈ waiter e <$> L)) as ->; [|done]. apply bool_decide_ext. rewrite Hin. split; [|tauto].
    intros [?| ->]; [done|]. rewrite Hwt in Hf. unfold is_waiting in Hf. rewrite Hx, Est in Hf. cbn in Hf.
    by destruct (bool_decide_reflect (w ∈ waiter e <$> L)). }
  unfold wake_entry. cbn [fst snd]. rewrite Ew. destruct (is_waiting e1 w) eqn:Ewt.
  - symmetry in Hwt. apply andb_true_iff in Hwt as [Hw1 Hw2]. apply negb_true_iff, bool_decide_eq_false in Hw2.
    assert (Htasks : forall st, (if w =? tp e then st = THREAD_RUNNING else st = THREAD_RUNNABLE) ->
      forall u, alter (set_t_state st) w (tasks e1) !! u = wake_thread e (L ++ [i]) u <$> tasks e !! u).
    { intros st Hst u. destruct (decide (w = u)) as [<-|Hne].
      - rewrite lookup_alter_eq, H1. unfold is_waiting in Hw1. destruct (tasks e !! w) as [x|] eqn:Hx; [|done]. cbn. f_equal.
        unfold wake_thread. rewrite Hw1, (bool_decide_false (w ∈ waiter e <$> L)) by done.
        rewrite (bool_decide_true (w ∈ _)) by (apply Hin; by right). cbn [andb]. f_equal. destruct (w =? tp e); done.
      - rewrite lookup_alter_ne, H1 by done. destruct (tasks e !! u) as [x|] eqn:Hx; [|done]. cbn. f_equal.
        unfold wake_thread. assert (bool_decide (u ∈ waiter e <$> L ++ [i]) = bool_decide (u ∈ waiter e <$> L)) as ->; [|done].
        apply bool_decide_ext. rewrite Hin. split; [|tauto]. intros [?|?]; [done|congruence]. }
    unfold woken. rewrite Etp. destruct (Z.eqb_spec w (tp e)) as [Et|Et]; cbn [fst snd].
    + constructor; [by apply Htasks| | |intros (u & U1 & U2 & U3); apply H4; exists u; apply Hin in U2 as [?|?]; [done|congruence]|done].
      * exists W. split; [done|]. split; [rewrite fmap_app; by apply sublist_inserts_r|]. intros u. rewrite HW3, Hin. split; [tauto|].
        intros (? & [?| ->] & ?); done.
      * transitivity (upd_task w (set_t_state THREAD_RUNNING) (set_need_resched (need_resched e1) (set_tasks (tasks e1) e))); [by rewrite <- H3|done].
    + constructor; [by apply Htasks| | |done|].
      * exists (W ++ [w]). split; [cbn [l_run set_l_run]; by rewrite HW1, app_assoc|]. split; [rewrite fmap_app; by apply sublist_app|].
        intros u. rewrite elem_of_app, HW3, Hin, list_elem_of_singleton. split; [|tauto].
        intros [?| ->]; [tauto|]. split; [done|]. tauto.
      * transitivity (set_need_resched 1 (upd_task w (set_t_state THREAD_RUNNABLE) (set_need_resched (need_resched e1) (set_tasks (tasks e1) e))));
          [by rewrite <- H3|done].
      * rewrite H5. done.
  - cbn [fst snd]. assert (Hsame : forall u, is_waiting e u = true -> u ∈ waiter e <$> L ++ [i] -> u ∈ waiter e <$> L).
    { intros u Hu Hi. apply Hin in Hi as [?| ->]; [done|]. rewrite Hu in Hwt. by destruct (bool_decide_reflect (w ∈ waiter e <$> L)). }
    constructor; try done.
    + intros u. rewrite H1. destruct (tasks e !! u) as [x|] eqn:Hx; [|done]. cbn. by rewrite Hskip.
    + exists W. split; [done|]. split; [rewrite fmap_app; by apply sublist_inserts_r|]. intros u. rewrite HW3. split; [rewrite Hin; tauto|].
      intros (U1 & U2 & U3). auto.
    + intros (u & U1 & U2 & U3). apply H4. exists u. auto.
Qed.

Lemma woke_all_foldl e g L : woke_all e g L (foldl wake_entry (e, g) L).1 (foldl wake_entry (e, g) L).2.
Proof.
  induction L as [|i L IH] using rev_ind; [apply woke_all_nil|]. rewrite foldl_snoc.
  destruct (foldl wake_entry (e, g) L) as [e1 g1]. by apply woke_all_snoc.
Qed.

(** ** Workers that exit *)

(** No thread sleeps. *)
Definition no_sleeper (e : sched) : Prop := forall t x, e.(tasks) !! t = Some x -> x.(t_state) <> THREAD_WAITING.

(** [n] threads exit one after the other, each when it gets the processor. *)
Fixpoint exits (n : nat) : M sched unit := match n with O => mret tt | S n' => thread_exit ;; exits n' end.

Lemma no_sleeper_reschedule e g x e' g' : rescheduled e g x e' g' -> e.(tasks) !! e.(tp) = Some x -> no_sleeper e -> no_sleeper e'.
Proof.
  intros Hre Hx Hn u y Hy. destruct (decide (next_thread e g = e.(tp))) as [E|Hne].
  - destruct (decide (u = tp e)) as [->|Hu].
    + pose proof (rs_runs _ _ _ _ _ Hre) as Hr. rewrite (rs_next _ _ _ _ _ Hre), E in Hr. unfold is_running in Hr. rewrite Hy in Hr.
      apply bool_decide_eq_true in Hr. congruence.
    + destruct (rs_others _ _ _ _ _ Hre u Hu) as [Et _]; [congruence|]. rewrite Et in Hy. by eapply Hn.
  - destruct (decide (u = tp e)) as [->|Hu]; [|destruct (decide (u = next_thread e g)) as [->|Hun]].
    + destruct (rs_left _ _ _ _ _ Hre Hne) as [El _]. rewrite El in Hy. injection Hy as <-. unfold left_behind. specialize (Hn _ _ Hx).
      destruct (bool_decide (t_state x = THREAD_RUNNING)); cbn; congruence.
    + destruct (rs_resumed _ _ _ _ _ Hre Hne) as (z & _ & _ & Ez & _). rewrite Ez in Hy. by injection Hy as <-.
    + destruct (rs_others _ _ _ _ _ Hre u Hu Hun) as [Et _]. rewrite Et in Hy. by eapply Hn.
Qed.

(** The state after a thread is stopped. *)
Lemma stopped_facts s t c e g e1 g1 x : sched_inv s e g -> e.(tasks) !! t = Some x -> t ∉ g.(l_run) -> stopped t c e g e1 g1 ->
  e1.(tp) = e.(tp) /\ e1.(boot_idle_thread) = e.(boot_idle_thread) /\ g1.(l_all) = g.(l_all) /\ g1.(l_run) = g.(l_run) /\
  (forall u, e1.(tasks) !! u = if decide (t = u) then Some (end_thread c x) else e.(tasks) !! u).
Proof.
  intros HI Hx Hnr Hs. unfold stopped, is_zombie in Hs. rewrite Hx in Hs. unfold end_thread. destruct (bool_decide (t_state x = THREAD_ZOMBIE)).
  - destruct Hs as [-> ->]. split_and!; try done. intros u. by destruct (decide (t = u)) as [<-|].
  - destruct (zombified_rest _ _ _ _ _ _ Hs) as (Er & _ & E1 & E2 & _); [by exists x|]. split_and!; [by rewrite Er|by rewrite Er|done| |].
    + by rewrite E2, without_absent.
    + intros u. rewrite (zombified_task _ _ _ _ _ _ u Hs) by (by exists x). destruct (decide (t = u)) as [<-|]; [by rewrite Hx|done].
Qed.

Lemma wp_exits R : forall s e g Q,
  sched_inv s e g -> g.(l_run) = R -> no_sleeper e -> e.(tp) <> e.(boot_idle_thread) ->
  (forall s' e' g', sched_inv s' e' g' -> e'.(tp) = e'.(boot_idle_thread) -> e'.(boot_idle_thread) = e.(boot_idle_thread) ->
     g'.(l_run) = [] -> g'.(l_all) = g.(l_all) -> no_sleeper e' -> Q tt s') ->
  wp (exits (S (length R))) Q s.
Proof.
  induction R as [|t R IH]; intros s e g Q HI HR Hn Hb HQ; cbn [exits length]; apply wp_bind; (eapply wp_thread_exit; [exact HI|exact Hb|]);
    intros s2 s1 e1 g1 Hs HI1 HI2; destruct (cur_task HI) as (x & Hx & _);
    assert (Hnr : tp e ∉ l_run g) by (intros Hin; by destruct (run_task HI _ Hin) as (? & _ & _ & _ & _ & _ & ?));
    destruct (stopped_facts s _ _ e g e1 g1 x HI Hx Hnr Hs) as (Etp & Ebt & Ea & Er & Et);
    (assert (Hx1 : tasks e1 !! tp e1 = Some (end_thread 0 x)) by (by rewrite Etp, Et, decide_True));
    pose proof (schedule_facts s1 e1 g1 _ HI1 Hx1) as Hre; set (e2 := schedule_state e1 g1) in *; set (g2 := schedule_lists e1 g1) in *;
    (assert (Hz : t_state (end_thread 0 x) = THREAD_ZOMBIE) by (unfold end_thread; by destruct (bool_decide_reflect (t_state x = THREAD_ZOMBIE))));
    (assert (Hn1 : no_sleeper e1) by (intros u y; rewrite Et; destruct (decide (tp e = u)); [intros [= <-]; by rewrite Hz|apply Hn]));
    pose proof (no_sleeper_reschedule _ _ _ _ _ Hre Hx1 Hn1) as Hn2;
    (assert (Eq : requeue e1 (end_thread 0 x) = []) by (unfold requeue; rewrite bool_decide_false by congruence; done));
    pose proof (rs_lists _ _ _ _ _ Hre) as El; rewrite Eq, app_nil_r, Er, HR in El; destruct (rs_rest _ _ _ _ _ Hre) as (_ & _ & _ & _ & Ebt2);
    pose proof (rs_next _ _ _ _ _ Hre) as En; unfold next_thread in En; rewrite Er, HR in En.
  - cbn [exits]. apply wp_ret. eapply (HQ s2 e2 g2); [done|by rewrite En, Ebt2|by rewrite Ebt2, Ebt|by rewrite El|by rewrite El|done].
  - eapply (IH s2 e2 g2); [exact HI2|by rewrite El|done| |].
    + rewrite En, Ebt2, Ebt. destruct (run_task HI t) as (? & _ & _ & _ & _ & ? & _); [rewrite HR; set_solver|done].
    + intros s' e' g' H1 H2 H3 H4 H5 H6. eapply (HQ s' e' g'); [done|done|by rewrite H3, Ebt2, Ebt|done|by rewrite H5, El|done].
Qed.

Lemma no_sleeper_reaped zs e g e1 g1 : reaped zs e g e1 g1 -> no_sleeper e -> no_sleeper e1.
Proof. intros Hre Hn u y. rewrite (re_tasks _ _ _ _ _ Hre). destruct (decide (u ∈ zs)); [done|apply Hn]. Qed.

(** Without sleepers and runnable threads no worker is live. *)
Lemma nobody_live s e g : sched_inv s e g -> no_sleeper e -> e.(tp) = e.(boot_idle_thread) -> g.(l_run) = [] ->
  existsb (thread_is live_worker e) g.(l_all) = false.
Proof.
  intros HI Hn Hb Hr. destruct (existsb _ _) eqn:E; [|done]. exfalso. apply existsb_exists in E as (t & Ht & Hl). apply list_elem_of_In in Ht.
  destruct (all_task HI t Ht) as (x & Hx & Hok & _). unfold thread_is, live_worker in Hl. rewrite Hx in Hl.
  apply andb_true_iff in Hl as [H1 H2]. apply bool_decide_eq_true in H2. apply Z.eqb_eq in H1. rewrite (to_idle _ _ _ _ Hok) in H1.
  destruct (decide (t = boot_idle_thread e)) as [|Hne]; [done|]. pose proof (Hn t x Hx) as Hs. pose proof (proj1 (to_all _ _ _ _ Hok) Ht) as Hs'.
  destruct (t_state x) eqn:Est; try congruence.
  - pose proof (to_running _ _ _ _ Hok Est). congruence.
  - assert (Hin : t ∈ l_run g) by (apply (to_run _ _ _ _ Hok); split; [exact Est|exact Hne]). rewrite Hr in Hin. by apply not_elem_of_nil in Hin.
Qed.

(** The boot thread waits until all workers have exited. *)
Lemma wp_run_until_idle_all s e g b Q :
  sched_inv s e g -> e.(tp) = e.(boot_idle_thread) -> no_sleeper e -> g.(l_run) <> [] ->
  (forall s' e' g', sched_inv s' e' g' -> e'.(tp) = e.(boot_idle_thread) -> g'.(l_all) = [e.(boot_idle_thread)] -> g'.(l_run) = [] ->
     g'.(l_zombies) = [] -> Q (false, true) s') ->
  wp (r1 ← run_until_idle_round b; exits (length g.(l_run)) ;; r2 ← run_until_idle_round b; mret (r1, r2)) Q s.
Proof.
  intros HI Hb Hn Hr HQ. apply wp_bind. eapply wp_run_until_idle_round; [exact HI|exact Hb|..].
  { intros s1 e1 g1 Hre _ E _ _. exfalso. apply Hr. by rewrite <- (proj1 (re_lists _ _ _ _ _ Hre)). }
  intros s2 s1 e1 g1 Hre HI1 _ HI2. assert (Er : l_run g1 = l_run g) by apply Hre.
  assert (Eb : tp e1 = tp e /\ boot_idle_thread e1 = boot_idle_thread e) by (by rewrite (re_rest _ _ _ _ _ Hre)). destruct Eb as [Etp Ebt].
  assert (Ei : idle_irq e1 g1 = e1) by (unfold idle_irq; rewrite Er; by rewrite bool_decide_false). rewrite Ei in HI2.
  destruct (cur_task HI1) as (x & Hx & _). pose proof (schedule_facts s1 e1 g1 x HI1 Hx) as Hrs. set (e2 := schedule_state e1 g1) in *.
  set (g2 := schedule_lists e1 g1) in *. pose proof (no_sleeper_reschedule _ _ _ _ _ Hrs Hx (no_sleeper_reaped _ _ _ _ _ Hre Hn)) as Hn2.
  destruct (rs_rest _ _ _ _ _ Hrs) as (_ & _ & _ & _ & Ebt2). pose proof (rs_next _ _ _ _ _ Hrs) as En. unfold next_thread in En. rewrite Er in En.
  pose proof (rs_lists _ _ _ _ _ Hrs) as El. assert (Eq : requeue e1 x = []).
  { unfold requeue. rewrite Etp, Ebt, Hb, Z.eqb_refl. apply andb_false_r || by rewrite andb_false_r. }
  rewrite Eq, app_nil_r, Er in El. destruct (l_run g) as [|t R] eqn:ER; [done|].
  assert (Ht : t <> boot_idle_thread e). { destruct (run_task HI t) as (? & _ & _ & _ & _ & ? & _); [rewrite ER; set_solver|done]. }
  apply wp_bind. change (length (t :: R)) with (S (length R)). eapply (wp_exits R s2 e2 g2); [exact HI2|by rewrite El|done|congruence|].
  intros s3 e3 g3 HI3 Hb3 Ebt3 Hr3 Ea3 Hn3. apply wp_bind. eapply wp_run_until_idle_round; [exact HI3|exact Hb3|..].
  - intros s4 e4 g4 Hre4 Ea4 Er4 Ez4 HI4. apply wp_ret. assert (E4 : tp e4 = tp e3) by (by rewrite (re_rest _ _ _ _ _ Hre4)).
    assert (Eb3 : boot_idle_thread e3 = boot_idle_thread e) by congruence. eapply HQ; [exact HI4| | |done|done].
    + change (tp e4 = boot_idle_thread e). congruence.
    + by rewrite Ea4, Eb3.
  - intros s4 s3' e4 g4 Hre4 HI4 Hlive _. exfalso. assert (Er4 : l_run g4 = []) by (by rewrite (proj1 (re_lists _ _ _ _ _ Hre4))).
    destruct Hlive as [Hl|Hl]; [done|]. rewrite (nobody_live s3' e4 g4) in Hl; [done|done|by eapply no_sleeper_reaped| |done].
    by rewrite (re_rest _ _ _ _ _ Hre4).
Qed.
