(* ===== verification/SchedView.v ===== *)
(** * The lists of a state, read off its links

    Executable walks over the link fields.  In a good state they find exactly
    the lists of the representation, so that properties can be stated about the
    program's state alone and examples can be computed. *)

From S2P Require Import Prelude Lists Memory Slab MemoryInit ByteAllocator Task Sched Wait Thread HeapIface HeapLink SchedRep SchedLists WaitLists ThreadInv SchedOps WaitOps ThreadNew ThreadExit ThreadReap ThreadLoops SchedHistory.

Open Scope Z_scope.

Fixpoint walk (nx : Z -> option Z) (fuel : nat) (h : Z) : list Z :=
  match fuel with
  | O => []
  | S fuel' => if h =? 0 then [] else match nx h with Some n => h :: walk nx fuel' n | None => [] end
  end.

Definition walk_threads (f : thread -> Z) (s : sched) (h : Z) : list Z := walk (link f s.(tasks)) (size s.(tasks)) h.
Definition run_queue (s : sched) : list Z := walk_threads t_next s s.(run_head).
Definition zombie_list (s : sched) : list Z := walk_threads t_znext s s.(zombie_head).
Definition thread_list (s : sched) : list Z := walk_threads t_all_next s s.(all_threads).
Definition waiting_list (s : sched) (q : Z) : list Z :=
  match s.(queues) !! q with
  | Some x => walk (fun i => e_next <$> s.(entries) !! i) (size s.(entries)) x.(q_head)
  | None => []
  end.

Lemma walk_sll nx L : forall h fuel, sll 0 nx h L -> (length L <= fuel)%nat -> walk nx fuel h = L.
Proof.
  induction L as [|a L IH]; intros h fuel H Hl.
  - cbn in H. subst h. by destruct fuel.
  - destruct fuel as [|fuel]; [cbn in Hl; lia|]. destruct H as (-> & Ha & n & Hn & H). cbn [walk]. rewrite (proj2 (Z.eqb_neq a 0) Ha), Hn.
    f_equal. apply IH; [done|]. cbn in Hl. lia.
Qed.

Lemma dll_sll lk h pr L : dll 0 lk pr h L -> sll 0 (fun i => snd <$> lk i) h L.
Proof.
  revert h pr. induction L as [|a L IH]; intros h pr H; [exact H|]. destruct H as (-> & Ha & n & Hn & H). split; [done|]. split; [done|].
  exists n. rewrite Hn. split; [done|]. by eapply IH.
Qed.

Section view.
Context {s e : sched} {g : lists} (HR : rep s e g).

Lemma chain_walk fld h L : chain fld s.(tasks) h L -> walk_threads fld s h = L.
Proof. intros Hc. apply walk_sll; [apply Hc|by eapply chain_fits]. Qed.

Lemma run_queue_rep : run_queue s = g.(l_run).
Proof. apply chain_walk, HR. Qed.
Lemma zombie_list_rep : zombie_list s = g.(l_zombies).
Proof. apply chain_walk, HR. Qed.
Lemma thread_list_rep : thread_list s = g.(l_all).
Proof. apply chain_walk, HR. Qed.

Lemma waiting_list_rep q : is_queue e.(queues) q -> waiting_list s q = g.(l_queue) q.
Proof.
  intros Hq. apply (rep_is_queue HR) in Hq. pose proof Hq as [x Hx]. unfold waiting_list. rewrite Hx.
  destruct (ds_heads (rp_queue _ _ _ HR) q Hq) as (h & Eh & Hd). rewrite Hx in Eh. injection Eh as <-.
  apply walk_sll; [|by apply queue_list_fits with (e := e)]. apply dll_sll in Hd. eapply sll_ext; [|exact Hd]. intros i _. unfold qlinks.
  by destruct (entries s !! i).
Qed.

End view.

(** ** A small system *)

(** The small memory of the allocator examples; the boot thread and one wait
    queue lie in its reserved first page. *)
Definition cold_over (h : slabs) : sched :=
  mkSched {[512 := zero_thread]} ∅ {[1024 := mkQueue 0 0]} ∅ ∅ 512 0 0 0 0 0 0 1 0 (set_c_sp 4096 zero_context) 0 true h.
Definition demo_cold : sched := cold_over demo_heap.

Definition after (m : M sched unit) (s : sched) : sched := default s (snd <$> m s).

Lemma after_run m s : is_Some (m s) -> m s = Some (tt, after m s).
Proof. intros [[[] s'] E]. unfold after. by rewrite E. Qed.

Definition demo_started : sched := after thread_system_bootstrap_init demo_cold.

Lemma cold_over_ok h : slab_ok h -> in_reserved_page h 512 -> cold_sched (cold_over h) (hok := slab_ok) (static := in_reserved_page).
Proof.
  intros Hh Hp. constructor; try done. split; [done|]. intros q x Hx. change (({[1024 := mkQueue 0 0]} : gmap Z wait_queue) !! q = Some x) in Hx.
  by apply lookup_singleton_Some in Hx as [_ <-].
Qed.

(** The boot thread after [thread_system_bootstrap_init]. *)
Lemma started_ok c : cold_sched c (hok := slab_ok) (static := in_reserved_page) -> sched_ok (after thread_system_bootstrap_init c).
Proof.
  intros Hc. assert (H : wp thread_system_bootstrap_init (fun _ s => sched_ok s) c) by (apply wp_bootstrap_init; [exact Hc|]; intros s' HI; by eapply sched_ok_of).
  destruct (wp_run _ _ _ H) as ([] & s' & E & Hs). unfold after. by rewrite E.
Qed.

Lemma demo_cold_ok : cold_sched demo_cold (hok := slab_ok) (static := in_reserved_page).
Proof. apply cold_over_ok; [exact demo_heap_ok|vm_compute; reflexivity]. Qed.

Lemma demo_started_run : thread_system_bootstrap_init demo_cold = Some (tt, demo_started).
Proof.
  apply after_run. destruct (thread_system_bootstrap_init demo_cold) as [r|] eqn:E; [by eexists|]. vm_compute in E. discriminate E.
Qed.

Lemma demo_started_ok : sched_ok demo_started.
Proof. apply started_ok, demo_cold_ok. Qed.

(** Running operations on it. *)
Definition runs (op : sched_op) (s : sched) : bool := match run_sched_op op s with Some _ => true | None => false end.

Lemma op_ok op s : sched_ok s -> op_allowed op s -> run_sched_op op s = Some (tt, after (run_sched_op op) s) /\ sched_ok (after (run_sched_op op) s).
Proof.
  intros Hok Ha. destruct (run_sched_op_ok op s Hok Ha) as (s' & E & Hok'). unfold after. by rewrite E.
Qed.

Definition spawn (n : Z) (s : sched) : sched := after (run_sched_op (op_create_kernel (c_client n) n)) s.
Definition demo_two_threads : sched := spawn 2 (spawn 1 demo_started).
Definition demo_running : sched := after (run_sched_op op_yield) demo_two_threads.

Lemma demo_two_threads_ok : sched_ok demo_two_threads.
Proof. apply op_ok; [apply op_ok; [exact demo_started_ok|done]|done]. Qed.
Lemma demo_running_ok : sched_ok demo_running.
Proof. apply op_ok; [exact demo_two_threads_ok|done]. Qed.

(** The boot thread has created two workers; then the first of them runs. *)
Example demo_thread_lists :
  (thread_list demo_two_threads, run_queue demo_two_threads, tp demo_two_threads) = ([32256; 32512; 512], [32512; 32256], 512) /\
  (run_queue demo_running, tp demo_running) = ([32256], 32512).
Proof. vm_compute. split; reflexivity. Qed.
