(* ===== verification/Scheduler.v ===== *)
(** * Correctness of threads, scheduler and wait queues

    The main theorems about [sched.c], [wait.c] and [thread.c], each with a run
    on a small system. *)

From S2P Require Import Prelude Lists Memory Slab MemoryInit ByteAllocator Task Sched Wait Thread HeapIface HeapLink SchedRep SchedLists WaitLists ThreadInv SchedOps WaitOps ThreadNew ThreadExit ThreadReap ThreadLoops SchedHistory SchedSpec SchedView.

Open Scope Z_scope.

(** ** The invariant over histories *)

(** The lists spelled out by the links agree with the states of the threads. *)
Definition lists_agree (s : sched) : Prop :=
  NoDup (run_queue s) /\ NoDup (zombie_list s) /\ NoDup (thread_list s) /\
  forall t x, s.(tasks) !! t = Some x ->
    (t ∈ run_queue s <-> x.(t_state) = THREAD_RUNNABLE /\ t <> s.(boot_idle_thread)) /\
    (t ∈ zombie_list s <-> x.(t_state) = THREAD_ZOMBIE) /\
    (t ∈ thread_list s <-> x.(t_state) <> THREAD_NEW) /\
    (x.(t_state) = THREAD_RUNNING -> t = s.(tp)).

Lemma sched_ok_agree s : sched_ok s -> lists_agree s.
Proof.
  intros [g HI]. pose proof (proj1 HI) as HR. unfold lists_agree. rewrite (run_queue_rep HR), (zombie_list_rep HR), (thread_list_rep HR).
  split_and!; [apply HR|apply HR|apply HR|]. intros t x Hx. apply (task_rep HR) in Hx.
  pose proof (si_threads _ _ (iv_state _ _ (proj2 HI)) t _ Hx) as [B1 B2 B3 _ _ B6 _ _ _ _ _]. done.
Qed.

(** C12: after [thread_system_bootstrap_init], in whatever order the kernel creates
    threads, yields, exits, stops threads and processes, sleeps, wakes, reaps and
    idles, every further call returns (no undefined behaviour, every list walk
    ends) and leaves a good state again: the run queue holds exactly the runnable
    threads once each, the zombie list exactly the zombies, the list of all
    threads exactly the published ones, and only the current thread runs. *)
Theorem thread_system_safe (s s0 s1 : sched) (ops : list sched_op) (op : sched_op) :
  cold_sched s (hok := slab_ok) (static := in_reserved_page) -> thread_system_bootstrap_init s = Some (tt, s0) ->
  sched_history ops s0 s1 -> op_allowed op s1 ->
  exists s2, run_sched_op op s1 = Some (tt, s2) /\ sched_ok s2 /\ lists_agree s2.
Proof.
  intros Hc E Hh Ha. assert (Hok0 : sched_ok s0).
  { refine (run_wp _ (fun _ s => sched_ok s) _ _ _ _ E). apply wp_bootstrap_init; [exact Hc|]. intros s' HI. by eapply sched_ok_of. }
  destruct (run_sched_op_ok op s1 (sched_history_ok _ _ _ Hh Hok0) Ha) as (s2 & E2 & Hok2). exists s2. split; [done|]. split; [done|by apply sched_ok_agree].
Qed.

Lemma thread_system_safe_witness :
  exists s2, run_sched_op op_exit demo_running = Some (tt, s2) /\ sched_ok s2 /\ lists_agree s2.
Proof.
  apply (thread_system_safe demo_cold demo_started demo_running
    [op_create_kernel (c_client 1) 1; op_create_kernel (c_client 2) 2; op_yield] op_exit demo_cold_ok demo_started_run).
  - apply (history_cons _ _ _ (spawn 1 demo_started)); [exact I|apply op_ok; [exact demo_started_ok|exact I]|].
    apply (history_cons _ _ _ demo_two_threads); [exact I|apply op_ok; [apply op_ok; [exact demo_started_ok|exact I]|exact I]|].
    apply (history_cons _ _ _ demo_running); [exact I|apply op_ok; [exact demo_two_threads_ok|exact I]|apply history_nil].
  - vm_compute. discriminate.
Defined.

(** threads share no memory.  In a good state the control blocks, kernel
    stacks and user stacks of the threads (other than the boot thread, which is
    static) are pairwise disjoint. *)
Theorem thread_memory_disjoint (s : sched) (t t' : Z) (x x' : thread) (sl sl' : slot) (a a' p : Z) :
  sched_ok s -> s.(tasks) !! t = Some x -> s.(tasks) !! t' = Some x' -> t <> s.(boot_idle_thread) -> t' <> s.(boot_idle_thread) ->
  slot_addr t x sl = Some a -> slot_addr t' x' sl' = Some a' ->
  a <= p < a + slot_size x sl -> a' <= p < a' + slot_size x' sl' -> t = t' /\ sl = sl'.
Proof.
  intros [g [HR [_ _ _ Hm]]] Hx Hx' Hb Hb' Ha Ha' Hp Hp'. apply (task_rep HR) in Hx, Hx'.
  assert (Hs : forall u y k, slot_addr u (core_thread y) k = slot_addr u y k /\ slot_size (core_thread y) k = slot_size y k) by (by intros u y [| |]).
  destruct (Hs t x sl) as [E1 E2]. destruct (Hs t' x' sl') as [E1' E2']. rewrite <- E1 in Ha. rewrite <- E1' in Ha'.
  destruct (mi_owned _ Hm _ _ _ _ Hx Hb Ha) as (z & Hz & Hle). destruct (mi_owned _ Hm _ _ _ _ Hx' Hb' Ha') as (z' & Hz' & Hle').
  destruct (hl_disjoint _ _ _ _ _ p (mi_heap _ Hm) Hz Hz') as [<- _]; [lia|lia|]. by eapply (mi_inj _ Hm).
Qed.

Lemma thread_memory_disjoint_witness :
  is_Some (demo_two_threads.(tasks) !! 32512) /\ forall p, 32512 <= p < 32512 + SIZEOF_THREAD -> ~ (32256 <= p < 32256 + SIZEOF_THREAD).
Proof.
  destruct (demo_two_threads.(tasks) !! 32512) as [x|] eqn:Ex; [|vm_compute in Ex; discriminate Ex].
  destruct (demo_two_threads.(tasks) !! 32256) as [x'|] eqn:Ex'; [|vm_compute in Ex'; discriminate Ex'].
  split; [exists x; reflexivity|]. intros p Hp Hp'.
  destruct (thread_memory_disjoint demo_two_threads 32512 32256 x x' sl_tcb sl_tcb 32512 32256 p demo_two_threads_ok Ex Ex') as [E _];
    [vm_compute; discriminate|vm_compute; discriminate|reflexivity|reflexivity|exact Hp|exact Hp'|]. discriminate E.
Defined.

(** ** Scheduling *)

Definition is_runnable (s : sched) (t : Z) : bool :=
  match s.(tasks) !! t with Some x => bool_decide (x.(t_state) = THREAD_RUNNABLE) | None => false end.

Lemma is_running_erase s t : is_running (erase s) t = is_running s t.
Proof. unfold is_running, erase. sched_simpl. rewrite lookup_fmap. by destruct (tasks s !! t). Qed.

(** What a call of [schedule] by the thread [x] does.  The next thread is the
    first of the run queue, or the boot thread if the queue is empty; the caller
    goes to the end of the queue if it could go on. *)
Definition schedule_spec (s : sched) (x : thread) (s' : sched) : Prop :=
  let n := List.hd s.(boot_idle_thread) (run_queue s) in
  s'.(tp) = n /\ is_running s' n = true /\ s'.(need_resched) = 0 /\
  run_queue s' = tail (run_queue s) ++ requeue s x /\ zombie_list s' = zombie_list s /\ thread_list s' = thread_list s /\
  (n <> s.(tp) -> is_runnable s n = true /\ (erase s').(tasks) !! s.(tp) = Some (left_behind s (core_thread x))) /\
  (forall u, u <> s.(tp) -> u <> n -> (erase s').(tasks) !! u = (erase s).(tasks) !! u).

(** C13: [schedule] is first-in first-out.  It returns on every good state; the
    thread that runs next is the first of the run queue, or the boot thread if
    the queue is empty, and it was runnable (never a zombie, a sleeping or an
    unpublished thread).  A caller that was running is queued at the end with its
    registers saved; a caller that is waiting or a zombie is not queued.  All
    other threads, and the other lists, are untouched. *)
Theorem schedule_correct (s : sched) (x : thread) :
  sched_ok s -> s.(tasks) !! s.(tp) = Some x -> exists s', schedule s = Some (tt, s') /\ sched_ok s' /\ schedule_spec s x s'.
Proof.
  intros [g HI] Hx. pose proof (proj1 HI) as HR. pose proof (task_rep HR _ _ Hx) as Hxe.
  destruct (schedule_runs s (erase s) g (core_thread x) HI Hxe) as (s' & e' & g' & E & HI' & Hre). exists s'. split; [done|].
  split; [by eapply sched_ok_of|]. pose proof (proj1 HI') as HR'. pose proof (rp_core _ _ _ HR') as Ee. unfold schedule_spec.
  rewrite (run_queue_rep HR), (run_queue_rep HR'), (zombie_list_rep HR), (zombie_list_rep HR'), (thread_list_rep HR), (thread_list_rep HR').
  assert (En : List.hd (boot_idle_thread s) (l_run g) = next_thread (erase s) g) by (unfold next_thread; by destruct (l_run g)). rewrite En.
  destruct (rep_fields _ _ _ HR') as (F1 & _ & _ & _ & _ & _ & F7). rewrite (rs_lists _ _ _ _ _ Hre), Ee, F1, F7.
  split_and!; try done.
  - apply Hre.
  - rewrite <- is_running_erase, Ee, <- (rs_next _ _ _ _ _ Hre). apply Hre.
  - apply Hre.
  - intros Hne. split; [|by apply (rs_left _ _ _ _ _ Hre)]. destruct (rs_resumed _ _ _ _ _ Hre Hne) as (y & Hy & Hst & _).
    destruct (rep_task HR _ _ Hy) as (z & Hz & <-). unfold is_runnable. rewrite Hz. by apply bool_decide_eq_true.
  - intros u Hu Hun. by apply (rs_others _ _ _ _ _ Hre).
Qed.

Lemma schedule_correct_witness :
  exists x s', demo_running.(tasks) !! demo_running.(tp) = Some x /\ schedule demo_running = Some (tt, s') /\ sched_ok s' /\ schedule_spec demo_running x s'.
Proof.
  destruct (demo_running.(tasks) !! demo_running.(tp)) as [x|] eqn:Ex; [|vm_compute in Ex; discriminate Ex].
  destruct (schedule_correct demo_running x demo_running_ok Ex) as (s' & H). exists x, s'. split; [reflexivity|exact H].
Defined.

(** C14: round robin.  Whatever the running threads compute, as long as each gives
    up the processor with [thread_yield], the thread at position [k] of the run
    queue runs after [k + 1] turns: nobody starves. *)
Theorem round_robin (s : sched) (k : nat) (t : Z) (rs : list thread_context) :
  sched_ok s -> run_queue s !! k = Some t -> length rs = S k ->
  exists s', turns rs s = Some (tt, s') /\ sched_ok s' /\ s'.(tp) = t /\ is_running s' t = true.
Proof.
  intros [g HI] Hk Hlen. rewrite (run_queue_rep (proj1 HI)) in Hk.
  destruct (wp_run (turns rs) (fun _ s' => sched_ok s' /\ s'.(tp) = t /\ is_running s' t = true) s) as ([] & s' & E & H); [|by exists s'].
  eapply wp_turns_reach; [exact HI|exact Hk|exact Hlen|]. intros s' e' g' HI' Et Hr. split; [by eapply sched_ok_of|].
  destruct (rep_fields _ _ _ (proj1 HI')) as (-> & _). split; [done|]. rewrite <- is_running_erase. by rewrite (rp_core _ _ _ (proj1 HI')).
Qed.

Lemma round_robin_witness :
  exists s', turns [zero_context; set_c_sp 7 zero_context] demo_two_threads = Some (tt, s') /\ sched_ok s' /\ s'.(tp) = 32256 /\ is_running s' 32256 = true.
Proof. apply (round_robin demo_two_threads 1 32256); [exact demo_two_threads_ok|vm_compute; reflexivity|reflexivity]. Defined.

(** C15: a context switch is invisible to the thread.  A running thread yields with
    [r] in its callee-saved registers; the other threads run, compute and yield
    in turn; when the thread runs again it finds the registers it left (with the
    return address inside [schedule]) and the interrupt flag it had. *)
Theorem context_switch_roundtrip (s : sched) (r : thread_context) (rs : list thread_context) :
  sched_ok s -> is_running s s.(tp) = true -> s.(tp) <> s.(boot_idle_thread) -> length rs = Nat.max 1 (length (run_queue s)) ->
  exists s', turns (r :: rs) s = Some (tt, s') /\ s'.(tp) = s.(tp) /\ s'.(regs) = set_c_ra c_schedule_resume r /\ irq s' = irq s.
Proof.
  intros [g HI] Hr Hb Hlen. pose proof (proj1 HI) as HR. rewrite (run_queue_rep HR) in Hlen. destruct (cur_task HI) as (x & Hx & _).
  rewrite <- is_running_erase in Hr. change (tp s) with (tp (erase s)) in Hr. rewrite (is_running_get _ _ _ Hx) in Hr. apply bool_decide_eq_true in Hr.
  destruct (wp_run (turns (r :: rs)) (fun _ s' => s'.(tp) = s.(tp) /\ s'.(regs) = set_c_ra c_schedule_resume r /\ irq s' = irq s) s)
    as ([] & s' & E & H); [|by exists s'].
  eapply wp_rotation; [exact HI|exact Hx|exact Hr|exact Hb|exact Hlen|]. intros s' e' g' HI' E1 E2 E3.
  destruct (rep_fields _ _ _ (proj1 HI')) as (-> & _ & _ & -> & _ & -> & _). by rewrite E1, E2, E3.
Qed.

Lemma context_switch_roundtrip_witness :
  exists s', turns [set_c_sp 42 zero_context; zero_context] demo_running = Some (tt, s') /\ s'.(tp) = 32512 /\
    s'.(regs) = set_c_ra c_schedule_resume (set_c_sp 42 zero_context) /\ irq s' = true.
Proof.
  destruct (context_switch_roundtrip demo_running (set_c_sp 42 zero_context) [zero_context] demo_running_ok) as (s' & E & H1 & H2 & H3);
    [vm_compute; reflexivity|vm_compute; discriminate|vm_compute; reflexivity|].
  exists s'. split; [exact E|]. split; [rewrite H1; vm_compute; reflexivity|]. split; [exact H2|]. rewrite H3. vm_compute. reflexivity.
Defined.

(** C16: the boot thread's wait for its workers ends.  If no thread sleeps and each
    worker exits when it runs, [thread_run_until_idle] first hands the processor
    over; once all of them have exited its next round finds no live worker and
    returns, and then the boot thread is the only thread, its queues are empty
    and every zombie has been reclaimed. *)
Theorem run_until_idle_ends (s : sched) (caller_status : bool) :
  sched_ok s -> s.(tp) = s.(boot_idle_thread) -> no_sleeper s -> run_queue s <> [] ->
  exists s', (r1 ← run_until_idle_round caller_status; exits (length (run_queue s)) ;; r2 ← run_until_idle_round caller_status; mret (r1, r2)) s =
    Some ((false, true), s') /\ sched_ok s' /\ s'.(tp) = s.(boot_idle_thread) /\
    thread_list s' = [s.(boot_idle_thread)] /\ run_queue s' = [] /\ zombie_list s' = [].
Proof.
  intros [g HI] Hb Hn Hr. pose proof (proj1 HI) as HR. rewrite (run_queue_rep HR) in *.
  assert (Hne : no_sleeper (erase s)) by (intros t x Hx; destruct (rep_task HR _ _ Hx) as (y & Hy & <-); exact (Hn t y Hy)).
  match goal with |- exists s', ?m s = _ /\ _ => destruct (wp_run m (fun r s' => r = (false, true) /\ sched_ok s' /\ s'.(tp) = s.(boot_idle_thread) /\
    thread_list s' = [s.(boot_idle_thread)] /\ run_queue s' = [] /\ zombie_list s' = []) s) as (r & s' & E & -> & H); [|by exists s'] end.
  eapply wp_run_until_idle_all; [exact HI|exact Hb|exact Hne|exact Hr|]. intros s' e' g' HI' H1 H2 H3 H4. pose proof (proj1 HI') as HR'.
  rewrite (thread_list_rep HR'), (run_queue_rep HR'), (zombie_list_rep HR'). destruct (rep_fields _ _ _ HR') as (-> & _). split; [done|].
  split; [by eapply sched_ok_of|done].
Qed.

(** No thread of the small system sleeps. *)
Lemma no_sleeper_check s : forallb (fun p => negb (bool_decide (p.2.(t_state) = THREAD_WAITING))) (map_to_list s.(tasks)) = true -> no_sleeper s.
Proof.
  intros H t x Hx E. rewrite forallb_forall in H. specialize (H (t, x)). rewrite <- list_elem_of_In, elem_of_map_to_list in H. specialize (H Hx).
  cbn in H. by rewrite bool_decide_true in H.
Qed.

Lemma run_until_idle_ends_witness :
  exists s', (r1 ← run_until_idle_round true; exits 2 ;; r2 ← run_until_idle_round true; mret (r1, r2)) demo_two_threads = Some ((false, true), s') /\
    sched_ok s' /\ s'.(tp) = 512 /\ thread_list s' = [512] /\ run_queue s' = [] /\ zombie_list s' = [].
Proof.
  apply (run_until_idle_ends demo_two_threads true demo_two_threads_ok); [vm_compute; reflexivity|apply no_sleeper_check; vm_compute; reflexivity|].
  vm_compute. discriminate.
Defined.
