(* ===== verification/WaitQueues.v ===== *)
(** * Correctness of wait queues

    The main theorems about sleeping and waking in [wait.c]. *)

From S2P Require Import Prelude Lists Memory Slab MemoryInit ByteAllocator Task Sched Wait Thread HeapIface HeapLink SchedRep SchedLists WaitLists ThreadInv SchedOps WaitOps ThreadNew ThreadExit ThreadReap ThreadLoops SchedHistory SchedSpec SchedView.

Open Scope Z_scope.

(** ** The small system with a sleeper *)

(** A local variable of the first worker. *)
Definition demo_local : Z := match demo_running.(tasks) !! 32512 with Some x => x.(t_kstack_base) + 64 | None => 0 end.
Definition demo_quiet : sched := after (run_sched_op (op_interrupts false)) demo_running.
Definition demo_entry : sched := after (run_sched_op (op_local_entry demo_local)) demo_quiet.
Definition demo_asleep : sched := after (run_sched_op (op_sleep 1024 demo_local)) demo_quiet.

Lemma own_local_check s en :
  match s.(tasks) !! s.(tp) with Some x => bool_decide (x.(t_kstack_base) <= en < x.(t_kstack_base) + THREAD_STACK_SIZE) | None => true end = true ->
  own_local s en.
Proof. intros H _ x Hx. rewrite Hx in H. by apply bool_decide_eq_true in H. Qed.

Lemma demo_quiet_ok : sched_ok demo_quiet.
Proof. apply op_ok; [exact demo_running_ok|done]. Qed.
Lemma demo_quiet_unregistered : unregistered demo_quiet demo_local.
Proof. intros y Hy. vm_compute in Hy. discriminate Hy. Qed.
Lemma demo_quiet_local : own_local demo_quiet demo_local.
Proof. apply own_local_check. vm_compute. reflexivity. Qed.
Lemma demo_queue s : match s.(queues) !! 1024 with Some _ => true | None => false end = true -> is_queue s.(queues) 1024.
Proof. unfold is_queue. destruct (queues s !! 1024); [by eexists|done]. Qed.
Lemma demo_entry_ok : sched_ok demo_entry.
Proof. apply op_ok; [exact demo_quiet_ok|exact demo_quiet_unregistered]. Qed.
Lemma demo_asleep_ok : sched_ok demo_asleep.
Proof.
  apply op_ok; [exact demo_quiet_ok|]. split; [apply demo_queue; vm_compute; reflexivity|].
  split; [exact demo_quiet_unregistered|exact demo_quiet_local].
Qed.

(** The first worker sleeps on the queue, the second one runs. *)
Example demo_asleep_lists :
  (tp demo_asleep, run_queue demo_asleep, waiting_list demo_asleep 1024) = (32256, [], [demo_local]).
Proof. vm_compute. reflexivity. Qed.

(** ** Reading the state without links *)

Lemma waiter_erase s i : waiter (erase s) i = waiter s i.
Proof. unfold waiter, erase. sched_simpl. rewrite lookup_fmap. by destruct (entries s !! i). Qed.
Lemma is_waiting_erase s t : is_waiting (erase s) t = is_waiting s t.
Proof. unfold is_waiting, erase. sched_simpl. rewrite lookup_fmap. by destruct (tasks s !! t). Qed.
Lemma may_prepare_erase s q en : may_prepare (erase s) q en = may_prepare s q en.
Proof.
  assert (E1 : tasks (erase s) = core_thread <$> tasks s) by reflexivity. assert (E2 : entries (erase s) = core_entry <$> entries s) by reflexivity.
  assert (E3 : tp (erase s) = tp s) by reflexivity. assert (E4 : irq (erase s) = irq s) by reflexivity.
  assert (E5 : bh_running (erase s) = bh_running s) by reflexivity. assert (E6 : boot_idle_thread (erase s) = boot_idle_thread s) by reflexivity.
  unfold may_prepare. rewrite E1, E2, E3, E4, E5, E6. rewrite !lookup_fmap. clear. f_equal; [f_equal|].
  - destruct (tasks s !! tp s) as [x|]; reflexivity.
  - destruct (entries s !! en) as [y|]; reflexivity.
Qed.

Lemma waiters_erase s (L : list Z) : waiter (erase s) <$> L = waiter s <$> L.
Proof. induction L as [|i L IH]; [done|]. rewrite !fmap_cons. by rewrite IH, waiter_erase. Qed.

(** ** Waking *)

(** [wait_queue_wake_all] ends the wait of exactly the threads that sleep on
    the queue.  Each of them becomes runnable once, however often it is
    registered, and joins the end of the run queue in the order of registration
    (the current thread just goes on running); a reschedule is requested when one
    joined; threads that do not wait on the queue keep their state, and the
    registrations stay until their owners withdraw them. *)
Theorem wake_all_correct (s : sched) (q : Z) :
  sched_ok s -> is_queue s.(queues) q ->
  exists s', wait_queue_wake_all q s = Some (tt, s') /\ sched_ok s' /\ s'.(tp) = s.(tp) /\
    (forall u, (erase s').(tasks) !! u = wake_thread s (waiting_list s q) u <$> (erase s).(tasks) !! u) /\
    (exists W, run_queue s' = run_queue s ++ W /\ NoDup (run_queue s') /\ sublist W (waiter s <$> waiting_list s q) /\
       (forall u, u ∈ W <-> is_waiting s u = true /\ u ∈ waiter s <$> waiting_list s q /\ u <> s.(tp)) /\
       (W <> [] -> s'.(need_resched) = 1)) /\
    waiting_list s' q = waiting_list s q.
Proof.
  intros [g HI] Hq. pose proof (proj1 HI) as HR. pose proof (proj2 (rep_is_queue HR q) Hq) as Hqe.
  match goal with |- exists s', ?m s = _ /\ @?P s' => destruct (wp_run m (fun _ s' => P s') s) as ([] & s' & E & H); [|by exists s'] end.
  eapply wp_wake_all; [exact HI|exact Hqe|]. intros s' HR' Hi'. unfold wake_all_state in HR', Hi'.
  pose proof (woke_all_foldl (erase s) g (l_queue g q)) as Hw. destruct (foldl wake_entry (erase s, g) (l_queue g q)) as [e' g']. cbn [fst snd] in *.
  destruct Hw as [W1 (W & W2 & W3 & W4) W5 W6 W7]. rewrite (waiting_list_rep HR q Hqe).
  split; [by eapply (sched_ok_of s' e' g')|]. destruct (rep_fields _ _ _ HR') as (F1 & _ & _ & _ & _ & _ & F7).
  assert (Etp : tp s' = tp s) by (rewrite F1, W5; done). split; [done|].
  split; [rewrite (rp_core _ _ _ HR'); intros u; rewrite W1; destruct (tasks (erase s) !! u); [cbn; f_equal|done];
    unfold wake_thread; by rewrite waiters_erase|].
  split; [|rewrite (waiting_list_rep HR' q) by (rewrite W5; exact Hqe); by rewrite W7].
  exists W. rewrite (run_queue_rep HR), (run_queue_rep HR'). rewrite waiters_erase in *. split; [done|]. split; [apply HR'|]. split; [done|]. split.
  - intros u. rewrite W4, is_waiting_erase. done.
  - intros Hne. rewrite F7. apply W6. destruct W as [|u W]; [done|]. exists u. apply W4. set_solver.
Qed.

Lemma wake_all_correct_witness :
  exists s' W, wait_queue_wake_all 1024 demo_asleep = Some (tt, s') /\ sched_ok s' /\ run_queue s' = [] ++ W /\ 32512 ∈ W /\ s'.(need_resched) = 1.
Proof.
  destruct (wake_all_correct demo_asleep 1024 demo_asleep_ok) as (s' & E & Hok & _ & _ & (W & HW1 & _ & _ & HW3 & HW4) & _);
    [apply demo_queue; vm_compute; reflexivity|].
  exists s', W. assert (Hin : 32512 ∈ W).
  { apply HW3. split; [vm_compute; reflexivity|]. split; [|vm_compute; discriminate].
    assert (waiter demo_asleep <$> waiting_list demo_asleep 1024 = [32512]) as -> by (vm_compute; reflexivity). apply list_elem_of_singleton. reflexivity. }
  assert (Er : run_queue demo_asleep = []) by (vm_compute; reflexivity). rewrite Er in HW1.
  split; [exact E|]. split; [exact Hok|]. split; [exact HW1|]. split; [exact Hin|]. apply HW4. intros ->. by apply not_elem_of_nil in Hin.
Defined.

(** What waking one thread means: nothing if nobody sleeps on the queue, and
    otherwise the sleeper that registered first goes on. *)
Definition wake_one_spec (s : sched) (q : Z) (s' : sched) : Prop :=
  match List.find (fun i => is_waiting s (waiter s i)) (waiting_list s q) with
  | None => erase s' = erase s /\ run_queue s' = run_queue s
  | Some i =>
      let w := waiter s i in
      (erase s').(tasks) = alter (set_t_state (if w =? s.(tp) then THREAD_RUNNING else THREAD_RUNNABLE)) w (erase s).(tasks) /\
      run_queue s' = run_queue s ++ (if w =? s.(tp) then [] else [w]) /\ (w <> s.(tp) -> s'.(need_resched) = 1)
  end.

Lemma find_ext {A} (f f' : A -> bool) L : (forall a, f a = f' a) -> List.find f L = List.find f' L.
Proof. intros E. induction L as [|a L IH]; [done|]. cbn. by rewrite E, IH. Qed.

(** [wait_queue_wake_one] wakes the thread that registered first among those
    that still sleep on the queue, and no other. *)
Theorem wake_one_correct (s : sched) (q : Z) :
  sched_ok s -> is_queue s.(queues) q -> exists s', wait_queue_wake_one q s = Some (tt, s') /\ sched_ok s' /\ wake_one_spec s q s'.
Proof.
  intros [g HI] Hq. pose proof (proj1 HI) as HR. pose proof (proj2 (rep_is_queue HR q) Hq) as Hqe.
  destruct (wp_run (wait_queue_wake_one q) (fun _ s' => sched_ok s' /\ wake_one_spec s q s') s) as ([] & s' & E & H); [|by exists s'].
  eapply wp_wake_one; [exact HI|exact Hqe|]. intros s' HR'. pose proof (inv_wake_one s (erase s) g q HI Hqe) as Hi'.
  split; [exact (sched_ok_of _ _ _ (conj HR' Hi'))|]. unfold wake_one_spec, wake_one_state in *. rewrite (waiting_list_rep HR q Hqe).
  rewrite (find_ext _ (fun en => is_waiting (erase s) (waiter (erase s) en))) by (intros i; by rewrite waiter_erase, is_waiting_erase).
  rewrite (run_queue_rep HR), (run_queue_rep HR'). destruct (List.find _ (l_queue g q)) as [i|]; [|by rewrite (rp_core _ _ _ HR')].
  rewrite (rp_core _ _ _ HR'). destruct (rep_fields _ _ _ HR') as (_ & _ & _ & _ & _ & _ & F7). rewrite F7.
  unfold woken. rewrite waiter_erase. change (tp (erase s)) with (tp s). destruct (Z.eqb_spec (waiter s i) (tp s)); cbn [fst snd]; [|done].
  split; [done|]. by rewrite app_nil_r.
Qed.

Lemma wake_one_correct_witness :
  exists s', wait_queue_wake_one 1024 demo_asleep = Some (tt, s') /\ sched_ok s' /\ wake_one_spec demo_asleep 1024 s'.
Proof. apply (wake_one_correct demo_asleep 1024 demo_asleep_ok). apply demo_queue. vm_compute. reflexivity. Defined.

(** C17: no wake-up is lost.  A thread registers on a queue and then waits; if the
    queue is woken in between, [wait_queue_wait_locked] returns at once with the
    thread still running, and if it is not, the thread gives up the processor. *)
Theorem no_lost_wakeup (s : sched) (q en : Z) :
  sched_ok s -> may_prepare s q en = true -> is_queue s.(queues) q -> own_local s en ->
  exists s1 s2 s3, wait_queue_prepare_locked q en s = Some (0, s1) /\
    wait_queue_wake_all q s1 = Some (tt, s2) /\ wait_queue_wait_locked s2 = Some (Some 0, s2) /\ s2.(tp) = s.(tp) /\ is_running s2 s.(tp) = true /\
    wait_queue_wait_locked s1 = Some (None, s3) /\ sched_ok s3 /\ s3.(tp) <> s.(tp).
Proof.
  intros [g HI] Hm Hq Ho. pose proof (proj1 HI) as HR. pose proof (proj2 (rep_is_queue HR q) Hq) as Hqe. rewrite <- may_prepare_erase in Hm.
  set (e := erase s) in *. destruct (cur_task HI) as (x & Hx & Hok & Hp0).
  destruct (may_prepare_facts _ _ _ Hm) as (Hq0 & He0 & Hirq & Hb & (x' & Hx' & _) & y & Hy & _).
  assert (Hbh : bh_running e = 0).
  { unfold may_prepare in Hm. rewrite !andb_true_iff in Hm. destruct Hm as ((((_ & Hbh) & _) & _) & _). by apply Z.eqb_eq. }
  set (e1 := prepared q en e). set (g1 := enlisted q en (tp e) g).
  destruct (wp_run (wait_queue_prepare_locked q en) (fun r s1 => r = 0 /\ sched_inv s1 e1 g1) s) as (r & s1 & E1 & -> & HI1).
  { eapply wp_prepare; [exact HI|done|intros _; by eexists|congruence|]. intros _ s1 H1. split; [done|]. split; [done|].
    eapply inv_prepare; [exact HI|done|done|exact Hx|]. eapply own_local_rep; [exact HR|exact Ho|exact Hx|exact Hb]. }
  assert (Hx1 : tasks e1 !! tp e1 = Some (set_t_state THREAD_WAITING x)) by (by apply upd_task_self).
  assert (Hl1 : l_task g1 (tp e1) = en :: l_task g (tp e)) by apply set_list_eq.
  assert (Hlq : l_queue g1 q = l_queue g q ++ [en]) by apply set_list_eq.
  destruct (wp_run wait_queue_wait_locked (fun r s3 => r = None /\ sched_ok s3 /\ s3.(tp) <> s.(tp)) s1) as (r & s3 & E3 & -> & H3).
  { eapply wp_wait_locked; [exact HI1|exact Hx1|..].
    - intros [E|[E|[E|[E|E]]]]; exfalso; [change (irq e = true) in E; congruence|done|done|by rewrite Hl1 in E|done].
    - intros _ _ E. done.
    - intros _ _ _ s3 H3. split; [done|]. pose proof (inv_schedule s1 e1 g1 HI1) as Hi3. split; [exact (sched_ok_of _ _ _ (conj H3 Hi3))|].
      destruct (rep_fields _ _ _ H3) as (-> & _). destruct (tp_schedule s1 e1 g1 HI1 Hb) as [-> Hne]. exact Hne. }
  destruct (wp_run (wait_queue_wake_all q) (fun _ s2 => exists e2 g2, sched_inv s2 e2 g2 /\ woke_all e1 g1 (l_queue g1 q) e2 g2) s1) as ([] & s2 & E2 & e2 & g2 & HI2 & Hw).
  { eapply wp_wake_all; [exact HI1|exact Hqe|]. intros s2 H2 Hi2. unfold wake_all_state in H2, Hi2. pose proof (woke_all_foldl e1 g1 (l_queue g1 q)) as Hw.
    destruct (foldl wake_entry (e1, g1) (l_queue g1 q)) as [e2 g2]. by exists e2, g2. }
  destruct Hw as [W1 _ W5 _ W7]. assert (Etp : tp e2 = tp e) by (rewrite W5; done).
  assert (Hx2 : tasks e2 !! tp e2 = Some (set_t_state THREAD_RUNNING x)).
  { rewrite Etp, W1. change (tp e) with (tp e1). rewrite Hx1.
    change (Some (wake_thread e1 (l_queue g1 q) (tp e1) (set_t_state THREAD_WAITING x)) = Some (set_t_state THREAD_RUNNING x)). f_equal. unfold wake_thread.
    rewrite (bool_decide_true (tp e1 ∈ _)); [by rewrite Z.eqb_refl|]. rewrite Hlq, fmap_app, elem_of_app. right.
    assert (waiter e1 en = tp e1) as <-; [|set_solver]. unfold waiter, e1, prepared, upd_entry. sched_simpl. by rewrite lookup_alter_eq, Hy. }
  exists s1, s2, s3. split; [done|]. split; [done|].
  assert (Hwait : wp wait_queue_wait_locked (fun r s' => r = Some 0 /\ s' = s2) s2).
  { eapply wp_wait_locked; [exact HI2|exact Hx2|..].
    - intros [E|[E|[E|[E|E]]]]; exfalso; [rewrite W5 in E; change (irq e = true) in E; congruence|rewrite W5 in E; done| | |done].
      + rewrite W5 in E. done.
      + rewrite Etp, W7 in E. change (l_task g1 (tp e1) = []) in E. by rewrite Hl1 in E.
    - intros _ _ _. done.
    - intros _ _ E. done. }
  destruct (wp_run _ _ _ Hwait) as (r & s' & E & -> & ->). split; [done|]. destruct (rep_fields _ _ _ (proj1 HI2)) as (-> & _). split; [done|].
  split; [|split; [done|exact H3]]. unfold is_running. destruct (rep_task (proj1 HI2) _ _ Hx2) as (z & Hz & Ez). rewrite Etp in Hz.
  change (tp e) with (tp s) in Hz. rewrite Hz. apply bool_decide_eq_true. transitivity (t_state (core_thread z)); [done|by rewrite Ez].
Qed.

Lemma no_lost_wakeup_witness :
  exists s1 s2 s3, wait_queue_prepare_locked 1024 demo_local demo_entry = Some (0, s1) /\
    wait_queue_wake_all 1024 s1 = Some (tt, s2) /\ wait_queue_wait_locked s2 = Some (Some 0, s2) /\ s2.(tp) = demo_entry.(tp) /\
    is_running s2 demo_entry.(tp) = true /\ wait_queue_wait_locked s1 = Some (None, s3) /\ sched_ok s3 /\ s3.(tp) <> demo_entry.(tp).
Proof.
  apply (no_lost_wakeup demo_entry 1024 demo_local demo_entry_ok); [vm_compute; reflexivity|apply demo_queue; vm_compute; reflexivity|].
  apply own_local_check. vm_compute. reflexivity.
Defined.
