(* ===== verification/Threads.v ===== *)
(** * Correctness of thread creation, stopping and reclamation

    The main theorems about [thread.c]. *)

From S2P Require Import Prelude Lists Memory Slab MemoryInit ByteAllocator Task Sched Wait Thread HeapIface HeapLink SchedRep SchedLists WaitLists ThreadInv SchedOps WaitOps ThreadNew ThreadExit ThreadReap ThreadLoops SchedHistory SchedSpec SchedView.

Open Scope Z_scope.

(** ** Creation *)

(** A failed creation: the threads, their lists and the allocated memory are as
    before. *)
Definition spawn_failed (s s' : sched) : Prop :=
  (erase s').(tasks) = (erase s).(tasks) /\ run_queue s' = run_queue s /\ thread_list s' = thread_list s /\
  (forall a z, allocated s'.(heap) a z <-> allocated s.(heap) a z).

(** A new thread at [a] with the id [r], queued for its first turn; [P] says what
    is in its control block.  Its control block and kernel stack are blocks that
    overlap nothing that was allocated. *)
Definition spawned (s : sched) (r : Z) (s' : sched) (P : Z -> thread -> Prop) : Prop :=
  r = s.(next_tid) /\ 1 <= r <= INT32_MAX /\ (forall t x, s.(tasks) !! t = Some x -> x.(t_tid) <> r) /\
  exists a x, s.(tasks) !! a = None /\ (erase s').(tasks) = <[a := x]> (erase s).(tasks) /\ P a x /\
    x.(t_tid) = r /\ x.(t_state) = THREAD_RUNNABLE /\ run_queue s' = run_queue s ++ [a] /\ thread_list s' = a :: thread_list s /\
    (forall b y, allocated s.(heap) b y -> allocated s'.(heap) b y /\ ~ (b <= a < b + y) /\ ~ (b <= x.(t_kstack_base) < b + y)).

Lemma failed_spec s g s' e' g' : sched_inv s (erase s) g -> rep s' e' g' -> ThreadNew.failed (hok := slab_ok) (owned := allocated) (static := in_reserved_page) (erase s) g e' g' -> spawn_failed s s'.
Proof.
  intros HI HR' ((h & n & -> & Hs) & _ & E1 & E2 & _). pose proof (proj1 HI) as HR. unfold spawn_failed.
  rewrite (run_queue_rep HR), (run_queue_rep HR'), (thread_list_rep HR), (thread_list_rep HR'), (rp_core _ _ _ HR'). split_and!; try done.
  intros a z. destruct (rep_fields _ _ _ HR') as (_ & _ & -> & _). apply (sr_owned _ _ Hs).
Qed.

Lemma grown_fresh h h' a z : ThreadNew.grown (hok := slab_ok) (owned := allocated) (static := in_reserved_page) h h' a z ->
  forall b y, allocated h b y -> allocated h' b y /\ ~ (b <= a < b + y).
Proof.
  intros Hg b y Hb. split; [apply Hg; by left|]. intros Hin. pose proof (grown_pos _ _ _ _ Hg) as (_ & Hz & _).
  apply (gr_fresh _ _ _ _ Hg b y a Hb Hin). lia.
Qed.

Lemma fresh_id s g : sched_inv s (erase s) g -> s.(next_tid) <= INT32_MAX ->
  1 <= s.(next_tid) <= INT32_MAX /\ forall t x, s.(tasks) !! t = Some x -> x.(t_tid) <> s.(next_tid).
Proof.
  intros HI Hmax. pose proof (iv_ids _ _ (proj2 HI)) as [I1 I2 I3 _]. split; [exact (conj (proj1 I1) Hmax)|]. intros t x Hx.
  apply (task_rep (proj1 HI)) in Hx. change (t_tid x) with (t_tid (core_thread x)). destruct (decide (t = boot_idle_thread (erase s))) as [->|Hb].
  - rewrite (I2 _ Hx). intros E. change (next_tid (erase s)) with (next_tid s) in I1. lia.
  - specialize (I3 _ _ Hx Hb). change (next_tid (erase s)) with (next_tid s) in I3. lia.
Qed.

Lemma not_task s g a : sched_inv s (erase s) g -> (erase s).(tasks) !! a = None -> s.(tasks) !! a = None.
Proof. intros HI Ha. destruct (tasks s !! a) as [x|] eqn:E; [|done]. apply (task_rep (proj1 HI)) in E. congruence. Qed.

(** The common end of the creation proofs. *)
Lemma spawned_intro s g s' e' a x h0 h base P :
  sched_inv s (erase s) g -> rep s' e' (publish_lists a (no_waits a g)) -> s.(next_tid) <= INT32_MAX ->
  (forall b y, allocated s.(heap) b y -> allocated h0 b y) ->
  new_memory (hok := slab_ok) (owned := allocated) (static := in_reserved_page) (set_heap h0 (erase s)) h a base ->
  (erase s).(tasks) !! a = None -> e'.(tasks) = <[a := set_t_state THREAD_RUNNABLE x]> (erase s).(tasks) -> e'.(heap) = h ->
  x.(t_tid) = s.(next_tid) -> x.(t_kstack_base) = base -> P a (set_t_state THREAD_RUNNABLE x) -> spawned s s.(next_tid) s' P.
Proof.
  intros HI HR' Hmax Hsub (h1 & za & zb & Hg1 & Hg2 & _ & _) Hna Et Eh Etid Ebase HP. destruct (fresh_id s g HI Hmax) as [H1 H2].
  split; [done|]. split; [done|]. split; [done|]. exists a, (set_t_state THREAD_RUNNABLE x). pose proof (proj1 HI) as HR.
  rewrite (run_queue_rep HR), (run_queue_rep HR'), (thread_list_rep HR), (thread_list_rep HR'), (rp_core _ _ _ HR').
  split; [by eapply not_task|]. split_and!; try done. intros b y Hb. destruct (rep_fields _ _ _ HR') as (_ & _ & -> & _). rewrite Eh.
  apply Hsub in Hb. destruct (grown_fresh _ _ _ _ Hg1 b y Hb) as [Hb1 N1]. destruct (grown_fresh _ _ _ _ Hg2 b y Hb1) as [Hb2 N2].
  split; [done|]. split; [done|]. change (t_kstack_base (set_t_state THREAD_RUNNABLE x)) with (t_kstack_base x). by rewrite Ebase.
Qed.

Lemma upd_task_insert a f x e ts : e.(tasks) = <[a := x]> ts -> (upd_task a f e).(tasks) = <[a := f x]> ts.
Proof. intros E. unfold upd_task. sched_simpl. rewrite E. apply map_eq. intros j. rewrite lookup_alter, !lookup_insert. by repeat case_decide. Qed.

Lemma published_tasks a x e ts : e.(tasks) = <[a := x]> ts -> (published a e).(tasks) = <[a := set_t_state THREAD_RUNNABLE x]> ts.
Proof. apply upd_task_insert. Qed.

Lemma with_tc_tasks q c e : (with_tc q c e).(tasks) = e.(tasks).
Proof. reflexivity. Qed.

Lemma sibling_tasks e p pc a base entry arg return_pc u h :
  (sibling e p pc a base entry arg return_pc u h).(tasks) =
    <[a := set_t_tgid p.(t_tgid) (user_thread e.(next_tid) base entry u (u + USER_STACK_SIZE))]> e.(tasks).
Proof. unfold sibling. cbv zeta. rewrite with_tc_tasks. apply upd_task_insert. apply user_created_tasks. Qed.

Lemma published_sibling_tcs e p pc a base entry arg return_pc u h :
  (published a (sibling e p pc a base entry arg return_pc u h)).(tcs) !! (base + THREAD_STACK_SIZE - TRAP_CONTEXT_ALLOC_SIZE) =
    Some (sibling_tc pc a entry arg return_pc (u + USER_STACK_SIZE)).
Proof. unfold published, upd_task, sibling, with_tc. cbv zeta. apply lookup_insert_eq. Qed.

(** [thread_create_kernel] either fails, with nothing changed but perhaps a
    used-up id, or creates one thread: with an id between 1 and the largest
    [int32_t] that no thread has, at the end of the run queue, set up to start in
    [thread_bootstrap] with the given entry function and argument on a fresh
    stack that overlaps no allocated memory.  A null entry function is refused. *)
Theorem create_kernel_correct (s : sched) (entry : code) (arg : Z) :
  sched_ok s -> exists r s', thread_create_kernel entry arg s = Some (r, s') /\ sched_ok s' /\
    ((r = -1 /\ spawn_failed s s') \/
     (entry <> c_null /\ spawned s r s' (fun a x => x.(t_kind) = THREAD_KERNEL /\ x.(t_entry) = entry /\ x.(t_arg) = arg /\
        x.(t_context).(c_ra) = c_thread_bootstrap /\ x.(t_context).(c_sp) = x.(t_kstack_base) + THREAD_STACK_SIZE))).
Proof.
  intros [g HI]. apply wp_run. eapply wp_create_kernel; [exact HI|..].
  - intros s' e' g' H' Hf. split; [exact (sched_ok_of _ _ _ (conj H' (proj1 (proj2 Hf))))|]. left. split; [done|by eapply failed_spec].
  - intros s' a base h Hen x Hm Hmax H' Hi'. split; [exact (sched_ok_of _ _ _ (conj H' Hi'))|]. right. split; [done|].
    assert (Hna : tasks (erase s) !! a = None) by (destruct Hm as (h1 & za & zb & Hg1 & _); eapply grown_not_task; [apply HI|exact Hg1]).
    eapply (spawned_intro s g s' _ a x (heap s) h base); [exact HI|exact H'|exact Hmax|done|exact Hm|exact Hna| |done|done|done|done].
    by apply published_tasks.
Qed.

Lemma create_kernel_correct_witness :
  exists r s', thread_create_kernel (c_client 3) 7 demo_started = Some (r, s') /\ sched_ok s' /\
    ((r = -1 /\ spawn_failed demo_started s') \/
     (c_client 3 <> c_null /\ spawned demo_started r s' (fun a x => x.(t_kind) = THREAD_KERNEL /\ x.(t_entry) = c_client 3 /\ x.(t_arg) = 7 /\
        x.(t_context).(c_ra) = c_thread_bootstrap /\ x.(t_context).(c_sp) = x.(t_kstack_base) + THREAD_STACK_SIZE))).
Proof. exact (create_kernel_correct demo_started (c_client 3) 7 demo_started_ok). Defined.

(** C18: [thread_create_user] gives the calling user thread a sibling.  It fails,
    changing nothing but perhaps a used-up id (a stack that was already allocated
    is freed again), or the new thread belongs to the caller's process, has a user
    stack of its own, and its trap context enters user mode at [entry] with the
    argument in [a0], the return address in [ra], the caller's [gp] and the top
    of its stack in [sp]. *)
Theorem create_user_correct (s : sched) (p : thread) (entry arg return_pc : Z) :
  sched_ok s -> s.(tasks) !! s.(tp) = Some p ->
  exists r s', thread_create_user entry arg return_pc s = Some (r, s') /\ sched_ok s' /\
    ((r = -1 /\ spawn_failed s s') \/
     (may_create_user s p entry return_pc = true /\ exists pc, s.(tcs) !! p.(t_tc) = Some pc /\
      spawned s r s' (fun a x => x.(t_kind) = THREAD_USER /\ x.(t_tgid) = p.(t_tgid) /\ x.(t_entry) = c_user_task_entry /\
        x.(t_user_stack_top) = x.(t_user_stack_base) + USER_STACK_SIZE /\ (forall y, ~ allocated s.(heap) x.(t_user_stack_base) y) /\
        s'.(tcs) !! x.(t_tc) = Some (sibling_tc pc a entry arg return_pc x.(t_user_stack_top))))).
Proof.
  intros [g HI] Hp. pose proof (task_rep (proj1 HI) _ _ Hp) as Hpe. apply wp_run.
  eapply (wp_create_user s (erase s) g (core_thread p)); [exact HI|exact Hpe|..].
  - intros s' e' g' H' Hf _. split; [exact (sched_ok_of _ _ _ (conj H' (proj1 (proj2 Hf))))|]. left. split; [done|by eapply failed_spec].
  - intros s' a base u zu h0 h pc Hmay Hpc Hg Hzu e0 Hm Hmax H' Hi'. split; [exact (sched_ok_of _ _ _ (conj H' Hi'))|]. right.
    split; [exact Hmay|]. exists pc. split; [exact Hpc|]. pose proof (iv_mem _ _ (proj2 HI)) as Hmem. pose proof (grown_pos _ _ _ _ Hg) as (_ & Hz0 & _).
    assert (Hna : tasks (erase s) !! a = None).
    { destruct Hm as (h1 & za & zb & Hg1 & _). eapply (grown_not_task e0); [|exact Hg1]. by eapply inv_grown; [apply HI|exact Hg]. }
    set (x := set_t_tgid (t_tgid p) (user_thread (next_tid s) base entry u (u + USER_STACK_SIZE))).
    eapply (spawned_intro s g s' _ a x h0 h base); [exact HI|exact H'|exact Hmax|intros b y Hb; by apply (grown_fresh _ _ _ _ Hg)|exact Hm|exact Hna| |done|done|done|].
    + apply published_tasks. exact (sibling_tasks e0 (core_thread p) pc a base entry arg return_pc u h).
    + split_and!; try reflexivity.
      * intros y. eapply (grown_not_owned _ _ _ _ (mi_heap _ Hmem) Hg Hz0).
      * assert (Etc : tcs s' = tcs (erase s')) by reflexivity. rewrite Etc, (rp_core _ _ _ H'). apply published_sibling_tcs.
Qed.

Lemma create_user_correct_witness :
  exists p r s', demo_running.(tasks) !! demo_running.(tp) = Some p /\ thread_create_user 0 1 2 demo_running = Some (r, s') /\ sched_ok s'.
Proof.
  destruct (demo_running.(tasks) !! demo_running.(tp)) as [p|] eqn:Ep; [|vm_compute in Ep; discriminate Ep].
  destruct (create_user_correct demo_running p 0 1 2 demo_running_ok Ep) as (r & s' & E & Hok & _). exists p, r, s'.
  split; [reflexivity|]. split; [exact E|exact Hok].
Defined.

(** thread ids stay in range and never collide.  The ids in use are distinct,
    0 for the boot thread and below the counter for the others; the counter never
    leaves [1, 2^31], so neither its [uint32_t] increment nor the conversion to
    [int32_t] ever wraps, and once the ids are used up [thread_next_tid] reports
    -1 for ever. *)
Theorem thread_ids_bounded (s : sched) :
  sched_ok s ->
  1 <= s.(next_tid) <= 2 ^ 31 /\
  (forall t x, s.(tasks) !! t = Some x -> 0 <= x.(t_tid) < s.(next_tid)) /\
  (forall t x t' x', s.(tasks) !! t = Some x -> s.(tasks) !! t' = Some x' -> x.(t_tid) = x'.(t_tid) -> t = t') /\
  exists r s', thread_next_tid s = Some (r, s') /\ sched_ok s' /\
    ((s.(next_tid) <= INT32_MAX /\ r = s.(next_tid) /\ s'.(next_tid) = s.(next_tid) + 1) \/
     (s.(next_tid) = 2 ^ 31 /\ r = -1 /\ s'.(next_tid) = s.(next_tid))).
Proof.
  intros [g HI]. pose proof (proj1 HI) as HR. pose proof (iv_ids _ _ (proj2 HI)) as Hids. pose proof Hids as [I1 I2 I3 I4].
  change (next_tid (erase s)) with (next_tid s) in *. split; [done|]. split; [|split].
  - intros t x Hx. apply (task_rep HR) in Hx. change (t_tid x) with (t_tid (core_thread x)).
    destruct (decide (t = boot_idle_thread (erase s))) as [->|Hb]; [rewrite (I2 _ Hx); lia|]. specialize (I3 _ _ Hx Hb). lia.
  - intros t x t' x' Hx Hx' E. apply (task_rep HR) in Hx, Hx'. by apply (I4 _ _ _ _ Hx Hx').
  - apply wp_run. eapply wp_next_tid; [exact HR|exact Hids|..]; change (next_tid (erase s)) with (next_tid s); intros Hmax s' H';
      unfold INT32_MAX in *; destruct (rep_fields _ _ _ H') as (_ & _ & _ & _ & E & _).
    + split; [exact (sched_ok_of _ _ _ (conj H' (proj2 HI)))|]. right. split; [lia|]. by rewrite E.
    + assert (Hi' : inv (set_next_tid (next_tid s + 1) (erase s)) g).
      { pose proof (inv_heap_tid (erase s) g (heap s) (next_tid s + 1) (proj2 HI)) as Hi.
        apply Hi; [constructor; [apply HI|done..]|]. change (next_tid (erase s)) with (next_tid s). lia. }
      split; [exact (sched_ok_of _ _ _ (conj H' Hi'))|]. left. split; [done|]. split; [done|]. by rewrite E.
Qed.

Lemma thread_ids_bounded_witness :
  1 <= demo_two_threads.(next_tid) <= 2 ^ 31 /\
  exists r s', thread_next_tid demo_two_threads = Some (r, s') /\ sched_ok s'.
Proof.
  destruct (thread_ids_bounded demo_two_threads demo_two_threads_ok) as (H1 & _ & _ & r & s' & E & Hok & _).
  split; [exact H1|]. exists r, s'. split; [exact E|exact Hok].
Defined.

(** ** Stopping *)

Lemma is_member_erase s tgid t : is_member (erase s) tgid t = is_member s tgid t.
Proof. unfold is_member, erase. sched_simpl. rewrite lookup_fmap. by destruct (tasks s !! t). Qed.

Lemma members_erase s tgid L t : members (erase s) tgid L t = members s tgid L t.
Proof. unfold members. by rewrite is_member_erase. Qed.

Lemma existsb_ext {A} (f f' : A -> bool) L : (forall a, f a = f' a) -> existsb f L = existsb f' L.
Proof. intros E. induction L as [|a L IH]; [done|]. cbn. by rewrite E, IH. Qed.

(** C19: [thread_stop_process] stops a process and nothing else.  Every thread of
    the process that still lives becomes a zombie with the given status, leaves
    the run queue and loses its wait registrations (whether it runs, is queued
    or sleeps); all other threads, the heap and the current thread stay; the
    result is 0 exactly when the process has a thread. *)
Theorem stop_process_exact (s : sched) (tgid exit_status : Z) :
  sched_ok s ->
  exists s', thread_stop_process tgid exit_status s = Some (if existsb (is_member s tgid) (thread_list s) then 0 else -1, s') /\ sched_ok s' /\
    (forall u, (erase s').(tasks) !! u = (if members s tgid (thread_list s) u then end_thread exit_status else id) <$> (erase s).(tasks) !! u) /\
    run_queue s' = filter (fun t => members s tgid (thread_list s) t = false) (run_queue s) /\
    thread_list s' = thread_list s /\ s'.(heap) = s.(heap) /\ s'.(tp) = s.(tp).
Proof.
  intros [g HI]. pose proof (proj1 HI) as HR.
  match goal with |- exists s', ?m s = Some (?r, s') /\ @?P s' => destruct (wp_run m (fun v s' => v = r /\ P s') s) as (v & s' & E & -> & H); [|by exists s'] end.
  eapply wp_stop_process; [exact HI|]. intros s' e' g' HI' He. pose proof (proj1 HI') as HR'. rewrite (thread_list_rep HR).
  split; [by rewrite (existsb_ext _ (is_member s tgid)) by (intros t; apply is_member_erase)|]. split; [by eapply sched_ok_of|].
  apply (ended_skip _ (members s tgid (l_all g))) in He; [|intros u; by rewrite members_erase]. destruct He as [E1 E2 E3 E4 _].
  destruct (rep_fields _ _ _ HR') as (F1 & _ & F3 & _). rewrite (rp_core _ _ _ HR'), (run_queue_rep HR), (run_queue_rep HR'), (thread_list_rep HR'), F1, F3.
  split; [exact E1|]. split; [exact E4|]. split; [exact E3|]. by rewrite E2.
Qed.

Lemma stop_process_exact_witness :
  exists s', thread_stop_process 1 9 demo_running = Some (if existsb (is_member demo_running 1) (thread_list demo_running) then 0 else -1, s') /\
    sched_ok s' /\ thread_list s' = thread_list demo_running.
Proof.
  destruct (stop_process_exact demo_running 1 9 demo_running_ok) as (s' & E & Hok & _ & _ & Hl & _). exists s'. split; [exact E|]. split; [exact Hok|exact Hl].
Defined.

(** ** Reclamation *)

Lemma thread_blocks_erase s t : thread_blocks (erase s) t = thread_blocks s t.
Proof.
  unfold thread_blocks. assert (E : tasks (erase s) = core_thread <$> tasks s) by reflexivity. rewrite E, lookup_fmap.
  by destruct (tasks s !! t) as [x|].
Qed.

Lemma blocks_erase s (zs : list Z) : zs ≫= thread_blocks (erase s) = zs ≫= thread_blocks s.
Proof. induction zs as [|z zs IH]; [done|]. rewrite !bind_cons. by rewrite IH, thread_blocks_erase. Qed.

(** C20: [thread_reap_zombies] gives back exactly the memory of the dead.  It
    takes the zombies off the list up to the current thread (a thread never frees
    the stack it runs on), removes each from the list of all threads and frees
    its user stack, kernel stack and control block; no other block is freed, no
    other thread and no registration of a living thread is touched.  The loop
    ends. *)
Theorem reap_exact (s : sched) :
  sched_ok s ->
  let zs := zombies_before s.(tp) (zombie_list s) in
  exists s', thread_reap_zombies s = Some (tt, s') /\ sched_ok s' /\
    zombie_list s = zs ++ zombie_list s' /\ (zombie_list s' = [] \/ List.hd 0 (zombie_list s') = s.(tp)) /\
    (forall u, (erase s').(tasks) !! u = if decide (u ∈ zs) then None else (erase s).(tasks) !! u) /\
    (forall b y, allocated s'.(heap) b y <-> allocated s.(heap) b y /\ b ∉ zs ≫= thread_blocks s) /\
    thread_list s' = filter (fun t => t ∉ zs) (thread_list s) /\ run_queue s' = run_queue s /\ s'.(tp) = s.(tp) /\
    (forall i y, (erase s).(entries) !! i = Some y -> y.(e_task) <> 0 -> (erase s').(entries) !! i = Some y).
Proof.
  intros [g HI] zs. pose proof (proj1 HI) as HR.
  match goal with |- exists s', ?m s = _ /\ @?P s' => destruct (wp_run m (fun _ s' => P s') s) as ([] & s' & E & H); [|by exists s'] end.
  eapply wp_reap_zombies; [exact HI|]. intros s' e' g' HI' Hre. pose proof (proj1 HI') as HR'. unfold zs. clear zs.
  rewrite (zombie_list_rep HR), (zombie_list_rep HR'), (thread_list_rep HR), (thread_list_rep HR'), (run_queue_rep HR), (run_queue_rep HR'), (rp_core _ _ _ HR').
  destruct (rep_fields _ _ _ HR') as (F1 & _ & F3 & _). rewrite F1, F3. change (tp (erase s)) with (tp s) in Hre.
  destruct Hre as [R1 R2 R3 R4 R5 R6 (R7 & _)]. split; [by eapply sched_ok_of|]. split; [done|].
  split; [|split; [done|split; [|split; [done|split; [done|split; [by rewrite R4|done]]]]]].
  - destruct (zombies_before_split (tp s) (l_zombies g)) as (R & ER & HRt). rewrite ER in R5 at 1. apply app_inv_head in R5. rewrite <- R5.
    destruct HRt as [->|(R' & ->)]; [by left|by right].
  - intros b y. rewrite (rl_owned _ _ _ R3), blocks_erase. done.
Qed.

Definition demo_exited : sched := after (run_sched_op op_exit) demo_running.
Lemma demo_exited_ok : sched_ok demo_exited.
Proof. apply op_ok; [exact demo_running_ok|]. vm_compute. discriminate. Qed.

(** The first worker has exited and is reclaimed by the second. *)
Lemma reap_exact_witness :
  exists s', thread_reap_zombies demo_exited = Some (tt, s') /\ sched_ok s' /\ zombie_list demo_exited = [32512] /\
    [32512] = zombies_before 32256 [32512] ++ zombie_list s' /\ (erase s').(tasks) !! 32512 = None.
Proof.
  pose proof (reap_exact demo_exited demo_exited_ok) as Hr. cbv zeta in Hr.
  assert (Ez : zombie_list demo_exited = [32512]) by (vm_compute; reflexivity). assert (Et : tp demo_exited = 32256) by (vm_compute; reflexivity).
  rewrite Ez, Et in Hr. destruct Hr as (s' & E & Hok & Hz & _ & Ht & _). exists s'. split; [exact E|]. split; [exact Hok|]. split; [exact Ez|].
  split; [exact Hz|]. rewrite (Ht 32512). destruct (decide (32512 ∈ zombies_before 32256 [32512])) as [_|Hn]; [reflexivity|].
  exfalso. apply Hn. apply list_elem_of_singleton. reflexivity.
Defined.

(** ** Queries *)

Lemma thread_is_erase f s t : (forall x, f t (core_thread x) = f t x) -> thread_is f (erase s) t = thread_is f s t.
Proof.
  intros Hf. unfold thread_is. assert (E : tasks (erase s) = core_thread <$> tasks s) by reflexivity. rewrite E, lookup_fmap.
  destruct (tasks s !! t) as [x|]; [apply Hf|done].
Qed.

Lemma group_size_erase s g tgid : rep s (erase s) g ->
  group_size (erase s) g tgid = Z.of_nat (length (filter (fun t => thread_is (fun _ => live_member tgid) s t = true) (thread_list s))).
Proof.
  intros HR. unfold group_size. rewrite (thread_list_rep HR). do 2 f_equal. induction (l_all g) as [|t L IH]; [done|].
  rewrite !filter_cons, thread_is_erase by done. by rewrite IH.
Qed.

(** the queries over all threads answer what they are asked, on every good
    state and without changing it: whether a worker lives, whether a user thread
    other than one given lives, how many living threads a process has (0 for a
    kernel thread), and whether an address range lies in the user stack of a
    living thread of the process. *)
Theorem thread_queries_exact (s : sched) (task : Z) (t : thread) (except start end_ : Z) :
  sched_ok s -> s.(tasks) !! task = Some t ->
  (exists s', thread_has_live_workers s = Some (existsb (thread_is live_worker s) (thread_list s), s') /\ erase s' = erase s) /\
  (exists s', thread_user_image_busy except s = Some (existsb (thread_is (live_user_except except) s) (thread_list s), s') /\ erase s' = erase s) /\
  (exists s', thread_user_group_size task s = Some ((if decide (t.(t_kind) = THREAD_USER) then
       Z.of_nat (length (filter (fun u => thread_is (fun _ => live_member t.(t_tgid)) s u = true) (thread_list s))) else 0), s') /\ erase s' = erase s) /\
  (exists s', thread_user_stack_contains task start end_ s = Some (bool_decide (t.(t_kind) = THREAD_USER) && (start <? end_) &&
       existsb (thread_is (stack_of_group t.(t_tgid) start end_) s) (thread_list s), s') /\ erase s' = erase s).
Proof.
  intros [g HI] Ht. pose proof (proj1 HI) as HR. pose proof (task_rep HR _ _ Ht) as Hte.
  assert (Hex : forall f, (forall u x, f u (core_thread x) = f u x) -> existsb (thread_is f (erase s)) (l_all g) = existsb (thread_is f s) (thread_list s)).
  { intros f Hf. rewrite (thread_list_rep HR). apply existsb_ext. intros u. by apply thread_is_erase. }
  assert (Hrun : forall A (m : M sched A) v, wp m (fun r s' => r = v /\ erase s' = erase s) s -> exists s', m s = Some (v, s') /\ erase s' = erase s).
  { intros A m v Hm. destruct (wp_run _ _ _ Hm) as (r & s' & E & -> & H). by exists s'. }
  split_and!; apply Hrun.
  - apply (wp_has_live_workers HI). intros s' H'. split; [by apply Hex|apply H'].
  - apply (wp_image_busy HI). intros s' H'. split; [by apply Hex|apply H'].
  - apply (wp_group_size HI task (core_thread t)); [exact Hte|]. intros s' H'. split; [|apply H']. change (t_kind (core_thread t)) with (t_kind t).
    destruct (decide (t_kind t = THREAD_USER)); [|done]. by apply group_size_erase.
  - apply (wp_stack_contains HI task (core_thread t)); [exact Hte|]. intros s' H'. split; [|apply H']. change (t_kind (core_thread t)) with (t_kind t).
    f_equal. by apply (Hex (stack_of_group (t_tgid t) start end_)).
Qed.

Lemma thread_queries_exact_witness :
  exists s', thread_has_live_workers demo_two_threads = Some (existsb (thread_is live_worker demo_two_threads) (thread_list demo_two_threads), s').
Proof.
  destruct (demo_two_threads.(tasks) !! 32512) as [t|] eqn:Et; [|vm_compute in Et; discriminate Et].
  destruct (thread_queries_exact demo_two_threads 32512 t 0 0 1 demo_two_threads_ok Et) as ((s' & E & _) & _). exists s'. exact E.
Defined.
