(* ===== verification/Ring.v ===== *)
(** * The character ring buffer ([ringbuf.c])

    A ring buffer lives at an address of [rings], the characters that
    [ringbuf_pop] stores through its [out] pointer at addresses of [cells].
    The file ends with the queue of characters a well-formed buffer stands for
    and the behaviour of the operations on it. *)

From S2P Require Import Prelude Lists.

Open Scope Z_scope.

Definition RINGBUF_CAPACITY : Z := 128.

Record ringbuf := mkRingbuf {
  rb_data : list Z;
  rb_head : Z;
  rb_tail : Z;
  rb_count : Z;
}.

Definition set_rb_data (v : list Z) (r : ringbuf) : ringbuf := mkRingbuf v r.(rb_head) r.(rb_tail) r.(rb_count).
Definition set_rb_head (v : Z) (r : ringbuf) : ringbuf := mkRingbuf r.(rb_data) v r.(rb_tail) r.(rb_count).
Definition set_rb_tail (v : Z) (r : ringbuf) : ringbuf := mkRingbuf r.(rb_data) r.(rb_head) v r.(rb_count).
Definition set_rb_count (v : Z) (r : ringbuf) : ringbuf := mkRingbuf r.(rb_data) r.(rb_head) r.(rb_tail) v.

(** The memory the functions work on. *)
Record ringmem := mkRingmem {
  rings : gmap Z ringbuf;
  cells : gmap Z Z;
}.

Definition set_rings (v : gmap Z ringbuf) (s : ringmem) : ringmem := mkRingmem v s.(cells).
Definition set_cells (v : gmap Z Z) (s : ringmem) : ringmem := mkRingmem s.(rings) v.

Definition ring_get (rb : Z) : M ringmem ringbuf := access (fun s => s.(rings) !! rb).
Definition ring_upd (rb : Z) (f : ringbuf -> ringbuf) : M ringmem unit :=
  update (fun s => r ← s.(rings) !! rb; Some (set_rings (<[rb := f r]> s.(rings)) s)).

(** An element of the array: defined for indices inside it only. *)
Definition data_get (r : ringbuf) (i : Z) : option Z :=
  if (0 <=? i) then r.(rb_data) !! Z.to_nat i else None.
Definition data_set (i c : Z) (r : ringbuf) : option ringbuf :=
  if (0 <=? i) && (i <? Z.of_nat (length r.(rb_data))) then Some (set_rb_data (<[Z.to_nat i := c]> r.(rb_data)) r) else None.

(** ** The functions *)

Definition ringbuf_init (rb : Z) : M ringmem unit :=
  if rb =? 0 then mret tt
  else
    ring_upd rb (set_rb_head 0) ;;
    ring_upd rb (set_rb_tail 0) ;;
    ring_upd rb (set_rb_count 0).

Definition ringbuf_is_empty (rb : Z) : M ringmem bool :=
  if rb =? 0 then mret true
  else r ← ring_get rb; mret (r.(rb_count) =? 0).

Definition ringbuf_is_full (rb : Z) : M ringmem bool :=
  if rb =? 0 then mret false
  else r ← ring_get rb; mret (r.(rb_count) =? RINGBUF_CAPACITY).

Definition ringbuf_push (rb c : Z) : M ringmem Z :=
  if rb =? 0 then mret (-1)
  else
    full ← ringbuf_is_full rb;
    if full : bool then mret (-1)
    else
      r ← ring_get rb;
      r' ← defined (data_set r.(rb_head) c r);
      ring_upd rb (fun _ => r') ;;
      ring_upd rb (set_rb_head (u32 (r.(rb_head) + 1) mod RINGBUF_CAPACITY)) ;;
      ring_upd rb (set_rb_count (u32 (r.(rb_count) + 1))) ;;
      mret 0.

Definition ringbuf_pop (rb out : Z) : M ringmem Z :=
  if (rb =? 0) || (out =? 0) then mret (-1)
  else
    empty ← ringbuf_is_empty rb;
    if empty : bool then mret (-1)
    else
      r ← ring_get rb;
      c ← defined (data_get r r.(rb_tail));
      update (fun s => _ ← s.(cells) !! out; Some (set_cells (<[out := c]> s.(cells)) s)) ;;
      ring_upd rb (set_rb_tail (u32 (r.(rb_tail) + 1) mod RINGBUF_CAPACITY)) ;;
      ring_upd rb (set_rb_count (u32 (r.(rb_count) - 1))) ;;
      mret 0.

(** ** Histories of calls *)

Inductive ring_op :=
| RInit (rb : Z)
| RPush (rb c : Z)
| RPop (rb out : Z)
| REmpty (rb : Z)
| RFull (rb : Z).

(** What a caller sees of one call: the value returned and, after a pop that
    succeeded, the character delivered. *)
Definition run_ring_op (op : ring_op) : M ringmem (Z * option Z) :=
  match op with
  | RInit rb => ringbuf_init rb ;; mret (0, None)
  | RPush rb c => v ← ringbuf_push rb c; mret (v, None)
  | RPop rb out =>
      v ← ringbuf_pop rb out;
      if v =? 0 then c ← access (fun s => s.(cells) !! out); mret (v, Some c) else mret (v, None)
  | REmpty rb => b ← ringbuf_is_empty rb; mret (Z.b2z b, None)
  | RFull rb => b ← ringbuf_is_full rb; mret (Z.b2z b, None)
  end.

Fixpoint run_ring_ops (ops : list ring_op) : M ringmem (list (Z * option Z)) :=
  match ops with
  | [] => mret []
  | op :: rest => v ← run_ring_op op; vs ← run_ring_ops rest; mret (v :: vs)
  end.

(** ** The contract: bounded first-in first-out queues, one per buffer *)

Definition queues_step (op : ring_op) (q : gmap Z (list Z)) : (Z * option Z) * gmap Z (list Z) :=
  match op with
  | RInit rb => ((0, None), match q !! rb with Some _ => <[rb := []]> q | None => q end)
  | RPush rb c =>
      match q !! rb with
      | Some l =>
          if Z.of_nat (length l) <? RINGBUF_CAPACITY then ((0, None), <[rb := l ++ [c]]> q) else ((-1, None), q)
      | None => ((-1, None), q)
      end
  | RPop rb out =>
      if out =? 0 then ((-1, None), q)
      else
        match q !! rb with
        | Some (c :: l) => ((0, Some c), <[rb := l]> q)
        | _ => ((-1, None), q)
        end
  | REmpty rb => ((match q !! rb with Some (_ :: _) => 0 | _ => 1 end, None), q)
  | RFull rb =>
      ((match q !! rb with Some l => Z.b2z (Z.of_nat (length l) =? RINGBUF_CAPACITY) | None => 0 end, None), q)
  end.

Fixpoint queues_run (ops : list ring_op) (q : gmap Z (list Z)) : list (Z * option Z) * gmap Z (list Z) :=
  match ops with
  | [] => ([], q)
  | op :: rest =>
      let '(v, q1) := queues_step op q in
      let '(vs, q2) := queues_run rest q1 in
      (v :: vs, q2)
  end.

(** ** Well-formed buffers and what they stand for *)

Definition ring_ok (r : ringbuf) : Prop :=
  Z.of_nat (length r.(rb_data)) = RINGBUF_CAPACITY /\ 0 <= r.(rb_tail) < RINGBUF_CAPACITY /\
  0 <= r.(rb_count) <= RINGBUF_CAPACITY /\ r.(rb_head) = (r.(rb_tail) + r.(rb_count)) mod RINGBUF_CAPACITY.

Definition ring_queue (r : ringbuf) : list Z :=
  window RINGBUF_CAPACITY r.(rb_tail) (Z.to_nat r.(rb_count)) r.(rb_data).

(** Null is not the address of a buffer. *)
Definition rings_ok (s : ringmem) : Prop :=
  s.(rings) !! 0 = None /\ forall p r, s.(rings) !! p = Some r -> ring_ok r.

Definition ring_queues (s : ringmem) : gmap Z (list Z) := ring_queue <$> s.(rings).

(** Every pointer of a call is null or valid. *)
Definition op_valid (s : ringmem) (op : ring_op) : Prop :=
  match op with
  | RInit rb | RPush rb _ | REmpty rb | RFull rb => rb = 0 \/ is_Some (s.(rings) !! rb)
  | RPop rb out => (rb = 0 \/ is_Some (s.(rings) !! rb)) /\ (out = 0 \/ is_Some (s.(cells) !! out))
  end.

(** *** The operations on one buffer *)

Lemma ring_empty_ok r : ring_ok r -> ring_ok (set_rb_count 0 (set_rb_tail 0 (set_rb_head 0 r))).
Proof. unfold ring_ok, RINGBUF_CAPACITY. cbn. intros (? & ? & ? & ?). by split_and!. Qed.

Lemma ring_push_ok r c :
  ring_ok r -> r.(rb_count) <> RINGBUF_CAPACITY ->
  exists r', data_set r.(rb_head) c r = Some r' /\
    let r2 := set_rb_count (u32 (r.(rb_count) + 1)) (set_rb_head (u32 (r.(rb_head) + 1) mod RINGBUF_CAPACITY) r') in
    ring_ok r2 /\ ring_queue r2 = ring_queue r ++ [c].
Proof.
  intros (Hl & Ht & Hc & Hh) Hn. unfold RINGBUF_CAPACITY in *.
  pose proof (Z.mod_pos_bound (rb_tail r + rb_count r) 128 ltac:(lia)) as Hb.
  unfold data_set. rewrite (proj2 (Z.leb_le 0 _)), (proj2 (Z.ltb_lt _ _)) by lia. cbn [andb].
  eexists. split; [done|]. cbn zeta. rewrite !u32_id by lia. split.
  - unfold ring_ok, RINGBUF_CAPACITY. cbn. rewrite length_insert. split_and!; try lia.
    rewrite Hh, Z.add_mod_idemp_l by lia. f_equal. lia.
  - unfold ring_queue, RINGBUF_CAPACITY. cbn. rewrite Z2Nat.inj_add, Nat.add_1_r by lia.
    rewrite Hh. rewrite <- (window_push 128 ltac:(lia)) by lia. do 4 f_equal. lia.
Qed.

Lemma ring_pop_ok r :
  ring_ok r -> r.(rb_count) <> 0 ->
  exists c, data_get r r.(rb_tail) = Some c /\
    let r2 := set_rb_count (u32 (r.(rb_count) - 1)) (set_rb_tail (u32 (r.(rb_tail) + 1) mod RINGBUF_CAPACITY) r) in
    ring_ok r2 /\ ring_queue r = c :: ring_queue r2.
Proof.
  intros (Hl & Ht & Hc & Hh) Hn. unfold RINGBUF_CAPACITY in *.
  destruct (window_first 128 ltac:(lia) r.(rb_data) (Z.to_nat r.(rb_count)) r.(rb_tail)) as (c & E & Hw); [done|lia|].
  rewrite Z.mod_small in E by lia. exists c. unfold data_get. rewrite (proj2 (Z.leb_le 0 _)) by lia.
  split; [done|]. cbn zeta. rewrite !u32_id by lia. split.
  - unfold ring_ok, RINGBUF_CAPACITY. cbn. pose proof (Z.mod_pos_bound (rb_tail r + 1) 128). split_and!; try lia.
    rewrite Hh, Z.add_mod_idemp_l by lia. f_equal. lia.
  - unfold ring_queue, RINGBUF_CAPACITY. cbn. rewrite Hw, window_shift by lia. do 3 f_equal. lia.
Qed.

Lemma ring_queue_length r : ring_ok r -> Z.of_nat (length (ring_queue r)) = r.(rb_count).
Proof.
  intros (Hl & Ht & Hc & Hh). unfold ring_queue. rewrite window_length by (done || unfold RINGBUF_CAPACITY; lia). lia.
Qed.

(** *** The operations in memory *)

Lemma wp_ring_get rb r Q s : s.(rings) !! rb = Some r -> Q r s -> wp (ring_get rb) Q s.
Proof. intros E H. by eapply wp_access. Qed.

Lemma wp_ring_upd rb f r Q s :
  s.(rings) !! rb = Some r -> Q tt (set_rings (<[rb := f r]> s.(rings)) s) -> wp (ring_upd rb f) Q s.
Proof. intros E H. unfold ring_upd. eapply wp_update; [by rewrite E|done]. Qed.

(** The outcome of a call in terms of the queues: [s'] is what is left of [s]. *)
Definition op_done (s : ringmem) (op : ring_op) (v : Z * option Z) (s' : ringmem) : Prop :=
  rings_ok s' /\ (v, ring_queues s') = queues_step op (ring_queues s) /\
  dom s'.(rings) = dom s.(rings) /\ dom s'.(cells) = dom s.(cells).

Lemma queues_lookup s rb r : s.(rings) !! rb = Some r -> ring_queues s !! rb = Some (ring_queue r).
Proof. unfold ring_queues. intros E. by rewrite lookup_fmap, E. Qed.

Lemma queues_null s : rings_ok s -> ring_queues s !! 0 = None.
Proof. intros [H _]. unfold ring_queues. by rewrite lookup_fmap, H. Qed.

Lemma op_done_same s op v : rings_ok s -> queues_step op (ring_queues s) = (v, ring_queues s) -> op_done s op v s.
Proof. intros Hok E. unfold op_done. by rewrite E. Qed.

Lemma op_done_ring s op v rb r r' c :
  rings_ok s -> s.(rings) !! rb = Some r -> ring_ok r' ->
  queues_step op (ring_queues s) = (v, <[rb := ring_queue r']> (ring_queues s)) ->
  dom c = dom s.(cells) ->
  op_done s op v (mkRingmem (<[rb := r']> s.(rings)) c).
Proof.
  intros [H0 Hok] E Hr Hq Hc. split_and!; cbn.
  - split; cbn.
    + rewrite lookup_insert_ne; [done|]. intros ->. congruence.
    + intros p x Hp. destruct (decide (rb = p)) as [->|Hne].
      * rewrite lookup_insert in Hp. rewrite decide_True in Hp by done. by injection Hp as <-.
      * rewrite lookup_insert_ne in Hp by done. eauto.
  - rewrite Hq. unfold ring_queues. cbn. by rewrite fmap_insert.
  - rewrite dom_insert_L. apply elem_of_dom_2 in E. set_solver.
  - done.
Qed.

(** Run the accesses to the buffer at [rb]; null pointers take the early return. *)
Ltac ring_step :=
  match goal with
  | |- wp (mbind _ _) _ _ => apply wp_bind
  | |- wp (mret _) _ _ => apply wp_ret
  | |- wp (ring_get _) _ _ => eapply wp_ring_get; [done|]
  | |- wp (ring_upd _ _) _ _ => eapply wp_ring_upd; [first [done|cbn; by rewrite lookup_insert_eq]|]
  | |- wp (defined _) _ _ => eapply wp_defined; [done|]
  end; cbn beta.
Ltac ring_steps := repeat ring_step.
Ltac null_ring Hv r E :=
  destruct Hv as [->|[r E]];
  [ring_steps; apply op_done_same; [done|]; cbn; by rewrite queues_null|].

Lemma wp_op_init s rb : rings_ok s -> op_valid s (RInit rb) -> wp (run_ring_op (RInit rb)) (op_done s (RInit rb)) s.
Proof.
  intros Hok Hv. pose proof Hok as [H0 Hall]. unfold run_ring_op, ringbuf_init. null_ring Hv r E.
  destruct (Z.eqb_spec rb 0) as [->|Hne]; [congruence|]. ring_steps.
  unfold set_rings. cbn. rewrite !insert_insert_eq.
  eapply op_done_ring; [done|done| | |done].
  - apply ring_empty_ok. eauto.
  - cbn. by rewrite (queues_lookup s rb r E).
Qed.

Lemma wp_op_push s rb c :
  rings_ok s -> op_valid s (RPush rb c) -> wp (run_ring_op (RPush rb c)) (op_done s (RPush rb c)) s.
Proof.
  intros Hok Hv. pose proof Hok as [H0 Hall]. unfold run_ring_op, ringbuf_push, ringbuf_is_full. null_ring Hv r E.
  destruct (Z.eqb_spec rb 0) as [->|Hne]; [congruence|].
  assert (Hlen : Z.of_nat (length (ring_queue r)) = r.(rb_count)) by (apply ring_queue_length; eauto).
  ring_steps. pose proof (Hall rb r E) as (? & ? & ? & ?).
  destruct (Z.eqb_spec r.(rb_count) RINGBUF_CAPACITY) as [Hf|Hf].
  { ring_steps. apply op_done_same; [done|]. cbn -[Z.ltb]. rewrite (queues_lookup s rb r E), Hlen.
    by rewrite (proj2 (Z.ltb_ge _ _)) by lia. }
  destruct (ring_push_ok r c) as (r' & Er & Hr & Hq); [eauto|done|].
  ring_steps. unfold set_rings. cbn. rewrite !insert_insert_eq.
  eapply op_done_ring; [done|done|exact Hr| |done].
  cbn -[Z.ltb]. rewrite (queues_lookup s rb r E), Hlen, Hq.
  by rewrite (proj2 (Z.ltb_lt _ _)) by lia.
Qed.

Lemma wp_op_pop s rb out :
  rings_ok s -> op_valid s (RPop rb out) -> wp (run_ring_op (RPop rb out)) (op_done s (RPop rb out)) s.
Proof.
  intros Hok [Hv Ho]. pose proof Hok as [H0 Hall]. unfold run_ring_op, ringbuf_pop, ringbuf_is_empty.
  destruct (Z.eqb_spec out 0) as [->|Hout].
  { rewrite orb_true_r. ring_steps. cbn [Z.eqb]. ring_steps. by apply op_done_same. }
  destruct Ho as [?|[o Eo]]; [done|].
  assert (Hb : out =? 0 = false) by (by apply Z.eqb_neq).
  destruct Hv as [->|[r E]].
  { ring_steps. apply op_done_same; [done|]. cbn. by rewrite Hb, queues_null. }
  destruct (Z.eqb_spec rb 0) as [->|Hne]; [congruence|]. cbn [orb].
  assert (Hlen : Z.of_nat (length (ring_queue r)) = r.(rb_count)) by (apply ring_queue_length; eauto).
  ring_steps. destruct (Z.eqb_spec r.(rb_count) 0) as [Hf|Hf].
  { ring_steps. cbn [Z.eqb]. ring_steps. apply op_done_same; [done|]. cbn. rewrite (queues_lookup s rb r E), Hb.
    destruct (ring_queue r); [done|]. cbn in Hlen. lia. }
  destruct (ring_pop_ok r) as (c & Er & Hr & Hq); [eauto|done|].
  ring_steps. eapply wp_update; [by rewrite Eo|]. ring_steps.
  cbn [Z.eqb]. ring_steps. eapply wp_access; [cbn; by rewrite lookup_insert_eq|]. ring_steps.
  unfold set_rings, set_cells. cbn. rewrite !insert_insert_eq.
  eapply op_done_ring; [done|done|exact Hr| |].
  - cbn. by rewrite (queues_lookup s rb r E), Hq, Hb.
  - rewrite dom_insert_L. apply elem_of_dom_2 in Eo. set_solver.
Qed.

Lemma wp_op_empty s rb : rings_ok s -> op_valid s (REmpty rb) -> wp (run_ring_op (REmpty rb)) (op_done s (REmpty rb)) s.
Proof.
  intros Hok Hv. pose proof Hok as [H0 Hall]. unfold run_ring_op, ringbuf_is_empty. null_ring Hv r E.
  destruct (Z.eqb_spec rb 0) as [->|Hne]; [congruence|]. ring_steps. apply op_done_same; [done|].
  cbn -[Z.eqb]. rewrite (queues_lookup s rb r E).
  assert (Hlen : Z.of_nat (length (ring_queue r)) = r.(rb_count)) by (apply ring_queue_length; eauto).
  destruct (ring_queue r), (Z.eqb_spec r.(rb_count) 0); cbn in *; try done; lia.
Qed.

Lemma wp_op_full s rb : rings_ok s -> op_valid s (RFull rb) -> wp (run_ring_op (RFull rb)) (op_done s (RFull rb)) s.
Proof.
  intros Hok Hv. pose proof Hok as [H0 Hall]. unfold run_ring_op, ringbuf_is_full. null_ring Hv r E.
  destruct (Z.eqb_spec rb 0) as [->|Hne]; [congruence|]. ring_steps. apply op_done_same; [done|].
  cbn -[Z.eqb]. by rewrite (queues_lookup s rb r E), (ring_queue_length r (Hall rb r E)).
Qed.

Lemma wp_ring_op s op : rings_ok s -> op_valid s op -> wp (run_ring_op op) (op_done s op) s.
Proof. destruct op; auto using wp_op_init, wp_op_push, wp_op_pop, wp_op_empty, wp_op_full. Qed.

Lemma op_valid_stable s s' op :
  dom s'.(rings) = dom s.(rings) -> dom s'.(cells) = dom s.(cells) -> op_valid s op -> op_valid s' op.
Proof.
  intros Hr Hc. assert (Hi : forall p, is_Some (s.(rings) !! p) -> is_Some (s'.(rings) !! p)).
  { intros p. by rewrite <- !elem_of_dom, Hr. }
  assert (Hj : forall p, is_Some (s.(cells) !! p) -> is_Some (s'.(cells) !! p)).
  { intros p. by rewrite <- !elem_of_dom, Hc. }
  destruct op; cbn; naive_solver.
Qed.

(** A ring buffer is a first-in first-out queue of at most 128 characters.
    Whatever calls of [ringbuf_init], [ringbuf_push], [ringbuf_pop],
    [ringbuf_is_empty] and [ringbuf_is_full] are made on any number of
    well-formed buffers (or on null), in any order, every call returns, stays
    inside the arrays, and returns and delivers exactly what bounded queues
    would; the buffers stay well formed and stand for the contents of those
    queues. *)
Theorem ringbuf_refines s ops :
  rings_ok s -> Forall (op_valid s) ops ->
  wp (run_ring_ops ops) (fun vs s' => rings_ok s' /\ (vs, ring_queues s') = queues_run ops (ring_queues s)) s.
Proof.
  revert s. induction ops as [|op ops IH]; intros s Hok Hv; [by apply wp_ret|].
  apply Forall_cons in Hv as [Hop Hv]. cbn [run_ring_ops queues_run]. apply wp_bind.
  eapply wp_mono; [by apply wp_ring_op|]. intros v s1 (Hok1 & Hs & Hr & Hc). rewrite <- Hs. apply wp_bind.
  eapply wp_mono; [apply IH; [done|]|].
  { eapply Forall_impl; [exact Hv|]. intros o. by apply op_valid_stable. }
  intros vs s2 [Hok2 Hs2]. apply wp_ret. split; [done|]. by rewrite <- Hs2.
Qed.

(** A buffer as the loader leaves it, with one cell for the result. *)
Definition demo_ring : ringmem := mkRingmem {[ 16 := mkRingbuf (replicate 128 0) 0 0 0 ]} {[ 8 := 0 ]}.

Lemma demo_ring_ok : rings_ok demo_ring.
Proof.
  split; [done|]. intros p r H. cbn [rings demo_ring] in H. apply lookup_singleton_Some in H as [<- <-].
  unfold ring_ok, RINGBUF_CAPACITY. cbn. by split_and!.
Qed.

Lemma ringbuf_refines_witness :
  wp (run_ring_ops [RPush 16 65; RPush 16 66; RPop 16 8; RPush 0 67; RFull 16; RPop 16 8; RPop 16 8])
     (fun vs s' => vs = [(0, None); (0, None); (0, Some 65); (-1, None); (0, None); (0, Some 66); (-1, None)]) demo_ring.
Proof.
  eapply wp_mono; [apply (ringbuf_refines demo_ring)|].
  - exact demo_ring_ok.
  - repeat (apply Forall_cons; split); [..|done]; cbn;
      first [by left|right; eexists; reflexivity|split; right; eexists; reflexivity].
  - intros vs s' [_ E]. replace (ring_queues demo_ring) with ({[ 16 := [] ]} : gmap Z (list Z)) in E by (by vm_compute).
    apply (f_equal fst) in E. cbn [fst] in E. rewrite E. by vm_compute.
Defined.
