(* ===== verification/Str.v ===== *)
(** * C strings and memory blocks ([string.c])

    Memory is a finite map from addresses to bytes: an address that is not in
    the map is not readable.  A string argument is a pointer into that memory
    or a literal of the program. *)

From Stdlib Require Import Strings.String Strings.Ascii.
From S2P Require Import Prelude.

Open Scope Z_scope.

Abbreviation bmem := (gmap Z Z).

Inductive cstr :=
| CPtr (p : Z)
| CLit (l : list Z).

(** A string literal; a line feed is added by [text_line]. *)
Definition text (s : string) : cstr := CLit ((fun c => Z.of_nat (nat_of_ascii c)) <$> list_ascii_of_string s).
Definition text_line (s : string) : cstr := CLit (((fun c => Z.of_nat (nat_of_ascii c)) <$> list_ascii_of_string s) ++ [10]).

(** [s[i]]. *)
Definition char_of (m : bmem) (s : cstr) (i : Z) : option Z :=
  match s with
  | CPtr p => m !! (p + i)
  | CLit l => (l ++ [0]) !! Z.to_nat i
  end.
Definition char_at (s : cstr) (i : Z) : M bmem Z := access (fun m => char_of m s i).

Definition store (p c : Z) : M bmem unit := update (fun m => _ ← m !! p; Some (<[p := c]> m)).

(** A string visits distinct readable characters. *)
Definition str_fuel (s : cstr) (m : bmem) : nat :=
  match s with
  | CPtr _ => S (size m)
  | CLit l => S (length l)
  end.

(** ** The functions *)

Definition strlen (s : cstr) : M bmem Z :=
  fuel ← gets (str_fuel s);
  loop fuel (fun len => c ← char_at s len; if c =? 0 then mret (inr len) else mret (inl (u64 (len + 1)))) 0.

Definition strcmp (a b : cstr) : M bmem Z :=
  fuel ← gets (str_fuel a);
  loop fuel
    (fun i =>
       x ← char_at a i;
       if negb (x =? 0) then
         y ← char_at b i;
         if x =? y then mret (inl (i + 1)) else mret (inr (x - y))
       else
         y ← char_at b i;
         mret (inr (x - y)))
    0.

Definition memcpy (dst src size : Z) : M bmem Z :=
  for_up (Z.to_nat size) 0 (fun i => c ← char_at (CPtr src) i; store (dst + i) c) ;;
  mret dst.

Definition memset (dst value size : Z) : M bmem Z :=
  for_up (Z.to_nat size) 0 (fun i => store (dst + i) (u8 value)) ;;
  mret dst.

(** ** Strings and blocks in memory *)

(** [s] is the zero-terminated string [l]. *)
Definition string_at (m : bmem) (s : cstr) (l : list Z) : Prop :=
  Forall (fun c => c <> 0) l /\
  forall i, (i <= length l)%nat -> char_of m s (Z.of_nat i) = (l ++ [0]) !! i.

(** The block of bytes [l] at [p]. *)
Definition block_at (m : bmem) (p : Z) (l : list Z) : Prop := forall i c, l !! i = Some c -> m !! (p + Z.of_nat i) = Some c.

(** Comparison of strings as sequences of unsigned characters: the difference
    of the first characters that differ, the end counting as zero. *)
Fixpoint str_diff (a b : list Z) : Z :=
  match a, b with
  | x :: a', y :: b' => if x =? y then str_diff a' b' else x - y
  | x :: _, [] => x
  | [], y :: _ => - y
  | [], [] => 0
  end.

Lemma string_literal m l : Forall (fun c => c <> 0) l -> string_at m (CLit l) l.
Proof. intros H. split; [done|]. intros i _. cbn. by rewrite Nat2Z.id. Qed.

Lemma string_char m s l i c : string_at m s l -> l !! i = Some c -> char_of m s (Z.of_nat i) = Some c /\ c <> 0.
Proof.
  intros [Hz H] E. pose proof (lookup_lt_Some _ _ _ E). split.
  - rewrite H by lia. by rewrite lookup_app_l by lia.
  - rewrite Forall_lookup in Hz. eauto.
Qed.

Lemma string_end m s l : string_at m s l -> char_of m s (Z.of_nat (length l)) = Some 0.
Proof. intros [_ H]. rewrite H by lia. by rewrite lookup_app_r, Nat.sub_diag by lia. Qed.

(** Readable memory has room for the characters. *)
Lemma range_size (m : bmem) p n :
  (forall i, 0 <= i < Z.of_nat n -> is_Some (m !! (p + i))) -> (n <= size m)%nat.
Proof.
  intros H. rewrite <- (size_dom m). transitivity (size (list_to_set (seqZ p (Z.of_nat n)) : gset Z)).
  - rewrite size_list_to_set by apply NoDup_seqZ. rewrite length_seqZ. lia.
  - apply subseteq_size. intros x. rewrite elem_of_list_to_set, elem_of_seqZ, elem_of_dom. intros Hx.
    destruct (H (x - p)) as [c Hc]; [lia|]. exists c. rewrite <- Hc. f_equal. lia.
Qed.

Lemma string_fuel m s l : string_at m s l -> (length l < str_fuel s m)%nat.
Proof.
  intros H. destruct s as [p|k]; cbn.
  - enough (S (length l) <= size m)%nat by lia. apply (range_size m p). intros i Hi.
    destruct H as [_ H]. specialize (H (Z.to_nat i) ltac:(lia)). cbn in H. rewrite Z2Nat.id in H by lia. rewrite H.
    apply lookup_lt_is_Some. rewrite length_app. cbn. lia.
  - destruct H as [Hz H]. destruct (decide (length l <= length k)%nat) as [?|Hl]; [lia|exfalso].
    specialize (H (length k) ltac:(lia)). cbn in H. rewrite Nat2Z.id, lookup_app_r, Nat.sub_diag in H by lia. cbn in H.
    rewrite lookup_app_l in H by lia. symmetry in H. rewrite Forall_lookup in Hz. by apply (Hz _ _ H).
Qed.

(** ** What the functions compute *)

Lemma wp_char_at s i c Q m : char_of m s i = Some c -> Q c m -> wp (char_at s i) Q m.
Proof. intros. by eapply wp_access. Qed.

Lemma wp_strlen m s l Q :
  string_at m s l -> Z.of_nat (length l) < 2 ^ 64 -> Q (Z.of_nat (length l)) m -> wp (strlen s) Q m.
Proof.
  intros H Hl HQ. unfold strlen. apply wp_bind, wp_gets.
  apply (wp_loop (fun len m' => m' = m /\ 0 <= len <= Z.of_nat (length l)) (fun len _ => Z.of_nat (length l) - len)).
  - intros len m' [_ ?]. lia.
  - intros len m' [-> Hlen]. apply wp_bind.
    destruct (decide (len = Z.of_nat (length l))) as [->|Hne].
    + eapply wp_char_at; [by apply string_end|]. by apply wp_ret.
    + destruct (lookup_lt_is_Some_2 l (Z.to_nat len)) as [c Hc]; [lia|].
      destruct (string_char m s l _ c H Hc) as [E Hz]. rewrite Z2Nat.id in E by lia.
      eapply wp_char_at; [done|]. destruct (Z.eqb_spec c 0); [done|]. apply wp_ret. rewrite u64_id by lia. split_and!; [done|lia..].
  - split; [done|lia].
  - pose proof (string_fuel m s l H). lia.
Qed.

Lemma str_diff_step a b i :
  (forall j, (j < i)%nat -> a !! j = b !! j) -> (i <= length a)%nat -> (i <= length b)%nat ->
  str_diff a b = str_diff (drop i a) (drop i b).
Proof.
  revert a b. induction i as [|i IH]; intros a b H Ha Hb; [done|].
  destruct a as [|x a], b as [|y b]; cbn in *; try lia.
  pose proof (H 0%nat ltac:(lia)) as E. cbn in E. injection E as ->. rewrite Z.eqb_refl.
  apply IH; [|lia|lia]. intros j Hj. apply (H (S j)). lia.
Qed.

Lemma str_diff_at a b i x y :
  (forall j, (j < i)%nat -> a !! j = b !! j) -> (a ++ [0]) !! i = Some x -> (b ++ [0]) !! i = Some y ->
  (x <> y \/ x = 0) -> Forall (fun c => c <> 0) a -> Forall (fun c => c <> 0) b -> str_diff a b = x - y.
Proof.
  intros H Hx Hy Hd Ha Hb. pose proof (lookup_lt_Some _ _ _ Hx). pose proof (lookup_lt_Some _ _ _ Hy).
  rewrite length_app in *. cbn in *. rewrite (str_diff_step a b i) by (done || lia).
  assert (Hd1 : forall l z, Forall (fun c => c <> 0) l -> (l ++ [0]) !! i = Some z ->
    match drop i l with [] => z = 0 | c :: _ => c = z /\ z <> 0 end).
  { intros l z Hl E. destruct (drop i l) as [|c r] eqn:Ed.
    - pose proof (length_drop l i) as Hlen. rewrite Ed in Hlen. cbn in Hlen. pose proof (lookup_lt_Some _ _ _ E).
      rewrite length_app in *. cbn in *. rewrite lookup_app_r in E by lia.
      replace (i - length l)%nat with 0%nat in E by lia. by injection E.
    - assert (El : l !! i = Some c) by (rewrite <- (Nat.add_0_r i), <- lookup_drop; by rewrite Ed).
      rewrite lookup_app_l in E by (by eapply lookup_lt_Some). rewrite El in E. injection E as ->. split; [done|].
      rewrite Forall_lookup in Hl. eauto. }
  pose proof (Hd1 a x Ha Hx) as Hax. pose proof (Hd1 b y Hb Hy) as Hby.
  destruct (drop i a), (drop i b); cbn; destruct_and?; subst; try lia.
  destruct (Z.eqb_spec x y); [|done]. lia.
Qed.

Lemma wp_strcmp m a b la lb Q :
  string_at m a la -> string_at m b lb -> Q (str_diff la lb) m -> wp (strcmp a b) Q m.
Proof.
  intros Ha Hb HQ. unfold strcmp. apply wp_bind, wp_gets.
  apply (wp_loop (fun i m' => m' = m /\ 0 <= i <= Z.of_nat (length la) /\ i <= Z.of_nat (length lb) /\
                     forall j, (j < Z.to_nat i)%nat -> la !! j = lb !! j) (fun i _ => Z.of_nat (length la) - i)).
  - intros i m' (_ & ? & _). lia.
  - intros i m' (-> & Hi & Hi2 & Heq).
    destruct (lookup_lt_is_Some_2 (la ++ [0]) (Z.to_nat i)) as [x Hx]; [rewrite length_app; cbn; lia|].
    destruct (lookup_lt_is_Some_2 (lb ++ [0]) (Z.to_nat i)) as [y Hy]; [rewrite length_app; cbn; lia|].
    pose proof Ha as [Za Ca]. pose proof Hb as [Zb Cb].
    pose proof (Ca (Z.to_nat i) ltac:(lia)) as Ex. pose proof (Cb (Z.to_nat i) ltac:(lia)) as Ey.
    rewrite Z2Nat.id in Ex, Ey by lia. rewrite Hx in Ex. rewrite Hy in Ey.
    apply wp_bind. eapply wp_char_at; [exact Ex|].
    destruct (Z.eqb_spec x 0) as [->|Hx0]; cbn [negb]; apply wp_bind; (eapply wp_char_at; [exact Ey|]).
    { apply wp_ret. rewrite <- (str_diff_at la lb (Z.to_nat i) 0 y) by auto. done. }
    destruct (Z.eqb_spec x y) as [->|Hne]; apply wp_ret.
    2: { rewrite <- (str_diff_at la lb (Z.to_nat i) x y) by auto. done. }
    assert (Hin : forall l, (l ++ [0]) !! Z.to_nat i = Some y -> (Z.to_nat i < length l)%nat).
    { intros l E. destruct (decide (Z.to_nat i < length l)%nat); [done|]. rewrite lookup_app_r in E by lia.
      destruct (Z.to_nat i - length l)%nat; cbn in E; [congruence|by rewrite ?lookup_nil in E]. }
    pose proof (Hin la Hx). pose proof (Hin lb Hy). split_and!; try done; try lia.
    intros j Hj. destruct (decide (j = Z.to_nat i)) as [->|]; [|apply Heq; lia].
    rewrite <- (lookup_app_l la [0]), <- (lookup_app_l lb [0]) by done. congruence.
  - split_and!; try done; lia.
  - pose proof (string_fuel m a la Ha). lia.
Qed.

(** Writing a block. *)
Fixpoint write_block (p : Z) (l : list Z) (m : bmem) : bmem :=
  match l with
  | [] => m
  | c :: l' => write_block (p + 1) l' (<[p := c]> m)
  end.

Lemma write_block_out l : forall p m a, ~ (p <= a < p + Z.of_nat (length l)) -> write_block p l m !! a = m !! a.
Proof.
  induction l as [|c l IH]; intros p m a Ha; [done|]. cbn in *. rewrite IH by lia.
  apply lookup_insert_ne. lia.
Qed.

Lemma write_block_in l : forall p m, block_at (write_block p l m) p l.
Proof.
  induction l as [|c l IH]; intros p m i x E; [done|]. destruct i as [|i]; cbn in *.
  - injection E as <-. rewrite Z.add_0_r, write_block_out by lia. apply lookup_insert_eq.
  - replace (p + Z.of_nat (S i)) with (p + 1 + Z.of_nat i) by lia. by apply IH.
Qed.

Lemma write_block_snoc l : forall p m c, write_block p (l ++ [c]) m = <[p + Z.of_nat (length l) := c]> (write_block p l m).
Proof.
  induction l as [|x l IH]; intros p m c; cbn; [by rewrite Z.add_0_r|]. rewrite IH. f_equal. lia.
Qed.

Lemma write_block_dom l p m a : is_Some (m !! a) -> is_Some (write_block p l m !! a).
Proof.
  revert p m. induction l as [|c l IH]; intros p m H; [done|]. cbn. apply IH.
  destruct (decide (p = a)) as [->|]; [rewrite lookup_insert_eq; eauto|by rewrite lookup_insert_ne].
Qed.

Lemma write_block_same l : forall p m, block_at m p l -> write_block p l m = m.
Proof.
  induction l as [|c l IH]; intros p m Hb; [done|]. cbn [write_block]. rewrite insert_id.
  - apply IH. intros i x Hx. rewrite <- (Hb (S i) x Hx). f_equal. lia.
  - rewrite <- (Hb 0%nat c eq_refl). f_equal. lia.
Qed.

Lemma block_sub m p l off n : block_at m p l -> block_at m (p + Z.of_nat off) (take n (drop off l)).
Proof.
  intros H i c E. apply lookup_take_Some in E as [E _]. rewrite lookup_drop in E. rewrite <- (H _ _ E). f_equal. lia.
Qed.

Lemma wp_store p c Q m : is_Some (m !! p) -> Q tt (<[p := c]> m) -> wp (store p c) Q m.
Proof. intros [x E] H. eapply wp_update; [by rewrite E|done]. Qed.

Lemma take_snoc {A} (l : list A) i x : l !! i = Some x -> take (S i) l = take i l ++ [x].
Proof. apply take_S_r. Qed.

(** A loop that stores the bytes of [l] one after the other. *)
Lemma wp_store_loop (body : Z -> M bmem unit) p l m Q :
  (forall i, 0 <= i < Z.of_nat (length l) -> is_Some (m !! (p + i))) ->
  (forall i c Q', l !! i = Some c -> Q' tt (write_block p (take (S i) l) m) ->
     wp (body (Z.of_nat i)) Q' (write_block p (take i l) m)) ->
  Q tt (write_block p l m) -> wp (for_up (length l) 0 body) Q m.
Proof.
  intros Hm Hb HQ.
  apply (wp_for_up (fun i m' => m' = write_block p (take (Z.to_nat i) l) m)); [done| |].
  - intros i m' Hi ->. destruct (lookup_lt_is_Some_2 l (Z.to_nat i)) as [c Hc]; [lia|].
    rewrite <- (Z2Nat.id i) at 1 by lia. eapply Hb; [done|]. f_equal. by rewrite Z2Nat.inj_add, Nat.add_1_r by lia.
  - intros m' ->. rewrite Z.add_0_l, Nat2Z.id, firstn_all. done.
Qed.

Lemma wp_memcpy m dst src l Q :
  block_at m src l -> (forall i, 0 <= i < Z.of_nat (length l) -> is_Some (m !! (dst + i))) ->
  dst <= src \/ src + Z.of_nat (length l) <= dst ->
  Q dst (write_block dst l m) -> wp (memcpy dst src (Z.of_nat (length l))) Q m.
Proof.
  intros Hs Hd Ho HQ. unfold memcpy. apply wp_bind. rewrite Nat2Z.id.
  apply (wp_store_loop _ dst l m); [done| |by apply wp_ret]. intros i c Q' Hc HQ'.
  pose proof (lookup_lt_Some _ _ _ Hc). apply wp_bind. eapply (wp_char_at _ _ c).
  { cbn. rewrite write_block_out; [by apply Hs|]. rewrite length_take. lia. }
  apply wp_store; [apply write_block_dom, Hd; lia|].
  rewrite (take_snoc l i c Hc), write_block_snoc, length_take in HQ'. by rewrite Nat.min_l in HQ' by lia.
Qed.

Lemma wp_memset m dst v n Q :
  (forall i, 0 <= i < Z.of_nat n -> is_Some (m !! (dst + i))) ->
  Q dst (write_block dst (replicate n (u8 v)) m) -> wp (memset dst v (Z.of_nat n)) Q m.
Proof.
  intros Hd HQ. unfold memset. apply wp_bind. rewrite Nat2Z.id.
  rewrite <- (length_replicate n (u8 v)) at 1.
  apply (wp_store_loop _ dst _ m); [by rewrite length_replicate| |by apply wp_ret]. intros i c Q' Hc HQ'.
  pose proof (lookup_lt_Some _ _ _ Hc) as Hi. rewrite length_replicate in Hi.
  apply wp_store; [apply write_block_dom, Hd; lia|].
  rewrite (take_snoc _ i c Hc), write_block_snoc, length_take, length_replicate in HQ'.
  apply lookup_replicate in Hc as [-> _]. by rewrite Nat.min_l in HQ' by lia.
Qed.

(** ** Areas of memory *)

Definition readable (m : bmem) (p n : Z) : Prop := forall i, 0 <= i < n -> is_Some (m !! (p + i)).

Definition in_area (p n a : Z) : Prop := p <= a < p + n.
Definition disjoint_areas (p n q k : Z) : Prop := forall a, in_area p n a -> in_area q k a -> False.

(** The characters of a string of length [n] lie outside an area. *)
Definition string_outside (s : cstr) (n p k : Z) : Prop :=
  match s with CPtr q => disjoint_areas q (n + 1) p k | CLit _ => True end.

(** The two memories agree outside an area. *)
Definition only_in (p n : Z) (m m' : bmem) : Prop :=
  (forall a, ~ in_area p n a -> m' !! a = m !! a) /\ (forall a, is_Some (m !! a) -> is_Some (m' !! a)).

Lemma only_in_refl p n m : only_in p n m m.
Proof. done. Qed.

Lemma only_in_trans p n m m1 m2 : only_in p n m m1 -> only_in p n m1 m2 -> only_in p n m m2.
Proof. intros [H1 D1] [H2 D2]. split; [|auto]. intros a Ha. by rewrite H2, H1. Qed.

Lemma only_in_write p n q l m : p <= q -> q + Z.of_nat (length l) <= p + n -> only_in p n m (write_block q l m).
Proof.
  intros H1 H2. split; [|intros a; by apply write_block_dom]. intros a Ha. apply write_block_out. unfold in_area in Ha. lia.
Qed.

Lemma only_in_block p n m m' q l :
  only_in p n m m' -> disjoint_areas q (Z.of_nat (length l)) p n -> block_at m q l -> block_at m' q l.
Proof.
  intros [H _] Hd Hb i c E. pose proof (lookup_lt_Some _ _ _ E). rewrite H; [by apply Hb|]. intros Ha.
  apply (Hd (q + Z.of_nat i)); [unfold in_area; lia|done].
Qed.

Lemma only_in_readable p n m m' q k : only_in p n m m' -> readable m q k -> readable m' q k.
Proof. intros [_ H] Hr i Hi. by apply H, Hr. Qed.

Lemma only_in_string p n m m' s l :
  only_in p n m m' -> string_outside s (Z.of_nat (length l)) p n -> string_at m s l -> string_at m' s l.
Proof.
  intros [H _] Hd [Hz Hs]. split; [done|]. intros i Hi. rewrite <- Hs by done. destruct s as [q|k]; [|done]. cbn.
  apply H. intros Ha. apply (Hd (q + Z.of_nat i)); [unfold in_area; lia|done].
Qed.

Lemma write_block_app l l' p m : write_block p (l ++ l') m = write_block (p + Z.of_nat (length l)) l' (write_block p l m).
Proof.
  revert p m. induction l as [|c l IH]; intros p m; cbn; [by rewrite Z.add_0_r|]. rewrite IH. f_equal. lia.
Qed.

(** Memory with an area of zeros. *)
Definition blank (p n : Z) (m : bmem) : bmem := write_block p (replicate (Z.to_nat n) 0) m.

Lemma blank_readable p n m : readable (blank p n m) p n.
Proof.
  intros i Hi. exists 0. rewrite <- (Z2Nat.id i) by lia. apply write_block_in. apply lookup_replicate_2. lia.
Qed.
Lemma blank_keeps p n q k m : readable m q k -> readable (blank p n m) q k.
Proof. intros H i Hi. by apply write_block_dom, H. Qed.
Lemma blank_at p n m a : in_area p n a -> blank p n m !! a = Some 0.
Proof.
  intros Ha. replace a with (p + Z.of_nat (Z.to_nat (a - p))) by (unfold in_area in Ha; lia). apply write_block_in.
  apply lookup_replicate_2. unfold in_area in Ha. lia.
Qed.

(** A line feed is sent as carriage return and line feed. *)
Definition crlf (l : list Z) : list Z := flat_map (fun c => if c =? 10 then [13; 10] else [c]) l.
