(* ===== verification/Cpio.v ===== *)
(** * Archives in the "newc" cpio format ([cpio.c])

    The functions read the archive and the strings from byte memory; the
    objects that [cpio_find] writes through its [data], [size] and [mode]
    pointers and the context of its callback are separate objects with
    addresses of their own.  A callback is a function on that state. *)

From S2P Require Import Prelude Str.

Open Scope Z_scope.

(** ** Data *)

Definition CPIO_NEWC_MAGIC : list Z := [48; 55; 48; 55; 48; 49].
Definition TRAILER : list Z := [84; 82; 65; 73; 76; 69; 82; 33; 33; 33].

(** [struct cpio_newc_header]: offsets of the fields that are read. *)
Definition OFF_c_mode : Z := 14.
Definition OFF_c_filesize : Z := 54.
Definition OFF_c_namesize : Z := 94.
Definition SIZEOF_CPIO_HEADER : Z := 110.

(** [name], [data], [size] and [mode] are pointers. *)
Record cpio_find_ctx := mkFindCtx {
  fc_name : cstr;
  fc_data : Z;
  fc_size : Z;
  fc_mode : Z;
  fc_found : Z;
}.

Definition set_fc_found (v : Z) (c : cpio_find_ctx) : cpio_find_ctx :=
  mkFindCtx c.(fc_name) c.(fc_data) c.(fc_size) c.(fc_mode) v.

Record cmem := mkCmem {
  cm_bytes : bmem;
  cm_vars : gmap Z Z;          (* objects of the caller written through a pointer *)
  cm_ctx : gmap Z cpio_find_ctx;
}.

Definition set_cm_bytes (v : bmem) (s : cmem) : cmem := mkCmem v s.(cm_vars) s.(cm_ctx).
Definition set_cm_vars (v : gmap Z Z) (s : cmem) : cmem := mkCmem s.(cm_bytes) v s.(cm_ctx).
Definition set_cm_ctx (v : gmap Z cpio_find_ctx) (s : cmem) : cmem := mkCmem s.(cm_bytes) s.(cm_vars) v.

#[export] Instance cmem_bytes : Lens cmem bmem.
Proof. refine {| view := cm_bytes; put := set_cm_bytes |}; intros; by try destruct s. Defined.

Definition byte (p : Z) : M cmem Z := zoom (char_at (CPtr p) 0).

(** ** Helpers *)

(** The value of one hexadecimal digit. *)
Definition hex_digit (c : Z) : option Z :=
  if (48 <=? c) && (c <=? 57) then Some (c - 48)
  else if (97 <=? c) && (c <=? 102) then Some (c - 97 + 10)
  else if (65 <=? c) && (c <=? 70) then Some (c - 65 + 10)
  else None.

(** [None] is the error return; [*out] is written on success only. *)
Fixpoint hex_digits (n : nat) (s v : Z) : M cmem (option Z) :=
  match n with
  | O => mret (Some v)
  | S n' =>
      c ← byte s;
      match hex_digit c with
      | Some d => hex_digits n' (s + 1) (Z.lor (u32 (Z.shiftl v 4)) d)
      | None => mret None
      end
  end.
Definition hex_to_u32 (s : Z) : M cmem (option Z) := hex_digits 8 s 0.

Definition align4 (n : Z) : Z := Z.land (u64 (n + 3)) (not64 3).

Definition str_eq (a b : cstr) : M bmem bool :=
  fuel ← gets (str_fuel a);
  loop fuel
    (fun i =>
       x ← char_at a i;
       y ← char_at b i;
       if negb (x =? 0) && negb (y =? 0) then
         if negb (x =? y) then mret (inr false) else mret (inl (i + 1))
       else mret (inr ((x =? 0) && (y =? 0))))
    0.

(** [name[0 .. n-1]] has no zero character. *)
Fixpoint no_zero (n : nat) (name : Z) : M cmem bool :=
  match n with
  | O => mret true
  | S n' => c ← byte name; if c =? 0 then mret false else no_zero n' (name + 1)
  end.

Fixpoint bytes_are (p : Z) (l : list Z) : M cmem bool :=
  match l with
  | [] => mret true
  | x :: l' => c ← byte p; if negb (c =? x) then mret false else bytes_are (p + 1) l'
  end.

(** ** Iteration *)

Definition cpio_iter_fn : Type := Z -> Z -> Z -> Z -> Z -> M cmem unit.

(** One round of the loop at [cur]: the callback's arguments and the next
    position, or the return value of [cpio_iterate]. *)
Definition cpio_member (limit cur : Z) : M cmem ((Z * Z * Z * Z * Z) + Z) :=
  if (limit <? cur) || (limit - cur <? SIZEOF_CPIO_HEADER) then mret (inr (-1))
  else
    magic ← bytes_are cur CPIO_NEWC_MAGIC;
    if negb magic then mret (inr (-1))
    else
      namesz ← hex_to_u32 (cur + OFF_c_namesize);
      match namesz with
      | None => mret (inr (-1))
      | Some namesz =>
      filesz ← hex_to_u32 (cur + OFF_c_filesize);
      match filesz with
      | None => mret (inr (-1))
      | Some filesz =>
      mode ← hex_to_u32 (cur + OFF_c_mode);
      match mode with
      | None => mret (inr (-1))
      | Some mode =>
        let name := cur + SIZEOF_CPIO_HEADER in
        if (namesz =? 0) || (limit - name <? namesz) then mret (inr (-1))
        else
          last ← byte (name + u32 (namesz - 1));
          if negb (last =? 0) then mret (inr (-1))
          else
            clean ← no_zero (Z.to_nat (namesz - 1)) name;
            if negb clean then mret (inr (-1))
            else
              trailer ← zoom (str_eq (CPtr name) (CLit TRAILER));
              if trailer : bool then mret (inr 0)
              else
                let name_span := align4 (SIZEOF_CPIO_HEADER + namesz) in
                if limit - cur <? name_span then mret (inr (-1))
                else
                  let data := cur + name_span in
                  let file_span := align4 filesz in
                  if limit - data <? file_span then mret (inr (-1))
                  else mret (inl (name, data, filesz, mode, data + file_span))
      end end end.

(** A member takes at least its header. *)
Definition cpio_iterate (start fin : Z) (fn : option cpio_iter_fn) (ctx : Z) : M cmem Z :=
  if (start =? 0) || (fin =? 0) then mret (-1)
  else
    match fn with
    | None => mret (-1)
    | Some fn =>
      if fin <? start then mret (-1)
      else
        loop (S (Z.to_nat ((fin - start) / SIZEOF_CPIO_HEADER)))
          (fun cur =>
             m ← cpio_member fin cur;
             match m with
             | inr v => mret (inr v)
             | inl (name, data, size, mode, next) => fn name data size mode ctx ;; mret (inl next)
             end)
          start
    end.

(** ** Lookup by name *)

Definition ctx_get (p : Z) : M cmem cpio_find_ctx := access (fun s => s.(cm_ctx) !! p).
Definition ctx_upd (p : Z) (f : cpio_find_ctx -> cpio_find_ctx) : M cmem unit :=
  update (fun s => c ← s.(cm_ctx) !! p; Some (set_cm_ctx (<[p := f c]> s.(cm_ctx)) s)).
Definition var_set (p v : Z) : M cmem unit :=
  update (fun s => _ ← s.(cm_vars) !! p; Some (set_cm_vars (<[p := v]> s.(cm_vars)) s)).

Definition cpio_find_cb : cpio_iter_fn := fun name data size mode ctx =>
  st ← ctx_get ctx;
  if negb (st.(fc_found) =? 0) then mret tt
  else
    same ← zoom (str_eq (CPtr name) st.(fc_name));
    when same (
      when (negb (st.(fc_data) =? 0)) (var_set st.(fc_data) data) ;;
      when (negb (st.(fc_size) =? 0)) (var_set st.(fc_size) size) ;;
      when (negb (st.(fc_mode) =? 0)) (var_set st.(fc_mode) mode) ;;
      ctx_upd ctx (set_fc_found 1)).

(** [ctx] is the address of the local context; [None] is a null [name]. *)
Definition cpio_find (ctx start fin : Z) (name : option cstr) (data size mode : Z) : M cmem Z :=
  match name with
  | None => mret (-1)
  | Some name =>
      modify (fun s => set_cm_ctx (<[ctx := mkFindCtx name data size mode 0]> s.(cm_ctx)) s) ;;
      r ← cpio_iterate start fin (Some cpio_find_cb) ctx;
      if negb (r =? 0) then mret (-1)
      else
        st ← ctx_get ctx;
        mret (if negb (st.(fc_found) =? 0) then 0 else -1)
  end.
