(* ===== verification/CpioSpec.v ===== *)
(** * What a cpio archive contains, and how the parser reads it

    Members and their encoding; the behaviour of one round of the loop on
    arbitrary bytes and on an encoded member. *)

From S2P Require Import Prelude Str Cpio.

Open Scope Z_scope.

(** ** The format *)

(** The header fields that the kernel ignores are kept as their characters. *)
Record member := mkMember {
  mb_name : list Z;
  mb_data : list Z;
  mb_mode : Z;
  mb_ino : list Z;
  mb_owner : list Z;    (* uid, gid, nlink, mtime *)
  mb_dev : list Z;      (* devmajor, devminor, rdevmajor, rdevminor *)
  mb_check : list Z;
}.

Definition hex_char (d : Z) : Z := if d <? 10 then 48 + d else 87 + d.

Fixpoint hex_chars (n : nat) (x : Z) : list Z :=
  match n with
  | O => []
  | S n' => hex_chars n' (x / 16) ++ [hex_char (x mod 16)]
  end.

Definition padding (n : Z) : list Z := replicate (Z.to_nat (align4 n - n)) 0.

Definition header_of (b : member) : list Z :=
  CPIO_NEWC_MAGIC ++ b.(mb_ino) ++ hex_chars 8 b.(mb_mode) ++ b.(mb_owner) ++
  hex_chars 8 (Z.of_nat (length b.(mb_data))) ++ b.(mb_dev) ++
  hex_chars 8 (Z.of_nat (length b.(mb_name)) + 1) ++ b.(mb_check).

Definition encode_member (b : member) : list Z :=
  header_of b ++ b.(mb_name) ++ [0] ++ padding (SIZEOF_CPIO_HEADER + Z.of_nat (length b.(mb_name)) + 1) ++
  b.(mb_data) ++ padding (Z.of_nat (length b.(mb_data))).

Definition trailer_member : member :=
  mkMember TRAILER [] 0 (hex_chars 8 0) (hex_chars 32 0) (hex_chars 32 0) (hex_chars 8 0).

Definition encode_archive (ms : list member) : list Z := mjoin (encode_member <$> ms) ++ encode_member trailer_member.

Definition member_ok (b : member) : Prop :=
  Forall (fun c => c <> 0) b.(mb_name) /\ b.(mb_name) <> TRAILER /\
  Z.of_nat (length b.(mb_name)) + 1 < 2 ^ 32 /\ Z.of_nat (length b.(mb_data)) < 2 ^ 32 /\ 0 <= b.(mb_mode) < 2 ^ 32 /\
  length b.(mb_ino) = 8%nat /\ length b.(mb_owner) = 32%nat /\ length b.(mb_dev) = 32%nat /\ length b.(mb_check) = 8%nat.

(** ** Blocks *)

Lemma block_app m p a b : block_at m p (a ++ b) <-> block_at m p a /\ block_at m (p + Z.of_nat (length a)) b.
Proof.
  split.
  - intros H. split.
    + intros i c E. apply H. by apply lookup_app_l_Some.
    + intros i c E. rewrite <- Z.add_assoc, <- Nat2Z.inj_add. apply H.
      rewrite lookup_app_r by lia. by replace (length a + i - length a)%nat with i by lia.
  - intros [Ha Hb] i c E. apply lookup_app_Some in E as [E|[Hi E]]; [by apply Ha|].
    specialize (Hb _ _ E). rewrite <- Hb. f_equal. lia.
Qed.

Lemma block_cons m p c l : block_at m p (c :: l) <-> m !! p = Some c /\ block_at m (p + 1) l.
Proof.
  change (c :: l) with ([c] ++ l). rewrite block_app. cbn [length]. change (Z.of_nat 1) with 1. split; intros [H1 H2]; (split; [|done]).
  - specialize (H1 0%nat c eq_refl). by rewrite Z.add_0_r in H1.
  - intros i x E. destruct i as [|i]; [|by rewrite lookup_nil in E || done]. injection E as <-. by rewrite Z.add_0_r.
Qed.

(** Readable memory is a block of some bytes. *)
Lemma block_exists (m : bmem) p n :
  (forall i, 0 <= i < Z.of_nat n -> is_Some (m !! (p + i))) -> exists l, length l = n /\ block_at m p l.
Proof.
  revert p. induction n as [|n IH]; intros p H; [by exists []|].
  destruct (H 0) as [c Hc]; [lia|]. destruct (IH (p + 1)) as (l & Hl & Hb).
  { intros i Hi. replace (p + 1 + i) with (p + (i + 1)) by lia. apply H. lia. }
  exists (c :: l). split; [cbn; lia|]. rewrite block_cons. by rewrite Z.add_0_r in Hc.
Qed.

(** ** The helpers *)

Lemma wp_byte p c Q (s : cmem) : s.(cm_bytes) !! p = Some c -> Q c s -> wp (byte p) Q s.
Proof.
  intros E H. apply wp_zoom. eapply wp_char_at; [cbn; by rewrite Z.add_0_r|]. by destruct s.
Qed.

Lemma wp_bytes_are l k : forall p Q (s : cmem),
  length l = length k -> block_at s.(cm_bytes) p l -> Q (bool_decide (l = k)) s -> wp (bytes_are p k) Q s.
Proof.
  revert k. induction l as [|c l IH]; intros k p Q s Hl Hb HQ; destruct k as [|x k]; try done.
  apply block_cons in Hb as [Hc Hb]. cbn. apply wp_bind. eapply wp_byte; [done|].
  destruct (Z.eqb_spec c x) as [->|Hne]; cbn [negb].
  - apply (IH k); [by injection Hl|done|]. replace (bool_decide (l = k)) with (bool_decide (x :: l = x :: k)); [done|].
    apply bool_decide_ext. naive_solver.
  - apply wp_ret. rewrite bool_decide_false in HQ by naive_solver. done.
Qed.

Fixpoint hex_fold (l : list Z) (v : Z) : option Z :=
  match l with
  | [] => Some v
  | c :: l' => match hex_digit c with Some d => hex_fold l' (Z.lor (u32 (Z.shiftl v 4)) d) | None => None end
  end.

Lemma wp_hex_digits l : forall p v Q (s : cmem),
  block_at s.(cm_bytes) p l -> Q (hex_fold l v) s -> wp (hex_digits (length l) p v) Q s.
Proof.
  induction l as [|c l IH]; intros p v Q s Hb HQ; [by apply wp_ret|].
  apply block_cons in Hb as [Hc Hb]. cbn in *. apply wp_bind. eapply wp_byte; [done|].
  destruct (hex_digit c); [by apply IH|by apply wp_ret].
Qed.

Lemma hex_digit_char d : 0 <= d < 16 -> hex_digit (hex_char d) = Some d.
Proof.
  intros H. assert (d ∈ seqZ 0 16) as Hd by (apply elem_of_seqZ; lia). revert Hd. clear H. unfold seqZ. cbn.
  intros Hd. repeat (apply elem_of_cons in Hd as [->|Hd]; [done|]). by apply elem_of_nil in Hd.
Qed.

Lemma hex_fold_app a b v : hex_fold (a ++ b) v = hex_fold a v ≫= hex_fold b.
Proof. revert v. induction a as [|c a IH]; intros v; cbn; [done|]. by destruct (hex_digit c). Qed.

Lemma hex_step v d : 0 <= v < 2 ^ 28 -> 0 <= d < 16 -> Z.lor (u32 (Z.shiftl v 4)) d = 16 * v + d.
Proof.
  intros Hv Hd. rewrite Z.shiftl_mul_pow2, u32_id by lia. pose proof (Z.add_lor_land (v * 2 ^ 4) d).
  assert (Z.land (v * 2 ^ 4) d = 0) as E; [|lia].
  replace d with (d mod 2 ^ 4) by (apply Z.mod_small; lia). rewrite <- Z.land_ones by lia.
  rewrite (Z.land_comm d), Z.land_assoc, Z.land_ones by lia. by rewrite Z.mod_mul by lia.
Qed.

Lemma hex_fold_chars n : forall x, (n <= 8)%nat -> 0 <= x < 16 ^ Z.of_nat n -> hex_fold (hex_chars n x) 0 = Some x.
Proof.
  induction n as [|n IH]; intros x Hn Hx.
  - change (16 ^ Z.of_nat 0) with 1 in Hx. cbn. f_equal. lia.
  - assert (Hp : 16 ^ Z.of_nat (S n) = 16 * 16 ^ Z.of_nat n) by (rewrite Nat2Z.inj_succ, Z.pow_succ_r; lia).
    assert (Hd : 0 <= x / 16 < 16 ^ Z.of_nat n).
    { split; [apply Z.div_pos; lia|]. apply Z.div_lt_upper_bound; lia. }
    pose proof (Z.mod_pos_bound x 16 ltac:(lia)). cbn [hex_chars]. rewrite hex_fold_app, IH by (done || lia).
    cbn. rewrite hex_digit_char by done. f_equal. rewrite hex_step; [pose proof (Z.div_mod x 16); lia| |done].
    split; [lia|]. eapply Z.lt_le_trans; [exact (proj2 Hd)|].
    change (2 ^ 28) with (16 ^ 7). apply Z.pow_le_mono_r; lia.
Qed.

Lemma hex_chars_length n x : length (hex_chars n x) = n.
Proof. revert x. induction n as [|n IH]; intros x; [done|]. cbn. rewrite length_app, IH. cbn. lia. Qed.

Lemma hex_digit_range c d : hex_digit c = Some d -> 0 <= d < 16.
Proof.
  unfold hex_digit.
  repeat match goal with |- context [(?a <=? ?b) && (?c <=? ?d)] =>
    destruct (Z.leb_spec a b), (Z.leb_spec c d); cbn [andb] end; intros E; simplify_eq; lia.
Qed.

Lemma lor_u32 a b : 0 <= a < 2 ^ 32 -> 0 <= b < 2 ^ 32 -> 0 <= Z.lor a b < 2 ^ 32.
Proof.
  intros Ha Hb. split; [apply Z.lor_nonneg; lia|].
  destruct (decide (Z.lor a b = 0)) as [->|Hne]; [lia|].
  assert (0 <= Z.lor a b) by (apply Z.lor_nonneg; lia). apply Z.log2_lt_pow2; [lia|]. rewrite Z.log2_lor by lia.
  apply Z.max_lub_lt; [destruct (decide (a = 0)) as [->|]|destruct (decide (b = 0)) as [->|]];
    try (cbn; lia); apply Z.log2_lt_pow2; lia.
Qed.

Lemma hex_fold_range l : forall v x, 0 <= v < 2 ^ 32 -> hex_fold l v = Some x -> 0 <= x < 2 ^ 32.
Proof.
  induction l as [|c l IH]; intros v x Hv E; cbn in E; [by injection E as <-|].
  destruct (hex_digit c) as [d|] eqn:Ed; [|done]. apply hex_digit_range in Ed.
  eapply IH; [|done]. apply lor_u32; [apply u32_range|lia].
Qed.

Lemma wp_str_eq m a b la lb Q :
  string_at m a la -> string_at m b lb -> Q (bool_decide (la = lb)) m -> wp (str_eq a b) Q m.
Proof.
  intros Ha Hb HQ. unfold str_eq. apply wp_bind, wp_gets.
  apply (wp_loop (fun i m' => m' = m /\ 0 <= i <= Z.of_nat (length la) /\ i <= Z.of_nat (length lb) /\
                     forall j, (j < Z.to_nat i)%nat -> la !! j = lb !! j) (fun i _ => Z.of_nat (length la) - i)).
  - intros i m' (_ & ? & _). lia.
  - intros i m' (-> & Hi & Hi2 & Heq). apply wp_bind.
    assert (Hch : forall s l, string_at m s l -> i <= Z.of_nat (length l) ->
      (i = Z.of_nat (length l) /\ char_of m s i = Some 0) \/
      exists c, l !! Z.to_nat i = Some c /\ char_of m s i = Some c /\ c <> 0).
    { intros s l Hs Hle. destruct (decide (i = Z.of_nat (length l))) as [->|]; [left; split; [done|by apply string_end]|].
      right. destruct (lookup_lt_is_Some_2 l (Z.to_nat i)) as [c Hc]; [lia|]. exists c. split; [done|].
      destruct (string_char m s l _ c Hs Hc) as [E ?]. by rewrite Z2Nat.id in E by lia. }
    destruct (Hch a la Ha ltac:(lia)) as [[Ea Ca]|(x & Ex & Ca & Hx)]; (eapply wp_char_at; [exact Ca|]; apply wp_bind);
      (destruct (Hch b lb Hb Hi2) as [[Eb Cb]|(y & Ey & Cb & Hy)]; (eapply wp_char_at; [exact Cb|])).
    + apply wp_ret. rewrite bool_decide_true in HQ; [done|]. apply list_eq. intros j.
      destruct (decide (j < Z.to_nat i)%nat); [auto|]. rewrite !lookup_ge_None_2 by lia. done.
    + apply Z.eqb_neq in Hy. rewrite Hy. cbn. apply wp_ret. rewrite bool_decide_false in HQ; [done|].
      intros ->. apply lookup_lt_Some in Ey. lia.
    + apply Z.eqb_neq in Hx. rewrite Hx. cbn. apply wp_ret. rewrite bool_decide_false in HQ; [done|].
      intros ->. apply lookup_lt_Some in Ex. lia.
    + apply Z.eqb_neq in Hx, Hy. rewrite Hx, Hy. cbn [negb andb].
      destruct (Z.eqb_spec x y) as [->|Hne]; cbn [negb]; apply wp_ret.
      * pose proof (lookup_lt_Some _ _ _ Ex). pose proof (lookup_lt_Some _ _ _ Ey). split_and!; try done; try lia.
        intros j Hj. destruct (decide (j = Z.to_nat i)) as [->|]; [congruence|apply Heq; lia].
      * rewrite bool_decide_false in HQ; [done|]. intros ->. congruence.
  - split_and!; try done; lia.
  - pose proof (string_fuel m a la Ha). lia.
Qed.

Lemma wp_no_zero l : forall p Q (s : cmem),
  block_at s.(cm_bytes) p l -> Q (bool_decide (Forall (fun c => c <> 0) l)) s -> wp (no_zero (length l) p) Q s.
Proof.
  induction l as [|c l IH]; intros p Q s Hb HQ; [by apply wp_ret|].
  apply block_cons in Hb as [Hc Hb]. cbn. apply wp_bind. eapply wp_byte; [done|].
  destruct (Z.eqb_spec c 0) as [->|Hne].
  - apply wp_ret. rewrite bool_decide_false in HQ by (by rewrite Forall_cons; intros [? _]). done.
  - apply IH; [done|]. replace (bool_decide (Forall _ l)) with (bool_decide (Forall (fun c => c <> 0) (c :: l))); [done|].
    apply bool_decide_ext. rewrite Forall_cons. naive_solver.
Qed.

Lemma align4_spec n : 0 <= n < 2 ^ 63 -> n <= align4 n < n + 4 /\ (4 | align4 n).
Proof.
  intros H. unfold align4. rewrite land_not64 by apply u64_range. rewrite u64_id by lia.
  change (Z.lnot 3) with (Z.lnot (2 ^ 2 - 1)). rewrite land_lnot_mask by lia. change (2 ^ 2) with 4.
  split; [pose proof (Z.mod_pos_bound (n + 3) 4); lia|by apply divide_round_down].
Qed.

Lemma block_string m p l : block_at m p (l ++ [0]) -> Forall (fun c => c <> 0) l -> string_at m (CPtr p) l.
Proof.
  intros Hb Hz. split; [done|]. intros i Hi. cbn.
  destruct (lookup_lt_is_Some_2 (l ++ [0]) i) as [c E]; [rewrite length_app; cbn; lia|]. rewrite E. by apply Hb.
Qed.

(** ** The reference parser, on the bytes of an archive *)

Definition field (l : list Z) (off : Z) : list Z := take 8 (drop (Z.to_nat off) l).

(** A member at the front of [l]: its name, the offset of its contents, their
    size, its mode and the offset of the next member; or the return value. *)
Definition parse_member (l : list Z) : (list Z * Z * Z * Z * Z) + Z :=
  let len := Z.of_nat (length l) in
  if len <? SIZEOF_CPIO_HEADER then inr (-1)
  else if negb (bool_decide (take 6 l = CPIO_NEWC_MAGIC)) then inr (-1)
  else
    match hex_fold (field l OFF_c_namesize) 0, hex_fold (field l OFF_c_filesize) 0, hex_fold (field l OFF_c_mode) 0 with
    | Some namesz, Some filesz, Some mode =>
        if (namesz =? 0) || (len - SIZEOF_CPIO_HEADER <? namesz) then inr (-1)
        else
          let name := take (Z.to_nat (namesz - 1)) (drop 110 l) in
          if negb (bool_decide (l !! Z.to_nat (SIZEOF_CPIO_HEADER + (namesz - 1)) = Some 0)) then inr (-1)
          else if negb (bool_decide (Forall (fun c => c <> 0) name)) then inr (-1)
          else if bool_decide (name = TRAILER) then inr 0
          else
            let data := align4 (SIZEOF_CPIO_HEADER + namesz) in
            if len <? data then inr (-1)
            else if len - data <? align4 filesz then inr (-1)
            else inl (name, data, filesz, mode, data + align4 filesz)
    | _, _, _ => inr (-1)
    end.

(** The members of the archive [l], which starts at offset [off] of the whole:
    name, offset of the name, offset of the contents, size and mode. *)
Record entry := mkEntry { en_name : list Z; en_name_off : Z; en_data_off : Z; en_size : Z; en_mode : Z }.

Fixpoint parse_archive (fuel : nat) (off : Z) (l : list Z) : list entry * Z :=
  match fuel with
  | O => ([], -1)
  | S fuel' =>
      match parse_member l with
      | inr v => ([], v)
      | inl (name, data, size, mode, next) =>
          let '(es, v) := parse_archive fuel' (off + next) (drop (Z.to_nat next) l) in
          (mkEntry name (off + SIZEOF_CPIO_HEADER) (off + data) size mode :: es, v)
      end
  end.

Definition archive (l : list Z) : list entry * Z :=
  parse_archive (S (Z.to_nat (Z.of_nat (length l) / SIZEOF_CPIO_HEADER))) 0 l.

(** ** One round of the loop *)

Definition place (cur : Z) (r : (list Z * Z * Z * Z * Z) + Z) : (Z * Z * Z * Z * Z) + Z :=
  match r with
  | inl (name, data, size, mode, next) => inl (cur + SIZEOF_CPIO_HEADER, cur + data, size, mode, cur + next)
  | inr v => inr v
  end.

Lemma block_part m p l off n :
  block_at m p l -> 0 <= off -> block_at m (p + off) (take n (drop (Z.to_nat off) l)).
Proof.
  intros H Ho i c E. apply lookup_take_Some in E as [E _]. rewrite lookup_drop in E. rewrite <- (H _ _ E). f_equal. lia.
Qed.

Lemma wp_field m0 cur l off Q (s : cmem) :
  s.(cm_bytes) = m0 -> block_at m0 cur l -> 0 <= off -> off + 8 <= Z.of_nat (length l) ->
  Q (hex_fold (field l off) 0) s -> wp (hex_to_u32 (cur + off)) Q s.
Proof.
  intros Em Hb Ho Hl HQ. unfold hex_to_u32.
  replace 8%nat with (length (field l off)) by (unfold field; rewrite length_take, length_drop; lia).
  apply wp_hex_digits; [|done]. rewrite Em. by apply block_part.
Qed.

Lemma wp_cpio_member cur l Q (s : cmem) :
  block_at s.(cm_bytes) cur l -> Q (place cur (parse_member l)) s ->
  wp (cpio_member (cur + Z.of_nat (length l)) cur) Q s.
Proof.
  intros Hb HQ. unfold cpio_member, parse_member in *.
  rewrite (proj2 (Z.ltb_ge (cur + _) cur)) by lia. cbn [orb].
  replace (cur + Z.of_nat (length l) - cur) with (Z.of_nat (length l)) by lia.
  destruct (Z.ltb_spec (Z.of_nat (length l)) SIZEOF_CPIO_HEADER) as [Hs|Hs]; [by apply wp_ret|].
  unfold SIZEOF_CPIO_HEADER in Hs. apply wp_bind.
  apply (wp_bytes_are (take 6 l)); [rewrite length_take; change (length CPIO_NEWC_MAGIC) with 6%nat; lia| |].
  { rewrite <- (Z.add_0_r cur). by apply (block_part _ _ l 0 6). }
  destruct (bool_decide (take 6 l = CPIO_NEWC_MAGIC)); cbn [negb] in *; [|by apply wp_ret].
  apply wp_bind. eapply wp_field; [done|done|unfold OFF_c_namesize; lia..|].
  destruct (hex_fold (field l OFF_c_namesize) 0) as [namesz|] eqn:En; [|by apply wp_ret].
  apply wp_bind. eapply wp_field; [done|done|unfold OFF_c_filesize; lia..|].
  destruct (hex_fold (field l OFF_c_filesize) 0) as [filesz|] eqn:Ef; [|by apply wp_ret].
  apply wp_bind. eapply wp_field; [done|done|unfold OFF_c_mode; lia..|].
  destruct (hex_fold (field l OFF_c_mode) 0) as [mode|]; [|by apply wp_ret].
  apply hex_fold_range in En, Ef; [|lia..].
  replace (cur + Z.of_nat (length l) - (cur + SIZEOF_CPIO_HEADER)) with (Z.of_nat (length l) - SIZEOF_CPIO_HEADER) by lia.
  destruct (Z.eqb_spec namesz 0) as [|Hn0]; [by apply wp_ret|].
  destruct (Z.ltb_spec (Z.of_nat (length l) - SIZEOF_CPIO_HEADER) namesz) as [|Hn]; [by apply wp_ret|].
  cbn [orb] in *. unfold SIZEOF_CPIO_HEADER in Hn. apply wp_bind. rewrite u32_id by lia.
  destruct (lookup_lt_is_Some_2 l (Z.to_nat (110 + (namesz - 1)))) as [last El]; [lia|].
  unfold SIZEOF_CPIO_HEADER in HQ |- *. rewrite El in HQ. eapply (wp_byte _ last).
  { rewrite <- (Hb _ _ El). f_equal. lia. }
  destruct (Z.eqb_spec last 0) as [->|Hl0]; cbn [negb] in *.
  2: { rewrite bool_decide_false in HQ by congruence. by apply wp_ret. }
  rewrite bool_decide_true in HQ by done. cbn [negb] in HQ.
  set (nm := take (Z.to_nat (namesz - 1)) (drop 110 l)) in *.
  assert (Hnl : length nm = Z.to_nat (namesz - 1)) by (unfold nm; rewrite length_take, length_drop; lia).
  assert (Hbn : block_at s.(cm_bytes) (cur + 110) nm) by (by apply (block_part _ _ l 110)).
  apply wp_bind. rewrite <- Hnl. apply wp_no_zero; [done|].
  destruct (bool_decide_reflect (Forall (fun c => c <> 0) nm)) as [Hz|]; cbn [negb] in *; [|by apply wp_ret].
  apply wp_bind, wp_zoom. change (view s) with s.(cm_bytes).
  apply (wp_str_eq _ _ _ nm TRAILER).
  { apply block_string; [|done]. apply block_app. split; [done|]. apply block_cons.
    split; [|intros ? ? E; by rewrite lookup_nil in E]. rewrite <- (Hb _ _ El). f_equal. lia. }
  { apply string_literal. by repeat constructor. }
  replace (put s.(cm_bytes) s) with s by (by destruct s).
  destruct (bool_decide (nm = TRAILER)); [by apply wp_ret|].
  destruct (Z.of_nat (length l) <? align4 (110 + namesz)); [by apply wp_ret|].
  replace (cur + Z.of_nat (length l) - (cur + align4 (110 + namesz))) with (Z.of_nat (length l) - align4 (110 + namesz)) by lia.
  destruct (Z.of_nat (length l) - align4 (110 + namesz) <? align4 filesz); [by apply wp_ret|].
  apply wp_ret. cbn [place] in HQ. unfold SIZEOF_CPIO_HEADER in HQ. by rewrite Z.add_assoc in HQ.
Qed.
