(* ===== verification/Archive.v ===== *)
(** * Archives: what [cpio_iterate] and [cpio_find] do

    The loop visits exactly the members that the reference parser finds; an
    encoded archive parses to its members; a lookup finds the first member of
    the name. *)

From S2P Require Import Prelude Str Cpio CpioSpec.

Open Scope Z_scope.

(** The calls of the callback for the members [es] of an archive at [start]. *)
Fixpoint visit_all (fn : cpio_iter_fn) (ctx start : Z) (es : list entry) : M cmem unit :=
  match es with
  | [] => mret tt
  | e :: es' =>
      fn (start + e.(en_name_off)) (start + e.(en_data_off)) e.(en_size) e.(en_mode) ctx ;;
      visit_all fn ctx start es'
  end.

(** [e] lies inside the archive [l]: its name is a string, its contents follow. *)
Definition entry_inside (l : list Z) (e : entry) : Prop :=
  0 <= e.(en_name_off) /\
  take (S (length e.(en_name))) (drop (Z.to_nat e.(en_name_off)) l) = e.(en_name) ++ [0] /\
  Forall (fun c => c <> 0) e.(en_name) /\ 0 <= e.(en_size) < 2 ^ 32 /\ 0 <= e.(en_mode) < 2 ^ 32 /\
  e.(en_name_off) + Z.of_nat (length e.(en_name)) + 1 <= e.(en_data_off) /\
  e.(en_data_off) + e.(en_size) <= Z.of_nat (length l).

(** ** Functions that leave a part of the state alone *)

Definition keeps {S T A} (f : S -> T) (m : M S A) : Prop := forall s a s', m s = Some (a, s') -> f s' = f s.

Section keeps_rules.
Context {S T : Type} (f : S -> T).

Lemma keeps_ret {A} (a : A) : keeps f (mret a : M S A).
Proof. intros s b s' E. by injection E as _ <-. Qed.
Lemma keeps_gets {A} (g : S -> A) : keeps f (gets g).
Proof. intros s b s' E. by injection E as _ <-. Qed.
Lemma keeps_access {A} (g : S -> option A) : keeps f (access g).
Proof. intros s b s' E. unfold access in E. destruct (g s); [|done]. by injection E as _ <-. Qed.
Lemma keeps_bind {A B} (m : M S A) (k : A -> M S B) : keeps f m -> (forall a, keeps f (k a)) -> keeps f (m ≫= k).
Proof.
  intros Hm Hk s b s' E. unfold mbind, M_bind in E. destruct (m s) as [[a s1]|] eqn:E1; [|done].
  rewrite (Hk _ _ _ _ E). by apply (Hm _ _ _ E1).
Qed.
Lemma keeps_when b (m : M S unit) : keeps f m -> keeps f (when b m).
Proof. intros H. destruct b; [done|apply keeps_ret]. Qed.
Lemma keeps_loop {St R} n (body : St -> M S (St + R)) st : (forall st, keeps f (body st)) -> keeps f (loop n body st).
Proof.
  intros H. revert st. induction n as [|n IH]; intros st; [intros s b s' E; done|]. cbn. apply keeps_bind; [done|].
  intros [st'|r]; [apply IH|apply keeps_ret].
Qed.
End keeps_rules.

Lemma keeps_zoom_id {S T U A} `{Lens S T} (f : S -> U) (m : M T A) : keeps id m -> keeps f (zoom m).
Proof.
  intros Hm s a s' E. unfold zoom in E. destruct (m (view s)) as [[x t]|] eqn:Em; [|done]. injection E as _ <-.
  apply Hm in Em. cbn in Em. rewrite Em. by rewrite put_view.
Qed.

Lemma str_eq_keeps a b : keeps id (str_eq a b).
Proof.
  apply keeps_bind; [apply keeps_gets|]. intros fuel. apply keeps_loop. intros i.
  apply keeps_bind; [apply keeps_access|]. intros x. apply keeps_bind; [apply keeps_access|]. intros y.
  repeat case_match; apply keeps_ret.
Qed.

Lemma keeps_var_set p v : keeps cm_bytes (var_set p v).
Proof. intros s [] s' E. unfold var_set, update in E. destruct (cm_vars s !! p); [|done]. by injection E as <-. Qed.
Lemma keeps_ctx_upd p g : keeps cm_bytes (ctx_upd p g).
Proof. intros s [] s' E. unfold ctx_upd, update in E. destruct (cm_ctx s !! p); [|done]. by injection E as <-. Qed.

(** ** One member *)

Lemma parse_member_inside l name data size mode next :
  parse_member l = inl (name, data, size, mode, next) ->
  entry_inside l (mkEntry name SIZEOF_CPIO_HEADER data size mode) /\ 110 < next <= Z.of_nat (length l).
Proof.
  unfold parse_member, SIZEOF_CPIO_HEADER. intros H.
  destruct (Z.ltb_spec (Z.of_nat (length l)) 110); [done|].
  destruct (bool_decide (take 6 l = _)); [|done]. cbn [negb] in H.
  destruct (hex_fold (field l OFF_c_namesize) 0) as [namesz|] eqn:En; [|done].
  destruct (hex_fold (field l OFF_c_filesize) 0) as [filesz|] eqn:Ef; [|done].
  destruct (hex_fold (field l OFF_c_mode) 0) as [md|] eqn:Em; [|done].
  apply hex_fold_range in En, Ef, Em; [|lia..].
  destruct (Z.eqb_spec namesz 0), (Z.ltb_spec (Z.of_nat (length l) - 110) namesz); cbn [orb] in H; try done.
  destruct (bool_decide_reflect (l !! Z.to_nat (110 + (namesz - 1)) = Some 0)) as [El|]; [|done]. cbn [negb] in H.
  destruct (bool_decide_reflect (Forall (fun c => c <> 0) (take (Z.to_nat (namesz - 1)) (drop 110 l)))); [|done].
  cbn [negb] in H. destruct (bool_decide (_ = TRAILER)); [done|].
  pose proof (align4_spec (110 + namesz) ltac:(lia)). pose proof (align4_spec filesz ltac:(lia)).
  destruct (Z.ltb_spec (Z.of_nat (length l)) (align4 (110 + namesz))); [done|].
  destruct (Z.ltb_spec (Z.of_nat (length l) - align4 (110 + namesz)) (align4 filesz)); [done|].
  injection H as <- <- <- <- <-. split; [|lia].
  assert (Hl : length (take (Z.to_nat (namesz - 1)) (drop 110 l)) = Z.to_nat (namesz - 1)).
  { rewrite length_take, length_drop. lia. }
  unfold entry_inside. cbn [en_name en_name_off en_data_off en_size en_mode]. rewrite Hl. split_and!; try done; try lia.
  apply take_S_r. rewrite lookup_drop. rewrite <- El. f_equal. lia.
Qed.

Lemma entry_inside_drop l n e off :
  0 <= n -> n <= Z.of_nat (length l) -> entry_inside (drop (Z.to_nat n) l) e ->
  e.(en_name_off) = off -> entry_inside l (mkEntry e.(en_name) (n + off) (n + e.(en_data_off)) e.(en_size) e.(en_mode)).
Proof.
  intros Hn Hl (H1 & H2 & H3 & H4 & H5 & H6 & H7) <-. unfold entry_inside. cbn.
  rewrite drop_drop, length_drop in *. split_and!; try done; try lia.
  by replace (Z.to_nat (n + en_name_off e)) with (Z.to_nat n + Z.to_nat (en_name_off e))%nat by lia.
Qed.

Lemma parse_archive_inside fuel : forall off l whole,
  0 <= off -> off <= Z.of_nat (length whole) -> l = drop (Z.to_nat off) whole ->
  Forall (entry_inside whole) (parse_archive fuel off l).1.
Proof.
  induction fuel as [|fuel IH]; intros off l whole Ho Hl E; [constructor|]. cbn.
  destruct (parse_member l) as [[[[[name data] size] mode] next]|v] eqn:Ep; [|constructor].
  apply parse_member_inside in Ep as [He Hn].
  assert (Hlen : Z.of_nat (length l) = Z.of_nat (length whole) - off) by (rewrite E, length_drop; lia).
  pose proof (IH (off + next) (drop (Z.to_nat next) l) whole ltac:(lia) ltac:(lia)) as Hr.
  destruct (parse_archive fuel (off + next) (drop (Z.to_nat next) l)) as [es v]. constructor.
  - rewrite E in He. apply (entry_inside_drop whole off _ SIZEOF_CPIO_HEADER Ho Hl He eq_refl).
  - apply Hr. rewrite E, drop_drop. f_equal. lia.
Qed.

Lemma archive_inside l : Forall (entry_inside l) (archive l).1.
Proof. by apply parse_archive_inside; [lia..|]. Qed.

(** ** The loop *)

Definition iterate_round (limit : Z) (fn : cpio_iter_fn) (ctx : Z) : Z -> M cmem (Z + Z) := fun cur =>
  m ← cpio_member limit cur;
  match m with
  | inr v => mret (inr v)
  | inl (name, data, size, mode, next) => fn name data size mode ctx ;; mret (inl next)
  end.

Definition keeps_bytes (fn : cpio_iter_fn) (ctx : Z) : Prop :=
  forall name data size mode s a s', fn name data size mode ctx s = Some (a, s') -> s'.(cm_bytes) = s.(cm_bytes).

Lemma member_run cur limit l (s : cmem) :
  block_at s.(cm_bytes) cur l -> limit = cur + Z.of_nat (length l) ->
  cpio_member limit cur s = Some (place cur (parse_member l), s).
Proof.
  intros Hb ->. destruct (wp_run _ _ _ (wp_cpio_member cur l (fun a s' => a = place cur (parse_member l) /\ s' = s) s Hb
    (conj eq_refl eq_refl))) as (a & s' & E & -> & ->). done.
Qed.

Lemma iterate_loop fn ctx start limit (Hfn : keeps_bytes fn ctx) : forall fuel off l (s : cmem),
  block_at s.(cm_bytes) (start + off) l -> limit = start + off + Z.of_nat (length l) ->
  Z.of_nat (length l) < SIZEOF_CPIO_HEADER * Z.of_nat fuel ->
  loop fuel (iterate_round limit fn ctx) (start + off) s =
  (visit_all fn ctx start (parse_archive fuel off l).1 ;; mret (parse_archive fuel off l).2) s.
Proof.
  induction fuel as [|fuel IH]; intros off l s Hb Hlim Hf; [lia|].
  cbn [loop parse_archive]. unfold iterate_round at 2, mbind, M_bind. cbn beta.
  rewrite (member_run _ _ l) by done.
  destruct (parse_member l) as [[[[[name data] size] mode] next]|v] eqn:Ep; [|done]. cbn [place].
  apply parse_member_inside in Ep as [He Hn]. unfold SIZEOF_CPIO_HEADER in Hf |- *.
  specialize (IH (off + next) (drop (Z.to_nat next) l)).
  destruct (parse_archive fuel (off + next) (drop (Z.to_nat next) l)) as [es v]. cbn [fst snd visit_all].
  unfold mbind, M_bind, mret, M_ret. cbn [en_name_off en_data_off en_size en_mode]. rewrite !Z.add_assoc in *.
  destruct (fn (start + off + 110) (start + off + data) size mode ctx s) as [[[] s1]|] eqn:Ef; [|done].
  apply Hfn in Ef. rewrite IH; [done| | |].
  - rewrite Ef. intros i c E. rewrite lookup_drop in E. rewrite <- (Hb _ _ E). f_equal. lia.
  - rewrite Hlim, length_drop. lia.
  - rewrite length_drop. unfold SIZEOF_CPIO_HEADER. lia.
Qed.

Lemma archive_fuel n : 0 <= n -> n < SIZEOF_CPIO_HEADER * Z.of_nat (S (Z.to_nat (n / SIZEOF_CPIO_HEADER))).
Proof.
  unfold SIZEOF_CPIO_HEADER. intros H. pose proof (Z.div_pos n 110 H). pose proof (Z.div_mod n 110).
  pose proof (Z.mod_pos_bound n 110). lia.
Qed.

Lemma iterate_visits fn ctx start l (s : cmem) :
  keeps_bytes fn ctx -> start <> 0 -> start + Z.of_nat (length l) <> 0 -> block_at s.(cm_bytes) start l ->
  cpio_iterate start (start + Z.of_nat (length l)) (Some fn) ctx s =
  (visit_all fn ctx start (archive l).1 ;; mret (archive l).2) s.
Proof.
  intros Hfn Hs He Hb. unfold cpio_iterate. apply Z.eqb_neq in Hs, He. rewrite Hs, He. cbn [orb].
  rewrite (proj2 (Z.ltb_ge _ _)) by lia.
  replace (start + Z.of_nat (length l) - start) with (Z.of_nat (length l)) by lia.
  pose proof (iterate_loop fn ctx start (start + Z.of_nat (length l)) Hfn) as H. specialize (H
    (S (Z.to_nat (Z.of_nat (length l) / SIZEOF_CPIO_HEADER))) 0 l s). rewrite Z.add_0_r in H.
  apply H; [done|done|]. apply archive_fuel. lia.
Qed.

(** ** Encoded members *)

Lemma field_at a x b off : Z.of_nat (length a) = off -> length x = 8%nat -> field (a ++ x ++ b) off = x.
Proof.
  intros <- Hx. unfold field. rewrite Nat2Z.id, drop_app_length. rewrite <- Hx. apply take_app_length.
Qed.

Lemma padding_length n : 0 <= n < 2 ^ 63 -> Z.of_nat (length (padding n)) = align4 n - n.
Proof. intros H. pose proof (align4_spec n H). unfold padding. rewrite length_replicate. lia. Qed.

Section encoded.
Context (b : member).
Context (Hino : length b.(mb_ino) = 8%nat) (Howner : length b.(mb_owner) = 32%nat).
Context (Hdev : length b.(mb_dev) = 32%nat) (Hcheck : length b.(mb_check) = 8%nat).
Context (Hname : Z.of_nat (length b.(mb_name)) + 1 < 2 ^ 32) (Hdata : Z.of_nat (length b.(mb_data)) < 2 ^ 32).

Local Abbreviation nlen := (Z.of_nat (length b.(mb_name))).
Local Abbreviation dlen := (Z.of_nat (length b.(mb_data))).

Lemma header_length : length (header_of b) = 110%nat.
Proof using Hcheck Hdev Hino Howner.
  unfold header_of. rewrite !length_app, !hex_chars_length, Hino, Howner, Hdev, Hcheck. done.
Qed.

Lemma header_fields rest :
  field (header_of b ++ rest) OFF_c_mode = hex_chars 8 b.(mb_mode) /\
  field (header_of b ++ rest) OFF_c_filesize = hex_chars 8 dlen /\
  field (header_of b ++ rest) OFF_c_namesize = hex_chars 8 (nlen + 1).
Proof using Hcheck Hdev Hino Howner.
  unfold header_of. rewrite <- !app_assoc. split_and!.
  - rewrite (app_assoc CPIO_NEWC_MAGIC). apply field_at; [|apply hex_chars_length]. by rewrite length_app, Hino.
  - rewrite 3!app_assoc. apply field_at; [|apply hex_chars_length].
    by rewrite !length_app, hex_chars_length, Hino, Howner.
  - rewrite 5!app_assoc. apply field_at; [|apply hex_chars_length].
    by rewrite !length_app, !hex_chars_length, Hino, Howner, Hdev.
Qed.

Lemma encode_length :
  Z.of_nat (length (encode_member b)) = align4 (SIZEOF_CPIO_HEADER + nlen + 1) + align4 dlen.
Proof using Hcheck Hdata Hdev Hino Hname Howner.
  unfold encode_member, SIZEOF_CPIO_HEADER. rewrite !length_app, header_length. cbn [length].
  pose proof (padding_length (110 + nlen + 1) ltac:(lia)). pose proof (padding_length dlen ltac:(lia)). lia.
Qed.

Lemma encode_contents rest :
  take (length b.(mb_data)) (drop (Z.to_nat (align4 (SIZEOF_CPIO_HEADER + nlen + 1))) (encode_member b ++ rest)) = b.(mb_data).
Proof using Hcheck Hdata Hdev Hino Hname Howner.
  unfold encode_member. rewrite <- !app_assoc.
  rewrite 3!app_assoc.
  rewrite drop_app_length'; [apply take_app_length|].
  unfold SIZEOF_CPIO_HEADER. rewrite !length_app, header_length. cbn [length].
  pose proof (padding_length (110 + nlen + 1) ltac:(lia)). lia.
Qed.

Lemma encode_parse rest :
  Forall (fun c => c <> 0) b.(mb_name) -> 0 <= b.(mb_mode) < 2 ^ 32 ->
  parse_member (encode_member b ++ rest) =
    (if bool_decide (b.(mb_name) = TRAILER) then inr 0
     else inl (b.(mb_name), align4 (SIZEOF_CPIO_HEADER + nlen + 1), dlen, b.(mb_mode),
               Z.of_nat (length (encode_member b)))).
Proof using Hcheck Hdata Hdev Hino Hname Howner.
  intros Hz Hmode. pose proof encode_length as Hlen. pose proof header_length as Hh.
  pose proof (align4_spec (110 + nlen + 1) ltac:(lia)). pose proof (align4_spec dlen ltac:(lia)).
  unfold parse_member. rewrite length_app, Nat2Z.inj_add, Hlen. unfold SIZEOF_CPIO_HEADER in *.
  rewrite (proj2 (Z.ltb_ge _ 110)) by lia.
  assert (Es : encode_member b ++ rest = header_of b ++ b.(mb_name) ++ 0 ::
    (padding (110 + nlen + 1) ++ b.(mb_data) ++ padding dlen) ++ rest).
  { unfold encode_member, SIZEOF_CPIO_HEADER. by rewrite <- !app_assoc. }
  rewrite Es. destruct (header_fields (b.(mb_name) ++ 0 :: (padding (110 + nlen + 1) ++ b.(mb_data) ++ padding dlen) ++ rest))
    as (-> & -> & ->).
  rewrite bool_decide_true by (unfold header_of; rewrite <- !app_assoc; apply (take_app_length CPIO_NEWC_MAGIC)).
  cbn [negb]. change (2 ^ 32) with (16 ^ Z.of_nat 8) in *. rewrite !hex_fold_chars by lia.
  rewrite (proj2 (Z.eqb_neq _ 0)), (proj2 (Z.ltb_ge _ (nlen + 1))) by lia. cbn [orb].
  replace (Z.to_nat (nlen + 1 - 1)) with (length b.(mb_name)) by lia.
  assert (Hdrop : forall k, drop 110 (header_of b ++ k) = k) by (intros k; rewrite <- Hh; apply drop_app_length).
  rewrite Hdrop, take_app_length.
  rewrite bool_decide_true, bool_decide_true by (done || (replace (Z.to_nat (110 + (nlen + 1 - 1)))
    with (length (header_of b) + length b.(mb_name))%nat by lia; rewrite lookup_app_r, lookup_app_r by lia;
    by replace (_ - _ - _)%nat with 0%nat by lia)). cbn [negb].
  destruct (bool_decide (mb_name b = TRAILER)); [done|].
  rewrite Z.add_assoc, (proj2 (Z.ltb_ge _ (align4 (110 + nlen + 1)))), (proj2 (Z.ltb_ge _ (align4 dlen))) by lia. done.
Qed.

End encoded.

(** ** Encoded archives *)

(** Where the members [ms] are when the first starts at [off]. *)
Fixpoint entries_of (off : Z) (ms : list member) : list entry :=
  match ms with
  | [] => []
  | b :: ms' =>
      mkEntry b.(mb_name) (off + SIZEOF_CPIO_HEADER)
        (off + align4 (SIZEOF_CPIO_HEADER + Z.of_nat (length b.(mb_name)) + 1))
        (Z.of_nat (length b.(mb_data))) b.(mb_mode) ::
      entries_of (off + Z.of_nat (length (encode_member b))) ms'
  end.

Lemma member_parse b rest :
  member_ok b ->
  parse_member (encode_member b ++ rest) =
    inl (b.(mb_name), align4 (SIZEOF_CPIO_HEADER + Z.of_nat (length b.(mb_name)) + 1), Z.of_nat (length b.(mb_data)),
         b.(mb_mode), Z.of_nat (length (encode_member b))).
Proof.
  intros (H1 & H2 & H3 & H4 & H5 & H6 & H7 & H8 & H9). rewrite encode_parse by done. by rewrite bool_decide_false.
Qed.

Lemma trailer_parse rest : parse_member (encode_member trailer_member ++ rest) = inr 0.
Proof. rewrite encode_parse; [done|..]; try done. by repeat constructor. Qed.

Lemma archive_parse : forall ms fuel off junk,
  Forall member_ok ms -> (length ms < fuel)%nat ->
  parse_archive fuel off (encode_archive ms ++ junk) = (entries_of off ms, 0).
Proof.
  induction ms as [|b ms IH]; intros fuel off junk Hms Hf; (destruct fuel as [|fuel]; [cbn in Hf; lia|]).
  - change (encode_archive []) with (encode_member trailer_member). cbn [parse_archive]. by rewrite trailer_parse.
  - apply Forall_cons in Hms as [Hb Hms]. cbn in Hf.
    assert (E : encode_archive (b :: ms) ++ junk = encode_member b ++ encode_archive ms ++ junk).
    { unfold encode_archive. cbn. by rewrite <- !app_assoc. }
    rewrite E. cbn [parse_archive entries_of]. rewrite member_parse by done.
    rewrite Nat2Z.id, drop_app_length, IH by (done || lia). done.
Qed.

Lemma encode_member_length b : member_ok b -> SIZEOF_CPIO_HEADER <= Z.of_nat (length (encode_member b)).
Proof.
  intros (H1 & H2 & H3 & H4 & H5 & H6 & H7 & H8 & H9). rewrite encode_length by done.
  pose proof (align4_spec (SIZEOF_CPIO_HEADER + Z.of_nat (length (mb_name b)) + 1)).
  pose proof (align4_spec (Z.of_nat (length (mb_data b)))). unfold SIZEOF_CPIO_HEADER in *. lia.
Qed.

Lemma archive_length ms :
  Forall member_ok ms -> SIZEOF_CPIO_HEADER * Z.of_nat (length ms) <= Z.of_nat (length (encode_archive ms)).
Proof.
  unfold encode_archive. intros H. rewrite length_app.
  enough (SIZEOF_CPIO_HEADER * Z.of_nat (length ms) <= Z.of_nat (length (mjoin (encode_member <$> ms)))) by lia.
  induction H as [|b ms Hb _ IH]; [done|].
  change (mjoin (encode_member <$> (b :: ms))) with (encode_member b ++ mjoin (encode_member <$> ms)).
  rewrite length_app. pose proof (encode_member_length b Hb). cbn [length]. unfold SIZEOF_CPIO_HEADER in *. lia.
Qed.

Lemma archive_encode ms junk : Forall member_ok ms -> archive (encode_archive ms ++ junk) = (entries_of 0 ms, 0).
Proof.
  intros H. unfold archive. apply archive_parse; [done|]. pose proof (archive_length ms H).
  rewrite length_app. set (n := Z.of_nat (length (encode_archive ms) + length junk)).
  assert (Z.of_nat (length ms) <= n / SIZEOF_CPIO_HEADER); [|lia].
  apply Z.div_le_lower_bound; unfold SIZEOF_CPIO_HEADER in *; lia.
Qed.

(** The contents of a member are at its offset. *)
Definition contents_at (l : list Z) (e : entry) (b : member) : Prop :=
  take (length b.(mb_data)) (drop (Z.to_nat e.(en_data_off)) l) = b.(mb_data).

Lemma entries_contents ms : forall off pre junk,
  Forall member_ok ms -> Z.of_nat (length pre) = off ->
  Forall2 (contents_at (pre ++ encode_archive ms ++ junk)) (entries_of off ms) ms.
Proof.
  induction ms as [|b ms IH]; intros off pre junk Hms Hp; [constructor|].
  apply Forall_cons in Hms as [Hb Hms]. cbn [entries_of].
  assert (E : pre ++ encode_archive (b :: ms) ++ junk = pre ++ encode_member b ++ encode_archive ms ++ junk).
  { unfold encode_archive. cbn. by rewrite <- !app_assoc. }
  constructor.
  - rewrite E. unfold contents_at. cbn [en_data_off]. pose proof Hb as (H1 & H2 & H3 & H4 & H5 & H6 & H7 & H8 & H9).
    assert (0 <= align4 (SIZEOF_CPIO_HEADER + Z.of_nat (length (mb_name b)) + 1)).
    { unfold SIZEOF_CPIO_HEADER. pose proof (align4_spec (110 + Z.of_nat (length (mb_name b)) + 1)). lia. }
    rewrite Z2Nat.inj_add by lia. rewrite <- drop_drop, <- Hp, Nat2Z.id, drop_app_length. by apply encode_contents.
  - rewrite E, (app_assoc pre). apply IH; [done|]. rewrite length_app. lia.
Qed.

(** ** Lookup *)

Definition set_out (p v : Z) (vars : gmap Z Z) : gmap Z Z := if p =? 0 then vars else <[p := v]> vars.

(** What [cpio_find] writes for the member [e]. *)
Definition outputs (start data size mode : Z) (e : entry) (vars : gmap Z Z) : gmap Z Z :=
  set_out mode e.(en_mode) (set_out size e.(en_size) (set_out data (start + e.(en_data_off)) vars)).

Definition first_named (target : list Z) (es : list entry) : option entry :=
  snd <$> list_find (fun e => e.(en_name) = target) es.

Definition out_ok (vars : gmap Z Z) (p : Z) : Prop := p = 0 \/ is_Some (vars !! p).

Lemma out_ok_set vars p q v : out_ok vars p -> out_ok (set_out q v vars) p.
Proof.
  unfold out_ok, set_out. intros [->|[x E]]; [by left|]. right. destruct (q =? 0); [eauto|].
  destruct (decide (q = p)) as [->|]; [rewrite lookup_insert_eq; eauto|rewrite lookup_insert_ne; eauto].
Qed.

Lemma wp_out p v Q (s : cmem) :
  out_ok s.(cm_vars) p -> Q tt (set_cm_vars (set_out p v s.(cm_vars)) s) -> wp (when (negb (p =? 0)) (var_set p v)) Q s.
Proof.
  unfold set_out. intros Ho HQ. destruct (Z.eqb_spec p 0) as [->|Hne]; cbn [negb when].
  - destruct s. by apply wp_ret.
  - destruct Ho as [?|[x E]]; [done|]. eapply wp_update; [by rewrite E|done].
Qed.

Lemma find_cb_keeps ctx : keeps_bytes cpio_find_cb ctx.
Proof.
  intros name data size mode. fold (keeps cm_bytes (cpio_find_cb name data size mode ctx)). unfold cpio_find_cb.
  apply keeps_bind; [apply keeps_access|]. intros st. case_match; [apply keeps_ret|].
  apply keeps_bind; [apply keeps_zoom_id, str_eq_keeps|]. intros same. apply keeps_when.
  repeat (apply keeps_bind; [apply keeps_when, keeps_var_set|intros _]). apply keeps_ctx_upd.
Qed.

Section lookup.
Context (B : bmem) (ctx start : Z) (nm : cstr) (target : list Z) (data size mode : Z).
Context (Hnm : string_at B nm target).

(** The state while the callback runs: the context's flag and the outputs. *)
Definition searching (found : Z) (vars : gmap Z Z) (s : cmem) : Prop :=
  s.(cm_bytes) = B /\ s.(cm_vars) = vars /\ s.(cm_ctx) !! ctx = Some (mkFindCtx nm data size mode found).

Definition named (e : entry) : Prop := string_at B (CPtr (start + e.(en_name_off))) e.(en_name).

Lemma wp_visits_after es vars Q s :
  searching 1 vars s -> Q tt s -> wp (visit_all cpio_find_cb ctx start es) Q s.
Proof using.
  induction es as [|e es IH]; intros (Hb & Hv & Hc) HQ; [by apply wp_ret|]. cbn [visit_all].
  apply wp_bind. unfold cpio_find_cb at 1. apply wp_bind. eapply wp_access; [exact Hc|]. cbn. apply wp_ret.
  by apply IH.
Qed.

Lemma wp_find_cb e vars Q s :
  searching 0 vars s -> named e -> out_ok vars data -> out_ok vars size -> out_ok vars mode ->
  (forall s', e.(en_name) = target -> searching 1 (outputs start data size mode e vars) s' -> Q tt s') ->
  (e.(en_name) <> target -> Q tt s) ->
  wp (cpio_find_cb (start + e.(en_name_off)) (start + e.(en_data_off)) e.(en_size) e.(en_mode) ctx) Q s.
Proof using Hnm.
  intros (Hb & Hv & Hc) Hn Hd Hs Hm Hhit Hmiss. unfold cpio_find_cb. apply wp_bind.
  eapply wp_access; [exact Hc|]. cbn [fc_found fc_name fc_data fc_size fc_mode Z.eqb negb].
  apply wp_bind, wp_zoom. change (view s) with (cm_bytes s). rewrite Hb.
  apply (wp_str_eq B _ _ e.(en_name) target); [done|done|].
  replace (put B s) with s by (rewrite <- Hb; by destruct s).
  destruct (bool_decide_reflect (e.(en_name) = target)) as [He|He]; cbn [when]; [|by apply wp_ret, Hmiss].
  repeat (apply wp_bind; apply wp_out; [cbn; rewrite Hv; repeat apply out_ok_set; done|]).
  eapply wp_update; [cbn; by rewrite Hc|]. apply Hhit; [done|].
  split_and!; cbn; [done| |apply lookup_insert_eq]. by rewrite Hv.
Qed.

Lemma wp_find_visits es : forall vars Q s,
  searching 0 vars s -> Forall named es -> out_ok vars data -> out_ok vars size -> out_ok vars mode ->
  (forall s', match first_named target es with
              | Some e => searching 1 (outputs start data size mode e vars) s'
              | None => searching 0 vars s'
              end -> Q tt s') ->
  wp (visit_all cpio_find_cb ctx start es) Q s.
Proof using Hnm.
  induction es as [|e es IH]; intros vars Q s Hs Hn Hd Hz Hm HQ; [by apply wp_ret, HQ|].
  apply Forall_cons in Hn as [He Hn]. cbn [visit_all]. apply wp_bind. unfold first_named in HQ. cbn [list_find] in HQ.
  apply (wp_find_cb e vars); [done..| |].
  - intros s' Heq Hs'. rewrite decide_True in HQ by done. eapply wp_visits_after; [done|]. by apply HQ.
  - intros Hne. rewrite decide_False in HQ by done. apply (IH vars); try done. intros s' Hs'. apply HQ.
    unfold first_named in Hs'. by destruct (list_find _ es) as [[i x]|].
Qed.

End lookup.

Lemma named_inside (s : cmem) start l e :
  block_at s.(cm_bytes) start l -> entry_inside l e -> named s.(cm_bytes) start e.
Proof.
  intros Hb (H1 & H2 & H3 & _). apply block_string; [|done]. rewrite <- H2. by apply block_part.
Qed.

Lemma parse_archive_code fuel : forall off l, (parse_archive fuel off l).2 = 0 \/ (parse_archive fuel off l).2 = -1.
Proof.
  induction fuel as [|fuel IH]; intros off l; [by right|]. cbn.
  destruct (parse_member l) as [[[[[name data] size] mode] next]|v] eqn:Ep.
  - specialize (IH (off + next) (drop (Z.to_nat next) l)). by destruct (parse_archive fuel _ _).
  - unfold parse_member in Ep. cbn. repeat case_match; simplify_eq; auto.
Qed.

Lemma wp_same {S A} (m m' : M S A) Q s : m s = m' s -> wp m' Q s -> wp m Q s.
Proof. unfold wp. by intros ->. Qed.

(** ** The theorems *)

(** [cpio_iterate] on arbitrary bytes [l] does what the reference parser
    [archive] says: it never reads outside the archive, always returns, calls
    the callback once for each member found, in order, and returns the parser's
    code (0 at a trailer, -1 at the first malformed header).  Each call gets a
    zero-terminated name and contents that lie inside the archive, whatever
    sizes the headers claim. *)
Theorem cpio_iterate_exact fn ctx start l (s : cmem) :
  keeps_bytes fn ctx -> 0 < start -> block_at s.(cm_bytes) start l ->
  cpio_iterate start (start + Z.of_nat (length l)) (Some fn) ctx s =
    (visit_all fn ctx start (archive l).1 ;; mret (archive l).2) s /\
  Forall (entry_inside l) (archive l).1 /\ ((archive l).2 = 0 \/ (archive l).2 = -1).
Proof.
  intros Hfn Hs Hb. split_and!; [|apply archive_inside|apply parse_archive_code]. apply iterate_visits; [done|lia..|done].
Qed.

(** C21: An archive that encodes the members [ms] is read back exactly: the
    callback sees each member once, in order, with its name, its contents, its
    size and its mode, then [cpio_iterate] returns 0; bytes behind the trailer
    are ignored. *)
Theorem cpio_roundtrip fn ctx start ms junk (s : cmem) :
  keeps_bytes fn ctx -> 0 < start -> Forall member_ok ms -> block_at s.(cm_bytes) start (encode_archive ms ++ junk) ->
  cpio_iterate start (start + Z.of_nat (length (encode_archive ms ++ junk))) (Some fn) ctx s =
    (visit_all fn ctx start (entries_of 0 ms) ;; mret 0) s /\
  Forall2 (contents_at (encode_archive ms ++ junk)) (entries_of 0 ms) ms.
Proof.
  intros Hfn Hs Hms Hb. split; [|by apply (entries_contents ms 0 [])].
  rewrite iterate_visits by (done || lia). by rewrite archive_encode.
Qed.

(** ** The lookup as a whole *)

Lemma wp_cpio_find ctx start l nm target data size mode (s : cmem) :
  0 < start -> block_at s.(cm_bytes) start l -> string_at s.(cm_bytes) nm target ->
  out_ok s.(cm_vars) data -> out_ok s.(cm_vars) size -> out_ok s.(cm_vars) mode ->
  wp (cpio_find ctx start (start + Z.of_nat (length l)) (Some nm) data size mode)
    (fun v s' =>
       v = (if decide ((archive l).2 = 0 /\ is_Some (first_named target (archive l).1)) then 0 else -1) /\
       s'.(cm_bytes) = s.(cm_bytes) /\
       s'.(cm_vars) = match first_named target (archive l).1 with
                      | Some e => outputs start data size mode e s.(cm_vars)
                      | None => s.(cm_vars)
                      end) s.
Proof.
  intros Hs Hb Hn Hd Hz Hm. unfold cpio_find. apply wp_bind, wp_modify, wp_bind.
  eapply wp_same; [apply iterate_visits; [apply find_cb_keeps|lia..|done]|].
  apply wp_bind. apply (wp_find_visits s.(cm_bytes) ctx start nm target data size mode Hn) with (vars := s.(cm_vars)).
  - split_and!; [done..|]. cbn. apply lookup_insert_eq.
  - eapply Forall_impl; [apply archive_inside|]. intros e. by apply named_inside.
  - done.
  - done.
  - done.
  - intros s' Hs'. apply wp_ret. destruct (Z.eqb_spec (archive l).2 0) as [E|E]; cbn [negb].
    + apply wp_bind. destruct (first_named target (archive l).1) as [e|];
        destruct Hs' as (H1 & H2 & H3); (eapply wp_access; [exact H3|]); apply wp_ret; cbn.
      * rewrite decide_True by eauto. done.
      * rewrite decide_False by (intros [_ [? ?]]; done). done.
    + apply wp_ret. rewrite decide_False by (by intros [? _]).
      destruct (first_named target (archive l).1) as [e|]; by destruct Hs' as (H1 & H2 & H3).
Qed.

(** [cpio_find] returns 0 exactly when the archive is well formed up to its
    trailer and has a member of the name, and then has written address, size
    and mode of the first such member through those pointers that are not null;
    when no member has the name nothing is written. *)
Theorem cpio_find_exact ctx start l nm target data size mode (s : cmem) :
  0 < start -> block_at s.(cm_bytes) start l -> string_at s.(cm_bytes) nm target ->
  out_ok s.(cm_vars) data -> out_ok s.(cm_vars) size -> out_ok s.(cm_vars) mode ->
  wp (cpio_find ctx start (start + Z.of_nat (length l)) (Some nm) data size mode)
    (fun v s' =>
       v = (if decide ((archive l).2 = 0 /\ is_Some (first_named target (archive l).1)) then 0 else -1) /\
       s'.(cm_bytes) = s.(cm_bytes) /\
       s'.(cm_vars) = match first_named target (archive l).1 with
                      | Some e => outputs start data size mode e s.(cm_vars)
                      | None => s.(cm_vars)
                      end) s.
Proof. apply wp_cpio_find. Qed.

(** ** A small archive *)

Definition demo_member (name data : list Z) : member :=
  mkMember name data 0x81a4 (hex_chars 8 1) (hex_chars 32 0) (hex_chars 32 0) (hex_chars 8 0).

Definition demo_members : list member := [demo_member [97; 98] [1; 2; 3; 4; 5]; demo_member [99] [7]].

Definition demo_archive : list Z := encode_archive demo_members ++ [0; 0].

Definition demo_cmem : cmem := mkCmem (write_block 4096 demo_archive ∅) {[ 8 := 0; 16 := 0 ]} ∅.

(** A callback that notes where each file is. *)
Definition demo_fn : cpio_iter_fn := fun name data size mode ctx =>
  modify (fun s => set_cm_vars (<[name := data]> s.(cm_vars)) s).

Lemma demo_fn_keeps ctx : keeps_bytes demo_fn ctx.
Proof. intros name data size mode s a s' E. by injection E as _ <-. Qed.

Lemma demo_members_ok : Forall member_ok demo_members.
Proof.
  repeat (apply Forall_cons; split); [..|done]; unfold member_ok; cbn -[Z.pow]; rewrite ?hex_chars_length;
    split_and!; try done; try lia; by repeat constructor.
Qed.

Lemma cpio_iterate_exact_witness :
  cpio_iterate 4096 (4096 + Z.of_nat (length demo_archive)) (Some demo_fn) 0 demo_cmem =
    (visit_all demo_fn 0 4096 (archive demo_archive).1 ;; mret (archive demo_archive).2) demo_cmem.
Proof.
  refine (proj1 (cpio_iterate_exact demo_fn 0 4096 demo_archive demo_cmem _ _ _)).
  - apply demo_fn_keeps.
  - lia.
  - apply write_block_in.
Defined.

Lemma cpio_roundtrip_witness :
  cpio_iterate 4096 (4096 + Z.of_nat (length demo_archive)) (Some demo_fn) 0 demo_cmem =
    (visit_all demo_fn 0 4096 [mkEntry [97; 98] 110 116 5 0x81a4; mkEntry [99] 234 236 1 0x81a4] ;; mret 0) demo_cmem.
Proof.
  refine (eq_trans (proj1 (cpio_roundtrip demo_fn 0 4096 demo_members [0; 0] demo_cmem _ _ _ _)) _).
  - apply demo_fn_keeps.
  - lia.
  - exact demo_members_ok.
  - apply write_block_in.
  - by vm_compute.
Defined.

Lemma cpio_find_exact_witness :
  wp (cpio_find 24 4096 (4096 + Z.of_nat (length demo_archive)) (Some (CLit [99])) 8 16 0)
     (fun v s' => v = 0 /\ s'.(cm_vars) = {[ 8 := 4096 + 236; 16 := 1 ]}) demo_cmem.
Proof.
  eapply wp_mono; [apply (cpio_find_exact 24 4096 demo_archive (CLit [99]) [99] 8 16 0 demo_cmem)|].
  - lia.
  - apply write_block_in.
  - apply string_literal. by repeat constructor.
  - right. by eexists.
  - right. by eexists.
  - by left.
  - intros v s' (Hv & _ & Hs). split; [rewrite Hv; by vm_compute|rewrite Hs; by vm_compute].
Defined.
