(* ===== verification/Irq.v ===== *)
(** * The interrupt side of the kernel: state

    The static variables of [trace.c], [bottom_half.c], [custom_work.c],
    [timer.c], [uart.c], [plic.c] and [trap.c] beside the scheduler's state, and
    the hardware these files touch: the interrupt flag, bits of [sie], the
    firmware timer, the time counter, the serial line and the interrupt
    controller.  A callback is a code address; what it does is a function on this
    state that the definitions which call it take as an argument. *)

From S2P Require Import Prelude Lists Memory Slab Task Ring Str Cpio.

Open Scope Z_scope.

(** ** Data *)

Record trace_event := mkTraceEvent {
  te_now : Z;
  te_aux : Z;
  te_kind : Z;
}.

(** What the serial line does between two reads of the status register. *)
Record line_event := mkLine {
  le_arrived : list Z; (* bytes that arrived since the last look *)
  le_idle : bool; (* the transmitter has become ready *)
  le_other : Z; (* the other bits of the register *)
}.

Record uart := mkUart {
  uart_mem : ringmem; (* [uart_rx_buf] and [uart_tx_buf] *)
  uart_base_addr : Z;
  uart_irq_number : Z;
  uart_irq_enabled : Z;
  uart_ext_irq_count : Z;
  uart_rx_irq_count : Z;
  uart_tx_irq_count : Z;
  uart_rx_fallback_count : Z;
  uart_tx_poll_count : Z;
  uart_tx_refill : Z; (* code address *)
  uart_rx_wait : Z; (* address of the wait queue *)
  uart_tx_wait : Z; (* address of the wait queue *)
  hw_fifo : list Z; (* received, not yet read *)
  hw_sent : list Z; (* written to the transmitter *)
  hw_idle : bool; (* the transmitter can take a byte *)
  hw_ier : Z; (* interrupt enable register *)
  hw_mcr : Z; (* modem control register *)
  hw_env : nat -> line_event; (* what each read of the status register finds *)
  hw_reads : nat; (* how often it has been read *)
  sie_external : bool; (* SEIE in the sie register *)
}.

Record plic := mkPlic {
  plic_base : Z;
  plic_regs : gmap Z Z; (* priority, enable and threshold registers by address *)
  plic_waiting : list Z; (* sources the controller will deliver *)
  plic_completed : list Z; (* completions, newest last *)
}.

Record custom_work := mkWork {
  cw_callback : Z;
  cw_arg : Z;
  cw_next : Z;
  cw_allocated : Z;
}.

Record timer_event := mkTimerEvent {
  ev_expire : Z; (* absolute time *)
  ev_callback : Z;
  ev_cleanup : Z;
  ev_arg : Z;
  ev_next : Z;
}.

Record ksys := mkKsys {
  k_sched : sched; (* threads, heap, interrupt flag; bottom_half.c: [running] *)
  trace : list trace_event; (* trace.c *)
  trace_head : Z;
  trace_count : Z;
  pending : Z; (* bottom_half.c *)
  pool : gmap Z custom_work; (* custom_work.c: the element [pool[i]] at [i + 1] *)
  work_head : Z; (* 0 or a key of the pool *)
  work_tail : Z;
  timebase_frequency : Z; (* timer.c *)
  boot_time : Z;
  next_deadline : Z;
  uptime_seconds : Z;
  timer_irq_count : Z;
  timer_events : gmap Z timer_event; (* every struct timer_event in memory, by address *)
  timer_head : Z;
  timer_enabled : Z;
  sched_tick_interval : Z;
  sched_tick_deadline : Z;
  sie_timer : bool; (* STIE in the sie register *)
  sbi_timer : Z; (* deadline given to the firmware *)
  rdtime : nat -> Z; (* what successive reads of the time counter return *)
  rdtime_reads : nat; (* how often it has been read *)
  k_uart : uart; (* uart.c and the device *)
  k_plic : plic; (* plic.c and the interrupt controller *)
  k_mem : cmem; (* bytes of memory outside the kernel heap structures, and cpio.c *)
  initrd_start : Z; (* platform.c: [boot_info] *)
  initrd_end : Z;
  trace_ecalls : Z; (* trap.c *)
  ecall_demo_tid : Z;
}.

(** ** Field updates *)

Definition set_uart_mem (v : ringmem) (u : uart) : uart :=
    mkUart v u.(uart_base_addr) u.(uart_irq_number) u.(uart_irq_enabled) u.(uart_ext_irq_count)
    u.(uart_rx_irq_count) u.(uart_tx_irq_count) u.(uart_rx_fallback_count) u.(uart_tx_poll_count) u.(uart_tx_refill)
    u.(uart_rx_wait) u.(uart_tx_wait) u.(hw_fifo) u.(hw_sent) u.(hw_idle) u.(hw_ier) u.(hw_mcr) u.(hw_env)
    u.(hw_reads) u.(sie_external).
Definition set_uart_base_addr (v : Z) (u : uart) : uart :=
    mkUart u.(uart_mem) v u.(uart_irq_number) u.(uart_irq_enabled) u.(uart_ext_irq_count) u.(uart_rx_irq_count)
    u.(uart_tx_irq_count) u.(uart_rx_fallback_count) u.(uart_tx_poll_count) u.(uart_tx_refill) u.(uart_rx_wait)
    u.(uart_tx_wait) u.(hw_fifo) u.(hw_sent) u.(hw_idle) u.(hw_ier) u.(hw_mcr) u.(hw_env) u.(hw_reads)
    u.(sie_external).
Definition set_uart_irq_number (v : Z) (u : uart) : uart :=
    mkUart u.(uart_mem) u.(uart_base_addr) v u.(uart_irq_enabled) u.(uart_ext_irq_count) u.(uart_rx_irq_count)
    u.(uart_tx_irq_count) u.(uart_rx_fallback_count) u.(uart_tx_poll_count) u.(uart_tx_refill) u.(uart_rx_wait)
    u.(uart_tx_wait) u.(hw_fifo) u.(hw_sent) u.(hw_idle) u.(hw_ier) u.(hw_mcr) u.(hw_env) u.(hw_reads)
    u.(sie_external).
Definition set_uart_irq_enabled (v : Z) (u : uart) : uart :=
    mkUart u.(uart_mem) u.(uart_base_addr) u.(uart_irq_number) v u.(uart_ext_irq_count) u.(uart_rx_irq_count)
    u.(uart_tx_irq_count) u.(uart_rx_fallback_count) u.(uart_tx_poll_count) u.(uart_tx_refill) u.(uart_rx_wait)
    u.(uart_tx_wait) u.(hw_fifo) u.(hw_sent) u.(hw_idle) u.(hw_ier) u.(hw_mcr) u.(hw_env) u.(hw_reads)
    u.(sie_external).
Definition set_uart_ext_irq_count (v : Z) (u : uart) : uart :=
    mkUart u.(uart_mem) u.(uart_base_addr) u.(uart_irq_number) u.(uart_irq_enabled) v u.(uart_rx_irq_count)
    u.(uart_tx_irq_count) u.(uart_rx_fallback_count) u.(uart_tx_poll_count) u.(uart_tx_refill) u.(uart_rx_wait)
    u.(uart_tx_wait) u.(hw_fifo) u.(hw_sent) u.(hw_idle) u.(hw_ier) u.(hw_mcr) u.(hw_env) u.(hw_reads)
    u.(sie_external).
Definition set_uart_rx_irq_count (v : Z) (u : uart) : uart :=
    mkUart u.(uart_mem) u.(uart_base_addr) u.(uart_irq_number) u.(uart_irq_enabled) u.(uart_ext_irq_count) v
    u.(uart_tx_irq_count) u.(uart_rx_fallback_count) u.(uart_tx_poll_count) u.(uart_tx_refill) u.(uart_rx_wait)
    u.(uart_tx_wait) u.(hw_fifo) u.(hw_sent) u.(hw_idle) u.(hw_ier) u.(hw_mcr) u.(hw_env) u.(hw_reads)
    u.(sie_external).
Definition set_uart_tx_irq_count (v : Z) (u : uart) : uart :=
    mkUart u.(uart_mem) u.(uart_base_addr) u.(uart_irq_number) u.(uart_irq_enabled) u.(uart_ext_irq_count)
    u.(uart_rx_irq_count) v u.(uart_rx_fallback_count) u.(uart_tx_poll_count) u.(uart_tx_refill) u.(uart_rx_wait)
    u.(uart_tx_wait) u.(hw_fifo) u.(hw_sent) u.(hw_idle) u.(hw_ier) u.(hw_mcr) u.(hw_env) u.(hw_reads)
    u.(sie_external).
Definition set_uart_rx_fallback_count (v : Z) (u : uart) : uart :=
    mkUart u.(uart_mem) u.(uart_base_addr) u.(uart_irq_number) u.(uart_irq_enabled) u.(uart_ext_irq_count)
    u.(uart_rx_irq_count) u.(uart_tx_irq_count) v u.(uart_tx_poll_count) u.(uart_tx_refill) u.(uart_rx_wait)
    u.(uart_tx_wait) u.(hw_fifo) u.(hw_sent) u.(hw_idle) u.(hw_ier) u.(hw_mcr) u.(hw_env) u.(hw_reads)
    u.(sie_external).
Definition set_uart_tx_poll_count (v : Z) (u : uart) : uart :=
    mkUart u.(uart_mem) u.(uart_base_addr) u.(uart_irq_number) u.(uart_irq_enabled) u.(uart_ext_irq_count)
    u.(uart_rx_irq_count) u.(uart_tx_irq_count) u.(uart_rx_fallback_count) v u.(uart_tx_refill) u.(uart_rx_wait)
    u.(uart_tx_wait) u.(hw_fifo) u.(hw_sent) u.(hw_idle) u.(hw_ier) u.(hw_mcr) u.(hw_env) u.(hw_reads)
    u.(sie_external).
Definition set_uart_tx_refill (v : Z) (u : uart) : uart :=
    mkUart u.(uart_mem) u.(uart_base_addr) u.(uart_irq_number) u.(uart_irq_enabled) u.(uart_ext_irq_count)
    u.(uart_rx_irq_count) u.(uart_tx_irq_count) u.(uart_rx_fallback_count) u.(uart_tx_poll_count) v u.(uart_rx_wait)
    u.(uart_tx_wait) u.(hw_fifo) u.(hw_sent) u.(hw_idle) u.(hw_ier) u.(hw_mcr) u.(hw_env) u.(hw_reads)
    u.(sie_external).
Definition set_uart_rx_wait (v : Z) (u : uart) : uart :=
    mkUart u.(uart_mem) u.(uart_base_addr) u.(uart_irq_number) u.(uart_irq_enabled) u.(uart_ext_irq_count)
    u.(uart_rx_irq_count) u.(uart_tx_irq_count) u.(uart_rx_fallback_count) u.(uart_tx_poll_count) u.(uart_tx_refill)
    v u.(uart_tx_wait) u.(hw_fifo) u.(hw_sent) u.(hw_idle) u.(hw_ier) u.(hw_mcr) u.(hw_env) u.(hw_reads)
    u.(sie_external).
Definition set_uart_tx_wait (v : Z) (u : uart) : uart :=
    mkUart u.(uart_mem) u.(uart_base_addr) u.(uart_irq_number) u.(uart_irq_enabled) u.(uart_ext_irq_count)
    u.(uart_rx_irq_count) u.(uart_tx_irq_count) u.(uart_rx_fallback_count) u.(uart_tx_poll_count) u.(uart_tx_refill)
    u.(uart_rx_wait) v u.(hw_fifo) u.(hw_sent) u.(hw_idle) u.(hw_ier) u.(hw_mcr) u.(hw_env) u.(hw_reads)
    u.(sie_external).
Definition set_hw_fifo (v : list Z) (u : uart) : uart :=
    mkUart u.(uart_mem) u.(uart_base_addr) u.(uart_irq_number) u.(uart_irq_enabled) u.(uart_ext_irq_count)
    u.(uart_rx_irq_count) u.(uart_tx_irq_count) u.(uart_rx_fallback_count) u.(uart_tx_poll_count) u.(uart_tx_refill)
    u.(uart_rx_wait) u.(uart_tx_wait) v u.(hw_sent) u.(hw_idle) u.(hw_ier) u.(hw_mcr) u.(hw_env) u.(hw_reads)
    u.(sie_external).
Definition set_hw_sent (v : list Z) (u : uart) : uart :=
    mkUart u.(uart_mem) u.(uart_base_addr) u.(uart_irq_number) u.(uart_irq_enabled) u.(uart_ext_irq_count)
    u.(uart_rx_irq_count) u.(uart_tx_irq_count) u.(uart_rx_fallback_count) u.(uart_tx_poll_count) u.(uart_tx_refill)
    u.(uart_rx_wait) u.(uart_tx_wait) u.(hw_fifo) v u.(hw_idle) u.(hw_ier) u.(hw_mcr) u.(hw_env) u.(hw_reads)
    u.(sie_external).
Definition set_hw_idle (v : bool) (u : uart) : uart :=
    mkUart u.(uart_mem) u.(uart_base_addr) u.(uart_irq_number) u.(uart_irq_enabled) u.(uart_ext_irq_count)
    u.(uart_rx_irq_count) u.(uart_tx_irq_count) u.(uart_rx_fallback_count) u.(uart_tx_poll_count) u.(uart_tx_refill)
    u.(uart_rx_wait) u.(uart_tx_wait) u.(hw_fifo) u.(hw_sent) v u.(hw_ier) u.(hw_mcr) u.(hw_env) u.(hw_reads)
    u.(sie_external).
Definition set_hw_ier (v : Z) (u : uart) : uart :=
    mkUart u.(uart_mem) u.(uart_base_addr) u.(uart_irq_number) u.(uart_irq_enabled) u.(uart_ext_irq_count)
    u.(uart_rx_irq_count) u.(uart_tx_irq_count) u.(uart_rx_fallback_count) u.(uart_tx_poll_count) u.(uart_tx_refill)
    u.(uart_rx_wait) u.(uart_tx_wait) u.(hw_fifo) u.(hw_sent) u.(hw_idle) v u.(hw_mcr) u.(hw_env) u.(hw_reads)
    u.(sie_external).
Definition set_hw_mcr (v : Z) (u : uart) : uart :=
    mkUart u.(uart_mem) u.(uart_base_addr) u.(uart_irq_number) u.(uart_irq_enabled) u.(uart_ext_irq_count)
    u.(uart_rx_irq_count) u.(uart_tx_irq_count) u.(uart_rx_fallback_count) u.(uart_tx_poll_count) u.(uart_tx_refill)
    u.(uart_rx_wait) u.(uart_tx_wait) u.(hw_fifo) u.(hw_sent) u.(hw_idle) u.(hw_ier) v u.(hw_env) u.(hw_reads)
    u.(sie_external).
Definition set_hw_env (v : nat -> line_event) (u : uart) : uart :=
    mkUart u.(uart_mem) u.(uart_base_addr) u.(uart_irq_number) u.(uart_irq_enabled) u.(uart_ext_irq_count)
    u.(uart_rx_irq_count) u.(uart_tx_irq_count) u.(uart_rx_fallback_count) u.(uart_tx_poll_count) u.(uart_tx_refill)
    u.(uart_rx_wait) u.(uart_tx_wait) u.(hw_fifo) u.(hw_sent) u.(hw_idle) u.(hw_ier) u.(hw_mcr) v u.(hw_reads)
    u.(sie_external).
Definition set_hw_reads (v : nat) (u : uart) : uart :=
    mkUart u.(uart_mem) u.(uart_base_addr) u.(uart_irq_number) u.(uart_irq_enabled) u.(uart_ext_irq_count)
    u.(uart_rx_irq_count) u.(uart_tx_irq_count) u.(uart_rx_fallback_count) u.(uart_tx_poll_count) u.(uart_tx_refill)
    u.(uart_rx_wait) u.(uart_tx_wait) u.(hw_fifo) u.(hw_sent) u.(hw_idle) u.(hw_ier) u.(hw_mcr) u.(hw_env) v
    u.(sie_external).
Definition set_sie_external (v : bool) (u : uart) : uart :=
    mkUart u.(uart_mem) u.(uart_base_addr) u.(uart_irq_number) u.(uart_irq_enabled) u.(uart_ext_irq_count)
    u.(uart_rx_irq_count) u.(uart_tx_irq_count) u.(uart_rx_fallback_count) u.(uart_tx_poll_count) u.(uart_tx_refill)
    u.(uart_rx_wait) u.(uart_tx_wait) u.(hw_fifo) u.(hw_sent) u.(hw_idle) u.(hw_ier) u.(hw_mcr) u.(hw_env)
    u.(hw_reads) v.

Definition set_plic_base (v : Z) (p : plic) : plic :=
    mkPlic v p.(plic_regs) p.(plic_waiting) p.(plic_completed).
Definition set_plic_regs (v : gmap Z Z) (p : plic) : plic :=
    mkPlic p.(plic_base) v p.(plic_waiting) p.(plic_completed).
Definition set_plic_waiting (v : list Z) (p : plic) : plic :=
    mkPlic p.(plic_base) p.(plic_regs) v p.(plic_completed).
Definition set_plic_completed (v : list Z) (p : plic) : plic :=
    mkPlic p.(plic_base) p.(plic_regs) p.(plic_waiting) v.

Definition set_cw_callback (v : Z) (w : custom_work) : custom_work :=
    mkWork v w.(cw_arg) w.(cw_next) w.(cw_allocated).
Definition set_cw_arg (v : Z) (w : custom_work) : custom_work :=
    mkWork w.(cw_callback) v w.(cw_next) w.(cw_allocated).
Definition set_cw_next (v : Z) (w : custom_work) : custom_work :=
    mkWork w.(cw_callback) w.(cw_arg) v w.(cw_allocated).
Definition set_cw_allocated (v : Z) (w : custom_work) : custom_work :=
    mkWork w.(cw_callback) w.(cw_arg) w.(cw_next) v.

Definition set_ev_expire (v : Z) (e : timer_event) : timer_event :=
    mkTimerEvent v e.(ev_callback) e.(ev_cleanup) e.(ev_arg) e.(ev_next).
Definition set_ev_callback (v : Z) (e : timer_event) : timer_event :=
    mkTimerEvent e.(ev_expire) v e.(ev_cleanup) e.(ev_arg) e.(ev_next).
Definition set_ev_cleanup (v : Z) (e : timer_event) : timer_event :=
    mkTimerEvent e.(ev_expire) e.(ev_callback) v e.(ev_arg) e.(ev_next).
Definition set_ev_arg (v : Z) (e : timer_event) : timer_event :=
    mkTimerEvent e.(ev_expire) e.(ev_callback) e.(ev_cleanup) v e.(ev_next).
Definition set_ev_next (v : Z) (e : timer_event) : timer_event :=
    mkTimerEvent e.(ev_expire) e.(ev_callback) e.(ev_cleanup) e.(ev_arg) v.

Definition set_k_sched (v : sched) (s : ksys) : ksys :=
    mkKsys v s.(trace) s.(trace_head) s.(trace_count) s.(pending) s.(pool) s.(work_head) s.(work_tail)
    s.(timebase_frequency) s.(boot_time) s.(next_deadline) s.(uptime_seconds) s.(timer_irq_count) s.(timer_events)
    s.(timer_head) s.(timer_enabled) s.(sched_tick_interval) s.(sched_tick_deadline) s.(sie_timer) s.(sbi_timer)
    s.(rdtime) s.(rdtime_reads) s.(k_uart) s.(k_plic) s.(k_mem) s.(initrd_start) s.(initrd_end) s.(trace_ecalls)
    s.(ecall_demo_tid).
Definition set_trace (v : list trace_event) (s : ksys) : ksys :=
    mkKsys s.(k_sched) v s.(trace_head) s.(trace_count) s.(pending) s.(pool) s.(work_head) s.(work_tail)
    s.(timebase_frequency) s.(boot_time) s.(next_deadline) s.(uptime_seconds) s.(timer_irq_count) s.(timer_events)
    s.(timer_head) s.(timer_enabled) s.(sched_tick_interval) s.(sched_tick_deadline) s.(sie_timer) s.(sbi_timer)
    s.(rdtime) s.(rdtime_reads) s.(k_uart) s.(k_plic) s.(k_mem) s.(initrd_start) s.(initrd_end) s.(trace_ecalls)
    s.(ecall_demo_tid).
Definition set_trace_head (v : Z) (s : ksys) : ksys :=
    mkKsys s.(k_sched) s.(trace) v s.(trace_count) s.(pending) s.(pool) s.(work_head) s.(work_tail)
    s.(timebase_frequency) s.(boot_time) s.(next_deadline) s.(uptime_seconds) s.(timer_irq_count) s.(timer_events)
    s.(timer_head) s.(timer_enabled) s.(sched_tick_interval) s.(sched_tick_deadline) s.(sie_timer) s.(sbi_timer)
    s.(rdtime) s.(rdtime_reads) s.(k_uart) s.(k_plic) s.(k_mem) s.(initrd_start) s.(initrd_end) s.(trace_ecalls)
    s.(ecall_demo_tid).
Definition set_trace_count (v : Z) (s : ksys) : ksys :=
    mkKsys s.(k_sched) s.(trace) s.(trace_head) v s.(pending) s.(pool) s.(work_head) s.(work_tail)
    s.(timebase_frequency) s.(boot_time) s.(next_deadline) s.(uptime_seconds) s.(timer_irq_count) s.(timer_events)
    s.(timer_head) s.(timer_enabled) s.(sched_tick_interval) s.(sched_tick_deadline) s.(sie_timer) s.(sbi_timer)
    s.(rdtime) s.(rdtime_reads) s.(k_uart) s.(k_plic) s.(k_mem) s.(initrd_start) s.(initrd_end) s.(trace_ecalls)
    s.(ecall_demo_tid).
Definition set_pending (v : Z) (s : ksys) : ksys :=
    mkKsys s.(k_sched) s.(trace) s.(trace_head) s.(trace_count) v s.(pool) s.(work_head) s.(work_tail)
    s.(timebase_frequency) s.(boot_time) s.(next_deadline) s.(uptime_seconds) s.(timer_irq_count) s.(timer_events)
    s.(timer_head) s.(timer_enabled) s.(sched_tick_interval) s.(sched_tick_deadline) s.(sie_timer) s.(sbi_timer)
    s.(rdtime) s.(rdtime_reads) s.(k_uart) s.(k_plic) s.(k_mem) s.(initrd_start) s.(initrd_end) s.(trace_ecalls)
    s.(ecall_demo_tid).
Definition set_pool (v : gmap Z custom_work) (s : ksys) : ksys :=
    mkKsys s.(k_sched) s.(trace) s.(trace_head) s.(trace_count) s.(pending) v s.(work_head) s.(work_tail)
    s.(timebase_frequency) s.(boot_time) s.(next_deadline) s.(uptime_seconds) s.(timer_irq_count) s.(timer_events)
    s.(timer_head) s.(timer_enabled) s.(sched_tick_interval) s.(sched_tick_deadline) s.(sie_timer) s.(sbi_timer)
    s.(rdtime) s.(rdtime_reads) s.(k_uart) s.(k_plic) s.(k_mem) s.(initrd_start) s.(initrd_end) s.(trace_ecalls)
    s.(ecall_demo_tid).
Definition set_work_head (v : Z) (s : ksys) : ksys :=
    mkKsys s.(k_sched) s.(trace) s.(trace_head) s.(trace_count) s.(pending) s.(pool) v s.(work_tail)
    s.(timebase_frequency) s.(boot_time) s.(next_deadline) s.(uptime_seconds) s.(timer_irq_count) s.(timer_events)
    s.(timer_head) s.(timer_enabled) s.(sched_tick_interval) s.(sched_tick_deadline) s.(sie_timer) s.(sbi_timer)
    s.(rdtime) s.(rdtime_reads) s.(k_uart) s.(k_plic) s.(k_mem) s.(initrd_start) s.(initrd_end) s.(trace_ecalls)
    s.(ecall_demo_tid).
Definition set_work_tail (v : Z) (s : ksys) : ksys :=
    mkKsys s.(k_sched) s.(trace) s.(trace_head) s.(trace_count) s.(pending) s.(pool) s.(work_head) v
    s.(timebase_frequency) s.(boot_time) s.(next_deadline) s.(uptime_seconds) s.(timer_irq_count) s.(timer_events)
    s.(timer_head) s.(timer_enabled) s.(sched_tick_interval) s.(sched_tick_deadline) s.(sie_timer) s.(sbi_timer)
    s.(rdtime) s.(rdtime_reads) s.(k_uart) s.(k_plic) s.(k_mem) s.(initrd_start) s.(initrd_end) s.(trace_ecalls)
    s.(ecall_demo_tid).
Definition set_timebase_frequency (v : Z) (s : ksys) : ksys :=
    mkKsys s.(k_sched) s.(trace) s.(trace_head) s.(trace_count) s.(pending) s.(pool) s.(work_head) s.(work_tail) v
    s.(boot_time) s.(next_deadline) s.(uptime_seconds) s.(timer_irq_count) s.(timer_events) s.(timer_head)
    s.(timer_enabled) s.(sched_tick_interval) s.(sched_tick_deadline) s.(sie_timer) s.(sbi_timer) s.(rdtime)
    s.(rdtime_reads) s.(k_uart) s.(k_plic) s.(k_mem) s.(initrd_start) s.(initrd_end) s.(trace_ecalls)
    s.(ecall_demo_tid).
Definition set_boot_time (v : Z) (s : ksys) : ksys :=
    mkKsys s.(k_sched) s.(trace) s.(trace_head) s.(trace_count) s.(pending) s.(pool) s.(work_head) s.(work_tail)
    s.(timebase_frequency) v s.(next_deadline) s.(uptime_seconds) s.(timer_irq_count) s.(timer_events)
    s.(timer_head) s.(timer_enabled) s.(sched_tick_interval) s.(sched_tick_deadline) s.(sie_timer) s.(sbi_timer)
    s.(rdtime) s.(rdtime_reads) s.(k_uart) s.(k_plic) s.(k_mem) s.(initrd_start) s.(initrd_end) s.(trace_ecalls)
    s.(ecall_demo_tid).
Definition set_next_deadline (v : Z) (s : ksys) : ksys :=
    mkKsys s.(k_sched) s.(trace) s.(trace_head) s.(trace_count) s.(pending) s.(pool) s.(work_head) s.(work_tail)
    s.(timebase_frequency) s.(boot_time) v s.(uptime_seconds) s.(timer_irq_count) s.(timer_events) s.(timer_head)
    s.(timer_enabled) s.(sched_tick_interval) s.(sched_tick_deadline) s.(sie_timer) s.(sbi_timer) s.(rdtime)
    s.(rdtime_reads) s.(k_uart) s.(k_plic) s.(k_mem) s.(initrd_start) s.(initrd_end) s.(trace_ecalls)
    s.(ecall_demo_tid).
Definition set_uptime_seconds (v : Z) (s : ksys) : ksys :=
    mkKsys s.(k_sched) s.(trace) s.(trace_head) s.(trace_count) s.(pending) s.(pool) s.(work_head) s.(work_tail)
    s.(timebase_frequency) s.(boot_time) s.(next_deadline) v s.(timer_irq_count) s.(timer_events) s.(timer_head)
    s.(timer_enabled) s.(sched_tick_interval) s.(sched_tick_deadline) s.(sie_timer) s.(sbi_timer) s.(rdtime)
    s.(rdtime_reads) s.(k_uart) s.(k_plic) s.(k_mem) s.(initrd_start) s.(initrd_end) s.(trace_ecalls)
    s.(ecall_demo_tid).
Definition set_timer_irq_count (v : Z) (s : ksys) : ksys :=
    mkKsys s.(k_sched) s.(trace) s.(trace_head) s.(trace_count) s.(pending) s.(pool) s.(work_head) s.(work_tail)
    s.(timebase_frequency) s.(boot_time) s.(next_deadline) s.(uptime_seconds) v s.(timer_events) s.(timer_head)
    s.(timer_enabled) s.(sched_tick_interval) s.(sched_tick_deadline) s.(sie_timer) s.(sbi_timer) s.(rdtime)
    s.(rdtime_reads) s.(k_uart) s.(k_plic) s.(k_mem) s.(initrd_start) s.(initrd_end) s.(trace_ecalls)
    s.(ecall_demo_tid).
Definition set_timer_events (v : gmap Z timer_event) (s : ksys) : ksys :=
    mkKsys s.(k_sched) s.(trace) s.(trace_head) s.(trace_count) s.(pending) s.(pool) s.(work_head) s.(work_tail)
    s.(timebase_frequency) s.(boot_time) s.(next_deadline) s.(uptime_seconds) s.(timer_irq_count) v s.(timer_head)
    s.(timer_enabled) s.(sched_tick_interval) s.(sched_tick_deadline) s.(sie_timer) s.(sbi_timer) s.(rdtime)
    s.(rdtime_reads) s.(k_uart) s.(k_plic) s.(k_mem) s.(initrd_start) s.(initrd_end) s.(trace_ecalls)
    s.(ecall_demo_tid).
Definition set_timer_head (v : Z) (s : ksys) : ksys :=
    mkKsys s.(k_sched) s.(trace) s.(trace_head) s.(trace_count) s.(pending) s.(pool) s.(work_head) s.(work_tail)
    s.(timebase_frequency) s.(boot_time) s.(next_deadline) s.(uptime_seconds) s.(timer_irq_count) s.(timer_events) v
    s.(timer_enabled) s.(sched_tick_interval) s.(sched_tick_deadline) s.(sie_timer) s.(sbi_timer) s.(rdtime)
    s.(rdtime_reads) s.(k_uart) s.(k_plic) s.(k_mem) s.(initrd_start) s.(initrd_end) s.(trace_ecalls)
    s.(ecall_demo_tid).
Definition set_timer_enabled (v : Z) (s : ksys) : ksys :=
    mkKsys s.(k_sched) s.(trace) s.(trace_head) s.(trace_count) s.(pending) s.(pool) s.(work_head) s.(work_tail)
    s.(timebase_frequency) s.(boot_time) s.(next_deadline) s.(uptime_seconds) s.(timer_irq_count) s.(timer_events)
    s.(timer_head) v s.(sched_tick_interval) s.(sched_tick_deadline) s.(sie_timer) s.(sbi_timer) s.(rdtime)
    s.(rdtime_reads) s.(k_uart) s.(k_plic) s.(k_mem) s.(initrd_start) s.(initrd_end) s.(trace_ecalls)
    s.(ecall_demo_tid).
Definition set_sched_tick_interval (v : Z) (s : ksys) : ksys :=
    mkKsys s.(k_sched) s.(trace) s.(trace_head) s.(trace_count) s.(pending) s.(pool) s.(work_head) s.(work_tail)
    s.(timebase_frequency) s.(boot_time) s.(next_deadline) s.(uptime_seconds) s.(timer_irq_count) s.(timer_events)
    s.(timer_head) s.(timer_enabled) v s.(sched_tick_deadline) s.(sie_timer) s.(sbi_timer) s.(rdtime)
    s.(rdtime_reads) s.(k_uart) s.(k_plic) s.(k_mem) s.(initrd_start) s.(initrd_end) s.(trace_ecalls)
    s.(ecall_demo_tid).
Definition set_sched_tick_deadline (v : Z) (s : ksys) : ksys :=
    mkKsys s.(k_sched) s.(trace) s.(trace_head) s.(trace_count) s.(pending) s.(pool) s.(work_head) s.(work_tail)
    s.(timebase_frequency) s.(boot_time) s.(next_deadline) s.(uptime_seconds) s.(timer_irq_count) s.(timer_events)
    s.(timer_head) s.(timer_enabled) s.(sched_tick_interval) v s.(sie_timer) s.(sbi_timer) s.(rdtime)
    s.(rdtime_reads) s.(k_uart) s.(k_plic) s.(k_mem) s.(initrd_start) s.(initrd_end) s.(trace_ecalls)
    s.(ecall_demo_tid).
Definition set_sie_timer (v : bool) (s : ksys) : ksys :=
    mkKsys s.(k_sched) s.(trace) s.(trace_head) s.(trace_count) s.(pending) s.(pool) s.(work_head) s.(work_tail)
    s.(timebase_frequency) s.(boot_time) s.(next_deadline) s.(uptime_seconds) s.(timer_irq_count) s.(timer_events)
    s.(timer_head) s.(timer_enabled) s.(sched_tick_interval) s.(sched_tick_deadline) v s.(sbi_timer) s.(rdtime)
    s.(rdtime_reads) s.(k_uart) s.(k_plic) s.(k_mem) s.(initrd_start) s.(initrd_end) s.(trace_ecalls)
    s.(ecall_demo_tid).
Definition set_sbi_timer (v : Z) (s : ksys) : ksys :=
    mkKsys s.(k_sched) s.(trace) s.(trace_head) s.(trace_count) s.(pending) s.(pool) s.(work_head) s.(work_tail)
    s.(timebase_frequency) s.(boot_time) s.(next_deadline) s.(uptime_seconds) s.(timer_irq_count) s.(timer_events)
    s.(timer_head) s.(timer_enabled) s.(sched_tick_interval) s.(sched_tick_deadline) s.(sie_timer) v s.(rdtime)
    s.(rdtime_reads) s.(k_uart) s.(k_plic) s.(k_mem) s.(initrd_start) s.(initrd_end) s.(trace_ecalls)
    s.(ecall_demo_tid).
Definition set_rdtime (v : nat -> Z) (s : ksys) : ksys :=
    mkKsys s.(k_sched) s.(trace) s.(trace_head) s.(trace_count) s.(pending) s.(pool) s.(work_head) s.(work_tail)
    s.(timebase_frequency) s.(boot_time) s.(next_deadline) s.(uptime_seconds) s.(timer_irq_count) s.(timer_events)
    s.(timer_head) s.(timer_enabled) s.(sched_tick_interval) s.(sched_tick_deadline) s.(sie_timer) s.(sbi_timer) v
    s.(rdtime_reads) s.(k_uart) s.(k_plic) s.(k_mem) s.(initrd_start) s.(initrd_end) s.(trace_ecalls)
    s.(ecall_demo_tid).
Definition set_rdtime_reads (v : nat) (s : ksys) : ksys :=
    mkKsys s.(k_sched) s.(trace) s.(trace_head) s.(trace_count) s.(pending) s.(pool) s.(work_head) s.(work_tail)
    s.(timebase_frequency) s.(boot_time) s.(next_deadline) s.(uptime_seconds) s.(timer_irq_count) s.(timer_events)
    s.(timer_head) s.(timer_enabled) s.(sched_tick_interval) s.(sched_tick_deadline) s.(sie_timer) s.(sbi_timer)
    s.(rdtime) v s.(k_uart) s.(k_plic) s.(k_mem) s.(initrd_start) s.(initrd_end) s.(trace_ecalls)
    s.(ecall_demo_tid).
Definition set_k_uart (v : uart) (s : ksys) : ksys :=
    mkKsys s.(k_sched) s.(trace) s.(trace_head) s.(trace_count) s.(pending) s.(pool) s.(work_head) s.(work_tail)
    s.(timebase_frequency) s.(boot_time) s.(next_deadline) s.(uptime_seconds) s.(timer_irq_count) s.(timer_events)
    s.(timer_head) s.(timer_enabled) s.(sched_tick_interval) s.(sched_tick_deadline) s.(sie_timer) s.(sbi_timer)
    s.(rdtime) s.(rdtime_reads) v s.(k_plic) s.(k_mem) s.(initrd_start) s.(initrd_end) s.(trace_ecalls)
    s.(ecall_demo_tid).
Definition set_k_plic (v : plic) (s : ksys) : ksys :=
    mkKsys s.(k_sched) s.(trace) s.(trace_head) s.(trace_count) s.(pending) s.(pool) s.(work_head) s.(work_tail)
    s.(timebase_frequency) s.(boot_time) s.(next_deadline) s.(uptime_seconds) s.(timer_irq_count) s.(timer_events)
    s.(timer_head) s.(timer_enabled) s.(sched_tick_interval) s.(sched_tick_deadline) s.(sie_timer) s.(sbi_timer)
    s.(rdtime) s.(rdtime_reads) s.(k_uart) v s.(k_mem) s.(initrd_start) s.(initrd_end) s.(trace_ecalls)
    s.(ecall_demo_tid).
Definition set_k_mem (v : cmem) (s : ksys) : ksys :=
    mkKsys s.(k_sched) s.(trace) s.(trace_head) s.(trace_count) s.(pending) s.(pool) s.(work_head) s.(work_tail)
    s.(timebase_frequency) s.(boot_time) s.(next_deadline) s.(uptime_seconds) s.(timer_irq_count) s.(timer_events)
    s.(timer_head) s.(timer_enabled) s.(sched_tick_interval) s.(sched_tick_deadline) s.(sie_timer) s.(sbi_timer)
    s.(rdtime) s.(rdtime_reads) s.(k_uart) s.(k_plic) v s.(initrd_start) s.(initrd_end) s.(trace_ecalls)
    s.(ecall_demo_tid).
Definition set_initrd_start (v : Z) (s : ksys) : ksys :=
    mkKsys s.(k_sched) s.(trace) s.(trace_head) s.(trace_count) s.(pending) s.(pool) s.(work_head) s.(work_tail)
    s.(timebase_frequency) s.(boot_time) s.(next_deadline) s.(uptime_seconds) s.(timer_irq_count) s.(timer_events)
    s.(timer_head) s.(timer_enabled) s.(sched_tick_interval) s.(sched_tick_deadline) s.(sie_timer) s.(sbi_timer)
    s.(rdtime) s.(rdtime_reads) s.(k_uart) s.(k_plic) s.(k_mem) v s.(initrd_end) s.(trace_ecalls)
    s.(ecall_demo_tid).
Definition set_initrd_end (v : Z) (s : ksys) : ksys :=
    mkKsys s.(k_sched) s.(trace) s.(trace_head) s.(trace_count) s.(pending) s.(pool) s.(work_head) s.(work_tail)
    s.(timebase_frequency) s.(boot_time) s.(next_deadline) s.(uptime_seconds) s.(timer_irq_count) s.(timer_events)
    s.(timer_head) s.(timer_enabled) s.(sched_tick_interval) s.(sched_tick_deadline) s.(sie_timer) s.(sbi_timer)
    s.(rdtime) s.(rdtime_reads) s.(k_uart) s.(k_plic) s.(k_mem) s.(initrd_start) v s.(trace_ecalls)
    s.(ecall_demo_tid).
Definition set_trace_ecalls (v : Z) (s : ksys) : ksys :=
    mkKsys s.(k_sched) s.(trace) s.(trace_head) s.(trace_count) s.(pending) s.(pool) s.(work_head) s.(work_tail)
    s.(timebase_frequency) s.(boot_time) s.(next_deadline) s.(uptime_seconds) s.(timer_irq_count) s.(timer_events)
    s.(timer_head) s.(timer_enabled) s.(sched_tick_interval) s.(sched_tick_deadline) s.(sie_timer) s.(sbi_timer)
    s.(rdtime) s.(rdtime_reads) s.(k_uart) s.(k_plic) s.(k_mem) s.(initrd_start) s.(initrd_end) v
    s.(ecall_demo_tid).
Definition set_ecall_demo_tid (v : Z) (s : ksys) : ksys :=
    mkKsys s.(k_sched) s.(trace) s.(trace_head) s.(trace_count) s.(pending) s.(pool) s.(work_head) s.(work_tail)
    s.(timebase_frequency) s.(boot_time) s.(next_deadline) s.(uptime_seconds) s.(timer_irq_count) s.(timer_events)
    s.(timer_head) s.(timer_enabled) s.(sched_tick_interval) s.(sched_tick_deadline) s.(sie_timer) s.(sbi_timer)
    s.(rdtime) s.(rdtime_reads) s.(k_uart) s.(k_plic) s.(k_mem) s.(initrd_start) s.(initrd_end) s.(trace_ecalls) v.

#[export] Instance ksys_sched : Lens ksys sched.
Proof. refine {| view := k_sched; put := set_k_sched |}; intros; by try destruct s. Defined.

#[export] Instance ksys_rings : Lens ksys ringmem.
Proof.
  refine {| view := fun s => s.(k_uart).(uart_mem); put := fun r s => set_k_uart (set_uart_mem r s.(k_uart)) s |}.
  - reflexivity.
  - intros s. assert (E : set_uart_mem s.(k_uart).(uart_mem) s.(k_uart) = s.(k_uart)) by (by destruct (k_uart s)).
    rewrite E. by destruct s.
  - reflexivity.
Defined.

#[export] Instance ksys_cmem : Lens ksys cmem.
Proof. refine {| view := k_mem; put := set_k_mem |}; intros; by try destruct s. Defined.

#[export] Instance ksys_heap : Lens ksys slabs.
Proof.
  refine {| view := fun s => s.(k_sched).(heap); put := fun h s => set_k_sched (set_heap h s.(k_sched)) s |}.
  - intros t [[] ]. reflexivity.
  - intros [[] ]. reflexivity.
  - intros t t' [[] ]. reflexivity.
Defined.

#[export] Instance ksys_mem : Lens ksys mem.
Proof.
  refine {| view := fun s => s.(k_sched).(heap).(pages);
            put := fun m s => set_k_sched (set_heap (set_pages m s.(k_sched).(heap)) s.(k_sched)) s |}.
  - intros t [[? ? ? ? ? ? ? ? ? ? ? ? ? ? ? ? ? []] ]. reflexivity.
  - intros [[? ? ? ? ? ? ? ? ? ? ? ? ? ? ? ? ? []] ]. reflexivity.
  - intros t t' [[? ? ? ? ? ? ? ? ? ? ? ? ? ? ? ? ? []] ]. reflexivity.
Defined.

(** ** The interrupt flag, the time counter and the console *)

Definition k_irq (s : ksys) : bool := s.(k_sched).(heap).(pages).(irq_on).
Definition set_k_irq (v : bool) (s : ksys) : ksys := put (set_irq_on v (view s : mem)) s.

Definition k_irq_save : M ksys bool := zoom local_irq_save.
Definition k_irq_restore (status : bool) : M ksys unit := zoom (local_irq_restore status).
Definition k_irq_enable : M ksys unit := zoom (modify (set_irq_on true)).

(** [timer_read]: the instruction [rdtime]. *)
Definition timer_read : M ksys Z :=
  n ← gets rdtime_reads;
  clock ← gets rdtime;
  modify (set_rdtime_reads (S n)) ;;
  mret (u64 (clock n)).

Definition say (items : list log_item) : M ksys unit := zoom (log items : M mem unit).

(** What the console has shown. *)
Definition k_console (s : ksys) : list log_item := s.(k_sched).(heap).(pages).(console).
Definition set_k_console (v : list log_item) (s : ksys) : ksys := put (set_console v (view s : mem)) s.

Lemma set_k_console_self s : set_k_console (k_console s) s = s.
Proof. destruct s as [[? ? ? ? ? ? ? ? ? ? ? ? ? ? ? ? ? []] ]. by destruct pages. Qed.

(** ** Critical sections *)

Lemma wp_k_irq_save Q s : Q (k_irq s) (set_k_irq false s) -> wp k_irq_save Q s.
Proof. intros H. apply wp_zoom. exact H. Qed.

Lemma wp_k_irq_restore b Q s : Q tt (set_k_irq (k_irq s || b) s) -> wp (k_irq_restore b) Q s.
Proof. intros H. apply wp_zoom. exact H. Qed.

Lemma wp_timer_read Q s :
  Q (u64 (s.(rdtime) s.(rdtime_reads))) (set_rdtime_reads (S s.(rdtime_reads)) s) -> wp timer_read Q s.
Proof. intros H. exact H. Qed.

Lemma wp_say items Q s :
  Q tt (put (set_console ((view s : mem).(console) ++ items) (view s : mem)) s) -> wp (say items) Q s.
Proof. intros H. apply wp_zoom. exact H. Qed.

Lemma k_irq_set v s : k_irq (set_k_irq v s) = v.
Proof. reflexivity. Qed.
Lemma set_k_irq_twice v w s : set_k_irq v (set_k_irq w s) = set_k_irq v s.
Proof. reflexivity. Qed.
Lemma set_k_irq_self s : set_k_irq (k_irq s) s = s.
Proof. destruct s as [[? ? ? ? ? ? ? ? ? ? ? ? ? ? ? ? ? []] ]. by destruct pages. Qed.

(** A section that saves the flag, does [f] and restores the flag does [f]. *)
Lemma critical (f : ksys -> ksys) s :
  (forall v, f (set_k_irq v s) = set_k_irq v (f s)) -> k_irq (f s) = k_irq s ->
  set_k_irq (k_irq (f (set_k_irq false s)) || k_irq s) (f (set_k_irq false s)) = f s.
Proof. intros Hc Hk. rewrite Hc, k_irq_set, set_k_irq_twice. cbn [orb]. rewrite <- Hk. apply set_k_irq_self. Qed.

(** The end of a section that did [f]. *)
Lemma wp_critical (f : ksys -> ksys) s Q :
  (forall v, f (set_k_irq v s) = set_k_irq v (f s)) -> k_irq (f s) = k_irq s -> Q tt (f s) ->
  wp (k_irq_restore (k_irq s)) Q (f (set_k_irq false s)).
Proof. intros Hc Hk HQ. apply wp_k_irq_restore. by rewrite critical. Qed.
