(* ===== verification/Trace.v ===== *)
(** * The event trace ([trace.c])

    A circular array of the last 128 events.  The first part is the code, the
    second the list of recent events it stands for. *)

From S2P Require Import Prelude Lists Memory Slab Task Irq.

Open Scope Z_scope.

Definition TRACE_CAPACITY : Z := 128.

Inductive trace_kind :=
| TRACE_TIMER_TOP | TRACE_TIMER_BOTTOM | TRACE_UART_TOP_RX | TRACE_UART_TOP_TX | TRACE_UART_RX_BOTTOM
| TRACE_UART_TX_BOTTOM | TRACE_RUN_TIMER | TRACE_RUN_UART_RX | TRACE_RUN_UART_TX.

Definition kind_code (k : trace_kind) : Z :=
  match k with
  | TRACE_TIMER_TOP => 0 | TRACE_TIMER_BOTTOM => 1 | TRACE_UART_TOP_RX => 2 | TRACE_UART_TOP_TX => 3
  | TRACE_UART_RX_BOTTOM => 4 | TRACE_UART_TX_BOTTOM => 5 | TRACE_RUN_TIMER => 6 | TRACE_RUN_UART_RX => 7
  | TRACE_RUN_UART_TX => 8
  end.

Definition trace_kind_name (kind : Z) : string :=
  match kind with
  | 0 => "timer_top" | 1 => "timer_bottom" | 2 => "uart_top_rx" | 3 => "uart_top_tx" | 4 => "uart_rx_bottom"
  | 5 => "uart_tx_bottom" | 6 => "run_timer" | 7 => "run_uart_rx" | 8 => "run_uart_tx" | _ => "unknown"
  end.

(** [trace[i]]. *)
Definition trace_get (i : Z) : M ksys trace_event :=
  access (fun s => if 0 <=? i then s.(trace) !! Z.to_nat i else None).
Definition trace_set (i : Z) (e : trace_event) : M ksys unit :=
  update (fun s =>
    if (0 <=? i) && (i <? Z.of_nat (length s.(trace))) then Some (set_trace (<[Z.to_nat i := e]> s.(trace)) s) else None).

(** ** The functions *)

Definition trace_reset : M ksys unit :=
  sstatus ← k_irq_save;
  modify (set_trace_head 0) ;;
  modify (set_trace_count 0) ;;
  k_irq_restore sstatus.

Definition trace_record (kind : trace_kind) (aux : Z) : M ksys unit :=
  sstatus ← k_irq_save;
  slot ← gets trace_head;
  now ← timer_read;
  trace_set slot (mkTraceEvent now (u32 aux) (u8 (kind_code kind))) ;;
  modify (set_trace_head (u32 (slot + 1) mod TRACE_CAPACITY)) ;;
  count ← gets trace_count;
  when (count <? TRACE_CAPACITY) (modify (set_trace_count (u32 (count + 1)))) ;;
  k_irq_restore sstatus.

(** The copying loop of [trace_dump]: [snapshot[0 .. count-1]]. *)
Fixpoint trace_snapshot (n : nat) (start i : Z) : M ksys (list trace_event) :=
  match n with
  | O => mret []
  | S n' =>
      e ← trace_get (u32 (start + i) mod TRACE_CAPACITY);
      rest ← trace_snapshot n' start (i + 1);
      mret (e :: rest)
  end.

Fixpoint trace_print (i : Z) (es : list trace_event) : M ksys unit :=
  match es with
  | [] => mret tt
  | e :: es' =>
      freq ← gets timebase_frequency;
      boot ← gets boot_time;
      let ms := if freq =? 0 then 0 else u64 (u64 (e.(te_now) - boot) * 1000) / freq in
      say [LStr "trace["; LDec i; LStr "] t="; LDec ms; LStr "ms kind="; LStr (trace_kind_name e.(te_kind));
           LStr " aux="; LDec e.(te_aux); LStr "\n"] ;;
      trace_print (i + 1) es'
  end.

Definition trace_dump : M ksys unit :=
  sstatus ← k_irq_save;
  count ← gets trace_count;
  head ← gets trace_head;
  let start := u32 (head + TRACE_CAPACITY - count) mod TRACE_CAPACITY in
  snapshot ← trace_snapshot (Z.to_nat count) start 0;
  k_irq_restore sstatus ;;
  say [LStr "demo trace: "; LDec count; LStr " events\n"] ;;
  trace_print 0 snapshot.

(** The walk of [trace_seen_since] from the [i]-th oldest event on. *)
Fixpoint trace_scan (n : nat) (start i : Z) (kind since : Z) : M ksys bool :=
  match n with
  | O => mret false
  | S n' =>
      e ← trace_get (u32 (start + i) mod TRACE_CAPACITY);
      if (e.(te_kind) =? kind) && (since <=? e.(te_now)) then mret true else trace_scan n' start (i + 1) kind since
  end.

Definition trace_seen_since (kind : trace_kind) (since : Z) : M ksys Z :=
  status ← k_irq_save;
  head ← gets trace_head;
  count ← gets trace_count;
  let start := u32 (head + TRACE_CAPACITY - count) mod TRACE_CAPACITY in
  found ← trace_scan (Z.to_nat count) start 0 (kind_code kind) since;
  k_irq_restore status ;;
  mret (Z.b2z found).

(** ** What the trace holds *)

Definition trace_ok (s : ksys) : Prop :=
  Z.of_nat (length s.(trace)) = TRACE_CAPACITY /\ 0 <= s.(trace_head) < TRACE_CAPACITY /\
  0 <= s.(trace_count) <= TRACE_CAPACITY.

(** The recorded events, oldest first. *)
Definition trace_view (s : ksys) : list trace_event :=
  window TRACE_CAPACITY (s.(trace_head) + TRACE_CAPACITY - s.(trace_count)) (Z.to_nat s.(trace_count)) s.(trace).

(** The last [n] elements. *)
Definition keep_last {A} (n : nat) (l : list A) : list A := drop (length l - n) l.

Lemma keep_last_short {A} n (l : list A) : (length l <= n)%nat -> keep_last n l = l.
Proof. intros H. unfold keep_last. by replace (length l - n)%nat with 0%nat by lia. Qed.

Lemma keep_last_full {A} n (l : list A) x : length l = n -> (0 < n)%nat -> keep_last n (l ++ [x]) = tail l ++ [x].
Proof.
  intros <- Hn. unfold keep_last. rewrite length_app. cbn [length].
  replace (length l + 1 - length l)%nat with 1%nat by lia. destruct l; cbn in *; [lia|]. by rewrite drop_0.
Qed.

(** The event that a call records. *)
Definition event_now (s : ksys) (kind : trace_kind) (aux : Z) : trace_event :=
  mkTraceEvent (u64 (s.(rdtime) s.(rdtime_reads))) (u32 aux) (kind_code kind).

Definition recorded (kind : trace_kind) (aux : Z) (s : ksys) : ksys :=
  let s1 := set_trace_head ((s.(trace_head) + 1) mod TRACE_CAPACITY)
              (set_trace (<[Z.to_nat s.(trace_head) := event_now s kind aux]> s.(trace))
                 (set_rdtime_reads (S s.(rdtime_reads)) s)) in
  set_trace_count (Z.min (s.(trace_count) + 1) TRACE_CAPACITY) s1.

Lemma kind_code_u8 k : u8 (kind_code k) = kind_code k.
Proof. by destruct k. Qed.

Lemma wp_trace_set i e Q s :
  0 <= i < Z.of_nat (length s.(trace)) -> Q tt (set_trace (<[Z.to_nat i := e]> s.(trace)) s) -> wp (trace_set i e) Q s.
Proof.
  intros Hi HQ. eapply wp_update; [|exact HQ].
  by rewrite (proj2 (Z.leb_le 0 i)), (proj2 (Z.ltb_lt i _)) by lia.
Qed.

Lemma wp_trace_record kind aux Q s :
  trace_ok s -> Q tt (recorded kind aux s) -> wp (trace_record kind aux) Q s.
Proof.
  intros (Hl & Hh & Hc) HQ. unfold trace_record. apply wp_bind, wp_k_irq_save.
  apply wp_bind, wp_gets, wp_bind, wp_timer_read, wp_bind.
  change (trace_head (set_k_irq false s)) with (trace_head s).
  assert (Hi : 0 <= trace_head s < Z.of_nat (length (trace s))) by lia. apply wp_trace_set; [exact Hi|].
  apply wp_bind, wp_modify, wp_bind, wp_gets, wp_bind. rewrite kind_code_u8. unfold TRACE_CAPACITY in *.
  rewrite !u32_id with (x := trace_head s + 1) by lia.
  rewrite <- (critical (recorded kind aux)) in HQ by reflexivity.
  apply wp_when; cbn [trace_count set_trace_head set_trace set_rdtime_reads].
  - intros Hlt. apply Z.ltb_lt in Hlt. cbn in Hlt. apply wp_modify, wp_k_irq_restore.
    unfold recorded, TRACE_CAPACITY in HQ. rewrite Z.min_l in HQ by (cbn; lia).
    change (trace_count (set_k_irq false s)) with (trace_count s) in *. rewrite u32_id by lia. exact HQ.
  - intros Hge. apply Z.ltb_ge in Hge. cbn in Hge. apply wp_k_irq_restore.
    unfold recorded, TRACE_CAPACITY in HQ. rewrite Z.min_r in HQ by (cbn; lia).
    assert (E : trace_count s = 128) by lia. destruct s. cbn in E. subst. exact HQ.
Qed.

Lemma recorded_ok kind aux s : trace_ok s -> trace_ok (recorded kind aux s).
Proof.
  intros (Hl & Hh & Hc). unfold trace_ok, recorded, TRACE_CAPACITY in *. cbn. rewrite length_insert.
  pose proof (Z.mod_pos_bound (trace_head s + 1) 128). lia.
Qed.

(** Recording appends, and drops the oldest event once 128 are held. *)
Lemma recorded_view kind aux s :
  trace_ok s -> trace_view (recorded kind aux s) = keep_last 128 (trace_view s ++ [event_now s kind aux]).
Proof.
  intros (Hl & Hh & Hc). unfold trace_view. cbn [trace_head trace_count trace recorded set_trace_count set_trace_head set_trace set_rdtime_reads].
  unfold TRACE_CAPACITY in *. set (st := s.(trace_head) + 128 - s.(trace_count)).
  assert (Hlen : length (window 128 st (Z.to_nat (trace_count s)) (trace s)) = Z.to_nat (trace_count s)) by (by apply window_length).
  destruct (decide (s.(trace_count) = 128)) as [E|E].
  - rewrite keep_last_full, Z.min_r by lia. replace st with (trace_head s) by lia.
    rewrite <- (window_push_full 128 ltac:(lia) (trace s) _ _ (trace_head s)) by lia.
    rewrite (Z.mod_small (trace_head s)), Z.add_simpl_r, window_shift, E by lia. done.
  - rewrite keep_last_short by (rewrite length_app; cbn; lia). rewrite Z.min_l by lia.
    rewrite Z2Nat.inj_add, Nat.add_1_r by lia. rewrite <- (window_push 128) by lia.
    assert (Es : (st + Z.of_nat (Z.to_nat (trace_count s))) mod 128 = trace_head s).
    { rewrite Z2Nat.id by lia. unfold st. replace (_ + 128 - _ + _) with (trace_head s + 1 * 128) by lia.
      by rewrite Z.mod_add, Z.mod_small by lia. }
    assert (Ea : ((trace_head s + 1) mod 128 + 128 - (trace_count s + 1)) mod 128 = st mod 128).
    { replace (_ mod 128 + 128 - _) with ((trace_head s + 1) mod 128 + (127 - trace_count s)) by lia.
      rewrite Z.add_mod_idemp_l by lia. f_equal. unfold st. lia. }
    rewrite Es, <- (window_shift 128 ltac:(lia) _ _ (_ - _)), Ea. by apply window_shift.
Qed.

Lemma keep_last_snoc {A} n (l : list A) x : (0 < n)%nat -> keep_last n (keep_last n l ++ [x]) = keep_last n (l ++ [x]).
Proof.
  intros Hn. unfold keep_last. rewrite !length_app, length_drop. cbn [length].
  rewrite !drop_app_le by (rewrite ?length_drop; lia). rewrite drop_drop. do 2 f_equal. lia.
Qed.

(** *** Reading the trace *)

Lemma wp_trace_get s start i n Q :
  trace_ok s -> 0 <= start < TRACE_CAPACITY -> 0 <= i -> i + Z.of_nat (S n) <= TRACE_CAPACITY ->
  (forall e, window TRACE_CAPACITY (start + i) (S n) s.(trace) = e :: window TRACE_CAPACITY (start + (i + 1)) n s.(trace) ->
     Q e s) ->
  wp (trace_get (u32 (start + i) mod TRACE_CAPACITY)) Q s.
Proof.
  intros (Hl & _ & _) Hs Hi Hn HQ. unfold TRACE_CAPACITY in *. rewrite u32_id by lia.
  destruct (window_first 128 ltac:(lia) s.(trace) (S n) (start + i) Hl ltac:(lia)) as (e & E & Hw).
  eapply wp_access; [rewrite (proj2 (Z.leb_le _ _)) by (apply Z.mod_pos_bound; lia); exact E|].
  apply HQ. rewrite Hw. by rewrite Z.add_assoc.
Qed.

Lemma wp_trace_snapshot n : forall s start i Q,
  trace_ok s -> 0 <= start < TRACE_CAPACITY -> 0 <= i -> i + Z.of_nat n <= TRACE_CAPACITY ->
  Q (window TRACE_CAPACITY (start + i) n s.(trace)) s -> wp (trace_snapshot n start i) Q s.
Proof.
  induction n as [|n IH]; intros s start i Q Hok Hs Hi Hn HQ; [by apply wp_ret|].
  cbn [trace_snapshot]. apply wp_bind, (wp_trace_get s start i n); try done. intros e He.
  apply wp_bind, IH; [done|done|lia|lia|]. apply wp_ret. by rewrite <- He.
Qed.

Definition seen (kind since : Z) (es : list trace_event) : bool :=
  existsb (fun e => (e.(te_kind) =? kind) && (since <=? e.(te_now))) es.

Lemma wp_trace_scan n : forall s start i kind since Q,
  trace_ok s -> 0 <= start < TRACE_CAPACITY -> 0 <= i -> i + Z.of_nat n <= TRACE_CAPACITY ->
  Q (seen kind since (window TRACE_CAPACITY (start + i) n s.(trace))) s -> wp (trace_scan n start i kind since) Q s.
Proof.
  induction n as [|n IH]; intros s start i kind since Q Hok Hs Hi Hn HQ; [by apply wp_ret|].
  cbn [trace_scan]. apply wp_bind, (wp_trace_get s start i n); try done. intros e He. rewrite He in HQ.
  unfold seen in HQ. cbn [existsb] in HQ. destruct ((te_kind e =? kind) && (since <=? te_now e)).
  - by apply wp_ret.
  - apply IH; [done|done|lia|lia|done].
Qed.

(** The first slot that is read. *)
Lemma trace_start s :
  trace_ok s ->
  let start := u32 (s.(trace_head) + TRACE_CAPACITY - s.(trace_count)) mod TRACE_CAPACITY in
  0 <= start < TRACE_CAPACITY /\ window TRACE_CAPACITY (start + 0) (Z.to_nat s.(trace_count)) s.(trace) = trace_view s.
Proof.
  intros (Hl & Hh & Hc) start. unfold start, TRACE_CAPACITY in *. rewrite u32_id by lia.
  split; [apply Z.mod_pos_bound; lia|]. rewrite Z.add_0_r. by apply window_shift.
Qed.

Lemma wp_trace_seen kind since Q s :
  trace_ok s -> Q (Z.b2z (seen (kind_code kind) since (trace_view s))) s -> wp (trace_seen_since kind since) Q s.
Proof.
  intros Hok HQ. unfold trace_seen_since. apply wp_bind, wp_k_irq_save, wp_bind, wp_gets, wp_bind, wp_gets, wp_bind.
  destruct (trace_start s Hok) as [Hr Hw]. pose proof Hok as (_ & _ & Hc).
  apply wp_trace_scan; [exact Hok|exact Hr|lia|cbn; rewrite Z2Nat.id by lia; lia|].
  apply wp_bind, wp_k_irq_restore, wp_ret.
  change (k_irq (set_k_irq false s)) with false. cbn [orb]. rewrite set_k_irq_twice, set_k_irq_self.
  rewrite <- Hw in HQ. exact HQ.
Qed.

(** *** Printing the trace *)

Definition event_line (freq boot i : Z) (e : trace_event) : list log_item :=
  let ms := if freq =? 0 then 0 else u64 (u64 (e.(te_now) - boot) * 1000) / freq in
  [LStr "trace["; LDec i; LStr "] t="; LDec ms; LStr "ms kind="; LStr (trace_kind_name e.(te_kind));
   LStr " aux="; LDec e.(te_aux); LStr "\n"].

Fixpoint event_lines (freq boot i : Z) (es : list trace_event) : list log_item :=
  match es with
  | [] => []
  | e :: es' => event_line freq boot i e ++ event_lines freq boot (i + 1) es'
  end.

Lemma wp_trace_print es : forall i Q s,
  Q tt (set_k_console (k_console s ++ event_lines s.(timebase_frequency) s.(boot_time) i es) s) ->
  wp (trace_print i es) Q s.
Proof.
  induction es as [|e es IH]; intros i Q s HQ; cbn [trace_print event_lines] in *.
  - rewrite app_nil_r, set_k_console_self in HQ. by apply wp_ret.
  - apply wp_bind, wp_gets, wp_bind, wp_gets. cbn zeta. apply wp_bind, wp_say, IH.
    change (k_console (put _ s)) with (k_console s ++ event_line s.(timebase_frequency) s.(boot_time) i e).
    rewrite <- app_assoc. exact HQ.
Qed.

(** [trace_dump] prints the events oldest first and changes nothing else. *)
Definition dump_items (s : ksys) : list log_item :=
  [LStr "demo trace: "; LDec s.(trace_count); LStr " events\n"] ++
  event_lines s.(timebase_frequency) s.(boot_time) 0 (trace_view s).

Lemma wp_trace_dump Q s :
  trace_ok s -> Q tt (set_k_console (k_console s ++ dump_items s) s) -> wp trace_dump Q s.
Proof.
  intros Hok HQ. unfold trace_dump. apply wp_bind, wp_k_irq_save, wp_bind, wp_gets, wp_bind, wp_gets, wp_bind.
  destruct (trace_start s Hok) as [Hr Hw]. pose proof Hok as (_ & _ & Hc).
  apply wp_trace_snapshot; [exact Hok|exact Hr|lia|cbn; rewrite Z2Nat.id by lia; lia|].
  apply wp_bind, wp_k_irq_restore.
  change (k_irq (set_k_irq false s)) with false. cbn [orb]. rewrite set_k_irq_twice, set_k_irq_self.
  apply wp_bind, wp_say, wp_trace_print. unfold dump_items in HQ. rewrite <- Hw, app_assoc in HQ. exact HQ.
Qed.

(** ** Histories of recordings *)

Fixpoint trace_all (evs : list (trace_kind * Z)) : M ksys unit :=
  match evs with
  | [] => mret tt
  | (k, a) :: evs' => trace_record k a ;; trace_all evs'
  end.

(** The events recorded when the time counter is read [n], [n + 1], ... times. *)
Fixpoint stamped (clock : nat -> Z) (n : nat) (evs : list (trace_kind * Z)) : list trace_event :=
  match evs with
  | [] => []
  | (k, a) :: evs' => mkTraceEvent (u64 (clock n)) (u32 a) (kind_code k) :: stamped clock (S n) evs'
  end.

Lemma wp_trace_all evs : forall l Q s,
  trace_ok s -> trace_view s = keep_last 128 l ->
  (forall s', trace_ok s' -> trace_view s' = keep_last 128 (l ++ stamped s.(rdtime) s.(rdtime_reads) evs) -> Q tt s') ->
  wp (trace_all evs) Q s.
Proof.
  induction evs as [|[k a] evs IH]; intros l Q s Hok Hv HQ; cbn [trace_all stamped] in *.
  - apply wp_ret, HQ; [done|]. by rewrite app_nil_r.
  - apply wp_bind, wp_trace_record; [done|]. apply (IH (l ++ [event_now s k a])).
    + by apply recorded_ok.
    + rewrite recorded_view, Hv by done. by apply keep_last_snoc; lia.
    + intros s' Hok' Hv'. apply HQ; [done|]. rewrite Hv'. by rewrite <- app_assoc.
Qed.

Lemma wp_trace_reset Q s :
  trace_ok s -> (forall s', trace_ok s' -> trace_view s' = [] -> s'.(rdtime) = s.(rdtime) ->
    s'.(rdtime_reads) = s.(rdtime_reads) -> k_irq s' = k_irq s -> Q tt s') -> wp trace_reset Q s.
Proof.
  intros (Hl & Hh & Hc) HQ. unfold trace_reset.
  apply wp_bind, wp_k_irq_save, wp_bind, wp_modify, wp_bind, wp_modify, wp_k_irq_restore.
  apply HQ; [|done..]. unfold trace_ok, TRACE_CAPACITY in *. cbn. lia.
Qed.
