(* ===== verification/Work.v ===== *)
(** * Deferred callbacks ([custom_work.c]) and their notification ([bottom_half.c])

    The pending bits of [bottom_half.c] and the queue of one-shot callbacks.
    The dispatcher of [bottom_half.c] is not part of this file. *)

From S2P Require Import Prelude Lists Memory Slab Task Irq.

Open Scope Z_scope.

(** ** Pending bits *)

Inductive bottom_half := BH_TIMER | BH_UART_RX | BH_UART_TX | BH_CUSTOM.

Definition bh_code (b : bottom_half) : Z :=
  match b with BH_TIMER => 0 | BH_UART_RX => 1 | BH_UART_TX => 2 | BH_CUSTOM => 3 end.

Definition BH_COUNT : Z := 4.

Definition raise_bottom_half (type : Z) : M ksys unit :=
  if BH_COUNT <=? u32 type then mret tt
  else
    status ← k_irq_save;
    modify (fun s => set_pending (Z.lor s.(pending) (Z.shiftl 1 type)) s) ;;
    k_irq_restore status.

Definition clear_bottom_half (type : Z) : M ksys unit :=
  if BH_COUNT <=? u32 type then mret tt
  else
    status ← k_irq_save;
    modify (fun s => set_pending (Z.land s.(pending) (not32 (Z.shiftl 1 type))) s) ;;
    k_irq_restore status.

Definition bottom_halves_pending : M ksys bool :=
  status ← k_irq_save;
  p ← gets pending;
  k_irq_restore status ;;
  mret (negb (p =? 0)).

Definition bottom_half_running : M ksys Z := gets (fun s => s.(k_sched).(bh_running)).

(** ** The queue of callbacks *)

Definition CUSTOM_WORK_CAPACITY : nat := 32.

Definition work_get (w : Z) : M ksys custom_work := access (fun s => s.(pool) !! w).
Definition work_upd (w : Z) (f : custom_work -> custom_work) : M ksys unit :=
  update (fun s => x ← s.(pool) !! w; Some (set_pool (<[w := f x]> s.(pool)) s)).

Definition custom_work_init : M ksys unit :=
  modify (set_work_head 0) ;;
  modify (set_work_tail 0) ;;
  for_up CUSTOM_WORK_CAPACITY 1 (fun w => work_upd w (set_cw_allocated 0)).

Definition bottom_half_init : M ksys unit :=
  modify (set_pending 0) ;;
  modify (fun s => set_k_sched (set_bh_running 0 s.(k_sched)) s) ;;
  custom_work_init.

(** Appending the free element [work]. *)
Definition work_submit (work callback arg : Z) : M ksys unit :=
  work_upd work (set_cw_allocated 1) ;;
  work_upd work (set_cw_callback callback) ;;
  work_upd work (set_cw_arg arg) ;;
  work_upd work (set_cw_next 0) ;;
  tail ← gets work_tail;
  (if negb (tail =? 0) then work_upd tail (set_cw_next work) else modify (set_work_head work)) ;;
  modify (set_work_tail work) ;;
  raise_bottom_half (bh_code BH_CUSTOM).

(** The search for a free element, from the pool's element [work] on. *)
Fixpoint defer_scan (n : nat) (work callback arg : Z) : M ksys Z :=
  match n with
  | O => mret (-1)
  | S n' =>
      x ← work_get work;
      if negb (x.(cw_allocated) =? 0) then defer_scan n' (work + 1) callback arg
      else work_submit work callback arg ;; mret 0
  end.

Definition defer_callback (callback arg : Z) : M ksys Z :=
  if callback =? 0 then mret (-1)
  else
    status ← k_irq_save;
    ret ← defer_scan CUSTOM_WORK_CAPACITY 1 callback arg;
    k_irq_restore status ;;
    mret ret.

(** [call f a] is the call of the function at address [f]. *)
Definition run_custom_callbacks (call : Z -> Z -> M ksys unit) : M ksys unit :=
  status ← k_irq_save;
  work ← gets work_head;
  modify (set_work_head 0) ;;
  modify (set_work_tail 0) ;;
  k_irq_restore status ;;
  loop (S CUSTOM_WORK_CAPACITY)
    (fun work =>
       if work =? 0 then mret (inr tt)
       else
         w ← work_get work;
         let next := w.(cw_next) in
         call w.(cw_callback) w.(cw_arg) ;;
         status ← k_irq_save;
         work_upd work (set_cw_allocated 0) ;;
         k_irq_restore status ;;
         mret (inl next))
    work.

(** ** The queue behind the pool

    [B] is the batch that is being run (the element whose callback runs, then
    those that wait for their turn), [L] the elements submitted and not yet
    taken; both as pointers. *)

Definition work_next (s : ksys) (w : Z) : option Z := cw_next <$> s.(pool) !! w.
Definition work_item (s : ksys) (w : Z) : Z * Z :=
  match s.(pool) !! w with Some x => (x.(cw_callback), x.(cw_arg)) | None => (0, 0) end.

Record works (s : ksys) (B L : list Z) : Prop := mkWorks {
  wk_pool : forall w, is_Some (s.(pool) !! w) <-> 1 <= w <= 32;
  wk_free : forall w x, s.(pool) !! w = Some x -> (x.(cw_allocated) = 0 <-> w ∉ B ++ L);
  wk_nodup : NoDup (B ++ L);
  wk_in : forall w, w ∈ B ++ L -> 1 <= w <= 32;
  wk_queue : sll 0 (work_next s) s.(work_head) L;
  wk_tail : s.(work_tail) = List.last L 0;
}.

(** ** The operations *)

Lemma wp_raise type Q s :
  0 <= type < BH_COUNT -> Q tt (set_pending (Z.lor s.(pending) (2 ^ type)) s) -> wp (raise_bottom_half type) Q s.
Proof.
  intros Ht HQ. unfold raise_bottom_half, BH_COUNT in *. rewrite u32_id, (proj2 (Z.leb_gt _ _)) by lia.
  apply wp_bind, wp_k_irq_save, wp_bind, wp_modify, wp_k_irq_restore. rewrite shiftl_1 by lia.
  rewrite (critical (fun s => set_pending (Z.lor s.(pending) (2 ^ type)) s)) by reflexivity. exact HQ.
Qed.

Lemma wp_clear type Q s :
  0 <= type < BH_COUNT -> Q tt (set_pending (Z.land s.(pending) (not32 (2 ^ type))) s) -> wp (clear_bottom_half type) Q s.
Proof.
  intros Ht HQ. unfold clear_bottom_half, BH_COUNT in *. rewrite u32_id, (proj2 (Z.leb_gt _ _)) by lia.
  apply wp_bind, wp_k_irq_save, wp_bind, wp_modify, wp_k_irq_restore. rewrite shiftl_1 by lia.
  rewrite (critical (fun s => set_pending (Z.land s.(pending) (not32 (2 ^ type))) s)) by reflexivity. exact HQ.
Qed.

Lemma wp_work_get w x Q s : s.(pool) !! w = Some x -> Q x s -> wp (work_get w) Q s.
Proof. intros. by eapply wp_access. Qed.

Lemma wp_work_upd w f x Q s :
  s.(pool) !! w = Some x -> Q tt (set_pool (<[w := f x]> s.(pool)) s) -> wp (work_upd w f) Q s.
Proof. intros E H. eapply wp_update; [by rewrite E|done]. Qed.

Lemma work_exists s B L w : works s B L -> w ∈ B ++ L -> exists x, s.(pool) !! w = Some x /\ x.(cw_allocated) <> 0.
Proof.
  intros H Hw. destruct (proj2 (wk_pool _ _ _ H w) (wk_in _ _ _ H w Hw)) as [x E]. exists x. split; [done|].
  intros E0. by apply (wk_free _ _ _ H w x E) in E0.
Qed.

Lemma works_length s B L : works s B L -> (length (B ++ L) <= 32)%nat.
Proof.
  intros H. change 32%nat with (length (seqZ 1 32)). apply submseteq_length, NoDup_submseteq; [apply H|].
  intros w Hw. apply elem_of_seqZ. pose proof (wk_in _ _ _ H w Hw). lia.
Qed.

(** The pool after a submission: [w] holds the work and the old tail points to it. *)
Definition submitted (w callback arg : Z) (s : ksys) : gmap Z custom_work :=
  let p := <[w := mkWork callback arg 0 1]> s.(pool) in
  if s.(work_tail) =? 0 then p else alter (set_cw_next w) s.(work_tail) p.

Definition submit_state (w callback arg : Z) (s : ksys) : ksys :=
  set_pending (Z.lor s.(pending) 8)
    (set_work_tail w
      (set_work_head (if s.(work_tail) =? 0 then w else s.(work_head))
        (set_pool (submitted w callback arg s) s))).

Lemma wp_work_submit w callback arg x Q s B L :
  works s B L -> s.(pool) !! w = Some x -> w ∉ B ++ L -> Q tt (submit_state w callback arg s) ->
  wp (work_submit w callback arg) Q s.
Proof.
  intros H E Hw HQ. unfold work_submit, submit_state, submitted in *.
  apply wp_bind. eapply wp_work_upd; [exact E|].
  do 3 (apply wp_bind; eapply wp_work_upd; [cbn; apply lookup_insert_eq|]; cbn [pool set_pool]; rewrite insert_insert_eq).
  apply wp_bind, wp_gets. cbn [work_tail set_pool].
  destruct (Z.eqb_spec s.(work_tail) 0) as [Et|Et]; cbn [negb].
  - apply wp_bind, wp_modify, wp_bind, wp_modify, wp_raise; [done|]. exact HQ.
  - apply wp_bind. assert (Hin : s.(work_tail) ∈ B ++ L).
    { rewrite (wk_tail _ _ _ H) in *. apply elem_of_app. right. apply last_elem. by intros ->. }
    destruct (work_exists s B L _ H Hin) as (y & Ey & _).
    assert (Hne : w <> s.(work_tail)) by (intros ->; done).
    eapply wp_work_upd; [cbn; rewrite lookup_insert_ne by done; exact Ey|].
    apply wp_bind, wp_modify, wp_raise; [done|].
    assert (Ea : forall p : gmap Z custom_work, p !! s.(work_tail) = Some y ->
      alter (set_cw_next w) s.(work_tail) p = <[s.(work_tail) := set_cw_next w y]> p).
    { intros p Ep. apply map_eq. intros k. destruct (decide (k = s.(work_tail))) as [->|Hk].
      - rewrite lookup_alter_eq, lookup_insert_eq, Ep. done.
      - by rewrite lookup_alter_ne, lookup_insert_ne by done. }
    rewrite Ea in HQ by (rewrite lookup_insert_ne by done; exact Ey). destruct s. exact HQ.
Qed.

Section submission.
Context (s : ksys) (B L : list Z) (w callback arg : Z) (x : custom_work).
Context (H : works s B L) (Hx : s.(pool) !! w = Some x) (Hw : w ∉ B ++ L).

Lemma tail_member : s.(work_tail) <> 0 -> s.(work_tail) ∈ L.
Proof using Type*. intros Ht. rewrite (wk_tail _ _ _ H) in *. apply last_elem. by intros ->. Qed.

Lemma submitted_new : submitted w callback arg s !! w = Some (mkWork callback arg 0 1).
Proof using Type*.
  unfold submitted. destruct (Z.eqb_spec s.(work_tail) 0) as [?|Ht]; [apply lookup_insert_eq|].
  rewrite lookup_alter_ne by (intros E; apply tail_member in Ht; set_solver). apply lookup_insert_eq.
Qed.

Lemma submitted_old k y : k <> w -> s.(pool) !! k = Some y ->
  submitted w callback arg s !! k =
    Some (if decide (k = s.(work_tail) /\ s.(work_tail) <> 0) then set_cw_next w y else y).
Proof using.
  intros Hk E. unfold submitted. destruct (Z.eqb_spec s.(work_tail) 0) as [Ht|Ht].
  - rewrite decide_False by (by intros [_ ?]). by rewrite lookup_insert_ne.
  - destruct (decide (k = s.(work_tail))) as [->|Hkt].
    + rewrite decide_True by done. rewrite lookup_alter_eq, lookup_insert_ne, E by done. done.
    + rewrite decide_False by (by intros [? _]). by rewrite lookup_alter_ne, lookup_insert_ne.
Qed.

Lemma submitted_none k : s.(pool) !! k = None -> submitted w callback arg s !! k = None.
Proof using Type*.
  intros E. assert (k <> w) by congruence. unfold submitted.
  destruct (Z.eqb_spec s.(work_tail) 0); [by rewrite lookup_insert_ne|].
  destruct (decide (k = s.(work_tail))) as [->|]; [by rewrite lookup_alter_eq, lookup_insert_ne, E by done|].
  by rewrite lookup_alter_ne, lookup_insert_ne.
Qed.

(** What every element keeps: all but its link. *)
Lemma submitted_keeps k y : k <> w -> s.(pool) !! k = Some y ->
  exists y', submitted w callback arg s !! k = Some y' /\ cw_allocated y' = cw_allocated y /\
    (cw_callback y', cw_arg y') = (cw_callback y, cw_arg y) /\ (k ∉ L -> y' = y).
Proof using Type*.
  intros Hk E. rewrite (submitted_old k y Hk E). case_decide as Hd; [|by eexists].
  eexists. split_and!; try done. intros Hn. destruct Hd as [-> Ht]. by apply tail_member in Ht.
Qed.

Lemma submit_queue : sll 0 (work_next (submit_state w callback arg s)) (work_head (submit_state w callback arg s)) (L ++ [w]).
Proof using Type*.
  assert (Hnx : forall j, work_next (submit_state w callback arg s) j = cw_next <$> submitted w callback arg s !! j) by done.
  pose proof (wk_queue _ _ _ H) as Hq. pose proof (wk_tail _ _ _ H) as Ht.
  assert (Hnd : NoDup L) by (pose proof (wk_nodup _ _ _ H) as Hn; apply NoDup_app in Hn; tauto).
  assert (Hwr : 1 <= w <= 32) by (apply (wk_pool _ _ _ H); eauto).
  change (work_head (submit_state w callback arg s)) with (if s.(work_tail) =? 0 then w else s.(work_head)).
  replace (if work_tail s =? 0 then w else work_head s) with (match L with [] => w | _ => work_head s end).
  - apply (sll_snoc 0 (work_next s)); [done|done|set_solver|lia| |].
    + by rewrite Hnx, submitted_new.
    + intros j Hj. rewrite Hnx. unfold work_next.
      assert (Hjw : j <> w) by (intros ->; set_solver).
      destruct (work_exists s B L j H) as (y & Ey & _); [set_solver|]. rewrite (submitted_old j y Hjw Ey), Ey. cbn.
      assert (Ht0 : s.(work_tail) <> 0).
      { rewrite Ht. assert (Hl : List.last L 0 ∈ L) by (apply last_elem; intros ->; by apply elem_of_nil in Hj).
        pose proof (wk_in _ _ _ H (List.last L 0) ltac:(apply elem_of_app; by right)). lia. }
      rewrite <- Ht. destruct (Z.eqb_spec j s.(work_tail)) as [->|Hne].
      * by rewrite decide_True.
      * by rewrite decide_False by (by intros [? _]).
  - rewrite Ht. destruct L as [|a L0]; [done|].
    assert (Hl : List.last (a :: L0) 0 ∈ a :: L0) by (by apply last_elem).
    pose proof (wk_in _ _ _ H (List.last (a :: L0) 0) ltac:(apply elem_of_app; by right)).
    by rewrite (proj2 (Z.eqb_neq _ _)) by lia.
Qed.

Lemma submit_works : works (submit_state w callback arg s) B (L ++ [w]).
Proof using Type*.
  assert (Hp : pool (submit_state w callback arg s) = submitted w callback arg s) by done.
  constructor; rewrite ?Hp.
  - intros k. rewrite <- (wk_pool _ _ _ H k). destruct (s.(pool) !! k) as [y|] eqn:Ey.
    + destruct (decide (k = w)) as [->|Hk]; [rewrite submitted_new; by split; eauto|].
      destruct (submitted_keeps k y Hk Ey) as (y' & -> & _). by split; eauto.
    + rewrite submitted_none by done. done.
  - intros k y E. rewrite app_assoc, elem_of_app, list_elem_of_singleton.
    destruct (decide (k = w)) as [->|Hk].
    + rewrite submitted_new in E. injection E as <-. cbn. split; [lia|tauto].
    + destruct (s.(pool) !! k) as [y0|] eqn:Ey; [|by rewrite submitted_none in E].
      destruct (submitted_keeps k y0 Hk Ey) as (y' & Ey' & Ha & _). assert (y = y') as -> by congruence.
      rewrite Ha, (wk_free _ _ _ H k y0 Ey). tauto.
  - rewrite app_assoc. apply NoDup_app. split; [apply H|]. split; [set_solver|apply NoDup_singleton].
  - intros k. rewrite app_assoc, elem_of_app, list_elem_of_singleton. intros [Hk| ->]; [by apply (wk_in _ _ _ H)|].
    apply (wk_pool _ _ _ H). eauto.
  - apply submit_queue.
  - cbn. by rewrite last_last.
Qed.

End submission.

(** *** Submission *)

Lemma wp_defer_scan n : forall w callback arg Q s B L,
  works s B L -> w + Z.of_nat n = 33 -> 1 <= w -> (forall k, 1 <= k < w -> k ∈ B ++ L) ->
  (length (B ++ L) = 32%nat -> Q (-1) s) ->
  (forall v x, s.(pool) !! v = Some x -> v ∉ B ++ L -> Q 0 (submit_state v callback arg s)) ->
  wp (defer_scan n w callback arg) Q s.
Proof.
  induction n as [|n IH]; intros w callback arg Q s B L H Hn Hw Hall Hfull Hnew; cbn [defer_scan].
  - apply wp_ret, Hfull. apply Nat.le_antisymm; [by eapply works_length|].
    change 32%nat with (length (seqZ 1 32)). apply submseteq_length, NoDup_submseteq; [apply NoDup_seqZ|].
    intros k Hk. apply elem_of_seqZ in Hk. apply Hall. lia.
  - destruct (proj2 (wk_pool _ _ _ H w) ltac:(lia)) as [x Ex]. apply wp_bind. eapply wp_work_get; [exact Ex|].
    destruct (Z.eqb_spec x.(cw_allocated) 0) as [E0|E0]; cbn [negb].
    + apply (wk_free _ _ _ H w x Ex) in E0. apply wp_bind. eapply wp_work_submit; [done..|]. apply wp_ret. eauto.
    + apply (IH _ _ _ _ s B L); try done; try lia. intros k Hk. destruct (decide (k = w)) as [->|]; [|apply Hall; lia].
      destruct (decide (w ∈ B ++ L)) as [Hin|Hin]; [done|]. by apply (wk_free _ _ _ H w x Ex) in Hin.
Qed.

Lemma works_irq s v B L : works s B L -> works (set_k_irq v s) B L.
Proof. intros H. destruct H. by constructor. Qed.

Lemma free_room s B L w x : works s B L -> s.(pool) !! w = Some x -> w ∉ B ++ L -> (length (B ++ L) < 32)%nat.
Proof. intros H Hx Hw. pose proof (works_length _ _ _ (submit_works s B L w 0 0 x H Hx Hw)) as Hl.
  rewrite app_assoc, length_app in Hl. cbn in Hl. lia.
Qed.

(** A submission fails exactly when all 32 elements are in use. *)
Lemma wp_defer_callback callback arg Q s B L :
  works s B L -> callback <> 0 ->
  (length (B ++ L) = 32%nat -> Q (-1) s) ->
  (forall w x, (length (B ++ L) < 32)%nat -> s.(pool) !! w = Some x -> w ∉ B ++ L -> Q 0 (submit_state w callback arg s)) ->
  wp (defer_callback callback arg) Q s.
Proof.
  intros H Hc Hfull Hnew. unfold defer_callback. rewrite (proj2 (Z.eqb_neq _ _) Hc). apply wp_bind, wp_k_irq_save, wp_bind.
  apply (wp_defer_scan _ _ _ _ _ _ B L); [by apply works_irq|done|done|lia| |].
  - intros Hl. apply wp_bind, wp_k_irq_restore, wp_ret. rewrite (critical (fun s => s)) by reflexivity. by apply Hfull.
  - intros w x Hx Hw. apply wp_bind, wp_k_irq_restore, wp_ret.
    rewrite (critical (submit_state w callback arg)) by reflexivity. eapply Hnew; [by eapply free_room|exact Hx|done].
Qed.

(** *** Running a batch *)

Lemma works_take s L : works s [] L -> works (set_work_tail 0 (set_work_head 0 s)) L [].
Proof. intros [H1 H2 H3 H4 _ _]. constructor; rewrite ?app_nil_r; done. Qed.

(** The element at the front of the batch goes back to the pool. *)
Lemma works_release s w x B L :
  works s (w :: B) L -> s.(pool) !! w = Some x -> works (set_pool (<[w := set_cw_allocated 0 x]> s.(pool)) s) B L.
Proof.
  intros H Hx. pose proof (wk_nodup _ _ _ H) as Hnd. cbn in Hnd. apply NoDup_cons in Hnd as [Hw Hnd].
  constructor; cbn [pool set_pool work_head work_tail].
  - intros k. rewrite <- (wk_pool _ _ _ H k). destruct (decide (k = w)) as [->|]; [rewrite lookup_insert_eq, Hx; by split; eauto|].
    by rewrite lookup_insert_ne.
  - intros k y E. destruct (decide (k = w)) as [->|Hk].
    + rewrite lookup_insert_eq in E. injection E as <-. cbn. tauto.
    + rewrite lookup_insert_ne in E by done. rewrite (wk_free _ _ _ H k y E). set_solver.
  - done.
  - intros k Hk. apply (wk_in _ _ _ H). set_solver.
  - eapply sll_ext; [|apply (wk_queue _ _ _ H)]. intros k Hk. unfold work_next. cbn.
    destruct (decide (k = w)) as [->|]; [set_solver|]. by rewrite lookup_insert_ne.
  - apply (wk_tail _ _ _ H).
Qed.

(** What the queue relies on when it calls a callback: the callback returns, may
    submit work, leaves the batch alone, and shows in [seen] that it ran. *)
Record callbacks_ok {T} (call : Z -> Z -> M ksys unit) (seen : ksys -> T) (note : T -> Z * Z -> T) : Prop := mkCallbacks {
  cb_call : forall f a s B L, works s B L ->
    wp (call f a) (fun _ s' => exists L', works s' B (L ++ L') /\ (forall w, w ∈ B -> s'.(pool) !! w = s.(pool) !! w) /\
      seen s' = note (seen s) (f, a)) s;
  cb_irq : forall v s, seen (set_k_irq v s) = seen s;
  cb_pool : forall p s, seen (set_pool p s) = seen s;
  cb_head : forall p s, seen (set_work_head p s) = seen s;
  cb_tail : forall p s, seen (set_work_tail p s) = seen s;
}.

Section batch.
Context {T : Type} (call : Z -> Z -> M ksys unit) (seen : ksys -> T) (note : T -> Z * Z -> T).
Context (Hcall : callbacks_ok call seen note).

(** The rest [B] of the batch starts at [work]; [acc] is what has been seen. *)
Definition batch_at (s0 : ksys) (all B : list Z) (work : Z) (s : ksys) : Prop :=
  exists L' D, all = D ++ B /\ works s B L' /\ sll 0 (work_next s) work B /\
    (forall w, w ∈ B -> s.(pool) !! w = s0.(pool) !! w) /\
    seen s = foldl note (seen s0) (work_item s0 <$> D).

Lemma batch_step s0 all w B work Q s :
  batch_at s0 all (w :: B) work s ->
  (forall next s', batch_at s0 all B next s' -> Q (inl next) s') ->
  wp (if work =? 0 then mret (inr tt)
      else
        x ← work_get work;
        let next := x.(cw_next) in
        call x.(cw_callback) x.(cw_arg) ;;
        status ← k_irq_save;
        work_upd work (set_cw_allocated 0) ;;
        k_irq_restore status ;;
        mret (inl next)) Q s.
Proof using Hcall.
  intros (L' & D & Hall & Hw & Hs & Hp & Hseen) HQ. destruct Hs as (-> & Hw0 & n & Hn & Hs).
  rewrite (proj2 (Z.eqb_neq _ _) Hw0). unfold work_next in Hn.
  destruct (s.(pool) !! w) as [x|] eqn:Ex; [|done]. cbn in Hn. injection Hn as <-.
  apply wp_bind. eapply wp_work_get; [exact Ex|]. cbn zeta. apply wp_bind.
  eapply wp_mono; [apply (cb_call _ _ _ Hcall _ _ s (w :: B) L' Hw)|]. intros [] s1 (L1 & Hw1 & Hb1 & Hseen1).
  assert (Ex1 : s1.(pool) !! w = Some x) by (rewrite Hb1 by set_solver; done).
  apply wp_bind, wp_k_irq_save, wp_bind. eapply wp_work_upd; [exact Ex1|]. apply wp_bind, wp_k_irq_restore, wp_ret.
  rewrite (critical (fun s => set_pool (<[w := set_cw_allocated 0 x]> s.(pool)) s)) by reflexivity.
  pose proof (wk_nodup _ _ _ Hw) as Hnd. cbn in Hnd. apply NoDup_cons in Hnd as [Hnw _].
  assert (Hkeep : forall k, k ∈ B -> <[w := set_cw_allocated 0 x]> s1.(pool) !! k = s.(pool) !! k).
  { intros k Hk. rewrite lookup_insert_ne by (intros ->; set_solver). apply Hb1. set_solver. }
  apply HQ. exists (L' ++ L1), (D ++ [w]). split_and!.
  - by rewrite <- app_assoc.
  - by apply works_release.
  - eapply sll_ext; [|exact Hs]. intros k Hk. unfold work_next. cbn [pool set_pool]. by rewrite Hkeep.
  - intros k Hk. cbn [pool set_pool]. rewrite Hkeep by done. apply Hp. set_solver.
  - rewrite (cb_pool _ _ _ Hcall), Hseen1, Hseen, fmap_app, foldl_app. cbn. f_equal.
    unfold work_item. rewrite <- Hp by set_solver. by rewrite Ex.
Qed.

Lemma wp_run_callbacks s L Q :
  works s [] L ->
  (forall s' L', works s' [] L' -> seen s' = foldl note (seen s) (work_item s <$> L) -> Q tt s') ->
  wp (run_custom_callbacks call) Q s.
Proof using Hcall.
  intros H HQ. unfold run_custom_callbacks.
  apply wp_bind, wp_k_irq_save, wp_bind, wp_gets, wp_bind, wp_modify, wp_bind, wp_modify, wp_bind, wp_k_irq_restore.
  rewrite (critical (fun s => set_work_tail 0 (set_work_head 0 s))) by reflexivity.
  apply (wp_loop_list (batch_at s L)) with (L := L).
  - intros work s' (L' & D & HD & Hw & Hs & _ & Hseen). cbn in Hs. subst work. cbn. apply wp_ret.
    apply (HQ s' L'); [done|]. rewrite app_nil_r in HD. by rewrite Hseen, HD.
  - intros w B work s' Hb. eapply batch_step; [exact Hb|]. done.
  - exists [], []. split_and!; [done|by apply works_take| |done|].
    + exact (wk_queue _ _ _ H).
    + by rewrite (cb_tail _ _ _ Hcall), (cb_head _ _ _ Hcall).
  - pose proof (works_length _ _ _ H) as Hl. cbn in Hl. unfold CUSTOM_WORK_CAPACITY. lia.
Qed.

End batch.

(** The queued work, oldest first. *)
Definition work_items (s : ksys) (L : list Z) : list (Z * Z) := work_item s <$> L.

Lemma submit_items s B L w callback arg x :
  works s B L -> s.(pool) !! w = Some x -> w ∉ B ++ L ->
  work_items (submit_state w callback arg s) (L ++ [w]) = work_items s L ++ [(callback, arg)].
Proof.
  intros H Hx Hw. unfold work_items. rewrite fmap_app. f_equal.
  - apply list_fmap_ext. intros i k Hk. apply list_elem_of_lookup_2 in Hk. unfold work_item.
    destruct (work_exists s B L k H) as (y & Ey & _); [set_solver|].
    change (pool (submit_state w callback arg s)) with (submitted w callback arg s).
    destruct (submitted_keeps s B L w callback arg x H Hx Hw k y) as (y' & -> & _ & E & _); [set_solver|done|].
    by rewrite Ey.
  - cbn. unfold work_item. change (pool (submit_state w callback arg s)) with (submitted w callback arg s).
    by rewrite (submitted_new s B L w callback arg x).
Qed.

(** ** Callbacks that print their call and submit work *)

Fixpoint submit_list (l : list (Z * Z)) : M ksys unit :=
  match l with
  | [] => mret tt
  | (f, a) :: l' => _ ← defer_callback f a; submit_list l'
  end.

Definition program_call (prog : Z -> Z -> list (Z * Z)) (f a : Z) : M ksys unit :=
  say [LDec f; LDec a] ;; submit_list (prog f a).

Definition note_call (l : list log_item) (c : Z * Z) : list log_item := l ++ [LDec c.1; LDec c.2].

Lemma wp_submit_list l : forall s B L,
  works s B L ->
  wp (submit_list l) (fun _ s' => exists L', works s' B (L ++ L') /\
    (forall w, w ∈ B -> s'.(pool) !! w = s.(pool) !! w) /\ k_console s' = k_console s) s.
Proof.
  induction l as [|[f a] l IH]; intros s B L H; cbn [submit_list].
  - apply wp_ret. exists []. by rewrite app_nil_r.
  - apply wp_bind. destruct (decide (f = 0)) as [->|Hf].
    { apply wp_ret. by apply IH. }
    apply (wp_defer_callback f a _ s B L H Hf).
    + intros _. by apply IH.
    + intros w x _ Hx Hw. pose proof (submit_works s B L w f a x H Hx Hw) as H1.
      eapply wp_mono; [by apply (IH _ B (L ++ [w]))|]. intros [] s' (L' & Hw' & Hb & Hc). exists (w :: L').
      rewrite <- app_assoc in Hw'. split_and!; [done| |done]. intros k Hk. rewrite Hb by done.
      destruct (work_exists s B L k H) as (y & Ey & _); [set_solver|].
      change (pool (submit_state w f a s)) with (submitted w f a s).
      destruct (submitted_keeps s B L w f a x H Hx Hw k y) as (y' & -> & _ & _ & E); [set_solver|done|].
      rewrite Ey, E; [done|]. pose proof (wk_nodup _ _ _ H) as Hnd. apply NoDup_app in Hnd as (_ & Hd & _). by apply Hd.
Qed.

Lemma program_callbacks prog : callbacks_ok (program_call prog) k_console note_call.
Proof.
  constructor; try done. intros f a s B L H. unfold program_call. apply wp_bind, wp_say.
  eapply wp_mono; [apply (wp_submit_list _ _ B L); destruct H; by constructor|].
  intros [] s' (L' & Hw & Hb & Hc). exists L'. split_and!; [done|done|]. rewrite Hc. done.
Qed.
