(* ===== verification/Timer.v ===== *)
(** * Software timers ([timer.c])

    A timer event is an object of the byte allocator; it exists in
    [timer_events] from the moment its fields are written until it is freed.
    [call f a] is the call of the callback or cleanup function at address [f]. *)

From S2P Require Import Prelude Lists Memory Slab Task Irq Trace Work.

Open Scope Z_scope.

Definition TIMER_EVENT_BUDGET : nat := 16.
Definition SIZEOF_TIMER_EVENT : Z := 40.

Definition event_get (e : Z) : M ksys timer_event := access (fun s => s.(timer_events) !! e).
Definition event_upd (e : Z) (f : timer_event -> timer_event) : M ksys unit :=
  update (fun s => x ← s.(timer_events) !! e; Some (set_timer_events (<[e := f x]> s.(timer_events)) s)).

(** [kfree(event)]. *)
Definition event_free (e : Z) : M ksys unit :=
  modify (fun s => set_timer_events (delete e s.(timer_events)) s) ;;
  zoom (kfree e : M slabs unit).

(** ** The hardware timer *)

Definition timer_source_mask : M ksys unit := modify (set_sie_timer false).

Definition timer_source_unmask : M ksys unit :=
  modify (set_sie_timer true) ;;
  k_irq_enable.

Definition timer_sync_uptime (now : Z) : M ksys unit :=
  freq ← gets timebase_frequency;
  if freq =? 0 then modify (set_uptime_seconds 0)
  else
    boot ← gets boot_time;
    modify (set_uptime_seconds (u64 (now - boot) / freq)).

Definition sbi_set_timer (deadline : Z) : M ksys unit := modify (set_sbi_timer deadline).

Definition timer_program_abs (deadline : Z) : M ksys unit :=
  modify (set_next_deadline deadline) ;;
  sbi_set_timer deadline.

Definition timer_reprogram_locked : M ksys unit :=
  interval ← gets sched_tick_interval;
  tick ← gets sched_tick_deadline;
  let deadline := if negb (interval =? 0) && negb (tick =? 0) then tick else 0 in
  head ← gets timer_head;
  deadline ← (if head =? 0 then mret deadline
              else
                x ← event_get head;
                mret (if (deadline =? 0) || (x.(ev_expire) <? deadline) then x.(ev_expire) else deadline));
  if negb (deadline =? 0) then timer_program_abs deadline
  else
    modify (set_next_deadline 0) ;;
    sbi_set_timer UINT64_MAX.

(** ** Queries *)

(** The list visits distinct events. *)
Definition timer_pending_count : M ksys Z :=
  status ← k_irq_save;
  head ← gets timer_head;
  fuel ← gets (fun s => size s.(timer_events));
  count ← loop (S fuel)
    (fun '(cur, count) =>
       if cur =? 0 then mret (inr count)
       else x ← event_get cur; mret (inl (x.(ev_next), u32 (count + 1))))
    (head, 0);
  k_irq_restore status ;;
  mret count.

Definition timer_is_running : M ksys Z := gets timer_enabled.

Definition timer_dump_queue : M ksys unit :=
  status ← k_irq_save;
  now ← timer_read;
  head ← gets timer_head;
  say [LStr "timer pending="] ;;
  count ← timer_pending_count;
  deadline ← gets next_deadline;
  irqs ← gets timer_irq_count;
  say [LDec count; LStr " next="; LDec deadline; LStr " now="; LDec now; LStr " irq_count="; LDec irqs; LStr "\n"] ;;
  fuel ← gets (fun s => size s.(timer_events));
  loop (S fuel)
    (fun '(cur, idx) =>
       if cur =? 0 then mret (inr tt)
       else
         x ← event_get cur;
         say [LStr "timer["; LDec idx; LStr "] expire="; LDec x.(ev_expire); LStr " delta_ticks=";
              LDec (u64 (x.(ev_expire) - now)); LStr "\n"] ;;
         mret (inl (x.(ev_next), u32 (idx + 1))))
    (head, 0) ;;
  k_irq_restore status.

(** ** Starting *)

Definition timer_init_state (timebase_freq : Z) : M ksys unit :=
  modify (set_timebase_frequency timebase_freq) ;;
  t ← timer_read;
  modify (set_boot_time t) ;;
  modify (set_next_deadline 0) ;;
  modify (set_uptime_seconds 0) ;;
  modify (set_timer_irq_count 0) ;;
  modify (set_sched_tick_interval 0) ;;
  modify (set_sched_tick_deadline 0).

Definition timer_init : M ksys unit :=
  freq ← gets timebase_frequency;
  if freq =? 0 then mret tt
  else
    sstatus ← k_irq_save;
    modify (set_timer_enabled 1) ;;
    let interval := if 20 <=? freq then freq / 20 else 1 in
    modify (set_sched_tick_interval interval) ;;
    t ← timer_read;
    modify (set_sched_tick_deadline (u64 (t + interval))) ;;
    timer_reprogram_locked ;;
    k_irq_restore sstatus ;;
    timer_source_unmask ;;
    say [LStr "[timer] subsystem armed\n"; LStr "[timer] pending events="] ;;
    count ← timer_pending_count;
    deadline ← gets next_deadline;
    say [LDec count; LStr "\n"; LStr "[timer] next deadline="; LDec deadline; LStr "\n"].

(** ** Adding a timer *)

(** The sorted insertion; [prev] is the event whose link is looked at, 0 for
    [timer_head]. *)
Definition timer_insert (event expire : Z) : M ksys unit :=
  head ← gets timer_head;
  fuel ← gets (fun s => size s.(timer_events));
  '(prev, cur) ← loop (S fuel)
    (fun '(prev, cur) =>
       if cur =? 0 then mret (inr (prev, cur))
       else
         x ← event_get cur;
         if x.(ev_expire) <=? expire then mret (inl (cur, x.(ev_next))) else mret (inr (prev, cur)))
    (0, head);
  event_upd event (set_ev_next cur) ;;
  if prev =? 0 then modify (set_timer_head event) else event_upd prev (set_ev_next event).

Definition add_timer_with_cleanup (callback arg duration_ticks cleanup : Z) : M ksys Z :=
  freq ← gets timebase_frequency;
  if (callback =? 0) || (freq =? 0) then mret (-1)
  else
    event ← zoom (kmalloc SIZEOF_TIMER_EVENT : M slabs Z);
    if event =? 0 then mret (-1)
    else
      now ← timer_read;
      if UINT64_MAX - now <? duration_ticks then zoom (kfree event : M slabs unit) ;; mret (-1)
      else
        let expire := u64 (now + duration_ticks) in
        modify (fun s => set_timer_events (<[event := mkTimerEvent expire callback cleanup arg 0]> s.(timer_events)) s) ;;
        sstatus ← k_irq_save;
        enabled ← gets timer_enabled;
        if enabled =? 0 then
          k_irq_restore sstatus ;;
          event_free event ;;
          mret (-1)
        else
          timer_insert event expire ;;
          timer_reprogram_locked ;;
          k_irq_restore sstatus ;;
          mret 0.

Definition add_timer (callback arg duration_ticks : Z) : M ksys Z := add_timer_with_cleanup callback arg duration_ticks 0.

(** ** Interrupt, bottom half and shutdown *)

Definition timer_irq_top : M ksys unit :=
  timer_source_mask ;;
  trace_record TRACE_TIMER_TOP 0 ;;
  raise_bottom_half (bh_code BH_TIMER).

(** Moving the scheduler's deadline past [now], one interval at a time. *)
Definition sched_tick_advance (now : Z) : M ksys unit :=
  fuel ← gets (fun s => Z.to_nat ((now - s.(sched_tick_deadline)) / s.(sched_tick_interval) + 1));
  loop (S fuel)
    (fun _ : unit =>
       interval ← gets sched_tick_interval;
       tick ← gets sched_tick_deadline;
       if negb (interval =? 0) && (tick <=? now) then
         modify (set_sched_tick_deadline (u64 (tick + interval))) ;;
         mret (inl tt)
       else mret (inr tt))
    tt.

(** The first part of a round: the due event taken off the list, or 0; [None]
    when the timer was stopped meanwhile. *)
Definition timer_take_due : M ksys (option Z) :=
  status ← k_irq_save;
  enabled ← gets timer_enabled;
  if enabled =? 0 then k_irq_restore status ;; mret None
  else
    now ← timer_read;
    timer_sync_uptime now ;;
    sched_tick_advance now ;;
    event ← gets timer_head;
    event ← (if event =? 0 then mret 0
             else
               x ← event_get event;
               if x.(ev_expire) <=? now then
                 modify (set_timer_head x.(ev_next)) ;;
                 event_upd event (set_ev_next 0) ;;
                 mret event
               else mret 0);
    k_irq_restore status ;;
    mret (Some event).

(** The callback and the cleanup of a detached event. *)
Definition timer_fire (call : Z -> Z -> M ksys unit) (event : Z) : M ksys unit :=
  x ← event_get event;
  call x.(ev_callback) x.(ev_arg) ;;
  y ← event_get event;
  when (negb (y.(ev_cleanup) =? 0)) (call y.(ev_cleanup) y.(ev_arg)) ;;
  event_free event.

Fixpoint timer_rounds (call : Z -> Z -> M ksys unit) (budget : nat) : M ksys unit :=
  match budget with
  | O => mret tt
  | S budget' =>
      event ← timer_take_due;
      match event with
      | None => mret tt
      | Some event =>
          if event =? 0 then mret tt
          else timer_fire call event ;; timer_rounds call budget'
      end
  end.

Definition timer_rearm : M ksys unit :=
  status ← k_irq_save;
  enabled ← gets timer_enabled;
  when (negb (enabled =? 0)) (
    head ← gets timer_head;
    (if head =? 0 then mret tt
     else
       x ← event_get head;
       now ← timer_read;
       when (x.(ev_expire) <=? now) (raise_bottom_half (bh_code BH_TIMER))) ;;
    timer_reprogram_locked ;;
    modify (set_sie_timer true)) ;;
  k_irq_restore status.

Definition timer_run_bottom_half (call : Z -> Z -> M ksys unit) : M ksys unit :=
  enabled ← gets timer_enabled;
  if enabled =? 0 then mret tt
  else
    count ← timer_pending_count;
    trace_record TRACE_TIMER_BOTTOM count ;;
    freq ← gets timebase_frequency;
    if freq =? 0 then timer_source_unmask
    else
      modify (fun s => set_timer_irq_count (u64 (s.(timer_irq_count) + 1)) s) ;;
      timer_rounds call TIMER_EVENT_BUDGET ;;
      timer_rearm.

Definition timer_stop (call : Z -> Z -> M ksys unit) : M ksys unit :=
  sstatus ← k_irq_save;
  timer_source_mask ;;
  modify (set_timer_enabled 0) ;;
  clear_bottom_half (bh_code BH_TIMER) ;;
  pending ← gets timer_head;
  modify (set_timer_head 0) ;;
  modify (set_next_deadline 0) ;;
  modify (set_sched_tick_interval 0) ;;
  modify (set_sched_tick_deadline 0) ;;
  sbi_set_timer UINT64_MAX ;;
  k_irq_restore sstatus ;;
  fuel ← gets (fun s => size s.(timer_events));
  loop (S fuel)
    (fun pending =>
       if pending =? 0 then mret (inr tt)
       else
         x ← event_get pending;
         when (negb (x.(ev_cleanup) =? 0)) (call x.(ev_cleanup) x.(ev_arg)) ;;
         event_free pending ;;
         mret (inl x.(ev_next)))
    pending ;;
  say [LStr "[timer] stopped\n"].
