(* ===== verification/TimerOps.v ===== *)
(** * The timer operations

    Programming of the hardware deadline, adding a timer, firing due events and
    shutting down, each on the queue of pending events. *)

From Stdlib Require Import Sorted.
From S2P Require Import Prelude Lists Memory Slab Task HeapIface Irq Trace Work Timer.

Open Scope Z_scope.

(** * The timer queue: invariant and list operations

    The pending events form a list sorted by expiry; every event object is an
    allocated object of the heap.  [D] are the events that have been taken off
    the list and not yet freed. *)

(** What an event stands for. *)
Record body := mkBody { b_expire : Z; b_callback : Z; b_cleanup : Z; b_arg : Z }.
Definition ev_body (x : timer_event) : body := mkBody x.(ev_expire) x.(ev_callback) x.(ev_cleanup) x.(ev_arg).

Definition ev_link (s : ksys) (e : Z) : option Z := ev_next <$> s.(timer_events) !! e.
Definition body_of (s : ksys) (e : Z) : body :=
  match s.(timer_events) !! e with Some x => ev_body x | None => mkBody 0 0 0 0 end.
Definition bodies (s : ksys) (es : list Z) : list body := body_of s <$> es.

Definition earlier (a b : body) : Prop := a.(b_expire) <= b.(b_expire).

(** Stable insertion: behind the events that expire at the same time. *)
Fixpoint insert_body (b : body) (bs : list body) : list body :=
  match bs with
  | [] => [b]
  | c :: bs' => if c.(b_expire) <=? b.(b_expire) then c :: insert_body b bs' else b :: bs
  end.

Lemma insert_body_perm b bs : insert_body b bs ≡ₚ b :: bs.
Proof. induction bs as [|c bs IH]; [done|]. cbn. case_match; [|done]. rewrite IH. apply Permutation_swap. Qed.

Lemma insert_body_sorted b bs : StronglySorted earlier bs -> StronglySorted earlier (insert_body b bs).
Proof.
  induction 1 as [|c bs Hs IH Hc]; cbn; [by repeat constructor|].
  destruct (Z.leb_spec c.(b_expire) b.(b_expire)) as [Hle|Hgt].
  - constructor; [done|]. rewrite insert_body_perm. by constructor.
  - constructor; [by constructor|]. constructor; [unfold earlier; lia|].
    eapply Forall_impl; [exact Hc|]. unfold earlier. intros a Ha. lia.
Qed.

(** The point of insertion splits the list. *)
Lemma insert_body_split b bs1 bs2 :
  Forall (fun c => c.(b_expire) <= b.(b_expire)) bs1 ->
  match bs2 with [] => True | c :: _ => b.(b_expire) < c.(b_expire) end ->
  insert_body b (bs1 ++ bs2) = bs1 ++ b :: bs2.
Proof.
  intros H1 H2. induction H1 as [|c bs1 Hc _ IH]; cbn.
  - destruct bs2 as [|c bs2]; [done|]. cbn. by rewrite (proj2 (Z.leb_gt _ _)).
  - rewrite (proj2 (Z.leb_le _ _) Hc). by rewrite IH.
Qed.

(** Linking a node in after [L1]. *)
Lemma sll_insert nx nx' h c L1 L2 i :
  sll 0 nx h (L1 ++ L2) -> sll 0 nx c L2 -> NoDup (L1 ++ L2) -> i ∉ L1 ++ L2 -> i <> 0 -> nx' i = Some c ->
  (forall j, j ∈ L1 ++ L2 -> nx' j = if decide (last L1 = Some j) then Some i else nx j) ->
  sll 0 nx' (match L1 with [] => i | _ => h end) (L1 ++ i :: L2).
Proof.
  revert h. induction L1 as [|a L1 IH]; intros h H Hc Hnd Hi Hi0 Hnew Hupd.
  - split_and!; [done|done|]. exists c. split; [done|]. eapply sll_ext; [|exact Hc].
    intros j Hj. rewrite Hupd by set_solver. done.
  - destruct H as (-> & Ha & n & Hn & H). cbn [app] in *. apply NoDup_cons in Hnd as [Ha' Hnd].
    split; [done|split; [done|]]. exists (match L1 with [] => i | _ => n end). split.
    + rewrite Hupd by set_solver. destruct L1 as [|b L1]; [by rewrite decide_True|].
      rewrite decide_False; [done|]. intros E. assert (E' : last (b :: L1) = Some a) by done.
      apply last_Some_elem_of in E'. set_solver.
    + apply IH; try done; [set_solver|]. intros j Hj. rewrite Hupd by set_solver.
      destruct L1 as [|b L1]; [|done]. rewrite !decide_False; [done|done|].
      intros [= ->]. set_solver.
Qed.

Section timers.
Context {hok : slabs -> Prop} {owned : slabs -> Z -> Z -> Prop} {static : slabs -> Z -> Prop}.
Context `{HL : !HeapLaws hok owned static}.

Record timer_inv (s : ksys) (D es : list Z) : Prop := mkTimerInv {
  ti_chain : sll 0 (ev_link s) s.(timer_head) es;
  ti_nodup : NoDup (D ++ es);
  ti_dom : forall e, is_Some (s.(timer_events) !! e) <-> e ∈ D ++ es;
  ti_sorted : StronglySorted earlier (bodies s es);
  ti_range : forall e x, s.(timer_events) !! e = Some x -> 0 <= x.(ev_expire) < 2 ^ 64;
  ti_heap : hok s.(k_sched).(heap);
  ti_owned : forall e, e ∈ D ++ es -> exists z, owned s.(k_sched).(heap) e z;
}.

Lemma ti_nonzero s D es e : timer_inv s D es -> e ∈ D ++ es -> e <> 0.
Proof. intros H He. destruct (ti_owned _ _ _ H e He) as [z Hz]. apply (hl_shape _ _ _ (ti_heap _ _ _ H)) in Hz. lia. Qed.

Lemma ti_event s D es e : timer_inv s D es -> e ∈ D ++ es -> exists x, s.(timer_events) !! e = Some x.
Proof. intros H He. by apply (ti_dom _ _ _ H). Qed.

Lemma ti_size s D es : timer_inv s D es -> (length (D ++ es) <= size s.(timer_events))%nat.
Proof.
  intros H. rewrite <- (size_dom s.(timer_events)), <- (size_list_to_set (C := gset Z) (D ++ es)) by apply H.
  apply subseteq_size. intros e He. apply elem_of_list_to_set in He. apply elem_of_dom. by apply (ti_dom _ _ _ H).
Qed.

(** Changes of other parts of the state. *)
Lemma ti_same s s' D es :
  timer_inv s D es -> s'.(timer_events) = s.(timer_events) -> s'.(timer_head) = s.(timer_head) ->
  s'.(k_sched).(heap) = s.(k_sched).(heap) -> timer_inv s' D es.
Proof.
  intros [H1 H2 H3 H4 H5 H6 H7] E1 E2 E3. constructor; rewrite ?E1, ?E2, ?E3; try done.
  - eapply sll_ext; [|exact H1]. intros i _. unfold ev_link. by rewrite E1.
  - unfold bodies, body_of. by rewrite E1.
Qed.

Lemma ti_irq s v D es : timer_inv s D es -> timer_inv (set_k_irq v s) D es.
Proof.
  intros [H1 H2 H3 H4 H5 H6 H7]. constructor; try done.
  - apply (hl_irq _ v) in H6. exact H6.
  - intros e He. destruct (H7 e He) as [z Hz]. exists z. apply (hl_irq_owned _ v) in Hz. exact Hz.
Qed.

Lemma bodies_ext s s' es : (forall e, e ∈ es -> s'.(timer_events) !! e = s.(timer_events) !! e) -> bodies s' es = bodies s es.
Proof. intros H. apply list_fmap_ext. intros i e He. unfold body_of. rewrite H; [done|]. by eapply list_elem_of_lookup_2. Qed.

(** ** Walks *)

Lemma wp_event_get e x Q s : s.(timer_events) !! e = Some x -> Q x s -> wp (event_get e) Q s.
Proof. intros. by eapply wp_access. Qed.

Lemma wp_event_upd e f x Q s :
  s.(timer_events) !! e = Some x -> Q tt (set_timer_events (<[e := f x]> s.(timer_events)) s) -> wp (event_upd e f) Q s.
Proof. intros E H. eapply wp_update; [by rewrite E|done]. Qed.

Lemma u32_succ n : u32 (u32 n + 1) = u32 (n + 1).
Proof. unfold u32. by rewrite Z.add_mod_idemp_l. Qed.

Lemma wp_pending_count Q s D es :
  timer_inv s D es -> Q (u32 (Z.of_nat (length es))) s -> wp timer_pending_count Q s.
Proof using Type*.
  intros H HQ. unfold timer_pending_count. apply wp_bind, wp_k_irq_save, wp_bind, wp_gets, wp_bind, wp_gets, wp_bind.
  apply (wp_loop_list (fun L '(cur, count) s' => s' = set_k_irq false s /\ sll 0 (ev_link s) cur L /\
           count = u32 (Z.of_nat (length es) - Z.of_nat (length L)))) with (L := es).
  - intros [cur count] s' (-> & Hs & ->). cbn in Hs. subst cur. rewrite Z.eqb_refl. apply wp_ret, wp_bind, wp_k_irq_restore, wp_ret.
    rewrite (critical (fun s => s)) by reflexivity. by rewrite Z.sub_0_r.
  - intros e L [cur count] s' (-> & Hs & ->). destruct Hs as (-> & He & n & Hn & Hs).
    rewrite (proj2 (Z.eqb_neq _ _) He). unfold ev_link in Hn. destruct (timer_events s !! e) as [x|] eqn:Ex; [|done].
    injection Hn as <-. apply wp_bind. eapply wp_event_get; [exact Ex|]. apply wp_ret. split_and!; [done|exact Hs|].
    rewrite u32_succ. f_equal. cbn. lia.
  - split_and!; [done|apply (ti_chain _ _ _ H)|]. by rewrite Z.sub_diag.
  - pose proof (ti_size _ _ _ H) as Hs. rewrite length_app in Hs. cbn. lia.
Qed.

(** The place where a new event goes. *)
Lemma wp_insert_walk s D es expire Q :
  timer_inv s D es ->
  (forall es1 es2 cur, es = es1 ++ es2 -> sll 0 (ev_link s) cur es2 ->
     Forall (fun c => c.(b_expire) <= expire) (bodies s es1) ->
     match bodies s es2 with [] => True | c :: _ => expire < c.(b_expire) end ->
     Q (List.last es1 0, cur) s) ->
  wp (loop (S (size s.(timer_events)))
    (fun '(prev, cur) =>
       if cur =? 0 then mret (inr (prev, cur))
       else
         x ← event_get cur;
         if x.(ev_expire) <=? expire then mret (inl (cur, x.(ev_next))) else mret (inr (prev, cur)))
    (0, s.(timer_head))) Q s.
Proof using Type*.
  intros H HQ.
  apply (wp_loop_list (fun L '(prev, cur) s' => s' = s /\ exists es1, es = es1 ++ L /\ prev = List.last es1 0 /\
           sll 0 (ev_link s) cur L /\ Forall (fun c => c.(b_expire) <= expire) (bodies s es1))) with (L := es).
  - intros [prev cur] s' (-> & es1 & He & -> & Hs & Hf). cbn in Hs. subst cur. rewrite Z.eqb_refl. apply wp_ret. by eapply HQ.
  - intros e L [prev cur] s' (-> & es1 & He & -> & Hs & Hf). pose proof Hs as (-> & He0 & n & Hn & Hs').
    rewrite (proj2 (Z.eqb_neq _ _) He0). unfold ev_link in Hn. destruct (timer_events s !! e) as [x|] eqn:Ex; [|done].
    injection Hn as <-. apply wp_bind. eapply wp_event_get; [exact Ex|].
    assert (Eb : body_of s e = ev_body x) by (unfold body_of; by rewrite Ex).
    destruct (Z.leb_spec x.(ev_expire) expire) as [Hle|Hgt]; apply wp_ret.
    + split; [done|]. exists (es1 ++ [e]). rewrite <- app_assoc, last_last. split_and!; [done|done|done|].
      unfold bodies. rewrite fmap_app. apply Forall_app. split; [done|]. constructor; [|constructor]. by rewrite Eb.
    + apply (HQ es1 (e :: L)); [done|done|done|]. cbn. by rewrite Eb.
  - split; [done|]. exists []. split_and!; [done|done|apply (ti_chain _ _ _ H)|constructor].
  - pose proof (ti_size _ _ _ H) as Hs. rewrite length_app in Hs. lia.
Qed.

(** Changing links only. *)
Definition relinked (m m' : gmap Z timer_event) : Prop := forall k, ev_body <$> m' !! k = ev_body <$> m !! k.

Lemma relinked_insert m k x n : m !! k = Some x -> relinked m (<[k := set_ev_next n x]> m).
Proof using.
  intros E j. destruct (decide (j = k)) as [->|]; [by rewrite lookup_insert_eq, E|by rewrite lookup_insert_ne].
Qed.

Lemma relinked_trans m m1 m2 : relinked m m1 -> relinked m1 m2 -> relinked m m2.
Proof using. intros H1 H2 k. by rewrite H2, H1. Qed.

Lemma relinked_some m m' k x : relinked m m' -> m !! k = Some x -> exists x', m' !! k = Some x' /\ ev_body x' = ev_body x.
Proof using. intros H E. specialize (H k). rewrite E in H. destruct (m' !! k) as [x'|]; [|done]. apply (inj Some) in H. eauto. Qed.

Lemma relinked_bodies s m' es : relinked s.(timer_events) m' -> bodies (set_timer_events m' s) es = bodies s es.
Proof using.
  intros H. apply list_fmap_ext. intros i e _. unfold body_of. cbn. specialize (H e).
  destruct (m' !! e), (timer_events s !! e); cbn in H; congruence.
Qed.

Lemma ti_relink s D es D' es' m' h' :
  timer_inv s D es -> relinked s.(timer_events) m' -> D ++ es ≡ₚ D' ++ es' ->
  sll 0 (fun e => ev_next <$> m' !! e) h' es' -> StronglySorted earlier (bodies s es') ->
  timer_inv (set_timer_head h' (set_timer_events m' s)) D' es'.
Proof using.
  intros H Hr Hp Hs Hsort. constructor; cbn [timer_events set_timer_head set_timer_events timer_head k_sched].
  - exact Hs.
  - rewrite <- Hp. apply H.
  - intros e. rewrite <- Hp, <- (ti_dom _ _ _ H e). rewrite <- !(fmap_is_Some ev_body). by rewrite Hr.
  - change (bodies _ es') with (bodies (set_timer_events m' s) es'). by rewrite relinked_bodies.
  - intros e x E. pose proof (Hr e) as He. rewrite E in He. destruct (timer_events s !! e) as [y|] eqn:Ey; [|done].
    apply (inj Some), (f_equal b_expire) in He. cbn in He. rewrite He. by apply (ti_range _ _ _ H e).
  - apply H.
  - intros e He. rewrite <- Hp in He. by apply (ti_owned _ _ _ H).
Qed.

Section linking.
Context (s : ksys) (D es1 es2 : list Z) (e cur : Z) (x : timer_event).
Context (H : timer_inv s (e :: D) (es1 ++ es2)) (Hx : s.(timer_events) !! e = Some x).
Context (Hcur : sll 0 (ev_link s) cur es2).
Context (Hle : Forall (fun c => c.(b_expire) <= x.(ev_expire)) (bodies s es1)).
Context (Hgt : match bodies s es2 with [] => True | c :: _ => x.(ev_expire) < c.(b_expire) end).

Lemma link_bodies : bodies s (es1 ++ e :: es2) = insert_body (ev_body x) (bodies s (es1 ++ es2)).
Proof using Hgt Hle Hx.
  unfold bodies in *. rewrite !fmap_app, fmap_cons, insert_body_split by done. f_equal. unfold body_of at 1. by rewrite Hx.
Qed.

Lemma link_fresh : e ∉ D ++ es1 ++ es2 /\ NoDup (D ++ es1 ++ es2) /\ NoDup (es1 ++ es2) /\ e <> 0.
Proof using H HL.
  pose proof (ti_nodup _ _ _ H) as Hnd. cbn in Hnd. apply NoDup_cons in Hnd as [He Hnd]. split_and!; [done|done| |].
  - apply NoDup_app in Hnd. tauto.
  - eapply ti_nonzero; [exact H|]. cbn. by left.
Qed.

(** A map in which [e] is linked in after [es1] gives the new queue. *)
Lemma link_inv m' h' :
  relinked s.(timer_events) m' -> m' !! e = Some (set_ev_next cur x) ->
  (forall j, j ∈ es1 ++ es2 -> ev_next <$> m' !! j = if decide (last es1 = Some j) then Some e else ev_link s j) ->
  h' = match es1 with [] => e | _ => s.(timer_head) end ->
  timer_inv (set_timer_head h' (set_timer_events m' s)) D (es1 ++ e :: es2).
Proof using Type*.
  intros Hr He Hj ->. destruct link_fresh as (Hf & Hnd & Hnd2 & He0). eapply ti_relink; [exact H|exact Hr| | |].
  - cbn. by rewrite <- !Permutation_middle.
  - apply (sll_insert (ev_link s) _ _ cur); [apply (ti_chain _ _ _ H)|done|done|set_solver|done|by rewrite He|done].
  - rewrite link_bodies. apply insert_body_sorted, H.
Qed.

End linking.

Lemma wp_timer_insert e x Q s D es :
  timer_inv s (e :: D) es -> s.(timer_events) !! e = Some x ->
  (forall m' h' es', timer_inv (set_timer_head h' (set_timer_events m' s)) D es' ->
     relinked s.(timer_events) m' -> (forall d, d ∈ D -> m' !! d = s.(timer_events) !! d) ->
     bodies s es' = insert_body (ev_body x) (bodies s es) -> e :: es ≡ₚ es' ->
     Q tt (set_timer_head h' (set_timer_events m' s))) ->
  wp (timer_insert e x.(ev_expire)) Q s.
Proof using Type*.
  intros H Hx HQ. unfold timer_insert. apply wp_bind, wp_gets, wp_bind, wp_gets, wp_bind.
  apply (wp_insert_walk s (e :: D) es); [done|]. intros es1 es2 cur -> Hcur Hle Hgt.
  destruct (link_fresh s D es1 es2 e H) as (Hf & Hnd & Hnd2 & He0).
  pose proof (link_bodies s es1 es2 e x Hx Hle Hgt) as Hb.
  pose proof (link_inv s D es1 es2 e cur x H Hx Hcur Hle Hgt) as Hinv.
  apply wp_bind. eapply wp_event_upd; [exact Hx|]. set (m1 := <[e := set_ev_next cur x]> (timer_events s)) in *.
  assert (Hr1 : relinked s.(timer_events) m1) by (by apply relinked_insert).
  assert (Hm1 : forall j, j ∈ D ++ es1 ++ es2 -> m1 !! j = s.(timer_events) !! j).
  { intros j Hj. unfold m1. rewrite lookup_insert_ne; [done|]. intros <-. done. }
  destruct es1 as [|a es1].
  - cbn [List.last]. rewrite Z.eqb_refl. apply wp_modify. apply (HQ m1 e (e :: es2)); [|done| |exact Hb|done].
    + apply Hinv; [done|apply lookup_insert_eq| |done]. intros j Hj. rewrite decide_False by done.
      unfold ev_link. rewrite Hm1; [done|set_solver].
    + intros d Hd. apply Hm1. set_solver.
  - destruct (exists_last (l := a :: es1)) as (l0 & p & El); [done|].
    assert (Hpin : p ∈ a :: es1) by (rewrite El; set_solver).
    assert (Hp0 : p <> 0) by (eapply ti_nonzero; [exact H|set_solver]).
    destruct (ti_event _ _ _ p H) as [y Hy]; [set_solver|]. rewrite El, last_last, (proj2 (Z.eqb_neq _ _) Hp0).
    assert (Hy1 : m1 !! p = Some y) by (rewrite Hm1; [done|set_solver]).
    eapply wp_event_upd; [exact Hy1|]. cbn [timer_events set_timer_events].
    replace (set_timer_events (<[p := set_ev_next e y]> m1) (set_timer_events m1 s))
      with (set_timer_head s.(timer_head) (set_timer_events (<[p := set_ev_next e y]> m1) s)) by (by destruct s).
    assert (Hr : relinked (timer_events s) (<[p := set_ev_next e y]> m1)).
    { eapply relinked_trans; [exact Hr1|by apply relinked_insert]. }
    apply (HQ _ _ ((a :: es1) ++ e :: es2)); [|done| |done|by apply Permutation_middle].
    + apply Hinv; [done| | |done]; [rewrite lookup_insert_ne by (intros ->; set_solver); apply lookup_insert_eq|].
      intros j Hj. rewrite El, last_snoc. destruct (decide (Some p = Some j)) as [[= <-]|Hne]; [by rewrite lookup_insert_eq|].
      rewrite lookup_insert_ne by congruence. unfold ev_link. rewrite Hm1; [done|set_solver].
    + intros d Hd. rewrite lookup_insert_ne; [apply Hm1; set_solver|]. intros <-.
      apply NoDup_app in Hnd as (_ & Hdis & _). by apply (Hdis p Hd); set_solver.
Qed.

End timers.

(** * The operations *)

(** The earliest of the scheduler's tick and the first pending event; 0 for none. *)
Definition deadline_of (s : ksys) (bs : list body) : Z :=
  let d := if negb (s.(sched_tick_interval) =? 0) && negb (s.(sched_tick_deadline) =? 0) then s.(sched_tick_deadline) else 0 in
  match bs with
  | [] => d
  | b :: _ => if (d =? 0) || (b.(b_expire) <? d) then b.(b_expire) else d
  end.

(** The hardware is set to that deadline, or switched off. *)
Definition programmed (s : ksys) (bs : list body) : Prop :=
  s.(next_deadline) = deadline_of s bs /\
  s.(sbi_timer) = if deadline_of s bs =? 0 then UINT64_MAX else deadline_of s bs.

Definition program_state (bs : list body) (s : ksys) : ksys :=
  set_sbi_timer (if deadline_of s bs =? 0 then UINT64_MAX else deadline_of s bs) (set_next_deadline (deadline_of s bs) s).

Lemma program_state_ok bs s : programmed (program_state bs s) bs.
Proof. done. Qed.

Section timer_ops.
Context {hok : slabs -> Prop} {owned : slabs -> Z -> Z -> Prop} {static : slabs -> Z -> Prop}.
Context `{HL : !HeapLaws hok owned static}.

Lemma wp_reprogram Q s D es :
  timer_inv s D es (hok := hok) (owned := owned) -> Q tt (program_state (bodies s es) s) -> wp timer_reprogram_locked Q s.
Proof using Type*.
  intros H HQ. unfold timer_reprogram_locked. apply wp_bind, wp_gets, wp_bind, wp_gets. cbn zeta.
  apply wp_bind, wp_gets, wp_bind. unfold program_state, deadline_of in HQ.
  pose proof (ti_chain _ _ _ H) as Hs. destruct es as [|e es].
  - cbn in Hs. rewrite Hs. cbn [Z.eqb bodies fmap list_fmap] in *. apply wp_ret.
    destruct (negb (sched_tick_interval s =? 0) && negb (sched_tick_deadline s =? 0)) eqn:Eb; cbn [Z.eqb negb] in *.
    + apply andb_prop in Eb as [_ Eb]. apply negb_true_iff in Eb. rewrite Eb in *. exact HQ.
    + exact HQ.
  - destruct Hs as (-> & He & n & Hn & _). rewrite (proj2 (Z.eqb_neq _ _) He).
    destruct (ti_event _ _ _ e H) as [x Hx]; [set_solver|]. apply wp_bind. eapply wp_event_get; [exact Hx|]. apply wp_ret.
    assert (Eb : body_of s e = ev_body x) by (unfold body_of; by rewrite Hx).
    unfold bodies in HQ. cbn [fmap list_fmap] in HQ. rewrite Eb in HQ. cbn [b_expire ev_body] in HQ.
    match goal with |- wp (if negb (?d =? 0) then _ else _) _ _ => set (dl := d) in * end.
    destruct (Z.eqb_spec dl 0) as [E0|E0]; [rewrite E0 in *|]; exact HQ.
Qed.

(** What a caller of the heap keeps: other ranges stay as they are. *)
Definition heap_adds (h h' : slabs) (a : Z) : Prop :=
  exists z, forall b y, owned h' b y <-> owned h b y \/ (b = a /\ y = z).

Definition heap_same (h h' : slabs) : Prop := forall b y, owned h' b y <-> owned h b y.

Definition set_k_heap (h : slabs) (s : ksys) : ksys := put h s.

(** A new event object is fresh. *)
Lemma ti_new s D es h a x :
  timer_inv s D es (hok := hok) (owned := owned) -> hok h -> heap_adds s.(k_sched).(heap) h a -> a ∉ D ++ es ->
  0 <= x.(ev_expire) < 2 ^ 64 ->
  timer_inv (set_timer_events (<[a := x]> s.(timer_events)) (set_k_heap h s)) (a :: D) es (hok := hok) (owned := owned).
Proof using Type*.
  intros H Hh [z Ha] Hf Hx. constructor; cbn [timer_events set_timer_events timer_head k_sched].
  - eapply sll_ext; [|apply (ti_chain _ _ _ H)]. intros i Hi. unfold ev_link. cbn. rewrite lookup_insert_ne; [done|].
    intros <-. set_solver.
  - cbn. apply NoDup_cons. split; [done|apply H].
  - intros e. cbn. destruct (decide (e = a)) as [->|Hne]; [rewrite lookup_insert_eq; set_solver|].
    rewrite lookup_insert_ne by done. change (timer_events (set_k_heap h s)) with (timer_events s).
    rewrite (ti_dom _ _ _ H e). set_solver.
  - rewrite (bodies_ext s); [apply H|]. intros e He. cbn. rewrite lookup_insert_ne; [done|]. intros <-. set_solver.
  - intros e y. destruct (decide (e = a)) as [->|Hne]; [rewrite lookup_insert_eq; by intros [= <-]|].
    rewrite lookup_insert_ne by done. apply H.
  - exact Hh.
  - intros e He. cbn in He. apply elem_of_cons in He as [->|He].
    + exists z. apply Ha. by right.
    + destruct (ti_owned _ _ _ H e He) as [y Hy]. exists y. apply Ha. by left.
Qed.

(** A detached event is freed. *)
Lemma ti_freed s D es h a :
  timer_inv s (a :: D) es (hok := hok) (owned := owned) -> hok h ->
  (forall b y, owned h b y <-> owned s.(k_sched).(heap) b y /\ b <> a) ->
  timer_inv (set_k_heap h (set_timer_events (delete a s.(timer_events)) s)) D es (hok := hok) (owned := owned).
Proof using Type*.
  intros H Hh Ho. pose proof (ti_nodup _ _ _ H) as Hnd. cbn in Hnd. apply NoDup_cons in Hnd as [Ha Hnd].
  assert (Hne : forall e, e ∈ D ++ es -> e <> a) by (intros e ? ->; done).
  constructor; cbn [timer_events set_timer_events timer_head k_sched].
  - eapply sll_ext; [|apply (ti_chain _ _ _ H)]. intros i Hi. unfold ev_link. cbn. rewrite lookup_delete_ne; [done|].
    intros ->. set_solver.
  - done.
  - intros e. change (timer_events (set_k_heap h _)) with (delete a s.(timer_events)).
    destruct (decide (e = a)) as [->|Hea]; [rewrite lookup_delete_eq; split; [by intros [? ?]|done]|].
    rewrite lookup_delete_ne by done. rewrite (ti_dom _ _ _ H e). set_solver.
  - rewrite (bodies_ext s); [apply H|]. intros e He. cbn. rewrite lookup_delete_ne; [done|]. intros ->. set_solver.
  - intros e y E. cbn in E. apply lookup_delete_Some in E as [_ E]. by apply (ti_range _ _ _ H e).
  - exact Hh.
  - intros e He. destruct (ti_owned _ _ _ H e) as [y Hy]; [set_solver|]. exists y. apply Ho. auto.
Qed.

Lemma wp_event_free a Q s D es :
  timer_inv s (a :: D) es (hok := hok) (owned := owned) ->
  (forall h, timer_inv (set_k_heap h (set_timer_events (delete a s.(timer_events)) s)) D es (hok := hok) (owned := owned) ->
     h.(pages).(irq_on) = k_irq s -> (forall b y, owned h b y <-> owned s.(k_sched).(heap) b y /\ b <> a) ->
     Q tt (set_k_heap h (set_timer_events (delete a s.(timer_events)) s))) ->
  wp (event_free a) Q s.
Proof using Type*.
  intros H HQ. unfold event_free. apply wp_bind, wp_modify, wp_zoom.
  destruct (ti_owned _ _ _ H a) as [z Hz]; [set_solver|].
  eapply (hl_kfree _ a z); [exact (ti_heap _ _ _ H)|exact Hz|].
  intros h Hh Hirq Ho _. apply HQ; [by apply ti_freed|exact Hirq|exact Ho].
Qed.

(** ** Adding a timer *)

(** What adding a timer leaves alone: everything but the queue, the programmed
    deadline, the heap and the number of clock reads. *)
Record add_frame (s s' : ksys) : Prop := mkAddFrame {
  af_sched : s'.(k_sched) = set_heap s'.(k_sched).(heap) s.(k_sched);
  af_irq : k_irq s' = k_irq s;
  af_trace : (s'.(trace), s'.(trace_head), s'.(trace_count)) = (s.(trace), s.(trace_head), s.(trace_count));
  af_pending : s'.(pending) = s.(pending);
  af_work : (s'.(pool), s'.(work_head), s'.(work_tail)) = (s.(pool), s.(work_head), s.(work_tail));
  af_timer : (s'.(timebase_frequency), s'.(boot_time), s'.(timer_enabled)) = (s.(timebase_frequency), s.(boot_time), s.(timer_enabled));
  af_tick : (s'.(sched_tick_interval), s'.(sched_tick_deadline), s'.(sie_timer)) =
            (s.(sched_tick_interval), s.(sched_tick_deadline), s.(sie_timer));
  af_clock : s'.(rdtime) = s.(rdtime);
  af_reads : (s.(rdtime_reads) <= s'.(rdtime_reads))%nat;
}.

Lemma add_frame_id s : add_frame s s.
Proof using. constructor; try done. by destruct s as [[] ]. Qed.

(** The time at which a timer added now would be stamped. *)
Definition clock_now (s : ksys) : Z := u64 (s.(rdtime) s.(rdtime_reads)).

Ltac add_frame_same H := constructor; [reflexivity|exact H|reflexivity..|cbn; lia].

(** The part after the allocation of [a]: the event is written and, if the timer
    runs, queued; otherwise the object is given back. *)
Section add.
Context (s : ksys) (D es : list Z) (a z : Z) (h : slabs) (x : timer_event).
Context (H : timer_inv s D es (hok := hok) (owned := owned)).
Context (Hh : hok h) (Hirq : h.(pages).(irq_on) = k_irq s).
Context (Hown : forall b y, owned h b y <-> owned s.(k_sched).(heap) b y \/ (b = a /\ y = z)).
Context (Hnew : forall y, ~ owned s.(k_sched).(heap) a y).

Lemma add_fresh : a ∉ D ++ es.
Proof using H Hnew. intros Ha. destruct (ti_owned _ _ _ H a Ha) as [y Hy]. by apply (Hnew y). Qed.

(** The state with the new heap after one read of the clock. *)
Definition add_state : ksys := set_rdtime_reads (S s.(rdtime_reads)) (set_k_heap h s).

Lemma add_dropped (h2 : slabs) :
  hok h2 -> (forall b y, owned h2 b y <-> owned h b y /\ b <> a) ->
  timer_inv (set_k_heap h2 add_state) D es (hok := hok) (owned := owned) /\ heap_same s.(k_sched).(heap) h2.
Proof using H Hnew Hown.
  intros Hh2 Ho. assert (Hsame : heap_same s.(k_sched).(heap) h2).
  { intros b y. rewrite Ho, Hown. split; [tauto|]. intros Hb. split; [by left|]. intros ->. by apply (Hnew y). }
  split; [|done]. destruct H as [H1 H2 H3 H4 H5 H6 H7]. constructor; try done.
  intros e He. destruct (H7 e He) as [y Hy]. exists y. by apply Hsame.
Qed.

Lemma add_event_inv :
  0 <= x.(ev_expire) < 2 ^ 64 ->
  timer_inv (set_timer_events (<[a := x]> s.(timer_events)) add_state) (a :: D) es (hok := hok) (owned := owned).
Proof using Type*.
  intros Hx. assert (Ha : heap_adds s.(k_sched).(heap) h a) by (by exists z).
  eapply ti_same; [exact (ti_new s D es h a x H Hh Ha add_fresh Hx)|done..].
Qed.

End add.

Lemma wp_add_queue s D es a z h x Q :
  timer_inv s D es (hok := hok) (owned := owned) -> hok h -> h.(pages).(irq_on) = k_irq s ->
  (forall b y, owned h b y <-> owned s.(k_sched).(heap) b y \/ (b = a /\ y = z)) ->
  (forall y, ~ owned s.(k_sched).(heap) a y) -> 0 <= x.(ev_expire) < 2 ^ 64 ->
  (forall s', timer_inv s' D es (hok := hok) (owned := owned) -> s'.(timer_events) = s.(timer_events) -> add_frame s s' ->
     heap_same s.(k_sched).(heap) s'.(k_sched).(heap) -> Q (-1) s') ->
  (forall s' es', s.(timer_enabled) <> 0 -> timer_inv s' D es' (hok := hok) (owned := owned) ->
     bodies s' es' = insert_body (ev_body x) (bodies s es) -> programmed s' (bodies s' es') ->
     (forall d, d ∈ D -> s'.(timer_events) !! d = s.(timer_events) !! d) -> add_frame s s' ->
     heap_adds s.(k_sched).(heap) s'.(k_sched).(heap) a -> Q 0 s') ->
  wp (sstatus ← k_irq_save;
      enabled ← gets timer_enabled;
      if enabled =? 0 then
        k_irq_restore sstatus ;;
        event_free a ;;
        mret (-1)
      else
        timer_insert a x.(ev_expire) ;;
        timer_reprogram_locked ;;
        k_irq_restore sstatus ;;
        mret 0) Q (set_timer_events (<[a := x]> s.(timer_events)) (add_state s h)).
Proof using Type*.
  intros H Hh Hirq Hown Hnew Hx Hfail Hadd.
  pose proof (add_event_inv s D es a z h x H Hh Hirq Hown Hnew Hx) as H3.
  pose proof (add_fresh s D es a H Hnew) as Hf. set (s3 := set_timer_events _ _) in *.
  assert (Hk3 : k_irq s3 = k_irq s) by exact Hirq.
  apply wp_bind, wp_k_irq_save, wp_bind, wp_gets. change (timer_enabled (set_k_irq false s3)) with (timer_enabled s).
  destruct (Z.eqb_spec s.(timer_enabled) 0) as [E0|E0].
  - apply wp_bind, wp_k_irq_restore. rewrite (critical (fun s => s)) by reflexivity.
    apply wp_bind. eapply wp_event_free; [exact H3|]. intros h2 Hi2 Hirq2 Ho2. apply wp_ret.
    assert (Hd : delete a (<[a := x]> s.(timer_events)) = s.(timer_events)).
    { rewrite delete_insert_eq. apply delete_id. destruct (timer_events s !! a) eqn:E; [|done].
      exfalso. apply Hf. apply (ti_dom _ _ _ H). eauto. }
    destruct (add_dropped s D es a z h H Hown Hnew h2 (ti_heap _ _ _ Hi2) Ho2) as [Hi Hs].
    apply Hfail; [exact Hi2|exact Hd| |exact Hs]. add_frame_same (eq_trans Hirq2 Hk3).
  - apply wp_bind. eapply (wp_timer_insert a x _ _ D es); [by apply ti_irq|apply lookup_insert_eq|].
    intros m' h' es' Hi Hr HD Hb Hp. apply wp_bind. eapply wp_reprogram; [exact Hi|].
    set (bs := bodies (set_timer_head h' (set_timer_events m' (set_k_irq false s3))) es').
    apply wp_bind, (wp_critical (fun s => program_state bs (set_timer_head h' (set_timer_events m' s))) s3); [reflexivity..|].
    apply wp_ret.
    assert (Hbs : bs = insert_body (ev_body x) (bodies s es)).
    { unfold bs. change (bodies (set_timer_head h' (set_timer_events m' (set_k_irq false s3))) es')
        with (bodies (set_timer_events m' (set_k_irq false s3)) es'). rewrite relinked_bodies by done.
      rewrite Hb. f_equal. apply bodies_ext. intros e He. cbn. apply lookup_insert_ne. intros ->. set_solver. }
    apply (Hadd _ es'); [done| |exact Hbs|apply program_state_ok| | |].
    + apply (ti_irq _ (k_irq s3)) in Hi. eapply ti_same; [exact Hi|done|done|].
      symmetry. change (heap (k_sched (set_k_irq (k_irq s3) s3)) = heap (k_sched s3)). by rewrite set_k_irq_self.
    + intros d Hd. etransitivity; [exact (HD d Hd)|]. cbn. apply lookup_insert_ne. intros ->. set_solver.
    + add_frame_same Hk3.
    + by exists z.
Qed.

Lemma wp_add_timer callback arg duration cleanup Q s D es :
  timer_inv s D es (hok := hok) (owned := owned) -> 0 <= duration < 2 ^ 64 ->
  (forall s', timer_inv s' D es (hok := hok) (owned := owned) -> s'.(timer_events) = s.(timer_events) -> add_frame s s' ->
     heap_same s.(k_sched).(heap) s'.(k_sched).(heap) -> Q (-1) s') ->
  (forall s' es' a, callback <> 0 -> s.(timebase_frequency) <> 0 -> s.(timer_enabled) <> 0 ->
     clock_now s + duration < 2 ^ 64 -> timer_inv s' D es' (hok := hok) (owned := owned) ->
     bodies s' es' = insert_body (mkBody (clock_now s + duration) callback cleanup arg) (bodies s es) ->
     programmed s' (bodies s' es') -> (forall d, d ∈ D -> s'.(timer_events) !! d = s.(timer_events) !! d) -> add_frame s s' ->
     heap_adds s.(k_sched).(heap) s'.(k_sched).(heap) a -> Q 0 s') ->
  wp (add_timer_with_cleanup callback arg duration cleanup) Q s.
Proof using Type*.
  intros H Hd Hfail Hadd. unfold add_timer_with_cleanup. apply wp_bind, wp_gets.
  assert (Hsame : Q (-1) s) by (apply Hfail; [done|done|apply add_frame_id|done]).
  destruct (Z.eqb_spec callback 0) as [|Hcb]; [by apply wp_ret|].
  destruct (Z.eqb_spec s.(timebase_frequency) 0) as [|Hfr]; cbn [orb]; [by apply wp_ret|].
  apply wp_bind, wp_zoom. apply hl_kmalloc; [exact (ti_heap _ _ _ H)|done| |].
  { rewrite put_view. by apply wp_ret. }
  intros a z h Hh Hirq Ha _ _ Hown Hdis _. rewrite (proj2 (Z.eqb_neq _ _) Ha).
  assert (Hnew : forall y, ~ owned s.(k_sched).(heap) a y).
  { intros y Hy. pose proof (hl_shape _ _ _ (ti_heap _ _ _ H) Hy). apply (Hdis a y a Hy); [lia|].
    assert (owned h a z) as Hz by (apply Hown; auto). pose proof (hl_shape _ _ _ Hh Hz). lia. }
  apply wp_bind, wp_timer_read. change (u64 (rdtime (put h s) (rdtime_reads (put h s)))) with (clock_now s).
  pose proof (u64_range (s.(rdtime) s.(rdtime_reads))) as Hc. fold (clock_now s) in Hc. unfold UINT64_MAX.
  destruct (Z.ltb_spec (2 ^ 64 - 1 - clock_now s) duration) as [Hov|Hov].
  - apply wp_bind, wp_zoom. eapply (hl_kfree h a z); [exact Hh|apply Hown; auto|].
    intros h2 Hh2 Hirq2 Ho2 _. apply wp_ret.
    destruct (add_dropped s D es a z h H Hown Hnew h2 Hh2 Ho2) as [Hi Hs].
    apply Hfail; [exact Hi|done| |exact Hs]. add_frame_same (eq_trans Hirq2 Hirq).
  - cbn zeta. rewrite u64_id by lia. apply wp_bind, wp_modify.
    set (x := mkTimerEvent (clock_now s + duration) callback cleanup arg 0).
    apply (wp_add_queue s D es a z h x); [done|done|exact Hirq|done|done|cbn; lia|done|].
    intros s' es' He Hi Hb Hp HD Hf Hg. eapply Hadd; try done. lia.
Qed.

End timer_ops.
