(* ===== verification/TimerRun.v ===== *)
(** * Firing timers

    The bottom half and the shutdown of [timer.c], for callbacks that return,
    may add timers and do not stop the timer themselves. *)

From Stdlib Require Import Sorted.
From S2P Require Import Prelude Lists Memory Slab Task HeapIface Irq Trace Work Timer TimerOps.

Open Scope Z_scope.

(** The time counter: monotonic, and not yet within one tick interval of its end. *)
Definition clock_ok (s : ksys) : Prop :=
  (forall n, 0 <= s.(rdtime) n < 2 ^ 64 - 2 ^ 32) /\ (forall n m, (n <= m)%nat -> s.(rdtime) n <= s.(rdtime) m).

(** The scheduler's tick. *)
Definition tick_ok (s : ksys) : Prop := 0 <= s.(sched_tick_interval) < 2 ^ 32 /\ 0 <= s.(sched_tick_deadline) < 2 ^ 64.

Lemma clock_now_id s n : clock_ok s -> u64 (s.(rdtime) n) = s.(rdtime) n.
Proof. intros [H _]. specialize (H n). apply u64_id. lia. Qed.

(** ** The scheduler's deadline *)

Lemma set_tick_self s : set_sched_tick_deadline s.(sched_tick_deadline) s = s.
Proof. by destruct s. Qed.

Lemma wp_tick_advance now Q s :
  tick_ok s -> 0 <= now < 2 ^ 64 - 2 ^ 32 ->
  (forall d, 0 <= d < 2 ^ 64 -> (s.(sched_tick_interval) <> 0 -> now < d) -> Q tt (set_sched_tick_deadline d s)) ->
  wp (sched_tick_advance now) Q s.
Proof.
  intros [Hi Ht] Hn HQ. unfold sched_tick_advance. apply wp_bind, wp_gets.
  set (iv := s.(sched_tick_interval)) in *. set (t0 := s.(sched_tick_deadline)) in *.
  apply (wp_loop (fun (_ : unit) s' => exists d, s' = set_sched_tick_deadline d s /\ t0 <= d < 2 ^ 64)
    (fun _ s' => if (iv =? 0) || (now <? s'.(sched_tick_deadline)) then 0 else (now - s'.(sched_tick_deadline)) / iv + 1)).
  - intros _ s' (d & -> & Hd). cbn. destruct (Z.eqb_spec iv 0), (Z.ltb_spec now d); cbn; try lia.
    pose proof (Z.div_pos (now - d) iv ltac:(lia) ltac:(lia)). lia.
  - intros _ s' (d & -> & Hd). apply wp_bind, wp_gets, wp_bind, wp_gets.
    change (sched_tick_interval (set_sched_tick_deadline d s)) with iv.
    change (sched_tick_deadline (set_sched_tick_deadline d s)) with d.
    destruct (Z.eqb_spec iv 0) as [E0|E0]; cbn [negb andb orb].
    { apply wp_ret, HQ; [lia|done]. }
    destruct (Z.leb_spec d now) as [Hle|Hgt]; [|apply wp_ret, HQ; [lia|done]].
    apply wp_bind, wp_modify, wp_ret. rewrite u64_id by lia. split.
    + exists (d + iv). split; [by destruct s|lia].
    + rewrite (proj2 (Z.ltb_ge now d)) by lia. cbn [sched_tick_deadline set_sched_tick_deadline].
      pose proof (Z.div_pos (now - d) iv ltac:(lia) ltac:(lia)). destruct (Z.ltb_spec now (d + iv)); [lia|].
      replace (now - d) with ((now - (d + iv)) + 1 * iv) by lia. rewrite Z.div_add by lia. lia.
  - exists t0. split; [by destruct s|lia].
  - fold iv t0. destruct (Z.eqb_spec iv 0), (Z.ltb_spec now t0); cbn [orb]; try lia.
Qed.

Section timer_run.
Context {hok : slabs -> Prop} {owned : slabs -> Z -> Z -> Prop} {static : slabs -> Z -> Prop}.
Context `{HL : !HeapLaws hok owned static}.
Local Abbreviation tinv := (timer_inv (hok := hok) (owned := owned)).

(** What the code below the bottom half keeps. *)
Record run_frame (s s' : ksys) : Prop := mkRunFrame {
  rf_irq : k_irq s' = k_irq s;
  rf_freq : s'.(timebase_frequency) = s.(timebase_frequency);
  rf_enabled : s'.(timer_enabled) = s.(timer_enabled);
  rf_interval : s'.(sched_tick_interval) = s.(sched_tick_interval);
  rf_tick : tick_ok s -> tick_ok s';
  rf_clock : s'.(rdtime) = s.(rdtime);
  rf_reads : (s.(rdtime_reads) <= s'.(rdtime_reads))%nat;
  rf_trace : trace_ok s -> trace_ok s';
}.

Lemma run_frame_refl s : run_frame s s.
Proof using. by constructor. Qed.

Lemma run_frame_trans s1 s2 s3 : run_frame s1 s2 -> run_frame s2 s3 -> run_frame s1 s3.
Proof using.
  intros [] []. constructor; try congruence; try lia; auto.
Qed.

Lemma frame_clock s s' : run_frame s s' -> clock_ok s -> clock_ok s'.
Proof using. intros H [H1 H2]. unfold clock_ok. by rewrite (rf_clock _ _ H). Qed.

Lemma frame_now s s' : run_frame s s' -> clock_ok s -> clock_now s <= clock_now s'.
Proof using.
  intros H Hc. unfold clock_now. rewrite (rf_clock _ _ H), !clock_now_id by done. apply Hc. apply H.
Qed.

(** ** Taking the first due event *)

Definition take_state (d up : Z) (s : ksys) : ksys :=
  set_sched_tick_deadline d (set_uptime_seconds up (set_rdtime_reads (S s.(rdtime_reads)) s)).

Definition taken_state (e n : Z) (x : timer_event) (d up : Z) (s : ksys) : ksys :=
  set_timer_events (<[e := set_ev_next 0 x]> s.(timer_events)) (set_timer_head n (take_state d up s)).

Lemma take_frame s d up : 0 <= d < 2 ^ 64 -> run_frame s (take_state d up s).
Proof using. intros Hd. constructor; try done; [|cbn; lia]. intros [H1 H2]. by split. Qed.

Lemma wp_sync_uptime now Q s : (forall up, Q tt (set_uptime_seconds up s)) -> wp (timer_sync_uptime now) Q s.
Proof using.
  intros HQ. unfold timer_sync_uptime. apply wp_bind, wp_gets. case_match; [apply wp_modify, HQ|].
  apply wp_bind, wp_gets, wp_modify, HQ.
Qed.

Lemma wp_take_due Q s D es :
  tinv s D es -> s.(timer_enabled) <> 0 -> clock_ok s -> tick_ok s ->
  (forall d up, 0 <= d < 2 ^ 64 -> match es with [] => True | e :: _ => clock_now s < (body_of s e).(b_expire) end ->
     Q (Some 0) (take_state d up s)) ->
  (forall e es' x d up, 0 <= d < 2 ^ 64 -> es = e :: es' -> s.(timer_events) !! e = Some x -> x.(ev_expire) <= clock_now s ->
     Q (Some e) (taken_state e x.(ev_next) x d up s)) ->
  wp timer_take_due Q s.
Proof using Type*.
  intros H Hen Hc Ht Hnone Htake. unfold timer_take_due.
  apply wp_bind, wp_k_irq_save, wp_bind, wp_gets. change (timer_enabled (set_k_irq false s)) with (timer_enabled s).
  rewrite (proj2 (Z.eqb_neq _ _) Hen). apply wp_bind, wp_timer_read.
  change (u64 (rdtime (set_k_irq false s) (rdtime_reads (set_k_irq false s)))) with (clock_now s).
  apply wp_bind, wp_sync_uptime. intros up. apply wp_bind.
  assert (Hnow : 0 <= clock_now s < 2 ^ 64 - 2 ^ 32) by (unfold clock_now; rewrite clock_now_id by done; apply Hc).
  apply wp_tick_advance; [exact Ht|done|]. intros d Hd _. apply wp_bind, wp_gets, wp_bind.
  pose proof (ti_chain _ _ _ H) as Hs. change (timer_head (set_sched_tick_deadline d _)) with (timer_head s).
  destruct es as [|e es].
  - cbn in Hs. rewrite Hs, Z.eqb_refl. apply wp_ret.
    apply wp_bind, (wp_critical (take_state d up) s); [reflexivity..|]. apply wp_ret. by apply Hnone.
  - destruct Hs as (-> & He & n & Hn & _). rewrite (proj2 (Z.eqb_neq _ _) He).
    destruct (ti_event _ _ _ e H) as [x Hx]; [set_solver|].
    assert (Eb : (body_of s e).(b_expire) = x.(ev_expire)) by (unfold body_of; by rewrite Hx).
    apply wp_bind. eapply wp_event_get; [exact Hx|]. destruct (Z.leb_spec x.(ev_expire) (clock_now s)) as [Hle|Hgt].
    + apply wp_bind, wp_modify, wp_bind. eapply wp_event_upd; [exact Hx|]. apply wp_ret.
      apply wp_bind, (wp_critical (taken_state e x.(ev_next) x d up) s); [reflexivity..|]. apply wp_ret. by eapply Htake.
    + apply wp_ret, wp_bind, (wp_critical (take_state d up) s); [reflexivity..|]. apply wp_ret, Hnone; [done|]. lia.
Qed.

Lemma taken_inv s D e es x d up :
  tinv s D (e :: es) -> s.(timer_events) !! e = Some x -> tinv (taken_state e x.(ev_next) x d up s) (e :: D) es.
Proof using Type*.
  intros H Hx. assert (Hr : relinked s.(timer_events) (<[e := set_ev_next 0 x]> s.(timer_events))) by (by apply relinked_insert).
  eapply ti_same with (s := set_timer_head x.(ev_next) (set_timer_events (<[e := set_ev_next 0 x]> s.(timer_events)) s)); [|done..].
  apply (ti_relink s D (e :: es)); [done|done|cbn; by rewrite Permutation_middle| |].
  - pose proof (ti_chain _ _ _ H) as (_ & _ & n & Hn & Hs). unfold ev_link in Hn. rewrite Hx in Hn. injection Hn as <-.
    pose proof (ti_nodup _ _ _ H) as Hnd. apply NoDup_app in Hnd as (_ & _ & Hnd). apply NoDup_cons in Hnd as [He _].
    eapply sll_ext; [|exact Hs]. intros i Hi. unfold ev_link. rewrite lookup_insert_ne; [done|]. intros <-. done.
  - pose proof (ti_sorted _ _ _ H) as Hs. unfold bodies in *. cbn in Hs. by apply StronglySorted_inv in Hs as [Hs _].
Qed.

(** The state in which [timer_stop] walks the events it has taken. *)
Definition stop_state (p : Z) (s : ksys) : ksys :=
  set_sbi_timer UINT64_MAX (set_sched_tick_deadline 0 (set_sched_tick_interval 0 (set_next_deadline 0
    (set_timer_head 0 (set_pending p (set_timer_enabled 0 (set_sie_timer false s))))))).

(** ** Callbacks *)

(** What the timer relies on when it calls a callback or a cleanup function: it
    returns, keeps the detached events, may add events (not while the timer is
    stopped), and shows in [seen] that it was called. *)
Record timer_callbacks {T} (call : Z -> Z -> M ksys unit) (seen : ksys -> T) (note : T -> Z * Z -> T) : Prop := mkTimerCallbacks {
  tc_call : forall f a s D es, tinv s D es -> clock_ok s -> tick_ok s ->
    wp (call f a) (fun _ s' => exists es' N, tinv s' D es' /\ run_frame s s' /\
      (forall d, d ∈ D -> s'.(timer_events) !! d = s.(timer_events) !! d) /\
      bodies s' es' ≡ₚ bodies s es ++ N /\ (s.(timer_enabled) = 0 -> N = []) /\ seen s' = note (seen s) (f, a)) s;
  tc_irq : forall v s, seen (set_k_irq v s) = seen s;
  tc_heap : forall h s, seen (set_k_heap h s) = seen s;
  tc_events : forall m s, seen (set_timer_events m s) = seen s;
  tc_head : forall v s, seen (set_timer_head v s) = seen s;
  tc_take : forall d up s, seen (take_state d up s) = seen s;
  tc_record : forall k a s, seen (recorded k a s) = seen s;
  tc_count : forall v s, seen (set_timer_irq_count v s) = seen s;
  tc_arm : forall v w p n s, seen (set_sie_timer true (set_sbi_timer v (set_next_deadline w (set_pending p
             (set_rdtime_reads n s))))) = seen s;
  tc_stop : forall p s, seen (stop_state p s) = seen s;
}.

Section firing.
Context {T : Type} (call : Z -> Z -> M ksys unit) (seen : ksys -> T) (note : T -> Z * Z -> T).
Context (Hcall : timer_callbacks call seen note).

(** The calls for one event: the callback, then the cleanup unless it is null. *)
Definition note_event (t : T) (b : body) : T :=
  let t1 := note t (b.(b_callback), b.(b_arg)) in
  if b.(b_cleanup) =? 0 then t1 else note t1 (b.(b_cleanup), b.(b_arg)).

Lemma wp_fire e Q s D es x :
  tinv s (e :: D) es -> clock_ok s -> tick_ok s -> s.(timer_events) !! e = Some x ->
  (forall s' es' N, tinv s' D es' -> run_frame s s' -> (forall d, d ∈ D -> s'.(timer_events) !! d = s.(timer_events) !! d) ->
     bodies s' es' ≡ₚ bodies s es ++ N -> seen s' = note_event (seen s) (ev_body x) -> Q tt s') ->
  wp (timer_fire call e) Q s.
Proof using Type*.
  intros H Hc Ht Hx HQ. unfold timer_fire. apply wp_bind. eapply wp_event_get; [exact Hx|]. apply wp_bind.
  eapply wp_mono; [by apply (tc_call _ _ _ Hcall)|]. intros [] s1 (es1 & N1 & H1 & F1 & D1 & P1 & _ & S1).
  assert (Hx1 : s1.(timer_events) !! e = Some x) by (rewrite D1 by set_solver; done).
  apply wp_bind. eapply wp_event_get; [exact Hx1|]. apply wp_bind.
  assert (Hfree : forall s2 es2 N2, tinv s2 (e :: D) es2 -> run_frame s s2 ->
    (forall d, d ∈ e :: D -> s2.(timer_events) !! d = s.(timer_events) !! d) ->
    bodies s2 es2 ≡ₚ bodies s es ++ N2 -> seen s2 = note_event (seen s) (ev_body x) -> wp (event_free e) Q s2).
  { intros s2 es2 N2 H2 F2 D2 P2 S2. eapply wp_event_free; [exact H2|]. intros h Hi Hirq Ho.
    pose proof (ti_nodup _ _ _ H2) as Hnd. cbn in Hnd. apply NoDup_cons in Hnd as [He _].
    eapply (HQ _ es2 N2); [exact Hi| | | |].
    - eapply run_frame_trans; [exact F2|]. by constructor.
    - intros d Hd. cbn. rewrite lookup_delete_ne by (intros ->; set_solver). apply D2. set_solver.
    - rewrite <- P2. rewrite (bodies_ext s2); [done|]. intros k Hk. cbn. apply lookup_delete_ne. intros ->. set_solver.
    - by rewrite (tc_heap _ _ _ Hcall), (tc_events _ _ _ Hcall). }
  unfold note_event in Hfree. cbn [ev_body b_callback b_arg b_cleanup] in Hfree.
  destruct (Z.eqb_spec x.(ev_cleanup) 0) as [E0|E0]; cbn [negb when].
  - apply wp_ret. by eapply Hfree.
  - eapply wp_mono; [apply (tc_call _ _ _ Hcall _ _ s1 (e :: D) es1); [done|by eapply frame_clock|by apply (rf_tick _ _ F1)]|].
    intros [] s2 (es2 & N2 & H2 & F2 & D2 & P2 & _ & S2). eapply (Hfree s2 es2 (N1 ++ N2)); [done| | | |].
    + by eapply run_frame_trans.
    + intros d Hd. rewrite D2, D1; done.
    + by rewrite P2, P1, app_assoc.
    + by rewrite S2, S1.
Qed.

(** [F] is what ran, in order; [N] is what callbacks added. *)
Record fired (budget : nat) (F N : list body) (D es es' : list Z) (s s' : ksys) : Prop := mkFired {
  fd_inv : tinv s' D es';
  fd_frame : run_frame s s';
  fd_kept : forall d, d ∈ D -> s'.(timer_events) !! d = s.(timer_events) !! d;
  fd_perm : F ++ bodies s' es' ≡ₚ bodies s es ++ N;
  fd_seen : seen s' = foldl note_event (seen s) F;
  fd_budget : (length F <= budget)%nat;
  fd_due : Forall (fun b => b.(b_expire) <= clock_now s') F;
  fd_all : length F = budget \/ Forall (fun b => clock_now s < b.(b_expire)) (bodies s' es');
}.

Lemma none_due s D es :
  tinv s D es -> match es with [] => True | e :: _ => clock_now s < (body_of s e).(b_expire) end ->
  Forall (fun b => clock_now s < b.(b_expire)) (bodies s es).
Proof using.
  intros H Hh. pose proof (ti_sorted _ _ _ H) as Hs. destruct es as [|e es]; [constructor|]. unfold bodies in *. cbn in *.
  apply StronglySorted_inv in Hs as [_ Hs]. constructor; [done|]. eapply Forall_impl; [exact Hs|].
  unfold earlier. intros b Hb. lia.
Qed.

Lemma fired_none n d up s D es :
  tinv s D es -> 0 <= d < 2 ^ 64 -> match es with [] => True | e :: _ => clock_now s < (body_of s e).(b_expire) end ->
  fired n [] [] D es es s (take_state d up s).
Proof using Type*.
  intros H Hd Hh. constructor; try done.
  - eapply ti_same; [exact H|done..].
  - by apply take_frame.
  - cbn [app]. rewrite app_nil_r. done.
  - cbn. apply (tc_take _ _ _ Hcall).
  - cbn. lia.
  - right. by apply (none_due s D).
Qed.

Lemma wp_rounds n : forall Q s D es,
  tinv s D es -> s.(timer_enabled) <> 0 -> clock_ok s -> tick_ok s ->
  (forall s' F N es', fired n F N D es es' s s' -> Q tt s') ->
  wp (timer_rounds call n) Q s.
Proof using Type*.
  induction n as [|n IH]; intros Q s D es H Hen Hc Ht HQ; cbn [timer_rounds].
  { apply wp_ret, (HQ s [] [] es). constructor; try done; [by rewrite app_nil_r|by left]. }
  apply wp_bind. apply (wp_take_due _ s D es); [done..| |].
  - intros d up Hd Hh. rewrite Z.eqb_refl. apply wp_ret. eapply HQ. by apply fired_none.
  - intros e es1 x d up Hd -> Hx Hdue. assert (He : e <> 0) by (eapply ti_nonzero; [exact H|set_solver]).
    rewrite (proj2 (Z.eqb_neq _ _) He). apply wp_bind. set (s1 := taken_state e x.(ev_next) x d up s).
    pose proof (taken_inv s D e es1 x d up H Hx) as H1. fold s1 in H1.
    assert (F1 : run_frame s s1) by (destruct (take_frame s d up Hd); by constructor).
    assert (Hnd := ti_nodup _ _ _ H1). cbn in Hnd. apply NoDup_cons in Hnd as [Hed _].
    eapply (wp_fire _ _ s1 D es1 (set_ev_next 0 x)); [done|by eapply frame_clock|by apply (rf_tick _ _ F1)|apply lookup_insert_eq|].
    intros s2 es2 N2 H2 F2 D2 P2 S2. assert (F12 : run_frame s s2) by (by eapply run_frame_trans).
    apply (IH _ s2 D es2); [done|by rewrite (rf_enabled _ _ F12)|by eapply frame_clock|by apply (rf_tick _ _ F12)|].
    intros s3 F N3 es3 H3. apply (HQ s3 (ev_body x :: F) (N2 ++ N3) es3). destruct H3 as [I1 I2 I3 I4 I5 I6 I7 I8].
    assert (Hb1 : bodies s1 es1 = bodies s es1) by (apply bodies_ext; intros k Hk; cbn; apply lookup_insert_ne; intros ->; set_solver).
    assert (Hbx : body_of s e = ev_body x) by (unfold body_of; by rewrite Hx).
    assert (S1 : seen s1 = seen s) by (unfold s1, taken_state;
      by rewrite (tc_events _ _ _ Hcall), (tc_head _ _ _ Hcall), (tc_take _ _ _ Hcall)).
    constructor; [done|by eapply run_frame_trans| | | |cbn; lia| |].
    + intros k Hk. rewrite I3, D2 by done. cbn. apply lookup_insert_ne. intros ->. set_solver.
    + unfold bodies at 2. cbn. rewrite Hbx, I4, P2, Hb1, <- app_assoc. done.
    + cbn. rewrite I5, S2, S1. done.
    + constructor; [|done]. etransitivity; [exact Hdue|]. apply frame_now; [by eapply run_frame_trans|done].
    + destruct I8 as [I8|I8]; [left; cbn; lia|right]. eapply Forall_impl; [exact I8|]. cbn. intros b Hb.
      pose proof (frame_now s s2 F12 Hc). lia.
Qed.

(** ** Rearming *)

(** The state after the deadline has been set: [p] pending, [n] clock reads. *)
Definition arm_state (p : Z) (n : nat) (bs : list body) (s : ksys) : ksys :=
  set_sie_timer true (program_state bs (set_pending p (set_rdtime_reads n s))).

Definition head_due (s : ksys) (es : list Z) : bool :=
  match es with [] => false | e :: _ => (body_of s e).(b_expire) <=? clock_now s end.

Lemma wp_rearm Q s D es :
  tinv s D es -> s.(timer_enabled) <> 0 ->
  Q tt (arm_state (if head_due s es then Z.lor s.(pending) 1 else s.(pending))
          (match es with [] => s.(rdtime_reads) | _ => S s.(rdtime_reads) end) (bodies s es) s) ->
  wp timer_rearm Q s.
Proof using Type*.
  intros H Hen HQ. unfold timer_rearm. apply wp_bind, wp_k_irq_save, wp_bind, wp_gets.
  change (timer_enabled (set_k_irq false s)) with (timer_enabled s). rewrite (proj2 (Z.eqb_neq _ _) Hen). cbn [negb when].
  apply wp_bind, wp_bind, wp_gets. change (timer_head (set_k_irq false s)) with (timer_head s).
  set (p := if head_due s es then _ else _) in HQ. set (n := match es with [] => _ | _ => _ end) in HQ.
  apply wp_bind.
  assert (Hmid : wp (timer_reprogram_locked ;; modify (set_sie_timer true)) (fun a => wp (k_irq_restore (k_irq s)) Q)
    (set_pending p (set_rdtime_reads n (set_k_irq false s)))).
  { apply wp_bind. eapply (wp_reprogram _ _ D es); [eapply ti_same; [by apply (ti_irq s false)|done..]|].
    apply wp_modify, (wp_critical (arm_state p n (bodies s es)) s); [reflexivity..|done]. }
  pose proof (ti_chain _ _ _ H) as Hs. destruct es as [|e es].
  - cbn in Hs. rewrite Hs, Z.eqb_refl. apply wp_ret. destruct s. exact Hmid.
  - destruct Hs as (-> & He & _). rewrite (proj2 (Z.eqb_neq _ _) He).
    destruct (ti_event _ _ _ e H) as [x Hx]; [set_solver|]. apply wp_bind. eapply wp_event_get; [exact Hx|].
    apply wp_bind, wp_timer_read. subst p. unfold head_due in Hmid.
    assert (Eb : (body_of s e).(b_expire) = x.(ev_expire)) by (unfold body_of; by rewrite Hx). rewrite Eb in Hmid.
    change (u64 (rdtime (set_k_irq false s) (rdtime_reads (set_k_irq false s)))) with (clock_now s).
    apply wp_when; intros E; rewrite E in Hmid.
    + apply wp_raise; [done|]. exact Hmid.
    + destruct s. exact Hmid.
Qed.

(** ** The bottom half *)

(** The last value read from the clock. *)
Definition clock_last (s : ksys) : Z := u64 (s.(rdtime) (pred s.(rdtime_reads))).

Record timer_ran (F N : list body) (es es' : list Z) (s s' : ksys) : Prop := mkTimerRan {
  tr_inv : tinv s' [] es';
  tr_frame : run_frame s s';
  tr_perm : F ++ bodies s' es' ≡ₚ bodies s es ++ N;
  tr_seen : seen s' = foldl note_event (seen s) F;
  tr_budget : (length F <= TIMER_EVENT_BUDGET)%nat;
  tr_due : Forall (fun b => b.(b_expire) <= clock_now s') F;
  tr_all : length F = TIMER_EVENT_BUDGET \/ Forall (fun b => clock_now s < b.(b_expire)) (bodies s' es');
  tr_programmed : programmed s' (bodies s' es');
  tr_source : s'.(sie_timer) = true;
  tr_again : match bodies s' es' with b :: _ => b.(b_expire) <= clock_last s' -> Z.testbit s'.(pending) 0 = true | [] => True end;
}.

Lemma arm_frame p n bs s : (s.(rdtime_reads) <= n)%nat -> run_frame s (arm_state p n bs s).
Proof using. intros Hn. by constructor. Qed.

Lemma ran_of_fired F N es es' s s1 s2 :
  run_frame s s1 -> clock_ok s -> bodies s1 es = bodies s es -> seen s1 = seen s ->
  fired TIMER_EVENT_BUDGET F N [] es es' s1 s2 ->
  timer_ran F N es es' s
    (arm_state (if head_due s2 es' then Z.lor s2.(pending) 1 else s2.(pending))
       (match es' with [] => s2.(rdtime_reads) | _ => S s2.(rdtime_reads) end) (bodies s2 es') s2).
Proof using Type*.
  intros F1 Hc Hb Hs [I1 I2 I3 I4 I5 I6 I7 I8]. set (s3 := arm_state _ _ _ _).
  assert (F3 : run_frame s2 s3) by (apply arm_frame; destruct es'; lia).
  assert (Hc1 : clock_ok s1) by (by eapply frame_clock). assert (Hc2 : clock_ok s2) by (by eapply frame_clock).
  constructor.
  - eapply ti_same; [exact I1|done..].
  - eapply run_frame_trans; [|exact F3]. by eapply run_frame_trans.
  - by rewrite <- Hb.
  - rewrite <- Hs, <- I5. apply (tc_arm _ _ _ Hcall).
  - done.
  - eapply Forall_impl; [exact I7|]. cbn beta. intros b Hbb. pose proof (frame_now s2 s3 F3 Hc2). lia.
  - destruct I8 as [I8|I8]; [by left|right]. eapply Forall_impl; [exact I8|]. cbn beta. intros b Hbb.
    pose proof (frame_now s s1 F1 Hc). lia.
  - apply program_state_ok.
  - done.
  - unfold s3. destruct es' as [|e es']; [done|]. cbn [bodies fmap list_fmap]. intros Hd.
    change (pending (arm_state _ _ _ s2)) with (if head_due s2 (e :: es') then Z.lor s2.(pending) 1 else s2.(pending)).
    replace (head_due s2 (e :: es')) with true; [by rewrite Z.lor_spec, orb_true_r|].
    symmetry. unfold head_due. apply Z.leb_le. exact Hd.
Qed.

Lemma wp_bottom_half Q s es :
  tinv s [] es -> s.(timer_enabled) <> 0 -> s.(timebase_frequency) <> 0 -> clock_ok s -> tick_ok s -> trace_ok s ->
  (forall s' F N es', timer_ran F N es es' s s' -> Q tt s') ->
  wp (timer_run_bottom_half call) Q s.
Proof using Type*.
  intros H Hen Hfr Hc Ht Htr HQ. unfold timer_run_bottom_half. apply wp_bind, wp_gets.
  rewrite (proj2 (Z.eqb_neq _ _) Hen). apply wp_bind. eapply wp_pending_count; [exact H|].
  apply wp_bind, wp_trace_record; [done|]. set (sr := recorded _ _ s).
  assert (Hk : trace_ok sr) by (by apply recorded_ok).
  apply wp_bind, wp_gets. change (timebase_frequency sr) with (timebase_frequency s). rewrite (proj2 (Z.eqb_neq _ _) Hfr).
  apply wp_bind, wp_modify. set (s1 := set_timer_irq_count _ sr).
  assert (F1 : run_frame s s1) by (constructor; try done; cbn; lia).
  apply wp_bind. apply (wp_rounds _ _ s1 [] es); [eapply ti_same; [exact H|done..]|done|done|done|].
  intros s2 F N es' Hf. eapply (wp_rearm _ s2 [] es').
  - apply (fd_inv _ _ _ _ _ _ _ _ Hf).
  - rewrite (rf_enabled _ _ (fd_frame _ _ _ _ _ _ _ _ Hf)). exact Hen.
  - eapply HQ. eapply ran_of_fired; [exact F1|done|done| |exact Hf].
    unfold s1. rewrite (tc_count _ _ _ Hcall). apply (tc_record _ _ _ Hcall).
Qed.

(** ** Shutdown *)

Definition note_cleanup (t : T) (b : body) : T := if b.(b_cleanup) =? 0 then t else note t (b.(b_cleanup), b.(b_arg)).

(** The detached events [L] are still to be dropped. *)
Definition stopping (s0 : ksys) (all L : list Z) (cur : Z) (s : ksys) : Prop :=
  exists A, all = A ++ L /\ tinv s L [] /\ run_frame s0 s /\ sll 0 (ev_link s) cur L /\
    (forall d, d ∈ L -> s.(timer_events) !! d = s0.(timer_events) !! d) /\
    seen s = foldl note_cleanup (seen s0) (bodies s0 A).

Lemma stop_step s0 all e L cur Q s :
  s0.(timer_enabled) = 0 -> clock_ok s0 -> tick_ok s0 -> stopping s0 all (e :: L) cur s ->
  (forall n s', stopping s0 all L n s' -> Q (inl n) s') ->
  wp (if cur =? 0 then mret (inr tt)
      else
        x ← event_get cur;
        when (negb (x.(ev_cleanup) =? 0)) (call x.(ev_cleanup) x.(ev_arg)) ;;
        event_free cur ;;
        mret (inl x.(ev_next))) Q s.
Proof using Type*.
  intros Hen Hc Ht (A & Hall & H & HF & Hs & Hk & Hseen) HQ. destruct Hs as (-> & He & n & Hn & Hs).
  rewrite (proj2 (Z.eqb_neq _ _) He). destruct (ti_event _ _ _ e H) as [x Hx]; [set_solver|].
  unfold ev_link in Hn. rewrite Hx in Hn. injection Hn as <-.
  pose proof (ti_nodup _ _ _ H) as Hnd. rewrite app_nil_r in Hnd. apply NoDup_cons in Hnd as [Hel _].
  assert (Hb : body_of s0 e = ev_body x) by (unfold body_of; rewrite <- Hk by set_solver; by rewrite Hx).
  apply wp_bind. eapply wp_event_get; [exact Hx|]. apply wp_bind.
  assert (Hfree : forall s2, tinv s2 (e :: L) [] -> run_frame s s2 ->
    (forall d, d ∈ e :: L -> s2.(timer_events) !! d = s.(timer_events) !! d) ->
    seen s2 = note_cleanup (seen s) (ev_body x) -> wp (event_free e ;; mret (inl x.(ev_next))) Q s2).
  { intros s2 H2 F2 D2 S2. apply wp_bind. eapply wp_event_free; [exact H2|]. intros h Hi Hirq Ho. apply wp_ret, HQ.
    assert (Hd : forall d, d ∈ L -> delete e s2.(timer_events) !! d = s.(timer_events) !! d).
    { intros d Hd. rewrite lookup_delete_ne by (intros ->; done). apply D2. set_solver. }
    exists (A ++ [e]). split_and!.
    - by rewrite <- app_assoc.
    - exact Hi.
    - eapply run_frame_trans; [exact HF|]. eapply run_frame_trans; [exact F2|]. by constructor.
    - eapply sll_ext; [|exact Hs]. intros i Hi'. unfold ev_link. cbn. by rewrite Hd.
    - intros d Hdd. cbn. rewrite Hd by done. apply Hk. set_solver.
    - rewrite (tc_heap _ _ _ Hcall), (tc_events _ _ _ Hcall), S2, Hseen. unfold bodies. rewrite fmap_app, foldl_app. cbn.
      by rewrite Hb. }
  unfold note_cleanup in Hfree at 1. cbn [ev_body b_cleanup b_arg] in Hfree.
  destruct (Z.eqb_spec x.(ev_cleanup) 0) as [E0|E0]; cbn [negb when].
  - apply wp_ret, Hfree; [done|apply run_frame_refl|done|done].
  - eapply wp_mono; [apply (tc_call _ _ _ Hcall _ _ s (e :: L) []); [done|by eapply frame_clock|by apply (rf_tick _ _ HF)]|].
    intros [] s2 (es2 & N2 & H2 & F2 & D2 & P2 & E2 & S2). rewrite E2 in P2 by (by rewrite (rf_enabled _ _ HF)).
    assert (es2 = []) as ->. { cbn in P2. apply Permutation_nil_r in P2. unfold bodies in P2. by apply fmap_nil_inv in P2. }
    by apply Hfree.
Qed.

Lemma stop_inv p s es : tinv s [] es -> tinv (stop_state p s) es [].
Proof using.
  intros [H1 H2 H3 H4 H5 H6 H7]. cbn [app] in *. constructor; rewrite ?app_nil_r; try done. constructor.
Qed.

Lemma wp_timer_stop Q s es :
  tinv s [] es -> clock_ok s ->
  (forall s', tinv s' [] [] -> run_frame (stop_state (Z.land s.(pending) (not32 1)) s) s' ->
     seen s' = foldl note_cleanup (seen s) (bodies s es) ->
     wp (say [LStr "[timer] stopped\n"]) Q s') ->
  wp (timer_stop call) Q s.
Proof using Type*.
  intros H Hc HQ. unfold timer_stop. set (p := Z.land s.(pending) (not32 1)) in *.
  apply wp_bind, wp_k_irq_save, wp_bind, wp_modify, wp_bind, wp_modify, wp_bind, wp_clear; [done|].
  apply wp_bind, wp_gets, wp_bind, wp_modify, wp_bind, wp_modify, wp_bind, wp_modify, wp_bind, wp_modify.
  apply wp_bind, wp_modify, wp_bind, (wp_critical (stop_state p) s); [reflexivity..|].
  pose proof (stop_inv p s es H) as H1. set (s1 := stop_state p s) in *.
  apply wp_bind, wp_gets, wp_bind. apply (wp_loop_list (stopping s1 es)) with (L := es).
  - intros cur s' (A & HA & Hi & HF & Hs & _ & Hseen). cbn in Hs. subst cur. rewrite Z.eqb_refl. apply wp_ret.
    rewrite app_nil_r in HA. subst A. apply HQ; [done|done|]. rewrite Hseen. unfold s1 at 1. by rewrite (tc_stop _ _ _ Hcall).
  - intros e L cur s' Hst. apply (stop_step s1 es e L); [reflexivity|exact Hc|done|exact Hst|done].
  - exists []. split_and!; [done|done|apply run_frame_refl| |done|done].
    exact (ti_chain _ _ _ H).
  - pose proof (ti_size _ _ _ H) as Hl. change (timer_events s1) with (timer_events s). cbn in Hl. lia.
Qed.

End firing.

End timer_run.
