(* ===== verification/Interrupts.v ===== *)
(** * Trace, deferred callbacks and timers: the theorems

    What the interrupt side of the kernel promises, with a small system on
    which every statement is run. *)

From Stdlib Require Import Sorted.
From S2P Require Import Prelude Lists Memory Slab Task Ring Str Cpio HeapIface SlabInv SlabHeap HeapLink ByteAllocator SchedView Irq Trace Work Timer TimerOps TimerRun.

Open Scope Z_scope.

(** ** A small system *)

Definition blank_event : trace_event := mkTraceEvent 0 0 0.
Definition blank_pool : gmap Z custom_work := list_to_map ((fun w => (w, mkWork 0 0 0 0)) <$> seqZ 1 32).

(** Empty rings, an idle line on which nothing arrives. *)
Definition blank_ring : ringbuf := mkRingbuf (replicate 128 0) 0 0 0.
Definition demo_uart : uart :=
  mkUart (mkRingmem {[ 1 := blank_ring; 2 := blank_ring ]} {[ 3 := 0 ]}) 0x10000000 10 1 0 0 0 0 0 0 1024 1024
    [] [] true 0x55 8 (fun _ => mkLine [] true 0) 0 true.

(** After boot: 10 MHz clock, timer running with a 20 Hz tick, nothing queued. *)
Definition demo_ksys : ksys :=
  mkKsys demo_cold (replicate 128 blank_event) 0 0 0 blank_pool 0 0 10000000 0 500000 0 0 ∅ 0 1 500000 500000 true 500000
    (fun n => Z.min (100 * Z.of_nat n) (2 ^ 40)) 0 demo_uart (mkPlic 0x0c000000 ∅ [] []) (mkCmem ∅ ∅ ∅) 0 0 0 (-1).

(** ** The trace *)

(** After [trace_reset] and any number of calls of [trace_record], the trace
    holds exactly the last 128 events with their times, oldest first.
    [trace_seen_since] answers whether one of those has the kind and is not
    older than the given time, without changing anything, and [trace_dump]
    prints those events in that order and changes nothing but the console. *)
Theorem trace_refines s evs :
  trace_ok s ->
  wp (trace_reset ;; trace_all evs)
    (fun _ s' =>
       trace_ok s' /\ trace_view s' = keep_last 128 (stamped s.(rdtime) s.(rdtime_reads) evs) /\
       (forall kind since, trace_seen_since kind since s' = Some (Z.b2z (seen (kind_code kind) since (trace_view s')), s')) /\
       trace_dump s' = Some (tt, set_k_console (k_console s' ++ dump_items s') s')) s.
Proof.
  intros Hok. apply wp_bind, wp_trace_reset; [done|]. intros s1 Hok1 Hv1 E1 E2 _.
  apply (wp_trace_all evs []); [done|done|]. rewrite E1, E2. intros s' Hok' Hv'. split_and!; [done|done| |].
  - intros kind since.
    destruct (wp_run _ _ _ (wp_trace_seen kind since (fun v t => v = Z.b2z (seen (kind_code kind) since (trace_view s')) /\ t = s')
      s' Hok' (conj eq_refl eq_refl))) as (v & t & -> & -> & ->). done.
  - destruct (wp_run _ _ _ (wp_trace_dump (fun _ t => t = set_k_console (k_console s' ++ dump_items s') s') s' Hok' eq_refl))
      as ([] & t & -> & ->). done.
Qed.

Lemma demo_trace_ok : trace_ok demo_ksys.
Proof. unfold trace_ok, TRACE_CAPACITY. split; [done|]. cbn. lia. Qed.

Lemma trace_refines_witness :
  wp (trace_reset ;; trace_all [(TRACE_TIMER_TOP, 0); (TRACE_RUN_TIMER, 7)])
    (fun _ s' => trace_view s' = [mkTraceEvent 0 0 0; mkTraceEvent 100 7 6]) demo_ksys.
Proof.
  eapply wp_mono; [apply (trace_refines demo_ksys)|].
  - exact demo_trace_ok.
  - intros [] s' (_ & Hv & _). rewrite Hv. reflexivity.
Defined.

(** ** Deferred callbacks *)

(** Deferred callbacks form a first-in first-out queue of at most 32.
    [defer_callback] accepts a callback exactly when it is not null and fewer
    than 32 elements are in use, appends it and notifies the bottom half;
    otherwise it returns -1 and changes nothing.  [run_custom_callbacks] calls
    every callback that was queued exactly once, in order of submission, and
    frees its element; what the callbacks submit meanwhile stays queued for the
    next run. *)
Theorem custom_work_fifo {T} call (seen : ksys -> T) note s L callback arg :
  callbacks_ok call seen note -> works s [] L ->
  wp (defer_callback callback arg)
    (fun v s' => exists L', works s' [] L' /\ k_irq s' = k_irq s /\
       ((v = 0 /\ callback <> 0 /\ (length L < 32)%nat /\ work_items s' L' = work_items s L ++ [(callback, arg)] /\
         Z.testbit s'.(pending) (bh_code BH_CUSTOM) = true) \/
        (v = -1 /\ (callback = 0 \/ length L = 32%nat) /\ s' = s))) s /\
  wp (run_custom_callbacks call)
    (fun _ s' => exists L', works s' [] L' /\ seen s' = foldl note (seen s) (work_items s L)) s.
Proof.
  intros Hcall H. split.
  - destruct (decide (callback = 0)) as [->|Hc].
    { apply wp_ret. exists L. split_and!; [done|done|]. right. auto. }
    apply (wp_defer_callback callback arg _ s [] L H Hc).
    + intros Hl. exists L. split_and!; [done|done|]. right. auto.
    + intros w x Hl Hx Hw. exists (L ++ [w]). split_and!; [by eapply submit_works|done|]. left.
      split_and!; [done|done|done|by eapply submit_items|].
      change (pending (submit_state w callback arg s)) with (Z.lor s.(pending) 8). by rewrite Z.lor_spec, orb_true_r.
  - apply (wp_run_callbacks call seen note Hcall s L); [done|]. intros s' L' Hw Hs. by exists L'.
Qed.

Lemma blank_pool_lookup w x : blank_pool !! w = Some x -> x = mkWork 0 0 0 0.
Proof.
  intros E. apply elem_of_list_to_map_2 in E. apply list_elem_of_fmap in E as (y & E & _). by injection E as -> ->.
Qed.

Lemma demo_works : works demo_ksys [] [].
Proof.
  constructor.
  - intros w. change (pool demo_ksys) with blank_pool. unfold blank_pool. rewrite <- not_eq_None_Some, <- not_elem_of_list_to_map.
    rewrite <- list_fmap_compose. cbn [compose]. rewrite list_fmap_id, elem_of_seqZ. split; [intros Hn|intros ? Hn; lia].
    apply dec_stable in Hn. lia.
  - intros w x E. apply blank_pool_lookup in E as ->. cbn. split; [by intros _ ?%elem_of_nil|done].
  - constructor.
  - intros w Hw. by apply elem_of_nil in Hw.
  - done.
  - done.
Qed.

(** The callback at 9 submits the callback at 8. *)
Definition demo_prog (f a : Z) : list (Z * Z) := if f =? 9 then [(8, a + 1)] else [].

Lemma custom_work_fifo_witness :
  wp (defer_callback 9 5) (fun v _ => v = 0) demo_ksys /\
  wp (run_custom_callbacks (program_call demo_prog)) (fun _ s' => k_console s' = k_console demo_ksys) demo_ksys.
Proof.
  destruct (custom_work_fifo (program_call demo_prog) k_console note_call demo_ksys [] 9 5 (program_callbacks demo_prog) demo_works)
    as [H1 H2]. split.
  - eapply wp_mono; [exact H1|]. intros v s' (L' & _ & _ & Ho). destruct Ho as [[Hv _]|(_ & Hc & _)]; [exact Hv|].
    destruct Hc as [Hc|Hc]; discriminate Hc.
  - eapply wp_mono; [exact H2|]. intros [] s' (L' & _ & E). exact E.
Defined.

(** Running the model itself: 9 runs, then 8, which 9 submitted, in the next run. *)
Example demo_work_runs :
  (fun o => match o with Some (_, s) => Some (drop (length (k_console demo_ksys)) (k_console s)) | None => None end)
    ((defer_callback 9 5 ;; defer_callback 7 1 ;; run_custom_callbacks (program_call demo_prog) ;;
      run_custom_callbacks (program_call demo_prog)) demo_ksys) =
  Some [LDec 9; LDec 5; LDec 7; LDec 1; LDec 8; LDec 6].
Proof. by vm_compute. Qed.

(** ** Timers *)

Section timer_claims.
Context {hok : slabs -> Prop} {owned : slabs -> Z -> Z -> Prop} {static : slabs -> Z -> Prop}.
Context `{HL : !HeapLaws hok owned static}.
Local Abbreviation tinv := (timer_inv (hok := hok) (owned := owned)).

(** Adding a timer.  [add_timer_with_cleanup] returns in every state of the
    queue.  On success the event is queued at its absolute expiry, behind those
    that expire at the same time, so that the queue stays sorted; the expiry has
    not wrapped; the hardware is set to the earliest of the queue and the
    scheduler's tick; and the event is the only new object of the heap.  On
    failure the queue is as before and nothing has been leaked.  It fails for a
    null callback, a timer that is not running and an expiry beyond 64 bits. *)
Theorem add_timer_correct callback arg duration cleanup s es :
  tinv s [] es -> 0 <= duration < 2 ^ 64 ->
  wp (add_timer_with_cleanup callback arg duration cleanup)
    (fun v s' => exists es', tinv s' [] es' /\ add_frame s s' /\
       ((v = -1 /\ bodies s' es' = bodies s es /\ heap_same s.(k_sched).(heap) s'.(k_sched).(heap) (owned := owned)) \/
        (v = 0 /\ callback <> 0 /\ s.(timer_enabled) <> 0 /\ clock_now s + duration < 2 ^ 64 /\
         bodies s' es' = insert_body (mkBody (clock_now s + duration) callback cleanup arg) (bodies s es) /\
         programmed s' (bodies s' es') /\
         exists a, heap_adds s.(k_sched).(heap) s'.(k_sched).(heap) a (owned := owned)))) s.
Proof using Type*.
  intros H Hd. apply (wp_add_timer _ _ _ _ _ s [] es H Hd).
  - intros s' H' E F Hs. exists es. split_and!; [done|done|]. left. split_and!; [done| |done].
    apply bodies_ext. intros e _. by rewrite E.
  - intros s' es' a Hc Hf He Hn H' Hb Hp _ F Ha. exists es'. split_and!; [done|done|]. right. split_and!; try done. by exists a.
Qed.

(** C22: Firing timers.  The bottom half returns and has then run a list [F] of
    events, each exactly once and each with its callback before its cleanup; all
    of [F] were due, it has at most 16 elements, and [F] with the queue left is
    the old queue with the events that callbacks added.  Unless the budget was
    used up, nothing that was due at the start is left.  The hardware is set to
    the next deadline, the timer interrupt is enabled again, and when the first
    event left is due the bottom half has been raised again. *)
Theorem timer_bottom_half_correct {T} call (seen : ksys -> T) note s es :
  timer_callbacks call seen note (hok := hok) (owned := owned) -> tinv s [] es ->
  s.(timer_enabled) <> 0 -> s.(timebase_frequency) <> 0 -> clock_ok s -> tick_ok s -> trace_ok s ->
  wp (timer_run_bottom_half call)
    (fun _ s' => exists F N es', timer_ran seen note F N es es' s s' (hok := hok) (owned := owned)) s.
Proof using Type*.
  intros Hc H He Hf Hk Ht Htr. apply (wp_bottom_half call seen note Hc _ s es H He Hf Hk Ht Htr). eauto.
Qed.

(** Stopping the timer.  [timer_stop] returns with no event left: the cleanup
    function of every event that was pending has been called exactly once, in
    queue order, no callback has been called, every event has been freed, the
    timer is off and its interrupt masked. *)
Theorem timer_stop_correct {T} call (seen : ksys -> T) note s es :
  timer_callbacks call seen note (hok := hok) (owned := owned) -> (forall items t, seen (set_k_console items t) = seen t) ->
  tinv s [] es -> clock_ok s ->
  wp (timer_stop call)
    (fun _ s' => seen s' = foldl (note_cleanup note) (seen s) (bodies s es) /\ s'.(timer_events) = ∅ /\ s'.(timer_head) = 0 /\
       s'.(timer_enabled) = 0 /\ s'.(sched_tick_interval) = 0 /\ k_irq s' = k_irq s) s.
Proof using Type*.
  intros Hc Hcons H Hk. apply (wp_timer_stop call seen note Hc _ s es H Hk). intros s' Hi HF Hs. apply wp_say.
  change (seen (set_k_console (k_console s' ++ [LStr "[timer] stopped\n"]) s') = foldl (note_cleanup note) (seen s) (bodies s es) /\
    s'.(timer_events) = ∅ /\ s'.(timer_head) = 0 /\ s'.(timer_enabled) = 0 /\ s'.(sched_tick_interval) = 0 /\ k_irq s' = k_irq s).
  rewrite Hcons. split_and!.
  - exact Hs.
  - apply map_empty. intros e. apply eq_None_not_Some. intros Hsome. apply (ti_dom _ _ _ Hi) in Hsome. by apply elem_of_nil in Hsome.
  - exact (ti_chain _ _ _ Hi).
  - exact (rf_enabled _ _ HF).
  - exact (rf_interval _ _ HF).
  - exact (rf_irq _ _ HF).
Qed.

End timer_claims.

(** *** Callbacks that count themselves and add timers

    The callback at [f] with argument [a] leaves [1000 * x + a] where it found
    [x], and adds the timers of its program. *)

Definition marks (s : ksys) : Z := s.(k_sched).(need_resched).
Definition mark (t : Z) (c : Z * Z) : Z := 1000 * t + c.2.

Definition timer_program (prog : Z -> Z -> option (Z * Z * Z * Z)) (f a : Z) : M ksys unit :=
  modify (fun s => set_k_sched (set_need_resched (mark s.(k_sched).(need_resched) (f, a)) s.(k_sched)) s) ;;
  match prog f a with
  | Some (callback, arg, duration, cleanup) => _ ← add_timer_with_cleanup callback arg duration cleanup; mret tt
  | None => mret tt
  end.

Lemma add_run_frame s s' : add_frame s s' -> run_frame s s'.
Proof.
  intros [A1 A2 A3 A4 A5 A6 A7 A8 A9]. injection A6 as E1 E2 E3. injection A7 as E4 E5 E6. injection A3 as E7 E8 E9.
  constructor; try done; unfold tick_ok, trace_ok; by rewrite ?E4, ?E5, ?E7, ?E8, ?E9.
Qed.

Lemma timer_program_ok {hok owned static} `{HL : !HeapLaws hok owned static} prog :
  (forall f a cb arg d cl, prog f a = Some (cb, arg, d, cl) -> 0 <= d < 2 ^ 64) ->
  timer_callbacks (timer_program prog) marks mark (hok := hok) (owned := owned).
Proof.
  intros Hp. constructor; try done. intros f a s D es H Hc Ht. unfold timer_program. apply wp_bind, wp_modify.
  set (s1 := set_k_sched _ s). assert (H1 : timer_inv s1 D es (hok := hok) (owned := owned)) by (eapply ti_same; [exact H|done..]).
  assert (F1 : run_frame s s1) by (by constructor). assert (M1 : marks s1 = mark (marks s) (f, a)) by done.
  assert (Hquiet : exists es' N, timer_inv s1 D es' (hok := hok) (owned := owned) /\ run_frame s s1 /\
    (forall d, d ∈ D -> s1.(timer_events) !! d = s.(timer_events) !! d) /\ bodies s1 es' ≡ₚ bodies s es ++ N /\
    (s.(timer_enabled) = 0 -> N = []) /\ marks s1 = mark (marks s) (f, a)).
  { exists es, []. rewrite app_nil_r. done. }
  destruct (prog f a) as [[[[cb arg] d] cl]|] eqn:Ep; [|by apply wp_ret].
  apply wp_bind. apply (wp_add_timer cb arg d cl _ s1 D es H1 (Hp _ _ _ _ _ _ Ep)).
  - intros s' H' E F _. apply wp_ret. exists es, []. rewrite app_nil_r. split_and!; try done.
    + eapply run_frame_trans; [exact F1|by apply add_run_frame].
    + intros k Hk. by rewrite E.
    + rewrite (bodies_ext s); [done|]. intros e _. by rewrite E.
    + rewrite <- M1. unfold marks. rewrite (af_sched _ _ F). done.
  - intros s' es' z Hcb Hf He Hn H' Hb _ HD F _. apply wp_ret.
    exists es', [mkBody (clock_now s1 + d) cb cl arg]. split_and!; try done.
    + eapply run_frame_trans; [exact F1|by apply add_run_frame].
    + rewrite Hb, insert_body_perm. change (bodies s1 es) with (bodies s es). by rewrite Permutation_app_comm.
    + rewrite <- M1. unfold marks. rewrite (af_sched _ _ F). done.
Qed.

(** *** The small system *)

Lemma demo_tinv : timer_inv demo_ksys [] [] (hok := slab_ok) (owned := allocated).
Proof.
  constructor; try done.
  - constructor.
  - intros e. change (timer_events demo_ksys) with (∅ : gmap Z timer_event). rewrite lookup_empty. split; [by intros [? ?]|].
    intros He. by apply elem_of_nil in He.
  - constructor.
  - exact demo_heap_ok.
  - intros e He. by apply elem_of_nil in He.
Qed.

Lemma demo_clock : clock_ok demo_ksys.
Proof. split; cbn; intros; lia. Qed.

(** One timer: callback 21 with argument 1 and cleanup 22, due at once. *)
Definition demo_timer : ksys := default demo_ksys (snd <$> add_timer_with_cleanup 21 1 0 22 demo_ksys).

Lemma demo_timer_run : add_timer_with_cleanup 21 1 0 22 demo_ksys = Some (0, demo_timer).
Proof.
  unfold demo_timer. destruct (add_timer_with_cleanup 21 1 0 22 demo_ksys) as [[v s]|] eqn:E.
  - cbn. do 2 f_equal. assert (Hv : fst <$> add_timer_with_cleanup 21 1 0 22 demo_ksys = Some 0) by (by vm_compute).
    rewrite E in Hv. by injection Hv.
  - exfalso. assert (Hv : is_Some (fst <$> add_timer_with_cleanup 21 1 0 22 demo_ksys)) by (vm_compute; eauto).
    rewrite E in Hv. by destruct Hv.
Qed.

Lemma demo_timer_inv :
  exists es, timer_inv demo_timer [] es (hok := slab_ok) (owned := allocated) /\ bodies demo_timer es = [mkBody 0 21 22 1] /\
    run_frame demo_ksys demo_timer.
Proof.
  refine (run_wp _ (fun v s' => v = 0 -> exists es, timer_inv s' [] es (hok := slab_ok) (owned := allocated) /\
    bodies s' es = [mkBody 0 21 22 1] /\ run_frame demo_ksys s') demo_ksys 0 demo_timer _ demo_timer_run eq_refl).
  apply (wp_add_timer 21 1 0 22 _ demo_ksys [] [] demo_tinv (static := in_reserved_page)); [lia|by intros|].
  intros s' es' a _ _ _ _ H' Hb _ _ F _ _. exists es'. split_and!; [done|rewrite Hb; by vm_compute|by apply add_run_frame].
Qed.

Lemma add_timer_correct_witness :
  wp (add_timer_with_cleanup 21 1 5000 0) (fun v s' => v = 0 -> exists es', bodies s' es' = [mkBody 5000 21 0 1]) demo_ksys.
Proof.
  eapply wp_mono; [apply (add_timer_correct 21 1 5000 0 demo_ksys [] demo_tinv (static := in_reserved_page)); lia|].
  intros v s' (es' & _ & _ & Hor) Hv. exists es'. destruct Hor as [(Hv' & _)|(_ & _ & _ & _ & Hb & _)]; [lia|].
  rewrite Hb. by vm_compute.
Defined.

(** The callback at 21 adds a timer of its own. *)
Definition demo_timer_prog (f a : Z) : option (Z * Z * Z * Z) := if f =? 21 then Some (23, 2, 0, 0) else None.

Lemma demo_timer_prog_ok : timer_callbacks (timer_program demo_timer_prog) marks mark (hok := slab_ok) (owned := allocated).
Proof. eapply timer_program_ok. unfold demo_timer_prog. intros f a cb arg d cl E. case_match; [|done]. injection E as <- <- <- <-. lia. Qed.

Lemma timer_bottom_half_correct_witness :
  exists es, bodies demo_timer es = [mkBody 0 21 22 1] /\
    wp (timer_run_bottom_half (timer_program demo_timer_prog))
      (fun _ s' => exists F N es', F ++ bodies s' es' ≡ₚ mkBody 0 21 22 1 :: N /\ programmed s' (bodies s' es')) demo_timer.
Proof.
  destruct demo_timer_inv as (es & H & Hb & F). exists es. split; [exact Hb|].
  eapply wp_mono; [apply (timer_bottom_half_correct (timer_program demo_timer_prog) marks mark demo_timer es demo_timer_prog_ok H (static := in_reserved_page))|].
  - rewrite (rf_enabled _ _ F). discriminate.
  - rewrite (rf_freq _ _ F). discriminate.
  - exact (frame_clock _ _ F demo_clock).
  - apply (rf_tick _ _ F). split; cbn; lia.
  - apply (rf_trace _ _ F). exact demo_trace_ok.
  - intros [] s' (G & N & es' & R). exists G, N, es'. split; [|exact (tr_programmed _ _ _ _ _ _ _ _ R)].
    pose proof (tr_perm _ _ _ _ _ _ _ _ R) as P. rewrite Hb in P. exact P.
Defined.

Lemma timer_stop_correct_witness :
  wp (timer_stop (timer_program demo_timer_prog)) (fun _ s' => marks s' = mark (marks demo_timer) (22, 1) /\ s'.(timer_events) = ∅) demo_timer.
Proof.
  destruct demo_timer_inv as (es & H & Hb & F).
  eapply wp_mono; [apply (timer_stop_correct (timer_program demo_timer_prog) marks mark demo_timer es demo_timer_prog_ok (static := in_reserved_page))|].
  - intros items t. reflexivity.
  - exact H.
  - exact (frame_clock _ _ F demo_clock).
  - intros [] s' (Hs & He & _). split; [|exact He]. rewrite Hs, Hb. reflexivity.
Defined.

(** Running the model: 21 runs, its cleanup 22, then the timer 21 added. *)
Example demo_timer_runs :
  (fun o => match o with Some (_, s) => Some (marks s) | None => None end)
    (timer_run_bottom_half (timer_program demo_timer_prog) demo_timer) = Some 1001002.
Proof. by vm_compute. Qed.
