(* ===== verification/Uart.v ===== *)
(** * The serial port ([uart.c]) and the interrupt controller ([plic.c])

    The device is part of the state: the bytes it has received and not yet
    handed over, the bytes it has been given to send, whether its transmitter
    can take one, its interrupt enable and modem control registers.  What
    happens on the line between two looks at the status register comes from
    [hw_env].  A byte written to a transmitter that is not ready would be lost:
    the model leaves that write undefined, so that a statement about a run says
    that it does not happen. *)

From S2P Require Import Prelude Lists Memory Slab Task Sched Wait Ring Str Cpio Irq Trace Work.

Open Scope Z_scope.

(** ** Registers *)

(** [UART_THR_REG] and [UART_RBR_REG], and [UART_IIR_REG] and [UART_FCR_REG], are
    the same address, read and written. *)
Inductive uart_reg := UART_THR_REG | UART_RBR_REG | UART_IER_REG | UART_IIR_REG | UART_FCR_REG | UART_MCR_REG | UART_LSR_REG | UART_MSR_REG.

Definition LSR_RX_READY : Z := 0x01.
Definition LSR_TX_IDLE : Z := 0x20.
Definition UART_IER_RX_ENABLE : Z := 0x01.
Definition UART_IER_TX_ENABLE : Z := 0x02.
Definition UART_IER_LINE_ENABLE : Z := 0x04.
Definition UART_IER_RTO_ENABLE : Z := 0x10.
Definition UART_IER_UUE : Z := 0x40.
Definition UART_MCR_OUT2 : Z := 0x08.
Definition UART_DEFERRED_WORK_BUDGET : Z := 16.

(** Addresses of the static rings and of the local variable [c]. *)
Definition uart_rx_buf : Z := 1.
Definition uart_tx_buf : Z := 2.
Definition addr_c : Z := 3.

Definition dev {A} (f : uart -> A) : M ksys A := gets (fun s => f s.(k_uart)).
Definition dev_upd (f : uart -> uart) : M ksys unit := modify (fun s => set_k_uart (f s.(k_uart)) s).

(** A look at the line: what has happened since the last one. *)
Definition line_look (u : uart) : uart :=
  let e := u.(hw_env) u.(hw_reads) in
  set_hw_reads (S u.(hw_reads)) (set_hw_idle (u.(hw_idle) || e.(le_idle)) (set_hw_fifo (u.(hw_fifo) ++ e.(le_arrived)) u)).

Definition line_status (other : Z) (u : uart) : Z :=
  Z.lor (Z.lor (if decide (u.(hw_fifo) = []) then 0 else LSR_RX_READY) (if u.(hw_idle) then LSR_TX_IDLE else 0))
    (Z.land other (Z.lnot (Z.lor LSR_RX_READY LSR_TX_IDLE))).

(** Register accesses are a byte wide on QEMU and 32 bits wide on the board. *)
Definition reg_width (v : Z) : M ksys Z :=
  q ← gets (fun s => s.(k_sched).(qemu));
  mret (if q : bool then u8 v else u32 v).

(** The values of the registers that are only read to acknowledge them, and of
    the receive register when nothing has been received, are not used. *)
Definition uart_reg_read (reg : uart_reg) : M ksys Z :=
  match reg with
  | UART_LSR_REG =>
      u ← dev id;
      dev_upd line_look ;;
      v ← dev (line_status (u.(hw_env) u.(hw_reads)).(le_other));
      reg_width v
  | UART_RBR_REG =>
      fifo ← dev hw_fifo;
      match fifo with
      | [] => mret 0
      | b :: rest => dev_upd (set_hw_fifo rest) ;; reg_width b
      end
  | UART_IER_REG => v ← dev hw_ier; reg_width v
  | UART_MCR_REG => v ← dev hw_mcr; reg_width v
  | UART_THR_REG | UART_IIR_REG | UART_FCR_REG | UART_MSR_REG => mret 0
  end.

Definition uart_reg_write (reg : uart_reg) (value : Z) : M ksys unit :=
  v ← reg_width value;
  match reg with
  | UART_THR_REG =>
      idle ← dev hw_idle;
      if idle : bool then dev_upd (fun u => set_hw_idle false (set_hw_sent (u.(hw_sent) ++ [v]) u)) else ub
  | UART_IER_REG => dev_upd (set_hw_ier v)
  | UART_MCR_REG => dev_upd (set_hw_mcr v)
  | UART_FCR_REG => when (Z.testbit v 1) (dev_upd (set_hw_fifo []))
  | _ => mret tt
  end.

Definition uart_ier_set_bits (bits : Z) : M ksys unit :=
  status ← k_irq_save;
  v ← uart_reg_read UART_IER_REG;
  uart_reg_write UART_IER_REG (Z.lor v bits) ;;
  k_irq_restore status.

Definition uart_ier_clear_bits (bits : Z) : M ksys unit :=
  status ← k_irq_save;
  v ← uart_reg_read UART_IER_REG;
  uart_reg_write UART_IER_REG (Z.land v (not32 bits)) ;;
  k_irq_restore status.

Definition RX_BITS : Z := Z.lor (Z.lor UART_IER_RX_ENABLE UART_IER_LINE_ENABLE) UART_IER_RTO_ENABLE.

Definition uart_rx_mask : M ksys unit := uart_ier_clear_bits RX_BITS.
Definition uart_rx_unmask : M ksys unit := uart_ier_set_bits RX_BITS.
Definition uart_tx_mask : M ksys unit := uart_ier_clear_bits UART_IER_TX_ENABLE.
Definition uart_tx_unmask : M ksys unit := uart_ier_set_bits UART_IER_TX_ENABLE.

(** ** The rings *)

Definition rx_push (c : Z) : M ksys Z := zoom (ringbuf_push uart_rx_buf c).
Definition tx_push (c : Z) : M ksys Z := zoom (ringbuf_push uart_tx_buf c).
Definition tx_empty : M ksys bool := zoom (ringbuf_is_empty uart_tx_buf).
Definition tx_count : M ksys Z := zoom (r ← ring_get uart_tx_buf; mret r.(rb_count)).

(** [ringbuf_pop(rb, &c)], with the value of [c] when it succeeded. *)
Definition ring_take (rb : Z) : M ksys (option Z) :=
  r ← zoom (ringbuf_pop rb addr_c);
  if negb (r =? 0) then mret None
  else c ← zoom (access (fun m : ringmem => m.(cells) !! addr_c)); mret (Some c).

Definition wake_one (which : uart -> Z) : M ksys unit :=
  q ← dev which;
  zoom (wait_queue_wake_one q).

Definition uart_tx_buf_is_empty : M ksys bool :=
  sstatus ← k_irq_save;
  ret ← tx_empty;
  k_irq_restore sstatus ;;
  mret ret.

Definition uart_tx_try_drain_one : M ksys bool :=
  status ← k_irq_save;
  lsr ← uart_reg_read UART_LSR_REG;
  if Z.land lsr LSR_TX_IDLE =? 0 then k_irq_restore status ;; mret false
  else
    oc ← ring_take uart_tx_buf;
    match oc with
    | None => k_irq_restore status ;; mret false
    | Some c =>
        uart_reg_write UART_THR_REG (u8 c) ;;
        wake_one uart_tx_wait ;;
        k_irq_restore status ;;
        mret true
    end.

(** One round of [uart_tx_wait_idle]: [true] when it returns. *)
Definition uart_tx_wait_idle_round : M ksys bool :=
  status ← k_irq_save;
  empty ← tx_empty;
  idle ← (if empty : bool then lsr ← uart_reg_read UART_LSR_REG; mret (negb (Z.land lsr LSR_TX_IDLE =? 0)) else mret false);
  if idle : bool then k_irq_restore status ;; mret true
  else
    _ ← uart_tx_try_drain_one;
    k_irq_restore status ;;
    mret false.

Definition uart_tx_wait_idle (fuel : nat) : M ksys unit :=
  loop fuel (fun _ : unit => out ← uart_tx_wait_idle_round; mret (if out : bool then inr tt else inl tt)) tt.

(** ** The interrupt controller *)

Definition PLIC_HART0_SCTX : Z := 1.
Definition PLIC_PRIORITY_OFFSET : Z := 0.
Definition PLIC_ENABLE_OFFSET : Z := 0x2000.
Definition PLIC_ENABLE_STRIDE : Z := 0x80.
Definition PLIC_CONTEXT_OFFSET : Z := 0x200000.
Definition PLIC_CONTEXT_STRIDE : Z := 0x1000.
Definition PLIC_THRESHOLD_OFFSET : Z := 0.
Definition PLIC_CLAIM_COMPLETE_OFFSET : Z := 4.

Definition plic_upd (f : plic -> plic) : M ksys unit := modify (fun s => set_k_plic (f s.(k_plic)) s).

Definition plic_set_base (base : Z) : M ksys unit := plic_upd (set_plic_base base).

Definition plic_priority_reg (irq : Z) : M ksys Z :=
  base ← gets (fun s => s.(k_plic).(plic_base));
  mret (u64 (base + PLIC_PRIORITY_OFFSET + irq * 4)).

Definition plic_enable_reg (context irq : Z) : M ksys Z :=
  base ← gets (fun s => s.(k_plic).(plic_base));
  mret (u64 (base + PLIC_ENABLE_OFFSET + context * PLIC_ENABLE_STRIDE + irq / 32 * 4)).

Definition plic_context_reg (context offset : Z) : M ksys Z :=
  base ← gets (fun s => s.(k_plic).(plic_base));
  mret (u64 (base + PLIC_CONTEXT_OFFSET + context * PLIC_CONTEXT_STRIDE + offset)).

(** The hardware: plain 32-bit registers, except that reading the claim register
    of the context hands over one pending source, or zero, and writing it says
    that the source has been handled. *)
Definition CLAIM_REG (p : plic) : Z := u64 (p.(plic_base) + 0x201004).

Definition plic_get32 (reg : Z) : M ksys Z :=
  p ← gets k_plic;
  if reg =? CLAIM_REG p then
    match p.(plic_waiting) with
    | [] => mret 0
    | irq :: rest => plic_upd (set_plic_waiting rest) ;; mret (u32 irq)
    end
  else mret (default 0 (p.(plic_regs) !! reg)).

Definition plic_put32 (reg value : Z) : M ksys unit :=
  plic_upd (fun p =>
    if reg =? CLAIM_REG p then set_plic_completed (p.(plic_completed) ++ [u32 value]) p
    else set_plic_regs (<[reg := u32 value]> p.(plic_regs)) p).

Definition plic_set_priority (irq priority : Z) : M ksys unit :=
  reg ← plic_priority_reg irq;
  plic_put32 reg priority.

Definition plic_enable_irq (irq : Z) : M ksys unit :=
  reg ← plic_enable_reg PLIC_HART0_SCTX irq;
  value ← plic_get32 reg;
  let bit := u32 (Z.shiftl 1 (irq mod 32)) in
  plic_put32 reg (Z.lor value bit).

Definition plic_set_threshold (threshold : Z) : M ksys unit :=
  reg ← plic_context_reg PLIC_HART0_SCTX PLIC_THRESHOLD_OFFSET;
  plic_put32 reg threshold.

Definition plic_claim : M ksys Z :=
  reg ← plic_context_reg PLIC_HART0_SCTX PLIC_CLAIM_COMPLETE_OFFSET;
  plic_get32 reg.

Definition plic_complete (irq : Z) : M ksys unit :=
  reg ← plic_context_reg PLIC_HART0_SCTX PLIC_CLAIM_COMPLETE_OFFSET;
  plic_put32 reg irq.

(** ** Setting up *)

Definition uart_irq_id : M ksys Z := dev uart_irq_number.
Definition uart_mmio_base : M ksys Z := dev uart_base_addr.

Definition uart_irq_ack_stale_status : M ksys unit :=
  _ ← uart_reg_read UART_LSR_REG;
  _ ← uart_reg_read UART_RBR_REG;
  _ ← uart_reg_read UART_IIR_REG;
  _ ← uart_reg_read UART_MSR_REG;
  mret tt.

Definition uart_reset_stats : M ksys unit :=
  sstatus ← k_irq_save;
  dev_upd (set_uart_ext_irq_count 0) ;;
  dev_upd (set_uart_rx_irq_count 0) ;;
  dev_upd (set_uart_tx_irq_count 0) ;;
  dev_upd (set_uart_rx_fallback_count 0) ;;
  dev_upd (set_uart_tx_poll_count 0) ;;
  k_irq_restore sstatus.

Definition uart_reset_runtime_state : M ksys unit :=
  zoom (ringbuf_init uart_rx_buf) ;;
  zoom (ringbuf_init uart_tx_buf) ;;
  dev_upd (set_uart_irq_enabled 0) ;;
  clear_bottom_half (bh_code BH_UART_RX) ;;
  clear_bottom_half (bh_code BH_UART_TX) ;;
  dev_upd (set_uart_tx_refill 0) ;;
  uart_reset_stats.

(** The loop of [uart_flush_hardware_rx_fifo] with [budget] rounds left. *)
Fixpoint flush_rounds (budget : nat) : M ksys unit :=
  match budget with
  | O => mret tt
  | S n =>
      lsr ← uart_reg_read UART_LSR_REG;
      if Z.land lsr LSR_RX_READY =? 0 then mret tt
      else _ ← uart_reg_read UART_RBR_REG; flush_rounds n
  end.
Definition uart_flush_hardware_rx_fifo : M ksys unit := flush_rounds 256.

Definition uart_irq_init : M ksys unit :=
  zoom (modify (set_irq_on false)) ;;
  uart_reset_runtime_state ;;
  irq ← uart_irq_id;
  plic_set_priority irq 1 ;;
  plic_enable_irq irq ;;
  plic_set_threshold 0 ;;
  uart_reg_write UART_IER_REG 0 ;;
  uart_reg_write UART_FCR_REG 0x07 ;;
  mcr ← uart_reg_read UART_MCR_REG;
  uart_reg_write UART_MCR_REG (Z.lor mcr UART_MCR_OUT2) ;;
  uart_flush_hardware_rx_fifo ;;
  uart_irq_ack_stale_status ;;
  q ← gets (fun s => s.(k_sched).(qemu));
  (if q : bool then uart_ier_set_bits (Z.lor UART_IER_RX_ENABLE UART_IER_LINE_ENABLE)
   else uart_ier_set_bits (Z.lor UART_IER_UUE RX_BITS)) ;;
  uart_ier_clear_bits UART_IER_TX_ENABLE ;;
  uart_irq_ack_stale_status ;;
  dev_upd (set_uart_irq_enabled 1) ;;
  dev_upd (set_sie_external true) ;;
  k_irq_enable.

(** ** Sending and receiving one character

    A thread that sleeps gives up the processor inside the call: [Asleep] says
    that another thread runs now.  When the sleeper is resumed it withdraws its
    registration ([wait_queue_sleep_rest]) and starts another round. *)

Inductive round (A : Type) := Done (a : A) | Again | Asleep.
Arguments Done {A} _. Arguments Again {A}. Arguments Asleep {A}.

(** One round of the interrupt-driven loop of [uart_send]; [entry] is the address
    of the local variable of [wait_queue_sleep_locked]. *)
Definition uart_send_irq_round (c : Z) (sleepable : bool) (entry : Z) : M ksys (round unit) :=
  status ← k_irq_save;
  r ← tx_push c;
  if r =? 0 then
    uart_tx_unmask ;;
    k_irq_restore status ;;
    mret (Done tt)
  else
    uart_tx_unmask ;;
    if sleepable then
      q ← dev uart_tx_wait;
      slept ← zoom (wait_queue_sleep_locked q entry);
      match slept with
      | Some _ => k_irq_restore status ;; mret Again
      | None => mret Asleep
      end
    else
      _ ← uart_tx_try_drain_one;
      k_irq_restore status ;;
      mret Again.

(** One round of its polling loop. *)
Definition uart_send_poll_round (c : Z) : M ksys (round unit) :=
  status ← k_irq_save;
  empty ← tx_empty;
  if negb empty then
    _ ← uart_tx_try_drain_one;
    k_irq_restore status ;;
    mret Again
  else
    lsr ← uart_reg_read UART_LSR_REG;
    if negb (Z.land lsr LSR_TX_IDLE =? 0) then
      dev_upd (fun u => set_uart_tx_poll_count (u64 (u.(uart_tx_poll_count) + 1)) u) ;;
      uart_reg_write UART_THR_REG (u8 c) ;;
      k_irq_restore status ;;
      mret (Done tt)
    else k_irq_restore status ;; mret Again.

(** Rounds up to the one that returns or sleeps; [None] is the sleep. *)
Definition rounds {A} (fuel : nat) (m : M ksys (round A)) : M ksys (option A) :=
  loop fuel
    (fun _ : unit =>
       r ← m;
       mret match r with Done a => inr (Some a) | Asleep => inr None | Again => inl tt end)
    tt.

Definition uart_send (fuel : nat) (entry c : Z) : M ksys (option unit) :=
  enabled ← dev uart_irq_enabled;
  on ← gets k_irq;
  if negb (enabled =? 0) && on then
    sleepable ← zoom thread_can_sleep;
    rounds fuel (uart_send_irq_round c sleepable entry)
  else rounds fuel (uart_send_poll_round c).

Definition uart_recv_irq_round (sleepable : bool) (entry : Z) : M ksys (round Z) :=
  status ← k_irq_save;
  oc ← ring_take uart_rx_buf;
  match oc with
  | Some c => k_irq_restore status ;; mret (Done c)
  | None =>
      if sleepable then
        q ← dev uart_rx_wait;
        slept ← zoom (wait_queue_sleep_locked q entry);
        match slept with
        | Some _ => k_irq_restore status ;; mret Again
        | None => mret Asleep
        end
      else k_irq_restore status ;; mret Again
  end.

Definition uart_recv_poll_round : M ksys (round Z) :=
  status ← k_irq_save;
  oc ← ring_take uart_rx_buf;
  match oc with
  | Some c => k_irq_restore status ;; mret (Done c)
  | None =>
      lsr ← uart_reg_read UART_LSR_REG;
      if negb (Z.land lsr LSR_RX_READY =? 0) then
        b ← uart_reg_read UART_RBR_REG;
        let c := Z.land b 0xFF in
        dev_upd (fun u => set_uart_rx_fallback_count (u64 (u.(uart_rx_fallback_count) + 1)) u) ;;
        k_irq_restore status ;;
        mret (Done c)
      else k_irq_restore status ;; mret Again
  end.

Definition uart_recv (fuel : nat) (entry : Z) : M ksys (option Z) :=
  enabled ← dev uart_irq_enabled;
  on ← gets k_irq;
  if negb (enabled =? 0) && on then
    sleepable ← zoom thread_can_sleep;
    rounds fuel (uart_recv_irq_round sleepable entry)
  else rounds fuel uart_recv_poll_round.

(** ** Strings and numbers

    [send] is [uart_send] in the mode the caller is in. *)

Section printing.
Context (send : Z -> M ksys unit).

Definition uart_send_string (str : cstr) : M ksys unit :=
  fuel ← gets (fun s => str_fuel str s.(k_mem).(cm_bytes));
  loop fuel
    (fun i : Z =>
       c ← zoom (zoom (char_at str i) : M cmem Z);
       if c =? 0 then mret (inr tt)
       else
         when (c =? 10) (send 13) ;;
         send c ;;
         mret (inl (i + 1)))
    0.

(** [shift] runs from 60 down to 0 in steps of 4: 16 digits. *)
Fixpoint send_hex_digits (n : nat) (value : Z) : M ksys unit :=
  match n with
  | O => mret tt
  | S n' =>
      let shift := 4 * Z.of_nat n' in
      let digit := Z.land (Z.shiftr value shift) 0xF in
      let c := if digit <? 10 then u8 (48 + digit) else u8 (97 + (digit - 10)) in
      send c ;;
      send_hex_digits n' value
  end.
Definition uart_send_hex (value : Z) : M ksys unit := send_hex_digits 16 value.

(** The first loop fills [buf]; the second sends it from the end. *)
Fixpoint dec_fill (room : nat) (value : Z) (buf : list Z) : list Z :=
  match room with
  | O => buf
  | S n => if 0 <? value then dec_fill n (value / 10) (buf ++ [u8 (48 + value mod 10)]) else buf
  end.
Fixpoint send_all (l : list Z) : M ksys unit :=
  match l with
  | [] => mret tt
  | c :: l' => send c ;; send_all l'
  end.
Definition uart_send_dec (value : Z) : M ksys unit :=
  if value =? 0 then send 48 else send_all (rev (dec_fill 24 value [])).

End printing.

(** ** Interrupt work *)

Fixpoint rx_drain_rounds (budget : nat) : M ksys unit :=
  match budget with
  | O => mret tt
  | S n =>
      status ← k_irq_save;
      lsr ← uart_reg_read UART_LSR_REG;
      if Z.land lsr LSR_RX_READY =? 0 then k_irq_restore status
      else
        b ← uart_reg_read UART_RBR_REG;
        r ← rx_push (Z.land b 0xFF);
        when (r =? 0) (wake_one uart_rx_wait) ;;
        dev_upd (fun u => set_uart_rx_irq_count (u64 (u.(uart_rx_irq_count) + 1)) u) ;;
        k_irq_restore status ;;
        rx_drain_rounds n
  end.
Definition uart_rx_drain (budget : Z) : M ksys unit := rx_drain_rounds (Z.to_nat budget).

Definition uart_irq_top : M ksys unit :=
  dev_upd (fun u => set_uart_ext_irq_count (u64 (u.(uart_ext_irq_count) + 1)) u) ;;
  status ← uart_reg_read UART_LSR_REG;
  when (negb (Z.land status LSR_RX_READY =? 0))
    (trace_record TRACE_UART_TOP_RX 0 ;;
     uart_rx_mask ;;
     raise_bottom_half (bh_code BH_UART_RX)) ;;
  tx ← (if negb (Z.land status LSR_TX_IDLE =? 0)
        then ier ← uart_reg_read UART_IER_REG; mret (negb (Z.land ier UART_IER_TX_ENABLE =? 0))
        else mret false);
  when tx
    (count ← tx_count;
     trace_record TRACE_UART_TOP_TX count ;;
     uart_tx_mask ;;
     raise_bottom_half (bh_code BH_UART_TX)).

Definition uart_rx_run_bottom_half : M ksys unit :=
  let budget := UART_DEFERRED_WORK_BUDGET in
  trace_record TRACE_UART_RX_BOTTOM budget ;;
  uart_rx_drain budget ;;
  lsr ← uart_reg_read UART_LSR_REG;
  if negb (Z.land lsr LSR_RX_READY =? 0) then raise_bottom_half (bh_code BH_UART_RX)
  else uart_rx_unmask.

(** [call] runs the function at a code address. *)
Definition run_refill (call : Z -> M ksys unit) : M ksys unit :=
  empty ← uart_tx_buf_is_empty;
  refill ← dev uart_tx_refill;
  when (empty && negb (refill =? 0)) (call refill).

Fixpoint tx_drain_rounds (budget : nat) : M ksys unit :=
  match budget with
  | O => mret tt
  | S n =>
      more ← uart_tx_try_drain_one;
      when more
        (dev_upd (fun u => set_uart_tx_irq_count (u64 (u.(uart_tx_irq_count) + 1)) u) ;;
         tx_drain_rounds n)
  end.

Definition uart_tx_run_bottom_half (call : Z -> M ksys unit) : M ksys unit :=
  let budget := UART_DEFERRED_WORK_BUDGET in
  count ← tx_count;
  trace_record TRACE_UART_TX_BOTTOM count ;;
  run_refill call ;;
  tx_drain_rounds (Z.to_nat budget) ;;
  run_refill call ;;
  status ← k_irq_save;
  empty ← tx_empty;
  (if negb empty then
     uart_tx_unmask ;;
     lsr ← uart_reg_read UART_LSR_REG;
     when (negb (Z.land lsr LSR_TX_IDLE =? 0)) (raise_bottom_half (bh_code BH_UART_TX))
   else uart_tx_mask) ;;
  k_irq_restore status.

(** ** Statistics, platform, asynchronous output *)

(** The fields of [struct uart_stats]; [None] for the null pointer. *)
Definition uart_get_stats (stats : Z) : M ksys (option (Z * Z * Z * Z * Z * Z)) :=
  if stats =? 0 then mret None
  else
    status ← k_irq_save;
    a ← dev uart_irq_enabled;
    b ← dev uart_ext_irq_count;
    c ← dev uart_rx_irq_count;
    d ← dev uart_tx_irq_count;
    e ← dev uart_rx_fallback_count;
    f ← dev uart_tx_poll_count;
    k_irq_restore status ;;
    mret (Some (a, b, c, d, e, f)).

Definition uart_set_platform (base irq : Z) : M ksys unit :=
  dev_upd (set_uart_base_addr base) ;;
  dev_upd (set_uart_irq_number irq).

Definition uart_write_async (buf size : Z) : M ksys Z :=
  status ← k_irq_save;
  enabled ← dev uart_irq_enabled;
  count ← tx_count;
  if (buf =? 0) || (enabled =? 0) || (u32 (RINGBUF_CAPACITY - count) <? size) then
    k_irq_restore status ;;
    mret (-1)
  else
    for_up (Z.to_nat size) 0 (fun i => c ← zoom (byte (buf + i)); _ ← tx_push c; mret tt) ;;
    when (negb (size =? 0)) uart_tx_unmask ;;
    k_irq_restore status ;;
    mret 0.

Definition uart_tx_set_refill (refill : Z) : M ksys Z :=
  status ← k_irq_save;
  enabled ← dev uart_irq_enabled;
  old ← dev uart_tx_refill;
  if negb (refill =? 0) && ((enabled =? 0) || (negb (old =? 0) && negb (old =? refill))) then
    k_irq_restore status ;;
    mret (-1)
  else
    dev_upd (set_uart_tx_refill refill) ;;
    k_irq_restore status ;;
    mret 0.
