(* ===== verification/UartInv.v ===== *)
(** * The serial driver: well-formed states and its elementary steps

    What the rings, the device registers and the pending bits amount to (a
    [line]), what every operation of the driver leaves alone, and rules for
    register accesses, ring accesses, waking and sleeping in those terms. *)

From S2P Require Import Prelude Lists Memory Slab ByteAllocator MemoryInit Task Sched Wait Thread HeapIface HeapLink SchedRep SchedLists WaitLists ThreadInv SchedOps WaitOps ThreadNew ThreadExit ThreadReap ThreadLoops SchedHistory SchedView Ring Str Cpio Irq Trace Work Uart.

Open Scope Z_scope.

(** ** The line as the driver sees it *)

Record line := mkLineState {
  ln_rx : list Z; (* received and not yet delivered *)
  ln_tx : list Z; (* accepted and not yet sent *)
  ln_fifo : list Z; (* in the device, not yet received *)
  ln_sent : list Z; (* given to the transmitter *)
  ln_idle : bool; (* the transmitter was seen ready *)
  ln_ier : Z; (* enabled interrupts *)
  ln_pending : Z; (* raised bottom halves *)
  ln_reads : nat; (* looks at the status register *)
}.

Definition with_rx v l := mkLineState v l.(ln_tx) l.(ln_fifo) l.(ln_sent) l.(ln_idle) l.(ln_ier) l.(ln_pending) l.(ln_reads).
Definition with_tx v l := mkLineState l.(ln_rx) v l.(ln_fifo) l.(ln_sent) l.(ln_idle) l.(ln_ier) l.(ln_pending) l.(ln_reads).
Definition with_fifo v l := mkLineState l.(ln_rx) l.(ln_tx) v l.(ln_sent) l.(ln_idle) l.(ln_ier) l.(ln_pending) l.(ln_reads).
Definition with_sent v l := mkLineState l.(ln_rx) l.(ln_tx) l.(ln_fifo) v l.(ln_idle) l.(ln_ier) l.(ln_pending) l.(ln_reads).
Definition with_idle v l := mkLineState l.(ln_rx) l.(ln_tx) l.(ln_fifo) l.(ln_sent) v l.(ln_ier) l.(ln_pending) l.(ln_reads).
Definition with_ier v l := mkLineState l.(ln_rx) l.(ln_tx) l.(ln_fifo) l.(ln_sent) l.(ln_idle) v l.(ln_pending) l.(ln_reads).
Definition with_pending v l := mkLineState l.(ln_rx) l.(ln_tx) l.(ln_fifo) l.(ln_sent) l.(ln_idle) l.(ln_ier) v l.(ln_reads).
Definition with_reads v l := mkLineState l.(ln_rx) l.(ln_tx) l.(ln_fifo) l.(ln_sent) l.(ln_idle) l.(ln_ier) l.(ln_pending) v.

Definition queue_at (rb : Z) (m : ringmem) : list Z := default [] (ring_queues m !! rb).

Definition line_of (s : ksys) : line :=
  mkLineState (queue_at uart_rx_buf s.(k_uart).(uart_mem)) (queue_at uart_tx_buf s.(k_uart).(uart_mem))
    s.(k_uart).(hw_fifo) s.(k_uart).(hw_sent) s.(k_uart).(hw_idle) s.(k_uart).(hw_ier) s.(pending) s.(k_uart).(hw_reads).

(** ** Well-formed states *)

Record rings_good (m : ringmem) : Prop := mkRingsGood {
  rg_ok : rings_ok m;
  rg_rx : is_Some (m.(rings) !! uart_rx_buf);
  rg_tx : is_Some (m.(rings) !! uart_tx_buf);
  rg_c : is_Some (m.(cells) !! addr_c);
}.

Record uart_ok (s : ksys) : Prop := mkUartOk {
  uo_rings : rings_good s.(k_uart).(uart_mem);
  uo_sched : sched_ok s.(k_sched);
  uo_rx_wait : is_queue s.(k_sched).(queues) s.(k_uart).(uart_rx_wait);
  uo_tx_wait : is_queue s.(k_sched).(queues) s.(k_uart).(uart_tx_wait);
  uo_ier : 0 <= s.(k_uart).(hw_ier) < 256;
  uo_trace : trace_ok s;
}.

(** ** What the driver leaves alone *)

(** Fixed once the driver has been set up. *)
Record config := mkConfig {
  cf_env : nat -> line_event;
  cf_enabled : Z;
  cf_refill : Z;
  cf_rx_wait : Z;
  cf_tx_wait : Z;
  cf_base : Z;
  cf_number : Z;
  cf_external : bool;
}.
Definition config_of (u : uart) : config :=
  mkConfig u.(hw_env) u.(uart_irq_enabled) u.(uart_tx_refill) u.(uart_rx_wait) u.(uart_tx_wait) u.(uart_base_addr) u.(uart_irq_number) u.(sie_external).
Definition settings (s : ksys) : config := config_of s.(k_uart).

(** The state of the other parts of the kernel. *)
Definition others (s : ksys) :=
  (s.(pool), s.(work_head), s.(work_tail),
   (s.(timebase_frequency), s.(boot_time), s.(next_deadline), s.(uptime_seconds), s.(timer_irq_count), s.(timer_events), s.(timer_head),
    s.(timer_enabled), s.(sched_tick_interval), s.(sched_tick_deadline), s.(sie_timer), s.(sbi_timer), s.(rdtime)),
   (s.(k_plic), s.(k_mem), s.(initrd_start), s.(initrd_end), s.(trace_ecalls), s.(ecall_demo_tid))).

(** The local variable of a sleeping call is not registered and lies in the
    caller's stack. *)
Definition may_sleep (c : sched) (entry : Z) : Prop := unregistered c entry /\ own_local c entry.

(** Waking a thread changes when it runs, not who it is. *)
Definition lasting (x : thread) :=
  ((x.(t_tid), x.(t_tgid), x.(t_kind), x.(t_tc)), (x.(t_user_entry), x.(t_user_stack_base), x.(t_user_stack_top)), bool_decide (x.(t_state) = THREAD_ZOMBIE)).
Definition threads_last (c c' : sched) : Prop :=
  c'.(tcs) = c.(tcs) /\ thread_list c' = thread_list c /\ forall t, lasting <$> c'.(tasks) !! t = lasting <$> c.(tasks) !! t.

Lemma threads_last_refl c : threads_last c c.
Proof. done. Qed.
Lemma threads_last_trans c1 c2 c3 : threads_last c1 c2 -> threads_last c2 c3 -> threads_last c1 c3.
Proof. intros (A1 & A2 & A3) (B1 & B2 & B3). split_and!; [congruence..|]. intros t. by rewrite B3. Qed.

Record uart_frame (s s' : ksys) : Prop := mkUartFrame {
  uf_settings : settings s' = settings s;
  uf_others : others s' = others s;
  uf_heap : s'.(k_sched).(heap) = s.(k_sched).(heap);
  uf_thread : (s'.(k_sched).(tp), s'.(k_sched).(bh_running), s'.(k_sched).(qemu)) = (s.(k_sched).(tp), s.(k_sched).(bh_running), s.(k_sched).(qemu));
  uf_reads : (s.(rdtime_reads) <= s'.(rdtime_reads))%nat;
  uf_sleep : forall entry, may_sleep s.(k_sched) entry -> may_sleep s'.(k_sched) entry;
  uf_threads : threads_last s.(k_sched) s'.(k_sched);
}.

Lemma uart_frame_refl s : uart_frame s s.
Proof. by constructor. Qed.
Lemma uart_frame_trans s1 s2 s3 : uart_frame s1 s2 -> uart_frame s2 s3 -> uart_frame s1 s3.
Proof. intros [A1 A2 A3 A4 A5 A6 A7] [B1 B2 B3 B4 B5 B6 B7]. constructor; try congruence; [lia|auto|by eapply threads_last_trans]. Qed.

Lemma uf_irq s s' : uart_frame s s' -> k_irq s' = k_irq s.
Proof. intros H. unfold k_irq. by rewrite (uf_heap _ _ H). Qed.

Lemma sched_ok_irq v c : sched_ok c -> sched_ok (set_irq v c).
Proof.
  intros Hc. destruct (run_sched_op_ok (op_interrupts v) c Hc I) as (c' & E & H).
  injection E as <-. exact H.
Qed.

Lemma uart_ok_irq v s : uart_ok s -> uart_ok (set_k_irq v s).
Proof. intros [H1 H2 H3 H4 H5 H6]. constructor; try done. by apply (sched_ok_irq v). Qed.

(** Leaving a section that was entered in [s]. *)
Lemma section_frame s s' : uart_frame (set_k_irq false s) s' -> uart_frame s (set_k_irq (k_irq s' || k_irq s) s').
Proof.
  intros H. rewrite (uf_irq _ _ H), k_irq_set. cbn [orb]. destruct H as [H1 H2 H3 H4 H5 H6 H7]. constructor; try done.
  change (set_pages (set_irq_on (k_irq s) s'.(k_sched).(heap).(pages)) s'.(k_sched).(heap) = s.(k_sched).(heap)).
  rewrite H3. pose proof (set_k_irq_self s) as E. apply (f_equal (fun s => s.(k_sched).(heap))) in E. exact E.
Qed.

(** ** Steps of the driver

    [steps E l m a l']: on a line [l] with the settings [E], the driver code
    [m] returns [a], leaves the line [l'] and the rest of the kernel alone.
    [inside b] is the same for the rest of a section that runs with interrupts
    off and restores the flag [b] at its end. *)

Definition steps {A} (E : config) (l : line) (m : M ksys A) (a : A) (l' : line) : Prop :=
  forall s, uart_ok s -> settings s = E -> line_of s = l ->
    wp m (fun v s' => uart_ok s' /\ uart_frame s s' /\ v = a /\ line_of s' = l') s.

Definition inside {A} (b : bool) (E : config) (l : line) (m : M ksys A) (a : A) (l' : line) : Prop :=
  forall s, uart_ok s -> settings s = E -> line_of s = l -> k_irq s = false ->
    wp m (fun v s' => uart_ok s' /\ uart_frame (set_k_irq b s) s' /\ v = a /\ line_of s' = l') s.

Lemma steps_ret {A} E l (a : A) : steps E l (mret a) a l.
Proof. intros s Hok HE Hl. apply wp_ret. by split_and!. Qed.

Lemma steps_bind {A B} E l (m : M ksys A) (k : A -> M ksys B) a l1 b l2 :
  steps E l m a l1 -> steps E l1 (k a) b l2 -> steps E l (m ≫= k) b l2.
Proof.
  intros Hm Hk s Hok HE Hl. apply wp_bind. eapply wp_mono; [by apply Hm|]. intros v s1 (Hok1 & F1 & -> & Hl1).
  eapply wp_mono; [apply Hk; [done|by rewrite (uf_settings _ _ F1)|done]|]. intros w s2 (Hok2 & F2 & -> & Hl2).
  split_and!; try done. by eapply uart_frame_trans.
Qed.

Lemma inside_bind {A B} p E l (m : M ksys A) (k : A -> M ksys B) a l1 b l2 :
  steps E l m a l1 -> inside p E l1 (k a) b l2 -> inside p E l (m ≫= k) b l2.
Proof.
  intros Hm Hk s Hok HE Hl Hi. apply wp_bind. eapply wp_mono; [by apply Hm|]. intros v s1 (Hok1 & F1 & -> & Hl1).
  eapply wp_mono; [apply Hk; [done|by rewrite (uf_settings _ _ F1)|done|by rewrite (uf_irq _ _ F1)]|]. intros w s2 (Hok2 & F2 & -> & Hl2).
  split_and!; try done. eapply uart_frame_trans; [|exact F2]. destruct F1 as [A1 A2 A3 A4 A5 A6 A7]. constructor; try done.
  unfold set_k_irq. cbn. by rewrite A3.
Qed.

(** Leaving a section. *)
Lemma inside_restore {A} p E l (k : M ksys A) a l' : steps E l k a l' -> inside p E l (k_irq_restore p ;; k) a l'.
Proof.
  intros Hk s Hok HE Hl Hi. apply wp_bind, wp_k_irq_restore. rewrite Hi. cbn [orb]. apply Hk; [by apply uart_ok_irq|done|done].
Qed.
Lemma inside_end p E l : inside p E l (k_irq_restore p) tt l.
Proof.
  intros s Hok HE Hl Hi. apply wp_k_irq_restore. rewrite Hi. cbn [orb]. split_and!; [by apply uart_ok_irq|apply uart_frame_refl|done|done].
Qed.

Lemma inside_again {A} p E l l1 (m : M ksys unit) (k : M ksys A) a l' :
  inside p E l m tt l1 -> steps E l1 k a l' -> inside p E l (m ;; k) a l'.
Proof.
  intros Hm Hk s Hok HE Hl Hi. apply wp_bind. eapply wp_mono; [by apply Hm|]. intros v s1 (Hok1 & F1 & _ & Hl1).
  eapply wp_mono; [apply Hk; [done|by rewrite (uf_settings _ _ F1)|done]|]. intros w s2 (Hok2 & F2 & -> & Hl2).
  split_and!; try done. by eapply uart_frame_trans.
Qed.

(** Entering one. *)
Lemma steps_section {A} E l (body : bool -> M ksys A) a l' :
  (forall p, inside p E l (body p) a l') -> steps E l (k_irq_save ≫= body) a l'.
Proof.
  intros H s Hok HE Hl. apply wp_bind, wp_k_irq_save. eapply wp_mono; [apply H; [by apply uart_ok_irq|done|done|done]|].
  intros v s1 (Hok1 & F1 & -> & Hl1). split_and!; try done. by rewrite set_k_irq_twice, set_k_irq_self in F1.
Qed.

(** ** Registers *)

Lemma steps_same {A} E l (m : M ksys A) a (f : ksys -> ksys) l' :
  (forall s, m s = Some (a, f s)) -> (forall s, uart_ok s -> line_of s = l -> uart_ok (f s) /\ uart_frame s (f s) /\ line_of (f s) = l') ->
  steps E l m a l'.
Proof.
  intros Hm Hf s Hok HE Hl. unfold wp. rewrite Hm. destruct (Hf s Hok Hl) as (? & ? & ?). done.
Qed.

Definition look (E : config) (l : line) : line :=
  let e := E.(cf_env) l.(ln_reads) in
  with_reads (S l.(ln_reads)) (with_idle (l.(ln_idle) || e.(le_idle)) (with_fifo (l.(ln_fifo) ++ e.(le_arrived)) l)).

Definition status_of (v : Z) (l : line) : Prop :=
  (Z.land v LSR_RX_READY =? 0) = bool_decide (l.(ln_fifo) = []) /\ (Z.land v LSR_TX_IDLE =? 0) = negb l.(ln_idle).

Lemma land_low v w m : 0 <= m < 2 ^ w -> 0 <= w -> Z.land (v mod 2 ^ w) m = Z.land v m.
Proof.
  intros Hm Hw. rewrite <- Z.land_ones by lia. rewrite <- Z.land_assoc. f_equal. rewrite Z.land_comm, Z.land_ones by lia.
  by apply Z.mod_small.
Qed.

Lemma line_status_bits x o (f : list Z) (i : bool) :
  x = Z.lor (Z.lor (if decide (f = []) then 0 else LSR_RX_READY) (if i then LSR_TX_IDLE else 0)) (Z.land o (Z.lnot (Z.lor LSR_RX_READY LSR_TX_IDLE))) ->
  (Z.land x LSR_RX_READY =? 0) = bool_decide (f = []) /\ (Z.land x LSR_TX_IDLE =? 0) = negb i.
Proof.
  intros ->. rewrite !Z.land_lor_distr_l, <- !Z.land_assoc.
  change (Z.land (Z.lnot (Z.lor LSR_RX_READY LSR_TX_IDLE)) LSR_RX_READY) with 0.
  change (Z.land (Z.lnot (Z.lor LSR_RX_READY LSR_TX_IDLE)) LSR_TX_IDLE) with 0. rewrite !Z.land_0_r, !Z.lor_0_r.
  rewrite bool_decide_decide. by destruct (decide (f = [])), i.
Qed.

Lemma wp_reg_width v Q s :
  Q (if s.(k_sched).(qemu) then u8 v else u32 v) s -> wp (reg_width v) Q s.
Proof. intros H. exact H. Qed.

Lemma ok_dev (f : uart -> uart) s :
  uart_ok s -> (f s.(k_uart)).(uart_mem) = s.(k_uart).(uart_mem) -> (f s.(k_uart)).(uart_rx_wait) = s.(k_uart).(uart_rx_wait) ->
  (f s.(k_uart)).(uart_tx_wait) = s.(k_uart).(uart_tx_wait) -> 0 <= (f s.(k_uart)).(hw_ier) < 256 -> uart_ok (set_k_uart (f s.(k_uart)) s).
Proof. intros [H1 H2 H3 H4 H5 H6] E1 E2 E3 E4. by constructor; cbn [k_uart k_sched set_k_uart]; rewrite ?E1, ?E2, ?E3. Qed.

(** A register whose value the line does not determine. *)
Definition yields {A} (E : config) (l : line) (m : M ksys A) (P : A -> Prop) (l' : line) : Prop :=
  forall s, uart_ok s -> settings s = E -> line_of s = l ->
    wp m (fun v s' => uart_ok s' /\ uart_frame s s' /\ P v /\ line_of s' = l') s.

Lemma steps_yields {A B} E l (m : M ksys A) (k : A -> M ksys B) P l1 b l2 :
  yields E l m P l1 -> (forall v, P v -> steps E l1 (k v) b l2) -> steps E l (m ≫= k) b l2.
Proof.
  intros Hm Hk s Hok HE Hl. apply wp_bind. eapply wp_mono; [by apply Hm|]. intros v s1 (Hok1 & F1 & Hv & Hl1).
  eapply wp_mono; [apply (Hk v Hv); [done|by rewrite (uf_settings _ _ F1)|done]|]. intros w s2 (Hok2 & F2 & -> & Hl2).
  split_and!; try done. by eapply uart_frame_trans.
Qed.

Lemma frame_set_irq p s s' : uart_frame s s' -> uart_frame (set_k_irq p s) (set_k_irq p s').
Proof. intros [A1 A2 A3 A4 A5 A6 A7]. constructor; try done. unfold set_k_irq. cbn. by rewrite A3. Qed.

Lemma inside_yields {A B} p E l (m : M ksys A) (k : A -> M ksys B) P l1 b l2 :
  yields E l m P l1 -> (forall v, P v -> inside p E l1 (k v) b l2) -> inside p E l (m ≫= k) b l2.
Proof.
  intros Hm Hk s Hok HE Hl Hi. apply wp_bind. eapply wp_mono; [by apply Hm|]. intros v s1 (Hok1 & F1 & Hv & Hl1).
  eapply wp_mono; [apply (Hk v Hv); [done|by rewrite (uf_settings _ _ F1)|done|by rewrite (uf_irq _ _ F1)]|]. intros w s2 (Hok2 & F2 & -> & Hl2).
  split_and!; try done. eapply uart_frame_trans; [by apply frame_set_irq|exact F2].
Qed.

Lemma steps_dev {A} E l (f : uart -> A) a : (forall s, line_of s = l -> f s.(k_uart) = a) -> steps E l (dev f) a l.
Proof. intros Hf s Hok HE Hl. apply wp_gets. by split_and!; [..|by apply Hf|]. Qed.

(** A write to the device. *)
Lemma steps_upd E l (f : uart -> uart) l' :
  (forall u, (f u).(uart_mem) = u.(uart_mem) /\ config_of (f u) = config_of u) ->
  (forall s, settings s = E -> line_of s = l -> line_of (set_k_uart (f s.(k_uart)) s) = l') ->
  0 <= l.(ln_ier) < 256 -> 0 <= l'.(ln_ier) < 256 ->
  steps E l (dev_upd f) tt l'.
Proof.
  intros Hf Hl' _ Hi s Hok HE Hl. apply wp_modify. destruct (Hf s.(k_uart)) as [Em Es]. pose proof (Hl' s HE Hl) as E'.
  split_and!; [| |done|done].
  - injection Es as E1 E2 E3 E4 E5 E6. apply ok_dev; [done..|]. rewrite <- E' in Hi. exact Hi.
  - constructor; try done.
Qed.

Lemma line_ier s l : uart_ok s -> line_of s = l -> 0 <= l.(ln_ier) < 256.
Proof. intros H <-. apply (uo_ier _ H). Qed.

Lemma steps_count E l (f : uart -> uart) :
  (forall u, (f u).(uart_mem) = u.(uart_mem) /\ config_of (f u) = config_of u) ->
  (forall u, ((f u).(hw_fifo), (f u).(hw_sent), (f u).(hw_idle), (f u).(hw_ier), (f u).(hw_reads)) =
     (u.(hw_fifo), u.(hw_sent), u.(hw_idle), u.(hw_ier), u.(hw_reads))) ->
  steps E l (dev_upd f) tt l.
Proof.
  intros Hf Hd s Hok HE Hl. pose proof (line_ier s l Hok Hl) as Hi. apply (steps_upd E l f l Hf); try done.
  intros s' _ Hl'. destruct (Hf s'.(k_uart)) as [Em _]. specialize (Hd s'.(k_uart)). injection Hd as E1 E2 E3 E4 E5.
  rewrite <- Hl'. unfold line_of. cbn [k_uart set_k_uart pending]. by rewrite Em, E1, E2, E3, E4, E5.
Qed.

Lemma yields_lsr E l : yields E l (uart_reg_read UART_LSR_REG) (fun v => status_of v (look E l)) (look E l).
Proof.
  intros s Hok HE Hl. unfold uart_reg_read. apply wp_bind, wp_gets, wp_bind, wp_modify, wp_bind, wp_gets, wp_reg_width.
  set (s1 := set_k_uart _ s). assert (Hl1 : line_of s1 = look E l) by (by rewrite <- Hl, <- HE).
  assert (Hok1 : uart_ok s1) by (apply (ok_dev line_look); [done|done|done|done|apply (uo_ier _ Hok)]).
  assert (F1 : uart_frame s s1) by (by constructor). split_and!; [done|done| |done].
  destruct (line_status_bits _ (le_other (hw_env (id (k_uart s)) (hw_reads (id (k_uart s))))) (hw_fifo (k_uart s1)) (hw_idle (k_uart s1)) eq_refl) as [Hr Ht].
  fold (line_status (le_other (hw_env (id (k_uart s)) (hw_reads (id (k_uart s))))) (k_uart s1)) in Hr, Ht.
  unfold status_of. rewrite <- Hl1. unfold u8, u32. destruct (qemu (k_sched s1)); rewrite !land_low by (unfold LSR_RX_READY, LSR_TX_IDLE; lia);
    split; [exact Hr|exact Ht|exact Hr|exact Ht].
Qed.

Lemma yields_rbr E l b rest :
  l.(ln_fifo) = b :: rest -> yields E l (uart_reg_read UART_RBR_REG) (fun v => Z.land v 255 = Z.land b 255) (with_fifo rest l).
Proof.
  intros Hf s Hok HE Hl. unfold uart_reg_read. apply wp_bind, wp_gets. assert (Ef : hw_fifo (k_uart s) = b :: rest) by (by rewrite <- Hl in Hf).
  rewrite Ef. apply wp_bind, wp_modify, wp_reg_width. split_and!.
  - apply (ok_dev (set_hw_fifo rest)); [done|done|done|done|apply (uo_ier _ Hok)].
  - by constructor.
  - unfold u8, u32. destruct (qemu _); by rewrite land_low by lia.
  - by rewrite <- Hl.
Qed.

Lemma steps_width E l v : 0 <= v < 256 -> steps E l (reg_width v) v l.
Proof. intros Hv s Hok HE Hl. apply wp_reg_width. split_and!; try done. destruct (qemu _); [apply u8_id|apply u32_id]; lia. Qed.

Lemma steps_ier E l : steps E l (uart_reg_read UART_IER_REG) l.(ln_ier) l.
Proof.
  intros s Hok HE Hl. pose proof (line_ier s l Hok Hl) as Hi. revert s Hok HE Hl. eapply steps_bind; [|by apply steps_width].
  apply steps_dev. by intros s <-.
Qed.

Lemma steps_write_ier E l v : 0 <= v < 256 -> steps E l (uart_reg_write UART_IER_REG v) tt (with_ier v l).
Proof.
  intros Hv s Hok HE Hl. pose proof (line_ier s l Hok Hl) as Hi. revert s Hok HE Hl. eapply steps_bind; [by apply steps_width|].
  apply steps_upd; [done| |done|done]. by intros s _ <-.
Qed.

Lemma steps_send E l c : 0 <= c < 256 -> l.(ln_idle) = true ->
  steps E l (uart_reg_write UART_THR_REG c) tt (with_idle false (with_sent (l.(ln_sent) ++ [c]) l)).
Proof.
  intros Hc Hi s Hok HE Hl. pose proof (line_ier s l Hok Hl) as Hr. revert s Hok HE Hl. eapply steps_bind; [by apply steps_width|].
  eapply steps_bind; [apply (steps_dev E l hw_idle true); by intros s <-|]. cbv iota. apply steps_upd; [done| |done|done]. by intros s _ <-.
Qed.

(** *** Interrupt enables *)

Definition ier_set (bits : Z) (l : line) : line := with_ier (Z.lor l.(ln_ier) bits) l.
Definition ier_clear (bits : Z) (l : line) : line := with_ier (Z.ldiff l.(ln_ier) bits) l.

Lemma lor_byte a b : 0 <= a < 256 -> 0 <= b < 256 -> 0 <= Z.lor a b < 256.
Proof.
  intros Ha Hb. split; [apply Z.lor_nonneg; lia|]. destruct (Z.eq_dec (Z.lor a b) 0) as [->|Hn]; [lia|].
  apply (Z.log2_lt_pow2 _ 8); [pose proof (proj2 (Z.lor_nonneg a b)); lia|]. rewrite Z.log2_lor by lia.
  assert (forall x, 0 <= x < 256 -> Z.log2 x < 8).
  { intros x Hx. destruct (Z.eq_dec x 0) as [->|]; [by vm_compute|]. apply Z.log2_lt_pow2; lia. }
  apply Z.max_lub_lt; auto.
Qed.

Lemma ldiff_byte a b : 0 <= a < 256 -> 0 <= Z.ldiff a b < 256.
Proof.
  intros Ha. split; [apply Z.ldiff_nonneg; lia|]. assert (Z.ldiff a b <= a); [|lia]. apply Z.ldiff_le; [lia|].
  rewrite Z.ldiff_land, Z.ldiff_land. rewrite <- Z.land_assoc, (Z.land_comm (Z.lnot b)), Z.land_assoc, Z.land_lnot_diag. apply Z.land_0_l.
Qed.

Lemma steps_ier_set E l bits : 0 <= bits < 256 -> steps E l (uart_ier_set_bits bits) tt (ier_set bits l).
Proof.
  intros Hb s Hok HE Hl. pose proof (line_ier s l Hok Hl) as Hi. revert s Hok HE Hl. apply steps_section. intros p.
  eapply inside_bind; [apply steps_ier|]. eapply inside_bind; [apply steps_write_ier; by apply lor_byte|]. apply inside_end.
Qed.

Lemma steps_ier_clear E l bits : 0 <= bits < 256 -> steps E l (uart_ier_clear_bits bits) tt (ier_clear bits l).
Proof.
  intros Hb s Hok HE Hl. pose proof (line_ier s l Hok Hl) as Hi. revert s Hok HE Hl. apply steps_section. intros p.
  eapply inside_bind; [apply steps_ier|]. rewrite land_not32, <- Z.ldiff_land by lia.
  eapply inside_bind; [apply steps_write_ier; by apply ldiff_byte|]. apply inside_end.
Qed.

(** *** Rings *)

Lemma wp_unret {S A B} (m : M S A) (f : A -> B) Q s : wp (a ← m; mret (f a)) Q s -> wp m (fun a => Q (f a)) s.
Proof. unfold wp, mbind, M_bind. by destruct (m s) as [[a s']|]. Qed.

Lemma rings_good_done m op v m' : rings_good m -> op_done m op v m' -> rings_good m'.
Proof.
  intros [H1 H2 H3 H4] (Hok & _ & Hr & Hc). constructor; [done|..]; apply elem_of_dom; rewrite ?Hr, ?Hc; by apply elem_of_dom.
Qed.

Definition ring_state (m : ringmem) (s : ksys) : ksys := set_k_uart (set_uart_mem m s.(k_uart)) s.

Lemma ok_ring s m : uart_ok s -> rings_good m -> uart_ok (ring_state m s).
Proof. intros [H1 H2 H3 H4 H5 H6] Hm. by constructor. Qed.

Definition line_queues (q : gmap Z (list Z)) (l : line) : line :=
  with_tx (default [] (q !! uart_tx_buf)) (with_rx (default [] (q !! uart_rx_buf)) l).

(** A ring operation does to the line what it does to the queues. *)
Lemma wp_line_ring (op : ring_op) Q s :
  uart_ok s -> op_valid s.(k_uart).(uart_mem) op ->
  (forall m', let r := queues_step op (ring_queues s.(k_uart).(uart_mem)) in
     uart_ok (ring_state m' s) -> uart_frame s (ring_state m' s) -> line_of (ring_state m' s) = line_queues r.2 (line_of s) -> 
     Q r.1 (ring_state m' s)) ->
  wp (zoom (run_ring_op op)) Q s.
Proof.
  intros Hok Hv HQ. apply wp_zoom. eapply wp_mono; [apply (wp_ring_op _ op (rg_ok _ (uo_rings _ Hok)) Hv)|].
  intros v m' Hd. pose proof (rings_good_done _ _ _ _ (uo_rings _ Hok) Hd) as Hg. destruct Hd as (_ & E & _ & _).
  change (put m' s) with (ring_state m' s). assert (E1 : v = (queues_step op (ring_queues s.(k_uart).(uart_mem))).1) by (by rewrite <- E).
  rewrite E1. apply HQ; [by apply ok_ring|by constructor|].
  unfold line_of, line_queues, queue_at. cbn. change (view s) with s.(k_uart).(uart_mem) in E. by rewrite <- E.
Qed.

Lemma wp_unzoom {S T A} `{Lens S T} (m : M T A) Q s : wp (zoom m) Q s -> wp m (fun a t => Q a (put t s)) (view s).
Proof. unfold wp, zoom. by destruct (m (view s)) as [[a t]|]. Qed.

Lemma line_queues_self s : line_queues (ring_queues s.(k_uart).(uart_mem)) (line_of s) = line_of s.
Proof. reflexivity. Qed.

Lemma queue_found rb m : is_Some (m.(rings) !! rb) -> ring_queues m !! rb = Some (queue_at rb m).
Proof. intros [r E]. unfold queue_at, ring_queues. by rewrite lookup_fmap, E. Qed.

Definition room (q : list Z) : bool := Z.of_nat (length q) <? RINGBUF_CAPACITY.
Definition push_result (q : list Z) : Z := if room q then 0 else -1.
Definition pushed (q : list Z) (c : Z) : list Z := if room q then q ++ [c] else q.

Lemma steps_push E l rb c (q : list Z) l' :
  (forall s, uart_ok s -> line_of s = l -> is_Some (s.(k_uart).(uart_mem).(rings) !! rb) /\ queue_at rb s.(k_uart).(uart_mem) = q) ->
  (forall s, uart_ok s -> line_of s = l -> line_queues (<[rb := pushed q c]> (ring_queues s.(k_uart).(uart_mem))) l = l') ->
  steps E l (zoom (ringbuf_push rb c)) (push_result q) l'.
Proof.
  intros Hq Hl' s Hok HE Hl. destruct (Hq s Hok Hl) as [Hrb Eq]. pose proof (queue_found rb _ Hrb) as Ef. rewrite Eq in Ef.
  apply wp_zoom. apply (wp_unret _ (fun v => (v, None : option Z)) (fun p t => uart_ok (put t s) /\ uart_frame s (put t s) /\ p.1 = push_result q /\ line_of (put t s) = l')).
  apply (wp_unzoom (run_ring_op (RPush rb c)) (fun p s' => uart_ok s' /\ uart_frame s s' /\ p.1 = push_result q /\ line_of s' = l') s).
  apply wp_line_ring; [done|by right|]. cbn -[Z.ltb]. rewrite Ef. intros m' Hok' F' Hl1. rewrite Hl in Hl1. specialize (Hl' s Hok Hl).
  unfold push_result, pushed in *. fold (room q) in *. destruct (room q); cbn [fst snd] in *; split_and!; try done; [congruence|].
  rewrite Hl1, <- Hl', insert_id by done. done.
Qed.

Lemma steps_tx_push E l c : steps E l (tx_push c) (push_result l.(ln_tx)) (with_tx (pushed l.(ln_tx) c) l).
Proof.
  apply steps_push.
  - intros s Hok <-. split; [apply (uo_rings _ Hok)|done].
  - intros s Hok Hl. unfold line_queues. rewrite lookup_insert_eq, lookup_insert_ne by done. by rewrite <- Hl.
Qed.

Lemma steps_rx_push E l c : steps E l (rx_push c) (push_result l.(ln_rx)) (with_rx (pushed l.(ln_rx) c) l).
Proof.
  apply steps_push.
  - intros s Hok <-. split; [apply (uo_rings _ Hok)|done].
  - intros s Hok Hl. unfold line_queues. rewrite lookup_insert_eq, lookup_insert_ne by done. by rewrite <- Hl.
Qed.

Lemma steps_tx_empty E l : steps E l tx_empty (bool_decide (l.(ln_tx) = [])) l.
Proof.
  intros s Hok HE Hl. pose proof (queue_found _ _ (rg_tx _ (uo_rings _ Hok))) as Ef.
  apply wp_zoom.
  eapply wp_mono; [apply (wp_unret _ (fun b => (Z.b2z b, None : option Z)) (fun p t => uart_ok (put t s) /\ uart_frame s (put t s) /\ p.1 = Z.b2z (bool_decide (ln_tx l = [])) /\ line_of (put t s) = l))|].
  - apply (wp_unzoom (run_ring_op (REmpty uart_tx_buf)) (fun p s' => uart_ok s' /\ uart_frame s s' /\ p.1 = Z.b2z (bool_decide (ln_tx l = [])) /\ line_of s' = l) s).
    apply wp_line_ring; [done|right; apply (uo_rings _ Hok)|]. cbn. rewrite Ef. intros m' Hok' F' Hl1. rewrite line_queues_self, Hl in Hl1.
    split_and!; try done. rewrite <- Hl. cbn. by destruct (queue_at uart_tx_buf _).
  - intros b t (? & ? & Hb & ?). split_and!; try done. by destruct b, (bool_decide (ln_tx l = [])).
Qed.

Lemma steps_tx_count E l : steps E l tx_count (Z.of_nat (length l.(ln_tx))) l.
Proof.
  intros s Hok HE Hl. destruct (rg_tx _ (uo_rings _ Hok)) as [r Er]. apply wp_zoom, wp_bind. eapply wp_ring_get; [exact Er|]. apply wp_ret.
  rewrite put_view. split_and!; try done. rewrite <- Hl. cbn. unfold queue_at. rewrite (queues_lookup _ _ _ Er). symmetry.
  apply ring_queue_length. by eapply (proj2 (rg_ok _ (uo_rings _ Hok))).
Qed.

(** A pop delivers the head of the queue. *)
Lemma steps_take E l rb q l' :
  (forall s, uart_ok s -> line_of s = l -> is_Some (s.(k_uart).(uart_mem).(rings) !! rb) /\ queue_at rb s.(k_uart).(uart_mem) = q) ->
  (forall s, uart_ok s -> line_of s = l -> line_queues (<[rb := tail q]> (ring_queues s.(k_uart).(uart_mem))) l = l') ->
  steps E l (ring_take rb) (head q) l'.
Proof.
  intros Hq Hl' s Hok HE Hl. destruct (Hq s Hok Hl) as [Hrb Eq]. pose proof (queue_found rb _ Hrb) as Ef. rewrite Eq in Ef.
  assert (H : wp (zoom (run_ring_op (RPop rb addr_c)))
    (fun p s' => uart_ok s' /\ uart_frame s s' /\ p = (match q with [] => -1 | _ => 0 end, head q) /\ line_of s' = l') s).
  { apply wp_line_ring; [done|split; [by right|right; apply (uo_rings _ Hok)]|]. cbn. rewrite Ef. specialize (Hl' s Hok Hl).
    intros m' Hok' F' Hl1. rewrite Hl in Hl1. destruct q as [|c q]; cbn [fst snd head tail] in *; split_and!; try done; [|congruence].
    rewrite Hl1, <- Hl', insert_id by done. done. }
  revert H. unfold run_ring_op, ring_take, wp, zoom, mbind, M_bind, mret, M_ret, access.
  destruct (ringbuf_pop rb addr_c (view s)) as [[v m1]|]; [|done]. cbn. destruct (v =? 0) eqn:Ev; cbn.
  - destruct (cells m1 !! addr_c) as [c|]; [|done]. cbn. intros (H1 & H2 & H3 & H4). injection H3 as H3 H5.
    destruct q; [lia|]. cbn in *. split_and!; try done.
  - intros (H1 & H2 & H3 & H4). injection H3 as H3 H5. destruct q; [|lia]. by split_and!.
Qed.

Lemma steps_tx_take E l : steps E l (ring_take uart_tx_buf) (head l.(ln_tx)) (with_tx (tail l.(ln_tx)) l).
Proof.
  apply steps_take.
  - intros s Hok <-. split; [apply (uo_rings _ Hok)|done].
  - intros s Hok Hl. unfold line_queues. rewrite lookup_insert_eq, lookup_insert_ne by done. by rewrite <- Hl.
Qed.

Lemma steps_rx_take E l : steps E l (ring_take uart_rx_buf) (head l.(ln_rx)) (with_rx (tail l.(ln_rx)) l).
Proof.
  apply steps_take.
  - intros s Hok <-. split; [apply (uo_rings _ Hok)|done].
  - intros s Hok Hl. unfold line_queues. rewrite lookup_insert_eq, lookup_insert_ne by done. by rewrite <- Hl.
Qed.

(** *** Waiting threads *)

Lemma ok_sched s c : uart_ok s -> sched_ok c -> (forall q, is_queue s.(k_sched).(queues) q -> is_queue c.(queues) q) -> uart_ok (set_k_sched c s).
Proof. intros [H1 H2 H3 H4 H5 H6] Hc Hq. constructor; try done; by apply Hq. Qed.

Lemma unregistered_erase c en : unregistered (erase c) en <-> unregistered c en.
Proof.
  unfold unregistered, erase. sched_simpl. rewrite lookup_fmap. split; intros H y Hy.
  - rewrite Hy in H. exact (H (core_entry y) eq_refl).
  - destruct (entries c !! en) as [x|]; [|done]. injection Hy as <-. exact (H x eq_refl).
Qed.

Lemma own_local_erase c en : own_local (erase c) en <-> own_local c en.
Proof.
  unfold own_local. change (tp (erase c)) with (tp c). change (boot_idle_thread (erase c)) with (boot_idle_thread c).
  change (tasks (erase c)) with (core_thread <$> tasks c). rewrite lookup_fmap. split; intros H Hb y Hy; specialize (H Hb).
  - rewrite Hy in H. exact (H (core_thread y) eq_refl).
  - destruct (tasks c !! tp c) as [x|]; [|done]. injection Hy as <-. exact (H x eq_refl).
Qed.

Lemma own_local_state e en t v : own_local e en -> own_local (upd_task t (set_t_state v) e) en.
Proof.
  intros H Hb x Hx. specialize (H Hb). change (alter (set_t_state v) t (tasks e) !! tp e = Some x) in Hx.
  destruct (decide (t = tp e)) as [->|Hn]; [|rewrite lookup_alter_ne in Hx by done; exact (H x Hx)].
  rewrite lookup_alter_eq in Hx. destruct (tasks e !! tp e) as [y|] eqn:Ey; [|done]. injection Hx as <-. exact (H y eq_refl).
Qed.

Lemma woken_lasting q (e : sched) g t : lasting <$> (wake_one_state q e g).1.(tasks) !! t = lasting <$> e.(tasks) !! t.
Proof.
  unfold wake_one_state. destruct (List.find _ _) as [en|] eqn:E; [|done]. apply List.find_some in E as [_ Hw]. unfold is_waiting in Hw.
  set (w := waiter e en) in *. destruct (tasks e !! w) as [x|] eqn:Ex; [|done]. apply bool_decide_eq_true in Hw.
  assert (Hl : forall v, v <> THREAD_ZOMBIE -> lasting <$> alter (set_t_state v) w (tasks e) !! t = lasting <$> tasks e !! t).
  { intros v Hv. destruct (decide (w = t)) as [<-|Hn]; [|by rewrite lookup_alter_ne]. rewrite lookup_alter_eq, Ex. cbn [fmap option_fmap option_map].
    unfold lasting. cbn. by rewrite !bool_decide_eq_false_2 by congruence. }
  unfold woken. destruct (_ =? _); by apply Hl.
Qed.

Lemma woken_last q (c c' : sched) g : rep c (erase c) g -> rep c' (wake_one_state q (erase c) g).1 (wake_one_state q (erase c) g).2 -> threads_last c c'.
Proof.
  intros HR HR'. assert (Ec : tcs c' = tcs (erase c')) by done. split_and!.
  - rewrite Ec, (rp_core _ _ _ HR'). unfold wake_one_state. destruct (List.find _ _); [|done]. unfold woken. by destruct (_ =? _).
  - rewrite (thread_list_rep HR), (thread_list_rep HR'). unfold wake_one_state. destruct (List.find _ _); [|done]. unfold woken. by destruct (_ =? _).
  - intros t. pose proof (woken_lasting q (erase c) g t) as H. rewrite <- (rp_core _ _ _ HR') in H.
    assert (He : forall s : sched, lasting <$> tasks (erase s) !! t = lasting <$> tasks s !! t).
    { intros s. unfold erase. cbn [tasks set_tasks]. rewrite lookup_fmap. by destruct (tasks s !! t). }
    by rewrite !He in H.
Qed.

Lemma wp_sched_wake q Q c :
  sched_ok c -> is_queue c.(queues) q ->
  (forall c', sched_ok c' -> c'.(heap) = c.(heap) -> (c'.(tp), c'.(bh_running), c'.(qemu)) = (c.(tp), c.(bh_running), c.(qemu)) ->
     (forall p, is_queue c.(queues) p -> is_queue c'.(queues) p) -> (forall en, may_sleep c en -> may_sleep c' en) ->
     threads_last c c' -> Q tt c') ->
  wp (wait_queue_wake_one q) Q c.
Proof.
  intros [g HI] Hq HQ. pose proof (proj1 HI) as HR. apply (rep_is_queue HR) in Hq. eapply wp_wake_one; [exact HI|exact Hq|]. intros c' HR'.
  pose proof (inv_wake_one _ _ _ q HI Hq) as Hi'. pose proof (good_ok _ _ _ HR' Hi') as Hok'.
  assert (Hst : (wake_one_state q (erase c) g).1.(heap) = c.(heap) /\ (wake_one_state q (erase c) g).1.(queues) = (erase c).(queues) /\
    ((wake_one_state q (erase c) g).1.(tp), (wake_one_state q (erase c) g).1.(bh_running), (wake_one_state q (erase c) g).1.(qemu)) = (c.(tp), c.(bh_running), c.(qemu)) /\
    (forall en, may_sleep (erase c) en -> may_sleep (wake_one_state q (erase c) g).1 en)).
  { unfold wake_one_state. destruct (List.find _ _); [|done]. unfold woken. destruct (_ =? _); split_and!; try done; intros en [H1 H2];
      (split; [exact H1|exact (own_local_state _ _ _ _ H2)]). }
  destruct Hst as (E1 & E2 & E3 & E4). apply HQ; [done| | | | |by eapply woken_last].
  - rewrite <- E1, <- (rp_core _ _ _ HR'). done.
  - rewrite <- E3, <- (rp_core _ _ _ HR'). done.
  - intros p Hp. apply (rep_is_queue HR'). rewrite E2. by apply (rep_is_queue HR).
  - intros en [H1 H2]. rewrite <- (rp_core _ _ _ HR') in E4. destruct (E4 en) as [H3 H4].
    + split; [by apply unregistered_erase|by apply own_local_erase].
    + split; [by apply unregistered_erase|by apply own_local_erase].
Qed.

Lemma steps_wake E l which : (which = uart_rx_wait \/ which = uart_tx_wait) -> steps E l (wake_one which) tt l.
Proof.
  intros Hw s Hok HE Hl. apply wp_bind, wp_gets, wp_zoom. apply wp_sched_wake; [apply (uo_sched _ Hok)| |].
  - destruct Hw as [-> | ->]; [apply (uo_rx_wait _ Hok)|apply (uo_tx_wait _ Hok)].
  - intros c' Hc Eh Et Hq Hm Hl'. split_and!; [by apply ok_sched|by constructor|done|done].
Qed.

(** *** Trace and pending bits *)

Lemma steps_trace E l kind aux : steps E l (trace_record kind aux) tt l.
Proof.
  intros s Hok HE Hl. apply wp_trace_record; [apply (uo_trace _ Hok)|]. split_and!; [| |done|done].
  2: { constructor; [done..| |done|done]. change (rdtime_reads (recorded kind aux s)) with (S (rdtime_reads s)). lia. }
  destruct Hok as [H1 H2 H3 H4 H5 H6]. constructor; try done. by apply recorded_ok.
Qed.

Definition raised (b : bottom_half) (l : line) : line := with_pending (Z.lor l.(ln_pending) (2 ^ bh_code b)) l.

Lemma steps_raise E l b : steps E l (raise_bottom_half (bh_code b)) tt (raised b l).
Proof.
  intros s Hok HE Hl. apply wp_raise; [by destruct b|]. split_and!; [|by constructor|done|by rewrite <- Hl].
  destruct Hok as [H1 H2 H3 H4 H5 H6]. by constructor.
Qed.

(** * The serial driver: what its operations do to the line

    For every operation of [uart.c] a function on the line, and that the code
    computes it. *)

Section line.
Context (E : config).

(** ** Sending *)

Definition take_tx (l : line) : bool * line :=
  match l.(ln_tx) with
  | [] => (false, l)
  | c :: q => (true, with_idle false (with_sent (l.(ln_sent) ++ [u8 c]) (with_tx q l)))
  end.

Definition drain_one (l : line) : bool * line :=
  let l1 := look E l in
  if l1.(ln_idle) then take_tx l1 else (false, l1).

Fixpoint tx_drain (n : nat) (l : line) : line :=
  match n with
  | O => l
  | S n' => let '(more, l1) := drain_one l in if more : bool then tx_drain n' l1 else l1
  end.

Lemma with_tx_nil l : l.(ln_tx) = [] -> with_tx [] l = l.
Proof. destruct l. cbn. by intros ->. Qed.
Lemma with_rx_nil l : l.(ln_rx) = [] -> with_rx [] l = l.
Proof. destruct l. cbn. by intros ->. Qed.

Lemma steps_drain_one l : steps E l uart_tx_try_drain_one (drain_one l).1 (drain_one l).2.
Proof.
  apply steps_section. intros p. eapply inside_yields; [apply yields_lsr|]. intros v [_ Hv]. rewrite Hv. unfold drain_one.
  destruct (ln_idle (look E l)) eqn:Hi; cbn [negb].
  - eapply inside_bind; [apply steps_tx_take|]. unfold take_tx. destruct (ln_tx (look E l)) as [|c q] eqn:Eq; cbn [head tail fst snd].
    + rewrite with_tx_nil by done. apply inside_restore, steps_ret.
    + eapply inside_bind; [apply steps_send; [apply u8_range|exact Hi]|]. eapply inside_bind; [apply steps_wake; by right|].
      apply inside_restore, steps_ret.
  - apply inside_restore, steps_ret.
Qed.

Lemma steps_tx_drain n : forall l, steps E l (tx_drain_rounds n) tt (tx_drain n l).
Proof.
  induction n as [|n IH]; intros l; cbn [tx_drain_rounds tx_drain]; [apply steps_ret|].
  eapply steps_bind; [apply steps_drain_one|]. destruct (drain_one l) as [[] l1]; cbn [fst snd when]; [|apply steps_ret].
  eapply steps_bind; [by apply steps_count|]. apply IH.
Qed.

(** ** Receiving *)

Fixpoint rx_drain (n : nat) (l : line) : line :=
  match n with
  | O => l
  | S n' =>
      let l1 := look E l in
      match l1.(ln_fifo) with
      | [] => l1
      | b :: rest => rx_drain n' (with_rx (pushed l1.(ln_rx) (Z.land b 255)) (with_fifo rest l1))
      end
  end.

Lemma steps_rx_drain n : forall l, steps E l (rx_drain_rounds n) tt (rx_drain n l).
Proof.
  induction n as [|n IH]; intros l; cbn [rx_drain_rounds rx_drain]; [apply steps_ret|].
  apply steps_section. intros p. eapply inside_yields; [apply yields_lsr|]. intros v [Hv _]. rewrite Hv.
  destruct (ln_fifo (look E l)) as [|b rest] eqn:Ef.
  - rewrite bool_decide_true by done. apply inside_end.
  - rewrite bool_decide_false by done. eapply inside_yields; [apply (yields_rbr _ _ _ _ Ef)|]. intros w Hw. cbn beta. rewrite Hw.
    eapply inside_bind; [apply steps_rx_push|]. cbn [ln_rx with_fifo].
    eapply (inside_bind _ _ _ _ _ tt); [|eapply inside_bind; [by apply steps_count|apply inside_restore, IH]].
    destruct (push_result _ =? 0); cbn [when]; [apply steps_wake; by left|apply steps_ret].
Qed.

(** ** The top half *)

Definition irq_top (l : line) : line :=
  let l1 := look E l in
  let l2 := if bool_decide (l1.(ln_fifo) = []) then l1 else raised BH_UART_RX (ier_clear RX_BITS l1) in
  if l1.(ln_idle) && negb (Z.land l2.(ln_ier) UART_IER_TX_ENABLE =? 0) then raised BH_UART_TX (ier_clear UART_IER_TX_ENABLE l2) else l2.

Lemma steps_irq_top l : steps E l uart_irq_top tt (irq_top l).
Proof.
  eapply steps_bind; [by apply steps_count|]. eapply steps_yields; [apply yields_lsr|]. intros v [Hr Ht]. rewrite Hr, Ht, negb_involutive.
  unfold irq_top. set (l1 := look E l). set (l2 := if bool_decide _ then l1 else _).
  eapply (steps_bind _ _ _ _ tt l2).
  { unfold l2. fold l1. destruct (bool_decide (ln_fifo l1 = [])); cbn [negb when]; [apply steps_ret|]. eapply steps_bind; [apply steps_trace|].
    eapply steps_bind; [by apply steps_ier_clear|apply steps_raise]. }
  eapply (steps_bind _ _ _ _ (ln_idle l1 && negb (Z.land (ln_ier l2) UART_IER_TX_ENABLE =? 0)) l2).
  { destruct (ln_idle l1); [|apply steps_ret]. eapply steps_bind; [apply steps_ier|apply steps_ret]. }
  destruct (_ && _); cbn [when]; [|apply steps_ret]. eapply steps_bind; [apply steps_tx_count|]. eapply steps_bind; [apply steps_trace|].
  eapply steps_bind; [by apply steps_ier_clear|apply steps_raise].
Qed.

(** ** The bottom halves *)

Definition rx_bottom (l : line) : line :=
  let l1 := look E (rx_drain 16 l) in
  if bool_decide (l1.(ln_fifo) = []) then ier_set RX_BITS l1 else raised BH_UART_RX l1.

Lemma steps_rx_bottom l : steps E l uart_rx_run_bottom_half tt (rx_bottom l).
Proof.
  eapply steps_bind; [apply steps_trace|]. eapply steps_bind; [apply steps_rx_drain|]. eapply steps_yields; [apply yields_lsr|].
  intros v [Hr _]. rewrite Hr. unfold rx_bottom. change (Z.to_nat UART_DEFERRED_WORK_BUDGET) with 16%nat. cbn zeta.
  destruct (bool_decide (ln_fifo (look E (rx_drain 16 l)) = [])); cbn [negb]; [by apply steps_ier_set|apply steps_raise].
Qed.

(** What the driver relies on when it asks for more output: the registered
    producer, if there is one, returns and does [fill] to the line. *)
Definition refills (call : Z -> M ksys unit) (fill : Z -> line -> line) : Prop :=
  E.(cf_refill) <> 0 -> forall l, steps E l (call E.(cf_refill)) tt (fill E.(cf_refill) l).

Definition refilled (fill : Z -> line -> line) (l : line) : line :=
  if bool_decide (l.(ln_tx) = []) && negb (E.(cf_refill) =? 0) then fill E.(cf_refill) l else l.

Definition tx_arm (l : line) : line :=
  if bool_decide (l.(ln_tx) = []) then ier_clear UART_IER_TX_ENABLE l
  else
    let l1 := look E (ier_set UART_IER_TX_ENABLE l) in
    if l1.(ln_idle) then raised BH_UART_TX l1 else l1.

Definition tx_bottom (fill : Z -> line -> line) (l : line) : line :=
  tx_arm (refilled fill (tx_drain 16 (refilled fill l))).

Lemma steps_settings {A} l (f : uart -> A) a :
  (forall u, config_of u = E -> f u = a) -> steps E l (dev f) a l.
Proof. intros Hf s Hok HE Hl. apply wp_gets. split_and!; try done. by apply Hf. Qed.

Lemma steps_tx_buf_empty l : steps E l uart_tx_buf_is_empty (bool_decide (l.(ln_tx) = [])) l.
Proof. apply steps_section. intros p. eapply inside_bind; [apply steps_tx_empty|]. apply inside_restore, steps_ret. Qed.

Lemma steps_refill call fill l : refills call fill -> steps E l (run_refill call) tt (refilled fill l).
Proof.
  intros Hc. eapply steps_bind; [apply steps_tx_buf_empty|]. eapply (steps_bind _ _ _ _ E.(cf_refill)); [apply steps_settings; by intros u <-|].
  unfold refilled. destruct (Z.eqb_spec (cf_refill E) 0) as [_|Hn]; [rewrite andb_false_r; apply steps_ret|]. cbn [negb].
  rewrite andb_true_r. destruct (bool_decide _); cbn [when]; [by apply Hc|apply steps_ret].
Qed.

Lemma steps_tx_bottom call fill l : refills call fill -> steps E l (uart_tx_run_bottom_half call) tt (tx_bottom fill l).
Proof.
  intros Hc. eapply steps_bind; [apply steps_tx_count|]. eapply steps_bind; [apply steps_trace|]. eapply steps_bind; [by apply steps_refill|].
  eapply steps_bind; [apply steps_tx_drain|]. eapply steps_bind; [by apply steps_refill|]. unfold tx_bottom.
  change (Z.to_nat UART_DEFERRED_WORK_BUDGET) with 16%nat. set (l2 := refilled fill _). apply steps_section. intros p.
  eapply inside_bind; [apply steps_tx_empty|]. eapply inside_bind; [|apply inside_end]. unfold tx_arm.
  destruct (bool_decide (ln_tx l2 = [])); cbn [negb]; [by apply steps_ier_clear|]. eapply steps_bind; [by apply steps_ier_set|].
  eapply steps_yields; [apply yields_lsr|]. intros v [_ Hv]. rewrite Hv, negb_involutive. destruct (ln_idle _); cbn [when]; [apply steps_raise|apply steps_ret].
Qed.

(** ** Polling *)

Definition send_poll (c : Z) (l : line) : bool * line :=
  if bool_decide (l.(ln_tx) = []) then
    let l1 := look E l in
    if l1.(ln_idle) then (true, with_idle false (with_sent (l1.(ln_sent) ++ [u8 c]) l1)) else (false, l1)
  else (false, (drain_one l).2).

Lemma steps_send_poll c l : steps E l (uart_send_poll_round c) (if (send_poll c l).1 then Done tt else Again) (send_poll c l).2.
Proof.
  apply steps_section. intros p. eapply inside_bind; [apply steps_tx_empty|]. unfold send_poll. destruct (bool_decide (ln_tx l = [])); cbn [negb fst snd].
  - eapply inside_yields; [apply yields_lsr|]. intros v [_ Hv]. rewrite Hv, negb_involutive. destruct (ln_idle (look E l)) eqn:Hi; cbn [fst snd].
    + eapply inside_bind; [by apply steps_count|]. eapply inside_bind; [apply steps_send; [apply u8_range|exact Hi]|]. apply inside_restore, steps_ret.
    + apply inside_restore, steps_ret.
  - eapply inside_bind; [apply steps_drain_one|]. apply inside_restore, steps_ret.
Qed.

Definition recv_poll (l : line) : option Z * line :=
  match l.(ln_rx) with
  | c :: q => (Some c, with_rx q l)
  | [] =>
      let l1 := look E l in
      match l1.(ln_fifo) with
      | [] => (None, l1)
      | b :: rest => (Some (Z.land b 255), with_fifo rest l1)
      end
  end.

Lemma steps_recv_poll l : steps E l uart_recv_poll_round (match (recv_poll l).1 with Some c => Done c | None => Again end) (recv_poll l).2.
Proof.
  apply steps_section. intros p. eapply inside_bind; [apply steps_rx_take|]. unfold recv_poll.
  destruct (ln_rx l) as [|c q] eqn:Eq; cbn [head tail fst snd]; [|apply inside_restore, steps_ret].
  rewrite with_rx_nil by done. eapply inside_yields; [apply yields_lsr|]. intros v [Hv _]. rewrite Hv.
  destruct (ln_fifo (look E l)) as [|b rest] eqn:Ef; cbn [fst snd].
  - rewrite bool_decide_true by done. apply inside_restore, steps_ret.
  - rewrite bool_decide_false by done. cbn [negb]. eapply inside_yields; [apply (yields_rbr _ _ _ _ Ef)|]. intros w ->.
    eapply inside_bind; [by apply steps_count|]. apply inside_restore, steps_ret.
Qed.

(** One round of [uart_tx_wait_idle]. *)
Definition wait_idle (l : line) : bool * line :=
  if bool_decide (l.(ln_tx) = []) then
    let l1 := look E l in
    if l1.(ln_idle) then (true, l1) else (false, (drain_one l1).2)
  else (false, (drain_one l).2).

Lemma steps_wait_idle l : steps E l uart_tx_wait_idle_round (wait_idle l).1 (wait_idle l).2.
Proof.
  apply steps_section. intros p. eapply inside_bind; [apply steps_tx_empty|]. unfold wait_idle. destruct (bool_decide (ln_tx l = [])).
  - eapply (inside_bind _ _ _ _ _ (ln_idle (look E l)) (look E l)).
    { eapply steps_yields; [apply yields_lsr|]. intros v [_ Hv]. rewrite Hv, negb_involutive. apply steps_ret. }
    destruct (ln_idle (look E l)); cbn [fst snd]; [apply inside_restore, steps_ret|].
    eapply inside_bind; [apply steps_drain_one|]. apply inside_restore, steps_ret.
  - eapply inside_bind; [apply steps_ret|]. cbn [fst snd]. eapply inside_bind; [apply steps_drain_one|]. apply inside_restore, steps_ret.
Qed.

End line.
