(* ===== verification/UartHistory.v ===== *)
(** * The serial driver: histories

    Rounds that may put the calling thread to sleep, output of a whole buffer,
    and histories of driver activity: interrupts, bottom halves and rounds of
    sending and receiving in any order, with what they accept for output and
    deliver as input. *)

From S2P Require Import Prelude Lists Memory Slab MemoryInit ByteAllocator Task Sched Wait Thread HeapIface HeapLink SchedRep SchedLists WaitLists ThreadInv SchedOps WaitOps ThreadNew ThreadExit ThreadReap ThreadLoops SchedHistory Ring Str Cpio Irq Trace Work Uart UartInv.

Open Scope Z_scope.

(** ** Sleeping *)

(** Another thread may run afterwards, with its own interrupt flag. *)
Definition moved (s s' : ksys) : Prop := settings s' = settings s /\ others s' = others s.

Lemma frame_moved s s' : uart_frame s s' -> moved s s'.
Proof. by intros [H1 H2 _ _ _ _]. Qed.
Lemma uart_moved_trans s1 s2 s3 : moved s1 s2 -> moved s2 s3 -> moved s1 s3.
Proof. intros [A1 A2] [B1 B2]. split; congruence. Qed.
Lemma moved_sched c s : moved s (set_k_sched c s).
Proof. done. Qed.

Lemma schedule_state_queues e g : (schedule_state e g).(queues) = e.(queues).
Proof.
  unfold schedule_state, resumed, switched. destruct (bool_decide _ && _); [done|].
  match goal with |- context [match ?c with c_schedule_resume => _ | _ => _ end] => destruct c end; by destruct (is_running _ _).
Qed.

Lemma wp_sched_sleep q en Q c :
  sched_ok c -> is_queue c.(queues) q -> unregistered c en -> own_local c en ->
  (forall v c', sched_ok c' -> (forall p, is_queue c.(queues) p -> is_queue c'.(queues) p) ->
     (is_Some v -> c'.(heap) = c.(heap) /\ (c'.(tp), c'.(bh_running), c'.(qemu)) = (c.(tp), c.(bh_running), c.(qemu))) -> Q v c') ->
  wp (wait_queue_sleep_locked q en) Q c.
Proof.
  intros [g HI] Hq Hu Ho HQ. pose proof (proj1 HI) as HR. apply (rep_is_queue HR) in Hq. destruct (cur_task HI) as (x & Hx & _).
  eapply wp_sleep; [exact HI|exact Hq| |exact Hx| | |].
  - eapply unregistered_rep; [apply HI|exact Hu].
  - intros Hb. eapply own_local_rep; [apply HI|exact Ho|exact Hx|exact Hb].
  - intros _ c' HI'. pose proof (proj1 HI') as HR'. apply HQ; [by eapply sched_ok_of| |intros _; split].
    + intros p Hp. apply (rep_is_queue HR'). by apply (rep_is_queue HR).
    + change (heap (erase c') = heap c). by rewrite (rp_core _ _ _ HR').
    + change ((tp (erase c'), bh_running (erase c'), qemu (erase c')) = (tp c, bh_running c, qemu c)). by rewrite (rp_core _ _ _ HR').
  - intros _ c' e1 g1 HI'. pose proof (proj1 HI') as HR'. apply HQ; [by eapply sched_ok_of| |by intros []].
    intros p Hp. apply (rep_is_queue HR'). rewrite schedule_state_queues. by apply (rep_is_queue HR).
Qed.

(** The end of a round that has nothing to do but wait. *)
Lemma wp_round_sleep {A} which entry p (Q : round A -> ksys -> Prop) s :
  uart_ok s -> (which = uart_rx_wait \/ which = uart_tx_wait) -> may_sleep s.(k_sched) entry ->
  (forall r s', uart_ok s' -> moved s s' -> line_of s' = line_of s -> r = Again \/ r = Asleep -> Q r s') ->
  wp (q ← dev which; slept ← zoom (wait_queue_sleep_locked q entry);
      match slept with Some _ => k_irq_restore p ;; mret Again | None => mret Asleep end) Q s.
Proof.
  intros Hok Hw [Hu Ho] HQ. apply wp_bind, wp_gets, wp_bind, wp_zoom.
  apply wp_sched_sleep; [apply (uo_sched _ Hok)| |exact Hu|exact Ho|].
  { destruct Hw as [-> | ->]; [apply (uo_rx_wait _ Hok)|apply (uo_tx_wait _ Hok)]. }
  intros v c' Hc Hq _. assert (Hok' : uart_ok (set_k_sched c' s)) by (by apply ok_sched). destruct v as [v|].
  - apply wp_bind, wp_k_irq_restore, wp_ret. apply HQ; [by apply (uart_ok_irq _ (set_k_sched c' s))|done|done|by left].
  - apply wp_ret. apply HQ; [done|done|done|by right].
Qed.

(** Resuming after the sleep. *)
Definition uart_resume (entry : Z) (status : bool) : M ksys unit :=
  _ ← zoom (wait_queue_sleep_rest entry 0);
  k_irq_restore status.

Definition may_resume (s : ksys) (entry : Z) : Prop :=
  exists y, s.(k_sched).(entries) !! entry = Some y /\ (y.(e_queue) = 0 \/ y.(e_task) = s.(k_sched).(tp)).

Lemma wp_resume entry status Q s :
  uart_ok s -> may_resume s entry ->
  (forall s', uart_ok s' -> moved s s' -> line_of s' = line_of s -> Q tt s') -> wp (uart_resume entry status) Q s.
Proof.
  intros Hok (y & Hy & Ho) HQ. unfold uart_resume. destruct (uo_sched _ Hok) as [g HI]. pose proof (proj1 HI) as HR.
  apply wp_bind, wp_zoom, wp_bind. pose proof (entry_rep HR _ _ Hy) as Hy'.
  assert (Hend : forall c', sched_ok c' -> (forall p, is_queue s.(k_sched).(queues) p -> is_queue c'.(queues) p) ->
    wp (mret 0) (fun _ t => wp (k_irq_restore status) Q (put t s)) c').
  { intros c' Hc Hq. apply wp_ret, wp_k_irq_restore. apply HQ; [|done|done].
    apply (uart_ok_irq _ (set_k_sched c' s)). by apply ok_sched. }
  eapply (wp_finish (k_sched s)); [exact HR|apply HI|apply HI|exact Hy'|..].
  - intros _. apply Hend; [by exists g|done].
  - intros Hq c' HR'. apply Hend.
    + eapply good_ok; [exact HR'|]. eapply inv_finish; [exact HI|exact Hy'|exact Hq|].
      destruct Ho as [Ho|Ho]; [by rewrite <- Ho in Hq|exact Ho].
    + intros p Hp. apply (rep_is_queue HR'). rewrite finish_state_rest. by apply (rep_is_queue HR).
Qed.

(** ** Rounds driven by interrupts *)

Definition send_irq (E : config) (c : Z) (sleepable : bool) (l : line) : bool * line :=
  if room l.(ln_tx) then (true, ier_set UART_IER_TX_ENABLE (with_tx (l.(ln_tx) ++ [c]) l))
  else
    let l1 := ier_set UART_IER_TX_ENABLE l in
    (false, if sleepable then l1 else (drain_one E l1).2).

Lemma with_tx_same l : with_tx l.(ln_tx) l = l.
Proof. by destruct l. Qed.

Lemma steps_send_room E c b entry l :
  room l.(ln_tx) = true -> steps E l (uart_send_irq_round c b entry) (Done tt) (ier_set UART_IER_TX_ENABLE (with_tx (l.(ln_tx) ++ [c]) l)).
Proof.
  intros Hr. apply steps_section. intros p. eapply inside_bind; [apply steps_tx_push|]. unfold push_result, pushed. rewrite Hr. cbn [Z.eqb].
  eapply inside_bind; [by apply steps_ier_set|]. apply inside_restore, steps_ret.
Qed.

Lemma steps_send_full E c entry l :
  room l.(ln_tx) = false -> steps E l (uart_send_irq_round c false entry) Again (drain_one E (ier_set UART_IER_TX_ENABLE l)).2.
Proof.
  intros Hr. apply steps_section. intros p. eapply inside_bind; [apply steps_tx_push|]. unfold push_result, pushed. rewrite Hr. cbn [Z.eqb].
  rewrite with_tx_same. eapply inside_bind; [by apply steps_ier_set|]. eapply inside_bind; [apply steps_drain_one|]. apply inside_restore, steps_ret.
Qed.

(** Code that runs with interrupts off before a sleep. *)
Lemma wp_before_sleep {A B} E l (m : M ksys A) (k : A -> M ksys B) a l1 entry Q s :
  steps E l m a l1 -> uart_ok s -> settings s = E -> line_of s = l -> may_sleep s.(k_sched) entry ->
  (forall s1, uart_ok s1 -> moved s s1 -> settings s1 = E -> line_of s1 = l1 -> may_sleep s1.(k_sched) entry -> wp (k a) Q s1) ->
  wp (m ≫= k) Q s.
Proof.
  intros Hm Hok HE Hl Hs Hk. apply wp_bind. eapply wp_mono; [by apply Hm|]. intros v s1 (Hok1 & F1 & -> & Hl1).
  apply Hk; [done|by apply frame_moved|by rewrite (uf_settings _ _ F1)|done|by apply (uf_sleep _ _ F1)].
Qed.

Lemma wp_send_irq c b entry s :
  uart_ok s -> (b = true -> may_sleep s.(k_sched) entry) ->
  wp (uart_send_irq_round c b entry)
    (fun r s' => uart_ok s' /\ moved s s' /\ line_of s' = (send_irq (settings s) c b (line_of s)).2 /\
       (r = Done tt <-> (send_irq (settings s) c b (line_of s)).1 = true)) s.
Proof.
  intros Hok Hs. unfold send_irq. destruct (room (ln_tx (line_of s))) eqn:Hr; cbn [fst snd].
  { eapply wp_mono; [apply (steps_send_room (settings s) c b entry _ Hr s Hok eq_refl eq_refl)|].
    intros v s' (H1 & H2 & -> & H4). split_and!; [done|by apply frame_moved|done|done]. }
  destruct b.
  - specialize (Hs eq_refl). apply wp_bind, wp_k_irq_save. change (may_sleep (k_sched (set_k_irq false s)) entry) in Hs.
    eapply (wp_before_sleep (settings s) (line_of s)); [apply steps_tx_push|by apply uart_ok_irq|done|done|exact Hs|].
    intros s1 Hok1 F1 E1 Hl1 Hs1. unfold push_result, pushed in *. rewrite Hr in *. cbn [Z.eqb]. rewrite with_tx_same in Hl1.
    eapply (wp_before_sleep (settings s)); [by apply steps_ier_set|done|done|exact Hl1|exact Hs1|]. intros s2 Hok2 F2 E2 Hl2 Hs2.
    apply wp_round_sleep; [done|by right|done|]. intros r s' Hok' F' Hl' Hr'. split_and!; [done| |by rewrite Hl'|].
    + eapply (uart_moved_trans _ (set_k_irq false s)); [done|]. eapply uart_moved_trans; [exact F1|]. by eapply uart_moved_trans.
    + destruct Hr' as [-> | ->]; by split.
  - eapply wp_mono; [apply (steps_send_full (settings s) c entry _ Hr s Hok eq_refl eq_refl)|].
    intros v s' (H1 & H2 & -> & H4). split_and!; [done|by apply frame_moved|done|by split].
Qed.

Definition recv_irq (l : line) : option Z * line :=
  match l.(ln_rx) with
  | c :: q => (Some c, with_rx q l)
  | [] => (None, l)
  end.

Lemma wp_recv_irq b entry s :
  uart_ok s -> (b = true -> may_sleep s.(k_sched) entry) ->
  wp (uart_recv_irq_round b entry)
    (fun r s' => uart_ok s' /\ moved s s' /\ line_of s' = (recv_irq (line_of s)).2 /\
       match r with Done c => (recv_irq (line_of s)).1 = Some c | _ => (recv_irq (line_of s)).1 = None end) s.
Proof.
  intros Hok Hs. unfold recv_irq. destruct (ln_rx (line_of s)) as [|c q] eqn:Eq.
  2: { assert (H : steps (settings s) (line_of s) (uart_recv_irq_round b entry) (Done c) (with_rx q (line_of s))).
    { apply steps_section. intros p. eapply inside_bind; [apply steps_rx_take|]. rewrite Eq. apply inside_restore, steps_ret. }
    eapply wp_mono; [apply (H s Hok eq_refl eq_refl)|]. intros v s' (H1 & H2 & -> & H4). split_and!; [done|by apply frame_moved|done|done]. }
  destruct b.
  - specialize (Hs eq_refl). apply wp_bind, wp_k_irq_save. change (may_sleep (k_sched (set_k_irq false s)) entry) in Hs.
    eapply (wp_before_sleep (settings s) (line_of s)); [apply steps_rx_take|by apply uart_ok_irq|done|done|exact Hs|].
    intros s1 Hok1 F1 E1 Hl1 Hs1. rewrite Eq in *. cbn [head tail] in *. rewrite with_rx_nil in Hl1 by done.
    apply wp_round_sleep; [done|by left|done|]. intros r s' Hok' F' Hl' Hr'. split_and!; [done| |by rewrite Hl'|].
    + eapply (uart_moved_trans _ (set_k_irq false s)); [done|]. by eapply uart_moved_trans.
    + by destruct Hr' as [-> | ->].
  - assert (H : steps (settings s) (line_of s) (uart_recv_irq_round false entry) Again (line_of s)).
    { apply steps_section. intros p. eapply inside_bind; [apply steps_rx_take|]. rewrite Eq. cbn [head tail]. rewrite with_rx_nil by done.
      apply inside_restore, steps_ret. }
    eapply wp_mono; [apply (H s Hok eq_refl eq_refl)|]. intros v s' (H1 & H2 & -> & H4). split_and!; [done|by apply frame_moved|done|done].
Qed.

(** ** A whole buffer *)

(** All of the data, or nothing. *)
Definition write_async (E : config) (buf : Z) (data : list Z) (l : line) : Z * line :=
  if (buf =? 0) || (E.(cf_enabled) =? 0) || (RINGBUF_CAPACITY - Z.of_nat (length l.(ln_tx)) <? Z.of_nat (length data)) then (-1, l)
  else (0, if bool_decide (data = []) then l else ier_set UART_IER_TX_ENABLE (with_tx (l.(ln_tx) ++ data) l)).

Lemma tx_bounded s l : uart_ok s -> line_of s = l -> Z.of_nat (length l.(ln_tx)) <= RINGBUF_CAPACITY.
Proof.
  intros Hok <-. destruct (rg_tx _ (uo_rings _ Hok)) as [r Er]. cbn. unfold queue_at. rewrite (queues_lookup _ _ _ Er). cbn.
  pose proof (proj2 (rg_ok _ (uo_rings _ Hok)) _ _ Er) as Hr. rewrite (ring_queue_length _ Hr). apply Hr.
Qed.

Lemma wp_buffer_byte (buf i c : Z) Q s : s.(k_mem).(cm_bytes) !! (buf + i) = Some c -> Q c s -> wp (zoom (byte (buf + i)) : M ksys Z) Q s.
Proof.
  intros H HQ. apply wp_zoom, wp_zoom. eapply wp_access; [cbn; by rewrite Z.add_0_r|]. by rewrite !put_view.
Qed.

(** The copying loop, in a section entered in [s]. *)
Lemma wp_copy buf data Q s :
  uart_ok s -> block_at s.(k_mem).(cm_bytes) buf data ->
  Z.of_nat (length (line_of s).(ln_tx)) + Z.of_nat (length data) <= RINGBUF_CAPACITY ->
  (forall s', uart_ok s' -> uart_frame s s' -> line_of s' = with_tx ((line_of s).(ln_tx) ++ data) (line_of s) -> Q tt s') ->
  wp (for_up (length data) 0 (fun i => c ← zoom (byte (buf + i)); _ ← tx_push c; mret tt)) Q s.
Proof.
  intros Hok Hb Hr HQ.
  apply (wp_for_up (fun i s' => uart_ok s' /\ uart_frame s s' /\
    line_of s' = with_tx ((line_of s).(ln_tx) ++ take (Z.to_nat i) data) (line_of s))).
  - split_and!; [done|apply uart_frame_refl|]. cbn. by rewrite app_nil_r.
  - intros i s' Hi (Hok' & F' & Hl'). destruct (lookup_lt_is_Some_2 data (Z.to_nat i)) as [c Ec]; [lia|].
    apply wp_bind. eapply (wp_buffer_byte buf i c).
    { pose proof (Hb _ _ Ec) as Hc. rewrite Z2Nat.id in Hc by lia. pose proof (uf_others _ _ F') as Eo.
      assert (k_mem s' = k_mem s) as -> by (unfold others in Eo; congruence). exact Hc. }
    apply wp_bind. eapply wp_mono; [apply (steps_tx_push (settings s') (line_of s') c s' Hok' eq_refl eq_refl)|].
    intros v s2 (Hok2 & F2 & _ & Hl2). apply wp_ret. split_and!; [done|by eapply uart_frame_trans|].
    rewrite Hl2, Hl'. cbn [ln_tx with_tx]. unfold pushed, room.
    rewrite (proj2 (Z.ltb_lt _ _)) by (rewrite length_app, length_take; unfold RINGBUF_CAPACITY in *; lia).
    rewrite <- app_assoc. replace (Z.to_nat (i + 1)) with (S (Z.to_nat i)) by lia. by rewrite (take_S_r _ _ _ Ec).
  - intros s' (Hok' & F' & Hl'). rewrite Nat2Z.id in Hl' || replace (Z.to_nat (0 + Z.of_nat (length data))) with (length data) in Hl' by lia.
    rewrite take_ge in Hl' by lia. by apply HQ.
Qed.

Lemma with_tx_tx v l : l.(ln_tx) = v -> with_tx v l = l.
Proof. intros <-. apply with_tx_same. Qed.

Lemma wp_write_async buf data s :
  uart_ok s -> (buf <> 0 -> block_at s.(k_mem).(cm_bytes) buf data) -> Z.of_nat (length data) < 2 ^ 32 ->
  wp (uart_write_async buf (Z.of_nat (length data)))
    (fun v s' => uart_ok s' /\ uart_frame s s' /\ v = (write_async (settings s) buf data (line_of s)).1 /\
       line_of s' = (write_async (settings s) buf data (line_of s)).2) s.
Proof.
  intros Hok Hb Hd. apply wp_bind, wp_k_irq_save. set (s1 := set_k_irq false s). assert (Hok1 : uart_ok s1) by (by apply uart_ok_irq).
  assert (Hend : forall v s', uart_ok s' -> uart_frame s1 s' -> v = (write_async (settings s) buf data (line_of s)).1 ->
    line_of s' = (write_async (settings s) buf data (line_of s)).2 ->
    wp (k_irq_restore (k_irq s) ;; mret v) (fun v s' => uart_ok s' /\ uart_frame s s' /\ v = (write_async (settings s) buf data (line_of s)).1 /\
       line_of s' = (write_async (settings s) buf data (line_of s)).2) s').
  { intros v s' Hok' F' Hv Hl'. apply wp_bind, wp_k_irq_restore, wp_ret. split_and!; [by apply uart_ok_irq|by apply section_frame|done|done]. }
  apply wp_bind, wp_gets, wp_bind. eapply wp_mono; [apply (steps_tx_count (settings s1) (line_of s1) s1 Hok1 eq_refl eq_refl)|].
  intros count s2 (Hok2 & F2 & -> & Hl2). change (line_of s1) with (line_of s) in *.
  pose proof (tx_bounded s (line_of s) Hok eq_refl) as Hc. unfold RINGBUF_CAPACITY in Hc.
  unfold write_async in *. change (uart_irq_enabled (k_uart s1)) with (cf_enabled (settings s)). rewrite u32_id by (unfold RINGBUF_CAPACITY; lia).
  destruct ((buf =? 0) || _ || _) eqn:Eg; [by apply Hend|]. apply orb_false_iff in Eg as [Eg1 Eg3]. apply orb_false_iff in Eg1 as [Eg1 Eg2].
  apply Z.eqb_neq in Eg1. apply Z.ltb_ge in Eg3. apply wp_bind. rewrite Nat2Z.id. apply wp_copy; [done| | |].
  - pose proof (uf_others _ _ F2) as Eo. assert (k_mem s2 = k_mem s) as -> by (unfold others in Eo; cbn in Eo; congruence). by apply Hb.
  - rewrite Hl2. lia.
  - intros s3 Hok3 F3 Hl3. rewrite Hl2 in Hl3. apply wp_bind.
    assert (F13 : uart_frame s1 s3) by (by eapply uart_frame_trans). destruct data as [|d data].
    + cbn [length Z.of_nat Z.eqb negb when]. apply wp_ret. apply Hend; [done|done|done|].
      rewrite Hl3, app_nil_r, bool_decide_true by done. apply with_tx_same.
    + rewrite (proj2 (Z.eqb_neq _ 0)) by (cbn; lia). cbn [negb when].
      eapply wp_mono; [apply (steps_ier_set (settings s3) _ UART_IER_TX_ENABLE ltac:(done) s3 Hok3 eq_refl eq_refl)|].
      intros v s4 (Hok4 & F4 & _ & Hl4). apply Hend; [done|by eapply uart_frame_trans|done|]. rewrite Hl4, Hl3, bool_decide_false by done. done.
Qed.

(** ** Histories *)

Inductive uart_op :=
| UTop (* the device raises its interrupt *)
| UClaim (* the dispatcher takes the pending bits for a round *)
| URx (* it runs the receiving bottom half *)
| UTx (* it runs the sending bottom half *)
| USend (c : Z) (sleepable : bool) (entry : Z) (* a round of [uart_send], interrupt driven *)
| USendPoll (c : Z) (* a round of [uart_send], polling *)
| URecv (sleepable : bool) (entry : Z) (* a round of [uart_recv], interrupt driven *)
| URecvPoll (* a round of [uart_recv], polling *)
| UFlush (* a round of [uart_tx_wait_idle] *)
| UWrite (buf : Z) (data : list Z) (* [uart_write_async] of the bytes at [buf] *)
| UResume (entry : Z) (status : bool). (* a sleeper goes on *)

(** What was accepted for output, and what was delivered as input. *)
Definition traffic : Type := list Z * list Z.

Definition run_uart_op (call : Z -> M ksys unit) (op : uart_op) : M ksys traffic :=
  match op with
  | UTop => uart_irq_top ;; mret ([], [])
  | UClaim => modify (set_pending 0) ;; mret ([], [])
  | URx => uart_rx_run_bottom_half ;; mret ([], [])
  | UTx => uart_tx_run_bottom_half call ;; mret ([], [])
  | USend c b entry => r ← uart_send_irq_round c b entry; mret (match r with Done _ => [u8 c] | _ => [] end, [])
  | USendPoll c => r ← uart_send_poll_round c; mret (match r with Done _ => [u8 c] | _ => [] end, [])
  | URecv b entry => r ← uart_recv_irq_round b entry; mret ([], match r with Done c => [c] | _ => [] end)
  | URecvPoll => r ← uart_recv_poll_round; mret ([], match r with Done c => [c] | _ => [] end)
  | UFlush => _ ← uart_tx_wait_idle_round; mret ([], [])
  | UWrite buf data => r ← uart_write_async buf (Z.of_nat (length data)); mret (if r =? 0 then u8 <$> data else [], [])
  | UResume entry status => uart_resume entry status ;; mret ([], [])
  end.

(** When an operation may happen. *)
Definition uart_allowed (op : uart_op) (s : ksys) : Prop :=
  match op with
  | USend _ b entry | URecv b entry => b = true -> may_sleep s.(k_sched) entry
  | UWrite buf data => (buf <> 0 -> block_at s.(k_mem).(cm_bytes) buf data) /\ Z.of_nat (length data) < 2 ^ 32
  | UResume entry _ => may_resume s entry
  | _ => True
  end.

(** What it does to the line. *)
Definition line_step (E : config) (fill : Z -> line -> line) (op : uart_op) (l : line) : traffic * line :=
  match op with
  | UTop => (([], []), irq_top E l)
  | UClaim => (([], []), with_pending 0 l)
  | URx => (([], []), rx_bottom E l)
  | UTx => (([], []), tx_bottom E fill l)
  | USend c b _ => let '(done, l') := send_irq E c b l in ((if done : bool then [u8 c] else [], []), l')
  | USendPoll c => let '(done, l') := send_poll E c l in ((if done : bool then [u8 c] else [], []), l')
  | URecv _ _ => let '(c, l') := recv_irq l in (([], option_list c), l')
  | URecvPoll => let '(c, l') := recv_poll E l in (([], option_list c), l')
  | UFlush => (([], []), (wait_idle E l).2)
  | UWrite buf data => let '(r, l') := write_async E buf data l in ((if r =? 0 then u8 <$> data else [], []), l')
  | UResume _ _ => (([], []), l)
  end.

Lemma steps_then {A} E l (m : M ksys A) a l' (t : A -> traffic) s :
  steps E l m a l' -> uart_ok s -> settings s = E -> line_of s = l ->
  wp (r ← m; mret (t r)) (fun v s' => uart_ok s' /\ moved s s' /\ v = t a /\ line_of s' = l') s.
Proof.
  intros Hm Hok HE Hl. apply wp_bind. eapply wp_mono; [by apply Hm|]. intros r s' (H1 & H2 & -> & H4). apply wp_ret.
  split_and!; [done|by apply frame_moved|done|done].
Qed.

(** Every operation that may happen happens, and does to the line what [line_step] says. *)
Lemma wp_uart_op call fill op s :
  uart_ok s -> uart_allowed op s -> refills (settings s) call fill ->
  wp (run_uart_op call op)
    (fun v s' => uart_ok s' /\ moved s s' /\ v = (line_step (settings s) fill op (line_of s)).1 /\
       line_of s' = (line_step (settings s) fill op (line_of s)).2) s.
Proof.
  intros Hok Ha Hc. destruct op; cbn [run_uart_op uart_allowed line_step] in *.
  - by apply (steps_then _ _ _ _ _ (fun _ => ([], [])) _ (steps_irq_top _ _)).
  - apply wp_bind, wp_modify, wp_ret. split_and!; [|done|done|done]. destruct Hok. by constructor.
  - by apply (steps_then _ _ _ _ _ (fun _ => ([], [])) _ (steps_rx_bottom _ _)).
  - by apply (steps_then _ _ _ _ _ (fun _ => ([], [])) _ (steps_tx_bottom _ _ _ _ Hc)).
  - apply wp_bind. eapply wp_mono; [by apply wp_send_irq|]. intros r s' (H1 & H2 & H3 & H4). apply wp_ret.
    destruct (send_irq _ _ _ _) as [d l']. cbn [fst snd] in *. split_and!; try done. destruct r as [[]| |], d; try done; naive_solver.
  - eapply wp_mono; [by apply (steps_then _ _ _ _ _ _ _ (steps_send_poll (settings s) c (line_of s)))|]. intros v s' (H1 & H2 & -> & ->).
    destruct (send_poll _ _ _) as [[] l']; by split_and!.
  - apply wp_bind. eapply wp_mono; [by apply wp_recv_irq|]. intros r s' (H1 & H2 & H3 & H4). apply wp_ret.
    destruct (recv_irq _) as [d l']. cbn [fst snd] in *. split_and!; try done. by destruct r; rewrite H4.
  - eapply wp_mono; [by apply (steps_then _ _ _ _ _ _ _ (steps_recv_poll (settings s) (line_of s)))|]. intros v s' (H1 & H2 & -> & ->).
    destruct (recv_poll _ _) as [[] l']; by split_and!.
  - by apply (steps_then _ _ _ _ _ (fun _ => ([], [])) _ (steps_wait_idle _ _)).
  - apply wp_bind. eapply wp_mono; [apply wp_write_async; [done|apply Ha|apply Ha]|]. intros r s' (H1 & H2 & -> & H4). apply wp_ret.
    destruct (write_async _ _ _ _) as [v l']. cbn [fst snd] in *. split_and!; [done|by apply frame_moved|done|done].
  - apply wp_bind. apply wp_resume; [done|done|]. intros s' H1 H2 H3. apply wp_ret. by split_and!.
Qed.

(** A history: each operation may happen in the state it meets. *)
Inductive uart_history (call : Z -> M ksys unit) : list uart_op -> ksys -> traffic -> ksys -> Prop :=
| uart_history_nil s : uart_history call [] s ([], []) s
| uart_history_cons op ops s a d s1 a' d' s2 :
    uart_allowed op s -> run_uart_op call op s = Some ((a, d), s1) -> uart_history call ops s1 (a', d') s2 ->
    uart_history call (op :: ops) s (a ++ a', d ++ d') s2.

Fixpoint line_run (E : config) (fill : Z -> line -> line) (ops : list uart_op) (l : line) : traffic * line :=
  match ops with
  | [] => (([], []), l)
  | op :: rest =>
      let '((a, d), l1) := line_step E fill op l in
      let '((a', d'), l2) := line_run E fill rest l1 in
      ((a ++ a', d ++ d'), l2)
  end.

Lemma history_line call fill ops s t s' :
  uart_history call ops s t s' -> uart_ok s -> refills (settings s) call fill ->
  uart_ok s' /\ moved s s' /\ (t, line_of s') = line_run (settings s) fill ops (line_of s).
Proof.
  induction 1 as [|op ops s a d s1 a' d' s2 Ha Hr _ IH]; intros Hok Hc; [done|].
  pose proof (wp_uart_op call fill op s Hok Ha Hc) as Hw. unfold wp in Hw. rewrite Hr in Hw. destruct Hw as (Hok1 & Hm & Ht & Hl).
  cbn [line_run].
  destruct (line_step (settings s) fill op (line_of s)) as [[a0 d0] l1]. cbn [fst snd] in *. injection Ht as -> ->. subst l1.
  destruct Hm as [Hm1 Hm2]. destruct IH as (H1 & [H2 H3] & H4); [done|by rewrite Hm1|]. rewrite Hm1 in H4. rewrite <- H4.
  split_and!; [done|split; congruence|done].
Qed.
