(* ===== verification/UartProps.v ===== *)
(** * The serial driver: properties of the line

    What the operations on lines promise: output and input keep their order
    and nothing is invented, and a bottom half or an enabled interrupt always
    takes care of what waits. *)

From S2P Require Import Prelude Lists Memory Slab Task Ring Irq Work Uart UartInv UartHistory.

Open Scope Z_scope.

(** ** Output *)

(** Everything accepted for output, in order: sent or waiting. *)
Definition stream (l : line) : list Z := l.(ln_sent) ++ (u8 <$> l.(ln_tx)).

Section props.
Context (E : config).

Lemma stream_look l : stream (look E l) = stream l.
Proof. done. Qed.

Lemma stream_drain_one l : stream (drain_one E l).2 = stream l.
Proof.
  unfold drain_one. destruct (ln_idle (look E l)); [|done]. unfold take_tx. destruct (ln_tx (look E l)) as [|c q] eqn:Eq; [done|].
  cbn in Eq. unfold stream. cbn. by rewrite <- app_assoc, Eq.
Qed.

Lemma stream_tx_drain n : forall l, stream (tx_drain E n l) = stream l.
Proof.
  induction n as [|n IH]; intros l; [done|]. cbn [tx_drain]. pose proof (stream_drain_one l) as H.
  destruct (drain_one E l) as [[] l1]; cbn [snd] in H; [by rewrite IH|done].
Qed.

Lemma stream_rx_drain n : forall l, stream (rx_drain E n l) = stream l.
Proof.
  induction n as [|n IH]; intros l; [done|]. cbn [rx_drain]. destruct (ln_fifo (look E l)); [done|]. by rewrite IH.
Qed.

Lemma stream_irq_top l : stream (irq_top E l) = stream l.
Proof. unfold irq_top. cbn zeta. destruct (bool_decide _), (_ && _); done. Qed.

Lemma stream_tx_bottom fill l : E.(cf_refill) = 0 -> stream (tx_bottom E fill l) = stream l.
Proof.
  intros Hr. unfold tx_bottom. assert (Hf : forall l, refilled E fill l = l).
  { intros l'. unfold refilled. by rewrite Hr, andb_false_r. }
  rewrite !Hf, <- (stream_tx_drain 16 l). generalize (tx_drain E 16 l). intros l1. unfold tx_arm. destruct (bool_decide _); [done|]. cbn zeta. by destruct (ln_idle _).
Qed.

Lemma stream_push l c : stream (with_tx (l.(ln_tx) ++ [c]) l) = stream l ++ [u8 c].
Proof. unfold stream. cbn. by rewrite fmap_app, app_assoc. Qed.

(** An operation adds to the output exactly what it accepts. *)
Lemma stream_step fill op l :
  E.(cf_refill) = 0 -> stream (line_step E fill op l).2 = stream l ++ (line_step E fill op l).1.1.
Proof.
  intros Hr. destruct op; cbn [line_step fst snd]; rewrite ?app_nil_r.
  - apply stream_irq_top.
  - done.
  - unfold rx_bottom. cbn zeta. rewrite <- (stream_rx_drain 16 l). generalize (rx_drain E 16 l). intros l1. by destruct (bool_decide _).
  - by apply stream_tx_bottom.
  - unfold send_irq. destruct (room (ln_tx l)); cbn [fst snd].
    + apply (stream_push l c).
    + rewrite app_nil_r. destruct sleepable; [done|]. by rewrite stream_drain_one.
  - unfold send_poll. case_bool_decide as Et; [destruct (ln_idle (look E l))|]; cbn [fst snd]; rewrite ?app_nil_r; [|done|apply stream_drain_one].
    unfold stream. cbn. by rewrite Et, !app_nil_r.
  - unfold recv_irq. by destruct (ln_rx l); cbn; rewrite app_nil_r.
  - unfold recv_poll. destruct (ln_rx l); [destruct (ln_fifo (look E l))|]; cbn; by rewrite app_nil_r.
  - unfold wait_idle. case_bool_decide; [destruct (ln_idle (look E l))|]; cbn [snd]; by rewrite ?stream_drain_one.
  - unfold write_async. destruct (_ || _); cbn; [by rewrite app_nil_r|]. case_bool_decide as Ed; cbn; [rewrite Ed; by rewrite app_nil_r|].
    unfold stream. cbn. by rewrite fmap_app, app_assoc.
  - done.
Qed.

Lemma stream_run fill ops : forall l, E.(cf_refill) = 0 -> stream (line_run E fill ops l).2 = stream l ++ (line_run E fill ops l).1.1.
Proof.
  induction ops as [|op ops IH]; intros l Hr; cbn [line_run fst snd]; [by rewrite app_nil_r|].
  pose proof (stream_step fill op l Hr) as H. destruct (line_step E fill op l) as [[a d] l1]. cbn [fst snd] in H.
  specialize (IH l1 Hr). destruct (line_run E fill ops l1) as [[a' d'] l2]. cbn [fst snd] in *. by rewrite IH, H, app_assoc.
Qed.

(** ** Input *)

Definition low (b : Z) : Z := Z.land b 255.

(** What the line delivers in [k] looks from look [n] on. *)
Definition arrivals (n k : nat) : list Z := flat_map (fun i => (E.(cf_env) i).(le_arrived)) (seq n k).

(** Received or waiting in the device, in order. *)
Definition backlog (l : line) : list Z := l.(ln_rx) ++ (low <$> l.(ln_fifo)).

(** From [l] to [l'], with [d] delivered: nothing is invented or reordered, and
    unless more than 128 characters wait nothing is lost. *)
Definition inflow (l : line) (d : list Z) (l' : line) : Prop :=
  exists k, l'.(ln_reads) = (l.(ln_reads) + k)%nat /\
    let all := backlog l ++ (low <$> arrivals l.(ln_reads) k) in
    sublist (d ++ backlog l') all /\ (Z.of_nat (length all) <= RINGBUF_CAPACITY -> d ++ backlog l' = all).

Lemma arrivals_add n k1 k2 : arrivals n (k1 + k2) = arrivals n k1 ++ arrivals (n + k1) k2.
Proof. unfold arrivals. by rewrite seq_app, flat_map_app. Qed.

Lemma inflow_refl l l' : l'.(ln_reads) = l.(ln_reads) -> backlog l' = backlog l -> inflow l [] l'.
Proof. intros E1 E2. exists 0%nat. rewrite E1, E2. cbn. rewrite app_nil_r. split_and!; [lia|done|done]. Qed.

Lemma inflow_trans l1 d1 l2 d2 l3 : inflow l1 d1 l2 -> inflow l2 d2 l3 -> inflow l1 (d1 ++ d2) l3.
Proof.
  intros (k1 & E1 & S1 & Q1) (k2 & E2 & S2 & Q2). exists (k1 + k2)%nat. rewrite arrivals_add, fmap_app, app_assoc, E2, E1 in *.
  set (a1 := backlog l1 ++ (low <$> arrivals l1.(ln_reads) k1)) in *. set (a2 := low <$> arrivals (ln_reads l1 + k1) k2) in *.
  assert (S3 : sublist (d1 ++ d2 ++ backlog l3) (d1 ++ backlog l2 ++ a2)) by (by apply sublist_app).
  rewrite <- app_assoc. split; [lia|]. split.
  - etrans; [exact S3|]. rewrite app_assoc. by apply sublist_app.
  - intros Hl. rewrite length_app in Hl. specialize (Q1 ltac:(lia)).
    assert (E3 : d2 ++ backlog l3 = backlog l2 ++ a2); [apply Q2|by rewrite E3, app_assoc, Q1]. pose proof (f_equal length Q1) as HL. rewrite !length_app in HL. rewrite length_app. lia.
Qed.

Lemma inflow_look l : inflow l [] (look E l).
Proof.
  exists 1%nat. unfold backlog, arrivals. cbn. rewrite app_nil_r, fmap_app, app_assoc. split_and!; [lia|done|done].
Qed.

(** Operations that keep the input alone after at most some looks. *)
Definition quiet (l l' : line) : Prop := inflow l [] l'.

Lemma quiet_trans l1 l2 l3 : quiet l1 l2 -> quiet l2 l3 -> quiet l1 l3.
Proof. intros H1 H2. exact (inflow_trans _ [] _ [] _ H1 H2). Qed.

Lemma quiet_drain_one l : quiet l (drain_one E l).2.
Proof.
  unfold drain_one. eapply quiet_trans; [apply inflow_look|]. destruct (ln_idle (look E l)); [|by apply inflow_refl].
  unfold take_tx. destruct (ln_tx (look E l)); by apply inflow_refl.
Qed.

Lemma quiet_tx_drain n : forall l, quiet l (tx_drain E n l).
Proof.
  induction n as [|n IH]; intros l; cbn [tx_drain]; [by apply inflow_refl|]. pose proof (quiet_drain_one l) as H.
  destruct (drain_one E l) as [[] l1]; [|done]. by eapply quiet_trans; [exact H|].
Qed.

(** Moving one character from the device to the ring loses it only when the ring is full. *)
Lemma quiet_receive l b rest : l.(ln_fifo) = b :: rest -> quiet l (with_rx (pushed l.(ln_rx) (low b)) (with_fifo rest l)).
Proof.
  intros Ef. exists 0%nat. unfold backlog, pushed. cbn. rewrite Ef, app_nil_r. cbn. split; [lia|]. unfold room.
  destruct (Z.ltb_spec (Z.of_nat (length (ln_rx l))) RINGBUF_CAPACITY) as [Hr|Hr].
  - rewrite <- app_assoc. done.
  - split; [apply sublist_app; [done|by constructor]|]. rewrite length_app. cbn. lia.
Qed.

Lemma quiet_rx_drain n : forall l, quiet l (rx_drain E n l).
Proof.
  induction n as [|n IH]; intros l; cbn [rx_drain]; [by apply inflow_refl|]. eapply quiet_trans; [apply inflow_look|].
  destruct (ln_fifo (look E l)) as [|b rest] eqn:Ef; [by apply inflow_refl|]. eapply quiet_trans; [by apply quiet_receive|apply IH].
Qed.

Lemma quiet_irq_top l : quiet l (irq_top E l).
Proof. unfold irq_top. cbn zeta. eapply quiet_trans; [apply inflow_look|]. destruct (bool_decide _), (_ && _); by apply inflow_refl. Qed.

Lemma quiet_tx_arm l : quiet l (tx_arm E l).
Proof.
  unfold tx_arm. destruct (bool_decide _); [by apply inflow_refl|]. cbn zeta.
  eapply (quiet_trans _ (ier_set UART_IER_TX_ENABLE l)); [by apply inflow_refl|]. eapply quiet_trans; [apply inflow_look|].
  destruct (ln_idle _); by apply inflow_refl.
Qed.

Lemma inflow_step fill op l :
  E.(cf_refill) = 0 -> inflow l (line_step E fill op l).1.2 (line_step E fill op l).2.
Proof.
  intros Hr. assert (Hf : forall l, refilled E fill l = l).
  { intros l'. unfold refilled. by rewrite Hr, andb_false_r. }
  destruct op; cbn [line_step fst snd].
  - apply quiet_irq_top.
  - by apply inflow_refl.
  - unfold rx_bottom. cbn zeta. eapply quiet_trans; [apply (quiet_rx_drain 16)|]. generalize (rx_drain E 16 l). intros l1. eapply quiet_trans; [apply inflow_look|].
    destruct (bool_decide _); by apply inflow_refl.
  - unfold tx_bottom. rewrite !Hf. eapply quiet_trans; [apply (quiet_tx_drain 16)|apply quiet_tx_arm].
  - unfold send_irq. destruct (room (ln_tx l)); cbn [fst snd]; [by apply inflow_refl|]. destruct sleepable; [by apply inflow_refl|].
    eapply (quiet_trans _ (ier_set UART_IER_TX_ENABLE l)); [by apply inflow_refl|apply quiet_drain_one].
  - unfold send_poll. destruct (bool_decide _); [destruct (ln_idle (look E l))|]; cbn [fst snd]; [|apply inflow_look|apply quiet_drain_one].
    eapply quiet_trans; [apply inflow_look|by apply inflow_refl].
  - unfold recv_irq. destruct (ln_rx l) as [|c q] eqn:Eq; cbn [fst snd option_list]; [by apply inflow_refl|].
    exists 0%nat. unfold backlog. cbn. rewrite Eq, app_nil_r. cbn. split_and!; [lia|done|done].
  - unfold recv_poll. destruct (ln_rx l) as [|c q] eqn:Eq; [destruct (ln_fifo (look E l)) as [|b rest] eqn:Ef|]; cbn [fst snd option_list].
    + apply inflow_look.
    + apply (inflow_trans _ [] (look E l)); [apply inflow_look|]. exists 0%nat. unfold backlog. cbn in Ef |- *.
      rewrite Ef, Eq, app_nil_r. cbn. split_and!; [lia|done|done].
    + exists 0%nat. unfold backlog. cbn. rewrite Eq, app_nil_r. cbn. split_and!; [lia|done|done].
  - unfold wait_idle. destruct (bool_decide _); [destruct (ln_idle (look E l))|]; cbn [snd]; [apply inflow_look| |apply quiet_drain_one].
    eapply quiet_trans; [apply inflow_look|apply quiet_drain_one].
  - unfold write_async. destruct (_ || _); cbn; [by apply inflow_refl|]. destruct (bool_decide _); by apply inflow_refl.
  - by apply inflow_refl.
Qed.

Lemma inflow_run fill ops : forall l, E.(cf_refill) = 0 -> inflow l (line_run E fill ops l).1.2 (line_run E fill ops l).2.
Proof.
  induction ops as [|op ops IH]; intros l Hr; cbn [line_run fst snd]; [by apply inflow_refl|].
  pose proof (inflow_step fill op l Hr) as H. destruct (line_step E fill op l) as [[a d] l1]. cbn [fst snd] in H.
  specialize (IH l1 Hr). destruct (line_run E fill ops l1) as [[a' d'] l2]. cbn [fst snd] in *. by eapply inflow_trans.
Qed.

(** ** Nothing is forgotten

    The dispatcher owes a bottom half from the moment it takes the pending bits
    until it has run it. *)

Record debt := mkDebt { owed_rx : bool; owed_tx : bool }.

Definition owed_step (op : uart_op) (l : line) (o : debt) : debt :=
  match op with
  | UClaim => mkDebt (o.(owed_rx) || Z.testbit l.(ln_pending) (bh_code BH_UART_RX)) (o.(owed_tx) || Z.testbit l.(ln_pending) (bh_code BH_UART_TX))
  | URx => mkDebt false o.(owed_tx)
  | UTx => mkDebt o.(owed_rx) false
  | _ => o
  end.

(** Input raises an interrupt or is about to be fetched; output that waits raises
    an interrupt when the transmitter is ready or is about to be sent. *)
Definition rx_served (o : debt) (l : line) : bool :=
  Z.testbit l.(ln_ier) 0 || Z.testbit l.(ln_pending) (bh_code BH_UART_RX) || o.(owed_rx).
Definition tx_served (o : debt) (l : line) : bool :=
  Z.testbit l.(ln_ier) 1 || Z.testbit l.(ln_pending) (bh_code BH_UART_TX) || o.(owed_tx).
Definition served (o : debt) (l : line) : Prop := rx_served o l = true /\ (l.(ln_tx) <> [] -> tx_served o l = true).

Lemma testbit_ier ier bit : Z.land ier (2 ^ bit) =? 0 = negb (Z.testbit ier bit) \/ bit < 0.
Proof.
  destruct (Z.ltb_spec bit 0) as [|Hb]; [by right|left]. destruct (Z.testbit ier bit) eqn:Et; cbn.
  - apply Z.eqb_neq. intros H0. assert (Z.testbit (Z.land ier (2 ^ bit)) bit = true) as Hx; [|rewrite H0, Z.bits_0 in Hx; done].
    by rewrite Z.land_spec, Et, Z.pow2_bits_true.
  - apply Z.eqb_eq. apply Z.bits_inj_0. intros n. rewrite Z.land_spec. destruct (decide (n = bit)) as [->|Hn]; [by rewrite Et|].
    rewrite Z.pow2_bits_false by done. apply andb_false_r.
Qed.

(** The interrupt enables and pending bits, and no more output than before. *)
Lemma served_same o l l' :
  served o l -> l'.(ln_ier) = l.(ln_ier) -> l'.(ln_pending) = l.(ln_pending) -> (l.(ln_tx) = [] -> l'.(ln_tx) = []) -> served o l'.
Proof. unfold served, rx_served, tx_served. intros [H1 H2] -> -> Ht. split; [done|]. intros Hn. apply H2. intros E0. by apply Hn, Ht. Qed.

Lemma drain_one_keeps l :
  (drain_one E l).2.(ln_ier) = l.(ln_ier) /\ (drain_one E l).2.(ln_pending) = l.(ln_pending) /\ (l.(ln_tx) = [] -> (drain_one E l).2.(ln_tx) = []).
Proof.
  unfold drain_one. destruct (ln_idle (look E l)); [|done]. unfold take_tx. destruct (ln_tx (look E l)) eqn:Eq; [done|].
  cbn in *. split_and!; [done|done|]. by rewrite Eq.
Qed.

Lemma tx_drain_keeps n : forall l,
  (tx_drain E n l).(ln_ier) = l.(ln_ier) /\ (tx_drain E n l).(ln_pending) = l.(ln_pending) /\ (l.(ln_tx) = [] -> (tx_drain E n l).(ln_tx) = []).
Proof.
  induction n as [|n IH]; intros l; [done|]. cbn [tx_drain]. pose proof (drain_one_keeps l) as (H1 & H2 & H3).
  destruct (drain_one E l) as [[] l1]; cbn [snd] in *; [|done]. destruct (IH l1) as (I1 & I2 & I3). split_and!; [congruence|congruence|auto].
Qed.

Lemma rx_drain_keeps n : forall l,
  (rx_drain E n l).(ln_ier) = l.(ln_ier) /\ (rx_drain E n l).(ln_pending) = l.(ln_pending) /\ (rx_drain E n l).(ln_tx) = l.(ln_tx).
Proof.
  induction n as [|n IH]; intros l; [done|]. cbn [rx_drain]. destruct (ln_fifo (look E l)); [done|].
  match goal with |- context [rx_drain E n ?x] => destruct (IH x) as (H1 & H2 & H3) end. by rewrite H1, H2, H3.
Qed.

Lemma served_tx_enabled o l : rx_served o l = true -> served o (ier_set UART_IER_TX_ENABLE l).
Proof.
  unfold served, rx_served, tx_served. cbn [ln_ier ier_set with_ier ln_pending]. rewrite !Z.lor_spec. cbn. intros H.
  rewrite orb_false_r. split; [done|]. intros _. by rewrite orb_true_r.
Qed.

Lemma served_irq_top o l : served o l -> served o (irq_top E l).
Proof.
  intros [H1 H2]. unfold irq_top. cbn zeta. assert (H : served o (if bool_decide (ln_fifo (look E l) = []) then look E l
    else raised BH_UART_RX (ier_clear RX_BITS (look E l)))).
  { destruct (bool_decide _); [by apply (served_same o l)|]. unfold served, rx_served, tx_served in *.
    cbn [ln_ier ln_pending ier_clear with_ier raised with_pending ln_tx bh_code] in *. rewrite !Z.lor_spec, !Z.ldiff_spec. cbn.
    split; [by rewrite !orb_true_r|]. intros Hn. specialize (H2 Hn). cbn in H2. by rewrite andb_true_r, orb_false_r. }
  destruct (_ && _); [|done]. destruct H as [H3 H4]. set (l2 := if bool_decide _ then _ else _) in *. unfold served, rx_served, tx_served in *.
  cbn [ln_ier ln_pending ier_clear with_ier raised with_pending ln_tx bh_code] in *. rewrite !Z.lor_spec, !Z.ldiff_spec. cbn.
  rewrite andb_true_r, orb_false_r. split; [done|]. intros _. by rewrite !orb_true_r.
Qed.

Lemma served_rx_bottom o l : served o l -> served (mkDebt false o.(owed_tx)) (rx_bottom E l).
Proof.
  intros [_ H2]. unfold rx_bottom. destruct (rx_drain_keeps 16 l) as (E1 & E2 & E3). revert E1 E2 E3. generalize (rx_drain E 16 l). intros l1 E1 E2 E3.
  cbn zeta. assert (H : ln_tx l1 <> [] -> tx_served o l1 = true) by (unfold tx_served in *; rewrite E1, E2, E3; done).
  destruct (bool_decide _); unfold served, rx_served, tx_served in *;
    cbn [ln_ier ln_pending ier_set with_ier raised with_pending ln_tx bh_code look with_reads with_idle with_fifo owed_rx owed_tx] in *;
    rewrite !Z.lor_spec; cbn; rewrite !orb_true_r, ?orb_false_r; split; try done; intros Hn; specialize (H Hn); cbn in H; by rewrite ?orb_false_r.
Qed.

Lemma served_tx_arm o l : rx_served o l = true -> served (mkDebt o.(owed_rx) false) (tx_arm E l).
Proof.
  intros H. unfold tx_arm. case_bool_decide as Et.
  - unfold served, rx_served in *. cbn [ln_ier ln_pending ier_clear with_ier ln_tx owed_rx] in *. rewrite Z.ldiff_spec. cbn. rewrite andb_true_r. done.
  - cbn zeta. assert (Hs : served (mkDebt (owed_rx o) false) (look E (ier_set UART_IER_TX_ENABLE l))).
    { eapply served_same; [by apply (served_tx_enabled (mkDebt (owed_rx o) false) l)|done..]. }
    destruct (ln_idle _); [|done]. revert Hs. generalize (look E (ier_set UART_IER_TX_ENABLE l)). intros l1. unfold served, rx_served, tx_served.
    cbn [ln_ier ln_pending raised with_pending ln_tx bh_code owed_rx owed_tx]. rewrite !Z.lor_spec.
    change (Z.testbit (2 ^ 2) 1) with false. change (Z.testbit (2 ^ 2) 2) with true. rewrite !orb_false_r, !orb_true_r. intros [H1 _]. by split.
Qed.

Lemma served_step fill op o l : E.(cf_refill) = 0 -> served o l -> served (owed_step op l o) (line_step E fill op l).2.
Proof.
  intros Hr H. assert (Hf : forall l, refilled E fill l = l).
  { intros l'. unfold refilled. by rewrite Hr, andb_false_r. }
  destruct op; cbn [line_step fst snd owed_step].
  - by apply served_irq_top.
  - destruct H as [H1 H2]. unfold served, rx_served, tx_served in *. cbn [ln_ier ln_pending with_pending ln_tx owed_rx owed_tx] in *.
    rewrite !Z.bits_0, !orb_false_r, (orb_comm (owed_rx o)), (orb_comm (owed_tx o)), !orb_assoc. done.
  - by apply served_rx_bottom.
  - unfold tx_bottom. rewrite !Hf. apply served_tx_arm. destruct (tx_drain_keeps 16 l) as (E1 & E2 & _). unfold rx_served. rewrite E1, E2. apply H.
  - unfold send_irq. destruct (room (ln_tx l)); cbn [fst snd].
    + apply served_tx_enabled. apply H.
    + assert (H1 : served o (ier_set UART_IER_TX_ENABLE l)) by (apply served_tx_enabled, H). destruct sleepable; [done|].
      destruct (drain_one_keeps (ier_set UART_IER_TX_ENABLE l)) as (? & ? & ?). by eapply served_same.
  - unfold send_poll. destruct (drain_one_keeps l) as (? & ? & ?).
    destruct (bool_decide _); [destruct (ln_idle (look E l))|]; cbn [fst snd]; by apply (served_same o l).
  - unfold recv_irq. destruct (ln_rx l); by apply (served_same o l).
  - unfold recv_poll. destruct (ln_rx l); [destruct (ln_fifo (look E l))|]; by apply (served_same o l).
  - unfold wait_idle. destruct (drain_one_keeps l) as (? & ? & ?). destruct (drain_one_keeps (look E l)) as (? & ? & ?).
    destruct (bool_decide _); [destruct (ln_idle (look E l))|]; cbn [fst snd]; by apply (served_same o l).
  - unfold write_async. destruct (_ || _); cbn [fst snd]; [done|]. destruct (bool_decide _); [done|]. apply served_tx_enabled, H.
  - done.
Qed.

Fixpoint owed_run (fill : Z -> line -> line) (ops : list uart_op) (l : line) (o : debt) : debt :=
  match ops with
  | [] => o
  | op :: rest => owed_run fill rest (line_step E fill op l).2 (owed_step op l o)
  end.

Lemma served_run fill ops : forall l o, E.(cf_refill) = 0 -> served o l -> served (owed_run fill ops l o) (line_run E fill ops l).2.
Proof.
  induction ops as [|op ops IH]; intros l o Hr H; cbn [line_run owed_run snd]; [done|].
  pose proof (served_step fill op o l Hr H) as H1. destruct (line_step E fill op l) as [[a d] l1]. cbn [snd] in *.
  specialize (IH l1 _ Hr H1). destruct (line_run E fill ops l1) as [[a' d'] l2]. done.
Qed.

End props.
