(* ===== verification/UartPoll.v ===== *)
(** * The serial driver: loops that wait for the device, and printing

    [uart_send], [uart_recv] and [uart_tx_wait_idle] wait for the line.  When
    it becomes ready again and again, they return; the printing functions are
    then functions on what has been sent, proved against any sender. *)

From S2P Require Import Prelude Lists Memory Slab Task Sched Wait SchedHistory Ring Str Cpio Irq Trace Work Uart UartInv UartHistory UartProps.

Open Scope Z_scope.

(** * The serial driver: setting up ([uart_irq_init])

    The state after initialisation, whatever the firmware has left in the device. *)

(** What reading the status and receive registers changes. *)
Definition polled (u u' : uart) : Prop := exists f i r, u' = set_hw_reads r (set_hw_idle i (set_hw_fifo f u)).

Lemma polled_refl u : polled u u.
Proof. exists u.(hw_fifo), u.(hw_idle), u.(hw_reads). by destruct u. Qed.
Lemma polled_trans u1 u2 u3 : polled u1 u2 -> polled u2 u3 -> polled u1 u3.
Proof. intros (f & i & r & ->) (f' & i' & r' & ->). by exists f', i', r'. Qed.

Definition polls {A} (m : M ksys A) : Prop := forall s, wp m (fun _ s' => exists u, polled s.(k_uart) u /\ s' = set_k_uart u s) s.

Lemma polls_ret {A} (a : A) : polls (mret a).
Proof. intros s. apply wp_ret. exists s.(k_uart). split; [apply polled_refl|by destruct s]. Qed.
Lemma polls_bind {A B} (m : M ksys A) (k : A -> M ksys B) : polls m -> (forall a, polls (k a)) -> polls (m ≫= k).
Proof.
  intros Hm Hk s. apply wp_bind. eapply wp_mono; [apply Hm|]. intros a s1 (u1 & H1 & ->). eapply wp_mono; [apply Hk|].
  intros b s2 (u2 & H2 & ->). exists u2. split; [by eapply polled_trans|done].
Qed.
Lemma polls_same {A} (m : M ksys A) : (forall s, exists a, m s = Some (a, s)) -> polls m.
Proof. intros H s. unfold wp. destruct (H s) as [a ->]. exists s.(k_uart). split; [apply polled_refl|by destruct s]. Qed.

Lemma polls_read reg : polls (uart_reg_read reg).
Proof.
  assert (Hw : forall v, polls (reg_width v)) by (intros v; apply polls_same; intros s; by eexists).
  destruct reg; cbn [uart_reg_read].
  - apply polls_ret.
  - apply polls_bind; [apply polls_same; intros s; by eexists|]. intros [|b rest]; [apply polls_ret|].
    apply polls_bind; [|intros []; apply Hw]. intros s. apply wp_modify. exists (set_hw_fifo rest s.(k_uart)). split; [|done].
    exists rest, s.(k_uart).(hw_idle), s.(k_uart).(hw_reads). by destruct s.(k_uart).
  - apply polls_bind; [apply polls_same; intros s; by eexists|]. intros v. apply Hw.
  - apply polls_ret.
  - apply polls_ret.
  - apply polls_bind; [apply polls_same; intros s; by eexists|]. intros v. apply Hw.
  - apply polls_bind; [apply polls_same; intros s; by eexists|]. intros u. apply polls_bind.
    + intros s. apply wp_modify. exists (line_look s.(k_uart)). split; [|done]. unfold line_look. cbn zeta. by eexists _, _, _.
    + intros []. apply polls_bind; [apply polls_same; intros s; by eexists|]. intros v. apply Hw.
  - apply polls_ret.
Qed.

Lemma polls_flush n : polls (flush_rounds n).
Proof.
  induction n as [|n IH]; cbn [flush_rounds]; [apply polls_ret|]. apply polls_bind; [apply polls_read|]. intros lsr.
  destruct (_ =? 0); [apply polls_ret|]. apply polls_bind; [apply polls_read|]. by intros _.
Qed.

Lemma polls_ack : polls uart_irq_ack_stale_status.
Proof. unfold uart_irq_ack_stale_status. do 4 (apply polls_bind; [apply polls_read|intros _]). apply polls_ret. Qed.

Lemma wp_polls {A B} (m : M ksys A) (k : M ksys B) Q s :
  polls m -> (forall u, polled s.(k_uart) u -> wp k Q (set_k_uart u s)) -> wp (m ;; k) Q s.
Proof. intros Hm Hk. apply wp_bind. eapply wp_mono; [apply Hm|]. intros a s' (u & Hu & ->). by apply Hk. Qed.

(** Emptying a ring. *)
Lemma wp_ring_reset rb other Q (s : ksys) :
  rings_good s.(k_uart).(uart_mem) -> is_Some (s.(k_uart).(uart_mem).(rings) !! rb) -> rb <> other ->
  (forall m', rings_good m' -> queue_at rb m' = [] -> queue_at other m' = queue_at other s.(k_uart).(uart_mem) -> Q tt (ring_state m' s)) ->
  wp (zoom (ringbuf_init rb)) Q s.
Proof.
  intros Hg Hrb Hne HQ. apply wp_zoom.
  assert (H : wp (run_ring_op (RInit rb)) (op_done s.(k_uart).(uart_mem) (RInit rb)) s.(k_uart).(uart_mem)).
  { apply wp_ring_op; [apply (rg_ok _ Hg)|by right]. }
  revert H. change (view s) with s.(k_uart).(uart_mem). unfold run_ring_op, wp, mbind, M_bind, mret, M_ret.
  destruct (ringbuf_init rb _) as [[[] m']|]; [|done]. intros Hd. pose proof (rings_good_done _ _ _ _ Hg Hd) as Hg'.
  destruct Hd as (_ & Eq & _ & _). cbn in Eq. rewrite (queue_found _ _ Hrb) in Eq. injection Eq as Eq.
  apply HQ; [done|..]; unfold queue_at; rewrite Eq; [by rewrite lookup_insert_eq|by rewrite lookup_insert_ne].
Qed.

(** *** The interrupt controller *)

Definition plic_setup (base irq : Z) (r : gmap Z Z) : gmap Z Z :=
  let p := base + irq * 4 in
  let e := base + 0x2080 + irq / 32 * 4 in
  let r1 := <[p := 1]> r in
  <[base + 0x201000 := 0]> (<[e := Z.lor (default 0 (r1 !! e)) (2 ^ (irq mod 32))]> r1).

Definition plic_fits (base irq : Z) : Prop := 0 <= base /\ base + 0x202000 < 2 ^ 64 /\ 0 < irq < 1024.

Lemma wp_plic_put reg v Q s :
  reg <> CLAIM_REG s.(k_plic) -> 0 <= v < 2 ^ 32 ->
  Q tt (set_k_plic (set_plic_regs (<[reg := v]> s.(k_plic).(plic_regs)) s.(k_plic)) s) -> wp (plic_put32 reg v) Q s.
Proof.
  intros Hr Hv HQ. apply wp_modify. rewrite (proj2 (Z.eqb_neq _ _) Hr), u32_id by lia. done.
Qed.

Lemma wp_plic_setup irq (k : M ksys unit) Q s :
  plic_fits s.(k_plic).(plic_base) irq -> (forall a v, s.(k_plic).(plic_regs) !! a = Some v -> 0 <= v < 2 ^ 32) ->
  wp k Q (set_k_plic (set_plic_regs (plic_setup s.(k_plic).(plic_base) irq s.(k_plic).(plic_regs)) s.(k_plic)) s) ->
  wp (plic_set_priority irq 1 ;; plic_enable_irq irq ;; plic_set_threshold 0 ;; k) Q s.
Proof.
  intros (Hb & Hf & Hi) Hregs HQ. pose proof (Z.mod_pos_bound irq 32 ltac:(lia)) as Hm. pose proof (Z.div_mod irq 32 ltac:(lia)) as Hdm.
  set (base := s.(k_plic).(plic_base)) in *. set (r := s.(k_plic).(plic_regs)) in *.
  assert (Hc : CLAIM_REG s.(k_plic) = base + 0x201004) by (unfold CLAIM_REG; fold base; apply u64_id; lia).
  assert (Hp : 2 ^ (irq mod 32) < 2 ^ 32) by (apply pow2_mono_lt; lia). pose proof (pow2_pos (irq mod 32) ltac:(lia)).
  apply wp_bind, wp_bind, wp_bind, wp_gets, wp_ret. fold base. unfold PLIC_PRIORITY_OFFSET. rewrite Z.add_0_r, u64_id by lia.
  apply wp_plic_put; [rewrite Hc; lia|lia|]. fold r. set (s1 := set_k_plic _ s). set (r1 := <[base + irq * 4 := 1]> r).
  assert (Hc1 : CLAIM_REG s1.(k_plic) = base + 0x201004) by done.
  apply wp_bind, wp_bind, wp_bind, wp_gets, wp_ret. change (s1.(k_plic).(plic_base)) with base.
  unfold PLIC_ENABLE_OFFSET, PLIC_HART0_SCTX, PLIC_ENABLE_STRIDE. rewrite u64_id by lia.
  replace (base + 0x2000 + 1 * 0x80 + irq / 32 * 4) with (base + 0x2080 + irq / 32 * 4) by lia.
  apply wp_bind, wp_bind, wp_gets. rewrite Hc1, (proj2 (Z.eqb_neq _ _)) by lia. apply wp_ret. change (s1.(k_plic).(plic_regs)) with r1.
  assert (Hd : 0 <= default 0 (r1 !! (base + 0x2080 + irq / 32 * 4)) < 2 ^ 32).
  { destruct (r1 !! _) as [v|] eqn:Ev; [|cbn; lia]. unfold r1 in Ev. rewrite lookup_insert_ne in Ev by lia. cbn. by eapply Hregs. }
  rewrite shiftl_1, u32_id by lia. apply wp_plic_put; [rewrite Hc1; lia| |].
  { split; [apply Z.lor_nonneg; lia|]. destruct (Z.eq_dec (Z.lor (default 0 (r1 !! (base + 0x2080 + irq / 32 * 4))) (2 ^ (irq mod 32))) 0) as [->|Hn]; [lia|].
    apply Z.log2_lt_cancel. rewrite (Z.log2_pow2 32) by lia. rewrite Z.log2_lor by lia. apply Z.max_lub_lt; [|rewrite Z.log2_pow2; lia].
    destruct (Z.eq_dec (default 0 (r1 !! (base + 0x2080 + irq / 32 * 4))) 0) as [->|]; [by vm_compute|]. apply Z.log2_lt_pow2; lia. }
  change (s1.(k_plic).(plic_regs)) with r1.
  apply wp_bind, wp_bind, wp_bind, wp_gets, wp_ret. cbn [k_plic set_k_plic plic_base set_plic_regs s1]. fold base.
  unfold PLIC_CONTEXT_OFFSET, PLIC_CONTEXT_STRIDE, PLIC_THRESHOLD_OFFSET, PLIC_HART0_SCTX. rewrite u64_id by lia.
  replace (base + 0x200000 + 1 * 0x1000 + 0) with (base + 0x201000) by lia.
  apply wp_plic_put; [change (base + 0x201000 <> CLAIM_REG s.(k_plic)); rewrite Hc; lia|lia|]. exact HQ.
Qed.

(** ** The whole initialisation *)

Record uart_ready (s s' : ksys) : Prop := mkUartReady {
  ur_rings : rings_good s'.(k_uart).(uart_mem);
  ur_rx : queue_at uart_rx_buf s'.(k_uart).(uart_mem) = [];
  ur_tx : queue_at uart_tx_buf s'.(k_uart).(uart_mem) = [];
  ur_flags : (s'.(k_uart).(uart_irq_enabled), s'.(k_uart).(uart_tx_refill), s'.(k_uart).(sie_external), k_irq s') = (1, 0, true, true);
  ur_counts : (s'.(k_uart).(uart_ext_irq_count), s'.(k_uart).(uart_rx_irq_count), s'.(k_uart).(uart_tx_irq_count),
    s'.(k_uart).(uart_rx_fallback_count), s'.(k_uart).(uart_tx_poll_count)) = (0, 0, 0, 0, 0);
  ur_ier : s'.(k_uart).(hw_ier) = if s.(k_sched).(qemu) then 0x05 else 0x55;
  ur_mcr : Z.testbit s'.(k_uart).(hw_mcr) 3 = true;
  ur_sent : s'.(k_uart).(hw_sent) = s.(k_uart).(hw_sent);
  ur_waits : (s'.(k_uart).(uart_rx_wait), s'.(k_uart).(uart_tx_wait), s'.(k_uart).(hw_env)) =
    (s.(k_uart).(uart_rx_wait), s.(k_uart).(uart_tx_wait), s.(k_uart).(hw_env));
  ur_pending : s'.(pending) = Z.land (Z.land s.(pending) (not32 2)) (not32 4);
  ur_plic : s'.(k_plic) = set_plic_regs (plic_setup s.(k_plic).(plic_base) s.(k_uart).(uart_irq_number) s.(k_plic).(plic_regs)) s.(k_plic);
}.

Definition stats_cleared (u : uart) : uart :=
  set_uart_tx_poll_count 0 (set_uart_rx_fallback_count 0 (set_uart_tx_irq_count 0 (set_uart_rx_irq_count 0 (set_uart_ext_irq_count 0 u)))).

(** Before the device is touched: a quiet driver. *)
Definition reset_state (m : ringmem) (s : ksys) : ksys :=
  set_pending (Z.land (Z.land s.(pending) (not32 2)) (not32 4))
    (set_k_uart (stats_cleared (set_uart_tx_refill 0 (set_uart_irq_enabled 0 (set_uart_mem m s.(k_uart))))) s).

Lemma wp_dev f u Q s : Q tt (set_k_uart (f u) s) -> wp (dev_upd f) Q (set_k_uart u s).
Proof. intros H. exact H. Qed.

Lemma wp_reset_stats Q s : Q tt (set_k_uart (stats_cleared s.(k_uart)) s) -> wp uart_reset_stats Q s.
Proof.
  intros HQ. apply wp_bind, wp_k_irq_save. apply wp_bind, wp_modify. do 4 apply wp_bind, wp_dev.
  change (k_uart (set_k_irq false s)) with (k_uart s).
  refine (wp_critical (fun s' => set_k_uart (stats_cleared s.(k_uart)) s') s _ _ _ HQ); reflexivity.
Qed.

(** The same on a state in normal form. *)
Lemma wp_dev_at f p u Q s : Q tt (set_pending p (set_k_uart (f u) s)) -> wp (dev_upd f) Q (set_pending p (set_k_uart u s)).
Proof. intros H. exact H. Qed.
Lemma wp_reset_stats_at p u Q s : Q tt (set_pending p (set_k_uart (stats_cleared u) s)) -> wp uart_reset_stats Q (set_pending p (set_k_uart u s)).
Proof. intros H. apply wp_reset_stats. exact H. Qed.
Lemma wp_clear_at type p Q s :
  0 <= type < BH_COUNT -> Q tt (set_pending (Z.land p (not32 (2 ^ type))) s) -> wp (clear_bottom_half type) Q (set_pending p s).
Proof. intros Ht H. apply wp_clear; [done|]. exact H. Qed.

Lemma wp_reset_runtime Q s :
  rings_good s.(k_uart).(uart_mem) ->
  (forall m, rings_good m -> queue_at uart_rx_buf m = [] -> queue_at uart_tx_buf m = [] -> Q tt (reset_state m s)) ->
  wp uart_reset_runtime_state Q s.
Proof.
  intros Hg HQ. apply wp_bind, (wp_ring_reset _ uart_tx_buf); [done|apply (rg_rx _ Hg)|done|]. intros m1 Hg1 E1 _.
  apply wp_bind, (wp_ring_reset _ uart_rx_buf); [done|apply (rg_tx _ Hg1)|done|]. intros m2 Hg2 E2 E3.
  change (uart_mem (k_uart (ring_state m1 s))) with m1 in E3. rewrite E1 in E3. specialize (HQ m2 Hg2 E3 E2).
  change (ring_state m2 (ring_state m1 s)) with (set_k_uart (set_uart_mem m2 s.(k_uart)) s). apply wp_bind, wp_dev.
  apply wp_bind, wp_clear; [done|]. apply wp_bind, wp_clear_at; [done|]. apply wp_bind, wp_dev_at, wp_reset_stats_at. exact HQ.
Qed.

Lemma wp_dev_write_ier v Q s : 0 <= v < 256 -> Q tt (set_k_uart (set_hw_ier v s.(k_uart)) s) -> wp (uart_reg_write UART_IER_REG v) Q s.
Proof.
  intros Hv HQ. apply wp_bind, wp_reg_width, wp_modify. by destruct (qemu _); rewrite ?u8_id, ?u32_id by lia.
Qed.

Lemma wp_dev_ier_set bits Q s :
  0 <= bits < 256 -> 0 <= s.(k_uart).(hw_ier) < 256 -> Q tt (set_k_uart (set_hw_ier (Z.lor s.(k_uart).(hw_ier) bits) s.(k_uart)) s) ->
  wp (uart_ier_set_bits bits) Q s.
Proof.
  intros Hb Hi HQ. apply wp_bind, wp_k_irq_save, wp_bind, wp_bind, wp_gets, wp_reg_width, wp_bind.
  assert (E : (if qemu (k_sched (set_k_irq false s)) then u8 (hw_ier (k_uart (set_k_irq false s))) else u32 (hw_ier (k_uart (set_k_irq false s)))) =
    s.(k_uart).(hw_ier)) by (destruct (qemu _); [apply u8_id|apply u32_id]; cbn; lia).
  rewrite E. apply wp_dev_write_ier; [by apply lor_byte|]. 
  refine (wp_critical (fun s => set_k_uart (set_hw_ier (Z.lor s.(k_uart).(hw_ier) bits) s.(k_uart)) s) s _ _ _ _); [reflexivity..|exact HQ].
Qed.

Lemma wp_dev_ier_clear bits Q s :
  0 <= bits < 256 -> 0 <= s.(k_uart).(hw_ier) < 256 -> Q tt (set_k_uart (set_hw_ier (Z.ldiff s.(k_uart).(hw_ier) bits) s.(k_uart)) s) ->
  wp (uart_ier_clear_bits bits) Q s.
Proof.
  intros Hb Hi HQ. apply wp_bind, wp_k_irq_save, wp_bind, wp_bind, wp_gets, wp_reg_width, wp_bind.
  assert (E : (if qemu (k_sched (set_k_irq false s)) then u8 (hw_ier (k_uart (set_k_irq false s))) else u32 (hw_ier (k_uart (set_k_irq false s)))) =
    s.(k_uart).(hw_ier)) by (destruct (qemu _); [apply u8_id|apply u32_id]; cbn; lia).
  rewrite E, land_not32, <- Z.ldiff_land by lia. apply wp_dev_write_ier; [by apply ldiff_byte|]. 
  refine (wp_critical (fun s => set_k_uart (set_hw_ier (Z.ldiff s.(k_uart).(hw_ier) bits) s.(k_uart)) s) s _ _ _ _); [reflexivity..|exact HQ].
Qed.

(** The registers of the device up to the flush. *)
Lemma wp_irq_init Q s :
  rings_good s.(k_uart).(uart_mem) -> plic_fits s.(k_plic).(plic_base) s.(k_uart).(uart_irq_number) ->
  (forall a v, s.(k_plic).(plic_regs) !! a = Some v -> 0 <= v < 2 ^ 32) ->
  (forall s', uart_ready s s' -> Q tt s') -> wp uart_irq_init Q s.
Proof.
  intros Hg Hp Hregs HQ. apply wp_bind, wp_zoom, wp_modify. set (s0 := put _ s). change (rings_good s0.(k_uart).(uart_mem)) in Hg.
  apply wp_bind, wp_reset_runtime; [done|]. intros m Hg' Er Et. apply wp_bind, wp_gets.
  set (s1 := reset_state m s0). change (uart_irq_number (k_uart s1)) with (uart_irq_number (k_uart s)).
  apply wp_plic_setup; [exact Hp|exact Hregs|]. set (s2 := set_k_plic _ s1). apply wp_bind, wp_dev_write_ier; [lia|].
  set (s3 := set_k_uart _ s2). apply wp_bind, wp_bind, wp_reg_width.
  assert (E7 : (if qemu (k_sched s3) then u8 7 else u32 7) = 7) by (by destruct (qemu (k_sched s3))). rewrite E7. cbn [Z.testbit Pos.testbit N.testbit when].
  apply wp_modify. set (s4 := set_k_uart _ s3). apply wp_bind, wp_bind, wp_gets, wp_reg_width, wp_bind, wp_bind, wp_reg_width, wp_modify.
  match goal with |- wp _ _ (set_k_uart (set_hw_mcr ?v _) _) => assert (Hm : Z.testbit v 3 = true); [|set (mcr := v) in *; clearbody mcr] end.
  { repeat match goal with |- context [qemu ?c] => destruct (qemu c) end; unfold u8, u32; rewrite Z.mod_pow2_bits_low, Z.lor_spec by lia; cbn; apply orb_true_r. }
  set (s5 := set_k_uart _ s4). apply wp_polls; [apply polls_flush|]. intros u6 H6. apply wp_polls; [apply polls_ack|]. intros u7 H7.
  pose proof (polled_trans _ _ _ H6 H7) as H57. clear H6 H7. set (s7 := set_k_uart u7 _). apply wp_bind, wp_gets.
  assert (E0 : s7.(k_uart).(hw_ier) = 0) by (destruct H57 as (? & ? & ? & ->); done).
  apply wp_bind. change (qemu (k_sched s7)) with (qemu (k_sched s)).
  assert (Hset : forall bits ier, 0 <= bits < 256 -> Z.ldiff bits 2 = ier ->
    (forall s', uart_ready s s' -> Q tt s') -> (ier = if qemu (k_sched s) then 0x05 else 0x55) ->
    wp (uart_ier_set_bits bits) (fun _ s' => wp (uart_ier_clear_bits UART_IER_TX_ENABLE ;; uart_irq_ack_stale_status ;;
      dev_upd (set_uart_irq_enabled 1) ;; dev_upd (set_sie_external true) ;; k_irq_enable) Q s') s7).
  { intros bits ier Hb Ei _ Eq. apply wp_dev_ier_set; [done|by rewrite E0|]. rewrite E0, Z.lor_0_l. apply wp_bind, wp_dev_ier_clear; [done|exact Hb|].
    change (hw_ier (k_uart (set_k_uart (set_hw_ier bits (k_uart s7)) s7))) with bits. change (Z.ldiff bits UART_IER_TX_ENABLE) with (Z.ldiff bits 2). rewrite Ei.
    apply wp_polls; [apply polls_ack|]. intros u8 (f8 & i8 & r8 & ->). apply wp_bind, wp_dev, wp_bind, wp_dev. apply wp_zoom, wp_modify.
    apply HQ. destruct H57 as (f7 & i7 & r7 & ->). constructor; try done. }
  destruct (qemu (k_sched s)) eqn:Eqm; [by apply (Hset _ 0x05)|by apply (Hset _ 0x55)].
Qed.

(** * The operations *)

(** Among [N] looks in a row one finds the transmitter ready. *)
Definition ready_within (N : nat) (E : config) : Prop := forall n, exists j, (j < N)%nat /\ (E.(cf_env) (n + j)%nat).(le_idle) = true.

(** It is ready, or will be found so [j] looks later. *)
Definition ready_in (E : config) (j : nat) (l : line) : Prop :=
  l.(ln_idle) = true \/ (E.(cf_env) (l.(ln_reads) + j)%nat).(le_idle) = true.

Lemma ready_look E j l : ready_in E j l -> (look E l).(ln_idle) = true \/ exists j', j = S j' /\ ready_in E j' (look E l).
Proof.
  intros [H|H]; [left; cbn; by rewrite H|]. destruct j as [|j]; [left; cbn; rewrite Nat.add_0_r in H; by rewrite H, orb_true_r|].
  right. exists j. split; [done|]. right. cbn. by rewrite Nat.add_succ_r in H.
Qed.

Section waiting.
Context (E : config) (N : nat) (HN : ready_within N E).

Lemma ready_next l : exists j, (j < N)%nat /\ ready_in E j l.
Proof using HN. destruct (HN l.(ln_reads)) as (j & Hj & H). exists j. split; [done|by right]. Qed.

(** What sending gets nearer to with every round. *)
Definition waits (t : nat) (l : line) (fuel : nat) : Prop := exists j, ready_in E j l /\ (t * N + j < fuel)%nat.

Lemma waits_start t l fuel : (S t * N <= fuel)%nat -> waits t l fuel.
Proof using HN. intros Hf. destruct (ready_next l) as (j & Hj & H). exists j. split; [done|]. cbn in Hf. lia. Qed.

(** Trying to send one character of a queue of [S t] either does, or waits. *)
Lemma waits_drain t l fuel :
  length l.(ln_tx) = S t -> waits (S t) l (S fuel) ->
  let l' := (drain_one E l).2 in
  (length l'.(ln_tx) = t /\ waits t l' fuel) \/ (length l'.(ln_tx) = S t /\ waits (S t) l' fuel).
Proof using HN.
  intros Hl (j & Hj & Hf). cbn zeta. unfold drain_one. destruct (ready_look _ _ _ Hj) as [Hi|(j' & -> & Hj')].
  - rewrite Hi. unfold take_tx. destruct (ln_tx (look E l)) as [|c q] eqn:Eq; [by cbn in Eq; rewrite Eq in Hl|].
    left. cbn [snd]. cbn in Eq. rewrite Eq in Hl. injection Hl as Hl. split; [done|]. apply waits_start. lia.
  - destruct (ln_idle (look E l)) eqn:Hi.
    + unfold take_tx. destruct (ln_tx (look E l)) as [|c q] eqn:Eq; [by cbn in Eq; rewrite Eq in Hl|].
      left. cbn [snd]. cbn in Eq. rewrite Eq in Hl. injection Hl as Hl. split; [done|]. apply waits_start. lia.
    + right. split; [done|]. exists j'. split; [done|]. lia.
Qed.

(** ** Rounds of the loops *)

Lemma wp_rounds_again {A} (m : M ksys (round A)) fuel l l' (Q : option A -> ksys -> Prop) s :
  steps E l m Again l' -> uart_ok s -> settings s = E -> line_of s = l ->
  (forall s', uart_ok s' -> uart_frame s s' -> settings s' = E -> line_of s' = l' -> wp (rounds fuel m) Q s') -> wp (rounds (S fuel) m) Q s.
Proof.
  intros Hm Hok HE Hl Hk. apply wp_bind, wp_bind. eapply wp_mono; [by apply Hm|]. intros v s' (H1 & H2 & -> & H4).
  apply wp_ret. cbn beta iota. apply Hk; try done. by rewrite (uf_settings _ _ H2).
Qed.

Lemma wp_rounds_done {A} (m : M ksys (round A)) fuel l l' a (Q : option A -> ksys -> Prop) s :
  steps E l m (Done a) l' -> uart_ok s -> settings s = E -> line_of s = l ->
  (forall s', uart_ok s' -> uart_frame s s' -> line_of s' = l' -> Q (Some a) s') -> wp (rounds (S fuel) m) Q s.
Proof.
  intros Hm Hok HE Hl Hk. apply wp_bind, wp_bind. eapply wp_mono; [by apply Hm|]. intros v s' (H1 & H2 & -> & H4).
  apply wp_ret. cbn beta iota. apply wp_ret. by apply Hk.
Qed.

Lemma wp_send_poll c fuel : forall t Q s,
  uart_ok s -> settings s = E -> length (line_of s).(ln_tx) = t -> waits t (line_of s) fuel ->
  (forall s', uart_ok s' -> uart_frame s s' -> stream (line_of s') = stream (line_of s) ++ [u8 c] -> Q (Some tt) s') ->
  wp (rounds fuel (uart_send_poll_round c)) Q s.
Proof using HN.
  induction fuel as [|fuel IH]; intros t Q s Hok HE Ht Hw HQ; [destruct Hw as (j & _ & Hf); lia|].
  pose proof (steps_send_poll E c (line_of s)) as Hs. unfold send_poll in Hs. destruct (ln_tx (line_of s)) as [|x q] eqn:Eq.
  - rewrite bool_decide_true in Hs by done. destruct Hw as (j & Hj & Hf). destruct (ln_idle (look E (line_of s))) eqn:Hi; cbn [fst snd] in Hs.
    + eapply wp_rounds_done; [exact Hs|done|done|done|]. intros s' Hok' F' Hl'. apply HQ; [done|done|]. rewrite Hl'. unfold stream. cbn in Eq |- *.
      by rewrite Eq, !app_nil_r.
    + eapply wp_rounds_again; [exact Hs|done|done|done|]. intros s' Hok' F' HE' Hl'.
      destruct (ready_look _ _ _ Hj) as [Hi'|(j' & -> & Hj')]; [congruence|]. apply (IH t); try done.
      * rewrite Hl'. cbn in Eq, Ht |- *. by rewrite Eq.
      * exists j'. rewrite Hl'. split; [done|lia].
      * intros s2 Hok2 F2 E2. apply HQ; [done|by eapply uart_frame_trans|]. by rewrite E2, Hl'.
  - rewrite bool_decide_false in Hs by done. cbn [fst snd] in Hs. destruct t as [|t]; [done|]. injection Ht as Ht.
    destruct (waits_drain t (line_of s) fuel) as [[H1 H2]|[H1 H2]]; [cbn; cbn in Eq; rewrite Eq; cbn; lia|done|..];
      (eapply wp_rounds_again; [exact Hs|done|done|done|]; intros s' Hok' F' HE' Hl'; rewrite <- Hl' in H1, H2; eapply IH; [done|done|exact H1|exact H2|];
       intros s2 Hok2 F2 E2; apply HQ; [done|by eapply uart_frame_trans|]; by rewrite E2, Hl', stream_drain_one).
Qed.

(** The interrupt-driven loop of a caller that may not sleep: it makes room itself. *)
Lemma wp_send_busy c entry fuel : forall t Q s,
  uart_ok s -> settings s = E -> length (line_of s).(ln_tx) = t -> waits t (line_of s) fuel ->
  (forall s', uart_ok s' -> uart_frame s s' -> stream (line_of s') = stream (line_of s) ++ [u8 c] -> Q (Some tt) s') ->
  wp (rounds fuel (uart_send_irq_round c false entry)) Q s.
Proof using HN.
  induction fuel as [|fuel IH]; intros t Q s Hok HE Ht Hw HQ; [destruct Hw as (j & _ & Hf); lia|].
  destruct (room (ln_tx (line_of s))) eqn:Hr.
  - eapply wp_rounds_done; [by apply (steps_send_room E c false entry)|done|done|done|]. intros s' Hok' F' Hl'. apply HQ; [done|done|].
    rewrite Hl'. apply (stream_push (line_of s)).
  - destruct t as [|t]; [unfold room in Hr; rewrite Ht in Hr; done|].
    destruct (waits_drain t (ier_set UART_IER_TX_ENABLE (line_of s)) fuel) as [[H1 H2]|[H1 H2]]; [done|done|..];
      (eapply wp_rounds_again; [by apply steps_send_full|done|done|done|]; intros s' Hok' F' HE' Hl'; rewrite <- Hl' in H1, H2;
       eapply IH; [done|done|exact H1|exact H2|]; intros s2 Hok2 F2 E2; apply HQ; [done|by eapply uart_frame_trans|];
       by rewrite E2, Hl', stream_drain_one).
Qed.

End waiting.

(** ** The functions *)

(** The caller polls, or is driven by interrupts and may not sleep. *)
Definition stays (s : ksys) : Prop :=
  s.(k_uart).(uart_irq_enabled) = 0 \/ k_irq s = false \/ thread_can_sleep s.(k_sched) = Some (false, s.(k_sched)).

Lemma wp_uart_send N fuel entry c Q s :
  uart_ok s -> ready_within N (settings s) -> stays s -> (S (length (line_of s).(ln_tx)) * N <= fuel)%nat ->
  (forall s', uart_ok s' -> uart_frame s s' -> stream (line_of s') = stream (line_of s) ++ [u8 c] -> Q (Some tt) s') ->
  wp (uart_send fuel entry c) Q s.
Proof.
  intros Hok HN Hs Hf HQ. apply wp_bind, wp_gets, wp_bind, wp_gets. pose proof (waits_start _ _ HN _ (line_of s) _ Hf) as Hw.
  assert (Hp : wp (rounds fuel (uart_send_poll_round c)) Q s) by (eapply (wp_send_poll (settings s) N HN); [done..|exact Hw|exact HQ]).
  destruct Hs as [E0|[E0|E0]].
  - by rewrite E0.
  - by rewrite E0, andb_false_r.
  - cbn beta. destruct (negb (uart_irq_enabled (k_uart s) =? 0) && k_irq s); [|exact Hp]. apply wp_bind, wp_zoom. change (view s) with s.(k_sched). unfold wp at 1. rewrite E0.
    replace (put s.(k_sched) s) with s by (by destruct s). eapply (wp_send_busy (settings s) N HN); [done..|exact Hw|exact HQ].
Qed.

Lemma take_tx_nil l : l.(ln_tx) = [] -> take_tx l = (false, l).
Proof. unfold take_tx. by intros ->. Qed.
Lemma if_same {A} (b : bool) (a : A) : (if b then a else a) = a.
Proof. by destruct b. Qed.

(** Waiting for the transmitter to run dry. *)
Lemma wp_wait_idle E N fuel : ready_within N E -> forall t Q s,
  uart_ok s -> settings s = E -> length (line_of s).(ln_tx) = t -> waits E N t (line_of s) fuel ->
  (forall s', uart_ok s' -> uart_frame s s' -> (line_of s').(ln_tx) = [] -> (line_of s').(ln_idle) = true ->
     stream (line_of s') = stream (line_of s) -> Q tt s') ->
  wp (uart_tx_wait_idle fuel) Q s.
Proof.
  intros HN. induction fuel as [|fuel IH]; intros t Q s Hok HE Ht Hw HQ; [destruct Hw as (j & _ & Hf); lia|].
  apply wp_bind, wp_bind. eapply wp_mono; [by apply (steps_wait_idle E (line_of s) s)|]. intros v s' (Hok' & F' & -> & Hl'). apply wp_ret.
  assert (HE' : settings s' = E) by (by rewrite (uf_settings _ _ F')).
  assert (Hgo : forall t', (wait_idle E (line_of s)).1 = false -> length (line_of s').(ln_tx) = t' -> waits E N t' (line_of s') fuel ->
    stream (line_of s') = stream (line_of s) -> wp (uart_tx_wait_idle fuel) Q s').
  { intros t' _ H1 H2 H3. eapply IH; [done|done|exact H1|exact H2|]. intros s2 A1 A2 A3 A4 A5. apply HQ; try done; [by eapply uart_frame_trans|congruence]. }
  unfold wait_idle in *. destruct (ln_tx (line_of s)) as [|x q] eqn:Eq.
  - rewrite bool_decide_true in * by done. destruct Hw as (j & Hj & Hf). destruct (ln_idle (look E (line_of s))) eqn:Hi; cbn [fst snd] in *.
    + apply wp_ret. apply HQ; [done|done|rewrite Hl'; cbn; cbn in Eq; done|by rewrite Hl'|by rewrite Hl'].
    + destruct (ready_look _ _ _ Hj) as [Hi'|(j' & -> & Hj')]; [congruence|]. apply (Hgo 0%nat); [done|..].
      * rewrite Hl'. by rewrite (proj2 (proj2 (drain_one_keeps E (look E (line_of s))))) by done.
      * rewrite Hl'. unfold drain_one. destruct (ready_look _ _ _ Hj') as [Hi2|(j2 & -> & Hj2)].
        -- exists 0%nat. rewrite Hi2, take_tx_nil by done. split; [by left|]. cbn in Ht. lia.
        -- exists j2. rewrite take_tx_nil, if_same by done. split; [done|]. cbn in Ht. lia.
      * by rewrite Hl', stream_drain_one.
  - rewrite bool_decide_false in * by done. cbn [fst snd] in *. destruct t as [|t]; [done|]. injection Ht as Ht.
    destruct (waits_drain E N HN t (line_of s) fuel) as [[H1 H2]|[H1 H2]]; [cbn; cbn in Eq; rewrite Eq; cbn; lia|done|..];
      rewrite <- Hl' in H1, H2; (eapply Hgo; [done|exact H1|exact H2|]); by rewrite Hl', stream_drain_one.
Qed.

(** Receiving: a character arrives within [N] looks. *)
Definition input_within (N : nat) (E : config) : Prop := forall n, exists j, (j < N)%nat /\ (E.(cf_env) (n + j)%nat).(le_arrived) <> [].

Lemma wp_recv_poll E fuel : forall j Q s,
  uart_ok s -> settings s = E -> (E.(cf_env) ((line_of s).(ln_reads) + j)%nat).(le_arrived) <> [] -> (j < fuel)%nat ->
  (forall c s', uart_ok s' -> uart_frame s s' -> inflow E (line_of s) [c] (line_of s') -> Q (Some c) s') ->
  wp (rounds fuel uart_recv_poll_round) Q s.
Proof.
  induction fuel as [|fuel IH]; intros j Q s Hok HE Ha Hj HQ; [lia|].
  pose proof (steps_recv_poll E (line_of s)) as Hs. destruct (recv_poll E (line_of s)) as [[c|] l'] eqn:Er; cbn [fst snd] in Hs.
  - eapply wp_rounds_done; [exact Hs|done|done|done|]. intros s' Hok' F' Hl'. apply HQ; [done|done|]. rewrite Hl'. revert Er. unfold recv_poll.
    destruct (ln_rx (line_of s)) as [|x q] eqn:Eq; [destruct (ln_fifo (look E (line_of s))) as [|b rest] eqn:Ef|]; intros [= <- <-].
    + apply (inflow_trans _ _ [] (look E (line_of s))); [apply inflow_look|]. exists 0%nat. unfold backlog. cbn in Ef |- *. cbn in Eq.
      rewrite Ef, Eq, app_nil_r. cbn. split_and!; [lia|done|done].
    + exists 0%nat. unfold backlog. cbn in Eq |- *. rewrite Eq, app_nil_r. cbn. split_and!; [lia|done|done].
  - assert (Hl : l' = look E (line_of s) /\ ln_fifo l' = []).
    { revert Er. unfold recv_poll. destruct (ln_rx (line_of s)); [|done]. destruct (ln_fifo (look E (line_of s))) eqn:Ef; [|done]. by intros [= <-]. }
    destruct Hl as [-> Hf]. cbn in Hf. apply app_eq_nil in Hf as [_ Hf].
    destruct j as [|j]; [rewrite Nat.add_0_r in Ha; by destruct Ha|].
    eapply wp_rounds_again; [exact Hs|done|done|done|]. intros s' Hok' F' HE' Hl'. apply (IH j); [done|done| |lia|].
    + rewrite Hl'. cbn. by rewrite Nat.add_succ_r in Ha.
    + intros c s2 Hok2 F2 H2. apply HQ; [done|by eapply uart_frame_trans|]. apply (inflow_trans _ _ [] (line_of s')); [|done]. rewrite Hl'. apply inflow_look.
Qed.

Lemma wp_uart_recv N fuel entry Q s :
  uart_ok s -> input_within N (settings s) -> s.(k_uart).(uart_irq_enabled) = 0 \/ k_irq s = false -> (N <= fuel)%nat ->
  (forall c s', uart_ok s' -> uart_frame s s' -> inflow (settings s) (line_of s) [c] (line_of s') -> Q (Some c) s') ->
  wp (uart_recv fuel entry) Q s.
Proof.
  intros Hok HN Hs Hf HQ. apply wp_bind, wp_gets, wp_bind, wp_gets. destruct (HN (line_of s).(ln_reads)) as (j & Hj & Ha).
  assert (Hp : wp (rounds fuel uart_recv_poll_round) Q s) by (eapply (wp_recv_poll (settings s) fuel j); try done; lia).
  destruct Hs as [E0|E0]; [by rewrite E0|by rewrite E0, andb_false_r].
Qed.

(** * Printing strings and numbers on the serial line

    [uart_send_string], [uart_send_hex] and [uart_send_dec] against any sender;
    the polling driver is one. *)

(** What a sender promises: a character is appended to the output, and memory
    stays as it is. *)
Class Sender (send : Z -> M ksys unit) (good : ksys -> Prop) (out : ksys -> list Z) : Prop := {
  sender_send : forall c s, good s -> 0 <= c < 256 ->
    wp (send c) (fun _ s' => good s' /\ out s' = out s ++ [c] /\ s'.(k_mem) = s.(k_mem)) s;
}.

(** ** Numerals *)

Definition digit_value (c : Z) : Z := default 0 (hex_digit c).
Definition numeral (base : Z) (l : list Z) : Z := foldl (fun a c => base * a + digit_value c) 0 l.

Lemma numeral_snoc base l c : numeral base (l ++ [c]) = base * numeral base l + digit_value c.
Proof. unfold numeral. by rewrite foldl_app. Qed.

Lemma numeral_acc base l : forall a, foldl (fun a c => base * a + digit_value c) a l = a * base ^ Z.of_nat (length l) + numeral base l.
Proof.
  induction l as [|c l IH]; intros a; unfold numeral in *; cbn [foldl length]; [cbn; lia|].
  rewrite IH, (IH (base * 0 + _)), Nat2Z.inj_succ, Z.pow_succ_r by lia. ring.
Qed.

Lemma numeral_cons base c l : numeral base (c :: l) = digit_value c * base ^ Z.of_nat (length l) + numeral base l.
Proof. unfold numeral at 1. cbn [foldl]. rewrite numeral_acc. f_equal. lia. Qed.

Lemma dec_digit d : 0 <= d < 10 -> digit_value (48 + d) = d /\ u8 (48 + d) = 48 + d.
Proof.
  intros Hd. unfold digit_value, hex_digit. rewrite (proj2 (Z.leb_le _ _)), (proj2 (Z.leb_le _ _)) by lia. cbn. rewrite u8_id by lia. split; lia.
Qed.

Lemma dec_fill_app n : forall v buf, dec_fill n v buf = buf ++ dec_fill n v [].
Proof.
  induction n as [|n IH]; intros v buf; cbn [dec_fill]; [by rewrite app_nil_r|]. destruct (0 <? v); [|by rewrite app_nil_r].
  rewrite IH, (IH _ ([] ++ _)). by rewrite <- app_assoc.
Qed.

Definition is_dec (c : Z) : Prop := 48 <= c <= 57.

(** The decimal numeral of [v]: no leading zero. *)
Lemma dec_fill_numeral n : forall v, 0 <= v < 10 ^ Z.of_nat n ->
  let l := rev (dec_fill n v []) in numeral 10 l = v /\ Forall is_dec l /\ (0 < v -> exists c l', l = c :: l' /\ c <> 48).
Proof.
  induction n as [|n IH]; intros v Hv; [cbn in Hv; cbn; split_and!; [unfold numeral; cbn; lia|done|lia]|].
  cbn [dec_fill]. destruct (Z.ltb_spec 0 v) as [Hp|Hp]; [|cbn; split_and!; [unfold numeral; cbn; lia|done|lia]].
  pose proof (Z.mod_pos_bound v 10 ltac:(lia)) as Hm. pose proof (Z.div_mod v 10 ltac:(lia)) as Hd. destruct (dec_digit (v mod 10) Hm) as [D1 D2].
  rewrite dec_fill_app. cbn zeta. rewrite app_nil_l, rev_app_distr. cbn [rev app]. rewrite D2.
  rewrite Nat2Z.inj_succ, Z.pow_succ_r in Hv by lia. destruct (IH (v / 10)) as (I1 & I2 & I3).
  { split; [apply Z.div_pos; lia|apply Z.div_lt_upper_bound; lia]. }
  split_and!.
  - rewrite numeral_snoc, I1, D1. lia.
  - apply Forall_app. split; [done|]. constructor; [unfold is_dec; lia|done].
  - intros _. destruct (Z.ltb_spec 0 (v / 10)) as [Hq|Hq].
    + destruct (I3 Hq) as (c & l' & -> & Hc). by exists c, (l' ++ [48 + v mod 10]).
    + assert (Ez : v / 10 = 0) by (pose proof (Z.div_pos v 10); lia). rewrite Ez. assert (dec_fill n 0 [] = []) as -> by (by destruct n).
      exists (48 + v mod 10), []. split; [done|lia].
Qed.

Definition hex_char (digit : Z) : Z := if digit <? 10 then u8 (48 + digit) else u8 (97 + (digit - 10)).
Fixpoint hex_list (n : nat) (v : Z) : list Z :=
  match n with
  | O => []
  | S n' => hex_char (Z.land (Z.shiftr v (4 * Z.of_nat n')) 0xF) :: hex_list n' v
  end.

Lemma hex_char_value d : 0 <= d < 16 -> digit_value (hex_char d) = d /\ 0 <= hex_char d < 256.
Proof.
  intros Hd. assert (Hc : d = 0 \/ d = 1 \/ d = 2 \/ d = 3 \/ d = 4 \/ d = 5 \/ d = 6 \/ d = 7 \/ d = 8 \/ d = 9 \/ d = 10 \/ d = 11 \/ d = 12 \/ d = 13 \/ d = 14 \/ d = 15) by lia.
  repeat (destruct Hc as [->|Hc]; [by vm_compute|]). subst. by vm_compute.
Qed.

Lemma hex_list_length n v : length (hex_list n v) = n.
Proof. induction n as [|n IH]; cbn; [done|]. by rewrite IH. Qed.

Lemma hex_digit_byte v k : 0 <= v -> 0 <= k -> 0 <= Z.land (Z.shiftr v k) 0xF < 16 /\ Z.land (Z.shiftr v k) 0xF = (v / 2 ^ k) mod 16.
Proof.
  intros Hv Hk. rewrite Z.shiftr_div_pow2 by lia. change 0xF with (2 ^ 4 - 1). rewrite land_pow2_mask by lia. change (2 ^ 4) with 16.
  split; [apply Z.mod_pos_bound; lia|done].
Qed.

Lemma hex_list_numeral n v : 0 <= v -> numeral 16 (hex_list n v) = v mod 16 ^ Z.of_nat n.
Proof.
  intros Hv. induction n as [|n IH]; [cbn; by rewrite Z.mod_1_r|]. cbn [hex_list]. rewrite numeral_cons, hex_list_length, IH.
  destruct (hex_digit_byte v (4 * Z.of_nat n) Hv ltac:(lia)) as [Hr Ev]. rewrite (proj1 (hex_char_value _ Hr)), Ev.
  rewrite Nat2Z.inj_succ, Z.pow_succ_r, (Z.mul_comm 16), Z.rem_mul_r by (try apply Z.pow_nonzero; lia).
  rewrite Z.pow_mul_r by lia. change (2 ^ 4) with 16. lia.
Qed.

(** ** Printing *)

Section printing.
Context {send : Z -> M ksys unit} {good : ksys -> Prop} {out : ksys -> list Z} `{HS : !Sender send good out}.

Definition sent (s : ksys) (l : list Z) (s' : ksys) : Prop := good s' /\ out s' = out s ++ l /\ s'.(k_mem) = s.(k_mem).

Lemma sent_nil s : good s -> sent s [] s.
Proof. unfold sent. by rewrite app_nil_r. Qed.
Lemma sent_trans s1 l1 s2 l2 s3 : sent s1 l1 s2 -> sent s2 l2 s3 -> sent s1 (l1 ++ l2) s3.
Proof. intros (A1 & A2 & A3) (B1 & B2 & B3). unfold sent. split_and!; [done|by rewrite B2, A2, app_assoc|congruence]. Qed.

Lemma wp_send c s : good s -> 0 <= c < 256 -> wp (send c) (fun _ s' => sent s [c] s') s.
Proof using HS. intros Hg Hc. by apply sender_send. Qed.

Lemma wp_send_all l : forall s, good s -> Forall (fun c => 0 <= c < 256) l -> wp (send_all send l) (fun _ s' => sent s l s') s.
Proof using HS.
  induction l as [|c l IH]; intros s Hg Hl; cbn [send_all]; [apply wp_ret; by apply sent_nil|]. apply Forall_cons in Hl as [Hc Hl].
  apply wp_bind. eapply wp_mono; [by apply wp_send|]. intros [] s1 H1. eapply wp_mono; [apply IH; [apply H1|done]|].
  intros [] s2 H2. exact (sent_trans _ [c] _ _ _ H1 H2).
Qed.

Lemma wp_send_hex n v s : 0 <= v -> good s -> wp (send_hex_digits send n v) (fun _ s' => sent s (hex_list n v) s') s.
Proof using HS.
  intros Hv. revert s. induction n as [|n IH]; intros s Hg; cbn [send_hex_digits hex_list]; [apply wp_ret; by apply sent_nil|].
  destruct (hex_digit_byte v (4 * Z.of_nat n) Hv ltac:(lia)) as [Hr _]. fold (hex_char (Z.land (Z.shiftr v (4 * Z.of_nat n)) 0xF)).
  apply wp_bind. eapply wp_mono; [apply wp_send; [done|by apply hex_char_value]|]. intros [] s1 H1. eapply wp_mono; [apply IH, H1|].
  intros [] s2 H2. exact (sent_trans _ [_] _ _ _ H1 H2).
Qed.

Lemma wp_send_string str l s :
  good s -> string_at s.(k_mem).(cm_bytes) str l -> Forall (fun c => 0 <= c < 256) l ->
  wp (uart_send_string send str) (fun _ s' => sent s (crlf l) s') s.
Proof using HS.
  intros Hg Hs Hb. apply wp_bind, wp_gets.
  apply (wp_loop (fun i s' => 0 <= i <= Z.of_nat (length l) /\ sent s (crlf (take (Z.to_nat i) l)) s') (fun i _ => Z.of_nat (length l) - i)).
  - intros i s' [Hi _]. lia.
  - intros i s' [Hi H]. pose proof H as (Hg' & _ & Em). rewrite <- Em in Hs. apply wp_bind, wp_zoom, wp_zoom.
    destruct (decide (i = Z.of_nat (length l))) as [->|Hn].
    + eapply wp_access; [apply (string_end _ _ _ Hs)|]. rewrite !put_view. cbn [Z.eqb]. apply wp_ret. rewrite Nat2Z.id, firstn_all in H. done.
    + destruct (lookup_lt_is_Some_2 l (Z.to_nat i)) as [c Ec]; [lia|]. destruct (string_char _ _ _ _ _ Hs Ec) as [Hc H0].
      rewrite Z2Nat.id in Hc by lia. eapply wp_access; [exact Hc|]. rewrite !put_view. rewrite (proj2 (Z.eqb_neq _ _) H0).
      pose proof (proj1 (Forall_lookup _ _) Hb _ _ Ec) as Hr. cbn beta in Hr.
      assert (Ht : crlf (take (Z.to_nat (i + 1)) l) = crlf (take (Z.to_nat i) l) ++ (if c =? 10 then [13; 10] else [c])).
      { replace (Z.to_nat (i + 1)) with (S (Z.to_nat i)) by lia. rewrite (take_S_r _ _ _ Ec). unfold crlf. rewrite flat_map_app. cbn. by rewrite app_nil_r. }
      apply wp_bind. destruct (Z.eqb_spec c 10) as [->|Hc10]; cbn [when].
      * eapply wp_mono; [by apply wp_send|]. intros [] s1 H1. apply wp_bind. eapply wp_mono; [apply wp_send; [apply H1|done]|]. intros [] s2 H2.
        apply wp_ret. split; [|lia]. split; [lia|]. rewrite Ht. eapply sent_trans; [exact H|]. exact (sent_trans _ [13] _ [10] _ H1 H2).
      * apply wp_ret, wp_bind. eapply wp_mono; [by apply wp_send|]. intros [] s2 H2. apply wp_ret. split; [|lia]. split; [lia|]. rewrite Ht.
        by eapply sent_trans.
  - split; [lia|]. cbn. by apply sent_nil.
  - pose proof (string_fuel _ _ _ Hs). lia.
Qed.

End printing.
