(* ===== verification/Serial.v ===== *)
(** * The serial driver: the theorems

    What the driver promises for every history of interrupts, bottom halves and
    calls, and for the functions that wait for the device. *)

From S2P Require Import Prelude Lists Memory Slab MemoryInit ByteAllocator Task Sched Wait Thread HeapIface HeapLink SchedRep SchedLists WaitLists ThreadInv SchedOps WaitOps ThreadNew ThreadExit ThreadReap ThreadLoops SchedHistory SchedView Ring Str Cpio Irq Trace Work Interrupts Uart UartInv UartHistory UartProps UartPoll.

Open Scope Z_scope.

(** ** A small system *)

(** Two threads; the line is ready at every third look, and "hi" arrives. *)
Definition demo_line (n : nat) : line_event :=
  mkLine (match n with 1%nat => [104] | 4%nat => [105] | _ => [] end) (Nat.eqb (Nat.modulo n 3) 2) 0x40.
Definition demo_serial : ksys := set_k_uart (set_hw_env demo_line (set_hw_idle false demo_uart)) (set_k_sched demo_running demo_ksys).

Lemma demo_rings_good : rings_good demo_uart.(uart_mem).
Proof.
  constructor; [|by eexists..]. split; [done|]. intros p r H. change (rings (uart_mem demo_uart)) with ({[1 := blank_ring; 2 := blank_ring]} : gmap Z ringbuf) in H.
  assert (r = blank_ring) as ->.
  { apply lookup_insert_Some in H as [[_ <-]|[_ H]]; [done|]. by apply lookup_singleton_Some in H as [_ <-]. }
  unfold ring_ok, RINGBUF_CAPACITY. cbn. by split_and!.
Qed.

Lemma demo_serial_ok : uart_ok demo_serial.
Proof.
  constructor.
  - exact demo_rings_good.
  - exact demo_running_ok.
  - vm_compute. by eexists.
  - vm_compute. by eexists.
  - vm_compute. split; [discriminate|reflexivity].
  - exact demo_trace_ok.
Qed.

(** Operations that may always happen. *)
Definition plain (op : uart_op) : bool :=
  match op with
  | USend _ b _ | URecv b _ => negb b
  | UWrite _ _ | UResume _ _ => false
  | _ => true
  end.

Lemma plain_allowed op s : plain op = true -> uart_allowed op s.
Proof. destruct op; cbn; try done; by destruct sleepable. Qed.

Lemma plain_history call fill ops : forall s,
  forallb plain ops = true -> uart_ok s -> refills (settings s) call fill -> exists t s', uart_history call ops s t s'.
Proof.
  induction ops as [|op ops IH]; intros s Hp Hok Hc; [eexists _, _; constructor|]. cbn in Hp. apply andb_true_iff in Hp as [Hp1 Hp2].
  pose proof (plain_allowed op s Hp1) as Ha. destruct (wp_run _ _ _ (wp_uart_op call fill op s Hok Ha Hc)) as ([a d] & s1 & E1 & Hok1 & [Hm1 _] & _).
  destruct (IH s1 Hp2 Hok1) as ([a' d'] & s2 & H2); [by rewrite Hm1|]. exists (a ++ a', d ++ d'), s2. by econstructor.
Qed.

(** No producer is registered. *)
Lemma no_refill E call fill : E.(cf_refill) = 0 -> refills E call fill.
Proof. intros H Hn. by rewrite H in Hn. Qed.

Definition idle_call (f : Z) : M ksys unit := mret tt.
Definition idle_fill (f : Z) (l : line) : line := l.

Lemma demo_no_refill : refills (settings demo_serial) idle_call idle_fill.
Proof. by apply no_refill. Qed.

(** ** Histories *)

(** C23: The driver implements its specification on lines.  In a good state every
    operation that may happen (an interrupt, a bottom half, a round of sending or
    receiving, a flush, a whole buffer, a sleeper going on) runs to its end: no
    access leaves the rings or the thread structures, and no character is
    written to a transmitter that is not ready.  Any history of such operations
    leaves a good state, and its traffic, the rings, the device and the pending
    bits are exactly those of the specification. *)
Theorem uart_refines call fill s :
  uart_ok s -> refills (settings s) call fill ->
  (forall op, uart_allowed op s -> exists t s', run_uart_op call op s = Some (t, s')) /\
  (forall ops t s', uart_history call ops s t s' ->
     uart_ok s' /\ settings s' = settings s /\ (t, line_of s') = line_run (settings s) fill ops (line_of s)).
Proof.
  intros Hok Hc. split.
  - intros op Ha. destruct (wp_run _ _ _ (wp_uart_op call fill op s Hok Ha Hc)) as (t & s' & E & _). by exists t, s'.
  - intros ops t s' H. destruct (history_line call fill ops s t s' H Hok Hc) as (H1 & [H2 _] & H3). done.
Qed.

(** Two characters are accepted and sent, one arrives and is read. *)
Definition demo_ops : list uart_op :=
  [USend 65 false 0; USend 66 false 0; UTop; UTop; UClaim; URx; UTop; UClaim; UTx; UFlush; UFlush; URecv false 0].

Lemma uart_refines_witness :
  exists t s', uart_history idle_call demo_ops demo_serial t s' /\ uart_ok s' /\ t = ([65; 66], [104]) /\
    (ln_sent (line_of s'), ln_tx (line_of s'), ln_rx (line_of s')) = ([65; 66], [], []).
Proof.
  destruct (uart_refines idle_call idle_fill demo_serial demo_serial_ok demo_no_refill) as [_ H].
  destruct (plain_history idle_call idle_fill demo_ops demo_serial eq_refl demo_serial_ok demo_no_refill) as (t & s' & Hh).
  exists t, s'. destruct (H _ _ _ Hh) as (Hok & _ & E). split; [exact Hh|]. split; [exact Hok|].
  pose proof (f_equal snd E) as El. pose proof (f_equal fst E) as Et. cbn [fst snd] in El, Et. rewrite El, Et. vm_compute. split; reflexivity.
Defined.

(** C24: Output is exact.  As long as no streaming producer is registered, what the
    device has been given followed by what waits in the ring is, after any
    history, what it was before followed by exactly the characters accepted, in
    the order of acceptance: nothing is lost, repeated, reordered or invented,
    whichever mixture of bottom halves, polling senders, flushes and callers that
    may not sleep has moved it along. *)
Theorem uart_output_exact call ops s a d s' :
  uart_ok s -> s.(k_uart).(uart_tx_refill) = 0 -> uart_history call ops s (a, d) s' ->
  stream (line_of s') = stream (line_of s) ++ a.
Proof.
  intros Hok Hr H. destruct (history_line call idle_fill ops s _ s' H Hok (no_refill (settings s) _ _ Hr)) as (_ & _ & E).
  pose proof (stream_run (settings s) idle_fill ops (line_of s) Hr) as Hs. by rewrite <- E in Hs.
Qed.

Lemma uart_output_exact_witness : exists a d s', uart_history idle_call demo_ops demo_serial (a, d) s' /\ stream (line_of s') = a.
Proof.
  destruct (plain_history idle_call idle_fill demo_ops demo_serial eq_refl demo_serial_ok demo_no_refill) as ([a d] & s' & H).
  exists a, d, s'. split; [exact H|]. exact (uart_output_exact idle_call demo_ops demo_serial a d s' demo_serial_ok eq_refl H).
Defined.

(** C25: Input is exact while it fits.  After any history, the characters delivered
    followed by those still waiting in the ring and in the device are, in order,
    among those that waited before and those that arrived meanwhile; and as long
    as these are at most 128 none of them is lost. *)
Theorem uart_input_exact call ops s a d s' :
  uart_ok s -> s.(k_uart).(uart_tx_refill) = 0 -> uart_history call ops s (a, d) s' -> inflow (settings s) (line_of s) d (line_of s').
Proof.
  intros Hok Hr H. destruct (history_line call idle_fill ops s _ s' H Hok (no_refill (settings s) _ _ Hr)) as (_ & _ & E).
  pose proof (inflow_run (settings s) idle_fill ops (line_of s) Hr) as Hs. by rewrite <- E in Hs.
Qed.

Lemma uart_input_exact_witness :
  exists a d s', uart_history idle_call demo_ops demo_serial (a, d) s' /\ inflow (settings demo_serial) (line_of demo_serial) d (line_of s').
Proof.
  destruct (plain_history idle_call idle_fill demo_ops demo_serial eq_refl demo_serial_ok demo_no_refill) as ([a d] & s' & H).
  exists a, d, s'. split; [exact H|]. exact (uart_input_exact idle_call demo_ops demo_serial a d s' demo_serial_ok eq_refl H).
Defined.

(** C26: The driver never stalls.  In every history, at every moment, the receive
    interrupt is enabled, or its bottom half is pending, or the dispatcher has
    taken it and has not run it yet; and whenever output waits in the ring the
    same holds of the transmit interrupt.  So masking in the top half, the budget
    of the bottom halves and senders that find the ring full never leave waiting
    characters without anything to move them. *)
Theorem uart_never_stalls call ops s t s' o :
  uart_ok s -> s.(k_uart).(uart_tx_refill) = 0 -> uart_history call ops s t s' -> served o (line_of s) ->
  served (owed_run (settings s) idle_fill ops (line_of s) o) (line_of s').
Proof.
  intros Hok Hr H Hs. destruct (history_line call idle_fill ops s _ s' H Hok (no_refill (settings s) _ _ Hr)) as (_ & _ & E).
  pose proof (served_run (settings s) idle_fill ops (line_of s) o Hr Hs) as Hs'. by rewrite <- E in Hs'.
Qed.

Lemma uart_never_stalls_witness :
  exists t s', uart_history idle_call [USend 65 false 0; UTop; UClaim; UTop] demo_serial t s' /\
    served (mkDebt false false) (line_of s').
Proof.
  destruct (plain_history idle_call idle_fill [USend 65 false 0; UTop; UClaim; UTop] demo_serial eq_refl demo_serial_ok demo_no_refill) as (t & s' & H).
  exists t, s'. split; [exact H|].
  assert (H0 : served (mkDebt false false) (line_of demo_serial)) by (split; vm_compute; [reflexivity|intros Hn; by destruct Hn]).
  exact (uart_never_stalls idle_call _ demo_serial t s' _ demo_serial_ok eq_refl H H0).
Defined.

(** ** Setting up *)

(** [uart_irq_init] returns whatever the firmware left in the device, with the
    driver ready: both rings empty, no bottom half of the driver pending, no
    producer registered, the statistics zero, receive and line interrupts enabled
    and transmit interrupts off, the interrupt output on; the controller delivers
    the source (priority 1, threshold 0, its enable bit set, the other sources as
    before); external interrupts and the interrupt flag are on; nothing has been
    sent.  Input is served from then on. *)
Theorem uart_irq_init_correct s :
  rings_good s.(k_uart).(uart_mem) -> plic_fits s.(k_plic).(plic_base) s.(k_uart).(uart_irq_number) ->
  (forall a v, s.(k_plic).(plic_regs) !! a = Some v -> 0 <= v < 2 ^ 32) ->
  wp uart_irq_init (fun _ s' => uart_ready s s' /\ served (mkDebt false false) (line_of s')) s.
Proof.
  intros Hg Hp Hr. apply wp_irq_init; [done|done|done|]. intros s' H. split; [done|]. split.
  - unfold rx_served. cbn [ln_ier line_of]. rewrite (ur_ier _ _ H). by destruct (qemu _).
  - intros Hn. by destruct Hn; apply (ur_tx _ _ H).
Qed.

Lemma uart_irq_init_correct_witness :
  wp uart_irq_init (fun _ s' => s'.(k_uart).(hw_ier) = 0x05 /\ s'.(k_plic).(plic_regs) !! 0x0c000028 = Some 1) demo_serial.
Proof.
  eapply wp_mono; [apply (uart_irq_init_correct demo_serial)|].
  - exact demo_rings_good.
  - vm_compute. split_and!; congruence.
  - intros a v H. change (plic_regs (k_plic demo_serial)) with (∅ : gmap Z Z) in H. by rewrite lookup_empty in H.
  - intros [] s' [H _]. split.
    + rewrite (ur_ier _ _ H). vm_compute. reflexivity.
    + rewrite (ur_plic _ _ H). vm_compute. reflexivity.
Defined.

(** ** Waiting for the device *)

(** C27: The waiting loops end.  If among [N] looks in a row one finds the
    transmitter ready, then [uart_send], called with interrupts off, before they
    are set up, or where sleeping is not allowed, returns within [N] rounds for
    every character that waits and one more, and has appended exactly its
    character to the output; [uart_tx_wait_idle] returns within as many rounds,
    with everything accepted before given to the device.  If input arrives within
    [N] looks, a polling [uart_recv] returns the oldest character.  The rest of
    the kernel is left alone. *)
Theorem uart_waits_end N fuel entry c s :
  uart_ok s -> (S (length (line_of s).(ln_tx)) * N <= fuel)%nat ->
  (ready_within N (settings s) -> stays s ->
     wp (uart_send fuel entry c)
       (fun r s' => r = Some tt /\ uart_ok s' /\ uart_frame s s' /\ stream (line_of s') = stream (line_of s) ++ [u8 c]) s) /\
  (ready_within N (settings s) ->
     wp (uart_tx_wait_idle fuel)
       (fun _ s' => uart_ok s' /\ uart_frame s s' /\ (line_of s').(ln_tx) = [] /\ (line_of s').(ln_idle) = true /\
          (line_of s').(ln_sent) = stream (line_of s)) s) /\
  (input_within N (settings s) -> s.(k_uart).(uart_irq_enabled) = 0 \/ k_irq s = false ->
     wp (uart_recv fuel entry)
       (fun r s' => exists x, r = Some x /\ uart_ok s' /\ uart_frame s s' /\ inflow (settings s) (line_of s) [x] (line_of s')) s).
Proof.
  intros Hok Hf. split_and!.
  - intros HN Hs. by apply (wp_uart_send N).
  - intros HN. eapply (wp_wait_idle (settings s) N fuel HN); [done|done|done|by apply waits_start|].
    intros s' H1 H2 H3 H4 H5. split_and!; try done. rewrite <- H5. unfold stream. by rewrite H3, app_nil_r.
  - intros HN Hs. apply (wp_uart_recv N); [done|done|done|lia|]. intros x s' H1 H2 H3. by exists x.
Qed.

Lemma demo_ready : ready_within 3 (settings demo_serial).
Proof.
  intros n. change (cf_env (settings demo_serial)) with demo_line. unfold demo_line. cbn [le_idle].
  assert (Hb : (n mod 3 < 3)%nat) by (apply Nat.mod_upper_bound; lia). pose proof (Nat.div_mod_eq n 3) as Hd.
  exists (2 - n mod 3)%nat. split; [lia|]. apply Nat.eqb_eq. symmetry. apply (Nat.mod_unique _ _ (n / 3)%nat); lia.
Qed.

Lemma uart_waits_end_witness :
  wp (uart_send 3 0 65) (fun r s' => r = Some tt /\ stream (line_of s') = [65]) (set_k_irq false demo_serial).
Proof.
  destruct (uart_waits_end 3 3 0 65 (set_k_irq false demo_serial)) as [H _].
  - apply uart_ok_irq. exact demo_serial_ok.
  - vm_compute. reflexivity.
  - eapply wp_mono; [apply H|].
    + exact demo_ready.
    + right. left. reflexivity.
    + intros r s' (-> & _ & _ & E). split; [reflexivity|]. rewrite E. vm_compute. reflexivity.
Defined.

(** ** Printing *)

(** The polling driver as a sender: interrupts off, a line that gets ready. *)
Definition poll_send (fuel : nat) (c : Z) : M ksys unit := _ ← uart_send fuel 0 c; mret tt.
Definition poll_good (N : nat) (s : ksys) : Prop := uart_ok s /\ k_irq s = false /\ ready_within N (settings s).

#[export] Instance poll_sender N fuel : (129 * N <= fuel)%nat -> Sender (poll_send fuel) (poll_good N) (fun s => stream (line_of s)).
Proof.
  intros Hf. constructor. intros c s (Hok & Hi & HN) Hc. apply wp_bind.
  pose proof (tx_bounded s (line_of s) Hok eq_refl) as Hl. unfold RINGBUF_CAPACITY in Hl.
  apply (wp_uart_send N); [done|done|by right; left|nia|]. intros s' Hok' F' E'. apply wp_ret. split_and!.
  - split_and!; [done|by rewrite (uf_irq _ _ F')|by rewrite (uf_settings _ _ F')].
  - by rewrite E', u8_id by lia.
  - pose proof (uf_others _ _ F') as Eo. unfold others in Eo. congruence.
Qed.

(** Printing is exact, whatever sender it goes through.  [uart_send_string]
    sends the characters of the string up to its end, with a carriage return
    before every line feed; [uart_send_hex] sends sixteen hexadecimal digits that
    denote the value; [uart_send_dec] sends decimal digits that denote the value,
    without a leading zero (and a single zero for 0).  All of them return and
    leave memory alone. *)
Theorem uart_print_exact send good out str l value s :
  Sender send good out -> good s -> string_at s.(k_mem).(cm_bytes) str l -> Forall (fun c => 0 <= c < 256) l -> 0 <= value < 2 ^ 64 ->
  wp (uart_send_string send str) (fun _ s' => good s' /\ out s' = out s ++ crlf l) s /\
  wp (uart_send_hex send value)
    (fun _ s' => exists h, good s' /\ out s' = out s ++ h /\ length h = 16%nat /\ numeral 16 h = value) s /\
  wp (uart_send_dec send value)
    (fun _ s' => exists h, good s' /\ out s' = out s ++ h /\ numeral 10 h = value /\ Forall is_dec h /\
       (h = [48] \/ exists c h', h = c :: h' /\ c <> 48)) s.
Proof.
  intros HS Hg Hs Hl Hv. split_and!.
  - eapply wp_mono; [by apply wp_send_string|]. intros [] s' (H1 & H2 & _). done.
  - eapply wp_mono; [apply wp_send_hex; [lia|done]|]. intros [] s' (H1 & H2 & _). exists (hex_list 16 value).
    split_and!; [done|done|apply hex_list_length|]. rewrite hex_list_numeral by lia. apply Z.mod_small. change (16 ^ Z.of_nat 16) with (2 ^ 64). lia.
  - unfold uart_send_dec. destruct (Z.eqb_spec value 0) as [->|Hn].
    + eapply wp_mono; [by apply wp_send|]. intros [] s' (H1 & H2 & _). exists [48]. split_and!; [done|done|done| |by left].
      constructor; [unfold is_dec; lia|done].
    + destruct (dec_fill_numeral 24 value) as (D1 & D2 & D3); [change (10 ^ Z.of_nat 24) with 1000000000000000000000000; lia|].
      eapply wp_mono; [apply wp_send_all; [done|]|].
      * eapply Forall_impl; [exact D2|]. unfold is_dec. intros x ?. lia.
      * intros [] s' (H1 & H2 & _). exists (rev (dec_fill 24 value [])). split_and!; [done|done|done|done|]. right. apply D3. lia.
Qed.

Lemma uart_print_exact_witness :
  wp (uart_send_string (poll_send 387) (CLit [72; 105; 10])) (fun _ s' => stream (line_of s') = [72; 105; 13; 10]) (set_k_irq false demo_serial).
Proof.
  destruct (uart_print_exact (poll_send 387) (poll_good 3) (fun s => stream (line_of s)) (CLit [72; 105; 10]) [72; 105; 10] 0 (set_k_irq false demo_serial)) as [H _].
  - apply poll_sender. lia.
  - split_and!; [apply uart_ok_irq; exact demo_serial_ok|reflexivity|exact demo_ready].
  - apply string_literal. repeat constructor; discriminate.
  - repeat constructor; discriminate.
  - lia.
  - eapply wp_mono; [exact H|]. intros [] s' [_ E]. rewrite E. vm_compute. reflexivity.
Defined.
