(* ===== verification/BottomHalf.v ===== *)
(** * The dispatcher of bottom halves ([run_bottom_halves])

    The rest of [bottom_half.c]: rounds that take all pending bits at once and
    run the handlers in a fixed order with interrupts on.  The theorem is about
    the work of the serial driver: as a function on its line, a round is
    [serial_round], and the rounds end once input stops arriving. *)

From S2P Require Import Prelude Lists Memory Slab MemoryInit ByteAllocator Task Sched Wait Thread HeapIface HeapLink SchedRep SchedLists WaitLists ThreadInv SchedOps WaitOps ThreadNew ThreadExit ThreadReap ThreadLoops SchedHistory SchedView Ring Str Cpio Irq Trace Work Timer Interrupts Uart UartInv UartHistory UartProps Serial.

Open Scope Z_scope.

Section code.
(** Calling the function at a code address: timer callbacks, the producer of
    serial output, deferred callbacks. *)
Context (timer_call : Z -> Z -> M ksys unit) (refill_call : Z -> M ksys unit) (work_call : Z -> Z -> M ksys unit).

Definition in_round (round : Z) (b : bottom_half) : bool := negb (Z.land round (Z.shiftl 1 (bh_code b)) =? 0).

(** One pass of the loop. *)
Definition bottom_half_round : M ksys unit :=
  round ← gets pending;
  modify (set_pending 0) ;;
  k_irq_enable ;;
  when (in_round round BH_TIMER) (trace_record TRACE_RUN_TIMER (bh_code BH_TIMER) ;; timer_run_bottom_half timer_call) ;;
  when (in_round round BH_UART_RX) (trace_record TRACE_RUN_UART_RX (bh_code BH_UART_RX) ;; uart_rx_run_bottom_half) ;;
  when (in_round round BH_UART_TX) (trace_record TRACE_RUN_UART_TX (bh_code BH_UART_TX) ;; uart_tx_run_bottom_half refill_call) ;;
  when (in_round round BH_CUSTOM) (run_custom_callbacks work_call) ;;
  _ ← k_irq_save;
  mret tt.

Definition set_running (v : Z) : M ksys unit := modify (fun s => set_k_sched (set_bh_running v s.(k_sched)) s).

Definition run_bottom_halves (fuel : nat) : M ksys unit :=
  status ← k_irq_save;
  running ← bottom_half_running;
  if negb (running =? 0) then k_irq_restore status
  else
    set_running 1 ;;
    loop fuel
      (fun _ : unit =>
         p ← gets pending;
         if p =? 0 then mret (inr tt) else bottom_half_round ;; mret (inl tt))
      tt ;;
    set_running 0 ;;
    k_irq_restore status.


(** ** A round of the serial driver's work *)

(** No bit but those of the driver. *)
Definition serial_bits (p : Z) : Prop := Z.land p 6 = p.

Lemma in_round_bit p b : in_round p b = Z.testbit p (bh_code b).
Proof using Type.
  unfold in_round. rewrite shiftl_1 by (by destruct b). destruct (testbit_ier p (bh_code b)) as [->|H]; [by rewrite negb_involutive|].
  by destruct b.
Qed.

Lemma serial_bit p n : serial_bits p -> 0 <= n -> n <> 1 -> n <> 2 -> Z.testbit p n = false.
Proof using Type.
  intros Hp H0 H1 H2. rewrite <- Hp, Z.land_spec. change 6 with (2 ^ 1 + 2 ^ 2). rewrite Z.add_nocarry_lxor by reflexivity.
  rewrite Z.lxor_spec, !Z.pow2_bits_eqb by lia. rewrite !(proj2 (Z.eqb_neq _ _)) by done. apply andb_false_r.
Qed.

(** Entering a round and leaving it again. *)
Lemma round_frame s s' : k_irq s = false -> uart_frame (set_k_irq true (set_pending 0 s)) s' -> uart_frame s (set_k_irq false s').
Proof using Type.
  intros Hi [H1 H2 H3 H4 H5 H6 H7]. constructor; try done.
  change (set_pages (set_irq_on false s'.(k_sched).(heap).(pages)) s'.(k_sched).(heap) = s.(k_sched).(heap)). rewrite H3.
  pose proof (set_k_irq_self s) as E. rewrite Hi in E. exact (f_equal (fun s => s.(k_sched).(heap)) E).
Qed.
End code.

(** What a round does to the line. *)
Definition serial_round (E : config) (l : line) : line :=
  let l0 := with_pending 0 l in
  let l1 := if Z.testbit l.(ln_pending) 1 then rx_bottom E l0 else l0 in
  if Z.testbit l.(ln_pending) 2 then tx_bottom E idle_fill l1 else l1.

Section rounds.
Context (timer_call : Z -> Z -> M ksys unit) (refill_call : Z -> M ksys unit) (work_call : Z -> Z -> M ksys unit).

Lemma wp_round s Q :
  uart_ok s -> s.(k_uart).(uart_tx_refill) = 0 -> k_irq s = false -> serial_bits s.(pending) ->
  (forall s', uart_ok s' -> uart_frame s s' -> line_of s' = serial_round (settings s) (line_of s) -> Q tt s') ->
  wp (bottom_half_round timer_call refill_call work_call) Q s.
Proof.
  intros Hok Hr Hi Hp HQ. unfold bottom_half_round. apply wp_bind, wp_gets, wp_bind, wp_modify, wp_bind, wp_zoom, wp_modify.
  rewrite !in_round_bit, (serial_bit _ (bh_code BH_TIMER)), (serial_bit _ (bh_code BH_CUSTOM)) by (exact Hp || discriminate). cbn [when].
  change (put _ (set_pending 0 s)) with (set_k_irq true (set_pending 0 s)). set (s2 := set_k_irq true (set_pending 0 s)).
  assert (Hok2 : uart_ok s2) by (apply uart_ok_irq; destruct Hok; by constructor).
  set (E := settings s) in *. set (l := line_of s) in *. set (l0 := with_pending 0 l).
  set (l1 := if Z.testbit (ln_pending l) 1 then rx_bottom E l0 else l0).
  assert (H1 : steps E l0 (when (Z.testbit (pending s) (bh_code BH_UART_RX)) (trace_record TRACE_RUN_UART_RX (bh_code BH_UART_RX) ;; uart_rx_run_bottom_half)) tt l1).
  { change (pending s) with (ln_pending l). cbn [bh_code]. unfold l1. destruct (Z.testbit _ 1); cbn [when]; [|apply steps_ret].
    eapply steps_bind; [apply steps_trace|apply steps_rx_bottom]. }
  assert (H2 : steps E l1 (when (Z.testbit (pending s) (bh_code BH_UART_TX)) (trace_record TRACE_RUN_UART_TX (bh_code BH_UART_TX) ;; uart_tx_run_bottom_half refill_call))
    tt (serial_round E l)).
  { unfold serial_round. fold l0 l1. change (pending s) with (ln_pending l). cbn [bh_code]. destruct (Z.testbit _ 2); cbn [when]; [|apply steps_ret].
    eapply steps_bind; [apply steps_trace|apply (steps_tx_bottom _ _ idle_fill)]. by apply no_refill. }
  apply wp_bind, wp_ret, wp_bind. eapply wp_mono; [by apply (H1 s2)|]. intros [] s3 (Hok3 & F3 & _ & El3).
  apply wp_bind. eapply wp_mono; [apply (H2 s3); [done|exact (uf_settings _ _ F3)|done]|]. intros [] s4 (Hok4 & F4 & _ & El4). apply wp_bind, wp_ret.
  apply wp_bind, wp_k_irq_save, wp_ret. apply HQ; [by apply uart_ok_irq|apply round_frame; [exact Hi|by eapply uart_frame_trans]|exact El4].
Qed.
End rounds.

(** ** The rounds end *)

Lemma serial_zero p : serial_bits p -> p <> 0 -> Z.testbit p 1 = true \/ Z.testbit p 2 = true.
Proof.
  intros Hp Hn. destruct (Z.testbit p 1) eqn:E1; [by left|]. destruct (Z.testbit p 2) eqn:E2; [by right|]. destruct Hn. apply Z.bits_inj_0. intros n.
  destruct (decide (n < 0)); [by apply Z.testbit_neg_r|]. destruct (decide (n = 1)) as [->|]; [done|]. destruct (decide (n = 2)) as [->|]; [done|].
  apply serial_bit; [done|lia|done|done].
Qed.

Lemma serial_raised p b : serial_bits p -> b = BH_UART_RX \/ b = BH_UART_TX -> serial_bits (Z.lor p (2 ^ bh_code b)).
Proof. unfold serial_bits. intros Hp Hb. rewrite Z.land_lor_distr_l, Hp. by destruct Hb as [-> | ->]. Qed.

Section ends.
(** From look [n0] on, at most [K] more characters arrive. *)
Context (E : config) (n0 K : nat) (HK : forall k, (length (arrivals E n0 k) <= K)%nat).

(** What is in the device, what waits to be sent and what is still to arrive. *)
Definition left_over (l : line) : nat := (length l.(ln_fifo) + length l.(ln_tx) + (K - length (arrivals E n0 (l.(ln_reads) - n0))))%nat.

(** From [l] to [l'], [d] characters or more were moved. *)
Definition progress (d : nat) (l l' : line) : Prop :=
  (n0 <= l.(ln_reads))%nat -> (n0 <= l'.(ln_reads))%nat /\ (left_over l' + d <= left_over l)%nat.

Lemma progress_refl l : progress 0 l l.
Proof. intros H. split; [done|lia]. Qed.
Lemma progress_trans d1 d2 l1 l2 l3 : progress d1 l1 l2 -> progress d2 l2 l3 -> progress (d1 + d2) l1 l3.
Proof. intros H1 H2 H. destruct (H1 H) as [H3 H4]. destruct (H2 H3) as [H5 H6]. split; [done|lia]. Qed.
Lemma progress_less d d' l l' : (d' <= d)%nat -> progress d l l' -> progress d' l l'.
Proof. intros Hd H1 H. destruct (H1 H). split; [done|lia]. Qed.
(** Nothing but enables, pending bits and the transmitter's state changed. *)
Lemma progress_same l l' : (l'.(ln_fifo), l'.(ln_tx), l'.(ln_reads)) = (l.(ln_fifo), l.(ln_tx), l.(ln_reads)) -> progress 0 l l'.
Proof. intros Es H. injection Es as E1 E2 E3. unfold left_over. rewrite E1, E2, E3. split; [done|lia]. Qed.

Lemma progress_if (b : bool) d l l1 l2 : progress d l l1 -> progress d l l2 -> progress d l (if b then l1 else l2).
Proof. by destruct b. Qed.

Lemma progress_look l : progress 0 l (look E l).
Proof using HK.
  intros H. cbn [look ln_reads with_reads]. split; [lia|]. unfold left_over. cbn [look ln_fifo ln_tx ln_reads with_reads with_idle with_fifo].
  pose proof (HK (S (ln_reads l) - n0)) as H1. replace (S (ln_reads l) - n0)%nat with ((ln_reads l - n0) + 1)%nat in * by lia.
  rewrite arrivals_add, length_app in *. replace (n0 + (ln_reads l - n0))%nat with (ln_reads l) in * by lia.
  assert (Ea : arrivals E (ln_reads l) 1 = le_arrived (cf_env E (ln_reads l))) by apply app_nil_r. rewrite Ea, length_app in *. lia.
Qed.

Lemma progress_rx_drain n : forall l,
  progress 0 l (rx_drain E n l) /\ (l.(ln_fifo) <> [] -> (n <> 0)%nat -> progress 1 l (rx_drain E n l)).
Proof using HK.
  induction n as [|n IH]; intros l; [split; [apply progress_refl|done]|]. cbn [rx_drain]. destruct (ln_fifo (look E l)) as [|b rest] eqn:Ef.
  - split; [apply progress_look|]. intros Hn _. cbn in Ef. by apply app_eq_nil in Ef as [? _].
  - match goal with |- context [rx_drain E n ?x] => set (l1 := x); destruct (IH l1) as [H0 _] end.
    assert (H1 : progress 1 (look E l) l1).
    { intros H. split; [exact H|]. unfold left_over. change (ln_fifo l1) with rest. rewrite Ef. change (ln_tx l1) with (ln_tx (look E l)).
      change (ln_reads l1) with (ln_reads (look E l)). cbn [length]. lia. }
    assert (H2 : progress 1 l (rx_drain E n l1)).
    { apply (progress_less (0 + 1 + 0)); [lia|]. eapply progress_trans; [|exact H0]. eapply progress_trans; [apply progress_look|exact H1]. }
    split; [by eapply progress_less; [|exact H2]; lia|done].
Qed.

Lemma progress_drain_one l :
  progress (if (drain_one E l).1 then 1 else 0) l (drain_one E l).2 /\
  ((drain_one E l).1 = false -> l.(ln_tx) <> [] -> l.(ln_idle) = false) /\ (l.(ln_fifo) <> [] -> (drain_one E l).2.(ln_fifo) <> []).
Proof using HK.
  pose proof (progress_look l) as Hl. assert (Hf : ln_fifo l <> [] -> ln_fifo (look E l) <> []) by (cbn; by destruct (ln_fifo l)).
  unfold drain_one. destruct (ln_idle (look E l)) eqn:Ei; cbn [fst snd].
  - unfold take_tx. destruct (ln_tx (look E l)) as [|c q] eqn:Et; cbn [fst snd]; [split_and!; [exact Hl|done|exact Hf]|]. split_and!; [|done|exact Hf].
    apply (progress_less (0 + 1)); [lia|]. eapply progress_trans; [exact Hl|]. intros H. split; [exact H|]. unfold left_over. rewrite Et.
    change (length (ln_fifo (look E l)) + length q + (K - length (arrivals E n0 (ln_reads (look E l) - n0))) + 1 <=
      length (ln_fifo (look E l)) + length (c :: q) + (K - length (arrivals E n0 (ln_reads (look E l) - n0))))%nat. cbn [length]. lia.
  - split_and!; [exact Hl| |exact Hf]. intros _ _. cbn in Ei. by apply orb_false_iff in Ei as [? _].
Qed.

Lemma progress_tx_drain n : forall l,
  progress 0 l (tx_drain E n l) /\ (l.(ln_tx) <> [] -> l.(ln_idle) = true -> (n <> 0)%nat -> progress 1 l (tx_drain E n l)) /\
  (l.(ln_fifo) <> [] -> (tx_drain E n l).(ln_fifo) <> []).
Proof using HK.
  induction n as [|n IH]; intros l; [split_and!; [apply progress_refl|done|done]|]. cbn [tx_drain]. destruct (progress_drain_one l) as (H1 & H2 & H3).
  destruct (drain_one E l) as [[] l1]; cbn [fst snd] in *.
  - destruct (IH l1) as (I1 & _ & I3). pose proof (progress_trans _ _ _ _ _ H1 I1) as H4. split_and!; [by eapply progress_less; [|exact H4]; lia|by intros|auto].
  - split_and!; [done| |done]. intros Ht Hi _. by rewrite (H2 eq_refl Ht) in Hi.
Qed.

(** Why a bit is set after a round. *)
Definition due (l : line) : Prop :=
  serial_bits l.(ln_pending) /\ (Z.testbit l.(ln_pending) 1 = true -> l.(ln_fifo) <> []) /\
  (Z.testbit l.(ln_pending) 2 = true -> l.(ln_tx) <> [] /\ l.(ln_idle) = true).

Lemma rx_bottom_due l : l.(ln_pending) = 0 -> due (rx_bottom E l) /\ Z.testbit (rx_bottom E l).(ln_pending) 2 = false.
Proof.
  intros Hp. unfold rx_bottom. destruct (rx_drain_keeps E 16 l) as (_ & Ep & _). rewrite Hp in Ep. revert Ep. generalize (rx_drain E 16 l). intros l1 Ep. cbn zeta.
  case_bool_decide as Hf; unfold due; cbn [ln_pending ier_set with_ier raised with_pending look with_reads with_idle with_fifo bh_code]; rewrite Ep.
  - rewrite !Z.bits_0. by split_and!.
  - split; [|done]. split_and!; [done|by intros|done].
Qed.

Lemma tx_bottom_due l :
  E.(cf_refill) = 0 -> due l -> Z.testbit l.(ln_pending) 2 = false -> due (tx_bottom E idle_fill l).
Proof using HK.
  intros Hr (D1 & D2 & _) Hb. unfold tx_bottom. assert (Hf : forall l, refilled E idle_fill l = l) by (intros l'; unfold refilled; by rewrite Hr, andb_false_r).
  rewrite !Hf. destruct (tx_drain_keeps E 16 l) as (_ & Ep & _). destruct (progress_tx_drain 16 l) as (_ & _ & Hk). revert Ep Hk. generalize (tx_drain E 16 l). intros l1 Ep Hk.
  unfold tx_arm. case_bool_decide as Ht; [unfold due; cbn [ln_pending ier_clear with_ier]; rewrite Ep, Hb; split_and!; [done|auto|done]|]. cbn zeta.
  set (l2 := look E (ier_set UART_IER_TX_ENABLE l1)).
  assert (Hl2 : ln_pending l2 = ln_pending l /\ ln_tx l2 <> [] /\ (Z.testbit (ln_pending l) 1 = true -> ln_fifo l2 <> [])).
  { split_and!; [exact Ep|exact Ht|]. intros H1. specialize (Hk (D2 H1)). cbn. by destruct (ln_fifo l1). }
  destruct Hl2 as (P2 & T2 & F2). clearbody l2. destruct (ln_idle l2) eqn:Ei; unfold due.
  - cbn [ln_pending raised with_pending ln_fifo ln_tx ln_idle]. rewrite P2. split_and!; [apply serial_raised; [done|by right]| |by intros].
    rewrite Z.lor_spec. cbn [bh_code]. change (Z.testbit (2 ^ 2) 1) with false. rewrite orb_false_r. exact F2.
  - rewrite P2, Hb. by split_and!.
Qed.

Lemma progress_rx_bottom l : progress 0 l (rx_bottom E l) /\ (l.(ln_fifo) <> [] -> progress 1 l (rx_bottom E l)).
Proof using HK.
  destruct (progress_rx_drain 16 l) as [H0 H1]. specialize (fun H => H1 H ltac:(discriminate)). unfold rx_bottom. revert H0 H1. generalize (rx_drain E 16 l). intros l1 H0 H1.
  assert (H : forall d, progress d l l1 -> progress d l (if bool_decide (ln_fifo (look E l1) = []) then ier_set RX_BITS (look E l1) else raised BH_UART_RX (look E l1))).
  { intros d Hd. apply (progress_less (d + (0 + 0))); [lia|]. eapply progress_trans; [exact Hd|]. eapply progress_trans; [apply progress_look|].
    apply progress_if; exact (progress_same _ _ eq_refl). }
  split; [by apply H|]. intros Hf. exact (H _ (H1 Hf)).
Qed.

Lemma progress_tx_bottom l :
  E.(cf_refill) = 0 -> progress 0 l (tx_bottom E idle_fill l) /\ (l.(ln_tx) <> [] -> l.(ln_idle) = true -> progress 1 l (tx_bottom E idle_fill l)).
Proof using HK.
  intros Hr. unfold tx_bottom. assert (Hf : forall l, refilled E idle_fill l = l) by (intros l'; unfold refilled; by rewrite Hr, andb_false_r). rewrite !Hf.
  destruct (progress_tx_drain 16 l) as (H0 & H1 & _). assert (Ha : progress 0 (tx_drain E 16 l) (tx_arm E (tx_drain E 16 l))).
  { generalize (tx_drain E 16 l). intros l1. unfold tx_arm. destruct (bool_decide _); [exact (progress_same _ _ eq_refl)|]. cbn zeta.
    refine (progress_trans 0 0 _ (look E (ier_set UART_IER_TX_ENABLE l1)) _ _ _); [|apply progress_if; exact (progress_same _ _ eq_refl)].
    refine (progress_trans 0 0 _ (ier_set UART_IER_TX_ENABLE l1) _ _ _); [exact (progress_same _ _ eq_refl)|apply progress_look]. }
  split; [exact (progress_trans _ _ _ _ _ H0 Ha)|]. intros Ht Hi. exact (progress_trans _ _ _ _ _ (H1 Ht Hi ltac:(done)) Ha).
Qed.

(** A round leaves only bits for which there is a reason, and a round with a
    reason moves a character. *)
Lemma round_due l : E.(cf_refill) = 0 -> due (serial_round E l).
Proof using HK.
  intros Hr. unfold serial_round. set (l0 := with_pending 0 l). assert (H0 : due l0 /\ Z.testbit l0.(ln_pending) 2 = false) by (by split_and!).
  assert (H1 : due (if Z.testbit (ln_pending l) 1 then rx_bottom E l0 else l0) /\ Z.testbit (ln_pending (if Z.testbit (ln_pending l) 1 then rx_bottom E l0 else l0)) 2 = false).
  { destruct (Z.testbit (ln_pending l) 1); [by apply rx_bottom_due|exact H0]. }
  destruct H1 as [D1 B1]. destruct (Z.testbit (ln_pending l) 2); [by apply tx_bottom_due|exact D1].
Qed.

Lemma round_progress l : E.(cf_refill) = 0 -> progress 0 l (serial_round E l) /\ (due l -> l.(ln_pending) <> 0 -> progress 1 l (serial_round E l)).
Proof using HK.
  intros Hr. unfold serial_round. set (l0 := with_pending 0 l). set (l1 := if Z.testbit _ 1 then _ else l0).
  assert (P0 : progress 0 l l0) by (exact (progress_same _ _ eq_refl)).
  assert (P1 : progress 0 l0 l1) by (unfold l1; destruct (Z.testbit _ 1); [apply progress_rx_bottom|apply progress_refl]).
  assert (P2 : progress 0 l1 (if Z.testbit (ln_pending l) 2 then tx_bottom E idle_fill l1 else l1)) by (destruct (Z.testbit _ 2); [by apply progress_tx_bottom|apply progress_refl]).
  pose proof (progress_trans _ _ _ _ _ P0 P1) as P01. split; [exact (progress_trans _ _ _ _ _ P01 P2)|].
  intros (D1 & D2 & D3) Hn. destruct (Z.testbit (ln_pending l) 1) eqn:B1.
  - apply (progress_less (0 + 1 + 0)); [lia|]. eapply progress_trans; [|exact P2]. eapply progress_trans; [exact P0|]. apply progress_rx_bottom. exact (D2 eq_refl).
  - destruct (serial_zero _ D1 Hn) as [B|B2]; [by rewrite B1 in B|]. rewrite B2 in *. destruct (D3 eq_refl) as [Ht Hi].
    apply (progress_less (0 + 1)); [lia|]. eapply progress_trans; [exact P0|]. by apply progress_tx_bottom.
Qed.
End ends.

(** ** The dispatcher *)

Lemma sched_ok_running v c : sched_ok c -> sched_ok (set_bh_running v c).
Proof. intros Hc. destruct (run_sched_op_ok (op_bottom_half v) c Hc I) as (c' & E & H). injection E as <-. exact H. Qed.

(** Entering and leaving the dispatcher. *)
Lemma dispatcher_frame s s' :
  s.(k_sched).(bh_running) = 0 -> uart_frame (set_k_sched (set_bh_running 1 (set_k_irq false s).(k_sched)) (set_k_irq false s)) s' ->
  uart_frame s (set_k_irq (k_irq s) (set_k_sched (set_bh_running 0 s'.(k_sched)) s')).
Proof.
  intros Hb [H1 H2 H3 H4 H5 H6 H7]. constructor; try done.
  - change (set_pages (set_irq_on (k_irq s) s'.(k_sched).(heap).(pages)) s'.(k_sched).(heap) = s.(k_sched).(heap)). rewrite H3.
    pose proof (set_k_irq_self s) as E. exact (f_equal (fun s => s.(k_sched).(heap)) E).
  - injection H4 as E1 _ E3. change ((tp (k_sched s'), 0, qemu (k_sched s')) = (tp (k_sched s), bh_running (k_sched s), qemu (k_sched s))). by rewrite E1, E3, Hb.
Qed.

(** What the theorems on lines need of one bottom half. *)
Definition keeps (E : config) (l l' : line) : Prop := stream l' = stream l /\ inflow E l [] l'.

Lemma keeps_refl E l : keeps E l l.
Proof. split; [done|by apply inflow_refl]. Qed.
Lemma keeps_trans E l1 l2 l3 : keeps E l1 l2 -> keeps E l2 l3 -> keeps E l1 l3.
Proof. intros [A1 A2] [B1 B2]. split; [congruence|]. exact (inflow_trans _ _ [] _ [] _ A2 B2). Qed.

Lemma keeps_rx E l : keeps E l (rx_bottom E l).
Proof.
  unfold rx_bottom. assert (H : keeps E l (rx_drain E 16 l)) by (split; [apply stream_rx_drain|apply quiet_rx_drain]).
  revert H. generalize (rx_drain E 16 l). intros l1 H. cbn zeta. eapply keeps_trans; [exact H|].
  apply (keeps_trans _ _ (look E l1)); [split; [done|apply inflow_look]|]. destruct (bool_decide _); (split; [done|by apply inflow_refl]).
Qed.

Lemma keeps_tx E l : E.(cf_refill) = 0 -> keeps E l (tx_bottom E idle_fill l).
Proof.
  intros Hr. split; [by apply stream_tx_bottom|]. unfold tx_bottom. assert (Hf : forall l, refilled E idle_fill l = l) by (intros l'; unfold refilled; by rewrite Hr, andb_false_r).
  rewrite !Hf. eapply quiet_trans; [apply (quiet_tx_drain E 16)|apply quiet_tx_arm].
Qed.

Lemma served_tx_bottom E o l : E.(cf_refill) = 0 -> served o l -> served (mkDebt o.(owed_rx) false) (tx_bottom E idle_fill l).
Proof.
  intros Hr Hs. unfold tx_bottom. assert (Hf : forall l, refilled E idle_fill l = l) by (intros l'; unfold refilled; by rewrite Hr, andb_false_r).
  rewrite !Hf. apply served_tx_arm. destruct (tx_drain_keeps E 16 l) as (E1 & E2 & _). unfold rx_served. rewrite E1, E2. apply Hs.
Qed.

Lemma keeps_round E l : E.(cf_refill) = 0 -> served (mkDebt false false) l -> keeps E l (serial_round E l) /\ served (mkDebt false false) (serial_round E l).
Proof.
  intros Hr Hs. unfold serial_round. set (l0 := with_pending 0 l). set (l1 := if Z.testbit (ln_pending l) 1 then rx_bottom E l0 else l0).
  assert (S0 : served (mkDebt (Z.testbit (ln_pending l) 1) (Z.testbit (ln_pending l) 2)) l0).
  { destruct Hs as [H1 H2]. unfold served, rx_served, tx_served in *. cbn [ln_ier ln_pending with_pending ln_tx owed_rx owed_tx bh_code l0] in *.
    rewrite !Z.bits_0, !orb_false_r in *. by split. }
  assert (K0 : keeps E l l0) by (split; [done|by apply inflow_refl]).
  assert (H1 : keeps E l l1 /\ served (mkDebt false (Z.testbit (ln_pending l) 2)) l1).
  { unfold l1. destruct (Z.testbit (ln_pending l) 1); [|by split]. split; [eapply keeps_trans; [exact K0|apply keeps_rx]|]. exact (served_rx_bottom E _ l0 S0). }
  destruct H1 as [K1 S1]. clearbody l1. destruct (Z.testbit (ln_pending l) 2); [|by split].
  split; [eapply keeps_trans; [exact K1|by apply keeps_tx]|]. exact (served_tx_bottom E _ l1 Hr S1).
Qed.

Lemma keeps_rounds E n l : E.(cf_refill) = 0 -> served (mkDebt false false) l ->
  keeps E l (Nat.iter n (serial_round E) l) /\ served (mkDebt false false) (Nat.iter n (serial_round E) l).
Proof.
  intros Hr Hs. induction n as [|n [K1 S1]]; [split; [apply keeps_refl|done]|].
  destruct (keeps_round E (Nat.iter n (serial_round E) l) Hr S1) as [K2 S2]. split; [by eapply keeps_trans|exact S2].
Qed.

Section dispatcher.
Context (timer_call : Z -> Z -> M ksys unit) (refill_call : Z -> M ksys unit) (work_call : Z -> Z -> M ksys unit).
Local Abbreviation rounds fuel := (loop fuel (fun _ : unit => p ← gets pending; if p =? 0 then mret (inr tt) else bottom_half_round timer_call refill_call work_call ;; mret (inl tt)) tt).

(** From [s] on, after [n] rounds of the driver. *)
Definition after_rounds (n : nat) (s s' : ksys) : Prop :=
  uart_ok s' /\ uart_frame s s' /\ line_of s' = Nat.iter n (serial_round (settings s)) (line_of s).

Section loop.
Context {K : nat} {s : ksys} (Hok : uart_ok s) (Hr : s.(k_uart).(uart_tx_refill) = 0) (Hi : k_irq s = false).
Context (HK : forall k, (length (arrivals (settings s) s.(k_uart).(hw_reads) k) <= K)%nat).
Local Abbreviation left_now s' := (left_over (settings s) s.(k_uart).(hw_reads) K (line_of s')).

Lemma wp_one_round n s1 Q :
  after_rounds n s s1 -> serial_bits s1.(pending) -> (s.(k_uart).(hw_reads) <= s1.(k_uart).(hw_reads))%nat ->
  (forall s2, after_rounds (S n) s s2 -> due (line_of s2) -> (s.(k_uart).(hw_reads) <= s2.(k_uart).(hw_reads))%nat -> (left_now s2 <= left_now s1)%nat ->
     (due (line_of s1) -> s1.(pending) <> 0 -> (left_now s2 < left_now s1)%nat) -> Q tt s2) ->
  wp (bottom_half_round timer_call refill_call work_call) Q s1.
Proof using HK Hi Hr.
  intros (Hok1 & F1 & El1) Hb Hrd HQ. pose proof (uf_settings _ _ F1) as Es.
  assert (Hr1 : uart_tx_refill (k_uart s1) = 0) by (apply (f_equal cf_refill) in Es; cbn in Es; congruence).
  apply wp_round; [done|done|by rewrite (uf_irq _ _ F1)|done|]. intros s2 Hok2 F2 El2. rewrite Es in El2.
  destruct (round_progress (settings s) _ K HK (line_of s1) Hr) as [P0 P1]. rewrite <- El2 in P0, P1. destruct (P0 Hrd) as [Q1 Q2].
  apply HQ; [|rewrite El2; by eapply round_due|exact Q1|lia|].
  - split; [exact Hok2|]. split; [by eapply uart_frame_trans|]. rewrite El2, El1. reflexivity.
  - intros D N. destruct (P1 D N Hrd). lia.
Qed.

Lemma wp_serial_rounds fuel Q :
  (left_now s + 1 < fuel)%nat -> serial_bits s.(pending) ->
  (forall n s', after_rounds n s s' -> s'.(pending) = 0 -> Q tt s') -> wp (rounds fuel) Q s.
Proof using HK Hi Hok Hr.
  intros Hf Hb HQ.
  assert (Hloop : forall fuel n s1, after_rounds n s s1 -> due (line_of s1) -> (s.(k_uart).(hw_reads) <= s1.(k_uart).(hw_reads))%nat ->
    (left_now s1 < fuel)%nat -> wp (rounds fuel) Q s1).
  { clear fuel Hf. induction fuel as [|fuel IH]; intros n s1 H1 D1 R1 L1; [lia|]. cbn [loop]. apply wp_bind, wp_bind, wp_gets.
    destruct (Z.eqb_spec s1.(pending) 0) as [E0|E0]; [by eapply wp_ret, wp_ret, HQ|]. apply wp_bind.
    eapply wp_one_round; [exact H1|apply D1|exact R1|]. intros s2 H2 D2 R2 _ L2. apply wp_ret. cbn beta iota. eapply IH; [exact H2|exact D2|exact R2|].
    specialize (L2 D1 E0). lia. }
  assert (H0 : after_rounds 0 s s) by exact (conj Hok (conj (uart_frame_refl s) eq_refl)).
  destruct fuel as [|fuel]; [lia|]. cbn [loop]. apply wp_bind, wp_bind, wp_gets.
  destruct (Z.eqb_spec s.(pending) 0) as [E0|E0]; [by eapply wp_ret, wp_ret, HQ|]. apply wp_bind.
  eapply wp_one_round; [exact H0|exact Hb|lia|]. intros s2 H2 D2 R2 L2 _. apply wp_ret. cbn beta iota. eapply Hloop; [exact H2|exact D2|exact R2|lia].
Qed.
End loop.

Lemma wp_dispatcher K fuel s :
  uart_ok s -> s.(k_uart).(uart_tx_refill) = 0 -> s.(k_sched).(bh_running) = 0 -> serial_bits s.(pending) ->
  (forall k, (length (arrivals (settings s) s.(k_uart).(hw_reads) k) <= K)%nat) ->
  (length s.(k_uart).(hw_fifo) + length (line_of s).(ln_tx) + K + 2 <= fuel)%nat ->
  exists n s', run_bottom_halves timer_call refill_call work_call fuel s = Some (tt, s') /\ after_rounds n s s' /\ s'.(pending) = 0.
Proof.
  intros Hok Hr Hb Hp HK Hf. enough (H : wp (run_bottom_halves timer_call refill_call work_call fuel) (fun _ s' => exists n, after_rounds n s s' /\ s'.(pending) = 0) s).
  { destruct (wp_run _ _ _ H) as ([] & s' & E & n & H'). by exists n, s'. }
  apply wp_bind, wp_k_irq_save, wp_bind, wp_gets. change (bh_running (k_sched (set_k_irq false s))) with (bh_running (k_sched s)). rewrite Hb. cbn [Z.eqb negb].
  apply wp_bind, wp_modify. set (s1 := set_k_sched _ _). assert (Hok1 : uart_ok s1).
  { apply (ok_sched (set_k_irq false s)); [by apply uart_ok_irq| |done]. apply sched_ok_running, (uo_sched _ (uart_ok_irq false s Hok)). }
  apply wp_bind, (wp_serial_rounds (s := s1) Hok1 Hr eq_refl HK); [|exact Hp|].
  - unfold left_over. change (ln_reads (line_of s1)) with (hw_reads (k_uart s1)). change (ln_fifo (line_of s1)) with (hw_fifo (k_uart s)).
    change (ln_tx (line_of s1)) with (ln_tx (line_of s)). lia.
  - intros n s2 (H1 & H2 & H3) Hp2. apply wp_bind, wp_modify, wp_k_irq_restore. set (s3 := set_k_sched _ s2). exists n. split; [|exact Hp2].
    assert (Hi3 : k_irq s3 = false) by exact (uf_irq _ _ H2). rewrite Hi3. cbn [orb]. split; [|split; [|exact H3]].
    + apply uart_ok_irq, ok_sched; [done| |done]. apply sched_ok_running, (uo_sched _ H1).
    + by apply dispatcher_frame.
Qed.

(** C28: The dispatcher and the serial driver.  Called while it runs already,
    [run_bottom_halves] returns and changes nothing.  Otherwise, when the pending
    bits are those of the driver, no streaming producer is registered and at most
    [K] more characters arrive, it returns within as many rounds as there are
    characters in the device, to send and to come, and two more; no bottom half
    is pending and the interrupt flag and its own flag are as before.  What it has
    done is a number of rounds, each taking all bits at once and running the
    receive and then the transmit bottom half if its bit was set: no output is
    lost, repeated or reordered, no input is invented or reordered and none is
    lost while at most 128 characters wait, the receive interrupt is enabled again
    and, if output waits, the transmit interrupt; nothing else in the kernel
    changes but that threads waiting for the driver are woken. *)
Theorem serial_bottom_halves_served K fuel s :
  uart_ok s -> s.(k_uart).(uart_tx_refill) = 0 ->
  (s.(k_sched).(bh_running) <> 0 -> run_bottom_halves timer_call refill_call work_call fuel s = Some (tt, s)) /\
  (s.(k_sched).(bh_running) = 0 -> serial_bits s.(pending) -> served (mkDebt false false) (line_of s) ->
   (forall k, (length (arrivals (settings s) s.(k_uart).(hw_reads) k) <= K)%nat) ->
   (length s.(k_uart).(hw_fifo) + length (line_of s).(ln_tx) + K + 2 <= fuel)%nat ->
   exists n s', run_bottom_halves timer_call refill_call work_call fuel s = Some (tt, s') /\ uart_ok s' /\ uart_frame s s' /\
     line_of s' = Nat.iter n (serial_round (settings s)) (line_of s) /\ s'.(pending) = 0 /\
     stream (line_of s') = stream (line_of s) /\ inflow (settings s) (line_of s) [] (line_of s') /\
     Z.testbit s'.(k_uart).(hw_ier) 0 = true /\ ((line_of s').(ln_tx) <> [] -> Z.testbit s'.(k_uart).(hw_ier) 1 = true)).
Proof.
  intros Hok Hr. split.
  - intros Hb. assert (H : wp (run_bottom_halves timer_call refill_call work_call fuel) (fun _ s' => s' = s) s).
    { apply wp_bind, wp_k_irq_save, wp_bind, wp_gets. change (bh_running (k_sched (set_k_irq false s))) with (bh_running (k_sched s)).
      rewrite (proj2 (Z.eqb_neq _ _) Hb). cbn [negb]. apply wp_k_irq_restore. rewrite k_irq_set, set_k_irq_twice. cbn [orb]. apply set_k_irq_self. }
    destruct (wp_run _ _ _ H) as ([] & s' & E & ->). exact E.
  - intros Hb Hp Hs HK Hf. destruct (wp_dispatcher K fuel s Hok Hr Hb Hp HK Hf) as (n & s' & E & (Hok' & F & El) & Hp'). exists n, s'.
    destruct (keeps_rounds (settings s) n (line_of s) Hr Hs) as ([I1 I2] & [I3 I4]). rewrite <- El in I1, I2, I3, I4. unfold rx_served, tx_served in *.
    cbn [ln_ier ln_pending line_of owed_rx owed_tx] in I3, I4. rewrite Hp', Z.bits_0, !orb_false_r in I3, I4. by split_and!.
Qed.
End dispatcher.

(** *** The small system: a character to send, both bits pending *)

Definition demo_work : ksys :=
  match run_uart_op idle_call (USend 65 false 0) demo_serial with Some (_, s) => set_pending 6 s | None => demo_serial end.

Lemma demo_work_ok : uart_ok demo_work.
Proof.
  unfold demo_work. assert (Ha : uart_allowed (USend 65 false 0) demo_serial) by (intros H; discriminate H).
  destruct (wp_run _ _ _ (wp_uart_op idle_call idle_fill (USend 65 false 0) demo_serial demo_serial_ok Ha demo_no_refill)) as (t & s & E & H & _). rewrite E.
  destruct H as [H1 H2 H3 H4 H5 H6]. constructor; [exact H1|exact H2|exact H3|exact H4|exact H5|exact H6].
Qed.

Lemma demo_line_ends E : E.(cf_env) = demo_line -> forall k n,
  (length (arrivals E n k) <= (if n <=? 1 then 1 else 0) + (if n <=? 4 then 1 else 0))%nat.
Proof.
  intros He. induction k as [|k IH]; intros n; [cbn; lia|]. replace (S k) with (1 + k)%nat by lia. rewrite arrivals_add, length_app.
  specialize (IH (n + 1)%nat). assert (E1 : arrivals E n 1 = le_arrived (demo_line n)) by (rewrite <- He; apply app_nil_r). rewrite E1.
  destruct n as [|[|[|[|[|n]]]]]; cbn in IH |- *; lia.
Qed.

Lemma serial_bottom_halves_served_witness :
  exists s', run_bottom_halves (fun _ _ => mret tt) idle_call (fun _ _ => mret tt) 5 demo_work = Some (tt, s') /\
    s'.(pending) = 0 /\ stream (line_of s') = [65] /\ Z.testbit s'.(k_uart).(hw_ier) 0 = true.
Proof.
  destruct (serial_bottom_halves_served (fun _ _ => mret tt) idle_call (fun _ _ => mret tt) 2 5 demo_work demo_work_ok) as [_ H]; [vm_compute; reflexivity|].
  destruct H as (n & s' & E & _ & _ & _ & Hp & Hs & _ & Hi & _).
  - vm_compute. reflexivity.
  - vm_compute. reflexivity.
  - split; vm_compute; [reflexivity|intros Hn; reflexivity].
  - intros k. assert (He : cf_env (settings demo_work) = demo_line) by (vm_compute; reflexivity). pose proof (demo_line_ends _ He k (hw_reads (k_uart demo_work))) as Hk.
    assert (Hr : hw_reads (k_uart demo_work) = 0%nat) by (vm_compute; reflexivity). rewrite Hr in *. exact Hk.
  - vm_compute. lia.
  - assert (E0 : stream (line_of demo_work) = [65]) by (vm_compute; reflexivity). rewrite E0 in Hs. exists s'. exact (conj E (conj Hp (conj Hs Hi))).
Defined.
