(* ===== verification/Exec.v ===== *)
(** * Loading programs ([exec.c])

    The archive, the image window and user stacks are bytes of [k_mem]; local
    variables whose address is taken are objects at addresses that the
    definitions take as arguments. *)

From S2P Require Import Prelude Lists Memory Slab MemoryInit Task Sched Wait Thread Str Cpio Irq.

Open Scope Z_scope.

Definition CPIO_MODE_TYPE_MASK : Z := 0xF000. (* 0170000 *)
Definition CPIO_MODE_REGULAR : Z := 0x8000. (* 0100000 *)
Definition EXEC_MAX_INSTANCES : Z := 2.

(** Access to bytes of memory. *)
Definition bytes {A} (m : M bmem A) : M ksys A := zoom (zoom m : M cmem A).

Definition PREFIX : cstr := CLit [98; 105; 110; 47]. (* "bin/" *)
Definition SUFFIX : cstr := CLit [46; 98; 105; 110]. (* ".bin" *)

(** One of the three copying loops: the characters of [src] go to [out] from
    position [pos] on; [None] when they do not fit. *)
Definition copy_part (src : cstr) (out out_size pos : Z) : M bmem (option Z) :=
  fuel ← gets (str_fuel src);
  loop fuel
    (fun '(i, pos) =>
       c ← char_at src i;
       if c =? 0 then mret (inr (Some pos))
       else if out_size <=? u32 (pos + 1) then mret (inr None)
       else
         store (out + pos) c ;;
         mret (inl (i + 1, pos + 1)))
    (0, pos).

Definition build_user_program_path (name : option cstr) (out out_size : Z) : M bmem Z :=
  match name with
  | None => mret (-1)
  | Some name =>
      if (out =? 0) || (out_size =? 0) then mret (-1)
      else
        r ← copy_part PREFIX out out_size 0;
        match r with
        | None => mret (-1)
        | Some pos =>
            r ← copy_part name out out_size pos;
            match r with
            | None => mret (-1)
            | Some pos =>
                r ← copy_part SUFFIX out out_size pos;
                match r with
                | None => mret (-1)
                | Some pos => store (out + pos) 0 ;; mret 0
                end
            end
        end
  end.

(** Addresses of the local variables of [exec_load_image] and of [cpio_find]. *)
Record exec_locals := mkExecLocals {
  lo_path : Z; (* char path[64] *)
  lo_data : Z;
  lo_size : Z;
  lo_mode : Z;
  lo_ctx : Z;
}.

Definition var (p : Z) : M ksys Z := access (fun s => s.(k_mem).(cm_vars) !! p).

(** [exec_load_image] from the lookup's success on. *)
Definition exec_install (lo : exec_locals) (entry_out size_out : Z) : M ksys Z :=
  mode ← var lo.(lo_mode);
  if negb (Z.land mode CPIO_MODE_TYPE_MASK =? CPIO_MODE_REGULAR) then mret (-1)
  else
    size ← var lo.(lo_size);
    if (size =? 0) || (USER_CODE_SIZE <? size) then mret (-1)
    else
      cur ← zoom thread_current;
      busy ← zoom (thread_user_image_busy cur);
      if busy : bool then mret (-1)
      else
        q ← gets (fun s => s.(k_sched).(qemu));
        data ← var lo.(lo_data);
        _ ← bytes (memcpy (USER_CODE_BASE q) data size);
        zoom (var_set entry_out (USER_CODE_BASE q)) ;;
        zoom (var_set size_out size) ;;
        mret 0.

Definition exec_load_image (lo : exec_locals) (name : option cstr) (entry_out size_out : Z) : M ksys Z :=
  match name with
  | None => mret (-1)
  | Some _ =>
      if (entry_out =? 0) || (size_out =? 0) then mret (-1)
      else
        start ← gets initrd_start;
        fin ← gets initrd_end;
        if (start =? 0) || (fin <=? start) then mret (-1)
        else
          built ← bytes (build_user_program_path name lo.(lo_path) 64);
          if negb (built =? 0) then mret (-1)
          else
            found ← zoom (cpio_find lo.(lo_ctx) start fin (Some (CPtr lo.(lo_path))) lo.(lo_data) lo.(lo_size) lo.(lo_mode));
            if negb (found =? 0) then mret (-1)
            else
              exec_install lo entry_out size_out
  end.

(** ** Launching a batch *)

(** [struct exec_result]: the addresses of the fields that are passed on.  The
    elements of [tids] that are written are part of the result of [exec_spawn]. *)
Record exec_result := mkExecResult {
  er_entry : Z;
  er_size : Z;
}.

Definition kmalloc_stack : M sched Z := zoom (kmalloc USER_STACK_SIZE).

(** The creating loop after [length tids] rounds, with the elements of
    [result->tids] written so far; it returns [i], these elements at the end, and
    whether all threads were created. *)
Fixpoint spawn_from (n : nat) (entry : Z) (tids : list Z) : M sched (nat * list Z * bool) :=
  match n with
  | O => mret (length tids, tids, true)
  | S n' =>
      stack ← kmalloc_stack;
      if stack =? 0 then mret (length tids, tids, false)
      else
        tid ← user_process_create entry stack (u64 (stack + USER_STACK_SIZE));
        if tid <? 0 then zoom (kfree stack) ;; mret (length tids, tids ++ [tid], false)
        else spawn_from n' entry (tids ++ [tid])
  end.

(** [while (i > 0) thread_stop_tid(tids[--i], -1)]. *)
Fixpoint stop_all (tids : list Z) : M sched unit :=
  match tids with
  | [] => mret tt
  | tid :: rest => _ ← thread_stop_tid tid (-1); stop_all rest
  end.

(** [exec_spawn] after the image was loaded. *)
Definition spawn_batch (n : nat) (entry : Z) : M sched (Z * list Z) :=
  thread_system_bootstrap_init ;;
  r ← spawn_from n entry [];
  let '(i, tids, all) := r in
  if all : bool then mret (0, tids)
  else
    stop_all (rev (take i tids)) ;;
    thread_reap_zombies ;;
    mret (-1, tids).

(** Returns the code and the ids written to [result->tids]. *)
Definition exec_spawn (lo : exec_locals) (name : option cstr) (count : Z) (result : option exec_result) : M ksys (Z * list Z) :=
  match result with
  | None => mret (-1, [])
  | Some result =>
      if (count =? 0) || (EXEC_MAX_INSTANCES <? count) then mret (-1, [])
      else
        loaded ← exec_load_image lo name result.(er_entry) result.(er_size);
        if negb (loaded =? 0) then mret (-1, [])
        else
          entry ← var result.(er_entry);
          zoom (spawn_batch (Z.to_nat count) entry)
  end.
