(* ===== verification/Loader.v ===== *)
(** * Loading a program into the image window

    [exec_load_image] accepts exactly the requests of the reference definition
    [accepted], puts the program's contents at the start of the window and touches
    nothing else. *)

From S2P Require Import Prelude Lists Memory Slab MemoryInit Task Sched Wait Thread HeapIface HeapLink SchedRep SchedLists ThreadInv ThreadLoops SchedHistory SchedView Threads Str Cpio CpioSpec Archive Irq Exec.

Open Scope Z_scope.

(** * The path of a program and the archive member it names

    What [build_user_program_path] writes, the reference definition of the member
    that [exec_load_image] accepts, and where the memory areas it uses lie. *)

(** ** The path *)

Lemma wp_copy_part m src l out n pos Q :
  string_at m src l -> string_outside src (Z.of_nat (length l)) out n -> readable m out n -> 0 <= pos < n -> n < 2 ^ 31 ->
  let k := take (Z.to_nat (n - 1 - pos)) l in
  Q (if pos + Z.of_nat (length l) <? n then Some (pos + Z.of_nat (length l)) else None) (write_block (out + pos) k m) ->
  wp (copy_part src out n pos) Q m.
Proof.
  intros Hs Ho Hr Hp Hn k HQ. unfold copy_part. apply wp_bind, wp_gets. unfold k in *. clear k.
  set (st := fun i => write_block (out + pos) (take (Z.to_nat i) l) m).
  assert (Honly : forall i, 0 <= i -> pos + i < n -> only_in out n m (st i)).
  { intros i H0 Hi. apply only_in_write; [lia|]. rewrite length_take. lia. }
  apply (wp_loop (fun '(i, p) m' => m' = st i /\ 0 <= i <= Z.of_nat (length l) /\ p = pos + i /\ p < n) (fun '(i, _) _ => Z.of_nat (length l) - i)).
  - intros [i p] m' (_ & ? & _). lia.
  - intros [i p] m' (-> & Hi & -> & Hpn). specialize (Honly i ltac:(lia) ltac:(lia)).
    pose proof (only_in_string _ _ _ _ _ _ Honly Ho Hs) as Hs'. apply wp_bind.
    destruct (decide (i = Z.of_nat (length l))) as [->|Hne].
    + eapply wp_char_at; [by apply string_end|]. apply wp_ret. rewrite (proj2 (Z.ltb_lt _ n)) in HQ by lia.
      rewrite take_ge in HQ by lia. unfold st. by rewrite take_ge by lia.
    + destruct (lookup_lt_is_Some_2 l (Z.to_nat i)) as [c Hc]; [lia|].
      destruct (string_char _ _ _ _ c Hs' Hc) as [E Hz]. rewrite Z2Nat.id in E by lia.
      eapply wp_char_at; [exact E|]. rewrite (proj2 (Z.eqb_neq c 0) Hz). unfold u32 at 1. rewrite Z.mod_small by lia.
      destruct (Z.leb_spec n (pos + i + 1)).
      * apply wp_ret. rewrite (proj2 (Z.ltb_ge _ n)) in HQ by lia. unfold st. by replace (n - 1 - pos) with i in HQ by lia.
      * apply wp_bind, wp_store; [apply (only_in_readable _ _ _ _ _ _ Honly Hr); lia|]. apply wp_ret. split_and!; try lia.
        unfold st. rewrite Z2Nat.inj_add, Nat.add_1_r by lia. rewrite (take_snoc l _ c Hc), write_block_snoc, length_take.
        f_equal. lia.
  - unfold st. cbn. split_and!; [done|lia..].
  - pose proof (string_fuel m src l Hs). lia.
Qed.

Definition path_of (target : list Z) : list Z := [98; 105; 110; 47] ++ target ++ [46; 98; 105; 110].

Lemma path_length target : Z.of_nat (length (path_of target)) = Z.of_nat (length target) + 8.
Proof. unfold path_of. rewrite !length_app. cbn [length]. lia. Qed.

Lemma path_nonzero target : Forall (fun c => c <> 0) target -> Forall (fun c => c <> 0) (path_of target).
Proof. intros H. unfold path_of. rewrite !Forall_app. split_and!; [by repeat constructor|done|by repeat constructor]. Qed.

Lemma wp_program_path m name target out n Q :
  string_at m name target -> string_outside name (Z.of_nat (length target)) out n -> readable m out n ->
  out <> 0 -> 4 < n < 2 ^ 31 ->
  (Z.of_nat (length target) + 8 < n -> Q 0 (write_block out (path_of target ++ [0]) m)) ->
  (n <= Z.of_nat (length target) + 8 -> forall m', only_in out n m m' -> Q (-1) m') ->
  wp (build_user_program_path (Some name) out n) Q m.
Proof.
  intros Hs Ho Hr H0 Hn Hyes Hno. unfold build_user_program_path.
  rewrite (proj2 (Z.eqb_neq out 0) H0), (proj2 (Z.eqb_neq n 0)) by lia. cbn [orb]. apply wp_bind.
  apply (wp_copy_part m PREFIX [98; 105; 110; 47]); [apply string_literal; by repeat constructor|done|done|lia|lia|].
  cbv zeta. cbn [length]. rewrite (proj2 (Z.ltb_lt _ n)) by lia. rewrite Z.add_0_r. apply wp_bind.
  rewrite take_ge by (cbn; lia). set (m1 := write_block out [98; 105; 110; 47] m).
  assert (H1 : only_in out n m m1) by (apply only_in_write; [lia|cbn; lia]).
  apply (wp_copy_part m1 name target); [by eapply only_in_string|done|by eapply only_in_readable|lia|lia|].
  cbv zeta. set (k := take _ target). set (m2 := write_block (out + (0 + Z.of_nat 4)) k m1).
  assert (H2 : only_in out n m m2). { eapply only_in_trans; [exact H1|]. apply only_in_write; [lia|]. unfold k. rewrite length_take. lia. }
  destruct (Z.ltb_spec (0 + Z.of_nat 4 + Z.of_nat (length target)) n) as [Hf|Hf]; [|apply wp_ret, Hno; [lia|done]].
  assert (Ek : k = target) by (unfold k; apply take_ge; lia). apply wp_bind.
  apply (wp_copy_part m2 SUFFIX [46; 98; 105; 110]);
    [apply string_literal; by repeat constructor|done|by eapply only_in_readable|lia|lia|].
  cbv zeta. cbn [length]. set (k3 := take _ [46; 98; 105; 110]). set (m3 := write_block _ k3 m2).
  assert (H3 : only_in out n m m3).
  { eapply only_in_trans; [exact H2|]. apply only_in_write; [lia|]. unfold k3. rewrite length_take. cbn. lia. }
  destruct (Z.ltb_spec (0 + Z.of_nat 4 + Z.of_nat (length target) + Z.of_nat 4) n) as [Hg|Hg]; [|apply wp_ret, Hno; [lia|done]].
  apply wp_bind, wp_store; [apply (only_in_readable _ _ _ _ _ _ H3 Hr); lia|]. apply wp_ret.
  assert (Ek3 : k3 = [46; 98; 105; 110]) by (unfold k3; apply take_ge; cbn; lia).
  replace (write_block out (path_of target ++ [0]) m) with (<[out + (0 + Z.of_nat 4 + Z.of_nat (length target) + Z.of_nat 4) := 0]> m3) in Hyes;
    [apply Hyes; lia|].
  rewrite write_block_snoc, path_length. unfold m3, path_of. rewrite !write_block_app, Ek3. unfold m2, m1. rewrite Ek. cbn [length].
  repeat (f_equal; try lia).
Qed.

(** ** The member that is accepted *)

(** The contents of a member. *)
Definition contents (l : list Z) (e : entry) : list Z := take (Z.to_nat e.(en_size)) (skipn (Z.to_nat e.(en_data_off)) l).

Definition regular (e : entry) : bool := Z.land e.(en_mode) CPIO_MODE_TYPE_MASK =? CPIO_MODE_REGULAR.

(** A user thread other than the current one is alive. *)
Definition image_busy (s : sched) : bool := existsb (thread_is (live_user_except s.(tp)) s) (thread_list s).

(** The member of the archive [l] that a request for the program [target] loads. *)
Definition accepted (s : sched) (l target : list Z) : option entry :=
  if (Z.of_nat (length target) + 8 <? 64) && ((archive l).2 =? 0) then
    match first_named (path_of target) (archive l).1 with
    | Some e => if regular e && (0 <? e.(en_size)) && (e.(en_size) <=? USER_CODE_SIZE) && negb (image_busy s) then Some e else None
    | None => None
    end
  else None.

(** * The operations *)

(** What a call relies on: a sound scheduler, the archive [l] at the address the
    boot information gives, the string [target] as its argument, a path buffer,
    an image window and variables of its own. *)
Record load_args (s : ksys) (lo : exec_locals) (nm : cstr) (target l : list Z) (entry_out size_out : Z) : Prop := {
  la_sched : sched_ok s.(k_sched);
  la_archive : 0 <= s.(initrd_start) /\ block_at s.(k_mem).(cm_bytes) s.(initrd_start) l;
  la_none : s.(initrd_start) = 0 -> l = [];
  la_end : s.(initrd_end) = s.(initrd_start) + Z.of_nat (length l);
  la_name : string_at s.(k_mem).(cm_bytes) nm target;
  la_path : lo.(lo_path) <> 0 /\ readable s.(k_mem).(cm_bytes) lo.(lo_path) 64;
  la_window : readable s.(k_mem).(cm_bytes) (USER_CODE_BASE s.(k_sched).(qemu)) USER_CODE_SIZE;
  la_name_path : string_outside nm (Z.of_nat (length target)) lo.(lo_path) 64;
  la_archive_path : disjoint_areas s.(initrd_start) (Z.of_nat (length l)) lo.(lo_path) 64;
  la_archive_window : disjoint_areas s.(initrd_start) (Z.of_nat (length l)) (USER_CODE_BASE s.(k_sched).(qemu)) USER_CODE_SIZE;
  la_vars : forall p, p ∈ [lo.(lo_data); lo.(lo_size); lo.(lo_mode); entry_out; size_out] -> p <> 0 /\ is_Some (s.(k_mem).(cm_vars) !! p);
  la_distinct : NoDup [lo.(lo_data); lo.(lo_size); lo.(lo_mode); entry_out; size_out];
}.

(** [c] has the same threads on the same lists as [s], in a good state. *)
Definition same_threads (s c : sched) : Prop := exists g, sched_inv s (erase s) g /\ sched_inv c (erase s) g.

Lemma same_threads_refl s : sched_ok s -> same_threads s s.
Proof. intros [g HI]. by exists g. Qed.

(** The state after the call differs from the one before in memory only. *)
Definition load_frame (s s' : ksys) : Prop := exists c m, s' = set_k_sched c (set_k_mem m s) /\ same_threads s.(k_sched) c.

(** The outcome when [found] is the member to load. *)
Definition loaded_as (found : option entry) (s : ksys) (path : Z) (l : list Z) (entry_out size_out v : Z) (s' : ksys) : Prop :=
  let base := USER_CODE_BASE s.(k_sched).(qemu) in
  let written := match found with Some e => e.(en_size) | None => 0 end in
  match found with
  | Some e =>
      v = 0 /\ block_at s'.(k_mem).(cm_bytes) base (contents l e) /\ Z.of_nat (length (contents l e)) = e.(en_size) /\
      s'.(k_mem).(cm_vars) !! entry_out = Some base /\ s'.(k_mem).(cm_vars) !! size_out = Some e.(en_size)
  | None =>
      v = -1 /\ s'.(k_mem).(cm_vars) !! entry_out = s.(k_mem).(cm_vars) !! entry_out /\
      s'.(k_mem).(cm_vars) !! size_out = s.(k_mem).(cm_vars) !! size_out
  end /\
  (forall a, ~ in_area path 64 a -> ~ in_area base written a -> s'.(k_mem).(cm_bytes) !! a = s.(k_mem).(cm_bytes) !! a) /\
  load_frame s s'.

Lemma wp_bytes {A} (m : M bmem A) Q (s : ksys) :
  wp m (fun a b => Q a (set_k_mem (set_cm_bytes b s.(k_mem)) s)) s.(k_mem).(cm_bytes) -> wp (bytes m) Q s.
Proof. intros H. unfold bytes. by apply wp_zoom, wp_zoom. Qed.

Lemma wp_cmem {A} (m : M cmem A) Q (s : ksys) : wp m (fun a c => Q a (set_k_mem c s)) s.(k_mem) -> wp (zoom m) Q s.
Proof. intros H. by apply wp_zoom. Qed.

Lemma wp_threads {A} (m : M sched A) Q (s : ksys) : wp m (fun a c => Q a (set_k_sched c s)) s.(k_sched) -> wp (zoom m) Q s.
Proof. intros H. by apply wp_zoom. Qed.

Lemma wp_var p v Q (s : ksys) : s.(k_mem).(cm_vars) !! p = Some v -> Q v s -> wp (var p) Q s.
Proof. intros. by eapply wp_access. Qed.

(** The scheduler's answer. *)
Lemma wp_busy (s : ksys) (k : bool -> M ksys Z) Q :
  sched_ok s.(k_sched) ->
  (forall c', same_threads s.(k_sched) c' -> wp (k (image_busy s.(k_sched))) Q (set_k_sched c' s)) ->
  wp (cur ← zoom thread_current; busy ← zoom (thread_user_image_busy cur); k busy) Q s.
Proof.
  intros [g HI] HQ. pose proof (proj1 HI) as HR. apply wp_bind, wp_threads. unfold thread_current. apply wp_bind, wp_gets.
  assert (Hst : threading_started (k_sched s) <> 0) by apply (si_started _ _ (iv_state _ _ (proj2 HI))).
  rewrite (proj2 (Z.eqb_neq _ 0) Hst). apply wp_gets. replace (set_k_sched (k_sched s) s) with s by (by destruct s).
  apply wp_bind, wp_threads, (wp_image_busy HI). intros c' H'.
  assert (Hb : existsb (thread_is (live_user_except (tp (k_sched s))) (erase (k_sched s))) (l_all g) = image_busy (k_sched s)).
  { unfold image_busy. rewrite (thread_list_rep HR). apply existsb_ext. intros u. by apply thread_is_erase. }
  rewrite Hb. apply HQ. exists g. split; [exact HI|]. split; [exact H'|apply HI].
Qed.

(** A variable of the caller is on the list. *)
Ltac on_list := repeat (apply elem_of_cons; (by left) || right).

Section load.
Context {s : ksys} {lo : exec_locals} {nm : cstr} {target l : list Z} {entry_out size_out : Z}.
Context (HA : load_args s lo nm target l entry_out size_out).

Local Abbreviation B := (s.(k_mem).(cm_bytes)).
Local Abbreviation V := (s.(k_mem).(cm_vars)).
Local Abbreviation base := (USER_CODE_BASE s.(k_sched).(qemu)).
Local Abbreviation result := (loaded_as (accepted s.(k_sched) l target) s lo.(lo_path) l entry_out size_out).

(** A refused request. *)
Lemma load_refused c m :
  accepted s.(k_sched) l target = None -> same_threads s.(k_sched) c ->
  only_in lo.(lo_path) 64 B m.(cm_bytes) -> (forall p, p = entry_out \/ p = size_out -> m.(cm_vars) !! p = V !! p) ->
  result (-1) (set_k_sched c (set_k_mem m s)).
Proof using.
  intros E Hc [Hm _] Hv. unfold loaded_as. rewrite E. split; [|split].
  - split; [done|]. split; apply Hv; auto.
  - intros a Ha _. by apply Hm.
  - exists c, m. done.
Qed.

Lemma load_refused_early m :
  accepted s.(k_sched) l target = None -> only_in lo.(lo_path) 64 B m.(cm_bytes) ->
  (forall p, p = entry_out \/ p = size_out -> m.(cm_vars) !! p = V !! p) -> result (-1) (set_k_mem m s).
Proof using HA.
  intros E Hm Hv. pose proof (load_refused s.(k_sched) m E (same_threads_refl _ (la_sched _ _ _ _ _ _ _ HA)) Hm Hv) as H. by destruct s.
Qed.

(** The variables after the lookup. *)
Definition found_vars (e : entry) : gmap Z Z := outputs s.(initrd_start) lo.(lo_data) lo.(lo_size) lo.(lo_mode) e V.

Lemma found_vars_at e :
  found_vars e !! lo.(lo_data) = Some (s.(initrd_start) + e.(en_data_off)) /\ found_vars e !! lo.(lo_size) = Some e.(en_size) /\
  found_vars e !! lo.(lo_mode) = Some e.(en_mode) /\
  forall p, p = entry_out \/ p = size_out -> found_vars e !! p = V !! p.
Proof using HA.
  pose proof (la_distinct _ _ _ _ _ _ _ HA) as Hd. pose proof (la_vars _ _ _ _ _ _ _ HA) as Hv.
  assert (H0 : lo_data lo <> 0 /\ lo_size lo <> 0 /\ lo_mode lo <> 0).
  { split_and!; apply Hv; on_list. }
  destruct H0 as (H1 & H2 & H3). apply Z.eqb_neq in H1, H2, H3.
  unfold found_vars, outputs, set_out. rewrite H1, H2, H3.
  repeat (apply NoDup_cons in Hd as [? Hd]). rewrite !not_elem_of_cons in *. destruct_and!.
  split_and!; [by rewrite !lookup_insert_ne, lookup_insert_eq by congruence|
               by rewrite lookup_insert_ne, lookup_insert_eq by congruence|by rewrite lookup_insert_eq|].
  intros p [->| ->]; by rewrite !lookup_insert_ne by congruence.
Qed.

(** Copying the program and returning its place. *)
Lemma wp_install c m e :
  accepted s.(k_sched) l target = Some e -> entry_inside l e -> same_threads s.(k_sched) c ->
  only_in lo.(lo_path) 64 B m.(cm_bytes) -> m.(cm_vars) = found_vars e -> block_at m.(cm_bytes) s.(initrd_start) l ->
  wp (_ ← bytes (memcpy base (s.(initrd_start) + e.(en_data_off)) e.(en_size));
      zoom (var_set entry_out base) ;; zoom (var_set size_out e.(en_size)) ;; mret 0) result (set_k_sched c (set_k_mem m s)).
Proof using HA.
  intros Ea (I1 & _ & _ & I4 & _ & I6 & I7) Hc Hm Hv Hb.
  assert (Hsz : en_size e <= USER_CODE_SIZE).
  { unfold accepted in Ea. repeat case_match; simplify_eq. rewrite !andb_true_iff, Z.leb_le in *. tauto. }
  assert (Hlen : Z.of_nat (length (contents l e)) = en_size e) by (unfold contents; rewrite length_take, length_drop; lia).
  pose proof (block_part _ _ _ (en_data_off e) (Z.to_nat (en_size e)) Hb ltac:(lia)) as Hblk. fold (contents l e) in Hblk.
  pose proof (la_window _ _ _ _ _ _ _ HA) as Hw. apply (only_in_readable _ _ _ _ _ _ Hm) in Hw.
  apply wp_bind, wp_bytes. rewrite <- Hlen at 1. cbn [k_mem set_k_sched set_k_mem]. apply wp_memcpy; [done| | |].
  { intros i Hi. apply Hw. lia. }
  { destruct (decide (base <= initrd_start s + en_data_off e)) as [|Hn]; [by left|right].
    destruct (decide (initrd_start s + en_data_off e + Z.of_nat (length (contents l e)) <= base)) as [|Hn2]; [done|exfalso].
    apply (la_archive_window _ _ _ _ _ _ _ HA base); unfold in_area; lia. }
  destruct (found_vars_at e) as (_ & _ & _ & Hvars).
  destruct (la_vars _ _ _ _ _ _ _ HA entry_out) as [_ [x1 E1]]; [by on_list|].
  destruct (la_vars _ _ _ _ _ _ _ HA size_out) as [_ [x2 E2]]; [by on_list|].
  assert (Hne : entry_out <> size_out).
  { pose proof (la_distinct _ _ _ _ _ _ _ HA) as Hd. do 3 (apply NoDup_cons in Hd as [_ Hd]). apply NoDup_cons in Hd as [Hd _].
    intros E. apply Hd. rewrite E. by left. }
  apply wp_bind, wp_cmem. eapply wp_update; [cbn; by rewrite Hv, Hvars, E1 by auto|].
  apply wp_bind, wp_cmem. eapply wp_update; [cbn; by rewrite lookup_insert_ne, ?Hv, Hvars, E2 by auto|].
  apply wp_ret. unfold loaded_as. rewrite Ea. cbn [k_mem set_k_sched set_k_mem set_cm_vars set_cm_bytes cm_bytes cm_vars]. split; [|split].
  - split_and!; [done|apply write_block_in|done|by rewrite lookup_insert_ne, lookup_insert_eq|apply lookup_insert_eq].
  - intros a Ha Hn. rewrite write_block_out by (unfold in_area in Hn; lia). by apply Hm.
  - eexists c, _. split; [|done]. by destruct s.
Qed.

Lemma entry_found e : first_named (path_of target) (archive l).1 = Some e -> entry_inside l e.
Proof using.
  unfold first_named. destruct (list_find _ _) as [[i e']|] eqn:Ef; [|done]. intros E. injection E as ->.
  apply list_find_Some in Ef as (Ei & _). pose proof (archive_inside l) as Hins. rewrite Forall_lookup in Hins. by eapply Hins.
Qed.

Lemma accepted_short :
  Z.of_nat (length target) + 8 < 64 ->
  accepted s.(k_sched) l target = if (archive l).2 =? 0 then
    match first_named (path_of target) (archive l).1 with
    | Some e => if regular e && (0 <? e.(en_size)) && (e.(en_size) <=? USER_CODE_SIZE) && negb (image_busy (k_sched s)) then Some e else None
    | None => None
    end else None.
Proof using. intros H. unfold accepted. by rewrite (proj2 (Z.ltb_lt _ 64)) by lia. Qed.

(** The checks on the member that was found. *)
Lemma wp_exec_install c2 e :
  accepted s.(k_sched) l target = (if regular e && (0 <? e.(en_size)) && (e.(en_size) <=? USER_CODE_SIZE) && negb (image_busy (k_sched s)) then Some e else None) ->
  entry_inside l e -> only_in lo.(lo_path) 64 B c2.(cm_bytes) -> c2.(cm_vars) = found_vars e -> block_at c2.(cm_bytes) s.(initrd_start) l ->
  wp (exec_install lo entry_out size_out) result (set_k_mem c2 s).
Proof using HA.
  intros Eacc He Hm2 Hva Hb. destruct (found_vars_at e) as (F1 & F2 & F3 & F4). pose proof He as (_ & _ & _ & Hsz & _).
  assert (Hk : forall p, p = entry_out \/ p = size_out -> cm_vars c2 !! p = V !! p) by (intros p Hp; rewrite Hva; by apply F4).
  unfold exec_install. apply wp_bind. eapply wp_var; [cbn; rewrite Hva; exact F3|]. fold (regular e).
  destruct (regular e) eqn:Er; cbn [negb andb] in *; [|apply wp_ret, load_refused_early; done].
  apply wp_bind. eapply wp_var; [cbn; rewrite Hva; exact F2|].
  destruct ((en_size e =? 0) || (USER_CODE_SIZE <? en_size e)) eqn:Es.
  { apply wp_ret, load_refused_early; [|done|done]. rewrite Eacc.
    assert ((0 <? en_size e) && (en_size e <=? USER_CODE_SIZE) = false) as ->; [|done].
    apply orb_true_iff in Es as [Es|Es]; [apply Z.eqb_eq in Es|apply Z.ltb_lt in Es].
    - by rewrite (proj2 (Z.ltb_ge 0 _)) by lia.
    - rewrite (proj2 (Z.leb_gt (en_size e) _)) by lia. apply andb_false_r. }
  apply orb_false_iff in Es as [Es1 Es2]. apply Z.eqb_neq in Es1. apply Z.ltb_ge in Es2.
  rewrite (proj2 (Z.ltb_lt 0 _)), (proj2 (Z.leb_le _ _)) in Eacc by lia. cbn [andb] in Eacc.
  apply wp_busy; [apply HA|]. intros c' Hc'. change (k_sched (set_k_mem c2 s)) with (k_sched s) in *.
  destruct (image_busy (k_sched s)); cbn [negb] in Eacc; [by apply wp_ret, load_refused|].
  apply wp_bind, wp_gets, wp_bind. eapply wp_var; [cbn; rewrite Hva; exact F1|].
  assert (Eq : qemu c' = qemu (k_sched s)) by (destruct Hc' as (g & _ & HR & _); transitivity (qemu (erase c')); [done|by rewrite (rp_core _ _ _ HR)]).
  cbn [k_sched set_k_sched]. rewrite Eq. by apply wp_install.
Qed.

Lemma wp_exec_load : wp (exec_load_image lo (Some nm) entry_out size_out) result s.
Proof using HA.
  pose proof HA as [HS [Hpos Hblk] Hnone Hend Hnm [Hp0 Hpr] Hw Hnp Hap Haw Hvs Hnd]. unfold exec_load_image.
  assert (Hin : forall p, p ∈ [lo_data lo; lo_size lo; lo_mode lo; entry_out; size_out] -> p <> 0) by (intros p Hp; by apply Hvs).
  assert (Hself : result (-1) s <-> result (-1) (set_k_mem s.(k_mem) s)) by (by destruct s).
  rewrite !(proj2 (Z.eqb_neq _ 0)) by (apply Hin; on_list). cbn [orb].
  apply wp_bind, wp_gets, wp_bind, wp_gets.
  destruct ((initrd_start s =? 0) || (initrd_end s <=? initrd_start s)) eqn:Eg.
  { apply wp_ret, Hself, load_refused_early; [|apply only_in_refl|done]. assert (l = []) as ->; [|unfold accepted; by rewrite andb_false_r].
    apply orb_true_iff in Eg as [Eg|Eg]; [by apply Hnone, Z.eqb_eq|]. apply Z.leb_le in Eg. destruct l; [done|cbn in Hend; lia]. }
  apply orb_false_iff in Eg as [Eg1 Eg2]. apply Z.eqb_neq in Eg1. apply wp_bind, wp_bytes. apply (wp_program_path B nm target); [done..|lia| |].
  2: { intros Hlong m' Hm'. apply wp_ret, load_refused_early; [|done|done]. unfold accepted. by rewrite (proj2 (Z.ltb_ge _ _)) by lia. }
  intros Hshort. rewrite Z.eqb_refl. cbn [negb]. set (B1 := write_block _ _ _).
  assert (Hm1 : only_in (lo_path lo) 64 B B1).
  { apply only_in_write; [lia|]. rewrite length_app, Nat2Z.inj_add, path_length. cbn [length]. lia. }
  assert (Hb1 : block_at B1 (initrd_start s) l) by (by eapply only_in_block).
  apply wp_bind, wp_cmem. rewrite Hend. eapply wp_mono.
  { apply (wp_cpio_find _ _ l _ (path_of target)); [lia|done| |right; apply Hvs..].
    - apply block_string; [apply write_block_in|]. apply path_nonzero, Hnm.
    - by on_list.
    - by on_list.
    - by on_list. }
  cbn [k_mem set_k_mem set_cm_bytes cm_bytes cm_vars]. intros v c2 (-> & Hby & Hva).
  assert (Hm2 : only_in (lo_path lo) 64 B (cm_bytes c2)) by (by rewrite Hby). pose proof (accepted_short Hshort) as Eacc.
  case_decide as Hd; cbn [Z.eqb negb].
  - destruct Hd as [E0 [e Efn]]. rewrite Efn, ?E0, ?Z.eqb_refl in *. apply (wp_exec_install c2 e); [done|by apply entry_found|done|done|].
    by rewrite Hby.
  - apply wp_ret, load_refused_early; [|done|].
    + rewrite Eacc. destruct (Z.eqb_spec (archive l).2 0); [|done]. destruct (first_named _ _); [|done]. by destruct Hd; eauto.
    + intros p Hp. rewrite Hva. destruct (first_named _ _) as [e|]; [|done]. by apply found_vars_at.
Qed.

End load.
