(* ===== verification/Launch.v ===== *)
(** * Launching a batch of threads and taking it back

    [launched ts zs] relates the state before [exec_spawn] creates threads to a
    later one: the threads [ts] were created and can run, the threads [zs] were
    created and stopped again.  Every step of [exec_spawn] moves along this
    relation. *)

From S2P Require Import Prelude Lists Memory Slab MemoryInit Task Sched Wait Thread HeapIface SchedRep SchedLists WaitLists ThreadInv SchedOps WaitOps ThreadNew ThreadExit ThreadReap Str Cpio Irq Exec.

Open Scope Z_scope.

(** The record and the trap context of a thread that was launched. *)
Definition fresh_user (e : sched) (entry t tid : Z) : Prop :=
  exists base ub, let top := ub + USER_STACK_SIZE in
    e.(tasks) !! t = Some (set_t_state THREAD_RUNNABLE (user_thread tid base entry ub top)) /\
    e.(tcs) !! (base + THREAD_STACK_SIZE - TRAP_CONTEXT_ALLOC_SIZE) = Some (user_tc t entry top).

(** The states agree but for threads, entries, trap contexts, the heap and the next id. *)
Definition beside (e e' : sched) : Prop :=
  e' = set_tasks e'.(tasks) (set_entries e'.(entries) (set_tcs e'.(tcs) (set_next_tid e'.(next_tid) (set_heap e'.(heap) e)))).

Lemma beside_trans e e1 e2 : beside e e1 -> beside e1 e2 -> beside e e2.
Proof. unfold beside. intros -> E. rewrite E at 1. reflexivity. Qed.

Section launch.
Context {hok : slabs -> Prop} {owned : slabs -> Z -> Z -> Prop} {static : slabs -> Z -> Prop}.
Context `{HL : !HeapLaws hok owned static}.
Abbreviation inv := (@inv hok owned static).
Abbreviation sched_inv := (@sched_inv hok owned static).
Abbreviation reaped := (@reaped hok owned static).
Abbreviation failed := (@failed hok owned static).
Abbreviation new_memory := (@new_memory hok owned static).
Abbreviation grown := (@grown hok owned static).

Record launched (entry : Z) (ts zs tids : list Z) (e : sched) (g : lists) (e' : sched) (g' : lists) : Prop := {
  ln_all : g'.(l_all) = rev (ts ++ zs) ++ g.(l_all);
  ln_run : g'.(l_run) = g.(l_run) ++ ts;
  ln_zombies : g'.(l_zombies) = zs ++ g.(l_zombies);
  ln_old : forall u, u ∉ ts ++ zs -> e'.(tasks) !! u = e.(tasks) !! u;
  ln_new : forall t, t ∈ ts ++ zs -> e.(tasks) !! t = None /\ t <> 0;
  ln_nodup : NoDup (ts ++ zs);
  ln_live : Forall2 (fresh_user e' entry) ts tids;
  ln_heap : forall b y, owned e.(heap) b y <-> owned e'.(heap) b y /\ b ∉ (ts ++ zs) ≫= thread_blocks e';
  ln_entries : forall i y, e.(entries) !! i = Some y -> e'.(entries) !! i = Some y;
  ln_rest : beside e e';
}.

Lemma launched_refl entry e g : launched entry [] [] [] e g e g.
Proof.
  constructor; try done; [by rewrite app_nil_r|set_solver|constructor|set_solver|by destruct e].
Qed.

Lemma thread_blocks_same e e' t : e'.(tasks) !! t = e.(tasks) !! t -> thread_blocks e' t = thread_blocks e t.
Proof. unfold thread_blocks. by intros ->. Qed.

Lemma blocks_ext e e' (L : list Z) : (forall t, t ∈ L -> thread_blocks e' t = thread_blocks e t) -> L ≫= thread_blocks e' = L ≫= thread_blocks e.
Proof. induction L as [|t L IH]; intros H; [done|]. rewrite !bind_cons, H, IH; [done| |]; intros; try apply H; set_solver. Qed.

(** A failed step changes nothing that counts. *)
Lemma launched_failed entry ts zs tids e g e1 g1 e2 g2 :
  launched entry ts zs tids e g e1 g1 -> failed e1 g1 e2 g2 -> launched entry ts zs tids e g e2 g2.
Proof.
  intros [A1 A2 A3 A4 A5 A6 A7 A8 A9 A10] ((h & n & -> & Hsr) & _ & E1 & E2 & E3 & _).
  constructor; [by rewrite E1|by rewrite E2|by rewrite E3|done..| | |].
  - intros b y. rewrite A8. cbn [heap set_heap]. rewrite (sr_owned _ _ Hsr). done.
  - done.
  - by apply (beside_trans _ _ _ A10).
Qed.

(** Blocks that were allocated before are none of the new ones. *)
Lemma new_blocks e g h0 u zu h a base b y :
  inv e g -> grown e.(heap) h0 u zu -> new_memory (set_heap h0 e) h a base -> owned e.(heap) b y -> b ∉ [u; base; a].
Proof.
  intros Hi Hg (h1 & za & zb & Hg1 & Hg2 & _) Hb. pose proof (mi_heap _ (iv_mem _ _ Hi)) as Hh.
  pose proof (grown_pos _ _ _ _ Hg) as (_ & Z0 & _). pose proof (grown_pos _ _ _ _ Hg1) as (_ & Z1 & _). pose proof (grown_pos _ _ _ _ Hg2) as (_ & Z2 & _).
  rewrite !not_elem_of_cons. split_and!; [| | |set_solver]; intros ->.
  - by apply (grown_not_owned _ _ _ _ Hh Hg Z0 y).
  - apply (grown_not_owned _ _ _ _ (gr_ok _ _ _ _ Hg1) Hg2 Z2 y). apply Hg1. left. apply Hg. by left.
  - apply (grown_not_owned _ _ _ _ (gr_ok _ _ _ _ Hg) Hg1 Z1 y). apply Hg. by left.
Qed.

(** Another thread's record and trap context stay when [a] is created. *)
Lemma fresh_kept e g h a base entry entry' ub top t tid :
  inv e g -> new_memory e h a base -> a <> t -> fresh_user e entry t tid -> fresh_user (published a (user_created e h a base entry' ub top)) entry t tid.
Proof.
  intros Hi Hm Hne (base' & ub' & Et & Etc). exists base', ub'. cbv zeta in *. split.
  - unfold published. sched_simpl. by rewrite user_created_tasks, lookup_alter_ne, lookup_insert_ne.
  - change (tcs (published a (user_created e h a base entry' ub top))) with (tcs (user_created e h a base entry' ub top)).
    rewrite user_created_tcs, lookup_insert_ne; [done|].
    assert (Hb : t <> boot_idle_thread e) by (intros ->; by pose proof (mi_kind _ (iv_mem _ _ Hi) _ Et)).
    intros E. by eapply (parent_tc_other e h a base t _ (iv_mem _ _ Hi) Hm Et Hb).
Qed.

(** One more thread, with its user stack. *)
Lemma launched_more s1 entry ts tids e g e1 g1 h0 u zu a base h :
  let e0 := set_heap h0 e1 in
  let e2 := published a (user_created e0 h a base entry u (u + USER_STACK_SIZE)) in
  sched_inv s1 e1 g1 -> launched entry ts [] tids e g e1 g1 -> grown e1.(heap) h0 u zu -> new_memory e0 h a base ->
  launched entry (ts ++ [a]) [] (tids ++ [e1.(next_tid)]) e g e2 (publish_lists a (no_waits a g1)).
Proof.
  intros e0 e2 HI [A1 A2 A3 A4 A5 A6 A7 A8 A9 A10] Hg Hm. rewrite !app_nil_r in *.
  pose proof (inv_grown _ _ _ _ _ (proj2 HI) Hg) as Hi0. fold e0 in Hi0. pose proof (iv_mem _ _ Hi0) as Hmem.
  pose proof Hm as (h1 & za & zb & Hg1 & Hg2 & Hza & Hzb).
  assert (Ht2 : forall v, tasks e2 !! v = if decide (a = v) then Some (set_t_state THREAD_RUNNABLE (user_thread (next_tid e1) base entry u (u + USER_STACK_SIZE))) else tasks e1 !! v).
  { intros v. unfold e2, published. sched_simpl. rewrite user_created_tasks, lookup_alter. destruct (decide (a = v)) as [<-|Hne]; [by rewrite lookup_insert_eq|by rewrite lookup_insert_ne]. }
  assert (Hna : tasks e1 !! a = None) by (by eapply (grown_not_task e0)).
  assert (Hnts : a ∉ ts).
  { intros Hin. apply list_elem_of_lookup_1 in Hin as [i Hi]. destruct (Forall2_lookup_l _ _ _ _ _ A7 Hi) as (tid & _ & base' & ub & E & _). congruence. }
  assert (Hold : forall v, v ∈ ts -> tasks e2 !! v = tasks e1 !! v) by (intros v Hv; rewrite Ht2, decide_False; [done|by intros ->]).
  assert (Eb : ((ts ++ [a]) ≫= thread_blocks e2) = (ts ≫= thread_blocks e1) ++ [u; base; a]).
  { rewrite bind_app, (blocks_ext e1 e2 ts) by (intros v Hv; by apply thread_blocks_same, Hold). cbn. f_equal. unfold thread_blocks. rewrite Ht2, decide_True by done. done. }
  constructor; rewrite ?app_nil_r.
  - change (l_all (publish_lists a (no_waits a g1))) with (a :: l_all g1). rewrite A1, rev_app_distr. done.
  - change (l_run (publish_lists a (no_waits a g1))) with (l_run g1 ++ [a]). by rewrite A2, <- app_assoc.
  - exact A3.
  - intros v Hv. rewrite Ht2, decide_False by set_solver. apply A4. set_solver.
  - intros t Ht. apply elem_of_app in Ht as [Ht|Ht%list_elem_of_singleton]; [by apply A5|]. subst t. split; [rewrite <- A4; [exact Hna|exact Hnts]|apply (gr_new _ _ _ _ Hg1)].
  - apply NoDup_app. split; [done|]. split; [set_solver|apply NoDup_singleton].
  - apply Forall2_app.
    + eapply Forall2_impl; [exact A7|]. intros t tid Hf. eapply (fresh_kept e0); [exact Hi0|exact Hm| |exact Hf]. intros <-. destruct Hf as (? & ? & E & _). congruence.
    + repeat constructor. exists base, u. cbv zeta. rewrite Ht2, decide_True by done. split; [done|]. apply lookup_insert_eq.
  - intros b y. rewrite A8, Eb. change (heap e2) with h. rewrite (gr_owned _ _ _ _ Hg2), (gr_owned _ _ _ _ Hg1).
    change (heap e0) with h0. rewrite (gr_owned _ _ _ _ Hg), not_elem_of_app.
    split; [|set_solver]. intros [Hb Hn]. split; [by do 3 left|]. split; [exact Hn|]. eapply new_blocks; [exact (proj2 HI)|exact Hg|exact Hm|exact Hb].
  - exact A9.
  - by apply (beside_trans _ _ _ A10).
Qed.

(** Stopping a thread leaves its memory to it. *)
Lemma zombified_blocks t c e g e' g' u : zombified t c e g e' g' -> is_task e.(tasks) t -> thread_blocks e' u = thread_blocks e u.
Proof.
  intros Hz Ht. unfold thread_blocks. rewrite (zombified_task _ _ _ _ _ _ u Hz Ht). destruct (decide (t = u)); [|done]. by destruct (tasks e !! u).
Qed.

(** The newest thread that can still run is stopped. *)
Lemma launched_stop s s1 entry ts t zs tids tid c e g e1 g1 e2 g2 :
  sched_inv s e g -> sched_inv s1 e1 g1 -> launched entry (ts ++ [t]) zs (tids ++ [tid]) e g e1 g1 -> stopped t c e1 g1 e2 g2 ->
  launched entry ts (t :: zs) tids e g e2 g2.
Proof.
  intros HI HI1 [A1 A2 A3 A4 A5 A6 A7 A8 A9 A10] Hst. rewrite <- !app_assoc in *. cbn [app] in *.
  apply Forall2_app_inv in A7 as [A7 At]; [|apply Forall2_length in A7; rewrite !length_app in A7; cbn in A7; lia].
  apply Forall2_cons in At as [(base & ub & Et & Etc) _]. cbv zeta in Et, Etc.
  unfold stopped, is_zombie in Hst. rewrite Et in Hst. rewrite bool_decide_false in Hst by done.
  assert (Ht : is_task (tasks e1) t) by (by eexists).
  pose proof (fun u => zombified_task _ _ _ _ _ _ u Hst Ht) as Hz.
  destruct (zombified_rest _ _ _ _ _ _ Hst Ht) as (Er & _ & E1 & E2 & E3 & _).
  destruct (A5 t) as [Hnone Ht0]; [set_solver|].
  assert (Hnr : t ∉ l_run g ++ ts).
  { rewrite elem_of_app. intros [Hr|Hr]; [destruct (run_task HI t Hr) as (x & Hx & _); congruence|].
    apply NoDup_app in A6 as (_ & Hd & _). apply (Hd t Hr). set_solver. }
  constructor; [by rewrite E1| |by rewrite E3, A3| |done|done| | | |].
  - rewrite E2, A2. unfold without. rewrite app_assoc, filter_app, filter_cons_False by (intros H; by apply H). cbn. rewrite app_nil_r. by apply without_absent.
  - intros u Hu. rewrite Hz, decide_False by set_solver. by apply A4.
  - apply Forall2_same_length_lookup in A7 as [Hl A7]. apply Forall2_same_length_lookup. split; [done|]. intros i u v Hu Hv.
    destruct (A7 i u v Hu Hv) as (base' & ub' & Eu & Eut). exists base', ub'. cbv zeta. rewrite Hz, decide_False, Er; [done|].
    intros ->. apply Hnr, elem_of_app. right. by eapply list_elem_of_lookup_2.
  - intros b y. rewrite A8, (blocks_ext e1 e2) by (intros u _; by eapply zombified_blocks).
    assert (heap e2 = heap e1) as -> by (by rewrite Er). done.
  - intros i y Hy. destruct Hst as (e' & g' & Hc & _ & -> & _).
    change (entries e' !! i = Some y). rewrite (cn_entries _ _ _ _ _ Hc), (A9 i y Hy). cbn. rewrite decide_False; [done|]. intros [Ey _].
    destruct (wi_entry _ _ (iv_wait _ _ (proj2 HI)) i y Hy) as [[Ez _]|(_ & x & Hx & _)]; [by rewrite Ez in Ey|congruence].
  - apply (beside_trans _ _ _ A10). rewrite Er. done.
Qed.

(** ** The loops *)

Lemma wp_stop_all s entry e g (HI : sched_inv s e g) ts : forall zs tids s1 e1 g1 Q,
  sched_inv s1 e1 g1 -> launched entry ts zs tids e g e1 g1 ->
  (forall s2 e2 g2, sched_inv s2 e2 g2 -> launched entry [] (ts ++ zs) [] e g e2 g2 -> Q tt s2) -> wp (stop_all (rev tids)) Q s1.
Proof.
  induction ts as [|t ts IH] using rev_ind; intros zs tids s1 e1 g1 Q HI1 Hl HQ.
  - pose proof (ln_live _ _ _ _ _ _ _ _ Hl) as Hf. apply Forall2_nil_inv_l in Hf as ->. apply wp_ret. by eapply HQ.
  - pose proof (ln_live _ _ _ _ _ _ _ _ Hl) as Hf. apply Forall2_app_inv_l in Hf as (tids' & tl & Hf & Ht & ->).
    apply Forall2_cons_inv_l in Ht as (tid & tl' & Hfu & Hnil & ->). apply Forall2_nil_inv_l in Hnil as ->.
    rewrite rev_app_distr. cbn [rev app stop_all]. apply wp_bind.
    destruct (ln_new _ _ _ _ _ _ _ _ Hl t) as [Hn Ht0]; [set_solver|].
    pose proof Hfu as (base & ub & Et & _). cbv zeta in Et.
    assert (Hin : t ∈ l_all g1) by (rewrite (ln_all _ _ _ _ _ _ _ _ Hl), rev_app_distr, rev_app_distr; set_solver).
    assert (Efind : find_tid e1 g1 tid = t) by (apply (find_tid_unique s1 e1 g1 t _ HI1 Hin Et)).
    assert (Hb : t <> boot_idle_thread e1) by (intros ->; by pose proof (mi_kind _ (iv_mem _ _ (proj2 HI1)) _ Et)).
    eapply (wp_stop_tid s1 e1 g1); [exact HI1|rewrite Efind; tauto|rewrite Efind]. intros _ _ s2 e2 g2 H2 Hst.
    eapply (IH (t :: zs)); [split; [exact H2|by eapply (inv_stopped s1 e1)]|by eapply launched_stop|].
    intros s3 e3 g3 HI3 Hl3. eapply HQ; [exact HI3|]. by rewrite <- app_assoc.
Qed.

Lemma wp_spawn_from entry e g n : forall ts tids s1 e1 g1 (Q : nat * list Z * bool -> sched -> Prop),
  sched_inv s1 e1 g1 -> launched entry ts [] tids e g e1 g1 ->
  (forall s2 e2 g2 ts2 tids2, sched_inv s2 e2 g2 -> launched entry ts2 [] tids2 e g e2 g2 ->
     forall w, take (length tids2) w = tids2 -> Q (length tids2, w, false) s2) ->
  (forall s2 e2 g2 ts2 tids2, sched_inv s2 e2 g2 -> launched entry ts2 [] tids2 e g e2 g2 -> length tids2 = (length tids + n)%nat -> Q (length tids2, tids2, true) s2) ->
  wp (spawn_from n entry tids) Q s1.
Proof.
  induction n as [|n IH]; intros ts tids s1 e1 g1 Q HI1 Hl Hno Hyes; cbn [spawn_from].
  { apply wp_ret. eapply Hyes; [done|done|lia]. }
  pose proof HI1 as [HR1 Hi1]. pose proof (iv_mem _ _ Hi1) as Hm1. apply wp_bind. unfold kmalloc_stack.
  eapply (wp_heap_kmalloc s1 e1 g1); [exact HR1|apply Hm1|unfold USER_STACK_SIZE; lia|..].
  { intros s2 H2 _. cbn [Z.eqb]. apply wp_ret. eapply Hno; [by split|done|apply firstn_all]. }
  intros s2 h0 u zu H2 Hg Hzu _. pose proof (gr_new _ _ _ _ Hg) as [Hu0 _]. pose proof (grown_pos _ _ _ _ Hg) as (Hu & _ & Hu64).
  rewrite (proj2 (Z.eqb_neq u 0) Hu0). rewrite u64_id by (unfold USER_STACK_SIZE in *; lia). set (e0 := set_heap h0 e1) in *.
  assert (HI0 : sched_inv s2 e0 g1) by (split; [done|by eapply inv_grown]).
  assert (Hst : stack_ok (owned := owned) e0 u (u + USER_STACK_SIZE)).
  { split; [intros t z sl Hz Hb; by eapply (grown_fresh_slot e1)|]. exists zu. split; [apply Hg; by right|lia]. }
  apply wp_bind. apply (wp_process_create s2 e0 g1); [done|done|..].
  - intros s3 e3 g3 H3 Hf. cbn [Z.ltb Z.compare]. apply wp_bind.
    assert (Howned : hok (heap e3) /\ owned (heap e3) u zu).
    { destruct Hf as ((h & k & -> & [S1 _ S3 _]) & _). split; [done|]. apply S3, Hg. by right. }
    eapply wp_heap_kfree; [exact H3|apply Howned|apply Howned|]. intros s4 h4 H4 Hsh. apply wp_ret.
    assert (Hf4 : failed e1 g1 (set_heap h4 e3) g3) by (by eapply failed_free).
    eapply Hno; [split; [exact H4|apply Hf4]|by eapply launched_failed|apply take_app_length].
  - intros s3 a base h _ Hmem Hmax H3 Hi3. pose proof (id_next _ (iv_ids _ _ Hi1)) as Hid. change (next_tid e0) with (next_tid e1).
    rewrite (proj2 (Z.ltb_ge _ 0)) by lia. eapply (IH (ts ++ [a])); [split; [exact H3|exact Hi3]|by eapply launched_more|exact Hno|].
    intros s4 e4 g4 ts4 tids4 HI4 Hl4 Hlen. eapply Hyes; [exact HI4|exact Hl4|]. rewrite Hlen, length_app. cbn. lia.
Qed.

Lemma wp_started s e g Q : sched_inv s e g -> (forall s', rep s' e g -> Q tt s') -> wp thread_system_bootstrap_init Q s.
Proof.
  intros HI HQ. unfold thread_system_bootstrap_init. apply wp_bind, (wp_irq_save (rep_of HI)). intros s1 H1.
  apply wp_bind, (wp_gets_core H1); [done|]. pose proof (si_started _ _ (iv_state _ _ (proj2 HI))) as Hst.
  change (threading_started (set_irq false e)) with (threading_started e). rewrite (proj2 (Z.eqb_neq _ 0) Hst). cbn [negb].
  apply (wp_irq_restore H1). intros s2 H2. rewrite irq_pair in H2. by apply HQ.
Qed.

(** ** Taking a batch back *)

(** Nothing is left of a batch: the zombies, old and new, are gone, and the rest is
    as before. *)
Record rolled_back (e : sched) (g : lists) (e' : sched) (g' : lists) : Prop := {
  rb_tasks : forall u, e'.(tasks) !! u = if decide (u ∈ g.(l_zombies)) then None else e.(tasks) !! u;
  rb_all : g'.(l_all) = filter (fun t => t ∉ g.(l_zombies)) g.(l_all);
  rb_run : g'.(l_run) = g.(l_run);
  rb_zombies : g'.(l_zombies) = [];
  rb_heap : forall b y, owned e'.(heap) b y <-> owned e.(heap) b y /\ b ∉ g.(l_zombies) ≫= thread_blocks e;
  rb_entries : forall i y, e.(entries) !! i = Some y -> y.(e_task) <> 0 -> e'.(entries) !! i = Some y;
  rb_rest : beside e e';
}.

Lemma zombies_all c L : c ∉ L -> zombies_before c L = L.
Proof.
  induction L as [|z L IH]; intros H; [done|]. cbn [zombies_before]. rewrite (proj2 (Z.eqb_neq z c)) by set_solver. f_equal. apply IH. set_solver.
Qed.

Lemma filter_none (P : Z -> Prop) `{forall x, Decision (P x)} (L : list Z) : (forall t, t ∈ L -> ~ P t) -> filter P L = [].
Proof. induction L as [|t L IH]; intros HP; [done|]. rewrite filter_cons_False by (apply HP; set_solver). apply IH. set_solver. Qed.

Lemma filter_same (P P' : Z -> Prop) `{forall x, Decision (P x), forall x, Decision (P' x)} (L : list Z) :
  (forall t, t ∈ L -> P t <-> P' t) -> filter P L = filter P' L.
Proof.
  induction L as [|t L IH]; intros HP; [done|]. rewrite !filter_cons, IH by set_solver. pose proof (HP t ltac:(set_solver)).
  by destruct (decide (P t)), (decide (P' t)); try tauto.
Qed.

Lemma filter_new (zs Z0 L : list Z) : (forall t, t ∈ L -> t ∉ zs) ->
  filter (fun t => t ∉ zs ++ Z0) (rev zs ++ L) = filter (fun t => t ∉ Z0) L.
Proof.
  intros H. rewrite filter_app, filter_none.
  - cbn. apply filter_same. intros t Ht. apply H in Ht. set_solver.
  - intros t Ht Hn. apply list_elem_of_In, in_rev, list_elem_of_In in Ht. set_solver.
Qed.

Lemma launched_back s entry zs e g e1 g1 e2 g2 :
  sched_inv s e g -> launched entry [] zs [] e g e1 g1 -> e.(tp) ∉ g.(l_zombies) ->
  reaped (zombies_before e1.(tp) g1.(l_zombies)) e1 g1 e2 g2 -> rolled_back e g e2 g2.
Proof.
  intros HI [A1 A2 A3 A4 A5 A6 A7 A8 A9 A10] Hz. cbn [app] in *. rewrite app_nil_r in A2.
  assert (Etp : tp e1 = tp e) by (by rewrite A10). destruct (cur_task HI) as (x & Hx & _).
  assert (Hzs : forall t, is_task (tasks e) t -> t ∉ zs) by (intros t [y Hy] Ht; destruct (A5 t Ht); congruence).
  assert (Hall : forall t, t ∈ l_all g -> t ∉ zs) by (intros t Ht; destruct (all_task HI t Ht) as (y & Hy & _); apply Hzs; by exists y).
  assert (Hzz : forall t, t ∈ l_zombies g -> t ∉ zs).
  { intros t Ht. destruct (chain_task _ _ _ t (rp_zombies _ _ _ (rep_of HI)) Ht) as [_ [y Hy]]. apply Hzs. eexists. by apply (task_rep (rep_of HI)). }
  rewrite zombies_all by (rewrite A3, Etp, elem_of_app; intros [?|?]; [apply (Hzs (tp e)); [by exists x|done]|done]).
  intros [R1 R2 R3 R4 R5 R6 (R7 & _)]. rewrite A3 in *.
  assert (Eb : (l_zombies g ≫= thread_blocks e1) = (l_zombies g ≫= thread_blocks e)).
  { apply blocks_ext. intros t Ht. by apply thread_blocks_same, A4, Hzz. }
  constructor.
  - intros u. rewrite R1. destruct (decide (u ∈ zs)) as [Hu|Hu].
    + rewrite decide_True by set_solver. destruct (A5 u Hu) as [-> _]. by case_decide.
    + rewrite (A4 u Hu). destruct (decide (u ∈ l_zombies g)); [by rewrite decide_True by set_solver|by rewrite decide_False by set_solver].
  - rewrite R6, A1. by apply filter_new.
  - by rewrite R7, A2.
  - rewrite <- (app_nil_r (zs ++ _)) in R5 at 1. by apply app_inv_head in R5.
  - intros b y. rewrite (rl_owned _ _ _ R3), bind_app, not_elem_of_app, Eb, A8. tauto.
  - intros i y Hy Hne. apply R2; [by apply A9|done].
  - apply (beside_trans _ _ _ A10). rewrite R4. done.
Qed.

End launch.
