(* ===== verification/Programs.v ===== *)
(** * Correctness of [exec.c]

    What loading and launching programs promise to the shell and to system calls. *)

From S2P Require Import Prelude Lists Memory Slab MemoryInit ByteAllocator Task Sched Wait Thread HeapIface HeapLink SchedRep SchedLists ThreadInv SchedOps ThreadNew ThreadExit ThreadReap ThreadLoops SchedHistory SchedView Threads Str Cpio CpioSpec Archive Irq Exec Loader Launch Interrupts.

Open Scope Z_scope.

(** ** What a launch does *)

(** The ids [tids] are those of new user threads that start at [entry]: each has a
    user stack of its own and a trap context that enters user mode there, and they
    queue up behind the threads that were ready. *)
Definition batch_started (s : sched) (entry : Z) (tids : list Z) (s' : sched) : Prop :=
  exists ts, NoDup ts /\ Forall2 (fresh_user (erase s') entry) ts tids /\ (forall t, t ∈ ts -> s.(tasks) !! t = None) /\
    (forall u, u ∉ ts -> (erase s').(tasks) !! u = (erase s).(tasks) !! u) /\
    thread_list s' = rev ts ++ thread_list s /\ run_queue s' = run_queue s ++ ts /\ zombie_list s' = zombie_list s /\
    (forall b y, allocated s.(heap) b y <-> allocated s'.(heap) b y /\ b ∉ ts ≫= thread_blocks s').

(** The launch has left no trace but reclaimed zombies. *)
Definition batch_undone (s s' : sched) : Prop :=
  (forall u, (erase s').(tasks) !! u = if decide (u ∈ zombie_list s) then None else (erase s).(tasks) !! u) /\
  thread_list s' = filter (fun t => t ∉ zombie_list s) (thread_list s) /\ run_queue s' = run_queue s /\ zombie_list s' = [] /\
  (forall b y, allocated s'.(heap) b y <-> allocated s.(heap) b y /\ b ∉ zombie_list s ≫= thread_blocks s) /\
  (forall i y, (erase s).(entries) !! i = Some y -> y.(e_task) <> 0 -> (erase s').(entries) !! i = Some y).

Lemma batch_done s g s' e' g' entry ts tids :
  sched_inv s (erase s) g -> rep s' e' g' -> launched (owned := allocated) entry ts [] tids (erase s) g e' g' -> batch_started s entry tids s'.
Proof.
  intros HI HR' [A1 A2 A3 A4 A5 A6 A7 A8 A9 A10]. pose proof (proj1 HI) as HR. rewrite app_nil_r in *. exists ts.
  rewrite (zombie_list_rep HR), (zombie_list_rep HR'), (thread_list_rep HR), (thread_list_rep HR'), (run_queue_rep HR), (run_queue_rep HR').
  destruct (rep_fields _ _ _ HR') as (_ & _ & F3 & _). rewrite F3, <- (blocks_erase s'), (rp_core _ _ _ HR').
  split_and!; try done. intros t Ht. eapply not_task; [exact HI|]. by apply A5.
Qed.

Lemma batch_back s g s' e' g' :
  sched_inv s (erase s) g -> rep s' e' g' -> rolled_back (owned := allocated) (erase s) g e' g' -> batch_undone s s'.
Proof.
  intros HI HR' [R1 R2 R3 R4 R5 R6 R7]. pose proof (proj1 HI) as HR. unfold batch_undone.
  rewrite (zombie_list_rep HR), (zombie_list_rep HR'), (thread_list_rep HR), (thread_list_rep HR'), (run_queue_rep HR), (run_queue_rep HR').
  destruct (rep_fields _ _ _ HR') as (_ & _ & F3 & _). rewrite F3, <- blocks_erase, (rp_core _ _ _ HR'). done.
Qed.

(** The thread part of [exec_spawn]. *)
Lemma wp_spawn_batch s c g n entry Q :
  sched_inv s (erase s) g -> sched_inv c (erase s) g -> s.(tp) ∉ zombie_list s ->
  (forall tids c', sched_ok c' -> length tids = n -> batch_started s entry tids c' -> Q (0, tids) c') ->
  (forall tids c', sched_ok c' -> batch_undone s c' -> Q (-1, tids) c') ->
  wp (spawn_batch n entry) Q c.
Proof.
  intros HI HIc Htp Hyes Hno. pose proof (proj1 HI) as HR. unfold spawn_batch. apply wp_bind.
  eapply (wp_started c (erase s) g); [exact HIc|]. intros s1 H1. apply wp_bind.
  eapply (wp_spawn_from entry (erase s) g n [] []); [split; [exact H1|apply HI]|apply launched_refl|..].
  - intros s2 e2 g2 ts tids HI2 Hl w ->. apply wp_bind.
    eapply (wp_stop_all s entry (erase s) g HI ts []); [exact HI2|exact Hl|]. intros s3 e3 g3 HI3 Hl3. apply wp_bind.
    eapply wp_reap_zombies; [exact HI3|]. intros s4 e4 g4 HI4 Hre. apply wp_ret, Hno; [by eapply sched_ok_of|].
    eapply batch_back; [exact HI|apply HI4|]. eapply launched_back; [exact HI|exact Hl3| |exact Hre]. by rewrite <- (zombie_list_rep HR).
  - intros s2 e2 g2 ts tids HI2 Hl Hlen. apply wp_ret, Hyes; [by eapply sched_ok_of|done|]. eapply batch_done; [exact HI|apply HI2|exact Hl].
Qed.

(** ** The theorems *)

(** C29: [exec_load_image] succeeds exactly when the name fits the path buffer, the
    archive is well formed and has a regular file [bin/<name>.bin] that is neither
    empty nor larger than the image window, and no other user thread is alive.
    Then the file's contents are at the start of the window and their address and
    size are returned.  Otherwise the results are not written.  In both cases no
    byte outside the path buffer and the copied program changes, and no thread. *)
Theorem exec_load_exact (s : ksys) lo nm target l entry_out size_out :
  load_args s lo nm target l entry_out size_out ->
  exists v s', exec_load_image lo (Some nm) entry_out size_out s = Some (v, s') /\
    loaded_as (accepted s.(k_sched) l target) s lo.(lo_path) l entry_out size_out v s'.
Proof. intros HA. apply wp_run, (wp_exec_load HA). Qed.

(** What [exec_spawn] is asked for, if it can be done. *)
Definition request (s : sched) (count : Z) (l target : list Z) : option entry :=
  if (1 <=? count) && (count <=? EXEC_MAX_INSTANCES) then accepted s l target else None.

(** C30: [exec_spawn] is all or nothing.  A request that cannot be loaded, or for
    no thread or too many, changes no thread.  Otherwise either [count] new user
    threads are queued, with ids, stacks and trap contexts of their own, next to
    the old ones; or, when memory or ids run out on the way, none of them is left:
    every thread created so far is stopped and reclaimed with its stacks, and all
    threads but the zombies, the run queue and the allocated memory are as before. *)
Theorem exec_spawn_all_or_nothing (s : ksys) lo nm target l r count :
  load_args s lo nm target l r.(er_entry) r.(er_size) -> s.(k_sched).(tp) ∉ zombie_list s.(k_sched) -> 0 <= count ->
  exists code tids s', exec_spawn lo (Some nm) count (Some r) s = Some (code, tids, s') /\ sched_ok s'.(k_sched) /\
    match request s.(k_sched) count l target with
    | None => code = -1 /\ same_threads s.(k_sched) s'.(k_sched)
    | Some e =>
        block_at s'.(k_mem).(cm_bytes) (USER_CODE_BASE s.(k_sched).(qemu)) (contents l e) /\
        ((code = 0 /\ Z.of_nat (length tids) = count /\
          batch_started s.(k_sched) (USER_CODE_BASE s.(k_sched).(qemu)) tids s'.(k_sched)) \/
         (code = -1 /\ batch_undone s.(k_sched) s'.(k_sched)))
    end.
Proof.
  intros HA Htp Hc. match goal with |- exists code tids s', ?m s = _ /\ @?P code tids s' =>
    destruct (wp_run m (fun v s' => P v.1 v.2 s') s) as ([code tids] & s' & E & H); [|by exists code, tids, s'] end. cbv beta.
  unfold exec_spawn, request. destruct ((count =? 0) || (EXEC_MAX_INSTANCES <? count)) eqn:Eg.
  { apply wp_ret. split; [apply HA|]. replace ((1 <=? count) && (count <=? EXEC_MAX_INSTANCES)) with false by lia.
    split; [done|]. apply same_threads_refl, HA. }
  replace ((1 <=? count) && (count <=? EXEC_MAX_INSTANCES)) with true by lia.
  apply wp_bind. eapply wp_mono; [apply (wp_exec_load HA)|]. intros v s1 (Hv & _ & c & m & -> & g & HI & HIc).
  destruct (accepted (k_sched s) l target) as [e|].
  - destruct Hv as (-> & Hb & Hlen & He & _). cbn [Z.eqb negb].
    apply wp_bind. eapply wp_var; [exact He|]. apply wp_threads. eapply (wp_spawn_batch (k_sched s)); [exact HI|exact HIc|exact Htp|..].
    + intros tids c' Hok Hl Hst. split; [exact Hok|]. split; [exact Hb|]. left. split; [done|]. split; [cbn [snd]; lia|exact Hst].
    + intros tids c' Hok Hun. split; [exact Hok|]. split; [exact Hb|]. by right.
  - destruct Hv as (-> & _). cbn [Z.eqb negb]. apply wp_ret. split; [by eapply sched_ok_of|]. split; [done|]. by exists g.
Qed.

(** ** A small archive with one program *)

Definition demo_program : member := demo_member (path_of [97]) [19; 0; 0; 0; 111; 0].
Definition demo_initrd : list Z := encode_archive [demo_program].
Definition demo_locals : exec_locals := mkExecLocals 65536 8 16 24 32.
Definition demo_result : exec_result := mkExecResult 40 48.

Definition demo_bytes (base size : Z) : bmem := write_block 4096 demo_initrd (blank 65536 64 (blank base size ∅)).

Lemma demo_bytes_ok base size :
  block_at (demo_bytes base size) 4096 demo_initrd /\ readable (demo_bytes base size) 65536 64 /\ readable (demo_bytes base size) base size.
Proof.
  split; [apply write_block_in|]. split; intros i Hi; apply write_block_dom; [by apply blank_readable|].
  exact (blank_keeps _ _ _ _ _ (blank_readable base size ∅) i Hi).
Qed.

Definition demo_exec (b : bmem) : ksys :=
  set_initrd_start 4096 (set_initrd_end (4096 + Z.of_nat (length demo_initrd))
    (set_k_mem (mkCmem b {[ 8 := 0; 16 := 0; 24 := 0; 40 := 0; 48 := 0 ]} ∅) (set_k_sched demo_started demo_ksys))).

Lemma demo_initrd_length : Z.of_nat (length demo_initrd) = 252.
Proof. vm_compute. reflexivity. Qed.

Lemma demo_load_args b :
  block_at b 4096 demo_initrd -> readable b 65536 64 -> readable b (USER_CODE_BASE (qemu demo_started)) USER_CODE_SIZE ->
  load_args (demo_exec b) demo_locals (CLit [97]) [97] demo_initrd 40 48.
Proof.
  intros Hb Hp Hw. pose proof demo_initrd_length as Hl. constructor; change (initrd_start (demo_exec b)) with 4096; rewrite ?Hl.
  - exact demo_started_ok.
  - split; [lia|exact Hb].
  - done.
  - unfold demo_exec. by rewrite Hl.
  - apply string_literal. by repeat constructor.
  - split; [done|exact Hp].
  - exact Hw.
  - done.
  - intros a Ha Hx. change (lo_path demo_locals) with 65536 in Hx. unfold in_area in *. lia.
  - intros a Ha Hx. assert (Eq : USER_CODE_BASE (qemu (k_sched (demo_exec b))) = 0x83000000) by (vm_compute; reflexivity).
    rewrite Eq in Hx. unfold in_area, USER_CODE_SIZE in *. lia.
  - intros p Hx. change (cm_vars (k_mem (demo_exec b))) with ({[ 8 := 0; 16 := 0; 24 := 0; 40 := 0; 48 := 0 ]} : gmap Z Z).
    repeat (apply elem_of_cons in Hx as [->|Hx]; [split; [done|by eexists]|]). by apply elem_of_nil in Hx.
  - apply (bool_decide_unpack _). vm_compute. done.
Qed.

(** The program of six bytes is loaded. *)
Lemma exec_load_exact_witness :
  exists v s', exec_load_image demo_locals (Some (CLit [97])) 40 48 (demo_exec (demo_bytes (USER_CODE_BASE (qemu demo_started)) USER_CODE_SIZE)) = Some (v, s') /\ v = 0 /\
    block_at s'.(k_mem).(cm_bytes) (USER_CODE_BASE (qemu demo_started)) [19; 0; 0; 0; 111; 0] /\ s'.(k_mem).(cm_vars) !! 48 = Some 6.
Proof.
  destruct (demo_bytes_ok (USER_CODE_BASE (qemu demo_started)) USER_CODE_SIZE) as (B1 & B2 & B3).
  set (b := demo_bytes _ _) in *. clearbody b.
  destruct (exec_load_exact (demo_exec b) demo_locals (CLit [97]) [97] demo_initrd 40 48 (demo_load_args b B1 B2 B3)) as (v & s' & E & H & _).
  exists v, s'. split; [exact E|]. change (k_sched (demo_exec b)) with demo_started in H.
  assert (Ea : accepted demo_started demo_initrd [97] = Some (mkEntry (path_of [97]) 110 120 6 0x81a4)) by (vm_compute; reflexivity).
  rewrite Ea in H. destruct H as (-> & Hb & _ & _ & Hs). split; [reflexivity|]. split; [|exact Hs].
  assert (Ec : contents demo_initrd (mkEntry (path_of [97]) 110 120 6 0x81a4) = [19; 0; 0; 0; 111; 0]) by (vm_compute; reflexivity).
  rewrite Ec in Hb. exact Hb.
Defined.

(** The small heap has no room for a user stack, so the launch is taken back. *)
Lemma exec_spawn_all_or_nothing_witness :
  exists code tids s', exec_spawn demo_locals (Some (CLit [97])) 2 (Some demo_result) (demo_exec (demo_bytes (USER_CODE_BASE (qemu demo_started)) USER_CODE_SIZE)) = Some (code, tids, s') /\ sched_ok s'.(k_sched) /\
    (code = 0 \/ (code = -1 /\ batch_undone demo_started s'.(k_sched))).
Proof.
  destruct (demo_bytes_ok (USER_CODE_BASE (qemu demo_started)) USER_CODE_SIZE) as (B1 & B2 & B3).
  set (b := demo_bytes _ _) in *. clearbody b.
  destruct (exec_spawn_all_or_nothing (demo_exec b) demo_locals (CLit [97]) [97] demo_initrd demo_result 2) as (code & tids & s' & E & Hok & H).
  - exact (demo_load_args b B1 B2 B3).
  - change (k_sched (demo_exec b)) with demo_started. apply (bool_decide_unpack _). vm_compute. exact I.
  - lia.
  - exists code, tids, s'. split; [exact E|]. split; [exact Hok|]. change (k_sched (demo_exec b)) with demo_started in H.
    assert (Ea : request demo_started 2 demo_initrd [97] = Some (mkEntry (path_of [97]) 110 120 6 0x81a4)) by (vm_compute; reflexivity).
    rewrite Ea in H. destruct H as [_ [(Hc & _)|Hu]]; [left; exact Hc|right; exact Hu].
Defined.
