(* ===== verification/Syscall.v ===== *)
(** * System calls ([syscall.c])

    User memory is part of the bytes of [k_mem]; trap contexts are objects of the
    scheduler's state.  [send] and [recv] stand for [uart_send] and [uart_recv],
    which may let other threads run before they return. *)

From S2P Require Import Prelude Lists Memory Slab MemoryInit Task Sched Wait Thread Str Cpio Irq Exec.

Open Scope Z_scope.

Definition SYS_getpid : Z := 0.
Definition SYS_uart_read : Z := 1.
Definition SYS_uart_write : Z := 2.
Definition SYS_exec : Z := 3.
Definition SYS_fork : Z := 4.
Definition SYS_exit : Z := 6.
Definition SYS_stop : Z := 7.
Definition SYS_gettid : Z := 13.
Definition SYS_thread_create : Z := 14.
Definition SYS_thread_exit : Z := 15.

Definition irq_disable : M sched unit := zoom (modify (set_irq_on false)).

(** ** The caller and its memory *)

Definition current_user_task : M sched Z :=
  task ← thread_current;
  if task =? 0 then mret 0
  else
    x ← task_get task;
    if bool_decide (x.(t_kind) <> THREAD_USER) then mret 0 else mret task.

Definition user_range_ok (task addr count : Z) (writable : bool) : M sched bool :=
  if task =? 0 then mret false
  else if count =? 0 then mret true
  else if addr =? 0 then mret false
  else
    let end_ := u64 (addr + count) in
    if end_ <? addr then mret false
    else
      inside ← thread_user_stack_contains task addr end_;
      if inside : bool then mret true
      else
        q ← gets qemu;
        mret (negb writable && (USER_CODE_BASE q <=? addr) && (end_ <=? USER_CODE_LIMIT q)).

Definition sys_getpid : M sched Z :=
  task ← current_user_task;
  if task =? 0 then mret (-1) else x ← task_get task; mret x.(t_tgid).

Definition sys_gettid : M sched Z :=
  task ← current_user_task;
  if negb (task =? 0) then x ← task_get task; mret x.(t_tid) else mret (-1).

(** ** Console input and output *)

Section io.
Context (send : Z -> M ksys unit) (recv : M ksys Z).

(** The loops from index [i] on, [n] characters to go; the result is [i] at the end. *)
Fixpoint write_from (n : nat) (task buf i : Z) : M ksys Z :=
  match n with
  | O => mret i
  | S n' =>
      ok ← zoom (user_range_ok task (u64 (buf + i)) 1 false);
      if negb (ok : bool) then mret i
      else
        c ← bytes (char_at (CPtr (u64 (buf + i))) 0);
        when (c =? 10) (send 13) ;;
        send c ;;
        write_from n' task buf (i + 1)
  end.

Fixpoint read_from (n : nat) (task buf i : Z) : M ksys Z :=
  match n with
  | O => mret i
  | S n' =>
      c ← recv;
      ok ← zoom (user_range_ok task (u64 (buf + i)) 1 true);
      if negb (ok : bool) then mret i
      else
        bytes (store (u64 (buf + i)) c) ;;
        read_from n' task buf (i + 1)
  end.

(** The common frame of the two calls. *)
Definition user_transfer (buf count : Z) (writable : bool) (body : Z -> M ksys Z) : M ksys Z :=
  task ← zoom current_user_task;
  if (task =? 0) || (count <? 0) then mret (-1)
  else
    ok ← zoom (user_range_ok task buf count writable);
    if negb (ok : bool) then mret (-1)
    else
      status ← zoom irq_save;
      zoom irq_enable ;;
      i ← body task;
      let ret := if negb (i =? 0) || (count =? 0) then i else -1 in
      zoom irq_disable ;;
      zoom (irq_restore status) ;;
      mret ret.

Definition sys_uart_write (buf count : Z) : M ksys Z :=
  user_transfer buf count false (fun task => write_from (Z.to_nat count) task buf 0).

Definition sys_uart_read (buf count : Z) : M ksys Z :=
  user_transfer buf count true (fun task => read_from (Z.to_nat count) task buf 0).
End io.

(** ** Replacing the program *)

(** Local variables of [sys_exec]: [name], [entry] and [size]. *)
Record sys_locals := mkSysLocals {
  so_name : Z; (* char name[64] *)
  so_entry : Z;
  so_size : Z;
  so_exec : exec_locals;
}.

(** The copying loop from index [i] on; [None]: the function returns -1. *)
Fixpoint copy_name (n : nat) (task path out i : Z) : M ksys (option bool) :=
  match n with
  | O => mret (Some false)
  | S n' =>
      ok ← zoom (user_range_ok task (u64 (path + i)) 1 false);
      if negb (ok : bool) then mret None
      else
        c ← bytes (char_at (CPtr (u64 (path + i))) 0);
        bytes (store (out + i) c) ;;
        if c =? 0 then mret (Some true) else copy_name n' task path out (i + 1)
  end.

Definition sys_exec (lo : sys_locals) (path tc : Z) : M ksys Z :=
  task ← zoom current_user_task;
  if (task =? 0) || (tc =? 0) || (path =? 0) then mret (-1)
  else
    size ← zoom (thread_user_group_size task);
    if negb (size =? 1) then mret (-1)
    else
      r ← copy_name 63 task path lo.(so_name) 0;
      match r with
      | None => mret (-1)
      | Some terminated =>
          bytes (store (lo.(so_name) + 63) 0) ;;
          first ← bytes (char_at (CPtr lo.(so_name)) 0);
          if negb terminated || (first =? 0) then mret (-1)
          else
            loaded ← exec_load_image lo.(so_exec) (Some (CPtr lo.(so_name))) lo.(so_entry) lo.(so_size);
            if negb (loaded =? 0) then mret (-1)
            else
              entry ← var lo.(so_entry);
              zoom (task_upd task (set_t_user_entry entry)) ;;
              zoom (user_reset_trap_context task) ;;
              zoom (tc_upd tc (set_tc_a0 0)) ;;
              mret 1
      end.

(** ** Fork *)

(** Little-endian access to [n] bytes. *)
Fixpoint load_le (n : nat) (p : Z) : M bmem Z :=
  match n with
  | O => mret 0
  | S n' =>
      c ← char_at (CPtr p) 0;
      rest ← load_le n' (p + 1);
      mret (c + 256 * rest)
  end.
Fixpoint store_le (n : nat) (p v : Z) : M bmem unit :=
  match n with
  | O => mret tt
  | S n' => store p (v mod 256) ;; store_le n' (p + 1) (v / 256)
  end.

(** An address in the parent's stack, its end included, moves to the child's. *)
Definition remap_addr (base top child v : Z) : Z := if (base <=? v) && (v <=? top) then u64 (child + (v - base)) else v.

(** [dst[i] = src[i]]. *)
Definition copy_stack (dst src : Z) : M bmem unit :=
  for_up (Z.to_nat USER_STACK_SIZE) 0 (fun i => c ← char_at (CPtr src) i; store (dst + i) c).

(** The 64-bit words of the child's stack. *)
Definition remap_stack (child base top : Z) : M bmem unit :=
  for_up (Z.to_nat (USER_STACK_SIZE / 8)) 0 (fun k =>
    let slot := child + 8 * k in
    v ← load_le 8 slot;
    when ((base <=? v) && (v <=? top)) (store_le 8 slot (u64 (child + (v - base))))).

(** [REMAP_STACK_FIELD] on the registers it is applied to. *)
Definition remap_regs (f : Z -> Z) (tc : trap_context) : trap_context :=
  mkTrapContext (f tc.(tc_ra)) (f tc.(tc_sp)) tc.(tc_gp) tc.(tc_tp) (f tc.(tc_t0)) (f tc.(tc_t1)) (f tc.(tc_t2))
    (f tc.(tc_s0)) (f tc.(tc_s1)) (f tc.(tc_a0)) (f tc.(tc_a1)) (f tc.(tc_a2)) (f tc.(tc_a3)) (f tc.(tc_a4))
    (f tc.(tc_a5)) (f tc.(tc_a6)) (f tc.(tc_a7)) (f tc.(tc_s2)) (f tc.(tc_s3)) (f tc.(tc_s4)) (f tc.(tc_s5))
    (f tc.(tc_s6)) (f tc.(tc_s7)) (f tc.(tc_s8)) (f tc.(tc_s9)) (f tc.(tc_s10)) (f tc.(tc_s11)) (f tc.(tc_t3))
    (f tc.(tc_t4)) (f tc.(tc_t5)) (f tc.(tc_t6)) tc.(tc_sepc) tc.(tc_sstatus) tc.(tc_scause) tc.(tc_stval).

(** [sys_fork] after the child's control block was made. *)
Definition fork_child (parent_tc child parent_sp : Z) (p : thread) : M sched Z :=
  x ← task_get child;
  src ← tc_get parent_tc;
  tc_upd x.(t_tc) (fun _ => src) ;;
  tc_upd x.(t_tc) (set_tc_tp child) ;;
  tc_upd x.(t_tc) (set_tc_a0 0) ;;
  tc_upd x.(t_tc) (fun c => set_tc_sepc (u64 (c.(tc_sepc) + 4)) c) ;;
  let stack_off := u64 (parent_sp - p.(t_user_stack_base)) in
  tc_upd x.(t_tc) (set_tc_sp (u64 (x.(t_user_stack_base) + stack_off))) ;;
  tc_upd x.(t_tc) (remap_regs (remap_addr p.(t_user_stack_base) p.(t_user_stack_top) x.(t_user_stack_base))) ;;
  thread_publish child ;;
  x ← task_get child;
  mret x.(t_tgid).

Definition sys_fork (parent_tc : Z) : M ksys Z :=
  parent ← zoom current_user_task;
  if (parent =? 0) || (parent_tc =? 0) then mret (-1)
  else
    size ← zoom (thread_user_group_size parent);
    if negb (size =? 1) then mret (-1)
    else
      c ← zoom (tc_get parent_tc);
      let parent_sp := c.(tc_sp) in
      p ← zoom (task_get parent);
      if (parent_sp <? p.(t_user_stack_base)) || (p.(t_user_stack_top) <? parent_sp) ||
         negb (u64 (p.(t_user_stack_top) - p.(t_user_stack_base)) =? USER_STACK_SIZE) then mret (-1)
      else
        child_base ← zoom (zoom (kmalloc USER_STACK_SIZE) : M sched Z);
        if child_base =? 0 then mret (-1)
        else
          let child_top := Z.land (u64 (child_base + USER_STACK_SIZE)) (not64 15) in
          bytes (copy_stack child_base p.(t_user_stack_base)) ;;
          bytes (remap_stack child_base p.(t_user_stack_base) p.(t_user_stack_top)) ;;
          child ← zoom (thread_prepare_user p.(t_user_entry) child_base child_top);
          if child =? 0 then zoom (zoom (kfree child_base) : M sched unit) ;; mret (-1)
          else zoom (fork_child parent_tc child parent_sp p).

Definition sys_stop (pid : Z) : M sched Z :=
  if (pid <=? 0) || (INT32_MAX <? pid) then mret (-1) else thread_stop_process (i32 pid) 0.

(** ** Dispatch *)

(** [finish] is the end of the function, which the calls that end the thread skip. *)
Definition handle_user_ecall (send : Z -> M ksys unit) (recv : M ksys Z) (lo : sys_locals) (tc : Z) : M ksys unit :=
  c ← zoom (tc_get tc);
  let finish (ret : Z) (exec_reset : bool) : M ksys unit :=
    zoom (tc_upd tc (set_tc_a0 (u64 ret))) ;;
    when (negb exec_reset) (zoom (tc_upd tc (fun c => set_tc_sepc (u64 (c.(tc_sepc) + 4)) c))) in
  if c.(tc_a7) =? SYS_getpid then ret ← zoom sys_getpid; finish ret false
  else if c.(tc_a7) =? SYS_gettid then ret ← zoom sys_gettid; finish ret false
  else if c.(tc_a7) =? SYS_thread_create then
    ret ← zoom (thread_create_user c.(tc_a0) c.(tc_a1) c.(tc_a2)); finish ret false
  else if c.(tc_a7) =? SYS_uart_read then ret ← sys_uart_read recv c.(tc_a0) (i64 c.(tc_a1)); finish ret false
  else if c.(tc_a7) =? SYS_uart_write then ret ← sys_uart_write send c.(tc_a0) (i64 c.(tc_a1)); finish ret false
  else if c.(tc_a7) =? SYS_exec then
    ret ← sys_exec lo c.(tc_a0) tc;
    if 0 <=? ret then finish 0 true else finish ret false
  else if c.(tc_a7) =? SYS_fork then ret ← sys_fork tc; finish ret false
  else if c.(tc_a7) =? SYS_thread_exit then zoom (thread_mark_current_zombie (i32 c.(tc_a0)))
  else if c.(tc_a7) =? SYS_exit then
    pid ← zoom sys_getpid;
    ret ← zoom (thread_stop_process (i32 pid) (i32 c.(tc_a0)));
    if ret =? 0 then mret tt else finish ret false
  else if c.(tc_a7) =? SYS_stop then
    ret ← zoom (sys_stop (i64 c.(tc_a0)));
    if ret =? 0 then
      pid ← zoom sys_getpid;
      if i64 c.(tc_a0) =? pid then mret tt else finish ret false
    else finish ret false
  else finish (-1) false.
