(* ===== verification/UserIO.v ===== *)
(** * The console system calls

    The bytes a user process may touch, and the calls that read and write the
    console, proved for any console that keeps the promises of [UserConsole]. *)

From S2P Require Import Prelude Lists Memory Slab ByteAllocator MemoryInit Task Sched Wait Thread HeapIface HeapLink SchedRep SchedLists ThreadInv SchedOps ThreadNew ThreadLoops SchedHistory SchedView Threads Str Cpio Irq Interrupts UartPoll Exec Loader Syscall.

Open Scope Z_scope.

(** * What a system call may touch

    The bytes a user process may read and write, the check that system calls
    make, and the rules for the loops that move characters between user memory and
    the console while other threads may run. *)

(** ** User memory *)

(** The process [tgid] may read ([writable] false) or write the byte at [a]. *)
Definition user_may (c : sched) (tgid : Z) (writable : bool) (a : Z) : Prop :=
  (exists t x, t ∈ thread_list c /\ c.(tasks) !! t = Some x /\ live_member tgid x = true /\ x.(t_user_stack_base) <= a < x.(t_user_stack_top)) \/
  (writable = false /\ USER_CODE_BASE c.(qemu) <= a < USER_CODE_LIMIT c.(qemu)).

(** The range is not empty, does not wrap around and lies in one stack of a living
    thread of the process, or may be read in the window. *)
Definition range_in (c : sched) (tgid : Z) (writable : bool) (addr count : Z) : bool :=
  negb (addr =? 0) && (addr + count <? 2 ^ 64) &&
  (existsb (thread_is (stack_of_group tgid addr (addr + count)) c) (thread_list c) ||
   negb writable && (USER_CODE_BASE c.(qemu) <=? addr) && (addr + count <=? USER_CODE_LIMIT c.(qemu))).

Lemma range_in_may c tgid w addr count a :
  range_in c tgid w addr count = true -> addr <= a < addr + count -> user_may c tgid w a.
Proof.
  unfold range_in. rewrite !andb_true_iff, orb_true_iff, existsb_exists, !andb_true_iff, !negb_true_iff, !Z.leb_le.
  intros (_ & [(t & Ht & Hs)|((-> & H1) & H2)]) Ha; [left|right; split; [done|lia]].
  unfold thread_is in Hs. destruct (tasks c !! t) as [x|] eqn:Hx; [|done]. unfold stack_of_group in Hs.
  rewrite !andb_true_iff, !Z.leb_le in Hs. destruct Hs as ((Hm & H1) & H2). exists t, x. split; [by apply list_elem_of_In|]. split; [done|]. split; [done|lia].
Qed.

Lemma user_may_one c tgid w a : 0 < a < 2 ^ 64 - 1 -> user_may c tgid w a <-> range_in c tgid w a 1 = true.
Proof.
  intros Ha. split; [|intros H; eapply range_in_may; [exact H|lia]]. unfold range_in. intros H.
  rewrite (proj2 (Z.eqb_neq a 0)), (proj2 (Z.ltb_lt (a + 1) _)) by lia. cbn [negb andb]. apply orb_true_iff.
  destruct H as [(t & x & Ht & Hx & Hm & Hb)|(-> & Hb)]; [left|right].
  - apply existsb_exists. exists t. split; [by apply list_elem_of_In|]. unfold thread_is, stack_of_group. rewrite Hx, Hm.
    rewrite (proj2 (Z.leb_le _ a)), (proj2 (Z.leb_le (a + 1) _)) by lia. done.
  - cbn [negb andb]. rewrite (proj2 (Z.leb_le _ a)), (proj2 (Z.leb_le (a + 1) _)) by lia. done.
Qed.

(** ** The check *)

(** The current thread is the user thread [task] of the process [tgid]. *)
Definition user_current (c : sched) (task tgid : Z) : Prop :=
  sched_ok c /\ c.(tp) = task /\ exists x, c.(tasks) !! task = Some x /\ x.(t_kind) = THREAD_USER /\ x.(t_tgid) = tgid.

(** [c] has the threads of [s] on the same lists; the interrupt flag may differ. *)
Definition same_users (s c : sched) : Prop := exists g v, sched_inv s (erase s) g /\ sched_inv c (set_irq v (erase s)) g.

Lemma same_users_of s c : same_threads s c -> same_users s c.
Proof. intros (g & HI & HIc). exists g, (irq (erase s)). by rewrite set_irq_self. Qed.

Section same_users.
Context {s c : sched} (Hs : same_users s c).

Lemma same_users_tasks t : core_thread <$> c.(tasks) !! t = core_thread <$> s.(tasks) !! t.
Proof using Hs.
  destruct Hs as (g & v & HI & HIc). pose proof (rp_core _ _ _ (proj1 HIc)) as E. rewrite <- !lookup_fmap.
  change (core_thread <$> tasks c) with (tasks (erase c)). by rewrite E.
Qed.

Lemma same_users_lists : thread_list c = thread_list s /\ c.(qemu) = s.(qemu) /\ c.(tp) = s.(tp) /\ sched_ok c.
Proof using Hs.
  destruct Hs as (g & v & HI & HIc). pose proof (rp_core _ _ _ (proj1 HIc)) as E.
  rewrite (thread_list_rep (proj1 HI)), (thread_list_rep (proj1 HIc)). split; [done|].
  split; [transitivity (qemu (erase c)); [done|by rewrite E]|]. split; [transitivity (tp (erase c)); [done|by rewrite E]|by eapply sched_ok_of].
Qed.

Lemma same_users_is f u : (forall x, f u (core_thread x) = f u x) -> thread_is f c u = thread_is f s u.
Proof using Hs.
  intros Hf. unfold thread_is. pose proof (same_users_tasks u) as E.
  destruct (tasks c !! u) as [x|], (tasks s !! u) as [y|]; try done. apply (inj Some) in E. by rewrite <- (Hf x), E.
Qed.

Lemma same_users_current task tgid : user_current s task tgid -> user_current c task tgid.
Proof using Hs.
  intros (_ & Htp & x & Hx & Hk & Hg). destruct same_users_lists as (_ & _ & Et & Hok). split; [done|]. split; [by rewrite Et|].
  pose proof (same_users_tasks task) as E. rewrite Hx in E. destruct (tasks c !! task) as [y|]; [|done]. apply (inj Some) in E. exists y.
  change (t_kind y) with (t_kind (core_thread y)). change (t_tgid y) with (t_tgid (core_thread y)). rewrite E. done.
Qed.

Lemma same_users_may tgid w a : user_may c tgid w a <-> user_may s tgid w a.
Proof using Hs.
  destruct same_users_lists as (El & Eq & _). unfold user_may. rewrite El, Eq.
  assert (H : forall t, (exists x, c.(tasks) !! t = Some x /\ live_member tgid x = true /\ x.(t_user_stack_base) <= a < x.(t_user_stack_top)) <->
                        (exists x, s.(tasks) !! t = Some x /\ live_member tgid x = true /\ x.(t_user_stack_base) <= a < x.(t_user_stack_top))); [|naive_solver].
  intros t. pose proof (same_users_tasks t) as E. destruct (tasks c !! t) as [x|], (tasks s !! t) as [y|]; [|done|done|by split; intros (z & ? & _)].
  apply (inj Some) in E.
  assert (live_member tgid x = live_member tgid y /\ t_user_stack_base x = t_user_stack_base y /\ t_user_stack_top x = t_user_stack_top y) as (E1 & E2 & E3).
  { change (live_member tgid x) with (live_member tgid (core_thread x)). change (t_user_stack_base x) with (t_user_stack_base (core_thread x)).
    change (t_user_stack_top x) with (t_user_stack_top (core_thread x)). by rewrite E. }
  split; intros (z & [= <-] & H); eexists; (split; [reflexivity|]); [by rewrite <- E1, <- E2, <- E3|by rewrite E1, E2, E3].
Qed.

Lemma same_users_range tgid w addr count : range_in c tgid w addr count = range_in s tgid w addr count.
Proof using Hs.
  destruct same_users_lists as (El & Eq & _). unfold range_in. rewrite El, Eq. f_equal. f_equal. apply existsb_ext. intros u. by apply same_users_is.
Qed.
End same_users.

Lemma wp_current_user c task tgid Q : user_current c task tgid -> task <> 0 /\ (Q task c -> wp current_user_task Q c).
Proof.
  intros ([g HI] & Htp & x & Hx & Hk & _). pose proof (proj1 HI) as HR. assert (Hne : task <> 0).
  { intros ->. apply (task_rep HR) in Hx. pose proof (proj1 (wi_null _ _ (iv_wait _ _ (proj2 HI)))). congruence. }
  split; [done|]. intros HQ. unfold current_user_task. apply wp_bind, (wp_current HI). change (tp (erase c)) with (tp c). rewrite Htp.
  rewrite (proj2 (Z.eqb_neq task 0) Hne). apply wp_bind. eapply wp_access; [exact Hx|]. rewrite bool_decide_false by tauto. by apply wp_ret.
Qed.

(** [user_range_ok] accepts the empty range and otherwise exactly the ranges
    [range_in]. *)
Lemma wp_range_ok c task tgid addr count w Q :
  user_current c task tgid -> 0 <= addr < 2 ^ 64 -> 0 <= count < 2 ^ 64 ->
  (forall c', same_threads c c' -> Q ((count =? 0) || range_in c tgid w addr count) c') ->
  wp (user_range_ok task addr count w) Q c.
Proof.
  intros Hu Ha Hc HQ. destruct (wp_current_user c task tgid (fun _ _ => True) Hu) as [Hne _]. pose proof Hu as ([g HI] & _ & x & Hx & Hk & Hg).
  pose proof (proj1 HI) as HR. pose proof (same_threads_refl c (proj1 Hu)) as Href.
  unfold user_range_ok. rewrite (proj2 (Z.eqb_neq task 0) Hne). destruct (Z.eqb_spec count 0) as [->|Hc0]; [by apply wp_ret, HQ|]. cbn [orb] in HQ.
  unfold range_in in HQ. destruct (Z.eqb_spec addr 0); cbn [negb andb] in HQ; [by apply wp_ret, HQ|].
  destruct (Z.ltb_spec (addr + count) (2 ^ 64)) as [Hlt|Hge]; cbn [andb] in HQ.
  - rewrite u64_id by lia. rewrite (proj2 (Z.ltb_ge _ addr)) by lia. apply wp_bind.
    apply (wp_stack_contains HI task (core_thread x)); [by apply (task_rep HR)|]. intros c' H'.
    change (t_kind (core_thread x)) with (t_kind x). change (t_tgid (core_thread x)) with (t_tgid x). rewrite Hg, bool_decide_true by done.
    rewrite (proj2 (Z.ltb_lt addr _)) by lia. cbn [andb].
    assert (Eb : existsb (thread_is (stack_of_group tgid addr (addr + count)) (erase c)) (l_all g) =
                 existsb (thread_is (stack_of_group tgid addr (addr + count)) c) (thread_list c)).
    { rewrite (thread_list_rep HR). apply existsb_ext. intros u. by apply thread_is_erase. }
    assert (Hs : same_threads c c') by (exists g; split; [exact HI|split; [exact H'|apply HI]]). rewrite Eb.
    destruct (existsb _ (thread_list c)); [by apply wp_ret, HQ|]. apply wp_bind, wp_gets, wp_ret.
    assert (Eq : qemu c' = qemu c) by (transitivity (qemu (erase c')); [done|by rewrite (rp_core _ _ _ H')]). rewrite Eq. by apply HQ.
  - assert (Hw : u64 (addr + count) < addr).
    { unfold u64. rewrite <- (Z.mod_add _ (-1)) by lia. rewrite Z.mod_small by lia. lia. }
    rewrite (proj2 (Z.ltb_lt _ addr)) by lia. by apply wp_ret, HQ.
Qed.

(** ** A process in a system call *)

(** [task] of the process [tgid] is in the kernel, and what the process may read is
    memory. *)
Record calling (task tgid : Z) (s : ksys) : Prop := {
  cl_user : user_current s.(k_sched) task tgid;
  cl_mem : forall a, 0 < a -> user_may s.(k_sched) tgid false a -> exists c, s.(k_mem).(cm_bytes) !! a = Some c /\ 0 <= c < 256;
}.

Lemma calling_same task tgid s c : calling task tgid s -> same_users s.(k_sched) c -> calling task tgid (set_k_sched c s).
Proof.
  intros [H1 H2] Hs. constructor; cbn [k_sched k_mem set_k_sched]; [by apply (same_users_current Hs)|].
  intros a Ha Hm. apply H2; [done|]. by apply (same_users_may Hs).
Qed.

(** The operations on the interrupt flag. *)
Lemma irq_keeps c Q :
  sched_ok c ->
  (forall b c', same_users c c' -> Q b c') -> wp irq_save Q c.
Proof.
  intros [g HI] HQ. apply (wp_irq_save (rep_of HI)). intros c' H'. apply HQ. exists g, false. split; [exact HI|]. split; [exact H'|apply inv_irq, HI].
Qed.
Lemma irq_restore_keeps b c Q : sched_ok c -> (forall c', same_users c c' -> Q tt c') -> wp (irq_restore b) Q c.
Proof.
  intros [g HI] HQ. apply (wp_irq_restore (rep_of HI)). intros c' H'. apply HQ. eexists g, _. split; [exact HI|]. split; [exact H'|apply inv_irq, HI].
Qed.
Lemma irq_enable_keeps c Q : sched_ok c -> (forall c', same_users c c' -> Q tt c') -> wp irq_enable Q c.
Proof.
  intros [g HI] HQ. apply (wp_irq_enable (rep_of HI)). intros c' H'. apply HQ. eexists g, _. split; [exact HI|]. split; [exact H'|apply inv_irq, HI].
Qed.
Lemma irq_disable_keeps c Q : sched_ok c -> (forall c', same_users c c' -> Q tt c') -> wp irq_disable Q c.
Proof.
  intros Hok HQ. exact (irq_keeps c (fun _ => Q tt) Hok (fun _ => HQ)).
Qed.

(** ** Moving characters *)

(** A condition that holds whatever the scheduler scribbles on. *)
Definition steady (I : ksys -> Prop) : Prop := forall s c, I s -> same_users s.(k_sched) c -> I (set_k_sched c s).

Lemma same_users_refl c : sched_ok c -> same_users c c.
Proof. intros H. by apply same_users_of, same_threads_refl. Qed.

(** [data] of the [n] characters from the index [i] of the buffer on have been
    moved: all of them, or the process may not touch the next byte any more. *)
Definition stopped_at (tgid buf : Z) (w : bool) (n : nat) (i : Z) (data : list Z) (s : ksys) : Prop :=
  length data = n \/ (length data < n)%nat /\ range_in s.(k_sched) tgid w (u64 (buf + (i + Z.of_nat (length data)))) 1 = false.

Lemma stopped_all tgid buf w i s : stopped_at tgid buf w 0 i [] s.
Proof. by left. Qed.

Lemma stopped_here tgid buf w n i s : range_in s.(k_sched) tgid w (u64 (buf + i)) 1 = false -> stopped_at tgid buf w (S n) i [] s.
Proof. intros H. right. split; [cbn; lia|]. cbn [length]. by rewrite Z.add_0_r. Qed.

Lemma stopped_cons tgid buf w n i c data s : stopped_at tgid buf w n (i + 1) data s -> stopped_at tgid buf w (S n) i (c :: data) s.
Proof.
  intros [H|[H1 H2]]; [left; cbn; lia|right]. split; [cbn; lia|]. rewrite <- H2. cbn [length]. do 2 f_equal. lia.
Qed.

Lemma stopped_steady tgid buf w n i data : steady (stopped_at tgid buf w n i data).
Proof. intros s c [H|[H1 H2]] Hs; [by left|right]. split; [done|]. cbn [k_sched set_k_sched]. by rewrite (same_users_range Hs). Qed.

(** The process may touch what it could touch in [c0]. *)
Definition same_ranges (tgid : Z) (c0 : sched) (s : ksys) : Prop := forall w a n, range_in s.(k_sched) tgid w a n = range_in c0 tgid w a n.

Lemma same_ranges_steady tgid c0 : steady (same_ranges tgid c0).
Proof. intros s c H Hs w a n. cbn [k_sched set_k_sched]. by rewrite (same_users_range Hs). Qed.

Section transfer.
Context (task tgid : Z).

(** The frame of the two calls: [I] holds on the way in and [K] on the way out. *)
Lemma wp_transfer (I : ksys -> Prop) (K : Z -> ksys -> Prop) buf count w body Q s :
  (forall s, I s -> calling task tgid s) -> steady I -> (forall i s, K i s -> sched_ok s.(k_sched)) -> (forall i, steady (K i)) ->
  0 <= buf < 2 ^ 64 -> count < 2 ^ 63 -> I s ->
  (forall s', I s' -> count < 0 \/ (count <> 0 /\ range_in s.(k_sched) tgid w buf count = false) -> Q (-1) s') ->
  (forall s', I s' -> 0 <= count -> count = 0 \/ range_in s.(k_sched) tgid w buf count = true -> wp (body task) K s') ->
  (forall i s', K i s' -> 0 <= count -> count = 0 \/ range_in s.(k_sched) tgid w buf count = true -> Q (if negb (i =? 0) || (count =? 0) then i else -1) s') ->
  wp (user_transfer buf count w body) Q s.
Proof.
  intros HI Hst HK HKst Hbuf Hcount H Hbad Hbody Hgood. unfold user_transfer. pose proof (HI _ H) as [Hu _]. apply wp_bind, wp_threads.
  destruct (wp_current_user (k_sched s) task tgid (fun a c => a = task /\ c = k_sched s) Hu) as [Hne Hw].
  eapply wp_mono; [by apply Hw|]. cbv beta. intros ? ? [-> ->]. replace (set_k_sched (k_sched s) s) with s by (by destruct s).
  rewrite (proj2 (Z.eqb_neq task 0) Hne). cbn [orb]. destruct (Z.ltb_spec count 0) as [Hneg|Hpos]; [apply wp_ret, Hbad; [done|by left]|].
  apply wp_bind, wp_threads. eapply wp_range_ok; [exact Hu|done|lia|]. intros c1 Hs1%same_users_of. pose proof (Hst _ _ H Hs1) as H1.
  destruct ((count =? 0) || range_in (k_sched s) tgid w buf count) eqn:Er; cbn [negb].
  2: { apply orb_false_iff in Er as [Er1 Er2]. apply wp_ret, Hbad; [done|]. right. split; [by apply Z.eqb_neq|done]. }
  assert (Hr : count = 0 \/ range_in (k_sched s) tgid w buf count = true) by (apply orb_true_iff in Er as [Er|Er]; [left; lia|by right]).
  apply wp_bind, wp_threads. apply irq_keeps; [apply (HI _ H1)|]. intros b c2 Hs2. pose proof (Hst _ _ H1 Hs2) as H2.
  apply wp_bind, wp_threads. apply irq_enable_keeps; [apply (HI _ H2)|]. intros c3 Hs3. pose proof (Hst _ _ H2 Hs3) as H3.
  apply wp_bind. eapply wp_mono; [apply (Hbody _ H3 Hpos Hr)|]. intros i s4 H4.
  apply wp_bind, wp_threads. apply irq_disable_keeps; [apply (HK _ _ H4)|]. intros c5 Hs5. pose proof (HKst i _ _ H4 Hs5) as H5.
  apply wp_bind, wp_threads. apply irq_restore_keeps; [apply (HK _ _ H5)|]. intros c6 Hs6. apply wp_ret, Hgood; [|done|done]. by apply (HKst i _ _ H5).
Qed.

(** [R l s]: the process is in the call and the characters [l] have been sent;
    [D i c]: [c] may be the [i]-th character of the buffer. *)
Context (send : Z -> M ksys unit) (R : list Z -> ksys -> Prop) (buf : Z) (D : Z -> Z -> Prop).
Context (HR : forall l s, R l s -> calling task tgid s) (Hst : forall l, steady (R l)).
Context (Hsend : forall l s c, R l s -> 0 <= c < 256 -> wp (send c) (fun _ s' => R (l ++ [c]) s') s).
Context (HD : forall l s i c, R l s -> s.(k_mem).(cm_bytes) !! (u64 (buf + i)) = Some c -> D i c).

Lemma wp_write_from n : forall l i Q s, R l s ->
  (forall data s', R (l ++ crlf data) s' -> stopped_at tgid buf false n i data s' ->
     (data = [] -> n = 0%nat \/ range_in s.(k_sched) tgid false (u64 (buf + i)) 1 = false) ->
     (forall k c, data !! k = Some c -> D (i + Z.of_nat k) c) -> Q (i + Z.of_nat (length data)) s') ->
  wp (write_from send n task buf i) Q s.
Proof using HD HR Hsend Hst.
  induction n as [|n IH]; intros l i Q s H HQ; cbn [write_from].
  { apply wp_ret. replace i with (i + Z.of_nat (@length Z [])) by (cbn; lia). apply HQ; [by rewrite app_nil_r|apply stopped_all|by left|done]. }
  pose proof (HR _ _ H) as [Hu Hm]. apply wp_bind, wp_threads.
  eapply wp_range_ok; [exact Hu|apply u64_range|lia|]. intros c1 Hs1%same_users_of. pose proof (Hst _ _ _ H Hs1) as H1. cbn [orb Z.eqb].
  destruct (range_in (k_sched s) tgid false (u64 (buf + i)) 1) eqn:Er; cbn [negb].
  2: { apply wp_ret. replace i with (i + Z.of_nat (@length Z [])) by (cbn; lia). apply HQ; [by rewrite app_nil_r| |by right|done].
       apply stopped_here. cbn [k_sched set_k_sched]. by rewrite (same_users_range Hs1). }
  destruct (Hm (u64 (buf + i))) as (c & Hc & Hb).
  { pose proof (u64_range (buf + i)). unfold range_in in Er. rewrite !andb_true_iff, negb_true_iff, Z.eqb_neq in Er. lia. }
  { eapply range_in_may; [exact Er|lia]. }
  apply wp_bind, wp_bytes. eapply wp_char_at; [cbn; by rewrite Z.add_0_r|].
  match goal with |- wp _ _ ?st => replace st with (set_k_sched c1 s) by (destruct s as [? ? ? ? ? ? ? ? ? ? ? ? ? ? ? ? ? ? ? ? ? ? ? ? []]; done) end.
  assert (Hd : D i c) by (by eapply HD).
  assert (Hnext : forall s', R (l ++ crlf [c]) s' -> wp (write_from send n task buf (i + 1)) Q s').
  { intros s' H'. eapply (IH _ (i + 1)); [exact H'|]. intros data s2 H2 Hstop _ Hdata.
    replace (i + 1 + Z.of_nat (length data)) with (i + Z.of_nat (length (c :: data))) by (cbn [length]; lia). apply HQ.
    - rewrite <- app_assoc in H2. unfold crlf in *. cbn [flat_map] in *. by rewrite app_nil_r in H2.
    - by apply stopped_cons.
    - discriminate.
    - intros [|k] x Hx; [injection Hx as <-; by rewrite Z.add_0_r|]. replace (i + Z.of_nat (S k)) with (i + 1 + Z.of_nat k) by lia. by apply Hdata. }
  apply wp_bind. unfold crlf in Hnext. cbn [flat_map] in Hnext. rewrite app_nil_r in Hnext. destruct (Z.eqb_spec c 10) as [->|Hne]; cbn [when].
  - eapply wp_mono; [apply (Hsend _ _ 13 H1); lia|]. intros [] s2 H2. apply wp_bind. eapply wp_mono; [apply (Hsend _ _ 10 H2); lia|].
    intros [] s3 H3. apply Hnext. by rewrite <- app_assoc in H3.
  - apply wp_ret, wp_bind. eapply wp_mono; [apply (Hsend _ _ c H1 Hb)|]. intros [] s3 H3. by apply Hnext.
Qed.
End transfer.

Section receive.
Context (task tgid : Z).
(** [R r w s]: the characters [r] have been received and [w] stored. *)
Context (recv : M ksys Z) (R : list Z -> list Z -> ksys -> Prop) (buf : Z) (N : nat).
Context (HR : forall r w s, R r w s -> calling task tgid s) (Hst : forall r w, steady (R r w)).
Context (Hrecv : forall r w s, R r w s -> wp recv (fun c s' => 0 <= c < 256 /\ R (r ++ [c]) w s') s).
Context (Hstore : forall r w s c, R r w s -> 0 <= c < 256 -> (length w < N)%nat -> let a := u64 (buf + Z.of_nat (length w)) in
  a <> 0 -> user_may s.(k_sched) tgid true a -> R r (w ++ [c]) (set_k_mem (set_cm_bytes (<[a := c]> s.(k_mem).(cm_bytes)) s.(k_mem)) s)).

Lemma user_may_read c w a : user_may c tgid w a -> user_may c tgid false a.
Proof. intros [H|[-> H]]; [by left|by right]. Qed.

Lemma wp_read_from n : forall l Q s, R l l s -> (length l + n <= N)%nat ->
  (forall data rest s', R (l ++ data ++ rest) (l ++ data) s' -> stopped_at tgid buf true n (Z.of_nat (length l)) data s' ->
     length rest = (if Nat.eqb (length data) n then 0 else 1)%nat -> Q (Z.of_nat (length l) + Z.of_nat (length data)) s') ->
  wp (read_from recv n task buf (Z.of_nat (length l))) Q s.
Proof using HR Hrecv Hst Hstore.
  induction n as [|n IH]; intros l Q s H HN HQ; cbn [read_from].
  { apply wp_ret. replace (Z.of_nat (length l)) with (Z.of_nat (length l) + Z.of_nat (@length Z [])) by (cbn; lia).
    apply (HQ [] []); [by rewrite !app_nil_r|apply stopped_all|done]. }
  apply wp_bind. eapply wp_mono; [apply (Hrecv _ _ _ H)|]. intros c s1 [Hb H1]. pose proof (HR _ _ _ H1) as [Hu Hm].
  apply wp_bind, wp_threads. eapply wp_range_ok; [exact Hu|apply u64_range|lia|]. intros c1 Hs1%same_users_of.
  pose proof (Hst _ _ _ _ H1 Hs1) as H2. cbn [orb Z.eqb]. set (a := u64 (buf + Z.of_nat (length l))) in *.
  destruct (range_in (k_sched s1) tgid true a 1) eqn:Er; cbn [negb].
  2: { apply wp_ret. replace (Z.of_nat (length l)) with (Z.of_nat (length l) + Z.of_nat (@length Z [])) by (cbn; lia).
       apply (HQ [] [c]); [by rewrite app_nil_r| |done]. apply stopped_here. cbn [k_sched set_k_sched]. by rewrite (same_users_range Hs1). }
  assert (Ha0 : a <> 0) by (unfold range_in in Er; rewrite !andb_true_iff, negb_true_iff, Z.eqb_neq in Er; tauto).
  assert (Hmay : user_may (k_sched s1) tgid true a) by (eapply range_in_may; [exact Er|lia]).
  assert (Ha : 0 < a) by (pose proof (u64_range (buf + Z.of_nat (length l))); unfold a in *; lia).
  destruct (Hm a Ha (user_may_read _ _ _ Hmay)) as (old & Hold & _).
  apply wp_bind, wp_bytes, wp_store; [by eexists|]. pose proof (Hstore _ _ _ c H2 Hb ltac:(lia)) as H3. cbv zeta in H3. fold a in H3.
  specialize (H3 Ha0 (proj2 (same_users_may Hs1 _ _ _) Hmay)).
  replace (Z.of_nat (length l) + 1) with (Z.of_nat (length (l ++ [c]))) by (rewrite length_app; cbn; lia).
  apply IH; [exact H3|rewrite length_app; cbn; lia|]. intros data rest s' H' Hlen Hr. rewrite length_app, Nat2Z.inj_add.
  replace (Z.of_nat (length l) + Z.of_nat (length [c]) + Z.of_nat (length data)) with (Z.of_nat (length l) + Z.of_nat (length (c :: data))) by (cbn [length]; lia).
  apply (HQ (c :: data) rest); [by rewrite <- !app_assoc in H'| |done].
  apply stopped_cons. rewrite length_app, Nat2Z.inj_add in Hlen. exact Hlen.
Qed.
End receive.

(** * The operations *)

Definition with_byte (a c : Z) (s : ksys) : ksys := set_k_mem (set_cm_bytes (<[a := c]> s.(k_mem).(cm_bytes)) s.(k_mem)) s.

(** What the system calls rely on when they send and receive a character for the
    thread [task]: the call returns in that thread, other threads may have run and
    exited, but memory is as it was.  [out] and [got] are what has been sent and
    received. *)
Class UserConsole (task tgid : Z) (send : Z -> M ksys unit) (recv : M ksys Z) (good : ksys -> Prop) (out got : ksys -> list Z) : Prop := {
  uc_calling : forall s, good s -> calling task tgid s;
  uc_steady : forall s c, good s -> same_users s.(k_sched) c ->
    good (set_k_sched c s) /\ out (set_k_sched c s) = out s /\ got (set_k_sched c s) = got s;
  uc_store : forall s a c, good s -> 0 <= c < 256 -> user_may s.(k_sched) tgid true a -> a <> 0 ->
    good (with_byte a c s) /\ out (with_byte a c s) = out s /\ got (with_byte a c s) = got s;
  uc_send : forall s c, good s -> 0 <= c < 256 ->
    wp (send c) (fun _ s' => good s' /\ out s' = out s ++ [c] /\ s'.(k_mem) = s.(k_mem)) s;
  uc_recv : forall s, good s ->
    wp recv (fun c s' => good s' /\ 0 <= c < 256 /\ got s' = got s ++ [c] /\ s'.(k_mem) = s.(k_mem)) s;
}.

(** The arguments of a call name a buffer of the process. *)
Definition buffer_ok (c : sched) (tgid : Z) (writable : bool) (buf count : Z) : bool :=
  (0 <=? count) && ((count =? 0) || range_in c tgid writable buf count).

(** The result for [n] characters moved. *)
Definition transferred (n count : Z) : Z := if (n =? 0) && negb (count =? 0) then -1 else n.

Lemma buffer_ok_true c tgid w buf count : buffer_ok c tgid w buf count = true <-> 0 <= count /\ (count = 0 \/ range_in c tgid w buf count = true).
Proof. unfold buffer_ok. rewrite andb_true_iff, orb_true_iff, Z.leb_le, Z.eqb_eq. tauto. Qed.

Lemma buffer_ok_false c tgid w buf count :
  count < 0 \/ (count <> 0 /\ range_in c tgid w buf count = false) -> buffer_ok c tgid w buf count = false.
Proof. unfold buffer_ok. intros [H|[H ->]]; [by rewrite (proj2 (Z.leb_gt 0 count))|]. rewrite (proj2 (Z.eqb_neq count 0) H). apply andb_false_r. Qed.

Lemma buffer_in c tgid w buf count i : buffer_ok c tgid w buf count = true -> 0 <= buf -> 0 <= i < count -> u64 (buf + i) = buf + i /\ user_may c tgid w (buf + i).
Proof.
  intros [_ [->|H]]%buffer_ok_true Hb Hi; [lia|]. split; [|eapply range_in_may; [exact H|lia]]. apply u64_id.
  unfold range_in in H. rewrite !andb_true_iff, Z.ltb_lt in H. lia.
Qed.

Lemma transferred_eq i count : (if negb (i =? 0) || (count =? 0) then i else -1) = transferred i count.
Proof. unfold transferred. by destruct (i =? 0), (count =? 0). Qed.

(** [data] has been moved to or from the buffer: all of it, or the process may not
    touch the next byte in [c'], where the call stopped. *)
Definition moved (c' : sched) (tgid : Z) (w : bool) (buf count : Z) (data : list Z) : Prop :=
  Z.of_nat (length data) = count \/ (Z.of_nat (length data) < count /\ ~ user_may c' tgid w (buf + Z.of_nat (length data))).

(** What the call for output does to the characters [out] sent. *)
Definition user_wrote (out : ksys -> list Z) (tgid buf count : Z) (s : ksys) (ret : Z) (s' : ksys) : Prop :=
  s'.(k_mem) = s.(k_mem) /\
  if buffer_ok s.(k_sched) tgid false buf count then
    exists data, moved s'.(k_sched) tgid false buf count data /\ (0 < count -> data <> []) /\ block_at s.(k_mem).(cm_bytes) buf data /\
      out s' = out s ++ crlf data /\ ret = Z.of_nat (length data)
  else ret = -1 /\ out s' = out s.

(** What the call for input does to the characters [got] received; one that comes
    when the buffer is gone is dropped. *)
Definition user_read (got : ksys -> list Z) (tgid buf count : Z) (s : ksys) (ret : Z) (s' : ksys) : Prop :=
  if buffer_ok s.(k_sched) tgid true buf count then
    exists data rest, moved s'.(k_sched) tgid true buf count data /\ length rest = (if (Z.of_nat (length data) =? count)%Z then 0 else 1)%nat /\
      got s' = got s ++ data ++ rest /\ s'.(k_mem) = set_cm_bytes (write_block buf data s.(k_mem).(cm_bytes)) s.(k_mem) /\
      ret = transferred (Z.of_nat (length data)) count
  else ret = -1 /\ got s' = got s /\ s'.(k_mem) = s.(k_mem).

Lemma moved_stopped s c tgid w buf count data :
  buffer_ok c tgid w buf count = true -> 0 <= buf -> stopped_at tgid buf w (Z.to_nat count) 0 data s -> moved s.(k_sched) tgid w buf count data.
Proof.
  intros Hb Hbuf [H|[H1 H2]]; apply buffer_ok_true in Hb as [Hc Hr]; [left; lia|right]. split; [lia|]. destruct Hr as [->|Hr]; [cbn in H1; lia|].
  unfold range_in in Hr. rewrite !andb_true_iff, negb_true_iff, Z.eqb_neq, Z.ltb_lt in Hr. rewrite Z.add_0_l, u64_id in H2 by lia.
  intros Hm%user_may_one; [congruence|lia].
Qed.

Lemma range_in_first c tgid w buf count : range_in c tgid w buf count = true -> 0 <= buf < 2 ^ 64 -> 0 < count -> range_in c tgid w (u64 (buf + 0)) 1 = true.
Proof.
  intros Hr Hbuf Hc. rewrite Z.add_0_r, u64_id by lia. pose proof (range_in_may _ _ _ _ _ buf Hr ltac:(lia)) as Hm.
  unfold range_in in Hr. rewrite !andb_true_iff, negb_true_iff, Z.eqb_neq, Z.ltb_lt in Hr. apply user_may_one; [lia|done].
Qed.

Section io.
Context {task tgid : Z} {send : Z -> M ksys unit} {recv : M ksys Z} {good : ksys -> Prop} {out got : ksys -> list Z}.
Context `{HC : !UserConsole task tgid send recv good out got}.

(** *** Output *)

Definition wrote (s0 : ksys) (l : list Z) (s : ksys) : Prop := good s /\ out s = out s0 ++ l /\ s.(k_mem) = s0.(k_mem).

Lemma wrote_steady s0 l : steady (wrote s0 l).
Proof using HC. intros s c (H1 & H2 & H3) Hs. destruct (uc_steady _ _ H1 Hs) as (G1 & G2 & _). split; [done|]. split; [by rewrite G2|done]. Qed.

Lemma wp_sys_write s buf count Q :
  good s -> 0 <= buf < 2 ^ 64 -> count < 2 ^ 63 ->
  (forall r s', good s' -> user_wrote out tgid buf count s r s' -> Q r s') -> wp (sys_uart_write send buf count) Q s.
Proof using HC.
  intros Hg Hbuf Hcount HQ. unfold sys_uart_write, user_wrote in *.
  assert (H0 : wrote s [] s) by (unfold wrote; by rewrite app_nil_r).
  set (D := fun i c => s.(k_mem).(cm_bytes) !! (u64 (buf + i)) = Some c).
  apply (wp_transfer task tgid (fun s' => wrote s [] s' /\ same_ranges tgid s.(k_sched) s')
    (fun i s' => exists data, i = Z.of_nat (length data) /\ wrote s (crlf data) s' /\ stopped_at tgid buf false (Z.to_nat count) 0 data s' /\
       (0 < count -> data <> []) /\ forall k c, data !! k = Some c -> D (Z.of_nat k) c)); try done.
  - intros s' ((H & _) & _). by apply uc_calling.
  - intros s' c [H1 H2] Hs. split; [by apply wrote_steady|by apply same_ranges_steady].
  - intros i s' (data & _ & (H & _) & _). apply (cl_user _ _ _ (uc_calling _ H)).
  - intros i s' c (data & Hi & Hw & Hst & Hd) Hs. exists data. split; [done|]. split; [by apply wrote_steady|]. split; [by apply stopped_steady|done].
  - intros s' [(H1 & H2 & H3) _] Hneg. rewrite app_nil_r in H2. apply HQ; [done|]. by rewrite (buffer_ok_false _ _ _ _ _ Hneg).
  - intros s' [Hw Hsame] Hpos Hr. eapply (wp_write_from task tgid send (wrote s) buf D) with (l := []); [..|exact Hw|].
    + intros l s1 (H & _). by apply uc_calling.
    + apply wrote_steady.
    + intros l s1 c (H1 & H2 & H3) Hb. eapply wp_mono; [apply (uc_send _ _ H1 Hb)|]. intros [] s2 (G1 & G2 & G3).
      split; [done|]. split; [by rewrite G2, H2, app_assoc|by rewrite G3].
    + intros l s1 i c (_ & _ & H3) Hc. unfold D. by rewrite <- H3.
    + intros data s1 H1 Hstop Hne Hd. cbn [app] in H1. rewrite Z.add_0_l. exists data. split; [done|]. split; [done|]. split; [done|]. split.
      * intros Hc E. destruct (Hne E) as [H|H]; [lia|]. destruct Hr as [->|Hr]; [lia|]. rewrite Hsame, (range_in_first _ _ _ _ _ Hr Hbuf Hc) in H. done.
      * intros k c Hk. apply (Hd k c Hk).
  - intros i s' (data & -> & (H1 & H2 & H3) & Hstop & Hne & Hd) Hpos Hr.
    assert (Hb : buffer_ok (k_sched s) tgid false buf count = true) by (by apply buffer_ok_true). rewrite Hb in HQ.
    assert (Hlen : Z.of_nat (length data) <= count) by (destruct Hstop as [?|[? _]]; lia).
    assert (Er : (if negb (Z.of_nat (length data) =? 0) || (count =? 0) then Z.of_nat (length data) else -1) = Z.of_nat (length data)).
    { destruct (Z.eqb_spec count 0) as [Ec|Ec]; [by rewrite orb_true_r|]. destruct data; [exfalso; apply Hne; [lia|done]|done]. }
    rewrite Er. apply HQ; [done|]. split; [done|]. exists data. split; [eapply moved_stopped; [exact Hb|lia|done]|]. split; [done|]. split; [|done].
    intros k c Hk. pose proof (lookup_lt_Some _ _ _ Hk). destruct (buffer_in _ _ _ _ _ (Z.of_nat k) Hb) as [<- _]; [lia|lia|]. by apply Hd.
Qed.

(** *** Input *)

Definition read_in (buf : Z) (s0 : ksys) (r w : list Z) (s : ksys) : Prop :=
  good s /\ got s = got s0 ++ r /\ s.(k_mem) = set_cm_bytes (write_block buf w s0.(k_mem).(cm_bytes)) s0.(k_mem).

Lemma read_in_steady buf s0 r w : steady (read_in buf s0 r w).
Proof using HC. intros s c (H1 & H2 & H3) Hs. destruct (uc_steady _ _ H1 Hs) as (G1 & _ & G3). split; [done|]. split; [by rewrite G3|done]. Qed.

Lemma wp_sys_read s buf count Q :
  good s -> 0 <= buf < 2 ^ 64 -> count < 2 ^ 63 ->
  (forall r s', good s' -> user_read got tgid buf count s r s' -> Q r s') -> wp (sys_uart_read recv buf count) Q s.
Proof using HC.
  intros Hg Hbuf Hcount HQ. unfold sys_uart_read, user_read in *.
  assert (H0 : read_in buf s [] [] s) by (unfold read_in; rewrite app_nil_r; split_and!; [done|done|by destruct (k_mem s)]).
  apply (wp_transfer task tgid (read_in buf s [] []) (fun i s' => exists data rest, i = Z.of_nat (length data) /\ read_in buf s (data ++ rest) data s' /\
    stopped_at tgid buf true (Z.to_nat count) 0 data s' /\ length rest = (if Nat.eqb (length data) (Z.to_nat count) then 0 else 1)%nat)); try done.
  - intros s' (H & _). by apply uc_calling.
  - apply read_in_steady.
  - intros i s' (data & rest & _ & (H & _) & _). apply (cl_user _ _ _ (uc_calling _ H)).
  - intros i s' c (data & rest & Hi & Hw & Hst & Hd) Hs. exists data, rest. split; [done|]. split; [by apply read_in_steady|]. split; [by apply stopped_steady|done].
  - intros s' (H1 & H2 & H3) Hneg. rewrite app_nil_r in H2. apply HQ; [done|]. rewrite (buffer_ok_false _ _ _ _ _ Hneg). split; [done|]. split; [done|].
    rewrite H3. by destruct (k_mem s).
  - intros s' Hw Hpos Hr. assert (Hb : buffer_ok (k_sched s) tgid true buf count = true) by (by apply buffer_ok_true).
    change 0 with (Z.of_nat (@length Z [])) at 1.
    eapply (wp_read_from task tgid recv (read_in buf s) buf (Z.to_nat count)); [..|exact Hw|done|].
    + intros r w s1 (H & _). by apply uc_calling.
    + apply read_in_steady.
    + intros r w s1 (H1 & H2 & H3). eapply wp_mono; [apply (uc_recv _ H1)|]. intros c s2 (G1 & G2 & G3 & G4). split; [done|].
      split; [done|]. split; [by rewrite G3, H2, app_assoc|by rewrite G4].
    + intros r w s1 c (H1 & H2 & H3) Hc Hlen a Ha Hm. destruct (uc_store s1 a c H1 Hc Hm Ha) as (G1 & _ & G3).
      fold (with_byte a c s1). split; [done|]. split; [by rewrite G3|]. change (k_mem (with_byte a c s1)) with (set_cm_bytes (<[a := c]> (cm_bytes (k_mem s1))) (k_mem s1)).
      rewrite H3. unfold set_cm_bytes. cbn [cm_bytes cm_vars cm_ctx]. f_equal. rewrite write_block_snoc. f_equal.
      unfold a. destruct (buffer_in _ _ _ _ _ (Z.of_nat (length w)) Hb) as [-> _]; [lia|lia|done].
    + intros data rest s1 H1 Hstop Hr1. exists data, rest. by split.
  - intros i s' (data & rest & -> & (H1 & H2 & H3) & Hstop & Hr1) Hpos Hr. rewrite transferred_eq.
    assert (Hb : buffer_ok (k_sched s) tgid true buf count = true) by (by apply buffer_ok_true). rewrite Hb in HQ.
    apply HQ; [done|]. exists data, rest. split; [eapply moved_stopped; [exact Hb|lia|done]|]. split; [|done]. rewrite Hr1.
    destruct (Nat.eqb_spec (length data) (Z.to_nat count)), (Z.eqb_spec (Z.of_nat (length data)) count); lia.
Qed.
End io.

(** ** The theorem *)

(** C33: the console system calls move characters between the console and memory of
    the calling process, and nothing else.  A buffer is accepted exactly when it
    lies in one stack of a living thread of the process or, for output, in the
    image window, without wrapping around; every byte of it may then be accessed.
    A refused buffer gives -1 and no effect.  For an accepted one all [count]
    characters are moved, unless the next byte has stopped being the process's
    while the call waited, where it ends.  Output: the characters sent are the
    first ones of the buffer, at least one if any was asked for, with a carriage
    return before each line feed; memory is unchanged; the result is their number.
    Input: the characters received are stored at the start of the buffer and no
    other byte changes; when the call ends early, exactly one more has been
    received and is dropped.  The result is the number stored, or -1 when none was
    although some were asked for. *)
Theorem user_io_exact (task tgid : Z) send recv good out got `{!UserConsole task tgid send recv good out got} (s : ksys) (buf count : Z) :
  good s -> 0 <= buf < 2 ^ 64 -> count < 2 ^ 63 ->
  (exists ret s', sys_uart_write send buf count s = Some (ret, s') /\ good s' /\ user_wrote out tgid buf count s ret s') /\
  (exists ret s', sys_uart_read recv buf count s = Some (ret, s') /\ good s' /\ user_read got tgid buf count s ret s') /\
  (forall w a, buffer_ok s.(k_sched) tgid w buf count = true -> buf <= a < buf + count -> user_may s.(k_sched) tgid w a).
Proof.
  intros Hg Hbuf Hcount. split; [|split].
  - apply wp_run. by apply (wp_sys_write s buf count).
  - apply wp_run. by apply (wp_sys_read s buf count).
  - intros w a E Ha. replace a with (buf + (a - buf)) by lia. apply (buffer_in _ _ _ _ _ _ E); lia.
Qed.

(** ** A small system with a user thread *)

(** A user stack of [size] bytes from the heap. *)
Definition with_stack (size : Z) (c : sched) : Z * sched :=
  match (zoom (kmalloc size) : M sched Z) c with Some r => r | None => (0, c) end.

Definition demo_stack_size : Z := 256.
Definition demo_with_stack : Z * sched := with_stack demo_stack_size demo_started.
Definition demo_stack : Z := demo_with_stack.1.

Example demo_stack_at : demo_stack = 32512.
Proof. vm_compute. reflexivity. Qed.

(** A block from the heap can be a user stack. *)
Lemma kmalloc_stack_ok s size a s' :
  sched_ok s -> 0 <= size < 2 ^ 64 -> (zoom (kmalloc size) : M sched Z) s = Some (a, s') -> a <> 0 -> sched_ok s' /\ SchedHistory.stack_ok s' a (a + size).
Proof.
  intros [g HI] Hsz E Ha. pose proof (proj1 HI) as HR. pose proof (iv_mem _ _ (proj2 HI)) as Hm. revert Ha.
  refine (run_wp _ (fun a s' => a <> 0 -> sched_ok s' /\ SchedHistory.stack_ok s' a (a + size)) _ _ _ _ E).
  eapply (wp_heap_kmalloc _ (erase s) g); [exact HR|apply Hm|done|done|].
  intros s1 h a1 z H1 Hg Hz _. assert (HI1 : sched_inv s1 (set_heap h (erase s)) g) by (split; [exact H1|by eapply inv_grown; [apply HI|exact Hg]]).
  split; [by eapply sched_ok_of|]. destruct (rep_fields _ _ _ H1) as (_ & Eb & Eh & _). split.
  - intros t x sl Hx Hb Hsl. apply (task_rep H1) in Hx. rewrite Eb in Hb.
    eapply (grown_fresh_slot (erase s) h a1 z t (core_thread x) sl); [exact Hm|exact Hg|exact Hx|exact Hb|]. by destruct sl.
  - exists z. rewrite Eh. split; [apply Hg; by right|lia].
Qed.

(** A process with such a stack has been created and runs; a trap has just switched
    interrupts off. *)
Definition user_of (size : Z) (c : sched) : sched :=
  after (run_sched_op (op_interrupts false))
    (after (run_sched_op op_yield)
      (after (run_sched_op (op_process_create (USER_CODE_BASE c.(qemu)) (with_stack size c).1 ((with_stack size c).1 + size))) (with_stack size c).2)).

Lemma user_of_ok size c : sched_ok c -> 0 <= size < 2 ^ 64 -> (with_stack size c).1 <> 0 -> sched_ok (user_of size c).
Proof.
  intros Hc Hs Hne. assert (H : sched_ok (with_stack size c).2 /\ SchedHistory.stack_ok (with_stack size c).2 (with_stack size c).1 ((with_stack size c).1 + size)).
  { unfold with_stack in *. destruct ((zoom (kmalloc size) : M sched Z) c) as [[a c']|] eqn:E; [|by destruct Hne]. exact (kmalloc_stack_ok c size a c' Hc Hs E Hne). }
  destruct H as [H1 H2]. unfold user_of. apply op_ok; [|done]. apply op_ok; [|done]. by apply op_ok.
Qed.

Definition demo_user : sched := user_of demo_stack_size demo_started.

Lemma demo_user_ok : sched_ok demo_user.
Proof.
  assert (Hne : (with_stack demo_stack_size demo_started).1 <> 0) by (change (demo_stack <> 0); rewrite demo_stack_at; discriminate).
  apply user_of_ok; [exact demo_started_ok|unfold demo_stack_size; lia|exact Hne].
Qed.

Lemma demo_user_fields : exists x, demo_user.(tasks) !! demo_user.(tp) = Some x /\ x.(t_kind) = THREAD_USER /\ x.(t_tgid) = 1 /\
  (x.(t_user_stack_base), x.(t_user_stack_top)) = (32512, 32768).
Proof. eexists. split; [vm_compute; reflexivity|]. vm_compute. done. Qed.

Definition demo_task : Z := demo_user.(tp).

Lemma demo_user_current : user_current demo_user demo_task 1.
Proof.
  split; [exact demo_user_ok|]. split; [reflexivity|]. destruct demo_user_fields as (x & Hx & Hk & Hg & _). exact (ex_intro _ x (conj Hx (conj Hk Hg))).
Qed.

(** A process of one thread beside the boot thread. *)
Lemma single_may c task boot tgid x a :
  thread_list c = [task; boot] -> c.(tasks) !! task = Some x -> t_kind <$> c.(tasks) !! boot = Some THREAD_KERNEL -> user_may c tgid false a ->
  in_area x.(t_user_stack_base) (x.(t_user_stack_top) - x.(t_user_stack_base)) a \/ in_area (USER_CODE_BASE c.(qemu)) USER_CODE_SIZE a.
Proof.
  intros El Hx Hb [(t & y & Ht & Hy & Hm & Ha)|(_ & Ha)]; [left|by right]. rewrite El in Ht.
  apply elem_of_cons in Ht as [->|Ht%list_elem_of_singleton].
  - rewrite Hx in Hy. apply (inj Some) in Hy. subst y. unfold in_area. lia.
  - subst t. rewrite Hy in Hb. apply (inj Some) in Hb. unfold live_member in Hm. rewrite Hb in Hm. discriminate Hm.
Qed.

(** Its memory is blank. *)
Lemma single_calling c task boot tgid x b s0 :
  user_current c task tgid -> thread_list c = [task; boot] -> c.(tasks) !! task = Some x -> t_kind <$> c.(tasks) !! boot = Some THREAD_KERNEL ->
  (forall a, in_area x.(t_user_stack_base) (x.(t_user_stack_top) - x.(t_user_stack_base)) a \/ in_area (USER_CODE_BASE c.(qemu)) USER_CODE_SIZE a -> b !! a = Some 0) ->
  calling task tgid (set_k_mem (mkCmem b ∅ ∅) (set_k_sched c s0)).
Proof.
  intros Hu El Hx Hb Hz. constructor; [exact Hu|]. intros a _ Hm. exists 0. split; [|lia]. exact (Hz a (single_may _ _ _ _ _ _ El Hx Hb Hm)).
Qed.

Lemma demo_user_lists : thread_list demo_user = [demo_task; 512] /\ t_kind <$> tasks demo_user !! 512 = Some THREAD_KERNEL.
Proof. split; vm_compute; reflexivity. Qed.

Definition demo_user_bytes (base size : Z) : bmem := blank 32512 256 (blank base size ∅).
Definition demo_call (b : bmem) : ksys := set_k_mem (mkCmem b ∅ ∅) (set_k_sched demo_user demo_ksys).

(** Blank memory in two places. *)
Lemma blank_two p n q m a : in_area p n a \/ in_area q m a -> blank p n (blank q m ∅) !! a = Some 0.
Proof.
  intros Ha. destruct (decide (in_area p n a)) as [Hp|Hp]; [by apply blank_at|]. unfold blank at 1. rewrite write_block_out; [apply blank_at; tauto|].
  unfold in_area in *. rewrite length_replicate. lia.
Qed.

Lemma demo_calling base size : base = USER_CODE_BASE (qemu demo_user) -> size = USER_CODE_SIZE -> calling demo_task 1 (demo_call (demo_user_bytes base size)).
Proof.
  intros Eb Es. destruct demo_user_fields as (x & Hx & _ & _ & Ex). injection Ex as E1 E2. destruct demo_user_lists as [El Hb].
  apply (single_calling demo_user demo_task 512 1 x); [exact demo_user_current|exact El|exact Hx|exact Hb|]. intros a Ha. rewrite E1, E2, <- Eb, <- Es in Ha. by apply blank_two.
Qed.

(** A console that takes every character at once and always answers "A". *)
Definition demo_send (c : Z) : M ksys unit := modify (fun s => set_k_uart (set_hw_sent (s.(k_uart).(hw_sent) ++ [c]) s.(k_uart)) s).
Definition demo_recv : M ksys Z := modify (fun s => set_k_uart (set_hw_fifo (s.(k_uart).(hw_fifo) ++ [65]) s.(k_uart)) s) ;; mret 65.

Lemma calling_store task tgid s a c : calling task tgid s -> 0 <= c < 256 -> calling task tgid (with_byte a c s).
Proof.
  intros [H1 H2] Hc. constructor; [exact H1|]. intros b Hb Hm. destruct (H2 b Hb Hm) as (d & Hd & Hr).
  change (exists c0, <[a := c]> (cm_bytes (k_mem s)) !! b = Some c0 /\ 0 <= c0 < 256). rewrite lookup_insert. case_decide; eauto.
Qed.

Lemma calling_uart task tgid s u : calling task tgid s -> calling task tgid (set_k_uart u s).
Proof. intros [H1 H2]. by constructor. Qed.

(** Nobody else runs meanwhile. *)
Definition alone (task tgid : Z) (c0 : sched) (s : ksys) : Prop := calling task tgid s /\ same_ranges tgid c0 s.

#[export] Instance demo_console task tgid c0 :
  UserConsole task tgid demo_send demo_recv (alone task tgid c0) (fun s => s.(k_uart).(hw_sent)) (fun s => s.(k_uart).(hw_fifo)).
Proof.
  constructor.
  - by intros s [H _].
  - intros s c [H1 H2] Hs. split; [|done]. split; [by apply calling_same|by apply same_ranges_steady].
  - intros s a c [H1 H2] Hc _ _. split; [|done]. split; [by apply calling_store|exact H2].
  - intros s c [H1 H2] Hc. apply wp_modify. split; [|done]. split; [by apply calling_uart|exact H2].
  - intros s [H1 H2]. apply wp_bind, wp_modify, wp_ret. split; [|done]. split; [by apply calling_uart|exact H2].
Qed.

(** The ranges of one byte decide what may be touched. *)
Lemma same_ranges_may tgid c0 s w a : same_ranges tgid c0 s -> 0 < a < 2 ^ 64 - 1 -> range_in c0 tgid w a 1 = true -> user_may s.(k_sched) tgid w a.
Proof. intros H Ha Hr. apply user_may_one; [done|]. by rewrite H. Qed.

(** The user thread reads two characters into its stack: both arrive. *)
Lemma user_io_exact_witness :
  exists s', sys_uart_read demo_recv 32600 2 (demo_call (demo_user_bytes (USER_CODE_BASE (qemu demo_user)) USER_CODE_SIZE)) = Some (2, s').
Proof.
  pose proof (demo_calling _ _ eq_refl eq_refl) as Hc. set (b := demo_user_bytes _ _) in *. clearbody b.
  assert (H1 : 0 <= 32600 < 2 ^ 64) by lia. assert (H2 : 2 < 2 ^ 63) by lia.
  assert (Ha : alone demo_task 1 demo_user (demo_call b)) by (split; [exact Hc|]; intros w a n; reflexivity).
  destruct (user_io_exact demo_task 1 demo_send demo_recv _ _ _ (demo_call b) 32600 2 Ha H1 H2) as (_ & (ret & s' & E & [_ Hs] & H) & _).
  exists s'. unfold user_read in H. change (k_sched (demo_call b)) with demo_user in H.
  assert (Eok : buffer_ok demo_user 1 true 32600 2 = true) by (vm_compute; reflexivity). rewrite Eok in H.
  assert (E0 : range_in demo_user 1 true 32600 1 = true) by (vm_compute; reflexivity). assert (E1 : range_in demo_user 1 true 32601 1 = true) by (vm_compute; reflexivity).
  destruct H as (data & rest & Hm & _ & _ & _ & Eret). destruct Hm as [Hl|[Hl Hn]].
  - unfold transferred in Eret. rewrite Hl in Eret. cbn in Eret. subst ret. exact E.
  - exfalso. apply Hn. assert (Hd : length data = 0%nat \/ length data = 1%nat) by lia.
    destruct Hd as [-> | ->]; [apply (same_ranges_may _ _ _ _ (32600 + 0) Hs)|apply (same_ranges_may _ _ _ _ (32600 + 1) Hs)]; [lia|exact E0|lia|exact E1].
Defined.
