(* ===== verification/Fork.v ===== *)
(** * Fork

    The loops of [sys_fork] over stack memory and what a fork creates. *)

From S2P Require Import Prelude Lists Memory Layout BuddyInit Startup Slab SlabHeap ByteAllocator MemoryInit Task Sched Wait Thread HeapIface HeapLink SchedRep SchedLists ThreadInv SchedOps ThreadNew ThreadLoops SchedHistory SchedView Threads Str Cpio Irq Interrupts UartPoll Exec Loader Syscall UserIO.

Open Scope Z_scope.

(** * Copying a user stack

    The two loops of [sys_fork] over stack memory: the copy and the relocation of
    the words that point into the parent's stack. *)

(** ** Little-endian words *)

Definition le_value (l : list Z) : Z := foldr (fun c r => c + 256 * r) 0 l.
Fixpoint le_bytes (n : nat) (v : Z) : list Z :=
  match n with
  | O => []
  | S n' => v mod 256 :: le_bytes n' (v / 256)
  end.

Lemma le_bytes_length n v : length (le_bytes n v) = n.
Proof. revert v. induction n as [|n IH]; intros v; [done|]. cbn. by rewrite IH. Qed.

Lemma le_value_bytes n v : le_value (le_bytes n v) = v mod 256 ^ Z.of_nat n.
Proof.
  revert v. induction n as [|n IH]; intros v; [cbn; by rewrite Z.mod_1_r|]. cbn [le_bytes le_value foldr]. fold (le_value (le_bytes n (v / 256))).
  rewrite IH, Nat2Z.inj_succ, Z.pow_succ_r, Z.rem_mul_r by (try apply Z.pow_nonzero; lia). done.
Qed.

Definition is_byte (c : Z) : Prop := 0 <= c < 256.

Lemma le_value_range l : Forall is_byte l -> 0 <= le_value l < 256 ^ Z.of_nat (length l).
Proof.
  unfold is_byte. induction 1 as [|c l Hc _ IH]; [cbn; lia|]. cbn [le_value foldr length]. fold (le_value l). rewrite Nat2Z.inj_succ, Z.pow_succ_r by lia. nia.
Qed.

Lemma le_bytes_value l : Forall is_byte l -> le_bytes (length l) (le_value l) = l.
Proof.
  unfold is_byte. induction 1 as [|c l Hc _ IH]; [done|]. cbn [le_value foldr length le_bytes]. fold (le_value l). f_equal.
  - rewrite (Z.mul_comm 256), Z.mod_add by lia. by apply Z.mod_small.
  - rewrite (Z.mul_comm 256), Z.div_add, Z.div_small by lia. rewrite Z.add_0_l. exact IH.
Qed.

Lemma wp_load_le l : forall p m Q, block_at m p l -> Q (le_value l) m -> wp (load_le (length l) p) Q m.
Proof.
  induction l as [|c l IH]; intros p m Q Hb HQ; [by apply wp_ret|]. cbn [length load_le]. apply wp_bind.
  apply (wp_char_at _ _ c); [cbn; rewrite <- (Hb 0%nat c eq_refl); f_equal; lia|]. apply wp_bind. apply IH; [|by apply wp_ret].
  intros i x Hx. rewrite <- (Hb (S i) x Hx). f_equal. lia.
Qed.

Lemma wp_store_le n : forall p v m Q, readable m p (Z.of_nat n) -> Q tt (write_block p (le_bytes n v) m) -> wp (store_le n p v) Q m.
Proof.
  induction n as [|n IH]; intros p v m Q Hr HQ; [by apply wp_ret|]. cbn [store_le]. apply wp_bind.
  apply wp_store; [replace p with (p + 0) by lia; apply Hr; lia|]. apply IH; [|done]. intros i Hi.
  rewrite lookup_insert. case_decide; [by eexists|]. replace (p + 1 + i) with (p + (i + 1)) by lia. apply Hr. lia.
Qed.

(** ** Relocation *)

Definition STACK_WORDS : nat := Z.to_nat (USER_STACK_SIZE / 8).

Section remap.
Context (base top child : Z).

(** Eight bytes of the child's stack. *)
Definition remap_chunk (l : list Z) : list Z :=
  let v := le_value l in if (base <=? v) && (v <=? top) then le_bytes 8 (remap_addr base top child v) else l.

(** The first [n] words of a stack. *)
Fixpoint remap_words (n : nat) (l : list Z) : list Z :=
  match n with
  | O => []
  | S n' => remap_chunk (take 8 l) ++ remap_words n' (skipn 8 l)
  end.

Lemma remap_chunk_length l : length l = 8%nat -> length (remap_chunk l) = 8%nat.
Proof. intros H. unfold remap_chunk. cbv zeta. destruct (_ && _); [apply le_bytes_length|done]. Qed.

Lemma remap_words_length n : forall l, (8 * n <= length l)%nat -> length (remap_words n l) = (8 * n)%nat.
Proof.
  induction n as [|n IH]; intros l Hl; [done|]. cbn [remap_words]. rewrite length_app, remap_chunk_length, IH; [lia|rewrite length_drop; lia|].
  rewrite length_take. lia.
Qed.

Lemma remap_words_snoc n : forall l, remap_words (S n) l = remap_words n l ++ remap_chunk (take 8 (skipn (8 * n) l)).
Proof.
  induction n as [|n IH]; intros l; [cbn; by rewrite app_nil_r|]. change (remap_words (S (S n)) l) with (remap_chunk (take 8 l) ++ remap_words (S n) (skipn 8 l)).
  rewrite IH. change (remap_words (S n) l) with (remap_chunk (take 8 l) ++ remap_words n (skipn 8 l)). rewrite <- app_assoc, drop_drop.
  by replace (8 * S n)%nat with (8 + 8 * n)%nat by lia.
Qed.

(** The [k]-th word is the relocated one. *)
Lemma remap_words_at n : forall l k, (8 * n <= length l)%nat -> (k < n)%nat ->
  take 8 (skipn (8 * k) (remap_words n l)) = remap_chunk (take 8 (skipn (8 * k) l)).
Proof.
  induction n as [|n IH]; intros l k Hl Hk; [lia|]. cbn [remap_words].
  assert (Hlen : length (remap_chunk (take 8 l)) = 8%nat) by (apply remap_chunk_length; rewrite length_take; lia).
  destruct k as [|k]; [rewrite Nat.mul_0_r, !drop_0; by rewrite take_app_length'|].
  replace (8 * S k)%nat with (8 + 8 * k)%nat by lia. rewrite <- !drop_drop, (drop_app_length' _ _ 8) by done. apply IH; [rewrite length_drop; lia|lia].
Qed.

Lemma wp_remap_stack m l Q :
  block_at m child l -> length l = (8 * STACK_WORDS)%nat ->
  Q tt (write_block child (remap_words STACK_WORDS l) m) -> wp (remap_stack child base top) Q m.
Proof.
  unfold remap_stack. fold STACK_WORDS. generalize STACK_WORDS. intros N Hb Hl HQ.
  apply (wp_for_up (fun k m' => m' = write_block child (remap_words (Z.to_nat k) l) m)); [done| |].
  2: { intros m' ->. by rewrite Z.add_0_l, Nat2Z.id. }
  intros k m' Hk ->. set (n := Z.to_nat k). assert (Hn : (n < N)%nat) by (unfold n; lia). assert (Ek : k = Z.of_nat n) by (unfold n; lia). clearbody n. subst k.
  set (chunk := take 8 (skipn (8 * n) l)). assert (Hc : length chunk = 8%nat) by (unfold chunk; rewrite length_take, length_drop; lia).
  assert (Hw : length (remap_words n l) = (8 * n)%nat) by (apply remap_words_length; lia).
  set (m' := write_block child (remap_words n l) m).
  assert (Hb' : block_at m' (child + 8 * Z.of_nat n) chunk).
  { replace (child + 8 * Z.of_nat n) with (child + Z.of_nat (8 * n)) by lia. intros i c Hi. pose proof (lookup_lt_Some _ _ _ Hi).
    unfold m'. rewrite write_block_out by lia. by apply (block_sub m child l (8 * n) 8 Hb). }
  assert (Enext : write_block child (remap_words (Z.to_nat (Z.of_nat n + 1)) l) m = write_block (child + 8 * Z.of_nat n) (remap_chunk chunk) m').
  { replace (Z.to_nat (Z.of_nat n + 1)) with (S n) by lia. rewrite remap_words_snoc, write_block_app, Hw. unfold m', chunk. f_equal. lia. }
  rewrite Enext. cbv zeta. apply wp_bind. rewrite <- Hc at 1. apply (wp_load_le chunk); [exact Hb'|].
  unfold remap_chunk. cbv zeta. unfold remap_addr. destruct ((base <=? le_value chunk) && (le_value chunk <=? top)); cbn [when].
  - apply wp_store_le; [|done]. intros i Hi. destruct (lookup_lt_is_Some_2 chunk (Z.to_nat i)) as [c Hx]; [lia|].
    exists c. rewrite <- (Hb' _ _ Hx). f_equal. lia.
  - apply wp_ret. by rewrite write_block_same.
Qed.
End remap.

Lemma wp_copy_stack m dst src l Q :
  block_at m src l -> Z.of_nat (length l) = USER_STACK_SIZE -> readable m dst USER_STACK_SIZE ->
  disjoint_areas dst USER_STACK_SIZE src USER_STACK_SIZE -> Q tt (write_block dst l m) -> wp (copy_stack dst src) Q m.
Proof.
  intros Hs Hl Hr Hd HQ. unfold copy_stack. rewrite <- Hl, Nat2Z.id. apply (wp_store_loop _ dst l m); [rewrite Hl; exact Hr| |done].
  intros i c Q' Hc HQ'. pose proof (lookup_lt_Some _ _ _ Hc). apply wp_bind. eapply (wp_char_at _ _ c).
  { cbn. rewrite write_block_out; [by apply Hs|]. rewrite length_take. intros Hin.
    apply (Hd (src + Z.of_nat i)); unfold in_area; lia. }
  apply wp_store; [apply write_block_dom, Hr; lia|].
  rewrite (take_snoc l i c Hc), write_block_snoc, length_take in HQ'. by rewrite Nat.min_l in HQ' by lia.
Qed.

(** * The operations *)

(** ** The child's control block *)

(** The registers of the child [a] with the user stack at [u] of a parent with the
    control block [p] and the registers [pc]. *)
Definition child_tc (p : thread) (pc : trap_context) (a u : Z) : trap_context :=
  remap_regs (remap_addr p.(t_user_stack_base) p.(t_user_stack_top) u)
    (set_tc_sp (u64 (u + u64 (pc.(tc_sp) - p.(t_user_stack_base)))) (set_tc_sepc (u64 (pc.(tc_sepc) + 4)) (set_tc_a0 0 (set_tc_tp a pc)))).

Definition tc_addr (base : Z) : Z := base + THREAD_STACK_SIZE - TRAP_CONTEXT_ALLOC_SIZE.

Section child.
Context {hok : slabs -> Prop} {owned : slabs -> Z -> Z -> Prop} {static : slabs -> Z -> Prop}.
Context `{HL : !HeapLaws hok owned static}.
Abbreviation inv := (@ThreadInv.inv hok owned static).

Definition forked (p : thread) (pc : trap_context) (e : sched) (h : slabs) (a base u top : Z) : sched :=
  published a (with_tc (tc_addr base) (child_tc p pc a u) (user_created e h a base p.(t_user_entry) u top)).

Lemma wp_fork_child s e g h a base u top ptc pc p Q :
  let e1 := user_created e h a base p.(t_user_entry) u top in
  rep s e1 (no_waits a g) -> inv e1 (no_waits a g) -> e.(tcs) !! ptc = Some pc -> ptc <> tc_addr base ->
  (forall s', rep s' (forked p pc e h a base u top) (publish_lists a (no_waits a g)) ->
     inv (forked p pc e h a base u top) (publish_lists a (no_waits a g)) -> Q e.(next_tid) s') ->
  wp (fork_child ptc a pc.(tc_sp) p) Q s.
Proof.
  intros e1 HR Hi Hpc Hne HQ. set (x := user_thread (next_tid e) base (t_user_entry p) u top).
  assert (Hx : tasks e1 !! a = Some x) by (unfold e1; rewrite user_created_tasks; apply lookup_insert_eq).
  assert (Htc : tcs e1 !! tc_addr base = Some (user_tc a (t_user_entry p) top)) by (unfold e1; rewrite user_created_tcs; apply lookup_insert_eq).
  unfold fork_child. apply wp_bind. eapply (wp_task_get HR); [exact Hx|]. intros y _ Ey.
  assert (t_tc y = tc_addr base /\ t_user_stack_base y = u) as (-> & ->).
  { change (t_tc y) with (t_tc (core_thread y)). change (t_user_stack_base y) with (t_user_stack_base (core_thread y)). by rewrite Ey. }
  apply wp_bind. eapply wp_tc_get; [exact HR|unfold e1; rewrite user_created_tcs, lookup_insert_ne by done; exact Hpc|].
  apply wp_bind. eapply wp_tc_core; [exact HR|exact Htc|]. intros s1 H1. fold (with_tc (tc_addr base) pc e1) in H1.
  do 3 (apply wp_bind; eapply (wp_with_tc _ e1); [exact H1|]; clear dependent s1; intros s1 H1). cbv zeta.
  do 2 (apply wp_bind; eapply (wp_with_tc _ e1); [exact H1|]; clear dependent s1; intros s1 H1).
  set (e2 := with_tc (tc_addr base) (child_tc p pc a u) e1). change (rep s1 e2 (no_waits a g)) in H1.
  assert (Hi2 : inv e2 (no_waits a g)) by (by apply inv_with_tc).
  assert (Hx2 : tasks e2 !! a = Some x) by exact Hx.
  apply wp_bind. eapply wp_publish; [split; [exact H1|exact Hi2]|exact Hx2|done|]. intros s2 H2.
  apply wp_bind. eapply (wp_task_get H2); [apply published_self, Hx2|]. intros y2 _ Ey2.
  assert (t_tgid y2 = next_tid e) as -> by (transitivity (t_tgid (core_thread y2)); [done|by rewrite Ey2]).
  apply wp_ret. apply HQ; [exact H2|]. eapply inv_publish; [split; [exact H1|exact Hi2]|exact Hx2|done|done].
Qed.
End child.

Lemma fork_child_core ptc a sp y p : core_thread y = core_thread p -> fork_child ptc a sp y = fork_child ptc a sp p.
Proof.
  intros E. unfold fork_child. assert (t_user_stack_base y = t_user_stack_base p /\ t_user_stack_top y = t_user_stack_top p) as [-> ->]; [|done].
  change (t_user_stack_base y) with (t_user_stack_base (core_thread y)). change (t_user_stack_top y) with (t_user_stack_top (core_thread y)). by rewrite E.
Qed.

(** ** The whole call *)

(** The block that the heap hands out for a user stack is memory. *)
Definition heap_backed (s : ksys) : Prop :=
  forall a h, kmalloc USER_STACK_SIZE s.(k_sched).(heap) = Some (a, h) -> a <> 0 -> readable s.(k_mem).(cm_bytes) a USER_STACK_SIZE.

(** The current thread is the living user thread [task] with the control block [p]
    and trapped with the registers [pc] at [ptc]. *)
Record fork_args (task tgid ptc : Z) (p : thread) (pc : trap_context) (s : ksys) : Prop := {
  fa_calling : calling task tgid s;
  fa_task : s.(k_sched).(tasks) !! task = Some p;
  fa_live : p.(t_state) <> THREAD_ZOMBIE;
  fa_ptc : p.(t_tc) = ptc /\ s.(k_sched).(tcs) !! ptc = Some pc;
  fa_heap : heap_backed s;
}.

(** The process has one thread, which has a stack of the usual size and has its
    stack pointer in it. *)
Definition may_fork (c : sched) (tgid ptc : Z) (p : thread) (pc : trap_context) : bool :=
  negb (ptc =? 0) &&
  (Z.of_nat (length (filter (fun t => thread_is (fun _ => live_member tgid) c t = true) (thread_list c))) =? 1) &&
  (p.(t_user_stack_base) <=? pc.(tc_sp)) && (pc.(tc_sp) <=? p.(t_user_stack_top)) && (p.(t_user_stack_top) - p.(t_user_stack_base) =? USER_STACK_SIZE).

Lemma may_fork_size c tgid ptc p pc : may_fork c tgid ptc p pc = true -> p.(t_user_stack_top) - p.(t_user_stack_base) = USER_STACK_SIZE.
Proof. unfold may_fork. rewrite !andb_true_iff, !Z.eqb_eq. tauto. Qed.

(** There are an id and memory for a child, which starts at the parent's entry. *)
Definition fork_room (c : sched) (p : thread) : bool := thread_room [USER_STACK_SIZE] c && negb (bad_user_pc c.(qemu) p.(t_user_entry)).

(** Only memory and threads differ. *)
Definition same_rest (s s' : ksys) : Prop := s' = set_k_mem s'.(k_mem) (set_k_sched s'.(k_sched) s).

(** Nothing that was allocated lies in the user stack at [u]. *)
Definition fresh_stack (c : sched) (u : Z) : Prop := forall b y x, allocated c.(heap) b y -> b <= x < b + y -> ~ in_area u USER_STACK_SIZE x.

Lemma readable_block m p n : 0 <= n -> readable m p n -> exists l, Z.of_nat (length l) = n /\ block_at m p l.
Proof.
  intros Hn Hr. exists ((fun i => default 0 (m !! (p + i))) <$> seqZ 0 n). rewrite length_fmap, length_seqZ. split; [lia|].
  intros i c E. rewrite list_lookup_fmap in E. destruct (seqZ 0 n !! i) as [j|] eqn:Ej; [|done]. apply lookup_seqZ in Ej as [-> Hj]. cbn in E.
  destruct (Hr (0 + Z.of_nat i) ltac:(lia)) as [x Hx]. rewrite Hx in E. cbn in E. rewrite <- E, <- Hx. f_equal.
Qed.

Lemma user_top_aligned u : 0 < u -> (16 | u) -> u + USER_STACK_SIZE < 2 ^ 64 -> Z.land (u64 (u + USER_STACK_SIZE)) (not64 15) = u + USER_STACK_SIZE.
Proof.
  unfold USER_STACK_SIZE. intros H1 [k Hk] H2. rewrite u64_id by lia. rewrite land_not64 by lia.
  change 15 with (2 ^ 4 - 1). rewrite land_lnot_mask by lia. change (2 ^ 4) with 16. rewrite Hk.
  replace (k * 16 + 65536) with ((k + 4096) * 16) by lia. rewrite Z.mod_mul by lia. lia.
Qed.

Abbreviation grown := (@ThreadNew.grown slab_ok allocated in_reserved_page).

Section fork.
Context {task tgid ptc : Z} {p : thread} {pc : trap_context} {s : ksys} (HA : fork_args task tgid ptc p pc s).
Context {e : sched} {g : lists} (HI : sched_inv s.(k_sched) e g).
Local Abbreviation pb := p.(t_user_stack_base).
Local Abbreviation pt := p.(t_user_stack_top).

Lemma parent_facts :
  task <> 0 /\ p.(t_kind) = THREAD_USER /\ p.(t_tgid) = tgid /\ task <> e.(boot_idle_thread) /\ e.(tasks) !! task = Some (core_thread p) /\ task ∈ g.(l_all).
Proof using HA HI.
  destruct HA as [[(_ & Etp & x & Hx & Hk & Hg) _] Hp _ _ _]. rewrite Hp in Hx. injection Hx as <-.
  pose proof (task_rep (proj1 HI) _ _ Hp) as Hpe. destruct (cur_task HI) as (y & Hy & _ & Hne). assert (Et : tp e = task) by (by rewrite <- (proj1 (rep_fields _ _ _ (proj1 HI)))). rewrite Et in *.
  split; [done|]. split; [done|]. split; [done|]. split; [|split; [done|]].
  - intros E. rewrite E in Hpe. pose proof (mi_kind _ (iv_mem _ _ (proj2 HI)) _ Hpe) as Hn. change (t_kind p = THREAD_KERNEL) in Hn. congruence.
  - rewrite <- Et. apply (si_cur _ _ (iv_state _ _ (proj2 HI))).
Qed.

Lemma heap_same : heap s.(k_sched) = heap e.
Proof using HI. by destruct (rep_fields _ _ _ (proj1 HI)) as (_ & _ & ? & _). Qed.

(** The parent's stack is memory that it owns. *)
Lemma parent_stack : exists z, allocated s.(k_sched).(heap) pb z /\ pt - pb <= z.
Proof using HA HI.
  destruct parent_facts as (_ & Hk & _ & Hb & Hpe & _).
  destruct (mi_owned _ (iv_mem _ _ (proj2 HI)) task _ sl_ustack pb Hpe Hb) as (z & Hz & Hle); [cbn; by rewrite decide_True|]. exists z. by rewrite heap_same.
Qed.

Lemma parent_bytes n : 0 <= n -> pb + n <= pt -> readable s.(k_mem).(cm_bytes) pb n.
Proof using HA HI.
  intros Hn Hle i Hi. destruct parent_facts as (_ & Hk & Hg & _ & _ & Hin). destruct parent_stack as (z & Hz & _).
  rewrite heap_same in Hz. destruct (hl_shape _ _ _ (mi_heap _ (iv_mem _ _ (proj2 HI))) Hz) as (Hpos & _).
  destruct (cl_mem _ _ _ (fa_calling _ _ _ _ _ _ HA) (pb + i)) as (c & Hc & _); [lia| |by exists c].
  left. exists task, p. split; [by rewrite (thread_list_rep (proj1 HI))|]. split; [apply HA|]. split; [|lia].
  unfold live_member. rewrite !bool_decide_true by (done || apply HA). by rewrite Hg, Z.eqb_refl.
Qed.

(** The new stack is apart from the parent's and from everything else. *)
Lemma child_fresh h u z : grown s.(k_sched).(heap) h u z -> USER_STACK_SIZE <= z -> fresh_stack s.(k_sched) u.
Proof using.
  intros Hg Hz b y x Hb Hx Ha. apply (gr_fresh _ _ _ _ Hg b y x Hb Hx). unfold in_area in Ha. lia.
Qed.

Lemma child_apart u : fresh_stack s.(k_sched) u -> pt - pb = USER_STACK_SIZE -> disjoint_areas u USER_STACK_SIZE pb USER_STACK_SIZE.
Proof using HA HI.
  intros Hf Hs a Ha Hb. destruct parent_stack as (z & Hz & Hle). apply (Hf pb z a Hz); [|done]. unfold in_area in Hb. lia.
Qed.

Lemma backed_block c u c2 : rep c e g -> (zoom (kmalloc USER_STACK_SIZE) : M sched Z) c = Some (u, c2) -> u <> 0 -> readable s.(k_mem).(cm_bytes) u USER_STACK_SIZE.
Proof using HA HI.
  intros Hc E Hu. unfold zoom in E. assert (Eh : view c = heap (k_sched s)) by (rewrite heap_same; by destruct (rep_fields _ _ _ Hc) as (_ & _ & ? & _)).
  rewrite Eh in E. destruct (kmalloc USER_STACK_SIZE (heap (k_sched s))) as [[a h]|] eqn:Ek; [|done]. injection E as -> _.
  by apply (fa_heap _ _ _ _ _ _ HA u h).
Qed.

Lemma tcs_same c e' g' : rep c e' g' -> e'.(tcs) = e.(tcs) -> c.(tcs) = s.(k_sched).(tcs).
Proof using HI.
  intros Hc E. transitivity (tcs e'); [by rewrite <- (rp_core _ _ _ Hc)|]. rewrite E. by rewrite <- (rp_core _ _ _ (proj1 HI)).
Qed.

(** A failed fork: no thread and no allocated byte has changed. *)
Definition fork_failed (s' : ksys) : Prop :=
  sched_ok s'.(k_sched) /\ spawn_failed s.(k_sched) s'.(k_sched) /\ s'.(k_sched).(tcs) = s.(k_sched).(tcs) /\ same_rest s s' /\
  (s'.(k_mem) = s.(k_mem) \/
   exists u, fresh_stack s.(k_sched) u /\ only_in u USER_STACK_SIZE s.(k_mem).(cm_bytes) s'.(k_mem).(cm_bytes) /\
     s'.(k_mem) = set_cm_bytes s'.(k_mem).(cm_bytes) s.(k_mem)).

Lemma failed_is c e' g' : rep c e' g' -> ThreadNew.failed (hok := slab_ok) (owned := allocated) (static := in_reserved_page) e g e' g' -> spawn_failed s.(k_sched) c.
Proof using HI.
  intros Hc Hf. rewrite <- (rp_core _ _ _ (proj1 HI)) in Hf. eapply failed_spec; [|exact Hc|exact Hf]. by rewrite (rp_core _ _ _ (proj1 HI)).
Qed.

Lemma fork_failed_early c : rep c e g -> fork_failed (set_k_sched c s).
Proof using HI.
  intros Hc. split; [apply (sched_ok_of c e g); split; [exact Hc|apply HI]|].
  split; [eapply failed_is; [exact Hc|]; apply failed_refl, HI|]. split; [by apply (tcs_same c e g)|]. split; [reflexivity|by left].
Qed.

(** The bytes of the child's stack after the two loops. *)
Definition forked_bytes (u : Z) (l : list Z) : bmem := write_block u (remap_words pb pt u STACK_WORDS l) (write_block u l s.(k_mem).(cm_bytes)).

Lemma stack_words (l : list Z) : Z.of_nat (length l) = USER_STACK_SIZE -> length l = (8 * STACK_WORDS)%nat.
Proof using. unfold STACK_WORDS, USER_STACK_SIZE. intros H. change (0x10000 / 8) with 0x2000. lia. Qed.

Lemma forked_bytes_only u l : Z.of_nat (length l) = USER_STACK_SIZE -> only_in u USER_STACK_SIZE s.(k_mem).(cm_bytes) (forked_bytes u l).
Proof using.
  intros Hl. eapply only_in_trans; apply only_in_write; try lia. rewrite remap_words_length by (by rewrite (stack_words l Hl)).
  rewrite <- (stack_words l Hl). lia.
Qed.

(** Copy and relocation. *)
Lemma wp_fork_stack {A} c u l (k : M ksys A) Q :
  block_at s.(k_mem).(cm_bytes) pb l -> Z.of_nat (length l) = USER_STACK_SIZE -> readable s.(k_mem).(cm_bytes) u USER_STACK_SIZE ->
  disjoint_areas u USER_STACK_SIZE pb USER_STACK_SIZE ->
  wp k Q (set_k_mem (set_cm_bytes (forked_bytes u l) s.(k_mem)) (set_k_sched c s)) ->
  wp (bytes (copy_stack u pb) ;; bytes (remap_stack u pb pt) ;; k) Q (set_k_sched c s).
Proof using.
  intros Hb Hl Hr Hd HQ. apply wp_bind, wp_bytes. apply (wp_copy_stack _ u pb l); [done..|].
  apply wp_bind, wp_bytes. apply (wp_remap_stack pb pt u _ l); [apply write_block_in|by apply stack_words|].
  revert HQ. unfold forked_bytes. generalize (remap_words pb pt u STACK_WORDS l). intros w HQ. exact HQ.
Qed.

#[local] Opaque forked_bytes.

(** The guards of the code. *)
Lemma may_fork_guards y :
  core_thread y = core_thread p ->
  may_fork s.(k_sched) tgid ptc p pc =
    negb (ptc =? 0) && ((if decide (p.(t_kind) = THREAD_USER) then group_size e g p.(t_tgid) else 0) =? 1) &&
    negb ((pc.(tc_sp) <? y.(t_user_stack_base)) || (y.(t_user_stack_top) <? pc.(tc_sp)) ||
          negb (u64 (y.(t_user_stack_top) - y.(t_user_stack_base)) =? USER_STACK_SIZE)).
Proof using HA HI.
  intros Ey. destruct parent_facts as (_ & Hk & Hg & _). rewrite decide_True by done.
  rewrite <- (rp_core _ _ _ (proj1 HI)), Hg, (group_size_erase _ g) by (rewrite (rp_core _ _ _ (proj1 HI)); apply HI).
  assert (t_user_stack_base y = pb /\ t_user_stack_top y = pt) as (-> & ->).
  { change (t_user_stack_base y) with (t_user_stack_base (core_thread y)). change (t_user_stack_top y) with (t_user_stack_top (core_thread y)). by rewrite Ey. }
  unfold may_fork. rewrite <- !andb_assoc. do 2 f_equal. rewrite !negb_orb, negb_involutive, !Z.ltb_antisym, !negb_involutive, <- andb_assoc.
  destruct (Z.leb_spec pb (tc_sp pc)), (Z.leb_spec (tc_sp pc) pt); try done. cbn [andb]. destruct parent_stack as (z & Hz & Hle). rewrite heap_same in Hz.
  destruct (hl_shape _ _ _ (mi_heap _ (iv_mem _ _ (proj2 HI))) Hz) as (Hpos & _ & H64). by rewrite u64_id by lia.
Qed.

Lemma fork_room_same : fork_room s.(k_sched) p = thread_room [USER_STACK_SIZE] e && negb (bad_user_pc e.(qemu) p.(t_user_entry)).
Proof using HI. unfold fork_room. rewrite <- (rp_core _ _ _ (proj1 HI)). reflexivity. Qed.

(** The parent's stack consists of bytes. *)
Lemma parent_is_bytes l : block_at s.(k_mem).(cm_bytes) pb l -> pb + Z.of_nat (length l) <= pt -> Forall is_byte l.
Proof using HA HI.
  intros Hb Hl. apply Forall_lookup. intros i c Hi. pose proof (lookup_lt_Some _ _ _ Hi). destruct parent_facts as (_ & Hk & Hg & _ & _ & Hin).
  destruct parent_stack as (z & Hz & _). rewrite heap_same in Hz. destruct (hl_shape _ _ _ (mi_heap _ (iv_mem _ _ (proj2 HI))) Hz) as (Hpos & _).
  destruct (cl_mem _ _ _ (fa_calling _ _ _ _ _ _ HA) (pb + Z.of_nat i)) as (c' & Hc & Hr); [lia| |].
  - left. exists task, p. split; [by rewrite (thread_list_rep (proj1 HI))|]. split; [apply HA|]. split; [|lia].
    unfold live_member. rewrite !bool_decide_true by (done || apply HA). by rewrite Hg, Z.eqb_refl.
  - rewrite (Hb i c Hi) in Hc. injection Hc as <-. exact Hr.
Qed.

Lemma wp_sys_fork Q :
  (forall s', fork_failed s' -> may_fork s.(k_sched) tgid ptc p pc && fork_room s.(k_sched) p = false -> Q (-1) s') ->
  (forall s' h0 u zu h a base l, same_rest s s' -> may_fork s.(k_sched) tgid ptc p pc = true -> grown e.(heap) h0 u zu -> USER_STACK_SIZE <= zu ->
     let e0 := set_heap h0 e in let e1 := forked p pc e0 h a base u (u + USER_STACK_SIZE) in
     new_memory (hok := slab_ok) (owned := allocated) (static := in_reserved_page) e0 h a base -> e.(next_tid) <= INT32_MAX ->
     sched_inv s'.(k_sched) e1 (publish_lists a (no_waits a g)) ->
     block_at s.(k_mem).(cm_bytes) pb l -> Z.of_nat (length l) = USER_STACK_SIZE -> s'.(k_mem) = set_cm_bytes (forked_bytes u l) s.(k_mem) -> Q e.(next_tid) s') ->
  wp (sys_fork ptc) Q s.
Proof using HA HI.
  intros Hno Hyes. rewrite fork_room_same in Hno. destruct parent_facts as (Hne & Hk & Hg & Hb & Hpe & Hin). pose proof (iv_mem _ _ (proj2 HI)) as Hm.
  unfold sys_fork. apply wp_bind, wp_threads.
  eapply wp_mono; [by apply (proj2 (wp_current_user _ task tgid (fun a c => a = task /\ c = k_sched s) (cl_user _ _ _ (fa_calling _ _ _ _ _ _ HA))))|].
  cbv beta. intros ? ? [-> ->]. rewrite (proj2 (Z.eqb_neq task 0) Hne). cbn [orb]. destruct (Z.eqb_spec ptc 0) as [E0|Hp0].
  { apply wp_ret, Hno; [apply fork_failed_early, HI|]. rewrite (may_fork_guards p eq_refl), E0. done. }
  apply wp_bind, wp_threads. apply (wp_group_size HI task (core_thread p)); [exact Hpe|]. intros c1 H1.
  change (t_kind (core_thread p)) with (t_kind p). change (t_tgid (core_thread p)) with (t_tgid p).
  change (set_k_sched c1 (set_k_sched (k_sched s) s)) with (set_k_sched c1 s).
  destruct (Z.eqb_spec (if decide (t_kind p = THREAD_USER) then group_size e g (t_tgid p) else 0) 1) as [En|En]; cbn [negb].
  2: { apply wp_ret, Hno; [by apply fork_failed_early|]. rewrite (may_fork_guards p eq_refl), (proj2 (Z.eqb_neq _ _) En), andb_false_r. done. }
  destruct (fa_ptc _ _ _ _ _ _ HA) as [Eptc Hpc].
  apply wp_bind, wp_threads. assert (Etcs : tcs e !! ptc = Some pc) by (by rewrite <- (rp_core _ _ _ (proj1 HI))). eapply (wp_tc_get c1 e g ptc pc); [exact H1|exact Etcs|]. cbv zeta.
  apply wp_bind, wp_threads. eapply (wp_task_get H1); [exact Hpe|]. intros y _ Ey. change (set_k_sched (k_sched (set_k_sched c1 s)) _) with (set_k_sched c1 s).
  destruct ((tc_sp pc <? t_user_stack_base y) || (t_user_stack_top y <? tc_sp pc) || negb (u64 (t_user_stack_top y - t_user_stack_base y) =? USER_STACK_SIZE)) eqn:Ec.
  { apply wp_ret, Hno; [by apply fork_failed_early|]. rewrite (may_fork_guards y Ey), Ec, andb_false_r. done. }
  assert (Hmay : may_fork s.(k_sched) tgid ptc p pc = true) by (rewrite (may_fork_guards y Ey), En, Ec, (proj2 (Z.eqb_neq _ _) Hp0); done). clear Ec En.
  rewrite Hmay in Hno. cbn [andb] in Hno.
  assert (t_user_stack_base y = pb /\ t_user_stack_top y = pt /\ t_user_entry y = t_user_entry p) as (-> & -> & ->).
  { change (t_user_stack_base y) with (t_user_stack_base (core_thread y)). change (t_user_stack_top y) with (t_user_stack_top (core_thread y)).
    change (t_user_entry y) with (t_user_entry (core_thread y)). by rewrite Ey. }
  assert (Hsize : pt - pb = USER_STACK_SIZE) by (unfold may_fork in Hmay; rewrite !andb_true_iff, !Z.eqb_eq in Hmay; tauto).
  apply wp_bind, wp_threads, wp_know. eapply (wp_heap_kmalloc c1 e g); [exact H1|apply Hm|unfold USER_STACK_SIZE; lia|..].
  { intros c2 H2 Ek _. cbn [Z.eqb]. apply wp_ret, Hno; [by apply fork_failed_early|]. unfold thread_room. cbn [app]. by rewrite (room_for_none _ _ _ _ Ek), andb_false_r. }
  intros c2 h0 u zu H2 Hgr Hzu Ek Erun. pose proof (gr_new _ _ _ _ Hgr) as [Hu0 Hu16]. pose proof (grown_pos _ _ _ _ Hgr) as (Hu & _ & Hu64).
  rewrite (proj2 (Z.eqb_neq u 0) Hu0). rewrite user_top_aligned by (unfold USER_STACK_SIZE in *; lia || done).
  assert (Hgr' : grown (k_sched s).(heap) h0 u zu) by (by rewrite heap_same). pose proof (child_fresh _ _ _ Hgr' Hzu) as Hfresh.
  destruct (readable_block s.(k_mem).(cm_bytes) pb USER_STACK_SIZE) as (l & Hl & Hbl); [unfold USER_STACK_SIZE; lia|apply parent_bytes; unfold USER_STACK_SIZE in *; lia|].
  assert (Hru : readable s.(k_mem).(cm_bytes) u USER_STACK_SIZE) by (by eapply backed_block).
  change (set_k_sched c2 (set_k_sched c1 s)) with (set_k_sched c2 s). apply (wp_fork_stack c2 u l); [done..|by apply child_apart|].
  set (e0 := set_heap h0 e) in *. assert (HI0 : sched_inv c2 e0 g) by (split; [done|by eapply inv_grown; [apply HI|]]).
  assert (Hst : SchedHistory.stack_ok e0 u (u + USER_STACK_SIZE)).
  { split; [intros t z sl Hz Htb; by eapply (grown_fresh_slot e)|]. exists zu. split; [apply Hgr; by right|lia]. }
  apply wp_bind, wp_threads. apply (wp_prepare_user c2 e0 g); [exact HI0|exact Hst|..].
  - intros c3 e3 g3 H3 Hf Hroom. cbn [Z.eqb]. apply wp_bind, wp_threads.
    assert (Howned : slab_ok (heap e3) /\ allocated (heap e3) u zu).
    { destruct Hf as ((h & k & -> & [S1 _ S3 _]) & _). split; [done|]. apply S3, Hgr. by right. }
    eapply (wp_heap_kfree c3 e3 g3); [exact H3|apply Howned|apply Howned|]. intros c4 h4 H4 Hsh. apply wp_ret, Hno.
    2: { unfold e0 in Hroom. rewrite (thread_room_stack e h0 u _ Ek Hu0) in Hroom. change (qemu (set_heap h0 e)) with (qemu e) in Hroom.
         destruct (bad_user_pc (qemu e) (t_user_entry p)) eqn:Epc; cbn [negb]; [apply andb_false_r|].
         rewrite (good_user_args _ _ _ _ _ _ Hgr Hzu Epc) in Hroom. cbn [negb andb] in Hroom. by rewrite Hroom. }
    assert (Hf4 : ThreadNew.failed (hok := slab_ok) (owned := allocated) (static := in_reserved_page) e g (set_heap h4 e3) g3) by (eapply failed_free; [apply HI|exact Hgr|exact Hf|exact Hsh]).
    split; [eapply sched_ok_of; split; [exact H4|apply Hf4]|]. split; [eapply failed_is; [exact H4|exact Hf4]|]. split; [eapply tcs_same; [exact H4|]; destruct Hf as ((? & ? & -> & _) & _); reflexivity|]. split; [reflexivity|right].
    exists u. split; [exact Hfresh|]. split; [by apply forked_bytes_only|done].
  - intros c3 a base h _ Hmem Hmax Ha0 H3 Hi3. rewrite (proj2 (Z.eqb_neq a 0) Ha0). apply wp_threads.
    rewrite (fork_child_core _ _ _ y p Ey). eapply (wp_fork_child c3 e0 g h a base u _ ptc pc p); [exact H3|exact Hi3|exact Etcs| |].
    + rewrite <- Eptc. exact (parent_tc_other e0 h a base task (core_thread p) (iv_mem _ _ (proj2 HI0)) Hmem Hpe Hb Hk).
    + intros c4 H4 Hi4. eapply (Hyes _ h0 u zu h a base l); [reflexivity|exact Hmay|exact Hgr|exact Hzu|exact Hmem|exact Hmax|split; [exact H4|exact Hi4]|exact Hbl|exact Hl|reflexivity].
Qed.
End fork.

(** ** The registers of the child *)

Lemma remap_outside base top child v : ~ (base <= v <= top) -> remap_addr base top child v = v.
Proof. intros H. unfold remap_addr. destruct (Z.leb_spec base v), (Z.leb_spec v top); [lia|done..]. Qed.

Lemma remap_inside base top child v : base <= v <= top -> 0 <= child + (v - base) < 2 ^ 64 -> remap_addr base top child v = child + (v - base).
Proof. intros H Hr. unfold remap_addr. rewrite (proj2 (Z.leb_le base v)), (proj2 (Z.leb_le v top)) by lia. by apply u64_id. Qed.

(** A value that is an address of the parent's stack, or its end, moves to the same
    place in the stack at [u]; any other value stays. *)
Definition relocated (p : thread) (u v : Z) : Z :=
  if decide (p.(t_user_stack_base) <= v <= p.(t_user_stack_top)) then u + (v - p.(t_user_stack_base)) else v.

(** Where the child's stack pointer is: at the parent's place, except for a stack
    that touches the parent's with the pointer at the far end, where the address
    in the child's stack is the end of the parent's and is moved a second time. *)
Definition child_stack_pointer (p : thread) (pc : trap_context) (u : Z) : Z :=
  if decide (u = p.(t_user_stack_top) /\ pc.(tc_sp) = p.(t_user_stack_base)) then u + USER_STACK_SIZE
  else if decide (u + USER_STACK_SIZE = p.(t_user_stack_base) /\ pc.(tc_sp) = p.(t_user_stack_top)) then u
  else u + (pc.(tc_sp) - p.(t_user_stack_base)).

(** The registers of the child [a]: the result is 0, it goes on behind the call, its
    own control block is in [tp], and every other register that may hold an address
    of the stack is moved. *)
Record child_registers (p : thread) (pc : trap_context) (a u : Z) (c : trap_context) : Prop := {
  cr_result : c.(tc_a0) = 0 /\ c.(tc_sepc) = u64 (pc.(tc_sepc) + 4) /\ c.(tc_tp) = a;
  cr_sp : c.(tc_sp) = child_stack_pointer p pc u;
  cr_kept : c.(tc_gp) = pc.(tc_gp) /\ c.(tc_sstatus) = pc.(tc_sstatus) /\ c.(tc_scause) = pc.(tc_scause) /\ c.(tc_stval) = pc.(tc_stval);
  cr_ra : c.(tc_ra) = relocated p u pc.(tc_ra);
  cr_temporaries : c.(tc_t0) = relocated p u pc.(tc_t0) /\ c.(tc_t1) = relocated p u pc.(tc_t1) /\ c.(tc_t2) = relocated p u pc.(tc_t2) /\
    c.(tc_t3) = relocated p u pc.(tc_t3) /\ c.(tc_t4) = relocated p u pc.(tc_t4) /\ c.(tc_t5) = relocated p u pc.(tc_t5) /\ c.(tc_t6) = relocated p u pc.(tc_t6);
  cr_arguments : c.(tc_a1) = relocated p u pc.(tc_a1) /\ c.(tc_a2) = relocated p u pc.(tc_a2) /\ c.(tc_a3) = relocated p u pc.(tc_a3) /\
    c.(tc_a4) = relocated p u pc.(tc_a4) /\ c.(tc_a5) = relocated p u pc.(tc_a5) /\ c.(tc_a6) = relocated p u pc.(tc_a6) /\ c.(tc_a7) = relocated p u pc.(tc_a7);
  cr_saved : c.(tc_s0) = relocated p u pc.(tc_s0) /\ c.(tc_s1) = relocated p u pc.(tc_s1) /\ c.(tc_s2) = relocated p u pc.(tc_s2) /\
    c.(tc_s3) = relocated p u pc.(tc_s3) /\ c.(tc_s4) = relocated p u pc.(tc_s4) /\ c.(tc_s5) = relocated p u pc.(tc_s5) /\ c.(tc_s6) = relocated p u pc.(tc_s6) /\
    c.(tc_s7) = relocated p u pc.(tc_s7) /\ c.(tc_s8) = relocated p u pc.(tc_s8) /\ c.(tc_s9) = relocated p u pc.(tc_s9) /\
    c.(tc_s10) = relocated p u pc.(tc_s10) /\ c.(tc_s11) = relocated p u pc.(tc_s11);
}.

Section relocation.
Context (p : thread) (pc : trap_context) (u : Z).
Local Abbreviation pb := p.(t_user_stack_base).
Local Abbreviation pt := p.(t_user_stack_top).
Context (Hsize : pt - pb = USER_STACK_SIZE) (Hu0 : 0 <= u) (Hu64 : u + USER_STACK_SIZE < 2 ^ 64).

Lemma remap_relocated v : remap_addr pb pt u v = relocated p u v.
Proof using Hsize Hu0 Hu64. unfold relocated. case_decide as H; [apply remap_inside; lia|by apply remap_outside]. Qed.

Lemma relocated_range v : 0 <= v < 2 ^ 64 -> 0 <= relocated p u v < 2 ^ 64.
Proof using Hsize Hu0 Hu64. intros Hv. unfold relocated. case_decide; lia. Qed.

Lemma child_sp a :
  pb <= pc.(tc_sp) <= pt -> disjoint_areas u USER_STACK_SIZE pb USER_STACK_SIZE -> (child_tc p pc a u).(tc_sp) = child_stack_pointer p pc u.
Proof using Hsize Hu0 Hu64.
  intros Hsp Hd. change (tc_sp (child_tc p pc a u)) with (remap_addr pb pt u (u64 (u + u64 (tc_sp pc - pb)))).
  unfold USER_STACK_SIZE in *. rewrite (u64_id (tc_sp pc - pb)) by lia. rewrite u64_id by lia. rewrite remap_relocated.
  assert (Hcase : u + 0x10000 <= pb \/ pt <= u).
  { destruct (decide (u + 0x10000 <= pb)) as [?|Hn]; [by left|right]. destruct (decide (pt <= u)) as [?|Hn2]; [done|exfalso].
    apply (Hd (Z.max u pb)); unfold in_area; lia. }
  unfold relocated, child_stack_pointer, USER_STACK_SIZE. repeat case_decide; lia.
Qed.

Lemma child_registers_ok a :
  pb <= pc.(tc_sp) <= pt -> disjoint_areas u USER_STACK_SIZE pb USER_STACK_SIZE -> 0 < pb -> child_registers p pc a u (child_tc p pc a u).
Proof using Hsize Hu0 Hu64.
  intros Hsp Hd Hp. pose proof remap_relocated as Er. constructor; [|by apply child_sp|..].
  - split; [|by split]. change (tc_a0 (child_tc p pc a u)) with (remap_addr pb pt u 0). apply remap_outside. lia.
  - by split_and!.
  - apply Er.
  - split_and!; apply Er.
  - split_and!; apply Er.
  - split_and!; apply Er.
Qed.
End relocation.

(** A child whose stack lies directly below the stack of a parent with an empty
    stack starts with its stack pointer at the bottom of its own stack, not at the
    top: the field [sp], already set to the child's address, is relocated again. *)
Theorem fork_sp_relocated_twice p pc u :
  u + USER_STACK_SIZE = p.(t_user_stack_base) -> pc.(tc_sp) = p.(t_user_stack_top) -> u <> p.(t_user_stack_top) -> child_stack_pointer p pc u = u.
Proof. intros H1 H2 H3. unfold child_stack_pointer. rewrite decide_False by tauto. by rewrite decide_True. Qed.

(** ** The child's stack *)

(** The 64-bit word at [a]. *)
Definition word_at (m : bmem) (a w : Z) : Prop := 0 <= w < 2 ^ 64 /\ block_at m a (le_bytes 8 w).

(** Every word of the stack at [u] is the parent's, relocated. *)
Definition stack_copied (p : thread) (u : Z) (m m' : bmem) : Prop :=
  forall k, 0 <= k < USER_STACK_SIZE / 8 ->
    exists w, word_at m (p.(t_user_stack_base) + 8 * k) w /\ word_at m' (u + 8 * k) (relocated p u w).

Lemma forked_words {p u l} m m' :
  p.(t_user_stack_top) - p.(t_user_stack_base) = USER_STACK_SIZE -> 0 <= u -> u + USER_STACK_SIZE < 2 ^ 64 ->
  Forall is_byte l -> Z.of_nat (length l) = USER_STACK_SIZE -> block_at m p.(t_user_stack_base) l ->
  block_at m' u (remap_words p.(t_user_stack_base) p.(t_user_stack_top) u STACK_WORDS l) -> stack_copied p u m m'.
Proof.
  intros Hs Hu0 Hu Hl Hlen Hb Hb' k Hk. pose proof (stack_words l Hlen) as Hw. revert Hb' Hw. change (USER_STACK_SIZE / 8) with 8192 in Hk.
  assert (HN : (Z.to_nat k < STACK_WORDS)%nat) by (unfold STACK_WORDS, USER_STACK_SIZE; change (0x10000 / 8) with 8192; lia). revert HN.
  generalize STACK_WORDS. intros N HN Hb' Hw. set (n := Z.to_nat k) in *. set (chunk := take 8 (skipn (8 * n) l)).
  assert (Hc : length chunk = 8%nat) by (unfold chunk; rewrite length_take, length_drop; lia).
  assert (Hcb : Forall is_byte chunk) by (apply Forall_take, Forall_drop, Hl).
  pose proof (le_value_range chunk Hcb) as Hr. rewrite Hc in Hr. change (256 ^ Z.of_nat 8) with (2 ^ 64) in Hr.
  pose proof (le_bytes_value chunk Hcb) as Ev. rewrite Hc in Ev. exists (le_value chunk). split; (split; [try done; by apply relocated_range|]).
  - rewrite Ev. replace (8 * k) with (Z.of_nat (8 * n)) by lia. apply (block_sub m _ l (8 * n) 8 Hb).
  - assert (E : le_bytes 8 (relocated p u (le_value chunk)) = remap_chunk (t_user_stack_base p) (t_user_stack_top p) u chunk).
    { unfold remap_chunk. cbv zeta. rewrite (remap_relocated p u Hs Hu0 Hu). unfold relocated.
      destruct (Z.leb_spec (t_user_stack_base p) (le_value chunk)), (Z.leb_spec (le_value chunk) (t_user_stack_top p)); cbn [andb];
        first [by rewrite decide_True by lia|by rewrite decide_False by lia]. }
    rewrite E. unfold chunk. rewrite <- (remap_words_at _ _ _ N) by lia. replace (8 * k) with (Z.of_nat (8 * n)) by lia.
    apply (block_sub m' u _ (8 * n) 8 Hb').
Qed.

(** ** The theorem *)

(** The control block and the registers of the child; no other registers change. *)
Definition child_block (p : thread) (pc : trap_context) (r u : Z) (tcs0 tcs' : gmap Z trap_context) (a : Z) (x : thread) : Prop :=
  x.(t_kind) = THREAD_USER /\ x.(t_tgid) = r /\ x.(t_user_entry) = p.(t_user_entry) /\
  x.(t_user_stack_base) = u /\ x.(t_user_stack_top) = u + USER_STACK_SIZE /\
  exists c, (forall q, tcs' !! q = if decide (q = x.(t_tc)) then Some c else tcs0 !! q) /\ child_registers p pc a u c.

Lemma forked_spawned {task tgid ptc p pc s e g} (HA : fork_args task tgid ptc p pc s) (HI : sched_inv s.(k_sched) e g) h0 u zu h a base c :
  may_fork s.(k_sched) tgid ptc p pc = true -> grown e.(heap) h0 u zu -> USER_STACK_SIZE <= zu ->
  new_memory (hok := slab_ok) (owned := allocated) (static := in_reserved_page) (set_heap h0 e) h a base -> e.(next_tid) <= INT32_MAX ->
  rep c (forked p pc (set_heap h0 e) h a base u (u + USER_STACK_SIZE)) (publish_lists a (no_waits a g)) ->
  spawned s.(k_sched) e.(next_tid) c (child_block p pc e.(next_tid) u s.(k_sched).(tcs) c.(tcs)).
Proof.
  intros Hmay Hg Hzu Hm Hmax Hc. pose proof (rp_core _ _ _ (proj1 HI)) as Ee. pose proof (heap_same HI) as Eh.
  assert (En : next_tid (k_sched s) = next_tid e) by (by destruct (rep_fields _ _ _ (proj1 HI)) as (_ & _ & _ & _ & ? & _)). rewrite <- En in *.
  assert (Hna : tasks e !! a = None).
  { destruct Hm as (h1 & za & zb & Hg1 & _). eapply (grown_not_task (set_heap h0 e)); [|exact Hg1]. by eapply inv_grown; [apply HI|exact Hg]. }
  assert (Hsub : forall b y, allocated (heap (k_sched s)) b y -> allocated h0 b y) by (intros b y Hy; rewrite Eh in Hy; by apply (grown_fresh _ _ _ _ Hg)).
  assert (Hfresh : fresh_stack (k_sched s) u) by (eapply (child_fresh (s := s)); [rewrite Eh; exact Hg|exact Hzu]).
  set (x := user_thread (next_tid (k_sched s)) base (t_user_entry p) u (u + USER_STACK_SIZE)).
  assert (Et : tasks (forked p pc (set_heap h0 e) h a base u (u + USER_STACK_SIZE)) = <[a := set_t_state THREAD_RUNNABLE x]> (tasks e)).
  { apply published_tasks. rewrite with_tc_tasks, user_created_tasks. unfold x. by rewrite En. }
  assert (Etc : forall q, tcs c !! q = if decide (q = t_tc x) then Some (child_tc p pc a u) else tcs (k_sched s) !! q).
  { intros q. assert (E : tcs c = <[t_tc x := child_tc p pc a u]> (<[t_tc x := user_tc a (t_user_entry p) (u + USER_STACK_SIZE)]> (tcs e)))
      by (transitivity (tcs (forked p pc (set_heap h0 e) h a base u (u + USER_STACK_SIZE))); [by rewrite <- (rp_core _ _ _ Hc)|reflexivity]).
    assert (E' : tcs (k_sched s) = tcs e) by (by rewrite <- Ee). rewrite E, E'. case_decide as Hq; [rewrite Hq; apply lookup_insert_eq|]. by rewrite !lookup_insert_ne. }
  rewrite <- Ee in HI, Hm, Hna, Et, Hc.
  eapply (spawned_intro (k_sched s) g c _ a x h0 h base); [exact HI|exact Hc|exact Hmax|exact Hsub|exact Hm|exact Hna|exact Et|reflexivity|reflexivity|reflexivity|].
  split; [reflexivity|]. split; [reflexivity|]. split; [reflexivity|]. split; [reflexivity|]. split; [reflexivity|].
  exists (child_tc p pc a u). assert (Hst : forall y, t_tc (set_t_state THREAD_RUNNABLE y) = t_tc y) by done. rewrite Hst. split; [exact Etc|]. unfold may_fork in Hmay. rewrite !andb_true_iff, !Z.leb_le, !Z.eqb_eq in Hmay. destruct Hmay as ((((_ & _) & M1) & M2) & M3).
  pose proof (grown_pos _ _ _ _ Hg) as (Hu & _ & Hu64). destruct (parent_stack HA HI) as (z & Hz & _).
  destruct (hl_shape _ _ _ (gr_ok _ _ _ _ Hg) (Hsub _ _ Hz)) as (Hp & _).
  apply child_registers_ok; [done|lia|lia|done|by apply (child_apart HA HI)|done].
Qed.

(** What a fork does. *)
Definition fork_done (p : thread) (pc : trap_context) (s : ksys) (r : Z) (s' : ksys) : Prop :=
  same_rest s s' /\ exists u,
    fresh_stack s.(k_sched) u /\ stack_copied p u s.(k_mem).(cm_bytes) s'.(k_mem).(cm_bytes) /\
    only_in u USER_STACK_SIZE s.(k_mem).(cm_bytes) s'.(k_mem).(cm_bytes) /\ s'.(k_mem) = set_cm_bytes s'.(k_mem).(cm_bytes) s.(k_mem) /\
    spawned s.(k_sched) r s'.(k_sched) (child_block p pc r u s.(k_sched).(tcs) s'.(k_sched).(tcs)).

(** The two ways a fork can end. *)
Definition fork_outcome (tgid ptc : Z) (p : thread) (pc : trap_context) (s : ksys) (r : Z) (s' : ksys) : Prop :=
  (r = -1 /\ fork_failed (s := s) s' /\ may_fork s.(k_sched) tgid ptc p pc && fork_room s.(k_sched) p = false) \/
  (may_fork s.(k_sched) tgid ptc p pc = true /\ fork_done p pc s r s').

Lemma wp_fork {task tgid ptc p pc s} (HA : fork_args task tgid ptc p pc s) Q :
  (forall r s', sched_ok s'.(k_sched) -> s'.(k_sched).(tcs) !! ptc = Some pc -> fork_outcome tgid ptc p pc s r s' -> Q r s') -> wp (sys_fork ptc) Q s.
Proof.
  intros HQ. destruct (cl_user _ _ _ (fa_calling _ _ _ _ _ _ HA)) as ([g HI] & _). destruct (fa_ptc _ _ _ _ _ _ HA) as [Eptc Hpc].
  revert HI. generalize (erase (k_sched s)). intros e HI. apply (wp_sys_fork HA HI).
  - intros s' Hf Hroom. apply HQ; [apply Hf| |by left]. by rewrite (proj1 (proj2 (proj2 Hf))).
  - intros s' h0 u zu h a base l Hrest Hmay Hg Hzu e0 e1 Hm Hmax HI' Hb Hl Em.
    pose proof (forked_spawned HA HI h0 u zu h a base _ Hmay Hg Hzu Hm Hmax (proj1 HI')) as Hsp.
    pose proof (may_fork_size _ _ _ _ _ Hmay) as M3. pose proof (grown_pos _ _ _ _ Hg) as (Hu & _ & Hu64). apply HQ; [by eapply sched_ok_of| |right; split; [exact Hmay|]].
    + assert (Hne : ptc <> tc_addr base).
      { rewrite <- Eptc. destruct (parent_facts HA HI) as (_ & Hk & _ & Hpb & Hpe & _).
        pose proof (inv_grown _ _ _ _ _ (proj2 HI) Hg) as Hi0. exact (parent_tc_other e0 h a base task (core_thread p) (iv_mem _ _ Hi0) Hm Hpe Hpb Hk). }
      assert (E : tcs (k_sched s') = tcs (erase (k_sched s'))) by done. rewrite E, (rp_core _ _ _ (proj1 HI')).
      unfold e1, forked, published, with_tc, upd_task. cbn [tcs set_tasks set_tcs]. rewrite lookup_insert_ne by done.
      rewrite user_created_tcs, lookup_insert_ne by done. change (tcs e0) with (tcs e). by rewrite <- (rp_core _ _ _ (proj1 HI)).
    + split; [exact Hrest|]. exists u. rewrite <- (heap_same HI) in Hg. split; [exact (child_fresh (s := s) _ _ _ Hg Hzu)|].
      assert (Hu0 : 0 <= u) by lia. assert (Hu1 : u + USER_STACK_SIZE < 2 ^ 64) by lia. assert (Hend : t_user_stack_base p + Z.of_nat (length l) <= t_user_stack_top p) by lia.
      pose proof (parent_is_bytes HA HI l Hb Hend) as Hbytes. pose proof (forked_bytes_only (p := p) (s := s) u l Hl) as Ho.
      pose proof (forked_words _ _ M3 Hu0 Hu1 Hbytes Hl Hb (write_block_in _ u (write_block u l s.(k_mem).(cm_bytes)))) as Hw.
      fold (forked_bytes (p := p) (s := s) u l) in Hw. rewrite Em. revert Ho Hw. generalize (forked_bytes (p := p) (s := s) u l). intros b Ho Hw.
      exact (conj Hw (conj Ho (conj eq_refl Hsp))).
Qed.

(** C32: [sys_fork] creates exactly one new process or nothing.  It fails only if
    the process has more than one thread, its stack pointer is outside its stack or
    the stack has another size, or an id or memory is missing, and then every thread
    and all allocated memory are as before.  Otherwise its stack is fresh memory in
    which each 64-bit word is the parent's, moved if it is an address of the
    parent's stack; its registers are written out one by one: 0 as the result, the
    program counter behind the call, its own [tp], the stack pointer at the
    parent's place (and where exactly, when the two stacks touch), every other
    general register moved likewise, and [gp] and the status registers as they
    were; it is queued for its first turn with a new id, which is the result.  No
    byte outside the new stack, no other thread and no other register changes. *)
Theorem fork_exact (task tgid ptc : Z) (p : thread) (pc : trap_context) (s : ksys) :
  fork_args task tgid ptc p pc s ->
  exists r s', sys_fork ptc s = Some (r, s') /\ sched_ok s'.(k_sched) /\ fork_outcome tgid ptc p pc s r s'.
Proof. intros HA. apply wp_run. apply (wp_fork HA). intros r s' Hok _ Ho. exact (conj Hok Ho). Qed.

(** The small user thread has a stack of another size: it may not fork. *)
Lemma demo_no_stack a h : kmalloc USER_STACK_SIZE demo_user.(heap) = Some (a, h) -> a = 0.
Proof.
  assert (E : (fst <$> kmalloc USER_STACK_SIZE demo_user.(heap)) = Some 0) by (vm_compute; reflexivity). intros Hk. rewrite Hk in E. by injection E.
Qed.

Definition demo_tc : Z := match demo_user.(tasks) !! demo_task with Some x => x.(t_tc) | None => 0 end.

Lemma demo_fork_args b : calling demo_task 1 (demo_call b) -> exists p pc, fork_args demo_task 1 demo_tc p pc (demo_call b).
Proof.
  intros Hc. unfold demo_tc. destruct (tasks demo_user !! demo_task) as [p|] eqn:Ep; [|vm_compute in Ep; discriminate Ep].
  destruct (tcs demo_user !! t_tc p) as [pc|] eqn:Epc.
  2: { exfalso. assert (E : (p ← tasks demo_user !! demo_task; tcs demo_user !! t_tc p) <> None) by (vm_compute; discriminate). apply E. by rewrite Ep. }
  exists p, pc. constructor; [exact Hc|exact Ep| |split; [reflexivity|exact Epc]|].
  - assert (E : (t_state <$> tasks demo_user !! demo_task) = Some THREAD_RUNNING) by (vm_compute; reflexivity). rewrite Ep in E. apply (inj Some) in E. rewrite E. discriminate.
  - intros a h Hk Ha. destruct (Ha (demo_no_stack a h Hk)).
Qed.

(** *** A system in which there is room

    128 pages from address 0, the first one reserved; a process with a stack of the
    usual size, which the next such block of the heap touches. *)

Definition roomy : mem :=
  mkMem [mkRegion 0 524288 0 128] 128 [mkReserve 0 4096] 0 0 false 4096
    (fresh_frames 128) demo.(free_lists) false 0 0 0 false 0 0 false true [].

Lemma roomy_layout : layout_ok roomy.
Proof.
  constructor; cbn.
  - split_and!; try done. exists 0. done.
  - intros r r' Hr Hr'. set_solver.
  - done.
  - done.
Qed.

Lemma roomy_fresh : fresh roomy.
Proof. constructor; [apply roomy_layout|done|apply demo_lists]. Qed.

Definition roomy_heap : slabs := heap_over (booted roomy).

Lemma roomy_heap_ok : slab_ok roomy_heap.
Proof.
  destruct (booted_state roomy roomy_layout roomy_fresh eq_refl) as [H1 H2]. exists no_lists. apply heap_over_inv; [exact H1|]. by apply untagged.
Qed.

Definition roomy_started : sched := after thread_system_bootstrap_init (cold_over roomy_heap).
Definition roomy_user : sched := user_of USER_STACK_SIZE roomy_started.
Definition roomy_task : Z := roomy_user.(tp).
Definition roomy_tc : Z := match roomy_user.(tasks) !! roomy_task with Some x => x.(t_tc) | None => 0 end.

Lemma roomy_user_ok : sched_ok roomy_user.
Proof.
  apply user_of_ok; [apply started_ok, cold_over_ok; [exact roomy_heap_ok|vm_compute; reflexivity]|unfold USER_STACK_SIZE; lia|vm_compute; discriminate].
Qed.

Lemma roomy_fields : exists p pc, roomy_user.(tasks) !! roomy_task = Some p /\ roomy_user.(tcs) !! p.(t_tc) = Some pc /\ roomy_tc = p.(t_tc) /\
  (p.(t_kind), p.(t_tgid), p.(t_state), p.(t_user_stack_base), p.(t_user_stack_top)) = (THREAD_USER, 1, THREAD_RUNNING, 65536, 131072) /\
  may_fork roomy_user 1 roomy_tc p pc && fork_room roomy_user p = true.
Proof.
  eexists. eexists. split; [vm_compute; reflexivity|]. split; [vm_compute; reflexivity|]. split; [vm_compute; reflexivity|].
  split; [reflexivity|vm_compute; reflexivity].
Qed.

Lemma roomy_lists : thread_list roomy_user = [roomy_task; 512] /\ t_kind <$> tasks roomy_user !! 512 = Some THREAD_KERNEL /\
  fst <$> kmalloc USER_STACK_SIZE roomy_user.(heap) = Some 131072.
Proof. split_and!; vm_compute; reflexivity. Qed.

Definition roomy_bytes (base size : Z) : bmem := blank 65536 131072 (blank base size ∅).
Definition roomy_call (b : bmem) : ksys := set_k_mem (mkCmem b ∅ ∅) (set_k_sched roomy_user demo_ksys).

Lemma roomy_args p pc base size :
  base = USER_CODE_BASE (qemu roomy_user) -> size = USER_CODE_SIZE -> roomy_user.(tasks) !! roomy_task = Some p -> roomy_user.(tcs) !! p.(t_tc) = Some pc -> roomy_tc = p.(t_tc) ->
  (p.(t_kind), p.(t_tgid), p.(t_state), p.(t_user_stack_base), p.(t_user_stack_top)) = (THREAD_USER, 1, THREAD_RUNNING, 65536, 131072) ->
  fork_args roomy_task 1 roomy_tc p pc (roomy_call (roomy_bytes base size)).
Proof.
  intros Eb Es Hp Hpc Etc E. injection E as E1 E2 E3 E4 E5. destruct roomy_lists as (El & Hb & Ek). pose proof roomy_user_ok as Hok.
  assert (Hu : user_current roomy_user roomy_task 1) by exact (conj Hok (conj eq_refl (ex_intro _ p (conj Hp (conj E1 E2))))).
  assert (Hz : forall a, in_area 65536 131072 a \/ in_area base size a -> roomy_bytes base size !! a = Some 0) by (intros a; apply blank_two).
  unfold roomy_call. generalize dependent (roomy_bytes base size). intros b Hz. generalize dependent roomy_user. intros c Eb Hp Hpc El Hb Ek Hok Hu.
  constructor; [|exact Hp|rewrite E3; discriminate|exact (conj (eq_sym Etc) (eq_ind_r (fun q => c.(tcs) !! q = Some pc) Hpc Etc))|].
  - apply (single_calling c roomy_task 512 1 p); [exact Hu|exact El|exact Hp|exact Hb|]. intros a Ha. apply Hz. rewrite E4, E5, <- Eb, <- Es in Ha. unfold in_area in *. lia.
  - intros a h Hk Ha i Hi. change (kmalloc USER_STACK_SIZE c.(heap) = Some (a, h)) in Hk. rewrite Hk in Ek. apply (inj Some) in Ek. cbn [fst] in Ek. subst a.
    exists 0. change (b !! (131072 + i) = Some 0). apply Hz. unfold in_area, USER_STACK_SIZE in *. lia.
Qed.

(** The fork succeeds. *)
Lemma fork_exact_witness :
  exists p pc r s', sys_fork roomy_tc (roomy_call (roomy_bytes (USER_CODE_BASE (qemu roomy_user)) USER_CODE_SIZE)) = Some (r, s') /\ r <> -1 /\
    fork_done p pc (roomy_call (roomy_bytes (USER_CODE_BASE (qemu roomy_user)) USER_CODE_SIZE)) r s'.
Proof.
  destruct roomy_fields as (p & pc & Hp & Hpc & Etc & E & Hroom). pose proof (roomy_args p pc _ _ eq_refl eq_refl Hp Hpc Etc E) as HA. exists p, pc.
  generalize dependent (roomy_bytes (USER_CODE_BASE (qemu roomy_user)) USER_CODE_SIZE). intros b HA.
  destruct (fork_exact roomy_task 1 roomy_tc p pc (roomy_call b) HA) as (r & s' & Er & _ & Ho). exists r, s'. split; [exact Er|].
  destruct Ho as [(_ & _ & Hn)|(_ & Hd)].
  - exfalso. change (k_sched (roomy_call b)) with roomy_user in Hn. rewrite Hroom in Hn. discriminate Hn.
  - split; [|exact Hd]. destruct Hd as (_ & u & _ & _ & _ & _ & _ & (Hr & _) & _). lia.
Defined.
