(* ===== verification/Ecall.v ===== *)
(** * Dispatch of system calls

    Whatever is in the registers, a call from user mode returns, leaves the
    kernel's structures sound and has exactly the effect of the call whose number
    is in [a7]: [ecall_outcome] gives it call by call. *)

From S2P Require Import Prelude Lists Memory Slab ByteAllocator MemoryInit Task Sched Wait Thread HeapIface HeapLink SchedRep SchedLists ThreadInv SchedOps ThreadNew ThreadExit ThreadLoops SchedHistory SchedView Threads Str Cpio CpioSpec Archive Irq Interrupts UartPoll Exec Loader Syscall UserIO Fork.

Open Scope Z_scope.

(** * The system call [exec] *)

(** What [sys_exec] needs beside a caller: the archive, its local variables and
    the image window in memory, apart from each other. *)
Record exec_env (lo : sys_locals) (l : list Z) (s : ksys) : Prop := {
  ee_archive : 0 <= s.(initrd_start) /\ block_at s.(k_mem).(cm_bytes) s.(initrd_start) l;
  ee_none : s.(initrd_start) = 0 -> l = [];
  ee_end : s.(initrd_end) = s.(initrd_start) + Z.of_nat (length l);
  ee_name : readable s.(k_mem).(cm_bytes) lo.(so_name) 64;
  ee_path : lo.(so_exec).(lo_path) <> 0 /\ readable s.(k_mem).(cm_bytes) lo.(so_exec).(lo_path) 64;
  ee_window : readable s.(k_mem).(cm_bytes) (USER_CODE_BASE s.(k_sched).(qemu)) USER_CODE_SIZE;
  ee_name_path : disjoint_areas lo.(so_name) 64 lo.(so_exec).(lo_path) 64;
  ee_archive_name : disjoint_areas s.(initrd_start) (Z.of_nat (length l)) lo.(so_name) 64;
  ee_archive_path : disjoint_areas s.(initrd_start) (Z.of_nat (length l)) lo.(so_exec).(lo_path) 64;
  ee_archive_window : disjoint_areas s.(initrd_start) (Z.of_nat (length l)) (USER_CODE_BASE s.(k_sched).(qemu)) USER_CODE_SIZE;
  ee_vars : forall p, p ∈ [lo.(so_exec).(lo_data); lo.(so_exec).(lo_size); lo.(so_exec).(lo_mode); lo.(so_entry); lo.(so_size)] ->
    p <> 0 /\ is_Some (s.(k_mem).(cm_vars) !! p);
  ee_distinct : NoDup [lo.(so_exec).(lo_data); lo.(so_exec).(lo_size); lo.(so_exec).(lo_mode); lo.(so_entry); lo.(so_size)];
}.

(** ** What the queries leave alone *)

(** The same threads in the same order; only links that no list uses may differ. *)
Definition alike (c0 c : sched) : Prop := erase c = erase c0 /\ thread_list c = thread_list c0 /\ run_queue c = run_queue c0.

Lemma same_threads_alike s c : same_threads s c -> sched_ok c /\ alike s c.
Proof.
  intros (g & HI & HIc). split; [by eapply sched_ok_of|]. split; [apply (rp_core _ _ _ (proj1 HIc))|].
  by rewrite (thread_list_rep (proj1 HI)), (thread_list_rep (proj1 HIc)), (run_queue_rep (proj1 HI)), (run_queue_rep (proj1 HIc)).
Qed.

Lemma alike_trans c1 c2 c3 : alike c1 c2 -> alike c2 c3 -> alike c1 c3.
Proof. intros (A1 & A2 & A3) (B1 & B2 & B3). split_and!; congruence. Qed.

Section alike.
Context {c0 c : sched} (HA : alike c0 c).

Lemma alike_fields : qemu c = qemu c0 /\ tp c = tp c0 /\ tcs c = tcs c0.
Proof using HA.
  destruct HA as [E _]. split_and!; [transitivity (qemu (erase c))|transitivity (tp (erase c))|transitivity (tcs (erase c))]; (done || by rewrite E).
Qed.

Lemma alike_exists f : (forall u x, f u (core_thread x) = f u x) -> existsb (thread_is f c) (thread_list c) = existsb (thread_is f c0) (thread_list c0).
Proof using HA.
  intros Hf. destruct HA as (E & El & _). rewrite El. apply existsb_ext. intros u. rewrite <- (thread_is_erase f c), <- (thread_is_erase f c0) by done. by rewrite E.
Qed.

Lemma alike_range tgid w a n : range_in c tgid w a n = range_in c0 tgid w a n.
Proof using HA. unfold range_in. rewrite (proj1 alike_fields). by rewrite alike_exists. Qed.

Lemma alike_accepted l t : accepted c l t = accepted c0 l t.
Proof using HA. unfold accepted, image_busy. rewrite (proj1 (proj2 alike_fields)). by rewrite alike_exists. Qed.
End alike.

(** ** The name *)

(** The string at [a] in memory of the process, if it ends within [n] bytes. *)
Fixpoint user_name (n : nat) (c : sched) (tgid : Z) (m : bmem) (a : Z) : option (list Z) :=
  match n with
  | O => None
  | S n' =>
      if range_in c tgid false (u64 a) 1 then
        match m !! u64 a with
        | Some ch => if ch =? 0 then Some [] else cons ch <$> user_name n' c tgid m (a + 1)
        | None => None
        end
      else None
  end.

(** Since [s0], the scheduler was asked and bytes were written to the name. *)
Definition named_as (lo : sys_locals) (s0 : ksys) (m : bmem) (s : ksys) : Prop :=
  only_in lo.(so_name) 64 s0.(k_mem).(cm_bytes) m /\
  exists c, s = set_k_sched c (set_k_mem (set_cm_bytes m s0.(k_mem)) s0) /\ sched_ok c /\ alike s0.(k_sched) c.

Lemma named_refl lo s : sched_ok s.(k_sched) -> named_as lo s s.(k_mem).(cm_bytes) s.
Proof.
  intros H. split; [apply only_in_refl|]. exists (k_sched s). split; [|done].
  replace (set_cm_bytes (cm_bytes (k_mem s)) (k_mem s)) with (k_mem s) by (by destruct (k_mem s)). by destruct s.
Qed.

Lemma named_threads lo s0 m s c : named_as lo s0 m s -> same_threads s.(k_sched) c -> named_as lo s0 m (set_k_sched c s).
Proof.
  intros (H1 & c0 & -> & _ & He) [Hok Hc]%same_threads_alike. split; [done|]. exists c. split; [done|]. split; [done|].
  by eapply alike_trans.
Qed.

Lemma named_store lo s0 m s i c : named_as lo s0 m s -> 0 <= i < 64 -> named_as lo s0 (<[lo.(so_name) + i := c]> m) (with_byte (lo.(so_name) + i) c s).
Proof.
  intros (H1 & c0 & -> & Hok & He) Hi. split.
  - eapply only_in_trans; [exact H1|]. split; [intros a Ha; apply lookup_insert_ne; intros <-; apply Ha; unfold in_area; lia|].
    intros a Ha. rewrite lookup_insert. case_decide; [by eexists|done].
  - exists c0. done.
Qed.

Lemma named_bytes lo s0 m s : named_as lo s0 m s -> s.(k_mem).(cm_bytes) = m.
Proof. by intros (_ & c & -> & _). Qed.

Lemma named_alike lo s0 m s : named_as lo s0 m s -> sched_ok s.(k_sched) /\ alike s0.(k_sched) s.(k_sched).
Proof. by intros (_ & c & -> & Hok & He). Qed.

Section name.
Context {task tgid : Z} {lo : sys_locals} {s0 : ksys} (path : Z).
Context (Hname : readable s0.(k_mem).(cm_bytes) lo.(so_name) 64) (Hsep : forall a, in_area lo.(so_name) 64 a -> ~ user_may s0.(k_sched) tgid false a).
Local Abbreviation name_from n a := (user_name n s0.(k_sched) tgid s0.(k_mem).(cm_bytes) a).

(** Copying from position [length t] on, when the characters [t] are there. *)
Lemma wp_copy_name n : forall t m s Q,
  calling task tgid s -> named_as lo s0 m s -> block_at m lo.(so_name) t -> Forall (fun c => c <> 0) t -> (length t + n <= 63)%nat ->
  (forall r m' s', named_as lo s0 m' s' -> r <> Some true -> name_from n (path + Z.of_nat (length t)) = None -> Q r s') ->
  (forall t' m' s', named_as lo s0 m' s' -> name_from n (path + Z.of_nat (length t)) = Some t' ->
     block_at m' lo.(so_name) ((t ++ t') ++ [0]) -> Forall (fun c => c <> 0) (t ++ t') -> (length (t ++ t') <= 62)%nat -> Q (Some true) s') ->
  wp (copy_name n task path lo.(so_name) (Z.of_nat (length t))) Q s.
Proof using Hname Hsep.
  induction n as [|n IH]; intros t m s Q Hc Hn Hb Hz Hl Hbad Hend; cbn [copy_name]; [by eapply wp_ret, Hbad|].
  apply wp_bind, wp_threads. eapply wp_range_ok; [apply Hc|apply u64_range|lia|]. intros c1 Hs1.
  pose proof (calling_same _ _ _ _ Hc (same_users_of _ _ Hs1)) as Hc1. pose proof (named_threads _ _ _ _ _ Hn Hs1) as Hn1. cbn [orb Z.eqb].
  set (a := u64 (path + Z.of_nat (length t))). rewrite (alike_range (proj2 (named_alike _ _ _ _ Hn))). cbn [user_name] in Hbad, Hend. fold a in Hbad, Hend.
  destruct (range_in (k_sched s0) tgid false a 1) eqn:Er; cbn [negb]; [|by eapply wp_ret, Hbad].
  assert (Hmay : user_may (k_sched s0) tgid false a) by (eapply range_in_may; [exact Er|lia]).
  destruct (cl_mem _ _ _ Hc a) as (c & Ec & Hr).
  { pose proof (u64_range (path + Z.of_nat (length t))). unfold range_in in Er. rewrite !andb_true_iff, negb_true_iff, Z.eqb_neq in Er. unfold a in *. lia. }
  { rewrite <- (alike_range (proj2 (named_alike _ _ _ _ Hn))) in Er. eapply range_in_may; [exact Er|lia]. }
  assert (Ec0 : cm_bytes (k_mem s0) !! a = Some c).
  { rewrite <- Ec, (named_bytes _ _ _ _ Hn). symmetry. apply Hn. intros Hin. exact (Hsep a Hin Hmay). }
  rewrite Ec0 in Hbad, Hend. apply wp_bind, wp_bytes. eapply wp_char_at; [cbn; rewrite Z.add_0_r; exact Ec|].
  replace (set_k_mem (set_cm_bytes (cm_bytes (k_mem (set_k_sched c1 s))) (k_mem (set_k_sched c1 s))) (set_k_sched c1 s)) with (set_k_sched c1 s)
    by (destruct s as [? ? ? ? ? ? ? ? ? ? ? ? ? ? ? ? ? ? ? ? ? ? ? ? []]; done).
  apply wp_bind, wp_bytes, wp_store.
  { rewrite (named_bytes _ _ _ _ Hn1). apply Hn1, Hname. lia. }
  fold (with_byte (so_name lo + Z.of_nat (length t)) c (set_k_sched c1 s)).
  pose proof (named_store _ _ _ _ (Z.of_nat (length t)) c Hn1 ltac:(lia)) as Hn2.
  pose proof (calling_store _ _ _ (so_name lo + Z.of_nat (length t)) c Hc1 Hr) as Hc2.
  assert (Hb2 : block_at (<[so_name lo + Z.of_nat (length t) := c]> m) (so_name lo) (t ++ [c])).
  { intros i x Hx. apply lookup_app_Some in Hx as [Hx|[Hi Hx]].
    - pose proof (lookup_lt_Some _ _ _ Hx). rewrite lookup_insert_ne by lia. by apply Hb.
    - destruct (i - length t)%nat as [|k] eqn:Ei; [|done]. injection Hx as <-. replace i with (length t) by lia. apply lookup_insert_eq. }
  destruct (Z.eqb_spec c 0) as [Ez|Hc0].
  - rewrite Ez in Hn2, Hb2 |- *. apply wp_ret. eapply (Hend []); [exact Hn2|done|by rewrite app_nil_r|by rewrite app_nil_r|rewrite app_nil_r; lia].
  - assert (Elen : Z.of_nat (length t) + 1 = Z.of_nat (length (t ++ [c]))) by (rewrite length_app; cbn; lia).
    assert (Enext : path + Z.of_nat (length (t ++ [c])) = path + Z.of_nat (length t) + 1) by lia. rewrite Elen.
    eapply IH; [exact Hc2|exact Hn2|exact Hb2| |rewrite length_app; cbn; lia|..].
    + apply Forall_app. split; [done|]. by constructor.
    + intros r m' s' H1 H2 H3. rewrite Enext in H3. rewrite H3 in Hbad. by eapply Hbad.
    + intros t' m' s' H1 H2 H3 H4 H5. rewrite Enext in H2. rewrite H2 in Hend. rewrite <- (app_assoc t [c] t') in H3, H4, H5.
      eapply (Hend (c :: t')); [exact H1|reflexivity|exact H3|exact H4|exact H5].
Qed.
End name.

(** ** The call *)

Lemma exec_env_named lo l s0 m s : exec_env lo l s0 -> named_as lo s0 m s -> exec_env lo l s.
Proof.
  intros [[A1 A1'] A2 A3 A4 [A5 A5'] A6 A7 A8 A9 A10 A11 A12] (Ho & c & -> & _ & He).
  assert (Eq : qemu c = qemu (k_sched s0)) by (apply (alike_fields He)).
  constructor; cbn [k_mem k_sched initrd_start initrd_end set_k_sched set_k_mem set_cm_bytes cm_bytes cm_vars]; rewrite ?Eq; try done.
  - split; [done|]. by eapply only_in_block.
  - by eapply only_in_readable.
  - split; [done|]. by eapply only_in_readable.
  - by eapply only_in_readable.
Qed.

Lemma exec_env_load lo l s t :
  exec_env lo l s -> sched_ok s.(k_sched) -> string_at s.(k_mem).(cm_bytes) (CPtr lo.(so_name)) t -> (length t <= 62)%nat ->
  load_args s lo.(so_exec) (CPtr lo.(so_name)) t l lo.(so_entry) lo.(so_size).
Proof.
  intros [A1 A2 A3 A4 A5 A6 A7 A8 A9 A10 A11 A12] Hok Ht Hl. constructor; try done.
  intros a Ha Hb. apply (A7 a); [unfold in_area in *; lia|done].
Qed.

(** The registers with which the new program starts. *)
Definition exec_registers (task entry top : Z) : trap_context := set_tc_a0 0 (user_tc task entry top).

(** The threads after [task] was set up to start at [entry]: its control block has
    the new entry, its trap context the new registers, and nothing else differs. *)
Definition restarted (task tc entry top : Z) (c c' : sched) : Prop :=
  erase c' = with_tc tc (exec_registers task entry top) (upd_task task (set_t_user_entry entry) (erase c)) /\
  thread_list c' = thread_list c /\ run_queue c' = run_queue c.

(** The caller's control block and trap context after a successful [exec]. *)
Lemma wp_restart c e g task p tc entry Q :
  rep c e g -> ThreadInv.inv (hok := slab_ok) (owned := allocated) (static := in_reserved_page) e g -> e.(tasks) !! task = Some p -> task <> 0 -> p.(t_tc) = tc -> tc <> 0 ->
  (forall c', sched_ok c' -> restarted task tc entry p.(t_user_stack_top) c c' -> Q tt c') ->
  wp (task_upd task (set_t_user_entry entry) ;; user_reset_trap_context task ;; tc_upd tc (set_tc_a0 0)) Q c.
Proof.
  intros HR Hi Hp Hne Htc Htc0 HQ. apply wp_bind. eapply (wp_task_core HR); [exact Hp|done|]. intros c1 H1.
  assert (Hp1 : tasks (upd_task task (set_t_user_entry entry) e) !! task = Some (set_t_user_entry entry p)) by (by apply upd_task_self).
  apply wp_bind. eapply wp_reset_trap_context; [exact H1|exact Hp1|done|by rewrite <- Htc in Htc0|]. intros c2 H2.
  change (t_tc (set_t_user_entry entry p)) with (t_tc p) in H2. rewrite Htc in H2.
  change (t_user_entry (set_t_user_entry entry p)) with entry in H2. change (t_user_stack_top (set_t_user_entry entry p)) with (t_user_stack_top p) in H2.
  eapply wp_with_tc; [exact H2|]. intros c3 H3. apply HQ.
  - eapply sched_ok_of. split; [exact H3|]. apply inv_with_tc, inv_soft; [done|exact Hi].
  - split; [by rewrite (rp_core _ _ _ H3), (rp_core _ _ _ HR)|].
    by rewrite (thread_list_rep HR), (thread_list_rep H3), (run_queue_rep HR), (run_queue_rep H3).
Qed.

(** Outside the two local buffers and the first [n] bytes of the window, memory has
    not changed; neither has any other part of the kernel. *)
Definition exec_frame (lo : sys_locals) (n : Z) (s s' : ksys) : Prop :=
  same_rest s s' /\
  forall a, ~ in_area lo.(so_name) 64 a -> ~ in_area lo.(so_exec).(lo_path) 64 a -> ~ in_area (USER_CODE_BASE s.(k_sched).(qemu)) n a ->
    s'.(k_mem).(cm_bytes) !! a = s.(k_mem).(cm_bytes) !! a.

(** [exec] refused: the threads are as before. *)
Definition exec_refused (lo : sys_locals) (s s' : ksys) : Prop := alike s.(k_sched) s'.(k_sched) /\ exec_frame lo 0 s s'.

(** [exec] done: the program [e] is in the window and the thread starts there. *)
Definition exec_done (lo : sys_locals) (s : ksys) (l : list Z) (e : entry) (task tc top : Z) (s' : ksys) : Prop :=
  let base := USER_CODE_BASE s.(k_sched).(qemu) in
  restarted task tc base top s.(k_sched) s'.(k_sched) /\ block_at s'.(k_mem).(cm_bytes) base (contents l e) /\ exec_frame lo e.(en_size) s s'.

(** The number of living threads of the process. *)
Definition live_count (c : sched) (tgid : Z) : Z :=
  Z.of_nat (length (filter (fun t => thread_is (fun _ => live_member tgid) c t = true) (thread_list c))).

(** The program that a call of [exec] with the argument [path] starts. *)
Definition exec_accepts (s : ksys) (l : list Z) (tgid tc path : Z) : option entry :=
  if negb (tc =? 0) && negb (path =? 0) && (live_count s.(k_sched) tgid =? 1) then
    match user_name 63 s.(k_sched) tgid s.(k_mem).(cm_bytes) path with
    | Some (ch :: t) => accepted s.(k_sched) l (ch :: t)
    | _ => None
    end
  else None.

(** Three steps of the scheduler in a row. *)
Lemma wp_zoom_three {A} (m1 m2 m3 : M sched unit) (k : M ksys A) Q (s : ksys) c (x : ksys) :
  s = set_k_sched c x -> wp (m1 ;; m2 ;; m3) (fun _ c' => wp k Q (set_k_sched c' x)) c -> wp (zoom m1 ;; zoom m2 ;; zoom m3 ;; k) Q s.
Proof.
  intros -> H. unfold wp, mbind, M_bind in H. apply wp_bind, wp_threads. unfold wp at 1. cbn [k_sched set_k_sched].
  destruct (m1 c) as [[[] c1]|]; [|done]. apply wp_bind, wp_threads. unfold wp at 1. cbn [k_sched set_k_sched].
  destruct (m2 c1) as [[[] c2]|]; [|done]. apply wp_bind, wp_threads. unfold wp at 1. cbn [k_sched set_k_sched].
  destruct (m3 c2) as [[[] c3]|]; [|done]. exact H.
Qed.

Section exec.
Context {task tgid tc : Z} {lo : sys_locals} {l : list Z} {p : thread} {s : ksys}.
Context (Hc : calling task tgid s) (He : exec_env lo l s) (Hp : s.(k_sched).(tasks) !! task = Some p) (Htc : p.(t_tc) = tc).
Context (Hsep : forall a, in_area lo.(so_name) 64 a -> ~ user_may s.(k_sched) tgid false a).

Lemma named_refused m s' : named_as lo s m s' -> exec_refused lo s s'.
Proof using.
  intros (Ho & c & -> & Hok & E). split; [exact E|]. split; [reflexivity|]. intros a Ha _ _. by apply Ho.
Qed.

(** From the loader's answer on. *)
Lemma wp_exec_loaded m s1 t Q :
  tc <> 0 -> task <> 0 -> named_as lo s m s1 -> string_at m (CPtr lo.(so_name)) t -> (length t <= 62)%nat ->
  (forall s', sched_ok s'.(k_sched) -> accepted s.(k_sched) l t = None -> exec_refused lo s s' -> Q (-1) s') ->
  (forall e s', sched_ok s'.(k_sched) -> accepted s.(k_sched) l t = Some e -> exec_done lo s l e task tc p.(t_user_stack_top) s' -> Q 1 s') ->
  wp (loaded ← exec_load_image lo.(so_exec) (Some (CPtr lo.(so_name))) lo.(so_entry) lo.(so_size);
      if negb (loaded =? 0) then mret (-1)
      else
        entry ← var lo.(so_entry);
        zoom (task_upd task (set_t_user_entry entry)) ;;
        zoom (user_reset_trap_context task) ;;
        zoom (tc_upd tc (set_tc_a0 0)) ;;
        mret 1) Q s1.
Proof using Hc He Hp Htc.
  intros Htc0 Ht0 Hn Hstr Hlen Hno Hyes. pose proof (named_bytes _ _ _ _ Hn) as Em. pose proof (named_alike _ _ _ _ Hn) as [Hok Ha].
  rewrite <- Em in Hstr. pose proof (exec_env_load lo l s1 t (exec_env_named _ _ _ _ _ He Hn) Hok Hstr Hlen) as HL.
  destruct (alike_fields Ha) as (Eq & _). apply wp_bind. eapply wp_mono; [apply (wp_exec_load HL)|]. intros v s2 (Hv & Hframe & c2 & m2 & -> & Hs2).
  pose proof (same_threads_alike _ _ Hs2) as [Hok2 Ha2]. pose proof (alike_trans _ _ _ Ha Ha2) as Ha02. rewrite (alike_accepted Ha) in Hv, Hframe.
  assert (Hf : forall c', exec_frame lo (match accepted s.(k_sched) l t with Some e => e.(en_size) | None => 0 end) s (set_k_sched c' (set_k_sched c2 (set_k_mem m2 s1)))).
  { intros c'. pose proof Hn as (Ho & c1 & -> & _). split; [reflexivity|]. intros a H1 H2 H3.
    change (qemu (k_sched (set_k_sched c1 _))) with (qemu c1) in Hframe. change (qemu (k_sched (set_k_sched c1 _))) with (qemu c1) in Eq. rewrite Eq in Hframe.
    transitivity (m !! a); [exact (Hframe a H2 H3)|by apply Ho]. }
  destruct (accepted (k_sched s) l t) as [e|] eqn:Ea.
  2: { destruct Hv as (-> & _). cbn [Z.eqb negb]. apply wp_ret, Hno; [exact Hok2|done|]. split; [exact Ha02|exact (Hf c2)]. }
  destruct Hv as (-> & Hb & _ & Hent & _). rewrite Eq in *. cbn [Z.eqb negb]. apply wp_bind. eapply wp_var; [exact Hent|].
  destruct Hok2 as [g2 HI2]. pose proof (proj1 Ha02) as E02. rewrite E02 in HI2.
  pose proof (cl_user _ _ _ Hc) as ([g HI] & _). pose proof (task_rep (proj1 HI) _ _ Hp) as Hpe.
  assert (Hgo : wp (task_upd task (set_t_user_entry (USER_CODE_BASE (qemu (k_sched s)))) ;; user_reset_trap_context task ;; tc_upd tc (set_tc_a0 0))
    (fun _ c' => wp (mret 1) Q (set_k_sched c' (set_k_mem m2 s1))) c2).
  { eapply (wp_restart c2 (erase (k_sched s)) g2 task (core_thread p)); [apply HI2|apply HI2|exact Hpe|done|done|done|].
    intros c' Hok' (R1 & R2 & R3). apply wp_ret, (Hyes e); [exact Hok'|done|]. destruct Ha02 as (_ & L1 & L2). split; [|split; [exact Hb|exact (Hf c')]].
    split; [cbn [k_sched set_k_sched]; by rewrite R1, E02|]. cbn [k_sched set_k_sched]. by rewrite R2, R3. }
  by eapply wp_zoom_three.
Qed.

Lemma wp_sys_exec path Q :
  (forall s', sched_ok s'.(k_sched) -> exec_accepts s l tgid tc path = None -> exec_refused lo s s' -> Q (-1) s') ->
  (forall e s', sched_ok s'.(k_sched) -> exec_accepts s l tgid tc path = Some e -> exec_done lo s l e task tc p.(t_user_stack_top) s' -> Q 1 s') ->
  wp (sys_exec lo path tc) Q s.
Proof using Hc He Hp Hsep Htc.
  intros Hno Hyes. pose proof (cl_user _ _ _ Hc) as Hu. pose proof Hu as ([g HI] & _ & x & Hx & Hk & Hg). rewrite Hp in Hx. injection Hx as <-.
  unfold sys_exec. apply wp_bind, wp_threads.
  destruct (wp_current_user _ task tgid (fun a c => a = task /\ c = k_sched s) Hu) as [Hne Hw].
  eapply wp_mono; [by apply Hw|]. cbv beta. intros ? ? [-> ->]. rewrite (proj2 (Z.eqb_neq task 0) Hne). cbn [orb].
  replace (set_k_sched (k_sched s) s) with s by (by destruct s). pose proof (named_refl lo s (proj1 Hu)) as Hself. unfold exec_accepts in *.
  destruct (Z.eqb_spec tc 0) as [E0|Htc0]; cbn [orb negb andb] in *; [apply wp_ret, Hno; [apply Hu|done|by eapply named_refused]|].
  destruct (path =? 0); cbn [negb andb] in *; [apply wp_ret, Hno; [apply Hu|done|by eapply named_refused]|].
  apply wp_bind, wp_threads. apply (wp_group_size HI task (core_thread p)); [by apply (task_rep (proj1 HI))|]. intros c1 H1.
  assert (Hs1 : same_threads (k_sched s) c1) by (exists g; split; [exact HI|split; [exact H1|apply HI]]).
  pose proof (named_threads lo _ _ _ _ Hself Hs1) as Hn1.
  change (t_kind (core_thread p)) with (t_kind p). change (t_tgid (core_thread p)) with (t_tgid p). rewrite decide_True, Hg by done.
  rewrite (group_size_erase _ g) by apply HI. fold (live_count (k_sched s) tgid).
  destruct (live_count (k_sched s) tgid =? 1); cbn [negb] in *; [|apply wp_ret, Hno; [apply (named_alike _ _ _ _ Hn1)|done|by eapply named_refused]].
  apply wp_bind. change 0 with (Z.of_nat (@length Z [])) at 1.
  eapply (wp_copy_name path (ee_name _ _ _ He) Hsep); [by apply (calling_same _ _ _ _ Hc), same_users_of|exact Hn1|done|done|done|..].
  - intros r m' s' Hn' Hr Ename. rewrite Z.add_0_r in Ename. rewrite Ename in Hno.
    assert (Hout : forall m2 s2, named_as lo s m2 s2 -> wp (mret (-1)) Q s2).
    { intros m2 s2 H2. apply wp_ret, Hno; [apply (named_alike _ _ _ _ H2)|done|by eapply named_refused]. }
    destruct r as [[]|]; [done| |by eapply Hout].
    apply wp_bind, wp_bytes, wp_store; [rewrite (named_bytes _ _ _ _ Hn'); apply Hn', (ee_name _ _ _ He); lia|].
    fold (with_byte (so_name lo + 63) 0 s'). pose proof (named_store _ _ _ _ 63 0 Hn' ltac:(lia)) as Hn2.
    destruct (only_in_readable _ _ _ _ _ _ (proj1 Hn2) (ee_name _ _ _ He) 0) as [y Hy]; [lia|].
    apply wp_bind, wp_bytes. eapply wp_char_at; [rewrite (named_bytes _ _ _ _ Hn2); exact Hy|]. cbn [negb orb]. by eapply Hout, (named_store _ _ _ _ 63 0 Hn').
  - intros t m' s' Hn' Ename Hb Hz Hl. rewrite Z.add_0_r in Ename. cbn [app] in *. rewrite Ename in Hno, Hyes.
    apply wp_bind, wp_bytes, wp_store; [rewrite (named_bytes _ _ _ _ Hn'); apply Hn', (ee_name _ _ _ He); lia|].
    fold (with_byte (so_name lo + 63) 0 s'). pose proof (named_store _ _ _ _ 63 0 Hn' ltac:(lia)) as Hn2. set (s2 := with_byte (so_name lo + 63) 0 s') in *.
    set (m2 := <[so_name lo + 63 := 0]> m') in *.
    assert (Hb2 : block_at m2 (so_name lo) (t ++ [0])).
    { intros i c Hi. pose proof (lookup_lt_Some _ _ _ Hi) as Hlt. rewrite length_app in Hlt. cbn in Hlt. unfold m2.
      rewrite lookup_insert_ne by lia. by apply Hb. }
    assert (Hstr : string_at m2 (CPtr (so_name lo)) t) by (by apply block_string).
    assert (Hfirst : m2 !! (so_name lo + 0) = Some (List.hd 0 t)) by (apply (Hb2 0%nat); by destruct t).
    apply wp_bind, wp_bytes. eapply wp_char_at; [rewrite (named_bytes _ _ _ _ Hn2); exact Hfirst|].
    replace (set_k_mem (set_cm_bytes (cm_bytes (k_mem s2)) (k_mem s2)) s2) with s2 by (destruct s2 as [? ? ? ? ? ? ? ? ? ? ? ? ? ? ? ? ? ? ? ? ? ? ? ? []]; done).
    cbn [negb orb]. destruct t as [|ch t].
    + cbn [List.hd Z.eqb]. apply wp_ret, Hno; [apply (named_alike _ _ _ _ Hn2)|done|by eapply named_refused].
    + cbn [List.hd]. apply Forall_cons in Hz as [Hch _]. rewrite (proj2 (Z.eqb_neq ch 0) Hch). by eapply wp_exec_loaded.
Qed.
End exec.

(** * The operations *)

(** ** Outcomes *)

(** The registers after a call with the result [ret]. *)
Definition result_regs (pc : trap_context) (ret : Z) : trap_context := set_tc_sepc (u64 (pc.(tc_sepc) + 4)) (set_tc_a0 (u64 ret) pc).

(** The state with other registers at [tc] and nothing else changed. *)
Definition with_regs (tc : Z) (c : trap_context) (s : ksys) : ksys := set_k_sched (set_tcs (<[tc := c]> s.(k_sched).(tcs)) s.(k_sched)) s.

(** Exactly the threads in [D] that lived have become zombies with the given status
    and have left the run queue. *)
Definition threads_stopped (D : Z -> bool) (status : Z) (c c' : sched) : Prop :=
  (forall u, (erase c').(tasks) !! u = (if D u then end_thread status else id) <$> (erase c).(tasks) !! u) /\
  run_queue c' = filter (fun t => D t = false) (run_queue c) /\ thread_list c' = thread_list c /\
  (c'.(heap), c'.(tp), c'.(tcs), c'.(next_tid)) = (c.(heap), c.(tp), c.(tcs), c.(next_tid)).

(** All threads of a process. *)
Definition process (c : sched) (pid : Z) : Z -> bool := members c pid (thread_list c).
Definition process_exists (c : sched) (pid : Z) : bool := existsb (is_member c pid) (thread_list c).

(** A new thread of the caller's process, or nothing. *)
Definition create_outcome (c : sched) (p : thread) (pc : trap_context) (entry arg return_pc r : Z) (c' : sched) : Prop :=
  (r = -1 /\ spawn_failed c c' /\ c'.(tcs) = c.(tcs) /\ may_create_user c p entry return_pc && thread_room [USER_STACK_SIZE] c = false) \/
  (may_create_user c p entry return_pc = true /\
   spawned c r c' (fun a x => x.(t_kind) = THREAD_USER /\ x.(t_tgid) = p.(t_tgid) /\ x.(t_entry) = c_user_task_entry /\
     x.(t_user_stack_top) = x.(t_user_stack_base) + USER_STACK_SIZE /\ (forall y, ~ allocated c.(heap) x.(t_user_stack_base) y) /\
     forall q, c'.(tcs) !! q = if decide (q = x.(t_tc)) then Some (sibling_tc pc a entry arg return_pc x.(t_user_stack_top)) else c.(tcs) !! q)).

(** What the call whose number is in [pc] does: to the state by itself, and to the
    registers of the caller. *)
Definition ecall_outcome (lo : sys_locals) (good : ksys -> Prop) (out got : ksys -> list Z) (s : ksys) (l : list Z) (task tgid ptc : Z) (p : thread)
    (pc : trap_context) (s' : ksys) : Prop :=
  let nr := pc.(tc_a7) in
  let c := s.(k_sched) in
  let answers r s1 := s' = with_regs ptc (result_regs pc r) s1 in
  if nr =? SYS_getpid then answers tgid s
  else if nr =? SYS_gettid then answers p.(t_tid) s
  else if nr =? SYS_thread_create then
    exists r c1, create_outcome c p pc pc.(tc_a0) pc.(tc_a1) pc.(tc_a2) r c1 /\ answers r (set_k_sched c1 s)
  else if nr =? SYS_uart_read then exists r s1, good s1 /\ user_read got tgid pc.(tc_a0) (i64 pc.(tc_a1)) s r s1 /\ answers r s1
  else if nr =? SYS_uart_write then exists r s1, good s1 /\ user_wrote out tgid pc.(tc_a0) (i64 pc.(tc_a1)) s r s1 /\ answers r s1
  else if nr =? SYS_exec then
    match exec_accepts s l tgid ptc pc.(tc_a0) with
    | Some e => exec_done lo s l e task ptc p.(t_user_stack_top) s'
    | None => exists s1, exec_refused lo s s1 /\ answers (-1) s1
    end
  else if nr =? SYS_fork then exists r s1, fork_outcome tgid ptc p pc s r s1 /\ answers r s1
  else if nr =? SYS_thread_exit then exists c', threads_stopped (fun u => u =? task) (i32 pc.(tc_a0)) c c' /\ s' = set_k_sched c' s
  else if nr =? SYS_exit then exists c', threads_stopped (process c tgid) (i32 pc.(tc_a0)) c c' /\ s' = set_k_sched c' s
  else if nr =? SYS_stop then
    let pid := i64 pc.(tc_a0) in
    if (0 <? pid) && (pid <=? INT32_MAX) then
      exists c', threads_stopped (process c pid) 0 c c' /\
        if pid =? tgid then s' = set_k_sched c' s else answers (if process_exists c pid then 0 else -1) (set_k_sched c' s)
    else answers (-1) s
  else answers (-1) s.

(** ** The end of a call *)

Lemma wp_tc_set (c : sched) tc x f Q : c.(tcs) !! tc = Some x -> Q tt (set_tcs (<[tc := f x]> c.(tcs)) c) -> wp (tc_upd tc f) Q c.
Proof. intros Hx HQ. unfold tc_upd. eapply wp_update; [by rewrite Hx|exact HQ]. Qed.

Lemma sched_ok_tcs c tc x y : sched_ok c -> c.(tcs) !! tc = Some x -> sched_ok (set_tcs (<[tc := y]> c.(tcs)) c).
Proof.
  intros [g HI] Hx. assert (H : wp (tc_upd tc (fun _ => y)) (fun _ c' => sched_ok c') c).
  { eapply (wp_tc_core c (erase c) g); [apply HI|exact Hx|]. intros c' H'. eapply sched_ok_of. split; [exact H'|]. apply (inv_with_tc (erase c) g tc y), HI. }
  refine (run_wp _ (fun _ c' => c' = set_tcs (<[tc := y]> c.(tcs)) c -> sched_ok (set_tcs (<[tc := y]> c.(tcs)) c)) _ tt _ _ _ eq_refl).
  - eapply wp_mono; [exact H|]. intros r c2 Hok E. rewrite <- E. exact Hok.
  - unfold tc_upd, update. cbn. by rewrite Hx.
Qed.

Lemma wp_call_end (s : ksys) ptc pc ret Q :
  sched_ok s.(k_sched) -> s.(k_sched).(tcs) !! ptc = Some pc ->
  (forall s', sched_ok s'.(k_sched) -> s' = with_regs ptc (result_regs pc ret) s -> Q tt s') ->
  wp (zoom (tc_upd ptc (set_tc_a0 (u64 ret))) ;; when (negb false) (zoom (tc_upd ptc (fun c => set_tc_sepc (u64 (c.(tc_sepc) + 4)) c)))) Q s.
Proof.
  intros Hok Hpc HQ. apply wp_bind, wp_threads. eapply wp_tc_set; [exact Hpc|]. cbn [negb when].
  apply wp_threads. eapply wp_tc_set; [apply lookup_insert_eq|].
  match goal with |- Q tt ?s' => assert (E : s' = with_regs ptc (result_regs pc ret) s) end.
  { unfold with_regs, result_regs. cbn [k_sched set_k_sched]. change (tcs (set_tcs ?t _)) with t. rewrite insert_insert_eq. reflexivity. }
  apply HQ; [|exact E]. rewrite E. cbn [with_regs k_sched set_k_sched]. by eapply sched_ok_tcs.
Qed.

(** *** The calls that answer from the control block *)

Lemma wp_getpid c task tgid Q : user_current c task tgid -> Q tgid c -> wp sys_getpid Q c.
Proof.
  intros Hu HQ. destruct (wp_current_user c task tgid (fun a c' => a = task /\ c' = c) Hu) as [Hne Hw]. unfold sys_getpid. apply wp_bind.
  eapply wp_mono; [by apply Hw|]. cbv beta. intros ? ? [-> ->]. rewrite (proj2 (Z.eqb_neq task 0) Hne). destruct Hu as (_ & _ & x & Hx & _ & Hg).
  apply wp_bind. eapply wp_access; [exact Hx|]. apply wp_ret. by rewrite Hg.
Qed.

Lemma wp_gettid c task tgid x Q : user_current c task tgid -> c.(tasks) !! task = Some x -> Q x.(t_tid) c -> wp sys_gettid Q c.
Proof.
  intros Hu Hx HQ. destruct (wp_current_user c task tgid (fun a c' => a = task /\ c' = c) Hu) as [Hne Hw]. unfold sys_gettid. apply wp_bind.
  eapply wp_mono; [by apply Hw|]. cbv beta. intros ? ? [-> ->]. rewrite (proj2 (Z.eqb_neq task 0) Hne). cbn [negb].
  apply wp_bind. eapply wp_access; [exact Hx|]. by apply wp_ret.
Qed.

(** *** The calls that end threads *)

Lemma stopped_of c g D status c' e' g' :
  sched_inv c (erase c) g -> sched_inv c' e' g' -> ended D status (erase c) g e' g' -> threads_stopped D status c c'.
Proof.
  intros HI HI' [E1 E2 E3 E4 _]. pose proof (proj1 HI) as HR. pose proof (proj1 HI') as HR'. destruct (rep_fields _ _ _ HR') as (F1 & _ & F3 & _ & F5 & _).
  assert (F6 : tcs c' = tcs e') by (by rewrite <- (rp_core _ _ _ HR')).
  unfold threads_stopped. rewrite (rp_core _ _ _ HR'), (run_queue_rep HR), (run_queue_rep HR'), (thread_list_rep HR), (thread_list_rep HR').
  split; [exact E1|]. split; [exact E4|]. split; [exact E3|]. rewrite F1, F3, F5, F6, E2. reflexivity.
Qed.

(** What the dispatcher needs to know of the caller afterwards. *)
Lemma stopped_current D status c c' task tgid :
  sched_ok c' -> threads_stopped D status c c' -> user_current c task tgid -> user_current c' task tgid.
Proof.
  intros Hok (E1 & _ & _ & E4) (_ & Htp & x & Hx & Hk & Hg). injection E4 as _ Etp _ _. split; [exact Hok|]. split; [by rewrite Etp|]. specialize (E1 task).
  assert (Et : forall k, tasks (erase k) !! task = core_thread <$> tasks k !! task) by (intros k; unfold erase; sched_simpl; apply lookup_fmap).
  rewrite !Et, Hx in E1. destruct (tasks c' !! task) as [y|]; [|discriminate E1]. apply (inj Some) in E1. exists y. split; [done|].
  change (t_kind y) with (t_kind (core_thread y)). change (t_tgid y) with (t_tgid (core_thread y)). rewrite E1. unfold end_thread.
  destruct (D task); [|done]. by case_bool_decide.
Qed.

Section stop.
Context {c : sched} {task tgid : Z} {p : thread} (Hu : user_current c task tgid) (Hp : c.(tasks) !! task = Some p).

Lemma user_facts : exists e g, sched_inv c e g /\ e = erase c /\ e.(tasks) !! task = Some (core_thread p) /\ task ∈ g.(l_all) /\
  e.(tp) = task /\ task <> e.(boot_idle_thread) /\ p.(t_kind) = THREAD_USER /\ p.(t_tgid) = tgid.
Proof using Hp Hu.
  destruct Hu as ([g HI] & Htp & x & Hx & Hk & Hg). rewrite Hp in Hx. injection Hx as <-. exists (erase c), g. pose proof (task_rep (proj1 HI) _ _ Hp) as Hpe.
  split; [exact HI|]. split; [done|]. split; [exact Hpe|]. split; [rewrite <- Htp; apply (si_cur _ _ (iv_state _ _ (proj2 HI)))|]. split; [exact Htp|].
  split; [|done]. intros E. rewrite E in Hpe. pose proof (mi_kind _ (iv_mem _ _ (proj2 HI)) _ Hpe) as Hn. change (t_kind p = THREAD_KERNEL) in Hn. congruence.
Qed.

Lemma wp_mark_current status Q :
  (forall c', sched_ok c' -> threads_stopped (fun u => u =? task) status c c' -> Q tt c') -> wp (thread_mark_current_zombie status) Q c.
Proof using Hp Hu.
  intros HQ. destruct user_facts as (e & g & HI & -> & Hpe & Hin & Etp & Hb & _). eapply wp_mark_zombie; [exact HI|congruence|]. intros _ c' e' g' H' Hs.
  rewrite Etp in Hs. pose proof (inv_stopped _ _ _ _ _ _ _ _ HI Hpe Hin Hb Hs) as Hi'. pose proof (conj H' Hi') as HI'. apply HQ; [by eapply sched_ok_of|].
  eapply stopped_of; [exact HI|exact HI'|].
  eapply (ended_stop c (fun _ => false)); [apply ended_refl|exact HI|exact Hin|exact Hs|done].
Qed.

Lemma wp_stop_pid pid status Q :
  (forall c', sched_ok c' -> threads_stopped (process c pid) status c c' -> Q (if process_exists c pid then 0 else -1) c') -> wp (thread_stop_process pid status) Q c.
Proof using Hp Hu.
  intros HQ. destruct user_facts as (e & g & HI & -> & _). eapply wp_stop_process; [exact HI|]. intros c' e' g' HI' He.
  unfold process, process_exists in HQ. rewrite (thread_list_rep (proj1 HI)) in HQ. rewrite (existsb_ext _ (is_member c pid)) by (intros u; apply is_member_erase).
  apply HQ; [by eapply sched_ok_of|]. eapply stopped_of; [exact HI|exact HI'|]. eapply ended_skip; [exact He|]. intros u. by rewrite members_erase.
Qed.

Lemma own_process : process_exists c tgid = true.
Proof using Hp Hu.
  destruct user_facts as (e & g & HI & -> & _ & Hin & _ & _ & Hk & Hg). unfold process_exists. apply existsb_exists. exists task.
  rewrite (thread_list_rep (proj1 HI)). split; [by apply list_elem_of_In|]. unfold is_member. rewrite Hp, Hk, Hg, bool_decide_true, Z.eqb_refl by done. done.
Qed.

(** *** Creating a thread *)

Lemma wp_create_any ptc pc entry arg return_pc Q :
  p.(t_tc) = ptc -> c.(tcs) !! ptc = Some pc ->
  (forall r c', sched_ok c' -> c'.(tcs) !! ptc = Some pc -> create_outcome c p pc entry arg return_pc r c' -> Q r c') -> wp (thread_create_user entry arg return_pc) Q c.
Proof using Hp Hu.
  intros Etc Hpc HQ. destruct user_facts as (e & g & HI & Ee & Hpe & Hin & Etp & Hb & Hk & Hg). assert (Etcs : tcs c = tcs e) by (by rewrite Ee).
  assert (Htc : forall c' e' g', rep c' e' g' -> tcs c' = tcs e') by (intros c' e' g' H'; by rewrite <- (rp_core _ _ _ H')).
  assert (Egate : forall entry, may_create_user e (core_thread p) entry return_pc = may_create_user c p entry return_pc) by (intros; rewrite Ee; reflexivity).
  assert (Eroom : thread_room [USER_STACK_SIZE] e = thread_room [USER_STACK_SIZE] c) by (rewrite Ee; reflexivity).
  eapply (wp_create_user c e g (core_thread p)); [exact HI|by rewrite Etp|..]; rewrite Egate.
  - intros c' e' g' H' Hf Hroom. rewrite Eroom in Hroom.
    assert (Et' : tcs c' = tcs c) by (rewrite (Htc _ _ _ H'), Etcs; by destruct Hf as ((h & n & -> & _) & _)).
    apply HQ; [by eapply sched_ok_of; split; [exact H'|apply Hf]|by rewrite Et'|left]. split; [done|]. split; [|done]. rewrite Ee in HI, Hf. by eapply failed_spec.
  - intros c' a base u zu h0 h pc' Hmay Hpc' Hgr Hzu e0 Hm Hmax H' Hi'. change (t_tc (core_thread p)) with (t_tc p) in Hpc'. rewrite Etc, <- Etcs, Hpc in Hpc'. injection Hpc' as <-.
    pose proof (inv_grown _ _ _ _ _ (proj2 HI) Hgr) as Hi0.
    pose proof (parent_tc_other e0 h a base task (core_thread p) (iv_mem _ _ Hi0) Hm Hpe Hb Hk) as Hne. change (t_tc (core_thread p)) with (t_tc p) in Hne. rewrite Etc in Hne.
    assert (Et' : forall q, tcs c' !! q = if decide (q = base + THREAD_STACK_SIZE - TRAP_CONTEXT_ALLOC_SIZE) then
      Some (sibling_tc pc a entry arg return_pc (u + USER_STACK_SIZE)) else tcs c !! q).
    { intros q. rewrite (Htc _ _ _ H'). case_decide as Hq; [rewrite Hq; apply published_sibling_tcs|].
      unfold published, sibling, with_tc, upd_task. cbv zeta. cbn [tcs set_tasks set_tcs]. rewrite lookup_insert_ne by done.
      rewrite user_created_tcs, lookup_insert_ne by done. by rewrite Etcs. }
    apply HQ; [by eapply sched_ok_of|by rewrite Et', decide_False by done|right]. split; [exact Hmay|].
    assert (En : next_tid e = next_tid c) by (by rewrite Ee). rewrite En in *.
    assert (Hna : tasks e !! a = None) by (destruct Hm as (h1 & za & zb & Hg1 & _); by eapply (grown_not_task e0); [apply Hi0|exact Hg1]).
    set (x := set_t_tgid (t_tgid p) (user_thread (next_tid c) base entry u (u + USER_STACK_SIZE))).
    pose proof (grown_pos _ _ _ _ Hgr) as (_ & Hz0 & _). pose proof (mi_heap _ (iv_mem _ _ (proj2 HI))) as Hh. subst e.
    assert (Esib : tasks (published a (sibling (set_heap h0 (erase c)) (core_thread p) pc a base entry arg return_pc u h)) = <[a := set_t_state THREAD_RUNNABLE x]> (tasks (erase c))).
    { apply published_tasks. exact (sibling_tasks (set_heap h0 (erase c)) (core_thread p) pc a base entry arg return_pc u h). }
    eapply (spawned_intro c g c' _ a x h0 h base); [exact HI|exact H'|exact Hmax|intros b y Hy; by apply (grown_fresh _ _ _ _ Hgr)|exact Hm|exact Hna|exact Esib|reflexivity|reflexivity|reflexivity|].
    assert (Hst : forall y, t_tc (set_t_state THREAD_RUNNABLE y) = t_tc y) by done. rewrite Hst.
    split; [reflexivity|]. split; [reflexivity|]. split; [reflexivity|]. split; [reflexivity|]. split; [|exact Et'].
    intros y. exact (grown_not_owned _ _ _ _ Hh Hgr Hz0 y).
Qed.
End stop.

(** ** The theorem *)

(** What the dispatcher relies on: the caller is a living user thread, what [fork]
    and [exec] need is there (the name buffer of [exec] is the kernel's own), the
    registers hold 64-bit values, and waiting for the console keeps the saved
    registers. *)
Record ecall_args (lo : sys_locals) (l : list Z) (task tgid ptc : Z) (p : thread) (pc : trap_context) (good : ksys -> Prop) (s : ksys) : Prop := {
  ea_fork : fork_args task tgid ptc p pc s;
  ea_exec : exec_env lo l s;
  ea_name : forall a, in_area lo.(so_name) 64 a -> ~ user_may s.(k_sched) tgid false a;
  ea_tgid : 0 < tgid <= INT32_MAX;
  ea_regs : 0 <= pc.(tc_a0) < 2 ^ 64;
  ea_good : good s;
  ea_saved : forall s', good s' -> s'.(k_sched).(tcs) !! ptc = Some pc;
}.

Section ecall.
Context {lo : sys_locals} {l : list Z} {task tgid ptc : Z} {p : thread} {pc : trap_context}.
Context {send : Z -> M ksys unit} {recv : M ksys Z} {good : ksys -> Prop} {out got : ksys -> list Z}.
Context `{HC : !UserConsole task tgid send recv good out got}.
Context {s : ksys} (HA : ecall_args lo l task tgid ptc p pc good s).

Lemma i64_range x : - 2 ^ 63 <= i64 x < 2 ^ 63.
Proof using. unfold i64. pose proof (Z.mod_pos_bound (x + 2 ^ 63) (2 ^ 64)). lia. Qed.

Lemma caller : user_current s.(k_sched) task tgid /\ s.(k_sched).(tasks) !! task = Some p /\ p.(t_state) <> THREAD_ZOMBIE /\
  p.(t_tc) = ptc /\ s.(k_sched).(tcs) !! ptc = Some pc.
Proof using HA. destruct HA as [[[Hu _] Hp Hl [E1 E2] _] _ _ _ _ _ _]. done. Qed.

Lemma good_state s' : good s' -> sched_ok s'.(k_sched) /\ s'.(k_sched).(tcs) !! ptc = Some pc.
Proof using HA HC. intros H. split; [apply (cl_user _ _ _ (uc_calling _ H))|by apply (ea_saved _ _ _ _ _ _ _ _ _ HA)]. Qed.

Local Abbreviation finish r := (zoom (tc_upd ptc (set_tc_a0 (u64 r))) ;; when (negb false) (zoom (tc_upd ptc (fun c => set_tc_sepc (u64 (c.(tc_sepc) + 4)) c)))).
Local Abbreviation ends Q := (forall s', sched_ok s'.(k_sched) -> ecall_outcome lo good out got s l task tgid ptc p pc s' -> Q tt s').

(** The calls that always answer at once. *)
Lemma wp_answers r s1 (Q : unit -> ksys -> Prop) :
  sched_ok s1.(k_sched) -> s1.(k_sched).(tcs) !! ptc = Some pc -> (ecall_outcome lo good out got s l task tgid ptc p pc (with_regs ptc (result_regs pc r) s1)) -> ends Q ->
  wp (finish r) Q s1.
Proof using. intros Hok Hpc Ho HQ. apply (wp_call_end s1 ptc pc r); [exact Hok|exact Hpc|]. intros s' Hok' ->. by apply HQ. Qed.

Lemma wp_ecall_stop Q : pc.(tc_a7) = SYS_stop -> ends Q ->
  wp (ret ← zoom (sys_stop (i64 pc.(tc_a0)));
      if ret =? 0 then
        pid ← zoom sys_getpid;
        if i64 pc.(tc_a0) =? pid then mret tt else finish ret
      else finish ret) Q s.
Proof using HA.
  intros Enr HQ. unfold ecall_outcome in HQ. rewrite Enr in HQ. cbn [Z.eqb Pos.eqb SYS_stop SYS_getpid SYS_gettid SYS_thread_create SYS_uart_read SYS_uart_write SYS_exec SYS_fork SYS_thread_exit SYS_exit] in HQ.
  generalize dependent (i64 (tc_a0 pc)). intros pid HQ. destruct caller as (Hu & Hp & Hl & Etc & Hpc). pose proof (ea_tgid _ _ _ _ _ _ _ _ _ HA) as Ht.
  apply wp_bind, wp_threads. unfold sys_stop. destruct (Z.leb_spec pid 0), (Z.ltb_spec INT32_MAX pid); cbn [orb].
  1-3: apply wp_ret; cbn [Z.eqb]; replace (set_k_sched (k_sched s) s) with s by (by destruct s); eapply wp_call_end; [apply Hu|exact Hpc|]; intros s' Hok' Es; apply HQ; [exact Hok'|];
    (first [rewrite (proj2 (Z.ltb_ge 0 pid)) by lia|rewrite (proj2 (Z.leb_gt pid INT32_MAX)), andb_false_r by lia]); exact Es.
  rewrite (proj2 (Z.ltb_lt 0 pid)), (proj2 (Z.leb_le pid INT32_MAX)) in HQ by lia. cbn [andb] in HQ.
  rewrite i32_id by (unfold INT32_MAX in *; lia). apply (wp_stop_pid Hu Hp). intros c' Hok' Hs. pose proof (stopped_current _ _ _ _ _ _ Hok' Hs Hu) as Hu'.
  assert (Hpc' : tcs c' !! ptc = Some pc) by (destruct Hs as (_ & _ & _ & Ef); injection Ef as _ _ -> _; exact Hpc).
  assert (Hend : forall r, r = (if process_exists (k_sched s) pid then 0 else -1) -> pid <> tgid -> wp (finish r) Q (set_k_sched c' s)).
  { intros r -> Hne. eapply wp_call_end; [exact Hok'|exact Hpc'|]. intros s' Hok2 Es. apply HQ; [exact Hok2|]. exists c'. rewrite (proj2 (Z.eqb_neq pid tgid) Hne). exact (conj Hs Es). }
  destruct (Z.eqb_spec pid tgid) as [Epid|Hne].
  - rewrite Epid in *. rewrite (own_process Hu Hp). cbn [Z.eqb]. apply wp_bind, wp_threads. apply (wp_getpid _ task tgid); [exact Hu'|]. rewrite Z.eqb_refl.
    apply wp_ret, HQ; [exact Hok'|]. by exists c'.
  - destruct (process_exists (k_sched s) pid); cbn [Z.eqb]; [|by apply Hend].
    apply wp_bind, wp_threads. apply (wp_getpid _ task tgid); [exact Hu'|]. rewrite (proj2 (Z.eqb_neq pid tgid) Hne). by apply Hend.
Qed.

Lemma wp_ecall_exec Q : pc.(tc_a7) = SYS_exec -> ends Q ->
  wp (ret ← sys_exec lo pc.(tc_a0) ptc;
      if 0 <=? ret then zoom (tc_upd ptc (set_tc_a0 (u64 0))) ;; when (negb true) (zoom (tc_upd ptc (fun c => set_tc_sepc (u64 (c.(tc_sepc) + 4)) c)))
      else finish ret) Q s.
Proof using HA.
  intros Enr HQ. unfold ecall_outcome in HQ. rewrite Enr in HQ. cbn [Z.eqb Pos.eqb SYS_stop SYS_getpid SYS_gettid SYS_thread_create SYS_uart_read SYS_uart_write SYS_exec SYS_fork SYS_thread_exit SYS_exit] in HQ.
  destruct caller as (Hu & Hp & Hl & Etc & Hpc). apply wp_bind.
  apply (wp_sys_exec (fa_calling _ _ _ _ _ _ (ea_fork _ _ _ _ _ _ _ _ _ HA)) (ea_exec _ _ _ _ _ _ _ _ _ HA) Hp Etc (ea_name _ _ _ _ _ _ _ _ _ HA)).
  - intros s1 Hok1 En Hr. rewrite En in HQ. cbn [Z.leb Z.compare]. eapply wp_call_end; [exact Hok1| |].
    + by rewrite (proj2 (proj2 (alike_fields (proj1 Hr)))).
    + intros s' Hok' Es. apply HQ; [exact Hok'|]. by exists s1.
  - intros e s1 Hok1 Ea Hd. rewrite Ea in HQ. cbn [Z.leb Z.compare]. destruct Hd as ((R1 & R2 & R3) & Hb & Hf).
    set (regs := exec_registers task (USER_CODE_BASE (qemu (k_sched s))) (t_user_stack_top p)) in *.
    assert (Et : tcs (k_sched s1) !! ptc = Some regs) by (transitivity (tcs (erase (k_sched s1)) !! ptc); [done|rewrite R1; apply lookup_insert_eq]).
    apply wp_bind, wp_threads. eapply wp_tc_set; [exact Et|]. cbn [negb when]. change (set_tc_a0 (u64 0) regs) with regs. rewrite insert_id by exact Et.
    assert (Es : set_k_sched (set_tcs (tcs (k_sched s1)) (k_sched s1)) s1 = s1) by (destruct s1 as [[] ? ? ? ? ? ? ? ? ? ? ? ? ? ? ? ? ? ? ? ? ? ? ? ?]; done).
    rewrite Es. apply wp_ret, HQ; [exact Hok1|]. exact (conj (conj R1 (conj R2 R3)) (conj Hb Hf)).
Qed.

Local Ltac outcome E := unfold ecall_outcome; rewrite E; cbn [Z.eqb Pos.eqb SYS_stop SYS_getpid SYS_gettid SYS_thread_create SYS_uart_read SYS_uart_write SYS_exec SYS_fork SYS_thread_exit SYS_exit].

Lemma wp_ecall Q : ends Q -> wp (handle_user_ecall send recv lo ptc) Q s.
Proof using HA HC.
  intros HQ. destruct caller as (Hu & Hp & Hl & Etc & Hpc). pose proof (ea_tgid _ _ _ _ _ _ _ _ _ HA) as Ht. pose proof (ea_good _ _ _ _ _ _ _ _ _ HA) as Hg.
  pose proof (ea_regs _ _ _ _ _ _ _ _ _ HA) as Hr. pose proof (i64_range (tc_a1 pc)) as Hi. assert (Hi' : i64 (tc_a1 pc) < 2 ^ 63) by lia.
  unfold handle_user_ecall. apply wp_bind, wp_threads. eapply wp_access; [exact Hpc|]. cbv zeta. assert (Es : set_k_sched (k_sched s) s = s) by (by destruct s). rewrite Es.
  destruct (Z.eqb_spec (tc_a7 pc) SYS_getpid) as [E|N0].
  { apply wp_bind, wp_threads. apply (wp_getpid _ task tgid); [exact Hu|]. rewrite Es. apply wp_answers; [apply Hu|exact Hpc| |exact HQ]. outcome E. reflexivity. }
  destruct (Z.eqb_spec (tc_a7 pc) SYS_gettid) as [E|N13].
  { apply wp_bind, wp_threads. apply (wp_gettid _ task tgid p); [exact Hu|exact Hp|]. rewrite Es. apply wp_answers; [apply Hu|exact Hpc| |exact HQ]. outcome E. reflexivity. }
  destruct (Z.eqb_spec (tc_a7 pc) SYS_thread_create) as [E|N14].
  { apply wp_bind, wp_threads. apply (wp_create_any Hu Hp ptc pc); [exact Etc|exact Hpc|]. intros r c' Hok Et Ho. apply wp_answers; [exact Hok|exact Et| |exact HQ].
    outcome E. by exists r, c'. }
  destruct (Z.eqb_spec (tc_a7 pc) SYS_uart_read) as [E|N1].
  { apply wp_bind. apply (wp_sys_read s (tc_a0 pc) (i64 (tc_a1 pc))); [exact Hg|exact Hr|exact Hi'|]. intros r s1 Hg1 Ho. destruct (good_state s1 Hg1).
    apply wp_answers; [done|done| |exact HQ]. outcome E. by exists r, s1. }
  destruct (Z.eqb_spec (tc_a7 pc) SYS_uart_write) as [E|N2].
  { apply wp_bind. apply (wp_sys_write s (tc_a0 pc) (i64 (tc_a1 pc))); [exact Hg|exact Hr|exact Hi'|]. intros r s1 Hg1 Ho. destruct (good_state s1 Hg1).
    apply wp_answers; [done|done| |exact HQ]. outcome E. by exists r, s1. }
  destruct (Z.eqb_spec (tc_a7 pc) SYS_exec) as [E|N3]; [by apply wp_ecall_exec|].
  destruct (Z.eqb_spec (tc_a7 pc) SYS_fork) as [E|N4].
  { apply wp_bind. apply (wp_fork (ea_fork _ _ _ _ _ _ _ _ _ HA)). intros r s1 Hok Et Ho. apply wp_answers; [exact Hok|exact Et| |exact HQ]. outcome E. by exists r, s1. }
  destruct (Z.eqb_spec (tc_a7 pc) SYS_thread_exit) as [E|N15].
  { apply wp_threads. apply (wp_mark_current Hu Hp). intros c' Hok Hs. apply HQ; [exact Hok|]. outcome E. by exists c'. }
  destruct (Z.eqb_spec (tc_a7 pc) SYS_exit) as [E|N6].
  { apply wp_bind, wp_threads. apply (wp_getpid _ task tgid); [exact Hu|]. rewrite Es. apply wp_bind, wp_threads. rewrite i32_id by (unfold INT32_MAX in *; lia).
    apply (wp_stop_pid Hu Hp). intros c' Hok Hs. rewrite (own_process Hu Hp). cbn [Z.eqb]. apply wp_ret, HQ; [exact Hok|]. outcome E. by exists c'. }
  destruct (Z.eqb_spec (tc_a7 pc) SYS_stop) as [E|N7]; [by apply wp_ecall_stop|].
  apply wp_answers; [apply Hu|exact Hpc| |exact HQ]. unfold ecall_outcome. by rewrite !(proj2 (Z.eqb_neq _ _)) by done.
Qed.
End ecall.

(** C31: every call from user mode, whatever its registers contain, has exactly its
    effect.  [handle_user_ecall] returns with the threads, queues and heaps sound,
    and by the number in [a7]: [getpid] and [gettid] answer the caller's ids;
    [thread_create] adds one thread to the caller's process or, only when it may not
    or there is no room, nothing; [uart_read] and [uart_write] move characters of
    the caller's memory; [exec] starts the program of the archive named by the
    caller's string, exactly when that can be done, and otherwise answers -1;
    [fork] makes one new process or nothing; [thread_exit] ends exactly the calling
    thread, [exit] exactly the threads of its process, with the given status,
    and [stop] exactly those of the process asked for; any other number answers
    -1.  A call that answers stores its result in [a0], moves the program counter
    behind the call and changes no other register, no other thread and no other
    part of the kernel. *)
Theorem ecall_exact lo l (task tgid ptc : Z) (p : thread) (pc : trap_context) send recv good out got `{!UserConsole task tgid send recv good out got} (s : ksys) :
  ecall_args lo l task tgid ptc p pc good s ->
  exists s', handle_user_ecall send recv lo ptc s = Some (tt, s') /\ sched_ok s'.(k_sched) /\ ecall_outcome lo good out got s l task tgid ptc p pc s'.
Proof.
  intros HA. match goal with |- exists s', _ /\ @?P s' => destruct (wp_run (handle_user_ecall send recv lo ptc) (fun _ s' => P s') s) as ([] & s' & E & H); [|by exists s'] end.
  apply (wp_ecall HA). intros s' H1 H2. exact (conj H1 H2).
Qed.

(** ** The small user thread makes a call *)

Definition saved_calling (task tgid ptc : Z) (pc : trap_context) (s : ksys) : Prop := calling task tgid s /\ s.(k_sched).(tcs) !! ptc = Some pc.

Lemma same_users_tcs s c : same_users s c -> c.(tcs) = s.(tcs).
Proof.
  intros (g & v & HI & HIc). assert (E : tcs c = tcs (erase c)) by done. rewrite E, (rp_core _ _ _ (proj1 HIc)). done.
Qed.

#[export] Instance saved_console task tgid ptc pc :
  UserConsole task tgid demo_send demo_recv (saved_calling task tgid ptc pc) (fun s => s.(k_uart).(hw_sent)) (fun s => s.(k_uart).(hw_fifo)).
Proof.
  constructor.
  - by intros s [H _].
  - intros s c [H1 H2] Hs. split; [|done]. split; [by apply calling_same|]. cbn [k_sched set_k_sched]. by rewrite (same_users_tcs _ _ Hs).
  - intros s a c [H1 H2] Hc _ _. split; [|done]. split; [by apply calling_store|done].
  - intros s c [H1 H2] Hc. apply wp_modify. split; [|done]. split; [by apply calling_uart|done].
  - intros s [H1 H2]. apply wp_bind, wp_modify, wp_ret. split; [|done]. split; [by apply calling_uart|done].
Qed.

Definition demo_sys_locals : sys_locals := mkSysLocals 65536 40 48 (mkExecLocals 65600 8 16 24 32).
Definition demo_vars : gmap Z Z := {[ 8 := 0; 16 := 0; 24 := 0; 40 := 0; 48 := 0 ]}.
Definition demo_kernel (b : bmem) : ksys := set_k_mem (mkCmem b demo_vars ∅) (set_k_sched demo_user demo_ksys).
Definition demo_kernel_bytes (base size : Z) : bmem := blank 65536 128 (demo_user_bytes base size).

Lemma demo_vars_at :
  let vars := [lo_data (so_exec demo_sys_locals); lo_size (so_exec demo_sys_locals); lo_mode (so_exec demo_sys_locals); so_entry demo_sys_locals; so_size demo_sys_locals] in
  (forall q, q ∈ vars -> q <> 0 /\ is_Some (demo_vars !! q)) /\ NoDup vars.
Proof.
  split; [|apply (bool_decide_unpack _); vm_compute; exact I]. intros q Hx. unfold demo_vars.
  repeat (apply elem_of_cons in Hx as [->|Hx]; [split; [discriminate|by eexists]|]). by apply elem_of_nil in Hx.
Qed.

Lemma demo_kernel_bytes_at base size a :
  in_area 32512 256 a \/ in_area base size a \/ in_area 65536 128 a -> demo_kernel_bytes base size !! a = Some 0.
Proof.
  intros Ha. unfold demo_kernel_bytes, demo_user_bytes. destruct (decide (in_area 65536 128 a)) as [H|H]; [by apply blank_at|].
  unfold blank at 1. rewrite write_block_out by (rewrite length_replicate; unfold in_area in H; lia).
  destruct (decide (in_area 32512 256 a)) as [H'|H']; [by apply blank_at|]. unfold blank at 1.
  rewrite write_block_out by (rewrite length_replicate; unfold in_area in H'; lia). apply blank_at. tauto.
Qed.

Lemma calling_part task tgid c b s1 s2 v1 v2 x1 x2 :
  calling task tgid (set_k_mem (mkCmem b v1 x1) (set_k_sched c s1)) -> calling task tgid (set_k_mem (mkCmem b v2 x2) (set_k_sched c s2)).
Proof. intros [H1 H2]. constructor; [exact H1|exact H2]. Qed.

Lemma fork_args_part task tgid ptc p pc c b s1 s2 v1 v2 x1 x2 :
  fork_args task tgid ptc p pc (set_k_mem (mkCmem b v1 x1) (set_k_sched c s1)) -> fork_args task tgid ptc p pc (set_k_mem (mkCmem b v2 x2) (set_k_sched c s2)).
Proof. intros [F1 F2 F3 F4 F5]. constructor; [by eapply calling_part|exact F2|exact F3|exact F4|exact F5]. Qed.

Lemma demo_code_base : 65536 + 64 <= USER_CODE_BASE (qemu demo_user).
Proof. unfold USER_CODE_BASE. destruct (qemu demo_user); lia. Qed.

Lemma demo_ecall_args b :
  (forall a, in_area 32512 256 a \/ in_area (USER_CODE_BASE (qemu demo_user)) USER_CODE_SIZE a \/ in_area 65536 128 a -> b !! a = Some 0) ->
  exists p pc, tasks demo_user !! demo_task = Some p /\ ecall_args demo_sys_locals [] demo_task 1 demo_tc p pc (saved_calling demo_task 1 demo_tc pc) (demo_kernel b).
Proof.
  intros Hb. destruct demo_user_fields as (x & Hx & _ & _ & Ex). injection Ex as E1 E2. destruct demo_user_lists as [El Hboot].
  assert (Hmay : forall a, user_may demo_user 1 false a -> in_area 32512 256 a \/ in_area (USER_CODE_BASE (qemu demo_user)) USER_CODE_SIZE a).
  { intros a Ha. pose proof (single_may _ _ _ _ _ _ El Hx Hboot Ha) as H. rewrite E1, E2 in H. exact H. }
  assert (Hc : calling demo_task 1 (demo_kernel b)).
  { constructor; [exact demo_user_current|]. intros a _ Hm%Hmay. exists 0. split; [|lia]. apply Hb. tauto. }
  assert (Hc0 : calling demo_task 1 (demo_call b)) by (by apply (calling_part demo_task 1 demo_user b demo_ksys demo_ksys _ _ _ _ Hc)).
  destruct (demo_fork_args b Hc0) as (p & pc & HF%(fork_args_part demo_task 1 demo_tc p pc demo_user b demo_ksys demo_ksys _ demo_vars _ ∅)). exists p, pc.
  pose proof (fa_ptc _ _ _ _ _ _ HF) as F4. split; [exact (fa_task _ _ _ _ _ _ HF)|].
  assert (Hr : forall q n, (forall i, 0 <= i < n -> in_area 65536 128 (q + i) \/ in_area (USER_CODE_BASE (qemu demo_user)) USER_CODE_SIZE (q + i)) -> readable b q n).
  { intros q n H i Hi. exists 0. apply Hb. destruct (H i Hi); tauto. }
  constructor.
  - exact HF.
  - constructor; change (cm_bytes (k_mem (demo_kernel b))) with b; change (k_sched (demo_kernel b)) with demo_user.
    + split; [reflexivity|]. intros i c Hi. discriminate Hi.
    + reflexivity.
    + reflexivity.
    + apply Hr. intros i Hi. left. change (so_name demo_sys_locals) with 65536. unfold in_area. lia.
    + split; [discriminate|]. apply Hr. intros i Hi. left. change (lo_path (so_exec demo_sys_locals)) with 65600. unfold in_area. lia.
    + apply Hr. intros i Hi. right. unfold in_area. lia.
    + intros a Ha Hx2. change (so_name demo_sys_locals) with 65536 in Ha. change (lo_path (so_exec demo_sys_locals)) with 65600 in Hx2. unfold in_area in *. lia.
    + intros a Ha _. unfold in_area in Ha. cbn [length] in Ha. lia.
    + intros a Ha _. unfold in_area in Ha. cbn [length] in Ha. lia.
    + intros a Ha _. unfold in_area in Ha. cbn [length] in Ha. lia.
    + exact (proj1 demo_vars_at).
    + exact (proj2 demo_vars_at).
  - intros a Ha [H|H]%Hmay; [unfold in_area in *; change (so_name demo_sys_locals) with 65536 in Ha; lia|].
    pose proof demo_code_base. change (so_name demo_sys_locals) with 65536 in Ha. unfold in_area in *. lia.
  - unfold INT32_MAX. lia.
  - assert (E : (tc_a0 <$> tcs demo_user !! demo_tc) = Some 0) by (vm_compute; reflexivity). destruct F4 as [_ F4].
    change (tcs demo_user !! demo_tc = Some pc) in F4. rewrite F4 in E. injection E as ->. lia.
  - split; [exact Hc|apply F4].
  - intros s' [_ H]. exact H.
Qed.

(** Its registers are zero, so the call is [getpid] and answers 1. *)
Lemma ecall_exact_witness :
  exists s' pc, handle_user_ecall demo_send demo_recv demo_sys_locals demo_tc
    (demo_kernel (demo_kernel_bytes (USER_CODE_BASE (qemu demo_user)) USER_CODE_SIZE)) = Some (tt, s') /\ sched_ok s'.(k_sched) /\
    s'.(k_sched).(tcs) !! demo_tc = Some pc /\ pc.(tc_a0) = 1.
Proof.
  pose proof (demo_kernel_bytes_at (USER_CODE_BASE (qemu demo_user)) USER_CODE_SIZE) as Hb. set (b := demo_kernel_bytes _ _) in *. clearbody b.
  destruct (demo_ecall_args b) as (p & pc & _ & HA); [intros a Ha; apply Hb; exact Ha|].
  destruct (ecall_exact demo_sys_locals [] demo_task 1 demo_tc p pc demo_send demo_recv _ _ _ (demo_kernel b) HA) as (s' & E & Hok & Ho).
  assert (E7 : (tc_a7 <$> tcs demo_user !! demo_tc) = Some 0) by (vm_compute; reflexivity).
  pose proof (ea_saved _ _ _ _ _ _ _ _ _ HA _ (ea_good _ _ _ _ _ _ _ _ _ HA)) as Hpc. change (tcs demo_user !! demo_tc = Some pc) in Hpc. rewrite Hpc in E7.
  injection E7 as E7. unfold ecall_outcome in Ho. rewrite E7 in Ho. change (s' = with_regs demo_tc (result_regs pc 1) (demo_kernel b)) in Ho.
  exists s', (result_regs pc 1). split; [exact E|]. split; [exact Hok|]. split; [|reflexivity]. rewrite Ho.
  generalize (demo_kernel b). intros s0. apply lookup_insert_eq.
Defined.
