(* ===== verification/Trap.v ===== *)
(** * Traps ([trap.c])

    Classification of a trap and its way to the handlers.  The trap context [tc] is
    an object of the scheduler's state, also when it is that of an interrupted
    kernel thread.  [print] is [uart_send] as it behaves in a trap,
    where interrupts are off; [send] and [recv] are [uart_send] and [uart_recv] in
    a system call, which enables them. *)

From Stdlib Require Import Strings.String.
From S2P Require Import Prelude Lists Memory Slab ByteAllocator MemoryInit Task Sched Wait Thread HeapIface HeapLink SchedRep SchedLists ThreadInv SchedOps ThreadNew ThreadExit ThreadLoops SchedHistory SchedView Threads Ring Str Cpio CpioSpec Archive Irq Trace Work Timer Interrupts Uart UartInv UartHistory UartProps UartPoll Serial Exec Loader Syscall UserIO Fork Ecall.

Open Scope Z_scope.

Definition SSTATUS_SPP : Z := Z.shiftl 1 8.
Definition SCAUSE_INTERRUPT_BIT : Z := Z.shiftl 1 63.
Definition SCAUSE_U_ECALL : Z := 8.
Definition SCAUSE_S_TIMER_INT : Z := 5.
Definition SCAUSE_S_EXT_INT : Z := 9.

Definition trap_scause_code (scause : Z) : Z := Z.land scause (not64 SCAUSE_INTERRUPT_BIT).
Definition trap_is_interrupt (scause : Z) : bool := negb (Z.land scause SCAUSE_INTERRUPT_BIT =? 0).

Definition trap_set_ecall_demo (tid : Z) : M ksys unit := modify (set_ecall_demo_tid tid).

Definition trap_trace_ecalls (enabled : Z) : M ksys Z :=
  previous ← gets trace_ecalls;
  modify (set_trace_ecalls (Z.b2z (negb (enabled =? 0)))) ;;
  mret previous.

(** Whether [trap_dispatch] returns or stops the machine in the loop of [wfi]. *)
Inductive trap_end := Returns | Halts.

Section trap.
Context (print : Z -> M ksys unit) (send : Z -> M ksys unit) (recv : M ksys Z) (lo : sys_locals).

Definition trap_print_tc (c : trap_context) : M ksys unit :=
  uart_send_string print (text "[trap] scause=") ;;
  uart_send_hex print c.(tc_scause) ;;
  uart_send_string print (text " sepc=") ;;
  uart_send_hex print c.(tc_sepc) ;;
  uart_send_string print (text " stval=") ;;
  uart_send_hex print c.(tc_stval) ;;
  uart_send_string print (text_line "").

Definition handle_user_fault (c : trap_context) : M ksys unit :=
  trap_print_tc c ;;
  uart_send_string print (text_line "[trap] user fault, terminate") ;;
  zoom user_mark_exit.

(** The cases of [trap_dispatch]. *)
Definition trap_timer (c : trap_context) : M ksys unit :=
  timer_irq_top ;;
  when (Z.land c.(tc_sstatus) SSTATUS_SPP =? 0)
    (task ← zoom thread_current;
     if task =? 0 then mret tt
     else
       x ← zoom (task_get task);
       if bool_decide (x.(t_kind) = THREAD_USER) then
         more ← zoom thread_has_runnable_tasks;
         when more (zoom thread_request_resched)
       else mret tt).

Definition trap_external : M ksys unit :=
  irq ← plic_claim;
  mine ← uart_irq_id;
  when (irq =? mine) uart_irq_top ;;
  when (negb (irq =? 0)) (plic_complete irq).

Definition trap_ecall (tc : Z) (c : trap_context) : M ksys unit :=
  task ← zoom thread_current;
  demo ← gets ecall_demo_tid;
  selected ← (if task =? 0 then mret false else x ← zoom (task_get task); mret (x.(t_tid) =? demo));
  if selected : bool then
    trap_print_tc c ;;
    uart_send_string print (text "[trap] lab ecall a7=") ;;
    uart_send_dec print c.(tc_a7) ;;
    uart_send_string print (text_line "") ;;
    zoom (tc_upd tc (fun c => set_tc_sepc (u64 (c.(tc_sepc) + 4)) c))
  else
    traced ← gets trace_ecalls;
    when (negb (traced =? 0)) (trap_print_tc c) ;;
    handle_user_ecall send recv lo tc.

Definition trap_dispatch (tc : Z) : M ksys trap_end :=
  if tc =? 0 then uart_send_string print (text_line "[trap] null trap_context") ;; mret Returns
  else
    c ← zoom (tc_get tc);
    if trap_is_interrupt c.(tc_scause) then
      if trap_scause_code c.(tc_scause) =? SCAUSE_S_TIMER_INT then trap_timer c ;; mret Returns
      else if trap_scause_code c.(tc_scause) =? SCAUSE_S_EXT_INT then trap_external ;; mret Returns
      else
        uart_send_string print (text_line "[trap] unhandled interrupt") ;;
        trap_print_tc c ;;
        mret Returns
    else if trap_scause_code c.(tc_scause) =? SCAUSE_U_ECALL then trap_ecall tc c ;; mret Returns
    else if negb (Z.land c.(tc_sstatus) SSTATUS_SPP =? 0) then
      zoom irq_disable ;;
      uart_send_string print (text_line "[trap] fatal kernel fault") ;;
      trap_print_tc c ;;
      mret Halts
    else handle_user_fault c ;; mret Returns.
End trap.

(** * Correctness of the trap handler

    Where every trap goes and what it leaves: interrupts are acknowledged and
    noted for the bottom halves, a fault of a user program ends that program, a
    fault of the kernel stops the machine. *)

(** ** What printing leaves alone *)

Section last.
Context {c c' : sched} (HL : threads_last c c').

Lemma last_task t x : c.(tasks) !! t = Some x -> exists x', c'.(tasks) !! t = Some x' /\ lasting x' = lasting x.
Proof using HL.
  intros Hx. pose proof (proj2 (proj2 HL) t) as E. rewrite Hx in E. destruct (tasks c' !! t) as [x'|]; [|discriminate E].
  exists x'. split; [done|]. by apply (inj Some) in E.
Qed.

Lemma last_task_back t x' : c'.(tasks) !! t = Some x' -> exists x, c.(tasks) !! t = Some x /\ lasting x' = lasting x.
Proof using HL.
  intros Hx. pose proof (proj2 (proj2 HL) t) as E. rewrite Hx in E. destruct (tasks c !! t) as [x|]; [|discriminate E].
  exists x. split; [done|]. by apply (inj Some) in E.
Qed.

Lemma last_may tgid w a : qemu c' = qemu c -> user_may c' tgid w a -> user_may c tgid w a.
Proof using HL.
  intros Eq [(t & x' & Ht & Hx & Hm & Ha)|(E & Ha)]; [left|right; split; [done|by rewrite <- Eq]].
  destruct (last_task_back t x' Hx) as (x & Hx0 & El). exists t, x. rewrite <- (proj1 (proj2 HL)). split; [done|]. split; [done|].
  injection El as E1 E2 E3 E4 E5 E6 E7 E8.
  unfold live_member in *. rewrite E3, E2 in Hm. rewrite <- E6, <- E7. split; [|done].
  rewrite !andb_true_iff, !bool_decide_eq_true in *. destruct Hm as [Hm Hz]. split; [done|].
  intros Hzz. rewrite Hzz in E8. by rewrite bool_decide_eq_false_2, bool_decide_eq_true_2 in E8.
Qed.
End last.

Lemma others_mem s s' : uart_frame s s' -> s'.(k_mem) = s.(k_mem) /\ s'.(initrd_start) = s.(initrd_start) /\ s'.(initrd_end) = s.(initrd_end) /\
  s'.(trace_ecalls) = s.(trace_ecalls) /\ s'.(ecall_demo_tid) = s.(ecall_demo_tid).
Proof. intros F. pose proof (uf_others _ _ F) as E. unfold others in E. injection E. intros. by split_and!. Qed.

Lemma frame_tp s s' : uart_frame s s' -> s'.(k_sched).(tp) = s.(k_sched).(tp) /\ s'.(k_sched).(qemu) = s.(k_sched).(qemu).
Proof. intros F. pose proof (uf_thread _ _ F) as E. by injection E. Qed.

Lemma frame_calling task tgid s s' : calling task tgid s -> uart_ok s' -> uart_frame s s' -> calling task tgid s'.
Proof.
  intros [(H1 & H2 & x & Hx & Hk & Hg) Hm] Hok F. destruct (frame_tp _ _ F) as [Et Eq]. pose proof (uf_threads _ _ F) as HL. constructor.
  - split; [apply (uo_sched _ Hok)|]. split; [by rewrite Et|]. destruct (last_task HL _ _ Hx) as (x' & Hx' & El). exists x'.
    injection El as E1 E2 E3 E4 E5 E6 E7 E8. split; [done|]. by rewrite E3, E2.
  - intros a Ha Hu. rewrite (proj1 (others_mem _ _ F)). apply Hm; [done|]. by apply (last_may HL).
Qed.

Lemma frame_exec_env lo l s s' : exec_env lo l s -> uart_frame s s' -> exec_env lo l s'.
Proof.
  intros [H1 H2 H3 H4 H5 H6 H7 H8 H9 H10 H11 H12] F. destruct (others_mem _ _ F) as (Em & E1 & E2 & _). destruct (frame_tp _ _ F) as [_ Eq].
  constructor; rewrite ?Em, ?E1, ?E2, ?Eq; done.
Qed.

Lemma frame_ecall_args lo l task tgid ptc p pc good s s' :
  ecall_args lo l task tgid ptc p pc good s -> uart_ok s' -> uart_frame s s' -> good s' ->
  exists p', ecall_args lo l task tgid ptc p' pc good s' /\ lasting p' = lasting p.
Proof.
  intros [[F1 F2 F3 [F4 F5] F6] H2 H3 H4 H5 H6 H7] Hok F Hg. pose proof (uf_threads _ _ F) as HL.
  destruct (last_task HL _ _ F2) as (p' & Hp' & El). exists p'. split; [|done]. injection El as E1 E2 E3 E4 E5 E6' E7 E8.
  constructor; [|by eapply frame_exec_env|intros a Ha Hm; apply (H3 a Ha), (last_may HL); [apply (frame_tp _ _ F)|exact Hm]|done|done|done|done]. constructor; [by eapply frame_calling|done| |split; [congruence|by rewrite (proj1 HL)]|].
  - intros Hz. rewrite Hz in E8. rewrite bool_decide_eq_true_2 in E8 by done. symmetry in E8. by apply bool_decide_eq_true in E8.
  - unfold heap_backed. rewrite (uf_heap _ _ F), (proj1 (others_mem _ _ F)). exact F6.
Qed.

(** ** Printing in a trap *)

(** Interrupts are off, and of [N] looks in a row one finds the transmitter ready. *)
Definition printing (N : nat) (s0 s : ksys) : Prop := poll_good N s /\ uart_frame s0 s.

Lemma trap_sender N fuel s0 : (129 * N <= fuel)%nat -> Sender (poll_send fuel) (printing N s0) (fun s => stream (line_of s)).
Proof.
  intros Hf. constructor. intros c s [(Hok & Hi & HN) F] Hc. apply wp_bind.
  pose proof (tx_bounded s (line_of s) Hok eq_refl) as Hl. unfold RINGBUF_CAPACITY in Hl.
  apply (wp_uart_send N); [done|done|by right; left|nia|]. intros s' Hok' F' E'. apply wp_ret. split_and!.
  - split; [|by eapply uart_frame_trans]. split_and!; [done|by rewrite (uf_irq _ _ F')|by rewrite (uf_settings _ _ F')].
  - by rewrite E', u8_id by lia.
  - apply (others_mem _ _ F').
Qed.

Definition dec_list (v : Z) : list Z := if v =? 0 then [48] else rev (dec_fill 24 v []).

Section prints.
Context {N fuel : nat} {s0 : ksys} (Hf : (129 * N <= fuel)%nat).
Local Abbreviation print := (poll_send fuel).

(** [m] sends exactly [l]. *)
Definition prints (m : M ksys unit) (l : list Z) : Prop :=
  forall s Q, printing N s0 s -> (forall s', printing N s0 s' -> stream (line_of s') = stream (line_of s) ++ l -> Q tt s') -> wp m Q s.

Lemma prints_bind m1 m2 l1 l2 : prints m1 l1 -> prints m2 l2 -> prints (m1 ;; m2) (l1 ++ l2).
Proof using. intros H1 H2 s Q Hs HQ. apply wp_bind, H1; [done|]. intros s1 Hs1 E1. apply H2; [done|]. intros s2 Hs2 E2. apply HQ; [done|]. by rewrite E2, E1, app_assoc. Qed.

Lemma prints_text l : Forall (fun c => c <> 0) l -> Forall (fun c => 0 <= c < 256) l -> prints (uart_send_string print (CLit l)) (crlf l).
Proof using Hf.
  intros Hz Hb s Q Hs HQ. pose proof (trap_sender N fuel s0 Hf) as HS. eapply wp_mono; [apply (wp_send_string (HS := HS) (CLit l) l s Hs); [by apply string_literal|done]|].
  intros [] s' (H1 & H2 & _). by apply HQ.
Qed.

(** Text without control characters. *)
Lemma prints_plain l : forallb (fun c => (31 <? c) && (c <? 256)) l = true -> prints (uart_send_string print (CLit l)) l.
Proof using Hf.
  intros Ht. rewrite forallb_forall in Ht.
  assert (Hl : Forall (fun c => 31 < c < 256) l).
  { apply Forall_forall. intros x Hx%list_elem_of_In. apply Ht in Hx. rewrite !andb_true_iff, !Z.ltb_lt in Hx. lia. }
  assert (E : crlf l = l).
  { clear -Hl. induction Hl as [|x l Hx _ IH]; [done|]. unfold crlf in *. cbn [flat_map]. rewrite (proj2 (Z.eqb_neq x 10)) by lia. cbn. by rewrite IH. }
  rewrite <- E at 2. apply prints_text; (eapply Forall_impl; [exact Hl|]; cbn; lia).
Qed.

Lemma prints_line l : forallb (fun c => (31 <? c) && (c <? 256)) l = true -> prints (uart_send_string print (CLit (l ++ [10]))) (l ++ [13; 10]).
Proof using Hf.
  intros Ht. rewrite forallb_forall in Ht.
  assert (Hl : Forall (fun c => 31 < c < 256) l).
  { apply Forall_forall. intros x Hx%list_elem_of_In. apply Ht in Hx. rewrite !andb_true_iff, !Z.ltb_lt in Hx. lia. }
  assert (E : crlf (l ++ [10]) = l ++ [13; 10]).
  { clear -Hl. induction Hl as [|x l Hx _ IH]; [done|]. unfold crlf in *. cbn [flat_map app]. rewrite (proj2 (Z.eqb_neq x 10)) by lia. cbn [app]. by rewrite IH. }
  rewrite <- E. apply prints_text; apply Forall_app; (split; [eapply Forall_impl; [exact Hl|]; cbn; lia|repeat constructor; lia]).
Qed.

Lemma prints_hex v : 0 <= v -> prints (uart_send_hex print v) (hex_list 16 v).
Proof using Hf.
  intros Hv s Q Hs HQ. pose proof (trap_sender N fuel s0 Hf) as HS. eapply wp_mono; [apply (wp_send_hex (HS := HS) 16 v s Hv Hs)|].
  intros [] s' (H1 & H2 & _). by apply HQ.
Qed.

Lemma prints_dec v : 0 <= v < 2 ^ 64 -> prints (uart_send_dec print v) (dec_list v).
Proof using Hf.
  intros Hv s Q Hs HQ. pose proof (trap_sender N fuel s0 Hf) as HS. unfold uart_send_dec, dec_list. destruct (Z.eqb_spec v 0) as [->|Hn].
  - eapply wp_mono; [apply (wp_send (HS := HS) 48 s Hs); lia|]. intros [] s' (H1 & H2 & _). by apply HQ.
  - destruct (dec_fill_numeral 24 v) as (D1 & D2 & D3); [change (10 ^ Z.of_nat 24) with 1000000000000000000000000; lia|].
    eapply wp_mono; [apply (wp_send_all (HS := HS) _ s Hs)|].
    + eapply Forall_impl; [exact D2|]. unfold is_dec. intros x ?. lia.
    + intros [] s' (H1 & H2 & _). apply HQ; [exact H1|]. unfold dec_list. rewrite (proj2 (Z.eqb_neq v 0) Hn). exact H2.
Qed.
End prints.

(** ** The trap handler *)

(** Interrupts are off, the driver is in a good state, and [fuel] rounds are enough
    for every wait. *)
Record trap_ready (N fuel : nat) (s : ksys) : Prop := {
  tr_uart : uart_ok s;
  tr_irq : k_irq s = false;
  tr_line : ready_within N (settings s);
  tr_fuel : (129 * N <= fuel)%nat;
}.

(** The words of a trap context are 64-bit values. *)
Definition words_ok (c : trap_context) : Prop :=
  0 <= c.(tc_scause) < 2 ^ 64 /\ 0 <= c.(tc_sepc) < 2 ^ 64 /\ 0 <= c.(tc_stval) < 2 ^ 64 /\ 0 <= c.(tc_a7) < 2 ^ 64.

Definition chars_of (t : cstr) : list Z := match t with CLit l => l | CPtr _ => [] end.

(** What [trap_print_tc] prints. *)
Definition trap_report (c : trap_context) : list Z :=
  chars_of (text "[trap] scause=") ++ hex_list 16 c.(tc_scause) ++ chars_of (text " sepc=") ++ hex_list 16 c.(tc_sepc) ++
  chars_of (text " stval=") ++ hex_list 16 c.(tc_stval) ++ [13; 10].

Lemma current_task c : sched_ok c -> exists x, c.(tasks) !! c.(tp) = Some x /\ c.(tp) <> 0.
Proof.
  intros [g HI]. pose proof (si_cur _ _ (iv_state _ _ (proj2 HI))) as Hin. destruct (rp_all _ _ _ (proj1 HI)) as [Hc _].
  change (tp (erase c)) with (tp c) in Hin. pose proof (sll_not_null _ _ _ _ _ Hc Hin) as Hne. destruct (sll_elem _ _ _ _ _ Hc Hin) as [n Hn].
  unfold link in Hn. destruct (tasks c !! tp c) as [x|]; [by exists x|discriminate Hn].
Qed.

(** Inside a section whose interrupts are already off. *)
Lemma wp_quiet_save c Q : irq c = false -> Q false c -> wp irq_save Q c.
Proof. intros Hi HQ. change (Q (irq c) (set_irq false c)). by rewrite set_irq_same, Hi. Qed.
Lemma wp_quiet_restore c Q : irq c = false -> Q tt c -> wp (irq_restore false) Q c.
Proof. intros Hi HQ. change (Q tt (set_irq (irq c || false) c)). by rewrite Hi, set_irq_same. Qed.

Lemma wp_has_runnable c Q : sched_ok c -> irq c = false -> Q (bool_decide (run_queue c <> [])) c -> wp thread_has_runnable_tasks Q c.
Proof.
  intros [g HI] Hi HQ. unfold thread_has_runnable_tasks. apply wp_bind, wp_quiet_save; [done|]. apply wp_bind, wp_gets, wp_bind, wp_quiet_restore; [done|].
  apply wp_ret. destruct (rp_run _ _ _ (proj1 HI)) as [Hc _]. rewrite (run_queue_rep (proj1 HI)) in HQ. destruct (Z.eqb_spec (run_head c) 0) as [E|E]; cbn [negb].
  - rewrite E in Hc. apply sll_head_null in Hc. rewrite bool_decide_eq_false_2 in HQ by (intros H; exact (H Hc)). done.
  - rewrite bool_decide_eq_true_2 in HQ; [done|]. intros E'. rewrite E' in Hc. by cbn in Hc.
Qed.

Lemma wp_quiet_resched c Q : irq c = false -> Q tt (set_need_resched 1 c) -> wp thread_request_resched Q c.
Proof. intros Hi HQ. apply wp_bind, wp_quiet_save; [done|]. apply wp_bind, wp_modify, wp_quiet_restore; done. Qed.

Lemma sched_ok_resched c : sched_ok c -> irq c = false -> sched_ok (set_need_resched 1 c).
Proof.
  intros Hok Hi. destruct (run_sched_op_ok op_request_resched c Hok I) as (c' & E & H).
  refine (run_wp _ (fun _ c' => sched_ok c' -> sched_ok (set_need_resched 1 c)) _ _ _ _ E H). by apply wp_quiet_resched.
Qed.

Section dispatch.
Context {N fuel : nat} {send : Z -> M ksys unit} {recv : M ksys Z} {lo : sys_locals} {s : ksys} (HT : trap_ready N fuel s).
Local Abbreviation print := (poll_send fuel).

Lemma printing_start : printing N s s.
Proof using HT. destruct HT as [H1 H2 H3 H4]. split; [done|apply uart_frame_refl]. Qed.

Lemma prints_report c : words_ok c -> prints (N := N) (s0 := s) (trap_print_tc print c) (trap_report c).
Proof using HT.
  intros (H1 & H2 & H3 & _). pose proof (tr_fuel _ _ _ HT) as Hf. unfold trap_print_tc, trap_report.
  repeat apply prints_bind; try (apply (prints_plain Hf (chars_of (text _))); reflexivity); try (apply prints_hex; [exact Hf|lia]).
  apply (prints_text Hf [10]); repeat constructor; lia.
Qed.

(** *** The timer *)

(** A user thread that was interrupted gives way if another thread can run. *)
Definition preempts (c : trap_context) (k : sched) : bool :=
  (Z.land c.(tc_sstatus) SSTATUS_SPP =? 0) && bool_decide ((t_kind <$> k.(tasks) !! k.(tp)) = Some THREAD_USER) && bool_decide (run_queue k <> []).

Lemma wp_preempt (s1 : ksys) c Q :
  sched_ok s1.(k_sched) -> irq s1.(k_sched) = false ->
  Q tt (if preempts c s1.(k_sched) then set_k_sched (set_need_resched 1 s1.(k_sched)) s1 else s1) ->
  wp (when (Z.land c.(tc_sstatus) SSTATUS_SPP =? 0)
       (task ← zoom thread_current;
        if task =? 0 then mret tt
        else
          x ← zoom (task_get task);
          if bool_decide (x.(t_kind) = THREAD_USER) then
            more ← zoom thread_has_runnable_tasks;
            when more (zoom thread_request_resched)
          else mret tt)) Q s1.
Proof using.
  intros Hs Hi HQ. destruct (current_task _ Hs) as (x & Hx & Hne). unfold preempts in HQ. rewrite Hx in HQ. pose proof Hs as [g HI].
  assert (Eu : bool_decide ((t_kind <$> Some x) = Some THREAD_USER) = bool_decide (t_kind x = THREAD_USER)).
  { apply bool_decide_ext. split; [intros E; by apply (inj Some) in E|by intros <-]. }
  rewrite Eu in HQ. assert (Es : set_k_sched (k_sched s1) s1 = s1) by (by destruct s1).
  destruct (Z.land (tc_sstatus c) SSTATUS_SPP =? 0); cbn [when andb] in *; [|by apply wp_ret].
  apply wp_bind, wp_threads, (wp_current HI). change (tp (erase (k_sched s1))) with (tp (k_sched s1)). rewrite (proj2 (Z.eqb_neq _ 0) Hne), Es.
  apply wp_bind, wp_threads. eapply wp_access; [exact Hx|]. rewrite Es. destruct (bool_decide (t_kind x = THREAD_USER)); cbn [andb] in *; [|by apply wp_ret].
  apply wp_bind, wp_threads, wp_has_runnable; [done|done|]. rewrite Es. destruct (bool_decide (run_queue _ <> [])); cbn [when]; [|by apply wp_ret].
  by apply wp_threads, wp_quiet_resched.
Qed.

(** The source is off until the bottom half has run, which is pending. *)
Definition timer_noted : ksys := set_pending (Z.lor s.(pending) (2 ^ bh_code BH_TIMER)) (recorded TRACE_TIMER_TOP 0 (set_sie_timer false s)).

Lemma noted_ok : uart_ok timer_noted.
Proof using HT.
  destruct (tr_uart _ _ _ HT) as [H1 H2 H3 H4 H5 H6]. constructor; try done. apply (recorded_ok TRACE_TIMER_TOP 0 (set_sie_timer false s)). exact H6.
Qed.

Lemma wp_trap_timer c Q :
  (forall s', uart_ok s' -> s' = (if preempts c s.(k_sched) then set_k_sched (set_need_resched 1 s.(k_sched)) timer_noted else timer_noted) -> Q tt s') ->
  wp (trap_timer c) Q s.
Proof using HT.
  intros HQ. pose proof noted_ok as Hok. pose proof (tr_irq _ _ _ HT) as Hi. unfold trap_timer.
  apply wp_bind. apply wp_bind, wp_modify, wp_bind, wp_trace_record; [exact (uo_trace _ (tr_uart _ _ _ HT))|]. apply wp_raise; [done|]. fold timer_noted.
  apply wp_preempt; [exact (uo_sched _ Hok)|exact Hi|]. change (k_sched timer_noted) with (k_sched s). apply HQ; [|reflexivity].
  destruct (preempts _ _); [|exact Hok]. destruct Hok as [H1 H2 H3 H4 H5 H6]. constructor; [exact H1| |exact H3|exact H4|exact H5|exact H6].
  by apply sched_ok_resched.
Qed.

(** *** The interrupt controller *)

Definition claimed (p : plic) : Z := match p.(plic_waiting) with [] => 0 | irq :: _ => u32 irq end.
(** One source was taken and, if there was one, reported as handled. *)
Definition plic_served (p : plic) : plic :=
  set_plic_completed (p.(plic_completed) ++ (if claimed p =? 0 then [] else [claimed p])) (set_plic_waiting (List.tl p.(plic_waiting)) p).

Lemma frame_plic p s1 s2 : uart_frame s1 s2 -> uart_frame (set_k_plic p s1) (set_k_plic p s2).
Proof using.
  intros [A1 A2 A3 A4 A5 A6 A7]. constructor; try done. unfold others in *. injection A2. intros. cbn. congruence.
Qed.

Lemma claim_reg p : u64 (p.(plic_base) + PLIC_CONTEXT_OFFSET + PLIC_HART0_SCTX * PLIC_CONTEXT_STRIDE + PLIC_CLAIM_COMPLETE_OFFSET) = CLAIM_REG p.
Proof using. unfold CLAIM_REG. f_equal. unfold PLIC_CONTEXT_OFFSET, PLIC_HART0_SCTX, PLIC_CONTEXT_STRIDE, PLIC_CLAIM_COMPLETE_OFFSET. lia. Qed.

Lemma wp_plic_claim (s1 : ksys) Q : Q (claimed s1.(k_plic)) (set_k_plic (set_plic_waiting (List.tl s1.(k_plic).(plic_waiting)) s1.(k_plic)) s1) -> wp plic_claim Q s1.
Proof using.
  intros HQ. apply wp_bind, wp_bind, wp_gets, wp_ret. rewrite claim_reg. apply wp_bind, wp_gets. rewrite Z.eqb_refl. unfold claimed in HQ.
  destruct (plic_waiting (k_plic s1)) as [|irq rest] eqn:E; [|by apply wp_bind, wp_modify, wp_ret]. apply wp_ret. cbn [List.tl] in HQ. rewrite <- E in HQ.
  assert (Ep : forall q : plic, set_plic_waiting q.(plic_waiting) q = q) by (by intros []). assert (Es : set_k_plic (k_plic s1) s1 = s1) by (by destruct s1).
  rewrite Ep, Es in HQ. exact HQ.
Qed.

Lemma wp_plic_complete (s1 : ksys) irq Q :
  0 <= irq < 2 ^ 32 -> Q tt (set_k_plic (set_plic_completed (s1.(k_plic).(plic_completed) ++ [irq]) s1.(k_plic)) s1) -> wp (plic_complete irq) Q s1.
Proof using.
  intros Hi HQ. apply wp_bind, wp_bind, wp_gets, wp_ret. rewrite claim_reg. apply wp_modify. by rewrite Z.eqb_refl, u32_id.
Qed.

Lemma wp_trap_external Q :
  (forall s', uart_ok s' -> uart_frame (set_k_plic (plic_served s.(k_plic)) s) s' ->
     line_of s' = (if claimed s.(k_plic) =? s.(k_uart).(uart_irq_number) then irq_top (settings s) (line_of s) else line_of s) -> Q tt s') ->
  wp trap_external Q s.
Proof using HT.
  intros HQ. pose proof (tr_uart _ _ _ HT) as Hok. unfold trap_external. set (irq := claimed (k_plic s)) in *.
  assert (Hirq : 0 <= irq < 2 ^ 32) by (unfold irq, claimed; destruct (plic_waiting _); [lia|apply u32_range]).
  apply wp_bind, wp_plic_claim. fold irq. set (p1 := set_plic_waiting _ _). set (s1 := set_k_plic p1 s).
  assert (Hok1 : uart_ok s1) by (destruct Hok as [H1 H2 H3 H4 H5 H6]; constructor; [exact H1|exact H2|exact H3|exact H4|exact H5|exact H6]).
  apply wp_bind, wp_gets. change (uart_irq_number (k_uart s1)) with (uart_irq_number (k_uart s)).
  assert (Hend : forall s2, uart_ok s2 -> uart_frame s1 s2 ->
     line_of s2 = (if irq =? s.(k_uart).(uart_irq_number) then irq_top (settings s) (line_of s) else line_of s) -> wp (when (negb (irq =? 0)) (plic_complete irq)) Q s2).
  { intros s2 Hok2 F2 El. assert (Ep : k_plic s2 = p1) by (pose proof (uf_others _ _ F2) as E; unfold others in E; by injection E).
    assert (Fs : forall q, uart_frame (set_k_plic q s) (set_k_plic q s2)) by (intros q; exact (frame_plic q s1 s2 F2)).
    assert (Hq : forall q, uart_ok (set_k_plic q s2)) by (intros q; destruct Hok2 as [H1 H2 H3 H4 H5 H6]; constructor; [exact H1|exact H2|exact H3|exact H4|exact H5|exact H6]).
    unfold plic_served in HQ. fold irq p1 in HQ. destruct (irq =? 0); cbn [negb when].
    - apply wp_ret, HQ; [done| |done]. assert (E1 : set_plic_completed (plic_completed (k_plic s) ++ []) p1 = p1) by (rewrite app_nil_r; unfold p1; by destruct (k_plic s)).
      rewrite E1. assert (E2 : set_k_plic p1 s2 = s2) by (rewrite <- Ep; by destruct s2). rewrite <- E2. apply Fs.
    - apply wp_plic_complete; [done|]. rewrite Ep. apply HQ; [apply Hq|apply Fs|exact El]. }
  apply wp_bind. destruct (irq =? uart_irq_number (k_uart s)); cbn [when].
  - eapply wp_mono; [apply (steps_irq_top (settings s1) (line_of s1) s1 Hok1 eq_refl eq_refl)|]. intros [] s2 (Hok2 & F2 & _ & El). by apply Hend.
  - apply wp_ret, Hend; [done|apply uart_frame_refl|done].
Qed.

(** *** Traps of a user program *)

Definition message (t : string) : list Z := chars_of (text t) ++ [13; 10].

Section user.
Context {l : list Z} {task tgid tc : Z} {p : thread} {c : trap_context} {good : ksys -> Prop} {out got : ksys -> list Z}.
Context `{HC : !UserConsole task tgid send recv good out got}.
Context (HA : ecall_args lo l task tgid tc p c good s) (Hgood : forall s', uart_ok s' -> uart_frame s s' -> good s') (Hw : words_ok c).

(** What was sent since [s]: exactly [t], and the driver's state is all that changed. *)
Definition reported (t : list Z) (s1 : ksys) : Prop := uart_ok s1 /\ uart_frame s s1 /\ stream (line_of s1) = stream (line_of s) ++ t.

(** A fault: it is reported, and the thread, and no other, ends. *)
Definition fault_outcome (s' : ksys) : Prop :=
  exists s1 c', reported (trap_report c ++ message "[trap] user fault, terminate") s1 /\
    threads_stopped (fun u => u =? task) 0 s1.(k_sched) c' /\ s' = set_k_sched c' s1.

Lemma wp_user_fault Q : (forall s', sched_ok s'.(k_sched) -> fault_outcome s' -> Q tt s') -> wp (handle_user_fault print c) Q s.
Proof using HA HT Hgood Hw.
  intros HQ. pose proof (tr_fuel _ _ _ HT) as Hf. unfold handle_user_fault. apply wp_bind, (prints_report c Hw); [apply printing_start|]. intros s1 H1 E1.
  apply wp_bind, (prints_line (s0 := s) Hf (chars_of (text "[trap] user fault, terminate"))); [reflexivity|exact H1|]. intros s2 [[Hok2 [_ _]] F2] E2.
  destruct (frame_ecall_args _ _ _ _ _ _ _ _ _ _ HA Hok2 F2 (Hgood _ Hok2 F2)) as (p' & HA' & _).
  destruct (caller HA') as (Hu & Hp & Hl & _). apply wp_threads. pose proof Hu as ([g HI] & Htp & x & Hx & Hk & _). rewrite Hp in Hx. injection Hx as <-.
  destruct (wp_current_user _ _ _ (fun _ _ => True) Hu) as [Hne _]. unfold user_mark_exit. apply wp_bind, (wp_current HI).
  change (tp (erase (k_sched s2))) with (tp (k_sched s2)). rewrite Htp, (proj2 (Z.eqb_neq task 0) Hne). apply wp_bind. eapply wp_access; [exact Hp|].
  rewrite bool_decide_false by (intros H; exact (H Hk)). apply (wp_mark_current Hu Hp). intros c' Hok' Hs. apply HQ; [exact Hok'|]. exists s2, c'.
  split; [|exact (conj Hs eq_refl)]. split; [exact Hok2|]. split; [exact F2|]. rewrite E2, E1, <- app_assoc. done.
Qed.

(** A call: for the thread selected for the exercise it is reported and skipped;
    otherwise the dispatcher is run, after a report if calls are traced. *)
Definition call_outcome (s' : ksys) : Prop :=
  if p.(t_tid) =? s.(ecall_demo_tid) then
    exists s1, reported (trap_report c ++ chars_of (text "[trap] lab ecall a7=") ++ dec_list c.(tc_a7) ++ [13; 10]) s1 /\
      s' = with_regs tc (set_tc_sepc (u64 (c.(tc_sepc) + 4)) c) s1
  else
    exists s1 p', (if s.(trace_ecalls) =? 0 then s1 = s else reported (trap_report c) s1) /\
      s1.(k_sched).(tasks) !! task = Some p' /\ lasting p' = lasting p /\ ecall_outcome lo good out got s1 l task tgid tc p' c s'.

Lemma wp_demo_ecall Q :
  (forall s', sched_ok s'.(k_sched) -> call_outcome s' -> Q tt s') -> (p.(t_tid) =? s.(ecall_demo_tid)) = true ->
  wp (trap_print_tc print c ;; uart_send_string print (text "[trap] lab ecall a7=") ;; uart_send_dec print c.(tc_a7) ;; uart_send_string print (text_line "") ;;
      zoom (tc_upd tc (fun c => set_tc_sepc (u64 (c.(tc_sepc) + 4)) c))) Q s.
Proof using HA HT Hgood Hw.
  intros HQ Ed. pose proof (tr_fuel _ _ _ HT) as Hf. pose proof Hw as (_ & _ & _ & H7). apply wp_bind, (prints_report c Hw); [apply printing_start|]. intros s1 H1 E1.
  apply wp_bind, (prints_plain (s0 := s) Hf (chars_of (text "[trap] lab ecall a7="))); [reflexivity|exact H1|]. intros s2 H2 E2.
  apply wp_bind, (prints_dec (s0 := s) Hf _ H7); [exact H2|]. intros s3 H3 E3.
  apply wp_bind, (prints_line (s0 := s) Hf []); [reflexivity|exact H3|]. intros s4 [[Hok4 _] F4] E4. apply wp_threads.
  pose proof (uf_threads _ _ F4) as (Et & _ & _). destruct (caller HA) as (_ & _ & _ & _ & Hpc). rewrite <- Et in Hpc.
  eapply wp_tc_set; [exact Hpc|]. apply HQ; [exact (sched_ok_tcs _ _ _ _ (uo_sched _ Hok4) Hpc)|]. unfold call_outcome. rewrite Ed. exists s4.
  split; [|reflexivity]. split; [exact Hok4|]. split; [exact F4|]. rewrite E4, E3, E2, E1, <- !app_assoc. done.
Qed.

Lemma wp_trap_ecall Q : (forall s', sched_ok s'.(k_sched) -> call_outcome s' -> Q tt s') -> wp (trap_ecall print send recv lo tc c) Q s.
Proof using HA HC HT Hgood Hw.
  intros HQ. destruct (caller HA) as (Hu & Hp & _). pose proof Hu as ([g HI] & Htp & _). destruct (wp_current_user _ _ _ (fun _ _ => True) Hu) as [Hne _].
  assert (Es : set_k_sched (k_sched s) s = s) by (by destruct s). unfold trap_ecall.
  apply wp_bind, wp_threads, (wp_current HI). change (tp (erase (k_sched s))) with (tp (k_sched s)). rewrite Htp, Es.
  apply wp_bind, wp_gets. rewrite (proj2 (Z.eqb_neq task 0) Hne). apply wp_bind, wp_bind, wp_threads. eapply wp_access; [exact Hp|]. rewrite Es. apply wp_ret.
  destruct (t_tid p =? ecall_demo_tid s) eqn:Ed; [by apply wp_demo_ecall|]. apply wp_bind, wp_gets.
  assert (Hend : forall s1, uart_ok s1 -> uart_frame s s1 -> (if s.(trace_ecalls) =? 0 then s1 = s else reported (trap_report c) s1) ->
    wp (handle_user_ecall send recv lo tc) Q s1).
  { intros s1 Hok1 F1 Ht. destruct (frame_ecall_args _ _ _ _ _ _ _ _ _ _ HA Hok1 F1 (Hgood _ Hok1 F1)) as (p' & HA' & El). destruct (caller HA') as (_ & Hp' & _).
    apply (wp_ecall HA'). intros s' Hok' Ho. apply HQ; [exact Hok'|]. unfold call_outcome. rewrite Ed. exists s1, p'. exact (conj Ht (conj Hp' (conj El Ho))). }
  apply wp_bind. destruct (trace_ecalls s =? 0); cbn [negb when].
  - apply wp_ret, Hend; [exact (tr_uart _ _ _ HT)|apply uart_frame_refl|reflexivity].
  - apply (prints_report c Hw); [apply printing_start|]. intros s1 [[Hok1 _] F1] E1. apply Hend; [exact Hok1|exact F1|]. exact (conj Hok1 (conj F1 E1)).
Qed.
End user.
End dispatch.

(** ** The theorems *)

(** C34: interrupts are acknowledged exactly once and their work is left to the
    bottom halves.  [trap_dispatch] returns, and: a timer interrupt turns its
    source off, is recorded, makes the timer's bottom half pending and asks for a
    switch exactly if it interrupted a user thread while another thread can run,
    and changes nothing else; an external interrupt takes exactly one source from
    the controller, runs the driver's top half exactly if that source is the serial
    port, reports exactly that source as handled (none, if there was none), and
    leaves threads, heap and memory alone; any other interrupt is only reported. *)
Theorem trap_interrupts_exact (N fuel : nat) send recv lo tc c s :
  trap_ready N fuel s -> tc <> 0 -> s.(k_sched).(tcs) !! tc = Some c -> words_ok c -> trap_is_interrupt c.(tc_scause) = true ->
  exists s', trap_dispatch (poll_send fuel) send recv lo tc s = Some (Returns, s') /\ uart_ok s' /\
    if trap_scause_code c.(tc_scause) =? SCAUSE_S_TIMER_INT then
      s' = (if preempts c s.(k_sched) then set_k_sched (set_need_resched 1 s.(k_sched)) (timer_noted (s := s)) else timer_noted (s := s))
    else if trap_scause_code c.(tc_scause) =? SCAUSE_S_EXT_INT then
      uart_frame (set_k_plic (plic_served s.(k_plic)) s) s' /\
      line_of s' = (if claimed s.(k_plic) =? s.(k_uart).(uart_irq_number) then irq_top (settings s) (line_of s) else line_of s)
    else uart_frame s s' /\ stream (line_of s') = stream (line_of s) ++ message "[trap] unhandled interrupt" ++ trap_report c.
Proof.
  intros HT Hne Htc Hw Hint. pose proof (tr_fuel _ _ _ HT) as Hf.
  match goal with |- exists s', _ /\ ?P => enough (Hwp : wp (trap_dispatch (poll_send fuel) send recv lo tc) (fun r s' => r = Returns /\ P) s) end.
  { destruct (wp_run _ _ _ Hwp) as (r & s' & E & -> & H). by exists s'. }
  unfold trap_dispatch. rewrite (proj2 (Z.eqb_neq tc 0) Hne). apply wp_bind, wp_threads. eapply wp_access; [exact Htc|].
  replace (set_k_sched (k_sched s) s) with s by (by destruct s). rewrite Hint.
  destruct (trap_scause_code _ =? SCAUSE_S_TIMER_INT); [|destruct (trap_scause_code _ =? SCAUSE_S_EXT_INT)].
  - apply wp_bind, (wp_trap_timer HT). intros s' Hok' E. apply wp_ret. exact (conj eq_refl (conj Hok' E)).
  - apply wp_bind, (wp_trap_external HT). intros s' Hok' F El. apply wp_ret. exact (conj eq_refl (conj Hok' (conj F El))).
  - apply wp_bind, (prints_line (s0 := s) Hf (chars_of (text "[trap] unhandled interrupt"))); [reflexivity|apply (printing_start HT)|]. intros s1 H1 E1.
    apply wp_bind, (prints_report HT c Hw); [exact H1|]. intros s2 [[Hok2 _] F2] E2. apply wp_ret.
    refine (conj eq_refl (conj Hok2 (conj F2 _))). rewrite E2, E1, <- app_assoc. done.
Qed.

(** C35: faults and calls are contained.  When a user thread traps with an
    exception, [trap_dispatch] returns with the threads, queues and heaps sound.
    A call, after a report exactly if calls are traced, has the effect that
    [ecall_outcome] gives for its number; for the thread selected for the exercise
    it is reported and skipped instead, and only its program counter changes.  Any
    other exception is reported and then ends exactly the thread that caused it:
    it becomes a zombie with status 0 and leaves the run queue; no other thread,
    of its process or of another, no register and no memory changes with it.
    Only an exception of the kernel itself stops the machine: it is reported
    with interrupts off and nothing else changes. *)
Theorem trap_exceptions_contained (N fuel : nat) send recv lo tc c s :
  trap_ready N fuel s -> tc <> 0 -> s.(k_sched).(tcs) !! tc = Some c -> words_ok c -> trap_is_interrupt c.(tc_scause) = false ->
  (forall l task tgid p good out got, UserConsole task tgid send recv good out got -> ecall_args lo l task tgid tc p c good s ->
     (forall s', uart_ok s' -> uart_frame s s' -> good s') -> Z.land c.(tc_sstatus) SSTATUS_SPP = 0 ->
     exists s', trap_dispatch (poll_send fuel) send recv lo tc s = Some (Returns, s') /\ sched_ok s'.(k_sched) /\
       if trap_scause_code c.(tc_scause) =? SCAUSE_U_ECALL then
         call_outcome (lo := lo) (s := s) (l := l) (task := task) (tgid := tgid) (tc := tc) (p := p) (c := c) (good := good) (out := out) (got := got) s'
       else fault_outcome (s := s) (task := task) (c := c) s') /\
  (trap_scause_code c.(tc_scause) <> SCAUSE_U_ECALL -> Z.land c.(tc_sstatus) SSTATUS_SPP <> 0 ->
     exists s', trap_dispatch (poll_send fuel) send recv lo tc s = Some (Halts, s') /\ k_irq s' = false /\ uart_frame s s' /\
       stream (line_of s') = stream (line_of s) ++ message "[trap] fatal kernel fault" ++ trap_report c).
Proof.
  intros HT Hne Htc Hw Hint. pose proof (tr_fuel _ _ _ HT) as Hf.
  assert (Hgo : forall Q, (wp (if trap_scause_code (tc_scause c) =? SCAUSE_U_ECALL then trap_ecall (poll_send fuel) send recv lo tc c ;; mret Returns
    else if negb (Z.land (tc_sstatus c) SSTATUS_SPP =? 0) then
      zoom irq_disable ;; uart_send_string (poll_send fuel) (text_line "[trap] fatal kernel fault") ;; trap_print_tc (poll_send fuel) c ;; mret Halts
    else handle_user_fault (poll_send fuel) c ;; mret Returns) Q s) -> wp (trap_dispatch (poll_send fuel) send recv lo tc) Q s).
  { intros Q H. unfold trap_dispatch. rewrite (proj2 (Z.eqb_neq tc 0) Hne). apply wp_bind, wp_threads. eapply wp_access; [exact Htc|].
    replace (set_k_sched (k_sched s) s) with s by (by destruct s). rewrite Hint. exact H. }
  split.
  - intros l task tgid p good out got HC HA Hgood Hspp.
    match goal with |- exists s', _ /\ ?P => enough (Hwp : wp (trap_dispatch (poll_send fuel) send recv lo tc) (fun r s' => r = Returns /\ P) s) end.
    { destruct (wp_run _ _ _ Hwp) as (r & s' & E & -> & H). by exists s'. }
    apply Hgo. rewrite Hspp. cbn [Z.eqb negb]. destruct (trap_scause_code _ =? SCAUSE_U_ECALL).
    + apply wp_bind, (wp_trap_ecall HT HA Hgood Hw). intros s' Hok' Ho. apply wp_ret. exact (conj eq_refl (conj Hok' Ho)).
    + apply wp_bind, (wp_user_fault HT HA Hgood Hw). intros s' Hok' Ho. apply wp_ret. exact (conj eq_refl (conj Hok' Ho)).
  - intros Hcode Hspp.
    match goal with |- exists s', _ /\ ?P => enough (Hwp : wp (trap_dispatch (poll_send fuel) send recv lo tc) (fun r s' => r = Halts /\ P) s) end.
    { destruct (wp_run _ _ _ Hwp) as (r & s' & E & -> & H). by exists s'. }
    apply Hgo. rewrite (proj2 (Z.eqb_neq _ _) Hcode), (proj2 (Z.eqb_neq _ 0) Hspp). cbn [negb].
    assert (Ei : set_k_irq false s = s) by (rewrite <- (tr_irq _ _ _ HT); apply set_k_irq_self).
    apply wp_bind. change (wp (modify (set_k_irq false)) (fun _ s' => wp (uart_send_string (poll_send fuel) (text_line "[trap] fatal kernel fault") ;;
      trap_print_tc (poll_send fuel) c ;; mret Halts) (fun r s' => r = Halts /\ (k_irq s' = false /\ uart_frame s s' /\
      stream (line_of s') = stream (line_of s) ++ message "[trap] fatal kernel fault" ++ trap_report c)) s') s). apply wp_modify. rewrite Ei.
    apply wp_bind, (prints_line (s0 := s) Hf (chars_of (text "[trap] fatal kernel fault"))); [reflexivity|apply (printing_start HT)|]. intros s1 H1 E1.
    apply wp_bind, (prints_report HT c Hw); [exact H1|]. intros s2 [[Hok2 [Hi2 _]] F2] E2. apply wp_ret.
    refine (conj eq_refl (conj Hi2 (conj F2 _))). rewrite E2, E1, <- app_assoc. done.
Qed.

(** ** The small user thread traps *)

Lemma demo_trap_ready c m pl :
  sched_ok c -> irq c = false -> is_queue c.(queues) 1024 -> trap_ready 1 129 (set_k_plic pl (set_k_mem m (set_k_sched c demo_ksys))).
Proof.
  intros Hc Hi Hq. constructor; [|exact Hi| |lia].
  - constructor; [exact demo_rings_good|exact Hc|exact Hq|exact Hq| |exact demo_trace_ok]. vm_compute. split; [discriminate|reflexivity].
  - intros n. exists 0%nat. split; [lia|reflexivity].
Qed.

Lemma demo_user_quiet : irq demo_user = false /\ is_queue demo_user.(queues) 1024.
Proof. split; [vm_compute; reflexivity|vm_compute; by eexists]. Qed.

Lemma demo_tc_zero : exists pc, demo_user.(tcs) !! demo_tc = Some pc /\ words_ok pc /\ (pc.(tc_scause), Z.land pc.(tc_sstatus) SSTATUS_SPP) = (0, 0).
Proof. eexists. split; [vm_compute; reflexivity|]. vm_compute. split_and!; congruence. Qed.

Lemma demo_tc_nonzero : demo_tc <> 0.
Proof. vm_compute. discriminate. Qed.

Definition with_cause (v : Z) (c : trap_context) : trap_context :=
  mkTrapContext c.(tc_ra) c.(tc_sp) c.(tc_gp) c.(tc_tp) c.(tc_t0) c.(tc_t1) c.(tc_t2) c.(tc_s0) c.(tc_s1) c.(tc_a0) c.(tc_a1)
    c.(tc_a2) c.(tc_a3) c.(tc_a4) c.(tc_a5) c.(tc_a6) c.(tc_a7) c.(tc_s2) c.(tc_s3) c.(tc_s4) c.(tc_s5) c.(tc_s6) c.(tc_s7)
    c.(tc_s8) c.(tc_s9) c.(tc_s10) c.(tc_s11) c.(tc_t3) c.(tc_t4) c.(tc_t5) c.(tc_t6) c.(tc_sepc) c.(tc_sstatus) v c.(tc_stval).

(** The serial port, source 10, interrupts it. *)
Definition demo_interrupted : ksys :=
  set_k_plic (mkPlic 0x0c000000 ∅ [10] [])
    (set_k_mem (mkCmem ∅ ∅ ∅) (set_k_sched (after (tc_upd demo_tc (with_cause (2 ^ 63 + 9))) demo_user) demo_ksys)).

Lemma tc_upd_run tc f pc (c : sched) : c.(tcs) !! tc = Some pc -> tc_upd tc f c = Some (tt, set_tcs (<[tc := f pc]> c.(tcs)) c).
Proof. intros H. unfold tc_upd, update. cbn. by rewrite H. Qed.

Lemma after_tc_upd tc f pc (c : sched) :
  sched_ok c -> c.(tcs) !! tc = Some pc ->
  let c' := after (tc_upd tc f) c in sched_ok c' /\ c'.(tcs) !! tc = Some (f pc) /\ irq c' = irq c /\ c'.(queues) = c.(queues).
Proof.
  intros Hc H. unfold after. rewrite (tc_upd_run tc f pc c H). cbn [snd default fmap option_fmap option_map]. split_and!; [|apply lookup_insert_eq|done|done].
  exact (sched_ok_tcs c tc pc (f pc) Hc H).
Qed.

Lemma trap_interrupts_exact_witness :
  exists s', trap_dispatch (poll_send 129) demo_send demo_recv demo_sys_locals demo_tc demo_interrupted = Some (Returns, s') /\
    (s'.(k_plic).(plic_waiting), s'.(k_plic).(plic_completed)) = ([], [10]).
Proof.
  destruct demo_tc_zero as (pc & Hpc & (_ & H2 & H3 & H4) & _). destruct demo_user_quiet as [Hi Hq]. unfold demo_interrupted.
  destruct (after_tc_upd demo_tc (with_cause (2 ^ 63 + 9)) pc demo_user demo_user_ok Hpc) as (Hc & Htc & Ei & Eq). rewrite Hi in Ei. rewrite <- Eq in Hq.
  set (pc' := with_cause (2 ^ 63 + 9) pc) in *. generalize dependent (after (tc_upd demo_tc (with_cause (2 ^ 63 + 9))) demo_user). intros c Hqc Hc Htc Hic _.
  assert (Hw : words_ok pc') by (refine (conj _ (conj H2 (conj H3 H4))); unfold pc'; cbn [tc_scause with_cause]; lia).
  assert (Hint : trap_is_interrupt (tc_scause pc') = true /\ trap_scause_code (tc_scause pc') = 9).
  { change (tc_scause pc') with (2 ^ 63 + 9). split; vm_compute; reflexivity. }
  destruct Hint as [Hint E9]. clearbody pc'.
  destruct (trap_interrupts_exact 1 129 demo_send demo_recv demo_sys_locals demo_tc pc' _ (demo_trap_ready c (mkCmem ∅ ∅ ∅) (mkPlic 0x0c000000 ∅ [10] []) Hc Hic Hqc)
    demo_tc_nonzero Htc Hw Hint) as (s' & E & _ & H). exists s'. split; [exact E|]. rewrite E9 in H. destruct H as [F _].
  pose proof (uf_others _ _ F) as Eo. unfold others in Eo. injection Eo as _ _ _ _ _ _ _ _ _ _ _ _ _ _ _ _ Ep _ _ _ _ _. rewrite Ep. reflexivity.
Defined.

Lemma kernel_sched b : k_sched (demo_kernel b) = demo_user.
Proof. unfold demo_kernel. generalize demo_user demo_ksys. reflexivity. Qed.

Lemma kernel_ready b : trap_ready 1 129 (demo_kernel b).
Proof.
  pose proof demo_user_ok as Hc. destruct demo_user_quiet as [Hi Hq]. unfold demo_kernel. revert Hc Hi Hq. generalize demo_user. intros c Hc Hi Hq.
  constructor; [|exact Hi| |lia].
  - constructor; [exact demo_rings_good|exact Hc|exact Hq|exact Hq| |exact demo_trace_ok]. vm_compute. split; [discriminate|reflexivity].
  - intros n. exists 0%nat. split; [lia|reflexivity].
Qed.

Lemma kernel_faulted b p pc : ecall_args demo_sys_locals [] demo_task 1 demo_tc p pc (saved_calling demo_task 1 demo_tc pc) (demo_kernel b) ->
  words_ok pc /\ tc_scause pc = 0 /\ Z.land (tc_sstatus pc) SSTATUS_SPP = 0 /\ (demo_kernel b).(k_sched).(tcs) !! demo_tc = Some pc.
Proof.
  intros HA. destruct (caller HA) as (_ & _ & _ & _ & Hpc). pose proof Hpc as H. rewrite kernel_sched in H.
  destruct demo_tc_zero as (pc0 & Hpc0 & Hw & Hz). rewrite Hpc0 in H. apply (inj Some) in H. subst pc0. injection Hz as E1 E2. by split_and!.
Qed.

(** The small user thread faults: its trap context says cause 0 from user mode. *)
Lemma trap_exceptions_contained_witness :
  exists s' pc, trap_dispatch (poll_send 129) demo_send demo_recv demo_sys_locals demo_tc
    (demo_kernel (demo_kernel_bytes (USER_CODE_BASE (qemu demo_user)) USER_CODE_SIZE)) = Some (Returns, s') /\ sched_ok s'.(k_sched) /\
    fault_outcome (s := demo_kernel (demo_kernel_bytes (USER_CODE_BASE (qemu demo_user)) USER_CODE_SIZE)) (task := demo_task) (c := pc) s'.
Proof.
  pose proof (demo_kernel_bytes_at (USER_CODE_BASE (qemu demo_user)) USER_CODE_SIZE) as Hb. set (b := demo_kernel_bytes _ _) in *. clearbody b.
  destruct (demo_ecall_args b) as (p & pc & _ & HA); [exact Hb|]. destruct (kernel_faulted b p pc HA) as (Hw & Ez1 & Ez2 & Hpc).
  pose proof (kernel_ready b) as HT. assert (Hint : trap_is_interrupt (tc_scause pc) = false) by (rewrite Ez1; reflexivity).
  pose proof (saved_console demo_task 1 demo_tc pc) as HC. pose proof demo_tc_nonzero as Hne. set (s := demo_kernel b) in *. clearbody s.
  generalize dependent demo_sys_locals. generalize dependent demo_task. generalize dependent demo_tc. intros tc Hpc Hne task HC lo HA.
  destruct (trap_exceptions_contained 1 129 demo_send demo_recv lo tc pc s HT Hne Hpc Hw Hint) as [H _].
  destruct (H [] task 1 p (saved_calling task 1 tc pc) _ _ HC HA) as (s' & E & Hok & Ho); [|exact Ez2|].
  - intros s' Hok F. destruct (ea_good _ _ _ _ _ _ _ _ _ HA) as [Hc Ht]. split; [exact (frame_calling _ _ _ _ Hc Hok F)|].
    rewrite (proj1 (uf_threads _ _ F)). exact Ht.
  - exists s', pc. split; [exact E|]. split; [exact Hok|]. rewrite Ez1 in Ho. exact Ho.
Defined.
