(* ===== verification/Shell.v ===== *)
(** * The command line ([shell.c])

    Reading and editing a line, trimming it, taking it apart, and parsing a time.
    The kernel and the boot loader have the same line editor, so it is defined for
    any state that holds memory, with the functions of the serial driver as
    arguments.  Characters are unsigned. *)

From S2P Require Import Prelude Str.

Open Scope Z_scope.

Definition KEY_BACKSPACE : Z := 127.

Definition is_space (c : Z) : bool := (c =? 32) || (c =? 9) || (c =? 13) || (c =? 10).

(** Enough rounds for a walk over readable memory. *)
Definition mem_fuel : M bmem nat := gets (fun m => S (size m)).

(** [while (is_space( *p)) p++]. *)
Definition skip_spaces (p : Z) : M bmem Z :=
  fuel ← mem_fuel;
  loop fuel (fun p => c ← char_at (CPtr p) 0; mret (if is_space c then inl (p + 1) else inr p)) p.

(** The first half of [trim_in_place]: the string at [p] moves to [dst]. *)
Definition shift_string (dst p : Z) : M bmem unit :=
  fuel ← mem_fuel;
  dst ← loop fuel
    (fun '(dst, p) =>
       c ← char_at (CPtr p) 0;
       if negb (c =? 0) then store dst c ;; mret (inl (dst + 1, p + 1)) else mret (inr dst))
    (dst, p);
  store dst 0.

Definition trim_in_place (s : Z) : M bmem unit :=
  p ← skip_spaces s;
  when (negb (p =? s)) (shift_string s p) ;;
  len ← strlen (CPtr s);
  fuel ← mem_fuel;
  loop fuel
    (fun len =>
       if 0 <? len then
         c ← char_at (CPtr s) (len - 1);
         if is_space c then store (s + (len - 1)) 0 ;; mret (inl (len - 1)) else mret (inr tt)
       else mret (inr tt))
    (u32 len).

(** The command and the argument, which is null if there is none. *)
Definition split_first_arg (line : Z) : M bmem (Z * Z) :=
  p ← skip_spaces line;
  let cmd := p in
  fuel ← mem_fuel;
  p ← loop fuel
    (fun p =>
       c ← char_at (CPtr p) 0;
       mret (if negb (c =? 0) && negb (is_space c) then inl (p + 1) else inr p))
    p;
  c ← char_at (CPtr p) 0;
  p ← (if negb (c =? 0) then store p 0 ;; mret (p + 1) else mret p);
  p ← skip_spaces p;
  c ← char_at (CPtr p) 0;
  mret (cmd, if c =? 0 then 0 else p).

(** ** Times *)

Record seconds := mkSeconds {
  sc_whole : Z;
  sc_frac : Z;
  sc_scale : Z;
  sc_dot : bool;
  sc_digit : bool;
}.

(** One character; [None] is the return of -1. *)
Definition seconds_step (st : seconds) (c : Z) : option seconds :=
  if c =? 46 then
    if st.(sc_dot) then None else Some (mkSeconds st.(sc_whole) st.(sc_frac) st.(sc_scale) true st.(sc_digit))
  else if (c <? 48) || (57 <? c) then None
  else
    let d := c - 48 in
    if negb st.(sc_dot) then
      if (UINT64_MAX - d) / 10 <? st.(sc_whole) then None
      else Some (mkSeconds (u64 (u64 (st.(sc_whole) * 10) + d)) st.(sc_frac) st.(sc_scale) st.(sc_dot) true)
    else if 1000 <=? st.(sc_scale) then None
    else Some (mkSeconds st.(sc_whole) (u64 (u64 (st.(sc_frac) * 10) + d)) (u64 (st.(sc_scale) * 10)) st.(sc_dot) true).

(** The values stored in [ticks_out] and [whole_out]; [None] is -1. *)
Definition parse_seconds_to_ticks (timebase_frequency : Z) (s : Z) : M bmem (option (Z * Z)) :=
  if s =? 0 then mret None
  else
    first ← char_at (CPtr s) 0;
    if (first =? 0) || (timebase_frequency =? 0) then mret None
    else
      fuel ← mem_fuel;
      r ← loop fuel
        (fun '(i, st) =>
           c ← char_at (CPtr s) i;
           if c =? 0 then mret (inr (Some st))
           else mret (match seconds_step st c with Some st' => inl (u32 (i + 1), st') | None => inr None end))
        (0, mkSeconds 0 0 1 false false);
      mret (match r with
            | None => None
            | Some st =>
                if negb st.(sc_digit) then None
                else
                  let fraction_ticks := u64 (st.(sc_frac) * timebase_frequency) / st.(sc_scale) in
                  if u64 (UINT64_MAX - fraction_ticks) / timebase_frequency <? st.(sc_whole) then None
                  else Some (u64 (u64 (st.(sc_whole) * timebase_frequency) + fraction_ticks), st.(sc_whole))
            end).

(** ** Reading a line *)

Section readline.
Context {S : Type} `{HL : !Lens S bmem} (puts : cstr -> M S unit) (send : Z -> M S unit) (recv : M S Z).

Definition shell_readline (fuel : nat) (buffer max_len : Z) : M S unit :=
  loop fuel
    (fun '(idx, ignore_next_lf) =>
       c ← recv;
       if (ignore_next_lf : bool) && (c =? 10) then mret (inl (idx, false))
       else if (c =? 13) || (c =? 10) then
         puts (CLit [13; 10]) ;;
         zoom (store (buffer + idx) 0) ;;
         mret (inr tt)
       else if (c =? KEY_BACKSPACE) || (c =? 8) || (c =? 127) then
         if 0 <? idx then puts (CLit [8; 32; 8]) ;; mret (inl (idx - 1, false)) else mret (inl (idx, false))
       else if (32 <=? c) && (c <=? 126) then
         if idx <? max_len - 1 then
           zoom (store (buffer + idx) c) ;;
           send c ;;
           mret (inl (idx + 1, false))
         else mret (inl (idx, false))
       else mret (inl (idx, false)))
    (0, false).
End readline.
