(* ===== verification/ShellProps.v ===== *)
(** * Correctness of the command line

    Trimming, splitting and parsing as functions on the characters of a line, and
    the line editor as a function on the characters that arrive. *)

From S2P Require Import Prelude Str Shell.

Open Scope Z_scope.

(** ** Words of a line *)

Fixpoint ltrim (l : list Z) : list Z :=
  match l with
  | c :: l' => if is_space c then ltrim l' else l
  | [] => []
  end.
Definition rtrim (l : list Z) : list Z := rev (ltrim (rev l)).
Definition trim (l : list Z) : list Z := rtrim (ltrim l).

(** The first word and what follows it. *)
Fixpoint word (l : list Z) : list Z * list Z :=
  match l with
  | c :: l' => if is_space c then ([], l) else (c :: (word l').1, (word l').2)
  | [] => ([], [])
  end.

(** How many characters a prefix has that satisfies [f]. *)
Fixpoint run_of (f : Z -> bool) (l : list Z) : nat :=
  match l with
  | c :: l' => if f c then S (run_of f l') else O
  | [] => O
  end.

Lemma run_of_le f l : (run_of f l <= length l)%nat.
Proof. induction l as [|c l IH]; cbn; [lia|]. destruct (f c); cbn; lia. Qed.

Lemma run_of_before f l i c : (i < run_of f l)%nat -> l !! i = Some c -> f c = true.
Proof.
  revert i. induction l as [|x l IH]; intros i Hi Hc; [done|]. cbn in Hi. destruct (f x) eqn:E; [|lia].
  destruct i as [|i]; cbn in Hc; [congruence|]. apply (IH i); [lia|done].
Qed.

Lemma run_of_at f l c : l !! run_of f l = Some c -> f c = false.
Proof. induction l as [|x l IH]; [done|]. cbn. destruct (f x) eqn:E; cbn; [done|]. by intros [= <-]. Qed.

Lemma ltrim_run l : ltrim l = drop (run_of is_space l) l.
Proof. induction l as [|c l IH]; [done|]. cbn. by destruct (is_space c). Qed.

Lemma word_run l : word l = (take (run_of (fun c => negb (is_space c)) l) l, drop (run_of (fun c => negb (is_space c)) l) l).
Proof. induction l as [|c l IH]; [done|]. cbn [word run_of]. destruct (is_space c); cbn [negb]; [done|]. by rewrite IH. Qed.

Lemma ltrim_spaces l l' : Forall (fun c => is_space c = true) l -> ltrim (l ++ l') = ltrim l'.
Proof. induction 1 as [|c l Hc _ IH]; [done|]. cbn. by rewrite Hc. Qed.

Lemma rtrim_take n l : (n <= length l)%nat -> Forall (fun c => is_space c = true) (drop n l) ->
  (n = 0%nat \/ exists c, l !! pred n = Some c /\ is_space c = false) -> rtrim l = take n l.
Proof.
  intros Hn Hs Hc. unfold rtrim. rewrite <- (take_drop n l) at 1. rewrite rev_app_distr, ltrim_spaces.
  2: { apply Forall_forall. intros x Hx%list_elem_of_In%in_rev%list_elem_of_In. rewrite Forall_forall in Hs. by apply Hs. }
  destruct Hc as [->|(c & Hc & Hsc)]; [done|]. destruct n as [|n]; [done|]. cbn [pred] in Hc. rewrite (take_S_r _ _ _ Hc), rev_app_distr. cbn [rev app ltrim].
  rewrite Hsc. cbn [rev]. by rewrite rev_involutive.
Qed.

(** ** Strings in memory *)

Lemma string_suffix m p l k : (k <= length l)%nat -> string_at m (CPtr p) l -> string_at m (CPtr (p + Z.of_nat k)) (drop k l).
Proof.
  intros Hk [Hz H]. split; [by apply Forall_drop|]. intros i Hi. rewrite length_drop in Hi. cbn [char_of].
  replace (p + Z.of_nat k + Z.of_nat i) with (p + Z.of_nat (k + i)) by lia. specialize (H (k + i)%nat ltac:(lia)). cbn in H. rewrite H.
  rewrite <- (take_drop k l) at 1. rewrite <- app_assoc. rewrite lookup_app_r by (rewrite length_take; lia). f_equal. rewrite length_take. lia.
Qed.

Lemma string_cut m p l k : (k <= length l)%nat -> string_at m (CPtr p) l -> string_at (<[p + Z.of_nat k := 0]> m) (CPtr p) (take k l).
Proof.
  intros Hk [Hz H]. split; [by apply Forall_take|]. intros i Hi. rewrite length_take in Hi. cbn [char_of]. destruct (decide (i = k)) as [->|Hn].
  - rewrite lookup_insert_eq, lookup_app_r, length_take, Nat.min_l, Nat.sub_diag by (rewrite ?length_take; lia). done.
  - rewrite lookup_insert_ne by lia. specialize (H i ltac:(lia)). cbn in H. rewrite H, !lookup_app_l by (rewrite ?length_take; lia).
    by rewrite lookup_take_lt by lia.
Qed.

Lemma string_mapped m p l i : string_at m (CPtr p) l -> (i <= length l)%nat -> is_Some (m !! (p + Z.of_nat i)).
Proof. intros [_ H] Hi. specialize (H i Hi). cbn in H. rewrite H. apply lookup_lt_is_Some. rewrite length_app. cbn. lia. Qed.

Lemma string_fuel_ptr m p l : string_at m (CPtr p) l -> Z.of_nat (length l) < Z.of_nat (S (size m)).
Proof. intros H. pose proof (string_fuel _ _ _ H) as Hf. cbn [str_fuel] in Hf. lia. Qed.

(** A walk over the characters that satisfy [f]. *)
Lemma wp_char_walk (f : Z -> bool) m p l Q :
  string_at m (CPtr p) l -> f 0 = false -> Q (p + Z.of_nat (run_of f l)) m ->
  wp (fuel ← mem_fuel; loop fuel (fun p => c ← char_at (CPtr p) 0; mret (if f c then inl (p + 1) else inr p)) p) Q m.
Proof.
  intros H H0 HQ. apply wp_bind, wp_gets. pose proof (run_of_le f l) as Hle.
  apply (wp_loop (fun q m' => m' = m /\ exists k, (k <= run_of f l)%nat /\ q = p + Z.of_nat k) (fun q _ => p + Z.of_nat (length l) - q)).
  - intros q m' (-> & k & Hk & ->). lia.
  - intros q m' (-> & k & Hk & ->). apply wp_bind. destruct (decide (k = length l)) as [->|Hn].
    + eapply (wp_char_at _ _ 0); [cbn; rewrite Z.add_0_r; apply (string_end _ _ _ H)|]. rewrite H0. apply wp_ret. by replace (run_of f l) with (length l) in HQ by lia.
    + destruct (lookup_lt_is_Some_2 l k) as [c Hc]; [lia|]. destruct (string_char _ _ _ _ _ H Hc) as [Ec _].
      eapply (wp_char_at _ _ c); [cbn; rewrite Z.add_0_r; exact Ec|]. apply wp_ret. destruct (decide (k = run_of f l)) as [->|Hne].
      * rewrite (run_of_at _ _ _ Hc). done.
      * rewrite (run_of_before f l k c) by (done || lia). split; [|lia]. split; [done|]. exists (S k). lia.
  - split; [done|]. exists 0%nat. lia.
  - pose proof (string_fuel_ptr _ _ _ H). lia.
Qed.

Lemma wp_skip_spaces m p l Q : string_at m (CPtr p) l -> Q (p + Z.of_nat (run_of is_space l)) m -> wp (skip_spaces p) Q m.
Proof. intros H HQ. by apply (wp_char_walk is_space m p l). Qed.

(** The string at [p] moves down to [dst]. *)
Lemma wp_shift_string m dst p l Q :
  dst < p -> string_at m (CPtr p) l -> readable m dst (p - dst) ->
  Q tt (write_block dst (l ++ [0]) m) -> wp (shift_string dst p) Q m.
Proof.
  intros Hlt H Hr HQ. unfold shift_string. apply wp_bind, wp_gets, wp_bind.
  assert (Hd : forall i, (i <= length l)%nat -> is_Some (m !! (dst + Z.of_nat i))).
  { intros i Hi. destruct (decide (dst + Z.of_nat i < p)) as [Hp|Hp]; [apply Hr; lia|].
    replace (dst + Z.of_nat i) with (p + Z.of_nat (Z.to_nat (dst + Z.of_nat i - p))) by lia. apply (string_mapped _ _ _ _ H). lia. }
  apply (wp_loop (fun '(d, q) m' => exists k, (k <= length l)%nat /\ d = dst + Z.of_nat k /\ q = p + Z.of_nat k /\ m' = write_block dst (take k l) m)
    (fun '(d, q) _ => p + Z.of_nat (length l) - q)).
  - intros [d q] m' (k & Hk & -> & -> & _). lia.
  - intros [d q] m' (k & Hk & -> & -> & ->). apply wp_bind.
    assert (Ec : write_block dst (take k l) m !! (p + Z.of_nat k) = m !! (p + Z.of_nat k)) by (apply write_block_out; rewrite length_take; lia).
    destruct (decide (k = length l)) as [->|Hn].
    + eapply (wp_char_at _ _ 0); [cbn; rewrite Z.add_0_r, Ec; apply (string_end _ _ _ H)|]. cbn [Z.eqb negb]. apply wp_ret.
      apply wp_store; [apply write_block_dom, Hd; lia|]. rewrite write_block_snoc in HQ. by rewrite firstn_all.
    + destruct (lookup_lt_is_Some_2 l k) as [c Hc]; [lia|]. destruct (string_char _ _ _ _ _ H Hc) as [Em Hz].
      eapply (wp_char_at _ _ c); [cbn; rewrite Z.add_0_r, Ec; exact Em|]. rewrite (proj2 (Z.eqb_neq _ _) Hz). cbn [negb].
      apply wp_bind, wp_store; [apply write_block_dom, Hd; lia|]. apply wp_ret. split; [|lia]. exists (S k). split; [lia|]. split; [lia|]. split; [lia|].
      rewrite (take_S_r _ _ _ Hc), write_block_snoc, length_take, Nat.min_l by lia. done.
  - exists 0%nat. split_and!; [lia|lia|lia|done].
  - pose proof (string_fuel_ptr _ _ _ H). lia.
Qed.

Lemma written_string m p l : Forall (fun c => c <> 0) l -> string_at (write_block p (l ++ [0]) m) (CPtr p) l.
Proof.
  intros Hz. split; [done|]. intros i Hi. cbn [char_of]. destruct (lookup_lt_is_Some_2 (l ++ [0]) i) as [c Hc]; [rewrite length_app; cbn; lia|].
  rewrite Hc. by apply write_block_in.
Qed.

(** The loop at the end of [trim_in_place]. *)
Lemma wp_trim_end m s l fuel Q :
  string_at m (CPtr s) l -> (length l < fuel)%nat ->
  (forall m', string_at m' (CPtr s) (rtrim l) -> only_in s (Z.of_nat (length l)) m m' -> Q tt m') ->
  wp (loop fuel
        (fun len =>
           if 0 <? len then
             c ← char_at (CPtr s) (len - 1);
             if is_space c then store (s + (len - 1)) 0 ;; mret (inl (len - 1)) else mret (inr tt)
           else mret (inr tt))
        (Z.of_nat (length l))) Q m.
Proof.
  intros H Hf HQ.
  apply (wp_loop (fun len m' => exists k, (k <= length l)%nat /\ len = Z.of_nat k /\ string_at m' (CPtr s) (take k l) /\
    Forall (fun c => is_space c = true) (drop k l) /\ only_in s (Z.of_nat (length l)) m m') (fun len _ => len)).
  - intros len m' (k & _ & -> & _). lia.
  - intros len m' (k & Hk & -> & Hs & Hsp & Ho). destruct (Z.ltb_spec 0 (Z.of_nat k)) as [Hp|Hp].
    2: { assert (k = 0%nat) as -> by lia. apply wp_ret, HQ; [|done]. rewrite (rtrim_take 0 l); [done|lia|done|by left]. }
    destruct k as [|k]; [lia|]. destruct (lookup_lt_is_Some_2 l k) as [c Hc]; [lia|].
    assert (Hc' : take (S k) l !! k = Some c) by (rewrite lookup_take_lt by lia; done). destruct (string_char _ _ _ _ _ Hs Hc') as [Ec _].
    replace (Z.of_nat (S k) - 1) with (Z.of_nat k) by lia. apply wp_bind. eapply (wp_char_at _ _ c); [exact Ec|]. destruct (is_space c) eqn:Es.
    + apply wp_bind, wp_store; [apply (string_mapped _ _ _ _ Hs); rewrite length_take; lia|]. apply wp_ret. split; [|lia]. exists k. split; [lia|]. split; [done|].
      split; [|split].
      * pose proof (string_cut m' s (take (S k) l) k ltac:(rewrite length_take; lia) Hs) as Hcut. rewrite take_take in Hcut.
        by replace (min k (S k)) with k in Hcut by lia.
      * rewrite (drop_S l c k Hc). by constructor.
      * eapply only_in_trans; [exact Ho|]. split; [|intros a Ha; destruct (decide (s + Z.of_nat k = a)) as [->|?]; [rewrite lookup_insert_eq; eauto|by rewrite lookup_insert_ne]].
        intros a Ha. apply lookup_insert_ne. unfold in_area in Ha. lia.
    + apply wp_ret, HQ; [|done]. rewrite (rtrim_take (S k) l); [done|lia|done|right; by exists c].
  - exists (length l). split; [lia|]. split; [done|]. rewrite firstn_all, drop_all. split; [done|]. split; [constructor|apply only_in_refl].
  - lia.
Qed.

Lemma only_in_le p n n' m m' : n <= n' -> only_in p n m m' -> only_in p n' m m'.
Proof. intros Hn [H1 H2]. split; [|done]. intros a Ha. apply H1. unfold in_area in *. lia. Qed.

Lemma size_mono (m m' : bmem) : (forall a, is_Some (m !! a) -> is_Some (m' !! a)) -> (size m <= size m')%nat.
Proof. intros H. rewrite <- !size_dom. apply subseteq_size. intros a. rewrite !elem_of_dom. apply H. Qed.

Lemma wp_trim m s l Q :
  string_at m (CPtr s) l -> Z.of_nat (length l) < 2 ^ 32 ->
  (forall m', string_at m' (CPtr s) (trim l) -> only_in s (Z.of_nat (length l) + 1) m m' -> Q tt m') -> wp (trim_in_place s) Q m.
Proof.
  intros H Hl HQ. unfold trim_in_place. apply wp_bind, (wp_skip_spaces _ _ _ _ H). set (k := run_of is_space l). pose proof (run_of_le is_space l) as Hk. fold k in Hk.
  assert (Hrest : forall m1, string_at m1 (CPtr s) (ltrim l) -> only_in s (Z.of_nat (length l) + 1) m m1 ->
    wp (len ← strlen (CPtr s); fuel ← mem_fuel;
      loop fuel (fun len => if 0 <? len then c ← char_at (CPtr s) (len - 1); if is_space c then store (s + (len - 1)) 0 ;; mret (inl (len - 1)) else mret (inr tt)
        else mret (inr tt)) (u32 len)) Q m1).
  { intros m1 H1 O1. assert (Hlen : (length (ltrim l) <= length l)%nat) by (rewrite ltrim_run, length_drop; lia).
    apply wp_bind. eapply wp_strlen; [exact H1|lia|]. apply wp_bind, wp_gets. rewrite u32_id by lia. eapply wp_trim_end; [exact H1| |].
    - pose proof (string_fuel_ptr _ _ _ H1). lia.
    - intros m' H' O'. apply HQ; [done|]. eapply only_in_trans; [exact O1|]. eapply only_in_le; [|exact O']. lia. }
  apply wp_bind. destruct (Z.eqb_spec (s + Z.of_nat k) s) as [E|E]; cbn [negb when].
  - apply wp_ret, Hrest; [|apply only_in_refl]. rewrite ltrim_run. fold k. replace k with 0%nat by lia. done.
  - assert (Hsuf : string_at m (CPtr (s + Z.of_nat k)) (ltrim l)) by (rewrite ltrim_run; by apply string_suffix).
    apply (wp_shift_string m s (s + Z.of_nat k) (ltrim l)); [lia|exact Hsuf|..].
    + intros i Hi. rewrite <- (Z2Nat.id i) by lia. apply (string_mapped _ _ _ _ H). lia.
    + apply Hrest; [apply written_string, Hsuf|]. apply only_in_write; [lia|]. rewrite length_app, ltrim_run, length_drop. cbn. lia.
Qed.

(** The command is the first word; the argument is what follows it without the
    spaces between them, or null. *)
Definition split_spec (m : bmem) (l : list Z) (cmd arg : Z) : Prop :=
  string_at m (CPtr cmd) (word (ltrim l)).1 /\
  let rest := ltrim (word (ltrim l)).2 in (if bool_decide (rest = []) then arg = 0 else arg <> 0 /\ string_at m (CPtr arg) rest).

Lemma run_of_ext f g l : Forall (fun c => f c = g c) l -> run_of f l = run_of g l.
Proof. induction 1 as [|c l E _ IH]; [done|]. cbn. by rewrite E, IH. Qed.

Lemma wp_split m p l Q :
  string_at m (CPtr p) l -> 0 < p ->
  (forall cmd arg m', split_spec m' l cmd arg -> p <= cmd -> only_in p (Z.of_nat (length l)) m m' -> Q (cmd, arg) m') -> wp (split_first_arg p) Q m.
Proof.
  intros H Hp HQ. unfold split_first_arg. apply wp_bind, (wp_skip_spaces _ _ _ _ H). set (k := run_of is_space l). pose proof (run_of_le is_space l) as Hk. fold k in Hk.
  assert (H1 : string_at m (CPtr (p + Z.of_nat k)) (ltrim l)) by (rewrite ltrim_run; by apply string_suffix). set (l1 := ltrim l) in *.
  assert (Hl1 : length l1 = (length l - k)%nat) by (unfold l1; by rewrite ltrim_run, length_drop). set (cmd := p + Z.of_nat k) in *.
  change (wp (q ← (fuel ← mem_fuel; loop fuel (fun p => c ← char_at (CPtr p) 0; mret (if (fun c => negb (c =? 0) && negb (is_space c)) c then inl (p + 1) else inr p)) cmd);
    (c ← char_at (CPtr q) 0; p ← (if negb (c =? 0) then store q 0 ;; mret (q + 1) else mret q); p ← skip_spaces p; c ← char_at (CPtr p) 0; mret (cmd, if c =? 0 then 0 else p))) Q m).
  apply wp_bind, (wp_char_walk _ m cmd l1); [exact H1|reflexivity|].
  assert (Hrun : run_of (fun c => negb (c =? 0) && negb (is_space c)) l1 = run_of (fun c => negb (is_space c)) l1).
  { apply run_of_ext. eapply Forall_impl; [apply H1|]. cbn. intros c Hc. by rewrite (proj2 (Z.eqb_neq _ _) Hc). }
  rewrite Hrun. set (w := run_of (fun c => negb (is_space c)) l1) in *. pose proof (run_of_le (fun c => negb (is_space c)) l1) as Hw. fold w in Hw.
  unfold split_spec in HQ. fold l1 in HQ. rewrite word_run in HQ. fold w in HQ. cbn [fst snd] in HQ.
  pose proof (string_suffix _ _ _ w Hw H1) as H2. apply wp_bind.
  destruct (decide (w = length l1)) as [Ew|Ew].
  - assert (Ez : char_of m (CPtr (cmd + Z.of_nat w)) 0 = Some 0) by (cbn; rewrite Z.add_0_r, Ew; apply (string_end _ _ _ H1)).
    eapply (wp_char_at _ _ 0); [exact Ez|]. cbn [Z.eqb negb]. apply wp_bind, wp_ret. rewrite Ew, drop_all in H2.
    apply wp_bind, (wp_skip_spaces _ _ [] _); [by rewrite Ew|]. cbn [run_of]. rewrite Z.add_0_r. apply wp_bind. eapply (wp_char_at _ _ 0); [exact Ez|].
    cbn [Z.eqb]. apply wp_ret, HQ; [|lia|apply only_in_refl]. rewrite Ew, firstn_all, drop_all. split; [done|]. by rewrite bool_decide_true.
  - destruct (lookup_lt_is_Some_2 l1 w) as [c Hc]; [lia|]. destruct (string_char _ _ _ _ _ H1 Hc) as [Ec Hz].
    eapply (wp_char_at _ _ c); [cbn; rewrite Z.add_0_r; exact Ec|]. rewrite (proj2 (Z.eqb_neq _ _) Hz). cbn [negb].
    assert (Hsp : is_space c = true) by (pose proof (run_of_at _ _ _ Hc) as E; by apply negb_false_iff in E).
    apply wp_bind, wp_bind, wp_store; [apply (string_mapped _ _ _ _ H1 Hw)|]. apply wp_ret. set (m' := <[cmd + Z.of_nat w := 0]> m).
    assert (Hc1 : string_at m' (CPtr cmd) (take w l1)) by (by apply string_cut).
    assert (Hr : string_at m' (CPtr (cmd + Z.of_nat w + 1)) (drop (S w) l1)).
    { replace (cmd + Z.of_nat w + 1) with (cmd + Z.of_nat (S w)) by lia. assert (HSw : (S w <= length l1)%nat) by lia. pose proof (string_suffix _ _ _ (S w) HSw H1) as [Hz' Hs']. split; [done|].
      intros i Hi. rewrite <- (Hs' i Hi). cbn. apply lookup_insert_ne. lia. }
    assert (Ho : only_in p (Z.of_nat (length l)) m m').
    { split; [|intros a Ha; unfold m'; destruct (decide (cmd + Z.of_nat w = a)) as [->|?]; [rewrite lookup_insert_eq; eauto|by rewrite lookup_insert_ne]].
      intros a Ha. apply lookup_insert_ne. unfold in_area in Ha. lia. }
    assert (Ed : drop w l1 = c :: drop (S w) l1) by (by apply drop_S). rewrite Ed in HQ. cbn [ltrim] in HQ. rewrite Hsp in HQ.
    apply wp_bind, (wp_skip_spaces _ _ _ _ Hr). set (rest := drop (S w) l1) in *. pose proof (run_of_le is_space rest) as Hle.
    pose proof (string_suffix _ _ _ _ Hle Hr) as H3. rewrite <- ltrim_run in H3. set (q := cmd + Z.of_nat w + 1 + Z.of_nat (run_of is_space rest)) in *.
    apply wp_bind. destruct (ltrim rest) as [|x r] eqn:El.
    + eapply (wp_char_at _ _ 0); [exact (string_end _ _ _ H3)|]. cbn [Z.eqb length]. apply wp_ret, HQ; [split; [done|by rewrite bool_decide_true]|lia|done].
    + destruct (string_char _ _ _ 0 x H3 eq_refl) as [Ex Hx]. eapply (wp_char_at _ _ x); [exact Ex|]. rewrite (proj2 (Z.eqb_neq _ _) Hx).
      apply wp_ret, HQ; [|lia|done]. split; [done|]. rewrite bool_decide_false by done. split; [lia|done].
Qed.

(** ** Times *)

Definition is_digit (c : Z) : bool := (48 <=? c) && (c <=? 57).
Definition dec (l : list Z) : Z := foldl (fun a c => 10 * a + (c - 48)) 0 l.
Definition tens (n : nat) : Z := 10 ^ Z.of_nat n.

(** The characters before and after the first point. *)
Fixpoint at_point (l : list Z) : list Z * option (list Z) :=
  match l with
  | [] => ([], None)
  | c :: l' => if c =? 46 then ([], Some l') else (c :: (at_point l').1, (at_point l').2)
  end.

(** A time is digits, at least one, with at most three of them after a point.  Its
    value in ticks is rounded down and must fit 64 bits. *)
Definition ticks_of (freq : Z) (l : list Z) : option (Z * Z) :=
  let w := (at_point l).1 in
  let f := default [] (at_point l).2 in
  let ticks := dec (w ++ f) * freq / tens (length f) in
  if forallb is_digit (w ++ f) && (length f <=? 3)%nat && negb (bool_decide (w ++ f = [])) && (ticks <=? UINT64_MAX) then Some (ticks, dec w) else None.

Lemma tens_S n : tens (S n) = 10 * tens n.
Proof. unfold tens. rewrite Nat2Z.inj_succ, Z.pow_succ_r by lia. done. Qed.
Lemma tens_pos n : 0 < tens n.
Proof. unfold tens. apply Z.pow_pos_nonneg; lia. Qed.

Lemma dec_acc l a : foldl (fun a c => 10 * a + (c - 48)) a l = a * tens (length l) + dec l.
Proof.
  revert a. unfold dec. induction l as [|c l IH]; intros a; [unfold tens; cbn; lia|]. cbn [foldl length]. rewrite IH, (IH (10 * 0 + (c - 48))), tens_S. lia.
Qed.
Lemma dec_cons c l : dec (c :: l) = (c - 48) * tens (length l) + dec l.
Proof. unfold dec at 1. cbn [foldl]. rewrite dec_acc. lia. Qed.
Lemma dec_app l l' : dec (l ++ l') = dec l * tens (length l') + dec l'.
Proof. unfold dec at 1. rewrite foldl_app, dec_acc. done. Qed.

Lemma dec_range l : forallb is_digit l = true -> 0 <= dec l < tens (length l).
Proof.
  induction l as [|c l IH]; [unfold dec, tens; cbn; lia|]. cbn [forallb]. rewrite andb_true_iff. intros [Hc Hl]. specialize (IH Hl).
  unfold is_digit in Hc. rewrite andb_true_iff, !Z.leb_le in Hc. rewrite dec_cons. cbn [length]. rewrite tens_S. nia.
Qed.

Fixpoint fold_steps (st : seconds) (l : list Z) : option seconds :=
  match l with
  | [] => Some st
  | c :: l' => match seconds_step st c with Some st' => fold_steps st' l' | None => None end
  end.

Lemma digit_case c : is_digit c = negb ((c <? 48) || (57 <? c)).
Proof. unfold is_digit. destruct (Z.leb_spec 48 c), (Z.leb_spec c 57), (Z.ltb_spec c 48), (Z.ltb_spec 57 c); try done; lia. Qed.

Definition not_nil (l : list Z) : bool := negb (bool_decide (l = [])).

(** After the point. *)
Lemma fold_fraction W f : forall b j d, (j <= 3)%nat -> 0 <= b < tens j ->
  fold_steps (mkSeconds W b (tens j) true d) f =
  if forallb is_digit f && (j + length f <=? 3)%nat then Some (mkSeconds W (b * tens (length f) + dec f) (tens (j + length f)) true (d || not_nil f)) else None.
Proof.
  induction f as [|c f IH]; intros b j d Hj Hb.
  - cbn [fold_steps forallb length]. rewrite (proj2 (Nat.leb_le _ 3)) by lia. cbn [andb]. unfold tens at 2, dec. cbn. by rewrite orb_false_r, Nat.add_0_r, Z.mul_1_r, Z.add_0_r.
  - cbn [fold_steps forallb]. unfold seconds_step. cbn [sc_dot sc_whole sc_frac sc_scale sc_digit negb].
    destruct (Z.eqb_spec c 46) as [->|Hc]; [done|]. rewrite digit_case. destruct ((c <? 48) || (57 <? c)) eqn:Ed; [done|]. cbn [negb andb].
    apply orb_false_iff in Ed as [Ed1 Ed2]. apply Z.ltb_ge in Ed1, Ed2.
    destruct (Z.leb_spec 1000 (tens j)) as [Hs|Hs].
    + assert (j = 3%nat) as -> by (destruct (decide (j = 3%nat)); [done|]; assert (tens j <= tens 2) by (unfold tens; apply Z.pow_le_mono_r; lia); unfold tens in *; cbn in *; lia).
      cbn [length]. rewrite (proj2 (Nat.leb_gt _ 3)) by lia. by rewrite andb_false_r.
    + assert (Hj3 : (j < 3)%nat) by (destruct (decide (j < 3)%nat); [done|]; assert (j = 3%nat) as -> by lia; unfold tens in Hs; cbn in Hs; lia).
      assert (Ht : tens (S j) <= 1000) by (change 1000 with (tens 3); unfold tens; apply Z.pow_le_mono_r; lia). pose proof (tens_S j) as Ej.
      rewrite (u64_id (b * 10)), (u64_id (b * 10 + (c - 48))), (u64_id (tens j * 10)) by lia.
      replace (tens j * 10) with (tens (S j)) by lia. rewrite IH by lia. cbn [length]. replace (S j + length f)%nat with (j + S (length f))%nat by lia.
      destruct (forallb is_digit f && _); [|done]. rewrite dec_cons, tens_S. f_equal. unfold not_nil. rewrite (bool_decide_false (c :: f = [])) by done. cbn [negb]. rewrite orb_true_r. cbn [orb].
      f_equal. lia.
Qed.

(** Before it. *)
Lemma fold_whole l : forall a d, 0 <= a <= UINT64_MAX ->
  fold_steps (mkSeconds a 0 1 false d) l =
  let w := (at_point l).1 in
  let W := a * tens (length w) + dec w in
  if forallb is_digit w && (W <=? UINT64_MAX) then
    match (at_point l).2 with
    | None => Some (mkSeconds W 0 1 false (d || not_nil w))
    | Some f => fold_steps (mkSeconds W 0 1 true (d || not_nil w)) f
    end
  else None.
Proof.
  induction l as [|c l IH]; intros a d Ha.
  - cbn. unfold tens, dec. cbn. rewrite Z.mul_1_r, Z.add_0_r, orb_false_r. by rewrite (proj2 (Z.leb_le _ _)) by lia.
  - cbn [fold_steps at_point]. unfold seconds_step. cbn [sc_dot sc_whole sc_frac sc_scale sc_digit negb].
    destruct (Z.eqb_spec c 46) as [->|Hc].
    + cbn. unfold tens, dec. cbn. rewrite Z.mul_1_r, Z.add_0_r, orb_false_r. by rewrite (proj2 (Z.leb_le _ _)) by lia.
    + cbn [fst snd forallb length]. cbv zeta. rewrite digit_case. destruct ((c <? 48) || (57 <? c)) eqn:Ed; [done|]. cbn [negb andb].
      apply orb_false_iff in Ed as [Ed1 Ed2]. apply Z.ltb_ge in Ed1, Ed2. set (w := (at_point l).1). rewrite dec_cons, tens_S. pose proof (tens_pos (length w)) as Ht.
      destruct (Z.ltb_spec ((UINT64_MAX - (c - 48)) / 10) a) as [Ho|Ho].
      * assert (Hbig : UINT64_MAX < a * 10 + (c - 48)). { pose proof (Z.mul_succ_div_gt (UINT64_MAX - (c - 48)) 10 ltac:(lia)). lia. }
        destruct (forallb is_digit w) eqn:Ew; [|done]. apply dec_range in Ew. cbn [andb]. by rewrite (proj2 (Z.leb_gt _ _)) by nia.
      * assert (Hfit : a * 10 + (c - 48) <= UINT64_MAX). { pose proof (Z.mul_div_le (UINT64_MAX - (c - 48)) 10 ltac:(lia)). lia. }
        unfold UINT64_MAX in *. rewrite (u64_id (a * 10)), u64_id by lia. rewrite IH by (unfold UINT64_MAX; lia). cbv zeta. fold w. unfold UINT64_MAX.
        replace ((a * 10 + (c - 48)) * tens (length w) + dec w) with (a * (10 * tens (length w)) + ((c - 48) * tens (length w) + dec w)) by lia.
        unfold not_nil at 3 4. rewrite (bool_decide_false (c :: w = [])) by done. cbn [negb orb]. by rewrite orb_true_r.
Qed.

Lemma wp_fold_loop m s l st0 fuel Q :
  string_at m (CPtr s) l -> (length l < fuel)%nat -> Z.of_nat (length l) < 2 ^ 32 -> Q (fold_steps st0 l) m ->
  wp (loop fuel
        (fun '(i, st) =>
           c ← char_at (CPtr s) i;
           if c =? 0 then mret (inr (Some st))
           else mret (match seconds_step st c with Some st' => inl (u32 (i + 1), st') | None => inr None end))
        (0, st0)) Q m.
Proof.
  intros H Hf Hl HQ.
  apply (wp_loop (fun '(i, st) m' => m' = m /\ exists k, (k <= length l)%nat /\ i = Z.of_nat k /\ fold_steps st (drop k l) = fold_steps st0 l)
    (fun '(i, _) _ => Z.of_nat (length l) - i)).
  - intros [i st] m' (_ & k & Hk & -> & _). lia.
  - intros [i st] m' (-> & k & Hk & -> & Ef). apply wp_bind. destruct (decide (k = length l)) as [->|Hn].
    + eapply (wp_char_at _ _ 0); [apply (string_end _ _ _ H)|]. cbn [Z.eqb]. apply wp_ret. rewrite drop_all in Ef. cbn in Ef. by rewrite Ef.
    + destruct (lookup_lt_is_Some_2 l k) as [c Hc]; [lia|]. destruct (string_char _ _ _ _ _ H Hc) as [Ec Hz].
      eapply (wp_char_at _ _ c); [exact Ec|]. rewrite (proj2 (Z.eqb_neq _ _) Hz). apply wp_ret. rewrite (drop_S _ _ _ Hc) in Ef. cbn [fold_steps] in Ef.
      destruct (seconds_step st c) as [st'|]; [|by rewrite Ef]. rewrite u32_id by lia. split; [|lia]. split; [done|]. exists (S k). split; [lia|]. split; [lia|done].
  - split; [done|]. exists 0%nat. split; [lia|]. split; [lia|done].
  - lia.
Qed.

(** The computation after the loop. *)
Lemma ticks_result freq W f k :
  0 < freq < 2 ^ 32 -> 0 <= W <= UINT64_MAX -> 0 <= f < tens k -> (k <= 3)%nat ->
  let fraction_ticks := u64 (f * freq) / tens k in
  let ticks := (W * tens k + f) * freq / tens k in
  (if u64 (UINT64_MAX - fraction_ticks) / freq <? W then None else Some (u64 (u64 (W * freq) + fraction_ticks), W)) =
  (if ticks <=? UINT64_MAX then Some (ticks, W) else None).
Proof.
  intros Hq HW Hf Hk. cbv zeta. pose proof (tens_pos k) as Ht. assert (Hk3 : tens k <= 1000) by (change 1000 with (tens 3); unfold tens; apply Z.pow_le_mono_r; lia).
  rewrite (u64_id (f * freq)) by nia. set (ft := f * freq / tens k).
  assert (Hft : 0 <= ft < freq). { split; [apply Z.div_pos; nia|]. apply Z.div_lt_upper_bound; nia. }
  assert (Et : (W * tens k + f) * freq / tens k = W * freq + ft).
  { unfold ft. replace ((W * tens k + f) * freq) with (W * freq * tens k + f * freq) by lia. by rewrite Z.div_add_l by lia. }
  rewrite Et. unfold UINT64_MAX in *. rewrite (u64_id (2 ^ 64 - 1 - ft)) by lia.
  destruct (Z.ltb_spec ((2 ^ 64 - 1 - ft) / freq) W) as [Ho|Ho].
  - pose proof (Z.mul_succ_div_gt (2 ^ 64 - 1 - ft) freq ltac:(lia)). rewrite (proj2 (Z.leb_gt _ _)) by nia. done.
  - pose proof (Z.mul_div_le (2 ^ 64 - 1 - ft) freq ltac:(lia)). assert (W * freq + ft <= 2 ^ 64 - 1) by nia.
    rewrite (proj2 (Z.leb_le _ _)) by lia. by rewrite (u64_id (W * freq)), u64_id by nia.
Qed.

Lemma ticks_fold freq l :
  0 < freq < 2 ^ 32 ->
  match fold_steps (mkSeconds 0 0 1 false false) l with
  | None => None
  | Some st =>
      if negb st.(sc_digit) then None
      else
        let fraction_ticks := u64 (st.(sc_frac) * freq) / st.(sc_scale) in
        if u64 (UINT64_MAX - fraction_ticks) / freq <? st.(sc_whole) then None
        else Some (u64 (u64 (st.(sc_whole) * freq) + fraction_ticks), st.(sc_whole))
  end = ticks_of freq l.
Proof.
  intros Hq. rewrite fold_whole by (unfold UINT64_MAX; lia). cbv zeta. unfold ticks_of. set (w := (at_point l).1). rewrite Z.mul_0_l, Z.add_0_l, forallb_app, dec_app.
  cbn [orb]. destruct (forallb is_digit w) eqn:Ew; [|done]. apply dec_range in Ew as Hw. cbn [andb].
  assert (Hbig : forall f, forallb is_digit f = true -> dec w > UINT64_MAX -> ((dec w * tens (length f) + dec f) * freq / tens (length f) <=? UINT64_MAX) = false).
  { intros f Ef Hg. apply dec_range in Ef. pose proof (tens_pos (length f)) as Ht. apply Z.leb_gt, (Z.lt_le_trans _ (dec w)); [lia|]. apply Z.div_le_lower_bound; nia. }
  destruct (Z.leb_spec (dec w) UINT64_MAX) as [Hle|Hgt].
  2: { destruct (forallb is_digit (default [] _)) eqn:Ef; [|done]. rewrite Hbig by (done || lia). by rewrite !andb_false_r. }
  destruct (at_point l).2 as [f|].
  - change (default [] (Some f)) with f. change 1 with (tens 0) at 1. rewrite fold_fraction by (unfold tens; cbn; lia). cbn [Nat.add]. destruct (forallb is_digit f) eqn:Ef; [|done]. apply dec_range in Ef as Hf. cbn [andb].
    destruct (Nat.leb_spec (length f) 3) as [Hl|Hl]; [|done]. cbn [sc_digit sc_whole sc_frac sc_scale andb]. rewrite Z.mul_0_l, Z.add_0_l.
    assert (En : not_nil w || not_nil f = negb (bool_decide (w ++ f = []))).
    { unfold not_nil. by destruct w, f. }
    rewrite En. destruct (bool_decide (w ++ f = [])); [done|]. cbn [negb andb].
    pose proof (ticks_result freq (dec w) (dec f) (length f) Hq ltac:(lia) Hf Hl) as E. cbv zeta in E. exact E.
  - change (default [] None) with (@nil Z). cbn [forallb length sc_digit sc_whole sc_frac sc_scale Nat.leb andb]. rewrite app_nil_r. fold (not_nil w). destruct (not_nil w); [|done]. cbn [negb andb].
    pose proof (ticks_result freq (dec w) 0 0 Hq ltac:(lia) ltac:(unfold tens; cbn; lia) ltac:(lia)) as E. cbv zeta in E. exact E.
Qed.

(** C36: a time given on the command line is read exactly.
    [parse_seconds_to_ticks] accepts a string exactly when it consists of digits,
    at least one, with at most one point and at most three digits after it, and
    the number of ticks fits 64 bits; the result is the time in ticks, rounded
    down, and the whole seconds.  No intermediate value overflows, memory is not
    changed, and the function is equal to the reference definition on all strings of
    fewer than 2^32 characters. *)
Theorem parse_seconds_exact freq m s l :
  string_at m (CPtr s) l -> Z.of_nat (length l) < 2 ^ 32 -> s <> 0 -> 0 <= freq < 2 ^ 32 ->
  parse_seconds_to_ticks freq s m = Some (if freq =? 0 then None else ticks_of freq l, m).
Proof.
  intros H Hl Hs Hq.
  enough (Hwp : wp (parse_seconds_to_ticks freq s) (fun r m' => r = (if freq =? 0 then None else ticks_of freq l) /\ m' = m) m).
  { destruct (wp_run _ _ _ Hwp) as (r & m' & E & -> & ->). done. }
  unfold parse_seconds_to_ticks. rewrite (proj2 (Z.eqb_neq s 0) Hs). apply wp_bind. destruct l as [|c l].
  - eapply (wp_char_at _ _ 0); [apply (string_end _ _ _ H)|]. cbn [Z.eqb orb]. apply wp_ret. split; [|done]. by destruct (freq =? 0).
  - destruct (string_char _ _ _ 0 c H eq_refl) as [Ec Hz]. eapply (wp_char_at _ _ c); [exact Ec|]. rewrite (proj2 (Z.eqb_neq _ _) Hz). cbn [orb].
    destruct (Z.eqb_spec freq 0) as [->|Hn]; [by apply wp_ret|].
    apply wp_bind, wp_gets, wp_bind, (wp_fold_loop m s (c :: l)); [exact H|pose proof (string_fuel_ptr _ _ _ H); lia|exact Hl|]. apply wp_ret. split; [|done]. apply ticks_fold. lia.
Qed.

Definition demo_time : bmem := write_block 100 ([49; 46; 50; 53] ++ [0]) (blank 100 8 ∅).

(** 1.25 seconds at 10 MHz. *)
Lemma parse_seconds_exact_witness : parse_seconds_to_ticks 10000000 100 demo_time = Some (Some (12500000, 1), demo_time).
Proof.
  rewrite (parse_seconds_exact 10000000 demo_time 100 [49; 46; 50; 53]); [vm_compute; reflexivity| |cbn; lia|lia|lia].
  apply written_string. repeat constructor; discriminate.
Defined.

(** ** The line editor *)

(** What the editor relies on: every character sent goes out in order, the
    characters that come are those of [coming], and memory is not touched. *)
Class Terminal {S : Type} `{!Lens S bmem} (puts : cstr -> M S unit) (send : Z -> M S unit) (recv : M S Z)
    (good : S -> Prop) (out : S -> list Z) (coming : S -> list Z -> Prop) : Prop := {
  tm_send : forall c s, good s -> 0 <= c < 256 ->
    wp (send c) (fun _ s' => good s' /\ out s' = out s ++ [c] /\ view s' = view s /\ forall i, coming s i -> coming s' i) s;
  tm_puts : forall l s, good s -> Forall (fun c => 0 < c < 256) l ->
    wp (puts (CLit l)) (fun _ s' => good s' /\ out s' = out s ++ crlf l /\ view s' = view s /\ forall i, coming s i -> coming s' i) s;
  tm_recv : forall c l s, good s -> coming s (c :: l) -> 0 <= c < 256 ->
    wp recv (fun r s' => r = c /\ good s' /\ coming s' l /\ out s' = out s /\ view s' = view s) s;
  tm_mem : forall m s, good s -> good (put m s) /\ out (put m s) = out s /\ forall i, coming s i -> coming (put m s) i;
}.

Definition is_end (c : Z) : bool := (c =? 13) || (c =? 10).
Definition is_erase (c : Z) : bool := (c =? 127) || (c =? 8).
Definition printable (c : Z) : bool := (32 <=? c) && (c <=? 126).

(** The line after one more character, and what is echoed. *)
Definition edit (max : Z) (buf : list Z) (c : Z) : list Z :=
  if is_erase c then removelast buf
  else if printable c && (Z.of_nat (length buf) <? max - 1) then buf ++ [c] else buf.
Definition echo (max : Z) (buf : list Z) (c : Z) : list Z :=
  if is_erase c then (if bool_decide (buf = []) then [] else [8; 32; 8])
  else if printable c && (Z.of_nat (length buf) <? max - 1) then [c] else [].
Fixpoint typed (max : Z) (buf l : list Z) : list Z * list Z :=
  match l with
  | [] => (buf, [])
  | c :: l' => let r := typed max (edit max buf c) l' in (r.1, echo max buf c ++ r.2)
  end.

Lemma block_at_take m p l l' : block_at m p (l ++ l') -> block_at m p l.
Proof. intros H i c E. apply H. by apply lookup_app_l_Some. Qed.

Lemma removelast_snoc {A} (l : list A) x : removelast (l ++ [x]) = l.
Proof. rewrite removelast_app by done. cbn. apply app_nil_r. Qed.

Section readline.
Context {S : Type} `{HL : !Lens S bmem} {puts : cstr -> M S unit} {send : Z -> M S unit} {recv : M S Z}.
Context {good : S -> Prop} {out : S -> list Z} {coming : S -> list Z -> Prop} `{HT : !Terminal puts send recv good out coming}.
Context (buffer max : Z) (Hmax : 0 < max).

Lemma wp_put_store a c Q (s : S) :
  good s -> is_Some ((view s : bmem) !! a) ->
  (forall s', good s' -> view s' = <[a := c]> (view s : bmem) -> out s' = out s -> (forall i, coming s i -> coming s' i) -> Q tt s') ->
  wp (zoom (store a c)) Q s.
Proof using HT.
  intros Hg Ha HQ. apply wp_zoom, wp_store; [done|]. destruct (tm_mem (<[a := c]> (view s : bmem)) s Hg) as (H1 & H2 & H3). apply HQ; [done|apply view_put|done|done].
Qed.

Lemma only_in_insert p n (m : bmem) a c : in_area p n a -> only_in p n m (<[a := c]> m).
Proof using.
  intros Ha. split; [|intros b Hb; destruct (decide (a = b)) as [->|?]; [rewrite lookup_insert_eq; eauto|by rewrite lookup_insert_ne]].
  intros b Hb. apply lookup_insert_ne. by intros ->.
Qed.

Lemma wp_readline l t rest : forall fuel buf (s : S) Q,
  is_end t = true -> Forall (fun c => is_end c = false /\ 0 <= c < 256) l -> (length l < fuel)%nat ->
  good s -> coming s (l ++ t :: rest) -> readable (view s) buffer max -> block_at (view s) buffer buf ->
  Forall (fun c => c <> 0) buf -> Z.of_nat (length buf) < max ->
  (forall s', good s' -> coming s' rest -> out s' = out s ++ (typed max buf l).2 ++ [13; 13; 10] ->
     string_at (view s') (CPtr buffer) (typed max buf l).1 -> only_in buffer max (view s) (view s') -> Q tt s') ->
  wp (loop fuel
    (fun '(idx, ignore_next_lf) =>
       c ← recv;
       if (ignore_next_lf : bool) && (c =? 10) then mret (inl (idx, false))
       else if (c =? 13) || (c =? 10) then
         puts (CLit [13; 10]) ;;
         zoom (store (buffer + idx) 0) ;;
         mret (inr tt)
       else if (c =? KEY_BACKSPACE) || (c =? 8) || (c =? 127) then
         if 0 <? idx then puts (CLit [8; 32; 8]) ;; mret (inl (idx - 1, false)) else mret (inl (idx, false))
       else if (32 <=? c) && (c <=? 126) then
         if idx <? max - 1 then
           zoom (store (buffer + idx) c) ;;
           send c ;;
           mret (inl (idx + 1, false))
         else mret (inl (idx, false))
       else mret (inl (idx, false))) (Z.of_nat (length buf), false)) Q s.
Proof using HT Hmax.
  induction l as [|c l IH]; intros fuel buf s Q Ht Hl Hf Hg Hc Hr Hb Hz Hlen HQ; (destruct fuel as [|fuel]; [cbn in Hf; lia|]); cbn [loop]; apply wp_bind.
  - assert (Hte : t = 13 \/ t = 10) by (unfold is_end in Ht; apply orb_true_iff in Ht as [?%Z.eqb_eq|?%Z.eqb_eq]; lia).
    apply wp_bind. cbn [app] in Hc. eapply wp_mono; [apply (tm_recv t rest s Hg Hc); lia|]. intros r s1 (-> & Hg1 & Hc1 & Eo1 & Ev1). cbn [andb].
    fold (is_end t). rewrite Ht. apply wp_bind. eapply wp_mono; [apply (tm_puts [13; 10] s1 Hg1); repeat constructor; lia|]. intros [] s2 (Hg2 & Eo2 & Ev2 & Hc2).
    rewrite <- Ev1, <- Ev2 in *. apply wp_bind, wp_put_store; [done|apply Hr; lia|]. intros s3 Hg3 Ev3 Eo3 Hc3. apply wp_ret, wp_ret.
    apply HQ; [done|by apply Hc3, Hc2| |rewrite Ev3|rewrite Ev3; apply only_in_insert; unfold in_area; lia].
    + by rewrite Eo3, Eo2, Eo1.
    + split; [done|]. intros i Hi. cbn [typed fst char_of] in *. destruct (decide (i = length buf)) as [->|Hn].
      * rewrite lookup_insert_eq, lookup_app_r, Nat.sub_diag by lia. done.
      * rewrite lookup_insert_ne, lookup_app_l by lia. destruct (lookup_lt_is_Some_2 buf i) as [x Hx]; [lia|]. rewrite Hx. by apply Hb.
  - apply Forall_cons in Hl as [[He Hcr] Hl]. apply wp_bind. eapply wp_mono; [apply (tm_recv c (l ++ t :: rest) s Hg Hc Hcr)|].
    intros r s1 (-> & Hg1 & Hc1 & Eo1 & Ev1). cbn [andb]. fold (is_end c). rewrite He. rewrite <- Ev1 in *. cbn [typed] in HQ.
    assert (Eer : (c =? KEY_BACKSPACE) || (c =? 8) || (c =? 127) = is_erase c).
    { unfold is_erase, KEY_BACKSPACE. by destruct (c =? 127), (c =? 8). }
    rewrite Eer. unfold edit, echo in HQ. destruct (is_erase c).
    + destruct (decide (buf = [])) as [->|Hne].
      * cbn [length Z.of_nat Z.ltb Z.compare]. apply wp_ret. cbn [removelast] in HQ. rewrite bool_decide_true in HQ by done. apply (IH fuel [] s1); try done; [cbn in Hf; lia|].
        intros s' H1 H2 H3 H4 H5. apply HQ; try done. by rewrite H3, Eo1.
      * destruct (exists_last Hne) as (b0 & x & ->). rewrite removelast_snoc in HQ. rewrite bool_decide_false in HQ by done. rewrite length_app in *. cbn [length] in *.
        rewrite (proj2 (Z.ltb_lt 0 _)) by lia. apply wp_bind. eapply wp_mono; [apply (tm_puts [8; 32; 8] s1 Hg1); repeat constructor; lia|]. intros [] s2 (Hg2 & Eo2 & Ev2 & Hc2).
        apply wp_ret. replace (Z.of_nat (length b0 + 1) - 1) with (Z.of_nat (length b0)) by lia. rewrite <- Ev2 in *.
        apply IH; try done; [lia|by apply Hc2|by apply block_at_take in Hb|by apply Forall_app in Hz as [? _]|lia|].
        intros s' H1 H2 H3 H4 H5. apply HQ; try done. rewrite H3, Eo2, Eo1, <- !app_assoc. done.
    + fold (printable c). destruct (printable c) eqn:Ep; cbn [andb] in HQ.
      2: { apply wp_ret, IH; try done; [cbn in Hf; lia|]. intros s' H1 H2 H3 H4 H5. apply HQ; try done. by rewrite H3, Eo1. }
      destruct (Z.of_nat (length buf) <? max - 1) eqn:Er; [apply Z.ltb_lt in Er|].
      2: { apply wp_ret, IH; try done; [cbn in Hf; lia|]. intros s' H1 H2 H3 H4 H5. apply HQ; try done. by rewrite H3, Eo1. }
      unfold printable in Ep. rewrite andb_true_iff, !Z.leb_le in Ep.
      apply wp_bind, wp_put_store; [done|apply Hr; lia|]. intros s2 Hg2 Ev2 Eo2 Hc2. apply wp_bind.
      eapply wp_mono; [apply (tm_send c s2 Hg2 Hcr)|]. intros [] s3 (Hg3 & Eo3 & Ev3 & Hc3). apply wp_ret.
      assert (Ho : only_in buffer max (view s1) (view s3)) by (rewrite Ev3, Ev2; apply only_in_insert; unfold in_area; lia).
      replace (Z.of_nat (length buf) + 1) with (Z.of_nat (length (buf ++ [c]))) by (rewrite length_app; cbn; lia).
      apply IH; try done; [cbn in Hf; lia|by apply Hc3, Hc2|by eapply only_in_readable| |apply Forall_app; split; [done|repeat constructor; lia]|rewrite length_app; cbn; lia|].
      * intros i x Hx. rewrite Ev3, Ev2. apply lookup_app_Some in Hx as [Hx|[Hi Hx]].
        -- pose proof (lookup_lt_Some _ _ _ Hx). rewrite lookup_insert_ne by lia. by apply Hb.
        -- apply list_lookup_singleton_Some in Hx as [Ei <-]. replace i with (length buf) by lia. apply lookup_insert_eq.
      * intros s' H1 H2 H3 H4 H5. apply HQ; try done; [|by eapply only_in_trans]. rewrite H3, Eo3, Eo2, Eo1, <- !app_assoc. done.
Qed.
End readline.
