(* ===== verification/Bootloader.v ===== *)
(** * The boot loader ([bootloader/src])

    A program of its own that runs before the kernel: a polling serial driver, a
    command line, and the command that receives a kernel and an archive over the
    line and starts the kernel.  Loops that wait for the device run on [fuel];
    loops over [n] bytes run [n] times. *)

From Stdlib Require Import Strings.String Strings.Ascii.
From S2P Require Import Prelude Str Irq Shell.

Open Scope Z_scope.

(** ** State: memory, the device, the variables *)

Record bstate := mkBstate {
  b_mem : bmem;
  b_fifo : list Z; (* received and not yet read *)
  b_sent : list Z; (* given to the transmitter *)
  b_idle : bool; (* the transmitter was seen ready *)
  b_regs : gmap Z Z; (* the other registers of the device, by address *)
  b_env : nat -> line_event; (* what happens on the line between two looks *)
  b_reads : nat; (* looks so far *)
  b_qemu : bool; (* compiled for QEMU *)
  bootstrap_hart : Z; (* kernel.c *)
  boot_hartid : Z; (* shell.c *)
  dtb : Z;
  initrd_start : Z;
  initrd_end : Z;
}.

Definition set_b_mem (v : bmem) (s : bstate) : bstate :=
  mkBstate v s.(b_fifo) s.(b_sent) s.(b_idle) s.(b_regs) s.(b_env) s.(b_reads) s.(b_qemu) s.(bootstrap_hart) s.(boot_hartid) s.(dtb) s.(initrd_start) s.(initrd_end).
Definition set_b_line (fifo sent : list Z) (idle : bool) (reads : nat) (s : bstate) : bstate :=
  mkBstate s.(b_mem) fifo sent idle s.(b_regs) s.(b_env) reads s.(b_qemu) s.(bootstrap_hart) s.(boot_hartid) s.(dtb) s.(initrd_start) s.(initrd_end).
Definition set_b_regs (v : gmap Z Z) (s : bstate) : bstate :=
  mkBstate s.(b_mem) s.(b_fifo) s.(b_sent) s.(b_idle) v s.(b_env) s.(b_reads) s.(b_qemu) s.(bootstrap_hart) s.(boot_hartid) s.(dtb) s.(initrd_start) s.(initrd_end).
Definition set_bootstrap_hart (v : Z) (s : bstate) : bstate :=
  mkBstate s.(b_mem) s.(b_fifo) s.(b_sent) s.(b_idle) s.(b_regs) s.(b_env) s.(b_reads) s.(b_qemu) v s.(boot_hartid) s.(dtb) s.(initrd_start) s.(initrd_end).
Definition set_context (hartid dtb : Z) (s : bstate) : bstate :=
  mkBstate s.(b_mem) s.(b_fifo) s.(b_sent) s.(b_idle) s.(b_regs) s.(b_env) s.(b_reads) s.(b_qemu) s.(bootstrap_hart) hartid dtb s.(initrd_start) s.(initrd_end).
Definition set_initrd (start end_ : Z) (s : bstate) : bstate :=
  mkBstate s.(b_mem) s.(b_fifo) s.(b_sent) s.(b_idle) s.(b_regs) s.(b_env) s.(b_reads) s.(b_qemu) s.(bootstrap_hart) s.(boot_hartid) s.(dtb) start end_.

#[export, refine] Instance boot_memory : Lens bstate bmem := {| view := b_mem; put := set_b_mem |}.
Proof. all: try done. by intros []. Defined.

Abbreviation mem := (zoom (S := bstate) (T := bmem)).

(** ** The device ([mini_uart.h]) *)

Definition LSR_RX_READY : Z := 0x01.
Definition LSR_TX_IDLE : Z := 0x20.

Inductive uart_reg := UART_THR_REG | UART_RBR_REG | UART_DLL_REG | UART_IER_REG | UART_DLH_REG | UART_FCR_REG | UART_LCR_REG | UART_MCR_REG | UART_LSR_REG.

Definition UART_BASE (qemu : bool) : Z := if qemu then 0x10000000 else 0xD4017000.
Definition reg_addr (qemu : bool) (r : uart_reg) : Z :=
  UART_BASE qemu +
  match r with
  | UART_THR_REG | UART_RBR_REG | UART_DLL_REG => 0
  | UART_IER_REG | UART_DLH_REG => if qemu then 1 else 4
  | UART_FCR_REG => if qemu then 2 else 8
  | UART_LCR_REG => if qemu then 3 else 0x0C
  | UART_MCR_REG => if qemu then 4 else 0x10
  | UART_LSR_REG => if qemu then 5 else 0x14
  end.

(** The access is 8 bits wide on QEMU and 32 bits wide on the board. *)
Definition reg_width (v : Z) (s : bstate) : Z := if s.(b_qemu) then u8 v else u32 v.

(** Looking at the line status is when the program learns what has happened on the
    line; reading the receive register takes the oldest byte. *)
Definition uart_reg_read (r : uart_reg) : M bstate Z :=
  match r with
  | UART_LSR_REG =>
      e ← gets (fun s => s.(b_env) s.(b_reads));
      modify (fun s => set_b_line (s.(b_fifo) ++ e.(le_arrived)) s.(b_sent) (s.(b_idle) || e.(le_idle)) (S s.(b_reads)) s) ;;
      gets (fun s => reg_width (Z.lor (Z.lor (if decide (s.(b_fifo) = []) then 0 else LSR_RX_READY) (if s.(b_idle) then LSR_TX_IDLE else 0))
                                 (Z.land e.(le_other) (Z.lnot (Z.lor LSR_RX_READY LSR_TX_IDLE)))) s)
  | UART_RBR_REG =>
      fifo ← gets b_fifo;
      match fifo with
      | [] => mret 0
      | b :: rest =>
          modify (fun s => set_b_line rest s.(b_sent) s.(b_idle) s.(b_reads) s) ;;
          gets (reg_width b)
      end
  | _ => gets (fun s => default 0 (s.(b_regs) !! reg_addr s.(b_qemu) r))
  end.

(** A byte may only be given to a transmitter that is ready; [UART_FCR_REG] can
    empty the receiver. *)
Definition uart_reg_write (r : uart_reg) (value : Z) : M bstate unit :=
  v ← gets (reg_width value);
  match r with
  | UART_THR_REG =>
      idle ← gets b_idle;
      if idle : bool then modify (fun s => set_b_line s.(b_fifo) (s.(b_sent) ++ [v]) false s.(b_reads) s) else ub
  | UART_FCR_REG => when (Z.testbit v 1) (modify (fun s => set_b_line [] s.(b_sent) s.(b_idle) s.(b_reads) s))
  | _ => modify (fun s => set_b_regs (<[reg_addr s.(b_qemu) r := v]> s.(b_regs)) s)
  end.

(** ** The driver ([uart.c]) *)

Fixpoint flush_rounds (limit : nat) : M bstate unit :=
  match limit with
  | O => mret tt
  | S n =>
      lsr ← uart_reg_read UART_LSR_REG;
      if Z.land lsr LSR_RX_READY =? 0 then mret tt else _ ← uart_reg_read UART_RBR_REG; flush_rounds n
  end.
Definition uart_flush_hardware_rx_fifo : M bstate unit := flush_rounds 256.

Definition uart_init : M bstate unit :=
  q ← gets b_qemu;
  if q : bool then
    uart_reg_write UART_IER_REG 0 ;;
    uart_reg_write UART_LCR_REG 0x80 ;;
    uart_reg_write UART_DLL_REG 0x01 ;;
    uart_reg_write UART_DLH_REG 0x00 ;;
    uart_reg_write UART_LCR_REG 0x03 ;;
    uart_reg_write UART_FCR_REG 0x07 ;;
    uart_reg_write UART_MCR_REG 0x03
  else
    uart_reg_write UART_IER_REG 0x00 ;;
    uart_reg_write UART_FCR_REG 0x07 ;;
    uart_flush_hardware_rx_fifo.

Section boot.
Context (fuel : nat).

(** Waiting for a bit of the line status. *)
Definition uart_wait (bit : Z) : M bstate unit :=
  loop fuel (fun _ : unit => lsr ← uart_reg_read UART_LSR_REG; mret (if Z.land lsr bit =? 0 then inl tt else inr tt)) tt.

Definition uart_send (c : Z) : M bstate unit :=
  uart_wait LSR_TX_IDLE ;;
  uart_reg_write UART_THR_REG (u8 c).

Definition uart_recv : M bstate Z :=
  uart_wait LSR_RX_READY ;;
  b ← uart_reg_read UART_RBR_REG;
  mret (u8 (Z.land b 0xFF)).

Definition uart_send_string (str : cstr) : M bstate unit :=
  n ← gets (fun s => str_fuel str s.(b_mem));
  loop n
    (fun i : Z =>
       c ← mem (char_at str i);
       if c =? 0 then mret (inr tt)
       else
         when (c =? 10) (uart_send 13) ;;
         uart_send c ;;
         mret (inl (i + 1)))
    0.

(** [shift] runs from 60 down to 0 in steps of 4. *)
Fixpoint send_hex_digits (n : nat) (value : Z) : M bstate unit :=
  match n with
  | O => mret tt
  | S n' =>
      let digit := Z.land (Z.shiftr value (4 * Z.of_nat n')) 0xF in
      uart_send (if digit <? 10 then u8 (48 + digit) else u8 (97 + (digit - 10))) ;;
      send_hex_digits n' value
  end.
Definition uart_send_hex (value : Z) : M bstate unit := send_hex_digits 16 value.

Fixpoint dec_fill (room : nat) (value : Z) (buf : list Z) : list Z :=
  match room with
  | O => buf
  | S n => if 0 <? value then dec_fill n (value / 10) (buf ++ [u8 (48 + value mod 10)]) else buf
  end.
Fixpoint send_all (l : list Z) : M bstate unit :=
  match l with
  | [] => mret tt
  | c :: l' => uart_send c ;; send_all l'
  end.
Definition uart_send_dec (value : Z) : M bstate unit :=
  if value =? 0 then uart_send 48 else send_all (rev (dec_fill 24 value [])).

(** ** The command line and the loader ([shell.c]) *)

Definition UART_BOOT_BUNDLE_MAGIC : Z := 0x324F4F42.
Definition UART_BOOT_MAX_SIZE : Z := 16 * 1024 * 1024.
Definition UART_INITRD_MAX_SIZE : Z := 64 * 1024 * 1024.
Definition UART_BOOT_BUNDLE_MAX_SIZE : Z := UART_BOOT_MAX_SIZE + UART_INITRD_MAX_SIZE + 16.
Definition UART_BOOT_LOAD_ADDR (qemu : bool) : Z := if qemu then 0x82000000 else 0x20000000.
Definition UART_INITRD_LOAD_ADDR (qemu : bool) : Z := if qemu then 0x88000000 else 0x46100000.

Definition shell_set_context (hartid dtb_addr : Z) : M bstate unit := modify (set_context hartid dtb_addr).

Definition recv_u32_le : M bstate Z :=
  b0 ← uart_recv;
  b1 ← uart_recv;
  b2 ← uart_recv;
  b3 ← uart_recv;
  mret (Z.lor (Z.lor (Z.lor (Z.lor 0 (u8 b0)) (Z.shiftl (u8 b1) 8)) (Z.shiftl (u8 b2) 16)) (Z.shiftl (u8 b3) 24)).

Definition recv_bytes (dst size : Z) : M bstate unit :=
  for_up (Z.to_nat size) 0 (fun i => c ← uart_recv; mem (store (dst + i) c)).

Definition load_u32_le (p : Z) : M bmem Z :=
  b0 ← char_at (CPtr p) 0;
  b1 ← char_at (CPtr p) 1;
  b2 ← char_at (CPtr p) 2;
  b3 ← char_at (CPtr p) 3;
  mret (Z.lor (Z.lor (Z.lor b0 (Z.shiftl b1 8)) (Z.shiftl b2 16)) (Z.shiftl b3 24)).

(** Upwards or downwards, so that overlapping areas are copied correctly. *)
Definition copy_bytes (dst src size : Z) : M bmem unit :=
  if dst <? src then for_up (Z.to_nat size) 0 (fun i => c ← char_at (CPtr src) i; store (dst + i) c)
  else if src <? dst then
    for_up (Z.to_nat size) 0 (fun k => let i := size - k in c ← char_at (CPtr src) (i - 1); store (dst + (i - 1)) c)
  else mret tt.

Definition checksum_bytes (data size : Z) : M bmem Z :=
  for_acc (Z.to_nat size) 0 (fun i sum => c ← char_at (CPtr data) i; mret (Z.land (u64 (sum + c)) 0xffffffff)) 0.

(** The caller passes no place for the size. *)
Definition uart_load_image_payload (dst max_size load_addr size expected_sum : Z) : M bstate Z :=
  if (size =? 0) || (max_size <? size) then
    uart_send_string (text "load fail: bad size ") ;;
    uart_send_dec size ;;
    uart_send_string (text_line "") ;;
    mret (-1)
  else
    uart_send_string (text "loading ") ;;
    uart_send_dec size ;;
    uart_send_string (text " bytes to ") ;;
    uart_send_hex load_addr ;;
    uart_send_string (text_line "") ;;
    recv_bytes dst size ;;
    actual_sum ← mem (checksum_bytes dst size);
    if negb (actual_sum =? expected_sum) then
      uart_send_string (text "load fail: checksum exp=") ;;
      uart_send_hex expected_sum ;;
      uart_send_string (text " got=") ;;
      uart_send_hex actual_sum ;;
      uart_send_string (text_line "") ;;
      mret (-1)
    else mret 0.

(** How a command ends: back at the prompt, or in the loaded kernel, which gets
    these arguments. *)
Inductive boot_end := Prompt | Jumped (entry a0 a1 a2 a3 : Z).

(** Steps 3 to 6, on the bundle of [size] bytes at [bundle]; [false]: the function
    returns. *)
Definition unpack_bundle (bundle size : Z) : M bstate bool :=
  q ← gets b_qemu;
  kernel_size ← mem (load_u32_le bundle);
  initrd_size ← mem (load_u32_le (bundle + 4));
  kernel_sum ← mem (load_u32_le (bundle + 8));
  initrd_sum ← mem (load_u32_le (bundle + 12));
  let total_needed := u64 (u64 (16 + kernel_size) + initrd_size) in
  if (kernel_size =? 0) || (UART_BOOT_MAX_SIZE <? kernel_size) || (initrd_size =? 0) || (UART_INITRD_MAX_SIZE <? initrd_size) ||
     negb (total_needed =? size) then
    uart_send_string (text_line "load fail: bad bundle layout") ;;
    mret false
  else
    let kernel_src := bundle + 16 in
    let initrd_src := kernel_src + kernel_size in
    sum1 ← mem (checksum_bytes kernel_src kernel_size);
    bad ← (if negb (sum1 =? kernel_sum) then mret true
           else sum2 ← mem (checksum_bytes initrd_src initrd_size); mret (negb (sum2 =? initrd_sum)));
    if bad : bool then
      uart_send_string (text_line "load fail: bad bundle checksum") ;;
      mret false
    else
      mem (copy_bytes (UART_BOOT_LOAD_ADDR q) kernel_src kernel_size) ;;
      mem (copy_bytes (UART_INITRD_LOAD_ADDR q) initrd_src initrd_size) ;;
      modify (set_initrd (UART_INITRD_LOAD_ADDR q) (u64 (UART_INITRD_LOAD_ADDR q + initrd_size))) ;;
      wrapped ← gets (fun s => s.(initrd_end) <? s.(initrd_start));
      if wrapped : bool then
        modify (set_initrd 0 0) ;;
        uart_send_string (text_line "load fail: initrd range overflow") ;;
        mret false
      else
        uart_send_string (text "bundle ok: kernel=") ;;
        uart_send_dec kernel_size ;;
        uart_send_string (text " initrd=") ;;
        uart_send_dec initrd_size ;;
        uart_send_string (text_line "") ;;
        mret true.

(** The end of [boot_load_and_jump]; the barriers have no effect on this state. *)
Definition jump_to_kernel : M bstate boot_end :=
  q ← gets b_qemu;
  uart_send_string (text "load ok, jump ") ;;
  uart_send_hex (UART_BOOT_LOAD_ADDR q) ;;
  range ← gets (fun s => s.(initrd_start) <? s.(initrd_end));
  when range
    (uart_send_string (text " (initrd ") ;;
     start ← gets initrd_start;
     uart_send_hex start ;;
     uart_send_string (text "-") ;;
     end_ ← gets initrd_end;
     uart_send_hex end_ ;;
     uart_send_string (text ")")) ;;
  uart_send_string (text_line "") ;;
  gets (fun s => Jumped (UART_BOOT_LOAD_ADDR q) s.(boot_hartid) s.(dtb) s.(initrd_start) s.(initrd_end)).

Definition boot_load_and_jump : M bstate boot_end :=
  q ← gets b_qemu;
  let dst := UART_BOOT_LOAD_ADDR q in
  uart_send_string (text_line "UART loader ready for kernel+initrd bundle") ;;
  uart_send_string (text_line "send header <magic,size,checksum> then payload") ;;
  magic ← recv_u32_le;
  size ← recv_u32_le;
  expected_sum ← recv_u32_le;
  if magic =? UART_BOOT_BUNDLE_MAGIC then
    r ← uart_load_image_payload dst UART_BOOT_BUNDLE_MAX_SIZE dst size expected_sum;
    if negb (r =? 0) then mret Prompt
    else if size <? 16 then
      uart_send_string (text_line "load fail: bundle too small") ;;
      mret Prompt
    else
      ok ← unpack_bundle dst size;
      if ok : bool then jump_to_kernel else mret Prompt
  else
    uart_send_string (text "load fail: bad magic ") ;;
    uart_send_hex magic ;;
    uart_send_string (text_line " (expect BOO2 bundle)") ;;
    mret Prompt.

Definition shell_execute (line : Z) : M bstate boot_end :=
  first ← mem (char_at (CPtr line) 0);
  if first =? 0 then mret Prompt
  else
    help ← mem (strcmp (CPtr line) (text "help"));
    if help =? 0 then
      uart_send_string (text_line "Available commands:") ;;
      uart_send_string (text_line "  help   - Show this message") ;;
      uart_send_string (text_line "  load   - Load kernel+initrd bundle via UART and jump") ;;
      mret Prompt
    else
      load ← mem (strcmp (CPtr line) (text "load"));
      if load =? 0 then boot_load_and_jump
      else
        uart_send_string (text "Unknown command: ") ;;
        uart_send_string (CPtr line) ;;
        uart_send_string (text_line "") ;;
        mret Prompt.

(** One round of the loop of [shell_run]; [line] is the address of its buffer and
    [chars] bounds the characters of one line. *)
Definition shell_round (chars : nat) (line : Z) : M bstate boot_end :=
  uart_send_string (text "> ") ;;
  shell_readline uart_send_string uart_send uart_recv chars line 128 ;;
  mem (trim_in_place line) ;;
  shell_execute line.

(** The loop, up to the jump and for at most [rounds] commands. *)
Definition shell_run (rounds chars : nat) (line : Z) : M bstate boot_end :=
  loop rounds (fun _ : unit => r ← shell_round chars line; mret (match r with Prompt => inl tt | Jumped _ _ _ _ _ => inr r end)) tt.

(** ** Start ([kernel.c]) *)

(** [None]: this hart sleeps forever. *)
Definition kernel_main (rounds chars : nat) (line hartid dtb_addr : Z) : M bstate (option boot_end) :=
  b ← gets bootstrap_hart;
  when (b =? 2 ^ 64 - 1) (modify (set_bootstrap_hart hartid)) ;;
  b ← gets bootstrap_hart;
  if negb (hartid =? b) then mret None
  else
    uart_init ;;
    shell_set_context hartid dtb_addr ;;
    uart_send_string (CLit ([10] ++ [85; 65; 82; 84; 32; 66; 111; 111; 116; 108; 111; 97; 100; 101; 114; 32; 114; 101; 97; 100; 121; 10])) ;;
    uart_send_string (text "load addr: ") ;;
    q ← gets b_qemu;
    uart_send_hex (UART_BOOT_LOAD_ADDR q) ;;
    uart_send_string (text_line "") ;;
    uart_send_string (text_line "Type 'help' for commands") ;;
    r ← shell_run rounds chars line;
    mret (Some r).
End boot.
