(* ===== verification/Platform.v ===== *)
(** * Start of the kernel ([platform.c], [kernel.c])

    What the kernel takes from the device tree and from the boot loader, the start of
    the other harts, and the greeting, in which all harts share the serial line under
    a ticket lock: a transition system in which any hart may take the next step. *)

From Stdlib Require Import Strings.String.
From S2P Require Import Prelude Memory Task Str Irq Interrupts Uart Fdt FdtStream FdtTree FdtRegions DeviceTree.

Open Scope Z_scope.

(** ** Platform data *)

(** The kernel with the fields of [boot_info] that are not part of [ksys]. *)
Record platform := mkPlatform {
  pl_sys : ksys;
  pl_hartid : Z;
  pl_dtb : Z;
}.

#[export, refine] Instance platform_sys : Lens platform ksys :=
  {| view := pl_sys; put v p := mkPlatform v p.(pl_hartid) p.(pl_dtb) |}.
Proof. all: try done. by intros []. Defined.

(** A call of a device tree function. *)
Definition ask {A} (f : M dtb A) (fdt : dtb) : M ksys A := defined (fst <$> f fdt).

(** [None] is the null pointer. *)
Definition platform_init_devices (fdt : option dtb) : M ksys Z :=
  match fdt with
  | None => mret (-1)
  | Some b =>
      q ← gets (fun s => s.(k_sched).(qemu));
      uart_node ← ask (fdt_find_compatible (chars (if q : bool then "ns16550a" else "ky,pxa-uart"))) b;
      plic_node ← ask (fdt_find_compatible (chars "riscv,plic0")) b;
      if (uart_node <? 0) || (plic_node <? 0) then mret (-1)
      else
        uart_base ← ask (fdt_get_reg_base uart_node) b;
        match uart_base with
        | None => mret (-1)
        | Some uart_base =>
            irq ← ask (fdt_get_interrupt_id uart_node) b;
            match irq with
            | None => mret (-1)
            | Some irq =>
                plic_base ← ask (fdt_get_reg_base plic_node) b;
                match plic_base with
                | None => mret (-1)
                | Some plic_base =>
                    uart_set_platform uart_base irq ;;
                    plic_set_base plic_base ;;
                    mret 0
                end
            end
        end
  end.

(** The range of the archive: that of the device tree, else that of the boot loader. *)
Definition initrd_hint (hint_start hint_end : Z) : Z * Z :=
  if negb (hint_start =? 0) && (hint_start <? hint_end) && (u64 (hint_end - hint_start) <=? 256 * 1024 * 1024) then (hint_start, hint_end) else (0, 0).

Definition platform_init (hartid : Z) (fdt : option dtb) (initrd_hint_start initrd_hint_end : Z) : M platform Z :=
  rc ← zoom (platform_init_devices fdt);
  match fdt with
  | None => mret (-1)
  | Some b =>
      if negb (rc =? 0) then mret (-1)
      else
        modify (fun p => mkPlatform p.(pl_sys) hartid b.(d_addr)) ;;
        range ← zoom (ask fdt_get_initrd_range b);
        let '(start, end_) :=
          match range with
          | Some (start, end_) => if (start =? 0) || (end_ <=? start) then initrd_hint initrd_hint_start initrd_hint_end else (start, end_)
          | None => initrd_hint initrd_hint_start initrd_hint_end
          end in
        zoom (modify (fun s => set_initrd_end end_ (set_initrd_start start s))) ;;
        mret 0
  end.

(** ** The other harts ([kernel_main]) *)

Definition MAX_CORES : Z := 8.
Definition SECONDARY_STACK_SIZE : Z := 4096.

Record cores := mkCores {
  started_cores : Z;
  stack_slot : Z;
  core_stacks : list (Z * Z); (* the harts that were started and their stack tops *)
}.

(** [secondary_stacks] is the address of the array; [sbi_hart_start] says whether the
    firmware starts a hart. *)
Section harts.
Context (secondary_stacks : Z) (sbi_hart_start : Z -> Z -> bool).

Fixpoint start_cores (n : nat) (target hartid : Z) (c : cores) : cores :=
  match n with
  | O => c
  | S n' =>
      if target =? hartid then start_cores n' (target + 1) hartid c
      else if MAX_CORES - 1 <=? c.(stack_slot) then c
      else
        let stack_top := secondary_stacks + c.(stack_slot) * SECONDARY_STACK_SIZE + SECONDARY_STACK_SIZE in
        start_cores n' (target + 1) hartid
          (if sbi_hart_start target stack_top
           then mkCores (u32 (c.(started_cores) + 1)) (u32 (c.(stack_slot) + 1)) (c.(core_stacks) ++ [(target, stack_top)])
           else c)
  end.

Definition start_secondaries (hartid : Z) : cores := start_cores (Z.to_nat MAX_CORES) 0 hartid (mkCores 1 0 []).
End harts.

(** ** The greeting ([greet_once]) *)

(** What [greet_once] prints. *)
Definition hello (core : Z) : list Z :=
  crlf (chars "Hello from core ") ++ (if core =? 0 then [48] else rev (dec_fill 24 core [])) ++ [13; 10].

(** Where a hart is: before it takes its ticket, waiting for its turn, sending what is
    left, about to read the counter, about to write what it read plus one, about to
    report, done. *)
Inductive greeter :=
  | GStart
  | GWait (my_ticket : Z)
  | GPrint (my_ticket : Z) (left : list Z)
  | GRead (my_ticket : Z)
  | GWrite (my_ticket value : Z)
  | GReport (my_ticket : Z)
  | GDone (my_ticket : Z).

Record greeting := mkGreeting {
  greet_ticket : Z;
  greet_serving : Z;
  greeted_count : Z;
  g_harts : gmap Z greeter;
  g_sent : list Z; (* the serial line *)
}.

Definition go (h : Z) (g : greeter) (s : greeting) : greeting :=
  mkGreeting s.(greet_ticket) s.(greet_serving) s.(greeted_count) (<[h := g]> s.(g_harts)) s.(g_sent).

(** The next step of hart [h]. *)
Definition greet_step (h : Z) (s : greeting) : option greeting :=
  g ← s.(g_harts) !! h;
  match g with
  | GStart => Some (mkGreeting (u32 (s.(greet_ticket) + 1)) s.(greet_serving) s.(greeted_count) (<[h := GWait s.(greet_ticket)]> s.(g_harts)) s.(g_sent))
  | GWait t => Some (if s.(greet_serving) =? t then go h (GPrint t (hello h)) s else s)
  | GPrint t (c :: l) => Some (mkGreeting s.(greet_ticket) s.(greet_serving) s.(greeted_count) (<[h := GPrint t l]> s.(g_harts)) (s.(g_sent) ++ [c]))
  | GPrint t [] => Some (go h (GRead t) s)
  | GRead t => Some (go h (GWrite t s.(greet_serving)) s)
  | GWrite t v => Some (mkGreeting s.(greet_ticket) (u32 (v + 1)) s.(greeted_count) (<[h := GReport t]> s.(g_harts)) s.(g_sent))
  | GReport t => Some (mkGreeting s.(greet_ticket) s.(greet_serving) (u32 (s.(greeted_count) + 1)) (<[h := GDone t]> s.(g_harts)) s.(g_sent))
  | GDone _ => None
  end.

(** Any hart may be the next. *)
Definition greet_any (s s' : greeting) : Prop := exists h, greet_step h s = Some s'.

Definition greet_init (harts : list Z) : greeting := mkGreeting 0 0 0 (list_to_map ((fun h => (h, GStart)) <$> harts)) [].

(** ** Platform data are well formed *)

Lemma compat_node b want : forall it r, find_compat b want it = Some r -> exists sub, node_at it (s_base b + r) sub.
Proof.
  fix IH 1. intros [pn p len|pos nm its] r; [done|]. cbn [find_compat]. intros H.
  assert (C : r = pos - s_base b \/ exists it sub, it ∈ its /\ node_at it (s_base b + r) sub).
  { induction its as [|it its IHl]; [done|]. cbn [first_some] in H. pose proof (IH it) as IHit. destruct it as [pn p len|pos' nm' its'].
    - destruct (bool_decide _ && _); [injection H as <-; by left|]. destruct (IHl H) as [?|(it & sub & H1 & H2)]; [by left|right]. exists it, sub. split; [by right|done].
    - destruct (find_compat b want (INode pos' nm' its')) as [r'|] eqn:E.
      + injection H as <-. destruct (IHit _ eq_refl) as [sub Hs]. right. exists (INode pos' nm' its'), sub. split; [by left|done].
      + destruct (IHl H) as [?|(it & sub & H1 & H2)]; [by left|right]. exists it, sub. split; [by right|done]. }
  destruct C as [->|(it & sub & H1 & H2)].
  - exists its. replace (s_base b + (pos - s_base b)) with pos by lia. constructor.
  - exists sub. by econstructor.
Qed.

(** A compatible node is an offset in the structure block. *)
Lemma compatible_returns b want : readable b -> c_string want -> exists r, fdt_find_compatible want b = Some (r, b) /\ r < 2 ^ 31.
Proof.
  intros Hb Hw. destruct (check_cases b Hb) as [(toks & Hv & Hbo & E)|[Hno E]]; cycle 1.
  { destruct (wp_run _ _ _ (rejected_compat b E want)) as (r & s & Er & -> & ->). by exists (-1). }
  destruct (stream_document b _ _ (va_stream b toks Hv)) as [root Hdoc].
  assert (H : wp (fdt_find_compatible want) (fun r s => s = b /\ r = match find_compat b want root with Some r => r | None => -1 end) b) by (by eapply wp_find_compatible).
  destruct (wp_run _ _ _ H) as (r & s & Er & -> & ->). eexists. split; [exact Er|]. destruct (find_compat b want root) as [r|] eqn:Ef; [|lia].
  destruct (compat_node _ _ _ _ Ef) as [sub Hs]. assert (Hr : s_base b <= s_base b + r < s_fin b) by (by eapply node_range). pose proof (bo_fin31 b Hbo). pose proof (bo_base b Hbo) as Hba.
  unfold SIZEOF_FDT_HEADER in Hba. lia.
Qed.

Definition uart_name (q : bool) : list Z := chars (if q then "ns16550a" else "ky,pxa-uart").

(** What the tree says about the two devices. *)
Definition device_data (b : dtb) (q : bool) (uart_base irq plic_base : Z) : Prop :=
  exists uart_node plic_node, 0 <= uart_node /\ 0 <= plic_node /\
    fdt_find_compatible (uart_name q) b = Some (uart_node, b) /\ fdt_find_compatible (chars "riscv,plic0") b = Some (plic_node, b) /\
    fdt_get_reg_base uart_node b = Some (Some uart_base, b) /\ fdt_get_interrupt_id uart_node b = Some (Some irq, b) /\
    fdt_get_reg_base plic_node b = Some (Some plic_base, b).

Definition with_devices (uart_base irq plic_base : Z) (s : ksys) : ksys :=
  set_k_plic (set_plic_base plic_base s.(k_plic)) (set_k_uart (set_uart_irq_number irq (set_uart_base_addr uart_base s.(k_uart))) s).

Lemma wp_ask {A} (f : M dtb A) b r Q (s : ksys) : f b = Some (r, b) -> Q r s -> wp (ask f b) Q s.
Proof. intros E HQ. unfold ask. eapply wp_defined; [by rewrite E|done]. Qed.

Lemma wp_devices b Q s :
  readable b ->
  (forall u i p, device_data b s.(k_sched).(qemu) u i p -> Q 0 (with_devices u i p s)) -> Q (-1) s -> wp (platform_init_devices (Some b)) Q s.
Proof.
  intros Hb HQ HF. unfold platform_init_devices. apply wp_bind, wp_gets. fold (uart_name s.(k_sched).(qemu)).
  destruct (compatible_returns b (uart_name s.(k_sched).(qemu)) Hb) as (un & Eu & Hu); [by destruct (qemu (k_sched s)); repeat constructor|].
  destruct (compatible_returns b (chars "riscv,plic0") Hb) as (pn & Ep & Hp); [by repeat constructor|].
  apply wp_bind, (wp_ask _ _ _ _ _ Eu), wp_bind, (wp_ask _ _ _ _ _ Ep).
  destruct (Z.ltb_spec un 0) as [|Hu0]; [by apply wp_ret|]. destruct (Z.ltb_spec pn 0) as [|Hp0]; [by apply wp_ret|]. cbn [orb].
  destruct (all_return_holds b (chars "/") (chars "reg") un 1 Hb) as (_ & _ & _ & _ & _ & _ & _ & _ & _ & [ub Eub] & [ir Eir]); [by repeat constructor|by repeat constructor|done|].
  destruct (all_return_holds b (chars "/") (chars "reg") pn 1 Hb) as (_ & _ & _ & _ & _ & _ & _ & _ & _ & [pb Epb] & _); [by repeat constructor|by repeat constructor|done|].
  apply wp_bind, (wp_ask _ _ _ _ _ Eub). destruct ub as [ub|]; [|by apply wp_ret].
  apply wp_bind, (wp_ask _ _ _ _ _ Eir). destruct ir as [ir|]; [|by apply wp_ret].
  apply wp_bind, (wp_ask _ _ _ _ _ Epb). destruct pb as [pb|]; [|by apply wp_ret].
  assert (Hd : device_data b s.(k_sched).(qemu) ub ir pb) by (exists un, pn; done). specialize (HQ _ _ _ Hd).
  unfold with_devices in HQ. destruct s. exact HQ.
Qed.

(** The archive range the kernel uses. *)
Definition archive_range (b : dtb) (hint_start hint_end : Z) (start end_ : Z) : Prop :=
  exists range, fdt_get_initrd_range b = Some (range, b) /\
    (start, end_) = match range with
                    | Some (s, e) => if 0 <? s then (s, e) else initrd_hint hint_start hint_end
                    | None => initrd_hint hint_start hint_end
                    end.
Definition range_ok (start end_ : Z) : Prop := start = 0 /\ end_ = 0 \/ 0 < start < end_ /\ end_ < 2 ^ 64.

(** ** The harts have stacks of their own *)

Definition stack_of (top a : Z) : Prop := top - SECONDARY_STACK_SIZE <= a < top.

Section harts_ok.
Context (secondary_stacks : Z) (sbi_hart_start : Z -> Z -> bool).

(** After some rounds: the [i]-th hart that was started has the [i]-th stack. *)
Record cores_ok (hartid target : Z) (c : cores) : Prop := {
  co_slots : c.(stack_slot) = Z.of_nat (length c.(core_stacks));
  co_count : c.(started_cores) = 1 + Z.of_nat (length c.(core_stacks));
  co_room : Z.of_nat (length c.(core_stacks)) <= MAX_CORES - 1;
  co_tops : forall i h top, c.(core_stacks) !! i = Some (h, top) -> top = secondary_stacks + (Z.of_nat i + 1) * SECONDARY_STACK_SIZE;
  co_harts : NoDup (c.(core_stacks).*1) /\ Forall (fun h => 0 <= h < target /\ h <> hartid /\ h < MAX_CORES) (c.(core_stacks).*1);
}.

Lemma start_cores_ok n : forall target hartid c,
  0 <= target -> target + Z.of_nat n <= MAX_CORES -> cores_ok hartid target c -> exists last, cores_ok hartid last (start_cores secondary_stacks sbi_hart_start n target hartid c).
Proof using.
  induction n as [|n IH]; intros target hartid c Ht Hn Hc; cbn [start_cores]; [by exists target|].
  assert (Hnext : cores_ok hartid (target + 1) c).
  { destruct Hc as [H1 H2 H3 H4 [H5 H6]]. split; try done. split; [done|]. eapply Forall_impl; [exact H6|]. cbn. lia. }
  destruct (Z.eqb_spec target hartid) as [->|Hne]; [apply IH; [lia|lia|done]|]. destruct (Z.leb_spec (MAX_CORES - 1) c.(stack_slot)) as [|Hs]; [by exists target|].
  apply IH; [lia|lia|]. destruct (sbi_hart_start _ _); [|done]. destruct Hc as [H1 H2 H3 H4 [H5 H6]]. unfold MAX_CORES, SECONDARY_STACK_SIZE in *.
  split; cbn [stack_slot started_cores core_stacks]; rewrite ?length_app; cbn [length].
  - rewrite u32_id; lia.
  - rewrite u32_id; lia.
  - unfold MAX_CORES. lia.
  - intros i h top Hi. apply lookup_app_Some in Hi as [Hi|[Hi He]]; [by eapply H4|]. apply list_lookup_singleton_Some in He as [Hi0 E]. injection E as <- <-.
    unfold SECONDARY_STACK_SIZE. replace (Z.of_nat i) with c.(stack_slot) by lia. lia.
  - rewrite fmap_app. cbn. unfold MAX_CORES. split.
    + apply NoDup_app. split; [done|]. split; [|apply NoDup_singleton]. intros x Hx ->%list_elem_of_singleton. rewrite Forall_forall in H6. specialize (H6 _ Hx). cbn in H6. lia.
    + apply Forall_app. split; [eapply Forall_impl; [exact H6|]; cbn; unfold MAX_CORES; lia|]. constructor; [|constructor]. lia.
Qed.

Lemma secondaries_ok hartid : exists last, cores_ok hartid last (start_secondaries secondary_stacks sbi_hart_start hartid).
Proof using. apply start_cores_ok; [done|done|]. split; cbn; try done; try lia. split; constructor. Qed.
End harts_ok.

(** Every hart that is started has a stack of its own inside the array, no hart is
    started twice, the first hart is not started again, and the count is right,
    whatever the firmware answers. *)
Theorem secondary_stacks_own (secondary_stacks : Z) (sbi_hart_start : Z -> Z -> bool) (hartid : Z) :
  let c := start_secondaries secondary_stacks sbi_hart_start hartid in
  c.(started_cores) = 1 + Z.of_nat (length c.(core_stacks)) /\ NoDup (c.(core_stacks).*1) /\ hartid ∉ (c.(core_stacks).*1) /\
  (forall i h top a, c.(core_stacks) !! i = Some (h, top) -> stack_of top a ->
     secondary_stacks <= a < secondary_stacks + (MAX_CORES - 1) * SECONDARY_STACK_SIZE /\
     forall j h' top', c.(core_stacks) !! j = Some (h', top') -> stack_of top' a -> i = j).
Proof.
  cbv zeta. destruct (secondaries_ok secondary_stacks sbi_hart_start hartid) as [last [H1 H2 H3 H4 [H5 H6]]]. split; [done|]. split; [done|]. split.
  - intros Hin. rewrite Forall_forall in H6. specialize (H6 _ Hin). cbn in H6. lia.
  - intros i h top a Hi Ha. pose proof (H4 _ _ _ Hi) as ->. pose proof (lookup_lt_Some _ _ _ Hi). unfold stack_of, SECONDARY_STACK_SIZE, MAX_CORES in *. split; [lia|].
    intros j h' top' Hj Ha'. pose proof (H4 _ _ _ Hj) as ->. lia.
Qed.

(** ** The greeting is orderly *)

Definition ticket_of (g : greeter) : option Z :=
  match g with GStart => None | GWait t | GPrint t _ | GRead t | GWrite t _ | GReport t | GDone t => Some t end.

(** [order]: the harts with a ticket; [part]: what the hart whose turn it is has sent. *)
Definition phase_ok (serving : Z) (part : list Z) (h : Z) (g : greeter) : Prop :=
  match g with
  | GStart => True
  | GWait t => serving <= t /\ (t = serving -> part = [])
  | GPrint t l => t = serving /\ part ++ l = hello h
  | GRead t => t = serving /\ part = hello h
  | GWrite t v => t = serving /\ v = serving /\ part = hello h
  | GReport t | GDone t => t < serving
  end.
Definition is_done (g : greeter) : bool := match g with GDone _ => true | _ => false end.

Record ginv (harts : list Z) (s : greeting) (order part dones : list Z) : Prop := {
  gi_dom : forall h, h ∈ harts <-> is_Some (s.(g_harts) !! h);
  gi_order : NoDup order;
  gi_ticket : s.(greet_ticket) = Z.of_nat (length order);
  gi_serving : 0 <= s.(greet_serving) <= Z.of_nat (length order);
  gi_has : forall h, h ∈ order -> exists g t, s.(g_harts) !! h = Some g /\ ticket_of g = Some t;
  gi_at : forall h g t, s.(g_harts) !! h = Some g -> ticket_of g = Some t -> 0 <= t /\ order !! Z.to_nat t = Some h;
  gi_phase : forall h g, s.(g_harts) !! h = Some g -> phase_ok s.(greet_serving) part h g;
  gi_idle : s.(greet_serving) = Z.of_nat (length order) -> part = [];
  gi_sent : s.(g_sent) = flat_map hello (take (Z.to_nat s.(greet_serving)) order) ++ part;
  gi_dones : NoDup dones /\ forall h, h ∈ dones <-> exists g, s.(g_harts) !! h = Some g /\ is_done g = true;
  gi_count : s.(greeted_count) = Z.of_nat (length dones);
}.

Lemma sum_less (f f' : Z -> nat) (l : list Z) h : h ∈ l -> (forall k, k <> h -> f' k = f k) -> (f' h < f h)%nat -> (sum_list_with f' l < sum_list_with f l)%nat.
Proof.
  intros Hh Ho Hl. assert (Hle : forall l, (sum_list_with f' l <= sum_list_with f l)%nat).
  { clear l Hh. intros l. induction l as [|k l IH]; cbn; [done|]. destruct (decide (k = h)) as [->|Hn]; [lia|]. rewrite Ho by done. lia. }
  induction l as [|k l IH]; [by apply not_elem_of_nil in Hh|]. cbn. apply elem_of_cons in Hh as [->|Hh].
  - specialize (Hle l). lia.
  - specialize (IH Hh). destruct (decide (k = h)) as [->|Hn]; [lia|]. rewrite (Ho k Hn). lia.
Qed.

Section greeting_ok.
Context (harts : list Z) (Hnd : NoDup harts) (Hfew : Z.of_nat (length harts) < 2 ^ 32).

Lemma few s order part dones : ginv harts s order part dones -> (length order <= length harts)%nat /\ (length dones <= length harts)%nat.
Proof using.
  intros H. split; apply submseteq_length, NoDup_submseteq.
  - apply H.
  - intros h Hh. apply (gi_dom _ _ _ _ _ H). destruct (gi_has _ _ _ _ _ H h Hh) as (g & t & -> & _). eauto.
  - apply (gi_dones _ _ _ _ _ H).
  - intros h Hh. apply (gi_dom _ _ _ _ _ H). apply (gi_dones _ _ _ _ _ H) in Hh as (g & -> & _). eauto.
Qed.

(** A hart with a ticket is the only one with it. *)
Lemma same_ticket s order part dones h g h' g' t :
  ginv harts s order part dones -> s.(g_harts) !! h = Some g -> ticket_of g = Some t -> s.(g_harts) !! h' = Some g' -> ticket_of g' = Some t -> h' = h.
Proof using.
  intros H Hg Ht Hg' Ht'. destruct (gi_at _ _ _ _ _ H _ _ _ Hg Ht) as [_ E]. destruct (gi_at _ _ _ _ _ H _ _ _ Hg' Ht') as [_ E']. congruence.
Qed.

Lemma insert_dom (m : gmap Z greeter) h g : is_Some (m !! h) -> (forall k, k ∈ harts <-> is_Some (m !! k)) -> forall k, k ∈ harts <-> is_Some (<[h := g]> m !! k).
Proof using.
  intros Hh Hd k. rewrite Hd. destruct (decide (h = k)) as [->|Hn]; [rewrite lookup_insert_eq; split; eauto|by rewrite lookup_insert_ne].
Qed.

(** The hart whose turn it is makes a step. *)
Lemma turn_step s order part dones h g g' part' sent' :
  ginv harts s order part dones -> s.(g_harts) !! h = Some g -> ticket_of g = Some s.(greet_serving) -> is_done g = false ->
  ticket_of g' = Some s.(greet_serving) -> is_done g' = false -> phase_ok s.(greet_serving) part' h g' ->
  sent' = flat_map hello (take (Z.to_nat s.(greet_serving)) order) ++ part' ->
  ginv harts (mkGreeting s.(greet_ticket) s.(greet_serving) s.(greeted_count) (<[h := g']> s.(g_harts)) sent') order part' dones.
Proof using.
  intros H Hg Ht Hdn Ht' Hdn' Hp Hs. pose proof (gi_at _ _ _ _ _ H _ _ _ Hg Ht) as [Ht0 Ho]. pose proof (lookup_lt_Some _ _ _ Ho) as Hlt.
  split; cbn [g_harts greet_ticket greet_serving greeted_count g_sent]; try (apply H).
  - apply insert_dom; [eauto|apply H].
  - intros k Hk. destruct (decide (h = k)) as [->|Hn]; [rewrite lookup_insert_eq; eauto|]. rewrite lookup_insert_ne by done. by apply H.
  - intros k gk tk Hk Htk. destruct (decide (h = k)) as [->|Hn].
    + rewrite lookup_insert_eq in Hk. injection Hk as <-. assert (tk = s.(greet_serving)) as -> by congruence. done.
    + rewrite lookup_insert_ne in Hk by done. by eapply (gi_at _ _ _ _ _ H).
  - intros k gk Hk. destruct (decide (h = k)) as [->|Hn]; [rewrite lookup_insert_eq in Hk; by injection Hk as <-|]. rewrite lookup_insert_ne in Hk by done.
    assert (Hno : ticket_of gk <> Some s.(greet_serving)) by (intros E; apply Hn; symmetry; by eapply same_ticket).
    pose proof (gi_phase _ _ _ _ _ H k gk Hk) as Hpk. destruct gk; cbn in *; intuition congruence.
  - intros E. lia.
  - done.
  - split; [apply H|]. intros k. rewrite (proj2 (gi_dones _ _ _ _ _ H) k). destruct (decide (h = k)) as [->|Hn]; [|by rewrite lookup_insert_ne].
    rewrite lookup_insert_eq. split; intros (x & E & Ex); [exfalso|exfalso]; congruence.
Qed.

Lemma take_ticket s order part dones h :
  ginv harts s order part dones -> s.(g_harts) !! h = Some GStart ->
  ginv harts (mkGreeting (u32 (s.(greet_ticket) + 1)) s.(greet_serving) s.(greeted_count) (<[h := GWait s.(greet_ticket)]> s.(g_harts)) s.(g_sent)) (order ++ [h]) part dones.
Proof using Hfew.
  intros H Hg. assert (Hnew : h ∉ order) by (intros Hh; destruct (gi_has _ _ _ _ _ H h Hh) as (g & t & E & Et); rewrite Hg in E; injection E as <-; done).
  pose proof (gi_ticket _ _ _ _ _ H) as Et. pose proof (gi_serving _ _ _ _ _ H) as Hs. pose proof (few _ _ _ _ H) as [Hf _].
  assert (Hlen : Z.of_nat (length (order ++ [h])) = Z.of_nat (length order) + 1) by (rewrite length_app; cbn; lia).
  split; cbn [g_harts greet_ticket greet_serving greeted_count g_sent].
  - apply insert_dom; [eauto|apply H].
  - apply NoDup_app. split; [apply H|]. split; [|apply NoDup_singleton]. intros x Hx ->%list_elem_of_singleton. done.
  - rewrite Hlen, Et. apply u32_id. assert (length order <> length harts); [|lia]. intros E.
    assert (Hin : h ∈ order); [|done].
    assert (Hp : order ⊆+ harts).
    { apply NoDup_submseteq; [apply H|]. intros k Hk. apply (gi_dom _ _ _ _ _ H). destruct (gi_has _ _ _ _ _ H k Hk) as (g & t & -> & _). eauto. }
    apply submseteq_length_Permutation in Hp; [|lia]. rewrite Hp. apply (gi_dom _ _ _ _ _ H). eauto.
  - lia.
  - intros k [Hk| ->%list_elem_of_singleton]%elem_of_app; [|rewrite lookup_insert_eq; cbn; eauto].
    rewrite lookup_insert_ne by (intros ->; done). by apply H.
  - intros k gk tk Hk Htk. destruct (decide (h = k)) as [->|Hn].
    + rewrite lookup_insert_eq in Hk. injection Hk as <-. cbn in Htk. injection Htk as <-. rewrite Et. split; [lia|]. rewrite Nat2Z.id. by apply list_lookup_middle.
    + rewrite lookup_insert_ne in Hk by done. destruct (gi_at _ _ _ _ _ H _ _ _ Hk Htk) as [H0 E]. split; [done|]. by apply lookup_app_l_Some.
  - intros k gk Hk. destruct (decide (h = k)) as [->|Hn]; [|rewrite lookup_insert_ne in Hk by done; by apply H].
    rewrite lookup_insert_eq in Hk. injection Hk as <-. cbn. split; [lia|]. intros E. apply (gi_idle _ _ _ _ _ H). lia.
  - intros E. lia.
  - rewrite take_app_le by lia. apply H.
  - split; [apply H|]. intros k. rewrite (proj2 (gi_dones _ _ _ _ _ H) k). destruct (decide (h = k)) as [->|Hn]; [|by rewrite lookup_insert_ne].
    rewrite lookup_insert_eq. split; intros (x & E & Ex); exfalso; [rewrite Hg in E|]; injection E as <-; done.
  - apply H.
Qed.

Lemma pass_turn s order part dones h t :
  ginv harts s order part dones -> s.(g_harts) !! h = Some (GWrite t s.(greet_serving)) ->
  ginv harts (mkGreeting s.(greet_ticket) (u32 (s.(greet_serving) + 1)) s.(greeted_count) (<[h := GReport t]> s.(g_harts)) s.(g_sent)) order [] dones.
Proof using Hfew.
  intros H Hg. pose proof (gi_phase _ _ _ _ _ H _ _ Hg) as (Et & _ & Ep). cbn in Et. pose proof (gi_at _ _ _ _ _ H _ _ t Hg eq_refl) as [Ht0 Ho].
  pose proof (lookup_lt_Some _ _ _ Ho) as Hlt. pose proof (few _ _ _ _ H) as [Hf _]. rewrite u32_id by lia.
  split; cbn [g_harts greet_ticket greet_serving greeted_count g_sent]; try (apply H).
  - apply insert_dom; [eauto|apply H].
  - lia.
  - intros k Hk. destruct (decide (h = k)) as [->|Hn]; [rewrite lookup_insert_eq; cbn; eauto|]. rewrite lookup_insert_ne by done. by apply H.
  - intros k gk tk Hk Htk. destruct (decide (h = k)) as [->|Hn].
    + rewrite lookup_insert_eq in Hk. injection Hk as <-. cbn in Htk. by injection Htk as <-.
    + rewrite lookup_insert_ne in Hk by done. by eapply (gi_at _ _ _ _ _ H).
  - intros k gk Hk. destruct (decide (h = k)) as [->|Hn]; [rewrite lookup_insert_eq in Hk; injection Hk as <-; cbn; lia|]. rewrite lookup_insert_ne in Hk by done.
    assert (Hno : ticket_of gk <> Some s.(greet_serving)) by (intros E; apply Hn; symmetry; apply (same_ticket s order part dones h _ k gk s.(greet_serving) H Hg); [cbn; congruence|done|done]).
    pose proof (gi_phase _ _ _ _ _ H k gk Hk) as Hpk. destruct gk as [|tk|tk l|tk|tk v|tk|tk]; cbn in *; try (destruct Hpk; congruence); [done| |lia|lia].
    split; [|done]. assert (tk <> s.(greet_serving)) by congruence. lia.
  - done.
  - rewrite app_nil_r, (gi_sent _ _ _ _ _ H), Ep. replace (Z.to_nat (s.(greet_serving) + 1)) with (S (Z.to_nat s.(greet_serving))) by lia.
    rewrite (take_S_r _ _ h) by (by rewrite <- Et). rewrite flat_map_app. cbn. by rewrite app_nil_r.
  - split; [apply H|]. intros k. rewrite (proj2 (gi_dones _ _ _ _ _ H) k). destruct (decide (h = k)) as [->|Hn]; [|by rewrite lookup_insert_ne].
    rewrite lookup_insert_eq. split; intros (x & E & Ex); exfalso; [rewrite Hg in E|]; injection E as <-; done.
Qed.

Lemma report s order part dones h t :
  ginv harts s order part dones -> s.(g_harts) !! h = Some (GReport t) ->
  ginv harts (mkGreeting s.(greet_ticket) s.(greet_serving) (u32 (s.(greeted_count) + 1)) (<[h := GDone t]> s.(g_harts)) s.(g_sent)) order part (dones ++ [h]).
Proof using Hfew.
  intros H Hg. pose proof (gi_phase _ _ _ _ _ H _ _ Hg) as Hp. cbn in Hp.
  assert (Hnew : h ∉ dones) by (intros Hh; apply (gi_dones _ _ _ _ _ H) in Hh as (g & E & Ed); rewrite Hg in E; injection E as <-; done).
  assert (Hlen : Z.of_nat (length (dones ++ [h])) = Z.of_nat (length dones) + 1) by (rewrite length_app; cbn; lia).
  assert (Hdom : forall k, k ∈ dones ++ [h] <-> exists g, <[h := GDone t]> s.(g_harts) !! k = Some g /\ is_done g = true).
  { intros k. rewrite elem_of_app, list_elem_of_singleton, (proj2 (gi_dones _ _ _ _ _ H) k). destruct (decide (h = k)) as [->|Hn].
    - rewrite lookup_insert_eq. split; [intros _; eauto|by right].
    - rewrite lookup_insert_ne by done. split; [by intros [?| ->]|by left]. }
  split; cbn [g_harts greet_ticket greet_serving greeted_count g_sent]; try (apply H).
  - apply insert_dom; [eauto|apply H].
  - intros k Hk. destruct (decide (h = k)) as [->|Hn]; [rewrite lookup_insert_eq; cbn; eauto|]. rewrite lookup_insert_ne by done. by apply H.
  - intros k gk tk Hk Htk. destruct (decide (h = k)) as [->|Hn].
    + rewrite lookup_insert_eq in Hk. injection Hk as <-. by apply (gi_at _ _ _ _ _ H k (GReport t)).
    + rewrite lookup_insert_ne in Hk by done. by eapply (gi_at _ _ _ _ _ H).
  - intros k gk Hk. destruct (decide (h = k)) as [->|Hn]; [rewrite lookup_insert_eq in Hk; by injection Hk as <-|]. rewrite lookup_insert_ne in Hk by done. by apply H.
  - split; [|done]. apply NoDup_app. split; [apply H|]. split; [|apply NoDup_singleton]. intros x Hx ->%list_elem_of_singleton. done.
  - rewrite Hlen, (gi_count _ _ _ _ _ H). apply u32_id.
    assert (Hle : (length (dones ++ [h]) <= length harts)%nat); [|lia]. apply submseteq_length, NoDup_submseteq.
    + apply NoDup_app. split; [apply H|]. split; [|apply NoDup_singleton]. intros x Hx ->%list_elem_of_singleton. done.
    + intros k Hk. apply (insert_dom s.(g_harts) h (GDone t)); [eauto|apply H|]. apply Hdom in Hk as (g & -> & _). eauto.
Qed.

Lemma step_keeps s s' order part dones : ginv harts s order part dones -> greet_any s s' -> exists order' part' dones', ginv harts s' order' part' dones'.
Proof using Hfew.
  intros H [h E]. unfold greet_step in E. destruct (s.(g_harts) !! h) as [g|] eqn:Eg; [cbn in E|done]. pose proof (gi_phase _ _ _ _ _ H _ _ Eg) as Hp.
  destruct g as [|t|t [|c l]|t|t v|t|t]; cbn in Hp; injection E as <- || done.
  - exists (order ++ [h]), part, dones. by apply take_ticket.
  - destruct (Z.eqb_spec s.(greet_serving) t) as [<-|]; [|by exists order, part, dones]. destruct Hp as [_ Hp]. specialize (Hp eq_refl). subst part.
    exists order, [], dones. by eapply turn_step; [..|apply H].
  - destruct Hp as [-> Hp]. rewrite app_nil_r in Hp. exists order, part, dones. by eapply turn_step; [..|apply H].
  - destruct Hp as [-> Hp]. exists order, (part ++ [c]), dones. eapply turn_step; try done; [split; [done|by rewrite <- app_assoc]|]. rewrite (gi_sent _ _ _ _ _ H). by rewrite <- app_assoc.
  - destruct Hp as [-> Hp]. exists order, part, dones. by eapply turn_step; [..|apply H].
  - destruct Hp as (-> & -> & Hp). exists order, [], dones. by eapply pass_turn.
  - exists order, part, (dones ++ [h]). by apply report.
Qed.
Lemma init_harts h g : (greet_init harts).(g_harts) !! h = Some g <-> h ∈ harts /\ g = GStart.
Proof using Hnd.
  cbn. rewrite <- elem_of_list_to_map.
  - rewrite list_elem_of_fmap. split; [intros (k & [= -> ->] & Hk); done|intros [Hk ->]; by exists h].
  - rewrite <- list_fmap_compose. cbn. by rewrite list_fmap_id.
Qed.

Lemma init_ok : ginv harts (greet_init harts) [] [] [].
Proof using Hnd.
  split; cbn [greet_init greet_ticket greet_serving greeted_count g_sent]; try done; try (constructor; fail).
  - intros h. split; [intros Hh; exists GStart; by apply init_harts|by intros [g [Hg _]%init_harts]].
  - intros h Hh. by apply not_elem_of_nil in Hh.
  - intros h g t [_ ->]%init_harts. done.
  - intros h g [_ ->]%init_harts. done.
  - split; [constructor|]. intros h. split; [by intros ?%not_elem_of_nil|intros (g & [_ ->]%init_harts & E); done].
Qed.

Lemma reachable_ok s : rtc greet_any (greet_init harts) s -> exists order part dones, ginv harts s order part dones.
Proof using Hnd Hfew.
  intros H. assert (Hi : exists order part dones, ginv harts (greet_init harts) order part dones) by (exists [], [], []; apply init_ok).
  induction H as [|s1 s2 s3 H12 _ IH]; [done|]. apply IH. destruct Hi as (order & part & dones & Hi). by eapply step_keeps.
Qed.

(** Steps that remain, spinning apart. *)
Definition weight (h : Z) (g : greeter) : nat :=
  match g with
  | GStart => 6 + length (hello h)
  | GWait _ => 5 + length (hello h)
  | GPrint _ l => 4 + length l
  | GRead _ => 3
  | GWrite _ _ => 2
  | GReport _ => 1
  | GDone _ => 0
  end.
Definition work_left (s : greeting) : nat := sum_list_with (fun h => match s.(g_harts) !! h with Some g => weight h g | None => 0%nat end) harts.

Lemma less_work s s' h g g' :
  h ∈ harts -> s.(g_harts) !! h = Some g -> s'.(g_harts) = <[h := g']> s.(g_harts) -> (weight h g' < weight h g)%nat -> (work_left s' < work_left s)%nat.
Proof using.
  intros Hh Hg Es Hw. apply (sum_less _ _ _ h); [done| |].
  - intros k Hk. by rewrite Es, lookup_insert_ne.
  - by rewrite Es, lookup_insert_eq, Hg.
Qed.

(** While a hart is not done, some hart makes a step that leaves less to do. *)
Lemma progress s order part dones h g :
  ginv harts s order part dones -> s.(g_harts) !! h = Some g -> is_done g = false ->
  exists k s', greet_step k s = Some s' /\ (work_left s' < work_left s)%nat.
Proof using.
  intros H Hg Hn. assert (Hin : forall k x, s.(g_harts) !! k = Some x -> k ∈ harts) by (intros k x E; apply (gi_dom _ _ _ _ _ H); eauto).
  assert (Hturn : forall k x, s.(g_harts) !! k = Some x -> ticket_of x = Some s.(greet_serving) -> exists k s', greet_step k s = Some s' /\ (work_left s' < work_left s)%nat).
  { intros k x Hx Ht. pose proof (gi_phase _ _ _ _ _ H _ _ Hx) as Hp. exists k. unfold greet_step. rewrite Hx. cbn.
    destruct x as [|t|t [|c l]|t|t v|t|t]; cbn in Ht, Hp; [done|..]; injection Ht as ->; try lia.
    - rewrite Z.eqb_refl. eexists. split; [done|]. eapply (less_work _ _ k); [by eapply Hin|exact Hx|done|cbn; lia].
    - eexists. split; [done|]. eapply (less_work _ _ k); [by eapply Hin|exact Hx|done|cbn; lia].
    - eexists. split; [done|]. eapply (less_work _ _ k); [by eapply Hin|exact Hx|done|cbn; lia].
    - eexists. split; [done|]. eapply (less_work _ _ k); [by eapply Hin|exact Hx|done|cbn; lia].
    - eexists. split; [done|]. eapply (less_work _ _ k); [by eapply Hin|exact Hx|done|cbn; lia]. }
  pose proof (gi_phase _ _ _ _ _ H _ _ Hg) as Hp. destruct (ticket_of g) as [t|] eqn:Et.
  2: { destruct g; try done. exists h. unfold greet_step. rewrite Hg. eexists. split; [done|]. eapply (less_work _ _ h); [by eapply Hin|exact Hg|done|cbn; lia]. }
  destruct (Z.ltb_spec t s.(greet_serving)) as [Hlt|Hge].
  - assert (g = GReport t) as ->.
    { destruct g as [|x|x l|x|x v|x|x]; cbn in Et, Hp, Hn; try done; injection Et as ->; try lia. done. }
    exists h. unfold greet_step. rewrite Hg. eexists. split; [done|]. eapply (less_work _ _ h); [by eapply Hin|exact Hg|done|cbn; lia].
  - destruct (gi_at _ _ _ _ _ H _ _ _ Hg Et) as [Ht0 Ho]. apply lookup_lt_Some in Ho. pose proof (gi_serving _ _ _ _ _ H) as Hs.
    destruct (lookup_lt_is_Some_2 order (Z.to_nat s.(greet_serving))) as [k Hk]; [lia|].
    destruct (gi_has _ _ _ _ _ H k) as (x & tx & Hx & Etx); [by eapply list_elem_of_lookup_2|]. apply (Hturn k x Hx).
    destruct (gi_at _ _ _ _ _ H _ _ _ Hx Etx) as [Htx0 Hox]. rewrite Etx. f_equal.
    pose proof (NoDup_lookup _ _ _ _ (gi_order _ _ _ _ _ H) Hk Hox). lia.
Qed.

(** When all harts are done. *)
Lemma all_done s order part dones :
  ginv harts s order part dones -> (forall h g, s.(g_harts) !! h = Some g -> is_done g = true) ->
  s.(greeted_count) = Z.of_nat (length harts) /\ order ≡ₚ harts /\ s.(g_sent) = flat_map hello order.
Proof using Hnd.
  intros H Hall. assert (Hp : order ≡ₚ harts).
  { apply NoDup_Permutation; [apply H|done|]. intros h. split.
    - intros Hh. apply (gi_dom _ _ _ _ _ H). destruct (gi_has _ _ _ _ _ H h Hh) as (g & t & -> & _). eauto.
    - intros Hh. apply (gi_dom _ _ _ _ _ H) in Hh as [g Hg]. specialize (Hall h g Hg). destruct g; try done.
      destruct (gi_at _ _ _ _ _ H _ _ my_ticket Hg eq_refl) as [_ E]. by eapply list_elem_of_lookup_2. }
  assert (Hd : dones ≡ₚ harts).
  { apply NoDup_Permutation; [apply (gi_dones _ _ _ _ _ H)|done|]. intros h. rewrite (proj2 (gi_dones _ _ _ _ _ H) h), (gi_dom _ _ _ _ _ H h). split.
    - intros (g & -> & _). eauto.
    - intros [g Hg]. eauto. }
  assert (Hs : s.(greet_serving) = Z.of_nat (length order)).
  { pose proof (gi_serving _ _ _ _ _ H) as Hs. destruct (decide (s.(greet_serving) = Z.of_nat (length order))) as [|Hne]; [done|]. exfalso.
    destruct (lookup_lt_is_Some_2 order (Z.to_nat s.(greet_serving))) as [k Hk]; [lia|].
    destruct (gi_has _ _ _ _ _ H k) as (x & tx & Hx & Etx); [by eapply list_elem_of_lookup_2|]. destruct (gi_at _ _ _ _ _ H _ _ _ Hx Etx) as [Htx0 Hox].
    pose proof (NoDup_lookup _ _ _ _ (gi_order _ _ _ _ _ H) Hk Hox). pose proof (gi_phase _ _ _ _ _ H _ _ Hx) as Hp'. specialize (Hall _ _ Hx). destruct x; try done.
    cbn in Etx, Hp'. injection Etx as ->. lia. }
  split; [by rewrite (gi_count _ _ _ _ _ H), Hd|]. split; [done|].
  rewrite (gi_sent _ _ _ _ _ H), (gi_idle _ _ _ _ _ H Hs), app_nil_r, Hs, Nat2Z.id, firstn_all. done.
Qed.

(** What is on the line is whole lines and the beginning of one more. *)
Lemma whole_lines s order part dones : ginv harts s order part dones -> part `prefix_of` match order !! Z.to_nat s.(greet_serving) with Some h => hello h | None => [] end.
Proof using.
  intros H. destruct (order !! Z.to_nat s.(greet_serving)) as [h|] eqn:Eh.
  - destruct (gi_has _ _ _ _ _ H h) as (x & tx & Hx & Etx); [by eapply list_elem_of_lookup_2|]. destruct (gi_at _ _ _ _ _ H _ _ _ Hx Etx) as [Htx0 Hox].
    pose proof (NoDup_lookup _ _ _ _ (gi_order _ _ _ _ _ H) Eh Hox) as Ei. pose proof (gi_serving _ _ _ _ _ H) as Hs. assert (tx = s.(greet_serving)) as -> by lia.
    pose proof (gi_phase _ _ _ _ _ H _ _ Hx) as Hp. destruct x as [|t|t l|t|t v|t|t]; cbn in Etx, Hp; [done|..]; injection Etx as ->; try lia.
    + destruct Hp as [_ Hp]. rewrite (Hp eq_refl). apply prefix_nil.
    + destruct Hp as [_ <-]. by apply prefix_app_r.
    + destruct Hp as [_ ->]. done.
    + destruct Hp as (_ & _ & ->). done.
  - apply lookup_ge_None in Eh. rewrite (gi_idle _ _ _ _ _ H); [apply prefix_nil|]. pose proof (gi_serving _ _ _ _ _ H). lia.
Qed.
End greeting_ok.

(** ** The claims *)

(** C38: the harts greet one after the other, whatever the interleaving.  Any number of
    harts run [greet_once] at the same time, byte by byte on one serial line, and any
    of them may take the next step.  At every moment the line shows whole greetings,
    of different harts in the order of their tickets, and the beginning of at most
    one more; as long as a hart is not done some hart can make a step that is not
    spinning, and only as many such steps are left as [work_left] says, so nobody
    waits for ever; and when all are done each hart has greeted exactly once and the
    counter that the first hart waits for is their number. *)
Theorem greeting_exact (harts : list Z) (s : greeting) :
  NoDup harts -> Z.of_nat (length harts) < 2 ^ 32 -> rtc greet_any (greet_init harts) s ->
  (exists order part, NoDup order /\ order ⊆+ harts /\ s.(g_sent) = flat_map hello (take (Z.to_nat s.(greet_serving)) order) ++ part /\
     part `prefix_of` match order !! Z.to_nat s.(greet_serving) with Some h => hello h | None => [] end) /\
  ((exists h g, s.(g_harts) !! h = Some g /\ is_done g = false) -> exists h s', greet_step h s = Some s' /\ (work_left harts s' < work_left harts s)%nat) /\
  ((forall h g, s.(g_harts) !! h = Some g -> is_done g = true) ->
     s.(greeted_count) = Z.of_nat (length harts) /\ exists order, order ≡ₚ harts /\ s.(g_sent) = flat_map hello order).
Proof.
  intros Hnd Hfew Hr. destruct (reachable_ok harts Hnd Hfew s Hr) as (order & part & dones & H). split; [|split].
  - exists order, part. split; [apply H|]. split; [|split; [apply H|by eapply whole_lines]]. apply NoDup_submseteq; [apply H|].
    intros h Hh. apply (gi_dom _ _ _ _ _ H). destruct (gi_has _ _ _ _ _ H h Hh) as (g & t & -> & _). eauto.
  - intros (h & g & Hg & Hn). by eapply progress.
  - intros Hall. destruct (all_done harts Hnd s order part dones H Hall) as (H1 & H2 & H3). split; [done|]. by exists order.
Qed.

(** Two harts; the second is faster. *)
Definition demo_greeting : option greeting := s ← greet_step 1 (greet_init [0; 1]); s ← greet_step 0 s; s ← greet_step 0 s; s ← greet_step 1 s; greet_step 1 s.

Lemma demo_greeting_run s : demo_greeting = Some s -> rtc greet_any (greet_init [0; 1]) s.
Proof.
  unfold demo_greeting. intros E. repeat (match type of E with (_ ≫= _) = Some _ => apply bind_Some in E as (? & ? & E) end).
  repeat (eapply rtc_l; [eexists; eassumption|]). apply rtc_refl.
Qed.

Lemma greeting_exact_witness : match demo_greeting with Some s => exists h s', greet_step h s = Some s' /\ (work_left [0; 1]%Z s' < work_left [0; 1]%Z s)%nat | None => False end.
Proof.
  destruct demo_greeting as [s|] eqn:E; [|vm_compute in E; discriminate].
  apply (greeting_exact [0; 1] s); [repeat constructor; set_solver|cbn; lia|exact (demo_greeting_run s E)|].
  exists 0, (GWait 1). split; [|reflexivity]. revert E. vm_compute. intros [= <-]. reflexivity.
Defined.

Lemma hint_ok hs he : 0 <= hs < 2 ^ 64 -> 0 <= he < 2 ^ 64 -> range_ok (initrd_hint hs he).1 (initrd_hint hs he).2.
Proof.
  intros H1 H2. unfold initrd_hint, range_ok. destruct (Z.eqb_spec hs 0); cbn [negb andb]; [by left|]. destruct (Z.ltb_spec hs he); cbn [andb]; [|by left].
  destruct (_ <=? _); cbn; [right; lia|by left].
Qed.

Lemma prop_u64_range b pr v : readable b -> prop_u64 b pr = Some v -> 0 <= v < 2 ^ 64.
Proof.
  intros Hb. unfold prop_u64, cells. destruct pr as [[p len]|]; cbn; [|done]. pose proof (word_range b Hb p). pose proof (word_range b Hb (p + 4)).
  destruct (8 <=? len); [intros [= <-]; lia|]. destruct (4 <=? len); [intros [= <-]; lia|done].
Qed.

Lemma tree_range b s e : readable b -> fdt_get_initrd_range b = Some (Some (s, e), b) -> 0 <= s < e /\ e < 2 ^ 64.
Proof.
  intros Hb E0. destruct (check_cases b Hb) as [(toks & Hv & Hbo & E)|[Hno E]]; cycle 1.
  { destruct (rejected_values b E 0) as (_ & V & _). destruct (wp_run _ _ _ V) as (r & s' & Er & -> & ->). congruence. }
  destruct (stream_document b _ _ (va_stream b toks Hv)) as [root Hdoc]. destruct (at_path_exists root (chars "chosen")) as [n Hn].
  assert (H : wp fdt_get_initrd_range (fun r s => r = initrd_range b n) b) by (by eapply wp_initrd).
  destruct (wp_run _ _ _ H) as (r & s' & Er & ->). rewrite E0 in Er. injection Er as Er _. unfold initrd_range in Er. destruct n as [[q its]|]; [|done]. cbn in Er.
  destruct (prop_u64 b (own_prop (chars "linux,initrd-start") its)) as [s1|] eqn:E1; [cbn in Er|done].
  destruct (prop_u64 b (own_prop (chars "linux,initrd-end") its)) as [e1|] eqn:E2; [cbn in Er|done].
  apply prop_u64_range in E1, E2; [|done..]. destruct (Z.leb_spec e1 s1); [done|]. injection Er as -> ->. lia.
Qed.

(** C37: the kernel's view of the machine is well formed, whatever the device tree says.
    For every readable blob [platform_init] returns.  Either it fails and has changed
    nothing, or the serial port and the interrupt controller have the addresses and
    the interrupt of the nodes that are compatible with them, and the archive range is
    that of the tree if the tree has one that does not start at 0, else that of the
    boot loader if it is not empty and at most 256 MiB; in any case it is either
    absent (both ends 0) or a nonempty range of addresses that does not contain 0. *)
Theorem platform_init_ok (hartid : Z) (b : dtb) (hint_start hint_end : Z) (p : platform) :
  readable b -> 0 <= hint_start < 2 ^ 64 -> 0 <= hint_end < 2 ^ 64 ->
  exists r p', platform_init hartid (Some b) hint_start hint_end p = Some (r, p') /\
    ((r = -1 /\ p' = p) \/
     (r = 0 /\ exists uart_base irq plic_base start end_,
        device_data b p.(pl_sys).(k_sched).(qemu) uart_base irq plic_base /\ archive_range b hint_start hint_end start end_ /\ range_ok start end_ /\
        p' = mkPlatform (set_initrd_end end_ (set_initrd_start start (with_devices uart_base irq plic_base p.(pl_sys)))) hartid b.(d_addr))).
Proof.
  intros Hb H1 H2.
  enough (H : wp (platform_init hartid (Some b) hint_start hint_end) (fun r p' => (r = -1 /\ p' = p) \/
     (r = 0 /\ exists uart_base irq plic_base start end_,
        device_data b p.(pl_sys).(k_sched).(qemu) uart_base irq plic_base /\ archive_range b hint_start hint_end start end_ /\ range_ok start end_ /\
        p' = mkPlatform (set_initrd_end end_ (set_initrd_start start (with_devices uart_base irq plic_base p.(pl_sys)))) hartid b.(d_addr))) p).
  { destruct (wp_run _ _ _ H) as (r & p' & E & HP). by exists r, p'. }
  unfold platform_init. apply wp_bind, wp_zoom, wp_devices; [done| |cbn [Z.eqb negb]; apply wp_ret; left; by rewrite put_view].
  intros u i c Hd. cbn [Z.eqb negb]. apply wp_bind, wp_modify, wp_bind, wp_zoom.
  destruct (all_return_holds b (chars "/") (chars "reg") 0 1 Hb) as (_ & _ & _ & _ & _ & _ & _ & [range Er] & _); [by repeat constructor|by repeat constructor|done|].
  apply (wp_ask _ _ _ _ _ Er).
  assert (Hr : forall start end_, (start, end_) = match range with Some (s, e) => if 0 <? s then (s, e) else initrd_hint hint_start hint_end | None => initrd_hint hint_start hint_end end ->
    archive_range b hint_start hint_end start end_ /\ range_ok start end_).
  { intros start end_ E. split; [by exists range|]. pose proof (hint_ok hint_start hint_end H1 H2) as Hh. rewrite <- E in Hh || idtac.
    destruct range as [[s e]|]; [destruct (Z.ltb_spec 0 s) as [Hs|Hs]|].
    - injection E as -> ->. destruct (tree_range b s e Hb Er). right. lia.
    - by rewrite <- E in Hh.
    - by rewrite <- E in Hh. }
  match goal with |- wp (let '(start, end_) := ?x in _) _ _ => destruct x as [start end_] eqn:Ex end.
  apply wp_bind, wp_zoom, wp_modify, wp_ret. right. split; [done|]. exists u, i, c, start, end_. split; [done|]. destruct (Hr start end_) as [Ha Hk]; [|done].
  rewrite <- Ex. destruct range as [[s e]|]; [|done]. destruct (tree_range b s e Hb Er) as [[Hs He] _]. rewrite (proj2 (Z.leb_gt e s)) by lia. rewrite orb_false_r.
  destruct (Z.eqb_spec s 0) as [->|Hn]; [done|]. by rewrite (proj2 (Z.ltb_lt 0 s)) by lia.
Qed.

Lemma platform_init_ok_witness : exists r p', platform_init 1 (Some demo_dtb) 0x88000000 0x88001000 (mkPlatform demo_ksys 0 0) = Some (r, p').
Proof.
  destruct (platform_init_ok 1 demo_dtb 0x88000000 0x88001000 (mkPlatform demo_ksys 0 0) demo_readable) as (r & p' & E & _); [lia|lia|].
  exists r, p'. exact E.
Defined.
