(* ===== verification/BootProps.v ===== *)
(** * Correctness of the boot loader

    The boot loader as the terminal of the line editor, the protocol of the bundle
    with its encoder and a reference decoder, and what the commands do. *)

From Stdlib Require Import Strings.String Strings.Ascii.
From S2P Require Import Prelude Str Irq Shell ShellProps Platform Bootloader.

Open Scope Z_scope.

Lemma land_bit x k : 0 <= k -> (Z.land x (2 ^ k) =? 0) = negb (Z.testbit x k).
Proof.
  intros Hk. assert (E : Z.testbit (Z.land x (2 ^ k)) k = Z.testbit x k) by (by rewrite Z.land_spec, Z.pow2_bits_true, andb_true_r by lia).
  destruct (Z.testbit x k) eqn:Et; cbn; [apply Z.eqb_neq; intros E0; by rewrite E0, Z.bits_0 in E|].
  apply Z.eqb_eq, Z.bits_inj'. intros n Hn. rewrite Z.land_spec, Z.bits_0, Z.pow2_bits_eqb by lia. destruct (Z.eqb_spec k n) as [->|]; [by rewrite Et|by rewrite andb_false_r].
Qed.

Section line.
Context (fuel : nat).

(** ** The line *)

Fixpoint arrivals (env : nat -> line_event) (from n : nat) : list Z :=
  match n with
  | O => []
  | S n' => le_arrived (env from) ++ arrivals env (S from) n'
  end.

(** The transmitter becomes ready within [fuel] looks, at any time. *)
Definition good (s : bstate) : Prop := forall n, exists k, (k < fuel)%nat /\ le_idle (s.(b_env) (n + k)%nat) = true.

(** The bytes of [l] are what the program will receive next, and they arrive within
    [fuel] looks. *)
Definition coming (s : bstate) (l : list Z) : Prop := l `prefix_of` s.(b_fifo) ++ arrivals s.(b_env) s.(b_reads) fuel.

(** From [s] to [s'] only the device has changed; [o] was sent. *)
Definition sends (s : bstate) (o : list Z) (s' : bstate) : Prop :=
  (exists f i r, s' = set_b_line f (s.(b_sent) ++ o) i r s) /\ (forall l, coming s l -> coming s' l).

Lemma set_line_self s : set_b_line s.(b_fifo) s.(b_sent) s.(b_idle) s.(b_reads) s = s.
Proof using. by destruct s. Qed.

Lemma sends_nil s : sends s [] s.
Proof using. split; [|done]. exists s.(b_fifo), s.(b_idle), s.(b_reads). by rewrite app_nil_r, set_line_self. Qed.

Lemma sends_trans s o s1 o1 s2 : sends s o s1 -> sends s1 o1 s2 -> sends s (o ++ o1) s2.
Proof using.
  intros [(f & i & r & ->) H1] [(f' & i' & r' & ->) H2]. split; [|auto]. exists f', i', r'. cbn. by rewrite app_assoc.
Qed.

Lemma sends_good s o s' : sends s o s' -> good s -> good s'.
Proof using. by intros [(f & i & r & ->) _]. Qed.

Lemma arrivals_more env n : forall from, arrivals env from n `prefix_of` arrivals env from (S n).
Proof using. induction n as [|n IH]; intros from; cbn [arrivals]; [apply prefix_nil|]. apply prefix_app, IH. Qed.

Definition looked (s : bstate) : bstate :=
  let e := s.(b_env) s.(b_reads) in set_b_line (s.(b_fifo) ++ e.(le_arrived)) s.(b_sent) (s.(b_idle) || e.(le_idle)) (S s.(b_reads)) s.

Lemma looked_sends s : sends s [] (looked s).
Proof using.
  split; [by eexists _, _, _; rewrite app_nil_r|]. intros l H. unfold coming, looked in *. cbn. rewrite <- app_assoc. etrans; [exact H|]. apply prefix_app.
  exact (arrivals_more _ fuel _).
Qed.

Lemma width_bit v s k : 0 <= k < 8 -> Z.testbit (reg_width v s) k = Z.testbit v k.
Proof using. intros Hk. unfold reg_width, u8, u32. destruct (b_qemu s); by rewrite Z.mod_pow2_bits_low by lia. Qed.

Lemma status_bits a b o :
  let v := Z.lor (Z.lor (if a : bool then 0 else LSR_RX_READY) (if b : bool then LSR_TX_IDLE else 0)) (Z.land o (Z.lnot (Z.lor LSR_RX_READY LSR_TX_IDLE))) in
  Z.testbit v 0 = negb a /\ Z.testbit v 5 = b.
Proof using. cbv zeta. rewrite !Z.lor_spec, !Z.land_spec, !Z.lnot_spec by lia. cbn. rewrite !andb_false_r, !orb_false_r. by destruct a, b. Qed.

(** One look. *)
Lemma wp_look Q s :
  (forall v, (Z.land v LSR_RX_READY =? 0) = bool_decide ((looked s).(b_fifo) = []) -> (Z.land v LSR_TX_IDLE =? 0) = negb (looked s).(b_idle) -> Q v (looked s)) ->
  wp (uart_reg_read UART_LSR_REG) Q s.
Proof using.
  intros HQ. cbn [uart_reg_read]. apply wp_bind, wp_gets, wp_bind, wp_modify, wp_gets. fold (looked s).
  match goal with |- Q (reg_width (Z.lor (Z.lor (if ?d then _ else _) ?x) ?y) _) _ =>
    replace (if d then 0 else LSR_RX_READY) with (if bool_decide ((looked s).(b_fifo) = []) then 0 else LSR_RX_READY)
      by (destruct d; [by rewrite bool_decide_true|by rewrite bool_decide_false]) end.
  destruct (status_bits (bool_decide ((looked s).(b_fifo) = [])) (looked s).(b_idle) (le_other (s.(b_env) s.(b_reads)))) as [H1 H2].
  match goal with |- Q ?x _ => set (v := x) end. apply HQ; [change LSR_RX_READY with (2 ^ 0)|change LSR_TX_IDLE with (2 ^ 5)]; rewrite land_bit by lia; unfold v; rewrite width_bit by lia.
  - rewrite H1. apply negb_involutive.
  - by rewrite H2.
Qed.

Lemma wp_wait_tx Q : forall n s,
  (exists k, (k < n)%nat /\ le_idle (s.(b_env) (s.(b_reads) + k)%nat) = true) ->
  (forall s', sends s [] s' -> s'.(b_idle) = true -> Q tt s') ->
  wp (loop n (fun _ : unit => lsr ← uart_reg_read UART_LSR_REG; mret (if Z.land lsr LSR_TX_IDLE =? 0 then inl tt else inr tt)) tt) Q s.
Proof using.
  induction n as [|n IH]; intros s (k & Hk & He) HQ; [lia|]. cbn [loop]. apply wp_bind, wp_bind, wp_look. intros v _ Hv. rewrite Hv. apply wp_ret.
  destruct ((looked s).(b_idle)) eqn:Ei; cbn [negb]; [apply wp_ret, HQ; [apply looked_sends|done]|].
  apply IH.
  - destruct k as [|k].
    + rewrite Nat.add_0_r in He. cbn in Ei. by rewrite He, orb_true_r in Ei.
    + exists k. split; [lia|]. cbn. by rewrite Nat.add_succ_r in He.
  - intros s' Hs Hi. apply HQ; [|done]. exact (sends_trans _ [] _ [] _ (looked_sends s) Hs).
Qed.

Lemma wp_line_send c s : good s -> 0 <= c < 256 -> wp (uart_send fuel c) (fun _ s' => sends s [c] s') s.
Proof using.
  intros Hg Hc. apply wp_bind, wp_wait_tx; [apply Hg|]. intros s1 H1 Hi. cbn [uart_reg_write]. apply wp_bind, wp_gets, wp_bind, wp_gets. rewrite Hi. apply wp_modify.
  rewrite <- (app_nil_l [c]). eapply sends_trans; [exact H1|].
  assert (E : reg_width (u8 c) s1 = c) by (unfold reg_width, u8, u32; destruct (b_qemu s1); by rewrite !(Z.mod_small c) by lia).
  rewrite E. split; [by exists s1.(b_fifo), false, s1.(b_reads)|done].
Qed.

Lemma wp_wait_byte c l Q : forall n s,
  coming s (c :: l) -> s.(b_fifo) ++ arrivals s.(b_env) s.(b_reads) n <> [] ->
  (forall s' f, sends s [] s' -> s'.(b_fifo) = c :: f -> Q tt s') ->
  wp (loop n (fun _ : unit => lsr ← uart_reg_read UART_LSR_REG; mret (if Z.land lsr LSR_RX_READY =? 0 then inl tt else inr tt)) tt) Q s \/ n = 0%nat.
Proof using.
  induction n as [|n IH]; intros s Hc Hn HQ; [by right|left]. cbn [loop]. apply wp_bind, wp_bind, wp_look. intros v Hv _. rewrite Hv. apply wp_ret.
  pose proof (looked_sends s) as Hl. pose proof (proj2 Hl _ Hc) as Hc1. destruct (looked s).(b_fifo) as [|x f] eqn:Ef.
  - rewrite bool_decide_true by done.
    assert (Hn1 : (looked s).(b_fifo) ++ arrivals (looked s).(b_env) (looked s).(b_reads) n <> []).
    { rewrite Ef. cbn in Ef |- *. cbn [arrivals] in Hn. by rewrite app_assoc, Ef in Hn. }
    assert (HQ1 : forall s' f, sends (looked s) [] s' -> s'.(b_fifo) = c :: f -> Q tt s') by (intros s' f' Hs; apply HQ; exact (sends_trans _ [] _ [] _ Hl Hs)).
    destruct (IH (looked s) Hc1 Hn1 HQ1) as [H|E0]; [exact H|]. subst n. rewrite Ef in Hn1. by cbn in Hn1.
  - rewrite bool_decide_false by done. apply wp_ret, (HQ _ f); [done|]. unfold coming in Hc1. rewrite Ef in Hc1. by apply prefix_cons_inv_1 in Hc1 as ->.
Qed.

Lemma wp_line_recv c l s :
  good s -> coming s (c :: l) -> 0 <= c < 256 ->
  wp (uart_recv fuel) (fun r s' => r = c /\ coming s' l /\ exists f i n, s' = set_b_line f s.(b_sent) i n s) s.
Proof using.
  intros Hg Hc Hr. unfold uart_recv. apply wp_bind.
  assert (Hn : s.(b_fifo) ++ arrivals s.(b_env) s.(b_reads) fuel <> []) by (intros E; unfold coming in Hc; rewrite E in Hc; by apply prefix_nil_not in Hc).
  match goal with |- wp _ ?Q _ => enough (HQ : forall s' f, sends s [] s' -> s'.(b_fifo) = c :: f -> Q tt s') end.
  { destruct (wp_wait_byte c l _ fuel s Hc Hn HQ) as [H|E0]; [exact H|]. destruct (Hg 0%nat) as (k & Hk & _). lia. }
  intros s1 f [(f1 & i1 & n1 & ->) H1] Ef. cbn in Ef. subst f1. apply wp_bind. cbn [uart_reg_read]. apply wp_bind, wp_gets. cbn [b_fifo set_b_line]. apply wp_bind, wp_modify, wp_gets, wp_ret.
  split; [|split].
  - unfold reg_width, u8, u32. cbn. change 255 with (2 ^ 8 - 1). rewrite land_pow2_mask by lia. destruct (b_qemu s); by rewrite !(Z.mod_small c) by lia.
  - specialize (H1 _ Hc). unfold coming in *. cbn in *. by apply prefix_cons_inv_2 in H1.
  - eexists f, i1, n1. cbn. by rewrite app_nil_r.
Qed.

(** ** Strings and numbers *)

Lemma wp_uart_string str l s :
  good s -> string_at s.(b_mem) str l -> Forall (fun c => 0 <= c < 256) l -> wp (uart_send_string fuel str) (fun _ s' => sends s (crlf l) s') s.
Proof using.
  intros Hg Hs Hb. apply wp_bind, wp_gets.
  apply (wp_loop (fun i s' => 0 <= i <= Z.of_nat (length l) /\ sends s (crlf (take (Z.to_nat i) l)) s') (fun i _ => Z.of_nat (length l) - i)).
  - intros i s' [Hi _]. lia.
  - intros i s' [Hi H]. pose proof (sends_good _ _ _ H Hg) as Hg'.
    assert (Hs' : string_at s'.(b_mem) str l) by (by destruct H as [(f & i' & r & ->) _]). apply wp_bind, wp_zoom.
    destruct (decide (i = Z.of_nat (length l))) as [->|Hn].
    + eapply (wp_char_at _ _ 0); [apply (string_end _ _ _ Hs')|]. rewrite put_view. cbn [Z.eqb]. apply wp_ret. by rewrite Nat2Z.id, firstn_all in H.
    + destruct (lookup_lt_is_Some_2 l (Z.to_nat i)) as [c Ec]; [lia|]. destruct (string_char _ _ _ _ _ Hs' Ec) as [Hc H0].
      rewrite Z2Nat.id in Hc by lia. eapply wp_char_at; [exact Hc|]. rewrite put_view, (proj2 (Z.eqb_neq _ _) H0).
      pose proof (proj1 (Forall_lookup _ _) Hb _ _ Ec) as Hr. cbn beta in Hr.
      assert (Ht : crlf (take (Z.to_nat (i + 1)) l) = crlf (take (Z.to_nat i) l) ++ (if c =? 10 then [13; 10] else [c])).
      { replace (Z.to_nat (i + 1)) with (S (Z.to_nat i)) by lia. rewrite (take_S_r _ _ _ Ec). unfold crlf. rewrite flat_map_app. cbn. by rewrite app_nil_r. }
      apply wp_bind. destruct (Z.eqb_spec c 10) as [->|Hc10]; cbn [when].
      * eapply wp_mono; [by apply wp_line_send|]. intros [] s1 H1. apply wp_bind. eapply wp_mono; [apply wp_line_send; [by eapply sends_good|done]|]. intros [] s2 H2.
        apply wp_ret. split; [|lia]. split; [lia|]. rewrite Ht. eapply sends_trans; [exact H|]. exact (sends_trans _ [13] _ [10] _ H1 H2).
      * apply wp_ret, wp_bind. eapply wp_mono; [by apply wp_line_send|]. intros [] s2 H2. apply wp_ret. split; [|lia]. split; [lia|]. rewrite Ht. by eapply sends_trans.
  - split; [lia|]. apply sends_nil.
  - pose proof (string_fuel _ _ _ Hs). lia.
Qed.

Definition hex_digit (d : Z) : Z := if d <? 10 then 48 + d else 97 + (d - 10).
Fixpoint hex_text (n : nat) (v : Z) : list Z :=
  match n with O => [] | S n' => hex_digit ((v / 16 ^ Z.of_nat n') mod 16) :: hex_text n' v end.

Lemma wp_hex n v : forall s, 0 <= v -> good s -> wp (send_hex_digits fuel n v) (fun _ s' => sends s (hex_text n v) s') s.
Proof using.
  induction n as [|n IH]; intros s Hv Hg; cbn [send_hex_digits hex_text]; [apply wp_ret, sends_nil|]. apply wp_bind.
  assert (E : Z.land (Z.shiftr v (4 * Z.of_nat n)) 0xF = (v / 16 ^ Z.of_nat n) mod 16).
  { rewrite Z.shiftr_div_pow2, Z.pow_mul_r by lia. change 0xF with (2 ^ 4 - 1). by rewrite land_pow2_mask by lia. }
  rewrite E. set (d := (v / 16 ^ Z.of_nat n) mod 16). assert (Hd : 0 <= d < 16) by (apply Z.mod_pos_bound; lia).
  assert (Eh : (if d <? 10 then u8 (48 + d) else u8 (97 + (d - 10))) = hex_digit d) by (unfold hex_digit; destruct (d <? 10); apply u8_id; lia).
  rewrite Eh. eapply wp_mono; [apply wp_line_send; [done|unfold hex_digit; destruct (d <? 10); lia]|]. intros [] s1 H1.
  eapply wp_mono; [apply IH; [done|by eapply sends_good]|]. intros [] s2 H2. exact (sends_trans _ [_] _ _ _ H1 H2).
Qed.

Lemma wp_line_all l : forall s, Forall (fun c => 0 <= c < 256) l -> good s -> wp (send_all fuel l) (fun _ s' => sends s l s') s.
Proof using.
  induction l as [|c l IH]; intros s Hl Hg; cbn [send_all]; [apply wp_ret, sends_nil|]. apply Forall_cons in Hl as [Hc Hl]. apply wp_bind.
  eapply wp_mono; [by apply wp_line_send|]. intros [] s1 H1. eapply wp_mono; [apply IH; [done|by eapply sends_good]|]. intros [] s2 H2. exact (sends_trans _ [c] _ _ _ H1 H2).
Qed.

Lemma dec_fill_bytes n : forall v buf, Forall (fun c => 0 <= c < 256) buf -> Forall (fun c => 0 <= c < 256) (dec_fill n v buf).
Proof using.
  induction n as [|n IH]; intros v buf Hb; cbn [dec_fill]; [done|]. destruct (0 <? v); [|done]. apply IH, Forall_app. split; [done|]. constructor; [|done].
  apply (u8_range (48 + v mod 10)).
Qed.

(** Decimal digits, most significant first. *)
Definition dec_text (v : Z) : list Z := if v =? 0 then [48] else rev (dec_fill 24 v []).

Lemma wp_dec v s : good s -> wp (uart_send_dec fuel v) (fun _ s' => sends s (dec_text v) s') s.
Proof using.
  intros Hg. unfold uart_send_dec, dec_text. destruct (v =? 0); [by apply wp_line_send|]. apply wp_line_all; [|done]. apply Forall_rev, dec_fill_bytes. constructor.
Qed.

(** Since [s0] only memory and the device have changed. *)
Definition same_program (s0 s : bstate) : Prop := good s0 /\ exists m f o i n, s = set_b_mem m (set_b_line f o i n s0).

Lemma same_good s0 s : same_program s0 s -> good s.
Proof using. by intros (Hg & m & f & o & i & n & ->). Qed.

Lemma same_sends s0 s o s' : same_program s0 s -> sends s o s' -> same_program s0 s'.
Proof using. intros (Hg & m & f & o' & i & n & ->) [(f' & i' & n' & ->) _]. split; [done|]. by eexists _, _, _, _, _. Qed.

(** The driver of the boot loader is a terminal for the line editor. *)
#[export] Instance boot_terminal s0 : Terminal (uart_send_string fuel) (uart_send fuel) (uart_recv fuel) (same_program s0) b_sent coming.
Proof using.
  split.
  - intros c s Hg Hc. eapply wp_mono; [apply wp_line_send; [by eapply same_good|done]|]. intros [] s' H. split; [by eapply same_sends|]. destruct H as [(f & i & r & ->) H]. by split_and!.
  - intros l s Hg Hl. eapply wp_mono; [apply wp_uart_string; [by eapply same_good|apply string_literal|]|].
    + eapply Forall_impl; [exact Hl|]. cbn. lia.
    + eapply Forall_impl; [exact Hl|]. cbn. lia.
    + intros [] s' H. split; [by eapply same_sends|]. destruct H as [(f & i & r & ->) H]. by split_and!.
  - intros c l s Hg Hc Hr. eapply wp_mono; [apply (wp_line_recv c l); [by eapply same_good|done|done]|]. intros r s' (-> & H & f & i & n & ->). split_and!; try done.
    destruct Hg as (Hg & m & f' & o & i' & n' & ->). split; [done|]. by eexists _, _, _, _, _.
  - intros m s (Hg & m' & f & o & i & n & ->). split; [split; [done|]; by eexists _, _, _, _, _|done].
Qed.
End line.

(** ** Memory *)

Lemma write_block_insert l : forall p a c m, a < p -> <[a := c]> (write_block p l m) = write_block p l (<[a := c]> m).
Proof.
  induction l as [|x l IH]; intros p a c m Ha; [done|]. cbn. rewrite IH by lia. f_equal. apply insert_insert_ne. lia.
Qed.

(** Copying is right however the two areas overlap. *)
Lemma wp_copy_bytes n m dst src l Q :
  n = Z.of_nat (length l) -> block_at m src l -> readable m dst n -> Q tt (write_block dst l m) -> wp (copy_bytes dst src n) Q m.
Proof.
  intros -> Hs Hd HQ. unfold copy_bytes. rewrite Nat2Z.id. destruct (Z.ltb_spec dst src) as [Hlt|Hge]; [|destruct (Z.ltb_spec src dst) as [Hlt|Heq]].
  - apply (wp_store_loop _ dst l m); [done| |done]. intros i c Q' Hc HQ'. pose proof (lookup_lt_Some _ _ _ Hc). apply wp_bind. eapply (wp_char_at _ _ c).
    { cbn. rewrite write_block_out; [by apply Hs|]. rewrite length_take. lia. }
    apply wp_store; [apply write_block_dom, Hd; lia|]. rewrite (take_snoc l i c Hc), write_block_snoc, length_take in HQ'. by rewrite Nat.min_l in HQ' by lia.
  - apply (wp_for_up (fun k m' => 0 <= k <= Z.of_nat (length l) /\
      m' = write_block (dst + (Z.of_nat (length l) - k)) (drop (length l - Z.to_nat k) l) m)).
    + split; [lia|]. by rewrite Nat.sub_0_r, drop_all.
    + intros k m' Hk [Hr ->]. apply wp_bind. set (i := (length l - Z.to_nat k - 1)%nat). destruct (lookup_lt_is_Some_2 l i) as [c Hc]; [lia|].
      replace (Z.of_nat (length l) - k - 1) with (Z.of_nat i) by lia. eapply (wp_char_at _ _ c); [cbn; rewrite write_block_out by lia; by apply Hs|].
      apply wp_store; [apply write_block_dom, Hd; lia|]. split; [lia|]. rewrite write_block_insert by lia.
      replace (length l - Z.to_nat (k + 1))%nat with i by lia. rewrite (drop_S l c i Hc). cbn [write_block].
      replace (dst + (Z.of_nat (length l) - (k + 1))) with (dst + Z.of_nat i) by lia. f_equal; [lia|f_equal; lia].
    + intros m' [_ ->]. rewrite Z.add_0_l, Nat2Z.id, Nat.sub_diag, Z.sub_diag, Z.add_0_r. done.
  - assert (dst = src) as -> by lia. apply wp_ret. by rewrite write_block_same in HQ.
Qed.

(** ** Sums and words *)

Definition sum32 (l : list Z) : Z := foldr Z.add 0 l mod 2 ^ 32.

Lemma sum32_range l : 0 <= sum32 l < 2 ^ 32.
Proof. apply Z.mod_pos_bound. lia. Qed.

Lemma foldr_add_snoc l c : foldr Z.add 0 (l ++ [c]) = foldr Z.add 0 l + c.
Proof. induction l as [|x l IH]; cbn; [lia|]. rewrite IH. lia. Qed.

Lemma sum32_snoc l c : sum32 (l ++ [c]) = (sum32 l + c) mod 2 ^ 32.
Proof. unfold sum32. rewrite foldr_add_snoc. by rewrite Zplus_mod_idemp_l. Qed.

Lemma wp_checksum n m p l Q :
  n = Z.of_nat (length l) -> block_at m p l -> Forall (fun c => 0 <= c < 256) l -> Q (sum32 l) m -> wp (checksum_bytes p n) Q m.
Proof.
  intros -> H Hb HQ. unfold checksum_bytes. rewrite Nat2Z.id. apply (wp_for_acc (fun i sum m' => m' = m /\ sum = sum32 (take (Z.to_nat i) l))).
  - done.
  - intros i sum m' Hi [-> ->]. apply wp_bind. destruct (lookup_lt_is_Some_2 l (Z.to_nat i)) as [c Hc]; [lia|].
    pose proof (H _ _ Hc) as Hm. rewrite Z2Nat.id in Hm by lia. eapply (wp_char_at _ _ c); [exact Hm|]. apply wp_ret. split; [done|].
    replace (Z.to_nat (i + 1)) with (S (Z.to_nat i)) by lia. rewrite (take_S_r _ _ _ Hc), sum32_snoc.
    pose proof (sum32_range (take (Z.to_nat i) l)). pose proof (proj1 (Forall_lookup _ _) Hb _ _ Hc) as Hr. cbn in Hr. rewrite u64_id by lia.
    change 0xffffffff with (2 ^ 32 - 1). by rewrite land_pow2_mask by lia.
  - intros a m' [-> ->]. rewrite Z.add_0_l, Nat2Z.id, firstn_all. done.
Qed.

(** Four bytes, the least significant one first. *)
Definition le32 (v : Z) : list Z := [v mod 256; (v / 2 ^ 8) mod 256; (v / 2 ^ 16) mod 256; (v / 2 ^ 24) mod 256].
Definition num32 (l : list Z) : Z := match l with [a; b; c; d] => a + b * 2 ^ 8 + c * 2 ^ 16 + d * 2 ^ 24 | _ => 0 end.

Lemma num_le32 v : 0 <= v < 2 ^ 32 -> num32 (le32 v) = v.
Proof.
  intros Hv. cbn [num32 le32]. pose proof (Z.div_mod v 256 ltac:(lia)). pose proof (Z.div_mod (v / 2 ^ 8) 256 ltac:(lia)). pose proof (Z.div_mod (v / 2 ^ 16) 256 ltac:(lia)).
  assert (v / 256 = v / 2 ^ 8) by done. assert (v / 2 ^ 8 / 256 = v / 2 ^ 16) by (rewrite Z.div_div by lia; done). assert (v / 2 ^ 16 / 256 = v / 2 ^ 24) by (rewrite Z.div_div by lia; done).
  assert (0 <= v / 2 ^ 24 < 256) by (split; [apply Z.div_pos; lia|apply Z.div_lt_upper_bound; lia]). rewrite (Z.mod_small (v / 2 ^ 24)) by lia. lia.
Qed.

Lemma le_num32 a b c d : Forall (fun c => 0 <= c < 256) [a; b; c; d] -> le32 (num32 [a; b; c; d]) = [a; b; c; d].
Proof.
  intros H. rewrite !Forall_cons in H. destruct H as (Ha & Hb & Hc & Hd & _). unfold le32, num32. set (v := a + b * 2 ^ 8 + c * 2 ^ 16 + d * 2 ^ 24).
  assert (E1 : v / 2 ^ 8 = b + c * 2 ^ 8 + d * 2 ^ 16) by (symmetry; apply (Z.div_unique_pos _ _ _ a); lia).
  assert (E2 : v / 2 ^ 16 = c + d * 2 ^ 8) by (symmetry; apply (Z.div_unique_pos _ _ _ (a + b * 2 ^ 8)); lia).
  assert (E3 : v / 2 ^ 24 = d) by (symmetry; apply (Z.div_unique_pos _ _ _ (a + b * 2 ^ 8 + c * 2 ^ 16)); lia).
  rewrite E1, E2, E3, (Z.mod_small d) by lia. repeat f_equal; symmetry.
  - apply (Z.mod_unique_pos _ _ (b + c * 2 ^ 8 + d * 2 ^ 16)); lia.
  - apply (Z.mod_unique_pos _ _ (c + d * 2 ^ 8)); lia.
  - apply (Z.mod_unique_pos _ _ d); lia.
Qed.

Lemma le32_bytes v : Forall (fun c => 0 <= c < 256) (le32 v).
Proof. repeat constructor; apply Z.mod_pos_bound; lia. Qed.

Lemma num32_range l : Forall (fun c => 0 <= c < 256) l -> 0 <= num32 l < 2 ^ 32.
Proof.
  intros H. destruct l as [|a [|b [|c [|d [|]]]]]; cbn [num32]; try lia. rewrite !Forall_cons in H. lia.
Qed.

Lemma lor_bytes a b c d :
  Forall (fun c => 0 <= c < 256) [a; b; c; d] -> Z.lor (Z.lor (Z.lor a (Z.shiftl b 8)) (Z.shiftl c 16)) (Z.shiftl d 24) = num32 [a; b; c; d].
Proof.
  intros H. rewrite !Forall_cons in H. destruct H as (Ha & Hb & Hc & Hd & _). cbn [num32].
  rewrite (Z.lor_comm a), (lor_shiftl_add b a 8), (Z.lor_comm _ (Z.shiftl c 16)), (lor_shiftl_add c _ 16), (Z.lor_comm _ (Z.shiftl d 24)), (lor_shiftl_add d _ 24) by lia. lia.
Qed.

Lemma wp_load_u32 m p w Q :
  block_at m p w -> Forall (fun c => 0 <= c < 256) w -> length w = 4%nat -> Q (num32 w) m -> wp (load_u32_le p) Q m.
Proof.
  intros H Hb Hl HQ. destruct w as [|a [|b [|c [|d [|]]]]]; try done. rewrite <- (lor_bytes _ _ _ _ Hb) in HQ. unfold load_u32_le.
  apply wp_bind, (wp_char_at _ _ a); [apply (H 0%nat); done|]. apply wp_bind, (wp_char_at _ _ b); [apply (H 1%nat); done|].
  apply wp_bind, (wp_char_at _ _ c); [apply (H 2%nat); done|]. apply wp_bind, (wp_char_at _ _ d); [apply (H 3%nat); done|]. by apply wp_ret.
Qed.

(** ** The bundle *)

(** What [tools/uart_load.py] on the host sends. *)
Definition payload (kernel initrd : list Z) : list Z :=
  le32 (Z.of_nat (length kernel)) ++ le32 (Z.of_nat (length initrd)) ++ le32 (sum32 kernel) ++ le32 (sum32 initrd) ++ kernel ++ initrd.
Definition header (p : list Z) : list Z := le32 UART_BOOT_BUNDLE_MAGIC ++ le32 (Z.of_nat (length p)) ++ le32 (sum32 p).

(** The [i]-th word. *)
Definition field (i : nat) (l : list Z) : Z := num32 (take 4 (drop (4 * i) l)).

Inductive load_outcome :=
  | BadMagic
  | BadSize
  | BadSum
  | TooSmall
  | BadLayout
  | BadPart
  | Loaded (kernel initrd : list Z).

Definition kernel_of (p : list Z) : list Z := take (Z.to_nat (field 0 p)) (drop 16 p).
Definition initrd_of (p : list Z) : list Z := drop (16 + Z.to_nat (field 0 p)) p.

Definition layout_ok (p : list Z) : bool :=
  (0 <? field 0 p) && (field 0 p <=? UART_BOOT_MAX_SIZE) && (0 <? field 1 p) && (field 1 p <=? UART_INITRD_MAX_SIZE) &&
  (16 + field 0 p + field 1 p =? Z.of_nat (length p)).

Definition decode_payload (p : list Z) : load_outcome :=
  if negb (layout_ok p) then BadLayout
  else if (sum32 (kernel_of p) =? field 2 p) && (sum32 (initrd_of p) =? field 3 p) then Loaded (kernel_of p) (initrd_of p) else BadPart.

(** The reference decoder, on a header and the payload that follows it. *)
Definition decode (h p : list Z) : load_outcome :=
  if negb (field 0 h =? UART_BOOT_BUNDLE_MAGIC) then BadMagic
  else if (field 1 h =? 0) || (UART_BOOT_BUNDLE_MAX_SIZE <? field 1 h) then BadSize
  else if negb (sum32 p =? field 2 h) then BadSum
  else if field 1 h <? 16 then TooSmall
  else decode_payload p.

(** A header and the bytes the loader takes after it. *)
Definition well_framed (h p : list Z) : Prop :=
  length h = 12%nat /\ Forall (fun c => 0 <= c < 256) h /\ Forall (fun c => 0 <= c < 256) p /\
  match decode h p with
  | BadMagic | BadSize => p = []
  | _ => Z.of_nat (length p) = field 1 h
  end.

Lemma field_cons a b c d l i : field (S i) (a :: b :: c :: d :: l) = field i l.
Proof. unfold field. by replace (4 * S i)%nat with (S (S (S (S (4 * i))))) by lia. Qed.
Lemma field_0 a b c d l : field 0 (a :: b :: c :: d :: l) = num32 [a; b; c; d].
Proof. done. Qed.

Lemma field_range i l : Forall (fun c => 0 <= c < 256) l -> 0 <= field i l < 2 ^ 32.
Proof. intros H. by apply num32_range, Forall_take, Forall_drop. Qed.

Lemma fields_header p : Z.of_nat (length p) < 2 ^ 32 ->
  field 0 (header p) = UART_BOOT_BUNDLE_MAGIC /\ field 1 (header p) = Z.of_nat (length p) /\ field 2 (header p) = sum32 p.
Proof.
  intros Hl. pose proof (sum32_range p). split; [done|]. split.
  - transitivity (num32 (le32 (Z.of_nat (length p)))); [done|]. apply num_le32. lia.
  - transitivity (num32 (le32 (sum32 p))); [done|]. by apply num_le32.
Qed.

Lemma fields_payload k i : Z.of_nat (length k) < 2 ^ 32 -> Z.of_nat (length i) < 2 ^ 32 ->
  field 0 (payload k i) = Z.of_nat (length k) /\ field 1 (payload k i) = Z.of_nat (length i) /\
  field 2 (payload k i) = sum32 k /\ field 3 (payload k i) = sum32 i /\ kernel_of (payload k i) = k /\ initrd_of (payload k i) = i.
Proof.
  intros Hk Hi. pose proof (sum32_range k). pose proof (sum32_range i).
  assert (E0 : field 0 (payload k i) = Z.of_nat (length k)) by (transitivity (num32 (le32 (Z.of_nat (length k)))); [done|apply num_le32; lia]).
  split; [done|]. split; [|split; [|split; [|split]]].
  - transitivity (num32 (le32 (Z.of_nat (length i)))); [done|apply num_le32; lia].
  - transitivity (num32 (le32 (sum32 k))); [done|by apply num_le32].
  - transitivity (num32 (le32 (sum32 i))); [done|by apply num_le32].
  - unfold kernel_of. rewrite E0, Nat2Z.id. change (drop 16 (payload k i)) with (k ++ i). by rewrite take_app_length.
  - unfold initrd_of. rewrite E0, Nat2Z.id, <- drop_drop. change (drop 16 (payload k i)) with (k ++ i). by rewrite drop_app_length.
Qed.

Lemma payload_length k i : length (payload k i) = (16 + length k + length i)%nat.
Proof. unfold payload, le32. cbn. rewrite length_app. lia. Qed.

Definition fits (kernel initrd : list Z) : Prop :=
  0 < Z.of_nat (length kernel) <= UART_BOOT_MAX_SIZE /\ 0 < Z.of_nat (length initrd) <= UART_INITRD_MAX_SIZE.

Lemma decode_encode k i : fits k i -> decode (header (payload k i)) (payload k i) = Loaded k i.
Proof.
  intros [Hk Hi]. unfold UART_BOOT_MAX_SIZE, UART_INITRD_MAX_SIZE in *. destruct (fields_payload k i) as (E0 & E1 & E2 & E3 & Ek & Ei); [lia|lia|].
  pose proof (payload_length k i) as El. destruct (fields_header (payload k i)) as (F0 & F1 & F2); [lia|].
  unfold decode. rewrite F0, F1, F2, Z.eqb_refl, Z.eqb_refl. cbn [negb]. unfold UART_BOOT_BUNDLE_MAX_SIZE, UART_BOOT_MAX_SIZE, UART_INITRD_MAX_SIZE.
  rewrite (proj2 (Z.eqb_neq _ _)), (proj2 (Z.ltb_ge _ _)), (proj2 (Z.ltb_ge _ _)) by lia. cbn [orb].
  unfold decode_payload, layout_ok. rewrite E0, E1, E2, E3, Ek, Ei, !Z.eqb_refl, !(proj2 (Z.ltb_lt 0 _)) by lia. unfold UART_BOOT_MAX_SIZE, UART_INITRD_MAX_SIZE.
  rewrite !(proj2 (Z.leb_le _ _)), (proj2 (Z.eqb_eq _ _)) by lia. done.
Qed.

Lemma four_fields l : (4 <= length l)%nat -> Forall (fun c => 0 <= c < 256) l -> l = le32 (field 0 l) ++ drop 4 l.
Proof.
  intros Hl Hb. destruct l as [|a [|b [|c [|d l]]]]; cbn in Hl; try lia. rewrite field_0, le_num32; [done|]. by apply (Forall_take _ 4) in Hb.
Qed.

Lemma field_drop i l : field i (drop 4 l) = field (S i) l.
Proof. unfold field. rewrite drop_drop. f_equal. f_equal. f_equal. lia. Qed.

Lemma encode_decode h p k i : well_framed h p -> decode h p = Loaded k i -> fits k i /\ p = payload k i /\ h = header (payload k i).
Proof.
  intros (Hh & Bh & Bp & Hf) E. rewrite E in Hf. unfold decode in E.
  destruct (Z.eqb_spec (field 0 h) UART_BOOT_BUNDLE_MAGIC) as [Em|]; cbn [negb] in E; [|done].
  destruct ((field 1 h =? 0) || (UART_BOOT_BUNDLE_MAX_SIZE <? field 1 h)); [done|].
  destruct (Z.eqb_spec (sum32 p) (field 2 h)) as [Es|]; cbn [negb] in E; [|done].
  destruct (Z.ltb_spec (field 1 h) 16) as [|H16]; [done|]. unfold decode_payload in E. destruct (layout_ok p) eqn:El; cbn [negb] in E; [|done].
  destruct (Z.eqb_spec (sum32 (kernel_of p)) (field 2 p)) as [E2|]; [|done]. destruct (Z.eqb_spec (sum32 (initrd_of p)) (field 3 p)) as [E3|]; [|done].
  cbn [andb] in E. injection E as <- <-. unfold layout_ok in El. rewrite !andb_true_iff, !Z.ltb_lt, !Z.leb_le, Z.eqb_eq in El.
  assert (Lk : Z.of_nat (length (kernel_of p)) = field 0 p) by (unfold kernel_of; rewrite length_take, length_drop; lia).
  assert (Li : Z.of_nat (length (initrd_of p)) = field 1 p) by (unfold initrd_of; rewrite length_drop; lia).
  assert (Ep : p = payload (kernel_of p) (initrd_of p)).
  { unfold payload. rewrite Lk, Li, E2, E3. rewrite (four_fields p) at 1 by (done || lia). f_equal.
    rewrite (four_fields (drop 4 p)), field_drop by (try apply Forall_drop; rewrite ?length_drop; done || lia). f_equal. rewrite drop_drop. cbn [Nat.add].
    rewrite (four_fields (drop 8 p)) by (try apply Forall_drop; rewrite ?length_drop; done || lia). f_equal. rewrite drop_drop. cbn [Nat.add].
    rewrite (four_fields (drop 12 p)) by (try apply Forall_drop; rewrite ?length_drop; done || lia). f_equal. rewrite drop_drop. cbn [Nat.add].
    unfold kernel_of, initrd_of. rewrite <- drop_drop. by rewrite take_drop. }
  split; [split; lia|]. split; [done|]. rewrite <- Ep. unfold header. rewrite <- Em, Hf, Es.
  rewrite (four_fields h) at 1 by (done || lia). f_equal. rewrite (four_fields (drop 4 h)), field_drop by (try apply Forall_drop; rewrite ?length_drop; done || lia). f_equal.
  rewrite drop_drop. cbn [Nat.add]. rewrite (four_fields (drop 8 h)) by (try apply Forall_drop; rewrite ?length_drop; done || lia).
  rewrite drop_drop. cbn [Nat.add]. rewrite (drop_ge h 12) by lia. by rewrite app_nil_r.
Qed.

(** ** Steps of a session *)

Definition chars (s : string) : list Z := (fun c => Z.of_nat (nat_of_ascii c)) <$> list_ascii_of_string s.
Definition said (s : string) : list Z := crlf (chars s).
Definition said_line (s : string) : list Z := crlf (chars s ++ [10]).

Lemma plain_text l : forallb (fun c => (0 <? c) && (c <? 256)) l = true -> Forall (fun c => c <> 0) l /\ Forall (fun c => 0 <= c < 256) l.
Proof.
  rewrite forallb_forall. intros H. split; apply Forall_forall; intros c Hc%list_elem_of_In%H; rewrite andb_true_iff, !Z.ltb_lt in Hc; lia.
Qed.

Section session.
Context (fuel : nat).

(** Since [s0], memory has become [m], [o] was sent, and [rest] is still to come. *)
Definition session (s0 : bstate) (m : bmem) (o rest : list Z) (s : bstate) : Prop :=
  good fuel s0 /\ (exists f i n, s = set_b_mem m (set_b_line f (s0.(b_sent) ++ o) i n s0)) /\ coming fuel s rest.

Lemma session_start s rest : good fuel s -> coming fuel s rest -> session s s.(b_mem) [] rest s.
Proof using. intros Hg Hc. split; [done|]. split; [|done]. exists s.(b_fifo), s.(b_idle), s.(b_reads). rewrite app_nil_r. by destruct s. Qed.

Lemma session_good s0 m o rest s : session s0 m o rest s -> good fuel s.
Proof using. by intros (H & (f & i & n & ->) & _). Qed.
Lemma session_mem s0 m o rest s : session s0 m o rest s -> s.(b_mem) = m.
Proof using. by intros (H & (f & i & n & ->) & _). Qed.

Lemma session_sends s0 m o rest s o' s' : session s0 m o rest s -> sends fuel s o' s' -> session s0 m (o ++ o') rest s'.
Proof using.
  intros (Hg & (f & i & n & ->) & Hc) [(f' & i' & n' & ->) H]. split; [done|]. split; [|by apply H]. exists f', i', n'. cbn. by rewrite app_assoc.
Qed.

Lemma wp_say_string str l s0 m o rest s Q :
  session s0 m o rest s -> string_at m str l -> Forall (fun c => 0 <= c < 256) l ->
  (forall s', session s0 m (o ++ crlf l) rest s' -> Q tt s') -> wp (uart_send_string fuel str) Q s.
Proof using.
  intros Hs Ht Hb HQ. eapply wp_mono; [apply wp_uart_string; [by eapply session_good|by rewrite (session_mem _ _ _ _ _ Hs)|done]|].
  intros [] s' H. by eapply HQ, session_sends.
Qed.

Lemma wp_say_text str s0 m o rest s Q :
  session s0 m o rest s -> forallb (fun c => (0 <? c) && (c <? 256)) (chars str) = true ->
  (forall s', session s0 m (o ++ said str) rest s' -> Q tt s') -> wp (uart_send_string fuel (text str)) Q s.
Proof using. intros Hs [H1 H2]%plain_text HQ. by apply (wp_say_string _ (chars str) s0 m o rest); [|apply string_literal|..]. Qed.

Lemma wp_say_line str s0 m o rest s Q :
  session s0 m o rest s -> forallb (fun c => (0 <? c) && (c <? 256)) (chars str ++ [10]) = true ->
  (forall s', session s0 m (o ++ said_line str) rest s' -> Q tt s') -> wp (uart_send_string fuel (text_line str)) Q s.
Proof using. intros Hs [H1 H2]%plain_text HQ. by apply (wp_say_string _ (chars str ++ [10]) s0 m o rest); [|apply string_literal|..]. Qed.

Lemma wp_say_hex v s0 m o rest s Q :
  session s0 m o rest s -> 0 <= v -> (forall s', session s0 m (o ++ hex_text 16 v) rest s' -> Q tt s') -> wp (uart_send_hex fuel v) Q s.
Proof using. intros Hs Hv HQ. eapply wp_mono; [apply wp_hex; [done|by eapply session_good]|]. intros [] s' H. by eapply HQ, session_sends. Qed.

Lemma wp_say_dec v s0 m o rest s Q :
  session s0 m o rest s -> (forall s', session s0 m (o ++ dec_text v) rest s' -> Q tt s') -> wp (uart_send_dec fuel v) Q s.
Proof using. intros Hs HQ. eapply wp_mono; [apply wp_dec; by eapply session_good|]. intros [] s' H. by eapply HQ, session_sends. Qed.

Lemma wp_take c s0 m o rest s Q :
  session s0 m o (c :: rest) s -> 0 <= c < 256 -> (forall s', session s0 m o rest s' -> Q c s') -> wp (uart_recv fuel) Q s.
Proof using.
  intros Hs Hc HQ. pose proof (session_good _ _ _ _ _ Hs) as Hg'. destruct Hs as (Hg & (f & i & n & ->) & Hcm).
  eapply wp_mono; [apply (wp_line_recv fuel c rest); done|]. intros r s' (-> & H & f' & i' & n' & ->). apply HQ. split; [done|]. split; [|done]. by exists f', i', n'.
Qed.

Lemma wp_in_memory {A} (op : M bmem A) s0 m o rest s Q :
  session s0 m o rest s -> wp op (fun a m' => forall s', session s0 m' o rest s' -> Q a s') m -> wp (zoom op) Q s.
Proof using.
  intros Hs H. apply wp_zoom. change (view s) with s.(b_mem). rewrite (session_mem _ _ _ _ _ Hs). eapply wp_mono; [exact H|]. intros a m' HQ. apply HQ.
  destruct Hs as (Hg & (f & i & n & ->) & Hc). split; [done|]. split; [|done]. by exists f, i, n.
Qed.

Lemma wp_variable {A} (f : bstate -> A) s0 m o rest s Q :
  session s0 m o rest s -> (forall l st i n s0', f (set_b_mem m (set_b_line l st i n s0')) = f s0') -> Q (f s0) s -> wp (gets f) Q s.
Proof using. intros Hs Hf HQ. apply wp_gets. destruct Hs as (_ & (l & i & n & ->) & _). by rewrite Hf. Qed.

Lemma wp_take_u32 w s0 m o rest s Q :
  session s0 m o (w ++ rest) s -> length w = 4%nat -> Forall (fun c => 0 <= c < 256) w ->
  (forall s', session s0 m o rest s' -> Q (num32 w) s') -> wp (recv_u32_le fuel) Q s.
Proof using.
  intros Hs Hl Hb HQ. destruct w as [|a [|b [|c [|d [|]]]]]; try done. rewrite <- (lor_bytes _ _ _ _ Hb) in HQ. pose proof Hb as Hb'. rewrite !Forall_cons in Hb'. cbn [app] in Hs.
  unfold recv_u32_le. apply wp_bind, (wp_take a _ _ _ _ _ _ Hs); [tauto|]. clear s Hs. intros s Hs. apply wp_bind, (wp_take b _ _ _ _ _ _ Hs); [tauto|]. clear s Hs. intros s Hs.
  apply wp_bind, (wp_take c _ _ _ _ _ _ Hs); [tauto|]. clear s Hs. intros s Hs. apply wp_bind, (wp_take d _ _ _ _ _ _ Hs); [tauto|]. clear s Hs. intros s Hs. apply wp_ret.
  rewrite Z.lor_0_l, !u8_id by lia. by apply HQ.
Qed.

Lemma wp_take_bytes dst l s0 m o rest s Q :
  session s0 m o (l ++ rest) s -> Forall (fun c => 0 <= c < 256) l -> readable m dst (Z.of_nat (length l)) ->
  (forall s', session s0 (write_block dst l m) o rest s' -> Q tt s') -> wp (recv_bytes fuel dst (Z.of_nat (length l))) Q s.
Proof using.
  intros Hs Hb Hr HQ. unfold recv_bytes. rewrite Nat2Z.id.
  apply (wp_for_up (fun i s' => session s0 (write_block dst (take (Z.to_nat i) l) m) o (drop (Z.to_nat i) l ++ rest) s')); [done| |].
  - intros i s' Hi H. destruct (lookup_lt_is_Some_2 l (Z.to_nat i)) as [c Hc]; [lia|]. rewrite (drop_S _ _ _ Hc) in H. cbn [app] in H.
    apply wp_bind, (wp_take c _ _ _ _ _ _ H); [apply (proj1 (Forall_lookup _ _) Hb _ _ Hc)|]. clear s' H. intros s' H. apply (wp_in_memory _ _ _ _ _ _ _ H).
    apply wp_store; [apply write_block_dom, Hr; lia|]. intros s1 H1. replace (Z.to_nat (i + 1)) with (S (Z.to_nat i)) by lia.
    rewrite (take_S_r _ _ _ Hc), write_block_snoc, length_take, Nat.min_l by lia. by rewrite Z2Nat.id by lia.
  - intros s' H. rewrite Z.add_0_l, Nat2Z.id, firstn_all, drop_all in H. by apply HQ.
Qed.
End session.

(** Symbolic execution of a session: the hypothesis about the state is replaced at
    each step. *)
Ltac se_said Hs :=
  lazymatch goal with
  | |- wp (uart_send_string _ (text _)) _ _ => apply (wp_say_text _ _ _ _ _ _ _ _ Hs); [vm_compute; reflexivity|]
  | |- wp (uart_send_string _ (text_line _)) _ _ => apply (wp_say_line _ _ _ _ _ _ _ _ Hs); [vm_compute; reflexivity|]
  | |- wp (uart_send_dec _ _) _ _ => apply (wp_say_dec _ _ _ _ _ _ _ _ Hs)
  | |- wp (uart_send_hex _ _) _ _ => apply (wp_say_hex _ _ _ _ _ _ _ _ Hs); [lia|]
  end.
Ltac se_say :=
  match goal with
  | Hs : session _ _ _ _ _ ?s |- wp _ _ ?s => apply wp_bind; se_said Hs; clear s Hs; intros s Hs
  end.

(** ** The load command *)

Section load.
Context (fuel : nat) (q : bool).

Definition load_addr : Z := UART_BOOT_LOAD_ADDR q.
Definition initrd_addr : Z := UART_INITRD_LOAD_ADDR q.

(** What the host sees. *)
Definition loading (size : Z) : list Z := said "loading " ++ dec_text size ++ said " bytes to " ++ hex_text 16 load_addr ++ said_line "".
Definition sum_report (expected actual : Z) : list Z :=
  said "load fail: checksum exp=" ++ hex_text 16 expected ++ said " got=" ++ hex_text 16 actual ++ said_line "".
Definition bundle_report (k i : list Z) : list Z :=
  said "bundle ok: kernel=" ++ dec_text (Z.of_nat (length k)) ++ said " initrd=" ++ dec_text (Z.of_nat (length i)) ++ said_line "".
Definition jump_report (start end_ : Z) : list Z :=
  said "load ok, jump " ++ hex_text 16 load_addr ++ said " (initrd " ++ hex_text 16 start ++ said "-" ++ hex_text 16 end_ ++ said ")" ++ said_line "".

Definition outcome_report (h p : list Z) : list Z :=
  match decode h p with
  | BadMagic => said "load fail: bad magic " ++ hex_text 16 (field 0 h) ++ said_line " (expect BOO2 bundle)"
  | BadSize => said "load fail: bad size " ++ dec_text (field 1 h) ++ said_line ""
  | BadSum => loading (field 1 h) ++ sum_report (field 2 h) (sum32 p)
  | TooSmall => loading (field 1 h) ++ said_line "load fail: bundle too small"
  | BadLayout => loading (field 1 h) ++ said_line "load fail: bad bundle layout"
  | BadPart => loading (field 1 h) ++ said_line "load fail: bad bundle checksum"
  | Loaded k i => loading (field 1 h) ++ bundle_report k i ++ jump_report initrd_addr (initrd_addr + Z.of_nat (length i))
  end.
Definition load_report (h p : list Z) : list Z :=
  said_line "UART loader ready for kernel+initrd bundle" ++ said_line "send header <magic,size,checksum> then payload" ++ outcome_report h p.

(** Memory afterwards. *)
Definition loaded_mem (h p : list Z) (m : bmem) : bmem :=
  match decode h p with
  | BadMagic | BadSize => m
  | Loaded k i => write_block initrd_addr i (write_block load_addr k (write_block load_addr p m))
  | _ => write_block load_addr p m
  end.

(** The variables afterwards, and how the command ends. *)
Definition loaded_vars (h p : list Z) (s : bstate) : bstate :=
  match decode h p with Loaded k i => set_initrd initrd_addr (initrd_addr + Z.of_nat (length i)) s | _ => s end.
Definition load_end (h p : list Z) (s : bstate) : boot_end :=
  match decode h p with
  | Loaded k i => Jumped load_addr s.(boot_hartid) s.(dtb) initrd_addr (initrd_addr + Z.of_nat (length i))
  | _ => Prompt
  end.

(** The areas the program may write for these bytes. *)
Definition room (h p : list Z) (m : bmem) : Prop :=
  readable m load_addr (Z.of_nat (length p)) /\ match decode h p with Loaded _ i => readable m initrd_addr (Z.of_nat (length i)) | _ => True end.

Lemma wp_payload size sum p s0 m o rest s Q :
  session fuel s0 m o (p ++ rest) s -> size = Z.of_nat (length p) -> 0 < size <= UART_BOOT_BUNDLE_MAX_SIZE -> 0 <= sum -> Forall (fun c => 0 <= c < 256) p -> readable m load_addr size ->
  (forall s', session fuel s0 (write_block load_addr p m) (o ++ loading size ++ if sum32 p =? sum then [] else sum_report sum (sum32 p)) rest s' ->
     Q (if sum32 p =? sum then 0 else -1) s') ->
  wp (uart_load_image_payload fuel load_addr UART_BOOT_BUNDLE_MAX_SIZE load_addr size sum) Q s.
Proof using.
  intros Hs -> Hz Hsum Hb Hr HQ. unfold uart_load_image_payload. rewrite (proj2 (Z.eqb_neq _ _)), (proj2 (Z.ltb_ge _ _)) by lia. cbn [orb].
  assert (Hla : 0 <= load_addr) by (unfold load_addr; destruct q; cbn; lia). do 5 se_say.
  apply wp_bind, (wp_take_bytes _ _ _ _ _ _ _ _ _ Hs); [done|done|]. clear s Hs. intros s Hs. apply wp_bind, (wp_in_memory _ _ _ _ _ _ _ _ Hs).
  apply (wp_checksum _ _ _ p); [done|apply write_block_in|done|]. clear s Hs. intros s Hs. destruct (sum32 p =? sum); cbn [negb].
  - apply wp_ret, HQ. unfold loading. rewrite app_nil_r. by rewrite <- !app_assoc in Hs.
  - pose proof (sum32_range p). do 5 se_say. apply wp_ret, HQ. unfold loading, sum_report. rewrite <- !app_assoc in Hs. rewrite <- !app_assoc. exact Hs.
Qed.

Lemma wp_bad_size size sum s0 m o rest s Q :
  session fuel s0 m o rest s -> (size =? 0) || (UART_BOOT_BUNDLE_MAX_SIZE <? size) = true ->
  (forall s', session fuel s0 m (o ++ said "load fail: bad size " ++ dec_text size ++ said_line "") rest s' -> Q (-1) s') ->
  wp (uart_load_image_payload fuel load_addr UART_BOOT_BUNDLE_MAX_SIZE load_addr size sum) Q s.
Proof using.
  intros Hs Hz HQ. unfold uart_load_image_payload. rewrite Hz. do 3 se_say. apply wp_ret, HQ. by rewrite <- !app_assoc in Hs.
Qed.
Lemma wp_load_field m p l i Q :
  block_at m p l -> Forall (fun c => 0 <= c < 256) l -> (4 * i + 4 <= length l)%nat -> Q (field i l) m -> wp (load_u32_le (p + Z.of_nat (4 * i))) Q m.
Proof using.
  intros H Hb Hl HQ. apply (wp_load_u32 _ _ (take 4 (drop (4 * i) l))); [by apply block_sub|by apply Forall_take, Forall_drop| |done].
  rewrite length_take, length_drop. lia.
Qed.

Lemma layout_test p :
  Forall (fun c => 0 <= c < 256) p ->
  (field 0 p =? 0) || (UART_BOOT_MAX_SIZE <? field 0 p) || (field 1 p =? 0) || (UART_INITRD_MAX_SIZE <? field 1 p) ||
    negb (u64 (u64 (16 + field 0 p) + field 1 p) =? Z.of_nat (length p)) = negb (layout_ok p).
Proof using.
  intros Hb. pose proof (field_range 0 p Hb). pose proof (field_range 1 p Hb). rewrite (u64_id (16 + field 0 p)), u64_id by lia. unfold layout_ok.
  rewrite !negb_andb. rewrite <- !Z.leb_antisym, <- !Z.ltb_antisym. f_equal; f_equal; f_equal; [f_equal|];
    (match goal with |- (?x =? 0) = _ => destruct (Z.eqb_spec x 0), (Z.leb_spec x 0); try done; lia end).
Qed.

(** The state after the bundle of [p] has been unpacked, and the answer. *)
Lemma wp_unpack p s0 m o rest s Q :
  session fuel s0 (write_block load_addr p m) o rest s -> s0.(b_qemu) = q -> Forall (fun c => 0 <= c < 256) p -> (16 <= length p)%nat ->
  readable m load_addr (Z.of_nat (length p)) ->
  match decode_payload p with
  | Loaded k i => readable m initrd_addr (Z.of_nat (length i)) /\
      (forall s', session fuel (set_initrd initrd_addr (initrd_addr + Z.of_nat (length i)) s0)
         (write_block initrd_addr i (write_block load_addr k (write_block load_addr p m))) (o ++ bundle_report k i) rest s' -> Q true s')
  | BadLayout => forall s', session fuel s0 (write_block load_addr p m) (o ++ said_line "load fail: bad bundle layout") rest s' -> Q false s'
  | _ => forall s', session fuel s0 (write_block load_addr p m) (o ++ said_line "load fail: bad bundle checksum") rest s' -> Q false s'
  end ->
  wp (unpack_bundle fuel load_addr (Z.of_nat (length p))) Q s.
Proof using.
  intros Hs Eq Hb Hl Hr HQ. unfold unpack_bundle. set (m1 := write_block load_addr p m) in *. assert (Hp : block_at m1 load_addr p) by apply write_block_in.
  apply wp_bind, (wp_variable _ _ _ _ _ _ _ _ Hs); [done|]. rewrite Eq.
  apply wp_bind, (wp_in_memory _ _ _ _ _ _ _ _ Hs). rewrite <- (Z.add_0_r load_addr) at 1. apply (wp_load_field m1 load_addr p 0); [done|done|lia|]. clear s Hs. intros s Hs.
  apply wp_bind, (wp_in_memory _ _ _ _ _ _ _ _ Hs), (wp_load_field m1 load_addr p 1); [done|done|lia|]. clear s Hs. intros s Hs.
  apply wp_bind, (wp_in_memory _ _ _ _ _ _ _ _ Hs), (wp_load_field m1 load_addr p 2); [done|done|lia|]. clear s Hs. intros s Hs.
  apply wp_bind, (wp_in_memory _ _ _ _ _ _ _ _ Hs), (wp_load_field m1 load_addr p 3); [done|done|lia|]. clear s Hs. intros s Hs.
  cbv zeta. rewrite layout_test by done. unfold decode_payload in HQ. destruct (layout_ok p) eqn:El; cbn [negb] in HQ |- *; [|by se_say; apply wp_ret, HQ].
  unfold layout_ok in El. rewrite !andb_true_iff, !Z.ltb_lt, !Z.leb_le, Z.eqb_eq in El. unfold UART_BOOT_MAX_SIZE, UART_INITRD_MAX_SIZE in El.
  assert (Lk : Z.of_nat (length (kernel_of p)) = field 0 p) by (unfold kernel_of; rewrite length_take, length_drop; lia).
  assert (Li : Z.of_nat (length (initrd_of p)) = field 1 p) by (unfold initrd_of; rewrite length_drop; lia).
  assert (Bk : block_at m1 (load_addr + 16) (kernel_of p)) by (by apply (block_sub m1 load_addr p 16)).
  assert (Bi : block_at m1 (load_addr + 16 + field 0 p) (initrd_of p)).
  { unfold initrd_of. rewrite <- (firstn_all (drop _ p)). replace (load_addr + 16 + field 0 p) with (load_addr + Z.of_nat (16 + Z.to_nat (field 0 p))) by lia. by apply block_sub. }
  assert (Fk : Forall (fun c => 0 <= c < 256) (kernel_of p)) by (by apply Forall_take, Forall_drop).
  assert (Fi : Forall (fun c => 0 <= c < 256) (initrd_of p)) by (by apply Forall_drop).
  apply wp_bind, (wp_in_memory _ _ _ _ _ _ _ _ Hs). apply (wp_checksum _ _ _ (kernel_of p)); [done|done|done|]. clear s Hs. intros s Hs.
  apply wp_bind. destruct (sum32 (kernel_of p) =? field 2 p); cbn [negb andb] in HQ |- *; [|by apply wp_ret; se_say; apply wp_ret, HQ].
  apply wp_bind, (wp_in_memory _ _ _ _ _ _ _ _ Hs). apply (wp_checksum _ _ _ (initrd_of p)); [done|done|done|]. clear s Hs. intros s Hs. apply wp_ret.
  destruct (sum32 (initrd_of p) =? field 3 p); cbn [negb] in HQ |- *; [|by se_say; apply wp_ret, HQ].
  destruct HQ as [Hri HQ]. rewrite Li in Hri, HQ. unfold bundle_report in HQ. rewrite Lk, Li in HQ. fold load_addr initrd_addr.
  apply wp_bind, (wp_in_memory _ _ _ _ _ _ _ _ Hs), (wp_copy_bytes _ _ _ _ (kernel_of p)); [done|done|intros j Hj; apply write_block_dom, Hr; lia|]. clear s Hs. intros s Hs.
  apply wp_bind, (wp_in_memory _ _ _ _ _ _ _ _ Hs), (wp_copy_bytes _ _ _ _ (initrd_of p)); [done| |intros j Hj; do 2 apply write_block_dom; apply Hri; lia|].
  { intros j c Hc. rewrite write_block_out by (rewrite Lk; lia). by apply Bi. }
  clear s Hs. intros s Hs. assert (Hia : 0 < initrd_addr /\ initrd_addr + field 1 p < 2 ^ 64) by (unfold initrd_addr; destruct q; cbn; lia).
  rewrite (u64_id (initrd_addr + field 1 p)) by lia. apply wp_bind, wp_modify.
  assert (Hs' : session fuel (set_initrd initrd_addr (initrd_addr + field 1 p) s0) (write_block initrd_addr (initrd_of p) (write_block load_addr (kernel_of p) m1)) o rest
    (set_initrd initrd_addr (initrd_addr + field 1 p) s)).
  { destruct Hs as (Hg & (f & i & n & ->) & Hc). split; [done|]. split; [|done]. by exists f, i, n. }
  clear Hs. revert Hs'. generalize (set_initrd initrd_addr (initrd_addr + field 1 p) s) as s1. clear s. intros s Hs.
  apply wp_bind, (wp_variable _ _ _ _ _ _ _ _ Hs); [done|]. cbn [initrd_end initrd_start set_initrd]. rewrite (proj2 (Z.ltb_ge _ _)) by lia.
  do 5 se_say. apply wp_ret, HQ. by rewrite <- !app_assoc in Hs.
Qed.

Lemma wp_jump s0 m o rest s Q :
  session fuel s0 m o rest s -> s0.(b_qemu) = q -> 0 <= s0.(initrd_start) < s0.(initrd_end) ->
  (forall s', session fuel s0 m (o ++ jump_report s0.(initrd_start) s0.(initrd_end)) rest s' ->
     Q (Jumped load_addr s0.(boot_hartid) s0.(dtb) s0.(initrd_start) s0.(initrd_end)) s') ->
  wp (jump_to_kernel fuel) Q s.
Proof using.
  intros Hs Eq Hr HQ. unfold jump_to_kernel. apply wp_bind, (wp_variable _ _ _ _ _ _ _ _ Hs); [done|]. rewrite Eq. fold load_addr.
  assert (Hla : 0 <= load_addr) by (unfold load_addr; destruct q; cbn; lia). do 2 se_say. apply wp_bind, (wp_variable _ _ _ _ _ _ _ _ Hs); [done|].
  rewrite (proj2 (Z.ltb_lt _ _)) by lia. cbn [when]. apply wp_bind. se_say. apply wp_bind, (wp_variable _ _ _ _ _ _ _ _ Hs); [done|]. do 2 se_say.
  apply wp_bind, (wp_variable _ _ _ _ _ _ _ _ Hs); [done|]. se_say. se_said Hs. clear s Hs. intros s Hs. se_say. apply (wp_variable _ _ _ _ _ _ _ _ Hs); [done|].
  apply HQ. unfold jump_report. by rewrite <- !app_assoc in Hs.
Qed.

Lemma wp_load h p s0 m o rest s Q :
  session fuel s0 m o (h ++ p ++ rest) s -> s0.(b_qemu) = q -> well_framed h p -> room h p m ->
  (forall s', session fuel (loaded_vars h p s0) (loaded_mem h p m) (o ++ load_report h p) rest s' -> Q (load_end h p s0) s') ->
  wp (boot_load_and_jump fuel) Q s.
Proof using.
  intros Hs Eq (Hh & Bh & Bp & Hf) [Hr1 Hr2] HQ. unfold boot_load_and_jump. apply wp_bind, (wp_variable _ _ _ _ _ _ _ _ Hs); [done|]. rewrite Eq. fold load_addr. do 2 se_say.
  assert (Eh : h = take 4 h ++ take 4 (drop 4 h) ++ take 4 (drop 8 h)).
  { rewrite <- (take_drop 4 h) at 1. f_equal. rewrite <- (take_drop 4 (drop 4 h)) at 1. f_equal. rewrite drop_drop. symmetry. apply take_ge. rewrite length_drop. lia. }
  rewrite Eh in Hs at 1. rewrite <- !app_assoc in Hs.
  do 3 (apply wp_bind, (wp_take_u32 _ _ _ _ _ _ _ _ Hs);
    [rewrite length_take, ?length_drop; lia|apply Forall_take; try apply Forall_drop; done|]; clear s Hs; intros s Hs).
  change (num32 (take 4 h)) with (field 0 h). change (num32 (take 4 (drop 4 h))) with (field 1 h). change (num32 (take 4 (drop 8 h))) with (field 2 h).
  pose proof (field_range 0 h Bh) as R0. pose proof (field_range 1 h Bh) as R1. pose proof (field_range 2 h Bh) as R2.
  unfold loaded_vars, loaded_mem, load_report, outcome_report, load_end in HQ. unfold decode in *.
  destruct (field 0 h =? UART_BOOT_BUNDLE_MAGIC); cbn [negb] in *.
  2: { subst p. do 3 se_say. apply wp_ret, HQ. by rewrite <- !app_assoc in Hs. }
  apply wp_bind. destruct ((field 1 h =? 0) || (UART_BOOT_BUNDLE_MAX_SIZE <? field 1 h)) eqn:Ez.
  { subst p. apply (wp_bad_size _ _ _ _ _ _ _ _ Hs); [done|]. clear s Hs. intros s Hs. cbn [Z.eqb negb]. apply wp_ret, HQ. by rewrite <- !app_assoc in Hs. }
  apply orb_false_iff in Ez as [E1%Z.eqb_neq E2%Z.ltb_ge].
  assert (Hlen : field 1 h = Z.of_nat (length p)).
  { destruct (negb (sum32 p =? field 2 h)); [done|]. destruct (field 1 h <? 16); [done|]. unfold decode_payload in Hf. destruct (negb (layout_ok p)); [done|]. by destruct (_ && _). }
  apply (wp_payload _ _ p _ _ _ _ _ _ Hs Hlen); [lia|lia|done|by rewrite Hlen|]. clear s Hs. intros s Hs.
  destruct (sum32 p =? field 2 h); cbn [negb Z.eqb] in *.
  2: { apply wp_ret, HQ. by rewrite <- !app_assoc in Hs. }
  rewrite app_nil_r in Hs. destruct (Z.ltb_spec (field 1 h) 16) as [H16|H16].
  { se_say. apply wp_ret, HQ. by rewrite <- !app_assoc in Hs. }
  apply wp_bind. rewrite Hlen. apply (wp_unpack _ _ _ _ _ _ _ Hs); [done|done|lia|done|]. clear s Hs.
  assert (Hia : 0 <= initrd_addr) by (unfold initrd_addr; destruct q; cbn; lia).
  destruct (decode_payload p) as [| | | | | |k i] eqn:Ed;
    try (exfalso; unfold decode_payload in Ed; destruct (negb (layout_ok p)); [done|]; by destruct (_ && _)).
  - intros s Hs. apply wp_ret, HQ. by rewrite <- !app_assoc in Hs.
  - intros s Hs. apply wp_ret, HQ. by rewrite <- !app_assoc in Hs.
  - split; [done|]. intros s Hs.
    assert (Hi : 0 < Z.of_nat (length i)).
    { unfold decode_payload in Ed. destruct (layout_ok p) eqn:El; cbn [negb] in Ed; [|done]. destruct (_ && _); [|done]. injection Ed as <- <-.
      unfold layout_ok in El. rewrite !andb_true_iff, !Z.ltb_lt, !Z.leb_le, Z.eqb_eq in El. unfold initrd_of. rewrite length_drop. lia. }
    apply (wp_jump _ _ _ _ _ _ Hs); [done|cbn; lia|]. clear s Hs. intros s Hs. apply HQ. by rewrite <- !app_assoc in Hs.
Qed.
End load.

(** ** Commands *)

Lemma str_diff_eq a : forall b, Forall (fun c => c <> 0) a -> Forall (fun c => c <> 0) b -> (str_diff a b =? 0) = bool_decide (a = b).
Proof.
  induction a as [|x a IH]; intros b Ha Hb; (destruct b as [|y b]; cbn [str_diff]).
  - by rewrite bool_decide_true.
  - apply Forall_cons in Hb as [Hy _]. rewrite bool_decide_false by done. apply Z.eqb_neq. lia.
  - apply Forall_cons in Ha as [Hx _]. rewrite bool_decide_false by done. by apply Z.eqb_neq.
  - apply Forall_cons in Ha as [_ Ha]. apply Forall_cons in Hb as [_ Hb]. destruct (Z.eqb_spec x y) as [->|Hn].
    + rewrite IH by done. apply bool_decide_ext. split; [by intros ->|by intros [=]].
    + rewrite bool_decide_false by congruence. apply Z.eqb_neq. lia.
Qed.

Definition visible (l : list Z) : Prop := Forall (fun c => 32 <= c <= 126) l.

Lemma visible_char l : visible l -> Forall (fun c => c <> 0) l /\ Forall (fun c => 0 <= c < 256) l.
Proof. intros H. split; (eapply Forall_impl; [exact H|cbn; lia]). Qed.

Lemma removelast_take {A} (l : list A) : removelast l = take (pred (length l)) l.
Proof.
  destruct (decide (l = [])) as [->|Hn]; [done|]. destruct (exists_last Hn) as (l' & x & ->). rewrite removelast_snoc, length_app. cbn.
  by replace (pred (length l' + 1)) with (length l') by lia; rewrite take_app_length.
Qed.

Lemma typed_line max l : 0 < max -> forall buf, visible buf -> Z.of_nat (length buf) < max -> visible (typed max buf l).1 /\ Z.of_nat (length (typed max buf l).1) < max.
Proof.
  intros Hm. induction l as [|c l IH]; intros buf Hb Hl; [done|]. cbn [typed fst]. apply IH; unfold edit; destruct (is_erase c).
  - rewrite removelast_take. by apply Forall_take.
  - destruct (printable c) eqn:Ep; cbn [andb]; [|done]. destruct (_ <? _); [|done]. unfold printable in Ep. rewrite andb_true_iff, !Z.leb_le in Ep.
    apply Forall_app. split; [done|]. by constructor.
  - rewrite removelast_take, length_take. lia.
  - destruct (printable c); cbn [andb]; [|done]. destruct (Z.ltb_spec (Z.of_nat (length buf)) (max - 1)); [|done]. rewrite length_app. cbn. lia.
Qed.

Lemma visible_trim l : visible l -> visible (trim l).
Proof.
  intros H. unfold trim, rtrim. apply Forall_rev. rewrite !ltrim_run. by apply Forall_drop, Forall_rev, Forall_drop.
Qed.

(** The command of a line as it was typed. *)
Definition command (l : list Z) : list Z := trim (typed 128 [] l).1.

Lemma command_visible l : visible (command l).
Proof. apply visible_trim, typed_line; [lia|constructor|cbn; lia]. Qed.

(** Answers to the commands other than [load]. *)
Definition answer (cmd : list Z) : list Z :=
  if bool_decide (cmd = []) then []
  else if bool_decide (cmd = chars "help") then
    said_line "Available commands:" ++ said_line "  help   - Show this message" ++ said_line "  load   - Load kernel+initrd bundle via UART and jump"
  else said "Unknown command: " ++ crlf cmd ++ said_line "".

Definition line_ok (chars : nat) (lt : list Z * Z) : Prop :=
  is_end lt.2 = true /\ Forall (fun c => is_end c = false /\ 0 <= c < 256) lt.1 /\ (length lt.1 < chars)%nat.

(** The prompt and the echo of a line. *)
Definition prompt (l : list Z) : list Z := said "> " ++ (typed 128 [] l).2 ++ [13; 13; 10].

Section commands.
Context (fuel : nat) (line : Z).

Lemma wp_command_line nchars l t s0 m o rest s Q :
  session fuel s0 m o (l ++ t :: rest) s -> line_ok nchars (l, t) -> readable m line 128 ->
  (forall m' s', session fuel s0 m' (o ++ prompt l) rest s' -> string_at m' (CPtr line) (command l) -> only_in line 128 m m' -> wp (shell_execute fuel line) Q s') ->
  wp (shell_round fuel nchars line) Q s.
Proof using.
  intros Hs (Ht & Hl & Hn) Hr HQ. cbn [fst snd] in *. unfold shell_round. se_say. apply wp_bind.
  pose proof Hs as (Hg & (f & i & n & E) & Hc). assert (Hp : same_program fuel s0 s) by (split; [done|rewrite E; by eexists _, _, _, _, _]).
  assert (Ev : view s = m) by (by rewrite E). assert (Eo : b_sent s = s0.(b_sent) ++ o ++ said "> ") by (by rewrite E).
  apply (wp_readline (HT := boot_terminal fuel s0) line 128 ltac:(lia) l t rest nchars [] s); try done; [by rewrite Ev|].
  intros s1 (_ & m1 & f1 & o1 & i1 & n1 & E1) Hc1 Eo1 Hst Ho. rewrite Ev in Ho.
  assert (Hs1 : session fuel s0 m1 (o ++ prompt l) rest s1).
  { split; [done|]. split; [|done]. exists f1, i1, n1. rewrite E1. rewrite E1 in Eo1. cbn in Eo1. rewrite Eo1, Eo. unfold prompt. by rewrite <- !app_assoc. }
  assert (Ev1 : view s1 = m1) by (by rewrite E1). rewrite Ev1 in Hst, Ho. destruct (typed_line 128 l ltac:(lia) [] ltac:(constructor) ltac:(cbn; lia)) as [_ Hlen].
  apply wp_bind, (wp_in_memory _ _ _ _ _ _ _ _ Hs1), (wp_trim _ _ _ _ Hst); [lia|]. intros m2 Hst2 Ho2 s2 Hs2. apply (HQ m2 s2 Hs2 Hst2).
  eapply only_in_trans; [exact Ho|]. eapply only_in_le; [|exact Ho2]. lia.
Qed.
(** The three comparisons of [shell_execute]. *)
Lemma wp_dispatch cmd s0 m o rest s Q :
  session fuel s0 m o rest s -> string_at m (CPtr line) cmd -> visible cmd ->
  (cmd <> chars "load" -> forall s', session fuel s0 m (o ++ answer cmd) rest s' -> Q Prompt s') ->
  (cmd = chars "load" -> forall s', session fuel s0 m o rest s' -> wp (boot_load_and_jump fuel) Q s') ->
  wp (shell_execute fuel line) Q s.
Proof using.
  intros Hs Hc Hv HP HL. destruct (visible_char _ Hv) as [Hz Hb]. unfold shell_execute. apply wp_bind, (wp_in_memory _ _ _ _ _ _ _ _ Hs). unfold answer in HP. destruct cmd as [|c cmd].
  { eapply (wp_char_at _ _ 0); [apply (string_end _ _ _ Hc)|]. clear s Hs. intros s Hs. cbn [Z.eqb]. apply wp_ret. rewrite bool_decide_true, app_nil_r in HP by done. by apply HP. }
  destruct (string_char _ _ _ 0 c Hc eq_refl) as [Ec Hc0]. eapply (wp_char_at _ _ c); [exact Ec|]. clear s Hs. intros s Hs. rewrite (proj2 (Z.eqb_neq _ _) Hc0).
  rewrite bool_decide_false in HP by done. set (cmd0 := c :: cmd) in *. clearbody cmd0.
  assert (Hlit : forall str, forallb (fun c => (0 <? c) && (c <? 256)) (chars str) = true -> string_at m (text str) (chars str) /\ Forall (fun c => c <> 0) (chars str)).
  { intros str [H1 _]%plain_text. split; [by apply string_literal|done]. }
  destruct (Hlit "help" eq_refl) as [Ht1 Hz1]. destruct (Hlit "load" eq_refl) as [Ht2 Hz2].
  apply wp_bind, (wp_in_memory _ _ _ _ _ _ _ _ Hs), (wp_strcmp _ _ _ _ _ _ Hc Ht1). clear s Hs. intros s Hs. rewrite str_diff_eq by done.
  case_bool_decide as E1.
  { do 3 se_say. apply wp_ret, HP; [by rewrite E1|]. by rewrite <- !app_assoc in Hs. }
  apply wp_bind, (wp_in_memory _ _ _ _ _ _ _ _ Hs), (wp_strcmp _ _ _ _ _ _ Hc Ht2). clear s Hs. intros s Hs. rewrite str_diff_eq by done.
  case_bool_decide as E2; [by apply HL|]. se_say.
  apply wp_bind, (wp_say_string _ _ _ _ _ _ _ _ _ Hs Hc Hb). clear s Hs. intros s Hs. se_say. apply wp_ret, HP; [done|]. by rewrite <- !app_assoc in Hs.
Qed.

Definition input (lines : list (list Z * Z)) : list Z := flat_map (fun lt => lt.1 ++ [lt.2]) lines.
Definition dialogue (lines : list (list Z * Z)) : list Z := flat_map (fun lt => prompt lt.1 ++ answer (command lt.1)) lines.

(** Any number of other commands, then [load]. *)
Lemma wp_shell_run nchars lines l t h p q : forall rounds s0 m o rest s Q,
  session fuel s0 m o (input lines ++ l ++ t :: h ++ p ++ rest) s -> s0.(b_qemu) = q ->
  Forall (fun lt => line_ok nchars lt /\ command lt.1 <> chars "load") lines -> line_ok nchars (l, t) -> command l = chars "load" -> (length lines < rounds)%nat ->
  readable m line 128 -> (forall m', only_in line 128 m m' -> room q h p m') -> well_framed h p -> load_end q h p s0 <> Prompt ->
  (forall m' s', only_in line 128 m m' -> session fuel (loaded_vars q h p s0) (loaded_mem q h p m') (o ++ dialogue lines ++ prompt l ++ load_report q h p) rest s' ->
     Q (load_end q h p s0) s') ->
  wp (shell_run fuel rounds nchars line) Q s.
Proof using.
  induction lines as [|[l1 t1] lines IH]; intros rounds s0 m o rest s Q Hs Eq Hls Hl Hcmd Hn Hr Hroom Hw Hend HQ; (destruct rounds as [|rounds]; [cbn in Hn; lia|]);
    unfold shell_run; cbn [loop]; apply wp_bind, wp_bind.
  - eapply wp_command_line; [exact Hs|done|done|]. clear s Hs. intros m1 s Hs Hst Ho. eapply wp_dispatch; [exact Hs|exact Hst|apply command_visible|by intros []|].
    intros _. clear s Hs. intros s Hs. eapply (wp_load _ _ _ _ _ _ _ _ _ _ Hs Eq Hw (Hroom _ Ho)). clear s Hs. intros s Hs. apply wp_ret.
    specialize (HQ m1 s Ho). rewrite <- app_assoc in Hs. specialize (HQ Hs). destruct (load_end q h p s0) eqn:Ee; [done|]. by apply wp_ret.
  - apply Forall_cons in Hls as [[Hl1 Hc1] Hls]. cbn [input flat_map fst snd] in Hs. rewrite <- !app_assoc in Hs. cbn [app fst] in Hs, Hc1.
    eapply wp_command_line; [exact Hs|done|done|]. clear s Hs. intros m1 s Hs Hst Ho. eapply wp_dispatch; [exact Hs|exact Hst|apply command_visible| |by intros E].
    intros _. clear s Hs. intros s Hs. apply wp_ret. rewrite <- app_assoc in Hs. eapply (IH rounds _ _ _ _ _ _ Hs Eq Hls Hl Hcmd); [cbn in Hn; lia|by eapply only_in_readable| |done|done|].
    + intros m2 Ho2. apply Hroom. by eapply only_in_trans.
    + intros m2 s2 Ho2 Hs2. apply (HQ m2); [by eapply only_in_trans|]. cbn [dialogue flat_map fst]. rewrite <- !app_assoc in Hs2 |- *. exact Hs2.
Qed.
End commands.

(** ** Start *)

(** The number of the first look after the start: the board's driver takes one look
    to see that nothing waits. *)
Definition first_look (s : bstate) : nat := if s.(b_qemu) then s.(b_reads) else S s.(b_reads).

Lemma wp_uart_init Q s :
  (s.(b_qemu) = false -> le_arrived (s.(b_env) s.(b_reads)) = []) ->
  (forall r i, Q tt (set_b_regs r (set_b_line [] s.(b_sent) i (first_look s) s))) -> wp uart_init Q s.
Proof.
  intros Hquiet HQ. unfold uart_init, first_look in *. apply wp_bind, wp_gets. destruct (b_qemu s) eqn:Eq.
  - do 6 (apply wp_bind; cbn [uart_reg_write]; apply wp_bind, wp_gets; unfold reg_width; cbn [b_qemu set_b_regs set_b_line]; rewrite Eq;
      first [apply wp_modify | cbn [u8 Z.testbit when]; apply wp_modify]).
    cbn [uart_reg_write]. apply wp_bind, wp_gets, wp_modify. cbn. apply HQ.
  - do 2 (apply wp_bind; cbn [uart_reg_write]; apply wp_bind, wp_gets; unfold reg_width; cbn [b_qemu set_b_regs set_b_line]; rewrite Eq;
      first [apply wp_modify | cbn [u32 Z.testbit when]; apply wp_modify]).
    unfold uart_flush_hardware_rx_fifo. cbn [flush_rounds]. apply wp_bind, wp_look. intros v Hv _. rewrite Hv. unfold looked. cbn. rewrite (Hquiet eq_refl). cbn. apply HQ.
Qed.

Definition banner (q : bool) : list Z :=
  crlf ([10] ++ chars "UART Bootloader ready" ++ [10]) ++ said "load addr: " ++ hex_text 16 (load_addr q) ++ said_line "" ++ said_line "Type 'help' for commands".

Lemma wp_kernel_main fuel rounds nchars line hartid dtb_addr rest Q s :
  s.(bootstrap_hart) = 2 ^ 64 - 1 \/ s.(bootstrap_hart) = hartid ->
  good fuel s -> (s.(b_qemu) = false -> le_arrived (s.(b_env) s.(b_reads)) = []) ->
  rest `prefix_of` arrivals s.(b_env) (first_look s) fuel ->
  (forall s0 s', s0.(b_mem) = s.(b_mem) -> s0.(b_sent) = s.(b_sent) -> s0.(b_qemu) = s.(b_qemu) -> s0.(bootstrap_hart) = hartid -> s0.(boot_hartid) = hartid -> s0.(dtb) = dtb_addr ->
     session fuel s0 s.(b_mem) (banner s.(b_qemu)) rest s' -> wp (shell_run fuel rounds nchars line) (fun r => Q (Some r)) s') ->
  wp (kernel_main fuel rounds nchars line hartid dtb_addr) Q s.
Proof.
  intros Hb Hg Hquiet Hc HQ. unfold kernel_main. apply wp_bind, wp_gets, wp_bind.
  set (s1 := if s.(bootstrap_hart) =? 2 ^ 64 - 1 then set_bootstrap_hart hartid s else s).
  assert (Hw : forall K : unit -> bstate -> Prop, K tt s1 -> wp (when (s.(bootstrap_hart) =? 2 ^ 64 - 1) (modify (set_bootstrap_hart hartid))) K s).
  { intros K HK. unfold s1 in HK. by destruct (s.(bootstrap_hart) =? 2 ^ 64 - 1). }
  assert (H1 : s1.(bootstrap_hart) = hartid /\ s1.(b_mem) = s.(b_mem) /\ s1.(b_sent) = s.(b_sent) /\ s1.(b_qemu) = s.(b_qemu) /\ s1.(b_env) = s.(b_env) /\ s1.(b_reads) = s.(b_reads)).
  { unfold s1. destruct (Z.eqb_spec s.(bootstrap_hart) (2 ^ 64 - 1)); split_and!; try done. by destruct Hb. }
  apply Hw. clearbody s1. clear Hw Hb. destruct H1 as (Eb & Em & Es & Eq & Ee & Er).
  apply wp_bind, wp_gets. rewrite Eb, Z.eqb_refl. cbn [negb].
  apply wp_bind, wp_uart_init; [by rewrite Eq, Ee, Er|]. intros r i. apply wp_bind. unfold shell_set_context. apply wp_modify.
  set (s2 := set_context hartid dtb_addr _). assert (Hs : session fuel s2 s.(b_mem) [] rest s2).
  { rewrite <- Em. change (b_mem s1) with (b_mem s2). apply session_start; unfold good, coming; cbn; unfold first_look in *; by rewrite ?Eq, ?Er, Ee. }
  specialize (HQ s2). cbn [b_mem b_sent b_qemu bootstrap_hart boot_hartid dtb s2 set_context set_b_regs set_b_line] in HQ.
  assert (Hlast : forall s', session fuel s2 s.(b_mem) (banner s.(b_qemu)) rest s' -> wp (shell_run fuel rounds nchars line) (fun r => Q (Some r)) s') by (intros s'; by apply HQ).
  clear HQ. assert (Eq2 : b_qemu s2 = s.(b_qemu)) by done. clearbody s2. revert Hs.
  match goal with |- session ?f ?a ?m ?o ?r ?b -> wp ?k ?Q ?b => enough (X : forall b', session f a m o r b' -> wp k Q b') by apply X end. intros s3 Hs.
  apply wp_bind, (wp_say_string _ _ _ _ _ _ _ _ _ Hs (string_literal _ _ (proj1 (plain_text ([10] ++ chars "UART Bootloader ready" ++ [10]) eq_refl)))
    (proj2 (plain_text ([10] ++ chars "UART Bootloader ready" ++ [10]) eq_refl))). clear s3 Hs. intros s3 Hs. se_say.
  apply wp_bind, (wp_variable _ _ _ _ _ _ _ _ Hs); [done|]. rewrite Eq2. fold (load_addr s.(b_qemu)). assert (0 <= load_addr s.(b_qemu)) by (by destruct (s.(b_qemu))).
  do 3 se_say. apply wp_bind. eapply wp_mono; [apply Hlast|]; [|done]. unfold banner. by rewrite <- !app_assoc in Hs.
Qed.

(** The kernel takes the bounds of the archive as the boot loader gives them. *)
Lemma hint_taken q k i : fits k i -> initrd_hint (initrd_addr q) (initrd_addr q + Z.of_nat (length i)) = (initrd_addr q, initrd_addr q + Z.of_nat (length i)).
Proof.
  intros [_ Hi]. unfold UART_INITRD_MAX_SIZE in Hi. unfold initrd_hint. replace (initrd_addr q + Z.of_nat (length i) - initrd_addr q) with (Z.of_nat (length i)) by lia.
  rewrite u64_id, (proj2 (Z.ltb_lt _ _)), (proj2 (Z.leb_le _ _)) by lia. unfold initrd_addr. by destruct q.
Qed.

Lemma later_hart fuel rounds nchars line hartid dtb_addr s :
  s.(bootstrap_hart) <> 2 ^ 64 - 1 -> hartid <> s.(bootstrap_hart) -> kernel_main fuel rounds nchars line hartid dtb_addr s = Some (None, s).
Proof.
  intros H1 H2.
  assert (H : wp (kernel_main fuel rounds nchars line hartid dtb_addr) (fun r s' => r = None /\ s' = s) s).
  { unfold kernel_main. apply wp_bind, wp_gets, wp_bind. rewrite (proj2 (Z.eqb_neq _ _) H1). apply wp_ret, wp_bind, wp_gets. rewrite (proj2 (Z.eqb_neq _ _) H2). by apply wp_ret. }
  by destruct (wp_run _ _ _ H) as (r & s' & E & -> & ->).
Qed.

(** ** The claims *)

(** C39: the load command does exactly what the protocol says, on any bytes.
    Given a header and the bytes after it, the loader takes exactly those bytes and
    no more; on a wrong magic number or size it stores nothing, on a wrong sum, a
    bundle that is too small, a wrong layout or a wrong sum of a part it stores the
    payload only, reports which of these it was, and returns to the prompt; otherwise
    the kernel is at the load address, the archive at its address, and control goes
    to the kernel with the hart, the device tree and the bounds of the archive.  What
    is sent back is given to the last character. *)
Theorem load_exact fuel s h p rest :
  good fuel s -> coming fuel s (h ++ p ++ rest) -> well_framed h p -> room s.(b_qemu) h p s.(b_mem) ->
  exists s', boot_load_and_jump fuel s = Some (load_end s.(b_qemu) h p s, s') /\
    s'.(b_mem) = loaded_mem s.(b_qemu) h p s.(b_mem) /\
    s'.(b_sent) = s.(b_sent) ++ load_report s.(b_qemu) h p /\
    s'.(initrd_start) = (loaded_vars s.(b_qemu) h p s).(initrd_start) /\
    s'.(initrd_end) = (loaded_vars s.(b_qemu) h p s).(initrd_end) /\
    coming fuel s' rest.
Proof.
  intros Hg Hc Hw Hr.
  enough (H : wp (boot_load_and_jump fuel) (fun r s' => r = load_end s.(b_qemu) h p s /\ session fuel (loaded_vars s.(b_qemu) h p s) (loaded_mem s.(b_qemu) h p s.(b_mem))
    (load_report s.(b_qemu) h p) rest s') s).
  { destruct (wp_run _ _ _ H) as (r & s' & E & -> & Hs). exists s'. split; [exact E|]. destruct Hs as (_ & (f & i & n & ->) & Hc'). split_and!; try done.
    cbn. f_equal. unfold loaded_vars. by destruct (decode h p). }
  eapply (wp_load fuel s.(b_qemu) h p s s.(b_mem) []); [by apply session_start|done|done|done|]. by intros s' Hs.
Qed.

Lemma load_jumps q h p s : well_framed h p ->
  (load_end q h p s <> Prompt <-> exists k i, fits k i /\ h = header (payload k i) /\ p = payload k i).
Proof.
  intros Hw. unfold load_end. split.
  - destruct (decode h p) as [| | | | | |k i] eqn:Ed; try done. intros _. exists k, i. destruct (encode_decode h p k i Hw Ed) as (H1 & H2 & H3). by rewrite H2, H3.
  - intros (k & i & Hf & -> & ->). by rewrite decode_encode.
Qed.

(** the loader and the sender of the host agree.  The load command starts a
    kernel exactly when the bytes are what [tools/uart_load.py] sends for some kernel
    of 1 byte to 16 MiB and some archive of 1 byte to 64 MiB: every such bundle is
    accepted, and nothing else is. *)
Theorem load_accepts_bundles fuel s h p rest :
  good fuel s -> coming fuel s (h ++ p ++ rest) -> well_framed h p -> room s.(b_qemu) h p s.(b_mem) ->
  (exists r s', boot_load_and_jump fuel s = Some (r, s') /\ r <> Prompt) <->
  exists kernel initrd, fits kernel initrd /\ h = header (payload kernel initrd) /\ p = payload kernel initrd.
Proof.
  intros Hg Hc Hw Hr. rewrite <- (load_jumps s.(b_qemu) h p s Hw).
  assert (H : wp (boot_load_and_jump fuel) (fun r _ => r = load_end s.(b_qemu) h p s) s).
  { eapply (wp_load fuel s.(b_qemu) h p s s.(b_mem) []); [by apply session_start|done|done|done|]. by intros s' Hs. }
  destruct (wp_run _ _ _ H) as (r & s' & E & Er). split.
  - intros (r1 & s1 & E1 & Hn). destruct (run_det _ _ _ _ _ _ E E1) as [-> _]. by rewrite <- Er.
  - intros Hn. exists r, s'. split; [done|]. by rewrite Er.
Qed.

(** The bytes of a bundle. *)
Lemma payload_bytes k i : Forall (fun c => 0 <= c < 256) k -> Forall (fun c => 0 <= c < 256) i -> Forall (fun c => 0 <= c < 256) (payload k i).
Proof. intros Hk Hi. unfold payload. repeat (apply Forall_app; split; [apply le32_bytes|]). by apply Forall_app. Qed.

Lemma bundle_framed k i : fits k i -> Forall (fun c => 0 <= c < 256) k -> Forall (fun c => 0 <= c < 256) i -> well_framed (header (payload k i)) (payload k i).
Proof.
  intros Hf Hk Hi. split; [done|]. split; [unfold header; repeat (apply Forall_app; split; [apply le32_bytes|]); apply le32_bytes|].
  split; [by apply payload_bytes|]. rewrite decode_encode by done. symmetry. apply fields_header. rewrite payload_length. destruct Hf as [H1 H2].
  unfold UART_BOOT_MAX_SIZE, UART_INITRD_MAX_SIZE in *. lia.
Qed.

Lemma loaded_blocks q k i m : fits k i ->
  block_at (loaded_mem q (header (payload k i)) (payload k i) m) (load_addr q) k /\ block_at (loaded_mem q (header (payload k i)) (payload k i) m) (initrd_addr q) i.
Proof.
  intros Hf. unfold loaded_mem. rewrite decode_encode by done. split; [|apply write_block_in]. intros j c Hc. pose proof (lookup_lt_Some _ _ _ Hc). rewrite write_block_out.
  - by apply write_block_in.
  - destruct Hf as [H1 _]. unfold UART_BOOT_MAX_SIZE, load_addr, initrd_addr in *. destruct q; cbn in *; lia.
Qed.

(** C40: the boot loader boots.  Whatever commands come first, empty lines, editing
    with backspace, unknown commands and lines that are too long included, and
    whichever of CR and LF ends them, a line that says [load] after editing and
    trimming, followed by the bundle of a kernel and an archive, starts the kernel on
    the hart that won the start, with the device tree it was given and the bounds of
    the archive, and both are in memory byte for byte; the kernel's [platform_init]
    takes those bounds as they are if its device tree has none.  Everything the host
    sees is given to the last character.  Any other hart sleeps and changes nothing. *)
Theorem boot_exact fuel rounds nchars line hartid dtb_addr s lines l t kernel initrd rest :
  s.(bootstrap_hart) = 2 ^ 64 - 1 \/ s.(bootstrap_hart) = hartid -> hartid <> 2 ^ 64 - 1 ->
  good fuel s -> (s.(b_qemu) = false -> le_arrived (s.(b_env) s.(b_reads)) = []) ->
  fits kernel initrd -> Forall (fun c => 0 <= c < 256) kernel -> Forall (fun c => 0 <= c < 256) initrd ->
  Forall (fun lt => line_ok nchars lt /\ command lt.1 <> chars "load") lines -> line_ok nchars (l, t) -> command l = chars "load" -> (length lines < rounds)%nat ->
  input lines ++ l ++ t :: header (payload kernel initrd) ++ payload kernel initrd ++ rest `prefix_of` arrivals s.(b_env) (first_look s) fuel ->
  readable s.(b_mem) line 128 -> readable s.(b_mem) (load_addr s.(b_qemu)) (16 + Z.of_nat (length kernel) + Z.of_nat (length initrd)) ->
  readable s.(b_mem) (initrd_addr s.(b_qemu)) (Z.of_nat (length initrd)) ->
  let start := initrd_addr s.(b_qemu) in
  exists s', kernel_main fuel rounds nchars line hartid dtb_addr s =
      Some (Some (Jumped (load_addr s.(b_qemu)) hartid dtb_addr start (start + Z.of_nat (length initrd))), s') /\
    block_at s'.(b_mem) (load_addr s.(b_qemu)) kernel /\ block_at s'.(b_mem) start initrd /\
    initrd_hint start (start + Z.of_nat (length initrd)) = (start, start + Z.of_nat (length initrd)) /\
    s'.(b_sent) = s.(b_sent) ++ banner s.(b_qemu) ++ dialogue lines ++ prompt l ++ load_report s.(b_qemu) (header (payload kernel initrd)) (payload kernel initrd) /\
    forall other, other <> hartid -> kernel_main fuel rounds nchars line other dtb_addr s' = Some (None, s').
Proof.
  intros Hb Hh Hg Hquiet Hf Hk Hi Hls Hl Hcmd Hn Hin Hr Hr1 Hr2. cbv zeta. set (q := s.(b_qemu)) in *. set (h := header (payload kernel initrd)) in *. set (p := payload kernel initrd) in *.
  set (start := initrd_addr q).
  enough (H : wp (kernel_main fuel rounds nchars line hartid dtb_addr) (fun r s' =>
    r = Some (Jumped (load_addr q) hartid dtb_addr start (start + Z.of_nat (length initrd))) /\
    block_at s'.(b_mem) (load_addr q) kernel /\ block_at s'.(b_mem) start initrd /\
    s'.(b_sent) = s.(b_sent) ++ banner q ++ dialogue lines ++ prompt l ++ load_report q h p /\ s'.(bootstrap_hart) = hartid) s).
  { destruct (wp_run _ _ _ H) as (r & s' & E & -> & H1 & H2 & H3 & H4). exists s'. split_and!; try done; [by eapply hint_taken|]. intros other Ho. by apply later_hart; rewrite H4. }
  eapply wp_kernel_main; try done. intros s0 s1 Em Es Eq E1 E2 E3 Hs. fold q in Eq, Hs.
  assert (Ed : decode h p = Loaded kernel initrd) by (by apply decode_encode).
  eapply (wp_shell_run fuel line nchars lines l t h p q); [exact Hs|done|done|done|done|done|done| |by apply bundle_framed|unfold load_end; by rewrite Ed|].
  - intros m' Ho. unfold room. rewrite Ed. split; [|by eapply only_in_readable]. eapply only_in_readable; [exact Ho|]. unfold p. rewrite payload_length.
    by replace (Z.of_nat (16 + length kernel + length initrd)) with (16 + Z.of_nat (length kernel) + Z.of_nat (length initrd)) by lia.
  - intros m' s' Ho (_ & (f & i & n & ->) & _). unfold load_end. rewrite Ed, E2, E3. split; [done|]. destruct (loaded_blocks q kernel initrd m' Hf) as [B1 B2]. split_and!; try done.
    + unfold loaded_vars. rewrite Ed. cbn. by rewrite Es.
    + unfold loaded_vars. by rewrite Ed.
Qed.

(** ** Examples *)

(** The host sends [bytes] at once; the transmitter is always ready. *)
Definition demo_host (bytes : list Z) (n : nat) : line_event := mkLine (if (n =? 0)%nat then bytes else []) true 0.
Definition demo_area : bmem := blank 0x81000000 128 (blank 0x82000000 20 (blank 0x88000000 1 ∅)).
Definition demo_boot (bytes : list Z) : bstate := mkBstate demo_area [] [] true ∅ (demo_host bytes) 0 true (2 ^ 64 - 1) 0 0 0 0.
Definition demo_kernel_image : list Z := [19; 5; 115].
Definition demo_archive : list Z := [48].
Definition demo_payload : list Z := payload demo_kernel_image demo_archive.

Lemma demo_good bytes : good 2 (demo_boot bytes).
Proof. intros n. exists 0%nat. split; [lia|done]. Qed.

Lemma demo_coming bytes : coming 2 (demo_boot bytes) bytes.
Proof. unfold coming. cbn. by rewrite app_nil_r. Qed.

Lemma demo_area_readable : readable demo_area 0x81000000 128 /\ readable demo_area 0x82000000 20 /\ readable demo_area 0x88000000 1.
Proof. split; [apply blank_readable|]. split; [apply blank_keeps, blank_readable|apply blank_keeps, blank_keeps, blank_readable]. Qed.

Lemma demo_fits : fits demo_kernel_image demo_archive.
Proof. unfold fits, UART_BOOT_MAX_SIZE, UART_INITRD_MAX_SIZE. cbn. lia. Qed.

Lemma demo_framed : well_framed (header demo_payload) demo_payload.
Proof. apply bundle_framed; [apply demo_fits|repeat constructor; lia..]. Qed.

Lemma demo_room : room true (header demo_payload) demo_payload demo_area.
Proof.
  unfold room, demo_payload. rewrite decode_encode by apply demo_fits. split; [|apply demo_area_readable].
  replace (Z.of_nat (length (payload demo_kernel_image demo_archive))) with 20 by (vm_compute; reflexivity). apply demo_area_readable.
Qed.

Lemma load_exact_witness : exists s',
  boot_load_and_jump 2 (demo_boot (header demo_payload ++ demo_payload ++ [])) =
    Some (load_end true (header demo_payload) demo_payload (demo_boot (header demo_payload ++ demo_payload ++ [])), s') /\
  s'.(initrd_end) = 0x88000001.
Proof.
  destruct (load_exact 2 (demo_boot (header demo_payload ++ demo_payload ++ [])) (header demo_payload) demo_payload [] (demo_good _) (demo_coming _) demo_framed demo_room)
    as (s' & E & _ & _ & _ & H & _).
  exists s'. split; [exact E|]. rewrite H. vm_compute. reflexivity.
Defined.

Lemma load_accepts_bundles_witness : exists r s',
  boot_load_and_jump 2 (demo_boot (header demo_payload ++ demo_payload ++ [])) = Some (r, s') /\ r <> Prompt.
Proof.
  apply (load_accepts_bundles 2 (demo_boot (header demo_payload ++ demo_payload ++ [])) (header demo_payload) demo_payload [] (demo_good _) (demo_coming _) demo_framed demo_room).
  exists demo_kernel_image, demo_archive. split; [exact demo_fits|]. split; reflexivity.
Defined.

(** An empty line, then [load], as [tools/uart_load.py] sends them. *)
Definition demo_stream : list Z := input [([], 13)] ++ chars "load" ++ 13 :: header demo_payload ++ demo_payload ++ [].

Lemma demo_lines : Forall (fun lt => line_ok 16 lt /\ command lt.1 <> chars "load") [([], 13)].
Proof. constructor; [|constructor]. split; [|vm_compute; discriminate]. split; [done|]. split; [constructor|cbn; lia]. Qed.

Lemma demo_line : line_ok 16 (chars "load", 13) /\ command (chars "load") = chars "load".
Proof. split; [|vm_compute; reflexivity]. split; [done|]. split; [repeat constructor; lia|cbn; lia]. Qed.

Lemma demo_arrives : demo_stream `prefix_of` arrivals (demo_host demo_stream) 0 2.
Proof. cbn [arrivals demo_host le_arrived Nat.eqb]. by rewrite app_nil_r. Qed.

Lemma boot_exact_witness : exists s',
  kernel_main 2 4 16 0x81000000 1 0x87000000 (demo_boot demo_stream) = Some (Some (Jumped 0x82000000 1 0x87000000 0x88000000 0x88000001), s') /\
  block_at s'.(b_mem) 0x82000000 demo_kernel_image.
Proof.
  destruct (boot_exact 2 4 16 0x81000000 1 0x87000000 (demo_boot demo_stream) [([], 13)] (chars "load") 13 demo_kernel_image demo_archive []) as (s' & E & H & _).
  - left. reflexivity.
  - discriminate.
  - exact (demo_good _).
  - discriminate.
  - exact demo_fits.
  - repeat constructor; lia.
  - repeat constructor; lia.
  - exact demo_lines.
  - exact (proj1 demo_line).
  - exact (proj2 demo_line).
  - cbn. lia.
  - exact demo_arrives.
  - exact (proj1 demo_area_readable).
  - exact (proj1 (proj2 demo_area_readable)).
  - exact (proj2 (proj2 demo_area_readable)).
  - exists s'. exact (conj E H).
Defined.
